(* ===== verification/_CoqProject ===== *)
-Q . S2P
Prelude.v
Def.v
Ip4Addr.v
InetChksum.v
Mem.v
Memp.v
Pbuf.v
PbufData.v
PbufAlloc.v
PbufOps.v
Chunks.v
Timeouts.v
Etharp.v
EtharpOut.v
TcpData.v
Net.v
Ip4.v
Slip.v
IpFrame.v
Icmp.v
Reass.v
ReassList.v
Igmp.v
Udp.v
Raw.v
Ip4In.v
UdpIo.v
Dns.v
DnsName.v
DnsMsg.v
DnsInv.v
DnsExamples.v
Netif.v
TcpBase.v
TcpOut.v
Tcp.v
TcpRecv.v
TcpIn.v
TcpFrame.v
TcpObs.v
TcpLists.v
TcpInv.v
TcpStep.v
TcpReach.v
TcpRfc.v
TcpWnd.v
TcpSeq.v
TcpStream.v
TcpOos.v
TcpAck.v
TcpReceive.v
Chains.v
TcpWrite.v
TcpSend.v
TcpOpt.v
TcpExamples.v
Stack.v
StackIo.v
StackExamples.v
Mqtt.v
MqttSim.v
MqttIn.v
MqttOut.v
MqttExamples.v
