(* ===== verification/Prelude.v ===== *)
(** * A verification development for the lwIP TCP/IP stack

    The program is lwIP 2.0.1 with its win32 port (src/lwip, src/contrib/ports/win32).
    This library models the core of the stack, src/lwip/src/core, with the serial link and the
    MQTT client on top of it, in the configuration of
    the port (contrib/ports/win32/include/lwipopts.h over the defaults of opt.h): a
    little-endian machine with 32-bit pointers, IPv4 only, NO_SYS 0, the heap and the pools
    of lwIP itself, assertions that abort.  Code that the configuration does not compile is
    left out; the opening comment of each file names the options that matter to it.

    ** How code becomes definitions

    - An integer of a C type is a [Z]; where a C expression can leave its type, the wrap is
      written out ([u8], [u16], [u32], [s16], [s32]).
    - A function that can fail an LWIP_ASSERT or read through a bad pointer returns [res]:
      [Ok] with its result, or [Fault].  [let*] sequences such calls, [assert*] is
      LWIP_ASSERT.  LWIP_ERROR, which only prints on this port, is its handler.
    - State is passed explicitly, one record per component; the state of the network layer
      is [Net.net].  A pointer is its address, a [Z]; NULL is 0.  Structures that are
      reached through pointers live in maps from addresses ([Pbuf.state], [udp_globals]),
      so that sharing, dangling pointers and double frees are visible; freed objects leave
      the map.  Packet data is bytes in one memory, and headers are read and written there.
    - A loop is a [Fixpoint].  Where it is not structural it carries fuel, and running out
      is [Fault FFuel].  A chain of pbufs gets as fuel the number of live pbufs
      ([walk_fuel]), the search of the heap the number of its headers, the search for a
      port the size of the range, eviction in the reassembly queue the length of the queue;
      theorems that a function returns show that this is enough.  [netif_poll] takes its
      fuel as an argument, because packets that loop back may queue further ones for ever,
      and so do the TCP timers, because their callbacks may add connections, and the loops of
      the DNS client that wait for a random number which is not in use, and the loops of the MQTT
      client over requests whose callbacks may make new ones.
    - Code outside these files is a parameter: the drivers ([netif_output], [ethernet
      linkoutput]), the callbacks of applications ([TcpBase.TcpApp] for TCP), the free
      functions of custom pbufs, the clock, [rand].  Theorems that need something of a parameter say so in
      a hypothesis and have an instance with a concrete function.

    ** The files

    - [Prelude]: machine integers, outcomes, bytes, the tactics and the hint database
      [lwip] of the whole library.
    - [Def] (def.c, def.h), [Ip4Addr] (ip4_addr.c), [InetChksum] (inet_chksum.c): byte
      order, strings, addresses as text, the three checksum algorithms and the pseudo
      header sums.
    - [Mem] (mem.c), [Memp] (memp.c): the heap with its struct mem headers, and the pools.
    - [Pbuf] (pbuf.c): the packet buffers, over the allocator interface [AllocOps].
      [PbufData]: what the operations on data do to the bytes of a packet.  [PbufAlloc]:
      allocation and release, proved against the laws [AllocSpec] of an allocator, and the
      instance that discharges them by [Mem] and [Memp].  [PbufOps]: headers, concatenation,
      cutting.  [Chunks]: several packets held at the same time.
    - [Timeouts] (timeouts.c): the delta list of timers and the cyclic timers of the stack.
    - [Etharp] (etharp.c, ethernet_output): the ARP table, over the packet interface
      [PacketOps] that [Stack] implements by pbufs.  [EtharpOut]: the frames that it sends.
    - [Slip] (netif/slipif.c): packets on a serial line.
    - [Net]: headers in memory, statistics and the state record of the network layer.
    - [Ip4] (output half of ip4.c, ip4_frag of ip4_frag.c, netif_loop_output), [IpFrame]
      (what sending cannot change), [Icmp] (icmp.c), [Reass] (the reassembly half of
      ip4_frag.c), [ReassList] (its refinement to lists of intervals), [Igmp] (igmp.c),
      [Udp] (udp.c), [Raw] (raw.c), [Ip4In] (input and forwarding of ip4.c), [UdpIo] (UDP
      from end to end), [Netif] (netif.c).
    - [Dns] (dns.c).  [DnsName]: host names and their encoding.  [DnsMsg]: queries and
      responses.  [DnsInv]: the invariant of the client.  [DnsExamples]: runs.
    - TCP.  [TcpData]: control blocks, segments, the lists and the static variables (tcp.h,
      priv/tcp_priv.h).  [TcpBase]: the header in memory, access to control blocks, segments,
      the application.  [TcpOut] (tcp_out.c), [Tcp] (tcp.c), [TcpRecv] (options,
      acknowledgements and data of tcp_in.c), [TcpIn] (the state machine and [tcp_input] of
      tcp_in.c).  [TcpFrame] and [TcpObs]: what sending and receiving leave alone.
      [TcpLists]: the invariant of the lists of control blocks, and how a control block moves
      between them.  [TcpInv] and [TcpStep]: every operation, and every segment, keeps the
      invariant.  [TcpReach]: the reachable states.  [TcpRfc]: the state diagram of RFC 793.
      [TcpWnd]: the window that is announced.  [TcpOpt]: the options of a segment.
      [TcpSeq]: sequence numbers as positions in a stream.  [TcpStream]: segments that hold a
      part of a stream, and the data that comes in order.  [TcpOos]: the queue of segments that
      come out of order.  [TcpAck]: what an acknowledgement that is sent meanwhile leaves alone.
      [TcpReceive]: the data part of [tcp_receive] as a whole.
      [Chains]: packets that are held beside each other, and their blocks.  [TcpWrite]: making
      pbufs longer, new pbufs and new segments.  [TcpSend]: the queue of unsent segments as a
      stream, and [tcp_write] as a whole.
      [TcpExamples]: runs on concrete segments.
    - [Stack] (init.c, ethernet_input of ethernet.c, pbuf_free_ooseq of pbuf.c, the callbacks of
      interfaces, the table of cyclic timers): the components put together.  The state of ARP,
      of the timers and of DNS is the [world] that the network layer carries along ([sworld]),
      and the parameters of the components are each other's operations.  [StackIo]: a datagram
      from the socket to a frame and from a frame to the socket.  [StackExamples]: runs of a
      host.
    - [Mqtt] (apps/mqtt/mqtt.c): the MQTT client, over the interfaces [MqttTcp] of its connection
      and [MqttApp] of its callbacks.  [MqttSim]: a connection and an application to run it on.
      [MqttIn]: the parser of incoming messages.  [MqttOut]: the ring buffer, the requests and
      PUBLISH, for a connection with the laws [MqttStream].  [MqttExamples]: sessions.

    ** What the theorems show

    - Memory.  Every operation keeps the heap a partition of its bytes into aligned blocks
      with no two free neighbours; allocation is first fit and fails exactly if nothing
      fits; no disciplined client can make it fault.  A pool hands out each element once.
      [pbuf_alloc] gives a packet of the length asked for or nothing, without leaks, as long as
      the size of the block does not wrap;
      [pbuf_free] frees exactly the pbufs whose last reference goes (custom pbufs, whose owner
      frees them, are left out).
    - Data.  Copying, taking, cutting, concatenating and moving headers do to the bytes of a
      packet what their names say, however it is split into pbufs.  Checksums equal the
      one's complement sum of the bytes; what was summed verifies.  Addresses printed and
      parsed are the same.
    - Time.  [sys_check_timeouts] calls exactly the timers that are due, in order, and
      returns, also with timers that set themselves again, as long as it is called in time
      ([Timeouts.overdue_not_called] shows what happens otherwise); the timers of the stack stay
      pending.  ARP entries expire.
    - ARP.  The table stays well-formed under all operations, learns only what it may,
      answers with what it has learnt, and sends the packets that waited for it.
    - IPv4.  Output puts a correct header in front; routing is sound and complete; malformed
      packets are dropped without a trace; forwarding changes the TTL and the checksum only;
      reassembly delivers the datagram whatever the order of its fragments and waits while
      some are missing, except for one hole that the code overlooks
      ([Reass.reass_hole_delivered]); a ping is answered, from driver to driver, in place or in
      a copy.
    - IGMP, UDP.  The lists of groups and of pcbs stay well-formed under all operations;
      binding, the choice of a port and demultiplexing do what they promise; a datagram is
      received as it was sent.
    - TCP.  In every reachable state the lists of control blocks are as the axioms of
      priv/tcp_priv.h say.  The callbacks are asked to keep this, which the functions of the
      TCP interface do, a bound control block is not bound again, and [tcp_slowtmr] is excepted,
      because it does not keep it.
      Processing a segment moves its connection along the state diagram of RFC 793, less the
      simultaneous open that the code lacks, and no
      other.  When a segment of a stream arrives, what is passed on is the next piece of the
      stream, and what is queued are pieces of it (a segment ahead must not cross the edge of the
      window with nothing queued before it, [TcpOos.fits]); the driver is asked to leave alone packets
      and memory that are not its own ([TcpAck.quiet]).  [tcp_write] with TCP_WRITE_FLAG_COPY
      appends the data to the stream of the unsent segments or refuses it and leaves the stream
      alone, and fits sequence numbers and the recorded room to it; the last unsent segment must
      not be longer than segments may be now ([TcpSend.sending]), which the code does not ensure
      ([TcpExamples.small_window_fails_assertion]), and the data must lie in an allocated block
      that is not a pbuf of the queue ([Chains.source]).  The right edge of the announced window never moves back.  The parser of the
      options agrees with a reference parser of the list of option bytes.
    - DNS.  What is sent as a question is recognised in the response; a response whose
      records do not belong to the root is understood; the table, the requests and the source ports stay consistent whatever
      happens, for callbacks that do not call the client; no request outlives 14 runs of the
      timer.
    - Serial lines.  What is sent arrives, or its loss is counted; the receiver never faults.
    - MQTT.  However the stream of the server is cut into packets, it is handled as byte by byte;
      callbacks may not reconnect the client ([MqttIn.AppKeeps]).  What [mqtt_publish] accepts,
      short of lengths that wrap, follows in the stream of the connection what was sent before, and a request waits for its
      answer; an answer completes the first request with its identifier and leaves the others
      the time they have ([MqttOut.mqtt_take_request_correct]).
    - The stack.  A datagram for an address that ARP has resolved becomes one Ethernet frame; a
      frame with a datagram reaches the receive function of the socket with the data.
    - Theorems about a concrete input without a claim number (for example
      [Reass.reass_hole_delivered], [Ip4In.forward_ttl_zero], [Ip4.frag_mf_missing], and those
      of [TcpExamples], [DnsExamples], [MqttExamples] and [Slip]) show where the code goes wrong.

    ** Not modelled

    The MIB2 counters and the debug output are left out; IPv6, DHCP, AutoIP, PPP and 6LoWPAN
    are not part of the configuration.  Threads are not modelled: a function of the core runs
    to its end, as it does under the core lock; the socket and netconn layers, which pass
    messages between threads, the port and the applications other than the MQTT client are
    outside.  The link driver and
    the serial device are parameters. *)

From stdpp Require Export base numbers list gmap option strings.
From Stdlib Require Export ZArith Lia.

#[global] Open Scope Z_scope.

(** ** Machine integers

    A C integer of width [w] is a [Z]; every operation that can leave the range
    of its C type is followed by the wrap that the C conversion performs. *)

Definition u8 (x : Z) : Z := x mod 256.
Definition u16 (x : Z) : Z := x mod 65536.
Definition u32 (x : Z) : Z := x mod 4294967296.

(** The two's complement reading of a 16-bit pattern ([s16_t], [short]). *)
Definition s16 (x : Z) : Z := (x + 32768) mod 65536 - 32768.

(** The two's complement reading of a 32-bit pattern ([s32_t], [int]). *)
Definition s32 (x : Z) : Z := (x + 2147483648) mod 4294967296 - 2147483648.

(** The two's complement reading of an 8-bit pattern (MSVC's plain [char]). *)
Definition s8 (x : Z) : Z := (x + 128) mod 256 - 128.

Definition is_u8 (x : Z) : Prop := 0 <= x < 256.
Definition is_u16 (x : Z) : Prop := 0 <= x < 65536.
Definition is_u32 (x : Z) : Prop := 0 <= x < 4294967296.
Definition is_s16 (x : Z) : Prop := -32768 <= x < 32768.
Definition is_s32 (x : Z) : Prop := -2147483648 <= x < 2147483648.

(** [~x] on an unsigned type of the given width. *)
Definition not16 (x : Z) : Z := u16 (Z.lnot x).
Definition not32 (x : Z) : Z := u32 (Z.lnot x).

(** ** Records

    The term for the record [t] with the field [f] set to [v]; [eta t] is the record built
    from the fields of [t]. *)

Ltac set_field eta f v t :=
  let b := eval cbv beta delta [eta] in (eta t) in
  let g := constr:(f t) in
  lazymatch (eval pattern g in b) with
  | ?h _ => let r := eval cbv beta in (h v) in exact r
  end.

(** ** Outcomes of C code

    A C function either returns, or fails an [LWIP_ASSERT] (which calls
    [abort()] on this port), or dereferences a pointer to no live object, or
    loops for ever; the last is the only use of [FFuel], and theorems show that
    the fuel a definition passes is enough. *)

Inductive fault := FAssert | FBadAccess | FFuel.

Inductive res (A : Type) :=
| Ok (a : A)
| Fault (f : fault).
Arguments Ok {A} a.
Arguments Fault {A} f.

#[global] Instance fault_eq_dec : EqDecision fault.
Proof. solve_decision. Defined.

#[global] Instance res_eq_dec {A} `{EqDecision A} : EqDecision (res A).
Proof. solve_decision. Defined.

Definition res_bind {A B} (m : res A) (k : A -> res B) : res B :=
  match m with
  | Ok a => k a
  | Fault f => Fault f
  end.

Declare Scope res_scope.
Delimit Scope res_scope with res.
#[global] Open Scope res_scope.

Notation "'let*' x := c 'in' k" := (res_bind c (fun x => k))
  (at level 10, x pattern, c at level 100, k at level 200) : res_scope.

(** [LWIP_ASSERT(msg, b)]. *)
Definition lwip_assert (b : bool) : res unit :=
  if b then Ok tt else Fault FAssert.

Notation "'assert*' b 'in' k" := (res_bind (lwip_assert b) (fun _ => k))
  (at level 10, b at level 100, k at level 200) : res_scope.

(** Reading through a pointer: the object must be live. *)
Definition deref {V} (h : gmap Z V) (p : Z) : res V :=
  match h !! p with
  | Some v => Ok v
  | None => Fault FBadAccess
  end.

Lemma deref_ok {V} (h : gmap Z V) p v : h !! p = Some v -> deref h p = Ok v.
Proof. unfold deref. by intros ->. Qed.

Lemma deref_inv {V} (h : gmap Z V) p v : deref h p = Ok v -> h !! p = Some v.
Proof. unfold deref. destruct (h !! p); congruence. Qed.

Lemma res_bind_ok {A B} (m : res A) (k : A -> res B) b :
  res_bind m k = Ok b <-> exists a, m = Ok a /\ k a = Ok b.
Proof.
  destruct m; simpl; split.
  - eauto.
  - intros (x & [= <-] & ?). done.
  - discriminate.
  - intros (x & [=] & _).
Qed.

(** [NULL]. *)
Definition NULL : Z := 0.

(** [err_enum_t] of [err.h]. *)
Inductive err_t :=
| ERR_OK | ERR_MEM | ERR_BUF | ERR_TIMEOUT | ERR_RTE | ERR_INPROGRESS | ERR_VAL | ERR_WOULDBLOCK
| ERR_USE | ERR_ALREADY | ERR_ISCONN | ERR_CONN | ERR_IF | ERR_ABRT | ERR_RST | ERR_CLSD | ERR_ARG.

#[global] Instance err_t_eq_dec : EqDecision err_t.
Proof. solve_decision. Defined.

(** ** Bytes in memory, little-endian (the byte order of the win32 port) *)

(** The [n] bytes in memory of an unsigned integer, lowest address first. *)
Fixpoint le_bytes (n : nat) (x : Z) : list Z :=
  match n with
  | O => []
  | S n' => x mod 256 :: le_bytes n' (x / 256)
  end.

(** The unsigned integer stored in the given bytes, lowest address first. *)
Fixpoint le_val (bs : list Z) : Z :=
  match bs with
  | [] => 0
  | b :: bs' => b + 256 * le_val bs'
  end.

(** A buffer: every element is a byte value. *)
Definition bytes_ok (bs : list Z) : Prop := Forall is_u8 bs.

(** ** Tactics *)

(** [lia] after replacing every [/] and [mod] by its defining equations. *)
Ltac zlia := Z.div_mod_to_equations; lia.

(** Case split on every boolean comparison on [Z] that a goal or hypothesis
    tests, turning it into an arithmetic fact. *)
Ltac zcases :=
  repeat match goal with
  | |- context [?a =? ?b] => destruct (Z.eqb_spec a b)
  | |- context [?a <? ?b] => destruct (Z.ltb_spec a b)
  | |- context [?a <=? ?b] => destruct (Z.leb_spec a b)
  | H : context [?a =? ?b] |- _ => destruct (Z.eqb_spec a b)
  | H : context [?a <? ?b] |- _ => destruct (Z.ltb_spec a b)
  | H : context [?a <=? ?b] |- _ => destruct (Z.leb_spec a b)
  end.

(** Invert every successful step of a [res] computation in hypothesis [H]. *)
Ltac res_inv H :=
  repeat (rewrite res_bind_ok in H;
          let x := fresh "x" in let Hx := fresh "Hx" in
          destruct H as (x & Hx & H)).

Create HintDb lwip.
#[export] Hint Resolve deref_ok : lwip.

(** ** Lemmas on wraps *)

Lemma u8_range x : is_u8 (u8 x).
Proof. unfold is_u8, u8. zlia. Qed.

Lemma u16_range x : is_u16 (u16 x).
Proof. unfold is_u16, u16. zlia. Qed.

Lemma u32_range x : is_u32 (u32 x).
Proof. unfold is_u32, u32. zlia. Qed.

Lemma u8_id x : is_u8 x -> u8 x = x.
Proof. unfold is_u8, u8. zlia. Qed.

Lemma u16_id x : is_u16 x -> u16 x = x.
Proof. unfold is_u16, u16. zlia. Qed.

Lemma u32_id x : is_u32 x -> u32 x = x.
Proof. unfold is_u32, u32. zlia. Qed.

Lemma u32_add_l a b : u32 (u32 a + b) = u32 (a + b).
Proof. unfold u32. apply Zplus_mod_idemp_l. Qed.

#[export] Hint Resolve u8_range u16_range u32_range : lwip.
Create Rewrite HintDb wrap.
#[export] Hint Rewrite u8_id u16_id u32_id using (unfold is_u8, is_u16, is_u32 in *; lia) : wrap.

(** ** Bit masks as arithmetic *)

Lemma land_low x k : 0 <= k -> Z.land x (2 ^ k - 1) = x mod 2 ^ k.
Proof. intros. rewrite <- Z.land_ones by lia. by rewrite Z.ones_equiv, Z.sub_1_r. Qed.

Lemma land_255 x : Z.land x 255 = x mod 256.
Proof. apply (land_low x 8). lia. Qed.

Lemma land_65535 x : Z.land x 65535 = x mod 65536.
Proof. apply (land_low x 16). lia. Qed.

(** A mask of [k] ones shifted left by [n]. *)
Lemma land_field x n k :
  0 <= n -> 0 <= k ->
  Z.land x ((2 ^ k - 1) * 2 ^ n) = (x / 2 ^ n) mod 2 ^ k * 2 ^ n.
Proof.
  intros Hn Hk.
  rewrite <- !Z.shiftl_mul_pow2, <- Z.shiftr_div_pow2, <- land_low by lia.
  apply Z.bits_inj'. intros i Hi.
  rewrite Z.land_spec, !Z.shiftl_spec, Z.land_spec by lia.
  destruct (Z.ltb_spec i n).
  - rewrite !(Z.testbit_neg_r _ (i - n)) by lia. by rewrite !andb_false_r.
  - rewrite Z.shiftr_spec by lia. by replace (i - n + n) with i by lia.
Qed.

Lemma land_byte1 x : Z.land x 65280 = (x / 256) mod 256 * 256.
Proof. exact (land_field x 8 8 ltac:(lia) ltac:(lia)). Qed.

Lemma land_byte2 x : Z.land x 16711680 = (x / 65536) mod 256 * 65536.
Proof. exact (land_field x 16 8 ltac:(lia) ltac:(lia)). Qed.

Lemma land_byte3 x : Z.land x 4278190080 = (x / 16777216) mod 256 * 16777216.
Proof. exact (land_field x 24 8 ltac:(lia) ltac:(lia)). Qed.

(** [|] of two bit fields that do not overlap is [+]. *)
Lemma lor_disjoint a b k : 0 <= k -> 0 <= b < 2 ^ k -> Z.lor (a * 2 ^ k) b = a * 2 ^ k + b.
Proof.
  intros Hk Hb.
  rewrite <- Z.add_lor_land.
  enough (Z.land (a * 2 ^ k) b = 0) by lia.
  apply Z.bits_inj'. intros i Hi.
  rewrite Z.bits_0, Z.land_spec, <- Z.shiftl_mul_pow2, Z.shiftl_spec by lia.
  destruct (Z.ltb_spec i k).
  - by rewrite Z.testbit_neg_r by lia.
  - destruct (Z.eq_dec b 0) as [->|]; [by rewrite Z.bits_0, andb_false_r|].
    rewrite (Z.bits_above_log2 b i), andb_false_r; [done|lia|].
    apply Z.log2_lt_pow2; [lia|].
    apply Z.lt_le_trans with (2 ^ k); [lia|]. apply Z.pow_le_mono_r; lia.
Qed.

(** ** Forall over an initial segment of [Z], decided by evaluation *)

Definition forall_below (n : nat) (P : Z -> bool) : bool :=
  forallb (fun i => P (Z.of_nat i)) (seq 0 n).

Lemma forall_below_spec n P x :
  forall_below n P = true -> 0 <= x < Z.of_nat n -> P x = true.
Proof.
  unfold forall_below. rewrite forallb_forall. intros H Hx.
  specialize (H (Z.to_nat x)). rewrite Z2Nat.id in H by lia.
  apply H. apply in_seq. lia.
Qed.

(** ** Bytes *)

Lemma length_le_bytes n x : length (le_bytes n x) = n.
Proof. revert x. induction n; intros; simpl; [done|by rewrite IHn]. Qed.

Lemma le_bytes_ok n x : bytes_ok (le_bytes n x).
Proof.
  revert x. induction n; intros x; simpl; constructor; [|apply IHn].
  unfold is_u8. zlia.
Qed.

Lemma le_val_bytes n x : 0 <= x < 256 ^ Z.of_nat n -> le_val (le_bytes n x) = x.
Proof.
  revert x. induction n as [|n IH]; intros x Hx; cbn [le_bytes le_val].
  - change (256 ^ Z.of_nat 0) with 1 in Hx. lia.
  - rewrite Nat2Z.inj_succ, Z.pow_succ_r in Hx by lia.
    rewrite IH; [zlia|]. split; [apply Z.div_pos; lia|].
    apply Z.div_lt_upper_bound; lia.
Qed.

Lemma le_val_range bs : bytes_ok bs -> 0 <= le_val bs < 256 ^ Z.of_nat (length bs).
Proof.
  induction 1 as [|b bs Hb _ IH]; cbn [le_val length]; [lia|].
  rewrite Nat2Z.inj_succ, Z.pow_succ_r by lia. unfold is_u8 in Hb. lia.
Qed.

(** ** Lists *)

Lemma insert_middle {A} (l1 l2 : list A) (x y : A) :
  <[length l1 := y]> (l1 ++ x :: l2) = l1 ++ y :: l2.
Proof. by rewrite insert_app_r_alt, Nat.sub_diag by lia. Qed.

(** Induction two elements at a time. *)
Lemma list_pair_ind {A} (P : list A -> Prop) :
  P [] -> (forall a, P [a]) -> (forall a b l, P l -> P (a :: b :: l)) -> forall l, P l.
Proof.
  intros H0 H1 H2. fix IH 1. intros [|a [|b l]]; [exact H0|apply H1|apply H2, IH].
Qed.

Lemma le_val_app xs ys :
  le_val (xs ++ ys) = le_val xs + 256 ^ Z.of_nat (length xs) * le_val ys.
Proof.
  induction xs as [|x xs IH]; cbn [app le_val length]; [lia|].
  rewrite IH, Nat2Z.inj_succ, Z.pow_succ_r by lia. lia.
Qed.

Lemma le_val_nonneg bs : bytes_ok bs -> 0 <= le_val bs.
Proof. intros H. apply le_val_range in H. lia. Qed.

Lemma bytes_ok_app xs ys : bytes_ok (xs ++ ys) <-> bytes_ok xs /\ bytes_ok ys.
Proof. apply Forall_app. Qed.

Lemma bytes_ok_take n xs : bytes_ok xs -> bytes_ok (take n xs).
Proof. apply Forall_take. Qed.

Lemma bytes_ok_drop n xs : bytes_ok xs -> bytes_ok (drop n xs).
Proof. apply Forall_drop. Qed.

#[export] Hint Resolve bytes_ok_take bytes_ok_drop le_val_nonneg : lwip.

(** [w] written over [l] from index [k] on. *)
Definition splice {A} (k : nat) (w l : list A) : list A :=
  take k l ++ w ++ drop (k + length w) l.

Lemma length_splice {A} k (w l : list A) :
  (k + length w <= length l)%nat -> length (splice k w l) = length l.
Proof. intros. unfold splice. rewrite !length_app, length_take, length_drop. lia. Qed.

Lemma splice_nil {A} k (l : list A) : splice k [] l = l.
Proof. unfold splice. cbn [app length]. by rewrite Nat.add_0_r, take_drop. Qed.

Lemma splice_splice {A} k (w w2 l : list A) :
  (k + length w <= length l)%nat ->
  splice (k + length w) w2 (splice k w l) = splice k (w ++ w2) l.
Proof.
  intros Hk. unfold splice. rewrite (app_assoc (take k l) w (drop _ l)).
  assert (E : length (take k l ++ w) = (k + length w)%nat) by (rewrite length_app, length_take; lia).
  rewrite take_app_length' by (by rewrite E). rewrite drop_app_ge by lia.
  rewrite E, drop_drop, length_app, <- !app_assoc. do 4 f_equal. lia.
Qed.

Lemma splice_app_l {A} k (w l1 l2 : list A) :
  (k + length w <= length l1)%nat -> splice k w (l1 ++ l2) = splice k w l1 ++ l2.
Proof.
  intros Hk. unfold splice. rewrite take_app_le, drop_app_le by lia. by rewrite <- !app_assoc.
Qed.

Lemma splice_app_r {A} k (w l1 l2 : list A) :
  splice (length l1 + k) w (l1 ++ l2) = l1 ++ splice k w l2.
Proof.
  unfold splice. rewrite take_app_ge, drop_app_ge by lia. rewrite <- app_assoc.
  by replace (length l1 + k - length l1)%nat with k by lia;
     replace (length l1 + k + length w - length l1)%nat with (k + length w)%nat by lia.
Qed.

Lemma splice_insert {A} k (x : A) l : (k < length l)%nat -> splice k [x] l = <[k := x]> l.
Proof.
  intros. unfold splice. rewrite insert_take_drop by done. cbn [app length].
  by replace (k + 1)%nat with (S k) by lia.
Qed.

Lemma splice_all {A} (w l : list A) : length w = length l -> splice 0 w l = w.
Proof. intros E. unfold splice. by rewrite take_0, E, drop_ge, app_nil_r by (cbn; lia). Qed.
