(* ===== verification/Def.v ===== *)
(** * Byte order and string helpers: lwip/src/core/def.c, lwip/src/include/lwip/def.h

    A C string is the list of its characters (byte values, none of them zero)
    without the terminator; reading at the end of the list reads the
    terminator.  [lwip_htons]/[lwip_htonl] are modelled for the little-endian
    byte order that contrib/ports/win32/include/arch/cc.h selects. *)

From S2P Require Import Prelude.

(** ** Definitions *)

Definition PP_HTONS (x : Z) : Z :=
  Z.lor (Z.shiftl (Z.land x 255) 8) (Z.shiftr (Z.land x 65280) 8).

Definition PP_HTONL (x : Z) : Z :=
  Z.lor (Z.lor (Z.lor (Z.shiftl (Z.land x 255) 24)
                      (Z.shiftl (Z.land x 65280) 8))
               (Z.shiftr (Z.land x 16711680) 8))
        (Z.shiftr (Z.land x 4278190080) 24).

Definition lwip_htons (n : Z) : Z := u16 (PP_HTONS n).
Definition lwip_htonl (n : Z) : Z := u32 (PP_HTONL n).

(** [LWIP_MAKEU32(a,b,c,d)]. *)
Definition LWIP_MAKEU32 (a b c d : Z) : Z :=
  Z.lor (Z.lor (Z.lor (Z.shiftl (Z.land a 255) 24) (Z.shiftl (Z.land b 255) 16))
               (Z.shiftl (Z.land c 255) 8))
        (Z.land d 255).

(** *** Strings *)

(** [strncmp(p, token, n) == 0] of the C library: at most [n] characters are
    compared and the comparison ends at a terminator. *)
Fixpoint strncmp_eq (p token : list Z) (n : nat) : bool :=
  match n, p, token with
  | O, _, _ => true
  | S _, [], [] => true
  | S n', a :: p', b :: token' => (a =? b) && strncmp_eq p' token' n'
  | S _, _, _ => false
  end.

(** The loop of [lwip_strnstr]: [p] is the rest of the buffer at offset [i]. *)
Fixpoint strnstr_loop (p : list Z) (i : Z) (token : list Z) (n : Z) : option Z :=
  match p with
  | [] => None
  | c :: p' =>
      if i + Z.of_nat (length token) <=? n then
        if (c =? hd 0 token) && strncmp_eq p token (length token)
        then Some i
        else strnstr_loop p' (i + 1) token n
      else None
  end.

(** The result is the offset into [buffer], [None] for [NULL]. *)
Definition lwip_strnstr (buffer token : list Z) (n : Z) : option Z :=
  match token with
  | [] => Some 0
  | _ => strnstr_loop buffer 0 token n
  end.

(** The body shared by the loops of [lwip_stricmp] and [lwip_strnicmp]: does
    the comparison of one pair of characters return 1?  [char] is signed. *)
Definition icmp_differ (c1 c2 : Z) : bool :=
  if negb (c1 =? c2) then
    let c1_upc := s8 (Z.lor c1 32) in
    if (97 <=? c1_upc) && (c1_upc <=? 122) then
      let c2_upc := s8 (Z.lor c2 32) in
      negb (c1_upc =? c2_upc)
    else true
  else false.

Fixpoint lwip_stricmp (str1 str2 : list Z) : Z :=
  let c1 := hd 0 str1 in
  let c2 := hd 0 str2 in
  if icmp_differ c1 c2 then 1
  else match str1 with
       | [] => 0
       | _ :: str1' => lwip_stricmp str1' (tl str2)
       end.

(** [while (len-- && c1 != 0)]: the loop test reads [len] before it is
    decremented. *)
Fixpoint lwip_strnicmp (str1 str2 : list Z) (len : nat) : Z :=
  let c1 := hd 0 str1 in
  let c2 := hd 0 str2 in
  if icmp_differ c1 c2 then 1
  else match len with
       | O => 0
       | S len' =>
           match str1 with
           | [] => 0
           | _ :: str1' => lwip_strnicmp str1' (tl str2) len'
           end
       end.

(** *** Number formatting *)

Definition chars_of_string (s : String.string) : list Z :=
  (fun a => Z.of_N (Ascii.N_of_ascii a)) <$> String.list_ascii_of_string s.

Definition itoa_table : list Z :=
  chars_of_string "zyxwvutsrqponmlkjihgfedcba9876543210123456789abcdefghijklmnopqrstuvwxyz"%string.

(** The digit loop: the characters written so far, the last [tmp_value]. *)
Fixpoint itoa_digits (fuel : nat) (number : Z) (written : list Z) : res (list Z * Z) :=
  match fuel with
  | O => Fault FFuel
  | S fuel' =>
      let tmp_value := number in
      let number := Z.quot number 10 in
      match itoa_table !! Z.to_nat (35 + (tmp_value - number * 10)) with
      | None => Fault FBadAccess
      | Some c =>
          let written := written ++ [c] in
          if number =? 0 then Ok (written, tmp_value)
          else itoa_digits fuel' number written
      end
  end.

(** The swap loop [while (ptr1 < ptr)] on the indices of [buf]. *)
Fixpoint itoa_swap (fuel : nat) (ptr1 ptr : nat) (buf : list Z) : res (list Z) :=
  if (ptr1 <? ptr)%nat then
    match fuel, buf !! ptr1, buf !! ptr with
    | S fuel', Some a, Some tmp_char =>
        itoa_swap fuel' (S ptr1) (pred ptr) (<[ptr1 := tmp_char]> (<[ptr := a]> buf))
    | O, _, _ => Fault FFuel
    | _, _, _ => Fault FBadAccess
    end
  else Ok buf.

(** The bytes stored from [result] on, the terminator included; [bufsize] is
    not looked at. *)
Definition lwip_itoa (number : Z) : res (list Z) :=
  let* (ds, tmp_value) := itoa_digits 11 number [] in
  let ds := if tmp_value <? 0 then ds ++ [45] else ds in
  itoa_swap (length ds) 0 (length ds - 1) (ds ++ [0]).

Example strnstr_ex : lwip_strnstr (chars_of_string "a b abc"%string) (chars_of_string "abc"%string) 7 = Some 4.
Proof. reflexivity. Qed.

Example itoa_ex : lwip_itoa (-2147483648) = Ok (chars_of_string "-2147483648"%string ++ [0]).
Proof. reflexivity. Qed.

(** ** Byte order *)

Lemma PP_HTONS_arith x : PP_HTONS x = x mod 256 * 256 + (x / 256) mod 256.
Proof.
  unfold PP_HTONS. rewrite land_255, land_byte1, Z.shiftl_mul_pow2, Z.shiftr_div_pow2 by lia.
  change (2 ^ 8) with 256. rewrite Z.div_mul by lia. apply (lor_disjoint _ _ 8); [lia|].
  change (2 ^ 8) with 256. zlia.
Qed.

Lemma PP_HTONL_arith x :
  PP_HTONL x = x mod 256 * 16777216 + (x / 256) mod 256 * 65536
               + (x / 65536) mod 256 * 256 + (x / 16777216) mod 256.
Proof.
  unfold PP_HTONL.
  rewrite land_255, land_byte1, land_byte2, land_byte3.
  rewrite !Z.shiftl_mul_pow2, !Z.shiftr_div_pow2 by lia.
  change (2 ^ 8) with 256. change (2 ^ 16) with 65536. change (2 ^ 24) with 16777216.
  rewrite Z.div_mul by lia.
  replace ((x / 65536) mod 256 * 65536 / 256) with ((x / 65536) mod 256 * 256)
    by (replace ((x / 65536) mod 256 * 65536) with ((x / 65536) mod 256 * 256 * 256) by lia;
        rewrite Z.div_mul; lia).
  pose proof (Z.mod_pos_bound x 256 ltac:(lia)).
  pose proof (Z.mod_pos_bound (x / 256) 256 ltac:(lia)).
  pose proof (Z.mod_pos_bound (x / 65536) 256 ltac:(lia)).
  pose proof (Z.mod_pos_bound (x / 16777216) 256 ltac:(lia)).
  rewrite (lor_disjoint (x mod 256) _ 24) by lia.
  replace (x mod 256 * 2 ^ 24 + (x / 256) mod 256 * 256 * 256)
    with ((x mod 256 * 256 + (x / 256) mod 256) * 2 ^ 16) by lia.
  rewrite lor_disjoint by lia.
  replace ((x mod 256 * 256 + (x / 256) mod 256) * 2 ^ 16 + (x / 65536) mod 256 * 256)
    with ((x mod 256 * 65536 + (x / 256) mod 256 * 256 + (x / 65536) mod 256) * 2 ^ 8) by lia.
  rewrite lor_disjoint by lia. lia.
Qed.

Lemma lwip_htons_arith x : lwip_htons x = x mod 256 * 256 + (x / 256) mod 256.
Proof. unfold lwip_htons, u16. rewrite PP_HTONS_arith. zlia. Qed.

Lemma lwip_htonl_arith x :
  lwip_htonl x = x mod 256 * 16777216 + (x / 256) mod 256 * 65536
                 + (x / 65536) mod 256 * 256 + (x / 16777216) mod 256.
Proof.
  unfold lwip_htonl, u32. rewrite PP_HTONL_arith. apply Z.mod_small.
  pose proof (Z.mod_pos_bound x 256 ltac:(lia)).
  pose proof (Z.mod_pos_bound (x / 256) 256 ltac:(lia)).
  pose proof (Z.mod_pos_bound (x / 65536) 256 ltac:(lia)).
  pose proof (Z.mod_pos_bound (x / 16777216) 256 ltac:(lia)). lia.
Qed.

Lemma lwip_htons_range x : is_u16 (lwip_htons x).
Proof. apply u16_range. Qed.

Lemma lwip_htonl_range x : is_u32 (lwip_htonl x).
Proof. apply u32_range. Qed.

Lemma le_bytes_htonl x :
  le_bytes 4 (lwip_htonl x)
  = [(x / 16777216) mod 256; (x / 65536) mod 256; (x / 256) mod 256; x mod 256].
Proof.
  rewrite lwip_htonl_arith. cbn [le_bytes].
  pose proof (Z.mod_pos_bound x 256 ltac:(lia)).
  pose proof (Z.mod_pos_bound (x / 256) 256 ltac:(lia)).
  pose proof (Z.mod_pos_bound (x / 65536) 256 ltac:(lia)).
  pose proof (Z.mod_pos_bound (x / 16777216) 256 ltac:(lia)).
  generalize dependent (x mod 256). generalize dependent ((x / 256) mod 256).
  generalize dependent ((x / 65536) mod 256). generalize dependent ((x / 16777216) mod 256).
  intros. repeat f_equal; zlia.
Qed.

Lemma le_val_htonl_rev x : lwip_htonl x = le_val (rev (le_bytes 4 x)).
Proof.
  rewrite lwip_htonl_arith. cbn [le_bytes rev app le_val].
  rewrite !Z.div_div by lia. change (256 * 256) with 65536.
  change (256 * 65536) with 16777216. change (65536 * 256) with 16777216. lia.
Qed.

Lemma lwip_htonl_involutive x : is_u32 x -> lwip_htonl (lwip_htonl x) = x.
Proof.
  intros Hx. rewrite (le_val_htonl_rev (lwip_htonl x)).
  rewrite le_bytes_htonl. cbn [rev app le_val]. unfold is_u32 in Hx. zlia.
Qed.

Lemma lwip_htons_involutive x : is_u16 x -> lwip_htons (lwip_htons x) = x.
Proof. intros Hx. rewrite !lwip_htons_arith. unfold is_u16 in Hx. zlia. Qed.

(** ** Substring search *)

Lemma strncmp_eq_prefix token p :
  strncmp_eq p token (length token) = true <-> token `prefix_of` p.
Proof.
  revert p. induction token as [|b token IH]; intros [|a p]; simpl.
  - split; [intros; by exists []|done].
  - split; [intros; by exists (a :: p)|done].
  - split; [done|]. intros [k [=]].
  - rewrite andb_true_iff, Z.eqb_eq, IH. split.
    + intros [-> H]. by apply prefix_cons.
    + intros H. split; [by apply prefix_cons_inv_1 in H|by apply prefix_cons_inv_2 in H].
Qed.

(** [token] occurs in [buffer] at offset [i], inside the first [n] characters. *)
Definition occurs_at (buffer token : list Z) (n i : Z) : Prop :=
  0 <= i /\ i + Z.of_nat (length token) <= n /\ token `prefix_of` drop (Z.to_nat i) buffer.

Lemma strnstr_head c p token :
  token <> [] ->
  (c =? hd 0 token) && strncmp_eq (c :: p) token (length token) = true
  <-> token `prefix_of` (c :: p).
Proof.
  intros Ht. rewrite andb_true_iff, strncmp_eq_prefix, Z.eqb_eq. split; [by intros [_ ?]|].
  intros H. split; [|done]. destruct token as [|b token]; [done|].
  apply prefix_cons_inv_1 in H. done.
Qed.

(** The loop, started at offset [i] of a buffer [pre ++ p] whose first [i]
    offsets hold no match, returns the least match. *)
Lemma strnstr_loop_spec p : forall pre token n,
  token <> [] ->
  (forall j, occurs_at (pre ++ p) token n j -> Z.of_nat (length pre) <= j) ->
  match strnstr_loop p (Z.of_nat (length pre)) token n with
  | Some i => occurs_at (pre ++ p) token n i
              /\ forall j, occurs_at (pre ++ p) token n j -> i <= j
  | None => forall j, ~ occurs_at (pre ++ p) token n j
  end.
Proof.
  induction p as [|c p IH]; intros pre token n Ht Hleast; cbn [strnstr_loop].
  - intros j Hj. pose proof (Hleast j Hj). destruct Hj as (? & ? & Hp).
    rewrite app_nil_r, drop_ge in Hp by lia.
    apply prefix_nil_inv in Hp. done.
  - destruct (Z.leb_spec (Z.of_nat (length pre) + Z.of_nat (length token)) n) as [Hn|Hn].
    2:{ intros j Hj. pose proof (Hleast j Hj). destruct Hj as (? & ? & ?). lia. }
    pose proof (strnstr_head c p token Ht) as Hh.
    assert (Hd : drop (Z.to_nat (Z.of_nat (length pre))) (pre ++ c :: p) = c :: p)
      by (rewrite Nat2Z.id; apply drop_app_length).
    destruct ((c =? hd 0 token) && strncmp_eq (c :: p) token (length token)).
    + split; [|done]. split_and!; [lia|lia|]. rewrite Hd. by apply Hh.
    + specialize (IH (pre ++ [c]) token n Ht).
      rewrite <- app_assoc, length_app in IH. cbn [app length] in IH.
      replace (Z.of_nat (length pre + 1)) with (Z.of_nat (length pre) + 1) in IH by lia.
      apply IH. intros j Hj. pose proof (Hleast j Hj).
      destruct (Z.eq_dec j (Z.of_nat (length pre))) as [->|]; [|lia].
      destruct Hj as (? & ? & Hp). rewrite Hd in Hp. apply Hh in Hp. done.
Qed.

(** ** Case-insensitive comparison *)

(** ASCII lower case of a byte. *)
Definition lower (c : Z) : Z := if (65 <=? c) && (c <=? 90) then c + 32 else c.

Lemma icmp_differ_lower c1 c2 :
  is_u8 c1 -> is_u8 c2 -> icmp_differ c1 c2 = negb (lower c1 =? lower c2).
Proof.
  intros H1 H2. apply eqb_prop.
  apply (forall_below_spec 256 (fun c1 =>
    Bool.eqb (icmp_differ c1 c2) (negb (lower c1 =? lower c2)))); [|done].
  apply (forall_below_spec 256 (fun c2 => forall_below 256
     (fun c1 => Bool.eqb (icmp_differ c1 c2) (negb (lower c1 =? lower c2))))); [|done].
  vm_compute. reflexivity.
Qed.

(** The characters of a C string. *)
Definition cstr (s : list Z) : Prop := Forall (fun c => 1 <= c < 256) s.

Lemma cstr_check s : forallb (fun c => (1 <=? c) && (c <? 256)) s = true -> cstr s.
Proof.
  rewrite forallb_forall. intros H. apply Forall_forall. intros x Hx.
  apply list_elem_of_In, H in Hx. lia.
Qed.

Lemma lower_0 c : is_u8 c -> lower c = 0 -> c = 0.
Proof. unfold lower, is_u8. zcases; simpl; lia. Qed.

Lemma lower_nonzero c : 1 <= c < 256 -> lower c <> 0.
Proof. intros H ?. enough (c = 0) by lia. apply lower_0; [unfold is_u8; lia|done]. Qed.

Lemma cstr_hd s : cstr s -> is_u8 (hd 0 s).
Proof. destruct 1; unfold is_u8; simpl; lia. Qed.

(** One round of either comparison loop, on the case-folded strings. *)
Lemma icmp_hd s1 s2 :
  cstr s1 -> cstr s2 ->
  icmp_differ (hd 0 s1) (hd 0 s2) = negb (hd 0 (lower <$> s1) =? hd 0 (lower <$> s2)).
Proof.
  intros H1 H2. rewrite icmp_differ_lower by eauto using cstr_hd.
  by destruct s1, s2.
Qed.

Lemma cstr_tl s : cstr s -> cstr (tl s).
Proof. destruct 1; [constructor|done]. Qed.

Lemma cstr_lower_nil s : cstr s -> hd 0 (lower <$> s) = 0 -> s = [].
Proof. destruct 1 as [|c s Hc]; [done|]. simpl. intros. by apply lower_nonzero in Hc. Qed.

Lemma lwip_strnicmp_fold len : forall s1 s2,
  cstr s1 -> cstr s2 ->
  lwip_strnicmp s1 s2 len = 0 <-> take (S len) (lower <$> s1) = take (S len) (lower <$> s2).
Proof.
  induction len as [|len IH]; intros s1 s2 H1 H2;
    (destruct s1 as [|c1 s1]; cbn [lwip_strnicmp]; rewrite icmp_hd by done;
     match goal with |- context [negb (?a =? ?b)] => destruct (Z.eqb_spec a b) as [E|E] end;
     cbn [negb]).
  - symmetry in E. apply cstr_lower_nil in E as ->; done.
  - destruct s2; [done|]. split; [done|]. cbn. discriminate.
  - destruct s2 as [|c2 s2]; cbn in E |- *.
    + inversion H1. by apply lower_nonzero in E.
    + split; [|done]. by rewrite E.
  - split; [done|]. destruct s2 as [|c2 s2]; cbn in E |- *; congruence.
  - symmetry in E. apply cstr_lower_nil in E as ->; done.
  - destruct s2; [done|]. split; [done|]. cbn. discriminate.
  - destruct s2 as [|c2 s2]; cbn in E |- *.
    + inversion H1. by apply lower_nonzero in E.
    + inversion H1; inversion H2; subst.
      rewrite IH by done. rewrite E. cbn. split; [by intros ->|by intros [=]].
  - split; [done|]. destruct s2 as [|c2 s2]; cbn in E |- *; congruence.
Qed.

Lemma lwip_stricmp_strnicmp s1 : forall s2, lwip_stricmp s1 s2 = lwip_strnicmp s1 s2 (length s1).
Proof.
  induction s1 as [|c s1 IH]; intros s2; simpl; destruct (icmp_differ _ _); try done.
Qed.

Lemma lwip_stricmp_fold s1 s2 :
  cstr s1 -> cstr s2 -> lwip_stricmp s1 s2 = 0 <-> lower <$> s1 = lower <$> s2.
Proof.
  intros H1 H2. rewrite lwip_stricmp_strnicmp, lwip_strnicmp_fold by done.
  rewrite (take_ge (lower <$> s1)) by (rewrite length_fmap; lia).
  split; cycle 1.
  { intros E. rewrite <- E. symmetry. apply take_ge. rewrite length_fmap. lia. }
  intros E. rewrite E. apply take_ge.
  apply (f_equal length) in E. rewrite length_take, !length_fmap in E.
  rewrite length_fmap. lia.
Qed.

(** ** Number formatting *)

(** The value of decimal digits, least significant first. *)
Definition digits_val (ds : list Z) : Z := foldr (fun c acc => (c - 48) + 10 * acc) 0 ds.

(** The value of a decimal numeral, the inverse of printing. *)
Definition parse_nat (s : list Z) : Z := foldl (fun acc c => acc * 10 + (c - 48)) 0 s.

Definition parse_int (s : list Z) : Z :=
  match s with
  | c :: ds => if c =? 45 then - parse_nat ds else parse_nat s
  | [] => 0
  end.

Lemma parse_nat_rev ds : parse_nat (rev ds) = digits_val ds.
Proof.
  unfold parse_nat, digits_val. induction ds as [|c ds IH]; [done|].
  cbn [rev foldr]. rewrite foldl_snoc, IH. lia.
Qed.

Definition is_digit (c : Z) : Prop := 48 <= c <= 57.

Lemma itoa_table_digit d :
  -9 <= d <= 9 -> itoa_table !! Z.to_nat (35 + d) = Some (48 + Z.abs d).
Proof.
  intros Hd. replace d with ((d + 9) - 9) by lia.
  assert (H : 0 <= d + 9 < Z.of_nat 19) by lia. revert H. generalize (d + 9). clear Hd d.
  intros d Hd.
  pose (P := fun d =>
    match itoa_table !! Z.to_nat (35 + (d - 9)) with
    | Some c => c =? 48 + Z.abs (d - 9)
    | None => false
    end).
  assert (HP : forall_below 19 P = true) by (vm_compute; reflexivity).
  pose proof (forall_below_spec 19 P d HP Hd) as H. unfold P in H.
  destruct (itoa_table !! _); [|done]. f_equal. by apply Z.eqb_eq.
Qed.

Lemma itoa_digits_spec fuel : forall n acc,
  (0 < fuel)%nat -> Z.abs n < 10 ^ Z.of_nat fuel ->
  exists ds t, itoa_digits fuel n acc = Ok (acc ++ ds, t)
    /\ digits_val ds = Z.abs n /\ Forall is_digit ds
    /\ (t < 0 <-> n < 0) /\ (1 <= length ds)%nat
    /\ forall k, (0 < k)%nat -> Z.abs n < 10 ^ Z.of_nat k -> (length ds <= k)%nat.
Proof.
  induction fuel as [|fuel IH]; intros n acc Hf Hn; [lia|].
  rewrite Nat2Z.inj_succ, Z.pow_succ_r in Hn by lia.
  assert (Hr : n - Z.quot n 10 * 10 = Z.rem n 10) by (pose proof (Z.quot_rem' n 10); lia).
  assert (Hrb : -9 <= Z.rem n 10 <= 9) by (pose proof (Z.rem_bound_abs n 10 ltac:(lia)); lia).
  cbn [itoa_digits]. rewrite Hr, itoa_table_digit by done.
  assert (Hsplit : Z.abs n = Z.abs (Z.rem n 10) + 10 * Z.abs (Z.quot n 10)).
  { pose proof (Z.quot_rem' n 10). pose proof (Z.rem_sign_nz n 10 ltac:(lia)).
    pose proof (Z.rem_sign_mul n 10 ltac:(lia)). lia. }
  assert (Hsgn : n <> 0 -> Z.quot n 10 <> 0 -> (Z.quot n 10 < 0 <-> n < 0))
    by (intros; pose proof (Z.quot_rem' n 10); pose proof (Z.rem_sign_mul n 10 ltac:(lia)); lia).
  assert (Hd : is_digit (48 + Z.abs (Z.rem n 10))) by (unfold is_digit; lia).
  destruct (Z.eqb_spec (Z.quot n 10) 0) as [E|E].
  - exists [48 + Z.abs (Z.rem n 10)], n.
    split; [done|]. split; [cbn; lia|]. split; [by apply Forall_singleton|]. split; [done|]. cbn. split; [lia|]. intros; lia.
  - destruct fuel as [|fuel]; [rewrite Z.pow_0_r in Hn; lia|].
    destruct (IH (Z.quot n 10) (acc ++ [48 + Z.abs (Z.rem n 10)])) as (ds & t & -> & Hv & Hds & Ht & Hl & Hk);
      [lia|lia|].
    exists ((48 + Z.abs (Z.rem n 10)) :: ds), t. rewrite <- app_assoc.
    split; [done|]. split; [cbn -[Z.mul]; unfold digits_val in Hv; rewrite Hv; lia|].
    split; [by constructor|].
    split; [rewrite Ht; apply Hsgn; [by intros ->|done]|].
    split; [cbn; lia|]. intros [|[|k]] Hk0 Hb; [lia|change (10 ^ Z.of_nat 1) with 10 in Hb; lia|].
    rewrite (Nat2Z.inj_succ (S k)), Z.pow_succ_r in Hb by lia.
    cbn [length]. apply le_n_S, Hk; lia.
Qed.

Lemma parse_int_digits ds : Forall is_digit ds -> parse_int (rev ds) = digits_val ds.
Proof.
  intros H. rewrite <- parse_nat_rev. apply Forall_rev in H.
  destruct (rev ds) as [|c r]; [done|]. inversion H as [|? ? Hc]; subst.
  unfold parse_int. destruct (Z.eqb_spec c 45) as [->|]; [|done]. unfold is_digit in Hc. lia.
Qed.

(** The swap loop reverses the segment between its two indices. *)
Lemma itoa_swap_rev fuel : forall (pre mid post : list Z) j,
  (length mid <= fuel)%nat -> (length pre + length mid = S j)%nat ->
  itoa_swap fuel (length pre) j (pre ++ mid ++ post) = Ok (pre ++ rev mid ++ post).
Proof.
  induction fuel as [|fuel IH]; intros pre mid post j Hf Hj;
    cbn [itoa_swap]; destruct (Nat.ltb_spec (length pre) j) as [Hlt|Hge].
  - destruct mid; cbn in *; lia.
  - destruct mid; [done|cbn in *; lia].
  - destruct mid as [|a mid]; [cbn in *; lia|].
    destruct mid as [|b mid _] using rev_ind; [cbn in *; lia|].
    cbn [length] in *. rewrite length_app in *. cbn [length] in *.
    replace j with (length (pre ++ a :: mid)) by (rewrite length_app; cbn; lia).
    assert (La : (pre ++ (a :: mid ++ [b]) ++ post) !! length pre = Some a)
      by (by apply list_lookup_middle).
    rewrite La.
    replace (pre ++ (a :: mid ++ [b]) ++ post) with ((pre ++ a :: mid) ++ b :: post)
      by (rewrite <- !app_assoc; cbn; by rewrite <- app_assoc).
    rewrite (list_lookup_middle (pre ++ a :: mid) _ b) by done.
    rewrite (insert_middle (pre ++ a :: mid)). rewrite <- app_assoc. cbn [app].
    rewrite (insert_middle pre).
    replace (pre ++ b :: mid ++ a :: post) with ((pre ++ [b]) ++ mid ++ (a :: post))
      by (by rewrite <- app_assoc).
    replace (S (length pre)) with (length (pre ++ [b])) by (rewrite length_app; cbn; lia).
    rewrite IH; [|lia|rewrite !length_app; cbn; rewrite ?length_app; cbn; lia].
    f_equal. cbn [rev]. rewrite rev_app_distr. cbn. rewrite <- !app_assoc. done.
  - destruct mid as [|a [|b mid]]; [done|done|cbn in *; lia].
Qed.

(** ** Properties *)

(** [lwip_htonl] and [lwip_htons] put a host integer into network byte
    order, and back: the bytes of the result in memory are the bytes of the
    argument in reverse, and applying the function twice gives the argument. *)
Theorem hton_network_order x y :
  is_u32 x -> is_u16 y ->
  le_bytes 4 (lwip_htonl x) = rev (le_bytes 4 x)
  /\ le_bytes 2 (lwip_htons y) = rev (le_bytes 2 y)
  /\ lwip_htonl (lwip_htonl x) = x
  /\ lwip_htons (lwip_htons y) = y.
Proof.
  intros Hx Hy. split_and!;
    [|rewrite lwip_htons_arith; cbn [le_bytes rev app]; unfold is_u16 in Hy;
      f_equal; [zlia|f_equal; zlia]
     |by apply lwip_htonl_involutive|by apply lwip_htons_involutive].
  rewrite le_bytes_htonl. cbn [le_bytes rev app].
  rewrite !Z.div_div by lia. repeat f_equal; lia.
Qed.

Lemma hton_network_order_witness :
  is_u32 305419896 /\ is_u16 4660 /\ lwip_htonl (lwip_htonl 305419896) = 305419896.
Proof.
  assert (H1 : is_u32 305419896) by (unfold is_u32; lia).
  assert (H2 : is_u16 4660) by (unfold is_u16; lia).
  split; [exact H1|]. split; [exact H2|].
  exact (proj1 (proj2 (proj2 (hton_network_order 305419896 4660 H1 H2)))).
Defined.

(** [lwip_strnstr] returns the first occurrence of a non-empty token that
    lies within the first [n] characters of the buffer, and [NULL] exactly when
    there is none. *)
Theorem lwip_strnstr_first buffer token n :
  token <> [] ->
  match lwip_strnstr buffer token n with
  | Some i => occurs_at buffer token n i /\ forall j, occurs_at buffer token n j -> i <= j
  | None => forall j, ~ occurs_at buffer token n j
  end.
Proof.
  intros Ht. unfold lwip_strnstr. destruct token as [|b t]; [done|].
  apply (strnstr_loop_spec buffer [] (b :: t) n Ht). intros j (? & _). done.
Qed.

Lemma lwip_strnstr_first_witness :
  occurs_at (chars_of_string "a b abc") (chars_of_string "abc") 7 4.
Proof.
  exact (proj1 (lwip_strnstr_first (chars_of_string "a b abc") (chars_of_string "abc") 7
                  ltac:(discriminate))).
Defined.

(** [lwip_stricmp] returns 0 exactly on strings that are equal up to ASCII
    case; [lwip_strnicmp] with length [len] returns 0 exactly when the first
    [len + 1] characters are equal up to case: its loop test reads [len] before
    decrementing it, so one character more than [len] is compared. *)
Theorem stricmp_ascii_case s1 s2 len :
  cstr s1 -> cstr s2 ->
  (lwip_stricmp s1 s2 = 0 <-> lower <$> s1 = lower <$> s2)
  /\ (lwip_strnicmp s1 s2 len = 0
      <-> take (len + 1) (lower <$> s1) = take (len + 1) (lower <$> s2)).
Proof.
  intros H1 H2. split; [by apply lwip_stricmp_fold|].
  rewrite Nat.add_1_r. by apply lwip_strnicmp_fold.
Qed.

Lemma stricmp_ascii_case_witness :
  lwip_strnicmp (chars_of_string "abX") (chars_of_string "ABY") 2 = 1
  /\ ~ take 3 (lower <$> chars_of_string "abX") = take 3 (lower <$> chars_of_string "ABY").
Proof.
  assert (H1 : cstr (chars_of_string "abX")) by (apply cstr_check; reflexivity).
  assert (H2 : cstr (chars_of_string "ABY")) by (apply cstr_check; reflexivity).
  split; [reflexivity|].
  intros E. apply (stricmp_ascii_case (chars_of_string "abX") (chars_of_string "ABY") 2 H1 H2) in E.
  discriminate E.
Defined.

(** for every value of a 32-bit [int], [lwip_itoa] terminates without a bad
    access and stores a terminated numeral of at most 11 characters whose value
    is the number, so 12 bytes of buffer are always enough. *)
Theorem lwip_itoa_roundtrip n :
  is_s32 n ->
  exists s, lwip_itoa n = Ok (s ++ [0]) /\ parse_int s = n /\ (length s <= 11)%nat.
Proof.
  intros Hn. unfold is_s32 in Hn.
  destruct (itoa_digits_spec 11 n []) as (ds & t & E & Hv & Hds & Ht & Hl & Hk);
    [lia|change (10 ^ Z.of_nat 11) with 100000000000; lia|].
  specialize (Hk 10%nat ltac:(lia)). change (10 ^ Z.of_nat 10) with 10000000000 in Hk.
  unfold lwip_itoa. rewrite E. cbn [res_bind app].
  set (ds2 := if t <? 0 then ds ++ [45] else ds).
  assert (Hlen : (1 <= length ds2 <= 11)%nat)
    by (unfold ds2; destruct (t <? 0); rewrite ?length_app; cbn; lia).
  exists (rev ds2). split; [|split].
  - apply (itoa_swap_rev (length ds2) [] ds2 [0]); cbn; lia.
  - unfold ds2. destruct (Z.ltb_spec t 0).
    + rewrite rev_app_distr. cbn [rev app parse_int]. rewrite parse_nat_rev. simpl. lia.
    + rewrite parse_int_digits by done. lia.
  - rewrite length_rev. lia.
Qed.

Lemma lwip_itoa_roundtrip_witness :
  is_s32 (-2147483648) /\ exists s, lwip_itoa (-2147483648) = Ok (s ++ [0])
                                   /\ parse_int s = -2147483648 /\ (length s <= 11)%nat.
Proof.
  assert (H : is_s32 (-2147483648)) by (unfold is_s32; lia).
  split; [exact H|]. exact (lwip_itoa_roundtrip (-2147483648) H).
Defined.
