(* ===== verification/Ip4Addr.v ===== *)
(** * IPv4 addresses: lwip/src/core/ipv4/ip4_addr.c, lwip/src/include/lwip/ip4_addr.h

    An [ip4_addr_t] is its [addr] field, a [u32_t] in network byte order.
    Strings are as in [Def]: lists of characters without the terminator. *)

From S2P Require Import Prelude Def.

(** ** Definitions *)

Definition IPADDR_NONE : Z := 4294967295.
Definition IPADDR_ANY : Z := 0.
Definition IPADDR_BROADCAST : Z := 4294967295.
Definition NETIF_FLAG_BROADCAST : Z := 2.
Definition IP4ADDR_STRLEN_MAX : Z := 16.

(** The fields of [struct netif] that the IPv4 code of this development reads. *)
Record netif := mk_netif {
  netif_ip4_addr : Z;
  netif_ip4_netmask : Z;
  netif_ip4_gw : Z;
  netif_flags : Z;
  netif_hwaddr : list Z;
  netif_mtu : Z;
  netif_name : list Z;
  netif_num : Z;
  loop_first : Z;
  loop_last : Z;
  loop_cnt_current : Z
}.

Definition ip4_addr_netcmp (addr1 addr2 mask : Z) : bool :=
  Z.land addr1 mask =? Z.land addr2 mask.

Definition ip4_addr_isany_val (addr : Z) : bool := addr =? IPADDR_ANY.

Definition ip4_addr_ismulticast (addr : Z) : bool :=
  Z.land addr (PP_HTONL 4026531840) =? PP_HTONL 3758096384.

Definition ip4_addr_islinklocal (addr : Z) : bool :=
  Z.land addr (PP_HTONL 4294901760) =? PP_HTONL 2851995648.

Definition ip4_addr_isbroadcast_u32 (addr : Z) (netif : netif) : bool :=
  if (not32 addr =? IPADDR_ANY) || (addr =? IPADDR_ANY) then true
  else if Z.land (netif_flags netif) NETIF_FLAG_BROADCAST =? 0 then false
  else if addr =? netif_ip4_addr netif then false
  else if ip4_addr_netcmp addr (netif_ip4_addr netif) (netif_ip4_netmask netif)
          && (Z.land addr (not32 (netif_ip4_netmask netif))
              =? Z.land IPADDR_BROADCAST (not32 (netif_ip4_netmask netif)))
  then true
  else false.

(** *** Netmasks: the two loops over [mask], which starts at [1UL << 31]. *)

Fixpoint netmask_first_zero (fuel : nat) (nm mask : Z) : res Z :=
  if mask =? 0 then Ok mask
  else if Z.land nm mask =? 0 then Ok mask
  else match fuel with
       | O => Fault FFuel
       | S fuel' => netmask_first_zero fuel' nm (Z.shiftr mask 1)
       end.

Fixpoint netmask_no_one (fuel : nat) (nm mask : Z) : res bool :=
  if mask =? 0 then Ok true
  else if negb (Z.land nm mask =? 0) then Ok false
  else match fuel with
       | O => Fault FFuel
       | S fuel' => netmask_no_one fuel' nm (Z.shiftr mask 1)
       end.

Definition ip4_addr_netmask_valid (netmask : Z) : res bool :=
  let nm_hostorder := lwip_htonl netmask in
  let* mask := netmask_first_zero 32 nm_hostorder (Z.shiftl 1 31) in
  netmask_no_one 32 nm_hostorder mask.

(** *** Parsing *)

Definition in_range (c lo up : Z) : bool := (lo <=? u8 c) && (u8 c <=? up).
Definition isdigit (c : Z) : bool := in_range c 48 57.
Definition islower (c : Z) : bool := in_range c 97 122.
Definition isxdigit (c : Z) : bool := isdigit c || in_range c 97 102 || in_range c 65 70.
Definition isspace (c : Z) : bool :=
  (c =? 32) || (c =? 12) || (c =? 10) || (c =? 13) || (c =? 9) || (c =? 11).

(** The inner loop: collect the digits of one number in base [base]. *)
Fixpoint aton_digits (cp : list Z) (base val : Z) : list Z * Z :=
  match cp with
  | [] => ([], val)
  | c :: cp' =>
      if isdigit c then aton_digits cp' base (u32 (u32 (val * base) + (c - 48)))
      else if (base =? 16) && isxdigit c then
        aton_digits cp' base
          (Z.lor (u32 (Z.shiftl val 4)) (c + 10 - (if islower c then 97 else 65)))
      else (cp, val)
  end.

(** The choice of the base and the digits of one number, once its first
    character is known to be a digit. *)
Definition aton_number (cp : list Z) : list Z * Z :=
  if hd 0 cp =? 48 then
    let cp := tl cp in
    if (hd 0 cp =? 120) || (hd 0 cp =? 88) then aton_digits (tl cp) 16 0
    else aton_digits cp 8 0
  else aton_digits cp 10 0.

(** The outer loop; [parts] are the values stored so far.  [Ok None] is
    [return 0]. *)
Fixpoint aton_parts (fuel : nat) (cp : list Z) (parts : list Z)
    : res (option (list Z * Z * list Z)) :=
  if negb (isdigit (hd 0 cp)) then Ok None
  else
    let '(cp, val) := aton_number cp in
    if hd 0 cp =? 46 then
      if (3 <=? length parts)%nat then Ok None
      else match fuel with
           | O => Fault FFuel
           | S fuel' => aton_parts fuel' (tl cp) (parts ++ [val])
           end
    else Ok (Some (cp, val, parts)).

(** The address stored through [addr], in network order; [Ok None] when the
    function returns 0. *)
Definition ip4addr_aton (cp : list Z) : res (option Z) :=
  let* r := aton_parts 3 cp [] in
  match r with
  | None => Ok None
  | Some (cp, val, parts) =>
      let c := hd 0 cp in
      if negb (c =? 0) && negb (isspace c) then Ok None
      else
        match parts with
        | [] => Ok (Some (lwip_htonl val))
        | [p0] =>
            if 16777215 <? val then Ok None
            else if 255 <? p0 then Ok None
            else Ok (Some (lwip_htonl (Z.lor val (u32 (Z.shiftl p0 24)))))
        | [p0; p1] =>
            if 65535 <? val then Ok None
            else if (255 <? p0) || (255 <? p1) then Ok None
            else Ok (Some (lwip_htonl
                   (Z.lor val (Z.lor (u32 (Z.shiftl p0 24)) (u32 (Z.shiftl p1 16))))))
        | [p0; p1; p2] =>
            if 255 <? val then Ok None
            else if (255 <? p0) || (255 <? p1) || (255 <? p2) then Ok None
            else Ok (Some (lwip_htonl
                   (Z.lor val (Z.lor (Z.lor (u32 (Z.shiftl p0 24)) (u32 (Z.shiftl p1 16)))
                                     (u32 (Z.shiftl p2 8))))))
        | _ => Fault FAssert
        end
  end.

Definition ipaddr_addr (cp : list Z) : res Z :=
  let* r := ip4addr_aton cp in
  match r with
  | Some val => Ok val
  | None => Ok IPADDR_NONE
  end.

(** *** Printing *)

(** The [do ... while ( *ap)] loop: the digits of one octet into [inv], which
    has room for three. *)
Fixpoint ntoa_digits (fuel : nat) (ap : Z) (inv : list Z) : res (list Z) :=
  match fuel with
  | O => Fault FBadAccess
  | S fuel' =>
      let rem := ap mod 10 in
      let ap := ap / 10 in
      let inv := inv ++ [48 + rem] in
      if ap =? 0 then Ok inv else ntoa_digits fuel' ap inv
  end.

(** [while (i--)]: append the characters to [rp] if [buflen] allows; the flag
    is [false] when the function returns [NULL]. *)
Fixpoint ntoa_put (cs : list Z) (buflen : Z) (rp : list Z) : bool * list Z :=
  match cs with
  | [] => (true, rp)
  | c :: cs' =>
      if buflen <=? Z.of_nat (length rp) then (false, rp)
      else ntoa_put cs' buflen (rp ++ [c])
  end.

(** The loop over the four octets, in memory order. *)
Fixpoint ntoa_octets (aps : list Z) (buflen : Z) (rp : list Z) : res (bool * list Z) :=
  match aps with
  | [] => Ok (true, rp)
  | ap :: aps' =>
      let* inv := ntoa_digits 3 ap [] in
      match ntoa_put (rev inv ++ [46]) buflen rp with
      | (false, rp) => Ok (false, rp)
      | (true, rp) => ntoa_octets aps' buflen rp
      end
  end.

(** The flag says whether [buf] (and not [NULL]) is returned; the list is what
    was stored from [buf] on. *)
Definition ip4addr_ntoa_r (addr : Z) (buflen : Z) : res (bool * list Z) :=
  let* (ok, rp) := ntoa_octets (le_bytes 4 addr) buflen [] in
  if ok then Ok (true, <[pred (length rp) := 0]> rp) else Ok (false, rp).

Definition ip4addr_ntoa (addr : Z) : res (bool * list Z) :=
  ip4addr_ntoa_r addr IP4ADDR_STRLEN_MAX.

Example aton_ex1 : ip4addr_aton (chars_of_string "127.0.0.1") = Ok (Some 16777343).
Proof. reflexivity. Qed.
Example aton_ex2 : ip4addr_aton (chars_of_string "0x7f.1") = Ok (Some 16777343).
Proof. reflexivity. Qed.
Example aton_ex3 : ip4addr_aton (chars_of_string "256.0.0.1") = Ok None.
Proof. reflexivity. Qed.
Example ntoa_ex : ip4addr_ntoa 16777343 = Ok (true, chars_of_string "127.0.0.1" ++ [0]).
Proof. reflexivity. Qed.
Example netmask_ex : (ip4_addr_netmask_valid 65535, ip4_addr_netmask_valid 16711935) = (Ok true, Ok false).
Proof. reflexivity. Qed.

(** ** Netmasks *)

Lemma land_pow2_zero x i : 0 <= i -> (Z.land x (2 ^ i) =? 0) = negb (Z.testbit x i).
Proof.
  intros Hi. destruct (Z.testbit x i) eqn:E; cbn.
  - apply Z.eqb_neq. intros H. apply (f_equal (fun z => Z.testbit z i)) in H.
    rewrite Z.land_spec, Z.bits_0, Z.pow2_bits_true, E in H by lia. done.
  - apply Z.eqb_eq, Z.bits_inj'. intros j Hj.
    rewrite Z.land_spec, Z.bits_0, Z.pow2_bits_eqb by lia.
    destruct (Z.eqb_spec i j) as [->|]; [by rewrite E|apply andb_false_r].
Qed.

Lemma shiftr_pow2 (i : nat) : Z.shiftr (2 ^ Z.of_nat (S i)) 1 = 2 ^ Z.of_nat i.
Proof.
  rewrite Z.shiftr_div_pow2, Nat2Z.inj_succ, Z.pow_succ_r by lia.
  rewrite Z.mul_comm. apply Z.div_mul. lia.
Qed.

(** The mask that the loops hold when [i] bits are left to look at. *)
Definition loop_mask (i : nat) : Z := match i with O => 0 | S i' => 2 ^ Z.of_nat i' end.

Lemma loop_mask_shift i : Z.shiftr (loop_mask (S i)) 1 = loop_mask i.
Proof. destruct i; [reflexivity|apply shiftr_pow2]. Qed.

Lemma loop_mask_eqb i : (loop_mask i =? 0) = (i =? 0)%nat.
Proof.
  destruct i; [done|]. apply Z.eqb_neq. cbn [loop_mask].
  pose proof (Z.pow_pos_nonneg 2 (Z.of_nat i)). lia.
Qed.

(** The first loop stops after the bits that are all ones. *)
Lemma netmask_first_zero_spec nm i : forall fuel, (i <= fuel)%nat ->
  exists j, netmask_first_zero fuel nm (loop_mask i) = Ok (loop_mask j) /\ (j <= i)%nat
    /\ (forall b, Z.of_nat j <= b < Z.of_nat i -> Z.testbit nm b = true)
    /\ (j <> O -> Z.testbit nm (Z.of_nat (pred j)) = false).
Proof.
  induction i as [|i IH]; intros fuel Hf.
  - exists O. destruct fuel; (split; [done|]); (split; [lia|]); split; intros; lia.
  - assert (E : netmask_first_zero fuel nm (loop_mask (S i))
              = if negb (Z.testbit nm (Z.of_nat i)) then Ok (loop_mask (S i))
                else netmask_first_zero (pred fuel) nm (loop_mask i)).
    { destruct fuel as [|fuel]; [lia|]. cbn [netmask_first_zero].
      rewrite loop_mask_eqb, loop_mask_shift. cbn [loop_mask Nat.eqb].
      rewrite land_pow2_zero by lia. done. }
    rewrite E. destruct (Z.testbit nm (Z.of_nat i)) eqn:Eb; cbn [negb].
    + destruct (IH (pred fuel)) as (j & -> & Hj & H1 & H2); [lia|].
      exists j. split; [done|]. split; [lia|]. split; [|done]. intros b Hb.
      destruct (Z.eq_dec b (Z.of_nat i)) as [->|]; [done|apply H1; lia].
    + exists (S i). split; [done|]. split; [lia|]. split; [intros; lia|done].
Qed.

(** The second loop accepts exactly when the bits left are all zero. *)
Lemma netmask_no_one_spec nm i : forall fuel, (i <= fuel)%nat ->
  exists r, netmask_no_one fuel nm (loop_mask i) = Ok r
    /\ (r = true <-> forall b, 0 <= b < Z.of_nat i -> Z.testbit nm b = false).
Proof.
  induction i as [|i IH]; intros fuel Hf.
  - exists true. destruct fuel; (split; [done|]); split; intros; try done; lia.
  - assert (E : netmask_no_one fuel nm (loop_mask (S i))
              = if Z.testbit nm (Z.of_nat i) then Ok false
                else netmask_no_one (pred fuel) nm (loop_mask i)).
    { destruct fuel as [|fuel]; [lia|]. cbn [netmask_no_one].
      rewrite loop_mask_eqb, loop_mask_shift. cbn [loop_mask Nat.eqb].
      rewrite land_pow2_zero, negb_involutive by lia. done. }
    rewrite E. destruct (Z.testbit nm (Z.of_nat i)) eqn:Eb.
    + exists false. split; [done|]. split; [done|]. intros H. rewrite H in Eb by lia. done.
    + destruct (IH (pred fuel)) as (r & -> & Hr); [lia|].
      exists r. split; [done|]. rewrite Hr. split; intros H b Hb.
      * destruct (Z.eq_dec b (Z.of_nat i)) as [->|]; [done|apply H; lia].
      * apply H. lia.
Qed.

(** [k] ones followed by [32 - k] zeros. *)
Definition prefix_mask (k : Z) : Z := 2 ^ 32 - 2 ^ (32 - k).

Lemma prefix_mask_bits k b :
  0 <= k <= 32 -> 0 <= b < 32 -> Z.testbit (prefix_mask k) b = (32 - k <=? b).
Proof.
  intros Hk Hb. unfold prefix_mask.
  replace (2 ^ 32 - 2 ^ (32 - k)) with (Z.shiftl (Z.ones k) (32 - k)).
  - rewrite Z.shiftl_spec by lia. destruct (Z.leb_spec (32 - k) b).
    + apply Z.ones_spec_low. lia.
    + apply Z.testbit_neg_r. lia.
  - rewrite Z.shiftl_mul_pow2, Z.ones_equiv, <- Z.sub_1_r, Z.mul_sub_distr_r by lia.
    rewrite <- Z.pow_add_r by lia. f_equal; [f_equal; lia|lia].
Qed.

Lemma prefix_mask_range k : 0 <= k <= 32 -> 0 <= prefix_mask k < 2 ^ 32.
Proof.
  intros Hk. unfold prefix_mask.
  assert (2 ^ (32 - k) <= 2 ^ 32) by (apply Z.pow_le_mono_r; lia).
  pose proof (Z.pow_pos_nonneg 2 (32 - k)). lia.
Qed.

Lemma bits_inj_32 x y :
  0 <= x < 2 ^ 32 -> 0 <= y < 2 ^ 32 ->
  (forall b, 0 <= b < 32 -> Z.testbit x b = Z.testbit y b) -> x = y.
Proof.
  intros Hx Hy H. apply Z.bits_inj'. intros b Hb. destruct (Z.lt_ge_cases b 32); [by apply H|].
  assert (Hhi : forall z, 0 <= z < 2 ^ 32 -> Z.testbit z b = false); [|by rewrite !Hhi].
  intros z Hz. rewrite <- (Z.mod_small z (2 ^ 32)), Z.mod_pow2_bits_high by lia. done.
Qed.

(** ** Parsing and printing *)

Lemma aton_digits_app ds rest val :
  Forall is_digit ds -> isdigit (hd 0 rest) = false ->
  0 <= val -> (val + 1) * 10 ^ Z.of_nat (length ds) <= 2 ^ 32 ->
  aton_digits (ds ++ rest) 10 val
  = (rest, foldl (fun acc c => acc * 10 + (c - 48)) val ds).
Proof.
  intros Hds Hr. revert val. induction Hds as [|c ds Hc Hds IH]; intros val Hv Hb; cbn [app foldl].
  - destruct rest as [|c rest]; [done|]. cbn in Hr. cbn [aton_digits].
    rewrite Hr. done.
  - unfold is_digit in Hc. cbn [aton_digits].
    assert (Hd : isdigit c = true) by (unfold isdigit, in_range, u8; rewrite Z.mod_small by lia; lia).
    cbn [length] in Hb. rewrite Nat2Z.inj_succ, Z.pow_succ_r in Hb by lia.
    pose proof (Z.pow_pos_nonneg 10 (Z.of_nat (length ds)) ltac:(lia) ltac:(lia)).
    rewrite Hd. unfold u32.
    rewrite !(Z.mod_small (val * 10)), Z.mod_small by nia. apply IH; nia.
Qed.

(** The numeral of one octet, most significant digit first. *)
Definition octet_str (b : Z) : list Z :=
  match ntoa_digits 3 b [] with Ok inv => rev inv | Fault _ => [] end.

(** What is checked of all 256 octets by evaluation. *)
Definition octet_check (b : Z) : bool :=
  match ntoa_digits 3 b [] with
  | Ok inv =>
      forallb (fun c => (48 <=? c) && (c <=? 57)) (rev inv)
      && (parse_nat (rev inv) =? b)
      && (if hd 0 (rev inv) =? 48 then (b =? 0) && (length inv =? 1)%nat else true)
      && (1 <=? length inv)%nat && (length inv <=? 3)%nat
  | Fault _ => false
  end.

Lemma octet_checked : forall_below 256 octet_check = true.
Proof. vm_compute. reflexivity. Qed.

Lemma octet_spec b :
  is_u8 b ->
  ntoa_digits 3 b [] = Ok (rev (octet_str b)) /\ Forall is_digit (octet_str b)
  /\ parse_nat (octet_str b) = b /\ (hd 0 (octet_str b) = 48 -> octet_str b = [48] /\ b = 0)
  /\ (1 <= length (octet_str b) <= 3)%nat.
Proof.
  intros Hb. pose proof (forall_below_spec 256 _ b octet_checked Hb) as H.
  unfold octet_check in H. unfold octet_str.
  destruct (ntoa_digits 3 b []) as [inv|]; [|done].
  rewrite !andb_true_iff in H. destruct H as ((((Hd & Hp) & H0) & H1) & H3).
  rewrite rev_involutive, length_rev. split; [done|]. split.
  { rewrite forallb_forall in Hd. apply Forall_forall. intros c Hc.
    apply list_elem_of_In, Hd in Hc. unfold is_digit. lia. }
  split; [by apply Z.eqb_eq|].
  apply Nat.leb_le in H1, H3. split; [|lia].
  intros E. rewrite E in H0. cbn in H0. apply andb_true_iff in H0 as [Hb0 Hl].
  apply Z.eqb_eq in Hb0. apply Nat.eqb_eq in Hl. split; [|done].
  rewrite <- (length_rev inv) in Hl. destruct (rev inv) as [|c [|? ?]]; cbn in *; [lia| |lia].
  by rewrite E.
Qed.

(** A printed octet is read back, whatever follows that is not a digit. *)
Lemma aton_octet b rest :
  is_u8 b -> hd 0 rest = 46 \/ rest = [] ->
  isdigit (hd 0 (octet_str b ++ rest)) = true /\ aton_number (octet_str b ++ rest) = (rest, b).
Proof.
  intros Hb Hr. destruct (octet_spec b Hb) as (_ & Hd & Hp & H0 & Hl).
  assert (Hrd : isdigit (hd 0 rest) = false) by (destruct Hr as [->| ->]; done).
  assert (Hhd : hd 0 (octet_str b ++ rest) = hd 0 (octet_str b))
    by (destruct (octet_str b); cbn in *; [lia|done]).
  unfold aton_number. rewrite Hhd. split.
  - inversion Hd as [E|c ds Hc _ E]; [rewrite <- E in Hl; cbn in Hl; lia|].
    unfold is_digit in Hc. cbn. unfold isdigit, in_range, u8. rewrite Z.mod_small by lia. lia.
  - destruct (Z.eqb_spec (hd 0 (octet_str b)) 48) as [E|E].
    + destruct (H0 E) as (-> & ->). cbn [app tl].
      replace ((hd 0 rest =? 120) || (hd 0 rest =? 88)) with false
        by (destruct Hr as [->| ->]; done).
      destruct rest as [|c rest]; [done|]. cbn [aton_digits]. cbn in Hrd. by rewrite Hrd.
    + rewrite aton_digits_app; [by rewrite <- Hp at 2|done|done|lia|].
      apply Z.le_trans with (10 ^ 3); [|cbn; lia].
      rewrite Z.mul_1_l. apply Z.pow_le_mono_r; lia.
Qed.

Lemma ntoa_put_fits cs buflen rp :
  Z.of_nat (length rp + length cs) <= buflen -> ntoa_put cs buflen rp = (true, rp ++ cs).
Proof.
  revert rp. induction cs as [|c cs IH]; intros rp H; cbn [ntoa_put length] in *.
  - by rewrite app_nil_r.
  - destruct (Z.leb_spec buflen (Z.of_nat (length rp))); [lia|].
    rewrite IH, <- app_assoc; [done|]. rewrite length_app. cbn. lia.
Qed.

Lemma ntoa_put_short cs buflen rp :
  cs <> [] -> buflen < Z.of_nat (length rp + length cs) -> Z.of_nat (length rp) <= Z.max 0 buflen ->
  exists rp', ntoa_put cs buflen rp = (false, rp') /\ Z.of_nat (length rp') <= Z.max 0 buflen.
Proof.
  revert rp. induction cs as [|c cs IH]; intros rp Hc H Hrp; cbn [ntoa_put length] in *; [done|].
  destruct (Z.leb_spec buflen (Z.of_nat (length rp))); [eauto|].
  apply IH; [|rewrite length_app; cbn; lia..]. intros ->. cbn in *. lia.
Qed.

(** The dotted text with a dot after every octet. *)
Definition dotted (aps : list Z) : list Z := mjoin ((fun b => octet_str b ++ [46]) <$> aps).

Lemma ntoa_octets_spec aps buflen : forall rp,
  Forall is_u8 aps -> Z.of_nat (length rp) <= Z.max 0 buflen ->
  if Z.of_nat (length rp + length (dotted aps)) <=? buflen
  then ntoa_octets aps buflen rp = Ok (true, rp ++ dotted aps)
  else aps <> [] ->
       exists rp', ntoa_octets aps buflen rp = Ok (false, rp') /\ Z.of_nat (length rp') <= Z.max 0 buflen.
Proof.
  intros rp Haps. revert rp. induction Haps as [|b aps Hb Haps IH]; intros rp Hrp.
  - cbn. rewrite app_nil_r. by destruct (_ <=? _).
  - change (dotted (b :: aps)) with ((octet_str b ++ [46]) ++ dotted aps).
    rewrite (length_app (octet_str b ++ [46])).
    destruct (octet_spec b Hb) as (Ed & _ & _ & _ & _).
    cbn [ntoa_octets]. rewrite Ed. cbn [res_bind]. rewrite rev_involutive.
    set (cs := octet_str b ++ [46]).
    destruct (Z.leb_spec (Z.of_nat (length rp + (length cs + length (dotted aps)))) buflen) as [Hfit|Hfit].
    + rewrite ntoa_put_fits by lia. specialize (IH (rp ++ cs)).
      rewrite length_app in IH. destruct (Z.leb_spec (Z.of_nat (length rp + length cs + length (dotted aps))) buflen); [|lia].
      rewrite IH by lia. by rewrite <- app_assoc.
    + intros _. destruct (Z.le_gt_cases (Z.of_nat (length rp + length cs)) buflen).
      * rewrite ntoa_put_fits by lia. specialize (IH (rp ++ cs)). rewrite length_app in IH.
        destruct (Z.leb_spec (Z.of_nat (length rp + length cs + length (dotted aps))) buflen); [lia|].
        apply IH; [lia|]. intros ->. cbn in *. lia.
      * destruct (ntoa_put_short cs buflen rp) as (rp' & -> & ?); [by destruct (octet_str b)|lia|done|]. eauto.
Qed.

(** The text of an address: its octets in memory order, separated by dots. *)
Definition dotted_quad (addr : Z) : list Z :=
  removelast (dotted (le_bytes 4 addr)).

Lemma dotted_snoc aps b : dotted (aps ++ [b]) = (dotted aps ++ octet_str b) ++ [46].
Proof. unfold dotted. rewrite fmap_app, join_app. cbn. by rewrite app_nil_r, <- app_assoc. Qed.

Lemma dotted_4 a b c d : dotted [a; b; c; d] = (dotted [a; b; c] ++ octet_str d) ++ [46].
Proof. exact (dotted_snoc [a; b; c] d). Qed.

Lemma le_bytes_4 x :
  le_bytes 4 x = [x mod 256; (x / 256) mod 256; (x / 65536) mod 256; (x / 16777216) mod 256].
Proof. cbn [le_bytes]. rewrite !Z.div_div by lia. done. Qed.

Lemma dotted_quad_spec addr : dotted (le_bytes 4 addr) = dotted_quad addr ++ [46].
Proof.
  unfold dotted_quad. rewrite le_bytes_4, dotted_4. by rewrite removelast_last.
Qed.

Lemma length_dotted_quad addr : (7 <= length (dotted_quad addr) <= 15)%nat.
Proof.
  pose proof (le_bytes_ok 4 addr) as Hok. rewrite le_bytes_4 in Hok.
  inversion_clear Hok as [|? ? H1 Hok1]. inversion_clear Hok1 as [|? ? H2 Hok2].
  inversion_clear Hok2 as [|? ? H3 Hok3]. inversion_clear Hok3 as [|? ? H4 _].
  apply octet_spec in H1 as (_ & _ & _ & _ & ?), H2 as (_ & _ & _ & _ & ?),
    H3 as (_ & _ & _ & _ & ?), H4 as (_ & _ & _ & _ & ?).
  assert (length (dotted (le_bytes 4 addr)) = S (length (dotted_quad addr)))
    by (rewrite dotted_quad_spec, length_app; cbn; lia).
  rewrite le_bytes_4 in *. unfold dotted in *. cbn in *. repeat (rewrite length_app in *; cbn in *). lia.
Qed.

(** The four octets of an address are put back together by the shifts of
    [ip4addr_aton]. *)
Lemma quad_htonl a b c d :
  is_u8 a -> is_u8 b -> is_u8 c -> is_u8 d ->
  lwip_htonl (Z.lor d (Z.lor (Z.lor (u32 (Z.shiftl a 24)) (u32 (Z.shiftl b 16))) (u32 (Z.shiftl c 8))))
  = le_val [a; b; c; d].
Proof.
  unfold is_u8, u32. intros Ha Hb Hc Hd.
  rewrite !Z.shiftl_mul_pow2 by lia. rewrite !(Z.mod_small _ 4294967296) by lia.
  rewrite (lor_disjoint a (b * 2 ^ 16) 24) by lia.
  replace (a * 2 ^ 24 + b * 2 ^ 16) with ((a * 2 ^ 8 + b) * 2 ^ 16) by lia.
  rewrite lor_disjoint by lia.
  replace ((a * 2 ^ 8 + b) * 2 ^ 16 + c * 2 ^ 8) with ((a * 2 ^ 16 + b * 2 ^ 8 + c) * 2 ^ 8) by lia.
  rewrite Z.lor_comm, lor_disjoint by lia. rewrite lwip_htonl_arith. cbn [le_val].
  change (2 ^ 16) with 65536. change (2 ^ 8) with 256. zlia.
Qed.

Lemma ntoa_r_spec addr buflen :
  if Z.of_nat (length (dotted_quad addr)) <? buflen
  then ip4addr_ntoa_r addr buflen = Ok (true, dotted_quad addr ++ [0])
  else exists w, ip4addr_ntoa_r addr buflen = Ok (false, w) /\ Z.of_nat (length w) <= Z.max 0 buflen.
Proof.
  unfold ip4addr_ntoa_r.
  pose proof (ntoa_octets_spec (le_bytes 4 addr) buflen [] (le_bytes_ok 4 addr) ltac:(cbn; lia)) as H.
  rewrite dotted_quad_spec, length_app in H. cbn [length] in H.
  destruct (Z.ltb_spec (Z.of_nat (length (dotted_quad addr))) buflen);
    destruct (Z.leb_spec (Z.of_nat (0 + (length (dotted_quad addr) + 1))) buflen); try lia.
  - rewrite H. cbn [res_bind app]. f_equal. f_equal.
    rewrite length_app, Nat.add_1_r. cbn [pred]. apply insert_middle.
  - destruct H as (w & -> & ?); [rewrite le_bytes_4; done|]. eauto.
Qed.

Lemma aton_dotted_quad addr : is_u32 addr -> ip4addr_aton (dotted_quad addr) = Ok (Some addr).
Proof.
  intros Ha. pose proof (le_bytes_ok 4 addr) as Hok.
  rewrite <- (le_val_bytes 4 addr) at 2 by exact Ha.
  unfold dotted_quad. rewrite le_bytes_4 in *. 
  set (a := addr mod 256) in *. set (b := (addr / 256) mod 256) in *.
  set (c := (addr / 65536) mod 256) in *. set (d := (addr / 16777216) mod 256) in *.
  clearbody a b c d. clear Ha.
  inversion_clear Hok as [|? ? H1 Hok1]. inversion_clear Hok1 as [|? ? H2 Hok2].
  inversion_clear Hok2 as [|? ? H3 Hok3]. inversion_clear Hok3 as [|? ? H4 _].
  rewrite dotted_4, removelast_last. unfold dotted. cbn [fmap list_fmap mjoin list_join].
  rewrite app_nil_r, <- !app_assoc. cbn [app].
  unfold ip4addr_aton. cbn [aton_parts].
  destruct (aton_octet a (46 :: octet_str b ++ 46 :: octet_str c ++ 46 :: octet_str d) H1 (or_introl eq_refl)) as [-> ->].
  cbn [negb hd Z.eqb Pos.eqb Nat.leb length tl app].
  destruct (aton_octet b (46 :: octet_str c ++ 46 :: octet_str d) H2 (or_introl eq_refl)) as [-> ->].
  cbn [negb hd Z.eqb Pos.eqb Nat.leb length tl app].
  destruct (aton_octet c (46 :: octet_str d) H3 (or_introl eq_refl)) as [-> ->].
  cbn [negb hd Z.eqb Pos.eqb Nat.leb length tl app].
  destruct (aton_octet d [] H4 (or_intror eq_refl)) as [Hd Ed]. rewrite app_nil_r in Hd, Ed.
  rewrite Hd, Ed. cbn [negb hd Z.eqb Pos.eqb andb res_bind].
  unfold is_u8 in *. zcases; try lia. cbn [orb].
  by rewrite quad_htonl by (unfold is_u8; lia).
Qed.

Lemma not32_bits x b : 0 <= b < 32 -> Z.testbit (not32 x) b = negb (Z.testbit x b).
Proof.
  intros Hb. unfold not32, u32. change 4294967296 with (2 ^ 32).
  rewrite Z.mod_pow2_bits_low, Z.lnot_spec by lia. done.
Qed.

Lemma broadcast_bits b : 0 <= b < 32 -> Z.testbit IPADDR_BROADCAST b = true.
Proof. intros. change IPADDR_BROADCAST with (Z.ones 32). apply Z.ones_spec_low. lia. Qed.

Lemma u32_land x y : is_u32 x -> is_u32 y -> is_u32 (Z.land x y).
Proof.
  unfold is_u32. intros Hx Hy. split; [apply Z.land_nonneg; lia|].
  change 4294967296 with (2 ^ 32).
  rewrite <- (Z.mod_small y (2 ^ 32)) by lia.
  rewrite <- Z.land_ones, Z.land_assoc, Z.land_ones by lia.
  apply Z.mod_pos_bound. lia.
Qed.

Lemma u32_lor x y : is_u32 x -> is_u32 y -> is_u32 (Z.lor x y).
Proof.
  unfold is_u32. intros Hx Hy. split; [apply Z.lor_nonneg; lia|].
  change 4294967296 with (2 ^ 32) in *.
  destruct (Z.eq_dec (Z.lor x y) 0) as [->|]; [lia|].
  apply Z.log2_lt_cancel. rewrite Z.log2_lor, Z.log2_pow2 by lia.
  destruct (Z.eq_dec x 0), (Z.eq_dec y 0); subst; cbn [Z.log2];
    apply Z.max_lub_lt; try lia; apply Z.log2_lt_pow2; lia.
Qed.

Lemma directed_broadcast addr ip mask :
  is_u32 addr -> is_u32 ip -> is_u32 mask ->
  (Z.land addr mask = Z.land ip mask
   /\ Z.land addr (not32 mask) = Z.land IPADDR_BROADCAST (not32 mask))
  <-> addr = Z.lor (Z.land ip mask) (not32 mask).
Proof.
  intros Ha Hi Hm. assert (Hn : is_u32 (not32 mask)) by apply u32_range.
  split.
  - intros [H1 H2]. apply bits_inj_32; [done|by apply u32_lor; [apply u32_land|]|]. intros b Hb.
    apply (f_equal (fun z => Z.testbit z b)) in H1, H2.
    rewrite !Z.land_spec, ?Z.lor_spec, ?broadcast_bits, ?not32_bits, ?Z.land_spec in * by done.
    destruct (Z.testbit addr b), (Z.testbit mask b), (Z.testbit ip b); cbn in *; congruence.
  - intros ->. split; apply bits_inj_32;
      try (apply u32_land; [|done]; try apply u32_lor; try apply u32_land; done);
      try (apply u32_land; done || (unfold is_u32, IPADDR_BROADCAST; lia) || done).
    all: intros b Hb;
      rewrite ?Z.land_spec, ?Z.lor_spec, ?broadcast_bits, ?not32_bits, ?Z.land_spec, ?not32_bits by done;
      destruct (Z.testbit mask b), (Z.testbit ip b); done.
Qed.

(** ** Properties *)

(** an address printed by [ip4addr_ntoa_r] is read back by
    [ip4addr_aton]; the function succeeds exactly when the text and its
    terminator fit in [buflen] bytes, never stores more than [buflen] bytes,
    and the 16 bytes of [ip4addr_ntoa]'s static buffer are enough for every
    address. *)
Theorem ip4addr_ntoa_aton addr buflen :
  is_u32 addr ->
  exists s, ip4addr_aton s = Ok (Some addr)
    /\ ip4addr_ntoa addr = Ok (true, s ++ [0])
    /\ (Z.of_nat (length s) < buflen -> ip4addr_ntoa_r addr buflen = Ok (true, s ++ [0]))
    /\ (buflen <= Z.of_nat (length s) ->
        exists w, ip4addr_ntoa_r addr buflen = Ok (false, w) /\ Z.of_nat (length w) <= Z.max 0 buflen).
Proof.
  intros Ha. exists (dotted_quad addr). pose proof (length_dotted_quad addr).
  split; [by apply aton_dotted_quad|]. split; [|split].
  - pose proof (ntoa_r_spec addr IP4ADDR_STRLEN_MAX) as H1. unfold IP4ADDR_STRLEN_MAX in H1.
    destruct (Z.ltb_spec (Z.of_nat (length (dotted_quad addr))) 16); [done|lia].
  - intros. pose proof (ntoa_r_spec addr buflen) as H1.
    destruct (Z.ltb_spec (Z.of_nat (length (dotted_quad addr))) buflen); [done|lia].
  - intros. pose proof (ntoa_r_spec addr buflen) as H1.
    destruct (Z.ltb_spec (Z.of_nat (length (dotted_quad addr))) buflen); [lia|done].
Qed.

Lemma ip4addr_ntoa_aton_witness :
  is_u32 16777343 /\ exists s, ip4addr_aton s = Ok (Some 16777343)
                               /\ ip4addr_ntoa 16777343 = Ok (true, s ++ [0]).
Proof.
  assert (H : is_u32 16777343) by (unfold is_u32; lia).
  split; [exact H|]. destruct (ip4addr_ntoa_aton 16777343 16 H) as (s & H1 & H2 & _).
  exists s. split; [exact H1|exact H2].
Defined.

(** [ip4_addr_netmask_valid] terminates and accepts exactly the masks that
    are, in host order, [k] ones followed by [32 - k] zeros. *)
Theorem netmask_valid_iff_prefix netmask :
  exists r, ip4_addr_netmask_valid netmask = Ok r
    /\ (r = true <-> exists k, 0 <= k <= 32 /\ lwip_htonl netmask = prefix_mask k).
Proof.
  unfold ip4_addr_netmask_valid.
  destruct (netmask_first_zero_spec (lwip_htonl netmask) 32 32 ltac:(lia)) as (j & E & Hj & H1 & H0).
  change (Z.shiftl 1 31) with (loop_mask 32). rewrite E. cbn [res_bind].
  destruct (netmask_no_one_spec (lwip_htonl netmask) j 32 ltac:(lia)) as (r & -> & Hr).
  exists r. split; [done|]. rewrite Hr. pose proof (lwip_htonl_range netmask) as Hrange. split.
  - intros Hz. exists (32 - Z.of_nat j). split; [lia|].
    apply bits_inj_32; [done|apply prefix_mask_range; lia|]. intros b Hb.
    rewrite prefix_mask_bits by lia. zcases; [apply H1; lia|apply Hz; lia].
  - intros (k & Hk & Hm) b Hb. rewrite Hm in *.
    destruct j as [|j]; [cbn in Hb; lia|]. specialize (H0 ltac:(done)). cbn [pred] in H0.
    rewrite prefix_mask_bits in H0 |- * by lia. lia.
Qed.

(** [ip4_addr_isbroadcast_u32] answers yes for the all-ones and the
    all-zeros address and, on an interface with the broadcast flag, for the
    directed broadcast address of its network (network bits of the interface's
    address, all host bits one) unless that is the interface's own address; for
    nothing else. *)
Theorem isbroadcast_spec addr nif :
  is_u32 addr -> is_u32 (netif_ip4_addr nif) -> is_u32 (netif_ip4_netmask nif) ->
  ip4_addr_isbroadcast_u32 addr nif = true
  <-> addr = IPADDR_ANY \/ addr = IPADDR_BROADCAST
      \/ (Z.testbit (netif_flags nif) 1 = true /\ addr <> netif_ip4_addr nif
          /\ addr = Z.lor (Z.land (netif_ip4_addr nif) (netif_ip4_netmask nif))
                          (not32 (netif_ip4_netmask nif))).
Proof.
  intros Ha Hi Hm. rewrite <- directed_broadcast by done.
  assert (Hall : not32 addr = IPADDR_ANY <-> addr = IPADDR_BROADCAST).
  { unfold not32, u32, IPADDR_ANY, IPADDR_BROADCAST, Z.lnot. unfold is_u32 in Ha. zlia. }
  unfold ip4_addr_isbroadcast_u32, ip4_addr_netcmp, NETIF_FLAG_BROADCAST.
  rewrite (land_pow2_zero _ 1) by lia.
  destruct (Z.eqb_spec (not32 addr) IPADDR_ANY), (Z.eqb_spec addr IPADDR_ANY); cbn [orb];
    try (split; [tauto|done]).
  destruct (Z.testbit (netif_flags nif) 1); cbn [negb].
  - destruct (Z.eqb_spec addr (netif_ip4_addr nif)); [split; [done|tauto]|].
    destruct (Z.eqb_spec (Z.land addr (netif_ip4_netmask nif))
                (Z.land (netif_ip4_addr nif) (netif_ip4_netmask nif)));
    destruct (Z.eqb_spec (Z.land addr (not32 (netif_ip4_netmask nif)))
                (Z.land IPADDR_BROADCAST (not32 (netif_ip4_netmask nif)))); cbn [andb]; intuition congruence.
  - split; [done|]. intros [?|[?|[? _]]]; tauto || done.
Qed.

Lemma isbroadcast_spec_witness :
  ip4_addr_isbroadcast_u32 4278298816 (mk_netif 33663168 16777215 0 2 [] 1500 [] 0 0 0 0) = true.
Proof.
  apply isbroadcast_spec; [unfold is_u32; cbn; lia..|].
  right. right. split; [reflexivity|]. split; [discriminate|reflexivity].
Defined.
