(* ===== verification/InetChksum.v ===== *)
(** * The Internet checksum: lwip/src/core/inet_chksum.c, lwip/src/include/lwip/inet_chksum.h

    A buffer is its start address (only its low bits matter, for alignment) and
    its bytes.  A pbuf chain is read-only here and is given by what the loops
    read of it: for every pbuf the address [q->payload] and the [q->len] bytes
    there ([Pbuf.chain_view] computes this from the heap).  Loads of [u16_t] and
    [u32_t] are little-endian. *)

From S2P Require Import Prelude Def.

(** ** Definitions *)

Definition SWAP_BYTES_IN_WORD (w : Z) : Z :=
  Z.lor (Z.shiftl (Z.land w 255) 8) (Z.shiftr (Z.land w 65280) 8).

Definition FOLD_U32T (u : Z) : Z := u32 (Z.shiftr u 16 + Z.land u 65535).

(** *** LWIP_CHKSUM_ALGORITHM == 1 *)
Module Algorithm1.

Fixpoint sum_words (octetptr : list Z) (acc : Z) : Z :=
  match octetptr with
  | a :: b :: octetptr' =>
      let src := u16 (Z.shiftl a 8) in
      let src := Z.lor src b in
      sum_words octetptr' (u32 (acc + src))
  | [a] =>
      let src := u16 (Z.shiftl a 8) in
      u32 (acc + src)
  | [] => acc
  end.

Definition lwip_standard_chksum (data : list Z) : Z :=
  let acc := sum_words data 0 in
  let acc := u32 (Z.shiftr acc 16 + Z.land acc 65535) in
  let acc :=
    if negb (Z.land acc 4294901760 =? 0)
    then u32 (Z.shiftr acc 16 + Z.land acc 65535)
    else acc in
  lwip_htons (u16 acc).

End Algorithm1.

(** *** LWIP_CHKSUM_ALGORITHM == 2, the one the port uses *)
Module Algorithm2.

(** [while (len > 1)]: the sum and the bytes left. *)
Fixpoint sum_words (ps : list Z) (sum : Z) : Z * list Z :=
  match ps with
  | a :: b :: ps' => sum_words ps' (u32 (sum + le_val [a; b]))
  | _ => (sum, ps)
  end.

(** [t] is kept as its two bytes in memory. *)
Definition lwip_standard_chksum (dataptr : Z) (data : list Z) : Z :=
  let odd := Z.odd dataptr in
  let '(t1, pb) :=
    match odd, data with
    | true, b :: pb => (b, pb)
    | _, _ => (0, data)
    end in
  let '(sum, ps) := sum_words pb 0 in
  let t0 := match ps with b :: _ => b | [] => 0 end in
  let sum := u32 (sum + le_val [t0; t1]) in
  let sum := FOLD_U32T sum in
  let sum := FOLD_U32T sum in
  let sum := if odd then SWAP_BYTES_IN_WORD sum else sum in
  u16 sum.

End Algorithm2.

(** *** LWIP_CHKSUM_ALGORITHM == 3 *)
Module Algorithm3.

(** [x = y + *pl; if (x < y) x++]: addition with the carry added back. *)
Definition add_carry (y w : Z) : Z :=
  let x := u32 (y + w) in
  if x <? y then u32 (x + 1) else x.

(** [while (len > 7)]: two 32-bit words at a time. *)
Fixpoint sum_longs (pl : list Z) (sum : Z) : Z * list Z :=
  match pl with
  | a :: b :: c :: d :: e :: f :: g :: h :: pl' =>
      let tmp := add_carry sum (le_val [a; b; c; d]) in
      let sum := add_carry tmp (le_val [e; f; g; h]) in
      sum_longs pl' sum
  | _ => (sum, pl)
  end.

Definition lwip_standard_chksum (dataptr : Z) (data : list Z) : Z :=
  let odd := Z.odd dataptr in
  let '(t1, ps, ps_addr) :=
    match odd, data with
    | true, b :: pb => (b, pb, dataptr + 1)
    | _, _ => (0, data, dataptr)
    end in
  let '(sum, pl) :=
    match negb (Z.land ps_addr 3 =? 0), ps with
    | true, a :: b :: pl => (le_val [a; b], pl)
    | _, _ => (0, ps)
    end in
  let '(sum, ps) := sum_longs pl sum in
  let sum := FOLD_U32T sum in
  let '(sum, ps) := Algorithm2.sum_words ps sum in
  let t0 := match ps with b :: _ => b | [] => 0 end in
  let sum := u32 (sum + le_val [t0; t1]) in
  let sum := FOLD_U32T sum in
  let sum := FOLD_U32T sum in
  let sum := if odd then SWAP_BYTES_IN_WORD sum else sum in
  u16 sum.

End Algorithm3.

(** [LWIP_CHKSUM], as configured. *)
Definition LWIP_CHKSUM (dataptr : Z) (data : list Z) : Z :=
  Algorithm2.lwip_standard_chksum dataptr data.

(** *** Checksums over pbuf chains *)

(** The pbufs of a chain: payload address and payload bytes. *)
Definition chain_view : Type := list (Z * list Z).

Definition odd_len (bs : list Z) : bool := Nat.odd (length bs).

(** One iteration of the loop over the chain. *)
Definition chksum_pbuf_step (payload : Z) (bs : list Z) (len : nat) (acc : Z) (swapped : bool)
    : Z * bool :=
  let acc := u32 (acc + LWIP_CHKSUM payload bs) in
  let acc := FOLD_U32T acc in
  if Nat.odd len then (SWAP_BYTES_IN_WORD acc, negb swapped) else (acc, swapped).

Fixpoint chksum_chain (q : chain_view) (acc : Z) (swapped : bool) : Z * bool :=
  match q with
  | [] => (acc, swapped)
  | (payload, bs) :: q' =>
      let '(acc, swapped) := chksum_pbuf_step payload bs (length bs) acc swapped in
      chksum_chain q' acc swapped
  end.

Definition inet_cksum_pseudo_base (p : chain_view) (proto proto_len acc : Z) : Z :=
  let '(acc, swapped) := chksum_chain p acc false in
  let acc := if swapped then SWAP_BYTES_IN_WORD acc else acc in
  let acc := u32 (acc + lwip_htons (u16 proto)) in
  let acc := u32 (acc + lwip_htons proto_len) in
  let acc := FOLD_U32T acc in
  let acc := FOLD_U32T acc in
  not16 (Z.land acc 65535).

(** The two halves of an address added to [acc]. *)
Definition add_addr (acc addr : Z) : Z :=
  let acc := u32 (acc + Z.land addr 65535) in
  u32 (acc + Z.land (Z.shiftr addr 16) 65535).

Definition inet_chksum_pseudo (p : chain_view) (proto proto_len src dest : Z) : Z :=
  let acc := add_addr (add_addr 0 src) dest in
  let acc := FOLD_U32T acc in
  let acc := FOLD_U32T acc in
  inet_cksum_pseudo_base p proto proto_len acc.

(** The loop over the four words of two IPv6 addresses. *)
Fixpoint ip6_addr_sum (src dest : list Z) (acc : Z) : Z :=
  match src, dest with
  | s :: src', d :: dest' => ip6_addr_sum src' dest' (add_addr (add_addr acc s) d)
  | _, _ => acc
  end.

Definition ip6_chksum_pseudo (p : chain_view) (proto proto_len : Z) (src dest : list Z) : Z :=
  let acc := ip6_addr_sum src dest 0 in
  let acc := FOLD_U32T acc in
  let acc := FOLD_U32T acc in
  inet_cksum_pseudo_base p proto proto_len acc.

(** [ip_chksum_pseudo] with [LWIP_IPV6 == 0], as configured. *)
Definition ip_chksum_pseudo (p : chain_view) (proto proto_len src dest : Z) : Z :=
  inet_chksum_pseudo p proto proto_len src dest.

(** The loop of the partial checksum: it stops when [chksum_len] is used up,
    and asserts that less than [0x7fff] is left after every pbuf. *)
Fixpoint chksum_chain_partial (q : chain_view) (chksum_len : Z) (acc : Z) (swapped : bool)
    : res (Z * bool) :=
  match q with
  | [] => Ok (acc, swapped)
  | (payload, bs) :: q' =>
      if 0 <? chksum_len then
        let chklen := Z.of_nat (length bs) in
        let chklen := if chksum_len <? chklen then chksum_len else chklen in
        let '(acc, swapped) :=
          chksum_pbuf_step payload (take (Z.to_nat chklen) bs) (length bs) acc swapped in
        let chksum_len := u16 (chksum_len - chklen) in
        assert* (chksum_len <? 32767) in
        chksum_chain_partial q' chksum_len acc swapped
      else Ok (acc, swapped)
  end.

Definition inet_cksum_pseudo_partial_base (p : chain_view) (proto proto_len chksum_len acc : Z)
    : res Z :=
  let* (acc, swapped) := chksum_chain_partial p chksum_len acc false in
  let acc := if swapped then SWAP_BYTES_IN_WORD acc else acc in
  let acc := u32 (acc + lwip_htons (u16 proto)) in
  let acc := u32 (acc + lwip_htons proto_len) in
  let acc := FOLD_U32T acc in
  let acc := FOLD_U32T acc in
  Ok (not16 (Z.land acc 65535)).

Definition inet_chksum_pseudo_partial (p : chain_view) (proto proto_len chksum_len src dest : Z)
    : res Z :=
  let acc := add_addr (add_addr 0 src) dest in
  let acc := FOLD_U32T acc in
  let acc := FOLD_U32T acc in
  inet_cksum_pseudo_partial_base p proto proto_len chksum_len acc.

Definition ip6_chksum_pseudo_partial (p : chain_view) (proto proto_len chksum_len : Z)
    (src dest : list Z) : res Z :=
  let acc := ip6_addr_sum src dest 0 in
  let acc := FOLD_U32T acc in
  let acc := FOLD_U32T acc in
  inet_cksum_pseudo_partial_base p proto proto_len chksum_len acc.

(** [ip_chksum_pseudo_partial] with [LWIP_IPV6 == 0], as configured. *)
Definition ip_chksum_pseudo_partial (p : chain_view) (proto proto_len chksum_len src dest : Z)
    : res Z :=
  inet_chksum_pseudo_partial p proto proto_len chksum_len src dest.

Definition inet_chksum (dataptr : Z) (data : list Z) : Z := not16 (LWIP_CHKSUM dataptr data).

Definition inet_chksum_pbuf (p : chain_view) : Z :=
  let '(acc, swapped) := chksum_chain p 0 false in
  let acc := if swapped then SWAP_BYTES_IN_WORD acc else acc in
  not16 (Z.land acc 65535).

(** [LWIP_CHKSUM_COPY_ALGORITHM == 1]: what is stored at [dst] and the sum. *)
Definition lwip_chksum_copy (dst : Z) (src : list Z) : list Z * Z :=
  (src, LWIP_CHKSUM dst src).

Example chksum_ex :
  let d := [69; 0; 0; 115; 0; 0; 64; 0; 64; 17; 0; 0; 192; 168; 0; 1; 192; 168; 0; 199] in
  (inet_chksum 1 d, inet_chksum 0 d, not16 (Algorithm1.lwip_standard_chksum d),
   not16 (Algorithm3.lwip_standard_chksum 3 d))
  = (lwip_htons 47201, lwip_htons 47201, lwip_htons 47201, lwip_htons 47201).
Proof. reflexivity. Qed.

(** ** One's complement arithmetic

    [a ~ b]: [a] and [b] are non-negative and have the same 16-bit one's
    complement representation, that is, they agree modulo [65535] and zero is
    kept apart from the other multiples. *)

Definition oceq (a b : Z) : Prop :=
  0 <= a /\ 0 <= b /\ a mod 65535 = b mod 65535 /\ (a = 0 <-> b = 0).

Declare Scope oc_scope.
Infix "~" := oceq (at level 70) : oc_scope.
#[local] Open Scope oc_scope.

(** The 16-bit representative. *)
Definition oc (n : Z) : Z := if n =? 0 then 0 else (n - 1) mod 65535 + 1.

Lemma oc_range n : 0 <= oc n <= 65535.
Proof. unfold oc. zcases; zlia. Qed.

Lemma oceq_refl a : 0 <= a -> a ~ a.
Proof. unfold oceq. tauto. Qed.

#[local] Instance oceq_sym : Symmetric oceq.
Proof. unfold oceq. intros a b. intuition. Qed.

#[local] Instance oceq_trans : Transitive oceq.
Proof. unfold oceq. intros a b c. intuition congruence. Qed.

Lemma oceq_nonneg_l a b : a ~ b -> 0 <= a.
Proof. unfold oceq. tauto. Qed.

#[local] Instance oceq_add : Proper (oceq ==> oceq ==> oceq) Z.add.
Proof.
  intros a a' (Ha & Ha' & Hm & Hz) b b' (Hb & Hb' & Hn & Hw).
  split; [lia|]. split; [lia|]. split; [|lia].
  rewrite Z.add_mod, Hm, Hn, <- Z.add_mod by lia. done.
Qed.

#[local] Instance oceq_mul : Proper (oceq ==> oceq ==> oceq) Z.mul.
Proof.
  intros a a' (Ha & Ha' & Hm & Hz) b b' (Hb & Hb' & Hn & Hw).
  split; [nia|]. split; [nia|]. split; [|nia].
  rewrite Z.mul_mod, Hm, Hn, <- Z.mul_mod by lia. done.
Qed.

Lemma oceq_65536 a : 0 <= a -> 65536 * a ~ a.
Proof.
  intros. split; [lia|]. split; [lia|]. split; [|lia].
  replace (65536 * a) with (a + a * 65535) by lia. by rewrite Z.mod_add by lia.
Qed.

Lemma oceq_2_32 a : 0 <= a -> 4294967296 * a ~ a.
Proof.
  intros. transitivity (65536 * a); [|by apply oceq_65536].
  replace (4294967296 * a) with (65536 * (65536 * a)) by lia. apply oceq_65536. lia.
Qed.

Lemma oc_oceq n : 0 <= n -> oc n ~ n.
Proof. intros. unfold oc, oceq. zcases; zlia. Qed.

Lemma oceq_unique a b : a ~ b -> a <= 65535 -> b <= 65535 -> a = b.
Proof. intros (Ha & Hb & Hm & Hz) ? ?. zlia. Qed.

Lemma oceq_oc m n : m ~ n -> m <= 65535 -> m = oc n.
Proof.
  intros H Hm. apply oceq_unique; [|done|apply oc_range].
  transitivity n; [done|]. symmetry. apply oc_oceq. unfold oceq in H. tauto.
Qed.

Lemma oc_proper a b : a ~ b -> oc a = oc b.
Proof.
  intros H. apply oceq_oc; [|apply oc_range].
  transitivity a; [|done]. apply oc_oceq. unfold oceq in H. tauto.
Qed.

(** ** The macros *)

Lemma fold_arith u : is_u32 u -> FOLD_U32T u = u / 65536 + u mod 65536.
Proof.
  unfold is_u32, FOLD_U32T, u32. intros Hu.
  rewrite Z.shiftr_div_pow2, land_65535 by lia. change (2 ^ 16) with 65536. zlia.
Qed.

Lemma fold_oceq u : is_u32 u -> FOLD_U32T u ~ u.
Proof.
  intros Hu. rewrite fold_arith by done. unfold is_u32 in Hu.
  assert (0 <= u / 65536) by (apply Z.div_pos; lia).
  rewrite (Z.div_mod u 65536) at 3 by lia.
  apply oceq_add; [symmetry; by apply oceq_65536|apply oceq_refl; zlia].
Qed.

Lemma fold_range u : is_u32 u -> 0 <= FOLD_U32T u <= 131070.
Proof. intros Hu. rewrite fold_arith by done. unfold is_u32 in Hu. zlia. Qed.

Lemma fold_17 u : 0 <= u <= 131070 -> 0 <= FOLD_U32T u <= 65535.
Proof. intros Hu. rewrite fold_arith by (unfold is_u32; lia). zlia. Qed.

Lemma fold_once u : 0 <= u <= 131070 -> FOLD_U32T u = oc u.
Proof.
  intros Hu. apply oceq_oc; [apply fold_oceq; unfold is_u32; lia|by apply fold_17].
Qed.

(** Folding twice brings every 32-bit sum down to 16 bits. *)
Lemma fold_twice u : is_u32 u -> FOLD_U32T (FOLD_U32T u) = oc u.
Proof.
  intros Hu. pose proof (fold_range u Hu). rewrite fold_once by done.
  apply oc_proper. by apply fold_oceq.
Qed.

Lemma swap_arith w : is_u16 w -> SWAP_BYTES_IN_WORD w = w mod 256 * 256 + w / 256.
Proof.
  intros Hw. change (SWAP_BYTES_IN_WORD w) with (PP_HTONS w). rewrite PP_HTONS_arith.
  unfold is_u16 in Hw. zlia.
Qed.

Lemma swap_oceq w : is_u16 w -> SWAP_BYTES_IN_WORD w ~ 256 * w.
Proof.
  intros Hw. rewrite swap_arith by done. unfold is_u16 in Hw.
  rewrite (Z.div_mod w 256) at 3 by lia.
  replace (256 * (256 * (w / 256) + w mod 256)) with (w mod 256 * 256 + 65536 * (w / 256)) by lia.
  apply oceq_add; [apply oceq_refl; zlia|]. symmetry. apply oceq_65536. zlia.
Qed.

Lemma swap_range w : is_u16 w -> is_u16 (SWAP_BYTES_IN_WORD w).
Proof. intros Hw. rewrite swap_arith by done. unfold is_u16 in *. zlia. Qed.

Lemma swap_oc n : 0 <= n -> SWAP_BYTES_IN_WORD (oc n) = oc (256 * n).
Proof.
  intros Hn. assert (Hr : is_u16 (oc n)) by (pose proof (oc_range n); unfold is_u16; lia).
  apply oceq_oc; [|pose proof (swap_range _ Hr); unfold is_u16 in *; lia].
  rewrite (swap_oceq _ Hr). apply oceq_mul; [by apply oceq_refl|by apply oc_oceq].
Qed.

(** ** The three routines compute the one's complement sum *)

(** Reference: the sum of the 16-bit words of a buffer as they lie in memory, an
    odd last byte padded with zero (RFC 1071). *)
Fixpoint word_sum (data : list Z) : Z :=
  match data with
  | a :: b :: data' => a + 256 * b + word_sum data'
  | [a] => a
  | [] => 0
  end.

Definition ones_complement_sum (data : list Z) : Z := oc (word_sum data).

Lemma word_sum_le_val data : bytes_ok data -> word_sum data ~ le_val data.
Proof.
  induction data as [|a|a b data IH] using list_pair_ind; intros H.
  - by apply oceq_refl.
  - inversion_clear H. unfold is_u8 in *. cbn -[Z.mul]. rewrite Z.add_0_r. apply oceq_refl. lia.
  - inversion_clear H as [|? ? Ha H']. inversion_clear H' as [|? ? Hb H]. unfold is_u8 in *.
    cbn [word_sum le_val].
    replace (a + 256 * (b + 256 * le_val data)) with (a + 256 * b + 65536 * le_val data) by lia.
    apply oceq_add; [apply oceq_refl; lia|].
    transitivity (le_val data); [by apply IH|]. symmetry. apply oceq_65536. by apply le_val_nonneg.
Qed.

Lemma ones_sum_le_val data : bytes_ok data -> ones_complement_sum data = oc (le_val data).
Proof. intros. by apply oc_proper, word_sum_le_val. Qed.

(** Shifting the data by one byte swaps the bytes of the sum. *)
Lemma oc_swap_back n : 0 <= n -> SWAP_BYTES_IN_WORD (oc (256 * n)) = oc n.
Proof.
  intros. rewrite swap_oc by lia. apply oc_proper.
  replace (256 * (256 * n)) with (65536 * n) by lia. by apply oceq_65536.
Qed.

Lemma oc_u16 n : u16 (oc n) = oc n.
Proof. apply u16_id. pose proof (oc_range n). unfold is_u16. lia. Qed.

(** Number of 16-bit words in a buffer, rounded down. *)
Definition words (data : list Z) : Z := Z.of_nat (length data) / 2.

Lemma words_cons2 a b data : words (a :: b :: data) = words data + 1.
Proof.
  unfold words. cbn [length].
  replace (Z.of_nat (S (S (length data)))) with (Z.of_nat (length data) + 1 * 2) by lia.
  apply Z.div_add. lia.
Qed.

Lemma words_nonneg data : 0 <= words data.
Proof. unfold words. zlia. Qed.

Lemma words_bound data n : Z.of_nat (length data) <= n -> words data <= n / 2.
Proof. intros. unfold words. apply Z.div_le_mono; lia. Qed.

(** The loop of algorithms 2 and 3 over 16-bit words. *)
Lemma sum_words_spec ps : forall sum,
  bytes_ok ps -> 0 <= sum -> sum + 65535 * words ps < 4294967296 ->
  exists s rest, Algorithm2.sum_words ps sum = (s, rest)
    /\ s + le_val rest ~ sum + le_val ps /\ 0 <= s <= sum + 65535 * words ps
    /\ (rest = [] \/ exists b, rest = [b] /\ is_u8 b).
Proof.
  induction ps as [|a|a b ps IH] using list_pair_ind; intros sum H Hs Hb.
  - exists sum, []. split; [done|]. split; [apply oceq_refl; cbn; lia|]. split; [pose proof (words_nonneg []); lia|by left].
  - inversion_clear H. exists sum, [a]. split; [done|].
    split; [apply oceq_refl; unfold is_u8 in *; cbn -[Z.mul]; lia|]. split; [pose proof (words_nonneg [a]); lia|right; eauto].
  - inversion_clear H as [|? ? Ha H']. inversion_clear H' as [|? ? Hb' H]. unfold is_u8 in *.
    rewrite words_cons2 in Hb. pose proof (words_nonneg ps).
    assert (Hw : le_val [a; b] = a + 256 * b) by (cbn -[Z.mul]; lia).
    change (Algorithm2.sum_words (a :: b :: ps) sum)
      with (Algorithm2.sum_words ps (u32 (sum + le_val [a; b]))).
    rewrite Hw, u32_id by (unfold is_u32; lia).
    destruct (IH (sum + (a + 256 * b))) as (s & rest & -> & Hv & Hr & Hrest); [done|lia|lia|].
    exists s, rest. split; [done|]. split; [|split; [rewrite words_cons2; lia|done]].
    rewrite Hv. cbn [le_val].
    replace (sum + (a + 256 * (b + 256 * le_val ps)))
      with (sum + (a + 256 * b) + 65536 * le_val ps) by lia.
    apply oceq_add; [apply oceq_refl; lia|]. symmetry. apply oceq_65536. by apply le_val_nonneg.
Qed.

(** The tail of algorithms 2 and 3: the end bytes [t] are added and the sum is
    folded; [base] is what the whole sum stands for. *)
Definition finish (s : Z) (rest : list Z) (t1 : Z) (odd : bool) : Z :=
  let t0 := match rest with b :: _ => b | [] => 0 end in
  let sum := u32 (s + le_val [t0; t1]) in
  let sum := FOLD_U32T sum in
  let sum := FOLD_U32T sum in
  let sum := if odd then SWAP_BYTES_IN_WORD sum else sum in
  u16 sum.

Lemma finish_spec (s : Z) (rest : list Z) (t1 : Z) (odd : bool) (base : Z) :
  0 <= s -> is_u8 t1 -> (rest = [] \/ exists b, rest = [b] /\ is_u8 b) ->
  s + le_val rest + 256 * t1 < 4294967296 -> 0 <= base ->
  s + le_val rest + 256 * t1 ~ (if odd then 256 * base else base) ->
  finish s rest t1 odd = oc base.
Proof.
  intros Hs Ht Hrest Hb Hbase Hv. unfold finish. unfold is_u8 in *.
  assert (Et : le_val [match rest with b :: _ => b | [] => 0 end; t1] = le_val rest + 256 * t1)
    by (destruct Hrest as [-> | (b & -> & _)]; cbn -[Z.mul]; lia).
  assert (0 <= le_val rest) by (destruct Hrest as [-> | (b & -> & ?)]; cbn -[Z.mul]; lia).
  rewrite Et, u32_id by (unfold is_u32; lia).
  rewrite fold_twice by (unfold is_u32; lia). rewrite Z.add_assoc.
  rewrite (oc_proper _ _ Hv). destruct odd; [rewrite oc_swap_back by done|]; apply oc_u16.
Qed.

Lemma chksum2_correct dataptr data :
  bytes_ok data -> Z.of_nat (length data) <= 131072 ->
  Algorithm2.lwip_standard_chksum dataptr data = oc (le_val data).
Proof.
  intros Hok Hlen. pose proof (le_val_nonneg _ Hok).
  unfold Algorithm2.lwip_standard_chksum.
  destruct (Z.odd dataptr) eqn:Eodd; [destruct data as [|b pb]; [reflexivity|]|].
  - inversion_clear Hok as [|? ? Hb Hpb]. cbn [length] in Hlen. pose proof (words_bound pb 131071 ltac:(lia)).
    change (131071 / 2) with 65535 in *. unfold is_u8 in *.
    destruct (sum_words_spec pb 0) as (s & rest & -> & Hv & Hr & Hrest); [done|lia|lia|].
    assert (le_val rest < 256) by (destruct Hrest as [-> | (? & -> & ?)]; unfold is_u8 in *; cbn -[Z.mul]; lia).
    apply (finish_spec s rest b true); [lia|unfold is_u8; lia|done|lia|done|].
    transitivity (le_val pb + 256 * b); [apply oceq_add; [exact Hv|apply oceq_refl; lia]|].
    cbn [le_val]. replace (256 * (b + 256 * le_val pb)) with (65536 * le_val pb + 256 * b) by lia.
    apply oceq_add; [|apply oceq_refl; lia]. symmetry. apply oceq_65536. by apply le_val_nonneg.
  - pose proof (words_bound data 131072 ltac:(lia)). change (131072 / 2) with 65536 in *.
    destruct (sum_words_spec data 0) as (s & rest & -> & Hv & Hr & Hrest); [done|lia|lia|].
    assert (le_val rest < 256) by (destruct Hrest as [-> | (? & -> & ?)]; unfold is_u8 in *; cbn -[Z.mul]; lia).
    apply (finish_spec s rest 0 false); [lia|unfold is_u8; lia|done|lia|done|].
    by rewrite Z.mul_0_r, Z.add_0_r.
Qed.

(** Algorithm 1 adds the words most significant byte first. *)
Lemma sum_words1_spec data : forall acc,
  bytes_ok data -> 0 <= acc -> acc + 65535 * words data + 65280 < 4294967296 ->
  Algorithm1.sum_words data acc ~ acc + 256 * le_val data
  /\ is_u32 (Algorithm1.sum_words data acc).
Proof.
  induction data as [|a|a b data IH] using list_pair_ind; intros acc H Hs Hb.
  - cbn [Algorithm1.sum_words le_val]. rewrite Z.mul_0_r, Z.add_0_r.
    split; [by apply oceq_refl|]. pose proof (words_nonneg []). unfold is_u32. lia.
  - inversion_clear H as [|? ? Ha _]. unfold is_u8 in Ha. pose proof (words_nonneg [a]).
    cbn [Algorithm1.sum_words le_val]. rewrite Z.shiftl_mul_pow2 by lia. change (2 ^ 8) with 256.
    rewrite (u16_id (a * 256)), u32_id by (unfold is_u16, is_u32; lia).
    split; [|unfold is_u32; lia].
    replace (acc + 256 * (a + 256 * 0)) with (acc + a * 256) by lia. apply oceq_refl. lia.
  - inversion_clear H as [|? ? Ha H']. inversion_clear H' as [|? ? Hb' H]. unfold is_u8 in *.
    rewrite words_cons2 in Hb. pose proof (words_nonneg data).
    cbn [Algorithm1.sum_words]. rewrite Z.shiftl_mul_pow2 by lia. change (2 ^ 8) with 256.
    rewrite (u16_id (a * 256)) by (unfold is_u16; lia).
    replace (Z.lor (a * 256) b) with (a * 256 + b)
      by (symmetry; exact (lor_disjoint a b 8 ltac:(lia) Hb')).
    rewrite u32_id by (unfold is_u32; lia).
    destruct (IH (acc + (a * 256 + b))) as [Hv Hr]; [done|lia|lia|].
    split; [|done]. rewrite Hv. cbn [le_val]. pose proof (le_val_nonneg _ H).
    replace (acc + 256 * (a + 256 * (b + 256 * le_val data)))
      with (acc + a * 256 + 65536 * (b + 256 * le_val data)) by lia.
    replace (acc + (a * 256 + b) + 256 * le_val data)
      with (acc + a * 256 + (b + 256 * le_val data)) by lia.
    apply oceq_add; [apply oceq_refl; lia|]. symmetry. apply oceq_65536. lia.
Qed.

Lemma high_half_zero acc : is_u32 acc -> (Z.land acc 4294901760 =? 0) = (acc <? 65536).
Proof.
  unfold is_u32. intros H.
  replace (Z.land acc 4294901760) with ((acc / 65536) mod 65536 * 65536)
    by (symmetry; exact (land_field acc 16 16 ltac:(lia) ltac:(lia))).
  destruct (Z.ltb_spec acc 65536); [apply Z.eqb_eq|apply Z.eqb_neq]; zlia.
Qed.

Lemma htons_swap n : lwip_htons (oc n) = SWAP_BYTES_IN_WORD (oc n).
Proof.
  pose proof (oc_range n). unfold lwip_htons. apply u16_id.
  apply swap_range. unfold is_u16. lia.
Qed.

Lemma chksum1_correct data :
  bytes_ok data -> Z.of_nat (length data) <= 131072 ->
  Algorithm1.lwip_standard_chksum data = oc (le_val data).
Proof.
  intros Hok Hlen. pose proof (le_val_nonneg _ Hok).
  pose proof (words_bound data 131072 ltac:(lia)). change (131072 / 2) with 65536 in *.
  destruct (sum_words1_spec data 0) as [Hv Hr]; [done|lia|lia|].
  set (acc := Algorithm1.sum_words data 0) in *. cbn [Z.add] in Hv.
  assert (E : Algorithm1.lwip_standard_chksum data = lwip_htons (oc acc)).
  { unfold Algorithm1.lwip_standard_chksum. fold acc. fold (FOLD_U32T acc).
    pose proof (fold_range acc Hr). rewrite high_half_zero by (unfold is_u32; lia).
    fold (FOLD_U32T (FOLD_U32T acc)). f_equal.
    destruct (Z.ltb_spec (FOLD_U32T acc) 65536); cbn [negb].
    - rewrite u16_id by (unfold is_u16; lia). apply oceq_oc; [by apply fold_oceq|lia].
    - rewrite fold_twice by done. apply oc_u16. }
  rewrite E, htons_swap, (oc_proper _ _ Hv). by apply oc_swap_back.
Qed.

Lemma add_carry_spec y w :
  is_u32 y -> is_u32 w -> Algorithm3.add_carry y w ~ y + w /\ is_u32 (Algorithm3.add_carry y w).
Proof.
  unfold is_u32, Algorithm3.add_carry, u32. intros Hy Hw.
  assert (E : (if (y + w) mod 4294967296 <? y then ((y + w) mod 4294967296 + 1) mod 4294967296
               else (y + w) mod 4294967296)
              = if y + w <? 4294967296 then y + w else y + w - 4294967295)
    by (zcases; zlia).
  rewrite E. clear E. destruct (Z.ltb_spec (y + w) 4294967296); (split; [|lia]);
    [apply oceq_refl; lia|].
  replace (y + w - 4294967295) with (y + w - 4294967296 + 1) by lia.
  replace (y + w) with (y + w - 4294967296 + 4294967296 * 1) at 2 by lia.
  apply oceq_add; [apply oceq_refl; lia|]. symmetry. apply oceq_2_32. lia.
Qed.

Lemma sum_longs_spec n : forall pl sum,
  (length pl <= n)%nat -> bytes_ok pl -> is_u32 sum ->
  exists s rest, Algorithm3.sum_longs pl sum = (s, rest)
    /\ s + le_val rest ~ sum + le_val pl /\ is_u32 s /\ bytes_ok rest
    /\ (length rest <= 7)%nat.
Proof.
  induction n as [|n IH]; intros pl sum Hn Hok Hs.
  { destruct pl; cbn in Hn; [|lia]. exists sum, []. split; [done|].
    split; [apply oceq_refl; unfold is_u32 in *; cbn; lia|]. split; [done|]. split; [done|cbn; lia]. }
  destruct pl as [|a [|b [|c [|d [|e [|f [|g [|h pl]]]]]]]];
    try (eexists sum, _; split; [reflexivity|];
         split; [apply oceq_refl; unfold is_u32 in Hs; pose proof (le_val_nonneg _ Hok); lia|];
         split; [done|]; split; [done|cbn; lia]).
  change (a :: b :: c :: d :: e :: f :: g :: h :: pl) with ([a; b; c; d] ++ [e; f; g; h] ++ pl) in Hok.
  apply bytes_ok_app in Hok as [H1 Hok]. apply bytes_ok_app in Hok as [H2 Hok].
  cbn [Algorithm3.sum_longs].
  change (a :: b :: c :: d :: e :: f :: g :: h :: pl) with ([a; b; c; d] ++ [e; f; g; h] ++ pl).
  rewrite !le_val_app. pose proof (le_val_range _ H1) as R1. pose proof (le_val_range _ H2) as R2.
  pose proof (le_val_nonneg _ Hok) as R3.
  change (256 ^ Z.of_nat (length [a; b; c; d])) with 4294967296 in *.
  change (256 ^ Z.of_nat (length [e; f; g; h])) with 4294967296 in *.
  destruct (add_carry_spec sum (le_val [a; b; c; d]) Hs R1) as [V1 U1].
  destruct (add_carry_spec (Algorithm3.add_carry sum (le_val [a; b; c; d])) (le_val [e; f; g; h]) U1 R2) as [V2 U2].
  destruct (IH pl _ ltac:(cbn in Hn; lia) Hok U2) as (s & rest & -> & Hv & Hrest).
  exists s, rest. split; [done|]. split; [|done]. rewrite Hv.
  transitivity (sum + le_val [a; b; c; d] + le_val [e; f; g; h] + le_val pl).
  - apply oceq_add; [|by apply oceq_refl]. rewrite V2.
    apply oceq_add; [done|apply oceq_refl; lia].
  - unfold is_u32 in *.
    rewrite <- !Z.add_assoc. apply oceq_add; [apply oceq_refl; lia|].
    apply oceq_add; [apply oceq_refl; lia|]. symmetry. rewrite oceq_2_32 by lia.
    apply oceq_add; [apply oceq_refl; lia|]. apply oceq_2_32. lia.
Qed.

(** Algorithm 3 from the point where [t] and the first half word are done. *)
Lemma chksum3_tail pl sum t1 (odd : bool) base :
  bytes_ok pl -> is_u16 sum -> is_u8 t1 -> 0 <= base ->
  sum + le_val pl + 256 * t1 ~ (if odd then 256 * base else base) ->
  (let '(sum, ps) := Algorithm3.sum_longs pl sum in
   let sum := FOLD_U32T sum in
   let '(sum, ps) := Algorithm2.sum_words ps sum in
   finish sum ps t1 odd) = oc base.
Proof.
  intros Hok Hs Ht Hb Hv.
  destruct (sum_longs_spec (length pl) pl sum) as (s & rest & -> & Hv1 & U1 & Hok1 & Hl);
    [lia|done|unfold is_u16, is_u32 in *; lia|].
  pose proof (fold_range s U1). pose proof (words_bound rest 7 ltac:(lia)). change (7 / 2) with 3 in *.
  cbv zeta.
  destruct (sum_words_spec rest (FOLD_U32T s)) as (s2 & rest2 & -> & Hv2 & Hr2 & Hrest2); [done|lia|lia|].
  assert (le_val rest2 < 256) by (destruct Hrest2 as [-> | (? & -> & ?)]; unfold is_u8 in *; cbn -[Z.mul]; lia).
  unfold is_u8 in *.
  apply finish_spec; [lia|unfold is_u8; lia|done|lia|done|].
  rewrite <- Hv. apply oceq_add; [|apply oceq_refl; lia]. rewrite Hv2, <- Hv1.
  apply oceq_add; [by apply fold_oceq|apply oceq_refl; by apply le_val_nonneg].
Qed.

Lemma chksum3_correct dataptr data :
  bytes_ok data -> Algorithm3.lwip_standard_chksum dataptr data = oc (le_val data).
Proof.
  intros Hok. pose proof (le_val_nonneg _ Hok) as Hnn.
  unfold Algorithm3.lwip_standard_chksum.
  assert (Hhalf : forall (c : bool) ps t1 odd, bytes_ok ps -> is_u8 t1 ->
    le_val ps + 256 * t1 ~ (if odd : bool then 256 * le_val data else le_val data) ->
    (let '(sum, pl) := match c, ps with
                       | true, a :: b :: pl => (le_val [a; b], pl) | _, _ => (0, ps) end in
     let '(sum, ps) := Algorithm3.sum_longs pl sum in
     let sum := FOLD_U32T sum in
     let '(sum, ps) := Algorithm2.sum_words ps sum in
     finish sum ps t1 odd) = oc (le_val data)).
  { intros c ps t1 odd Hps Ht Hv. assert (H0 : is_u16 0) by (unfold is_u16; lia).
    destruct c; [|by apply chksum3_tail].
    destruct ps as [|a [|b pl]]; [by apply chksum3_tail..|].
    inversion_clear Hps as [|? ? Ha H']. inversion_clear H' as [|? ? Hb H]. unfold is_u8 in *.
    assert (Ew : le_val [a; b] = a + 256 * b) by (cbn -[Z.mul]; lia).
    apply chksum3_tail; [done|rewrite Ew; unfold is_u16; lia|done|done|].
    rewrite <- Hv, Ew. pose proof (le_val_nonneg _ H). apply oceq_add; [|apply oceq_refl; lia].
    cbn [le_val]. replace (a + 256 * (b + 256 * le_val pl)) with (a + 256 * b + 65536 * le_val pl) by lia.
    apply oceq_add; [apply oceq_refl; lia|]. symmetry. by apply oceq_65536. }
  destruct (Z.odd dataptr); [destruct data as [|b pb]|].
  - destruct (negb _); reflexivity.
  - inversion_clear Hok as [|? ? Hb Hpb]. apply (Hhalf _ pb b true); [done|done|].
    unfold is_u8 in Hb. cbn [le_val].
    replace (256 * (b + 256 * le_val pb)) with (65536 * le_val pb + 256 * b) by lia.
    apply oceq_add; [|apply oceq_refl; lia]. symmetry. apply oceq_65536. by apply le_val_nonneg.
  - apply (Hhalf _ data 0 false); [done|unfold is_u8; lia|].
    rewrite Z.mul_0_r, Z.add_0_r. by apply oceq_refl.
Qed.

(** ** Checksums over chains *)

(** All bytes of a chain, in order. *)
Definition chain_bytes (v : chain_view) : list Z := mjoin (snd <$> v).

(** Every pbuf holds bytes, at most as many as a [u16_t] length can say. *)
Definition view_ok (v : chain_view) : Prop :=
  Forall (fun q => bytes_ok (snd q) /\ Z.of_nat (length (snd q)) <= 65535) v.

Lemma chain_bytes_ok v : view_ok v -> bytes_ok (chain_bytes v).
Proof.
  induction 1 as [|q v [Hq _] _ IH]; [constructor|].
  unfold chain_bytes. cbn. by apply bytes_ok_app.
Qed.

(** The weight of a byte at an even or odd offset. *)
Definition wt (odd : bool) : Z := if odd then 256 else 1.

Lemma wt_pos b : 0 < wt b.
Proof. destruct b; cbn; lia. Qed.

Lemma wt_mul a b : wt a * wt b ~ wt (xorb a b).
Proof.
  destruct a, b; cbn [xorb wt Z.mul]; try (apply oceq_refl; lia). exact (oceq_65536 1 ltac:(lia)).
Qed.

Lemma wt_pow n : 256 ^ Z.of_nat n ~ wt (Nat.odd n).
Proof.
  induction n as [|n IH]; [apply oceq_refl; cbn; lia|].
  rewrite Nat2Z.inj_succ, Z.pow_succ_r, Nat.odd_succ, <- Nat.negb_odd by lia.
  transitivity (wt true * wt (Nat.odd n)); [apply oceq_mul; [apply oceq_refl; cbn; lia|done]|].
  rewrite wt_mul, xorb_true_l. apply oceq_refl. pose proof (wt_pos (negb (Nat.odd n))). lia.
Qed.

Lemma le_val_app_oceq xs ys :
  bytes_ok xs -> bytes_ok ys ->
  le_val (xs ++ ys) ~ le_val xs + wt (Nat.odd (length xs)) * le_val ys.
Proof.
  intros Hx Hy. rewrite le_val_app. apply oceq_add; [apply oceq_refl; by apply le_val_nonneg|].
  apply oceq_mul; [apply wt_pow|apply oceq_refl; by apply le_val_nonneg].
Qed.

(** One pbuf: [X] is the sum so far with its bytes in place, [sw] says whether
    the accumulator holds it with the bytes swapped. *)
Lemma chksum_pbuf_step_spec payload bs len (sw : bool) X :
  bytes_ok bs -> Z.of_nat (length bs) <= 65535 -> 0 <= X ->
  chksum_pbuf_step payload bs len (oc (wt sw * X)) sw
  = (oc (wt (xorb sw (Nat.odd len)) * (X + wt sw * le_val bs)), xorb sw (Nat.odd len)).
Proof.
  intros Hok Hlen HX. unfold chksum_pbuf_step, LWIP_CHKSUM.
  rewrite chksum2_correct by (done || lia).
  pose proof (le_val_nonneg _ Hok) as Hv. pose proof (wt_pos sw) as Hw.
  set (v := le_val bs) in *. pose proof (oc_range (wt sw * X)). pose proof (oc_range v).
  rewrite u32_id by (unfold is_u32; lia). rewrite fold_once by lia.
  assert (E : oc (oc (wt sw * X) + oc v) = oc (wt sw * (X + wt sw * v))).
  { apply oc_proper. rewrite Z.mul_add_distr_l.
    apply oceq_add; [apply oc_oceq; nia|]. rewrite oc_oceq by done. symmetry.
    rewrite Z.mul_assoc. rewrite <- (Z.mul_1_l v) at 2.
    apply oceq_mul; [|by apply oceq_refl]. rewrite wt_mul, xorb_nilpotent. by apply oceq_refl. }
  rewrite E. destruct (Nat.odd len); [|by rewrite xorb_false_r].
  rewrite swap_oc by nia. rewrite xorb_true_r. f_equal. apply oc_proper.
  rewrite Z.mul_assoc. apply oceq_mul; [|apply oceq_refl; nia].
  change 256 with (wt true). rewrite wt_mul, xorb_true_l. apply oceq_refl.
  pose proof (wt_pos (negb sw)). lia.
Qed.

Lemma chksum_chain_spec q : forall (sw : bool) X,
  view_ok q -> 0 <= X ->
  chksum_chain q (oc (wt sw * X)) sw
  = (let sw' := xorb sw (Nat.odd (length (chain_bytes q))) in
     (oc (wt sw' * (X + wt sw * le_val (chain_bytes q))), sw')).
Proof.
  induction q as [|[payload bs] q IH]; intros sw X Hok HX; cbn [chksum_chain].
  - cbn. rewrite xorb_false_r, Z.mul_0_r, Z.add_0_r. done.
  - inversion_clear Hok as [|? ? [Hbs Hlen] Hq]. cbn [snd] in *.
    pose proof (le_val_nonneg _ Hbs) as Hv. pose proof (wt_pos sw) as Hw.
    pose proof (le_val_nonneg _ (chain_bytes_ok _ Hq)) as HL.
    rewrite chksum_pbuf_step_spec by done. rewrite IH by (done || nia).
    change (chain_bytes ((payload, bs) :: q)) with (bs ++ chain_bytes q).
    rewrite length_app, Nat.odd_add, <- xorb_assoc. cbv zeta. f_equal.
    apply oc_proper. set (sw' := xorb (xorb sw (Nat.odd (length bs))) _).
    pose proof (wt_pos sw'). pose proof (wt_pos (xorb sw (Nat.odd (length bs)))).
    apply oceq_mul; [apply oceq_refl; lia|]. rewrite <- Z.add_assoc.
    apply oceq_add; [by apply oceq_refl|]. symmetry.
    transitivity (wt sw * (le_val bs + wt (Nat.odd (length bs)) * le_val (chain_bytes q))).
    { apply oceq_mul; [apply oceq_refl; lia|]. apply le_val_app_oceq; [done|by apply chain_bytes_ok]. }
    rewrite Z.mul_add_distr_l. apply oceq_add; [apply oceq_refl; nia|].
    rewrite Z.mul_assoc. apply oceq_mul; [apply wt_mul|by apply oceq_refl].
Qed.

(** The swap after the loop. *)
Lemma unswap_oc (sw : bool) X :
  0 <= X -> (if sw then SWAP_BYTES_IN_WORD (oc (wt sw * X)) else oc (wt sw * X)) = oc X.
Proof. intros. destruct sw; [by apply oc_swap_back|]. cbn [wt]. by rewrite Z.mul_1_l. Qed.

Lemma not16_oc n : not16 (Z.land (oc n) 65535) = 65535 - oc n.
Proof.
  pose proof (oc_range n). rewrite land_65535, Z.mod_small by lia.
  unfold not16, u16, Z.lnot. zlia.
Qed.

(** The Internet checksum of a buffer: the complement of the sum. *)
Definition internet_checksum (data : list Z) : Z := 65535 - ones_complement_sum data.

(** The pseudo header of RFC 793 and RFC 768, addresses in network order. *)
Definition pseudo_header (src dest proto proto_len : Z) : list Z :=
  le_bytes 4 src ++ le_bytes 4 dest ++ [0; proto; proto_len / 256; proto_len mod 256].

(** The IPv6 one as the code sums it: addresses, next header and a 16-bit
    length. *)
Definition addr_words (ws : list Z) : list Z := mjoin (le_bytes 4 <$> ws).

Lemma add_addr_spec acc addr :
  0 <= acc <= 1048560 -> is_u32 addr ->
  add_addr acc addr = acc + (addr mod 65536 + addr / 65536).
Proof.
  intros Hacc Ha. unfold add_addr, is_u32 in *.
  rewrite Z.shiftr_div_pow2, !land_65535 by lia. change (2 ^ 16) with 65536.
  assert (0 <= addr / 65536 < 65536) by zlia. assert (0 <= addr mod 65536 < 65536) by zlia.
  rewrite (Z.mod_small (addr / 65536)) by lia.
  rewrite (u32_id (acc + addr mod 65536)) by (unfold is_u32; lia).
  rewrite u32_id by (unfold is_u32; lia). lia.
Qed.

Lemma addr_halves addr : is_u32 addr -> addr mod 65536 + addr / 65536 ~ addr.
Proof.
  unfold is_u32. intros Ha. rewrite (Z.div_mod addr 65536) at 3 by lia.
  rewrite Z.add_comm. apply oceq_add; [symmetry; apply oceq_65536; zlia|apply oceq_refl; zlia].
Qed.

Lemma bytes_ok_pseudo src dest proto plen :
  is_u8 proto -> is_u16 plen -> bytes_ok (pseudo_header src dest proto plen).
Proof.
  intros Hp Hl. unfold is_u8, is_u16 in *. unfold pseudo_header.
  apply bytes_ok_app. split; [apply le_bytes_ok|]. apply bytes_ok_app. split; [apply le_bytes_ok|].
  repeat constructor; unfold is_u8; zlia.
Qed.

(** Complementing the sum of a base and two 16-bit fields. *)
Lemma pseudo_base_spec p proto plen X :
  view_ok p -> is_u8 proto -> is_u16 plen -> 0 <= X ->
  inet_cksum_pseudo_base p proto plen (oc X)
  = 65535 - oc (X + le_val [0; proto; plen / 256; plen mod 256] + le_val (chain_bytes p)).
Proof.
  intros Hp Hproto Hplen HX. unfold inet_cksum_pseudo_base.
  replace (oc X) with (oc (wt false * X)) by (cbn [wt]; by rewrite Z.mul_1_l).
  pose proof (le_val_nonneg _ (chain_bytes_ok _ Hp)) as HL.
  rewrite chksum_chain_spec by done. cbv beta iota zeta. rewrite unswap_oc by (cbn [wt]; lia).
  cbn [wt]. rewrite Z.mul_1_l. set (Y := X + le_val (chain_bytes p)).
  pose proof (oc_range Y). unfold is_u8, is_u16 in *.
  rewrite (u16_id proto) by (unfold is_u16; lia).
  rewrite (lwip_htons_arith proto), (lwip_htons_arith plen).
  rewrite (u32_id (oc Y + _)) by (unfold is_u32; zlia). rewrite u32_id by (unfold is_u32; zlia).
  rewrite fold_twice by (unfold is_u32; zlia). rewrite not16_oc. f_equal. apply oc_proper.
  rewrite <- Z.add_assoc.
  replace (X + le_val [0; proto; plen / 256; plen mod 256] + le_val (chain_bytes p))
    with (Y + (256 * proto + 65536 * (plen / 256 + 256 * (plen mod 256))))
    by (unfold Y; cbn -[Z.mul Z.div Z.modulo]; lia).
  replace (proto mod 256 * 256 + (proto / 256) mod 256) with (256 * proto) by zlia.
  replace (plen mod 256 * 256 + (plen / 256) mod 256)
    with (plen / 256 + 256 * (plen mod 256)) by zlia.
  apply oceq_add; [apply oc_oceq; lia|]. apply oceq_add; [apply oceq_refl; lia|].
  symmetry. apply oceq_65536. zlia.
Qed.

Lemma pseudo_header_val src dest proto plen rest :
  is_u32 src -> is_u32 dest -> is_u8 proto -> is_u16 plen -> bytes_ok rest ->
  le_val (pseudo_header src dest proto plen ++ rest)
  ~ src + dest + le_val [0; proto; plen / 256; plen mod 256] + le_val rest.
Proof.
  intros Hs Hd Hp Hl Hr. unfold pseudo_header, is_u32 in *. pose proof (le_val_nonneg _ Hr).
  assert (Hf : 0 <= le_val [0; proto; plen / 256; plen mod 256]).
  { apply le_val_nonneg. unfold is_u8, is_u16 in *. repeat constructor; unfold is_u8; zlia. }
  rewrite <- !app_assoc, !le_val_app, !length_le_bytes, !le_val_bytes by (cbn; lia).
  change (256 ^ Z.of_nat 4) with 4294967296.
  change (256 ^ Z.of_nat (length [0; proto; plen / 256; plen mod 256])) with 4294967296.
  set (f := le_val [0; proto; _; _]) in *.
  rewrite <- !Z.add_assoc. apply oceq_add; [apply oceq_refl; lia|].
  rewrite oceq_2_32 by nia. apply oceq_add; [apply oceq_refl; lia|].
  rewrite oceq_2_32 by nia. apply oceq_add; [by apply oceq_refl|]. by apply oceq_2_32.
Qed.

Lemma internet_checksum_val data X :
  bytes_ok data -> le_val data ~ X -> internet_checksum data = 65535 - oc X.
Proof.
  intros Hok Hv. unfold internet_checksum. rewrite ones_sum_le_val by done.
  by rewrite (oc_proper _ _ Hv).
Qed.

(** The accumulator that the IPv4 functions start from. *)
Lemma addr_acc_spec src dest :
  is_u32 src -> is_u32 dest ->
  FOLD_U32T (FOLD_U32T (add_addr (add_addr 0 src) dest)) = oc (src + dest).
Proof.
  intros Hs Hd. pose proof (addr_halves src Hs) as Es. pose proof (addr_halves dest Hd) as Ed.
  unfold is_u32 in *.
  rewrite (add_addr_spec 0 src) by (unfold is_u32; lia). rewrite Z.add_0_l.
  rewrite add_addr_spec by (unfold is_u32; zlia). rewrite fold_twice by (unfold is_u32; zlia).
  apply oc_proper, oceq_add; done.
Qed.

Lemma addr_words_val ws :
  Forall is_u32 ws -> le_val (addr_words ws) ~ foldr Z.add 0 ws /\ bytes_ok (addr_words ws)
  /\ 0 <= foldr Z.add 0 ws.
Proof.
  induction 1 as [|w ws Hw Hws (IH & Hok & Hnn)]; [by split_and!; [apply oceq_refl|constructor|]|].
  change (addr_words (w :: ws)) with (le_bytes 4 w ++ addr_words ws).
  cbn [foldr]. unfold is_u32 in Hw. split_and!.
  - rewrite le_val_app, length_le_bytes, le_val_bytes by (cbn; lia).
    apply oceq_add; [apply oceq_refl; lia|]. change (256 ^ Z.of_nat 4) with 4294967296.
    rewrite oceq_2_32 by (by apply le_val_nonneg). done.
  - apply bytes_ok_app. split; [apply le_bytes_ok|done].
  - lia.
Qed.

Lemma ip6_addr_sum_spec src : forall dest acc,
  length src = length dest -> Forall is_u32 src -> Forall is_u32 dest ->
  0 <= acc <= 1048560 - 262140 * Z.of_nat (length src) ->
  ip6_addr_sum src dest acc ~ acc + (foldr Z.add 0 src + foldr Z.add 0 dest)
  /\ 0 <= ip6_addr_sum src dest acc <= acc + 262140 * Z.of_nat (length src).
Proof.
  induction src as [|s src IH]; intros [|d dest] acc Hl Hs Hd Hacc; try discriminate Hl.
  - cbn [ip6_addr_sum foldr length]. rewrite !Z.add_0_r. split; [apply oceq_refl; lia|lia].
  - inversion_clear Hs as [|? ? Hs1 Hs2]. inversion_clear Hd as [|? ? Hd1 Hd2].
    pose proof (addr_halves s Hs1) as Es. pose proof (addr_halves d Hd1) as Ed.
    cbn [ip6_addr_sum foldr length] in *. unfold is_u32 in *.
    rewrite (add_addr_spec acc s) by (unfold is_u32; lia).
    rewrite add_addr_spec by (unfold is_u32; zlia).
    assert (0 <= s mod 65536 + s / 65536 <= 131070) by zlia.
    assert (0 <= d mod 65536 + d / 65536 <= 131070) by zlia.
    destruct (IH dest (acc + (s mod 65536 + s / 65536) + (d mod 65536 + d / 65536)))
      as [Hv Hr]; [lia|done|done|lia|].
    split; [|lia]. rewrite Hv.
    destruct (addr_words_val src Hs2) as (_ & _ & ?). destruct (addr_words_val dest Hd2) as (_ & _ & ?).
    replace (acc + (s + foldr Z.add 0 src + (d + foldr Z.add 0 dest)))
      with (acc + s + d + (foldr Z.add 0 src + foldr Z.add 0 dest)) by lia.
    apply oceq_add; [|apply oceq_refl; lia].
    apply oceq_add; [|done]. apply oceq_add; [apply oceq_refl; lia|done].
Qed.

(** The chain loop of the partial checksum covers the first [n] bytes. *)
Lemma chksum_chain_partial_spec q : forall n (sw : bool) X,
  view_ok q -> is_u16 n -> 0 <= X ->
  match q with [] => True | (_, bs) :: _ => n - Z.of_nat (length bs) < 32767 end ->
  exists sw', chksum_chain_partial q n (oc (wt sw * X)) sw
    = Ok (oc (wt sw' * (X + wt sw * le_val (take (Z.to_nat n) (chain_bytes q)))), sw').
Proof.
  induction q as [|[payload bs] q IH]; intros n sw X Hok Hn HX Hhd; cbn [chksum_chain_partial].
  - exists sw. cbn. rewrite take_nil. cbn. by rewrite Z.mul_0_r, Z.add_0_r.
  - inversion_clear Hok as [|? ? [Hbs Hlen] Hq]. cbn [snd] in *. unfold is_u16 in Hn.
    change (chain_bytes ((payload, bs) :: q)) with (bs ++ chain_bytes q).
    destruct (Z.ltb_spec 0 n).
    2:{ exists sw. replace n with 0 by lia. cbn. by rewrite Z.mul_0_r, Z.add_0_r. }
    pose proof (wt_pos sw).
    assert (Hst : forall m, chksum_pbuf_step payload (take m bs) (length bs) (oc (wt sw * X)) sw
      = (oc (wt (xorb sw (Nat.odd (length bs))) * (X + wt sw * le_val (take m bs))),
         xorb sw (Nat.odd (length bs)))).
    { intros m. apply chksum_pbuf_step_spec; [by apply bytes_ok_take| |done].
      rewrite length_take. lia. }
    destruct (Z.ltb_spec n (Z.of_nat (length bs))); rewrite Hst; cbv beta iota zeta.
    + rewrite u16_id by (unfold is_u16; lia). replace (n - n) with 0 by lia. cbn [Z.ltb Z.compare lwip_assert res_bind].
      exists (xorb sw (Nat.odd (length bs))). rewrite take_app_le by lia. destruct q as [|[? ?] ?]; reflexivity.
    + rewrite Nat2Z.id, (take_ge bs) by lia. pose proof (le_val_nonneg _ Hbs).
      rewrite u16_id by (unfold is_u16; lia). destruct (Z.ltb_spec (n - Z.of_nat (length bs)) 32767); [|lia].
      cbn [lwip_assert res_bind].
      destruct (IH (n - Z.of_nat (length bs)) (xorb sw (Nat.odd (length bs))) (X + wt sw * le_val bs))
        as [sw' E]; [done|unfold is_u16; lia|nia|destruct q as [|[? ?] ?]; [done|lia]|].
      exists sw'. rewrite E. f_equal. f_equal. apply oc_proper.
      rewrite take_app_ge by lia.
      replace (Z.to_nat n - length bs)%nat with (Z.to_nat (n - Z.of_nat (length bs))) by lia.
      set (tl := take _ (chain_bytes q)).
      assert (Htl : bytes_ok tl) by (apply bytes_ok_take; by apply chain_bytes_ok).
      pose proof (le_val_nonneg _ Htl). pose proof (wt_pos sw').
      pose proof (wt_pos (xorb sw (Nat.odd (length bs)))).
      apply oceq_mul; [apply oceq_refl; lia|]. rewrite <- Z.add_assoc.
      apply oceq_add; [by apply oceq_refl|]. symmetry.
      transitivity (wt sw * (le_val bs + wt (Nat.odd (length bs)) * le_val tl)).
      { apply oceq_mul; [apply oceq_refl; lia|]. by apply le_val_app_oceq. }
      rewrite Z.mul_add_distr_l. apply oceq_add; [apply oceq_refl; nia|].
      rewrite Z.mul_assoc. apply oceq_mul; [apply wt_mul|by apply oceq_refl].
Qed.

(** The words of the checksum field complete the sum to all ones. *)
Lemma checksum_field_cancels (A B even : Z) :
  0 <= A -> 0 <= B -> oceq even 1 ->
  oc (A + even * ((65535 - oc (A + even * B)) + B)) = 65535.
Proof.
  intros HA HB He.
  assert (HE : forall Y, 0 <= Y -> even * Y ~ Y).
  { intros Y HY. rewrite <- (Z.mul_1_l Y) at 2. apply oceq_mul; [done|by apply oceq_refl]. }
  assert (E0 : oc (A + even * B) = oc (A + B)).
  { apply oc_proper, oceq_add; [by apply oceq_refl|by apply HE]. }
  rewrite E0. pose proof (oc_range (A + B)) as Hr.
  symmetry. apply oceq_oc; [|lia]. symmetry.
  transitivity (A + ((65535 - oc (A + B)) + B)).
  { apply oceq_add; [by apply oceq_refl|apply HE; lia]. }
  destruct (oc_oceq (A + B)) as (_ & _ & Hm & Hz); [lia|].
  split; [lia|]. split; [lia|]. split; [|lia].
  replace (A + (65535 - oc (A + B) + B)) with ((A + B) - oc (A + B) + 1 * 65535) by lia.
  rewrite Z.mod_add by lia. rewrite Zminus_mod, Hm, Z.sub_diag. done.
Qed.

Lemma le_val_two n : is_u16 n -> le_val (le_bytes 2 n) = n.
Proof. intros. apply le_val_bytes. unfold is_u16 in *. cbn. lia. Qed.

Lemma addr_words_weight ws Y :
  length ws = 4%nat -> 0 <= Y -> 256 ^ Z.of_nat (length (addr_words ws)) * Y ~ Y.
Proof.
  intros Hl HY. rewrite <- (Z.mul_1_l Y) at 2.
  apply oceq_mul; [|by apply oceq_refl]. rewrite wt_pow.
  destruct ws as [|? [|? [|? [|? [|]]]]]; try discriminate Hl. by apply oceq_refl.
Qed.

(** The IPv6 pseudo header and the data, as the sum of their words. *)
Lemma ip6_header_val src dest f rest :
  length src = 4%nat -> length dest = 4%nat -> Forall is_u32 src -> Forall is_u32 dest ->
  length f = 4%nat -> bytes_ok f -> bytes_ok rest ->
  le_val (addr_words src ++ addr_words dest ++ f ++ rest)
  ~ foldr Z.add 0 src + foldr Z.add 0 dest + le_val f + le_val rest.
Proof.
  intros Ls Ld Hs Hd Lf Hf Hr.
  destruct (addr_words_val src Hs) as (Es & Oks & Ns).
  destruct (addr_words_val dest Hd) as (Ed & Okd & Nd).
  pose proof (le_val_nonneg _ Hr). pose proof (le_val_nonneg _ Hf).
  pose proof (le_val_nonneg _ Okd).
  rewrite !le_val_app, Lf. change (256 ^ Z.of_nat 4) with 4294967296.
  rewrite <- !Z.add_assoc. apply oceq_add; [done|].
  rewrite addr_words_weight by (done || nia). apply oceq_add; [done|].
  rewrite addr_words_weight by (done || nia). apply oceq_add; [by apply oceq_refl|].
  by apply oceq_2_32.
Qed.

(** A buffer whose checksum field was zero when its checksum was computed and
    holds that checksum now verifies. *)
Lemma internet_checksum_verifies pre post :
  bytes_ok pre -> bytes_ok post -> Nat.even (length pre) = true ->
  internet_checksum
    (pre ++ le_bytes 2 (internet_checksum (pre ++ [0; 0] ++ post)) ++ post) = 0.
Proof.
  intros Hpre Hpost Heven.
  pose proof (le_val_nonneg _ Hpre) as HA. pose proof (le_val_nonneg _ Hpost) as HB.
  assert (Hw : oceq (256 ^ Z.of_nat (length pre)) 1).
  { apply (transitivity (wt_pow _)). rewrite <- Nat.negb_even, Heven. by apply oceq_refl. }
  assert (H0 : bytes_ok (pre ++ [0; 0] ++ post)).
  { rewrite !bytes_ok_app. split_and!; [done| |done]. repeat constructor; unfold is_u8; lia. }
  set (c := internet_checksum (pre ++ [0; 0] ++ post)).
  assert (Ec : c = 65535 - oc (le_val pre + 256 ^ Z.of_nat (length pre) * le_val post)).
  { apply internet_checksum_val; [done|]. rewrite !le_val_app.
    apply oceq_add; [by apply oceq_refl|].
    apply oceq_mul; [apply oceq_refl; lia|]. cbn -[Z.mul Z.pow]. by apply oceq_65536. }
  pose proof (oc_range (le_val pre + 256 ^ Z.of_nat (length pre) * le_val post)).
  unfold internet_checksum. rewrite ones_sum_le_val.
  2:{ rewrite !bytes_ok_app. split_and!; [done|apply le_bytes_ok|done]. }
  enough (oc (le_val (pre ++ le_bytes 2 c ++ post)) = 65535) by lia.
  rewrite <- (checksum_field_cancels _ _ _ HA HB Hw). apply oc_proper.
  rewrite !le_val_app, length_le_bytes, le_val_two by (unfold is_u16; lia).
  apply oceq_add; [by apply oceq_refl|]. apply oceq_mul; [apply oceq_refl; lia|].
  rewrite Ec. apply oceq_add; [apply oceq_refl; lia|]. by apply oceq_65536.
Qed.

(** Sums of parts, when the first has an even length. *)
Lemma word_sum_app xs ys : Nat.even (length xs) = true -> word_sum (xs ++ ys) = word_sum xs + word_sum ys.
Proof.
  induction xs as [|a|a b xs IH] using list_pair_ind; intros He; [done|done|].
  cbn [app word_sum]. rewrite IH by done. lia.
Qed.

Lemma word_sum_nonneg bs : bytes_ok bs -> 0 <= word_sum bs.
Proof.
  induction bs as [|a|a b bs IH] using list_pair_ind; intros H; [done| |].
  - inversion_clear H. unfold is_u8 in *. cbn. lia.
  - inversion_clear H as [|? ? Ha H']. inversion_clear H' as [|? ? Hb H]. unfold is_u8 in *.
    specialize (IH H). cbn [word_sum]. lia.
Qed.

(** When a buffer verifies. *)
Lemma checksum_zero_iff data :
  bytes_ok data -> internet_checksum data = 0 <-> 0 < word_sum data /\ word_sum data mod 65535 = 0.
Proof.
  intros Hok. pose proof (word_sum_nonneg _ Hok). unfold internet_checksum, ones_complement_sum, oc.
  destruct (Z.eqb_spec (word_sum data) 0); zlia.
Qed.

(** What [inet_chksum] returns. *)
Lemma inet_chksum_spec dataptr data :
  bytes_ok data -> Z.of_nat (length data) <= 65535 -> inet_chksum dataptr data = internet_checksum data.
Proof.
  intros Hok Hlen. unfold inet_chksum, LWIP_CHKSUM, internet_checksum.
  rewrite chksum2_correct, ones_sum_le_val by (done || lia).
  rewrite <- not16_oc, land_65535, Z.mod_small; [done|]. pose proof (oc_range (le_val data)). lia.
Qed.

(** What the chain functions return. *)
Lemma inet_chksum_pbuf_spec (p : chain_view) :
  view_ok p -> inet_chksum_pbuf p = internet_checksum (chain_bytes p).
Proof.
  intros Hp. unfold inet_chksum_pbuf.
  pose proof (le_val_nonneg _ (chain_bytes_ok _ Hp)) as HL.
  change 0 with (oc (wt false * 0)) at 1. rewrite chksum_chain_spec by (done || lia).
  cbv beta iota zeta. cbn [wt]. rewrite Z.mul_1_l, Z.add_0_l.
  rewrite unswap_oc, not16_oc by done.
  symmetry. apply internet_checksum_val; [by apply chain_bytes_ok|by apply oceq_refl].
Qed.

Lemma ip_chksum_pseudo_spec p proto proto_len src dest :
  view_ok p -> is_u8 proto -> is_u16 proto_len -> is_u32 src -> is_u32 dest ->
  ip_chksum_pseudo p proto proto_len src dest
  = internet_checksum (pseudo_header src dest proto proto_len ++ chain_bytes p).
Proof.
  intros Hp Hproto Hplen Hs Hd. pose proof (chain_bytes_ok _ Hp) as Hb.
  unfold ip_chksum_pseudo, inet_chksum_pseudo. cbv zeta. rewrite addr_acc_spec by done.
  rewrite pseudo_base_spec by (unfold is_u32 in *; done || lia).
  symmetry. apply internet_checksum_val; [|by apply pseudo_header_val].
  apply bytes_ok_app. split; [by apply bytes_ok_pseudo|done].
Qed.

(** The tail of the partial checksum is that of the full one on no data. *)
Lemma partial_base_spec p proto plen n X :
  view_ok p -> is_u8 proto -> is_u16 plen -> is_u16 n -> 0 <= X ->
  match p with [] => True | (_, bs) :: _ => n - Z.of_nat (length bs) < 32767 end ->
  inet_cksum_pseudo_partial_base p proto plen n (oc X)
  = Ok (65535 - oc (X + le_val [0; proto; plen / 256; plen mod 256]
                    + le_val (take (Z.to_nat n) (chain_bytes p)))).
Proof.
  intros Hp Hproto Hplen Hn HX Hhd.
  destruct (chksum_chain_partial_spec p n false X) as [sw' E]; [done..|].
  cbn [wt] in E. rewrite !Z.mul_1_l in E.
  pose proof (le_val_nonneg _ (bytes_ok_take (Z.to_nat n) _ (chain_bytes_ok _ Hp))) as HL.
  unfold inet_cksum_pseudo_partial_base. rewrite E. cbn [res_bind]. cbv beta iota zeta.
  rewrite unswap_oc by lia. f_equal.
  pose proof (pseudo_base_spec [] proto plen
    (X + le_val (take (Z.to_nat n) (chain_bytes p)))) as Eb.
  unfold inet_cksum_pseudo_base in Eb. cbn [chksum_chain] in Eb.
  rewrite Eb; [|constructor|done|done|lia]. do 2 f_equal. cbn [chain_bytes fmap list_fmap mjoin list_join le_val]. lia.
Qed.

(** ** Properties *)

(** C39: The three checksum algorithms that the code offers compute the same
    value, the 16-bit one's complement sum of the buffer's words (last odd byte
    padded with zero), for every start address: the unaligned first byte of
    algorithms 2 and 3 and the 32-bit accumulation with carries of algorithm 3
    change nothing.  No buffer of up to 128 KiB overflows the 32-bit sum. *)
Theorem standard_chksum_correct (dataptr : Z) (data : list Z) :
  bytes_ok data -> Z.of_nat (length data) <= 131072 ->
  Algorithm2.lwip_standard_chksum dataptr data = ones_complement_sum data
  /\ Algorithm1.lwip_standard_chksum data = ones_complement_sum data
  /\ Algorithm3.lwip_standard_chksum dataptr data = ones_complement_sum data.
Proof.
  intros Hok Hlen. rewrite ones_sum_le_val by done.
  split_and!; [by apply chksum2_correct|by apply chksum1_correct|by apply chksum3_correct].
Qed.

Lemma standard_chksum_correct_witness :
  Algorithm3.lwip_standard_chksum 3 [1; 2; 3] = 516 /\ ones_complement_sum [1; 2; 3] = 516.
Proof.
  destruct (standard_chksum_correct 3 [1; 2; 3]) as (_ & _ & ->);
    [repeat constructor; unfold is_u8; lia|cbn; lia|].
  split; reflexivity.
Defined.

(** [inet_chksum_pbuf] on a pbuf chain is the checksum of the concatenated
    payloads: splitting the data into pbufs of odd and even lengths at odd and
    even addresses changes nothing (the byte swaps cancel). *)
Theorem inet_chksum_pbuf_correct (p : chain_view) :
  view_ok p -> inet_chksum_pbuf p = internet_checksum (chain_bytes p).
Proof.
  apply inet_chksum_pbuf_spec.
Qed.

Lemma inet_chksum_pbuf_correct_witness :
  inet_chksum_pbuf [(1, [1; 2; 3]); (4, [4]); (7, [5; 6; 7])]
  = internet_checksum [1; 2; 3; 4; 5; 6; 7].
Proof.
  apply (inet_chksum_pbuf_correct [(1, [1; 2; 3]); (4, [4]); (7, [5; 6; 7])]).
  repeat constructor; unfold is_u8; cbn; lia.
Defined.

(** The TCP/UDP checksum over IPv4 and over IPv6 is the checksum of the
    pseudo header (source, destination, protocol, length) followed by the bytes
    of the chain. *)
Theorem pseudo_chksum_correct (p : chain_view) (proto proto_len src dest : Z) (src6 dest6 : list Z) :
  view_ok p -> is_u8 proto -> is_u16 proto_len -> is_u32 src -> is_u32 dest ->
  length src6 = 4%nat -> length dest6 = 4%nat -> Forall is_u32 src6 -> Forall is_u32 dest6 ->
  ip_chksum_pseudo p proto proto_len src dest
  = internet_checksum (pseudo_header src dest proto proto_len ++ chain_bytes p)
  /\ ip6_chksum_pseudo p proto proto_len src6 dest6
  = internet_checksum (addr_words src6 ++ addr_words dest6
      ++ [0; proto; proto_len / 256; proto_len mod 256] ++ chain_bytes p).
Proof.
  intros Hp Hproto Hplen Hs Hd Ls Ld Hs6 Hd6. pose proof (chain_bytes_ok _ Hp) as Hb.
  assert (Hf : bytes_ok [0; proto; proto_len / 256; proto_len mod 256]).
  { unfold is_u8, is_u16 in *. repeat constructor; unfold is_u8; zlia. }
  split.
  - by apply ip_chksum_pseudo_spec.
  - unfold ip6_chksum_pseudo. cbv zeta.
    destruct (ip6_addr_sum_spec src6 dest6 0) as [Ea Ra]; [lia|done|done|lia|].
    destruct (addr_words_val src6 Hs6) as (_ & Oks & Ns).
    destruct (addr_words_val dest6 Hd6) as (_ & Okd & Nd).
    rewrite Z.add_0_l in Ea.
    rewrite fold_twice by (unfold is_u32; lia). rewrite (oc_proper _ _ Ea).
    rewrite pseudo_base_spec by (done || lia). symmetry. apply internet_checksum_val.
    + rewrite !bytes_ok_app. done.
    + by apply ip6_header_val.
Qed.


Lemma pseudo_chksum_correct_witness :
  ip_chksum_pseudo [(0, [1; 2; 3]); (5, [4])] 17 4 16777343 33554559
  = internet_checksum [127; 0; 0; 1; 127; 0; 0; 2; 0; 17; 0; 4; 1; 2; 3; 4].
Proof.
  apply (pseudo_chksum_correct [(0, [1; 2; 3]); (5, [4])] 17 4 16777343 33554559
           [0; 0; 0; 1] [0; 0; 0; 2]);
    try done; try (repeat constructor; unfold is_u8, is_u32; cbn; lia);
    unfold is_u8, is_u16, is_u32; lia.
Defined.

(** C40: What a sender stores, a receiver accepts.  If the checksum field (two
    bytes at an even offset) was zero when the sender computed the checksum of
    its chain [p], and the receiver's chain [p'] holds the same bytes with the
    field filled in, in whatever pbufs, then the receiver computes 0, both for
    the plain checksum and for the one with a pseudo header. *)
Theorem checksum_verifies (p p' : chain_view) (pre post : list Z) (proto proto_len src dest : Z) :
  view_ok p -> view_ok p' -> is_u8 proto -> is_u16 proto_len -> is_u32 src -> is_u32 dest ->
  Nat.even (length pre) = true ->
  chain_bytes p = pre ++ [0; 0] ++ post ->
  (chain_bytes p' = pre ++ le_bytes 2 (inet_chksum_pbuf p) ++ post -> inet_chksum_pbuf p' = 0)
  /\ (chain_bytes p'
      = pre ++ le_bytes 2 (ip_chksum_pseudo p proto proto_len src dest) ++ post ->
      ip_chksum_pseudo p' proto proto_len src dest = 0).
Proof.
  intros Hp Hp' Hproto Hplen Hs Hd Heven Eb.
  pose proof (chain_bytes_ok _ Hp) as Hok. rewrite Eb, !bytes_ok_app in Hok.
  destruct Hok as (Hpre & _ & Hpost).
  rewrite !inet_chksum_pbuf_spec, !ip_chksum_pseudo_spec, Eb by done.
  split; intros ->; [by apply internet_checksum_verifies|].
  rewrite !(app_assoc (pseudo_header _ _ _ _) pre).
  apply internet_checksum_verifies; [apply bytes_ok_app; by split; [apply bytes_ok_pseudo|]|done|].
  rewrite length_app, Nat.even_add, Heven. reflexivity.
Qed.

Lemma checksum_verifies_witness :
  inet_chksum_pbuf [(0, [69]); (3, [0; 0; 0; 1; 68])] = 187 * 256 + 185
  /\ inet_chksum_pbuf [(0, [69; 0]); (3, [185; 187; 1; 68])] = 0.
Proof.
  split; [reflexivity|].
  apply (checksum_verifies [(0, [69]); (3, [0; 0; 0; 1; 68])] [(0, [69; 0]); (3, [185; 187; 1; 68])]
    [69; 0] [1; 68] 17 8 1 2); try reflexivity;
    try (repeat constructor; unfold is_u8, is_u32; cbn; lia); unfold is_u8, is_u16, is_u32; lia.
Defined.

(** The partial checksum (UDP-Lite) covers exactly the first [chksum_len]
    bytes of the chain whenever less than [0x7fff] of them lie behind the first
    pbuf; otherwise the left-over debugging assertion of the loop aborts. *)
Theorem pseudo_partial_coverage (payload : Z) (bs : list Z) (p : chain_view)
    (proto proto_len chksum_len src dest : Z) :
  view_ok ((payload, bs) :: p) -> is_u8 proto -> is_u16 proto_len -> is_u16 chksum_len ->
  is_u32 src -> is_u32 dest ->
  ip_chksum_pseudo_partial ((payload, bs) :: p) proto proto_len chksum_len src dest
  = if chksum_len - Z.of_nat (length bs) <? 32767
    then Ok (internet_checksum (pseudo_header src dest proto proto_len
               ++ take (Z.to_nat chksum_len) (bs ++ chain_bytes p)))
    else Fault FAssert.
Proof.
  intros Hp Hproto Hplen Hn Hs Hd. pose proof (chain_bytes_ok _ Hp) as Hb.
  unfold ip_chksum_pseudo_partial, inet_chksum_pseudo_partial. cbv zeta.
  rewrite addr_acc_spec by done. destruct (Z.ltb_spec (chksum_len - Z.of_nat (length bs)) 32767).
  - rewrite partial_base_spec by (unfold is_u32 in *; done || lia). f_equal. symmetry.
    change (bs ++ chain_bytes p) with (chain_bytes ((payload, bs) :: p)).
    apply internet_checksum_val.
    + apply bytes_ok_app. split; [by apply bytes_ok_pseudo|by apply bytes_ok_take].
    + apply pseudo_header_val; auto with lwip.
  - unfold inet_cksum_pseudo_partial_base. cbn [chksum_chain_partial]. unfold is_u16 in Hn.
    destruct (Z.ltb_spec 0 chksum_len); [|lia].
    destruct (Z.ltb_spec chksum_len (Z.of_nat (length bs))); [lia|].
    destruct (chksum_pbuf_step _ _ _ _ _) as [acc swapped].
    rewrite u16_id by (unfold is_u16; lia).
    destruct (Z.ltb_spec (chksum_len - Z.of_nat (length bs)) 32767); [lia|reflexivity].
Qed.

Lemma pseudo_partial_coverage_witness :
  ip_chksum_pseudo_partial [(0, [1; 2; 3]); (5, [4; 5])] 136 5 4 16777343 33554559
  = Ok (internet_checksum [127; 0; 0; 1; 127; 0; 0; 2; 0; 136; 0; 5; 1; 2; 3; 4])
  /\ ip_chksum_pseudo_partial [(0, [1; 2; 3]); (5, [4; 5])] 136 5 40000 16777343 33554559
  = Fault FAssert.
Proof.
  split; apply (pseudo_partial_coverage 0 [1; 2; 3] [(5, [4; 5])] 136 5);
    try (repeat constructor; unfold is_u8, is_u32; cbn; lia); unfold is_u8, is_u16, is_u32; lia.
Defined.
