(* ===== verification/Mem.v ===== *)
(** * The heap: lwip/src/core/mem.c

    The port uses the heap of [mem.c] ([MEM_LIBC_MALLOC] and [MEM_USE_POOLS] are
    0) with [MEM_SIZE] 10240, so [mem_size_t] is a 16-bit type.  The heap is kept
    as the code keeps it: a [struct mem] at the start of every block, indexed by
    its offset from [ram], linked both ways by offsets, and [lfree].  Headers
    that a merge makes obsolete stay where they are, as they do in the code.
    The mutex that serialises the operations is not modelled: an operation runs
    from its lock to its unlock. *)

From S2P Require Import Prelude.

(** ** Definitions *)

Definition MEM_ALIGNMENT : Z := 4.
Definition LWIP_MEM_ALIGN_SIZE (size : Z) : Z :=
  Z.land (u32 (size + (MEM_ALIGNMENT - 1))) (not32 (MEM_ALIGNMENT - 1)).
Definition LWIP_MEM_ALIGN (addr : Z) : Z :=
  Z.land (u32 (addr + (MEM_ALIGNMENT - 1))) (not32 (MEM_ALIGNMENT - 1)).

Definition MEM_SIZE : Z := 10240.
Definition MIN_SIZE : Z := 12.
Definition sizeof_struct_mem : Z := 6.
Definition MIN_SIZE_ALIGNED : Z := Eval vm_compute in LWIP_MEM_ALIGN_SIZE MIN_SIZE.
Definition SIZEOF_STRUCT_MEM : Z := Eval vm_compute in LWIP_MEM_ALIGN_SIZE sizeof_struct_mem.
Definition MEM_SIZE_ALIGNED : Z := Eval vm_compute in LWIP_MEM_ALIGN_SIZE MEM_SIZE.

(** [struct mem]. *)
Record mem := mk_mem { next : Z; prev : Z; used : Z }.

(** [struct stats_mem]; counters and sizes are 16 bits wide. *)
Record stats_mem := mk_stats {
  st_err : Z; st_avail : Z; st_used : Z; st_max : Z; st_illegal : Z
}.

Definition stats_inc_err (s : stats_mem) : stats_mem :=
  mk_stats (u16 (st_err s + 1)) (st_avail s) (st_used s) (st_max s) (st_illegal s).
Definition stats_inc_illegal (s : stats_mem) : stats_mem :=
  mk_stats (st_err s) (st_avail s) (st_used s) (st_max s) (u16 (st_illegal s + 1)).
Definition stats_inc_used (s : stats_mem) (y : Z) : stats_mem :=
  let used := u16 (st_used s + y) in
  mk_stats (st_err s) (st_avail s) used (if st_max s <? used then used else st_max s)
    (st_illegal s).
Definition stats_dec_used (s : stats_mem) (y : Z) : stats_mem :=
  mk_stats (st_err s) (st_avail s) (u16 (st_used s - y)) (st_max s) (st_illegal s).

Abbreviation headers := (gmap Z mem).

(** The static variables of the file: [ram], the structs in the heap, [lfree]
    (as an offset from [ram]) and the statistics; [ram_end] is the struct at
    offset [MEM_SIZE_ALIGNED]. *)
Record mem_state := mk_state { ram : Z; hdrs : headers; lfree : Z; stats : stats_mem }.

Definition set_next (h : headers) (o v : Z) : res headers :=
  let* m := deref h o in Ok (<[o := mk_mem v (prev m) (used m)]> h).
Definition set_prev (h : headers) (o v : Z) : res headers :=
  let* m := deref h o in Ok (<[o := mk_mem (next m) v (used m)]> h).
Definition set_used (h : headers) (o v : Z) : res headers :=
  let* m := deref h o in Ok (<[o := mk_mem (next m) (prev m) v]> h).

(** Enough for a walk over all blocks: each takes at least a header. *)
Definition walk_fuel : nat := Z.to_nat (MEM_SIZE_ALIGNED / SIZEOF_STRUCT_MEM).

(** "plug hole forward": combine [mem] with the next block if that is free. *)
Definition plug_forward (h : headers) (lfree mem : Z) : res (headers * Z) :=
  let* m := deref h mem in
  let nmem := next m in
  let* nm := deref h nmem in
  if negb (mem =? nmem) && (used nm =? 0) && negb (nmem =? MEM_SIZE_ALIGNED) then
    let lfree := if lfree =? nmem then mem else lfree in
    let* h := set_next h mem (next nm) in
    let* h := set_prev h (next nm) (u16 mem) in
    Ok (h, lfree)
  else Ok (h, lfree).

(** "plug hole backward": combine [mem] with the previous block if that is free. *)
Definition plug_backward (h : headers) (lfree mem : Z) : res (headers * Z) :=
  let* m := deref h mem in
  let pmem := prev m in
  let* pm := deref h pmem in
  if negb (pmem =? mem) && (used pm =? 0) then
    let lfree := if lfree =? mem then pmem else lfree in
    let* h := set_next h pmem (next m) in
    let* h := set_prev h (next m) (u16 pmem) in
    Ok (h, lfree)
  else Ok (h, lfree).

Definition plug_holes (h : headers) (lfree mem : Z) : res (headers * Z) :=
  assert* (0 <=? mem) in
  assert* (mem <? MEM_SIZE_ALIGNED) in
  let* m := deref h mem in
  assert* (used m =? 0) in
  assert* (next m <=? MEM_SIZE_ALIGNED) in
  let* (h, lfree) := plug_forward h lfree mem in
  plug_backward h lfree mem.

(** [ram_heap] is the address of the array; [mutex_ok] says whether
    [sys_mutex_new] returns [ERR_OK]. *)
Definition mem_init (ram_heap : Z) (mutex_ok : bool) (s : stats_mem) : res mem_state :=
  assert* (Z.land SIZEOF_STRUCT_MEM (MEM_ALIGNMENT - 1) =? 0) in
  let ram := LWIP_MEM_ALIGN ram_heap in
  let h := <[0 := mk_mem MEM_SIZE_ALIGNED 0 0]> (∅ : headers) in
  let h := <[MEM_SIZE_ALIGNED := mk_mem MEM_SIZE_ALIGNED MEM_SIZE_ALIGNED 1]> h in
  let s := mk_stats (st_err s) MEM_SIZE_ALIGNED (st_used s) (st_max s) (st_illegal s) in
  assert* mutex_ok in
  Ok (mk_state ram h 0 s).

Definition mem_free (s : mem_state) (rmem : Z) : res mem_state :=
  if rmem =? NULL then Ok s else
  assert* (Z.land rmem (MEM_ALIGNMENT - 1) =? 0) in
  let ram_end := ram s + MEM_SIZE_ALIGNED in
  assert* ((ram s <=? rmem) && (rmem <? ram_end)) in
  if (rmem <? ram s) || (ram_end <=? rmem) then
    Ok (mk_state (ram s) (hdrs s) (lfree s) (stats_inc_illegal (stats s)))
  else
  let mem := rmem - SIZEOF_STRUCT_MEM - ram s in
  let* m := deref (hdrs s) mem in
  assert* negb (used m =? 0) in
  let* h := set_used (hdrs s) mem 0 in
  let lf := if mem <? lfree s then mem else lfree s in
  let* m := deref h mem in
  let st := stats_dec_used (stats s) (next m - u16 mem) in
  let* (h, lf) := plug_holes h lf mem in
  Ok (mk_state (ram s) h lf st).

(** The second half of [mem_trim]: give back what lies behind the first
    [newsize] bytes of a block with [size] bytes. *)
Definition trim_shrink (s : mem_state) (rmem mem ptr size newsize : Z) : res (Z * mem_state) :=
  let h := hdrs s in
  let* m := deref h mem in
  let mem2 := next m in
  let* m2 := deref h mem2 in
  if used m2 =? 0 then
    let nxt := next m2 in
    let ptr2 := u16 (ptr + SIZEOF_STRUCT_MEM + newsize) in
    let lf := if lfree s =? mem2 then ptr2 else lfree s in
    let h := <[ptr2 := mk_mem nxt ptr 0]> h in
    let* h := set_next h mem ptr2 in
    let* h := if negb (nxt =? MEM_SIZE_ALIGNED) then set_prev h nxt ptr2 else Ok h in
    Ok (rmem, mk_state (ram s) h lf (stats_dec_used (stats s) (size - newsize)))
  else if newsize + SIZEOF_STRUCT_MEM + MIN_SIZE_ALIGNED <=? size then
    let ptr2 := u16 (ptr + SIZEOF_STRUCT_MEM + newsize) in
    let lf := if ptr2 <? lfree s then ptr2 else lfree s in
    let nxt := next m in
    let h := <[ptr2 := mk_mem nxt ptr 0]> h in
    let* h := set_next h mem ptr2 in
    let* h := if negb (nxt =? MEM_SIZE_ALIGNED) then set_prev h nxt ptr2 else Ok h in
    Ok (rmem, mk_state (ram s) h lf (stats_dec_used (stats s) (size - newsize)))
  else Ok (rmem, s).

Definition mem_trim (s : mem_state) (rmem newsize : Z) : res (Z * mem_state) :=
  let newsize := u16 (LWIP_MEM_ALIGN_SIZE newsize) in
  let newsize := if newsize <? MIN_SIZE_ALIGNED then MIN_SIZE_ALIGNED else newsize in
  if MEM_SIZE_ALIGNED <? newsize then Ok (NULL, s) else
  let ram_end := ram s + MEM_SIZE_ALIGNED in
  assert* ((ram s <=? rmem) && (rmem <? ram_end)) in
  if (rmem <? ram s) || (ram_end <=? rmem) then
    Ok (rmem, mk_state (ram s) (hdrs s) (lfree s) (stats_inc_illegal (stats s)))
  else
  let mem := rmem - SIZEOF_STRUCT_MEM - ram s in
  let ptr := u16 mem in
  let* m := deref (hdrs s) mem in
  let size := u16 (next m - ptr - SIZEOF_STRUCT_MEM) in
  assert* (newsize <=? size) in
  if size <? newsize then Ok (NULL, s) else
  if newsize =? size then Ok (rmem, s) else
  trim_shrink s rmem mem ptr size newsize.

(** The [for] loop of [mem_malloc]: the first block from [ptr] on that is free
    and has [size] bytes of user data. *)
Fixpoint malloc_scan (fuel : nat) (h : headers) (size ptr : Z) : res (option Z) :=
  match fuel with
  | O => Fault FFuel
  | S fuel' =>
      if ptr <? MEM_SIZE_ALIGNED - size then
        let* m := deref h ptr in
        if (used m =? 0) && (size <=? u32 (next m - (ptr + SIZEOF_STRUCT_MEM)))
        then Ok (Some ptr)
        else malloc_scan fuel' h size (next m)
      else Ok None
  end.

(** The [while] loop that moves [lfree] to the next free block. *)
Fixpoint next_free (fuel : nat) (h : headers) (cur : Z) : res Z :=
  match fuel with
  | O => Fault FFuel
  | S fuel' =>
      let* m := deref h cur in
      if negb (used m =? 0) && negb (cur =? MEM_SIZE_ALIGNED)
      then next_free fuel' h (next m)
      else Ok cur
  end.

(** Mark the block at [ptr] used, splitting off what is left over. *)
Definition malloc_take (s : mem_state) (size ptr : Z) : res (headers * stats_mem) :=
  let* m := deref (hdrs s) ptr in
  if size + SIZEOF_STRUCT_MEM + MIN_SIZE_ALIGNED <=? u32 (next m - (ptr + SIZEOF_STRUCT_MEM))
  then
    let ptr2 := u16 (ptr + SIZEOF_STRUCT_MEM + size) in
    let nxt := next m in
    let h := <[ptr2 := mk_mem nxt ptr 0]> (hdrs s) in
    let* h := set_next h ptr ptr2 in
    let* h := set_used h ptr 1 in
    let* h := if negb (nxt =? MEM_SIZE_ALIGNED) then set_prev h nxt ptr2 else Ok h in
    Ok (h, stats_inc_used (stats s) (size + SIZEOF_STRUCT_MEM))
  else
    let* h := set_used (hdrs s) ptr 1 in
    Ok (h, stats_inc_used (stats s) (next m - u16 ptr)).

Definition mem_malloc (s : mem_state) (size : Z) : res (Z * mem_state) :=
  if size =? 0 then Ok (NULL, s) else
  let size := u16 (LWIP_MEM_ALIGN_SIZE size) in
  let size := if size <? MIN_SIZE_ALIGNED then MIN_SIZE_ALIGNED else size in
  if MEM_SIZE_ALIGNED <? size then Ok (NULL, s) else
  let* r := malloc_scan (S walk_fuel) (hdrs s) size (lfree s) in
  match r with
  | Some ptr =>
      let* (h, st) := malloc_take s size ptr in
      let* lf :=
        if ptr =? lfree s then
          let* cur := next_free (S walk_fuel) h (lfree s) in
          let* c := deref h cur in
          assert* ((cur =? MEM_SIZE_ALIGNED) || (used c =? 0)) in
          Ok cur
        else Ok (lfree s) in
      assert* (u32 (ram s + ptr + SIZEOF_STRUCT_MEM + size) <=? ram s + MEM_SIZE_ALIGNED) in
      assert* ((ram s + ptr + SIZEOF_STRUCT_MEM) mod MEM_ALIGNMENT =? 0) in
      assert* (Z.land (ram s + ptr) (MEM_ALIGNMENT - 1) =? 0) in
      Ok (ram s + ptr + SIZEOF_STRUCT_MEM, mk_state (ram s) h lf st)
  | None => Ok (NULL, mk_state (ram s) (hdrs s) (lfree s) (stats_inc_err (stats s)))
  end.

(** [mem_calloc]: the pointer, and the address and length given to [memset]. *)
Definition mem_calloc (s : mem_state) (count size : Z) : res (Z * option (Z * Z) * mem_state) :=
  let* (p, s) := mem_malloc s (u16 (s32 (count * size))) in
  if negb (p =? NULL) then Ok (p, Some (p, u32 (count * size)), s) else Ok (p, None, s).

Example mem_ex :
  (let* s := mem_init 4097 true (mk_stats 0 0 0 0 0) in
   let* (a, s) := mem_malloc s 100 in
   let* (b, s) := mem_malloc s 1 in
   let* (c, s) := mem_malloc s 30 in
   let* s := mem_free s b in
   let* (c', s) := mem_trim s c 16 in
   let* s := mem_free s a in
   let* (d, s) := mem_malloc s 120 in
   let* (_, s) := mem_malloc s 20000 in
   Ok (a, b, c, d, lfree s, st_used (stats s), st_max (stats s)))
  = Ok (4108, 4216, 4236, 4108, 152, 152, 168).
Proof. vm_compute. reflexivity. Qed.

(** ** The abstract heap: a list of blocks

    A block is its length in bytes, header included, and whether it is used. *)

Definition block : Type := Z * bool.

Definition total (bl : list block) : Z := foldr (fun (b : block) acc => fst b + acc) 0 bl.

Definition flag (u : bool) : Z := if u then 1 else 0.

(** The offset of the last block, [pv] if there is none. *)
Fixpoint lastp (pv off : Z) (bl : list block) : Z :=
  match bl with
  | [] => pv
  | (n, _) :: bl' => lastp off (off + n) bl'
  end.

(** The blocks [bl] lie in the heap from offset [off] on, each with its header. *)
Fixpoint seg (h : headers) (pv off : Z) (bl : list block) : Prop :=
  match bl with
  | [] => True
  | (n, u) :: bl' =>
      h !! off = Some (mk_mem (off + n) pv (flag u))
      /\ SIZEOF_STRUCT_MEM + MIN_SIZE_ALIGNED <= n /\ n mod MEM_ALIGNMENT = 0
      /\ seg h off (off + n) bl'
  end.

(** ... up to the sentinel [ram_end]. *)
Definition tail (h : headers) (pv off : Z) (bl : list block) : Prop :=
  seg h pv off bl /\ off + total bl = MEM_SIZE_ALIGNED
  /\ exists p, h !! MEM_SIZE_ALIGNED = Some (mk_mem MEM_SIZE_ALIGNED p 1).

Fixpoint lowest_free (off : Z) (bl : list block) : Z :=
  match bl with
  | [] => off
  | (n, u) :: bl' => if u then lowest_free (off + n) bl' else off
  end.

Definition has_free (bl : list block) : bool := existsb (fun b : block => negb (snd b)) bl.

(** No two free blocks side by side ([p]: the block before is free). *)
Fixpoint no_adj (p : bool) (bl : list block) : bool :=
  match bl with
  | [] => true
  | (_, u) :: bl' => (u || negb p) && no_adj (negb u) bl'
  end.

Definition used_bytes (bl : list block) : Z :=
  foldr (fun (b : block) acc => (if snd b then fst b else 0) + acc) 0 bl.

Record mem_inv (s : mem_state) (bl : list block) : Prop := {
  inv_ram : 0 < ram s /\ ram s mod MEM_ALIGNMENT = 0
            /\ ram s + MEM_SIZE_ALIGNED + SIZEOF_STRUCT_MEM < 4294967296;
  inv_tail : tail (hdrs s) 0 0 bl;
  inv_lfree : lfree s = lowest_free 0 bl;
  inv_adj : no_adj false bl = true;
  inv_used : st_used (stats s) = used_bytes bl;
  inv_max : st_used (stats s) <= st_max (stats s) <= MEM_SIZE_ALIGNED
}.

(** The user data of the used blocks: address and length. *)
Fixpoint live_from (base : Z) (bl : list block) : list (Z * Z) :=
  match bl with
  | [] => []
  | (n, u) :: bl' =>
      (if u then [(base + SIZEOF_STRUCT_MEM, n - SIZEOF_STRUCT_MEM)] else [])
      ++ live_from (base + n) bl'
  end.

(** Arithmetic with the constants of the file. *)
Ltac mlia :=
  unfold SIZEOF_STRUCT_MEM, MIN_SIZE_ALIGNED, MEM_SIZE_ALIGNED, MEM_ALIGNMENT, is_u16, is_u32 in *;
  first [lia | zlia].

(** Decide every comparison in the goal that arithmetic settles. *)
Ltac mdec :=
  repeat match goal with
  | |- context [?a <=? ?b] =>
      first [rewrite (proj2 (Z.leb_le a b)) by mlia | rewrite (proj2 (Z.leb_gt a b)) by mlia]
  | |- context [?a <? ?b] =>
      first [rewrite (proj2 (Z.ltb_lt a b)) by mlia | rewrite (proj2 (Z.ltb_ge a b)) by mlia]
  | |- context [?a =? ?b] =>
      first [rewrite (proj2 (Z.eqb_eq a b)) by mlia | rewrite (proj2 (Z.eqb_neq a b)) by mlia]
  end;
  cbn [lwip_assert res_bind negb andb orb].

(** *** Lists of blocks *)

Lemma heap_total_cons n u bl : total ((n, u) :: bl) = n + total bl.
Proof. done. Qed.

Lemma heap_total_app bl1 bl2 : total (bl1 ++ bl2) = total bl1 + total bl2.
Proof.
  induction bl1 as [|[n u] bl1 IH]; [done|]. rewrite <- app_comm_cons, !heap_total_cons, IH. lia.
Qed.

Lemma used_bytes_cons n u bl : used_bytes ((n, u) :: bl) = (if u then n else 0) + used_bytes bl.
Proof. done. Qed.

Lemma used_bytes_app bl1 bl2 : used_bytes (bl1 ++ bl2) = used_bytes bl1 + used_bytes bl2.
Proof.
  induction bl1 as [|[n u] bl1 IH]; [done|].
  rewrite <- app_comm_cons, !used_bytes_cons, IH. lia.
Qed.

Lemma lastp_snoc pv off bl n u : lastp pv off (bl ++ [(n, u)]) = off + total bl.
Proof.
  revert pv off. induction bl as [|[m v] bl IH]; intros; cbn [app lastp]; [cbn; lia|].
  rewrite IH, heap_total_cons. lia.
Qed.

Lemma seg_app h pv off bl1 bl2 :
  seg h pv off (bl1 ++ bl2)
  <-> seg h pv off bl1 /\ seg h (lastp pv off bl1) (off + total bl1) bl2.
Proof.
  revert pv off. induction bl1 as [|[n u] bl1 IH]; intros; cbn [app seg lastp].
  - cbn. rewrite Z.add_0_r. tauto.
  - rewrite IH, heap_total_cons, Z.add_assoc. tauto.
Qed.

Lemma tail_app h pv off bl1 bl2 :
  tail h pv off (bl1 ++ bl2)
  <-> seg h pv off bl1 /\ tail h (lastp pv off bl1) (off + total bl1) bl2.
Proof. unfold tail. rewrite seg_app, heap_total_app, Z.add_assoc. tauto. Qed.

Lemma seg_total h pv off bl : seg h pv off bl -> 20 * Z.of_nat (length bl) <= total bl.
Proof.
  revert pv off. induction bl as [|[n u] bl IH]; intros pv off; cbn [seg]; [done|].
  intros (_ & Hn & _ & Hs). apply IH in Hs. rewrite heap_total_cons. cbn [length].
  unfold SIZEOF_STRUCT_MEM, MIN_SIZE_ALIGNED in Hn. lia.
Qed.

Lemma seg_aligned h pv off bl :
  seg h pv off bl -> total bl mod MEM_ALIGNMENT = 0.
Proof.
  revert pv off. induction bl as [|[n u] bl IH]; intros pv off; cbn [seg]; [done|].
  intros (_ & _ & Hn & Hs). apply IH in Hs. rewrite heap_total_cons.
  unfold MEM_ALIGNMENT in *. zlia.
Qed.

(** Writing elsewhere leaves a segment alone. *)
Lemma seg_frame h h' pv off bl :
  (forall o, off <= o < off + total bl -> h' !! o = h !! o) ->
  seg h pv off bl -> seg h' pv off bl.
Proof.
  revert pv off. induction bl as [|[n u] bl IH]; intros pv off Hf; cbn [seg]; [done|].
  intros (Hh & Hn & Ha & Hs). pose proof (seg_total _ _ _ _ Hs) as Ht.
  rewrite heap_total_cons in Hf. unfold SIZEOF_STRUCT_MEM, MIN_SIZE_ALIGNED in *.
  split_and!; [by rewrite Hf by lia|done|done|]. apply IH; [|done]. intros o Ho. apply Hf. lia.
Qed.

Lemma tail_frame h h' pv off bl :
  (forall o, off <= o -> h' !! o = h !! o) -> tail h pv off bl -> tail h' pv off bl.
Proof.
  intros Hf (Hs & Ht & p & Hp). pose proof (seg_total _ _ _ _ Hs).
  split_and!; [|done|exists p; rewrite Hf by lia; done].
  eapply seg_frame; [|done]. intros o Ho. apply Hf. lia.
Qed.

(** The header that starts a tail, the sentinel included. *)
Lemma tail_header h pv off bl :
  tail h pv off bl ->
  exists m, h !! off = Some m
    /\ used m = match bl with [] => 1 | (_, u) :: _ => flag u end
    /\ (bl = [] <-> off = MEM_SIZE_ALIGNED) /\ off <= MEM_SIZE_ALIGNED
    /\ (forall n u bl', bl = (n, u) :: bl' -> m = mk_mem (off + n) pv (flag u)).
Proof.
  intros (Hs & Ht & p & Hp). destruct bl as [|[n u] bl].
  - replace off with MEM_SIZE_ALIGNED by (cbn in Ht; lia). eexists. split; [done|].
    cbn. split_and!; [done|done|lia|done].
  - cbn [seg] in Hs. destruct Hs as (Hh & Hn & _ & Hs). pose proof (seg_total _ _ _ _ Hs).
    rewrite heap_total_cons in Ht. unfold SIZEOF_STRUCT_MEM, MIN_SIZE_ALIGNED in *.
    eexists. split; [done|]. cbn. split_and!; [done|split; [done|lia]|lia|].
    by intros ? ? ? [= -> -> ->].
Qed.

(** [set_prev] on the block that starts a tail. *)
Lemma set_prev_tail h pv off bl pv' :
  tail h pv off bl ->
  exists h', set_prev h off pv' = Ok h' /\ tail h' pv' off bl
    /\ (forall o, o <> off -> h' !! o = h !! o).
Proof.
  intros Ht. destruct (tail_header _ _ _ _ Ht) as (m & Hm & Hu & Hnil & Hle & Hmk).
  unfold set_prev. rewrite (deref_ok _ _ _ Hm). cbn [res_bind]. eexists. split; [done|].
  split; [|intros o Ho; by rewrite lookup_insert_ne].
  destruct Ht as (Hs & Ht & p & Hp). destruct bl as [|[n u] bl].
  - split_and!; [done|done|]. destruct Hnil as [Hnil _]. rewrite Hnil in Hm |- * by done.
    rewrite Hm in Hp. injection Hp as ->. exists pv'. by rewrite lookup_insert_eq.
  - rewrite (Hmk n u bl eq_refl). cbn [next used]. cbn [seg] in Hs.
    destruct Hs as (_ & Hn & Ha & Hs). pose proof (seg_total _ _ _ _ Hs).
    rewrite heap_total_cons in Ht. unfold SIZEOF_STRUCT_MEM, MIN_SIZE_ALIGNED in *.
    split_and!; [|done|exists p; rewrite lookup_insert_ne by lia; done].
    cbn [seg]. split_and!; [by rewrite lookup_insert_eq|done|done|].
    eapply seg_frame; [|done]. intros o Ho. by rewrite lookup_insert_ne by lia.
Qed.

(** The same when the sentinel is left alone. *)
Lemma set_prev_tail_inner h pv off bl pv' :
  tail h pv off bl ->
  exists h', (if negb (off =? MEM_SIZE_ALIGNED) then set_prev h off pv' else Ok h) = Ok h'
    /\ tail h' pv' off bl /\ (forall o, o <> off -> h' !! o = h !! o).
Proof.
  intros Ht. destruct (Z.eqb_spec off MEM_SIZE_ALIGNED) as [He|He]; [|by apply set_prev_tail with pv].
  exists h. split_and!; [done| |done].
  destruct (tail_header _ _ _ _ Ht) as (m & _ & _ & [_ Hnil] & _). rewrite (Hnil He) in *.
  destruct Ht as (_ & Ht & Hp). done.
Qed.

Lemma lowest_free_app off bl1 bl2 :
  lowest_free off (bl1 ++ bl2)
  = if has_free bl1 then lowest_free off bl1 else lowest_free (off + total bl1) bl2.
Proof.
  revert off. induction bl1 as [|[n u] bl1 IH]; intros; cbn [app lowest_free].
  - cbn. by rewrite Z.add_0_r.
  - rewrite IH. change (has_free ((n, u) :: bl1)) with (negb u || has_free bl1).
    rewrite heap_total_cons, Z.add_assoc. by destruct u.
Qed.

Lemma lowest_free_bounds h pv off bl :
  seg h pv off bl ->
  off <= lowest_free off bl <= off + total bl
  /\ (has_free bl = true -> lowest_free off bl < off + total bl).
Proof.
  revert pv off. induction bl as [|[n u] bl IH]; intros pv off; cbn [seg lowest_free].
  - cbn. lia.
  - intros (_ & Hn & _ & Hs). pose proof (seg_total _ _ _ _ Hs). apply IH in Hs.
    rewrite heap_total_cons. change (has_free ((n, u) :: bl)) with (negb u || has_free bl).
    unfold SIZEOF_STRUCT_MEM, MIN_SIZE_ALIGNED in *. destruct u; cbn [negb orb]; [|lia].
    split; [lia|]. intros Hf. destruct Hs as [_ Hs]. specialize (Hs Hf). lia.
Qed.

(** Whether the last block is free, [p] if there is none. *)
Fixpoint last_free (p : bool) (bl : list block) : bool :=
  match bl with
  | [] => p
  | (_, u) :: bl' => last_free (negb u) bl'
  end.

Lemma last_free_snoc p bl n u : last_free p (bl ++ [(n, u)]) = negb u.
Proof. revert p. induction bl as [|[m v] bl IH]; intros; cbn; [done|apply IH]. Qed.

Lemma no_adj_app p bl1 bl2 :
  no_adj p (bl1 ++ bl2) = no_adj p bl1 && no_adj (last_free p bl1) bl2.
Proof.
  revert p. induction bl1 as [|[n u] bl1 IH]; intros; cbn [app no_adj last_free]; [done|].
  by rewrite IH, andb_assoc.
Qed.

Lemma no_adj_weaken p bl : no_adj p bl = true -> no_adj false bl = true.
Proof. destruct bl as [|[n u] bl]; [done|]. cbn. destruct u, p; cbn; done. Qed.

(** *** plug_holes *)

(** What is left of the block list when the block after a freed one is merged
    into it. *)
Definition merge_forward (n : Z) (bl2 : list block) : Z * list block :=
  match bl2 with
  | (m, false) :: bl2' => (n + m, bl2')
  | _ => (n, bl2)
  end.

Lemma plug_forward_spec h pv off n bl2 lf :
  tail h pv off ((n, false) :: bl2) -> 0 <= off ->
  exists h' lf', plug_forward h lf off = Ok (h', lf')
    /\ tail h' pv off ((fst (merge_forward n bl2), false) :: snd (merge_forward n bl2))
    /\ (forall o, o < off -> h' !! o = h !! o)
    /\ lf' = (if (lf =? off + n) && has_free (take 1 bl2) then off else lf).
Proof.
  intros Ht Hoff. pose proof Ht as (Hs & Htot & Hend).
  cbn [seg] in Hs. destruct Hs as (Hh & Hn & Ha & Hs). rewrite heap_total_cons in Htot.
  assert (Ht2 : tail h off (off + n) bl2) by (split_and!; [done|mlia|done]).
  destruct (tail_header _ _ _ _ Ht2) as (m2 & Hm2 & Hu2 & Hnil & Hle & Hmk).
  unfold plug_forward. rewrite (deref_ok _ _ _ Hh). cbn [res_bind next].
  rewrite (deref_ok _ _ _ Hm2). cbn [res_bind]. rewrite Hu2.
  destruct (Z.eqb_spec off (off + n)); [mlia|]. cbn [negb andb].
  destruct bl2 as [|[m u] bl2]; [|destruct u]; cbn [flag Z.eqb andb merge_forward fst snd].
  1,2: exists h, lf; split_and!; [done|done|done|]; cbn; by rewrite andb_false_r.
  destruct (Z.eqb_spec (off + n) MEM_SIZE_ALIGNED) as [He|_].
  { apply Hnil in He. discriminate. }
  cbn [negb]. rewrite (Hmk _ _ _ eq_refl). cbn [next].
  unfold set_next at 1. rewrite (deref_ok _ _ _ Hh). cbn [res_bind next prev used].
  cbn [seg] in Hs. destruct Hs as (Hh2 & Hn2 & Ha2 & Hs2). pose proof (seg_total _ _ _ _ Hs2).
  rewrite heap_total_cons in Htot. set (h1 := <[off := _]> h).
  assert (Ht1 : tail h1 (off + n) (off + n + m) bl2).
  { apply tail_frame with h; [intros o Ho; unfold h1; by rewrite lookup_insert_ne by mlia|].
    split_and!; [done|mlia|done]. }
  rewrite u16_id by mlia.
  destruct (set_prev_tail _ _ _ _ off Ht1) as (h' & -> & Ht' & Hf). cbn [res_bind].
  eexists h', _. split; [done|]. split_and!.
  - destruct Ht' as (Hs' & Htot' & Hp').
    split_and!; [|rewrite heap_total_cons; mlia|done].
    cbn [seg]. rewrite Z.add_assoc. split_and!; [|mlia| |done].
    + rewrite Hf by mlia. unfold h1. by rewrite lookup_insert_eq.
    + mlia.
  - intros o Ho. rewrite Hf by mlia. unfold h1. by rewrite lookup_insert_ne by mlia.
  - cbn. by rewrite andb_true_r.
Qed.

(** ... and when the block before is free, too. *)
Definition merge_backward (bl1 : list block) (n : Z) (bl2 : list block) : list block :=
  match rev bl1 with
  | (m, false) :: r => rev r ++ (m + n, false) :: bl2
  | _ => bl1 ++ (n, false) :: bl2
  end.

Lemma merge_backward_snoc bl1 m u n bl2 :
  merge_backward (bl1 ++ [(m, u)]) n bl2
  = if u then bl1 ++ (m, true) :: (n, false) :: bl2 else bl1 ++ (m + n, false) :: bl2.
Proof.
  unfold merge_backward. rewrite rev_app_distr. cbn [rev app].
  destruct u; [by rewrite <- app_assoc|by rewrite rev_involutive].
Qed.

Lemma plug_backward_spec h bl1 n bl2 lf :
  seg h 0 0 bl1 -> tail h (lastp 0 0 bl1) (total bl1) ((n, false) :: bl2) ->
  exists h' lf', plug_backward h lf (total bl1) = Ok (h', lf')
    /\ tail h' 0 0 (merge_backward bl1 n bl2)
    /\ lf' = (if (lf =? total bl1) && last_free false bl1 then lastp 0 0 bl1 else lf).
Proof.
  intros Hs1 Ht. pose proof (seg_total _ _ _ _ Hs1). pose proof Ht as (Hs & Htot & Hend).
  cbn [seg] in Hs. destruct Hs as (Hh & Hn & Ha & Hs). rewrite heap_total_cons in Htot.
  pose proof (seg_total _ _ _ _ Hs).
  unfold plug_backward. rewrite (deref_ok _ _ _ Hh). cbn [res_bind prev next].
  destruct bl1 as [|[m u] bl1 _] using rev_ind.
  { change (total []) with 0 in *. cbn [lastp]. rewrite (deref_ok _ _ _ Hh). cbn [res_bind Z.eqb negb andb].
    exists h, lf. split_and!; [done|done|]. cbn. by rewrite andb_false_r. }
  rewrite lastp_snoc, last_free_snoc, merge_backward_snoc, Z.add_0_l in *.
  apply seg_app in Hs1. destruct Hs1 as [Hs1 (Hhm & Hm & Ham & _)].
  rewrite Z.add_0_l in *. rewrite heap_total_app, heap_total_cons in *. cbn [total foldr] in *.
  rewrite Z.add_0_r in *. pose proof (seg_total _ _ _ _ Hs1).
  rewrite (deref_ok _ _ _ Hhm). cbn [res_bind used].
  destruct (Z.eqb_spec (total bl1) (total bl1 + m)); [mlia|]. cbn [negb andb].
  destruct u; cbn [flag Z.eqb].
  { exists h, lf. split_and!; [done| |by rewrite andb_false_r].
    apply tail_app. split; [done|]. split_and!; [|rewrite !heap_total_cons; mlia|done].
    cbn [seg]. by rewrite Z.add_0_l. }
  unfold set_next at 1. rewrite (deref_ok _ _ _ Hhm). cbn [res_bind next prev used].
  set (h1 := <[total bl1 := _]> h). rewrite u16_id by mlia.
  assert (Ht1 : tail h1 (total bl1 + m) (total bl1 + m + n) bl2).
  { apply tail_frame with h; [intros o Ho; unfold h1; by rewrite lookup_insert_ne by mlia|].
    split_and!; [done|mlia|done]. }
  destruct (set_prev_tail _ _ _ _ (total bl1) Ht1) as (h' & -> & (Hs' & Htot' & Hp') & Hf).
  cbn [res_bind]. eexists h', _. split; [done|]. split; [|by rewrite andb_true_r].
  apply tail_app. split.
  { eapply seg_frame; [|done]. intros o Ho. rewrite Hf by mlia.
    unfold h1. by rewrite lookup_insert_ne by mlia. }
  split_and!; [|rewrite heap_total_cons; mlia|done]. cbn [seg]. rewrite Z.add_0_l, Z.add_assoc.
  split_and!; [rewrite Hf by mlia; unfold h1; by rewrite lookup_insert_eq|mlia|mlia|done].
Qed.

(** The block list after a used block has been freed. *)
Definition coalesce (bl1 : list block) (n : Z) (bl2 : list block) : list block :=
  let '(n, bl2) := merge_forward n bl2 in merge_backward bl1 n bl2.

Lemma merge_backward_lowest bl1 n bl2 :
  lowest_free 0 (merge_backward bl1 n bl2) = lowest_free 0 (bl1 ++ (n, false) :: bl2).
Proof.
  destruct bl1 as [|[m u] bl1 _] using rev_ind; [done|].
  rewrite merge_backward_snoc. destruct u; rewrite <- app_assoc; [done|].
  rewrite !lowest_free_app. by destruct (has_free bl1).
Qed.

Lemma merge_backward_no_adj bl1 n bl2 :
  no_adj false bl1 = true -> no_adj true bl2 = true ->
  no_adj false (merge_backward bl1 n bl2) = true.
Proof.
  intros H1 H2. destruct bl1 as [|[m u] bl1 _] using rev_ind; [done|].
  rewrite merge_backward_snoc. rewrite no_adj_app in H1. cbn [no_adj] in H1.
  destruct u; rewrite no_adj_app; cbn [no_adj]; destruct (no_adj false bl1); [done|done| |done].
  cbn [andb orb negb] in *. by rewrite andb_true_r in H1; rewrite H1.
Qed.

Lemma merge_backward_used bl1 n bl2 :
  used_bytes (merge_backward bl1 n bl2) = used_bytes bl1 + used_bytes bl2.
Proof.
  destruct bl1 as [|[m u] bl1 _] using rev_ind; [done|].
  rewrite merge_backward_snoc. destruct u; rewrite !used_bytes_app, !used_bytes_cons; cbn; lia.
Qed.

Lemma plug_holes_spec h bl1 n bl2 :
  tail h 0 0 (bl1 ++ (n, false) :: bl2) -> no_adj false bl1 = true -> no_adj false bl2 = true ->
  exists h', plug_holes h (lowest_free 0 (bl1 ++ (n, false) :: bl2)) (total bl1)
             = Ok (h', lowest_free 0 (coalesce bl1 n bl2))
    /\ tail h' 0 0 (coalesce bl1 n bl2) /\ no_adj false (coalesce bl1 n bl2) = true
    /\ used_bytes (coalesce bl1 n bl2) = used_bytes bl1 + used_bytes bl2.
Proof.
  intros Ht H1 H2. apply tail_app in Ht. destruct Ht as [Hs1 Ht]. rewrite Z.add_0_l in Ht.
  pose proof (seg_total _ _ _ _ Hs1). pose proof (lowest_free_bounds _ _ _ _ Hs1) as [Hb Hb'].
  rewrite Z.add_0_l in *. pose proof Ht as ((Hh & Hn & _ & Hs2) & Htot & _).
  pose proof (seg_total _ _ _ _ Hs2). rewrite heap_total_cons in Htot.
  set (lf := lowest_free 0 _).
  assert (Hlf : lf = if has_free bl1 then lowest_free 0 bl1 else total bl1).
  { unfold lf. rewrite lowest_free_app. cbn. by destruct (has_free bl1). }
  unfold plug_holes. rewrite (deref_ok _ _ _ Hh). cbn [next used flag].
  destruct (Z.leb_spec 0 (total bl1)); [|mlia].
  destruct (Z.ltb_spec (total bl1) MEM_SIZE_ALIGNED); [|mlia].
  cbn [lwip_assert res_bind next used Z.eqb].
  destruct (Z.leb_spec (total bl1 + n) MEM_SIZE_ALIGNED); [|mlia]. cbn [lwip_assert res_bind].
  destruct (plug_forward_spec h _ _ _ _ lf Ht ltac:(lia)) as (h1 & lf1 & -> & Ht1 & Hf1 & El1).
  cbn [res_bind].
  assert (lf1 = lf) as ->.
  { rewrite El1. destruct (Z.eqb_spec lf (total bl1 + n)); [|done].
    destruct (has_free bl1); [specialize (Hb' eq_refl)|]; mlia. }
  assert (Hs1' : seg h1 0 0 bl1).
  { eapply seg_frame; [|done]. intros o Ho. apply Hf1. lia. }
  destruct (plug_backward_spec h1 bl1 _ _ lf Hs1' Ht1) as (h2 & lf2 & -> & Ht2 & El2).
  assert (Hlf2 : lf2 = lf).
  { rewrite El2. destruct (Z.eqb_spec lf (total bl1)) as [E|]; [|done]. cbn [andb].
    destruct bl1 as [|[m u] bl1 _] using rev_ind; [done|]. rewrite last_free_snoc.
    destruct u; [done|]. unfold has_free in *. rewrite existsb_app in *. cbn in *.
    rewrite orb_true_r in *. specialize (Hb' eq_refl). lia. }
  unfold coalesce. destruct (merge_forward n bl2) as [n' bl2'] eqn:Em. cbn [fst snd] in *.
  assert (Hadj : no_adj true bl2' = true /\ used_bytes bl2' = used_bytes bl2).
  { destruct bl2 as [|[m [|]] bl2]; cbn in Em; injection Em as <- <-; split; done. }
  destruct Hadj as [Hadj Hub]. exists h2. split_and!.
  - rewrite Hlf2, merge_backward_lowest. unfold lf. by rewrite !lowest_free_app.
  - done.
  - by apply merge_backward_no_adj.
  - by rewrite merge_backward_used, Hub.
Qed.

(** *** mem_free *)

Lemma land_align x : Z.land x (MEM_ALIGNMENT - 1) = x mod MEM_ALIGNMENT.
Proof. exact (land_low x 2 ltac:(lia)). Qed.

Lemma align_size_arith x :
  0 <= x <= 4294967292 -> LWIP_MEM_ALIGN_SIZE x = (x + 3) / 4 * 4.
Proof.
  intros Hx. unfold LWIP_MEM_ALIGN_SIZE, MEM_ALIGNMENT. rewrite u32_id by (unfold is_u32; lia).
  change (not32 (4 - 1)) with ((2 ^ 30 - 1) * 2 ^ 2). rewrite land_field by lia.
  change (2 ^ 2) with 4. rewrite Z.mod_small; [f_equal; f_equal; lia|]. zlia.
Qed.

Lemma set_used_spec h pv off bl1 n u bl2 (u' : bool) :
  tail h pv off (bl1 ++ (n, u) :: bl2) ->
  exists h', set_used h (off + total bl1) (flag u') = Ok h'
    /\ tail h' pv off (bl1 ++ (n, u') :: bl2).
Proof.
  intros Ht. apply tail_app in Ht. destruct Ht as [Hs1 ((Hh & Hn & Ha & Hs2) & Htot & p & Hp)].
  pose proof (seg_total _ _ _ _ Hs1). pose proof (seg_total _ _ _ _ Hs2).
  rewrite heap_total_cons in Htot.
  unfold set_used. rewrite (deref_ok _ _ _ Hh). cbn [res_bind next prev].
  eexists. split; [done|]. apply tail_app. split.
  { eapply seg_frame; [|done]. intros o Ho. by rewrite lookup_insert_ne by mlia. }
  split_and!; [|done|exists p; by rewrite lookup_insert_ne by mlia].
  cbn [seg]. split_and!; [by rewrite lookup_insert_eq|done|done|].
  eapply seg_frame; [|done]. intros o Ho. by rewrite lookup_insert_ne by mlia.
Qed.

Lemma used_bytes_bounds h pv off bl :
  seg h pv off bl -> 0 <= used_bytes bl <= total bl.
Proof.
  revert pv off. induction bl as [|[n u] bl IH]; intros pv off; cbn [seg]; [done|].
  intros (_ & Hn & _ & Hs). apply IH in Hs. rewrite used_bytes_cons, heap_total_cons.
  destruct u; mlia.
Qed.

(** A heap in which block [n] lies between [bl1] and [bl2]. *)
Lemma inv_split s bl1 n u bl2 :
  mem_inv s (bl1 ++ (n, u) :: bl2) ->
  hdrs s !! total bl1 = Some (mk_mem (total bl1 + n) (lastp 0 0 bl1) (flag u))
  /\ SIZEOF_STRUCT_MEM + MIN_SIZE_ALIGNED <= n /\ n mod MEM_ALIGNMENT = 0
  /\ 0 <= total bl1 /\ total bl1 mod MEM_ALIGNMENT = 0 /\ total bl1 + n <= MEM_SIZE_ALIGNED
  /\ tail (hdrs s) (total bl1) (total bl1 + n) bl2.
Proof.
  intros [_ Ht _ _ _ _]. apply tail_app in Ht. rewrite Z.add_0_l in Ht.
  destruct Ht as [Hs1 ((Hh & Hn & Ha & Hs2) & Htot & Hp)].
  pose proof (seg_total _ _ _ _ Hs1). pose proof (seg_total _ _ _ _ Hs2).
  pose proof (seg_aligned _ _ _ _ Hs1). rewrite heap_total_cons in Htot.
  split_and!; try done; try mlia. split_and!; [done|mlia|done].
Qed.

(** [lfree] after a block has been freed. *)
Lemma lowest_free_release h pv bl1 n bl2 :
  tail h pv 0 (bl1 ++ (n, true) :: bl2) ->
  (if total bl1 <? lowest_free 0 (bl1 ++ (n, true) :: bl2) then total bl1
   else lowest_free 0 (bl1 ++ (n, true) :: bl2))
  = lowest_free 0 (bl1 ++ (n, false) :: bl2).
Proof.
  intros Ht. apply tail_app in Ht. destruct Ht as [Hs1 ((_ & Hn & _ & Hs2) & _)].
  pose proof (lowest_free_bounds _ _ _ _ Hs1) as [_ Hb].
  pose proof (lowest_free_bounds _ _ _ _ Hs2). pose proof (seg_total _ _ _ _ Hs1).
  rewrite !lowest_free_app. cbn [lowest_free].
  destruct (has_free bl1); [specialize (Hb eq_refl)|]; zcases; mlia.
Qed.

Lemma mem_free_spec s bl1 n bl2 :
  mem_inv s (bl1 ++ (n, true) :: bl2) ->
  exists s', mem_free s (ram s + total bl1 + SIZEOF_STRUCT_MEM) = Ok s'
    /\ mem_inv s' (coalesce bl1 n bl2) /\ ram s' = ram s
    /\ st_used (stats s') = st_used (stats s) - n.
Proof.
  intros Hinv. destruct (inv_split _ _ _ _ _ Hinv) as (Hh & Hn & Ha & Hpos & Hal & Hle & _).
  destruct Hinv as [(Hr & Hra & Hru) Ht Hlf Hadj Hu Hmax].
  unfold mem_free. rewrite land_align. unfold NULL. mdec.
  replace (ram s + total bl1 + SIZEOF_STRUCT_MEM - SIZEOF_STRUCT_MEM - ram s) with (total bl1) by lia.
  rewrite (deref_ok _ _ _ Hh). cbn [res_bind used flag Z.eqb negb lwip_assert].
  destruct (set_used_spec _ _ _ _ _ _ _ false Ht) as (h' & Eh & Ht'). rewrite Z.add_0_l in Eh.
  cbn [flag] in Eh. rewrite Eh. cbn [res_bind].
  pose proof Ht' as Ht''. apply tail_app in Ht''. destruct Ht'' as [Hs1 ((Hh' & _) & _)].
  rewrite Z.add_0_l in Hh'. rewrite (deref_ok _ _ _ Hh'). cbn [res_bind next].
  rewrite Hlf, (lowest_free_release _ _ _ _ _ Ht).
  rewrite no_adj_app in Hadj. apply andb_true_iff in Hadj. destruct Hadj as [Ha1 Ha2].
  cbn [no_adj negb orb andb] in Ha2.
  destruct (plug_holes_spec h' bl1 n bl2 Ht' Ha1 Ha2) as (h2 & -> & Ht2 & Hadj2 & Hub).
  cbn [res_bind]. eexists. split; [done|].
  assert (Hdec : u16 (st_used (stats s) - (total bl1 + n - u16 (total bl1))) = used_bytes bl1 + used_bytes bl2).
  { pose proof (used_bytes_bounds _ _ _ _ (proj1 Ht)). destruct Ht as (_ & Htot & _).
    rewrite Hu, used_bytes_app, used_bytes_cons in *. rewrite (u16_id (total bl1)) by mlia.
    pose proof (used_bytes_bounds _ _ _ _ Hs1). rewrite u16_id; [lia|].
    apply tail_app in Ht'. destruct Ht' as [_ ((_ & _ & _ & Hs2) & _)].
    pose proof (used_bytes_bounds _ _ _ _ Hs2). mlia. }
  split_and!; [|done|].
  - pose proof (used_bytes_bounds _ _ _ _ (proj1 Ht2)). rewrite Hub in *.
    rewrite Hu, used_bytes_app, used_bytes_cons in Hmax.
    split; cbn [ram hdrs lfree stats st_used st_max stats_dec_used]; rewrite ?Hdec, ?Hub;
      try done; mlia.
  - cbn [stats stats_dec_used st_used]. rewrite Hdec, Hu, used_bytes_app, used_bytes_cons. lia.
Qed.

(** *** Splitting a block *)

(** [h1] is [h] with the [N] bytes at [total bl1] turned into a block of [k]
    bytes and a free rest; linking the rest's successor completes the split. *)
Lemma split_spec h h1 bl1 N k (u : bool) pv2 bl2 :
  seg h 0 0 bl1 -> tail h pv2 (total bl1 + N) bl2 ->
  h1 !! total bl1 = Some (mk_mem (total bl1 + k) (lastp 0 0 bl1) (flag u)) ->
  h1 !! (total bl1 + k) = Some (mk_mem (total bl1 + N) (total bl1) 0) ->
  (forall o, o <> total bl1 -> o <> total bl1 + k -> h1 !! o = h !! o) ->
  20 <= k -> 20 <= N - k -> k mod 4 = 0 -> N mod 4 = 0 ->
  exists h', (if negb (total bl1 + N =? MEM_SIZE_ALIGNED)
              then set_prev h1 (total bl1 + N) (total bl1 + k) else Ok h1) = Ok h'
    /\ tail h' 0 0 (bl1 ++ (k, u) :: (N - k, false) :: bl2).
Proof.
  intros Hs1 Ht2 Hh1 Hh2 Hf Hk HN Hk4 HN4. pose proof (seg_total _ _ _ _ Hs1).
  assert (Ht2' : tail h1 pv2 (total bl1 + N) bl2).
  { eapply tail_frame; [|done]. intros o Ho. apply Hf; lia. }
  destruct (set_prev_tail_inner _ _ _ _ (total bl1 + k) Ht2') as (h' & -> & (Hs' & Htot & Hp) & Hf').
  exists h'. split; [done|]. apply tail_app. rewrite Z.add_0_l. split.
  - eapply seg_frame; [|done]. intros o Ho. rewrite Hf' by lia. apply Hf; lia.
  - split_and!; [|rewrite !heap_total_cons; lia|done]. cbn [seg flag].
    replace (total bl1 + k + (N - k)) with (total bl1 + N) by lia.
    rewrite !Hf' by lia. split_and!; try done; mlia.
Qed.

(** *** mem_trim *)

(** The size that [mem_malloc] and [mem_trim] work with: aligned, at least the
    minimum. *)
Definition request (size : Z) : Z :=
  let size := u16 (LWIP_MEM_ALIGN_SIZE size) in
  if size <? MIN_SIZE_ALIGNED then MIN_SIZE_ALIGNED else size.

Lemma request_range size :
  is_u16 size -> MIN_SIZE_ALIGNED <= request size < 65536 /\ request size mod 4 = 0
  /\ (size <= 65532 -> size <= request size).
Proof.
  unfold is_u16. intros Hs. unfold request. rewrite align_size_arith by lia.
  unfold u16, MIN_SIZE_ALIGNED. destruct (Z.ltb_spec ((size + 3) / 4 * 4 mod 65536) 12); zlia.
Qed.

(** The blocks after shrinking block [n] to [k] bytes of user data. *)
Definition trim_blocks (k n : Z) (bl2 : list block) : list block :=
  let k := k + SIZEOF_STRUCT_MEM in
  match bl2 with
  | (m, false) :: bl2' => if k <? n then (k, true) :: (m + (n - k), false) :: bl2' else (n, true) :: bl2
  | _ => if k + SIZEOF_STRUCT_MEM + MIN_SIZE_ALIGNED <=? n
         then (k, true) :: (n - k, false) :: bl2 else (n, true) :: bl2
  end.

(** The writes of a split, as [mem_trim] performs them. *)
Lemma trim_split h bl1 n N k pv2 bl2 :
  seg h 0 0 bl1 -> tail h pv2 (total bl1 + N) bl2 ->
  h !! total bl1 = Some (mk_mem (total bl1 + n) (lastp 0 0 bl1) 1) ->
  20 <= k -> 20 <= N - k -> k mod 4 = 0 -> N mod 4 = 0 ->
  exists h1 h',
    set_next (<[total bl1 + k := mk_mem (total bl1 + N) (total bl1) 0]> h) (total bl1) (total bl1 + k)
      = Ok h1
    /\ (if negb (total bl1 + N =? MEM_SIZE_ALIGNED)
        then set_prev h1 (total bl1 + N) (total bl1 + k) else Ok h1) = Ok h'
    /\ tail h' 0 0 (bl1 ++ (k, true) :: (N - k, false) :: bl2).
Proof.
  intros Hs1 Ht2 Hh Hk HN Hk4 HN4. unfold set_next.
  rewrite (deref_ok _ (total bl1) (mk_mem (total bl1 + n) (lastp 0 0 bl1) 1))
    by (by rewrite lookup_insert_ne by lia).
  cbn [res_bind prev used]. eexists. 
  edestruct (split_spec h) as (h' & E & Ht'); [exact Hs1|exact Ht2|..|exists h'; split; [reflexivity|split; [exact E|exact Ht']]].
  - by rewrite lookup_insert_eq.
  - rewrite lookup_insert_ne by lia. by rewrite lookup_insert_eq.
  - intros o ? ?. by rewrite !lookup_insert_ne by lia.
  - done.
  - done.
  - done.
  - done.
Qed.

(** A heap whose block list changes from the block at [total bl1] on. *)
Lemma inv_update s h' lf' st' bl1 n bl2 bl' d :
  mem_inv s (bl1 ++ (n, true) :: bl2) -> tail h' 0 0 (bl1 ++ bl') ->
  lf' = (if has_free bl1 then lowest_free 0 bl1 else lowest_free (total bl1) bl') ->
  no_adj (last_free false bl1) bl' = true ->
  used_bytes bl' = n + used_bytes bl2 - d -> 0 <= d <= n ->
  st' = stats_dec_used (stats s) d ->
  mem_inv (mk_state (ram s) h' lf' st') (bl1 ++ bl').
Proof.
  intros [Hr Ht Hlf Hadj Hu Hmax] Ht' Hlf' Hadj' Hub Hd ->.
  pose proof (used_bytes_bounds _ _ _ _ (proj1 Ht')) as Hb.
  pose proof (used_bytes_bounds _ _ _ _ (proj1 Ht)) as Hb0.
  destruct Ht as (_ & Htot & _).
  rewrite no_adj_app in Hadj. apply andb_true_iff in Hadj. destruct Hadj as [Hadj _].
  rewrite used_bytes_app in Hb. rewrite used_bytes_app, used_bytes_cons in Hu, Hb0.
  assert (Hdec : u16 (st_used (stats s) - d) = used_bytes bl1 + used_bytes bl').
  { rewrite u16_id; mlia. }
  split; cbn [ram hdrs lfree stats stats_dec_used st_used st_max];
    rewrite ?used_bytes_app, ?lowest_free_app, ?no_adj_app, ?Hadj, ?Hadj'; try done; mlia.
Qed.

(** Facts about a heap with a used block between [bl1] and [bl2]. *)
Lemma inv_context s bl1 n bl2 :
  mem_inv s (bl1 ++ (n, true) :: bl2) ->
  seg (hdrs s) 0 0 bl1
  /\ lfree s = (if has_free bl1 then lowest_free 0 bl1 else lowest_free (total bl1 + n) bl2)
  /\ (has_free bl1 = true -> lowest_free 0 bl1 < total bl1)
  /\ no_adj false bl2 = true.
Proof.
  intros [_ Ht Hlf Hadj _ _]. apply tail_app in Ht. destruct Ht as [Hs1 _].
  rewrite lowest_free_app, Z.add_0_l in Hlf. cbn [lowest_free] in Hlf.
  pose proof (lowest_free_bounds _ _ _ _ Hs1) as [_ Hb]. rewrite Z.add_0_l in Hb.
  rewrite no_adj_app in Hadj. cbn [no_adj negb orb andb] in Hadj.
  apply andb_true_iff in Hadj. tauto.
Qed.

(** Shrinking a block in front of a used block or of the end of the heap. *)
Lemma trim_used_spec s bl1 n bl2 K (rmem : Z) :
  mem_inv s (bl1 ++ (n, true) :: bl2) -> 20 <= K < n -> K mod 4 = 0 ->
  match bl2 with (_, false) :: _ => False | _ => True end ->
  exists s', (if K + SIZEOF_STRUCT_MEM + MIN_SIZE_ALIGNED <=? n then
     let lf := if total bl1 + K <? lfree s then total bl1 + K else lfree s in
     let* h := set_next (<[total bl1 + K := mk_mem (total bl1 + n) (total bl1) 0]> (hdrs s))
                 (total bl1) (total bl1 + K) in
     let* h := if negb (total bl1 + n =? MEM_SIZE_ALIGNED)
               then set_prev h (total bl1 + n) (total bl1 + K) else Ok h in
     Ok (rmem, mk_state (ram s) h lf (stats_dec_used (stats s) (n - K)))
   else Ok (rmem, s)) = Ok (rmem, s') /\ ram s' = ram s
   /\ mem_inv s' (bl1 ++ if K + SIZEOF_STRUCT_MEM + MIN_SIZE_ALIGNED <=? n
                         then (K, true) :: (n - K, false) :: bl2 else (n, true) :: bl2).
Proof.
  intros Hinv HK HK4 Hbl2.
  destruct (inv_split _ _ _ _ _ Hinv) as (Hh & Hn & Ha & Hpos & Hal & Hle & Ht2).
  destruct (inv_context _ _ _ _ Hinv) as (Hs1 & Hlf & Hb & Hadj).
  destruct (Z.leb_spec (K + SIZEOF_STRUCT_MEM + MIN_SIZE_ALIGNED) n); [|by eexists].
  destruct (trim_split (hdrs s) bl1 n n K _ bl2 Hs1 Ht2 Hh) as (h1 & h' & -> & E & Ht');
    [mlia..|]. cbn [res_bind]. rewrite E. cbn [res_bind]. eexists. split_and!; [done|done|].
  eapply inv_update; [done|done| | | | |reflexivity].
  - pose proof (lowest_free_bounds _ _ _ _ (proj1 Ht2)). rewrite Hlf. cbn [lowest_free].
    destruct (has_free bl1); [specialize (Hb eq_refl)|]; zcases; mlia.
  - cbn [no_adj negb orb andb]. by destruct bl2 as [|[? [|]] ?].
  - rewrite !used_bytes_cons. lia.
  - lia.
Qed.

(** Shrinking a block in front of a free one, which grows. *)
Lemma trim_free_spec s bl1 n m bl2 K (rmem : Z) :
  mem_inv s (bl1 ++ (n, true) :: (m, false) :: bl2) -> 20 <= K < n -> K mod 4 = 0 ->
  exists s', (let lf := if lfree s =? total bl1 + n then total bl1 + K else lfree s in
     let* h := set_next (<[total bl1 + K := mk_mem (total bl1 + (n + m)) (total bl1) 0]> (hdrs s))
                 (total bl1) (total bl1 + K) in
     let* h := if negb (total bl1 + (n + m) =? MEM_SIZE_ALIGNED)
               then set_prev h (total bl1 + (n + m)) (total bl1 + K) else Ok h in
     Ok (rmem, mk_state (ram s) h lf (stats_dec_used (stats s) (n - K))))
    = Ok (rmem, s') /\ ram s' = ram s
   /\ mem_inv s' (bl1 ++ (K, true) :: (m + (n - K), false) :: bl2).
Proof.
  intros Hinv HK HK4.
  destruct (inv_split _ _ _ _ _ Hinv) as (Hh & Hn & Ha & Hpos & Hal & Hle & Ht2).
  destruct (inv_context _ _ _ _ Hinv) as (Hs1 & Hlf & Hb & Hadj).
  destruct Ht2 as ((Hh2 & Hm & Ham & Hs3) & Htot & Hend). rewrite heap_total_cons in Htot.
  assert (Ht3 : tail (hdrs s) (total bl1 + n) (total bl1 + (n + m)) bl2).
  { rewrite Z.add_assoc. split_and!; [done|lia|done]. }
  destruct (trim_split (hdrs s) bl1 n (n + m) K _ bl2 Hs1 Ht3 Hh) as (h1 & h' & -> & E & Ht');
    [mlia..|]. cbn [res_bind]. rewrite E. cbn [res_bind].
  eexists. split_and!; [done|done|]. replace (m + (n - K)) with (n + m - K) by lia.
  eapply inv_update; [done|done| | | | |reflexivity].
  - rewrite Hlf. cbn [lowest_free]. destruct (has_free bl1); [specialize (Hb eq_refl)|]; zcases; mlia.
  - done.
  - rewrite !used_bytes_cons. lia.
  - lia.
Qed.

Lemma trim_shrink_spec s bl1 n bl2 k rmem :
  mem_inv s (bl1 ++ (n, true) :: bl2) -> MIN_SIZE_ALIGNED <= k < n - SIZEOF_STRUCT_MEM ->
  k mod 4 = 0 ->
  exists s', trim_shrink s rmem (total bl1) (total bl1) (n - SIZEOF_STRUCT_MEM) k = Ok (rmem, s')
    /\ ram s' = ram s /\ mem_inv s' (bl1 ++ trim_blocks k n bl2).
Proof.
  intros Hinv Hk Hk4. destruct (inv_split _ _ _ _ _ Hinv) as (Hh & Hn & Ha & Hpos & Hal & Hle & Ht2).
  destruct (tail_header _ _ _ _ Ht2) as (m2 & Hm2 & Hu2 & _ & _ & Hmk).
  unfold trim_shrink, trim_blocks. rewrite (deref_ok _ _ _ Hh). cbn [res_bind next].
  rewrite (deref_ok _ _ _ Hm2). cbn [res_bind]. rewrite Hu2, (u16_id (total bl1 + _ + k)) by mlia.
  set (K := k + SIZEOF_STRUCT_MEM).
  replace (total bl1 + SIZEOF_STRUCT_MEM + k) with (total bl1 + K) by (unfold K; lia).
  replace (n - SIZEOF_STRUCT_MEM - k) with (n - K) by (unfold K; lia).
  assert (HK : 20 <= K < n /\ K mod 4 = 0) by (unfold K in *; mlia). destruct HK as [HK HK4].
  assert (Hcond : (K + MIN_SIZE_ALIGNED <=? n - SIZEOF_STRUCT_MEM)
                  = (K + SIZEOF_STRUCT_MEM + MIN_SIZE_ALIGNED <=? n)).
  { apply eq_true_iff_eq. rewrite !Z.leb_le. unfold K. lia. }
  rewrite Hcond. clearbody K.
  destruct bl2 as [|[m [|]] bl2]; cbn [flag Z.eqb]; [by apply trim_used_spec..|].
  destruct (Z.ltb_spec K n); [|lia]. rewrite (Hmk _ _ _ eq_refl). cbn [next].
  rewrite <- Z.add_assoc. by apply trim_free_spec.
Qed.

Lemma mem_trim_spec s bl1 n bl2 newsize :
  mem_inv s (bl1 ++ (n, true) :: bl2) -> is_u16 newsize ->
  let k := request newsize in
  let rmem := ram s + total bl1 + SIZEOF_STRUCT_MEM in
  if MEM_SIZE_ALIGNED <? k then mem_trim s rmem newsize = Ok (NULL, s)
  else if n - SIZEOF_STRUCT_MEM <? k then mem_trim s rmem newsize = Fault FAssert
  else exists s', mem_trim s rmem newsize = Ok (rmem, s') /\ ram s' = ram s
       /\ mem_inv s' (bl1 ++ trim_blocks k n bl2).
Proof.
  intros Hinv Hns. destruct (request_range newsize Hns) as (Hk & Hk4 & _). cbv zeta.
  destruct (inv_split _ _ _ _ _ Hinv) as (Hh & Hn & Ha & Hpos & Hal & Hle & Ht2).
  destruct (inv_ram _ _ Hinv) as (Hr & Hra & Hru).
  unfold mem_trim. fold (request newsize). set (k := request newsize) in *. cbv zeta.
  destruct (Z.ltb_spec MEM_SIZE_ALIGNED k); [done|].
  set (rmem := ram s + total bl1 + SIZEOF_STRUCT_MEM).
  assert (Hrm : rmem - SIZEOF_STRUCT_MEM - ram s = total bl1) by (unfold rmem; lia).
  rewrite Hrm. assert (Hrr : ram s <= rmem < ram s + MEM_SIZE_ALIGNED) by (unfold rmem; mlia).
  mdec. rewrite (deref_ok _ _ _ Hh).
  cbn [res_bind next]. rewrite (u16_id (total bl1)) by mlia.
  rewrite (u16_id (total bl1 + n - total bl1 - SIZEOF_STRUCT_MEM)) by mlia.
  replace (total bl1 + n - total bl1 - SIZEOF_STRUCT_MEM) with (n - SIZEOF_STRUCT_MEM) by lia.
  destruct (Z.ltb_spec (n - SIZEOF_STRUCT_MEM) k); mdec; [done|].
  destruct (Z.eqb_spec k (n - SIZEOF_STRUCT_MEM)).
  - exists s. split_and!; [done|done|]. unfold trim_blocks.
    destruct bl2 as [|[m [|]] bl2]; mdec; done.
  - apply trim_shrink_spec; [done|mlia|done].
Qed.

(** *** mem_malloc *)

(** What becomes of a free block of [n] bytes when [size] bytes are taken. *)
Definition taken (size n : Z) : list block :=
  let k := size + SIZEOF_STRUCT_MEM in
  if k + SIZEOF_STRUCT_MEM + MIN_SIZE_ALIGNED <=? n then [(k, true); (n - k, false)]
  else [(n, true)].

(** A block that is used, or too small for [size] bytes of user data. *)
Definition unfit (size : Z) (b : block) : Prop := snd b = false -> fst b < size + SIZEOF_STRUCT_MEM.

(** First fit: the offset of the first free block with [size] bytes of user
    data, and the blocks after the allocation. *)
Fixpoint first_fit (size off : Z) (bl : list block) : option (Z * list block) :=
  match bl with
  | [] => None
  | (n, u) :: bl' =>
      if negb u && (size + SIZEOF_STRUCT_MEM <=? n) then Some (off, taken size n ++ bl')
      else match first_fit size (off + n) bl' with
           | Some (o, r) => Some (o, (n, u) :: r)
           | None => None
           end
  end.

Lemma first_fit_inv size off bl o bl' :
  first_fit size off bl = Some (o, bl') ->
  exists bl1 n bl2, bl = bl1 ++ (n, false) :: bl2 /\ o = off + total bl1
    /\ size + SIZEOF_STRUCT_MEM <= n /\ bl' = bl1 ++ taken size n ++ bl2 /\ Forall (unfit size) bl1.
Proof.
  revert off bl'. induction bl as [|[n u] bl IH]; intros off bl'; cbn [first_fit]; [done|].
  destruct (negb u && _) eqn:E.
  - intros [= <- <-]. apply andb_true_iff in E. destruct E as [Eu En].
    apply Z.leb_le in En. exists [], n, bl. destruct u; [done|]. cbn. split_and!; done || lia.
  - destruct (first_fit _ _ bl) as [[o1 r]|] eqn:Er; [|done]. intros [= <- <-].
    destruct (IH _ _ Er) as (bl1 & m & bl2 & -> & -> & Hm & -> & Hu).
    exists ((n, u) :: bl1), m, bl2. rewrite heap_total_cons. split_and!; try (done || lia). constructor; [|done].
    unfold unfit. cbn [fst snd]. intros ->. apply Z.leb_gt. exact E.
Qed.

Lemma first_fit_small h pv size off bl :
  seg h pv off bl -> total bl < size + SIZEOF_STRUCT_MEM -> first_fit size off bl = None.
Proof.
  revert pv off. induction bl as [|[n u] bl IH]; intros pv off; cbn [seg first_fit]; [done|].
  intros (_ & Hn & _ & Hs) Ht. pose proof (seg_total _ _ _ _ Hs). rewrite heap_total_cons in Ht.
  destruct (Z.leb_spec (size + SIZEOF_STRUCT_MEM) n); [lia|]. rewrite andb_false_r.
  rewrite (IH off (off + n)); [done|done|mlia].
Qed.

Lemma first_fit_app size off bl1 bl2 :
  has_free bl1 = false ->
  fst <$> first_fit size off (bl1 ++ bl2) = fst <$> first_fit size (off + total bl1) bl2.
Proof.
  revert off. induction bl1 as [|[n u] bl1 IH]; intros off Hf; cbn [app first_fit].
  - cbn. by rewrite Z.add_0_r.
  - change (has_free ((n, u) :: bl1)) with (negb u || has_free bl1) in Hf.
    destruct u; [|done]. cbn [negb andb]. rewrite heap_total_cons, Z.add_assoc, <- IH by done.
    by destruct (first_fit size (off + n) (bl1 ++ bl2)) as [[? ?]|].
Qed.

Lemma lowest_free_split off bl :
  exists bl1 bl2, bl = bl1 ++ bl2 /\ has_free bl1 = false /\ lowest_free off bl = off + total bl1.
Proof.
  revert off. induction bl as [|[n u] bl IH]; intros off.
  - exists [], []. cbn. split_and!; done || lia.
  - destruct u; cbn [lowest_free].
    + destruct (IH (off + n)) as (bl1 & bl2 & -> & Hf & ->). exists ((n, true) :: bl1), bl2.
      rewrite heap_total_cons. split_and!; [done|done|lia].
    + exists [], ((n, false) :: bl). cbn. split_and!; done || lia.
Qed.

Lemma malloc_scan_spec h size bl : forall fuel pv off,
  tail h pv off bl -> 0 <= off -> MIN_SIZE_ALIGNED <= size <= MEM_SIZE_ALIGNED ->
  (length bl < fuel)%nat ->
  malloc_scan fuel h size off = Ok (fst <$> first_fit size off bl).
Proof.
  induction bl as [|[n u] bl IH]; intros fuel pv off Ht Hoff Hsize Hfuel;
    (destruct fuel as [|fuel]; [cbn in Hfuel; lia|]); cbn [malloc_scan].
  - destruct Ht as (_ & Htot & _). cbn [total foldr] in Htot. mdec. done.
  - destruct Ht as ((Hh & Hn & Ha & Hs) & Htot & Hp). pose proof (seg_total _ _ _ _ Hs).
    rewrite heap_total_cons in Htot.
    destruct (Z.ltb_spec off (MEM_SIZE_ALIGNED - size)).
    + rewrite (deref_ok _ _ _ Hh). cbn [res_bind used next first_fit].
      replace (flag u =? 0) with (negb u) by (by destruct u). rewrite u32_id by mlia.
      replace (size <=? off + n - (off + SIZEOF_STRUCT_MEM)) with (size + SIZEOF_STRUCT_MEM <=? n)
        by (apply eq_true_iff_eq; rewrite !Z.leb_le; lia).
      destruct (negb u && _); [done|].
      rewrite (IH fuel off (off + n)); [|split_and!; [done|lia|done]|mlia|done|cbn in Hfuel; lia].
      by destruct (first_fit size (off + n) bl) as [[? ?]|].
    + rewrite (first_fit_small h pv); [done| |rewrite heap_total_cons; mlia].
      cbn [seg]. done.
Qed.

Lemma next_free_spec h bl : forall fuel pv off,
  tail h pv off bl -> (length bl < fuel)%nat ->
  next_free fuel h off = Ok (lowest_free off bl)
  /\ exists m, h !! lowest_free off bl = Some m
     /\ ((lowest_free off bl =? MEM_SIZE_ALIGNED) || (used m =? 0)) = true.
Proof.
  induction bl as [|[n u] bl IH]; intros fuel pv off Ht Hfuel;
    (destruct fuel as [|fuel]; [cbn in Hfuel; lia|]); cbn [next_free lowest_free];
    destruct (tail_header _ _ _ _ Ht) as (m & Hm & Hu & Hnil & Hle & Hmk);
    rewrite (deref_ok _ _ _ Hm); cbn [res_bind]; rewrite Hu.
  - destruct Hnil as [Hnil _]. rewrite (Hnil eq_refl) in *. split; [done|]. exists m.
    by rewrite Z.eqb_refl.
  - destruct u; cbn [flag Z.eqb negb andb]; [|split; [done|]; exists m; by rewrite Hu, orb_true_r].
    destruct (Z.eqb_spec off MEM_SIZE_ALIGNED) as [He|]; [apply Hnil in He; discriminate|].
    rewrite (Hmk _ _ _ eq_refl). cbn [negb next]. apply IH with off; [|cbn in Hfuel; lia].
    destruct Ht as ((_ & _ & _ & Hs) & Htot & Hp). rewrite heap_total_cons in Htot.
    split_and!; [done|lia|done].
Qed.

Lemma walk_enough h pv off bl : tail h pv off bl -> 0 <= off -> (length bl < S walk_fuel)%nat.
Proof.
  intros (Hs & Ht & _) Hoff. apply seg_total in Hs.
  assert (walk_fuel = 1280%nat) as -> by reflexivity. unfold MEM_SIZE_ALIGNED in Ht. lia.
Qed.

(** The bytes that an allocation moves from free to used. *)
Definition taken_bytes (size n : Z) : Z :=
  if size + SIZEOF_STRUCT_MEM + SIZEOF_STRUCT_MEM + MIN_SIZE_ALIGNED <=? n
  then size + SIZEOF_STRUCT_MEM else n.

Lemma used_bytes_taken size n : used_bytes (taken size n) = taken_bytes size n.
Proof. unfold taken, taken_bytes. case_match; cbn; lia. Qed.

Lemma malloc_take_spec s bl1 n bl2 size :
  mem_inv s (bl1 ++ (n, false) :: bl2) ->
  MIN_SIZE_ALIGNED <= size -> size + SIZEOF_STRUCT_MEM <= n -> size mod 4 = 0 ->
  exists h', malloc_take s size (total bl1)
             = Ok (h', stats_inc_used (stats s) (taken_bytes size n))
    /\ tail h' 0 0 (bl1 ++ taken size n ++ bl2).
Proof.
  intros Hinv Hsize Hn' Hs4.
  destruct (inv_split _ _ _ _ _ Hinv) as (Hh & Hn & Ha & Hpos & Hal & Hle & Ht2).
  pose proof (inv_tail _ _ Hinv) as Ht. pose proof (proj1 (tail_app _ _ _ _ _) Ht) as [Hs1 _].
  unfold malloc_take, taken, taken_bytes. rewrite (deref_ok _ _ _ Hh). cbn [res_bind next].
  rewrite u32_id by mlia. set (K := size + SIZEOF_STRUCT_MEM).
  replace (K + MIN_SIZE_ALIGNED <=? total bl1 + n - (total bl1 + SIZEOF_STRUCT_MEM))
    with (K + SIZEOF_STRUCT_MEM + MIN_SIZE_ALIGNED <=? n)
    by (apply eq_true_iff_eq; rewrite !Z.leb_le; unfold K; lia).
  destruct (Z.leb_spec (K + SIZEOF_STRUCT_MEM + MIN_SIZE_ALIGNED) n).
  - rewrite (u16_id (_ + _ + size)) by (unfold K in *; mlia).
    replace (total bl1 + SIZEOF_STRUCT_MEM + size) with (total bl1 + K) by (unfold K; lia).
    unfold set_next. rewrite (deref_ok _ (total bl1) (mk_mem (total bl1 + n) (lastp 0 0 bl1) 0))
      by (rewrite lookup_insert_ne by (unfold K; mlia); done).
    cbn [res_bind prev used]. unfold set_used.
    rewrite (deref_ok _ (total bl1) (mk_mem (total bl1 + K) (lastp 0 0 bl1) 0))
      by (by rewrite lookup_insert_eq).
    cbn [res_bind prev next]. set (h1 := <[total bl1 := _]> (<[total bl1 := _]> _)).
    destruct (split_spec (hdrs s) h1 bl1 n K true (total bl1) bl2) as (h' & -> & Ht');
      try done; try (unfold K in *; mlia).
    + unfold h1. by rewrite lookup_insert_eq.
    + unfold h1. rewrite !lookup_insert_ne by (unfold K; mlia). by rewrite lookup_insert_eq.
    + intros o ? ?. unfold h1. by rewrite !lookup_insert_ne by lia.
    + cbn [res_bind]. eexists. split; [done|]. done.
  - destruct (set_used_spec _ _ _ _ _ _ _ true Ht) as (h' & E & Ht'). rewrite Z.add_0_l in E.
    cbn [flag] in E. rewrite E. cbn [res_bind]. rewrite (u16_id (total bl1)) by mlia.
    replace (total bl1 + n - total bl1) with n by lia. eexists. done.
Qed.

(** The invariant after an allocation. *)
Lemma inv_taken s h' lf' bl1 n bl2 size :
  mem_inv s (bl1 ++ (n, false) :: bl2) -> MIN_SIZE_ALIGNED <= size -> size + SIZEOF_STRUCT_MEM <= n ->
  tail h' 0 0 (bl1 ++ taken size n ++ bl2) -> lf' = lowest_free 0 (bl1 ++ taken size n ++ bl2) ->
  mem_inv (mk_state (ram s) h' lf' (stats_inc_used (stats s) (taken_bytes size n)))
    (bl1 ++ taken size n ++ bl2).
Proof.
  intros [Hr Ht Hlf Hadj Hu Hmax] Hsz Hn' Ht' ->. pose proof (used_bytes_bounds _ _ _ _ (proj1 Ht')) as Hb.
  destruct Ht' as (Hs' & Htot & Hp). rewrite !used_bytes_app, used_bytes_taken in Hb.
  rewrite used_bytes_app, used_bytes_cons in Hu. cbn [Z.add] in Hu.
  assert (Hnn : 0 <= taken_bytes size n) by (unfold taken_bytes; case_match; mlia).
  assert (Hinc : u16 (st_used (stats s) + taken_bytes size n)
                 = used_bytes bl1 + (taken_bytes size n + used_bytes bl2)).
  { rewrite u16_id; mlia. }
  rewrite no_adj_app in Hadj. apply andb_true_iff in Hadj. destruct Hadj as [Ha1 Ha2].
  cbn [no_adj negb orb andb] in Ha2. apply andb_true_iff in Ha2. destruct Ha2 as [Hl Ha2].
  split; cbn [ram hdrs lfree stats stats_inc_used st_used st_max];
    rewrite ?used_bytes_app, ?used_bytes_taken, ?Hinc; try done.
  - rewrite no_adj_app, Ha1. unfold taken. cbn [andb].
    case_match; cbn [app no_adj negb orb andb]; [done|]. by apply no_adj_weaken in Ha2.
  - zcases; mlia.
Qed.

Lemma mem_malloc_spec s bl size :
  mem_inv s bl -> is_u16 size -> size <> 0 ->
  match first_fit (request size) 0 bl with
  | Some (o, bl') => exists s', mem_malloc s size = Ok (ram s + o + SIZEOF_STRUCT_MEM, s')
                     /\ mem_inv s' bl' /\ ram s' = ram s
  | None => exists s', mem_malloc s size = Ok (NULL, s') /\ mem_inv s' bl /\ ram s' = ram s
  end.
Proof.
  intros Hinv Hsz Hnz. destruct (request_range size Hsz) as (Hk & Hk4 & _).
  unfold mem_malloc. rewrite (proj2 (Z.eqb_neq size 0)) by done. cbv zeta. fold (request size).
  set (k := request size) in *. pose proof Hinv as [Hr Ht Hlf Hadj Hu Hmax].
  destruct (Z.ltb_spec MEM_SIZE_ALIGNED k).
  { rewrite (first_fit_small (hdrs s) 0); [by exists s|apply Ht|]. destruct Ht as (_ & Htot & _). mlia. }
  destruct (lowest_free_split 0 bl) as (b1 & b2 & Eb & Hf1 & El). rewrite Hlf, El, Z.add_0_l.
  pose proof Ht as Ht2. rewrite Eb in Ht2. apply tail_app in Ht2. destruct Ht2 as [Hs1 Ht2].
  rewrite Z.add_0_l in Ht2. pose proof (seg_total _ _ _ _ Hs1).
  rewrite (malloc_scan_spec _ k b2 _ _ _ Ht2) by (done || mlia || (eapply walk_enough; [done|lia])).
  assert (Eff : fst <$> first_fit k (total b1) b2 = fst <$> first_fit k 0 bl).
  { rewrite Eb, first_fit_app by done. by rewrite Z.add_0_l. }
  cbn [res_bind]. rewrite Eff.
  destruct (first_fit k 0 bl) as [[o bl']|] eqn:Ef; cbn [fmap option_fmap option_map fst].
  2:{ eexists. split; [done|]. split; [|done]. rewrite <- (Z.add_0_l (total b1)), <- El, <- Hlf.
      split; cbn [ram hdrs lfree stats stats_inc_err st_used st_max]; done. }
  apply first_fit_inv in Ef. destruct Ef as (bl1 & n & bl2 & -> & -> & Hn & -> & _). rewrite Z.add_0_l.
  destruct (inv_split _ _ _ _ _ Hinv) as (_ & _ & _ & Hpos & Hal & Hle & _).
  destruct (malloc_take_spec s bl1 n bl2 k Hinv) as (h' & -> & Ht'); [lia|lia|done|].
  cbn [res_bind]. rewrite lowest_free_app in El.
  pose proof (proj1 (tail_app _ _ _ _ _) Ht') as [Hs1' Ht2'].
  pose proof (lowest_free_bounds _ _ _ _ Hs1') as [_ Hb].
  assert (Hlf' : (if total bl1 =? total b1 then
      let* cur := next_free (S walk_fuel) h' (total b1) in
      let* c := deref h' cur in
      assert* ((cur =? MEM_SIZE_ALIGNED) || (used c =? 0)) in Ok cur
    else Ok (total b1)) = Ok (lowest_free 0 (bl1 ++ taken k n ++ bl2))).
  { rewrite lowest_free_app. rewrite Z.add_0_l in *. destruct (has_free bl1).
    - specialize (Hb eq_refl). destruct (Z.eqb_spec (total bl1) (total b1)); [lia|].
      f_equal. lia.
    - cbn [lowest_free] in El. rewrite Z.add_0_l in El. rewrite <- El, Z.eqb_refl.
      destruct (next_free_spec h' (taken k n ++ bl2) (S walk_fuel) _ _ Ht2') as (-> & m & Hm & Em);
        [by eapply walk_enough|].
      cbn [res_bind]. rewrite (deref_ok _ _ _ Hm). cbn [res_bind]. by rewrite Em. }
  rewrite Hlf'. cbn [res_bind]. rewrite land_align, u32_id by mlia. mdec.
  eexists. split; [done|]. split; [|done]. apply inv_taken; done || lia.
Qed.

(** *** The live blocks *)

Definition live (s : mem_state) (bl : list block) : list (Z * Z) := live_from (ram s) bl.

Lemma live_from_app base bl1 bl2 :
  live_from base (bl1 ++ bl2) = live_from base bl1 ++ live_from (base + total bl1) bl2.
Proof.
  revert base. induction bl1 as [|[n u] bl1 IH]; intros base; cbn [app live_from].
  - cbn. by rewrite Z.add_0_r.
  - rewrite IH, heap_total_cons, Z.add_assoc. by destruct u.
Qed.

Lemma live_from_inv base bl p len :
  (p, len) ∈ live_from base bl ->
  exists bl1 n bl2, bl = bl1 ++ (n, true) :: bl2
    /\ p = base + total bl1 + SIZEOF_STRUCT_MEM /\ len = n - SIZEOF_STRUCT_MEM.
Proof.
  revert base. induction bl as [|[n u] bl IH]; intros base; cbn [live_from]; [by intros ?%elem_of_nil|].
  rewrite elem_of_app. intros [H|H].
  - destruct u; [|by apply elem_of_nil in H]. apply list_elem_of_singleton in H.
    injection H as -> ->. exists [], n, bl. cbn. split_and!; done || lia.
  - destruct (IH _ H) as (bl1 & m & bl2 & -> & -> & ->). exists ((n, u) :: bl1), m, bl2.
    rewrite heap_total_cons. split_and!; done || lia.
Qed.

Lemma live_from_middle base bl1 n bl2 :
  live_from base (bl1 ++ (n, true) :: bl2)
  = live_from base bl1 ++ (base + total bl1 + SIZEOF_STRUCT_MEM, n - SIZEOF_STRUCT_MEM)
      :: live_from (base + total bl1 + n) bl2.
Proof. by rewrite live_from_app. Qed.

Lemma live_from_coalesce base bl1 n bl2 :
  live_from base (coalesce bl1 n bl2) = live_from base bl1 ++ live_from (base + total bl1 + n) bl2.
Proof.
  unfold coalesce. destruct (merge_forward n bl2) as [n' bl2'] eqn:E.
  assert (Hf : live_from (base + total bl1 + n) bl2 = live_from (base + total bl1 + n') bl2').
  { destruct bl2 as [|[m [|]] bl2]; cbn in E; injection E as <- <-; cbn [live_from app]; [done..|].
    f_equal; lia. }
  rewrite Hf. clear E Hf. destruct bl1 as [|[m u] bl1 _] using rev_ind.
  { change (total []) with 0. by rewrite Z.add_0_r. }
  rewrite merge_backward_snoc, heap_total_app, heap_total_cons. cbn [total foldr]. rewrite Z.add_0_r.
  destruct u; rewrite !live_from_app; cbn [live_from app]; rewrite ?heap_total_app, ?heap_total_cons, ?app_nil_r.
  - rewrite <- app_assoc. cbn [app]. by rewrite (Z.add_assoc base).
  - by rewrite (Z.add_assoc base), <- (Z.add_assoc (_ + _)).
Qed.

Lemma live_from_trim base k n bl2 :
  live_from base (trim_blocks k n bl2)
  = (base + SIZEOF_STRUCT_MEM,
     match bl2 with
     | (_, false) :: _ => if k + SIZEOF_STRUCT_MEM <? n then k else n - SIZEOF_STRUCT_MEM
     | _ => if k + SIZEOF_STRUCT_MEM + SIZEOF_STRUCT_MEM + MIN_SIZE_ALIGNED <=? n
            then k else n - SIZEOF_STRUCT_MEM
     end) :: live_from (base + n) bl2.
Proof.
  unfold trim_blocks. destruct bl2 as [|[m [|]] bl2]; case_match; cbn [live_from app];
    rewrite ?Z.add_simpl_r; try done.
  - do 2 f_equal; [f_equal; lia|]. f_equal. lia.
  - do 2 f_equal. lia.
Qed.

Lemma live_from_taken base k n bl2 :
  k + SIZEOF_STRUCT_MEM <= n ->
  exists len, k <= len
    /\ live_from base (taken k n ++ bl2) = (base + SIZEOF_STRUCT_MEM, len) :: live_from (base + n) bl2.
Proof.
  intros Hn. unfold taken. case_match; cbn [live_from app].
  - exists k. split; [lia|]. f_equal; [f_equal; lia|]. f_equal. lia.
  - exists (n - SIZEOF_STRUCT_MEM). split; [lia|done].
Qed.

(** Live blocks lie in the heap, aligned, and do not overlap. *)
Lemma live_from_range h pv off base bl p len :
  seg h pv off bl -> (p, len) ∈ live_from base bl ->
  base + SIZEOF_STRUCT_MEM <= p /\ p + len <= base + total bl /\ MIN_SIZE_ALIGNED <= len
  /\ (base mod MEM_ALIGNMENT = 0 -> p mod MEM_ALIGNMENT = 0).
Proof.
  intros Hs Hin. apply live_from_inv in Hin. destruct Hin as (bl1 & n & bl2 & -> & -> & ->).
  apply seg_app in Hs. destruct Hs as [Hs1 (_ & Hn & Ha & Hs2)].
  pose proof (seg_total _ _ _ _ Hs1). pose proof (seg_total _ _ _ _ Hs2).
  pose proof (seg_aligned _ _ _ _ Hs1). rewrite heap_total_app, heap_total_cons.
  split_and!; mlia.
Qed.

(** The blocks are in address order, each ending before the next begins. *)
Definition disjoint_blocks (l : list (Z * Z)) : Prop :=
  forall l1 p len l2 q len' l3, l = l1 ++ (p, len) :: l2 ++ (q, len') :: l3 -> p + len <= q.

Lemma live_from_disjoint h pv off base bl :
  seg h pv off bl -> disjoint_blocks (live_from base bl).
Proof.
  revert pv off base. induction bl as [|[n u] bl IH]; intros pv off base Hs l1 p len l2 q len' l3 E.
  { by destruct l1. }
  cbn [seg] in Hs. destruct Hs as (_ & Hn & _ & Hs). cbn [live_from] in E.
  destruct u; cbn [app] in E; [|by eapply IH].
  destruct l1 as [|e l1]; cbn [app] in E; [injection E as Ep El E2|injection E as _ E2; by eapply IH].
  assert (Hin : (q, len') ∈ live_from (base + n) bl).
  { rewrite E2. apply elem_of_app. right. left. }
  apply (live_from_range h off (off + n)) in Hin; [|done]. mlia.
Qed.

(** *** The operations seen through the live blocks *)

Lemma malloc_live s bl size :
  mem_inv s bl -> is_u16 size -> size <> 0 ->
  exists p s' bl', mem_malloc s size = Ok (p, s') /\ mem_inv s' bl' /\ ram s' = ram s
    /\ ((p = NULL /\ bl' = bl /\ first_fit (request size) 0 bl = None)
        \/ exists l1 l2 len, live s bl = l1 ++ l2 /\ live s' bl' = l1 ++ (p, len) :: l2
           /\ request size <= len /\ p mod MEM_ALIGNMENT = 0 /\ ram s <= p
           /\ p + len <= ram s + MEM_SIZE_ALIGNED
           /\ exists bl1 n bl2, bl = bl1 ++ (n, false) :: bl2 /\ Forall (unfit (request size)) bl1
              /\ request size + SIZEOF_STRUCT_MEM <= n /\ p = ram s + total bl1 + SIZEOF_STRUCT_MEM
              /\ bl' = bl1 ++ taken (request size) n ++ bl2).
Proof.
  intros Hinv Hsz Hnz. pose proof (mem_malloc_spec s bl size Hinv Hsz Hnz) as H.
  destruct (first_fit (request size) 0 bl) as [[o bl']|] eqn:Ef.
  - destruct H as (s' & Em & Hinv' & Hr). eexists _, s', bl'. split_and!; [done|done|done|]. right.
    apply first_fit_inv in Ef. destruct Ef as (bl1 & n & bl2 & -> & -> & Hn & -> & Hun).
    destruct (live_from_taken (ram s + total bl1) _ _ bl2 Hn) as (len & Hlen & El).
    unfold live. rewrite Hr.
    exists (live_from (ram s) bl1), (live_from (ram s + total bl1 + n) bl2), len.
    rewrite Z.add_0_l. assert (El' : live_from (ram s) (bl1 ++ taken (request size) n ++ bl2)
      = live_from (ram s) bl1 ++ (ram s + total bl1 + SIZEOF_STRUCT_MEM, len)
          :: live_from (ram s + total bl1 + n) bl2) by (by rewrite live_from_app, El).
    pose proof (inv_tail _ _ Hinv') as (Hs' & Htot & _).
    destruct (inv_ram _ _ Hinv) as (Hr0 & Hr4 & _).
    assert (Hin : (ram s + total bl1 + SIZEOF_STRUCT_MEM, len)
                  ∈ live_from (ram s) (bl1 ++ taken (request size) n ++ bl2)).
    { rewrite El'. apply elem_of_app. right. left. }
    apply (live_from_range _ _ _ _ _ _ _ Hs') in Hin. destruct Hin as (H1 & H2 & H3 & H4).
    split_and!; [by rewrite live_from_app|done|lia|by apply H4|mlia|lia|]. by exists bl1, n, bl2.
  - destruct H as (s' & Em & Hinv' & Hr). exists NULL, s', bl. split_and!; [done..|]. by left.
Qed.

Lemma free_live s bl p len :
  mem_inv s bl -> (p, len) ∈ live s bl ->
  exists s' bl' l1 l2, mem_free s p = Ok s' /\ mem_inv s' bl' /\ ram s' = ram s
    /\ live s bl = l1 ++ (p, len) :: l2 /\ live s' bl' = l1 ++ l2.
Proof.
  intros Hinv Hin. apply live_from_inv in Hin. destruct Hin as (bl1 & n & bl2 & -> & -> & ->).
  destruct (mem_free_spec s bl1 n bl2 Hinv) as (s' & Ef & Hinv' & Hr & _).
  exists s', (coalesce bl1 n bl2), (live_from (ram s) bl1), (live_from (ram s + total bl1 + n) bl2).
  unfold live. rewrite Hr, live_from_middle, live_from_coalesce. done.
Qed.

Lemma trim_live s bl p len newsize :
  mem_inv s bl -> (p, len) ∈ live s bl -> is_u16 newsize -> request newsize <= len ->
  exists s' bl' l1 l2 len', mem_trim s p newsize = Ok (p, s') /\ mem_inv s' bl' /\ ram s' = ram s
    /\ live s bl = l1 ++ (p, len) :: l2 /\ live s' bl' = l1 ++ (p, len') :: l2
    /\ request newsize <= len' <= len.
Proof.
  intros Hinv Hin Hns Hle. apply live_from_inv in Hin. destruct Hin as (bl1 & n & bl2 & -> & -> & ->).
  pose proof (mem_trim_spec s bl1 n bl2 newsize Hinv Hns) as H. cbv zeta in H.
  destruct (inv_split _ _ _ _ _ Hinv) as (_ & _ & _ & Hpos & _ & Htot & _).
  destruct (Z.ltb_spec MEM_SIZE_ALIGNED (request newsize)); [mlia|].
  destruct (Z.ltb_spec (n - SIZEOF_STRUCT_MEM) (request newsize)); [lia|].
  destruct H as (s' & Et & Hr & Hinv').
  eexists s', _, (live_from (ram s) bl1), (live_from (ram s + total bl1 + n) bl2), _.
  split_and!; [exact Et|exact Hinv'|exact Hr| |unfold live; rewrite Hr, live_from_app, live_from_trim; reflexivity| |].
  - apply live_from_middle.
  - destruct bl2 as [|[m [|]] bl2]; case_match; lia.
  - destruct bl2 as [|[m [|]] bl2]; case_match eqn:E; rewrite ?Z.ltb_lt, ?Z.leb_le in E; mlia.
Qed.

Lemma mem_init_spec ram_heap st :
  0 < ram_heap -> ram_heap + MEM_SIZE_ALIGNED + 2 * SIZEOF_STRUCT_MEM < 4294967296 ->
  st_used st = 0 -> st_max st = 0 ->
  exists s, mem_init ram_heap true st = Ok s /\ mem_inv s [(MEM_SIZE_ALIGNED, false)]
    /\ ram s = (ram_heap + 3) / 4 * 4.
Proof.
  intros Hr Hr' Hu Hm.
  assert (Ea : LWIP_MEM_ALIGN ram_heap = (ram_heap + 3) / 4 * 4).
  { apply align_size_arith. mlia. }
  unfold mem_init. change (Z.land SIZEOF_STRUCT_MEM (MEM_ALIGNMENT - 1) =? 0) with true.
  cbn [lwip_assert res_bind]. rewrite Ea. eexists. split; [done|]. split; [|done].
  split; cbn [ram hdrs lfree stats st_used st_max]; [mlia| |done|done|by rewrite Hu|rewrite Hu, Hm; mlia].
  split_and!; [|done|eexists; by rewrite lookup_insert_eq].
  cbn [seg]. rewrite lookup_insert_ne by done. rewrite lookup_insert_eq. split_and!; done || mlia.
Qed.

Lemma first_fit_none k off bl :
  first_fit k off bl = None <-> Forall (fun b => snd b = false -> fst b < k + SIZEOF_STRUCT_MEM) bl.
Proof.
  revert off. induction bl as [|[n u] bl IH]; intros off; cbn [first_fit]; [done|].
  rewrite Forall_cons, <- (IH (off + n)). cbn [fst snd].
  destruct u; cbn [negb andb].
  - destruct (first_fit k (off + n) bl) as [[? ?]|]; split; done || (intros [_ ?]; done).
  - destruct (Z.leb_spec (k + SIZEOF_STRUCT_MEM) n).
    + split; [done|]. intros [Hn _]. specialize (Hn eq_refl). lia.
    + destruct (first_fit k (off + n) bl) as [[? ?]|]; split; done || (intros [_ ?]; done).
Qed.

(** With nothing allocated, the heap is one free block. *)
Lemma no_live_one_block s bl :
  mem_inv s bl -> live s bl = [] -> bl = [(MEM_SIZE_ALIGNED, false)].
Proof.
  intros [_ (Hs & Htot & _) _ Hadj _ _] Hl. unfold live in Hl.
  destruct bl as [|[n u] bl]; [discriminate Htot|]. cbn [live_from] in Hl.
  destruct u; [discriminate|]. cbn [no_adj app] in *.
  destruct bl as [|[m v] bl]; [rewrite heap_total_cons in Htot; cbn in Htot; do 2 f_equal; lia|].
  destruct v; [discriminate Hl|discriminate Hadj].
Qed.

(** A client of the heap: it holds pointers it got from [mem_malloc], and frees
    or trims only those. *)
Inductive mem_step : mem_state * gset Z -> mem_state * gset Z -> Prop :=
| step_malloc s P size p s' :
    is_u16 size -> mem_malloc s size = Ok (p, s') ->
    mem_step (s, P) (s', if p =? NULL then P else {[p]} ∪ P)
| step_free s P p s' :
    p ∈ P -> mem_free s p = Ok s' -> mem_step (s, P) (s', P ∖ {[p]})
| step_trim s P p newsize q s' :
    p ∈ P -> is_u16 newsize -> mem_trim s p newsize = Ok (q, s') -> mem_step (s, P) (s', P).

Inductive mem_reachable (s0 : mem_state) : mem_state * gset Z -> Prop :=
| reach_init : mem_reachable s0 (s0, ∅)
| reach_step x y : mem_reachable s0 x -> mem_step x y -> mem_reachable s0 y.

Definition client_inv (x : mem_state * gset Z) : Prop :=
  exists bl, mem_inv (fst x) bl /\ NoDup (fst <$> live (fst x) bl)
    /\ forall p, p ∈ snd x <-> p ∈ fst <$> live (fst x) bl.

Lemma mem_malloc_zero s : mem_malloc s 0 = Ok (NULL, s).
Proof. done. Qed.

Lemma disjoint_NoDup l :
  disjoint_blocks l -> Forall (fun b => 0 < snd b) l -> NoDup (fst <$> l).
Proof.
  induction l as [|[p len] l IH]; intros Hd Hp; cbn [fmap list_fmap fst]; [constructor|].
  inversion_clear Hp as [|? ? Hp1 Hp2]. cbn [snd] in Hp1. constructor.
  - intros Hin. apply list_elem_of_fmap in Hin. destruct Hin as ([q len'] & Eq & Hin). cbn in Eq. subst q.
    apply list_elem_of_split in Hin. destruct Hin as (l1 & l2 & ->).
    specialize (Hd [] p len l1 p len' l2 eq_refl). lia.
  - apply IH; [|done]. intros l1 q len1 l2 r len2 l3 ->. by apply (Hd ((p, len) :: l1) q len1 l2 r len2 l3).
Qed.

Lemma live_NoDup s bl : mem_inv s bl -> NoDup (fst <$> live s bl).
Proof.
  intros Hinv. pose proof (inv_tail _ _ Hinv) as (Hs & _ & _). apply disjoint_NoDup.
  - by eapply live_from_disjoint.
  - apply Forall_forall. intros [p len] Hin.
    eapply live_from_range in Hin; [|done]. cbn. mlia.
Qed.

(** A trim that returns leaves the same pointers allocated. *)
Lemma trim_outcome s bl p len newsize q s' :
  mem_inv s bl -> (p, len) ∈ live s bl -> is_u16 newsize -> mem_trim s p newsize = Ok (q, s') ->
  s' = s \/ exists bl', mem_inv s' bl' /\ fst <$> live s' bl' = fst <$> live s bl.
Proof.
  intros Hinv Hin Hns Em. destruct (Z.ltb_spec len (request newsize)).
  - left. apply live_from_inv in Hin. destruct Hin as (bl1 & n & bl2 & -> & -> & ->).
    pose proof (mem_trim_spec s bl1 n bl2 newsize Hinv Hns) as H'. cbv zeta in H'.
    destruct (Z.ltb_spec MEM_SIZE_ALIGNED (request newsize)); [congruence|].
    destruct (Z.ltb_spec (n - SIZEOF_STRUCT_MEM) (request newsize)); [congruence|lia].
  - right. destruct (trim_live s bl p len newsize) as (s2 & bl' & l1 & l2 & len' & Em' & Hinv' & _ & El & El' & _);
      [done..|]. rewrite Em in Em'. injection Em' as -> <-. exists bl'.
    rewrite El, El', !fmap_app. done.
Qed.

Lemma client_step x y : client_inv x -> mem_step x y -> client_inv y.
Proof.
  intros (bl & Hinv & Hnd & HP) Hstep.
  destruct Hstep as [s P size p s' Hsz Em|s P p s' Hp Em|s P p newsize q s' Hp Hns Em]; cbn [fst snd] in *.
  - destruct (decide (size = 0)) as [->|Hnz].
    { rewrite mem_malloc_zero in Em. injection Em as <- <-. by exists bl. }
    destruct (malloc_live s bl size Hinv Hsz Hnz) as (p' & s'' & bl' & Em' & Hinv' & Hr & H).
    rewrite Em in Em'. injection Em' as <- <-. exists bl'. cbn [fst snd].
    split; [done|]. split; [by apply live_NoDup|].
    destruct H as [(-> & -> & _)|(l1 & l2 & len & El & El' & _ & _ & Hpr & _)].
    + unfold live in *. rewrite Hr. done.
    + destruct (inv_ram _ _ Hinv) as (Hr0 & _). rewrite (proj2 (Z.eqb_neq p NULL)) by (unfold NULL; lia).
      intros q. rewrite elem_of_union, elem_of_singleton, HP, El', El, !fmap_app, !elem_of_app.
      cbn [fmap list_fmap fst]. rewrite elem_of_cons. tauto.
  - apply HP in Hp. apply list_elem_of_fmap in Hp. destruct Hp as ([p' len] & -> & Hp). cbn [fst] in *.
    destruct (free_live s bl p' len Hinv Hp) as (s'' & bl' & l1 & l2 & Em' & Hinv' & Hr & El & El').
    rewrite Em in Em'. injection Em' as <-. exists bl'. cbn [fst snd].
    split; [done|]. split; [by apply live_NoDup|]. intros q. rewrite El in HP, Hnd. rewrite El'.
    rewrite elem_of_difference, elem_of_singleton, HP, !fmap_app, !elem_of_app.
    cbn [fmap list_fmap fst]. rewrite elem_of_cons.
    rewrite fmap_app in Hnd. cbn [fmap list_fmap fst] in Hnd. apply NoDup_app in Hnd.
    destruct Hnd as (_ & H1 & H2). apply NoDup_cons in H2. destruct H2 as [H2 _].
    split; [tauto|]. intros [H|H]; (split; [tauto|]); intros ->; [|done].
    apply (H1 _ H). left.
  - apply HP in Hp. apply list_elem_of_fmap in Hp. destruct Hp as ([p' len] & -> & Hp). cbn [fst] in *.
    destruct (trim_outcome s bl p' len newsize q s' Hinv Hp Hns Em) as [-> | (bl' & Hinv' & Ek)];
      [by exists bl|].
    exists bl'. cbn [fst snd]. split; [done|]. rewrite Ek. done.
Qed.

(** The heap right after [mem_init], for the examples. *)
Definition heap0 : mem_state :=
  mk_state 4096 (<[MEM_SIZE_ALIGNED := mk_mem MEM_SIZE_ALIGNED MEM_SIZE_ALIGNED 1]>
                   (<[0 := mk_mem MEM_SIZE_ALIGNED 0 0]> ∅)) 0 (mk_stats 0 MEM_SIZE_ALIGNED 0 0 0).

Lemma heap0_inv : mem_inv heap0 [(MEM_SIZE_ALIGNED, false)].
Proof.
  destruct (mem_init_spec 4096 (mk_stats 0 0 0 0 0)) as (s & E & Hinv & _); [done..|].
  assert (Es : mem_init 4096 true (mk_stats 0 0 0 0 0) = Ok heap0) by reflexivity.
  rewrite E in Es. by injection Es as ->.
Qed.

(** ** Properties *)

(** C7: [mem_malloc] of 1 to 65532 bytes is first fit on the abstract block list and never
    faults.  It returns NULL exactly when every free block is too small for the aligned request.
    Otherwise it takes the first free block that is large enough: all blocks in front of it are
    used or too small; what is left over is split off as a free block when it can hold one, and the
    blocks around it stay.  The result is an aligned pointer behind the header of that block, to at
    least the requested size inside the heap; the other live blocks stay as they are, and live
    blocks never overlap.  The invariant (contiguous blocks covering the heap, both links right, no
    two adjacent free blocks, [lfree] lowest, [used] statistic exact) is kept.  For requests of more
    than 65532 bytes the aligned size wraps to 0 ([mem_malloc_size_wraps]). *)
Theorem mem_malloc_correct (s : mem_state) (bl : list block) (size : Z) :
  mem_inv s bl -> 0 < size <= 65532 ->
  exists p s' bl', mem_malloc s size = Ok (p, s') /\ mem_inv s' bl'
    /\ disjoint_blocks (live s' bl')
    /\ (p = NULL <-> Forall (unfit (request size)) bl)
    /\ (p = NULL -> bl' = bl /\ live s' bl' = live s bl)
    /\ (p <> NULL -> exists bl1 n bl2, bl = bl1 ++ (n, false) :: bl2 /\ Forall (unfit (request size)) bl1
         /\ request size + SIZEOF_STRUCT_MEM <= n /\ p = ram s + total bl1 + SIZEOF_STRUCT_MEM
         /\ bl' = bl1 ++ taken (request size) n ++ bl2)
    /\ (p <> NULL -> exists l1 l2 len, live s bl = l1 ++ l2 /\ live s' bl' = l1 ++ (p, len) :: l2
         /\ size <= len /\ p mod MEM_ALIGNMENT = 0
         /\ ram s <= p /\ p + len <= ram s + MEM_SIZE_ALIGNED).
Proof.
  intros Hinv Hsz. assert (H16 : is_u16 size) by mlia.
  destruct (request_range size H16) as (_ & _ & Hreq).
  destruct (malloc_live s bl size Hinv H16) as (p & s' & bl' & Em & Hinv' & Hr & H); [lia|].
  destruct (inv_ram _ _ Hinv) as (Hr0 & _). pose proof (inv_tail _ _ Hinv') as (Hs' & _).
  exists p, s', bl'. split; [done|]. split; [done|]. split; [by eapply live_from_disjoint|].
  destruct H as [(-> & -> & Hn)|(l1 & l2 & len & El & El' & Hlen & Hal & Hlo & Hhi & Hff)].
  - unfold unfit. rewrite <- (first_fit_none _ 0). unfold live. rewrite Hr. done.
  - assert (Hp : p <> NULL) by (unfold NULL; lia). split_and!; [split; [done|]|done|done|].
    + destruct Hff as (bl1 & n & bl2 & -> & _ & Hn & _). intros Hall. apply Forall_app in Hall as (_ & Hall).
      apply Forall_inv in Hall. specialize (Hall eq_refl). cbn [fst] in Hall. lia.
    + intros _. exists l1, l2, len. split_and!; done || lia.
Qed.

Lemma mem_malloc_correct_witness :
  exists p s' bl', mem_malloc heap0 100 = Ok (p, s') /\ mem_inv s' bl' /\ p = 4104.
Proof.
  destruct (mem_malloc_correct heap0 [(MEM_SIZE_ALIGNED, false)] 100 heap0_inv)
    as (p & s' & bl' & Em & Hinv & _); [lia|].
  exists p, s', bl'. split; [exact Em|]. split; [exact Hinv|].
  assert (E : fst <$> (match mem_malloc heap0 100 with Ok x => Some x | _ => None end) = Some 4104)
    by (vm_compute; reflexivity).
  rewrite Em in E. cbn in E. congruence.
Defined.

(** C22: [mem_free] of a live block succeeds, keeps the invariant (so free
    neighbours are merged and [lfree] stays the lowest free block), removes
    exactly that block from the live ones and takes its bytes off the [used]
    statistic; [mem_free] of NULL does nothing. *)
Theorem mem_free_correct (s : mem_state) (bl : list block) (p len : Z) :
  mem_inv s bl -> (p, len) ∈ live s bl ->
  mem_free s NULL = Ok s
  /\ exists s' bl' l1 l2, mem_free s p = Ok s' /\ mem_inv s' bl'
     /\ live s bl = l1 ++ (p, len) :: l2 /\ live s' bl' = l1 ++ l2
     /\ st_used (stats s') = st_used (stats s) - (len + SIZEOF_STRUCT_MEM).
Proof.
  intros Hinv Hin. split; [done|]. apply live_from_inv in Hin.
  destruct Hin as (bl1 & n & bl2 & -> & -> & ->).
  destruct (mem_free_spec s bl1 n bl2 Hinv) as (s' & Ef & Hinv' & Hr & Hu).
  exists s', (coalesce bl1 n bl2), (live_from (ram s) bl1), (live_from (ram s + total bl1 + n) bl2).
  unfold live. rewrite Hr, live_from_middle, live_from_coalesce, Hu. split_and!; done || lia.
Qed.

Lemma mem_free_correct_witness :
  exists s s' bl', mem_malloc heap0 100 = Ok (4104, s) /\ mem_free s 4104 = Ok s' /\ mem_inv s' bl'.
Proof.
  pose proof (mem_malloc_spec heap0 _ 100 heap0_inv ltac:(unfold is_u16; lia) ltac:(lia)) as H.
  change (first_fit (request 100) 0 [(MEM_SIZE_ALIGNED, false)])
    with (Some (0, [(108, true); (10132, false)])) in H. cbv beta iota in H.
  destruct H as (s & Em & Hinv & Hr).
  assert (Hin : (4104, 100) ∈ live s [(108, true); (10132, false)]).
  { unfold live. rewrite Hr. left. }
  destruct (mem_free_correct s _ 4104 100 Hinv Hin) as (_ & s' & bl' & _ & _ & Ef & Hinv' & _).
  exists s, s', bl'. split; [exact Em|]. split; [exact Ef|exact Hinv'].
Defined.

(** [mem_trim] of a live block never moves it: it returns the same pointer,
    keeps at least the requested bytes and at most the old ones, leaves all other
    live blocks alone and keeps the invariant.  If the (aligned) new size is
    larger than the block it returns NULL when even the heap is smaller, and
    otherwise fails its assertion. *)
Theorem mem_trim_correct (s : mem_state) (bl : list block) (p len newsize : Z) :
  mem_inv s bl -> (p, len) ∈ live s bl -> 0 <= newsize <= 65532 ->
  if MEM_SIZE_ALIGNED <? request newsize then mem_trim s p newsize = Ok (NULL, s)
  else if len <? request newsize then mem_trim s p newsize = Fault FAssert
  else exists s' bl' l1 l2 len', mem_trim s p newsize = Ok (p, s') /\ mem_inv s' bl'
    /\ live s bl = l1 ++ (p, len) :: l2 /\ live s' bl' = l1 ++ (p, len') :: l2
    /\ newsize <= len' <= len.
Proof.
  intros Hinv Hin Hns. assert (H16 : is_u16 newsize) by mlia.
  destruct (request_range newsize H16) as (_ & _ & Hreq).
  destruct (Z.ltb_spec len (request newsize)).
  - apply live_from_inv in Hin. destruct Hin as (bl1 & n & bl2 & -> & -> & ->).
    pose proof (mem_trim_spec s bl1 n bl2 newsize Hinv H16) as H'. cbv zeta in H'.
    destruct (Z.ltb_spec (n - SIZEOF_STRUCT_MEM) (request newsize)); [done|lia].
  - destruct (Z.ltb_spec MEM_SIZE_ALIGNED (request newsize)).
    { pose proof (inv_tail _ _ Hinv) as (Hs & Htot & _).
      apply (live_from_range _ _ _ _ _ _ _ Hs) in Hin. mlia. }
    destruct (trim_live s bl p len newsize) as (s' & bl' & l1 & l2 & len' & Em & Hinv' & _ & El & El' & Hl);
      [done..|].
    exists s', bl', l1, l2, len'. split_and!; done || lia.
Qed.

Lemma mem_trim_correct_witness :
  exists s s' bl', mem_malloc heap0 100 = Ok (4104, s) /\ mem_trim s 4104 20 = Ok (4104, s')
    /\ mem_inv s' bl'.
Proof.
  pose proof (mem_malloc_spec heap0 _ 100 heap0_inv ltac:(unfold is_u16; lia) ltac:(lia)) as H.
  change (first_fit (request 100) 0 [(MEM_SIZE_ALIGNED, false)])
    with (Some (0, [(108, true); (10132, false)])) in H. cbv beta iota in H.
  destruct H as (s & Em & Hinv & Hr).
  assert (Hin : (4104, 100) ∈ live s [(108, true); (10132, false)]).
  { unfold live. rewrite Hr. left. }
  pose proof (mem_trim_correct s _ 4104 100 20 Hinv Hin ltac:(lia)) as Ht.
  change (request 20) with 20 in Ht. cbn [Z.ltb Z.compare Pos.compare Pos.compare_cont] in Ht.
  destruct Ht as (s' & bl' & _ & _ & _ & Et & Hinv' & _).
  exists s, s', bl'. split; [exact Em|]. split; [exact Et|exact Hinv'].
Defined.

(** C23: Whatever a client does that frees and trims only what it holds, from
    initialisation on: the heap invariant holds, the client's pointers are
    exactly the live blocks, allocating and freeing cannot fault, and once
    everything is freed the heap is one free block again, so nothing leaks and
    nothing stays fragmented. *)
Theorem mem_reachable_safe (ram_heap : Z) (st : stats_mem) (s0 s : mem_state) (P : gset Z) :
  0 < ram_heap -> ram_heap + MEM_SIZE_ALIGNED + 2 * SIZEOF_STRUCT_MEM < 4294967296 ->
  st_used st = 0 -> st_max st = 0 -> mem_init ram_heap true st = Ok s0 ->
  mem_reachable s0 (s, P) ->
  exists bl, mem_inv s bl /\ (forall p, p ∈ P <-> p ∈ fst <$> live s bl)
    /\ (forall size, is_u16 size -> exists p s', mem_malloc s size = Ok (p, s'))
    /\ (forall p, p ∈ P -> exists s', mem_free s p = Ok s')
    /\ (P = ∅ -> bl = [(MEM_SIZE_ALIGNED, false)]).
Proof.
  intros Hr Hr' Hu Hm Ei Hreach.
  assert (Hc : client_inv (s, P)).
  { remember (s, P) as x eqn:Ex. clear Ex s P. induction Hreach as [|x y _ IH Hstep].
    - destruct (mem_init_spec ram_heap st Hr Hr' Hu Hm) as (s & E & Hinv & _).
      rewrite Ei in E. injection E as <-. exists [(MEM_SIZE_ALIGNED, false)].
      split_and!; [done|by apply live_NoDup|]. cbn. intros p. set_solver.
    - by eapply client_step. }
  destruct Hc as (bl & Hinv & _ & HP). cbn [fst snd] in *. exists bl. split_and!; [done|done| | |].
  - intros size Hsz. destruct (decide (size = 0)) as [->|Hnz]; [by eexists _, _|].
    destruct (malloc_live s bl size Hinv Hsz Hnz) as (p & s' & _ & Em & _). by eexists _, _.
  - intros p Hp. apply HP in Hp. apply list_elem_of_fmap in Hp. destruct Hp as ([p' len] & -> & Hp).
    destruct (free_live s bl p' len Hinv Hp) as (s' & _ & _ & _ & Em & _). by eexists.
  - intros ->. apply (no_live_one_block s); [done|].
    destruct (live s bl) as [|b l] eqn:El; [done|]. exfalso.
    apply (not_elem_of_empty (C := gset Z) (fst b)). apply HP. left.
Qed.

Lemma mem_reachable_safe_witness :
  exists s0 s bl, mem_init 4097 true (mk_stats 0 0 0 0 0) = Ok s0
    /\ mem_malloc s0 7 = Ok (4108, s) /\ mem_inv s bl.
Proof.
  destruct (mem_init_spec 4097 (mk_stats 0 0 0 0 0)) as (s0 & E & Hinv & Hr); [done..|].
  pose proof (mem_malloc_spec s0 _ 7 Hinv ltac:(unfold is_u16; lia) ltac:(lia)) as H.
  change (first_fit (request 7) 0 [(MEM_SIZE_ALIGNED, false)])
    with (Some (0, [(20, true); (10220, false)])) in H. cbv beta iota in H.
  destruct H as (s & Em & _ & _). rewrite Hr in Em.
  change ((4097 + 3) / 4 * 4 + 0 + SIZEOF_STRUCT_MEM) with 4108 in Em.
  assert (Hreach : mem_reachable s0 (s, if 4108 =? NULL then ∅ else {[4108]} ∪ ∅)).
  { apply (reach_step s0 (s0, ∅)); [apply reach_init|].
    apply step_malloc with 7; [unfold is_u16; lia|exact Em]. }
  destruct (mem_reachable_safe 4097 (mk_stats 0 0 0 0 0) s0 s _ ltac:(lia) ltac:(reflexivity)
    eq_refl eq_refl E Hreach) as (bl & Hinv' & _).
  exists s0, s, bl. split; [exact E|]. split; [exact Em|exact Hinv'].
Defined.

(** The aligned size is kept in a 16-bit [mem_size_t], so a request for
    65533 to 65535 bytes wraps to 0 and is served with a minimal block of 12
    bytes whenever there is room for one, instead of being refused. *)
Theorem mem_malloc_size_wraps (s : mem_state) (size : Z) :
  65532 < size <= 65535 ->
  request size = MIN_SIZE_ALIGNED /\ mem_malloc s size = mem_malloc s 12.
Proof.
  intros Hsz. assert (E : LWIP_MEM_ALIGN_SIZE size = 65536).
  { rewrite align_size_arith by lia. zlia. }
  unfold request. rewrite E. split; [done|]. unfold mem_malloc.
  rewrite (proj2 (Z.eqb_neq size 0)), E by lia. done.
Qed.

Lemma mem_malloc_size_wraps_witness :
  mem_malloc heap0 65535 = mem_malloc heap0 12
  /\ (let* (p, s) := mem_malloc heap0 65535 in Ok (p, st_used (stats s))) = Ok (4104, 20).
Proof.
  split; [apply (mem_malloc_size_wraps heap0 65535); lia|vm_compute; reflexivity].
Defined.
