(* ===== verification/Memp.v ===== *)
(** * Fixed-size memory pools: lwip/src/core/memp.c

    Every pool is an array of equal elements with a linked list of its free
    ones.  [MEMP_OVERFLOW_CHECK] and [MEMP_MEM_MALLOC] are 0, so [MEMP_SIZE] is 0
    and the link of a free element occupies the start of the element itself.
    The pool descriptors are generated from [memp_std.h] and the sizes of the
    structures; here a pool carries its descriptor.  [memp_sanity] is compiled
    only with [MEMP_SANITY_CHECK]. *)

From S2P Require Import Prelude Mem.

(** ** Definitions *)

Definition MEMP_SIZE : Z := 0.

(** [struct memp_desc], without the parts that change. *)
Record memp_desc := mk_desc { size : Z; num : Z; base : Z }.

(** A pool: its descriptor, [*desc->tab], the [next] fields of its elements and
    [*desc->stats]. *)
Record pool := mk_pool { desc : memp_desc; tab : Z; links : gmap Z Z; pstats : stats_mem }.

(** The loop of [memp_init_pool]: [i] elements are still to be put on the list. *)
Fixpoint init_elements (i : nat) (d : memp_desc) (memp tab : Z) (links : gmap Z Z)
    : Z * gmap Z Z :=
  match i with
  | O => (tab, links)
  | S i' => init_elements i' d (memp + MEMP_SIZE + size d) memp (<[memp := tab]> links)
  end.

Definition memp_init_pool (p : pool) : pool :=
  let d := desc p in
  let '(tab, links) :=
    init_elements (Z.to_nat (num d)) d (LWIP_MEM_ALIGN (base d)) NULL (links p) in
  let st := pstats p in
  mk_pool d tab links (mk_stats (st_err st) (num d) (st_used st) (st_max st) (st_illegal st)).

Definition memp_init (memp_pools : list pool) : list pool := memp_init_pool <$> memp_pools.

Definition do_memp_malloc_pool (p : pool) : res (Z * pool) :=
  let memp := tab p in
  if negb (memp =? NULL) then
    let* nxt := deref (links p) memp in
    assert* (memp mod MEM_ALIGNMENT =? 0) in
    let st := pstats p in
    let used := u16 (st_used st + 1) in
    let st := mk_stats (st_err st) (st_avail st) used
                (if st_max st <? used then used else st_max st) (st_illegal st) in
    Ok (memp + MEMP_SIZE, mk_pool (desc p) nxt (links p) st)
  else Ok (NULL, mk_pool (desc p) (tab p) (links p) (stats_inc_err (pstats p))).

(** A pool pointer that may be NULL; the pool is an entry of the array. *)
Definition memp_malloc_pool (pools : list pool) (d : option nat) : res (Z * list pool) :=
  match d with
  | Some i =>
      match pools !! i with
      | Some p => let* (m, p) := do_memp_malloc_pool p in Ok (m, <[i := p]> pools)
      | None => Fault FBadAccess
      end
  | None => Fault FAssert
  end.

(** [LWIP_ERROR] on an unknown type returns NULL. *)
Definition memp_malloc (pools : list pool) (type : nat) : res (Z * list pool) :=
  match pools !! type with
  | Some p => let* (m, p) := do_memp_malloc_pool p in Ok (m, <[type := p]> pools)
  | None => Ok (NULL, pools)
  end.

Definition do_memp_free_pool (p : pool) (mem : Z) : res pool :=
  assert* (mem mod MEM_ALIGNMENT =? 0) in
  let memp := mem - MEMP_SIZE in
  let st := pstats p in
  let st := mk_stats (st_err st) (st_avail st) (u16 (st_used st - 1)) (st_max st) (st_illegal st) in
  Ok (mk_pool (desc p) memp (<[memp := tab p]> (links p)) st).

Definition memp_free_pool (pools : list pool) (d : option nat) (mem : Z) : res (list pool) :=
  match d with
  | Some i =>
      if mem =? NULL then Ok pools else
      match pools !! i with
      | Some p => let* p := do_memp_free_pool p mem in Ok (<[i := p]> pools)
      | None => Fault FBadAccess
      end
  | None => Fault FAssert
  end.

Definition memp_free (pools : list pool) (type : nat) (mem : Z) : res (list pool) :=
  match pools !! type with
  | Some p =>
      if mem =? NULL then Ok pools else
      let* p := do_memp_free_pool p mem in Ok (<[type := p]> pools)
  | None => Ok pools
  end.

(** The loop of Floyd's cycle check: [t] one step, [h] two steps at a time. *)
Fixpoint sanity_loop (fuel : nat) (links : gmap Z Z) (t h : Z) : res bool :=
  match fuel with
  | O => Fault FFuel
  | S fuel' =>
      if negb (t =? NULL) && negb (h =? NULL) then
        if t =? h then Ok false
        else
          let* t' := deref links t in
          let* h1 := deref links h in
          let* h' := if negb (h1 =? NULL) then deref links h1 else Ok NULL in
          sanity_loop fuel' links t' h'
      else Ok true
  end.

Definition memp_sanity (p : pool) : res bool :=
  let t := tab p in
  if negb (t =? NULL) then
    let* h := deref (links p) t in
    sanity_loop (S (S (Z.to_nat (num (desc p))))) (links p) t h
  else Ok true.

Example memp_ex :
  let p := memp_init_pool (mk_pool (mk_desc 20 3 4097) 0 ∅ (mk_stats 0 0 0 0 0)) in
  (let* (a, ps) := memp_malloc [p] 0 in
   let* (b, ps) := memp_malloc ps 0 in
   let* (c, ps) := memp_malloc ps 0 in
   let* (d, ps) := memp_malloc ps 0 in
   let* ps := memp_free ps 0 b in
   let* (e, ps) := memp_malloc ps 0 in
   Ok (a, b, c, d, e)) = Ok (4140, 4120, 4100, 0, 4120).
Proof. vm_compute. reflexivity. Qed.

(** ** The invariant of a pool *)

(** Addresses of the elements. *)
Definition elements (d : memp_desc) : list Z :=
  (fun i => LWIP_MEM_ALIGN (base d) + Z.of_nat i * size d) <$> seq 0 (Z.to_nat (num d)).

Definition desc_ok (d : memp_desc) : Prop :=
  0 < base d /\ 0 <= num d < 65536 /\ 4 <= size d /\ size d mod MEM_ALIGNMENT = 0
  /\ base d + num d * size d + MEM_ALIGNMENT < 4294967296.

(** [l] is the list of free elements that starts at [p]. *)
Fixpoint free_list (links : gmap Z Z) (p : Z) (l : list Z) : Prop :=
  match l with
  | [] => p = NULL
  | e :: l' => p = e /\ e <> NULL /\ exists q, links !! e = Some q /\ free_list links q l'
  end.

(** [fl]: the free elements in list order; [al]: the allocated ones. *)
Record pool_inv (p : pool) (fl al : list Z) : Prop := {
  pool_desc : desc_ok (desc p);
  pool_free : free_list (links p) (tab p) fl;
  pool_elems : fl ++ al ≡ₚ elements (desc p);
  pool_used : st_used (pstats p) = Z.of_nat (length al);
  pool_max : st_used (pstats p) <= st_max (pstats p) <= num (desc p)
}.

Lemma align_base d : desc_ok d -> LWIP_MEM_ALIGN (base d) = (base d + 3) / 4 * 4.
Proof. intros (? & ? & ? & _ & ?). apply align_size_arith. unfold MEM_ALIGNMENT in *. nia. Qed.

Lemma elements_spec d e :
  desc_ok d -> e ∈ elements d ->
  0 < e /\ e mod MEM_ALIGNMENT = 0 /\ LWIP_MEM_ALIGN (base d) <= e
  /\ e + size d <= LWIP_MEM_ALIGN (base d) + num d * size d.
Proof.
  intros Hd He. apply list_elem_of_fmap in He. destruct He as (i & -> & Hi).
  apply elem_of_seq in Hi. pose proof (align_base d Hd) as Ea. destruct Hd as (Hb & Hn & Hs & Hs4 & _).
  rewrite Ea in *. unfold MEM_ALIGNMENT in *. split_and!; [zlia| |nia|nia].
  assert (E : exists k, size d = k * 4) by (exists (size d / 4); zlia). destruct E as [k ->].
  rewrite Z.mul_assoc, <- Z.mul_add_distr_r, Z.mod_mul by lia. done.
Qed.

Lemma elements_apart d e e' :
  desc_ok d -> e ∈ elements d -> e' ∈ elements d -> e <> e' ->
  e + size d <= e' \/ e' + size d <= e.
Proof.
  intros (_ & _ & Hs & _) He He' Hne. apply list_elem_of_fmap in He, He'.
  destruct He as (i & -> & _), He' as (j & -> & _).
  destruct (decide (i = j)) as [->|]; [done|]. destruct (decide (i < j)%nat); [left|right]; nia.
Qed.

Lemma elements_NoDup d : desc_ok d -> NoDup (elements d).
Proof.
  intros (_ & _ & Hs & _). apply NoDup_fmap_2; [|apply NoDup_seq]. intros i j E. nia.
Qed.

Lemma length_elements d : length (elements d) = Z.to_nat (num d).
Proof. unfold elements. by rewrite length_fmap, length_seq. Qed.

Lemma free_list_ext links links' p l :
  (forall e, e ∈ l -> links' !! e = links !! e) -> free_list links p l -> free_list links' p l.
Proof.
  revert p. induction l as [|e l IH]; intros p Hext; cbn [free_list]; [done|].
  intros (-> & Hne & q & Hq & Hl). split_and!; [done|done|]. exists q.
  split; [rewrite Hext by left; done|]. apply IH; [|done]. intros e' He'. apply Hext. by right.
Qed.

(** *** Initialisation *)

Lemma init_elements_spec d n : forall i memp tab links fl,
  memp = LWIP_MEM_ALIGN (base d) + Z.of_nat i * size d -> desc_ok d ->
  Z.of_nat (i + n) <= num d -> free_list links tab fl ->
  fl ≡ₚ (fun j => LWIP_MEM_ALIGN (base d) + Z.of_nat j * size d) <$> seq 0 i ->
  exists fl', free_list (snd (init_elements n d memp tab links)) (fst (init_elements n d memp tab links)) fl'
    /\ fl' ≡ₚ (fun j => LWIP_MEM_ALIGN (base d) + Z.of_nat j * size d) <$> seq 0 (i + n).
Proof.
  induction n as [|n IH]; intros i memp tab links fl Hm Hd Hn Hfl Hp; cbn [init_elements].
  - exists fl. rewrite Nat.add_0_r. done.
  - replace (i + S n)%nat with (S i + n)%nat by lia.
    assert (Hnew : memp ∉ fl).
    { rewrite Hp, list_elem_of_fmap. intros (j & E & Hj). apply elem_of_seq in Hj.
      destruct Hd as (_ & _ & Hs & _). nia. }
    apply (IH (S i) _ _ _ (memp :: fl)).
    + unfold MEMP_SIZE. lia.
    + done.
    + lia.
    + cbn [free_list]. split_and!; [done| |exists tab; split; [by rewrite lookup_insert_eq|]].
      * pose proof (align_base d Hd). destruct Hd as (? & ? & ? & _). unfold NULL. zify; zlia.
      * eapply free_list_ext; [|done]. intros e He. rewrite lookup_insert_ne; [done|]. by intros ->.
    + rewrite seq_S, fmap_app, Hp, Hm. cbn [fmap list_fmap Nat.add]. apply Permutation_cons_append.
Qed.

(** A pool in the static storage the program starts with. *)
Lemma memp_init_pool_spec p :
  desc_ok (desc p) -> st_used (pstats p) = 0 -> st_max (pstats p) = 0 ->
  exists fl, pool_inv (memp_init_pool p) fl [].
Proof.
  intros Hd Hu Hm. unfold memp_init_pool.
  destruct (init_elements_spec (desc p) (Z.to_nat (num (desc p))) 0 (LWIP_MEM_ALIGN (base (desc p)))
    NULL (links p) []) as (fl & Hfl & Hp); [lia|done| |done|done|].
  { destruct Hd as (_ & ? & _). lia. }
  destruct (init_elements _ _ _ _ _) as [tab' links'] eqn:E. cbn [fst snd] in *. exists fl.
  split; cbn [desc tab links pstats st_used st_max]; [done|done| |by rewrite Hu|].
  - rewrite app_nil_r, Hp. done.
  - destruct Hd as (_ & ? & _). lia.
Qed.

(** *** Allocation and release *)

Lemma pool_elem p fl al e : pool_inv p fl al -> e ∈ fl ++ al -> e ∈ elements (desc p).
Proof. intros [_ _ Hp _ _]. by rewrite Hp. Qed.

Lemma pool_NoDup p fl al : pool_inv p fl al -> NoDup (fl ++ al).
Proof. intros [Hd _ Hp _ _]. rewrite Hp. by apply elements_NoDup. Qed.

Lemma pool_count p fl al :
  pool_inv p fl al -> Z.of_nat (length fl) + Z.of_nat (length al) = num (desc p).
Proof.
  intros [Hd _ Hp _ _]. apply Permutation_length in Hp. rewrite length_app, length_elements in Hp.
  destruct Hd as (_ & ? & _). lia.
Qed.

Lemma malloc_pool_spec p fl al :
  pool_inv p fl al ->
  match fl with
  | [] => exists p', do_memp_malloc_pool p = Ok (NULL, p') /\ pool_inv p' [] al /\ desc p' = desc p
  | e :: fl' => exists p', do_memp_malloc_pool p = Ok (e, p') /\ pool_inv p' fl' (e :: al)
                /\ desc p' = desc p
  end.
Proof.
  intros Hinv. pose proof (pool_count _ _ _ Hinv) as Hc. pose proof Hinv as [Hd Hfl Hp Hu Hm].
  unfold do_memp_malloc_pool. destruct fl as [|e fl]; cbn [free_list] in Hfl.
  - rewrite Hfl. cbn [Z.eqb NULL negb]. eexists. split; [done|]. split; [|done].
    split; cbn [desc tab links pstats stats_inc_err st_used st_max]; done.
  - destruct Hfl as (Ht & Hne & q & Hq & Hfl). rewrite Ht, (proj2 (Z.eqb_neq e NULL)) by done.
    cbn [negb]. rewrite (deref_ok _ _ _ Hq). cbn [res_bind].
    destruct (elements_spec (desc p) e Hd) as (_ & Hal & _); [eapply pool_elem; [done|left]|].
    rewrite Hal. cbn [Z.eqb lwip_assert res_bind]. unfold MEMP_SIZE. rewrite Z.add_0_r.
    eexists. split; [done|]. split; [|done]. cbn [length] in Hc.
    assert (Hinc : u16 (st_used (pstats p) + 1) = Z.of_nat (S (length al))).
    { destruct Hd as (_ & ? & _). rewrite Hu, u16_id; [lia|]. unfold is_u16. lia. }
    split; cbn [desc tab links pstats st_used st_max]; [done|done| |by rewrite Hinc|].
    + rewrite <- Hp. cbn [app]. by rewrite Permutation_middle.
    + rewrite Hinc. zcases; lia.
Qed.

Lemma free_pool_spec p fl al e :
  pool_inv p fl al -> e ∈ al ->
  exists p' al1 al2, do_memp_free_pool p e = Ok p' /\ al = al1 ++ e :: al2
    /\ pool_inv p' (e :: fl) (al1 ++ al2) /\ desc p' = desc p.
Proof.
  intros Hinv He. pose proof (pool_NoDup _ _ _ Hinv) as Hnd. pose proof (pool_count _ _ _ Hinv) as Hc.
  pose proof Hinv as [Hd Hfl Hp Hu Hm].
  destruct (elements_spec (desc p) e Hd) as (Hpos & Hal & _);
    [eapply pool_elem; [done|]; apply elem_of_app; by right|].
  apply list_elem_of_split in He. destruct He as (al1 & al2 & ->).
  unfold do_memp_free_pool. rewrite Hal. cbn [Z.eqb lwip_assert res_bind].
  unfold MEMP_SIZE. rewrite Z.sub_0_r. eexists _, al1, al2. split; [done|]. split; [done|].
  split; [|done]. rewrite length_app in Hu, Hc. cbn [length] in Hu, Hc.
  assert (Hdec : u16 (st_used (pstats p) - 1) = Z.of_nat (length (al1 ++ al2))).
  { destruct Hd as (_ & ? & _). rewrite length_app, Hu, u16_id; [lia|]. unfold is_u16. lia. }
  split; cbn [desc tab links pstats st_used st_max]; [done| | |by rewrite Hdec|].
  - cbn [free_list]. split_and!; [done|unfold NULL; lia|]. exists (tab p).
    rewrite lookup_insert_eq. split; [done|]. eapply free_list_ext; [|done].
    intros e' He'. rewrite lookup_insert_ne; [done|]. intros <-.
    apply NoDup_app in Hnd. destruct Hnd as (_ & Hnd & _). apply (Hnd e He').
    apply elem_of_app. right. left.
  - rewrite <- Hp. cbn [app]. by rewrite !Permutation_middle.
  - rewrite Hdec, length_app. lia.
Qed.

(** *** The cycle check *)

Lemma sanity_loop_true links : forall fuel t h lt lh x,
  free_list links t lt -> free_list links h lh -> lt = x ++ lh -> NoDup lt ->
  (x = [] -> lt = []) -> (length lt < fuel)%nat ->
  sanity_loop fuel links t h = Ok true.
Proof.
  induction fuel as [|fuel IH]; intros t h lt lh x Ht Hh Elt Hnd Hx Hf; [lia|]. cbn [sanity_loop].
  destruct lt as [|a lt]; cbn [free_list] in Ht; [by subst t|].
  destruct Ht as (-> & Hane & q & Hq & Ht). destruct x as [|a' x]; [by specialize (Hx eq_refl)|].
  injection Elt as <- Elt. rewrite (proj2 (Z.eqb_neq a NULL)) by done. cbn [negb andb].
  destruct lh as [|b lh]; cbn [free_list] in Hh; [by subst h|].
  destruct Hh as (-> & Hbne & r & Hr & Hh). rewrite (proj2 (Z.eqb_neq b NULL)) by done. cbn [negb].
  apply NoDup_cons in Hnd. destruct Hnd as [Ha Hnd].
  destruct (Z.eqb_spec a b) as [->|Hab].
  { exfalso. apply Ha. rewrite Elt. apply elem_of_app. right. left. }
  rewrite (deref_ok _ _ _ Hq), (deref_ok _ _ _ Hr). cbn [res_bind length] in *.
  destruct lh as [|c lh]; cbn [free_list] in Hh.
  - subst r. cbn [Z.eqb NULL negb res_bind]. apply (IH q NULL lt [] (x ++ [b])); try done.
    + by rewrite app_nil_r.
    + intros E. by destruct x.
    + lia.
  - destruct Hh as (-> & Hcne & r' & Hr' & Hh). rewrite (proj2 (Z.eqb_neq c NULL)) by done.
    cbn [negb]. rewrite (deref_ok _ _ _ Hr'). cbn [res_bind].
    apply (IH q r' lt lh (x ++ [b; c])); try done.
    + by rewrite <- app_assoc.
    + intros E. by destruct x.
    + lia.
Qed.

Lemma memp_sanity_true p fl al : pool_inv p fl al -> memp_sanity p = Ok true.
Proof.
  intros Hinv. pose proof (pool_NoDup _ _ _ Hinv) as Hnd. pose proof (pool_count _ _ _ Hinv).
  destruct Hinv as [Hd Hfl _ _ _]. apply NoDup_app in Hnd. destruct Hnd as [Hnd _].
  unfold memp_sanity. destruct fl as [|e fl]; cbn [free_list] in Hfl; [by rewrite Hfl|].
  pose proof Hfl as (Ht & Hne & q & Hq & Hfl'). rewrite Ht in *.
  rewrite (proj2 (Z.eqb_neq e NULL)) by done. cbn [negb]. rewrite (deref_ok _ _ _ Hq). cbn [res_bind].
  apply (sanity_loop_true (links p) _ e q (e :: fl) fl [e]); [done|done|done|done|done|].
  destruct Hd as (_ & ? & _). cbn [length] in *. lia.
Qed.

(** ** Properties *)

(** [memp_malloc] never faults on a well-formed pool: it returns NULL
    exactly when all [num] elements are allocated; otherwise an aligned element
    of that pool that was free and overlaps no allocated element.  The pool stays
    well-formed (free and allocated elements together are exactly the pool, no
    duplicates, the statistics count the allocated ones) and no other pool
    changes.  An unknown pool type yields NULL. *)
Theorem memp_malloc_correct (pools : list pool) (type : nat) (p : pool) (fl al : list Z) :
  pools !! type = Some p -> pool_inv p fl al ->
  exists e p', memp_malloc pools type = Ok (e, <[type := p']> pools)
    /\ (e = NULL <-> Z.of_nat (length al) = num (desc p))
    /\ (e = NULL -> pool_inv p' fl al)
    /\ (e <> NULL -> exists fl', fl = e :: fl' /\ pool_inv p' fl' (e :: al)
          /\ (e ∉ al) /\ e mod MEM_ALIGNMENT = 0
          /\ forall a, a ∈ al -> e + size (desc p) <= a \/ a + size (desc p) <= e)
    /\ (forall t, (length pools <= t)%nat -> memp_malloc pools t = Ok (NULL, pools)).
Proof.
  intros Hp Hinv. pose proof (malloc_pool_spec p fl al Hinv) as Hm.
  pose proof (pool_count _ _ _ Hinv) as Hc. pose proof (pool_NoDup _ _ _ Hinv) as Hnd.
  unfold memp_malloc at 1. rewrite Hp.
  assert (Hmax : forall t, (length pools <= t)%nat -> memp_malloc pools t = Ok (NULL, pools)).
  { intros t Ht. unfold memp_malloc. by rewrite lookup_ge_None_2. }
  destruct fl as [|e fl]; destruct Hm as (p' & -> & Hinv' & Hd); cbn [res_bind].
  - exists NULL, p'. cbn [length] in Hc. split_and!; [done|split; [lia|done]|done|done|done].
  - exists e, p'. pose proof (pool_elem p (e :: fl) al e Hinv) as He.
    specialize (He ltac:(left)). pose proof (pool_desc _ _ _ Hinv) as Hdd.
    destruct (elements_spec _ e Hdd He) as (Hpos & Hal & _). cbn [length app] in *.
    apply NoDup_cons in Hnd. destruct Hnd as [Hnin _].
    assert (e <> NULL) by (unfold NULL; lia).
    split_and!; [done|split; [done|intros; lia]|done| |done]. intros _. exists fl.
    assert (Ha : e ∉ al) by (intros Hin; apply Hnin, elem_of_app; by right).
    split_and!; [done|done|done|done|]. intros a Hin.
    apply elements_apart; [done|done| |by intros ->].
    eapply pool_elem; [done|]. right. apply elem_of_app. by right.
Qed.

(** A pool of three elements of 20 bytes, for the examples. *)
Definition pool3 : pool :=
  memp_init_pool (mk_pool (mk_desc 20 3 4097) 0 ∅ (mk_stats 0 0 0 0 0)).

Lemma desc3_ok : desc_ok (mk_desc 20 3 4097).
Proof. unfold desc_ok, MEM_ALIGNMENT. cbn [base num size]. split_and!; lia || done. Qed.

Lemma pool3_inv : exists fl, pool_inv pool3 fl [].
Proof. apply memp_init_pool_spec; [apply desc3_ok|done|done]. Qed.

Lemma memp_malloc_correct_witness :
  exists e p', memp_malloc [pool3] 0 = Ok (e, [p']) /\ e <> NULL.
Proof.
  destruct pool3_inv as [fl Hinv].
  destruct (memp_malloc_correct [pool3] 0 pool3 fl [] eq_refl Hinv) as (e & p' & E & Hn & _).
  exists e, p'. split; [exact E|]. intros He. apply Hn in He. discriminate He.
Defined.

(** [memp_free] of an allocated element puts it back: the pool stays
    well-formed with one allocated element less, and the next [memp_malloc] from
    that pool returns the element just freed.  Freeing NULL or with an unknown
    pool type changes nothing. *)
Theorem memp_free_malloc (pools : list pool) (type : nat) (p : pool) (fl al : list Z) (e : Z) :
  pools !! type = Some p -> pool_inv p fl al -> e ∈ al ->
  exists p' al1 al2 p'', memp_free pools type e = Ok (<[type := p']> pools)
    /\ al = al1 ++ e :: al2 /\ pool_inv p' (e :: fl) (al1 ++ al2)
    /\ memp_malloc (<[type := p']> pools) type = Ok (e, <[type := p'']> pools)
    /\ pool_inv p'' fl (e :: al1 ++ al2)
    /\ memp_free pools type NULL = Ok pools
    /\ (forall t m, (length pools <= t)%nat -> memp_free pools t m = Ok pools).
Proof.
  intros Hp Hinv He. destruct (free_pool_spec p fl al e Hinv He) as (p' & al1 & al2 & Ef & El & Hinv' & _).
  assert (Hne : e <> NULL).
  { destruct (elements_spec (desc p) e (pool_desc _ _ _ Hinv)) as (? & _); [|unfold NULL; lia].
    eapply pool_elem; [done|]. apply elem_of_app. by right. }
  pose proof (malloc_pool_spec _ _ _ Hinv') as (p'' & Em & Hinv'' & _).
  exists p', al1, al2, p''. unfold memp_free at 1 2, memp_malloc. rewrite Hp.
  rewrite (proj2 (Z.eqb_neq e NULL)) by done. rewrite Ef. cbn [res_bind Z.eqb NULL].
  apply lookup_lt_Some in Hp as Hlt. rewrite list_lookup_insert_eq by done. rewrite Em. cbn [res_bind].
  rewrite list_insert_insert_eq. split_and!; try done.
  intros t m Ht. unfold memp_free. by rewrite lookup_ge_None_2.
Qed.

Lemma memp_free_malloc_witness :
  exists p fl e ps, memp_malloc [pool3] 0 = Ok (e, [p]) /\ pool_inv p fl [e]
    /\ memp_free [p] 0 e = Ok ps.
Proof.
  destruct pool3_inv as [fl Hinv]. pose proof (malloc_pool_spec pool3 fl [] Hinv) as H.
  destruct fl as [|e fl]; [destruct Hinv as [_ Hfl _ _ _]; discriminate Hfl|].
  destruct H as (p & Em & Hinv' & _).
  destruct (memp_free_malloc [p] 0 p fl [e] e eq_refl Hinv' ltac:(left)) as (p' & _ & _ & _ & Ef & _).
  exists p, fl, e, ([p'] : list pool). split; [|split; [exact Hinv'|exact Ef]].
  unfold memp_malloc. cbn [lookup list_lookup]. rewrite Em. reflexivity.
Defined.

(** [memp_init] turns every pool into a well-formed one with all elements
    free, and the cycle check never raises a false alarm: on every well-formed
    pool Floyd's algorithm terminates and reports a sound list. *)
Theorem memp_init_sound (pools : list pool) :
  Forall (fun p => desc_ok (desc p) /\ st_used (pstats p) = 0 /\ st_max (pstats p) = 0) pools ->
  Forall (fun p => exists fl, pool_inv p fl [] /\ Z.of_nat (length fl) = num (desc p)) (memp_init pools)
  /\ (forall p fl al, pool_inv p fl al -> memp_sanity p = Ok true).
Proof.
  intros H. split; [|by apply memp_sanity_true]. unfold memp_init. apply Forall_fmap.
  eapply Forall_impl; [exact H|]. intros p (Hd & Hu & Hm). cbn.
  destruct (memp_init_pool_spec p Hd Hu Hm) as [fl Hinv]. exists fl. split; [done|].
  apply pool_count in Hinv. cbn [length] in Hinv. lia.
Qed.

Lemma memp_init_sound_witness :
  exists fl, pool_inv pool3 fl [] /\ Z.of_nat (length fl) = 3.
Proof.
  destruct (memp_init_sound [mk_pool (mk_desc 20 3 4097) 0 ∅ (mk_stats 0 0 0 0 0)]) as [H _].
  { constructor; [|constructor]. split; [exact desc3_ok|split; reflexivity]. }
  inversion_clear H as [|? ? H1 _]. exact H1.
Defined.
