(* ===== verification/Pbuf.v ===== *)
(** * Packet buffers: lwip/src/core/pbuf.c, lwip/src/include/lwip/pbuf.h

    A packet is a chain of [struct pbuf]s linked by [next]; every pbuf points to
    [len] bytes of payload and counts the references to itself.  The state holds
    the live pbuf structs by address, the bytes of memory, the allocators behind
    the interface [AllocOps] (implemented by [Mem] and [Memp], see [PbufAlloc]),
    the free functions that owners of custom pbufs have stored, and the flag and
    the posted callbacks of the out-of-sequence reclaim.  A freed struct leaves
    the map, so a later access through a stale pointer faults.

    Loops over a chain get the number of live pbufs as fuel: a chain that ends
    visits every pbuf at most once. *)

From S2P Require Import Prelude Mem InetChksum.

(** ** Definitions *)

Definition PBUF_TRANSPORT_HLEN : Z := 20.
Definition PBUF_IP_HLEN : Z := 20.
Definition PBUF_LINK_HLEN : Z := 16.
Definition PBUF_LINK_ENCAPSULATION_HLEN : Z := 0.
Definition PBUF_POOL_BUFSIZE : Z := 128.
Definition sizeof_struct_pbuf : Z := 16.
Definition SIZEOF_STRUCT_PBUF : Z := Eval vm_compute in LWIP_MEM_ALIGN_SIZE sizeof_struct_pbuf.
Definition PBUF_POOL_BUFSIZE_ALIGNED : Z :=
  Eval vm_compute in LWIP_MEM_ALIGN_SIZE PBUF_POOL_BUFSIZE.

Inductive pbuf_layer := PBUF_TRANSPORT | PBUF_IP | PBUF_LINK | PBUF_RAW_TX | PBUF_RAW.

Inductive pbuf_type := PBUF_RAM | PBUF_ROM | PBUF_REF | PBUF_POOL.

#[global] Instance pbuf_type_eq_dec : EqDecision pbuf_type.
Proof. solve_decision. Defined.

Definition PBUF_FLAG_IS_CUSTOM : Z := 2.
Definition PBUF_FLAG_TCP_FIN : Z := 32.

(** [struct pbuf]. *)
Record pbuf := mk_pbuf {
  next : Z; payload : Z; tot_len : Z; len : Z; type : pbuf_type; flags : Z; ref : Z
}.

Definition with_next (v : Z) (b : pbuf) : pbuf :=
  mk_pbuf v (payload b) (tot_len b) (len b) (type b) (flags b) (ref b).
Definition with_payload (v : Z) (b : pbuf) : pbuf :=
  mk_pbuf (next b) v (tot_len b) (len b) (type b) (flags b) (ref b).
Definition with_tot_len (v : Z) (b : pbuf) : pbuf :=
  mk_pbuf (next b) (payload b) v (len b) (type b) (flags b) (ref b).
Definition with_len (v : Z) (b : pbuf) : pbuf :=
  mk_pbuf (next b) (payload b) (tot_len b) v (type b) (flags b) (ref b).
Definition with_flags (v : Z) (b : pbuf) : pbuf :=
  mk_pbuf (next b) (payload b) (tot_len b) (len b) (type b) v (ref b).
Definition with_ref (v : Z) (b : pbuf) : pbuf :=
  mk_pbuf (next b) (payload b) (tot_len b) (len b) (type b) (flags b) v.

Abbreviation heap := (gmap Z pbuf).
Abbreviation memory := (gmap Z Z).

(** *** Bytes of memory *)

Definition rd8 (m : memory) (a : Z) : Z := default 0 (m !! a).

(** The [n] bytes at [a]. *)
Fixpoint rd (m : memory) (a : Z) (n : nat) : list Z :=
  match n with
  | O => []
  | S n' => rd8 m a :: rd m (a + 1) n'
  end.

(** Store the bytes [bs] at [a] ([MEMCPY] to [a]). *)
Fixpoint wr (m : memory) (a : Z) (bs : list Z) : memory :=
  match bs with
  | [] => m
  | b :: bs' => wr (<[a := b]> m) (a + 1) bs'
  end.

(** *** The allocators *)

(** The pools that [pbuf.c] uses. *)
Inductive memp_t := MEMP_PBUF | MEMP_PBUF_POOL.

#[global] Instance memp_t_eq_dec : EqDecision memp_t.
Proof. solve_decision. Defined.

Class AllocOps (A : Type) := {
  mem_malloc : A -> Z -> res (Z * A);
  mem_trim : A -> Z -> Z -> res (Z * A);
  mem_free : A -> Z -> res A;
  memp_malloc : A -> memp_t -> res (Z * A);
  memp_free : A -> memp_t -> Z -> res A
}.

Record state (A : Type) := mk_state {
  pbufs : heap;
  bytes : memory;
  custom_free_function : gmap Z Z;
  alloc : A;
  pbuf_free_ooseq_pending : bool;
  callbacks : nat
}.
Arguments mk_state {A} _ _ _ _ _ _.
Arguments pbufs {A} _.
Arguments bytes {A} _.
Arguments custom_free_function {A} _.
Arguments alloc {A} _.
Arguments pbuf_free_ooseq_pending {A} _.
Arguments callbacks {A} _.

Definition with_pbufs {A} (h : heap) (s : state A) : state A :=
  mk_state h (bytes s) (custom_free_function s) (alloc s) (pbuf_free_ooseq_pending s) (callbacks s).
Definition with_bytes {A} (m : memory) (s : state A) : state A :=
  mk_state (pbufs s) m (custom_free_function s) (alloc s) (pbuf_free_ooseq_pending s) (callbacks s).
Definition with_alloc {A} (a : A) (s : state A) : state A :=
  mk_state (pbufs s) (bytes s) (custom_free_function s) a (pbuf_free_ooseq_pending s) (callbacks s).

(** Change the struct that [p] points to. *)
Definition upd {A} (s : state A) (p : Z) (f : pbuf -> pbuf) : res (state A) :=
  let* b := deref (pbufs s) p in Ok (with_pbufs (<[p := f b]> (pbufs s)) s).

Definition walk_fuel (h : heap) : nat := S (size h).

Definition is_custom (b : pbuf) : bool := negb (Z.land (flags b) PBUF_FLAG_IS_CUSTOM =? 0).

(** The header room that a layer reserves. *)
Definition layer_offset (layer : pbuf_layer) : Z :=
  match layer with
  | PBUF_TRANSPORT =>
      PBUF_LINK_ENCAPSULATION_HLEN + PBUF_LINK_HLEN + PBUF_IP_HLEN + PBUF_TRANSPORT_HLEN
  | PBUF_IP => PBUF_LINK_ENCAPSULATION_HLEN + PBUF_LINK_HLEN + PBUF_IP_HLEN
  | PBUF_LINK => PBUF_LINK_ENCAPSULATION_HLEN + PBUF_LINK_HLEN
  | PBUF_RAW_TX => PBUF_LINK_ENCAPSULATION_HLEN
  | PBUF_RAW => 0
  end.

(** *** Allocation and release

    [stale_flags p]: what the [flags] field of a pool element at [p] holds when
    the element is handed out.  [custom_free f p]: the effect of calling the
    function [f] that the owner of the custom pbuf [p] has stored.
    [callback_ok]: whether [tcpip_callback_with_block] returns [ERR_OK]. *)

Section Operations.
Context {A : Type} `{AllocOps A}.
Variable stale_flags : Z -> Z.
Variable custom_free : Z -> Z -> state A -> res (state A).
Variable callback_ok : bool.

Definition pbuf_pool_is_empty (s : state A) : state A :=
  let queued := pbuf_free_ooseq_pending s in
  if negb queued then
    mk_state (pbufs s) (bytes s) (custom_free_function s) (alloc s) callback_ok
      (if callback_ok then S (callbacks s) else callbacks s)
  else mk_state (pbufs s) (bytes s) (custom_free_function s) (alloc s) true (callbacks s).

(** Give the memory of an unreferenced pbuf back. *)
Definition release (s : state A) (p : Z) (b : pbuf) : res (state A) :=
  if is_custom b then
    let f := default NULL (custom_free_function s !! p) in
    assert* negb (f =? NULL) in
    custom_free f p s
  else
    let* a :=
      match type b with
      | PBUF_POOL => memp_free (alloc s) MEMP_PBUF_POOL p
      | PBUF_ROM | PBUF_REF => memp_free (alloc s) MEMP_PBUF p
      | PBUF_RAM => mem_free (alloc s) p
      end in
    Ok (with_alloc a (with_pbufs (delete p (pbufs s)) s)).

Fixpoint free_loop (fuel : nat) (s : state A) (p : Z) (count : Z) : res (Z * state A) :=
  match fuel with
  | O => Fault FFuel
  | S fuel' =>
      if negb (p =? NULL) then
        let* b := deref (pbufs s) p in
        assert* (0 <? ref b) in
        let r := u16 (ref b - 1) in
        let* s := upd s p (with_ref r) in
        if r =? 0 then
          let q := next b in
          let* s := release s p b in
          free_loop fuel' s q (u8 (count + 1))
        else Ok (count, s)
      else Ok (count, s)
  end.

(** The assertion on [p->type] holds for every value of [pbuf_type]. *)
Definition pbuf_free (s : state A) (p : Z) : res (Z * state A) :=
  if p =? NULL then Fault FAssert else
  let* _ := deref (pbufs s) p in
  free_loop (walk_fuel (pbufs s)) s p 0.

(** The [while] loop that allocates the rest of a PBUF_POOL chain behind [r];
    [false] when the pool ran empty and the chain [p] has been freed. *)
Fixpoint alloc_tail (fuel : nat) (s : state A) (p r rem_len : Z) : res (bool * state A) :=
  match fuel with
  | O => Fault FFuel
  | S fuel' =>
      if 0 <? rem_len then
        let* (q, a) := memp_malloc (alloc s) MEMP_PBUF_POOL in
        let s := with_alloc a s in
        if q =? NULL then
          let s := pbuf_pool_is_empty s in
          let* (_, s) := pbuf_free s p in
          Ok (false, s)
        else
          let* s := upd s r (with_next q) in
          assert* (rem_len <? 65535) in
          let tl := u16 rem_len in
          let l := Z.min tl PBUF_POOL_BUFSIZE_ALIGNED in
          let pl := q + SIZEOF_STRUCT_PBUF in
          assert* (pl mod MEM_ALIGNMENT =? 0) in
          let* b := deref (pbufs s) p in
          assert* (payload b + len b <=? p + SIZEOF_STRUCT_PBUF + PBUF_POOL_BUFSIZE_ALIGNED) in
          let s := with_pbufs (<[q := mk_pbuf NULL pl tl l PBUF_POOL 0 1]> (pbufs s)) s in
          alloc_tail fuel' s p q (rem_len - l)
      else Ok (true, s)
  end.

(** [case PBUF_POOL]; NULL when the pool is empty. *)
Definition alloc_pool (s : state A) (offset length : Z) : res (Z * state A) :=
  let* (p, a) := memp_malloc (alloc s) MEMP_PBUF_POOL in
  let s := with_alloc a s in
  if p =? NULL then Ok (NULL, pbuf_pool_is_empty s)
  else
    let pl := LWIP_MEM_ALIGN (p + (SIZEOF_STRUCT_PBUF + offset)) in
    assert* (pl mod MEM_ALIGNMENT =? 0) in
    let l := u16 (Z.min length (PBUF_POOL_BUFSIZE_ALIGNED - LWIP_MEM_ALIGN_SIZE offset)) in
    assert* (pl + l <=? p + SIZEOF_STRUCT_PBUF + PBUF_POOL_BUFSIZE_ALIGNED) in
    assert* (0 <? PBUF_POOL_BUFSIZE_ALIGNED - LWIP_MEM_ALIGN_SIZE offset) in
    let s := with_pbufs (<[p := mk_pbuf NULL pl length l PBUF_POOL (stale_flags p) 1]> (pbufs s)) s in
    let* (ok, s) := alloc_tail (S (Z.to_nat length)) s p p (length - l) in
    Ok (if ok then p else NULL, s).

(** [case PBUF_RAM]; the size is passed as a 16-bit [mem_size_t]. *)
Definition alloc_ram (s : state A) (offset length : Z) : res (Z * state A) :=
  let* (p, a) := mem_malloc (alloc s)
    (u16 (LWIP_MEM_ALIGN_SIZE (SIZEOF_STRUCT_PBUF + offset) + LWIP_MEM_ALIGN_SIZE length)) in
  let s := with_alloc a s in
  if p =? NULL then Ok (NULL, s)
  else
    let pl := LWIP_MEM_ALIGN (p + SIZEOF_STRUCT_PBUF + offset) in
    assert* (pl mod MEM_ALIGNMENT =? 0) in
    Ok (p, with_pbufs (<[p := mk_pbuf NULL pl length length PBUF_RAM 0 1]> (pbufs s)) s).

(** [case PBUF_ROM] and [case PBUF_REF]. *)
Definition alloc_ref (s : state A) (length : Z) (type : pbuf_type) : res (Z * state A) :=
  let* (p, a) := memp_malloc (alloc s) MEMP_PBUF in
  let s := with_alloc a s in
  if p =? NULL then Ok (NULL, s)
  else Ok (p, with_pbufs (<[p := mk_pbuf NULL NULL length length type 0 1]> (pbufs s)) s).

(** After the [switch], [p->ref = 1] and [p->flags = 0] for every type. *)
Definition pbuf_alloc (s : state A) (layer : pbuf_layer) (length : Z) (type : pbuf_type)
    : res (Z * state A) :=
  let offset := layer_offset layer in
  let* (p, s) :=
    match type with
    | PBUF_POOL => alloc_pool s offset length
    | PBUF_RAM => alloc_ram s offset length
    | PBUF_ROM | PBUF_REF => alloc_ref s length type
    end in
  if p =? NULL then Ok (NULL, s)
  else
    let* s := upd s p (with_ref 1) in
    let* s := upd s p (with_flags 0) in
    Ok (p, s).

Definition pbuf_alloced_custom (s : state A) (l : pbuf_layer) (length : Z) (type : pbuf_type)
    (p payload_mem payload_mem_len : Z) : res (Z * state A) :=
  let offset := layer_offset l in
  if payload_mem_len <? LWIP_MEM_ALIGN_SIZE offset + length then Ok (NULL, s)
  else
    let pl := if negb (payload_mem =? NULL) then payload_mem + LWIP_MEM_ALIGN_SIZE offset else NULL in
    Ok (p, with_pbufs (<[p := mk_pbuf NULL pl length length type PBUF_FLAG_IS_CUSTOM 1]> (pbufs s)) s).

(** The loop of [pbuf_realloc] over the pbufs that stay in the chain. *)
Fixpoint realloc_keep (fuel : nat) (s : state A) (q rem_len grow : Z) : res (Z * Z * state A) :=
  match fuel with
  | O => Fault FFuel
  | S fuel' =>
      let* b := deref (pbufs s) q in
      if len b <? rem_len then
        let rem_len := u16 (rem_len - len b) in
        assert* (grow <? 65535) in
        let* s := upd s q (with_tot_len (u16 (tot_len b + u16 grow))) in
        let q := next b in
        assert* negb (q =? NULL) in
        realloc_keep fuel' s q rem_len grow
      else Ok (q, rem_len, s)
  end.

Definition pbuf_realloc (s : state A) (p new_len : Z) : res (state A) :=
  assert* negb (p =? NULL) in
  let* b := deref (pbufs s) p in
  if tot_len b <=? new_len then Ok s
  else
    let grow := new_len - tot_len b in
    let* (q, rem_len, s) := realloc_keep (walk_fuel (pbufs s)) s p new_len grow in
    let* b := deref (pbufs s) q in
    let* (q, s) :=
      if bool_decide (type b = PBUF_RAM) && negb (rem_len =? len b) && negb (is_custom b) then
        let* (q, a) := mem_trim (alloc s) q (u16 (u16 (payload b - q) + rem_len)) in
        assert* negb (q =? NULL) in
        Ok (q, with_alloc a s)
      else Ok (q, s) in
    let* s := upd s q (with_len rem_len) in
    let* s := upd s q (with_tot_len rem_len) in
    let* b := deref (pbufs s) q in
    let* s :=
      if negb (next b =? NULL) then let* (_, s) := pbuf_free s (next b) in Ok s else Ok s in
    upd s q (with_next NULL).

Definition pbuf_header_impl (s : state A) (p header_size_increment : Z) (force : bool)
    : res (bool * state A) :=
  let inc := header_size_increment in
  assert* negb (p =? NULL) in
  if inc =? 0 then Ok (false, s)
  else
    let* b := deref (pbufs s) p in
    let increment_magnitude := if inc <? 0 then u16 (- inc) else u16 inc in
    if (inc <? 0) && negb (increment_magnitude <=? len b) then Ok (true, s)
    else
      let pl := payload b - inc in
      let* (fail, s) :=
        match type b with
        | PBUF_RAM | PBUF_POOL =>
            let* s := upd s p (with_payload pl) in
            if pl <? p + SIZEOF_STRUCT_PBUF
            then let* s := upd s p (with_payload (payload b)) in Ok (true, s)
            else Ok (false, s)
        | PBUF_REF | PBUF_ROM =>
            if (inc <? 0) && (increment_magnitude <=? len b)
            then let* s := upd s p (with_payload pl) in Ok (false, s)
            else if (0 <? inc) && force
            then let* s := upd s p (with_payload pl) in Ok (false, s)
            else Ok (true, s)
        end in
      if (fail : bool) then Ok (true, s)
      else
        let* s := upd s p (with_len (u16 (len b + inc))) in
        let* s := upd s p (with_tot_len (u16 (tot_len b + inc))) in
        Ok (false, s).

(** [true] is failure (non-zero). *)
Definition pbuf_header (s : state A) (p header_size_increment : Z) : res (bool * state A) :=
  pbuf_header_impl s p header_size_increment false.

Definition pbuf_header_force (s : state A) (p header_size_increment : Z) : res (bool * state A) :=
  pbuf_header_impl s p header_size_increment true.

Fixpoint clen_loop (fuel : nat) (h : heap) (p n : Z) : res Z :=
  match fuel with
  | O => Fault FFuel
  | S fuel' =>
      if negb (p =? NULL) then
        let n := u16 (n + 1) in
        let* b := deref h p in clen_loop fuel' h (next b) n
      else Ok n
  end.

Definition pbuf_clen (s : state A) (p : Z) : res Z :=
  clen_loop (walk_fuel (pbufs s)) (pbufs s) p 0.

Definition pbuf_ref (s : state A) (p : Z) : res (state A) :=
  if negb (p =? NULL) then upd s p (fun b => with_ref (u16 (ref b + 1)) b) else Ok s.

(** The [for] loop of [pbuf_cat]: the last pbuf of [h], with [t->tot_len] added
    to the totals of those before it. *)
Fixpoint cat_loop (fuel : nat) (s : state A) (p t : Z) : res (Z * state A) :=
  match fuel with
  | O => Fault FFuel
  | S fuel' =>
      let* b := deref (pbufs s) p in
      if negb (next b =? NULL) then
        let* bt := deref (pbufs s) t in
        let* s := upd s p (with_tot_len (u16 (tot_len b + tot_len bt))) in
        cat_loop fuel' s (next b) t
      else Ok (p, s)
  end.

Definition pbuf_cat (s : state A) (h t : Z) : res (state A) :=
  if (h =? NULL) || (t =? NULL) then Ok s
  else
    let* (p, s) := cat_loop (walk_fuel (pbufs s)) s h t in
    let* b := deref (pbufs s) p in
    assert* (tot_len b =? len b) in
    assert* (next b =? NULL) in
    let* bt := deref (pbufs s) t in
    let* s := upd s p (with_tot_len (u16 (tot_len b + tot_len bt))) in
    upd s p (with_next t).

Definition pbuf_chain (s : state A) (h t : Z) : res (state A) :=
  let* s := pbuf_cat s h t in pbuf_ref s t.

Definition pbuf_dechain (s : state A) (p : Z) : res (Z * state A) :=
  let* b := deref (pbufs s) p in
  let q := next b in
  let* (tail_gone, s) :=
    if negb (q =? NULL) then
      let* bq := deref (pbufs s) q in
      assert* (tot_len bq =? tot_len b - len b) in
      let* s := upd s q (with_tot_len (u16 (tot_len b - len b))) in
      let* s := upd s p (with_next NULL) in
      let* s := upd s p (with_tot_len (len b)) in
      pbuf_free s q
    else Ok (1, s) in
  let* b := deref (pbufs s) p in
  assert* (tot_len b =? len b) in
  Ok (if 0 <? tail_gone then NULL else q, s).

(** *** Access to the data *)

(** A packet queue: a pbuf that ends a packet and has a successor. *)
Definition queue_end (h : heap) (p : Z) : res bool :=
  if negb (p =? NULL) then
    let* b := deref h p in Ok ((len b =? tot_len b) && negb (next b =? NULL))
  else Ok false.

Fixpoint copy_loop (fuel : nat) (s : state A) (p_to p_from offset_to offset_from : Z)
    : res (err_t * state A) :=
  match fuel with
  | O => Fault FFuel
  | S fuel' =>
      let* bt := deref (pbufs s) p_to in
      let* bf := deref (pbufs s) p_from in
      let l :=
        if len bf - offset_from <=? len bt - offset_to
        then u16 (len bf - offset_from) else u16 (len bt - offset_to) in
      let s := with_bytes (wr (bytes s) (payload bt + offset_to)
                             (rd (bytes s) (payload bf + offset_from) (Z.to_nat l))) s in
      let offset_to := u16 (offset_to + l) in
      let offset_from := u16 (offset_from + l) in
      assert* (offset_to <=? len bt) in
      assert* (offset_from <=? len bf) in
      let '(offset_from, p_from) :=
        if len bf <=? offset_from then (0, next bf) else (offset_from, p_from) in
      let full := offset_to =? len bt in
      let '(offset_to, p_to) := if full then (0, next bt) else (offset_to, p_to) in
      if full && (p_to =? NULL) && negb (p_from =? NULL) then Ok (ERR_ARG, s)
      else
        let* qf := queue_end (pbufs s) p_from in
        if (qf : bool) then Ok (ERR_VAL, s)
        else
          let* qt := queue_end (pbufs s) p_to in
          if (qt : bool) then Ok (ERR_VAL, s)
          else if negb (p_from =? NULL) then copy_loop fuel' s p_to p_from offset_to offset_from
          else Ok (ERR_OK, s)
  end.

Definition pbuf_copy (s : state A) (p_to p_from : Z) : res (err_t * state A) :=
  if (p_to =? NULL) || (p_from =? NULL) then Ok (ERR_ARG, s)
  else
    let* bt := deref (pbufs s) p_to in
    let* bf := deref (pbufs s) p_from in
    if tot_len bt <? tot_len bf then Ok (ERR_ARG, s)
    else copy_loop (2 * walk_fuel (pbufs s)) s p_to p_from 0 0.

(** The bytes stored at [dataptr], in order; [copied_total] and [left] are
    always equal. *)
Fixpoint copy_partial_loop (fuel : nat) (s : state A) (p l offset copied_total : Z) (out : list Z)
    : res (Z * list Z) :=
  match fuel with
  | O => Fault FFuel
  | S fuel' =>
      if negb (l =? 0) && negb (p =? NULL) then
        let* b := deref (pbufs s) p in
        if negb (offset =? 0) && (len b <=? offset) then
          copy_partial_loop fuel' s (next b) l (u16 (offset - len b)) copied_total out
        else
          let buf_copy_len := u16 (len b - offset) in
          let buf_copy_len := if l <? buf_copy_len then l else buf_copy_len in
          let out := out ++ rd (bytes s) (payload b + offset) (Z.to_nat buf_copy_len) in
          copy_partial_loop fuel' s (next b) (u16 (l - buf_copy_len)) 0
            (u16 (copied_total + buf_copy_len)) out
      else Ok (copied_total, out)
  end.

(** [dataptr]: whether the pointer is not NULL. *)
Definition pbuf_copy_partial (s : state A) (buf : Z) (dataptr : bool) (l offset : Z)
    : res (Z * list Z) :=
  if (buf =? NULL) || negb dataptr then Ok (0, [])
  else copy_partial_loop (walk_fuel (pbufs s)) s buf l offset 0 [].

(** The first loop of [pbuf_split_64k]: the last pbuf of the front and the first
    of the rest. *)
Fixpoint split_front (fuel : nat) (h : heap) (tot_len_front i r : Z) : res (Z * Z) :=
  match fuel with
  | O => Fault FFuel
  | S fuel' =>
      if negb (r =? NULL) then
        let* b := deref h r in
        if tot_len_front <? u16 (tot_len_front + len b)
        then split_front fuel' h (u16 (tot_len_front + len b)) r (next b)
        else Ok (i, r)
      else Ok (i, r)
  end.

(** The second: take the rest's total off the totals of the front. *)
Fixpoint split_totals (fuel : nat) (s : state A) (i r : Z) : res (state A) :=
  match fuel with
  | O => Fault FFuel
  | S fuel' =>
      if negb (i =? NULL) then
        let* b := deref (pbufs s) i in
        let* br := deref (pbufs s) r in
        let* s := upd s i (with_tot_len (u16 (tot_len b - tot_len br))) in
        let* b := deref (pbufs s) i in
        assert* (negb (next b =? NULL) || (tot_len b =? len b)) in
        split_totals fuel' s (next b) r
      else Ok s
  end.

Definition pbuf_split_64k (s : state A) (p : Z) : res (Z * state A) :=
  if negb (p =? NULL) then
    let* b := deref (pbufs s) p in
    if negb (next b =? NULL) then
      let* (i, r) := split_front (walk_fuel (pbufs s)) (pbufs s) (len b) p (next b) in
      let* s := upd s i (with_next NULL) in
      if negb (r =? NULL) then
        let* s := split_totals (walk_fuel (pbufs s)) s p r in
        let* b := deref (pbufs s) p in
        let* s :=
          if negb (Z.land (flags b) PBUF_FLAG_TCP_FIN =? 0)
          then upd s r (fun br => with_flags (Z.lor (flags br) PBUF_FLAG_TCP_FIN) br)
          else Ok s in
        Ok (r, s)
      else Ok (NULL, s)
    else Ok (NULL, s)
  else Ok (NULL, s).

Fixpoint pbuf_skip_const (fuel : nat) (h : heap) (q offset_left : Z) : res (Z * Z) :=
  match fuel with
  | O => Fault FFuel
  | S fuel' =>
      if negb (q =? NULL) then
        let* b := deref h q in
        if len b <=? offset_left
        then pbuf_skip_const fuel' h (next b) (u16 (offset_left - len b))
        else Ok (q, offset_left)
      else Ok (q, offset_left)
  end.

(** The pbuf and [*out_offset]. *)
Definition pbuf_skip (s : state A) (q in_offset : Z) : res (Z * Z) :=
  pbuf_skip_const (walk_fuel (pbufs s)) (pbufs s) q in_offset.

(** The [for] loop of [pbuf_take]. *)
Fixpoint take_loop (fuel : nat) (s : state A) (p : Z) (dataptr : list Z)
    (total_copy_len copied_total : Z) : res (Z * Z * state A) :=
  match fuel with
  | O => Fault FFuel
  | S fuel' =>
      if negb (total_copy_len =? 0) then
        assert* negb (p =? NULL) in
        let* b := deref (pbufs s) p in
        let buf_copy_len := if len b <? total_copy_len then len b else total_copy_len in
        let s := with_bytes (wr (bytes s) (payload b)
          (take (Z.to_nat buf_copy_len) (drop (Z.to_nat copied_total) dataptr))) s in
        take_loop fuel' s (next b) dataptr (u16 (total_copy_len - buf_copy_len))
          (u16 (copied_total + buf_copy_len))
      else Ok (total_copy_len, copied_total, s)
  end.

(** [dataptr]: [None] is NULL. *)
Definition pbuf_take (s : state A) (buf : Z) (dataptr : option (list Z)) (l : Z)
    : res (err_t * state A) :=
  match dataptr with
  | None => Ok (ERR_ARG, s)
  | Some data =>
      if buf =? NULL then Ok (ERR_ARG, s)
      else
        let* b := deref (pbufs s) buf in
        if tot_len b <? l then Ok (ERR_MEM, s)
        else
          let* (total_copy_len, copied_total, s) :=
            take_loop (walk_fuel (pbufs s)) s buf data l 0 in
          assert* ((total_copy_len =? 0) && (copied_total =? l)) in
          Ok (ERR_OK, s)
  end.

Definition pbuf_take_at (s : state A) (buf : Z) (dataptr : list Z) (l offset : Z)
    : res (err_t * state A) :=
  let* (q, target_offset) := pbuf_skip s buf offset in
  if q =? NULL then Ok (ERR_MEM, s)
  else
    let* b := deref (pbufs s) q in
    if target_offset + l <=? tot_len b then
      let first_copy_len := u16 (Z.min (len b - target_offset) l) in
      let s := with_bytes (wr (bytes s) (payload b + target_offset)
                             (take (Z.to_nat first_copy_len) dataptr)) s in
      let remaining_len := u16 (l - first_copy_len) in
      let src_ptr := drop (Z.to_nat first_copy_len) dataptr in
      if 0 <? remaining_len then pbuf_take s (next b) (Some src_ptr) remaining_len
      else Ok (ERR_OK, s)
    else Ok (ERR_MEM, s).

Definition pbuf_coalesce (s : state A) (p : Z) (layer : pbuf_layer) : res (Z * state A) :=
  let* b := deref (pbufs s) p in
  if next b =? NULL then Ok (p, s)
  else
    let* (q, s) := pbuf_alloc s layer (tot_len b) PBUF_RAM in
    if q =? NULL then Ok (p, s)
    else
      let* (err, s) := pbuf_copy s q p in
      assert* bool_decide (err = ERR_OK) in
      let* (_, s) := pbuf_free s p in
      Ok (q, s).

(** Compiled with [LWIP_CHECKSUM_ON_COPY]; the result includes [*chksum]. *)
Definition pbuf_fill_chksum (s : state A) (p start_offset : Z) (dataptr : option (list Z))
    (l chksum : Z) : res (err_t * Z * state A) :=
  assert* negb (p =? NULL) in
  match dataptr with
  | None => Fault FAssert
  | Some data =>
      assert* negb (l =? 0) in
      let* b := deref (pbufs s) p in
      if (len b <=? start_offset) || (len b <? start_offset + l) then Ok (ERR_ARG, chksum, s)
      else
        let dst_ptr := payload b + start_offset in
        let '(data, copy_chksum) := lwip_chksum_copy dst_ptr (take (Z.to_nat l) data) in
        let s := with_bytes (wr (bytes s) dst_ptr data) s in
        let copy_chksum :=
          if negb (Z.land start_offset 1 =? 0) then u16 (SWAP_BYTES_IN_WORD copy_chksum)
          else copy_chksum in
        let acc := u32 (chksum + copy_chksum) in
        Ok (ERR_OK, u16 (FOLD_U32T acc), s)
  end.

(** [-1] when the offset is beyond the packet. *)
Definition pbuf_try_get_at (s : state A) (p offset : Z) : res Z :=
  let* (q, q_idx) := pbuf_skip s p offset in
  if q =? NULL then Ok (-1)
  else
    let* b := deref (pbufs s) q in
    if q_idx <? len b then Ok (rd8 (bytes s) (payload b + q_idx)) else Ok (-1).

Definition pbuf_get_at (s : state A) (p offset : Z) : res Z :=
  let* ret := pbuf_try_get_at s p offset in
  if 0 <=? ret then Ok (u8 ret) else Ok 0.

Definition pbuf_put_at (s : state A) (p offset data : Z) : res (state A) :=
  let* (q, q_idx) := pbuf_skip s p offset in
  if q =? NULL then Ok s
  else
    let* b := deref (pbufs s) q in
    if q_idx <? len b then Ok (with_bytes (<[payload b + q_idx := data]> (bytes s)) s) else Ok s.

(** [for (i = 0; i < n; i++)] over the bytes of [s2]. *)
Fixpoint memcmp_loop (s : state A) (q start i : Z) (s2 : list Z) : res Z :=
  match s2 with
  | [] => Ok 0
  | b :: s2' =>
      let* a := pbuf_get_at s q (u16 (start + i)) in
      if negb (a =? b) then Ok (u16 (i + 1)) else memcmp_loop s q start (u16 (i + 1)) s2'
  end.

(** [s2] holds [n] bytes. *)
Definition pbuf_memcmp (s : state A) (p offset : Z) (s2 : list Z) : res Z :=
  let n := Z.of_nat (length s2) in
  let* b := deref (pbufs s) p in
  if tot_len b <? offset + n then Ok 65535
  else
    let* (q, start) := pbuf_skip_const (walk_fuel (pbufs s)) (pbufs s) p offset in
    memcmp_loop s q start 0 s2.

Fixpoint memfind_loop (fuel : nat) (s : state A) (p : Z) (mem : list Z) (i max : Z) : res Z :=
  match fuel with
  | O => Fault FFuel
  | S fuel' =>
      if i <=? max then
        let* plus := pbuf_memcmp s p i mem in
        if plus =? 0 then Ok i else memfind_loop fuel' s p mem (u16 (i + 1)) max
      else Ok 65535
  end.

(** [mem] holds [mem_len] bytes. *)
Definition pbuf_memfind (s : state A) (p : Z) (mem : list Z) (start_offset : Z) : res Z :=
  let mem_len := Z.of_nat (length mem) in
  let* b := deref (pbufs s) p in
  let max := u16 (tot_len b - mem_len) in
  if mem_len + start_offset <=? tot_len b
  then memfind_loop (Z.to_nat 65537) s p mem start_offset max
  else Ok 65535.

(** [substr]: the characters before the terminator, [None] is NULL. *)
Definition pbuf_strstr (s : state A) (p : Z) (substr : option (list Z)) : res Z :=
  match substr with
  | None => Ok 65535
  | Some [] => Ok 65535
  | Some str =>
      let* b := deref (pbufs s) p in
      if tot_len b =? 65535 then Ok 65535
      else if 65535 <=? Z.of_nat (length str) then Ok 65535
      else pbuf_memfind s p str 0
  end.

(** What the checksum loops of [inet_chksum.c] read of a chain. *)
Fixpoint chain_view (fuel : nat) (h : heap) (m : memory) (q : Z) : res InetChksum.chain_view :=
  match fuel with
  | O => Fault FFuel
  | S fuel' =>
      if negb (q =? NULL) then
        let* b := deref h q in
        let* v := chain_view fuel' h m (next b) in
        Ok ((payload b, rd m (payload b) (Z.to_nat (len b))) :: v)
      else Ok []
  end.

End Operations.

(** ** Chains *)

(** [bl] are the pbufs of the chain that starts at [p]: addresses and structs. *)
Fixpoint chain (h : heap) (p : Z) (bl : list (Z * pbuf)) : Prop :=
  match bl with
  | [] => p = NULL
  | (a, b) :: bl' => p = a /\ a <> NULL /\ h !! a = Some b /\ chain h (next b) bl'
  end.

Lemma chain_suffix h p bl1 q b bl2 :
  chain h p (bl1 ++ (q, b) :: bl2) -> chain h q ((q, b) :: bl2).
Proof.
  revert p. induction bl1 as [|[a c] bl1 IH]; intros p; cbn [app chain];
    [intros (-> & H); done|intros (_ & _ & _ & H); by eapply IH].
Qed.

Lemma chain_det h p l1 l2 : chain h p l1 -> chain h p l2 -> l1 = l2.
Proof.
  revert p l2. induction l1 as [|[a b] l1 IH]; intros p [|[a' b'] l2]; cbn [chain]; try done.
  - intros -> (-> & ? & _). done.
  - intros (-> & ? & _) E. done.
  - intros (-> & _ & Hb & Hc) (E & _ & Hb' & Hc'). subst a'.
    rewrite Hb in Hb'. injection Hb' as <-. f_equal. by eapply IH.
Qed.

(** A chain that ends has no cycle. *)
Lemma chain_NoDup h p bl : chain h p bl -> NoDup (fst <$> bl).
Proof.
  revert p. induction bl as [|[a b] bl IH]; intros p Hc; cbn [fmap list_fmap fst]; [constructor|].
  pose proof Hc as (-> & Hne & Hb & Hn). constructor; [|by eapply IH].
  intros Hin. apply list_elem_of_fmap in Hin. destruct Hin as ([a' b'] & E & Hin). cbn in E. subst a'.
  apply list_elem_of_split in Hin. destruct Hin as (l1 & l2 & ->).
  pose proof (chain_suffix _ _ _ _ _ _ Hn) as Hc2.
  pose proof (chain_det _ _ _ _ Hc Hc2) as E.
  apply (f_equal length) in E. cbn in E. rewrite length_app in E. cbn in E. lia.
Qed.

Lemma chain_lookup h p bl a b : chain h p bl -> (a, b) ∈ bl -> a <> NULL /\ h !! a = Some b.
Proof.
  revert p. induction bl as [|[x c] bl IH]; intros p; cbn [chain]; [by intros _ ?%elem_of_nil|].
  intros (-> & Hne & Hb & Hn). rewrite elem_of_cons. intros [[= -> ->]|Hin]; [done|by eapply IH].
Qed.

Lemma chain_fuel h p bl : chain h p bl -> (length bl < walk_fuel h)%nat.
Proof.
  intros Hc. unfold walk_fuel. apply Nat.lt_succ_r.
  pose proof (chain_NoDup _ _ _ Hc) as Hnd. rewrite <- (length_fmap fst).
  rewrite <- (size_list_to_set (C := gset Z) _ Hnd), <- size_dom. apply subseteq_size.
  intros a Ha. apply elem_of_list_to_set, list_elem_of_fmap in Ha. destruct Ha as ([x b] & -> & Ha).
  apply elem_of_dom. destruct (chain_lookup _ _ _ _ _ Hc Ha) as (_ & Hb). by exists b.
Qed.

(** Changes outside a chain leave it alone. *)
Lemma chain_frame h h' p bl :
  (forall a, a ∈ fst <$> bl -> h' !! a = h !! a) -> chain h p bl -> chain h' p bl.
Proof.
  revert p. induction bl as [|[x b] bl IH]; intros p Hf; cbn [chain]; [done|].
  intros (-> & Hne & Hb & Hn). split_and!; [done|done|rewrite Hf by left; done|].
  apply IH; [|done]. intros a Ha. apply Hf. by right.
Qed.

(** *** The data of a chain *)

Definition total (bl : list (Z * pbuf)) : Z := foldr (fun (ab : Z * pbuf) acc => len (snd ab) + acc) 0 bl.

(** The invariant [p->tot_len == p->len + (p->next? p->next->tot_len: 0)]. *)
Fixpoint lens_ok (bl : list (Z * pbuf)) : Prop :=
  match bl with
  | [] => True
  | (_, b) :: bl' => 0 <= len b /\ tot_len b = len b + total bl' /\ lens_ok bl'
  end.

(** A packet: a chain with right lengths that fit their 16 bits. *)
Definition packet (h : heap) (p : Z) (bl : list (Z * pbuf)) : Prop :=
  chain h p bl /\ lens_ok bl /\ total bl <= 65535.

(** The payload bytes of a packet. *)
Definition cdata (m : memory) (bl : list (Z * pbuf)) : list Z :=
  mjoin ((fun ab => rd m (payload (snd ab)) (Z.to_nat (len (snd ab)))) <$> bl).

Lemma total_cons a b bl : total ((a, b) :: bl) = len b + total bl.
Proof. done. Qed.

Lemma total_app bl1 bl2 : total (bl1 ++ bl2) = total bl1 + total bl2.
Proof.
  induction bl1 as [|[a b] bl1 IH]; [done|]. rewrite <- app_comm_cons, !total_cons, IH. lia.
Qed.

Lemma cdata_cons m a b bl :
  cdata m ((a, b) :: bl) = rd m (payload b) (Z.to_nat (len b)) ++ cdata m bl.
Proof. done. Qed.

Lemma cdata_app m bl1 bl2 : cdata m (bl1 ++ bl2) = cdata m bl1 ++ cdata m bl2.
Proof. unfold cdata. by rewrite fmap_app, join_app. Qed.

Lemma lens_ok_nonneg bl : lens_ok bl -> 0 <= total bl.
Proof.
  induction bl as [|[a b] bl IH]; cbn [lens_ok]; [done|]. intros (? & _ & ?%IH).
  rewrite total_cons. lia.
Qed.

Lemma lens_ok_app bl1 bl2 : lens_ok (bl1 ++ bl2) -> lens_ok bl2.
Proof. induction bl1 as [|[a b] bl1 IH]; cbn [app lens_ok]; [done|]. intros (_ & _ & ?). by apply IH. Qed.

#[export] Hint Resolve lens_ok_nonneg chain_fuel : lwip.

(** *** Memory *)

Lemma length_rd m a n : length (rd m a n) = n.
Proof. revert a. induction n; intros; cbn; [done|by rewrite IHn]. Qed.

Lemma rd_add m a n k : rd m a (n + k) = rd m a n ++ rd m (a + Z.of_nat n) k.
Proof.
  revert a. induction n as [|n IH]; intros a; cbn [Nat.add rd app].
  - by rewrite Z.add_0_r.
  - rewrite IH. do 3 f_equal. lia.
Qed.

Lemma take_rd m a n k : take k (rd m a n) = rd m a (k `min` n).
Proof.
  revert a k. induction n as [|n IH]; intros a [|k]; cbn [rd take Nat.min]; [done..|].
  by rewrite IH.
Qed.

Lemma drop_rd m a n k : drop k (rd m a n) = rd m (a + Z.of_nat k) (n - k).
Proof.
  revert a k. induction n as [|n IH]; intros a [|k]; cbn [rd drop Nat.sub]; [done|done| |].
  - by rewrite Z.add_0_r.
  - rewrite IH. f_equal. lia.
Qed.

Lemma rd_lookup m a n i : (i < n)%nat -> rd m a n !! i = Some (rd8 m (a + Z.of_nat i)).
Proof.
  revert a i. induction n as [|n IH]; intros a [|i] Hi; cbn [rd lookup list_lookup]; try lia.
  - by rewrite Z.add_0_r.
  - rewrite IH by lia. do 2 f_equal. lia.
Qed.

Lemma rd_ext m m' a n :
  (forall x, a <= x < a + Z.of_nat n -> rd8 m' x = rd8 m x) -> rd m' a n = rd m a n.
Proof.
  revert a. induction n as [|n IH]; intros a Hext; cbn [rd]; [done|].
  rewrite Hext by lia. f_equal. apply IH. intros x Hx. apply Hext. lia.
Qed.

Lemma wr_outside m a bs x : (x < a \/ a + Z.of_nat (length bs) <= x) -> rd8 (wr m a bs) x = rd8 m x.
Proof.
  revert m a. induction bs as [|b bs IH]; intros m a Hx; cbn [wr length] in *; [done|].
  rewrite IH by lia. unfold rd8. by rewrite lookup_insert_ne by lia.
Qed.

Lemma rd_wr_same m a bs : rd (wr m a bs) a (length bs) = bs.
Proof.
  revert m a. induction bs as [|b bs IH]; intros m a; cbn [wr length rd]; [done|].
  rewrite IH. f_equal. rewrite wr_outside by lia. unfold rd8. by rewrite lookup_insert_eq.
Qed.

Lemma rd_wr_apart m a bs a' n :
  (a' + Z.of_nat n <= a \/ a + Z.of_nat (length bs) <= a') -> rd (wr m a bs) a' n = rd m a' n.
Proof. intros Hx. apply rd_ext. intros x Hx'. apply wr_outside. lia. Qed.

(** Overwriting part of a region. *)
Lemma rd_wr_part m a n k bs :
  (k + length bs <= n)%nat ->
  rd (wr m (a + Z.of_nat k) bs) a n = take k (rd m a n) ++ bs ++ drop (k + length bs) (rd m a n).
Proof.
  intros Hk. rewrite take_rd, drop_rd.
  replace n with (k + (length bs + (n - (k + length bs))))%nat at 1 by lia.
  rewrite !rd_add, rd_wr_same. rewrite Nat.min_l by lia. f_equal.
  - apply rd_wr_apart. lia.
  - f_equal. rewrite rd_wr_apart by lia. f_equal. lia.
Qed.

Lemma length_cdata m bl : lens_ok bl -> Z.of_nat (length (cdata m bl)) = total bl.
Proof.
  induction bl as [|[a b] bl IH]; cbn [lens_ok]; [done|]. intros (Hl & _ & Hok).
  rewrite cdata_cons, length_app, length_rd, total_cons. specialize (IH Hok). lia.
Qed.

(** A region of memory apart from all payloads of a chain. *)
Definition apart (a n : Z) (bl : list (Z * pbuf)) : Prop :=
  Forall (fun ab : Z * pbuf => a + n <= payload (snd ab) \/ payload (snd ab) + len (snd ab) <= a) bl.

(** The payloads of a chain do not overlap. *)
Fixpoint payloads_apart (bl : list (Z * pbuf)) : Prop :=
  match bl with
  | [] => True
  | (_, b) :: bl' => apart (payload b) (len b) bl' /\ payloads_apart bl'
  end.

Lemma cdata_wr_apart m a bs bl :
  lens_ok bl -> apart a (Z.of_nat (length bs)) bl -> cdata (wr m a bs) bl = cdata m bl.
Proof.
  intros Hok Hap. induction Hap as [|[x b] bl Hx _ IH]; [done|]. cbn [lens_ok snd] in *.
  destruct Hok as (Hl & _ & Hok). rewrite !cdata_cons, IH by done. f_equal. apply rd_wr_apart. lia.
Qed.

Lemma apart_sub a n a' n' bl : apart a n bl -> a <= a' -> a' + n' <= a + n -> apart a' n' bl.
Proof. unfold apart. intros H ? ?. eapply Forall_impl; [exact H|]. cbn. lia. Qed.
