(* ===== verification/PbufData.v ===== *)
(** * Reading, writing and comparing packet data (pbuf.c)

    The operations that walk a chain of pbufs to get at its payload, related to
    the list of bytes the chain holds ([Pbuf.cdata]): how the data is spread over
    the pbufs makes no difference. *)

From S2P Require Import Prelude Mem InetChksum Pbuf.

Section Data.
Context {A : Type} `{AllocOps A}.
Implicit Types (s : state A) (bl : list (Z * pbuf)).

(** ** Finding the pbuf of an offset *)

Lemma skip_spec h bl : forall fuel p off,
  chain h p bl -> lens_ok bl -> 0 <= off <= 65535 -> (length bl < fuel)%nat ->
  if off <? total bl then
    exists bl1 a b bl2, bl = bl1 ++ (a, b) :: bl2 /\ h !! a = Some b /\ a <> NULL
      /\ total bl1 <= off < total bl1 + len b
      /\ pbuf_skip_const fuel h p off = Ok (a, off - total bl1)
  else pbuf_skip_const fuel h p off = Ok (NULL, off - total bl).
Proof.
  induction bl as [|[a b] bl IH]; intros fuel p off Hc Hok Hoff Hf;
    (destruct fuel as [|fuel]; [cbn in Hf; lia|]); cbn [chain lens_ok pbuf_skip_const length] in *.
  - subst p. change (total []) with 0. rewrite (proj2 (Z.ltb_ge off 0)) by lia.
    cbn [Z.eqb NULL negb]. by rewrite Z.sub_0_r.
  - destruct Hc as (-> & Hne & Hb & Hc). destruct Hok as (Hl & Ht & Hok).
    pose proof (lens_ok_nonneg _ Hok). rewrite total_cons.
    rewrite (proj2 (Z.eqb_neq a NULL)) by done. cbn [negb]. rewrite (deref_ok _ _ _ Hb). cbn [res_bind].
    destruct (Z.leb_spec (len b) off) as [Hle|Hlt].
    + rewrite u16_id by (unfold is_u16; lia).
      specialize (IH fuel (next b) (off - len b) Hc Hok ltac:(lia) ltac:(lia)).
      destruct (Z.ltb_spec (off - len b) (total bl)); destruct (Z.ltb_spec off (len b + total bl)); try lia.
      * destruct IH as (bl1 & a' & b' & bl2 & -> & Hb' & Hne' & Hr & ->).
        exists ((a, b) :: bl1), a', b', bl2. rewrite total_cons. split_and!; try done; try lia.
        do 2 f_equal. lia.
      * rewrite IH. do 2 f_equal. lia.
    + destruct (Z.ltb_spec off (len b + total bl)); [|lia].
      exists [], a, b, bl. cbn. split_and!; try done; try lia. by rewrite Z.sub_0_r.
Qed.

(** The byte at offset [off], found in the pbuf that holds it. *)
Lemma cdata_at m bl1 a b bl2 off :
  lens_ok (bl1 ++ (a, b) :: bl2) -> total bl1 <= off < total bl1 + len b ->
  cdata m (bl1 ++ (a, b) :: bl2) !! Z.to_nat off = Some (rd8 m (payload b + (off - total bl1))).
Proof.
  intros Hok Hoff. assert (Hl1 : Z.of_nat (length (cdata m bl1)) = total bl1).
  { clear Hoff. induction bl1 as [|[x c] bl1 IH]; [done|]. cbn [app lens_ok] in Hok.
    destruct Hok as (? & _ & Hok). rewrite cdata_cons, length_app, length_rd, total_cons.
    specialize (IH Hok). lia. }
  rewrite cdata_app, cdata_cons, lookup_app_r by lia.
  rewrite lookup_app_l by (rewrite length_rd; lia). rewrite rd_lookup by lia. do 2 f_equal. lia.
Qed.

Lemma try_get_at_spec s p bl off :
  packet (pbufs s) p bl -> 0 <= off <= 65535 -> bytes_ok (cdata (bytes s) bl) ->
  pbuf_try_get_at s p off
  = Ok (match cdata (bytes s) bl !! Z.to_nat off with Some v => v | None => -1 end)
  /\ pbuf_get_at s p off = Ok (default 0 (cdata (bytes s) bl !! Z.to_nat off)).
Proof.
  intros (Hc & Hok & Htot) Hoff Hby.
  assert (E : pbuf_try_get_at s p off
    = Ok (match cdata (bytes s) bl !! Z.to_nat off with Some v => v | None => -1 end)).
  { unfold pbuf_try_get_at, pbuf_skip.
    pose proof (skip_spec _ _ _ _ _ Hc Hok Hoff (chain_fuel _ _ _ Hc)) as Hs.
    destruct (Z.ltb_spec off (total bl)).
    - destruct Hs as (bl1 & a & b & bl2 & -> & Hb & Hne & Hr & ->). cbn [res_bind].
      rewrite (proj2 (Z.eqb_neq a NULL)), (deref_ok _ _ _ Hb) by done. cbn [res_bind].
      rewrite cdata_at by done. rewrite (proj2 (Z.ltb_lt _ (len b))) by lia. done.
    - rewrite Hs. cbn [res_bind Z.eqb NULL].
      rewrite lookup_ge_None_2; [done|]. pose proof (length_cdata (bytes s) bl Hok). lia. }
  split; [done|]. unfold pbuf_get_at. rewrite E. cbn [res_bind].
  destruct (cdata (bytes s) bl !! Z.to_nat off) as [v|] eqn:Ev; [|done].
  assert (Hv : is_u8 v) by (by eapply Forall_lookup_1 in Ev; [|exact Hby]).
  unfold is_u8 in Hv. rewrite (proj2 (Z.leb_le 0 v)) by lia. cbn [default]. by rewrite u8_id.
Qed.

(** ** Copying out of a chain *)

Lemma copy_partial_loop_spec s bl : forall fuel p l off c out,
  chain (pbufs s) p bl -> lens_ok bl -> total bl <= 65535 -> 0 <= l -> 0 <= off <= 65535 ->
  0 <= c -> c + l <= 65535 -> (length bl < fuel)%nat ->
  copy_partial_loop fuel s p l off c out
  = Ok (c + Z.of_nat (length (take (Z.to_nat l) (drop (Z.to_nat off) (cdata (bytes s) bl)))),
        out ++ take (Z.to_nat l) (drop (Z.to_nat off) (cdata (bytes s) bl))).
Proof.
  induction bl as [|[a b] bl IH]; intros fuel p l off c out Hc Hok Htot Hl Hoff Hc0 Hcl Hf;
    (destruct fuel as [|fuel]; [cbn in Hf; lia|]); cbn [chain lens_ok copy_partial_loop length] in *.
  - subst p. cbn [Z.eqb NULL negb]. rewrite andb_false_r. cbn. rewrite drop_nil, take_nil. cbn.
    by rewrite Z.add_0_r, app_nil_r.
  - destruct Hc as (-> & Hne & Hb & Hc). destruct Hok as (Hlb & Ht & Hok).
    pose proof (lens_ok_nonneg _ Hok). rewrite total_cons in Htot.
    rewrite (proj2 (Z.eqb_neq a NULL)) by done. cbn [negb].
    destruct (Z.eqb_spec l 0) as [->|Hl0]; cbn [negb andb].
    { cbn. by rewrite Z.add_0_r, app_nil_r. }
    rewrite (deref_ok _ _ _ Hb). cbn [res_bind]. rewrite cdata_cons.
    set (R := rd (bytes s) (payload b) (Z.to_nat (len b))).
    assert (HR : length R = Z.to_nat (len b)) by (unfold R; apply length_rd).
    destruct (Z.leb_spec (len b) off) as [Hge|Hlt];
      [destruct (Z.eqb_spec off 0) as [Ho0|Ho0]|]; rewrite ?andb_true_r, ?andb_false_r; cbn [negb].
    3: replace (negb (off =? 0) && false) with false by (by rewrite andb_false_r).
    + assert (Hb0 : len b = 0) by lia. subst off. rewrite Hb0 in *.
      change (u16 (0 - 0)) with 0. rewrite (proj2 (Z.ltb_ge l 0)) by lia.
      change (Z.to_nat 0) with 0%nat. cbn [rd]. rewrite Z.sub_0_r, app_nil_r, (u16_id l), (u16_id (c + 0)), Z.add_0_r
        by (unfold is_u16; lia).
      rewrite IH by (done || lia). unfold R. rewrite Hb0. done.
    + rewrite u16_id by (unfold is_u16; lia). rewrite IH by (done || lia).
      rewrite drop_app_ge by lia. rewrite HR.
      by replace (Z.to_nat off - Z.to_nat (len b))%nat with (Z.to_nat (off - len b)) by lia.
    + rewrite (u16_id (len b - off)) by (unfold is_u16; lia).
      assert (Hmin : (if l <? len b - off then l else len b - off) = Z.min l (len b - off)).
      { destruct (Z.ltb_spec l (len b - off)); lia. }
      rewrite Hmin. set (n := Z.min l (len b - off)).
      rewrite (u16_id (l - n)), (u16_id (c + n)) by (unfold is_u16, n; lia).
      rewrite IH by (done || (unfold n; lia)). rewrite drop_0.
      rewrite drop_app_le by lia. unfold R. rewrite drop_rd. 
      replace (Z.of_nat (Z.to_nat off)) with off by lia.
      rewrite take_app, length_rd, length_app, take_rd, length_rd, <- app_assoc.
      replace (Z.to_nat l `min` (Z.to_nat (len b) - Z.to_nat off))%nat with (Z.to_nat n) by (unfold n; lia).
      replace (Z.to_nat l - (Z.to_nat (len b) - Z.to_nat off))%nat with (Z.to_nat (l - n)) by (unfold n; lia).
      f_equal. f_equal. unfold n. lia.
Qed.

Lemma copy_partial_spec s p bl l off :
  packet (pbufs s) p bl -> p <> NULL -> is_u16 l -> is_u16 off ->
  pbuf_copy_partial s p true l off
  = Ok (Z.of_nat (length (take (Z.to_nat l) (drop (Z.to_nat off) (cdata (bytes s) bl)))),
        take (Z.to_nat l) (drop (Z.to_nat off) (cdata (bytes s) bl))).
Proof.
  intros (Hc & Hok & Htot) Hne Hl Hoff. unfold is_u16 in *. unfold pbuf_copy_partial.
  rewrite (proj2 (Z.eqb_neq p NULL)) by done. cbn [orb negb].
  rewrite (copy_partial_loop_spec s bl) by (done || lia || (eapply chain_fuel; done)). done.
Qed.

(** ** Copying into a chain *)

(** [x] lies in no payload of the chain. *)
Definition outside (x : Z) (bl : list (Z * pbuf)) : Prop :=
  Forall (fun ab : Z * pbuf => x < payload (snd ab) \/ payload (snd ab) + len (snd ab) <= x) bl.

Lemma apart_outside a n bl x : apart a n bl -> a <= x < a + n -> outside x bl.
Proof. intros Hap Hx. eapply Forall_impl; [exact Hap|]. cbn. lia. Qed.

Lemma take_loop_spec s data bl : forall fuel m p t c,
  chain (pbufs s) p bl -> lens_ok bl -> payloads_apart bl -> total bl <= 65535 ->
  0 <= t <= total bl -> 0 <= c -> c + t <= Z.of_nat (length data) -> c + t <= 65535 ->
  (length bl < fuel)%nat ->
  exists m', take_loop fuel (with_bytes m s) p data t c = Ok (0, c + t, with_bytes m' s)
    /\ cdata m' bl = take (Z.to_nat t) (drop (Z.to_nat c) data) ++ drop (Z.to_nat t) (cdata m bl)
    /\ (forall x, outside x bl -> rd8 m' x = rd8 m x).
Proof.
  induction bl as [|[a b] bl IH]; intros fuel m p t c Hc Hok Hap Htot Ht Hc0 Hd Hct Hf;
    (destruct fuel as [|fuel]; [cbn in Hf; lia|]);
    cbn [chain lens_ok payloads_apart take_loop length] in *.
  - change (total []) with 0 in *. replace t with 0 by lia. cbn [Z.eqb negb].
    exists m. rewrite Z.add_0_r. done.
  - destruct (Z.eqb_spec t 0) as [->|Ht0]; cbn [negb].
    { exists m. rewrite Z.add_0_r. done. }
    destruct Hc as (-> & Hne & Hb & Hc). destruct Hok as (Hlb & Htl & Hok). destruct Hap as [Hab Hap].
    pose proof (lens_ok_nonneg _ Hok). rewrite total_cons in Htot, Ht.
    rewrite (proj2 (Z.eqb_neq a NULL)) by done. cbn [negb lwip_assert res_bind with_bytes pbufs bytes].
    rewrite (deref_ok _ _ _ Hb). cbn [res_bind].
    replace (if len b <? t then len b else t) with (Z.min (len b) t)
      by (destruct (Z.ltb_spec (len b) t); lia).
    set (n := Z.min (len b) t). set (w := take (Z.to_nat n) (drop (Z.to_nat c) data)).
    assert (Hw : length w = Z.to_nat n).
    { unfold w. rewrite length_take, length_drop. unfold n. lia. }
    rewrite (u16_id (t - n)), (u16_id (c + n)) by (unfold is_u16, n; lia).
    destruct (IH fuel (wr m (payload b) w) (next b) (t - n) (c + n)) as (m' & E & Hcd & Hout);
      try done; try (unfold n; lia).
    exists m'. split; [replace (c + t) with (c + n + (t - n)) by lia; exact E|].
    assert (Hbl : cdata (wr m (payload b) w) bl = cdata m bl).
    { apply cdata_wr_apart; [done|]. eapply apart_sub; [exact Hab|lia|rewrite Hw; unfold n; lia]. }
    rewrite !cdata_cons, Hcd, Hbl. split.
    + assert (HR : rd m' (payload b) (Z.to_nat (len b)) = rd (wr m (payload b) w) (payload b) (Z.to_nat (len b))).
      { apply rd_ext. intros x Hx. apply Hout. eapply apart_outside; [exact Hab|lia]. }
      rewrite HR. pose proof (rd_wr_part m (payload b) (Z.to_nat (len b)) 0 w) as Ew.
      rewrite take_0, Z.add_0_r in Ew. cbn [Nat.add app] in Ew. rewrite Ew by (rewrite Hw; unfold n; lia).
      rewrite Hw, <- app_assoc. set (R := rd m (payload b) (Z.to_nat (len b))).
      assert (HlR : length R = Z.to_nat (len b)) by (unfold R; apply length_rd).
      unfold w. destruct (Z.leb_spec t (len b)).
      * replace n with t by (unfold n; lia). rewrite Z.sub_diag, drop_app_le by lia. by rewrite take_0, drop_0.
      * replace n with (len b) by (unfold n; lia). rewrite (drop_ge R), drop_app_ge by lia. cbn [app].
        replace (Z.to_nat (c + len b)) with (Z.to_nat c + Z.to_nat (len b))%nat by lia.
        rewrite <- drop_drop, app_assoc, take_take_drop, HlR.
        replace (Z.to_nat (len b) + Z.to_nat (t - len b))%nat with (Z.to_nat t) by lia.
        by replace (Z.to_nat t - Z.to_nat (len b))%nat with (Z.to_nat (t - len b)) by lia.
    + intros x Hx. inversion_clear Hx as [|? ? Hx1 Hx2]. cbn [snd] in Hx1.
      rewrite Hout by done. apply wr_outside. rewrite Hw. unfold n. lia.
Qed.

Lemma pbuf_take_spec s p bl data l :
  packet (pbufs s) p bl -> payloads_apart bl -> p <> NULL ->
  0 <= l <= Z.of_nat (length data) -> l <= total bl ->
  exists m', pbuf_take s p (Some data) l = Ok (ERR_OK, with_bytes m' s)
    /\ cdata m' bl = take (Z.to_nat l) data ++ drop (Z.to_nat l) (cdata (bytes s) bl)
    /\ (forall x, outside x bl -> rd8 m' x = rd8 (bytes s) x).
Proof.
  intros (Hc & Hok & Htot) Hap Hne Hl Hlt. unfold pbuf_take.
  rewrite (proj2 (Z.eqb_neq p NULL)) by done.
  destruct bl as [|[a b] bl]; [cbn in Hc; done|]. pose proof Hc as (-> & _ & Hb & _).
  pose proof Hok as (_ & Htl & _). rewrite (deref_ok _ _ _ Hb). cbn [res_bind].
  rewrite (proj2 (Z.ltb_ge (tot_len b) l)) by (rewrite total_cons in Hlt; lia).
  destruct (take_loop_spec s data _ (walk_fuel (pbufs s)) (bytes s) a l 0 Hc Hok Hap Htot)
    as (m' & E & Hcd & Hout); [lia..|by eapply chain_fuel|].
  replace (with_bytes (bytes s) s) with s in E by (by destruct s).
  change (Z.to_nat 0) with 0%nat in Hcd. rewrite drop_0 in Hcd.
  exists m'. rewrite E. cbn [res_bind]. rewrite Z.add_0_l, !Z.eqb_refl. done.
Qed.

(** Writing inside one pbuf of the chain. *)
Lemma cdata_wr_inside m bl1 a b bl2 k w :
  lens_ok (bl1 ++ (a, b) :: bl2) -> payloads_apart (bl1 ++ (a, b) :: bl2) ->
  0 <= k -> k + Z.of_nat (length w) <= len b ->
  cdata (wr m (payload b + k) w) (bl1 ++ (a, b) :: bl2)
  = splice (Z.to_nat (total bl1 + k)) w (cdata m (bl1 ++ (a, b) :: bl2)).
Proof.
  unfold splice. intros Hok Hap Hk Hw. revert Hok Hap. induction bl1 as [|[x c] bl1 IH]; intros Hok Hap.
  - cbn [app lens_ok payloads_apart] in *. destruct Hok as (Hl & _ & Hok), Hap as [Hab _].
    change (total []) with 0. rewrite Z.add_0_l, !cdata_cons.
    rewrite cdata_wr_apart; [|done|eapply apart_sub; [exact Hab|lia|lia]].
    pose proof (rd_wr_part m (payload b) (Z.to_nat (len b)) (Z.to_nat k) w ltac:(lia)) as E.
    rewrite Z2Nat.id in E by lia. rewrite E.
    rewrite take_app_le, drop_app_le by (rewrite length_rd; lia). by rewrite <- !app_assoc.
  - cbn [app lens_ok payloads_apart] in *. destruct Hok as (Hl & _ & Hok), Hap as [Hab Hap].
    pose proof (lens_ok_nonneg _ Hok) as Hnn. rewrite total_app, total_cons in Hnn.
    rewrite !cdata_cons, (IH Hok Hap), total_cons.
    apply Forall_app in Hab. destruct Hab as [_ Hab]. inversion_clear Hab as [|? ? Hab1 _]. cbn [snd] in Hab1.
    rewrite rd_wr_apart by lia.
    assert (H1 : 0 <= total bl1).
    { clear -Hok. induction bl1 as [|[y d] bl1 IH]; [done|]. cbn [app lens_ok] in Hok.
      destruct Hok as (? & _ & Hok). rewrite total_cons. specialize (IH Hok). lia. }
    rewrite take_app_ge, drop_app_ge by (rewrite length_rd; lia). rewrite length_rd, <- app_assoc.
    replace (Z.to_nat (len c + total bl1 + k) - Z.to_nat (len c))%nat with (Z.to_nat (total bl1 + k)) by lia.
    replace (Z.to_nat (len c + total bl1 + k) + length w - Z.to_nat (len c))%nat
      with (Z.to_nat (total bl1 + k) + length w)%nat by lia. done.
Qed.

Lemma prefix_total bl1 bl2 : lens_ok (bl1 ++ bl2) -> 0 <= total bl1.
Proof.
  induction bl1 as [|[y d] bl1 IH]; [done|]. cbn [app lens_ok].
  intros (? & _ & Hok). rewrite total_cons. specialize (IH Hok). lia.
Qed.

Lemma prefix_length m bl1 bl2 :
  lens_ok (bl1 ++ bl2) -> Z.of_nat (length (cdata m bl1)) = total bl1.
Proof.
  induction bl1 as [|[x c] bl1 IH]; [done|]. cbn [app lens_ok]. intros (? & _ & Hok).
  rewrite cdata_cons, length_app, length_rd, total_cons. specialize (IH Hok). lia.
Qed.

Lemma payloads_apart_app bl1 bl2 : payloads_apart (bl1 ++ bl2) -> payloads_apart bl2.
Proof. induction bl1 as [|[a b] bl1 IH]; cbn [app payloads_apart]; [done|]. intros [_ ?]. by apply IH. Qed.

(** A byte of the front part lies outside the rest. *)
Lemma payloads_apart_prefix bl1 bl2 ab x :
  payloads_apart (bl1 ++ bl2) -> ab ∈ bl1 ->
  payload (snd ab) <= x < payload (snd ab) + len (snd ab) -> outside x bl2.
Proof.
  induction bl1 as [|[y c] bl1 IH]; cbn [app payloads_apart]; [by intros _ ?%elem_of_nil|].
  intros [Hab Hap] Hin Hx. apply elem_of_cons in Hin. destruct Hin as [->|Hin]; [|by apply IH].
  cbn [snd] in Hx. apply Forall_app in Hab. destruct Hab as [_ Hab].
  eapply Forall_impl; [exact Hab|]. cbn. lia.
Qed.

Lemma cdata_ext m m' bl :
  (forall ab x, ab ∈ bl -> payload (snd ab) <= x < payload (snd ab) + len (snd ab) -> rd8 m' x = rd8 m x) ->
  cdata m' bl = cdata m bl.
Proof.
  induction bl as [|[a b] bl IH]; intros Hext; [done|]. rewrite !cdata_cons. f_equal.
  - destruct (decide (0 <= len b)).
    + apply rd_ext. intros x Hx. apply (Hext (a, b)); [left|cbn; lia].
    + by replace (Z.to_nat (len b)) with 0%nat by lia.
  - apply IH. intros ab x Hin Hx. apply (Hext ab); [by right|done].
Qed.

(** ** Copying to an offset *)

(** The front part as [m1] has it, the rest as [m'] does. *)
Lemma take_at_join m1 m' bl1 a b bl2 D data off n l (Q : Prop) :
  lens_ok (bl1 ++ (a, b) :: bl2) -> payloads_apart (bl1 ++ (a, b) :: bl2) ->
  0 <= off <= Z.of_nat (length D) -> off + n = total bl1 + len b -> 0 <= n <= l ->
  Z.of_nat (length data) = l ->
  cdata m1 (bl1 ++ (a, b) :: bl2)
  = take (Z.to_nat off) D ++ take (Z.to_nat n) data ++ drop (Z.to_nat off + Z.to_nat n) D ->
  cdata m' bl2 = take (Z.to_nat (l - n)) (drop (Z.to_nat n) data) ++ drop (Z.to_nat (l - n)) (cdata m1 bl2) ->
  (forall x, outside x bl2 -> rd8 m' x = rd8 m1 x) -> Q ->
  cdata m' (bl1 ++ (a, b) :: bl2)
  = take (Z.to_nat off) D ++ data ++ drop (Z.to_nat off + length data) D /\ Q.
Proof.
  intros Hok Hap Hoff Hn Hnl Hlen E1 Hcd Hout HQ. split; [|done].
  change ((a, b) :: bl2) with ([(a, b)] ++ bl2) in *. rewrite app_assoc in *.
  pose proof (prefix_length m1 _ _ Hok) as HX. rewrite total_app, total_cons in HX.
  change (total []) with 0 in HX. rewrite (cdata_app m1 (bl1 ++ _)), app_assoc in E1.
  rewrite (cdata_app m' (bl1 ++ _)).
  apply app_inj_1 in E1.
  2:{ rewrite length_app, !length_take. lia. }
  destruct E1 as [E1 E2]. rewrite Hcd, E2.
  assert (HB : cdata m' (bl1 ++ [(a, b)]) = cdata m1 (bl1 ++ [(a, b)])).
  { apply cdata_ext. intros ab x Hin Hx. apply Hout. by eapply payloads_apart_prefix. }
  rewrite HB, E1, <- app_assoc, drop_drop. f_equal. rewrite app_assoc, take_take_drop. f_equal.
  - apply take_ge. lia.
  - f_equal. lia.
Qed.

Lemma pbuf_take_at_spec s p bl data l off :
  packet (pbufs s) p bl -> payloads_apart bl -> is_u16 off ->
  0 <= l -> Z.of_nat (length data) = l -> off < total bl -> off + l <= total bl ->
  exists m', pbuf_take_at s p data l off = Ok (ERR_OK, with_bytes m' s)
    /\ cdata m' bl = splice (Z.to_nat off) data (cdata (bytes s) bl)
    /\ (forall x, outside x bl -> rd8 m' x = rd8 (bytes s) x).
Proof.
  intros (Hc & Hok & Htot) Hap Hoff Hl Hlen Ho Hol. unfold is_u16 in Hoff. unfold pbuf_take_at, pbuf_skip.
  pose proof (skip_spec _ _ _ _ off Hc Hok ltac:(lia) (chain_fuel _ _ _ Hc)) as Hs.
  rewrite (proj2 (Z.ltb_lt off (total bl))) in Hs by lia.
  destruct Hs as (bl1 & a & b & bl2 & -> & Hb & Hne & Hr & ->). cbn [res_bind].
  rewrite (proj2 (Z.eqb_neq a NULL)), (deref_ok _ _ _ Hb) by done. cbn [res_bind].
  pose proof (lens_ok_app _ _ Hok) as Hok2. pose proof Hok2 as (Hlb & Htl & Hok3).
  pose proof (lens_ok_nonneg _ Hok3). rewrite total_app, total_cons in *.
  rewrite (proj2 (Z.leb_le _ (tot_len b))) by lia. set (k := off - total bl1).
  pose proof (prefix_total _ _ Hok) as Hp1. rewrite (u16_id (Z.min _ l)) by (unfold is_u16, k; lia).
  set (n := Z.min (len b - k) l). rewrite (u16_id (l - n)) by (unfold is_u16, n; lia).
  set (w := take (Z.to_nat n) data). set (m1 := wr (bytes s) (payload b + k) w).
  assert (Hw : length w = Z.to_nat n) by (unfold w; rewrite length_take; unfold n; lia).
  pose proof (cdata_wr_inside (bytes s) bl1 a b bl2 k w Hok Hap ltac:(unfold k; lia)
    ltac:(rewrite Hw; unfold n, k in *; lia)) as E1. fold m1 in E1.
  replace (total bl1 + k) with off in E1 by (unfold k; lia). unfold splice in E1 |- *.
  assert (Hout1 : forall x, outside x (bl1 ++ (a, b) :: bl2) -> rd8 m1 x = rd8 (bytes s) x).
  { intros x Hx. apply Forall_app in Hx. destruct Hx as [_ Hx]. inversion_clear Hx as [|? ? Hx1 _].
    cbn [snd] in Hx1. apply wr_outside. rewrite Hw. unfold n, k in *. lia. }
  destruct (Z.ltb_spec 0 (l - n)).
  - assert (Hn : n = len b - k) by (unfold n in *; lia).
    pose proof (chain_suffix _ _ _ _ _ _ Hc) as (_ & _ & _ & Hc3).
    pose proof (payloads_apart_app bl1 _ Hap) as [_ Hap3].
    assert (Hne3 : next b <> NULL).
    { intros E. rewrite E in Hc3. destruct bl2 as [|[? ?] ?]; [change (total []) with 0 in *; lia|].
      destruct Hc3 as (<- & Hnn & _). done. }
    destruct (pbuf_take_spec (with_bytes m1 s) (next b) bl2 (drop (Z.to_nat n) data) (l - n))
      as (m' & Et & Hcd & Hout); [split_and!; [done|done|lia]|done|done|rewrite length_drop; lia|lia|].
    exists m'. split; [exact Et|]. cbn [with_bytes bytes] in Hcd, Hout.
    apply (take_at_join m1 m' bl1 a b bl2 (cdata (bytes s) (bl1 ++ (a, b) :: bl2)) data off n l);
      try done; try (unfold n, k in *; lia);
      [rewrite length_cdata by done; rewrite total_app, total_cons; lia|rewrite Hw in E1; exact E1|].
    intros x Hx. rewrite <- Hout1 by done. apply Hout. by apply Forall_app in Hx as [_ [_ Hx]%Forall_cons].
  - exists m1. assert (n = l) by (unfold n in *; lia). split_and!; [done| |done].
    rewrite E1, Hw. unfold w. rewrite (take_ge data) by lia. by replace (Z.to_nat n) with (length data) by lia.
Qed.

Lemma pbuf_put_at_spec s p bl v off :
  packet (pbufs s) p bl -> payloads_apart bl -> is_u16 off ->
  exists m', pbuf_put_at s p off v = Ok (with_bytes m' s)
    /\ cdata m' bl = <[Z.to_nat off := v]> (cdata (bytes s) bl)
    /\ (forall x, outside x bl -> rd8 m' x = rd8 (bytes s) x).
Proof.
  intros (Hc & Hok & Htot) Hap Hoff. unfold is_u16 in Hoff. unfold pbuf_put_at, pbuf_skip.
  pose proof (length_cdata (bytes s) bl Hok) as Hlen.
  pose proof (skip_spec _ _ _ _ off Hc Hok ltac:(lia) (chain_fuel _ _ _ Hc)) as Hs.
  destruct (Z.ltb_spec off (total bl)).
  - destruct Hs as (bl1 & a & b & bl2 & -> & Hb & Hne & Hr & ->). cbn [res_bind].
    rewrite (proj2 (Z.eqb_neq a NULL)), (deref_ok _ _ _ Hb) by done. cbn [res_bind].
    rewrite (proj2 (Z.ltb_lt _ (len b))) by lia. eexists. split; [done|].
    change (<[payload b + (off - total bl1) := v]> (bytes s))
      with (wr (bytes s) (payload b + (off - total bl1)) [v]). split.
    + rewrite cdata_wr_inside by (done || (cbn [length]; lia)).
      replace (total bl1 + (off - total bl1)) with off by lia. apply splice_insert. lia.
    + intros x Hx. apply Forall_app in Hx. destruct Hx as [_ Hx]. inversion_clear Hx as [|? ? Hx1 _].
      cbn [snd] in Hx1. apply wr_outside. cbn [length]. lia.
  - rewrite Hs. cbn [res_bind Z.eqb NULL]. exists (bytes s).
    rewrite list_insert_ge by lia. split; [by destruct s|done].
Qed.

(** ** Comparing and searching *)

(** Index of the first difference. *)
Fixpoint first_mismatch (xs ys : list Z) : option nat :=
  match xs, ys with
  | x :: xs', y :: ys' => if x =? y then S <$> first_mismatch xs' ys' else Some 0%nat
  | _, _ => None
  end.

Lemma first_mismatch_none xs ys :
  length xs = length ys -> first_mismatch xs ys = None <-> xs = ys.
Proof.
  revert ys. induction xs as [|x xs IH]; intros [|y ys] Hl; try discriminate Hl; [done|].
  cbn [first_mismatch]. injection Hl as Hl. destruct (Z.eqb_spec x y) as [->|Hne].
  - rewrite fmap_None, (IH _ Hl). split; congruence.
  - split; congruence.
Qed.

(** The [n] bytes of [D] from [off] on. *)
Definition slice (D : list Z) (off : Z) (n : nat) : list Z := take n (drop (Z.to_nat off) D).

Definition memcmp_result (D : list Z) (off : Z) (s2 : list Z) : Z :=
  match first_mismatch (slice D off (length s2)) s2 with
  | None => 0
  | Some i => Z.of_nat i + 1
  end.

Lemma memcmp_loop_spec s q bl (s2 : list Z) : forall start i,
  packet (pbufs s) q bl -> bytes_ok (cdata (bytes s) bl) -> 0 <= start -> 0 <= i ->
  i + Z.of_nat (length s2) <= 65535 ->
  start + i + Z.of_nat (length s2) <= total bl ->
  memcmp_loop s q start i s2
  = Ok (match first_mismatch (slice (cdata (bytes s) bl) (start + i) (length s2)) s2 with
        | None => 0 | Some k => i + Z.of_nat k + 1 end).
Proof.
  induction s2 as [|y s2 IH]; intros start i Hp Hby Hs Hi Hil Hb; cbn [memcmp_loop length] in *.
  - unfold slice. by rewrite take_0.
  - pose proof Hp as (_ & Hok & Htot). pose proof (length_cdata (bytes s) bl Hok) as Hlen.
    rewrite (u16_id (start + i)) by (unfold is_u16; lia).
    destruct (try_get_at_spec s q bl (start + i) Hp ltac:(lia) Hby) as [_ ->]. cbn [res_bind].
    destruct (lookup_lt_is_Some_2 (cdata (bytes s) bl) (Z.to_nat (start + i))) as [x Hx]; [lia|].
    rewrite Hx. change (default 0 (Some x)) with x. unfold slice. rewrite (drop_S _ _ _ Hx). cbn [take firstn first_mismatch].
    destruct (Z.eqb_spec x y); cbn [negb].
    + rewrite (u16_id (i + 1)) by (unfold is_u16; lia). rewrite IH by (done || lia). unfold slice.
      replace (Z.to_nat (start + (i + 1))) with (S (Z.to_nat (start + i))) by lia.
      destruct (first_mismatch _ s2); cbn; [|done]. do 2 f_equal. lia.
    + rewrite (u16_id (i + 1)) by (unfold is_u16; lia). do 2 f_equal. lia.
Qed.

Lemma chain_null h bl : chain h NULL bl -> bl = [].
Proof. destruct bl as [|[a b] bl]; [done|]. by intros (<- & ? & _). Qed.

Lemma pbuf_memcmp_spec s p bl off (s2 : list Z) :
  packet (pbufs s) p bl -> p <> NULL -> bytes_ok (cdata (bytes s) bl) -> is_u16 off ->
  pbuf_memcmp s p off s2
  = Ok (if total bl <? off + Z.of_nat (length s2) then 65535
        else memcmp_result (cdata (bytes s) bl) off s2).
Proof.
  intros Hp Hne Hby Hoff. pose proof Hp as (Hc & Hok & Htot). unfold is_u16 in Hoff. unfold pbuf_memcmp.
  destruct bl as [|[a b] bl]; [cbn in Hc; done|]. pose proof Hc as (-> & _ & Hb & _).
  rewrite (deref_ok _ _ _ Hb). cbn [res_bind]. pose proof Hok as (_ & Htl & _).
  replace (tot_len b) with (total ((a, b) :: bl)) by (by rewrite total_cons).
  clear Hb Htl. set (B := (a, b) :: bl) in *.
  destruct (Z.ltb_spec (total B) (off + Z.of_nat (length s2))); [done|].
  pose proof (skip_spec _ _ _ _ off Hc Hok ltac:(lia) (chain_fuel _ _ _ Hc)) as Hs.
  destruct (Z.ltb_spec off (total B)).
  - destruct Hs as (bl1 & x & c & bl2 & E & Hx & Hxne & Hr & ->). cbn [res_bind].
    rewrite E in *. pose proof (prefix_length (bytes s) _ _ Hok) as Hl1.
    pose proof (prefix_total _ _ Hok). rewrite cdata_app in Hby |- *. apply bytes_ok_app in Hby. rewrite total_app in *.
    rewrite (memcmp_loop_spec s x ((x, c) :: bl2)); try done; try lia.
    + unfold memcmp_result, slice. rewrite Z.add_0_r, drop_app_ge by lia.
      replace (Z.to_nat off - length (cdata (bytes s) bl1))%nat with (Z.to_nat (off - total bl1)) by lia.
      by destruct (first_mismatch _ s2).
    + split_and!; [by eapply chain_suffix|by eapply lens_ok_app|lia].
    + by destruct Hby.
  - rewrite Hs. cbn [res_bind]. destruct s2; [|cbn [length] in *; lia]. cbn [memcmp_loop].
    unfold memcmp_result, slice. cbn [length]. by rewrite take_0.
Qed.

(** ** Searching *)

Lemma memcmp_result_zero D off (mem : list Z) :
  0 <= off -> off + Z.of_nat (length mem) <= Z.of_nat (length D) ->
  memcmp_result D off mem = 0 <-> slice D off (length mem) = mem.
Proof.
  intros Hoff Hl. rewrite <- (first_mismatch_none (slice D off (length mem)) mem).
  - unfold memcmp_result. destruct (first_mismatch _ mem); split; intros; done || lia.
  - unfold slice. rewrite length_take, length_drop. lia.
Qed.

(** [mem] is found at [r], and nowhere between [start] and [r]; 65535 says that
    it is nowhere from [start] on. *)
Definition found (D mem : list Z) (start r : Z) : Prop :=
  let occurs i := i + Z.of_nat (length mem) <= Z.of_nat (length D) /\ slice D i (length mem) = mem in
  (r <> 65535 -> start <= r /\ occurs r) /\ forall i, start <= i < r -> ~ occurs i.

Lemma memfind_loop_spec s p bl mem max : forall fuel i,
  packet (pbufs s) p bl -> p <> NULL -> bytes_ok (cdata (bytes s) bl) -> total bl <= 65534 ->
  max = total bl - Z.of_nat (length mem) -> 0 <= max -> 0 <= i <= max + 1 ->
  (Z.to_nat (max - i + 1) < fuel)%nat ->
  exists r, memfind_loop fuel s p mem i max = Ok r /\ found (cdata (bytes s) bl) mem i r.
Proof.
  induction fuel as [|fuel IH]; intros i Hp Hne Hby Htot Hmax Hm0 Hi Hf; [lia|].
  pose proof Hp as (_ & Hok & _). pose proof (length_cdata (bytes s) bl Hok) as Hlen.
  cbn [memfind_loop]. destruct (Z.leb_spec i max).
  - rewrite (pbuf_memcmp_spec s p bl) by (done || (unfold is_u16; lia)).
    rewrite (proj2 (Z.ltb_ge (total bl) _)) by lia. cbn [res_bind].
    destruct (Z.eqb_spec (memcmp_result (cdata (bytes s) bl) i mem) 0) as [E|E];
      rewrite memcmp_result_zero in E by lia.
    + exists i. split; [done|]. unfold found. split; [|lia]. split; [lia|]. split; [lia|done].
    + rewrite u16_id by (unfold is_u16; lia).
      destruct (IH (i + 1)) as (r & -> & Hr1 & Hr2); try done; try lia.
      exists r. split; [done|]. split; [intros Hr; destruct (Hr1 Hr); split; [lia|done]|].
      intros j Hj. destruct (decide (j = i)) as [->|]; [by intros [_ ?]|]. apply Hr2. lia.
  - exists 65535. split; [done|]. split; [done|]. intros j Hj [Ho _]. lia.
Qed.

Lemma pbuf_memfind_spec s p bl mem start :
  packet (pbufs s) p bl -> p <> NULL -> bytes_ok (cdata (bytes s) bl) -> total bl <= 65534 ->
  0 <= start ->
  exists r, pbuf_memfind s p mem start = Ok r /\ found (cdata (bytes s) bl) mem start r.
Proof.
  intros Hp Hne Hby Htot Hst. pose proof Hp as (Hc & Hok & _).
  pose proof (length_cdata (bytes s) bl Hok) as Hlen. pose proof (lens_ok_nonneg _ Hok).
  unfold pbuf_memfind. destruct bl as [|[a b] bl]; [cbn in Hc; done|]. pose proof Hc as (-> & _ & Hb & _).
  rewrite (deref_ok _ _ _ Hb). cbn [res_bind]. pose proof Hok as (_ & Htl & _).
  rewrite <- total_cons with (a := a) in Htl. rewrite Htl. set (B := (a, b) :: bl) in *.
  destruct (Z.leb_spec (Z.of_nat (length mem) + start) (total B)).
  - rewrite u16_id by (unfold is_u16; lia). apply memfind_loop_spec; try done; try lia.
  - exists 65535. split; [done|]. split; [done|]. intros i Hi [Ho _]. lia.
Qed.

(** ** Copying between chains *)

(** No empty pbufs: an empty one would look like the end of a packet queue. *)
Definition nonempty (bl : list (Z * pbuf)) : Prop := Forall (fun ab : Z * pbuf => 0 < len (snd ab)) bl.

(** No payload of [bl] overlaps one of [bl']. *)
Definition chains_apart (bl bl' : list (Z * pbuf)) : Prop :=
  Forall (fun ab : Z * pbuf => apart (payload (snd ab)) (len (snd ab)) bl') bl.

Lemma chains_apart_tail bl x bl' : chains_apart bl (x :: bl') -> chains_apart bl bl'.
Proof. intros Hx. eapply Forall_impl; [exact Hx|]. cbn. intros ab Ha. by inversion_clear Ha. Qed.

Lemma queue_end_false h p bl :
  chain h p bl -> lens_ok bl -> nonempty bl -> queue_end h p = Ok false.
Proof.
  intros Hc Hok Hne. unfold queue_end. destruct bl as [|[a b] bl]; cbn [chain lens_ok] in *; [by subst p|].
  destruct Hc as (-> & Hn & Hb & Hc), Hok as (_ & Ht & Hok).
  rewrite (proj2 (Z.eqb_neq a NULL)), (deref_ok _ _ _ Hb) by done. cbn [negb res_bind].
  destruct bl as [|[a' b'] bl]; cbn [chain] in Hc.
  - rewrite Hc. cbn. by rewrite andb_false_r.
  - inversion_clear Hne as [|? ? _ Hne2]. inversion_clear Hne2 as [|? ? H1 _]. cbn [snd] in H1.
    cbn [lens_ok] in Hok. destruct Hok as (_ & _ & Hok). pose proof (lens_ok_nonneg _ Hok).
    rewrite total_cons in Ht. rewrite (proj2 (Z.eqb_neq (len b) (tot_len b))) by lia. done.
Qed.

(** One [MEMCPY] of [pbuf_copy]. *)
Lemma copy_write m at' bt blt af bf blf oto ofr :
  let T := (at', bt) :: blt in let F := (af, bf) :: blf in
  let l := Z.min (len bf - ofr) (len bt - oto) in
  let w := rd m (payload bf + ofr) (Z.to_nat l) in
  let m1 := wr m (payload bt + oto) w in
  lens_ok T -> lens_ok F -> payloads_apart T -> apart (payload bt) (len bt) F ->
  0 <= oto <= len bt -> 0 <= ofr <= len bf ->
  cdata m1 T = splice (Z.to_nat oto) w (cdata m T) /\ cdata m1 F = cdata m F
  /\ drop (Z.to_nat ofr) (cdata m F) = w ++ drop (Z.to_nat (ofr + l)) (cdata m F)
  /\ (forall x, outside x T -> rd8 m1 x = rd8 m x).
Proof.
  intros T F l w m1 HokT HokF HapT HabF Hot Hof.
  assert (Hw : length w = Z.to_nat l) by apply length_rd.
  split_and!.
  - pose proof (cdata_wr_inside m [] at' bt blt oto w HokT HapT) as E.
    change (total []) with 0 in E. rewrite Z.add_0_l in E. cbn [app] in E. apply E; [lia|].
    rewrite Hw. unfold l. lia.
  - apply cdata_wr_apart; [done|]. eapply apart_sub; [exact HabF|lia|rewrite Hw; unfold l; lia].
  - unfold F. rewrite cdata_cons. set (R := rd m (payload bf) (Z.to_nat (len bf))).
    assert (HR : length R = Z.to_nat (len bf)) by apply length_rd.
    assert (Ew : w = take (Z.to_nat l) (drop (Z.to_nat ofr) (R ++ cdata m blf))).
    { rewrite drop_app_le by lia. unfold R. rewrite drop_rd, take_app_le by (rewrite length_rd; unfold l; lia).
      rewrite take_rd, Z2Nat.id by lia. unfold w. f_equal. unfold l. lia. }
    rewrite Ew at 1. rewrite <- (take_drop (Z.to_nat l) (drop (Z.to_nat ofr) _)) at 1. f_equal.
    rewrite drop_drop. f_equal. unfold l. lia.
  - intros x Hx. inversion_clear Hx as [|? ? Hx1 _]. cbn [snd] in Hx1. apply wr_outside.
    rewrite Hw. unfold l. lia.
Qed.

Lemma copy_loop_spec s : forall fuel m p_to p_from at' bt blt af bf blf oto ofr,
  let T := (at', bt) :: blt in let F := (af, bf) :: blf in
  chain (pbufs s) p_to T -> chain (pbufs s) p_from F -> lens_ok T -> lens_ok F ->
  nonempty T -> nonempty F -> payloads_apart T -> chains_apart T F ->
  total T <= 65535 -> total F <= 65535 -> 0 <= oto < len bt -> 0 <= ofr < len bf ->
  total F - ofr <= total T - oto -> (length T + length F <= fuel)%nat ->
  exists m', copy_loop fuel (with_bytes m s) p_to p_from oto ofr = Ok (ERR_OK, with_bytes m' s)
    /\ cdata m' T = splice (Z.to_nat oto) (drop (Z.to_nat ofr) (cdata m F)) (cdata m T)
    /\ (forall x, outside x T -> rd8 m' x = rd8 m x).
Proof.
  induction fuel as [|fuel IH]; intros m p_to p_from at' bt blt af bf blf oto ofr T F HcT HcF HokT HokF
    HnT HnF HapT HTF HtT HtF Hot Hof Hle Hf; [cbn in Hf; lia|].
  pose proof HcT as (-> & HneT & HbT & HcT'). pose proof HcF as (-> & HneF & HbF & HcF').
  pose proof HokT as (_ & _ & HokT'). pose proof HokF as (_ & _ & HokF').
  pose proof HnT as HnT0. inversion_clear HnT0 as [|? ? _ HnT'].
  pose proof HnF as HnF0. inversion_clear HnF0 as [|? ? _ HnF'].
  pose proof HapT as [HabT HapT']. pose proof HTF as HTF0. inversion_clear HTF0 as [|? ? HabF HTF']. cbn [snd] in HabF.
  cbn [copy_loop with_bytes pbufs bytes].
  rewrite (deref_ok _ _ _ HbT), (deref_ok _ _ _ HbF). cbn [res_bind].
  unfold T, F in HtT, HtF, Hle. rewrite total_cons in HtT, HtF, Hle. rewrite total_cons in Hle.
  pose proof (lens_ok_nonneg _ HokT'). pose proof (lens_ok_nonneg _ HokF').
  replace (if len bf - ofr <=? len bt - oto then u16 (len bf - ofr) else u16 (len bt - oto))
    with (Z.min (len bf - ofr) (len bt - oto))
    by (destruct (Z.leb_spec (len bf - ofr) (len bt - oto)); rewrite u16_id by (unfold is_u16; lia); lia).
  set (l := Z.min (len bf - ofr) (len bt - oto)).
  rewrite (u16_id (oto + l)), (u16_id (ofr + l)) by (unfold is_u16, l; lia).
  rewrite (proj2 (Z.leb_le (oto + l) (len bt))), (proj2 (Z.leb_le (ofr + l) (len bf))) by (unfold l; lia).
  cbn [lwip_assert res_bind].
  set (w := rd m (payload bf + ofr) (Z.to_nat l)). set (m1 := wr m (payload bt + oto) w).
  assert (Hw : length w = Z.to_nat l) by apply length_rd.
  destruct (copy_write m at' bt blt af bf blf oto ofr HokT HokF HapT HabF ltac:(lia) ltac:(lia))
    as (HT1 & HF1 & Hsplit & Hout1). fold l w m1 T F in HT1, HF1, Hsplit, Hout1.
  cut (exists m', (let '(offset_from, p_from) := if len bf <=? ofr + l then (0, next bf) else (ofr + l, af) in
         let full := oto + l =? len bt in
         let '(offset_to, p_to) := if full then (0, next bt) else (oto + l, at') in
         if full && (p_to =? NULL) && negb (p_from =? NULL) then Ok (ERR_ARG, with_bytes m1 s)
         else
           let* qf := queue_end (pbufs s) p_from in
           if (qf : bool) then Ok (ERR_VAL, with_bytes m1 s)
           else
             let* qt := queue_end (pbufs s) p_to in
             if (qt : bool) then Ok (ERR_VAL, with_bytes m1 s)
             else if negb (p_from =? NULL) then copy_loop fuel (with_bytes m1 s) p_to p_from offset_to offset_from
             else Ok (ERR_OK, with_bytes m1 s)) = Ok (ERR_OK, with_bytes m' s)
      /\ cdata m' T = splice (Z.to_nat (oto + l)) (drop (Z.to_nat (ofr + l)) (cdata m1 F)) (cdata m1 T)
      /\ (forall x, outside x T -> rd8 m' x = rd8 m1 x)).
  { intros (m' & E & Hd & Ho). exists m'. split; [exact E|]. split; [|intros x Hx; rewrite Ho; auto].
    rewrite Hd, HT1, HF1, Hsplit. replace (Z.to_nat (oto + l)) with (Z.to_nat oto + length w)%nat by lia.
    apply splice_splice. rewrite Hw. pose proof (length_cdata m T HokT) as HlT.
    unfold T in HlT at 2. rewrite total_cons in HlT. unfold l. lia. }
  clear HT1 Hsplit Hout1. clearbody m1. clear w Hw m HF1.
  assert (HpF : forall a b bl', blf = (a, b) :: bl' -> 0 < len b /\ 0 <= total bl').
  { intros a b bl' ->. inversion_clear HnF'. split; [done|]. destruct HokF' as (_ & _ & Hx). by apply lens_ok_nonneg. }
  assert (HpT : forall a b bl', blt = (a, b) :: bl' -> 0 < len b /\ 0 <= total bl').
  { intros a b bl' ->. inversion_clear HnT'. split; [done|]. destruct HokT' as (_ & _ & Hx). by apply lens_ok_nonneg. }
  pose proof (queue_end_false _ _ _ HcT' HokT' HnT') as HqT'.
  pose proof (queue_end_false _ _ _ HcF' HokF' HnF') as HqF'.
  assert (HqT : queue_end (pbufs s) at' = Ok false).
  { by apply (queue_end_false _ _ T). }
  assert (HqF : queue_end (pbufs s) af = Ok false).
  { by apply (queue_end_false _ _ F). }
  assert (Hend : blf = [] -> len bf <= ofr + l ->
    cdata m1 T = splice (Z.to_nat (oto + l)) (drop (Z.to_nat (ofr + l)) (cdata m1 F)) (cdata m1 T)).
  { intros E Hfe. unfold F. rewrite E, drop_ge; [by rewrite splice_nil|]. rewrite cdata_cons, app_nil_r, length_rd. lia. }
  (* going on with the next target pbuf *)
  assert (Hnext : forall m' X, oto + l = len bt -> (forall x, outside x blt -> rd8 m' x = rd8 m1 x) ->
    cdata m' blt = splice 0 X (cdata m1 blt) -> cdata m' T = splice (Z.to_nat (oto + l)) X (cdata m1 T)).
  { intros m' X Hte Ho E. unfold T. rewrite !cdata_cons, E.
    rewrite (rd_ext m1 m') by (intros x Hx; apply Ho; eapply apart_outside; [exact HabT|lia]).
    rewrite <- splice_app_r, length_rd. f_equal. lia. }
  destruct (Z.leb_spec (len bf) (ofr + l)) as [Hfe|Hfe]; destruct (Z.eqb_spec (oto + l) (len bt)) as [Hte|Hte];
    try (unfold l in *; lia); cbn [andb].
  - destruct blf as [|[af' bf'] blf].
    + cbn [chain] in HcF'. rewrite HcF' in *. cbn [Z.eqb NULL negb]. rewrite andb_false_r, HqF'. cbn [res_bind].
      rewrite HqT'. cbn [res_bind]. exists m1. split_and!; [done|by apply Hend|done].
    + destruct (HpF _ _ _ eq_refl). rewrite total_cons in *.
      destruct blt as [|[at'' bt'] blt]; [change (total []) with 0 in *; unfold l in *; lia|].
      destruct (HpT _ _ _ eq_refl). pose proof HcT' as (ET & HneT' & _). pose proof HcF' as (EF & HneF' & _).
      rewrite ET, EF in *. rewrite (proj2 (Z.eqb_neq at'' NULL)), (proj2 (Z.eqb_neq af' NULL)) by done.
      cbn [andb negb]. rewrite HqF'. cbn [res_bind]. rewrite HqT'. cbn [res_bind].
      rewrite total_cons in *.
      destruct (IH m1 at'' af' at'' bt' blt af' bf' blf 0 0) as (m' & E & Hd & Ho);
        rewrite ?total_cons; try done; try (unfold l in *; lia).
      { by eapply chains_apart_tail. }
      { unfold T, F in Hf. cbn [length] in *. lia. }
      exists m'. split; [exact E|]. split; [|intros x Hx; inversion_clear Hx; by apply Ho].
      apply Hnext; [done|done|]. rewrite Hd. f_equal. unfold F. rewrite (cdata_cons m1 af).
      rewrite drop_0, drop_app_ge by (rewrite length_rd; lia). rewrite length_rd.
      by replace (Z.to_nat (ofr + l) - Z.to_nat (len bf))%nat with 0%nat by (unfold l in *; lia).
  - destruct blf as [|[af' bf'] blf].
    + cbn [chain] in HcF'. rewrite HcF' in *. rewrite HqF'. cbn [res_bind].
      rewrite HqT. cbn [res_bind Z.eqb NULL negb]. exists m1. split_and!; [done|by apply Hend|done].
    + destruct (HpF _ _ _ eq_refl). rewrite total_cons in *. pose proof HcF' as (EF & HneF' & _).
      rewrite EF in *. rewrite HqF'. cbn [res_bind]. rewrite HqT, (proj2 (Z.eqb_neq af' NULL)) by done.
      cbn [res_bind negb].
      destruct (IH m1 at' af' at' bt blt af' bf' blf (oto + l) 0) as (m' & E & Hd & Ho);
        rewrite ?total_cons; try done; try (unfold l in *; lia).
      { by eapply chains_apart_tail. }
      { unfold T, F in Hf. cbn [length] in *. lia. }
      exists m'. split; [exact E|]. split; [|done]. fold T in Hd. rewrite Hd. f_equal. unfold F.
      rewrite (cdata_cons m1 af), drop_0, drop_app_ge by (rewrite length_rd; lia). rewrite length_rd.
      by replace (Z.to_nat (ofr + l) - Z.to_nat (len bf))%nat with 0%nat by (unfold l in *; lia).
  - destruct blt as [|[at'' bt'] blt]; [change (total []) with 0 in *; unfold l in *; lia|].
    destruct (HpT _ _ _ eq_refl). rewrite total_cons in *. pose proof HcT' as (ET & HneT' & _).
    rewrite ET in *. rewrite (proj2 (Z.eqb_neq at'' NULL)) by done. cbn [andb].
    rewrite HqF. cbn [res_bind]. rewrite HqT', (proj2 (Z.eqb_neq af NULL)) by done. cbn [res_bind negb].
    destruct (IH m1 at'' af at'' bt' blt af bf blf 0 (ofr + l)) as (m' & E & Hd & Ho);
      rewrite ?total_cons; try done; try (unfold l in *; lia).
    { unfold T, F in Hf. cbn [length] in *. lia. }
    exists m'. split; [exact E|]. split; [|intros x Hx; inversion_clear Hx; by apply Ho].
    apply Hnext; [done|done|]. rewrite Hd. done.
Qed.

Lemma pbuf_copy_spec s p_to p_from blt blf :
  packet (pbufs s) p_to blt -> packet (pbufs s) p_from blf -> p_to <> NULL -> p_from <> NULL ->
  nonempty blt -> nonempty blf -> payloads_apart blt -> chains_apart blt blf ->
  if total blt <? total blf then pbuf_copy s p_to p_from = Ok (ERR_ARG, s)
  else exists m', pbuf_copy s p_to p_from = Ok (ERR_OK, with_bytes m' s)
       /\ cdata m' blt = splice 0 (cdata (bytes s) blf) (cdata (bytes s) blt)
       /\ (forall x, outside x blt -> rd8 m' x = rd8 (bytes s) x).
Proof.
  intros (HcT & HokT & HtT) (HcF & HokF & HtF) HneT HneF HnT HnF Hap Hcr.
  destruct blt as [|[at' bt] blt]; [by cbn in HcT|]. destruct blf as [|[af bf] blf]; [by cbn in HcF|].
  pose proof HcT as (-> & _ & HbT & _). pose proof HcF as (-> & _ & HbF & _).
  pose proof HokT as (_ & HlT & _). pose proof HokF as (_ & HlF & _). unfold pbuf_copy.
  rewrite (proj2 (Z.eqb_neq at' NULL)), (proj2 (Z.eqb_neq af NULL)) by done. cbn [orb].
  rewrite (deref_ok _ _ _ HbT), (deref_ok _ _ _ HbF). cbn [res_bind].
  rewrite <- total_cons with (a := at') in HlT. rewrite <- total_cons with (a := af) in HlF. rewrite HlT, HlF.
  destruct (Z.ltb_spec (total ((at', bt) :: blt)) (total ((af, bf) :: blf))); [done|].
  pose proof (chain_fuel _ _ _ HcT). pose proof (chain_fuel _ _ _ HcF).
  pose proof (Forall_inv HnT) as Hp1. pose proof (Forall_inv HnF) as Hp2. cbn [snd] in Hp1, Hp2.
  destruct (copy_loop_spec s (2 * walk_fuel (pbufs s)) (bytes s) at' af at' bt blt af bf blf 0 0)
    as (m' & E & Hd & Ho); try done; try lia.
  replace (with_bytes (bytes s) s) with s in E by (by destruct s). by exists m'.
Qed.

(** ** Checksums of packets *)

Lemma chain_view_spec h m bl : forall fuel p,
  chain h p bl -> (length bl < fuel)%nat ->
  chain_view fuel h m p = Ok ((fun ab => (payload (snd ab), rd m (payload (snd ab)) (Z.to_nat (len (snd ab))))) <$> bl).
Proof.
  induction bl as [|[a b] bl IH]; intros [|fuel] p Hc Hf; cbn [chain chain_view length] in *; try lia.
  - by subst p.
  - destruct Hc as (-> & Hne & Hb & Hc). rewrite (proj2 (Z.eqb_neq a NULL)) by done. cbn [negb].
    rewrite (deref_ok _ _ _ Hb). cbn [res_bind]. by rewrite IH by (done || lia).
Qed.

Lemma chain_view_bytes m bl :
  chain_bytes ((fun ab => (payload (snd ab), rd m (payload (snd ab)) (Z.to_nat (len (snd ab))))) <$> bl)
  = cdata m bl.
Proof. unfold chain_bytes, cdata. by rewrite <- list_fmap_compose. Qed.

Lemma chain_view_ok m bl :
  bytes_ok (cdata m bl) -> lens_ok bl -> total bl <= 65535 ->
  view_ok ((fun ab => (payload (snd ab), rd m (payload (snd ab)) (Z.to_nat (len (snd ab))))) <$> bl).
Proof.
  induction bl as [|[a b] bl IH]; intros Hby Hok Ht; cbn [fmap list_fmap]; [constructor|].
  cbn [lens_ok] in Hok. destruct Hok as (Hl & _ & Hok). rewrite cdata_cons in Hby.
  apply bytes_ok_app in Hby. destruct Hby as [Hb1 Hb2]. pose proof (lens_ok_nonneg _ Hok).
  rewrite total_cons in Ht. constructor; [|apply IH; done || lia].
  cbn [snd]. split; [done|]. rewrite length_rd. lia.
Qed.

(** ** Error branches *)

Lemma take_at_error s p bl data l off :
  packet (pbufs s) p bl -> is_u16 off -> 0 <= l ->
  (total bl <= off \/ total bl < off + l) -> pbuf_take_at s p data l off = Ok (ERR_MEM, s).
Proof.
  intros (Hc & Hok & Htot) Hoff Hl Hbad. unfold is_u16 in Hoff. unfold pbuf_take_at, pbuf_skip.
  pose proof (skip_spec _ _ _ _ off Hc Hok ltac:(lia) (chain_fuel _ _ _ Hc)) as Hs.
  destruct (Z.ltb_spec off (total bl)); [|by rewrite Hs].
  destruct Hs as (bl1 & a & b & bl2 & -> & Hb & Hne & Hr & ->). cbn [res_bind].
  rewrite (proj2 (Z.eqb_neq a NULL)), (deref_ok _ _ _ Hb) by done. cbn [res_bind].
  pose proof (lens_ok_app _ _ Hok) as (_ & Htl & _). rewrite total_app, total_cons in *.
  by rewrite (proj2 (Z.leb_gt _ (tot_len b))) by lia.
Qed.

Lemma take_error s p bl data l :
  packet (pbufs s) p bl -> p <> NULL -> total bl < l -> pbuf_take s p (Some data) l = Ok (ERR_MEM, s).
Proof.
  intros (Hc & Hok & Htot) Hne Hl. destruct bl as [|[a b] bl]; [by cbn in Hc|].
  pose proof Hc as (-> & _ & Hb & _). pose proof Hok as (_ & Htl & _). unfold pbuf_take.
  rewrite (proj2 (Z.eqb_neq a NULL)), (deref_ok _ _ _ Hb) by done. cbn [res_bind].
  rewrite total_cons in Hl. by rewrite (proj2 (Z.ltb_lt (tot_len b) l)) by lia.
Qed.

End Data.

(** ** An example packet

    Five bytes in two pbufs, and a one-pbuf packet of six bytes; the data
    operations allocate nothing, so the examples use allocators that are always
    out of memory. *)

#[local] Instance no_memory : AllocOps unit := {
  mem_malloc a _ := Ok (NULL, a);
  mem_trim a _ _ := Ok (NULL, a);
  mem_free a _ := Ok a;
  memp_malloc a _ := Ok (NULL, a);
  memp_free a _ _ := Ok a
}.

Definition ex1 : list (Z * pbuf) :=
  [(100, mk_pbuf 200 1000 5 3 PBUF_POOL 0 1); (200, mk_pbuf NULL 2001 2 2 PBUF_POOL 0 1)].
Definition ex2 : list (Z * pbuf) := [(300, mk_pbuf NULL 3000 6 6 PBUF_RAM 0 1)].

Definition ex_state : state unit :=
  mk_state (list_to_map (ex1 ++ ex2)) (wr (wr (wr ∅ 1000 [1; 2; 3]) 2001 [4; 5]) 3000 [9; 9; 9; 9; 9; 9])
    ∅ tt false 0.

Lemma ex1_packet : packet (pbufs ex_state) 100 ex1.
Proof. split_and!; [split_and!; done|split_and!; done|done]. Qed.

Lemma ex2_packet : packet (pbufs ex_state) 300 ex2.
Proof. split_and!; [split_and!; done|split_and!; done|done]. Qed.

Lemma ex1_apart : payloads_apart ex1.
Proof. repeat constructor; cbn; lia. Qed.

Lemma ex1_bytes : bytes_ok (cdata (bytes ex_state) ex1).
Proof. vm_compute. repeat constructor; discriminate. Qed.

Section Properties.
Context {A : Type} `{AllocOps A}.

(** ** Properties *)

(** [pbuf_copy_partial] copies exactly the bytes [offset], ..., [offset +
    len - 1] of the packet, as far as they exist, whatever the split into pbufs,
    and returns their number; with a NULL argument it copies nothing. *)
Theorem pbuf_copy_partial_correct (s : state A) (p l off : Z) (bl : list (Z * pbuf)) :
  packet (pbufs s) p bl -> p <> NULL -> is_u16 l -> is_u16 off ->
  pbuf_copy_partial s p true l off
  = Ok (Z.max 0 (Z.min l (total bl - off)), slice (cdata (bytes s) bl) off (Z.to_nat l))
  /\ pbuf_copy_partial s p false l off = Ok (0, [])
  /\ pbuf_copy_partial s NULL true l off = Ok (0, []).
Proof.
  intros Hp Hne Hl Hoff. rewrite (copy_partial_spec s p bl) by done.
  split_and!; [|unfold pbuf_copy_partial; by rewrite orb_true_r|done].
  f_equal. f_equal. destruct Hp as (_ & Hok & _). pose proof (length_cdata (bytes s) bl Hok).
  rewrite length_take, length_drop. unfold is_u16 in *. lia.
Qed.

(** C37: Writing and reading back: [pbuf_take_at] writes the data at the given
    offset of the packet and nothing else (neither other bytes of the packet nor
    memory outside its payloads), after which [pbuf_copy_partial] returns the
    data; if the data does not fit, it returns [ERR_MEM] and changes nothing.
    [pbuf_take] does the same at offset 0. *)
Theorem pbuf_take_roundtrip (s : state A) (p off l : Z) (data : list Z) (bl : list (Z * pbuf)) :
  packet (pbufs s) p bl -> payloads_apart bl -> p <> NULL -> is_u16 off -> is_u16 l ->
  Z.of_nat (length data) = l ->
  (if (off <? total bl) && (off + l <=? total bl) then
     exists m', pbuf_take_at s p data l off = Ok (ERR_OK, with_bytes m' s)
       /\ cdata m' bl = splice (Z.to_nat off) data (cdata (bytes s) bl)
       /\ (forall x, outside x bl -> rd8 m' x = rd8 (bytes s) x)
       /\ pbuf_copy_partial (with_bytes m' s) p true l off = Ok (l, data)
   else pbuf_take_at s p data l off = Ok (ERR_MEM, s))
  /\ (if l <=? total bl then
        exists m', pbuf_take s p (Some data) l = Ok (ERR_OK, with_bytes m' s)
          /\ cdata m' bl = splice 0 data (cdata (bytes s) bl)
      else pbuf_take s p (Some data) l = Ok (ERR_MEM, s)).
Proof.
  intros Hp Hap Hne Hoff Hl Hd. pose proof Hp as (Hc & Hok & Htot). unfold is_u16 in *. split.
  - destruct (Z.ltb_spec off (total bl)); destruct (Z.leb_spec (off + l) (total bl)); cbn [andb];
      try (apply take_at_error with bl; done || lia).
    destruct (pbuf_take_at_spec s p bl data l off) as (m' & E & Hcd & Ho); try done; try lia.
    exists m'. split_and!; [done..|]. rewrite (copy_partial_spec _ p bl) by (done || (unfold is_u16; lia)).
    cbn [with_bytes bytes]. rewrite Hcd. unfold splice.
    pose proof (length_cdata (bytes s) bl Hok) as Hlen.
    rewrite drop_app_length' by (rewrite length_take; lia). rewrite take_app_length' by lia. by rewrite Hd.
  - destruct (Z.leb_spec l (total bl)); [|apply take_error with bl; done].
    destruct (pbuf_take_spec s p bl data l) as (m' & E & Hcd & _); try done; try lia.
    exists m'. split; [done|]. rewrite Hcd, take_ge by lia. unfold splice. cbn [app].
    rewrite take_0. by replace (Z.to_nat l) with (0 + length data)%nat by lia.
Qed.

(** [pbuf_get_at] and [pbuf_try_get_at] return the byte at the offset (0 and
    -1 beyond the packet); [pbuf_put_at] changes that byte alone and ignores
    offsets beyond the packet. *)
Theorem pbuf_get_put_at (s : state A) (p off v : Z) (bl : list (Z * pbuf)) :
  packet (pbufs s) p bl -> payloads_apart bl -> bytes_ok (cdata (bytes s) bl) -> is_u16 off ->
  pbuf_try_get_at s p off
    = Ok (match cdata (bytes s) bl !! Z.to_nat off with Some v => v | None => -1 end)
  /\ pbuf_get_at s p off = Ok (default 0 (cdata (bytes s) bl !! Z.to_nat off))
  /\ exists m', pbuf_put_at s p off v = Ok (with_bytes m' s)
     /\ cdata m' bl = <[Z.to_nat off := v]> (cdata (bytes s) bl)
     /\ (forall x, outside x bl -> rd8 m' x = rd8 (bytes s) x).
Proof.
  intros Hp Hap Hby Hoff. unfold is_u16 in Hoff.
  destruct (try_get_at_spec s p bl off Hp ltac:(lia) Hby) as [E1 E2]. split_and!; [done|done|].
  by apply pbuf_put_at_spec.
Qed.

(** [pbuf_memcmp] compares a stretch of the packet with a buffer: 0 when
    equal, one more than the index of the first difference otherwise, 0xffff when
    the packet is too short.  [pbuf_memfind] and [pbuf_strstr] return the first
    offset (from the start offset on) at which the bytes occur, and 0xffff only
    when they do not occur. *)
Theorem pbuf_memfind_first (s : state A) (p start : Z) (mem : list Z) (bl : list (Z * pbuf)) :
  packet (pbufs s) p bl -> p <> NULL -> bytes_ok (cdata (bytes s) bl) -> total bl <= 65534 ->
  is_u16 start ->
  pbuf_memcmp s p start mem
    = Ok (if total bl <? start + Z.of_nat (length mem) then 65535
          else memcmp_result (cdata (bytes s) bl) start mem)
  /\ (exists r, pbuf_memfind s p mem start = Ok r /\ found (cdata (bytes s) bl) mem start r)
  /\ (mem <> [] -> Z.of_nat (length mem) < 65535 ->
      exists r, pbuf_strstr s p (Some mem) = Ok r /\ found (cdata (bytes s) bl) mem 0 r).
Proof.
  intros Hp Hne Hby Htot Hst. unfold is_u16 in Hst.
  split_and!; [by apply pbuf_memcmp_spec|apply pbuf_memfind_spec; done || lia|].
  intros Hmem Hml. destruct mem as [|x mem]; [done|]. unfold pbuf_strstr.
  pose proof Hp as (Hc & Hok & _). destruct bl as [|[a b] bl]; [by cbn in Hc|].
  pose proof Hc as (-> & _ & Hb & _). pose proof Hok as (_ & Htl & _).
  rewrite (deref_ok _ _ _ Hb). cbn [res_bind]. rewrite total_cons in Htot.
  rewrite (proj2 (Z.eqb_neq (tot_len b) 65535)) by lia.
  rewrite (proj2 (Z.leb_gt 65535 _)) by lia. by apply pbuf_memfind_spec.
Qed.

(** [pbuf_copy] copies the source packet to the front of the target packet,
    however differently the two are split into pbufs, and leaves the rest of the
    target and all other memory alone; it refuses with [ERR_ARG] a target that is
    too small.  Both chains must have no empty pbuf. *)
Theorem pbuf_copy_correct (s : state A) (p_to p_from : Z) (blt blf : list (Z * pbuf)) :
  packet (pbufs s) p_to blt -> packet (pbufs s) p_from blf -> p_to <> NULL -> p_from <> NULL ->
  nonempty blt -> nonempty blf -> payloads_apart blt -> chains_apart blt blf ->
  if total blt <? total blf then pbuf_copy s p_to p_from = Ok (ERR_ARG, s)
  else exists m', pbuf_copy s p_to p_from = Ok (ERR_OK, with_bytes m' s)
       /\ cdata m' blt = splice 0 (cdata (bytes s) blf) (cdata (bytes s) blt)
       /\ (forall x, outside x blt -> rd8 m' x = rd8 (bytes s) x).
Proof. apply pbuf_copy_spec. Qed.

(** The checksum functions of [inet_chksum.c], run over the pbufs of a
    packet in memory, yield the Internet checksum of the packet's data. *)
Theorem packet_chksum (s : state A) (p : Z) (bl : list (Z * pbuf)) :
  packet (pbufs s) p bl -> bytes_ok (cdata (bytes s) bl) ->
  exists v, chain_view (walk_fuel (pbufs s)) (pbufs s) (bytes s) p = Ok v
    /\ inet_chksum_pbuf v = internet_checksum (cdata (bytes s) bl).
Proof.
  intros (Hc & Hok & Htot) Hby. eexists. split; [apply chain_view_spec; [exact Hc|by eapply chain_fuel]|].
  rewrite inet_chksum_pbuf_spec by (by apply chain_view_ok). by rewrite chain_view_bytes.
Qed.

End Properties.

Lemma pbuf_copy_partial_correct_witness :
  pbuf_copy_partial ex_state 100 true 3 1 = Ok (3, [2; 3; 4]).
Proof.
  destruct (pbuf_copy_partial_correct ex_state 100 3 1 ex1 ex1_packet ltac:(discriminate)
    ltac:(unfold is_u16; lia) ltac:(unfold is_u16; lia)) as [E _]. exact E.
Defined.

Lemma pbuf_take_roundtrip_witness :
  exists m', pbuf_take_at ex_state 100 [7; 8] 2 2 = Ok (ERR_OK, with_bytes m' ex_state)
    /\ cdata m' ex1 = [1; 2; 7; 8; 5].
Proof.
  destruct (pbuf_take_roundtrip ex_state 100 2 2 [7; 8] ex1 ex1_packet ex1_apart ltac:(discriminate)
    ltac:(unfold is_u16; lia) ltac:(unfold is_u16; lia) eq_refl) as [(m' & E & Hd & _) _].
  exists m'. split; [exact E|]. rewrite Hd. reflexivity.
Defined.

Lemma pbuf_get_put_at_witness :
  pbuf_try_get_at ex_state 100 4 = Ok 5 /\ pbuf_get_at ex_state 100 5 = Ok 0.
Proof.
  split.
  - exact (proj1 (pbuf_get_put_at ex_state 100 4 0 ex1 ex1_packet ex1_apart ex1_bytes
      ltac:(unfold is_u16; lia))).
  - exact (proj1 (proj2 (pbuf_get_put_at ex_state 100 5 0 ex1 ex1_packet ex1_apart ex1_bytes
      ltac:(unfold is_u16; lia)))).
Defined.

Lemma pbuf_memfind_first_witness :
  pbuf_memcmp ex_state 100 1 [2; 3; 9] = Ok 3
  /\ exists r, pbuf_memfind ex_state 100 [3; 4] 0 = Ok r /\ found [1; 2; 3; 4; 5] [3; 4] 0 r.
Proof.
  split.
  - exact (proj1 (pbuf_memfind_first ex_state 100 1 [2; 3; 9] ex1 ex1_packet ltac:(discriminate)
      ex1_bytes ltac:(discriminate) ltac:(unfold is_u16; lia))).
  - exact (proj1 (proj2 (pbuf_memfind_first ex_state 100 0 [3; 4] ex1 ex1_packet ltac:(discriminate)
      ex1_bytes ltac:(discriminate) ltac:(unfold is_u16; lia)))).
Defined.

Lemma pbuf_copy_correct_witness :
  exists m', pbuf_copy ex_state 300 100 = Ok (ERR_OK, with_bytes m' ex_state)
    /\ cdata m' ex2 = [1; 2; 3; 4; 5; 9].
Proof.
  destruct (pbuf_copy_correct ex_state 300 100 ex2 ex1 ex2_packet ex1_packet) as (m' & E & Hd & _);
    try discriminate; try (repeat constructor; cbn; lia).
  exists m'. split; [exact E|]. rewrite Hd. reflexivity.
Defined.

Lemma packet_chksum_witness :
  exists v, chain_view (walk_fuel (pbufs ex_state)) (pbufs ex_state) (bytes ex_state) 100 = Ok v
    /\ inet_chksum_pbuf v = internet_checksum [1; 2; 3; 4; 5].
Proof. exact (packet_chksum ex_state 100 ex1 ex1_packet ex1_bytes). Defined.
