(* ===== verification/PbufAlloc.v ===== *)
(** * Allocation, release and restructuring of packet buffers (pbuf.c)

    The proofs use the allocators only through the interface [AllocSpec]; the
    instance [heap_pools_spec] shows that [Mem] and [Memp] implement it. *)

From S2P Require Import Prelude Mem Memp Pbuf.

(** ** The interface to the allocators *)

(** Who handed a block out; [Client] is memory outside the allocators, in which
    clients place their custom pbufs. *)
Inductive owner := Heap | Pool (t : memp_t) | Client.

(** Element sizes of the two pools. *)
Definition pool_size (t : memp_t) : Z :=
  match t with
  | MEMP_PBUF => SIZEOF_STRUCT_PBUF
  | MEMP_PBUF_POOL => SIZEOF_STRUCT_PBUF + PBUF_POOL_BUFSIZE_ALIGNED
  end.

(** [owned a L]: in allocator state [a] the blocks [L] (address, owner and
    length) are handed out. *)
Class AllocSpec (A : Type) `{AllocOps A} := {
  owned : A -> gmap Z (owner * Z) -> Prop;
  malloc_law a L size :
    owned a L -> is_u16 size -> size <> 0 ->
    exists p a', mem_malloc a size = Ok (p, a')
      /\ ((p = NULL /\ owned a' L)
          \/ (p <> NULL /\ L !! p = None
              /\ exists n, (size <= 65532 -> size <= n) /\ owned a' (<[p := (Heap, n)]> L)));
  mem_free_law a L p n :
    owned a L -> L !! p = Some (Heap, n) ->
    exists a', mem_free a p = Ok a' /\ owned a' (delete p L);
  trim_law a L p n newsize :
    owned a L -> L !! p = Some (Heap, n) -> 0 <= newsize <= n ->
    exists a' n', mem_trim a p newsize = Ok (p, a') /\ newsize <= n' <= n
      /\ owned a' (<[p := (Heap, n')]> L);
  memp_malloc_law a L t :
    owned a L ->
    exists p a', memp_malloc a t = Ok (p, a')
      /\ ((p = NULL /\ owned a' L)
          \/ (p <> NULL /\ L !! p = None /\ owned a' (<[p := (Pool t, pool_size t)]> L)));
  memp_free_law a L t p :
    owned a L -> L !! p = Some (Pool t, pool_size t) ->
    exists a', memp_free a t p = Ok a' /\ owned a' (delete p L);
  owned_range a L p o n :
    owned a L -> L !! p = Some (o, n) ->
    0 < p /\ p mod MEM_ALIGNMENT = 0 /\ 12 <= n <= 65535 /\ p + n < 4294967296;
  owned_apart a L p o n p' o' n' :
    owned a L -> L !! p = Some (o, n) -> L !! p' = Some (o', n') -> p <> p' ->
    p + n <= p' \/ p' + n' <= p;
  owned_pool_size a L p t n :
    owned a L -> L !! p = Some (Pool t, n) -> n = pool_size t
}.

(** ** The heap and the pools implement it *)

Definition pool_index (t : memp_t) : nat := match t with MEMP_PBUF => 0 | MEMP_PBUF_POOL => 1 end.

(** The state of [mem.c] and the two pools of [memp.c]. *)
Definition heap_pools : Type := mem_state * list pool.

#[global] Instance heap_pools_ops : AllocOps heap_pools := {
  mem_malloc a size := let* (p, m) := Mem.mem_malloc (fst a) size in Ok (p, (m, snd a));
  mem_trim a p n := let* (q, m) := Mem.mem_trim (fst a) p n in Ok (q, (m, snd a));
  mem_free a p := let* m := Mem.mem_free (fst a) p in Ok (m, snd a);
  memp_malloc a t := let* (p, ps) := Memp.memp_malloc (snd a) (pool_index t) in Ok (p, (fst a, ps));
  memp_free a t p := let* ps := Memp.memp_free (snd a) (pool_index t) p in Ok (fst a, ps)
}.

(** The static memory that a block of each owner comes from; [ps] are the two
    pools. *)
Definition region (m : mem_state) (ps : memp_t -> pool) (o : owner) : Z * Z :=
  match o with
  | Heap => (ram m, ram m + MEM_SIZE_ALIGNED)
  | Pool t =>
      let lo := LWIP_MEM_ALIGN (base (desc (ps t))) in
      (lo, lo + num (desc (ps t)) * size (desc (ps t)))
  | Client => (0, 0)
  end.

Definition within (r : Z * Z) (p n : Z) : Prop := fst r <= p /\ p + n <= snd r.

(** [L] is made of the live blocks [bl] of the heap and the allocated elements
    [al] of the pools, whose memory does not overlap. *)
Record hp_inv (m : mem_state) (ps : memp_t -> pool) (L : gmap Z (owner * Z)) (bl : list block)
    (fl al : memp_t -> list Z) : Prop := {
  hp_mem : mem_inv m bl;
  hp_pool t : pool_inv (ps t) (fl t) (al t);
  hp_size t : size (desc (ps t)) = pool_size t;
  hp_regions o o' : o <> o' -> o <> Client -> o' <> Client ->
    snd (region m ps o) <= fst (region m ps o') \/ snd (region m ps o') <= fst (region m ps o);
  hp_heap q n : L !! q = Some (Heap, n) <-> (q, n) ∈ live m bl;
  hp_elem t q n : L !! q = Some (Pool t, n) <-> q ∈ al t /\ n = pool_size t;
  hp_client q n : L !! q = Some (Client, n) ->
    0 < q /\ q mod MEM_ALIGNMENT = 0 /\ 12 <= n <= 65535 /\ q + n < 4294967296
    /\ (forall o, o <> Client -> q + n <= fst (region m ps o) \/ snd (region m ps o) <= q)
    /\ (forall q' n', L !! q' = Some (Client, n') -> q <> q' -> q + n <= q' \/ q' + n' <= q)
}.

Definition hp_owned (a : heap_pools) (L : gmap Z (owner * Z)) : Prop :=
  exists ps bl fl al,
    snd a = [ps MEMP_PBUF; ps MEMP_PBUF_POOL] /\ hp_inv (fst a) ps L bl fl al.

#[global] Instance owner_eq_dec : EqDecision owner.
Proof. solve_decision. Defined.

Lemma live_range s bl p n :
  mem_inv s bl -> (p, n) ∈ live s bl ->
  ram s <= p /\ p + n <= ram s + MEM_SIZE_ALIGNED /\ 12 <= n <= MEM_SIZE_ALIGNED
  /\ p mod MEM_ALIGNMENT = 0 /\ n mod MEM_ALIGNMENT = 0.
Proof.
  intros Hinv Hin. pose proof Hin as Hin'. apply live_from_inv in Hin'.
  destruct Hin' as (bl1 & k & bl2 & -> & Ep & En).
  destruct (inv_split _ _ _ _ _ Hinv) as (_ & Hk & Hk4 & Hpos & Hal & Htot & _).
  destruct (inv_ram _ _ Hinv) as (Hr & Hr4 & _). subst p n. split_and!; mlia.
Qed.

Lemma live_apart s bl p n q m :
  mem_inv s bl -> (p, n) ∈ live s bl -> (q, m) ∈ live s bl -> p <> q -> p + n <= q \/ q + m <= p.
Proof.
  intros Hinv Hp Hq Hne. pose proof (inv_tail _ _ Hinv) as (Hs & _).
  pose proof (live_from_disjoint _ _ _ (ram s) _ Hs) as Hd. fold (live s bl) in Hd.
  apply list_elem_of_split in Hp. destruct Hp as (l1 & l2 & E). rewrite E in Hq, Hd.
  apply elem_of_app in Hq. rewrite elem_of_cons in Hq. destruct Hq as [Hq|[[= -> ->]|Hq]]; [|done|].
  - right. apply list_elem_of_split in Hq. destruct Hq as (l3 & l4 & ->).
    rewrite <- app_assoc in Hd. exact (Hd l3 q m l4 p n l2 eq_refl).
  - left. apply list_elem_of_split in Hq. destruct Hq as (l3 & l4 & ->).
    exact (Hd l1 p n l3 q m l4 eq_refl).
Qed.

(** Where a block of each owner lies. *)
Lemma hp_within m ps L bl fl al p o n :
  hp_inv m ps L bl fl al -> L !! p = Some (o, n) -> o <> Client ->
  within (region m ps o) p n /\ p mod MEM_ALIGNMENT = 0 /\ 12 <= n <= 65535
  /\ 0 < fst (region m ps o) /\ snd (region m ps o) < 4294967296.
Proof.
  intros [Hm Hp Hs _ HH HE _] HL Ho. unfold within, region. destruct o as [|t|]; [| |done].
  - apply HH in HL. destruct (live_range _ _ _ _ Hm HL) as (? & ? & ? & ? & _).
    destruct (inv_ram _ _ Hm) as (? & _ & ?). cbn [fst snd]. split_and!; mlia.
  - apply HE in HL. destruct HL as [Hin ->]. cbn [fst snd]. specialize (Hs t). pose proof (pool_desc _ _ _ (Hp t)) as Hd.
    destruct (elements_spec _ p Hd) as (? & ? & ? & ?);
      [eapply pool_elem; [apply Hp|apply elem_of_app; by right]|].
    rewrite (align_base _ Hd) in *. destruct Hd as (? & ? & ? & _ & ?). unfold MEM_ALIGNMENT in *.
    rewrite Hs in *. assert (12 <= pool_size t <= 65535) by (destruct t; split; done).
    split_and!; done || lia || zlia.
Qed.

Lemma hp_range a L p o n :
  hp_owned a L -> L !! p = Some (o, n) ->
  0 < p /\ p mod MEM_ALIGNMENT = 0 /\ 12 <= n <= 65535 /\ p + n < 4294967296.
Proof.
  intros (ps & bl & fl & al & _ & Hinv) HL. destruct (decide (o = Client)) as [->|Ho].
  - destruct (hp_client _ _ _ _ _ _ Hinv _ _ HL) as (? & ? & ? & ? & _). done.
  - destruct (hp_within _ _ _ _ _ _ _ _ _ Hinv HL Ho) as ([? ?] & ? & ? & ? & ?). split_and!; done || lia.
Qed.

Lemma hp_apart a L p o n p' o' n' :
  hp_owned a L -> L !! p = Some (o, n) -> L !! p' = Some (o', n') -> p <> p' ->
  p + n <= p' \/ p' + n' <= p.
Proof.
  intros (ps & bl & fl & al & _ & Hinv) HL HL' Hne.
  destruct (decide (o = Client)) as [->|Hc], (decide (o' = Client)) as [->|Hc'].
  - destruct (hp_client _ _ _ _ _ _ Hinv _ _ HL) as (_ & _ & _ & _ & _ & Hap). by apply Hap.
  - destruct (hp_client _ _ _ _ _ _ Hinv _ _ HL) as (_ & _ & _ & _ & Hap & _). specialize (Hap o' Hc').
    destruct (hp_within _ _ _ _ _ _ _ _ _ Hinv HL' Hc') as ([? ?] & _). lia.
  - destruct (hp_client _ _ _ _ _ _ Hinv _ _ HL') as (_ & _ & _ & _ & Hap & _). specialize (Hap o Hc).
    destruct (hp_within _ _ _ _ _ _ _ _ _ Hinv HL Hc) as ([? ?] & _). lia.
  - destruct (hp_within _ _ _ _ _ _ _ _ _ Hinv HL Hc) as ([? ?] & _).
    destruct (hp_within _ _ _ _ _ _ _ _ _ Hinv HL' Hc') as ([? ?] & _).
    destruct (decide (o = o')) as [<-|Ho]; [|pose proof (hp_regions _ _ _ _ _ _ Hinv o o' Ho Hc Hc'); lia].
    destruct Hinv as [Hm Hp Hs _ HH HE _]. destruct o as [|t|]; [| |done].
    + apply HH in HL, HL'. by eapply live_apart.
    + apply HE in HL, HL'. destruct HL as [Hin ->], HL' as [Hin' ->]. rewrite <- Hs.
      apply elements_apart; [apply (pool_desc _ _ _ (Hp t))|eapply pool_elem; [apply Hp|]..|done];
        apply elem_of_app; by right.
Qed.

(** A block in the memory of [o] that [o] has not handed out is new. *)
Lemma hp_fresh m ps L bl fl al o p n :
  hp_inv m ps L bl fl al -> within (region m ps o) p n -> 0 < n -> o <> Client ->
  (forall k, L !! p <> Some (o, k)) -> L !! p = None.
Proof.
  intros Hinv Hw Hn Hc Ho. destruct (L !! p) as [[o' k]|] eqn:HL; [|done]. exfalso.
  unfold within in *. destruct (decide (o = o')) as [<-|Hne]; [by eapply Ho|].
  destruct (decide (o' = Client)) as [->|Hc'].
  - destruct (hp_client _ _ _ _ _ _ Hinv _ _ HL) as (_ & _ & ? & _ & Hap & _). specialize (Hap o Hc). lia.
  - destruct (hp_within _ _ _ _ _ _ _ _ _ Hinv HL Hc') as ([? ?] & _ & Hk & _).
    pose proof (hp_regions _ _ _ _ _ _ Hinv o o' Hne Hc Hc'). lia.
Qed.

(** After an operation of the heap. *)
Lemma hp_set_heap m ps L L' bl fl al m' bl' :
  hp_inv m ps L bl fl al -> mem_inv m' bl' -> ram m' = ram m ->
  (forall q n, L' !! q = Some (Heap, n) <-> (q, n) ∈ live m' bl') ->
  (forall q o n, o <> Heap -> L' !! q = Some (o, n) <-> L !! q = Some (o, n)) ->
  hp_inv m' ps L' bl' fl al.
Proof.
  intros [Hm Hp Hs Hr HH HE HC] Hm' Er HH' HE'.
  assert (Eg : forall o, region m' ps o = region m ps o) by (intros []; cbn [region]; by rewrite ?Er).
  split; [done..| |done| |].
  - intros o o' Hne. rewrite !Eg. by apply Hr.
  - intros t q n. by rewrite HE'.
  - intros q n. rewrite HE' by done. intros HL. destruct (HC q n HL) as (? & ? & ? & ? & Ho & Hq).
    split_and!; try done; [tauto..|intros o; rewrite Eg; apply Ho|].
    intros q' n'. rewrite HE' by done. apply Hq.
Qed.

Lemma hp_malloc a L size :
  hp_owned a L -> is_u16 size -> size <> 0 ->
  exists p a', mem_malloc a size = Ok (p, a')
    /\ ((p = NULL /\ hp_owned a' L)
        \/ (p <> NULL /\ L !! p = None
            /\ exists n, (size <= 65532 -> size <= n) /\ hp_owned a' (<[p := (Heap, n)]> L))).
Proof.
  intros (ps & bl & fl & al & Ep & Hinv) Hsz Hnz. pose proof (hp_mem _ _ _ _ _ _ Hinv) as Hm.
  destruct (malloc_live (fst a) bl size Hm Hsz Hnz) as (p & m' & bl' & Em & Hm' & Er & Hcase).
  exists p, (m', snd a). cbn [mem_malloc heap_pools_ops]. rewrite Em. split; [done|].
  destruct Hcase as [(-> & -> & _)|(l1 & l2 & n & El & El' & Hn & Hal & Hlo & Hhi & _)].
  - left. split; [done|]. exists ps, bl, fl, al. split; [done|].
    eapply hp_set_heap; [done..| |done]. intros q n. rewrite (hp_heap _ _ _ _ _ _ Hinv).
    unfold live. cbn [fst]. by rewrite Er.
  - right. destruct (inv_ram _ _ Hm) as (Hr0 & _). destruct (request_range size Hsz) as (Hrq & _ & Hrq').
    pose proof (live_NoDup _ _ Hm') as Hnd. rewrite El', fmap_app in Hnd.
    cbn [fmap list_fmap fst] in Hnd. rewrite <- Permutation_middle in Hnd. apply NoDup_cons in Hnd.
    destruct Hnd as [Hnd _]. rewrite <- fmap_app, <- El in Hnd.
    assert (Hnh : forall k, L !! p <> Some (Heap, k)).
    { intros k HL. apply (hp_heap _ _ _ _ _ _ Hinv) in HL. apply Hnd, list_elem_of_fmap. by exists (p, k). }
    assert (Hfresh : L !! p = None).
    { eapply (hp_fresh _ _ _ _ _ _ Heap p n); [done|split; done| |done|done]. mlia. }
    split; [unfold NULL; lia|]. split; [done|]. exists n. split; [lia|]. exists ps, bl', fl, al.
    split; [done|]. cbn [fst]. eapply hp_set_heap; [done..| |].
    + intros q k. rewrite El', elem_of_app, elem_of_cons. destruct (decide (q = p)) as [->|Hqp].
      * rewrite lookup_insert_eq. split; [intros [= ->]; tauto|]. intros Hin.
        enough ((p, k) = (p, n)) by congruence. destruct Hin as [Hin|[Hin|Hin]]; [|done|];
          exfalso; apply (Hnh k), (hp_heap _ _ _ _ _ _ Hinv); rewrite El; apply elem_of_app; tauto.
      * rewrite lookup_insert_ne, (hp_heap _ _ _ _ _ _ Hinv), El, elem_of_app by done. split; [tauto|].
        intros [?|[[= -> ->]|?]]; tauto.
    + intros q o k Ho. destruct (decide (q = p)) as [->|Hqp]; [|by rewrite lookup_insert_ne].
      rewrite lookup_insert_eq, Hfresh. split; congruence.
Qed.

(** The live blocks other than the one at [p]. *)
Lemma live_others m bl p n l1 l2 q k :
  mem_inv m bl -> live m bl = l1 ++ (p, n) :: l2 -> (q, k) ∈ l1 ++ l2 <-> (q, k) ∈ live m bl /\ q <> p.
Proof.
  intros Hm El. pose proof (live_NoDup _ _ Hm) as Hnd. rewrite El, fmap_app in Hnd.
  cbn [fmap list_fmap fst] in Hnd. rewrite <- Permutation_middle in Hnd. apply NoDup_cons in Hnd.
  destruct Hnd as [Hnd _]. rewrite <- fmap_app in Hnd. rewrite El, !elem_of_app, elem_of_cons. split.
  - intros Hin. split; [tauto|]. intros ->. apply Hnd, list_elem_of_fmap. exists (p, k).
    split; [done|by apply elem_of_app].
  - intros [[?|[[= -> ->]|?]] Hne]; tauto.
Qed.

Lemma hp_free a L p n :
  hp_owned a L -> L !! p = Some (Heap, n) ->
  exists a', mem_free a p = Ok a' /\ hp_owned a' (delete p L).
Proof.
  intros (ps & bl & fl & al & Ep & Hinv) HL. pose proof Hinv as [Hm _ _ _ HH _ _].
  destruct (free_live (fst a) bl p n Hm (proj1 (HH _ _) HL)) as (m' & bl' & l1 & l2 & Ef & Hm' & Er & El & El').
  exists (m', snd a). cbn [mem_free heap_pools_ops]. rewrite Ef. split; [done|].
  exists ps, bl', fl, al. split; [done|]. cbn [fst]. eapply hp_set_heap; [done..| |].
  - intros q k. rewrite El', (live_others _ _ _ _ _ _ _ _ Hm El), <- HH, lookup_delete_Some.
    split; intros [? ?]; done.
  - intros q o k Ho. rewrite lookup_delete_Some. split; [tauto|]. intros Hq. split; [|done]. intros ->. congruence.
Qed.

Lemma hp_trim a L p n newsize :
  hp_owned a L -> L !! p = Some (Heap, n) -> 0 <= newsize <= n ->
  exists a' n', mem_trim a p newsize = Ok (p, a') /\ newsize <= n' <= n
    /\ hp_owned a' (<[p := (Heap, n')]> L).
Proof.
  intros (ps & bl & fl & al & Ep & Hinv) HL Hns. pose proof Hinv as [Hm _ _ _ HH _ _].
  destruct (live_range _ _ _ _ Hm (proj1 (HH _ _) HL)) as (_ & _ & Hn & _ & Hn4).
  assert (Hu : is_u16 newsize) by mlia. destruct (request_range newsize Hu) as (Hrq & Hrq4 & Hrq').
  destruct (trim_live (fst a) bl p n newsize Hm (proj1 (HH _ _) HL) Hu)
    as (m' & bl' & l1 & l2 & n' & Et & Hm' & Er & El & El' & Hn').
  { unfold request. rewrite align_size_arith by mlia. unfold u16. case_match; mlia. }
  exists (m', snd a), n'. cbn [mem_trim heap_pools_ops]. rewrite Et. split; [done|]. split; [mlia|].
  exists ps, bl', fl, al. split; [done|]. cbn [fst]. eapply hp_set_heap; [done..| |].
  - intros q k. rewrite El'. pose proof (live_others _ _ _ _ _ _ q k Hm El) as Ho.
    rewrite elem_of_app, <- HH in Ho. rewrite elem_of_app, elem_of_cons, lookup_insert_Some. split.
    + intros [[-> [= ->]]|[Hne Hq]]; [by right; left|]. destruct (proj2 Ho (conj Hq (not_eq_sym Hne))); tauto.
    + intros [Hq|[[= -> ->]|Hq]]; [|by left|]; right; (split; [apply not_eq_sym|]); apply Ho; tauto.
  - intros q o k Ho. rewrite lookup_insert_Some. split; [intros [[_ [=]]|[_ ?]]; congruence|].
    intros Hq. right. split; [|done]. intros ->. congruence.
Qed.

(** After an operation of the pool [t]. *)
Definition set_pool {B} (t : memp_t) (x : B) (f : memp_t -> B) (t' : memp_t) : B :=
  if decide (t' = t) then x else f t'.

Lemma hp_set_pool m ps L L' bl fl al t p' fl' al' :
  hp_inv m ps L bl fl al -> pool_inv p' fl' al' -> desc p' = desc (ps t) ->
  (forall q n, L' !! q = Some (Pool t, n) <-> q ∈ al' /\ n = pool_size t) ->
  (forall q o n, o <> Pool t -> L' !! q = Some (o, n) <-> L !! q = Some (o, n)) ->
  hp_inv m (set_pool t p' ps) L' bl (set_pool t fl' fl) (set_pool t al' al).
Proof.
  intros [Hm Hp Hs Hr HH HE HC] Hp' Hd HE' HL'.
  assert (Ed : forall t', desc (set_pool t p' ps t') = desc (ps t')).
  { intros t'. unfold set_pool. by destruct (decide (t' = t)) as [->|]. }
  assert (Eg : forall o, region m (set_pool t p' ps) o = region m ps o) by (intros []; cbn [region]; by rewrite ?Ed).
  split; [done| | | | | |].
  - intros t'. unfold set_pool. by destruct (decide (t' = t)) as [->|].
  - intros t'. by rewrite Ed.
  - intros o o' Hne. rewrite !Eg. by apply Hr.
  - intros q n. by rewrite HL'.
  - intros t' q n. unfold set_pool. destruct (decide (t' = t)) as [->|Hne]; [done|].
    rewrite HL', HE by congruence. done.
  - intros q n. rewrite HL' by done. intros HL. destruct (HC q n HL) as (? & ? & ? & ? & Ho & Hq).
    split_and!; try done; [tauto..|intros o; rewrite Eg; apply Ho|].
    intros q' n'. rewrite HL' by done. apply Hq.
Qed.

Lemma pools_lookup (ps : memp_t -> pool) t : [ps MEMP_PBUF; ps MEMP_PBUF_POOL] !! pool_index t = Some (ps t).
Proof. by destruct t. Qed.

Lemma pools_insert (ps : memp_t -> pool) t p' :
  <[pool_index t := p']> [ps MEMP_PBUF; ps MEMP_PBUF_POOL]
  = [set_pool t p' ps MEMP_PBUF; set_pool t p' ps MEMP_PBUF_POOL].
Proof. by destruct t. Qed.

Lemma hp_memp_malloc a L t :
  hp_owned a L ->
  exists p a', memp_malloc a t = Ok (p, a')
    /\ ((p = NULL /\ hp_owned a' L)
        \/ (p <> NULL /\ L !! p = None /\ hp_owned a' (<[p := (Pool t, pool_size t)]> L))).
Proof.
  intros (ps & bl & fl & al & Ep & Hinv). pose proof Hinv as [_ Hp Hs _ _ HE _].
  pose proof (malloc_pool_spec _ _ _ (Hp t)) as H. cbn [memp_malloc heap_pools_ops].
  unfold Memp.memp_malloc. rewrite Ep, pools_lookup.
  destruct (fl t) as [|e fl'] eqn:Efl; destruct H as (p' & Em & Hp' & Hd); rewrite Em; cbn [res_bind];
    eexists _, _; (split; [done|]); rewrite pools_insert.
  - left. split; [done|]. exists (set_pool t p' ps), bl, (set_pool t [] fl), (set_pool t (al t) al).
    split; [done|]. by eapply hp_set_pool.
  - right. assert (Hin : e ∈ (e :: fl') ++ al t) by left. specialize (Hp t). rewrite Efl in Hp.
    pose proof (pool_NoDup _ _ _ Hp) as Hnd. cbn [app] in Hnd. apply NoDup_cons in Hnd.
    destruct (elements_spec _ e (pool_desc _ _ _ Hp)) as (He & _ & Hlo & Hhi); [by eapply pool_elem|].
    assert (Hnt : forall k, L !! e <> Some (Pool t, k)).
    { intros k HL. apply HE in HL. apply (proj1 Hnd), elem_of_app. tauto. }
    assert (Hfresh : L !! e = None).
    { eapply (hp_fresh _ _ _ _ _ _ (Pool t) e (pool_size t)); [done| | |done|done].
      - rewrite <- Hs. split; cbn [region fst snd]; lia.
      - destruct t; done. }
    split; [unfold NULL; lia|]. split; [done|].
    exists (set_pool t p' ps), bl, (set_pool t fl' fl), (set_pool t (e :: al t) al). split; [done|].
    eapply hp_set_pool; [done..| |].
    + intros q n. rewrite elem_of_cons. destruct (decide (q = e)) as [->|Hq].
      * rewrite lookup_insert_eq. split; [intros [= <-]; tauto|intros [_ ->]; done].
      * rewrite lookup_insert_ne, HE by done. tauto.
    + intros q o n Ho. destruct (decide (q = e)) as [->|Hq]; [|by rewrite lookup_insert_ne].
      rewrite lookup_insert_eq, Hfresh. split; congruence.
Qed.

Lemma hp_memp_free a L t p :
  hp_owned a L -> L !! p = Some (Pool t, pool_size t) ->
  exists a', memp_free a t p = Ok a' /\ hp_owned a' (delete p L).
Proof.
  intros (ps & bl & fl & al & Ep & Hinv) HL. pose proof Hinv as [_ Hp _ _ _ HE _].
  destruct (hp_within _ _ _ _ _ _ _ _ _ Hinv HL) as ([Hlo _] & _ & _ & Hpos & _); [done|].
  destruct (free_pool_spec _ _ _ p (Hp t) (proj1 (proj1 (HE _ _ _) HL))) as (p' & al1 & al2 & Ef & El & Hp' & Hd).
  cbn [memp_free heap_pools_ops]. unfold Memp.memp_free. rewrite Ep, pools_lookup.
  rewrite (proj2 (Z.eqb_neq p NULL)) by (unfold NULL; lia). rewrite Ef. cbn [res_bind].
  eexists. split; [done|]. rewrite pools_insert.
  exists (set_pool t p' ps), bl, (set_pool t (p :: fl t) fl), (set_pool t (al1 ++ al2) al).
  split; [done|]. pose proof (pool_NoDup _ _ _ (Hp t)) as Hnd. rewrite El, NoDup_app in Hnd.
  destruct Hnd as (_ & _ & Hnd). rewrite <- Permutation_middle, NoDup_cons, elem_of_app in Hnd.
  eapply hp_set_pool; [done..| |].
  - intros q n. rewrite lookup_delete_Some, HE, El, !elem_of_app, elem_of_cons. split.
    { intros (Hne & [?|[->|?]] & ->); done || tauto. }
    intros [Hq ->]. split; [|tauto]. intros ->. tauto.
  - intros q o n Ho. rewrite lookup_delete_Some. split; [tauto|]. intros Hq. split; [|done].
    intros ->. congruence.
Qed.

Lemma hp_pool_size a L p t n : hp_owned a L -> L !! p = Some (Pool t, n) -> n = pool_size t.
Proof. intros (ps & bl & fl & al & _ & Hinv) HL. apply (hp_elem _ _ _ _ _ _ Hinv) in HL. by destruct HL. Qed.

(** The heap and the pools keep the promises of the interface. *)
#[global] Instance heap_pools_spec : AllocSpec heap_pools := {
  owned := hp_owned;
  malloc_law := hp_malloc;
  mem_free_law := hp_free;
  trim_law := hp_trim;
  memp_malloc_law := hp_memp_malloc;
  memp_free_law := hp_memp_free;
  owned_range := hp_range;
  owned_apart := hp_apart;
  owned_pool_size := hp_pool_size
}.

(** ** The invariant of the packet buffers *)

Definition owner_of (t : pbuf_type) : owner :=
  match t with
  | PBUF_RAM => Heap
  | PBUF_POOL => Pool MEMP_PBUF_POOL
  | PBUF_ROM | PBUF_REF => Pool MEMP_PBUF
  end.

(** The payload of a pbuf with its own data lies in its block, after the struct. *)
Definition in_block (p n : Z) (b : pbuf) : Prop :=
  type b = PBUF_RAM \/ type b = PBUF_POOL ->
  p + SIZEOF_STRUCT_PBUF <= payload b /\ payload b + len b <= p + n.

(** The block of a pbuf: of the allocator that its type calls for, unless the
    pbuf is custom. *)
Definition placed (L : gmap Z (owner * Z)) (p : Z) (b : pbuf) : Prop :=
  exists o n, L !! p = Some (o, n)
    /\ (is_custom b = false -> o = owner_of (type b) /\ in_block p n b).

(** *** Pieces of chains *)

(** The pbufs [bl] lead from [p] to [q]. *)
Fixpoint cseg (h : heap) (p : Z) (bl : list (Z * pbuf)) (q : Z) : Prop :=
  match bl with
  | [] => p = q
  | (a, b) :: bl' => p = a /\ a <> NULL /\ h !! a = Some b /\ cseg h (next b) bl' q
  end.

Lemma cseg_chain h p bl1 bl2 :
  chain h p (bl1 ++ bl2) <-> exists q, cseg h p bl1 q /\ chain h q bl2.
Proof.
  revert p. induction bl1 as [|[a b] bl1 IH]; intros p; cbn [app cseg chain].
  - split; [by exists p|]. by intros (q & -> & ?).
  - rewrite IH. split; [intros (? & ? & ? & q & ? & ?); by exists q|].
    intros (q & (? & ? & ? & ?) & ?). split_and!; try done. by exists q.
Qed.

Lemma cseg_frame h h' p bl q :
  (forall a, a ∈ fst <$> bl -> h' !! a = h !! a) -> cseg h p bl q -> cseg h' p bl q.
Proof.
  revert p. induction bl as [|[x b] bl IH]; intros p Hf; cbn [cseg]; [done|].
  intros (-> & Hne & Hb & Hn). split_and!; [done|done|rewrite Hf by left; done|].
  apply IH; [|done]. intros a Ha. apply Hf. by right.
Qed.

(** The address a chain starts at. *)
Definition first (bl : list (Z * pbuf)) : Z :=
  match bl with
  | (a, _) :: _ => a
  | [] => NULL
  end.

Lemma chain_first h p bl : chain h p bl -> p = first bl.
Proof. destruct bl as [|[a b] bl]; cbn [chain first]; [done|]. by intros (-> & _). Qed.

(** [m'] agrees with [m] outside the addresses [l]. *)
Definition frame {V} (m m' : gmap Z V) (l : list Z) : Prop := forall a, a ∉ l -> m' !! a = m !! a.

Lemma frame_insert {V} (m m' : gmap Z V) p x l : frame (<[p := x]> m) m' l -> frame m m' (p :: l).
Proof.
  intros Hf a Ha. apply not_elem_of_cons in Ha. destruct Ha as [Hap Ha].
  rewrite Hf, lookup_insert_ne by done. done.
Qed.

Lemma frame_trans {V} (m1 m2 m3 : gmap Z V) l : frame m1 m2 l -> frame m2 m3 l -> frame m1 m3 l.
Proof. intros H1 H2 a Ha. by rewrite H2, H1. Qed.

(** Link the chain [bl2] behind the last pbuf [r] of a chain. *)
Lemma chain_link h h' p bl1 r br br' bl2 :
  chain h p (bl1 ++ [(r, br)]) -> chain h' (next br') bl2 -> h' !! r = Some br' ->
  (forall a, a ∈ fst <$> bl1 -> h' !! a = h !! a) ->
  chain h' p (bl1 ++ (r, br') :: bl2).
Proof.
  intros Hc Hc2 Hr Hf. apply cseg_chain in Hc. destruct Hc as (q & Hs & Hq & Hne & _ & _).
  apply cseg_chain. exists r. split; [|done]. subst q. by eapply cseg_frame.
Qed.

Section Wf.
Context {A : Type} `{AllocSpec A}.

(** The blocks [L] are handed out, among them that of every live pbuf. *)
Record wf (s : state A) (L : gmap Z (owner * Z)) : Prop := {
  wf_owned : owned (alloc s) L;
  wf_placed p b : pbufs s !! p = Some b -> placed L p b
}.

(** Changing pbufs without moving their data. *)
Lemma wf_upd s L p b b' h' :
  wf s L -> pbufs s !! p = Some b -> placed L p b' -> h' = <[p := b']> (pbufs s) -> wf (with_pbufs h' s) L.
Proof.
  intros [Ho Hp] Hb Hb' ->. split; [done|]. intros q c. cbn [with_pbufs pbufs].
  rewrite lookup_insert_Some. intros [[<- <-]|[_ Hc]]; [done|by apply Hp].
Qed.

Lemma placed_ref L p b r : placed L p b -> placed L p (with_ref r b).
Proof. done. Qed.

Lemma upd_ok (s : state A) p b f :
  pbufs s !! p = Some b -> upd s p f = Ok (with_pbufs (<[p := f b]> (pbufs s)) s).
Proof. intros Hb. unfold upd. by rewrite (deref_ok _ _ _ Hb). Qed.

(** *** pbuf_free *)

Variable custom_free : Z -> Z -> state A -> res (state A).


(** The pbufs that lose their last reference when the chain is freed, and the
    pbuf at which the walk stops. *)
Fixpoint dead (bl : list (Z * pbuf)) : list (Z * pbuf) :=
  match bl with
  | (a, b) :: bl' => if ref b =? 1 then (a, b) :: dead bl' else []
  | [] => []
  end.

Fixpoint free_heap (h : heap) (bl : list (Z * pbuf)) : heap :=
  match bl with
  | (a, b) :: bl' =>
      if ref b =? 1 then free_heap (delete a h) bl' else <[a := with_ref (ref b - 1) b]> h
  | [] => h
  end.

Fixpoint free_owned (L : gmap Z (owner * Z)) (bl : list (Z * pbuf)) : gmap Z (owner * Z) :=
  match bl with
  | (a, b) :: bl' =>
      if ref b =? 1 then free_owned (delete a L) bl' else L
  | [] => L
  end.

(** Every pbuf of a chain is referenced, and those that have one reference left are not custom: a
    custom pbuf is given to a function of its owner, which may free further packets (as
    [ipfrag_free_pbuf_custom] does). *)
Definition refs_ok (bl : list (Z * pbuf)) : Prop :=
  Forall (fun ab => 0 < ref (snd ab) < 65536 /\ (ref (snd ab) = 1 -> is_custom (snd ab) = false)) bl.

(** Releasing one pbuf; its struct may differ in [ref] from when it was freed. *)
Lemma release_spec s L p b r :
  wf s L -> pbufs s !! p = Some (with_ref r b) ->
  is_custom b = false ->
  exists a', release custom_free s p b = Ok (with_alloc a' (with_pbufs (delete p (pbufs s)) s))
    /\ wf (with_alloc a' (with_pbufs (delete p (pbufs s)) s)) (delete p L).
Proof.
  intros Hwf Hb Ec. unfold release. rewrite Ec.
  destruct (wf_placed _ _ Hwf p _ Hb) as (o & n & HL & Ho). destruct (Ho Ec) as [-> _]. clear Ho.
  cbn [with_ref type] in HL.
  assert (Hgone : forall a', owned a' (delete p L) ->
            wf (with_alloc a' (with_pbufs (delete p (pbufs s)) s)) (delete p L)).
  { intros a' Ho. split; [done|]. intros q c. cbn [with_alloc with_pbufs pbufs].
    intros [Hne Hq]%lookup_delete_Some. destruct (wf_placed _ _ Hwf q c Hq) as (o & k & HLq & Hin).
    exists o, k. by rewrite lookup_delete_ne. }
  destruct Hwf as [Ho _].
  assert (Hm : exists a', match type b with
    | PBUF_POOL => memp_free (alloc s) MEMP_PBUF_POOL p
    | PBUF_ROM | PBUF_REF => memp_free (alloc s) MEMP_PBUF p
    | PBUF_RAM => mem_free (alloc s) p end = Ok a' /\ owned a' (delete p L)).
  { destruct (type b); cbn [owner_of] in HL; [by eapply mem_free_law|..];
      pose proof (owned_pool_size _ _ _ _ _ Ho HL) as ->; by apply memp_free_law. }
  destruct Hm as (a' & -> & Ho'). exists a'. split; [done|]. by apply Hgone.
Qed.

Lemma free_loop_spec bl : forall fuel s L p count,
  wf s L -> chain (pbufs s) p bl -> refs_ok bl -> (length bl < fuel)%nat -> is_u8 count ->
  exists s', free_loop custom_free fuel s p count
      = Ok (u8 (count + Z.of_nat (length (dead bl))), s')
    /\ wf s' (free_owned L bl) /\ pbufs s' = free_heap (pbufs s) bl /\ bytes s' = bytes s
    /\ custom_free_function s' = custom_free_function s.
Proof.
  induction bl as [|[a b] bl IH]; intros [|fuel] s L p count Hwf Hc Hr Hf Hu; cbn [length] in Hf;
    try lia; cbn [chain] in Hc; cbn [free_loop].
  - subst p. exists s. cbn [Z.eqb NULL negb dead length]. rewrite Z.add_0_r, u8_id by done. done.
  - pose proof (chain_NoDup (pbufs s) p ((a, b) :: bl) Hc) as Hnd.
    destruct Hc as (-> & Hne & Hb & Hn). apply Forall_cons in Hr. cbn [fst snd] in Hr.
    destruct Hr as [[Hrb Hcb] Hr]. rewrite (proj2 (Z.eqb_neq a NULL)) by done. cbn [negb].
    rewrite (deref_ok _ _ _ Hb). cbn [res_bind]. rewrite (proj2 (Z.ltb_lt 0 (ref b))) by lia.
    cbn [lwip_assert res_bind]. rewrite u16_id by (unfold is_u16; lia).
    rewrite (upd_ok _ _ _ _ Hb). cbn [res_bind dead free_heap free_owned].
    assert (Hwf1 : wf (with_pbufs (<[a := with_ref (ref b - 1) b]> (pbufs s)) s) L)
      by (eapply wf_upd; [done|done| |reflexivity]; exact (wf_placed _ _ Hwf a b Hb)).
    replace (ref b - 1 =? 0) with (ref b =? 1) by (zcases; lia).
    destruct (Z.eqb_spec (ref b) 1) as [E1|E1].
    + destruct (release_spec _ L a b (ref b - 1) Hwf1) as (a' & Er & Hwf2);
        [cbn [with_pbufs pbufs]; by rewrite lookup_insert_eq|by apply Hcb|].
      rewrite Er. cbn [res_bind]. cbn [with_pbufs pbufs] in Hwf2 |- *.
      rewrite delete_insert_eq in *.
      destruct (IH fuel _ _ (next b) (u8 (count + 1)) Hwf2) as (s' & El & Hwf' & Hp & Hby & Hcf).
      * cbn [with_alloc with_pbufs pbufs]. eapply chain_frame; [|done]. intros x Hx.
        cbn [fmap list_fmap fst] in Hnd. apply NoDup_cons in Hnd. rewrite lookup_delete_ne; [done|].
        intros <-. tauto.
      * done.
      * lia.
      * apply u8_range.
      * exists s'. rewrite El. split_and!; try done. cbn [length]. do 2 f_equal. unfold u8. zlia.
    + eexists. cbn [length]. rewrite Z.add_0_r, u8_id by done. split; [done|]. done.
Qed.

Lemma pbuf_free_spec s L p bl :
  wf s L -> chain (pbufs s) p bl -> p <> NULL -> refs_ok bl ->
  exists s', pbuf_free custom_free s p = Ok (u8 (Z.of_nat (length (dead bl))), s')
    /\ wf s' (free_owned L bl) /\ pbufs s' = free_heap (pbufs s) bl /\ bytes s' = bytes s
    /\ custom_free_function s' = custom_free_function s.
Proof.
  intros Hwf Hc Hne Hr. unfold pbuf_free. rewrite (proj2 (Z.eqb_neq p NULL)) by done.
  assert (Hb : exists b, pbufs s !! p = Some b).
  { destruct bl as [|[a b] bl]; [done|]. destruct Hc as (-> & _ & Hb & _). by exists b. }
  destruct Hb as [b Hb]. rewrite (deref_ok _ _ _ Hb). cbn [res_bind].
  apply (free_loop_spec bl _ s L p 0); [done..|by eapply chain_fuel|]. unfold is_u8. lia.
Qed.
(** What freeing does to the maps, address by address. *)
Lemma free_heap_other bl : forall h a, a ∉ fst <$> bl -> free_heap h bl !! a = h !! a.
Proof.
  induction bl as [|[x b] bl IH]; intros h a Ha; cbn [free_heap]; [done|].
  cbn [fmap list_fmap fst] in Ha. apply not_elem_of_cons in Ha. destruct Ha as [Hx Ha].
  case_match; [rewrite IH, lookup_delete_ne by done; done|by rewrite lookup_insert_ne].
Qed.

Lemma free_heap_gone bl : forall h a,
  Forall (fun ab => ref (snd ab) = 1) bl -> a ∈ fst <$> bl \/ h !! a = None -> free_heap h bl !! a = None.
Proof.
  induction bl as [|[x b] bl IH]; intros h a Hr Ha; cbn [free_heap].
  - destruct Ha as [Ha|Ha]; [by apply elem_of_nil in Ha|done].
  - apply Forall_cons in Hr. cbn [snd] in Hr. destruct Hr as [-> Hr]. cbn [Z.eqb Pos.eqb].
    apply IH; [done|]. cbn [fmap list_fmap fst] in Ha. rewrite elem_of_cons in Ha.
    rewrite lookup_delete_None. destruct Ha as [[->|Ha]|Ha]; auto.
Qed.

Lemma free_owned_other bl : forall L a, a ∉ fst <$> bl -> free_owned L bl !! a = L !! a.
Proof.
  induction bl as [|[x b] bl IH]; intros L a Ha; cbn [free_owned]; [done|].
  cbn [fmap list_fmap fst] in Ha. apply not_elem_of_cons in Ha. destruct Ha as [Hx Ha].
  case_match; [|done]. by rewrite IH, lookup_delete_ne.
Qed.

Lemma free_owned_gone bl : forall L a,
  Forall (fun ab => ref (snd ab) = 1) bl -> a ∈ fst <$> bl \/ L !! a = None -> free_owned L bl !! a = None.
Proof.
  induction bl as [|[x b] bl IH]; intros L a Hr Ha; cbn [free_owned].
  - destruct Ha as [Ha|Ha]; [by apply elem_of_nil in Ha|done].
  - apply Forall_cons in Hr. cbn [snd] in Hr. destruct Hr as [-> Hr]. cbn [Z.eqb Pos.eqb].
    apply IH; [done|]. cbn [fmap list_fmap fst] in Ha. rewrite elem_of_cons in Ha.
    rewrite lookup_delete_None. destruct Ha as [[->|Ha]|Ha]; auto.
Qed.

Lemma wf_unowned s L a : wf s L -> L !! a = None -> pbufs s !! a = None.
Proof.
  intros Hwf HL. destruct (pbufs s !! a) as [b|] eqn:Hb; [|done].
  destruct (wf_placed _ _ Hwf a b Hb) as (o & n & HL' & _). congruence.
Qed.

(** *** pbuf_alloc *)

Variable stale_flags : Z -> Z.
Variable callback_ok : bool.

Lemma wf_pool_empty s L : wf s L -> wf (pbuf_pool_is_empty callback_ok s) L.
Proof. intros [Ho Hp]. unfold pbuf_pool_is_empty. by case_match. Qed.

(** The state after a block was handed out, with a new pbuf in it. *)
Lemma wf_new s L a' p n o b :
  wf s L -> L !! p = None -> owned a' (<[p := (o, n)]> L) -> o = owner_of (type b) -> in_block p n b ->
  wf (with_pbufs (<[p := b]> (pbufs s)) (with_alloc a' s)) (<[p := (o, n)]> L).
Proof.
  intros Hwf HL Ho Eo Hin. split; [done|]. intros q c. cbn [with_pbufs pbufs].
  rewrite lookup_insert_Some. intros [[<- <-]|[Hne Hc]].
  - exists o, n. by rewrite lookup_insert_eq.
  - destruct (wf_placed _ _ Hwf q c Hc) as (o' & n' & HL' & Hin'). exists o', n'. by rewrite lookup_insert_ne.
Qed.

Definition built_ok (ab : Z * pbuf) : Prop :=
  type (snd ab) = PBUF_POOL /\ is_custom (snd ab) = false /\ ref (snd ab) = 1.

(** The pool ran empty: the chain built so far goes back to it. *)
Lemma free_built s L p bl :
  wf s L -> chain (pbufs s) p bl -> p <> NULL -> Forall built_ok bl ->
  exists n s' L', pbuf_free custom_free s p = Ok (n, s') /\ wf s' L' /\ bytes s' = bytes s
    /\ custom_free_function s' = custom_free_function s
    /\ (forall a, a ∈ fst <$> bl -> pbufs s' !! a = None /\ L' !! a = None)
    /\ frame (pbufs s) (pbufs s') (fst <$> bl) /\ frame L L' (fst <$> bl).
Proof.
  intros Hwf Hc Hne Hb. destruct (pbuf_free_spec s L p bl Hwf Hc Hne) as (s' & Ef & Hwf' & Ep & Eby & Ecf).
  { eapply Forall_impl; [exact Hb|]. intros [a b] (_ & Hcu & Hr). cbn [fst snd] in *. split; [lia|congruence]. }
  exists (u8 (Z.of_nat (length (dead bl)))), s', (free_owned L bl). split_and!; [done..| | |].
  - intros a Ha. rewrite Ep. split.
    + apply free_heap_gone; [|by left]. eapply Forall_impl; [exact Hb|]. by intros ? (_ & _ & ?).
    + apply free_owned_gone; [|by left]. eapply Forall_impl; [exact Hb|]. by intros ? (_ & _ & ?).
  - intros a Ha. rewrite Ep. by apply free_heap_other.
  - intros a Ha. by apply free_owned_other.
Qed.

(** A pbuf of the tail of a PBUF_POOL chain. *)
Definition tail_pbuf (q rem : Z) : pbuf :=
  mk_pbuf NULL (q + SIZEOF_STRUCT_PBUF) rem (Z.min rem PBUF_POOL_BUFSIZE_ALIGNED) PBUF_POOL 0 1.

(** A pbuf of a new packet. *)
Definition fresh_ok (t : pbuf_type) (ab : Z * pbuf) : Prop :=
  type (snd ab) = t /\ flags (snd ab) = 0 /\ ref (snd ab) = 1.

Lemma pool_aligned p : p mod MEM_ALIGNMENT = 0 -> ((p + SIZEOF_STRUCT_PBUF) mod MEM_ALIGNMENT =? 0) = true.
Proof. intros Hp. apply Z.eqb_eq. unfold SIZEOF_STRUCT_PBUF, MEM_ALIGNMENT in *. zlia. Qed.

(** One more pbuf [q] behind the last pbuf [r]. *)
Lemma append_pbuf s L p r bl1 br a' q rem :
  wf s L -> chain (pbufs s) p (bl1 ++ [(r, br)]) -> Forall built_ok (bl1 ++ [(r, br)]) ->
  L !! q = None -> q <> NULL -> 0 < rem ->
  owned a' (<[q := (Pool MEMP_PBUF_POOL, pool_size MEMP_PBUF_POOL)]> L) ->
  let s2 := with_pbufs (<[q := tail_pbuf q rem]> (<[r := with_next q br]> (pbufs s))) (with_alloc a' s) in
  wf s2 (<[q := (Pool MEMP_PBUF_POOL, pool_size MEMP_PBUF_POOL)]> L)
  /\ chain (pbufs s2) p ((bl1 ++ [(r, with_next q br)]) ++ [(q, tail_pbuf q rem)])
  /\ Forall built_ok ((bl1 ++ [(r, with_next q br)]) ++ [(q, tail_pbuf q rem)])
  /\ q ∉ fst <$> bl1 ++ [(r, br)].
Proof.
  intros Hwf Hc Hbo HL Hq Hrem Ho s2. pose proof (wf_unowned _ _ _ Hwf HL) as Hpq.
  assert (Hnew : q ∉ fst <$> bl1 ++ [(r, br)]).
  { intros Hin. apply list_elem_of_fmap in Hin. destruct Hin as ([x b] & E & Hin). cbn [fst] in E. subst x.
    destruct (chain_lookup _ _ _ _ _ Hc Hin). congruence. }
  assert (Hr : pbufs s !! r = Some br).
  { eapply (chain_lookup _ _ _ r br Hc). apply elem_of_app. right. left. }
  pose proof (chain_NoDup _ _ _ Hc) as Hnd. rewrite fmap_app, NoDup_app in Hnd. destruct Hnd as (_ & Hnd & _).
  pose proof Hnew as Hnew2. rewrite fmap_app, not_elem_of_app in Hnew2. cbn [fmap list_fmap fst] in *.
  destruct Hnew2 as [Hn1 Hn2]. assert (Hqr : q <> r) by (intros ->; apply Hn2; left).
  apply Forall_app in Hbo. destruct Hbo as [Hb1 Hb2]. apply Forall_inv in Hb2.
  split_and!; [| | |done].
  - refine (wf_new (with_pbufs (<[r := with_next q br]> (pbufs s)) s) L a' q _ _ (tail_pbuf q rem)
      _ HL Ho eq_refl _).
    + eapply wf_upd; [done|exact Hr| |reflexivity]. exact (wf_placed _ _ Hwf r br Hr).
    + intros _. cbn. unfold SIZEOF_STRUCT_PBUF, PBUF_POOL_BUFSIZE_ALIGNED. lia.
  - rewrite <- app_assoc. eapply chain_link; [exact Hc| | |].
    + cbn. rewrite lookup_insert_eq. done.
    + cbn. by rewrite lookup_insert_ne, lookup_insert_eq.
    + intros a Ha. cbn. rewrite !lookup_insert_ne; [done|..]; intros <-; [|done].
      apply (Hnd r Ha). left.
  - rewrite !Forall_app. split_and!; [done|..]; (constructor; [|constructor]); done.
Qed.

Lemma with_next_id b v : next b = v -> with_next v b = b.
Proof. by intros <-; destruct b. Qed.

(** What [alloc_tail] leaves behind: the whole chain, or nothing of it. *)
Definition tail_post (s s' : state A) (L L' : gmap Z (owner * Z)) (p r rem : Z)
    (bl1 : list (Z * pbuf)) (br : pbuf) (ok : bool) : Prop :=
  if ok then
    exists bl2, chain (pbufs s') p (bl1 ++ (r, with_next (first bl2) br) :: bl2)
      /\ lens_ok bl2 /\ total bl2 = rem /\ Forall (fresh_ok PBUF_POOL) bl2
      /\ (forall a, a ∈ fst <$> bl2 -> L !! a = None)
      /\ frame L L' (fst <$> bl2) /\ frame (pbufs s) (pbufs s') (r :: (fst <$> bl2))
  else
    let l := fst <$> bl1 ++ [(r, br)] in
    (forall a, a ∈ l -> pbufs s' !! a = None /\ L' !! a = None)
    /\ frame L L' l /\ frame (pbufs s) (pbufs s') l.

(** The assertion on the first pbuf of the chain. *)
Lemma head_in_block s L p bl (h' : heap) q r br :
  wf s L -> chain (pbufs s) p bl -> p <> NULL -> Forall built_ok bl ->
  pbufs s !! r = Some br -> h' = <[r := with_next q br]> (pbufs s) ->
  exists b, h' !! p = Some b
    /\ (payload b + len b <=? p + SIZEOF_STRUCT_PBUF + PBUF_POOL_BUFSIZE_ALIGNED) = true.
Proof.
  intros Hwf Hc Hne Hbo Hr ->. destruct bl as [|[x b] bl]; [done|]. destruct Hc as (<- & _ & Hb & _).
  apply Forall_inv in Hbo. destruct Hbo as (Ht & Hcu & _). cbn [snd] in *.
  assert (Hin : (payload b + len b <=? p + SIZEOF_STRUCT_PBUF + PBUF_POOL_BUFSIZE_ALIGNED) = true).
  { destruct (wf_placed _ _ Hwf p b Hb) as (o & n & HL & Ho). destruct (Ho Hcu) as [-> Hblk].
    rewrite Ht in HL. cbn [owner_of] in HL. pose proof (owned_pool_size _ _ _ _ _ (wf_owned _ _ Hwf) HL) as ->.
    destruct (Hblk (or_intror Ht)) as [_ Hle]. apply Z.leb_le. cbn [pool_size] in Hle. lia. }
  destruct (decide (r = p)) as [->|Hrp].
  - exists (with_next q br). rewrite lookup_insert_eq. split; [done|]. rewrite Hb in Hr. by injection Hr as <-.
  - exists b. by rewrite lookup_insert_ne.
Qed.

(** The outcome of the rest of the loop, seen from before the pbuf [q]. *)
Lemma tail_post_step s s2 s' L L' p r rem bl1 br q ok x :
  pbufs s2 = <[q := tail_pbuf q rem]> (<[r := with_next q br]> (pbufs s)) -> wf s L ->
  L !! q = None -> q ∉ fst <$> bl1 ++ [(r, br)] -> 0 < rem ->
  tail_post s2 s' (<[q := x]> L) L' p q (rem - Z.min rem PBUF_POOL_BUFSIZE_ALIGNED)
    (bl1 ++ [(r, with_next q br)]) (tail_pbuf q rem) ok ->
  tail_post s s' L L' p r rem bl1 br ok.
Proof.
  intros E2 Hwf HL Hnew Hrem. pose proof (wf_unowned _ _ _ Hwf HL) as Hpq. unfold tail_post. destruct ok.
  - intros (bl2 & Hc & Hok & Ht & Hfo & HLn & HfL & Hfp). exists ((q, with_next (first bl2) (tail_pbuf q rem)) :: bl2).
    cbn [first fmap list_fmap fst]. rewrite <- app_assoc in Hc. cbn [app] in Hc.
    split_and!; [done| | | | | |].
    + cbn [lens_ok]. cbn [with_next tail_pbuf len tot_len]. split_and!; [|lia|done].
      unfold PBUF_POOL_BUFSIZE_ALIGNED. lia.
    + rewrite total_cons. cbn [with_next tail_pbuf len]. lia.
    + by constructor.
    + intros a. rewrite elem_of_cons. intros [->|Ha]; [done|]. apply HLn in Ha.
      apply lookup_insert_None in Ha. tauto.
    + intros a Ha. apply not_elem_of_cons in Ha. rewrite HfL by tauto. rewrite lookup_insert_ne; [done|].
      intros <-. tauto.
    + intros a Ha. rewrite !not_elem_of_cons in Ha. rewrite Hfp by (rewrite not_elem_of_cons; tauto).
      rewrite E2, !lookup_insert_ne; [done|intros <-; tauto..].
  - rewrite <- app_assoc, !fmap_app in *. cbn [app fmap list_fmap fst] in *. intros (Hg & HfL & Hfp).
    rewrite not_elem_of_app, not_elem_of_cons in Hnew. split_and!.
    + intros a Ha. apply Hg. rewrite elem_of_app, !elem_of_cons in *. tauto.
    + intros a Ha. destruct (decide (a = q)) as [->|Haq].
      * rewrite HL. apply Hg. rewrite elem_of_app, !elem_of_cons. tauto.
      * rewrite HfL, lookup_insert_ne; [done|done|]. rewrite elem_of_app, !elem_of_cons in *. tauto.
    + intros a Ha. destruct (decide (a = q)) as [->|Haq].
      * rewrite Hpq. apply Hg. rewrite elem_of_app, !elem_of_cons. tauto.
      * rewrite Hfp, E2, !lookup_insert_ne; [done| |done|]; rewrite elem_of_app, !elem_of_cons in *; [|tauto].
        intros <-. tauto.
Qed.

Lemma alloc_tail_spec fuel : forall s L p r rem bl1 br,
  wf s L -> chain (pbufs s) p (bl1 ++ [(r, br)]) -> Forall built_ok (bl1 ++ [(r, br)]) ->
  0 <= rem < 65535 -> (Z.to_nat rem < fuel)%nat ->
  exists ok s' L', alloc_tail custom_free callback_ok fuel s p r rem = Ok (ok, s')
    /\ wf s' L' /\ bytes s' = bytes s /\ custom_free_function s' = custom_free_function s
    /\ tail_post s s' L L' p r rem bl1 br ok.
Proof.
  induction fuel as [|fuel IH]; intros s L p r rem bl1 br Hwf Hc Hbo Hrem Hf; [lia|]. cbn [alloc_tail].
  assert (Hr : pbufs s !! r = Some br /\ next br = NULL).
  { pose proof (chain_suffix _ _ _ _ _ _ Hc) as (_ & _ & Hr & Hn). done. }
  destruct Hr as [Hr Hn]. assert (Hpne : p <> NULL).
  { destruct bl1 as [|[a b] bl1]; cbn [app chain] in Hc; destruct Hc as (-> & ? & _); done. }
  destruct (Z.ltb_spec 0 rem) as [Hpos|Hz].
  2: { exists true, s, L. split_and!; try done. exists [].
       cbn [first]. rewrite (with_next_id _ _ Hn). split_and!; try done; [cbn; lia|by intros a ?%elem_of_nil]. }
  destruct (memp_malloc_law (alloc s) L MEMP_PBUF_POOL (wf_owned _ _ Hwf)) as (q & a' & Em & Hcase).
  rewrite Em. cbn [res_bind]. destruct Hcase as [[-> Ho]|(Hq & HL & Ho)].
  - cbn [Z.eqb NULL].
    assert (Hwf1 : wf (pbuf_pool_is_empty callback_ok (with_alloc a' s)) L).
    { apply wf_pool_empty. split; [done|]. exact (wf_placed _ _ Hwf). }
    assert (Es : forall s : state A, pbufs (pbuf_pool_is_empty callback_ok s) = pbufs s
      /\ bytes (pbuf_pool_is_empty callback_ok s) = bytes s
      /\ custom_free_function (pbuf_pool_is_empty callback_ok s) = custom_free_function s).
    { intros s0. unfold pbuf_pool_is_empty. by case_match. }
    destruct (Es (with_alloc a' s)) as (E1 & E2 & E3).
    destruct (free_built _ L p (bl1 ++ [(r, br)]) Hwf1) as (n & s' & L' & Ef & Hwf' & Eby & Ecf & Hg & Hfp & HfL);
      [by rewrite E1|done|done|].
    rewrite Ef. cbn [res_bind]. exists false, s', L'. rewrite Eby, Ecf, E2, E3.
    rewrite E1 in Hfp. done.
  - rewrite (proj2 (Z.eqb_neq q NULL)) by done.
    destruct (append_pbuf s L p r bl1 br a' q rem Hwf Hc Hbo HL Hq Hpos Ho) as (Hwf2 & Hc2 & Hbo2 & Hnew).
    destruct (owned_range _ _ q _ _ Ho (lookup_insert_eq _ _ _)) as (_ & Hal & _).
    rewrite (upd_ok (with_alloc a' s) r br) by done. cbn [res_bind with_alloc with_pbufs pbufs].
    rewrite (proj2 (Z.ltb_lt rem 65535)) by lia. cbn [lwip_assert res_bind].
    rewrite u16_id by (unfold is_u16; lia). rewrite (pool_aligned _ Hal). cbn [lwip_assert res_bind].
    destruct (head_in_block s L p _ _ q r br Hwf Hc Hpne Hbo Hr eq_refl) as (b & Hb & Hle).
    rewrite (deref_ok _ _ _ Hb). cbn [res_bind]. rewrite Hle. cbn [lwip_assert res_bind].
    edestruct (IH _ _ p q (rem - Z.min rem PBUF_POOL_BUFSIZE_ALIGNED) _ _ Hwf2 Hc2 Hbo2)
      as (ok & s' & L' & Et & Hwf' & Eby & Ecf & Hpost).
    { unfold PBUF_POOL_BUFSIZE_ALIGNED. lia. }
    { unfold PBUF_POOL_BUFSIZE_ALIGNED. lia. }
    exists ok, s', L'. split_and!; [exact Et|done..|]. eapply tail_post_step; [..|exact Hpost]; done.
Qed.

(** A new packet of [length] bytes at [p] with room for [offset] bytes of headers,
    or nothing at all. *)
Definition alloc_post (s s' : state A) (L : gmap Z (owner * Z)) (offset length : Z) (t : pbuf_type)
    (p : Z) : Prop :=
  bytes s' = bytes s /\ custom_free_function s' = custom_free_function s
  /\ ((p = NULL /\ wf s' L /\ pbufs s' = pbufs s)
      \/ (p <> NULL /\ exists bl L',
            packet (pbufs s') p bl /\ total bl = length /\ Forall (fresh_ok t) bl /\ wf s' L'
            /\ (forall a, a ∈ fst <$> bl -> L !! a = None)
            /\ frame L L' (fst <$> bl) /\ frame (pbufs s) (pbufs s') (fst <$> bl)
            /\ (t = PBUF_RAM \/ t = PBUF_POOL -> forall b, pbufs s' !! p = Some b ->
                  p + SIZEOF_STRUCT_PBUF + offset <= payload b)
            /\ (t <> PBUF_POOL -> exists b, bl = [(p, b)]))).

(** A packet of a single new pbuf. *)
Lemma single_post s L a' p n b offset length t :
  wf s L -> L !! p = None -> p <> NULL -> owned a' (<[p := (owner_of t, n)]> L) ->
  in_block p n b -> type b = t -> flags b = 0 -> ref b = 1 -> next b = NULL -> len b = length -> tot_len b = length ->
  0 <= length <= 65535 ->
  (t = PBUF_RAM \/ t = PBUF_POOL -> p + SIZEOF_STRUCT_PBUF + offset <= payload b) ->
  alloc_post s (with_pbufs (<[p := b]> (pbufs s)) (with_alloc a' s)) L offset length t p.
Proof.
  intros Hwf HL Hne Ho Hin Et Ef Er En El Etl Hlen Hroom. split; [done|]. split; [done|]. right. split; [done|].
  exists [(p, b)], (<[p := (owner_of t, n)]> L). cbn [fmap list_fmap fst with_pbufs pbufs].
  split_and!.
  - split_and!; [cbn [chain]; by rewrite lookup_insert_eq|cbn [lens_ok]; cbn; lia|cbn; lia].
  - cbn. lia.
  - by constructor.
  - refine (wf_new s L a' p n (owner_of t) b Hwf HL Ho _ Hin). by rewrite Et.
  - intros a. rewrite list_elem_of_singleton. by intros ->.
  - intros a Ha. rewrite list_elem_of_singleton in Ha. by rewrite lookup_insert_ne.
  - intros a Ha. rewrite list_elem_of_singleton in Ha. by rewrite lookup_insert_ne.
  - intros Htt c. rewrite lookup_insert_eq. intros [= <-]. by apply Hroom.
  - intros _. by exists b.
Qed.

Lemma alloc_ref_spec s L length t :
  wf s L -> is_u16 length -> t = PBUF_ROM \/ t = PBUF_REF ->
  exists p s', alloc_ref s length t = Ok (p, s') /\ alloc_post s s' L 0 length t p
    /\ (p <> NULL -> exists b, pbufs s' !! p = Some b /\ flags b = 0 /\ ref b = 1).
Proof.
  intros Hwf Hl Ht. unfold alloc_ref.
  destruct (memp_malloc_law (alloc s) L MEMP_PBUF (wf_owned _ _ Hwf)) as (p & a' & Em & Hcase).
  rewrite Em. cbn [res_bind]. destruct Hcase as [[-> Ho]|(Hne & HL & Ho)].
  - cbn [Z.eqb NULL]. eexists _, _. split; [done|]. split; [|done]. split_and!; [done|done|left].
    split_and!; [done| |done]. split; [done|]. exact (wf_placed _ _ Hwf).
  - rewrite (proj2 (Z.eqb_neq p NULL)) by done. eexists _, _. split; [done|]. split.
    + unfold is_u16 in Hl. apply (single_post s L a' p (pool_size MEMP_PBUF)); try done; [|cbn; destruct Ht as [-> | ->]; by intros [|]|lia|destruct Ht as [-> | ->]; by intros [|]].
      destruct Ht as [-> | ->]; exact Ho.
    + intros _. eexists. cbn [with_pbufs pbufs]. rewrite lookup_insert_eq. done.
Qed.

Lemma layer_offset_range layer : 0 <= layer_offset layer <= 56 /\ layer_offset layer mod 4 = 0.
Proof. destruct layer; split; done. Qed.

(** The size of the block that a PBUF_RAM pbuf asks for. *)
Definition ram_request (offset length : Z) : Z :=
  LWIP_MEM_ALIGN_SIZE (SIZEOF_STRUCT_PBUF + offset) + LWIP_MEM_ALIGN_SIZE length.

Lemma alloc_ram_spec s L offset length :
  wf s L -> 0 <= offset <= 56 -> offset mod 4 = 0 -> is_u16 length -> ram_request offset length <= 65532 ->
  exists p s', alloc_ram s offset length = Ok (p, s') /\ alloc_post s s' L offset length PBUF_RAM p
    /\ (p <> NULL -> exists b, pbufs s' !! p = Some b /\ flags b = 0 /\ ref b = 1).
Proof.
  intros Hwf Ho Ho4 Hl Hrq. unfold is_u16 in Hl. unfold alloc_ram. fold (ram_request offset length).
  assert (Hlo : SIZEOF_STRUCT_PBUF + offset + length <= ram_request offset length).
  { unfold ram_request, SIZEOF_STRUCT_PBUF. rewrite !align_size_arith by lia. zlia. }
  assert (Hrng : 16 <= ram_request offset length) by (unfold SIZEOF_STRUCT_PBUF in Hlo; lia).
  rewrite u16_id by (unfold is_u16; lia).
  destruct (malloc_law (alloc s) L (ram_request offset length) (wf_owned _ _ Hwf)) as (p & a' & Em & Hcase);
    [unfold is_u16; lia|lia|].
  rewrite Em. cbn [res_bind]. destruct Hcase as [[-> Hown]|(Hne & HL & n & Hn & Hown)].
  - cbn [Z.eqb NULL]. eexists _, _. split; [done|]. split; [|done]. split_and!; [done|done|left].
    split_and!; [done| |done]. split; [done|]. exact (wf_placed _ _ Hwf).
  - rewrite (proj2 (Z.eqb_neq p NULL)) by done.
    destruct (owned_range _ _ p _ _ Hown (lookup_insert_eq _ _ _)) as (Hp & Hal & Hn' & Hhi).
    specialize (Hn Hrq). unfold MEM_ALIGNMENT in Hal.
    assert (Epl : LWIP_MEM_ALIGN (p + SIZEOF_STRUCT_PBUF + offset) = p + SIZEOF_STRUCT_PBUF + offset).
    { unfold SIZEOF_STRUCT_PBUF in *. etransitivity; [apply align_size_arith; zlia|]. zlia. }
    rewrite Epl. rewrite (proj2 (Z.eqb_eq ((p + SIZEOF_STRUCT_PBUF + offset) mod MEM_ALIGNMENT) 0))
      by (unfold SIZEOF_STRUCT_PBUF, MEM_ALIGNMENT; zlia).
    cbn [lwip_assert res_bind]. eexists _, _. split; [done|]. split.
    + apply (single_post s L a' p n); try done; [|lia]. intros _. cbn [payload len]. lia.
    + intros _. eexists. cbn [with_pbufs pbufs]. rewrite lookup_insert_eq. done.
Qed.

Hypothesis stale_flags_law : forall p, Z.land (stale_flags p) PBUF_FLAG_IS_CUSTOM = 0.

Lemma alloc_pool_spec s L offset length :
  wf s L -> 0 <= offset <= 56 -> offset mod 4 = 0 -> is_u16 length ->
  exists p s', alloc_pool stale_flags custom_free callback_ok s offset length = Ok (p, s')
    /\ bytes s' = bytes s /\ custom_free_function s' = custom_free_function s
    /\ ((p = NULL /\ wf s' L /\ pbufs s' = pbufs s)
        \/ (p <> NULL /\ exists b bl2 L',
              packet (pbufs s') p ((p, b) :: bl2) /\ total ((p, b) :: bl2) = length
              /\ built_ok (p, b) /\ Forall (fresh_ok PBUF_POOL) bl2 /\ wf s' L'
              /\ (forall a, a ∈ p :: (fst <$> bl2) -> L !! a = None)
              /\ frame L L' (p :: (fst <$> bl2)) /\ frame (pbufs s) (pbufs s') (p :: (fst <$> bl2))
              /\ payload b = p + SIZEOF_STRUCT_PBUF + offset)).
Proof.
  intros Hwf Ho Ho4 Hl. unfold is_u16 in Hl. unfold alloc_pool.
  destruct (memp_malloc_law (alloc s) L MEMP_PBUF_POOL (wf_owned _ _ Hwf)) as (p & a' & Em & Hcase).
  rewrite Em. cbn [res_bind]. destruct Hcase as [[-> Hown]|(Hne & HL & Hown)].
  { cbn [Z.eqb NULL]. eexists _, _. split; [done|]. unfold pbuf_pool_is_empty.
    assert (wf (with_alloc a' s) L) as [Ho1 Hp1] by (split; [done|exact (wf_placed _ _ Hwf)]).
    case_match; (split_and!; [done..|left]; split_and!; [done|by split|done]). }
  rewrite (proj2 (Z.eqb_neq p NULL)) by done.
  destruct (owned_range _ _ p _ _ Hown (lookup_insert_eq _ _ _)) as (Hp & Hal & Hn' & Hhi).
  cbn [pool_size] in Hhi. unfold MEM_ALIGNMENT in Hal.
  assert (Epl : LWIP_MEM_ALIGN (p + (SIZEOF_STRUCT_PBUF + offset)) = p + SIZEOF_STRUCT_PBUF + offset).
  { unfold SIZEOF_STRUCT_PBUF, PBUF_POOL_BUFSIZE_ALIGNED in *. etransitivity; [apply align_size_arith; zlia|]. zlia. }
  rewrite Epl, align_size_arith by lia. replace ((offset + 3) / 4 * 4) with offset by zlia.
  rewrite (proj2 (Z.eqb_eq ((p + SIZEOF_STRUCT_PBUF + offset) mod MEM_ALIGNMENT) 0))
    by (unfold SIZEOF_STRUCT_PBUF, MEM_ALIGNMENT; zlia).
  cbn [lwip_assert res_bind]. set (l := Z.min length (PBUF_POOL_BUFSIZE_ALIGNED - offset)).
  assert (Hlr : 0 <= l <= PBUF_POOL_BUFSIZE_ALIGNED - offset /\ l <= length /\ (length <> 0 -> 0 < l))
    by (subst l; unfold PBUF_POOL_BUFSIZE_ALIGNED; lia).
  rewrite (u16_id l) by (unfold is_u16; lia). unfold SIZEOF_STRUCT_PBUF, PBUF_POOL_BUFSIZE_ALIGNED in *.
  rewrite (proj2 (Z.leb_le _ _)) by lia. rewrite (proj2 (Z.ltb_lt _ _)) by lia. cbn [lwip_assert res_bind].
  cbn [with_alloc with_pbufs pbufs].
  set (b := mk_pbuf NULL (p + 16 + offset) length l PBUF_POOL (stale_flags p) 1).
  assert (Hbo : built_ok (p, b)).
  { split_and!; [done| |done]. unfold is_custom. cbn [b snd flags]. by rewrite stale_flags_law. }
  assert (Hin : in_block p (pool_size MEMP_PBUF_POOL) b).
  { intros _. subst b. cbn [payload len pool_size]. unfold SIZEOF_STRUCT_PBUF, PBUF_POOL_BUFSIZE_ALIGNED. lia. }
  destruct (alloc_tail_spec (S (Z.to_nat length))
    (with_pbufs (<[p := b]> (pbufs s)) (with_alloc a' s)) _ p p (length - l) [] b
    (wf_new s L a' p _ _ b Hwf HL Hown eq_refl Hin))
    as (ok & s' & L' & Et & Hwf' & Eby & Ecf & Hpost).
  { cbn [app chain with_pbufs pbufs]. rewrite lookup_insert_eq. done. }
  { by constructor. }
  { lia. }
  { lia. }
  cbn [with_alloc with_pbufs pbufs bytes custom_free_function] in Et, Eby, Ecf. rewrite Et. cbn [res_bind].
  exists (if ok then p else NULL), s'. split_and!; [done..|]. destruct ok; cbn [tail_post app] in Hpost.
  - right. split; [done|]. destruct Hpost as (bl2 & Hc & Hok & Ht & Hfo & HLn & HfL & Hfp).
    exists (with_next (first bl2) b), bl2, L'. rewrite total_cons, Ht. cbn [with_next len b].
    split_and!; try done.
    + split_and!; [done| |rewrite total_cons, Ht; cbn; lia]. cbn [lens_ok]. rewrite Ht. cbn. split_and!; lia || done.
    + lia.
    + intros a. rewrite elem_of_cons. intros [->|Ha]; [done|]. apply HLn, lookup_insert_None in Ha. tauto.
    + by eapply frame_insert.
    + intros a Ha. apply (frame_insert _ _ p b _ Hfp). rewrite !not_elem_of_cons in *. tauto.
  - left. destruct Hpost as (Hg & HfL & Hfp). cbn [app fmap list_fmap fst] in *.
    assert (EL : L' = L).
    { apply map_eq. intros a. destruct (decide (a = p)) as [->|Hap]; [rewrite HL; apply Hg; left|].
      rewrite HfL, lookup_insert_ne; [done..|by rewrite list_elem_of_singleton]. }
    subst L'. split_and!; [done|done|]. pose proof (wf_unowned _ _ _ Hwf HL) as Hpp.
    apply map_eq. intros a. destruct (decide (a = p)) as [->|Hap]; [rewrite Hpp; apply Hg; left|].
    rewrite Hfp; [cbn [with_pbufs pbufs]; by rewrite lookup_insert_ne|by rewrite list_elem_of_singleton].
Qed.

Lemma pbuf_alloc_spec s L layer length t :
  wf s L -> is_u16 length -> (t = PBUF_RAM -> ram_request (layer_offset layer) length <= 65532) ->
  exists p s', pbuf_alloc stale_flags custom_free callback_ok s layer length t = Ok (p, s')
    /\ alloc_post s s' L (layer_offset layer) length t p.
Proof.
  intros Hwf Hl Hrq. destruct (layer_offset_range layer) as [Ho Ho4]. unfold pbuf_alloc.
  assert (Hone : (exists p s', match t with
      | PBUF_POOL => alloc_pool stale_flags custom_free callback_ok s (layer_offset layer) length
      | PBUF_RAM => alloc_ram s (layer_offset layer) length
      | PBUF_ROM | PBUF_REF => alloc_ref s length t end = Ok (p, s')
      /\ alloc_post s s' L (layer_offset layer) length t p
      /\ (p <> NULL -> exists b, pbufs s' !! p = Some b /\ flags b = 0 /\ ref b = 1)) \/ t = PBUF_POOL).
  { destruct t; [left..|by right].
    - apply alloc_ram_spec; auto.
    - destruct (alloc_ref_spec s L length PBUF_ROM Hwf Hl) as (p & s' & E & Hp & Hb); [by left|].
      exists p, s'. split_and!; [done| |done]. destruct Hp as (? & ? & [?|(? & bl & L' & ? & ? & ? & ? & ? & ? & ? & _ & ?)]);
        (split_and!; [done..|]); [by left|right]. split; [done|]. exists bl, L'. split_and!; try done. by intros [|].
    - destruct (alloc_ref_spec s L length PBUF_REF Hwf Hl) as (p & s' & E & Hp & Hb); [by right|].
      exists p, s'. split_and!; [done| |done]. destruct Hp as (? & ? & [?|(? & bl & L' & ? & ? & ? & ? & ? & ? & ? & _ & ?)]);
        (split_and!; [done..|]); [by left|right]. split; [done|]. exists bl, L'. split_and!; try done. by intros [|]. }
  destruct Hone as [(p & s' & E & Hpost & Hb)| ->].
  - rewrite E. cbn [res_bind]. destruct (Z.eqb_spec p NULL) as [->|Hne]; [by eexists _, _|].
    destruct (Hb Hne) as (b & Hpb & Hfl & Hre). rewrite (upd_ok _ _ _ _ Hpb). cbn [res_bind].
    erewrite upd_ok by (cbn [with_pbufs pbufs]; apply lookup_insert_eq). cbn [res_bind].
    exists p, s'. split; [|done]. do 2 f_equal. destruct s'. cbn in *. unfold with_pbufs. cbn. f_equal.
    rewrite insert_insert_eq. apply insert_id. rewrite Hpb. destruct b. cbn in *. by subst.
  - destruct (alloc_pool_spec s L (layer_offset layer) length Hwf Ho Ho4 Hl) as (p & s' & E & Eby & Ecf & Hcase).
    rewrite E. cbn [res_bind].
    destruct Hcase as [(-> & Hwf' & Ep)|(Hne & b & bl2 & L' & (Hc & Hok & Hle) & Ht & Hbo & Hfo & Hwf' & HLn & HfL & Hfp & Hpl)].
    { cbn [Z.eqb NULL]. eexists _, _. split; [done|]. split_and!; [done..|by left]. }
    rewrite (proj2 (Z.eqb_neq p NULL)) by done. pose proof (chain_NoDup _ _ _ Hc) as Hnd.
    destruct Hc as (_ & _ & Hpb & Hc). rewrite (upd_ok _ _ _ _ Hpb). cbn [res_bind].
    erewrite upd_ok by (cbn [with_pbufs pbufs]; apply lookup_insert_eq). cbn [res_bind].
    cbn [with_pbufs pbufs]. rewrite insert_insert_eq. eexists p, _. split; [done|].
    split; [done|]. split; [done|]. right. split; [done|].
    set (b' := with_flags 0 (with_ref 1 b)). exists ((p, b') :: bl2), L'. cbn [with_pbufs pbufs fmap list_fmap fst].
    split_and!; try done.
    + split_and!; [|done..]. cbn [chain]. rewrite lookup_insert_eq. split_and!; try done.
      eapply chain_frame; [|exact Hc]. intros a Ha. apply NoDup_cons in Hnd.
      rewrite lookup_insert_ne; [done|]. intros <-. tauto.
    + constructor; [|done]. destruct Hbo as (? & _). done.
    + apply (wf_upd s' L' p b b'); [done|done| |done].
      destruct (wf_placed _ _ Hwf' p b Hpb) as (o & n & HLp & Hin). exists o, n. split; [done|].
      intros _. apply Hin, Hbo.
    + intros a Ha. rewrite lookup_insert_ne; [by apply Hfp|]. intros <-. apply Ha. left.
    + intros _ c. rewrite lookup_insert_eq. intros [= <-]. cbn. lia.
Qed.

(** Freeing, split into the pbufs that go and the rest of the chain. *)
Definition unref (bl : list (Z * pbuf)) : list (Z * pbuf) :=
  match bl with
  | (a, b) :: bl' => (a, with_ref (ref b - 1) b) :: bl'
  | [] => []
  end.

Lemma free_split bl : forall h L,
  NoDup (fst <$> bl) -> Forall (fun ab => 0 < ref (snd ab)) bl ->
  exists rest, bl = dead bl ++ rest /\ Forall (fun ab => ref (snd ab) = 1) (dead bl)
    /\ Forall (fun ab => 1 < ref (snd ab)) (take 1 rest)
    /\ (forall p, chain h p bl -> chain (free_heap h bl) (first rest) (unref rest))
    /\ (forall a, a ∈ fst <$> dead bl -> free_heap h bl !! a = None)
    /\ frame h (free_heap h bl) (fst <$> dead bl ++ take 1 rest)
    /\ (forall a, a ∈ fst <$> dead bl -> free_owned L bl !! a = None)
    /\ frame L (free_owned L bl) (fst <$> dead bl).
Proof.
  induction bl as [|[x b] bl IH]; intros h L Hnd Hr.
  { exists []. split_and!; try done; by intros a ?%elem_of_nil. }
  cbn [fmap list_fmap fst dead free_heap free_owned] in *. apply NoDup_cons in Hnd. destruct Hnd as [Hx Hnd].
  apply Forall_cons in Hr. cbn [snd] in Hr. destruct Hr as [Hb Hr].
  destruct (Z.eqb_spec (ref b) 1) as [E1|E1].
  - destruct (IH (delete x h) (delete x L) Hnd Hr)
      as (rest & E & Hd & Hrest & Hc & Hg & Hfr & HLg & HfL).
    exists rest. cbn [app fmap list_fmap fst]. split_and!.
    + by rewrite <- E.
    + by constructor.
    + done.
    + intros p (_ & _ & _ & Hn). apply (Hc (next b)). eapply chain_frame; [|exact Hn].
      intros a Ha. rewrite lookup_delete_ne; [done|]. by intros <-.
    + intros a. rewrite elem_of_cons. intros [->|Ha]; [|by apply Hg].
      rewrite free_heap_other by done. apply lookup_delete_eq.
    + intros a Ha. apply not_elem_of_cons in Ha. rewrite Hfr by tauto. rewrite lookup_delete_ne; [done|].
      intros <-. tauto.
    + intros a. rewrite elem_of_cons. intros [->|Ha]; [|by apply HLg].
      rewrite free_owned_other by done. apply lookup_delete_eq.
    + intros a Ha. apply not_elem_of_cons in Ha. rewrite HfL by tauto. rewrite lookup_delete_ne; [done|]. intros <-. tauto.
  - exists ((x, b) :: bl). cbn [app take fmap list_fmap fst unref first]. split_and!; try done.
    + constructor; [cbn [snd]; lia|constructor].
    + intros p (-> & Hne & _ & Hn). cbn [chain]. rewrite lookup_insert_eq. split_and!; try done.
      eapply chain_frame; [|exact Hn]. intros a Ha. rewrite lookup_insert_ne; [done|]. by intros <-.
    + by intros a ?%elem_of_nil.
    + intros a Ha. rewrite list_elem_of_singleton in Ha. by rewrite lookup_insert_ne.
    + by intros a ?%elem_of_nil.
Qed.
End Wf.

(** ** Properties *)

(** The allocators after initialisation, with small pools, for the examples. *)
Definition hp0 : heap_pools :=
  (heap0, memp_init [mk_pool (mk_desc (pool_size MEMP_PBUF) 4 20000) 0 ∅ (mk_stats 0 0 0 0 0);
                     mk_pool (mk_desc (pool_size MEMP_PBUF_POOL) 4 30000) 0 ∅ (mk_stats 0 0 0 0 0)]).

Lemma hp0_owned : owned hp0 ∅.
Proof.
  set (mk t := memp_init_pool (mk_pool (mk_desc (pool_size t) 4 (match t with MEMP_PBUF => 20000 | _ => 30000 end))
                 0 ∅ (mk_stats 0 0 0 0 0))).
  assert (Hp : forall t, exists fl, pool_inv (mk t) fl []).
  { intros t. apply memp_init_pool_spec; [|done|done]. destruct t; vm_compute; split_and!; done. }
  destruct (Hp MEMP_PBUF) as [fl1 H1], (Hp MEMP_PBUF_POOL) as [fl2 H2].
  exists mk, [(MEM_SIZE_ALIGNED, false)], (fun t => match t with MEMP_PBUF => fl1 | _ => fl2 end), (fun _ => []).
  split; [done|]. split.
  - apply heap0_inv.
  - by intros [|].
  - by intros [|].
  - intros [|[|]|] [|[|]|]; try done; intros _ _ _; vm_compute; (by left) || (by right).
  - intros q n. rewrite lookup_empty. cbn. rewrite elem_of_nil. done.
  - intros t q n. rewrite lookup_empty, elem_of_nil. split; [done|]. by intros [? _].
  - intros q n. by rewrite lookup_empty.
Qed.

Definition st0 : state heap_pools := mk_state ∅ ∅ ∅ hp0 false 0.

Lemma st0_wf : wf st0 ∅.
Proof. split; [exact hp0_owned|]. intros p b. cbn. by rewrite lookup_empty. Qed.

Definition no_custom {A} (f p : Z) (s : state A) : res (state A) := Ok (with_pbufs (delete p (pbufs s)) s).

(** Freeing pbufs that are not custom does not depend on the functions of custom ones. *)
(** A packet that nobody else refers to is freed altogether. *)
Lemma pbuf_free_whole {A} `{AllocSpec A} custom_free (s : state A) L p bl :
  wf s L -> chain (pbufs s) p bl -> p <> NULL ->
  Forall (fun ab => ref (snd ab) = 1 /\ is_custom (snd ab) = false) bl ->
  exists k s' L', pbuf_free custom_free s p = Ok (k, s') /\ wf s' L' /\ bytes s' = bytes s
    /\ (forall a, a ∈ fst <$> bl -> pbufs s' !! a = None /\ L' !! a = None)
    /\ frame (pbufs s) (pbufs s') (fst <$> bl) /\ frame L L' (fst <$> bl).
Proof.
  intros Hwf Hc Hne Hb.
  destruct (pbuf_free_spec custom_free s L p bl Hwf Hc Hne) as (s' & Ef & Hwf' & Ep & Eby & Ecf).
  { eapply Forall_impl; [exact Hb|]. intros [a b] (Hr & Hcu). cbn [fst snd] in *. split; [lia|congruence]. }
  eexists _, s', (free_owned L bl). split_and!; [done..| | |].
  - intros a Ha. rewrite Ep. split.
    + apply free_heap_gone; [|by left]. eapply Forall_impl; [exact Hb|]. by intros ? [].
    + apply free_owned_gone; [|by left]. eapply Forall_impl; [exact Hb|]. by intros ? [].
  - intros a Ha. rewrite Ep. by apply free_heap_other.
  - intros a Ha. by apply free_owned_other.
Qed.

Section Properties.
Context {A : Type} `{AllocSpec A}.

(** C5: [pbuf_free] of a chain in which no custom pbuf loses its last reference frees exactly the
    leading pbufs whose only reference it takes away, stops at the first pbuf that is still
    referenced and takes one reference from it; what lies behind stays chained.  Every freed pbuf
    goes back to the allocator its type came from, no other pbuf and no other block is touched, and
    the invariant is kept, so that no block is freed twice or leaked.  The result is the number of
    freed pbufs modulo 256.  (A custom pbuf with one reference is given to the free function of its
    owner, which is a parameter here; nothing is assumed of it.) *)
Theorem pbuf_free_correct (custom_free : Z -> Z -> state A -> res (state A)) (s : state A)
    (L : gmap Z (owner * Z)) (p : Z) (bl : list (Z * pbuf)) :
  wf s L -> chain (pbufs s) p bl -> p <> NULL -> refs_ok bl ->
  exists gone rest s' L', bl = gone ++ rest
    /\ Forall (fun ab => ref (snd ab) = 1) gone /\ Forall (fun ab => 1 < ref (snd ab)) (take 1 rest)
    /\ pbuf_free custom_free s p = Ok (u8 (Z.of_nat (length gone)), s')
    /\ wf s' L' /\ bytes s' = bytes s
    /\ chain (pbufs s') (first rest) (unref rest)
    /\ (forall a, a ∈ fst <$> gone -> pbufs s' !! a = None)
    /\ (forall a, a ∈ fst <$> gone -> L' !! a = None)
    /\ frame (pbufs s) (pbufs s') (fst <$> gone ++ take 1 rest) /\ frame L L' (fst <$> gone).
Proof.
  intros Hwf Hc Hne Hr.
  destruct (pbuf_free_spec custom_free s L p bl Hwf Hc Hne Hr) as (s' & Ef & Hwf' & Ep & Eby & _).
  destruct (free_split custom_free bl (pbufs s) L) as (rest & E & Hd & Hrest & Hch & Hg & Hfr & HLg & HfL).
  { by eapply chain_NoDup. }
  { eapply Forall_impl; [exact Hr|]. cbn. intros ab ([? _] & _). done. }
  exists (dead bl), rest, s', (free_owned L bl). rewrite Ep. split_and!; try done. by eapply Hch.
Qed.

(** C19: [pbuf_alloc], asked for a length whose rounded size fits [mem_size_t] (for PBUF_RAM), and
    with recycled pool elements whose old [flags] do not have PBUF_FLAG_IS_CUSTOM (the error path
    tests them), never faults.  It returns NULL, having changed neither the
    pbufs nor the blocks handed out (a partly built PBUF_POOL chain is freed
    again), or a packet of exactly [length] bytes with consistent lengths, whose
    pbufs are new (a single one unless PBUF_POOL), have the type asked for, [flags] 0 and one reference, whose
    payloads lie in their own blocks with room for the headers of the layer in
    front, and nothing else changes.  Larger PBUF_RAM requests wrap around
    ([pbuf_alloc_ram_wraps]). *)
Theorem pbuf_alloc_correct (stale_flags : Z -> Z) (custom_free : Z -> Z -> state A -> res (state A))
    (callback_ok : bool) (s : state A) (L : gmap Z (owner * Z)) (layer : pbuf_layer) (length : Z)
    (t : pbuf_type) :
  (forall p, Z.land (stale_flags p) PBUF_FLAG_IS_CUSTOM = 0) ->
  wf s L -> is_u16 length -> (t = PBUF_RAM -> ram_request (layer_offset layer) length <= 65532) ->
  exists p s', pbuf_alloc stale_flags custom_free callback_ok s layer length t = Ok (p, s')
    /\ alloc_post s s' L (layer_offset layer) length t p.
Proof. intros. by apply pbuf_alloc_spec. Qed.
End Properties.

Lemma pbuf_free_correct_witness :
  exists s p, pbuf_alloc (fun _ => 0) no_custom true st0 PBUF_RAW 300 PBUF_POOL = Ok (p, s)
    /\ exists n s' L', pbuf_free no_custom s p = Ok (n, s') /\ wf s' L'.
Proof.
  destruct (pbuf_alloc_spec no_custom (fun _ => 0) true ltac:(done) st0 ∅ PBUF_RAW 300 PBUF_POOL
    st0_wf ltac:(done) ltac:(done)) as (p & s & E & _ & Ecf & Hpost).
  destruct Hpost as [(-> & _)|(Hne & bl & L' & (Hc & _) & _ & Hfo & Hwf & _)]; [vm_compute in E; discriminate E|].
  exists s, p. split; [exact E|].
  destruct (pbuf_free_correct no_custom s L' p bl Hwf Hc Hne)
    as (gone & rest & s' & L'' & _ & _ & _ & Ef & Hwf' & _).
  { eapply Forall_impl; [exact Hfo|]. intros ab (_ & Hf & Hr). rewrite Hr. split; [lia|].
    unfold is_custom. rewrite Hf. done. }
  eexists _, s', L''. split; [exact Ef|exact Hwf'].
Defined.

Lemma pbuf_alloc_correct_witness :
  exists p s bl, pbuf_alloc (fun _ => 0) no_custom true st0 PBUF_TRANSPORT 300 PBUF_POOL = Ok (p, s)
    /\ packet (pbufs s) p bl /\ total bl = 300.
Proof.
  destruct (pbuf_alloc_correct (fun _ => 0) no_custom true st0 ∅ PBUF_TRANSPORT 300 PBUF_POOL
    ltac:(done) st0_wf ltac:(done) ltac:(done)) as (p & s & E & _ & _ & Hpost).
  destruct Hpost as [(-> & _)|(_ & bl & L' & Hp & Ht & _)]; [vm_compute in E; discriminate E|].
  by exists p, s, bl.
Defined.

(** the size of a PBUF_RAM block is computed in 16 bits without a check:
    asked for 65535 bytes, [pbuf_alloc] returns a pbuf that claims 65535 bytes of
    payload in a heap of 10240 bytes. *)
Theorem pbuf_alloc_ram_wraps :
  exists p s b, pbuf_alloc (fun _ => 0) no_custom true st0 PBUF_RAW 65535 PBUF_RAM = Ok (p, s)
    /\ p <> NULL /\ pbufs s !! p = Some b /\ len b = 65535
    /\ ram (fst (alloc s)) + MEM_SIZE_ALIGNED < payload b + len b.
Proof. eexists _, _, _. vm_compute. split_and!; done. Qed.
