(* ===== verification/PbufOps.v ===== *)
(** * Headers and restructuring of packets (pbuf.c)

    [pbuf_header], [pbuf_realloc], [pbuf_cat], [pbuf_chain], [pbuf_dechain] and
    [pbuf_coalesce] on top of the specifications of [pbuf_alloc] and [pbuf_free]. *)

From S2P Require Import Prelude Mem Memp Pbuf PbufData PbufAlloc.

Section Ops.
Context {A : Type} `{AllocSpec A}.

(** ** pbuf_header *)

(** The condition on the type of the pbuf. *)
Definition room_ok (p : Z) (b : pbuf) (inc : Z) (force : bool) : bool :=
  match type b with
  | PBUF_RAM | PBUF_POOL => p + SIZEOF_STRUCT_PBUF <=? payload b - inc
  | PBUF_REF | PBUF_ROM => (inc <? 0) || force
  end.

(** When the header can be moved by [inc] bytes. *)
Definition header_ok (p : Z) (b : pbuf) (inc : Z) (force : bool) : bool :=
  ((0 <? inc) || (- inc <=? len b)) && room_ok p b inc force.

(** The pbuf with the header moved. *)
Definition moved (inc : Z) (b : pbuf) : pbuf :=
  mk_pbuf (next b) (payload b - inc) (tot_len b + inc) (len b + inc) (type b) (flags b) (ref b).

(** Lengths that fit 16 bits before and after. *)
Definition lens_fit (b : pbuf) (inc : Z) : Prop :=
  is_s16 inc /\ 0 <= len b <= tot_len b /\ tot_len b <= 65535 /\ tot_len b + inc <= 65535.

(** The [if] on the type of the pbuf. *)
Lemma move_payload (s : state A) p b inc force :
  pbufs s !! p = Some b -> inc <> 0 -> (inc < 0 -> - inc <= len b) ->
  match type b with
  | PBUF_RAM | PBUF_POOL =>
      let* s := upd s p (with_payload (payload b - inc)) in
      if payload b - inc <? p + SIZEOF_STRUCT_PBUF
      then let* s := upd s p (with_payload (payload b)) in Ok (true, s)
      else Ok (false, s)
  | PBUF_REF | PBUF_ROM =>
      if (inc <? 0) && (Z.abs inc <=? len b)
      then let* s := upd s p (with_payload (payload b - inc)) in Ok (false, s)
      else if (0 <? inc) && force
      then let* s := upd s p (with_payload (payload b - inc)) in Ok (false, s)
      else Ok (true, s)
  end = Ok (negb (room_ok p b inc force),
            if room_ok p b inc force
            then with_pbufs (<[p := with_payload (payload b - inc) b]> (pbufs s)) s else s).
Proof.
  intros Hb Hne Hlen. rewrite (upd_ok _ _ _ _ Hb). cbn [res_bind]. unfold room_ok.
  rewrite (Z.ltb_antisym (p + SIZEOF_STRUCT_PBUF)).
  assert (Hback : (let* s := upd (with_pbufs (<[p := with_payload (payload b - inc) b]> (pbufs s)) s) p
                     (with_payload (payload b)) in Ok (true, s)) = Ok (true, s)).
  { erewrite upd_ok by (cbn [with_pbufs pbufs]; apply lookup_insert_eq). cbn [res_bind with_pbufs pbufs].
    rewrite insert_insert_eq, insert_id; [by destruct s|]. rewrite Hb. by destruct b. }
  assert (Href : (inc <? 0) && (Z.abs inc <=? len b) = (inc <? 0)).
  { destruct (Z.ltb_spec inc 0); [|done]. apply Z.leb_le. lia. }
  rewrite Href. destruct (type b).
  - destruct (p + SIZEOF_STRUCT_PBUF <=? _); cbn [negb]; [done|exact Hback].
  - destruct (Z.ltb_spec inc 0); [done|]. rewrite (proj2 (Z.ltb_lt 0 inc)) by lia. by destruct force.
  - destruct (Z.ltb_spec inc 0); [done|]. rewrite (proj2 (Z.ltb_lt 0 inc)) by lia. by destruct force.
  - destruct (p + SIZEOF_STRUCT_PBUF <=? _); cbn [negb]; [done|exact Hback].
Qed.

Lemma header_spec (s : state A) p b inc force :
  pbufs s !! p = Some b -> p <> NULL -> inc <> 0 -> lens_fit b inc ->
  pbuf_header_impl s p inc force
  = Ok (negb (header_ok p b inc force),
        if header_ok p b inc force then with_pbufs (<[p := moved inc b]> (pbufs s)) s else s).
Proof.
  intros Hb Hne Hinc (Hs & Hl & Ht & Hti). unfold is_s16 in Hs. unfold pbuf_header_impl.
  rewrite (proj2 (Z.eqb_neq p NULL)), (proj2 (Z.eqb_neq inc 0)) by done.
  cbn [negb lwip_assert res_bind]. rewrite (deref_ok _ _ _ Hb). cbn [res_bind].
  assert (Em : (if inc <? 0 then u16 (- inc) else u16 inc) = Z.abs inc).
  { destruct (Z.ltb_spec inc 0); rewrite u16_id; (unfold is_u16; lia) || lia. }
  rewrite Em. unfold header_ok.
  assert (Hguard : (inc <? 0) && negb (Z.abs inc <=? len b) = negb ((0 <? inc) || (- inc <=? len b))).
  { zcases; done || lia. }
  rewrite Hguard. destruct ((0 <? inc) || (- inc <=? len b)) eqn:Eg; cbn [negb andb]; [|done].
  assert (Hlen : inc < 0 -> - inc <= len b).
  { intros Hneg. apply orb_true_iff in Eg. destruct Eg as [Eg|Eg]; [apply Z.ltb_lt in Eg|apply Z.leb_le in Eg]; lia. }
  rewrite (move_payload s p b inc force Hb Hinc Hlen). cbn [res_bind].
  destruct (room_ok p b inc force); cbn [negb]; [|done].
  repeat (erewrite upd_ok by (cbn [with_pbufs pbufs]; apply lookup_insert_eq);
    cbn [res_bind with_pbufs pbufs]; rewrite ?insert_insert_eq).
  by rewrite !u16_id by (unfold is_u16; lia).
Qed.

(** A pbuf that has not moved its data. *)
Definition same_data (b b' : pbuf) : Prop :=
  type b' = type b /\ payload b' = payload b /\ len b' = len b /\ flags b' = flags b.

Lemma placed_same L p b b' : same_data b b' -> placed L p b -> placed L p b'.
Proof.
  intros (Et & Ep & El & Ef) (o & n & HL & Hin). exists o, n. split; [done|].
  unfold is_custom, in_block in *. by rewrite Et, Ep, El, Ef.
Qed.

Lemma wf_same (s : state A) L h' :
  wf s L -> (forall a b', h' !! a = Some b' -> exists b, pbufs s !! a = Some b /\ same_data b b') ->
  wf (with_pbufs h' s) L.
Proof.
  intros [Ho Hp] Hs. split; [done|]. intros p b' Hb'. cbn [with_pbufs pbufs] in Hb'.
  destruct (Hs p b' Hb') as (b & Hb & Hsd). eapply placed_same; [done|by apply Hp].
Qed.

(** ** Totals *)

(** The pbufs [bl] with the totals they have in front of more data, [n] bytes
    altogether. *)
Fixpoint retot (n : Z) (bl : list (Z * pbuf)) : list (Z * pbuf) :=
  match bl with
  | (a, b) :: bl' => (a, with_tot_len n b) :: retot (n - len b) bl'
  | [] => []
  end.

Lemma retot_fst n bl : fst <$> retot n bl = fst <$> bl.
Proof. revert n. induction bl as [|[a b] bl IH]; intros n; cbn [retot fmap list_fmap fst]; [done|by rewrite IH]. Qed.

Lemma retot_total n bl : total (retot n bl) = total bl.
Proof. revert n. induction bl as [|[a b] bl IH]; intros n; cbn [retot]; [done|]. rewrite !total_cons, IH. done. Qed.

Lemma retot_cdata m n bl : cdata m (retot n bl) = cdata m bl.
Proof. revert n. induction bl as [|[a b] bl IH]; intros n; cbn [retot]; [done|]. rewrite !cdata_cons, IH. done. Qed.

Lemma lens_ok_len bl : lens_ok bl -> Forall (fun ab => 0 <= len (snd ab)) bl.
Proof. induction bl as [|[a b] bl IH]; cbn [lens_ok]; constructor; [cbn [snd]; tauto|tauto]. Qed.

Lemma total_nonneg bl : Forall (fun ab => 0 <= len (snd ab)) bl -> 0 <= total bl.
Proof. induction 1 as [|[a b] bl Hb _ IH]; [done|]. rewrite total_cons. cbn [snd] in Hb. lia. Qed.

Lemma lens_ok_retot n bl1 bl2 :
  Forall (fun ab => 0 <= len (snd ab)) bl1 -> lens_ok bl2 -> n = total bl1 + total bl2 ->
  lens_ok (retot n bl1 ++ bl2).
Proof.
  intros H1 H2. revert n. induction H1 as [|[a b] bl1 Hb H1 IH]; intros n Hn; cbn [retot app lens_ok]; [done|].
  rewrite total_cons in Hn. cbn [with_tot_len len tot_len snd] in *.
  rewrite total_app, retot_total. split_and!; [lia|lia|]. apply IH. lia.
Qed.

Lemma lens_ok_last bl1 r br : lens_ok (bl1 ++ [(r, br)]) -> tot_len br = len br.
Proof. intros Hok%lens_ok_app. cbn [lens_ok] in Hok. destruct Hok as (_ & -> & _). cbn. lia. Qed.

Lemma retot_elem n bl a c : (a, c) ∈ retot n bl -> exists b v, (a, b) ∈ bl /\ c = with_tot_len v b.
Proof.
  revert n. induction bl as [|[x b] bl IH]; intros n; cbn [retot]; [by intros ?%elem_of_nil|].
  rewrite elem_of_cons. intros [[= -> ->]|Hin]; [exists b, n; split; [left|done]|].
  destruct (IH _ Hin) as (b' & v & Hb & ->). exists b', v. split; [by right|done].
Qed.

Lemma cseg_lookup h p bl q a b : cseg h p bl q -> (a, b) ∈ bl -> h !! a = Some b.
Proof.
  revert p. induction bl as [|[x c] bl IH]; intros p; cbn [cseg]; [by intros _ ?%elem_of_nil|].
  intros (-> & _ & Hb & Hn). rewrite elem_of_cons. intros [[= -> ->]|Hin]; [done|by eapply IH].
Qed.

(** New totals move no data. *)
Lemma wf_retot (s : state A) L h' p r n bl1 bl2 :
  wf s L -> chain (pbufs s) p (bl1 ++ bl2) -> cseg h' p (retot n bl1) r ->
  frame (pbufs s) h' (fst <$> bl1) -> wf (with_pbufs h' s) L.
Proof.
  intros Hwf Hc Hs Hf. apply (wf_same s L h' Hwf). intros a b' Hb'.
  destruct (decide (a ∈ fst <$> bl1)) as [Hin|Hin]; [|exists b'; rewrite <- Hf by done; done].
  rewrite <- (retot_fst n) in Hin. apply list_elem_of_fmap in Hin. destruct Hin as ([x c] & -> & Hin).
  cbn [fst] in Hb'. pose proof (cseg_lookup _ _ _ _ _ _ Hs Hin) as Hx. rewrite Hx in Hb'. injection Hb' as <-.
  apply retot_elem in Hin. destruct Hin as (b & v & Hin & ->). exists b. split; [|done].
  eapply chain_lookup; [exact Hc|]. apply elem_of_app. by left.
Qed.

(** The totals in front of the last pbuf [r]: each is increased by [v]. *)
Lemma cat_loop_spec bl1 : forall fuel (s : state A) p r br t bt,
  chain (pbufs s) p (bl1 ++ [(r, br)]) -> lens_ok (bl1 ++ [(r, br)]) ->
  pbufs s !! t = Some bt -> t ∉ fst <$> bl1 ++ [(r, br)] -> 0 <= tot_len bt ->
  total (bl1 ++ [(r, br)]) + tot_len bt <= 65535 -> (length bl1 < fuel)%nat ->
  exists h', cat_loop fuel s p t = Ok (r, with_pbufs h' s)
    /\ cseg h' p (retot (total bl1 + (len br + tot_len bt)) bl1) r
    /\ frame (pbufs s) h' (fst <$> bl1).
Proof.
  induction bl1 as [|[a b] bl1 IH]; intros [|fuel] s p r br t bt Hc Hok Ht Hnt Hpos Hle Hf;
    cbn [length] in Hf; try lia; cbn [cat_loop app] in *.
  - destruct Hc as (-> & Hne & Hr & Hn). rewrite (deref_ok _ _ _ Hr). cbn [res_bind chain] in *. rewrite Hn.
    cbn [Z.eqb NULL negb]. exists (pbufs s). split_and!; [by destruct s|done|by intros x ?].
  - pose proof (chain_NoDup _ _ _ Hc) as Hnd. cbn [fmap list_fmap fst] in Hnt, Hnd.
    apply not_elem_of_cons in Hnt. destruct Hnt as [Hta Hnt]. apply NoDup_cons in Hnd. destruct Hnd as [Hna Hnd].
    destruct Hc as (-> & Hne & Hb & Hn). rewrite (deref_ok _ _ _ Hb). cbn [res_bind].
    assert (Hnn : next b <> NULL).
    { destruct bl1 as [|[x c] bl1]; cbn [app chain] in Hn; destruct Hn as (-> & ? & _); done. }
    rewrite (proj2 (Z.eqb_neq (next b) NULL)) by done. cbn [negb]. rewrite (deref_ok _ _ _ Ht). cbn [res_bind].
    rewrite (upd_ok _ _ _ _ Hb). cbn [res_bind]. cbn [lens_ok] in Hok. destruct Hok as (Hlb & Etl & Hok).
    rewrite total_cons in Hle. pose proof (lens_ok_nonneg _ Hok) as Hnn2. rewrite total_app in Etl, Hle, Hnn2. cbn in Etl, Hle, Hnn2.
    assert (Eu : u16 (tot_len b + tot_len bt) = total ((a, b) :: bl1) + (len br + tot_len bt)).
    { rewrite u16_id; rewrite total_cons || unfold is_u16; lia. }
    rewrite Eu. set (b' := with_tot_len _ b).
    destruct (IH fuel (with_pbufs (<[a := b']> (pbufs s)) s) (next b) r br t bt) as (h' & El & Hs & Hfr).
    + cbn [with_pbufs pbufs]. eapply chain_frame; [|exact Hn]. intros x Hx. rewrite lookup_insert_ne; [done|].
      intros <-. done.
    + done.
    + cbn [with_pbufs pbufs]. by rewrite lookup_insert_ne.
    + done.
    + done.
    + rewrite total_app. cbn. lia.
    + lia.
    + exists h'. split; [exact El|]. cbn [with_pbufs pbufs] in Hfr. split; [|by eapply frame_insert].
      cbn [retot cseg]. split_and!; [done|done| |].
      * rewrite Hfr; [by rewrite lookup_insert_eq|]. intros Hin. apply Hna.
        rewrite fmap_app, elem_of_app. by left.
      * rewrite total_cons. cbn [with_tot_len next]. by replace (len b + total bl1 + (len br + tot_len bt) - len b) with (total bl1 + (len br + tot_len bt)) by lia.
Qed.

Lemma with_pbufs_twice (s : state A) h h' : with_pbufs h' (with_pbufs h s) = with_pbufs h' s.
Proof. done. Qed.

(** The front of a concatenated packet. *)
Definition cat_front (bl1 : list (Z * pbuf)) (r : Z) (br : pbuf) (t n : Z) : list (Z * pbuf) :=
  retot (total bl1 + (len br + n)) bl1 ++ [(r, with_next t (with_tot_len (len br + n) br))].

Lemma cat_front_elem bl1 r br t n a c :
  (a, c) ∈ cat_front bl1 r br t n -> exists b, (a, b) ∈ bl1 ++ [(r, br)] /\ same_data b c.
Proof.
  unfold cat_front. rewrite elem_of_app, list_elem_of_singleton. intros [Hin|[= -> ->]].
  - apply retot_elem in Hin. destruct Hin as (b & v & Hin & ->). exists b. split; [apply elem_of_app; by left|done].
  - exists br. split; [apply elem_of_app; right; left|done].
Qed.

Lemma cat_front_fst bl1 r br t n : fst <$> cat_front bl1 r br t n = fst <$> bl1 ++ [(r, br)].
Proof. unfold cat_front. by rewrite !fmap_app, retot_fst. Qed.

Lemma cat_front_ref bl1 r br t n :
  (ref ∘ snd) <$> cat_front bl1 r br t n = (ref ∘ snd) <$> bl1 ++ [(r, br)].
Proof.
  unfold cat_front. rewrite !fmap_app. f_equal. generalize (total bl1 + (len br + n)).
  induction bl1 as [|[a b] bl1 IH]; intros k; cbn [retot fmap list_fmap]; [done|]. f_equal. apply IH.
Qed.

Lemma cat_front_cdata m bl1 r br t n : cdata m (cat_front bl1 r br t n) = cdata m (bl1 ++ [(r, br)]).
Proof. unfold cat_front. rewrite !cdata_app, retot_cdata. done. Qed.

Lemma pbuf_cat_spec (s : state A) h bl1 r br t bl2 :
  packet (pbufs s) h (bl1 ++ [(r, br)]) -> packet (pbufs s) t bl2 -> t <> NULL ->
  (forall a, a ∈ fst <$> bl1 ++ [(r, br)] -> a ∉ fst <$> bl2) ->
  total (bl1 ++ [(r, br)]) + total bl2 <= 65535 ->
  exists h', pbuf_cat s h t = Ok (with_pbufs h' s)
    /\ packet h' h (cat_front bl1 r br t (total bl2) ++ bl2)
    /\ frame (pbufs s) h' (fst <$> bl1 ++ [(r, br)]).
Proof.
  intros (Hc1 & Hok1 & Ht1) (Hc2 & Hok2 & Ht2) Hne Hdis Hle. unfold pbuf_cat.
  assert (Hhne : h <> NULL).
  { destruct bl1 as [|[x c] bl1]; cbn [app chain] in Hc1; destruct Hc1 as (-> & ? & _); done. }
  rewrite (proj2 (Z.eqb_neq h NULL)), (proj2 (Z.eqb_neq t NULL)) by done. cbn [orb].
  destruct bl2 as [|[x bt] bl2]; [done|]. pose proof Hc2 as (<- & _ & Hbt & _). pose proof Hok2 as (Hlt & Etl & _).
  rewrite total_cons in *. set (bl := (t, bt) :: bl2) in *.
  assert (Hnn : 0 <= total bl) by (by apply lens_ok_nonneg). unfold bl in Hnn at 1. rewrite total_cons in Hnn.
  destruct (cat_loop_spec bl1 (walk_fuel (pbufs s)) s h r br t bt Hc1 Hok1 Hbt) as (h' & El & Hs & Hfr).
  { intros Hin. apply (Hdis _ Hin). left. }
  { lia. }
  { lia. }
  { apply chain_fuel in Hc1. rewrite length_app in Hc1. cbn in Hc1. lia. }
  rewrite El. cbn [res_bind with_pbufs pbufs].
  pose proof (chain_NoDup _ _ _ Hc1) as Hnd. rewrite fmap_app, NoDup_app in Hnd. destruct Hnd as (_ & Hnd & _).
  assert (Hr1 : r ∉ fst <$> bl1) by (intros Hin; apply (Hnd r Hin); left).
  pose proof (chain_suffix _ _ _ _ _ _ Hc1) as (_ & Hrne & Hr & Hn). cbn [chain] in Hn.
  assert (Hrt : r <> t).
  { intros ->. apply (Hdis t); [rewrite fmap_app, elem_of_app; right; left|left]. }
  assert (Ht' : h' !! t = Some bt).
  { rewrite Hfr; [done|]. intros Hin. apply (Hdis t); [rewrite fmap_app, elem_of_app; by left|left]. }
  assert (Hr' : h' !! r = Some br) by (by rewrite Hfr).
  rewrite (deref_ok _ _ _ Hr'). cbn [res_bind]. rewrite (lens_ok_last _ _ _ Hok1), Z.eqb_refl, Hn.
  cbn [lwip_assert res_bind Z.eqb NULL]. rewrite (deref_ok _ _ _ Ht'). cbn [res_bind].
  rewrite (upd_ok (with_pbufs h' s) r br) by done. cbn [res_bind].
  erewrite upd_ok by (cbn [with_pbufs pbufs]; apply lookup_insert_eq). rewrite with_pbufs_twice. cbn [with_pbufs pbufs].
  rewrite insert_insert_eq. rewrite total_app in Hle, Ht1. cbn in Hle, Ht1.
  pose proof (lens_ok_len _ Hok1) as Hlens. apply Forall_app in Hlens. destruct Hlens as [Hl1 Hlr].
  apply Forall_inv in Hlr. cbn [snd] in Hlr.
  pose proof (total_nonneg _ Hl1) as Hl1n.
  rewrite u16_id by (unfold is_u16; lia). eexists. split; [done|]. rewrite Etl. unfold cat_front. split.
  - rewrite <- app_assoc. cbn [app]. split_and!.
    + apply cseg_chain. exists r. split.
      * rewrite <- Etl. eapply cseg_frame; [|exact Hs]. intros a Ha. rewrite retot_fst in Ha.
        rewrite lookup_insert_ne; [done|]. by intros <-.
      * cbn [chain]. rewrite lookup_insert_eq. split_and!; [done|done|done|]. cbn [with_next next].
        eapply chain_frame; [|exact Hc2]. intros a Ha. rewrite lookup_insert_ne.
        -- apply Hfr. intros Hin. apply (Hdis a); [rewrite fmap_app, elem_of_app; by left|done].
        -- intros <-. apply (Hdis r); [rewrite fmap_app, elem_of_app; right; left|done].
    + apply lens_ok_retot; [done| |].
      * cbn [lens_ok]. cbn [with_next with_tot_len len tot_len]. unfold bl. rewrite total_cons. split_and!; [done|lia|done].
      * rewrite total_cons. cbn [with_next with_tot_len len]. unfold bl. rewrite total_cons. lia.
    + rewrite total_app, retot_total, total_cons. unfold bl. rewrite total_cons. cbn [with_next with_tot_len len]. lia.
  - intros a Ha. rewrite fmap_app, not_elem_of_app in Ha. cbn [fmap list_fmap fst] in Ha.
    rewrite lookup_insert_ne; [by apply Hfr, Ha|]. intros <-. apply (proj2 Ha). left.
Qed.

(** ** pbuf_dechain *)

Variable custom_free : Z -> Z -> state A -> res (state A).

(** The pbufs stay in their blocks. *)
Lemma cat_wf (s : state A) L h bl r br t k bl2 h' :
  wf s L -> packet (pbufs s) h (bl ++ [(r, br)]) -> packet h' h (cat_front bl r br t k ++ bl2) ->
  frame (pbufs s) h' (fst <$> bl ++ [(r, br)]) -> wf (with_pbufs h' s) L.
Proof.
  intros Hwf Hp1 Hpk Hfr. apply (wf_same s L h' Hwf). intros a c Hc.
  destruct (decide (a ∈ fst <$> bl ++ [(r, br)])) as [Hin|Hin]; [|exists c; by rewrite <- Hfr].
  rewrite <- (cat_front_fst _ _ _ t k) in Hin. apply list_elem_of_fmap in Hin.
  destruct Hin as ([x c'] & -> & Hin). cbn [fst] in Hc.
  destruct (chain_lookup _ _ _ x c' (proj1 Hpk)) as [_ Hx]; [apply elem_of_app; by left|].
  rewrite Hx in Hc. injection Hc as <-. destruct (cat_front_elem _ _ _ _ _ _ _ Hin) as (b & Hb & Hsd).
  exists b. split; [|done]. eapply (chain_lookup _ _ _ x b (proj1 Hp1)). done.
Qed.

(** The first pbuf, cut off. *)
Definition cut (b : pbuf) : pbuf := with_tot_len (len b) (with_next NULL b).

Lemma pbuf_dechain_spec (s : state A) L p b bl2 :
  wf s L -> packet (pbufs s) p ((p, b) :: bl2) -> bl2 <> [] -> refs_ok bl2 ->
  exists s', pbuf_dechain custom_free s p
      = Ok (if 0 <? u8 (Z.of_nat (length (dead bl2))) then NULL else next b, s')
    /\ wf s' (free_owned L bl2) /\ bytes s' = bytes s
    /\ pbufs s' = free_heap (<[p := cut b]> (pbufs s)) bl2.
Proof.
  intros Hwf (Hc & Hok & Ht) Hne Hr. unfold pbuf_dechain. pose proof (chain_NoDup _ _ _ Hc) as Hnd.
  cbn [fmap list_fmap fst] in Hnd. apply NoDup_cons in Hnd. destruct Hnd as [Hp Hnd].
  destruct Hc as (_ & Hpne & Hb & Hn). rewrite (deref_ok _ _ _ Hb). cbn [res_bind].
  destruct bl2 as [|[q bq] bl2]; [done|]. pose proof Hn as (Eq & Hqne & Hq & _). rewrite Eq in *.
  rewrite (proj2 (Z.eqb_neq q NULL)) by done. cbn [negb]. rewrite (deref_ok _ _ _ Hq). cbn [res_bind].
  rewrite total_cons in Ht. cbn [lens_ok] in Hok. destruct Hok as (Hlb & Etb & Hlq & Etq & Hok).
  rewrite total_cons in Etb, Ht. pose proof (lens_ok_nonneg _ Hok).
  assert (Et : tot_len bq = tot_len b - len b) by lia.
  rewrite (proj2 (Z.eqb_eq _ _) Et). cbn [lwip_assert res_bind].
  rewrite u16_id by (unfold is_u16; lia). rewrite (upd_ok _ _ _ _ Hq). cbn [res_bind].
  assert (Hid : with_tot_len (tot_len b - len b) bq = bq) by (rewrite <- Et; by destruct bq).
  assert (Hqp : q <> p) by (intros ->; apply Hp; left).
  rewrite Hid, insert_id by done.
  erewrite upd_ok by (cbn [with_pbufs pbufs]; exact Hb). cbn [res_bind].
  erewrite upd_ok by (cbn [with_pbufs pbufs]; apply lookup_insert_eq). cbn [res_bind].
  rewrite !with_pbufs_twice. cbn [with_pbufs pbufs]. rewrite insert_insert_eq.
  change (with_tot_len (len b) (with_next NULL b)) with (cut b).
  set (s1 := with_pbufs (<[p := cut b]> (pbufs s)) s).
  destruct (pbuf_free_spec custom_free s1 L q ((q, bq) :: bl2)) as (s' & Ef & Hwf' & Ep & Eby & _).
  - apply (wf_upd s L p b (cut b)); [done|done| |done]. exact (wf_placed _ _ Hwf p b Hb).
  - eapply chain_frame; [|exact Hn]. intros a Ha. cbn [s1 with_pbufs pbufs]. rewrite lookup_insert_ne; [done|].
    by intros <-.
  - done.
  - exact Hr.
  - rewrite Ef. cbn [res_bind].
    assert (Hp' : pbufs s' !! p = Some (cut b)).
    { rewrite Ep, free_heap_other by exact Hp. cbn [s1 with_pbufs pbufs]. by rewrite lookup_insert_eq. }
    rewrite (deref_ok _ _ _ Hp'). cbn [res_bind cut with_tot_len tot_len len]. rewrite Z.eqb_refl.
    cbn [lwip_assert res_bind]. exists s'. split_and!; done.
Qed.

(** ** pbuf_realloc *)

(** The loop over the pbufs that stay. *)
Lemma realloc_keep_spec bl : forall fuel (s : state A) p n grow,
  chain (pbufs s) p bl -> lens_ok bl -> bl <> [] -> 0 <= n <= total bl -> total bl <= 65535 ->
  grow = n - total bl -> (length bl < fuel)%nat ->
  exists bl1 r br bl2 h', bl = bl1 ++ (r, br) :: bl2 /\ 0 <= n - total bl1 <= len br
    /\ realloc_keep fuel s p n grow = Ok (r, n - total bl1, with_pbufs h' s)
    /\ cseg h' p (retot n bl1) r /\ frame (pbufs s) h' (fst <$> bl1).
Proof.
  induction bl as [|[a b] bl IH]; intros [|fuel] s p n grow Hc Hok Hne Hn Ht Eg Hf; cbn [length] in Hf;
    try done; try lia. cbn [realloc_keep].
  pose proof (chain_NoDup _ _ _ Hc) as Hnd. cbn [fmap list_fmap fst] in Hnd. apply NoDup_cons in Hnd.
  destruct Hnd as [Hna Hnd]. destruct Hc as (-> & Hane & Hb & Hc). rewrite (deref_ok _ _ _ Hb). cbn [res_bind].
  cbn [lens_ok] in Hok. destruct Hok as (Hlb & Etb & Hok). rewrite total_cons in Hn, Ht, Eg.
  pose proof (lens_ok_nonneg _ Hok) as Hnn. destruct (Z.ltb_spec (len b) n) as [Hlt|Hge].
  - rewrite (u16_id (n - len b)) by (unfold is_u16; lia). rewrite (proj2 (Z.ltb_lt grow 65535)) by lia.
    cbn [lwip_assert res_bind].
    assert (Eu : u16 (tot_len b + u16 grow) = n).
    { rewrite Etb. unfold u16. zlia. }
    rewrite Eu, (upd_ok _ _ _ _ Hb). cbn [res_bind].
    assert (Hbl : bl <> []) by (intros ->; change (total []) with 0 in Hn; lia).
    assert (Hnn2 : next b <> NULL) by (destruct bl as [|[x c] bl]; [done|]; destruct Hc as (-> & ? & _); done).
    rewrite (proj2 (Z.eqb_neq (next b) NULL)) by done. cbn [negb lwip_assert res_bind].
    destruct (IH fuel (with_pbufs (<[a := with_tot_len n b]> (pbufs s)) s) (next b) (n - len b) grow)
      as (bl1 & r & br & bl2 & h' & E & Hrng & Ek & Hs & Hfr); try done; try lia.
    { cbn [with_pbufs pbufs]. eapply chain_frame; [|exact Hc]. intros x Hx.
      rewrite lookup_insert_ne; [done|]. by intros <-. }
    exists ((a, b) :: bl1), r, br, bl2, h'. rewrite total_cons. cbn [with_pbufs pbufs] in Hfr.
    replace (n - (len b + total bl1)) with (n - len b - total bl1) by lia.
    split_and!; [by rewrite E|lia|lia|done| |by eapply frame_insert].
    cbn [retot cseg with_tot_len next]. split_and!; [done|done| |done].
    rewrite Hfr; [by rewrite lookup_insert_eq|]. intros Hin. apply Hna. rewrite E, fmap_app, elem_of_app. by left.
  - exists [], a, b, bl, (pbufs s). cbn [retot cseg app]. change (total []) with 0. rewrite Z.sub_0_r.
    split_and!; [done|lia|lia|by destruct s|done|by intros x ?].
Qed.

(** Giving back the end of the last block. *)
Lemma realloc_trim (s : state A) L r br n :
  wf s L -> pbufs s !! r = Some br -> r <> NULL -> 0 <= n <= len br ->
  exists a' L2,
    (if bool_decide (type br = PBUF_RAM) && negb (n =? len br) && negb (is_custom br) then
       let* (q, a) := mem_trim (alloc s) r (u16 (u16 (payload br - r) + n)) in
       assert* negb (q =? NULL) in
       Ok (q, with_alloc a s)
     else Ok (r, s)) = Ok (r, with_alloc a' s)
    /\ owned a' L2 /\ frame L L2 [r] /\ placed L2 r (with_len n br).
Proof.
  intros Hwf Hr Hne Hn. destruct (wf_placed _ _ Hwf r br Hr) as (o & k & HL & Hin).
  destruct (bool_decide_reflect (type br = PBUF_RAM)) as [Et|Et]; cbn [andb].
  2: { exists (alloc s), L. split_and!; [by destruct s|apply (wf_owned _ _ Hwf)|done|].
       exists o, k. split; [done|]. intros Hc. destruct (Hin Hc) as [-> Hb]. split; [done|].
       intros Ht. destruct (Hb Ht). cbn [with_len payload len]. lia. }
  destruct (is_custom br) eqn:Ec; cbn [negb]; rewrite ?andb_false_r, ?andb_true_r.
  { exists (alloc s), L. split_and!; [by destruct s|apply (wf_owned _ _ Hwf)|done|]. exists o, k. split; [done|].
    intros Hc. exfalso. unfold is_custom in *. cbn in Hc. congruence. }
  destruct (Hin eq_refl) as [-> Hb]. rewrite Et in HL. cbn [owner_of] in HL. destruct (Hb (or_introl Et)) as [Hb1 Hb2].
  destruct (owned_range _ _ _ _ _ (wf_owned _ _ Hwf) HL) as (_ & _ & Hk & _). unfold SIZEOF_STRUCT_PBUF in Hb1.
  destruct (Z.eqb_spec n (len br)) as [->|Hnl]; cbn [negb].
  - exists (alloc s), L. split_and!; [by destruct s|apply (wf_owned _ _ Hwf)|done|].
    exists Heap, k. split; [done|]. intros _. split; [cbn [with_len type]; by rewrite Et|].
    intros _. cbn [with_len payload len]. unfold SIZEOF_STRUCT_PBUF. lia.
  - rewrite (u16_id (payload br - r)) by (unfold is_u16; lia). rewrite u16_id by (unfold is_u16; lia).
    destruct (trim_law (alloc s) L r k (payload br - r + n) (wf_owned _ _ Hwf) HL) as (a' & k' & E & Hk' & Ho); [lia|].
    rewrite E. cbn [res_bind]. rewrite (proj2 (Z.eqb_neq r NULL)) by done. cbn [negb lwip_assert res_bind].
    exists a', (<[r := (Heap, k')]> L). split_and!; [done|done| |].
    + intros a Ha. rewrite list_elem_of_singleton in Ha. by rewrite lookup_insert_ne.
    + exists Heap, k'. rewrite lookup_insert_eq. split; [done|]. intros _.
      split; [cbn [with_len type]; by rewrite Et|]. intros _. cbn [with_len payload len].
      unfold SIZEOF_STRUCT_PBUF. lia.
Qed.

(** The last pbuf that stays. *)
Definition shrunk (n : Z) (b : pbuf) : pbuf := with_next NULL (with_tot_len n (with_len n b)).

Lemma frame_not {V} (m m' : gmap Z V) l a v : frame m m' l -> a ∉ l -> m !! a = v -> m' !! a = v.
Proof. intros Hf Ha <-. by apply Hf. Qed.

(** What is left when the last pbuf that stays is shrunk. *)
Lemma realloc_cdata m n bl1 r br bl2 :
  lens_ok (bl1 ++ (r, br) :: bl2) -> 0 <= n - total bl1 <= len br ->
  cdata m (retot n bl1 ++ [(r, shrunk (n - total bl1) br)]) = take (Z.to_nat n) (cdata m (bl1 ++ (r, br) :: bl2)).
Proof.
  intros Hok Hrng. rewrite !cdata_app, retot_cdata, !cdata_cons. cbn [shrunk len payload with_next with_tot_len with_len].
  pose proof (lens_ok_len _ Hok) as Hl. apply Forall_app in Hl. destruct Hl as [Hl1 _]. pose proof (total_nonneg _ Hl1).
  assert (Hlen1 : Z.of_nat (length (cdata m bl1)) = total bl1).
  { rewrite <- (retot_cdata _ (total bl1)), length_cdata, retot_total; [done|].
    rewrite <- (app_nil_r (retot _ _)). by apply lens_ok_retot; [| |change (total []) with 0; lia]. }
  change (cdata m []) with (@nil Z). rewrite app_nil_r. rewrite take_app_ge by lia. f_equal.
  rewrite take_app_le by (rewrite length_rd; lia). rewrite take_rd. f_equal. lia.
Qed.

(** The end of the chain behind [r] is freed. *)
Lemma free_tail (s : state A) L q bl2 :
  wf s L -> chain (pbufs s) q bl2 -> refs_ok bl2 ->
  exists s', (if negb (q =? NULL) then let* (_, s) := pbuf_free custom_free s q in Ok s else Ok s) = Ok s'
    /\ wf s' (free_owned L bl2) /\ pbufs s' = free_heap (pbufs s) bl2 /\ bytes s' = bytes s.
Proof.
  intros Hwf Hc Hr. destruct bl2 as [|[a b] bl2].
  - cbn [chain] in Hc. subst q. by exists s.
  - pose proof Hc as (-> & Hne & _). rewrite (proj2 (Z.eqb_neq a NULL)) by done. cbn [negb].
    destruct (pbuf_free_spec custom_free s L a _ Hwf Hc Hne Hr) as (s' & E & Hwf' & Ep & Eby & _).
    rewrite E. by exists s'.
Qed.

Lemma pbuf_realloc_spec (s : state A) L p bl new_len :
  wf s L -> packet (pbufs s) p bl -> p <> NULL -> refs_ok bl -> 0 <= new_len < total bl ->
  exists bl1 r br bl2 s' L', bl = bl1 ++ (r, br) :: bl2 /\ 0 <= new_len - total bl1 <= len br
    /\ pbuf_realloc custom_free s p new_len = Ok s' /\ wf s' L' /\ bytes s' = bytes s
    /\ packet (pbufs s') p (retot new_len bl1 ++ [(r, shrunk (new_len - total bl1) br)])
    /\ frame (pbufs s) (pbufs s') (fst <$> bl) /\ frame L L' (fst <$> (r, br) :: bl2)
    /\ (Forall (fun ab => ref (snd ab) = 1) bl2 -> forall a, a ∈ fst <$> bl2 -> pbufs s' !! a = None /\ L' !! a = None).
Proof.
  intros Hwf (Hc & Hok & Ht) Hpne Hr Hn. destruct bl as [|[x b] bl0]; [done|]. set (bl := (x, b) :: bl0) in *.
  pose proof Hc as (<- & _ & Hb & _). pose proof Hok as (_ & Etb & _). rewrite <- (total_cons p) in Etb.
  unfold pbuf_realloc. rewrite (proj2 (Z.eqb_neq p NULL)) by done. cbn [negb lwip_assert res_bind].
  rewrite (deref_ok _ _ _ Hb). cbn [res_bind]. fold bl in Etb. rewrite Etb. rewrite (proj2 (Z.leb_gt _ _)) by lia.
  destruct (realloc_keep_spec bl (walk_fuel (pbufs s)) s p new_len (new_len - total bl))
    as (bl1 & r & br & bl2 & h' & E & Hrng & Ek & Hs & Hfr); try done; try lia; [by eapply chain_fuel|].
  rewrite Ek. cbn [res_bind]. set (s1 := with_pbufs h' s) in *. rewrite E in *.
  pose proof (chain_NoDup _ _ _ Hc) as Hnd. rewrite fmap_app in Hnd. cbn [fmap list_fmap fst] in Hnd.
  apply NoDup_app in Hnd. destruct Hnd as (_ & Hd1 & Hnd). apply NoDup_cons in Hnd. destruct Hnd as [Hr2 _].
  assert (Hr1 : r ∉ fst <$> bl1) by (intros Hin; apply (Hd1 r Hin); left).
  pose proof (chain_suffix _ _ _ _ _ _ Hc) as (_ & Hrne & Hrb & Hc2).
  assert (Hrb' : pbufs s1 !! r = Some br) by (cbn [s1 with_pbufs pbufs]; by rewrite Hfr).
  rewrite (deref_ok _ _ _ Hrb'). cbn [res_bind]. set (n := new_len - total bl1) in *.
  assert (Hwf1 : wf s1 L) by (by eapply wf_retot).
  destruct (realloc_trim s1 L r br n Hwf1 Hrb' Hrne Hrng) as (a' & L2 & Et & Ho & HfL & Hpl).
  rewrite Et. cbn [res_bind]. rewrite (upd_ok (with_alloc a' s1) r br) by exact Hrb'. cbn [res_bind].
  erewrite upd_ok by (cbn [with_alloc with_pbufs pbufs]; apply lookup_insert_eq). cbn [res_bind].
  rewrite with_pbufs_twice. unfold deref at 1. cbn [with_alloc with_pbufs pbufs]. rewrite insert_insert_eq, lookup_insert_eq.
  cbn [res_bind]. set (b2 := with_tot_len n (with_len n br)). set (h2 := <[r := b2]> (pbufs s1)).
  change (mk_state (pbufs s1) _ _ _ _ _) with (with_alloc a' s1). change (next b2) with (next br).
  change (mk_state h2 _ _ _ _ _) with (with_pbufs h2 (with_alloc a' s1)). set (s2 := with_pbufs h2 (with_alloc a' s1)).
  assert (Hwf2 : wf s2 L2).
  { split; [exact Ho|]. intros a c. cbn [s2 with_pbufs pbufs]. unfold h2. rewrite lookup_insert_Some.
    intros [[<- <-]|[Hne Hc']]; [exact Hpl|]. destruct (wf_placed _ _ Hwf1 a c Hc') as (o & k & HL & Hin).
    exists o, k. split; [|done]. rewrite HfL; [done|]. by rewrite list_elem_of_singleton. }
  assert (Hout : forall a, a ∉ fst <$> bl1 -> a <> r -> h2 !! a = pbufs s !! a).
  { intros a Ha Har. unfold h2. rewrite lookup_insert_ne by done. by apply Hfr. }
  destruct (free_tail s2 L2 (next br) bl2 Hwf2) as (s3 & Ef & Hwf3 & Ep3 & Eby3).
  { eapply chain_frame; [|exact Hc2]. intros a Ha. apply Hout; [|by intros ->]. intros Hin. apply (Hd1 a Hin). by right. }
  { apply Forall_app in Hr. destruct Hr as [_ Hr]. apply Forall_cons in Hr. apply Hr. }
  rewrite Ef. cbn [res_bind].
  assert (Hr3 : pbufs s3 !! r = Some b2).
  { rewrite Ep3, free_heap_other by done. cbn [s2 with_pbufs pbufs]. unfold h2. apply lookup_insert_eq. }
  rewrite (upd_ok _ _ _ _ Hr3). exists bl1, r, br, bl2. eexists _, (free_owned L2 bl2).
  split_and!; [done|lia|lia|done| |done| | | |].
  - apply (wf_upd s3 _ r b2 (with_next NULL b2)); [done|done| |done]. exact (wf_placed _ _ Hwf3 r b2 Hr3).
  - cbn [with_pbufs pbufs]. pose proof (lens_ok_len _ Hok) as Hlens. apply Forall_app in Hlens. destruct Hlens as [Hl1 _].
    split_and!.
    + apply cseg_chain. exists r. split; [|cbn [chain]; by rewrite lookup_insert_eq].
      eapply cseg_frame; [|exact Hs]. intros a Ha. rewrite retot_fst in Ha.
      rewrite lookup_insert_ne by (by intros <-). rewrite Ep3, free_heap_other.
      * cbn [s2 with_pbufs pbufs]. unfold h2. rewrite lookup_insert_ne by (by intros <-). done.
      * intros Hin. apply (Hd1 a Ha). by right.
    + apply lens_ok_retot; [done|cbn [lens_ok]; cbn; lia|]. rewrite total_cons. cbn. unfold n. lia.
    + rewrite total_app, retot_total, total_cons. cbn. lia.
  - cbn [with_pbufs pbufs]. intros a Ha. rewrite fmap_app, not_elem_of_app in Ha. cbn [fmap list_fmap fst] in Ha.
    destruct Ha as [Ha1 Ha2]. apply not_elem_of_cons in Ha2. rewrite lookup_insert_ne by (intros <-; tauto).
    rewrite Ep3, free_heap_other by tauto. apply Hout; tauto.
  - intros a Ha. cbn [fmap list_fmap fst] in Ha. apply not_elem_of_cons in Ha. rewrite free_owned_other by tauto.
    apply HfL. rewrite list_elem_of_singleton. tauto.
  - intros H1 a Ha. cbn [with_pbufs pbufs]. rewrite lookup_insert_ne by (intros <-; done). rewrite Ep3. split.
    + apply free_heap_gone; [done|by left].
    + apply free_owned_gone; [done|by left].
Qed.

(** ** pbuf_coalesce *)

Variable stale_flags : Z -> Z.
Variable callback_ok : bool.
Hypothesis stale_flags_law : forall p, Z.land (stale_flags p) PBUF_FLAG_IS_CUSTOM = 0.

(** A packet is cut to a prefix of its data. *)
Lemma realloc_prefix (s : state A) L p bl l :
  wf s L -> packet (pbufs s) p bl -> p <> NULL -> refs_ok bl -> 0 <= l <= total bl ->
  exists s' L' bl', pbuf_realloc custom_free s p l = Ok s' /\ wf s' L' /\ bytes s' = bytes s /\ packet (pbufs s') p bl'
    /\ total bl' = l /\ (forall m, cdata m bl' = take (Z.to_nat l) (cdata m bl)).
Proof.
  intros Hwf Hp Hne Hr Hl. pose proof Hp as (Hc & Hok & Ht). destruct (Z.lt_ge_cases l (total bl)) as [Hlt|Hge].
  - destruct (pbuf_realloc_spec s L p bl l Hwf Hp Hne Hr ltac:(lia)) as (bl1 & r & br & bl2 & s' & L' & -> & Hrng & E & Hw & Eb & Hp' & _).
    eexists s', L', _. split_and!; [done..| |].
    + rewrite total_app, retot_total, total_cons. cbn [shrunk len with_next with_tot_len with_len]. change (total []) with 0. lia.
    + intros m. by apply realloc_cdata.
  - exists s, L, bl. split_and!; try done; [|lia|intros m; rewrite take_ge; [done|pose proof (length_cdata m bl Hok); lia]].
    destruct bl as [|[x b] bl0]; [done|]. pose proof Hc as (<- & _ & Hb & _). pose proof Hok as (_ & Etb & _). rewrite <- (total_cons p) in Etb.
    unfold pbuf_realloc. rewrite (proj2 (Z.eqb_neq p NULL)) by done. cbn [negb lwip_assert res_bind].
    rewrite (deref_ok _ _ _ Hb). cbn [res_bind]. by rewrite Etb, (proj2 (Z.leb_le _ _)) by lia.
Qed.

(** Every pbuf has its data in its own block. *)
Definition own_data (bl : list (Z * pbuf)) : Prop :=
  Forall (fun ab => is_custom (snd ab) = false /\ (type (snd ab) = PBUF_RAM \/ type (snd ab) = PBUF_POOL)) bl.

(** Data of pbufs in different blocks does not overlap. *)
Lemma owned_chains_apart (s : state A) L q b bl :
  wf s L -> pbufs s !! q = Some b -> is_custom b = false -> type b = PBUF_RAM ->
  (forall a c, (a, c) ∈ bl -> pbufs s !! a = Some c) -> q ∉ fst <$> bl -> own_data bl ->
  chains_apart [(q, b)] bl.
Proof.
  intros Hwf Hq Hcu Ht Hbl Hnq Hod. constructor; [|constructor]. apply Forall_forall. intros [a c] Hin.
  cbn [snd]. unfold own_data in Hod. rewrite Forall_forall in Hod. destruct (Hod _ Hin) as [Hc Htc]. cbn [snd] in *.
  destruct (wf_placed _ _ Hwf q b Hq) as (o & n & HL & Ho). destruct (Ho Hcu) as [_ Hib].
  destruct (wf_placed _ _ Hwf a c (Hbl _ _ Hin)) as (o' & n' & HL' & Ho'). destruct (Ho' Hc) as [_ Hib'].
  destruct (Hib (or_introl Ht)), (Hib' Htc). unfold SIZEOF_STRUCT_PBUF in *.
  destruct (owned_apart _ _ q o n a o' n' (wf_owned _ _ Hwf) HL HL'); [|lia|lia].
  intros <-. apply Hnq, list_elem_of_fmap. by exists (q, c).
Qed.

Lemma pbuf_coalesce_spec (s : state A) L p bl layer :
  wf s L -> packet (pbufs s) p bl -> p <> NULL -> refs_ok bl -> nonempty bl -> own_data bl ->
  ram_request (layer_offset layer) (total bl) <= 65532 -> (1 < length bl)%nat ->
  exists q s', pbuf_coalesce stale_flags custom_free callback_ok s p layer = Ok (q, s')
    /\ ((q = p /\ wf s' L /\ pbufs s' = pbufs s /\ bytes s' = bytes s)
        \/ (exists b L', L !! q = None /\ packet (pbufs s') q [(q, b)]
            /\ cdata (bytes s') [(q, b)] = cdata (bytes s) bl /\ wf s' L'
            /\ pbufs s' = free_heap (<[q := b]> (pbufs s)) bl)).
Proof.
  intros Hwf Hpk Hne Hr Hnem Hod Hrq Hlen. pose proof Hpk as (Hc & Hok & Ht). unfold pbuf_coalesce.
  destruct bl as [|[x b0] bl0]; [done|]. set (bl := (x, b0) :: bl0) in *. pose proof Hc as (<- & _ & Hb0 & Hc0).
  pose proof Hok as (_ & Etb & _). rewrite <- (total_cons p) in Etb. fold bl in Etb.
  rewrite (deref_ok _ _ _ Hb0). cbn [res_bind].
  assert (Hnn : next b0 <> NULL).
  { destruct bl0 as [|[y c] bl0]; [cbn in Hlen; lia|]. destruct Hc0 as (-> & ? & _). done. }
  rewrite (proj2 (Z.eqb_neq (next b0) NULL)) by done. rewrite Etb. pose proof (lens_ok_nonneg _ Hok).
  destruct (pbuf_alloc_spec custom_free stale_flags callback_ok stale_flags_law s L layer
    (total bl) PBUF_RAM Hwf) as (q & s1 & Ea & Eby & Ecf & Hcase); [unfold is_u16; lia|done|].
  rewrite Ea. cbn [res_bind]. destruct Hcase as [(-> & Hwf1 & Ep)|(Hq & blq & L1 & Hpk1 & Htq & Hfo & Hwf1 & HLn & HfL & Hfp & _ & Hone)].
  { cbn [Z.eqb NULL]. exists p, s1. split; [done|]. by left. }
  rewrite (proj2 (Z.eqb_neq q NULL)) by done. destruct (Hone ltac:(done)) as [b ->]. clear Hone.
  assert (HLq : L !! q = None) by (apply HLn; left). pose proof (wf_unowned _ _ _ Hwf HLq) as Hpq.
  apply Forall_inv in Hfo. destruct Hfo as (Etyp & Efl & Eref). cbn [snd fmap list_fmap fst] in *.
  pose proof Hpk1 as ((_ & _ & Hqb & Hqn) & _ & _).
  assert (Hnq : q ∉ fst <$> bl).
  { intros Hin. apply list_elem_of_fmap in Hin. destruct Hin as ([y c] & E & Hin). cbn [fst] in E. subst y.
    destruct (chain_lookup _ _ _ _ _ Hc Hin) as [_ ?]. congruence. }
  assert (Hkeep : forall a, a ∈ fst <$> bl -> pbufs s1 !! a = pbufs s !! a).
  { intros a Ha. apply Hfp. rewrite list_elem_of_singleton. by intros ->. }
  assert (Hc1 : chain (pbufs s1) p bl) by (eapply chain_frame; [exact Hkeep|exact Hc]).
  assert (Hcu : is_custom b = false) by (unfold is_custom; by rewrite Efl).
  rewrite total_cons in Htq. change (total []) with 0 in Htq.
  pose proof (pbuf_copy_spec s1 q p [(q, b)] bl Hpk1 (conj Hc1 (conj Hok Ht)) Hq Hne) as Hcopy.
  rewrite total_cons, (proj2 (Z.ltb_ge _ _)) in Hcopy by (change (total []) with 0; lia).
  destruct Hcopy as (m' & Ecopy & Hdat & _).
  { constructor; [|constructor]. cbn [snd]. apply Forall_inv in Hnem. subst bl. rewrite total_cons in *.
    cbn [snd] in Hnem. pose proof (lens_ok_nonneg bl0 (proj2 (proj2 Hok))). lia. }
  { done. }
  { split; [constructor|done]. }
  { eapply owned_chains_apart; [exact Hwf1|done..| |done|done]. intros a c Hin.
    eapply chain_lookup; [exact Hc1|done]. }
  rewrite Ecopy. cbn [res_bind]. rewrite bool_decide_true by done. cbn [lwip_assert res_bind].
  destruct (pbuf_free_spec custom_free (with_bytes m' s1) L1 p bl) as (s' & Ef & Hwf' & Ep & Eby' & _).
  { destruct Hwf1 as [Ho Hp]. by split. }
  { exact Hc1. }
  { done. }
  { exact Hr. }
  rewrite Ef. cbn [res_bind with_bytes pbufs bytes] in *. exists q, s'. split; [done|]. right.
  assert (Eh : pbufs s1 = <[q := b]> (pbufs s)).
  { apply map_eq. intros a. destruct (decide (a = q)) as [->|Ha]; [by rewrite lookup_insert_eq|].
    rewrite lookup_insert_ne by done. apply Hfp. by rewrite list_elem_of_singleton. }
  exists b, (free_owned L1 bl). split_and!; [done| | |done|by rewrite Ep, Eh].
  - destruct Hpk1 as (_ & Hok1 & Ht1). split_and!; [|done..]. cbn [chain]. rewrite Ep, free_heap_other by done. done.
  - rewrite Eby', Hdat, Eby. apply splice_all. apply Nat2Z.inj. rewrite !length_cdata by (done || apply Hpk1).
    rewrite total_cons. change (total []) with 0. lia.
Qed.

End Ops.

(** ** Properties *)

Section Properties.
Context {A : Type} `{AllocSpec A}.
Variable custom_free : Z -> Z -> state A -> res (state A).

(** [pbuf_header] (and [pbuf_header_force]) succeeds exactly when a header to
    hide is not longer than the first pbuf, a header to reveal fits behind the
    struct of a pbuf with its own data, and the payload of a ROM or REF pbuf only
    moves back when forced.  Success moves [payload] and adjusts [len] and
    [tot_len] by the increment, and the opposite call undoes it; failure changes
    nothing.  The payload never leaves the pbuf's block.  Increments that would
    take [tot_len] over 65535 are excluded: the code does not check them. *)
Theorem pbuf_header_correct (s : state A) (L : gmap Z (owner * Z)) (p : Z) (b : pbuf) (inc : Z)
    (force : bool) :
  wf s L -> pbufs s !! p = Some b -> p <> NULL -> is_custom b = false -> inc <> 0 -> lens_fit b inc ->
  exists s', pbuf_header_impl s p inc force = Ok (negb (header_ok p b inc force), s')
    /\ wf s' L /\ bytes s' = bytes s
    /\ (if header_ok p b inc force
        then pbufs s' = <[p := moved inc b]> (pbufs s)
             /\ (inc <> -32768 -> pbuf_header_force s' p (- inc) = Ok (false, s))
        else s' = s).
Proof.
  intros Hwf Hb Hne Hcu Hinc Hfit. rewrite (header_spec s p b inc force Hb Hne Hinc Hfit).
  eexists. split; [done|]. destruct (header_ok p b inc force) eqn:Eok; [|done].
  unfold header_ok in Eok. apply andb_true_iff in Eok. destruct Eok as [Eg Eroom].
  destruct (wf_placed _ _ Hwf p b Hb) as (o & n & HL & Ho). destruct (Ho Hcu) as [-> Hin].
  destruct Hfit as (Hs & Hl & Ht & Hti). split_and!; [|done|done|].
  - apply (wf_upd s L p b (moved inc b)); [done|done| |done]. exists (owner_of (type b)), n. split; [done|].
    intros _. split; [done|]. intros Htt. change (type (moved inc b)) with (type b) in Htt. destruct (Hin Htt). unfold room_ok in Eroom.
    cbn [moved payload len]. split; [|lia]. destruct Htt as [E|E]; rewrite E in Eroom; by apply Z.leb_le.
  - intros Hmin. unfold pbuf_header_force.
    assert (Hpb : pbufs (with_pbufs (<[p := moved inc b]> (pbufs s)) s) !! p = Some (moved inc b))
      by (cbn [with_pbufs pbufs]; apply lookup_insert_eq).
    assert (Hlen : 0 <= len b + inc).
    { apply orb_true_iff in Eg. destruct Eg as [Eg|Eg]; [apply Z.ltb_lt in Eg|apply Z.leb_le in Eg]; lia. }
    rewrite (header_spec _ p (moved inc b) (- inc) true Hpb Hne); [|lia|unfold lens_fit, is_s16 in *; cbn; lia].
    assert (Eok : header_ok p (moved inc b) (- inc) true = true).
    { unfold header_ok. apply andb_true_iff. cbn [moved len]. split.
      - apply orb_true_iff. rewrite Z.ltb_lt, Z.leb_le. lia.
      - unfold room_ok. cbn [moved type payload]. rewrite orb_true_r.
        destruct (type b) eqn:Et; try done; apply Z.leb_le;
          (destruct (Hin (or_introl Et)) || destruct (Hin (or_intror Et))); lia. }
    rewrite Eok. cbn [negb with_pbufs pbufs]. rewrite insert_insert_eq.
    assert (Em : moved (- inc) (moved inc b) = b) by (destruct b; unfold moved; cbn; f_equal; lia).
    rewrite Em, insert_id by done. by destruct s.
Qed.

(** [pbuf_realloc] shrinks a packet to [new_len] bytes: the result is a
    packet with consistent lengths that holds the first [new_len] bytes of the
    data, made of the first pbufs of the chain; the pbufs behind are
    dereferenced, the freed end of the last heap block is given back, no other
    packet is touched and the invariant is kept.  A packet that is not longer
    than [new_len] stays as it is. *)
Theorem pbuf_realloc_correct (s : state A) (L : gmap Z (owner * Z)) (p : Z) (bl : list (Z * pbuf))
    (new_len : Z) :
  wf s L -> packet (pbufs s) p bl -> p <> NULL -> refs_ok bl -> 0 <= new_len ->
  exists s' bl' L', pbuf_realloc custom_free s p new_len = Ok s' /\ wf s' L' /\ bytes s' = bytes s
    /\ packet (pbufs s') p bl' /\ total bl' = Z.min new_len (total bl)
    /\ cdata (bytes s') bl' = take (Z.to_nat new_len) (cdata (bytes s) bl)
    /\ fst <$> bl' = take (length bl') (fst <$> bl) /\ frame (pbufs s) (pbufs s') (fst <$> bl).
Proof.
  intros Hwf Hpk Hne Hr Hn. pose proof Hpk as (Hc & Hok & Ht). pose proof (length_cdata (bytes s) bl Hok) as Hlen.
  destruct (Z.lt_ge_cases new_len (total bl)) as [Hlt|Hge].
  - destruct (pbuf_realloc_spec custom_free s L p bl new_len Hwf Hpk Hne Hr ltac:(lia))
      as (bl1 & r & br & bl2 & s' & L' & -> & Hrng & E & Hwf' & Eby & Hpk' & Hfr & _).
    exists s', (retot new_len bl1 ++ [(r, shrunk (new_len - total bl1) br)]), L'.
    split_and!; [done..| | | |done].
    + rewrite total_app, retot_total, total_cons. change (total []) with 0. cbn [shrunk len with_next with_tot_len with_len]. lia.
    + rewrite Eby. by apply realloc_cdata.
    + rewrite !fmap_app, retot_fst, length_app, length_cons, <- (length_fmap fst (retot _ _)), retot_fst.
      cbn [fmap list_fmap fst length]. rewrite take_app_ge by lia. f_equal.
      by replace (length (fst <$> bl1) + 1 - length (fst <$> bl1))%nat with 1%nat by lia.
  - exists s, bl, L. destruct bl as [|[x b] bl0]; [done|]. pose proof Hc as (<- & _ & Hb & _).
    pose proof Hok as (_ & Etb & _). rewrite <- (total_cons p) in Etb. split_and!; try done.
    + unfold pbuf_realloc. rewrite (proj2 (Z.eqb_neq p NULL)) by done. cbn [negb lwip_assert res_bind].
      rewrite (deref_ok _ _ _ Hb). cbn [res_bind]. by rewrite Etb, (proj2 (Z.leb_le _ _)) by lia.
    + lia.
    + rewrite take_ge by lia. done.
    + rewrite <- (length_fmap fst). by rewrite take_ge.
Qed.

(** [pbuf_cat] links two packets of together at most 65535 bytes into one
    whose data is the concatenation, with all totals right, without touching
    references or any other pbuf; [pbuf_chain] takes one reference on the tail
    in addition.  (The totals are added in 16 bits without a check.) *)
Theorem pbuf_cat_correct (s : state A) (L : gmap Z (owner * Z)) (h t : Z) (bl1 bl2 : list (Z * pbuf)) :
  wf s L -> packet (pbufs s) h bl1 -> packet (pbufs s) t bl2 -> h <> NULL -> t <> NULL ->
  (forall a, a ∈ fst <$> bl1 -> a ∉ fst <$> bl2) -> total bl1 + total bl2 <= 65535 ->
  exists s' bl1', pbuf_cat s h t = Ok s' /\ wf s' L /\ bytes s' = bytes s
    /\ packet (pbufs s') h (bl1' ++ bl2)
    /\ cdata (bytes s') (bl1' ++ bl2) = cdata (bytes s) bl1 ++ cdata (bytes s) bl2
    /\ fst <$> bl1' = fst <$> bl1 /\ (ref ∘ snd) <$> bl1' = (ref ∘ snd) <$> bl1
    /\ frame (pbufs s) (pbufs s') (fst <$> bl1)
    /\ pbuf_chain s h t = upd s' t (fun b => with_ref (u16 (ref b + 1)) b).
Proof.
  intros Hwf Hp1 Hp2 Hh Ht Hdis Hle.
  assert (Hlast : exists bl r br, bl1 = bl ++ [(r, br)]).
  { destruct (exists_last (l := bl1)) as (bl & [r br] & ->); [intros ->; by destruct Hp1|]. by exists bl, r, br. }
  destruct Hlast as (bl & r & br & ->).
  destruct (pbuf_cat_spec s h bl r br t bl2 Hp1 Hp2 Ht Hdis Hle) as (h' & E & Hpk & Hfr).
  exists (with_pbufs h' s), (cat_front bl r br t (total bl2)). split_and!; try done.
  - by eapply cat_wf.
  - cbn [with_pbufs bytes]. by rewrite cdata_app, cat_front_cdata.
  - apply cat_front_fst.
  - apply cat_front_ref.
  - unfold pbuf_chain. rewrite E. cbn [res_bind]. unfold pbuf_ref. by rewrite (proj2 (Z.eqb_neq t NULL)).
Qed.

(** [pbuf_dechain] cuts the first pbuf off: it becomes a packet of its own
    data, the rest of the chain loses the reference the first pbuf held on it,
    and the result is the rest if a reference is left, NULL if it is gone.
    (Rests of which 256 pbufs are freed at once are excluded: [pbuf_free] counts
    in 8 bits.) *)
Theorem pbuf_dechain_correct (s : state A) (L : gmap Z (owner * Z)) (p : Z) (b : pbuf) (bl2 : list (Z * pbuf)) :
  wf s L -> packet (pbufs s) p ((p, b) :: bl2) -> bl2 <> [] -> refs_ok bl2 -> (length bl2 < 256)%nat ->
  exists gone rest s' L', bl2 = gone ++ rest
    /\ Forall (fun ab => ref (snd ab) = 1) gone /\ Forall (fun ab => 1 < ref (snd ab)) (take 1 rest)
    /\ pbuf_dechain custom_free s p = Ok (if decide (gone = []) then next b else NULL, s')
    /\ wf s' L' /\ bytes s' = bytes s
    /\ packet (pbufs s') p [(p, cut b)] /\ packet (pbufs s') (first rest) (unref rest)
    /\ (forall a, a ∈ fst <$> gone -> pbufs s' !! a = None)
    /\ frame (pbufs s) (pbufs s') (p :: (fst <$> gone ++ take 1 rest)).
Proof.
  intros Hwf Hpk Hne Hr Hlen. destruct (pbuf_dechain_spec custom_free s L p b bl2 Hwf Hpk Hne Hr)
    as (s' & E & Hwf' & Eby & Ep). destruct Hpk as (Hc & Hok & Ht).
  pose proof (chain_NoDup _ _ _ Hc) as Hnd. cbn [fmap list_fmap fst] in Hnd. apply NoDup_cons in Hnd. destruct Hnd as [Hp Hnd].
  destruct Hc as (_ & Hpne & Hb & Hn). set (h1 := <[p := cut b]> (pbufs s)) in *.
  destruct (free_split custom_free bl2 h1 L Hnd) as (rest & E2 & Hd & Hrest & Hch & Hg & Hfr & _).
  { eapply Forall_impl; [exact Hr|]. cbn. intros ab ([? _] & _). done. }
  exists (dead bl2), rest, s', (free_owned L bl2). rewrite E. split_and!; try done.
  - do 2 f_equal. apply (f_equal length) in E2. rewrite length_app in E2.
    rewrite u8_id by (unfold is_u8; lia). destruct (decide (dead bl2 = [])) as [->|Hd0]; [done|].
    rewrite (proj2 (Z.ltb_lt _ _)); [done|]. destruct (dead bl2); [done|]. cbn [length]. lia.
  - rewrite Ep. cbn [lens_ok] in Hok. destruct Hok as (Hlb & Etb & Hok). split_and!.
    + cbn [chain]. rewrite free_heap_other by done. unfold h1. by rewrite lookup_insert_eq.
    + cbn. lia.
    + rewrite total_cons in *. pose proof (lens_ok_nonneg _ Hok). change (total []) with 0. cbn [cut with_tot_len with_next len]. lia.
  - cbn [lens_ok] in Hok. destruct Hok as (Hlb & Etb & Hok). rewrite total_cons in Ht.
    rewrite E2 in Hok, Ht. rewrite total_app in Ht. pose proof (lens_ok_app _ _ Hok) as Hok2.
    assert (Hgone : 0 <= total (dead bl2)).
    { apply total_nonneg. apply lens_ok_len in Hok. by apply Forall_app in Hok as [? _]. }
    rewrite Ep. split_and!.
    + apply (Hch (next b)). eapply chain_frame; [|exact Hn]. intros a Ha. unfold h1.
      rewrite lookup_insert_ne; [done|]. by intros <-.
    + by destruct rest as [|[a c] rest].
    + assert (Eu : total (unref rest) = total rest) by (by destruct rest as [|[a c] rest]).
      rewrite Eu. lia.
  - by rewrite Ep.
  - rewrite Ep. by eapply frame_insert.
Qed.

(** [pbuf_coalesce] copies a chain into a single PBUF_RAM pbuf: it returns
    the old packet unchanged when no memory is left, and otherwise a one-pbuf
    packet with the same data, having released the old chain. *)
Theorem pbuf_coalesce_correct (stale_flags : Z -> Z) (callback_ok : bool) (s : state A)
    (L : gmap Z (owner * Z)) (p : Z) (bl : list (Z * pbuf)) (layer : pbuf_layer) :
  (forall p, Z.land (stale_flags p) PBUF_FLAG_IS_CUSTOM = 0) ->
  wf s L -> packet (pbufs s) p bl -> p <> NULL -> refs_ok bl -> nonempty bl -> own_data bl ->
  ram_request (layer_offset layer) (total bl) <= 65532 -> (1 < length bl)%nat ->
  exists q s', pbuf_coalesce stale_flags custom_free callback_ok s p layer = Ok (q, s')
    /\ ((q = p /\ wf s' L /\ pbufs s' = pbufs s /\ bytes s' = bytes s)
        \/ (exists b L', L !! q = None /\ packet (pbufs s') q [(q, b)]
            /\ cdata (bytes s') [(q, b)] = cdata (bytes s) bl /\ wf s' L'
            /\ pbufs s' = free_heap (<[q := b]> (pbufs s)) bl)).
Proof. intros. by apply pbuf_coalesce_spec. Qed.
End Properties.

(** *** Examples: a chain of three pbufs and a single one *)

Definition or_else {B} (d : B) (r : res B) : B := match r with Ok x => x | Fault _ => d end.

(** The pbufs from [p] on. *)
Fixpoint pbufs_from (fuel : nat) (h : heap) (p : Z) : list (Z * pbuf) :=
  match fuel with
  | O => []
  | S fuel' => match h !! p with Some b => (p, b) :: pbufs_from fuel' h (next b) | None => [] end
  end.

Definition ex1 : Z * state heap_pools :=
  or_else (NULL, st0) (pbuf_alloc (fun _ => 0) no_custom true st0 PBUF_TRANSPORT 300 PBUF_POOL).
Definition ex1_bl : list (Z * pbuf) := pbufs_from 4 (pbufs (snd ex1)) (fst ex1).
Definition ex2 : Z * state heap_pools :=
  or_else (NULL, st0) (pbuf_alloc (fun _ => 0) no_custom true (snd ex1) PBUF_RAW 50 PBUF_RAM).
Definition ex2_bl : list (Z * pbuf) := pbufs_from 4 (pbufs (snd ex2)) (fst ex2).

Lemma alloc_example s L layer n t p s' bl :
  wf s L -> is_u16 n -> (t = PBUF_RAM -> ram_request (layer_offset layer) n <= 65532) ->
  pbuf_alloc (fun _ => 0) (no_custom (A := heap_pools)) true s layer n t = Ok (p, s') -> p <> NULL ->
  chain (pbufs s') p bl ->
  exists L', wf s' L' /\ packet (pbufs s') p bl /\ total bl = n /\ refs_ok bl
    /\ frame (pbufs s) (pbufs s') (fst <$> bl).
Proof.
  intros Hwf Hn Hrq E Hne Hc.
  destruct (pbuf_alloc_spec no_custom (fun _ => 0) true ltac:(done) s L layer n t Hwf Hn Hrq)
    as (p' & s'' & E' & _ & _ & Hpost).
  rewrite E in E'. injection E' as <- <-.
  destruct Hpost as [(-> & _)|(_ & bl' & L' & Hp & Ht & Hfo & Hwf' & _ & _ & Hfr & _)]; [done|].
  pose proof (chain_det _ _ _ _ Hc (proj1 Hp)) as <-. exists L'. split_and!; try done.
  eapply Forall_impl; [exact Hfo|]. intros ab (_ & Hf & Hr). rewrite Hr. split; [lia|].
  unfold is_custom. rewrite Hf. done.
Qed.

(** The two chains have no pbuf in common. *)
Lemma ex_apart a : a ∈ fst <$> ex1_bl -> a ∉ fst <$> ex2_bl.
Proof.
  assert (E : forallb (fun x => bool_decide (x ∉ fst <$> ex2_bl)) (fst <$> ex1_bl) = true) by (vm_compute; reflexivity).
  rewrite forallb_forall in E. intros Ha%list_elem_of_In. apply E in Ha. by apply bool_decide_eq_true in Ha.
Qed.

Lemma ex1_ok : exists L, wf (snd ex1) L /\ packet (pbufs (snd ex1)) (fst ex1) ex1_bl /\ refs_ok ex1_bl.
Proof.
  destruct (alloc_example st0 ∅ PBUF_TRANSPORT 300 PBUF_POOL (fst ex1) (snd ex1) ex1_bl st0_wf)
    as (L & Hwf & Hp & _ & Hr & _).
  - done.
  - done.
  - vm_compute. reflexivity.
  - vm_compute. discriminate.
  - vm_compute. split_and!; reflexivity || discriminate.
  - exists L. split; [exact Hwf|]. split; [exact Hp|exact Hr].
Qed.

Lemma ex2_ok : exists L, wf (snd ex2) L /\ packet (pbufs (snd ex2)) (fst ex1) ex1_bl
  /\ packet (pbufs (snd ex2)) (fst ex2) ex2_bl.
Proof.
  destruct ex1_ok as (L1 & Hwf1 & (Hc1 & Hok1 & Ht1) & _).
  destruct (alloc_example (snd ex1) L1 PBUF_RAW 50 PBUF_RAM (fst ex2) (snd ex2) ex2_bl Hwf1)
    as (L & Hwf & Hp & _ & _ & Hfr).
  - unfold is_u16. lia.
  - intros _. vm_compute. discriminate.
  - vm_compute. reflexivity.
  - vm_compute. discriminate.
  - vm_compute. split_and!; reflexivity || discriminate.
  - exists L. split; [exact Hwf|]. split; [|exact Hp]. split; [|split; [exact Hok1|exact Ht1]].
    eapply chain_frame; [|exact Hc1]. intros a Ha. apply Hfr. intros Hin.
    exact (ex_apart a Ha Hin).
Qed.

Lemma pbuf_header_correct_witness :
  exists b s', pbufs (snd ex1) !! fst ex1 = Some b
    /\ pbuf_header (snd ex1) (fst ex1) 20 = Ok (false, s') /\ pbuf_header_force s' (fst ex1) (-20) = Ok (false, snd ex1).
Proof.
  destruct ex1_ok as (L & Hwf & _).
  assert (Hb : exists b, pbufs (snd ex1) !! fst ex1 = Some b /\ is_custom b = false /\ lens_fit b 20
                 /\ header_ok (fst ex1) b 20 false = true).
  { eexists. split; [vm_compute; reflexivity|]. split; [reflexivity|]. split; [|reflexivity].
    unfold lens_fit, is_s16. cbn [len tot_len]. lia. }
  destruct Hb as (b & Hb & Hc & Hfit & Hok).
  destruct (pbuf_header_correct (snd ex1) L (fst ex1) b 20 false Hwf Hb ltac:(vm_compute; discriminate) Hc ltac:(lia) Hfit)
    as (s' & E & _ & _ & H). rewrite Hok in E, H. destruct H as [_ H].
  exists b, s'. split; [exact Hb|]. split; [exact E|]. apply H. lia.
Defined.

Lemma pbuf_realloc_correct_witness :
  exists s' bl', pbuf_realloc no_custom (snd ex1) (fst ex1) 100 = Ok s'
    /\ packet (pbufs s') (fst ex1) bl' /\ total bl' = 100.
Proof.
  destruct ex1_ok as (L & Hwf & Hp & Hr).
  destruct (pbuf_realloc_correct no_custom (snd ex1) L (fst ex1) ex1_bl 100 Hwf Hp ltac:(vm_compute; discriminate) Hr ltac:(lia))
    as (s' & bl' & L' & E & _ & _ & Hp' & Ht & _).
  exists s', bl'. split; [exact E|]. split; [exact Hp'|]. rewrite Ht. reflexivity.
Defined.

Lemma pbuf_cat_correct_witness :
  exists s' bl1', pbuf_cat (snd ex2) (fst ex1) (fst ex2) = Ok s'
    /\ packet (pbufs s') (fst ex1) (bl1' ++ ex2_bl).
Proof.
  destruct ex2_ok as (L & Hwf & Hp1 & Hp2).
  destruct (pbuf_cat_correct (snd ex2) L (fst ex1) (fst ex2) ex1_bl ex2_bl Hwf Hp1 Hp2) as (s' & bl1' & E & _ & _ & Hp & _).
  - vm_compute. discriminate.
  - vm_compute. discriminate.
  - exact ex_apart.
  - vm_compute. discriminate.
  - exists s', bl1'. split; [exact E|exact Hp].
Defined.

Lemma pbuf_dechain_correct_witness :
  exists b s', pbuf_dechain no_custom (snd ex1) (fst ex1) = Ok (NULL, s')
    /\ packet (pbufs s') (fst ex1) [(fst ex1, cut b)].
Proof.
  destruct ex1_ok as (L & Hwf & Hp & Hr).
  assert (E1 : exists b bl2, ex1_bl = (fst ex1, b) :: bl2 /\ bl2 <> [] /\ (length bl2 < 256)%nat
                 /\ Forall (fun ab => ref (snd ab) = 1) bl2).
  { eexists _, _. split; [vm_compute; reflexivity|]. split; [discriminate|]. split; [cbn; lia|].
    repeat constructor. }
  destruct E1 as (b & bl2 & E1 & Hne & Hlen & Hone). rewrite E1 in Hp, Hr.
  destruct (pbuf_dechain_correct no_custom (snd ex1) L (fst ex1) b bl2 Hwf Hp Hne)
    as (gone & rest & s' & L' & E2 & _ & Hrest & E & _ & _ & Hcut & _); [apply Forall_cons in Hr; apply Hr|exact Hlen|].
  exists b, s'. split; [|exact Hcut]. rewrite E. destruct (decide (gone = [])) as [->|]; [|reflexivity].
  exfalso. cbn in E2. subst rest. destruct bl2 as [|[a c] bl2]; [exact (Hne eq_refl)|]. apply Forall_inv in Hone.
  cbn in Hrest. apply Forall_inv in Hrest. cbn in *. lia.
Defined.

Lemma pbuf_coalesce_correct_witness :
  exists q s' b, pbuf_coalesce (fun _ => 0) no_custom true (snd ex1) (fst ex1) PBUF_RAW = Ok (q, s')
    /\ packet (pbufs s') q [(q, b)].
Proof.
  destruct ex1_ok as (L & Hwf & Hp & Hr).
  destruct (pbuf_coalesce_correct no_custom (fun _ => 0) true (snd ex1) L (fst ex1) ex1_bl PBUF_RAW
    ltac:(done) Hwf Hp ltac:(vm_compute; discriminate) Hr) as (q & s' & E & Hcase).
  - vm_compute. repeat constructor.
  - unfold own_data. vm_compute. repeat constructor; by right.
  - vm_compute. discriminate.
  - vm_compute. lia.
  - destruct Hcase as [(-> & _)|(b & L' & _ & Hp' & _)].
    + vm_compute in E. discriminate E.
    + exists q, s', b. split; [exact E|exact Hp'].
Defined.
