(* ===== verification/Chunks.v ===== *)
(** * Packets side by side: the operations of pbuf.c when several packets are held

    A component that keeps several packets at once (the queues of TCP) needs more than the
    effect of an operation on the packet it works on: the others must stay as they are.  A
    [chunk] is a packet together with the place of the TCP header that came with it, in its
    first pbuf, in front of the payload; [held] says that the chunks of a list are alive and
    share no pbuf.  Their headers and data then lie in different blocks of memory.  Every
    operation below works on the first chunk and keeps the list held. *)

From S2P Require Import Prelude Mem Memp Pbuf PbufData PbufAlloc PbufOps.

(** ** Chunks *)

Record chunk := mk_chunk { c_hdr : Z; c_bl : list (Z * pbuf) }.

Definition HDR : Z := 20.

Definition addrs (c : chunk) : list Z := fst <$> c_bl c.

(** Pbufs with data of their own that are referenced and not custom. *)
Definition plain (bl : list (Z * pbuf)) : Prop :=
  Forall (fun ab => 0 < ref (snd ab) < 65536 /\ is_custom (snd ab) = false
                    /\ (type (snd ab) = PBUF_RAM \/ type (snd ab) = PBUF_POOL)) bl.

(** The header lies in the first pbuf, in front of its payload. *)
Definition hdr_ok (hdr : Z) (bl : list (Z * pbuf)) : Prop :=
  match bl with
  | (a, b) :: _ => a + SIZEOF_STRUCT_PBUF <= hdr /\ hdr + HDR <= payload b
  | [] => False
  end.

Definition disjoint_chunks (c c' : chunk) : Prop := forall a, a ∈ addrs c -> a ∉ addrs c'.

Fixpoint sep (cs : list chunk) : Prop :=
  match cs with
  | [] => True
  | c :: cs' => Forall (disjoint_chunks c) cs' /\ sep cs'
  end.

Lemma disjoint_sym c c' : disjoint_chunks c c' -> disjoint_chunks c' c.
Proof. intros Ha a H' H. by apply (Ha a). Qed.

Lemma sep_part c' c cs : (forall a, a ∈ addrs c' -> a ∈ addrs c) -> sep (c :: cs) -> sep (c' :: cs).
Proof. intros Hp (Hd & Hr). split; [|done]. eapply Forall_impl; [exact Hd|]. intros x Hx a Ha. by apply Hx, Hp. Qed.

Lemma sep_perm cs cs' : cs ≡ₚ cs' -> sep cs -> sep cs'.
Proof.
  induction 1 as [|c l l' Hp IH|c c' l|l1 l2 l3 _ IH1 _ IH2]; cbn [sep]; [done| | |tauto].
  - intros (Hd & ?). split; [by rewrite <- Hp|tauto].
  - intros (Hd1 & Hd2 & Hs). apply Forall_cons in Hd1 as [Hd1 Hd1'].
    split_and!; [|done|done]. constructor; [by apply disjoint_sym|done].
Qed.

Section Held.
Context {A : Type} `{AllocSpec A}.
Variable custom_free : Z -> Z -> state A -> res (state A).
Implicit Types s : state A.

Definition lives s (c : chunk) : Prop :=
  packet (pbufs s) (first (c_bl c)) (c_bl c) /\ plain (c_bl c) /\ first (c_bl c) <> NULL /\ hdr_ok (c_hdr c) (c_bl c).

Record held s (cs : list chunk) : Prop := {
  held_wf : exists L, wf s L;
  held_lives : Forall (lives s) cs;
  held_sep : sep cs
}.

Lemma lives_frame s s' c l : frame (pbufs s) (pbufs s') l -> (forall a, a ∈ addrs c -> a ∉ l) -> lives s c -> lives s' c.
Proof.
  intros Hf Hd ((Hc & Hok) & Hp). split; [|done]. split; [|done]. eapply chain_frame; [|exact Hc].
  intros a Ha. by apply Hf, Hd.
Qed.

Lemma lives_others s s' c cs :
  Forall (lives s) cs -> Forall (disjoint_chunks c) cs -> frame (pbufs s) (pbufs s') (addrs c) -> Forall (lives s') cs.
Proof.
  intros Hl Hd Hf. rewrite Forall_forall in *. intros x Hx. eapply lives_frame; [exact Hf| |by apply Hl].
  intros a Ha Ha'. by apply (Hd x Hx a).
Qed.

Lemma held_perm s cs cs' : cs ≡ₚ cs' -> held s cs -> held s cs'.
Proof. intros Hp [Hw Hl Hs]. split; [done|by rewrite <- Hp|by eapply sep_perm]. Qed.

Lemma held_cons s c cs : held s (c :: cs) -> lives s c /\ Forall (lives s) cs /\ Forall (disjoint_chunks c) cs /\ held s cs.
Proof. intros [Hw Hl (Hd & Hr)]. apply Forall_cons in Hl as [Hc Hl]. split_and!; done. Qed.

(** Replace the first chunk by a part of it. *)
Lemma held_part s s' L c c' cs :
  held s (c :: cs) -> wf s' L -> lives s' c' -> (forall a, a ∈ addrs c' -> a ∈ addrs c) -> frame (pbufs s) (pbufs s') (addrs c) -> held s' (c' :: cs).
Proof.
  intros [Hw Hl Hs] Hwf Hc Hp Hf. apply Forall_cons in Hl as [_ Hl]. split; [by exists L| |by eapply sep_part].
  constructor; [done|]. eapply lives_others; [done|apply Hs|done].
Qed.

Lemma plain_refs bl : plain bl -> refs_ok bl.
Proof. intros Hp. eapply Forall_impl; [exact Hp|]. intros ab (Hr & Hc & _). split; [lia|congruence]. Qed.

Lemma held_free s c cs :
  held s (c :: cs) -> exists k s', pbuf_free custom_free s (first (c_bl c)) = Ok (k, s') /\ held s' cs /\ bytes s' = bytes s.
Proof.
  intros [[L Hw] Hl Hs]. apply Forall_cons in Hl as [((Hc & _) & Hp & Hne & _) Hl].
  destruct (pbuf_free_spec custom_free s L _ _ Hw Hc Hne (plain_refs _ Hp)) as (s' & E & Hw' & Ep & Eb & _).
  eexists _, s'. split_and!; [exact E| |done]. split; [by eexists|eapply lives_others; [done|apply Hs|]|apply Hs].
  intros a Ha. rewrite Ep. by apply free_heap_other.
Qed.

(** *** pbuf_realloc *)

Lemma plain_realloc n bl1 r br bl2 k : plain (bl1 ++ (r, br) :: bl2) -> plain (retot n bl1 ++ [(r, shrunk k br)]).
Proof.
  unfold plain. rewrite !Forall_app, Forall_cons, !Forall_forall. intros (H1 & H2 & _). split.
  - intros [a c] Hin. destruct (retot_elem _ _ _ _ Hin) as (b & v & Hb & ->). exact (H1 _ Hb).
  - intros ab' ->%list_elem_of_singleton. exact H2.
Qed.

Lemma hdr_realloc hdr n bl1 r br bl2 k : hdr_ok hdr (bl1 ++ (r, br) :: bl2) -> hdr_ok hdr (retot n bl1 ++ [(r, shrunk k br)]).
Proof. by destruct bl1 as [|[a b] bl1]. Qed.

Lemma first_realloc n bl1 r br bl2 k : first (retot n bl1 ++ [(r, shrunk k br)]) = first (bl1 ++ (r, br) :: bl2).
Proof. by destruct bl1 as [|[a b] bl1]. Qed.

(** A packet that is cut to its first [l] bytes. *)
Lemma held_realloc s c cs l :
  held s (c :: cs) -> 0 <= l <= total (c_bl c) ->
  exists s' bl', pbuf_realloc custom_free s (first (c_bl c)) l = Ok s' /\ held s' (mk_chunk (c_hdr c) bl' :: cs)
    /\ bytes s' = bytes s /\ first bl' = first (c_bl c) /\ total bl' = l
    /\ (forall m, cdata m bl' = take (Z.to_nat l) (cdata m (c_bl c))).
Proof.
  intros Hh Hl. pose proof Hh as [[L Hw] Hls Hs]. apply Forall_cons in Hls as [(Hpk & Hp & Hne & Hhd) _].
  destruct (Z.lt_ge_cases l (total (c_bl c))) as [Hlt|Hge].
  - destruct (pbuf_realloc_spec custom_free s L _ _ l Hw Hpk Hne (plain_refs _ Hp) ltac:(lia))
      as (bl1 & r & br & bl2 & s' & L' & E & Hrng & Er & Hw' & Eb & Hpk' & Hfr & _).
    exists s', (retot l bl1 ++ [(r, shrunk (l - total bl1) br)]). split_and!; [exact Er| |done| | |].
    + eapply held_part; [exact Hh|exact Hw'| | |exact Hfr].
      * split_and!; cbn [c_bl c_hdr]; rewrite ?(first_realloc _ _ _ _ bl2), <- ?E; [exact Hpk'| |done|].
        -- apply (plain_realloc _ _ _ _ bl2). by rewrite <- E.
        -- apply (hdr_realloc _ _ _ _ _ bl2). by rewrite <- E.
      * intros a. unfold addrs. cbn [c_bl]. rewrite E, !fmap_app, retot_fst, !elem_of_app. cbn [fmap list_fmap fst].
        rewrite list_elem_of_singleton, elem_of_cons. tauto.
    + by rewrite (first_realloc _ _ _ _ bl2), <- E.
    + rewrite total_app, retot_total, total_cons. change (total []) with 0. cbn [shrunk len with_next with_tot_len with_len]. lia.
    + intros m. rewrite E. apply realloc_cdata; [|lia]. rewrite <- E. apply Hpk.
  - exists s, (c_bl c). assert (l = total (c_bl c)) as -> by lia. destruct Hpk as (Hc & Hok & Ht).
    split_and!; [|by destruct c|done|done|done|].
    + destruct (c_bl c) as [|[x b] bl0]; [done|]. pose proof Hc as (_ & _ & Hb & _). pose proof Hok as (_ & Etb & _).
      cbn [first] in *. unfold pbuf_realloc. rewrite (proj2 (Z.eqb_neq x NULL)) by done. cbn [negb lwip_assert res_bind].
      rewrite (deref_ok _ _ _ Hb). cbn [res_bind]. by rewrite Etb, total_cons, (proj2 (Z.leb_le _ _)) by lia.
    + intros m. rewrite take_ge; [done|]. pose proof (length_cdata m _ Hok). lia.
Qed.

(** *** pbuf_cat *)

Lemma first_same (bl bl' : list (Z * pbuf)) : fst <$> bl' = fst <$> bl -> first bl' = first bl.
Proof. by destruct bl as [|[]], bl' as [|[]]; intros [=]. Qed.

Lemma sep_join c1 c2 cs hdr : sep (c1 :: c2 :: cs) -> sep (mk_chunk hdr (c_bl c1 ++ c_bl c2) :: cs).
Proof.
  cbn [sep]. intros (Hd1 & Hd2 & Hs). apply Forall_cons in Hd1 as [_ Hd1]. split; [|done].
  rewrite Forall_forall in *. intros x Hx a. unfold addrs. cbn [c_bl]. rewrite fmap_app, elem_of_app.
  intros [Ha|Ha]; [by apply (Hd1 x Hx)|by apply (Hd2 x Hx)].
Qed.

(** The second packet is linked behind the first. *)
Lemma held_cat s c1 c2 cs :
  held s (c1 :: c2 :: cs) -> total (c_bl c1) + total (c_bl c2) <= 65535 ->
  exists s' bl', pbuf_cat s (first (c_bl c1)) (first (c_bl c2)) = Ok s' /\ held s' (mk_chunk (c_hdr c1) bl' :: cs)
    /\ bytes s' = bytes s /\ first bl' = first (c_bl c1) /\ total bl' = total (c_bl c1) + total (c_bl c2)
    /\ (forall m, cdata m bl' = cdata m (c_bl c1) ++ cdata m (c_bl c2)).
Proof.
  intros [[L Hw] Hl Hs] Ht. apply Forall_cons in Hl as [(Hp1 & Hr1 & Hn1 & Hh1) Hl]. apply Forall_cons in Hl as [(Hp2 & Hr2 & Hn2 & _) Hl].
  pose proof Hs as (Hd1 & Hd2 & _). apply Forall_cons in Hd1 as [Hd Hd1].
  destruct (exists_last (l := c_bl c1)) as (bl & [r br] & E); [by intros E; rewrite E in Hn1|].
  destruct (pbuf_cat_spec s (first (c_bl c1)) bl r br (first (c_bl c2)) (c_bl c2)) as (h' & Ec & Hpk & Hfr);
    rewrite <- ?E; [done..|]. rewrite <- E in Hfr.
  set (f := cat_front bl r br (first (c_bl c2)) (total (c_bl c2))) in *.
  assert (Hel : forall a c, (a, c) ∈ f -> exists b, (a, b) ∈ c_bl c1 /\ same_data b c /\ ref c = ref b).
  { intros a c Hin. unfold f, cat_front in Hin. rewrite E. apply elem_of_app in Hin as [Hin|Hin%list_elem_of_singleton].
    - destruct (retot_elem _ _ _ _ Hin) as (b & v & Hb & ->). exists b. split; [apply elem_of_app; by left|by split].
    - injection Hin as -> ->. exists br. split; [apply elem_of_app; right; left|by split]. }
  assert (Hfst : fst <$> f = addrs c1) by (unfold addrs; rewrite E; apply cat_front_fst).
  assert (Hf1 : first (f ++ c_bl c2) = first (c_bl c1)).
  { unfold addrs in Hfst. destruct f as [|[] ?], (c_bl c1) as [|[] ?]; try done. by injection Hfst as -> _. }
  exists (with_pbufs h' s), (f ++ c_bl c2). split_and!; [done| |done|done| |].
  - split.
    + exists L. eapply cat_wf; [exact Hw|rewrite <- E; exact Hp1|exact Hpk|by rewrite <- E].
    + constructor.
      * split_and!; cbn [c_bl c_hdr]; [by rewrite Hf1| |by rewrite Hf1|].
        -- apply Forall_app. split; [|done]. apply Forall_forall. intros [a c] Hin.
           destruct (Hel _ _ Hin) as (b & Hb & (Et & _ & _ & Ef) & Er). unfold plain in Hr1. rewrite Forall_forall in Hr1.
           specialize (Hr1 _ Hb). cbn [snd] in *. unfold is_custom in *. by rewrite Er, Ef, Et.
        -- destruct f as [|[a c] f']; [unfold addrs in Hfst; by destruct (c_bl c1)|]. cbn [app hdr_ok first] in *.
           destruct (Hel a c) as (b & Hb & (_ & Ep & _) & _); [left|]. destruct (c_bl c1) as [|[a1 b1] bl1]; [done|]. cbn [hdr_ok first] in *.
           subst a1. rewrite Ep. assert (b = b1) as ->; [|done].
           apply (chain_lookup _ _ _ _ _ (proj1 Hp1)) in Hb as [_ Hb]. destruct Hp1 as ((_ & _ & Hb1 & _) & _). congruence.
      * by eapply (lives_others s (with_pbufs h' s) c1).
    + apply (sep_part _ (mk_chunk (c_hdr c1) (c_bl c1 ++ c_bl c2))); [|by apply (sep_join c1 c2)]. intros a. unfold addrs. cbn [c_bl].
      rewrite !fmap_app, Hfst. done.
  - rewrite total_app. f_equal. unfold f, cat_front. rewrite E, !total_app, retot_total. done.
  - intros m. rewrite cdata_app. f_equal. unfold f. rewrite cat_front_cdata. by rewrite E.
Qed.

(** *** pbuf_ref *)

Definition head_ref (bl : list (Z * pbuf)) : Z := match bl with (_, b) :: _ => ref b | [] => 0 end.

Lemma held_ref s c cs :
  held s (c :: cs) -> head_ref (c_bl c) < 65535 ->
  exists s' bl', pbuf_ref s (first (c_bl c)) = Ok s' /\ held s' (mk_chunk (c_hdr c) bl' :: cs)
    /\ bytes s' = bytes s /\ first bl' = first (c_bl c) /\ total bl' = total (c_bl c)
    /\ (forall m, cdata m bl' = cdata m (c_bl c)).
Proof.
  intros Hh Hr. pose proof Hh as [[L Hw] Hl _]. apply Forall_cons in Hl as [(Hpk & Hp & Hne & Hhd) _].
  destruct c as [hdr [|[a b] bl]]; [done|]. cbn [c_bl c_hdr first head_ref] in *.
  pose proof Hpk as ((_ & _ & Hb & Hc) & Hok & Ht). pose proof (chain_NoDup _ _ _ (proj1 Hpk)) as Hnd.
  cbn [fmap list_fmap fst] in Hnd. apply NoDup_cons in Hnd as [Hna _]. apply Forall_cons in Hp as [(Hrb & Hcb & Htb) Hp]. cbn [snd] in *.
  unfold pbuf_ref. rewrite (proj2 (Z.eqb_neq a NULL)) by done. cbn [negb]. rewrite (upd_ok _ _ _ _ Hb).
  rewrite u16_id by (unfold is_u16; lia). eexists _, ((a, with_ref (ref b + 1) b) :: bl). split_and!; try done.
  eapply (held_part _ _ L); [exact Hh| | | |].
  - eapply wf_upd; [done|done| |reflexivity]. exact (wf_placed _ _ Hw a b Hb).
  - split_and!; cbn [c_bl first with_pbufs pbufs]; [|constructor; [cbn [snd]; split; [cbn [with_ref ref]; lia|done]|done]|done|done].
    split_and!; [|done|done]. cbn [chain]. rewrite lookup_insert_eq. split_and!; try done. cbn [with_ref next].
    eapply chain_frame; [|exact Hc]. intros x Hx. rewrite lookup_insert_ne; [done|]. by intros <-.
  - done.
  - intros x Hx. cbn [with_pbufs pbufs]. rewrite lookup_insert_ne; [done|]. intros <-. apply Hx. left.
Qed.

(** *** Writing to a header *)

Lemma lives_bytes s m c : lives s c -> lives (with_bytes m s) c.
Proof. done. Qed.

Lemma held_bytes s m cs : held s cs -> held (with_bytes m s) cs.
Proof. intros [[L [Ho Hp]] Hl Hs]. split; [exists L; by split|done|done]. Qed.

(** The block of the first pbuf of a chunk, with its header. *)
Lemma hdr_block s L c : wf s L -> lives s c ->
  exists o n, L !! first (c_bl c) = Some (o, n) /\ first (c_bl c) <= c_hdr c /\ c_hdr c + HDR <= first (c_bl c) + n.
Proof.
  intros Hw ((Hc & Hok & _) & Hp & _ & Hhd). destruct (c_bl c) as [|[a b] bl]; [done|]. destruct Hc as (_ & _ & Hb & _).
  apply Forall_inv in Hp as (_ & Hcu & Ht). destruct (wf_placed _ _ Hw a b Hb) as (o & n & HL & Hin). destruct (Hin Hcu) as [_ Hbl].
  specialize (Hbl Ht). destruct Hok as (Hl & _). cbn [hdr_ok first snd] in *. exists o, n. unfold SIZEOF_STRUCT_PBUF in *. split_and!; [done|lia|lia].
Qed.

(** The block of a pbuf with its data. *)
Lemma data_block s L c a b : wf s L -> lives s c -> (a, b) ∈ c_bl c ->
  pbufs s !! a = Some b /\ 0 <= len b
  /\ exists o n, L !! a = Some (o, n) /\ a <= payload b /\ payload b + len b <= a + n.
Proof.
  intros Hw ((Hc & Hok & _) & Hp & _) Hin. destruct (chain_lookup _ _ _ _ _ Hc Hin) as (_ & Hb). unfold plain in Hp.
  rewrite Forall_forall in Hp. destruct (Hp _ Hin) as (_ & Hcu & Ht). cbn [snd] in *.
  pose proof (lens_ok_len _ Hok) as Hl. rewrite Forall_forall in Hl. specialize (Hl _ Hin).
  destruct (wf_placed _ _ Hw a b Hb) as (o & n & HL & Hbl). destruct (Hbl Hcu) as [_ Hbl']. specialize (Hbl' Ht).
  split_and!; [done|done|]. exists o, n. unfold SIZEOF_STRUCT_PBUF in *. split_and!; [done|lia|lia].
Qed.

(** No header lies in the data of a chunk. *)
Lemma held_apart s c cs x : held s (c :: cs) -> x ∈ c :: cs -> apart (c_hdr c) HDR (c_bl x).
Proof.
  intros [[L Hw] Hl _] Hx. rewrite Forall_forall in Hl. pose proof (Hl c ltac:(left)) as Hc. specialize (Hl x Hx).
  destruct (hdr_block s L c Hw Hc) as (o & n & HL & H1 & H2). apply Forall_forall. intros [a b] Hin. cbn [snd].
  destruct (data_block s L x a b Hw Hl Hin) as (Hb & Hlen & o' & n' & HL' & H3 & H4).
  destruct (decide (a = first (c_bl c))) as [->|Hne].
  - left. destruct Hc as ((Hch & _) & _ & _ & Hhd). destruct (c_bl c) as [|[a1 b1] bl]; [done|]. cbn [first hdr_ok] in *.
    destruct Hch as (_ & _ & Hb1 & _). rewrite Hb1 in Hb. injection Hb as ->. lia.
  - destruct (owned_apart _ _ _ _ _ _ _ _ (wf_owned _ _ Hw) HL HL' (not_eq_sym Hne)); lia.
Qed.

(** The data of every packet stays, and so do the headers of the others. *)
Lemma held_wr_data s c cs x m o bs :
  held s (c :: cs) -> x ∈ c :: cs -> 0 <= o -> o + Z.of_nat (length bs) <= HDR ->
  cdata (wr m (c_hdr c + o) bs) (c_bl x) = cdata m (c_bl x).
Proof.
  intros Hh Hx Ho Hlen. pose proof (held_lives _ _ Hh) as Hl. rewrite Forall_forall in Hl. apply cdata_wr_apart; [apply (Hl x Hx)|].
  apply (apart_sub (c_hdr c) HDR); [|lia|lia]. by eapply held_apart.
Qed.

Lemma held_wr_hdr s c cs x m o bs o' k :
  held s (c :: cs) -> x ∈ cs -> 0 <= o -> o + Z.of_nat (length bs) <= HDR -> 0 <= o' -> o' + Z.of_nat k <= HDR ->
  rd (wr m (c_hdr c + o) bs) (c_hdr x + o') k = rd m (c_hdr x + o') k.
Proof.
  intros [[L Hw] Hl (Hd & _)] Hx Ho Hlen Ho' Hk. rewrite Forall_forall in Hd, Hl. specialize (Hd x Hx).
  pose proof (Hl c ltac:(left)) as Hc. specialize (Hl x ltac:(by right)).
  destruct (hdr_block s L c Hw Hc) as (o1 & n1 & HL1 & H1 & H2). destruct (hdr_block s L x Hw Hl) as (o2 & n2 & HL2 & H3 & H4).
  assert (Hne : first (c_bl c) <> first (c_bl x)).
  { intros E. apply (Hd (first (c_bl c))); [|rewrite E].
    - destruct Hc as (_ & _ & _ & Hhd). unfold addrs. destruct (c_bl c) as [|[] ?]; [done|left].
    - destruct Hl as (_ & _ & _ & Hhd). unfold addrs. destruct (c_bl x) as [|[] ?]; [done|left]. }
  apply rd_wr_apart. destruct (owned_apart _ _ _ _ _ _ _ _ (wf_owned _ _ Hw) HL1 HL2 Hne); lia.
Qed.

(** *** Giving up data *)

(** [b'] is [b] with less data. *)
Definition less_data (b b' : pbuf) : Prop :=
  type b' = type b /\ flags b' = flags b /\ payload b <= payload b' /\ payload b' + len b' <= payload b + len b.

Lemma placed_less L p b b' : less_data b b' -> placed L p b -> placed L p b'.
Proof.
  intros (Et & Ef & Hp & Hl) (o & n & HL & Hin). exists o, n. split; [done|]. unfold is_custom, in_block in *.
  rewrite Et, Ef. intros Hc. destruct (Hin Hc) as [-> Hb]. split; [done|]. intros Ht. specialize (Hb Ht). lia.
Qed.

Lemma wf_less s L h' :
  wf s L -> (forall a b', h' !! a = Some b' -> exists b, pbufs s !! a = Some b /\ less_data b b') -> wf (with_pbufs h' s) L.
Proof.
  intros [Ho Hp] Hs. split; [done|]. intros p b' Hb'. cbn [with_pbufs pbufs] in Hb'.
  destruct (Hs p b' Hb') as (b & Hb & Hld). eapply placed_less; [done|by apply Hp].
Qed.

(** A chunk all of whose pbufs are those of [c] with less data. *)
Lemma held_less s c cs h' bl' :
  held s (c :: cs) -> packet h' (first (c_bl c)) bl' -> first bl' = first (c_bl c) -> frame (pbufs s) h' (addrs c) ->
  Forall (fun ab' => exists b, (fst ab', b) ∈ c_bl c /\ less_data b (snd ab') /\ ref (snd ab') = ref b) bl' ->
  fst <$> bl' = addrs c -> held (with_pbufs h' s) (mk_chunk (c_hdr c) bl' :: cs).
Proof.
  intros Hh Hpk Hf Hfr Hbl Hfst. pose proof Hh as [[L Hw] Hl _]. apply Forall_cons in Hl as [((Hc & _) & Hp & Hne & Hhd) _].
  rewrite Forall_forall in Hbl. eapply (held_part _ _ L); [exact Hh| | | |exact Hfr].
  - apply (wf_less s L h' Hw). intros a b' Hb'. destruct (decide (a ∈ addrs c)) as [Hin|Hin].
    + rewrite <- Hfst in Hin. apply list_elem_of_fmap in Hin as (ab' & -> & Hin).
      destruct (chain_lookup _ _ _ (fst ab') (snd ab') (proj1 Hpk)) as [_ Hx]; [by destruct ab'|]. rewrite Hx in Hb'. injection Hb' as <-.
      destruct (Hbl _ Hin) as (b & Hb & Hld & _). exists b. split; [|done]. by apply (chain_lookup _ _ _ _ _ Hc Hb).
    + exists b'. rewrite <- (Hfr a Hin). split; [done|]. split_and!; [done|done|lia|lia].
  - split_and!; cbn [c_bl c_hdr]; [by rewrite Hf| |by rewrite Hf|].
    + apply Forall_forall. intros ab' Hin. destruct (Hbl _ Hin) as (b & Hb & (Et & Ef & _) & Er). unfold plain in Hp.
      rewrite Forall_forall in Hp. specialize (Hp _ Hb). cbn [snd] in Hp. unfold is_custom in *. by rewrite Er, Ef, Et.
    + destruct bl' as [|[a b'] bl']; [by destruct (c_bl c)|]. destruct (Hbl (a, b')) as (b & Hb & (_ & _ & Hpl & _) & _); [left|].
      cbn [fst snd hdr_ok first] in *. destruct (c_bl c) as [|[a1 b1] bl1]; [done|]. cbn [hdr_ok first] in *. subst a1.
      apply (chain_lookup _ _ _ _ _ Hc) in Hb as [_ Hb]. destruct Hc as (_ & _ & Hb1 & _). rewrite Hb1 in Hb. injection Hb as ->. lia.
  - unfold addrs. cbn [c_bl]. rewrite Hfst. done.
Qed.

End Held.
