(* ===== verification/Timeouts.v ===== *)
(** * The timer list: lwip/src/core/timeouts.c

    Pending timeouts are kept in a singly linked list in which every entry
    stores the time after its predecessor; the first counts from
    [timeouts_last_time].  The list is private to the file, so the model keeps it
    as a list.  [sys_now] is the field [clock]; the rest of the stack, which the
    handlers work on, is the type [W].  The elements of the pool
    MEMP_SYS_TIMEOUT are counted (see [Memp] for the pool itself).  With
    NO_SYS 0, PBUF_CHECK_FREE_OOSEQ is empty. *)

From S2P Require Import Prelude.

(** ** Definitions *)

(** Timeout callbacks: the two of this file and those of other files. *)
Inductive sys_timeout_handler := H_NULL | H_tcpip_tcp_timer | H_cyclic_timer | H_other (f : Z).

#[global] Instance handler_eq_dec : EqDecision sys_timeout_handler.
Proof. solve_decision. Defined.

(** [struct sys_timeo] without [next]. *)
Record timeo := mk_timeo { time : Z; h : sys_timeout_handler; arg : Z }.

Definition with_time (v : Z) (t : timeo) : timeo := mk_timeo v (h t) (arg t).

(** The handlers in [lwip_cyclic_timers]. *)
Inductive lwip_cyclic_timer_handler := tcp_tmr | ip_reass_tmr | etharp_tmr | igmp_tmr | dns_tmr.

Record lwip_cyclic_timer := mk_cyclic { interval_ms : Z; handler : lwip_cyclic_timer_handler }.

Definition TCP_TMR_INTERVAL : Z := 250.

(** LWIP_DHCP, LWIP_AUTOIP and LWIP_IPV6 are 0. *)
Definition lwip_cyclic_timers : list lwip_cyclic_timer :=
  [mk_cyclic TCP_TMR_INTERVAL tcp_tmr; mk_cyclic 1000 ip_reass_tmr; mk_cyclic 1000 etharp_tmr;
   mk_cyclic 100 igmp_tmr; mk_cyclic 1000 dns_tmr].

(** The static variables, the number of free elements of the pool, the time and
    the rest of the stack. *)
Record tstate (W : Type) := mk_tstate {
  next_timeout : list timeo;
  timeouts_last_time : Z;
  tcpip_tcp_timer_active : bool;
  timeout_pool : nat;
  clock : Z;
  world : W
}.
Arguments mk_tstate {W} _ _ _ _ _ _.
Arguments next_timeout {W} _.
Arguments timeouts_last_time {W} _.
Arguments tcpip_tcp_timer_active {W} _.
Arguments timeout_pool {W} _.
Arguments clock {W} _.
Arguments world {W} _.

Section Timeouts.
Context {W : Type}.
Implicit Types s : tstate W.

Definition sys_now s : Z := clock s.

Definition with_list (l : list timeo) (last : Z) (pool : nat) s : tstate W :=
  mk_tstate l last (tcpip_tcp_timer_active s) pool (clock s) (world s).
Definition with_active (b : bool) s : tstate W :=
  mk_tstate (next_timeout s) (timeouts_last_time s) b (timeout_pool s) (clock s) (world s).
Definition with_world (w : W) s : tstate W :=
  mk_tstate (next_timeout s) (timeouts_last_time s) (tcpip_tcp_timer_active s) (timeout_pool s)
    (clock s) w.

(** The [for] loop of [sys_timeout]; [first] is [next_timeout->time]. *)
Fixpoint insert_loop (timeout : timeo) (msecs first : Z) (l : list timeo) : list timeo :=
  match l with
  | [] => []
  | t :: l' =>
      let timeout := with_time (u32 (time timeout - time t)) timeout in
      match l' with
      | [] =>
          t :: [if msecs <? time timeout then with_time (u32 (msecs + first)) timeout else timeout]
      | n :: l'' =>
          if time timeout <? time n
          then t :: timeout :: with_time (u32 (time n - time timeout)) n :: l''
          else t :: insert_loop timeout msecs first l'
      end
  end.

(** An empty pool fails the assertion. *)
Definition sys_timeout (msecs : Z) (handler : sys_timeout_handler) (a : Z) s : res (tstate W) :=
  match timeout_pool s with
  | O => Fault FAssert
  | S pool =>
      let now := sys_now s in
      match next_timeout s with
      | [] => Ok (with_list [mk_timeo (u32 (msecs + 0)) handler a] now pool s)
      | t :: l =>
          let diff := u32 (now - timeouts_last_time s) in
          let timeout := mk_timeo (u32 (msecs + diff)) handler a in
          if msecs <? time t
          then Ok (with_list (timeout :: with_time (u32 (time t - msecs)) t :: l)
                     (timeouts_last_time s) pool s)
          else Ok (with_list (insert_loop timeout msecs (time t) (t :: l)) (timeouts_last_time s) pool s)
      end
  end.

(** The [for] loop of [sys_untimeout]; [None] when no entry matches. *)
Fixpoint untimeout_loop (handler : sys_timeout_handler) (a : Z) (l : list timeo)
    : option (list timeo) :=
  match l with
  | [] => None
  | t :: l' =>
      if bool_decide (h t = handler) && (arg t =? a) then
        Some (match l' with
              | n :: l'' => with_time (u32 (time n + time t)) n :: l''
              | [] => []
              end)
      else
        match untimeout_loop handler a l' with
        | Some r => Some (t :: r)
        | None => None
        end
  end.

Definition sys_untimeout (handler : sys_timeout_handler) (a : Z) s : tstate W :=
  match untimeout_loop handler a (next_timeout s) with
  | Some l => with_list l (timeouts_last_time s) (S (timeout_pool s)) s
  | None => s
  end.

(** *** The stack's own timers

    [cyclic_run] runs one of the handlers of [lwip_cyclic_timers];
    [pcbs w]: whether [tcp_active_pcbs || tcp_tw_pcbs]. *)

Variable cyclic_run : lwip_cyclic_timer_handler -> tstate W -> res (tstate W).
Variable pcbs : W -> bool.

Definition tcpip_tcp_timer s : res (tstate W) :=
  let* s := cyclic_run tcp_tmr s in
  if pcbs (world s) then sys_timeout TCP_TMR_INTERVAL H_tcpip_tcp_timer NULL s
  else Ok (with_active false s).

Definition tcp_timer_needed s : res (tstate W) :=
  if negb (tcpip_tcp_timer_active s) && pcbs (world s)
  then sys_timeout TCP_TMR_INTERVAL H_tcpip_tcp_timer NULL (with_active true s)
  else Ok s.

(** [arg] is the index into [lwip_cyclic_timers]. *)
Definition cyclic_timer (a : Z) s : res (tstate W) :=
  match lwip_cyclic_timers !! Z.to_nat a with
  | Some c =>
      let* s := cyclic_run (handler c) s in
      sys_timeout (interval_ms c) H_cyclic_timer a s
  | None => Fault FBadAccess
  end.

Fixpoint init_loop (i : nat) (l : list lwip_cyclic_timer) s : res (tstate W) :=
  match l with
  | [] => Ok s
  | c :: l' =>
      let* s := sys_timeout (interval_ms c) H_cyclic_timer (Z.of_nat i) s in init_loop (S i) l' s
  end.

Definition sys_timeouts_init s : res (tstate W) :=
  let* s := init_loop 1 (drop 1 lwip_cyclic_timers) s in
  Ok (with_list (next_timeout s) (sys_now s) (timeout_pool s) s).

(** *** Expiry

    [other_run f a]: call the handler [f] of another file. *)

Variable other_run : Z -> Z -> tstate W -> res (tstate W).

(** [handler(arg)]. *)
Definition call (hd : sys_timeout_handler) (a : Z) s : res (tstate W) :=
  match hd with
  | H_NULL => Ok s
  | H_tcpip_tcp_timer => tcpip_tcp_timer s
  | H_cyclic_timer => cyclic_timer a s
  | H_other f => other_run f a s
  end.

(** The [do ... while (had_one)] loop. *)
Fixpoint check_loop (fuel : nat) (diff : Z) s : res (tstate W) :=
  match fuel with
  | O => Fault FFuel
  | S fuel' =>
      match next_timeout s with
      | t :: l =>
          if time t <=? diff then
            let s := with_list l (u32 (timeouts_last_time s + time t)) (S (timeout_pool s)) s in
            let* s := call (h t) (arg t) s in
            check_loop fuel' (u32 (diff - time t)) s
          else Ok s
      | [] => Ok s
      end
  end.

(** [fuel] bounds the number of handlers that are called. *)
Definition sys_check_timeouts (fuel : nat) s : res (tstate W) :=
  match next_timeout s with
  | [] => Ok s
  | _ => check_loop fuel (u32 (sys_now s - timeouts_last_time s)) s
  end.

Definition sys_restart_timeouts s : tstate W :=
  with_list (next_timeout s) (sys_now s) (timeout_pool s) s.

Definition sys_timeouts_sleeptime s : Z :=
  match next_timeout s with
  | [] => 4294967295
  | t :: _ =>
      let diff := u32 (sys_now s - timeouts_last_time s) in
      if time t <? diff then 0 else u32 (time t - diff)
  end.

(** [mbox_fetch timeout]: [sys_arch_mbox_fetch], [None] for SYS_ARCH_TIMEOUT. *)
Variable mbox_fetch : Z -> tstate W -> res (option Z * tstate W).

(** [fuel] bounds the number of times round the [again] loop. *)
Fixpoint sys_timeouts_mbox_fetch (fuel : nat) s : res (option Z * tstate W) :=
  match fuel with
  | O => Fault FFuel
  | S fuel' =>
      match next_timeout s with
      | [] => mbox_fetch 0 s
      | _ =>
          let sleeptime := sys_timeouts_sleeptime s in
          let* (msg, s) := if sleeptime =? 0 then Ok (None, s) else mbox_fetch sleeptime s in
          match msg with
          | Some m => Ok (Some m, s)
          | None => let* s := sys_check_timeouts fuel' s in sys_timeouts_mbox_fetch fuel' s
          end
      end
  end.

End Timeouts.

(** ** Deadlines

    The abstract view of the list: when each timeout is due, in milliseconds
    (not reduced modulo 2^32), with its handler and argument. *)

Definition entry : Type := sys_timeout_handler * Z.

Fixpoint due (base : Z) (l : list timeo) : list (Z * entry) :=
  match l with
  | [] => []
  | t :: l' => (base + time t, (h t, arg t)) :: due (base + time t) l'
  end.

Definition span (l : list timeo) : Z := foldr (fun t acc => time t + acc) 0 l.

Definition times_ok (l : list timeo) : Prop :=
  Forall (fun t => 0 <= time t) l /\ span l < 4294967296.

(** Insert behind everything that is due no later. *)
Fixpoint insert_due (d : Z) (x : entry) (l : list (Z * entry)) : list (Z * entry) :=
  match l with
  | [] => [(d, x)]
  | (e, y) :: l' => if e <=? d then (e, y) :: insert_due d x l' else (d, x) :: (e, y) :: l'
  end.

Lemma span_cons t l : span (t :: l) = time t + span l.
Proof. done. Qed.

Lemma times_ok_cons t l :
  times_ok (t :: l) <-> 0 <= time t /\ time t + span l < 4294967296 /\ times_ok l.
Proof.
  unfold times_ok. rewrite Forall_cons, span_cons. split; [|tauto].
  intros [[Ht Hl] Hs]. split_and!; try done. lia.
Qed.

Lemma span_nonneg l : times_ok l -> 0 <= span l.
Proof.
  induction l as [|t l IH]; [done|]. rewrite times_ok_cons, span_cons. intros (? & ? & ?%IH). lia.
Qed.

Lemma insert_loop_spec l : forall base timeout msecs first,
  l <> [] -> times_ok l -> (forall t, head l = Some t -> time t <= time timeout) ->
  time timeout < 4294967296 -> 0 <= msecs -> time timeout - span l <= msecs ->
  due base (insert_loop timeout msecs first l) = insert_due (base + time timeout) (h timeout, arg timeout) (due base l)
  /\ times_ok (insert_loop timeout msecs first l)
  /\ span (insert_loop timeout msecs first l) = Z.max (span l) (time timeout).
Proof.
  induction l as [|t l IH]; intros base timeout msecs first Hne Hok Hhd Hlt Hms Hcl; [done|].
  apply times_ok_cons in Hok. destruct Hok as (Ht & Hs & Hok). specialize (Hhd t eq_refl).
  rewrite span_cons in *. cbn [insert_loop due insert_due]. rewrite (proj2 (Z.leb_le _ _)) by lia.
  rewrite u32_id by (unfold is_u32; lia). destruct l as [|n l].
  - change (span []) with 0 in *. cbn [time with_time] in *. rewrite (proj2 (Z.ltb_ge _ _)) by lia.
    cbn [due insert_due with_time time h arg]. replace (base + time t + (time timeout - time t)) with (base + time timeout) by lia.
    split_and!; [done| |rewrite !span_cons; change (span []) with 0; cbn [with_time time]; lia].
    rewrite !times_ok_cons, !span_cons. change (span []) with 0. cbn [with_time time]. split_and!; try lia; done.
  - pose proof Hok as Hok'. apply times_ok_cons in Hok'. destruct Hok' as (Hn & Hsn & Hokl).
    pose proof (span_nonneg _ Hokl). rewrite span_cons in *. cbn [time with_time].
    destruct (Z.ltb_spec (time timeout - time t) (time n)) as [Hlt2|Hge].
    + rewrite u32_id by (unfold is_u32; lia). cbn [due insert_due with_time time h arg].
      rewrite (proj2 (Z.leb_gt _ _)) by lia.
      replace (base + time t + (time timeout - time t)) with (base + time timeout) by lia.
      replace (base + time timeout + (time n - (time timeout - time t))) with (base + time t + time n) by lia.
      split_and!; [done| |rewrite !span_cons; cbn [with_time time]; lia].
      rewrite !times_ok_cons, !span_cons. cbn [with_time time]. split_and!; try lia. done.
    + destruct (IH (base + time t) (with_time (time timeout - time t) timeout) msecs first)
        as (Ed & Hok2 & Es); cbn [with_time time h arg]; try done; try lia.
      { intros ? [= <-]. lia. }
      cbn [with_time time due] in Es |- *.
      rewrite Ed. cbn [with_time time h arg].
      replace (base + time t + (time timeout - time t)) with (base + time timeout) by lia. split_and!; [done| |].
      * apply times_ok_cons. rewrite Es. split_and!; [lia|lia|done].
      * rewrite span_cons, Es. lia.
Qed.

(** *** sys_timeout *)

Section Specs.
Context {W : Type}.
Implicit Types s : tstate W.

(** The time since [timeouts_last_time]. *)
Definition elapsed s : Z := u32 (clock s - timeouts_last_time s).

Lemma sys_timeout_spec s base msecs hd a pool :
  timeout_pool s = S pool -> times_ok (next_timeout s) -> 0 <= msecs ->
  msecs + elapsed s < 4294967296 -> next_timeout s <> [] ->
  (elapsed s = 0 \/ forall t, head (next_timeout s) = Some t -> time t <= msecs) ->
  elapsed s <= span (next_timeout s) ->
  exists l, sys_timeout msecs hd a s = Ok (with_list l (timeouts_last_time s) pool s)
    /\ due base l = insert_due (base + elapsed s + msecs) (hd, a) (due base (next_timeout s))
    /\ times_ok l.
Proof.
  intros Hp Hok Hms Hlt Hne Hhd Hel. unfold sys_timeout, sys_now. rewrite Hp. fold (elapsed s).
  pose proof (u32_range (clock s - timeouts_last_time s)) as Hr. fold (elapsed s) in Hr. unfold is_u32 in Hr.
  destruct (next_timeout s) as [|t l]; [done|]. rewrite (u32_id (msecs + elapsed s)) by (unfold is_u32; lia).
  destruct (Z.ltb_spec msecs (time t)) as [Hmt|Hge].
  - destruct Hhd as [E0|Hhd]; [|specialize (Hhd t eq_refl); lia]. rewrite E0 in *.
    apply times_ok_cons in Hok. destruct Hok as (Ht & Hs & Hok). pose proof (span_nonneg _ Hok).
    rewrite u32_id by (unfold is_u32; lia). eexists. split; [done|]. cbn [due insert_due with_time time h arg].
    rewrite (proj2 (Z.leb_gt _ _)) by lia. split.
    + replace (base + (msecs + 0)) with (base + 0 + msecs) by lia.
      by replace (base + 0 + msecs + (time t - msecs)) with (base + time t) by lia.
    + rewrite !times_ok_cons, !span_cons. cbn [with_time time]. split_and!; try lia. done.
  - destruct (insert_loop_spec (t :: l) base (mk_timeo (msecs + elapsed s) hd a) msecs (time t))
      as (Ed & Hok' & _); cbn [time]; try done; try lia.
    { intros ? [= <-]. lia. }
    eexists. split; [done|]. split; [|done]. rewrite Ed. cbn [time h arg]. f_equal. lia.
Qed.

(** *** sys_untimeout *)

Lemma untimeout_loop_spec hd a l : forall base,
  times_ok l ->
  match untimeout_loop hd a l with
  | Some l' => exists d1 d d2, due base l = d1 ++ (d, (hd, a)) :: d2 /\ due base l' = d1 ++ d2
      /\ Forall (fun x => snd x <> (hd, a)) d1 /\ times_ok l' /\ span l' <= span l
  | None => Forall (fun x => snd x <> (hd, a)) (due base l)
  end.
Proof.
  induction l as [|t l IH]; intros base Hok; cbn [untimeout_loop due]; [done|].
  pose proof Hok as (Ht & Hs & Hok')%times_ok_cons. pose proof (span_nonneg _ Hok').
  assert (Eb : bool_decide (h t = hd) && (arg t =? a) = bool_decide ((h t, arg t) = (hd, a))).
  { destruct (Z.eqb_spec (arg t) a), (bool_decide_reflect (h t = hd)); case_bool_decide; done || congruence. }
  rewrite Eb. destruct (bool_decide_reflect ((h t, arg t) = (hd, a))) as [[= <- <-]|Hne].
  - destruct l as [|n l].
    + exists [], (base + time t), []. rewrite span_cons. change (span []) with 0. split_and!; try done. lia.
    + pose proof Hok' as (Hn & Hsn & Hokl)%times_ok_cons. pose proof (span_nonneg _ Hokl). rewrite span_cons in *.
      rewrite u32_id by (unfold is_u32; lia). exists [], (base + time t), (due (base + time t) (n :: l)).
      cbn [due app with_time time h arg]. replace (base + (time n + time t)) with (base + time t + time n) by lia.
      split_and!; [done|done|constructor| |rewrite !span_cons; cbn [with_time time]; lia].
      apply times_ok_cons. cbn [with_time time]. split_and!; [lia|lia|done].
  - specialize (IH (base + time t) Hok'). destruct (untimeout_loop hd a l) as [l'|]; [|by constructor].
    destruct IH as (d1 & d & d2 & E & E' & Hd & Hok2 & Hsp). exists ((base + time t, (h t, arg t)) :: d1), d, d2.
    cbn [due app]. rewrite E, E'. split_and!; try done; [by constructor| |rewrite !span_cons; lia].
    apply times_ok_cons. split_and!; [lia|lia|done].
Qed.

(** A timeout that goes to the front delays the others by the time since the last update. *)
Lemma sys_timeout_front s base msecs hd a pool t l :
  timeout_pool s = S pool -> next_timeout s = t :: l -> times_ok (t :: l) -> 0 <= msecs < time t ->
  span (t :: l) + elapsed s < 4294967296 ->
  exists l', sys_timeout msecs hd a s = Ok (with_list l' (timeouts_last_time s) pool s)
    /\ due base l' = (base + elapsed s + msecs, (hd, a)) :: due (base + elapsed s) (t :: l)
    /\ times_ok l'.
Proof.
  intros Hp El Hok Hms Hlt. unfold sys_timeout, sys_now. rewrite Hp, El. fold (elapsed s).
  pose proof (u32_range (clock s - timeouts_last_time s)) as Hr. fold (elapsed s) in Hr. unfold is_u32 in Hr.
  apply times_ok_cons in Hok. destruct Hok as (Ht & Hs & Hok). pose proof (span_nonneg _ Hok). rewrite span_cons in Hlt.
  rewrite !u32_id by (unfold is_u32; lia). rewrite (proj2 (Z.ltb_lt _ _)) by lia.
  eexists. split; [done|]. cbn [due with_time time h arg]. split.
  - replace (base + (msecs + elapsed s)) with (base + elapsed s + msecs) by lia.
    by replace (base + elapsed s + msecs + (time t - msecs)) with (base + elapsed s + time t) by lia.
  - rewrite !times_ok_cons, !span_cons. cbn [with_time time]. split_and!; try lia. done.
Qed.

(** *** Deadlines that have passed *)

(** The entries that are due at [now], and the others. *)
Definition expired (now : Z) (l : list (Z * entry)) : list (Z * entry) := List.filter (fun x => fst x <=? now) l.
Definition later (now : Z) (l : list (Z * entry)) : list (Z * entry) := List.filter (fun x => now <? fst x) l.

Lemma due_after base l : times_ok l -> Forall (fun x => base <= fst x) (due base l).
Proof.
  revert base. induction l as [|t l IH]; intros base; [constructor|]. rewrite times_ok_cons. intros (Ht & _ & Hok).
  cbn [due]. constructor; [cbn; lia|]. eapply Forall_impl; [by apply IH|]. cbn. lia.
Qed.

Lemma due_after_head base t l : times_ok (t :: l) -> Forall (fun x => base + time t <= fst x) (due base (t :: l)).
Proof.
  rewrite times_ok_cons. intros (_ & _ & Hok). cbn [due]. constructor; [cbn; lia|]. by apply due_after.
Qed.

Lemma none_expired now l : Forall (fun x => now < fst x) l -> expired now l = [] /\ later now l = l.
Proof.
  unfold expired, later. induction 1 as [|x l Hx _ [IH1 IH2]]; [done|]. cbn [List.filter].
  rewrite (proj2 (Z.leb_gt _ _)), (proj2 (Z.ltb_lt _ _)), IH1, IH2 by done. done.
Qed.

Lemma insert_due_later now d x l : now < d ->
  expired now (insert_due d x l) = expired now l /\ later now (insert_due d x l) ≡ₚ (d, x) :: later now l.
Proof.
  intros Hd. unfold expired, later. induction l as [|[e y] l [IH1 IH2]]; cbn [insert_due List.filter fst].
  - by rewrite (proj2 (Z.leb_gt _ _)), (proj2 (Z.ltb_lt _ _)) by done.
  - destruct (Z.leb_spec e d); cbn [List.filter fst].
    + rewrite IH1. split; [done|]. destruct (now <? e); [rewrite IH2; apply Permutation_swap|done].
    + by rewrite (proj2 (Z.leb_gt d now)), (proj2 (Z.ltb_lt now d)) by done.
Qed.

Lemma insert_due_Forall (P : Z * entry -> Prop) d x l : P (d, x) -> Forall P l -> Forall P (insert_due d x l).
Proof.
  intros Hd. induction 1 as [|[e y] l Hy Hl IH]; cbn [insert_due]; [by constructor|].
  destruct (e <=? d); by repeat constructor.
Qed.

Lemma due_span base t l : exists x, x ∈ due base (t :: l) /\ fst x = base + span (t :: l).
Proof.
  revert base t. induction l as [|u l IH]; intros base t.
  - exists (base + time t, (h t, arg t)). split; [by left|]. cbn. lia.
  - destruct (IH (base + time t) u) as (x & Hx & E). exists x. split; [by right|]. rewrite E, !span_cons. lia.
Qed.

Lemma due_before base l : times_ok l -> Forall (fun x => fst x <= base + span l) (due base l).
Proof.
  revert base. induction l as [|t l IH]; intros base; [constructor|]. rewrite times_ok_cons. intros (Ht & _ & Hok).
  pose proof (span_nonneg _ Hok). cbn [due]. rewrite span_cons. constructor; [cbn; lia|].
  eapply Forall_impl; [by apply IH|]. cbn. lia.
Qed.

Lemma insert_due_elem d x l : (d, x) ∈ insert_due d x l.
Proof. induction l as [|[e y] l IH]; cbn [insert_due]; [by left|]. destruct (e <=? d); [by right|by left]. Qed.

Lemma insert_due_span base d x l l' : due base l' = insert_due d x (due base l) -> times_ok l' -> d - base <= span l'.
Proof.
  intros E Hok. pose proof (due_before base l' Hok) as Hb. rewrite E, Forall_forall in Hb.
  specialize (Hb _ (insert_due_elem d x (due base l))). cbn in Hb. lia.
Qed.

Lemma due_delayed k base l : due (base + k) l = (fun x => (fst x + k, snd x)) <$> due base l.
Proof.
  revert base. induction l as [|t l IH]; intros base; [done|]. cbn [due fmap list_fmap fst snd].
  replace (base + k + time t) with (base + time t + k) by lia. by rewrite IH.
Qed.

(** *** Expiry

    The handlers change the rest of the stack, [cyc] and [eff], and may set
    themselves again: the cyclic timers and, as long as there are connections, the
    TCP timer do, and [again] says when a handler of another file does, as the
    timer of the MQTT client. *)

Variable cyclic_run : lwip_cyclic_timer_handler -> tstate W -> res (tstate W).
Variable pcbs : W -> bool.
Variable other_run : Z -> Z -> tstate W -> res (tstate W).
Variable cyc : lwip_cyclic_timer_handler -> W -> W.
Variable eff : Z -> Z -> W -> W.
Variable again : Z -> Z -> W -> option Z.

Definition cyclic_law : Prop := forall c s, cyclic_run c s = Ok (with_world (cyc c (world s)) s).
Definition other_law : Prop := forall f a s, other_run f a s
  = (let s := with_world (eff f a (world s)) s in
     match again f a (world s) with
     | Some msecs => sys_timeout msecs (H_other f) a s
     | None => Ok s
     end).

(** What the handler of a timeout does to the rest of the stack, and in how many
    milliseconds it is to be called again. *)
Definition effect (x : entry) (w : W) : W :=
  match fst x with
  | H_NULL => w
  | H_tcpip_tcp_timer => cyc tcp_tmr w
  | H_cyclic_timer => match lwip_cyclic_timers !! Z.to_nat (snd x) with Some c => cyc (handler c) w | None => w end
  | H_other f => eff f (snd x) w
  end.

Definition rearm (x : entry) (w : W) : option Z :=
  match fst x with
  | H_NULL => None
  | H_tcpip_tcp_timer => if pcbs w then Some TCP_TMR_INTERVAL else None
  | H_cyclic_timer => interval_ms <$> lwip_cyclic_timers !! Z.to_nat (snd x)
  | H_other f => again f (snd x) w
  end.

Definition still_active (x : entry) (w : W) (b : bool) : bool :=
  match fst x with
  | H_tcpip_tcp_timer => if pcbs w then b else false
  | _ => b
  end.

(** The timeouts [l] are handled in turn at the time [now]: what becomes of the
    rest of the stack and of the flag of the TCP timer, and the timeouts that are
    set again, with their deadlines. *)
Fixpoint fire (now : Z) (l : list (Z * entry)) (w : W) (b : bool) : W * bool * list (Z * entry) :=
  match l with
  | [] => (w, b, [])
  | (_, x) :: l' =>
      let w := effect x w in
      let '(w', b', set) := fire now l' w (still_active x w b) in
      (w', b', match rearm x w with Some ms => [(now + ms, x)] | None => [] end ++ set)
  end.

(** The timeouts that the stack has: see [stack_timers_pending_once]. *)
Definition known (x : entry) : Prop :=
  match fst x with
  | H_tcpip_tcp_timer => snd x = NULL
  | H_cyclic_timer => 1 <= snd x < 5
  | _ => True
  end.

Hypothesis cyclic_run_spec : cyclic_law.
Hypothesis other_run_spec : other_law.

Lemma call_spec x s : known x ->
  call cyclic_run pcbs other_run (fst x) (snd x) s
  = let s := with_world (effect x (world s)) s in
    match rearm x (world s) with
    | Some ms => sys_timeout ms (fst x) (snd x) s
    | None => Ok (with_active (still_active x (world s) (tcpip_tcp_timer_active s)) s)
    end.
Proof.
  destruct x as [[| | |f] a]; unfold known, effect, rearm, still_active; cbn [fst snd call]; intros Hx.
  - by destruct s.
  - subst a. unfold tcpip_tcp_timer. rewrite cyclic_run_spec. cbn [res_bind]. by destruct (pcbs _).
  - unfold cyclic_timer. destruct (lwip_cyclic_timers !! Z.to_nat a) as [c|] eqn:E.
    + rewrite cyclic_run_spec. done.
    + apply lookup_ge_None in E. cbn in E. lia.
  - rewrite other_run_spec. cbv zeta. by destruct (again _ _ _).
Qed.

(** Times are bounded by 2^30 ms (12 days), far from the wrap of the clock. *)
Definition HORIZON : Z := 1073741824.

(** The state in the loop at the time [now]; [base] is [timeouts_last_time].  No
    timeout is overdue by more than [late]. *)
Record checking (now late base : Z) s : Prop := {
  k_last : timeouts_last_time s = u32 base;
  k_clock : clock s = u32 now;
  k_base : now - HORIZON <= base <= now;
  k_ok : times_ok (next_timeout s);
  k_near : Forall (fun x => now - late <= fst x <= now + HORIZON /\ known (snd x)) (due base (next_timeout s));
  k_span : now - base <= span (next_timeout s)
}.

(** A timeout that is set again is due in no less than [late]. *)
Definition slower (late : Z) : Prop :=
  forall x w ms, known x -> rearm x w = Some ms -> 0 < ms /\ late <= ms <= HORIZON.

Lemma checking_elapsed now late base s : checking now late base s -> elapsed s = now - base.
Proof.
  intros [El Ec Hb _ _ _]. unfold elapsed. rewrite El, Ec. unfold u32. rewrite <- Zminus_mod, Z.mod_small; [done|].
  unfold HORIZON in Hb. lia.
Qed.

Lemma checking_span now late base s : checking now late base s -> span (next_timeout s) <= now - base + HORIZON.
Proof.
  intros K. pose proof (k_base _ _ _ _ K) as Hb. pose proof (k_near _ _ _ _ K) as Hn. destruct (next_timeout s) as [|t l].
  - change (span []) with 0. unfold HORIZON. lia.
  - destruct (due_span base t l) as (x & Hx & E). rewrite Forall_forall in Hn. destruct (Hn x Hx) as [Hx1 _]. lia.
Qed.

(** Setting a timeout again in the loop: it is put in its place, or in front of
    all others when none of them is due, and these are delayed. *)
Lemma sys_timeout_again now late base s x ms pool :
  checking now late base s -> 0 <= late <= HORIZON -> now - base <= late -> known x -> 0 < ms -> late <= ms <= HORIZON ->
  timeout_pool s = S pool ->
  exists l, sys_timeout ms (fst x) (snd x) s = Ok (with_list l (u32 base) pool s) /\ times_ok l
    /\ ((checking now late base (with_list l (u32 base) pool s)
         /\ due base l = insert_due (now + ms) x (due base (next_timeout s)))
        \/ (Forall (fun y => now < fst y) (due base (next_timeout s))
            /\ due base l = (now + ms, x) :: due now (next_timeout s))).
Proof.
  intros K Hl Hnb Hx Hms Hle Hp. pose proof (checking_elapsed _ _ _ _ K) as Ee. pose proof (checking_span _ _ _ _ K) as Hs.
  pose proof (k_base _ _ _ _ K) as Hb. destruct x as [hd a]. cbn [fst snd].
  assert (Hd : now - late <= now + ms <= now + HORIZON /\ known (hd, a)) by (split; [lia|done]). unfold HORIZON in *.
  destruct (next_timeout s) as [|t l] eqn:El.
  - pose proof (k_span _ _ _ _ K) as Hz. rewrite El in Hz. change (span []) with 0 in Hz. assert (base = now) as -> by lia.
    unfold sys_timeout, sys_now. rewrite Hp, El, (k_clock _ _ _ _ K), Z.add_0_r, u32_id by (unfold is_u32; lia).
    exists [mk_timeo ms hd a]. assert (Hok : times_ok [mk_timeo ms hd a]) by (apply times_ok_cons; split_and!; try done; cbn; lia).
    split_and!; [done|done|]. left. split; [|done].
    split; cbn [with_list timeouts_last_time clock next_timeout]; [done|apply K|unfold HORIZON; lia|done| |cbn; lia].
    cbn [due time h arg]. constructor; [exact Hd|constructor].
  - pose proof (k_ok _ _ _ _ K) as Hok. rewrite El in Hok. pose proof (span_nonneg _ Hok). destruct (Z.ltb_spec ms (time t)) as [Hlt|Hge].
    + destruct (decide (base = now)) as [->|Hne].
      * destruct (sys_timeout_spec s now ms hd a pool) as (l' & E & Ed & Hok'); rewrite ?El, ?Ee; try done; try lia.
        rewrite El, Ee, Z.sub_diag, Z.add_0_r in Ed. exists l'. rewrite <- (k_last _ _ _ _ K). split_and!; [done|done|]. left.
        split; [|done]. split; cbn [with_list timeouts_last_time clock next_timeout]; try apply K; [done| |].
        -- rewrite Ed. apply insert_due_Forall; [done|]. rewrite <- El. apply K.
        -- pose proof (span_nonneg _ Hok'). lia.
      * destruct (sys_timeout_front s base ms hd a pool t l) as (l' & E & Ed & Hok'); rewrite ?Ee; try done; try lia.
        exists l'. rewrite <- (k_last _ _ _ _ K). split_and!; [done|done|]. right. rewrite Ed, Ee.
        replace (base + (now - base)) with now by lia. split; [|done].
        eapply Forall_impl; [by apply due_after_head|]. cbn. lia.
    + destruct (sys_timeout_spec s base ms hd a pool) as (l' & E & Ed & Hok'); rewrite ?El, ?Ee; try done; try lia.
      { right. intros ? [= <-]. lia. }
      { pose proof (k_span _ _ _ _ K) as Hz. by rewrite El in Hz. }
      rewrite El, Ee in Ed. replace (base + (now - base) + ms) with (now + ms) in Ed by lia.
      exists l'. rewrite <- (k_last _ _ _ _ K). split_and!; [done|done|]. left.
      split; [|done]. split; cbn [with_list timeouts_last_time clock next_timeout]; try apply K; [done| |].
      * rewrite Ed. apply insert_due_Forall; [done|]. rewrite <- El. apply K.
      * rewrite <- El in Ed. pose proof (insert_due_span _ _ _ _ _ Ed Hok'). lia.
Qed.

Lemma still_active_again x w b ms : rearm x w = Some ms -> still_active x w b = b.
Proof. unfold rearm, still_active. destruct (fst x); try done. by destruct (pcbs w). Qed.

(** A deadline that is kept, or passed by at most [late]. *)
Definition late_by (late : Z) (x y : Z * entry) : Prop := snd x = snd y /\ fst x <= fst y <= fst x + late.

Lemma late_refl late l : 0 <= late -> Forall2 (late_by late) l l.
Proof. intros H. induction l; constructor; [split; [done|lia]|done]. Qed.

Lemma late_delayed late k l : 0 <= k <= late -> Forall2 (late_by late) l ((fun x => (fst x + k, snd x)) <$> l).
Proof. intros H. induction l; constructor; [split; [done|cbn; lia]|done]. Qed.

(** The loop from a state in which the timeouts [all] are pending. *)
Definition checked (now late base : Z) (all : list (Z * entry)) s (r : res (tstate W)) : Prop :=
  let '(w, b, set) := fire now (expired now all) (world s) (tcpip_tcp_timer_active s) in
  exists l last pool want, r = Ok (mk_tstate l (u32 last) b pool (clock s) w)
    /\ (pool + length set = timeout_pool s + length (expired now all))%nat
    /\ times_ok l /\ base <= last <= now /\ Forall (fun x => now < fst x) (due last l)
    /\ want ≡ₚ set ++ later now all /\ Forall2 (late_by late) want (due last l).

(** Nothing is due: the loop ends. *)
Lemma checked_end now late base fuel s :
  checking now late base s -> 0 <= late -> Forall (fun x => now < fst x) (due base (next_timeout s)) ->
  checked now late base (due base (next_timeout s)) s (check_loop cyclic_run pcbs other_run (S fuel) (now - base) s).
Proof.
  intros K Hl Hd. pose proof (k_base _ _ _ _ K) as Hb. unfold checked. destruct (none_expired _ _ Hd) as [-> ->]. cbn [fire length app].
  exists (next_timeout s), base, (timeout_pool s), (due base (next_timeout s)). rewrite <- (k_last _ _ _ _ K).
  split_and!; [|done|apply K|lia|lia|done|done|by apply late_refl]. cbn [check_loop].
  destruct (next_timeout s) as [|t l] eqn:El; [by rewrite <- El; destruct s|].
  cbn [due] in Hd. apply Forall_cons in Hd as [Ht _]. cbn [fst] in Ht. rewrite (proj2 (Z.leb_gt _ _)) by lia. rewrite <- El. by destruct s.
Qed.

(** The loop ends when the timeout that was set goes to the front. *)
Lemma check_loop_front now base fuel s d x l0 :
  due base (next_timeout s) = (d, x) :: l0 -> now < d ->
  check_loop cyclic_run pcbs other_run (S fuel) (now - base) s = Ok s.
Proof.
  cbn [check_loop]. destruct (next_timeout s) as [|t l]; [done|]. intros [= <- _ _] Hd.
  by rewrite (proj2 (Z.leb_gt _ _)) by lia.
Qed.

Lemma checking_pop now late base s t l pool w b :
  checking now late base s -> next_timeout s = t :: l -> time t <= now - base ->
  checking now late (base + time t) (mk_tstate l (u32 (timeouts_last_time s + time t)) b pool (clock s) w)
  /\ expired now (due base (t :: l)) = (base + time t, (h t, arg t)) :: expired now (due (base + time t) l)
  /\ later now (due base (t :: l)) = later now (due (base + time t) l) /\ known (h t, arg t) /\ now - (base + time t) <= late.
Proof.
  intros [Kl Kc Kb Kok Kn Ks] El Ht. rewrite El in *. apply times_ok_cons in Kok as (H0 & Hs & Hok).
  cbn [due] in Kn. apply Forall_cons in Kn as [[Hkl Hk] Kn]. cbn [fst] in Hkl. rewrite span_cons in Ks. split_and!; [| | |done|lia].
  - split; cbn [timeouts_last_time clock next_timeout]; [|done|lia|done|done|lia].
    rewrite Kl. unfold u32. by rewrite Zplus_mod_idemp_l.
  - unfold expired. cbn [due List.filter fst]. by rewrite (proj2 (Z.leb_le _ _)) by lia.
  - unfold later. cbn [due List.filter fst]. by rewrite (proj2 (Z.ltb_ge _ _)) by lia.
Qed.

Lemma check_loop_spec now late : 0 <= late <= HORIZON -> slower late -> forall fuel base s,
  checking now late base s -> (length (expired now (due base (next_timeout s))) < fuel)%nat ->
  checked now late base (due base (next_timeout s)) s (check_loop cyclic_run pcbs other_run fuel (now - base) s).
Proof.
  intros Hl Hslow. induction fuel as [|fuel IH]; intros base s K Hf; [lia|].
  destruct (next_timeout s) as [|t l] eqn:El; [rewrite <- El; apply checked_end; [done|lia|]; rewrite El; constructor|].
  destruct (Z.leb_spec (time t) (now - base)) as [Hle|Hgt].
  2:{ rewrite <- El. apply checked_end; [done|lia|]. rewrite El. eapply Forall_impl; [apply due_after_head; rewrite <- El; apply K|]. cbn. lia. }
  pose proof (k_base _ _ _ _ K) as Hb. pose proof (k_ok _ _ _ _ K) as Hok. rewrite El, times_ok_cons in Hok. destruct Hok as (Ht & _ & Hok).
  set (x := (h t, arg t)). set (w := effect x (world s)).
  destruct (checking_pop now late base s t l (S (timeout_pool s)) w (tcpip_tcp_timer_active s) K El Hle) as (K1 & Ex & Ela & Hx & Hnl).
  rewrite Ex in Hf. cbn [length] in Hf. unfold checked. rewrite Ex, Ela. cbn [fire]. fold x w.
  cbn [check_loop]. rewrite El, (proj2 (Z.leb_le _ _)), (u32_id (now - base - time t)) by (unfold is_u32, HORIZON in *; lia).
  replace (now - base - time t) with (now - (base + time t)) by lia.
  change (call _ _ _ _ _ ?s1) with (call cyclic_run pcbs other_run (fst x) (snd x) s1).
  rewrite call_spec by done. cbv zeta. cbn [with_list with_world world clock timeout_pool next_timeout timeouts_last_time tcpip_tcp_timer_active].
  fold w.
  destruct (rearm x w) as [ms|] eqn:Er.
  - destruct (Hslow _ _ _ Hx Er) as [Hms Hlms]. rewrite (still_active_again _ _ _ _ Er).
    destruct (sys_timeout_again _ _ _ _ x ms (timeout_pool s) K1 Hl Hnl Hx Hms Hlms eq_refl) as (l' & E & Hok' & Hc).
    match goal with |- context [sys_timeout ms (fst x) (snd x) ?s1] => change s1 with (mk_tstate l (u32 (timeouts_last_time s + time t))
      (tcpip_tcp_timer_active s) (S (timeout_pool s)) (clock s) w) end.
    rewrite E. cbn [res_bind]. clear E. destruct Hc as [[K2 Ed]|[Hn Ed]].
    + cbn [next_timeout] in Ed. destruct (insert_due_later now (now + ms) x (due (base + time t) l)) as [I1 I2]; [lia|].
      specialize (IH _ _ K2). cbn [with_list next_timeout] in IH. rewrite Ed, I1 in IH. specialize (IH ltac:(lia)). unfold checked in IH.
      rewrite I1 in IH. cbn [with_list world clock timeout_pool tcpip_tcp_timer_active] in IH.
      destruct (fire now (expired now (due (base + time t) l)) w _) as [[w' b'] set'].
      destruct IH as (l2 & la2 & pool & want & E & Hp & Hok2 & Hb2 & Hd & Hw & Hf2). exists l2, la2, pool, want. rewrite E.
      split_and!; [done| |done|lia|lia|done| |done].
      * cbn [length app]. lia.
      * rewrite Hw, I2. cbn [app]. by rewrite Permutation_middle.
    + cbn [next_timeout] in Hn, Ed. destruct (none_expired _ _ Hn) as [E1 E2]. rewrite E1 in *. cbn [fire].
      destruct fuel as [|fuel]; [cbn in Hf; lia|]. rewrite (check_loop_front now (base + time t) fuel _ (now + ms) x (due now l)) by (done || lia).
      rewrite E2. exists l', (base + time t), (timeout_pool s), ((now + ms, x) :: due (base + time t) l).
      pose proof (due_delayed (now - (base + time t)) (base + time t) l) as Edl.
      replace (base + time t + (now - (base + time t))) with now in Edl by lia.
      rewrite Ed, Edl. split_and!; [done|cbn; lia|done|lia|lia| |done|].
      * constructor; [cbn; lia|]. apply Forall_fmap. eapply Forall_impl; [exact Hn|]. cbn. lia.
      * constructor; [split; [done|cbn; lia]|]. apply late_delayed. lia.
  - cbn [res_bind]. set (b := still_active x w _).
    destruct (checking_pop now late base s t l (S (timeout_pool s)) w b K El Hle) as (K2 & _).
    specialize (IH _ _ K2). cbn [next_timeout] in IH. specialize (IH ltac:(lia)). unfold checked in IH.
    cbn [world clock timeout_pool tcpip_tcp_timer_active] in IH.
    destruct (fire now _ w b) as [[w' b'] set']. destruct IH as (l2 & la2 & pool & want & E & Hp & Hok2 & Hb2 & Hd & Hw & Hf2).
    exists l2, la2, pool, want. split_and!; [exact E|cbn [length app]; lia|done|lia|lia|done|done|done].
Qed.
End Specs.

(** ** The stack's own timers are scheduled exactly once

    [client_step]: what code outside this file can do to its state: let time
    pass and change the rest of the stack, set and cancel timers of its own, call
    [tcp_timer_needed] and [sys_restart_timeouts].  [timer_step] adds the expiry
    of the first timer, the body of the loop of [sys_check_timeouts]. *)

Section Cyclic.
Context {W : Type}.
Implicit Types s : tstate W.
Variable cyclic_run : lwip_cyclic_timer_handler -> tstate W -> res (tstate W).
Variable pcbs : W -> bool.
Variable other_run : Z -> Z -> tstate W -> res (tstate W).

Inductive client_step s : tstate W -> Prop :=
| step_world w now :
    client_step s (mk_tstate (next_timeout s) (timeouts_last_time s) (tcpip_tcp_timer_active s)
                     (timeout_pool s) now w)
| step_timeout msecs f a s' : sys_timeout msecs (H_other f) a s = Ok s' -> client_step s s'
| step_untimeout f a : client_step s (sys_untimeout (H_other f) a s)
| step_needed s' : tcp_timer_needed pcbs s = Ok s' -> client_step s s'
| step_restart : client_step s (sys_restart_timeouts s).

(** The handlers of other files are clients. *)
Hypothesis cyclic_run_law : forall c s s', cyclic_run c s = Ok s' -> rtc client_step s s'.
Hypothesis other_run_client : forall f a s s', other_run f a s = Ok s' -> rtc client_step s s'.

Inductive timer_step s : tstate W -> Prop :=
| step_client s' : client_step s s' -> timer_step s s'
| step_expire t l s' :
    next_timeout s = t :: l ->
    call cyclic_run pcbs other_run (h t) (arg t)
      (with_list l (u32 (timeouts_last_time s + time t)) (S (timeout_pool s)) s) = Ok s' ->
    timer_step s s'.

(** The pending timers and how often one of them occurs. *)
Definition entries s : list entry := (fun t => (h t, arg t)) <$> next_timeout s.

Fixpoint count (x : entry) (l : list entry) : nat :=
  match l with
  | [] => 0
  | y :: l' => (if decide (y = x) then 1 else 0) + count x l'
  end.

Definition tcp_entry : entry := (H_tcpip_tcp_timer, NULL).

(** Each cyclic timer is pending once, the TCP timer once if it is active; [out]
    is the timer whose handler is running. *)
Definition once (out : list entry) s : Prop :=
  (forall i, 1 <= i < 5 -> count (H_cyclic_timer, i) (out ++ entries s) = 1%nat)
  /\ count tcp_entry (out ++ entries s) = (if tcpip_tcp_timer_active s then 1%nat else 0%nat)
  /\ Forall known (out ++ entries s).

Lemma count_perm x l l' : l ≡ₚ l' -> count x l = count x l'.
Proof. induction 1; cbn [count]; lia. Qed.

(** A state with the same timers, up to order. *)
Lemma once_perm out out' s s' :
  out ++ entries s ≡ₚ out' ++ entries s' -> tcpip_tcp_timer_active s = tcpip_tcp_timer_active s' ->
  once out s -> once out' s'.
Proof.
  intros Hp Ea (Hc & Ht & Hk). split_and!.
  - intros i Hi. rewrite <- (count_perm _ _ _ Hp). by apply Hc.
  - by rewrite <- (count_perm _ _ _ Hp), <- Ea.
  - by rewrite <- Hp.
Qed.

(** One more timer of another file changes nothing. *)
Lemma once_other out s s' f a :
  out ++ entries s' ≡ₚ (H_other f, a) :: out ++ entries s -> tcpip_tcp_timer_active s = tcpip_tcp_timer_active s' ->
  once out s <-> once out s'.
Proof.
  intros Hp Ea. unfold once. rewrite Ea.
  assert (Hc : forall x, match fst x with H_other _ => False | _ => True end ->
            count x (out ++ entries s') = count x (out ++ entries s)).
  { intros [hd b] Hx. rewrite (count_perm _ _ _ Hp). cbn [count]. case_decide as E; [|done].
    injection E as <- <-. done. }
  rewrite Hc by done. split; intros (H1 & H2 & H3); (split_and!; [intros i Hi|done|]).
  - rewrite Hc by done. by apply H1.
  - rewrite Hp. by constructor.
  - rewrite <- Hc by done. by apply H1.
  - rewrite Hp in H3. by inversion_clear H3.
Qed.

Lemma insert_loop_entries l : forall timeout msecs first, l <> [] ->
  (fun t => (h t, arg t)) <$> insert_loop timeout msecs first l
  ≡ₚ (h timeout, arg timeout) :: ((fun t => (h t, arg t)) <$> l).
Proof.
  induction l as [|t l IH]; intros timeout msecs first Hne; [done|]. cbn [insert_loop]. destruct l as [|n l].
  - case_match; cbn; apply perm_swap.
  - case_match; cbn [fmap list_fmap with_time h arg]; [apply perm_swap|].
    etransitivity; [apply perm_skip, IH; done|]. cbn [fmap list_fmap with_time h arg]. apply perm_swap.
Qed.

Lemma sys_timeout_entries msecs hd a s s' :
  sys_timeout msecs hd a s = Ok s' ->
  entries s' ≡ₚ (hd, a) :: entries s /\ tcpip_tcp_timer_active s' = tcpip_tcp_timer_active s.
Proof.
  unfold sys_timeout. destruct (timeout_pool s); [done|]. unfold entries.
  destruct (next_timeout s) as [|t l] eqn:El; [by intros [= <-]|]. case_match; intros [= <-]; (split; [|done]).
  - done.
  - apply (insert_loop_entries (t :: l) (mk_timeo _ hd a)). done.
Qed.

Lemma untimeout_entries hd a l l' :
  untimeout_loop hd a l = Some l' ->
  (fun t => (h t, arg t)) <$> l ≡ₚ (hd, a) :: ((fun t => (h t, arg t)) <$> l').
Proof.
  revert l'. induction l as [|t l IH]; intros l'; cbn [untimeout_loop]; [done|].
  destruct (bool_decide_reflect (h t = hd)) as [Eh|Eh], (Z.eqb_spec (arg t) a) as [Ea|Ea]; cbn [andb];
    [intros [= <-]; subst; by destruct l as [|n l]|..];
    (destruct (untimeout_loop hd a l) as [r|]; [|done]; intros [= <-]; cbn [fmap list_fmap];
     etransitivity; [apply perm_skip, IH; done|apply perm_swap]).
Qed.

Lemma client_once out s s' : client_step s s' -> once out s -> once out s'.
Proof.
  intros [w now|msecs f a s1 E|f a|s1 E|] Ho.
  - done.
  - apply sys_timeout_entries in E. destruct E as [E Ea].
    refine (proj1 (once_other out s s1 f a _ (eq_sym Ea)) Ho). by rewrite E, Permutation_middle.
  - unfold sys_untimeout. destruct (untimeout_loop _ _ _) as [l|] eqn:E; [|done].
    apply untimeout_entries in E. set (s1 := with_list _ _ _ _).
    refine (proj2 (once_other out s1 s f a _ eq_refl) Ho). unfold entries at 1.
    by rewrite E, Permutation_middle.
  - unfold tcp_timer_needed in E. destruct (tcpip_tcp_timer_active s) eqn:Eact; cbn [negb andb] in E; [by injection E as <-|].
    destruct (pcbs (world s)); [|by injection E as <-]. apply sys_timeout_entries in E.
    cbn [with_active tcpip_tcp_timer_active] in E. destruct E as [E Ea]. destruct Ho as (H1 & H2 & H3).
    rewrite Eact in H2. change (entries (with_active true s)) with (entries s) in E.
    assert (Hp : out ++ entries s1 ≡ₚ tcp_entry :: out ++ entries s).
    { rewrite E. by rewrite Permutation_middle. }
    unfold once. rewrite Ea. split_and!.
    + intros i Hi. rewrite (count_perm _ _ _ Hp). cbn [count]. rewrite decide_False by done. by apply H1.
    + rewrite (count_perm _ _ _ Hp). cbn [count]. by rewrite decide_True, H2.
    + rewrite Hp. by constructor.
  - done.
Qed.

Lemma clients_once out s s' : rtc client_step s s' -> once out s -> once out s'.
Proof. induction 1; [done|]. intros Ho. eauto using client_once. Qed.

Lemma once_drop x s :
  match fst x with H_other _ | H_NULL => True | _ => False end -> once [x] s -> once [] s.
Proof.
  destruct x as [hd a]. cbn [fst]. intros Hx (H1 & H2 & H3). cbn [app] in *. split_and!.
  - intros i Hi. specialize (H1 i Hi). cbn [count] in H1. rewrite decide_False in H1; [done|]. by intros [= -> _].
  - cbn [count] in H2. rewrite decide_False in H2; [done|]. by intros [= -> _].
  - by inversion_clear H3.
Qed.

Lemma timer_once s s' : timer_step s s' -> once [] s -> once [] s'.
Proof.
  intros [s1 Hc|t l s1 El Hcall] Ho; [by eapply client_once|].
  set (s0 := with_list _ _ _ _) in Hcall.
  assert (Ho0 : once [(h t, arg t)] s0).
  { eapply once_perm; [| |exact Ho]; [|done]. unfold entries. rewrite El. done. }
  assert (Hk : known (h t, arg t)) by (destruct Ho0 as (_ & _ & Hk); by inversion_clear Hk).
  destruct (h t) as [| | |f] eqn:Eh; cbn [call] in Hcall.
  - injection Hcall as <-. exact (once_drop (H_NULL, arg t) _ I Ho0).
  - unfold tcpip_tcp_timer in Hcall. res_inv Hcall. rename x into s2. unfold known in Hk. cbn [fst snd] in Hk.
    rewrite Hk in Ho0. pose proof (clients_once _ _ _ (cyclic_run_law _ _ _ Hx) Ho0) as Ho2.
    destruct (pcbs (world s2)).
    + apply sys_timeout_entries in Hcall. destruct Hcall as [E Ea].
      eapply once_perm; [|symmetry; exact Ea|exact Ho2]. cbn [app]. by rewrite E.
    + injection Hcall as <-. destruct Ho2 as (H1 & H2 & H3). cbn [app] in *. split_and!.
      * intros i Hi. specialize (H1 i Hi). cbn [count] in H1. by rewrite decide_False in H1.
      * cbn [app count with_active tcpip_tcp_timer_active] in *. rewrite decide_True in H2 by done.
        change (entries (with_active false s2)) with (entries s2). destruct (tcpip_tcp_timer_active s2); lia.
      * by inversion_clear H3.
  - unfold cyclic_timer in Hcall. destruct (lwip_cyclic_timers !! Z.to_nat (arg t)) as [c|]; [|done].
    res_inv Hcall. pose proof (clients_once _ _ _ (cyclic_run_law _ _ _ Hx) Ho0) as Ho2.
    apply sys_timeout_entries in Hcall. destruct Hcall as [E Ea].
    eapply once_perm; [|symmetry; exact Ea|exact Ho2]. cbn [app]. by rewrite E.
  - apply other_run_client in Hcall. exact (once_drop (H_other f, arg t) _ I (clients_once _ _ _ Hcall Ho0)).
Qed.

(** The state after initialisation. *)
Lemma init_loop_once s s' :
  next_timeout s = [] -> tcpip_tcp_timer_active s = false -> sys_timeouts_init s = Ok s' -> once [] s'.
Proof.
  intros El Ea E. unfold sys_timeouts_init in E. res_inv E. rename x into s5. injection E as <-.
  cbn [drop lwip_cyclic_timers init_loop] in Hx. res_inv Hx. injection Hx as <-.
  apply sys_timeout_entries in Hx0, Hx1, Hx2, Hx3.
  destruct Hx0 as [E0 A0], Hx1 as [E1 A1], Hx2 as [E2 A2], Hx3 as [E3 A3]. rewrite E2, E1, E0 in E3.
  assert (En : entries s = []) by (unfold entries; by rewrite El). rewrite En in E3.
  set (s' := with_list _ _ _ _). assert (Es : entries s' ≡ₚ _) by exact E3. split_and!.
  - intros i Hi. cbn [app]. rewrite (count_perm _ _ _ Es).
    assert (Hc : i = 1 \/ i = 2 \/ i = 3 \/ i = 4) by lia.
    destruct Hc as [->|[->|[->| ->]]]; reflexivity.
  - cbn [app]. rewrite (count_perm _ _ _ Es). cbn [with_list tcpip_tcp_timer_active s'].
    rewrite A3, A2, A1, A0, Ea. reflexivity.
  - cbn [app]. rewrite Es. repeat constructor; cbn; lia.
Qed.
End Cyclic.

(** ** Properties *)

(** [sys_timeout] adds a timeout that is due [msecs] after now, behind all
    that are due no later, and leaves the deadline of every pending timeout
    unchanged.  With an empty list the reference time becomes now.  Otherwise the
    deadlines are right provided that the first timeout is due within [msecs] of
    the last update or no time has passed since, and that not all timeouts are
    overdue; [sys_timeout_delays] shows that the first condition matters.  An
    exhausted pool fails the assertion. *)
Theorem sys_timeout_correct {W} (s : tstate W) (msecs : Z) (hd : sys_timeout_handler) (a : Z) (pool : nat) :
  timeout_pool s = S pool -> times_ok (next_timeout s) -> 0 <= msecs -> msecs + elapsed s < 4294967296 ->
  (elapsed s = 0 \/ forall t, head (next_timeout s) = Some t -> time t <= msecs) ->
  (next_timeout s <> [] -> elapsed s <= span (next_timeout s)) ->
  exists l last, sys_timeout msecs hd a s = Ok (with_list l last pool s) /\ times_ok l
    /\ last = (if decide (next_timeout s = []) then clock s else timeouts_last_time s)
    /\ due last l = insert_due (if decide (next_timeout s = []) then clock s + msecs
                                else timeouts_last_time s + elapsed s + msecs) (hd, a)
                      (due (timeouts_last_time s) (next_timeout s)).
Proof.
  intros Hp Hok Hms Hlt Hhd Hel. pose proof (u32_range (clock s - timeouts_last_time s)) as Hr.
  fold (elapsed s) in Hr. unfold is_u32 in Hr. case_decide as En.
  - unfold sys_timeout. rewrite Hp, En. rewrite Z.add_0_r, u32_id by (unfold is_u32; lia).
    eexists _, _. split; [done|]. split; [|done]. apply times_ok_cons. split_and!; try done; cbn; lia.
  - destruct (sys_timeout_spec s (timeouts_last_time s) msecs hd a pool) as (l & E & Ed & Hokl); auto.
    exists l, (timeouts_last_time s). done.
Qed.

(** when a timeout is set that is due before the first pending one, the
    time since the last update is counted against the pending timeouts a second
    time: all of them are delayed by it. *)
Theorem sys_timeout_delays {W} (s : tstate W) (msecs : Z) (hd : sys_timeout_handler) (a : Z) (pool : nat)
    (t : timeo) (l : list timeo) :
  timeout_pool s = S pool -> next_timeout s = t :: l -> times_ok (t :: l) -> 0 <= msecs < time t ->
  msecs + elapsed s < 4294967296 ->
  exists l', sys_timeout msecs hd a s = Ok (with_list l' (timeouts_last_time s) pool s)
    /\ due (timeouts_last_time s) l'
       = (timeouts_last_time s + elapsed s + msecs, (hd, a))
         :: due (timeouts_last_time s + elapsed s) (t :: l).
Proof.
  intros Hp El Hok Hms Hlt. unfold sys_timeout, sys_now. rewrite Hp, El. fold (elapsed s).
  pose proof (u32_range (clock s - timeouts_last_time s)) as Hr. fold (elapsed s) in Hr. unfold is_u32 in Hr.
  apply times_ok_cons in Hok. destruct Hok as (Ht & Hs & Hok). pose proof (span_nonneg _ Hok).
  rewrite !u32_id by (unfold is_u32; lia). rewrite (proj2 (Z.ltb_lt _ _)) by lia.
  eexists. split; [done|]. cbn [due with_time time h arg].
  replace (timeouts_last_time s + (msecs + elapsed s)) with (timeouts_last_time s + elapsed s + msecs) by lia.
  by replace (timeouts_last_time s + elapsed s + msecs + (time t - msecs))
    with (timeouts_last_time s + elapsed s + time t) by lia.
Qed.

(** [sys_untimeout] removes the first pending timeout with that handler and
    argument, if there is one, gives its element back to the pool and keeps the
    deadlines of all others. *)
Theorem sys_untimeout_correct {W} (s : tstate W) (hd : sys_timeout_handler) (a : Z) :
  times_ok (next_timeout s) ->
  let s' := sys_untimeout hd a s in
  timeouts_last_time s' = timeouts_last_time s /\ times_ok (next_timeout s')
  /\ ((Forall (fun x => snd x <> (hd, a)) (due (timeouts_last_time s) (next_timeout s)) /\ s' = s)
      \/ exists d1 d d2, due (timeouts_last_time s) (next_timeout s) = d1 ++ (d, (hd, a)) :: d2
         /\ due (timeouts_last_time s) (next_timeout s') = d1 ++ d2
         /\ Forall (fun x => snd x <> (hd, a)) d1 /\ timeout_pool s' = S (timeout_pool s)).
Proof.
  intros Hok. cbv zeta. unfold sys_untimeout.
  pose proof (untimeout_loop_spec hd a (next_timeout s) (timeouts_last_time s) Hok) as H.
  destruct (untimeout_loop hd a (next_timeout s)) as [l|].
  - destruct H as (d1 & d & d2 & E & E' & Hd & Hokl & _). split_and!; [done|done|]. right. by exists d1, d, d2.
  - split_and!; [done|done|]. by left.
Qed.

(** C25: [sys_check_timeouts] calls, in the order of their deadlines, the handlers
    of exactly the timeouts that are due, each once, and terminates with nothing
    due any more.  This covers the list that the stack really has: the cyclic
    timers and the TCP timer, which set themselves again, and timers of other
    files that do so or not.  Afterwards exactly the timeouts that were not due
    and those that were set again are pending, the latter [msecs] from now, and
    the pool has the elements of the others back; a deadline is never moved
    forward, and moved back by at most [late], by how much a timeout was overdue.
    [sys_timeouts_sleeptime] is the time until the first timeout is due.  The
    conditions: handlers set no timeouts but their own again ([cyclic_law],
    [other_law]) and do not take time; not every timeout is overdue
    ([elapsed s <= span]); no timeout is overdue by more than [late], and every
    timer sets itself again for at least [late] (in the stack: the list is worked
    off no more than 100 ms behind time); no deadline is further away than 2^30
    ms.  Without these conditions the code delays timeouts, see
    [sys_timeout_delays], and [overdue_not_called]. *)
Theorem sys_check_timeouts_correct {W} (cyclic_run : lwip_cyclic_timer_handler -> tstate W -> res (tstate W))
    (pcbs : W -> bool) (other_run : Z -> Z -> tstate W -> res (tstate W))
    (cyc : lwip_cyclic_timer_handler -> W -> W) (eff : Z -> Z -> W -> W) (again : Z -> Z -> W -> option Z)
    (late : Z) (s : tstate W) :
  cyclic_law cyclic_run cyc -> other_law other_run eff again ->
  is_u32 (timeouts_last_time s) -> is_u32 (clock s) -> times_ok (next_timeout s) ->
  let all := due (timeouts_last_time s) (next_timeout s) in
  let now := timeouts_last_time s + elapsed s in
  Forall (fun x => now - late <= fst x <= now + HORIZON /\ known (snd x)) all ->
  elapsed s <= HORIZON -> elapsed s <= span (next_timeout s) -> 0 <= late <= HORIZON -> slower pcbs again late ->
  (let '(w, b, set) := fire pcbs cyc eff again now (expired now all) (world s) (tcpip_tcp_timer_active s) in
   exists l last pool want, sys_check_timeouts cyclic_run pcbs other_run (S (length all)) s
       = Ok (mk_tstate l (u32 last) b pool (clock s) w)
     /\ (pool + length set = timeout_pool s + length (expired now all))%nat
     /\ times_ok l /\ timeouts_last_time s <= last <= now /\ Forall (fun x => now < fst x) (due last l)
     /\ want ≡ₚ set ++ later now all /\ Forall2 (late_by late) want (due last l))
  /\ (forall d x rest, all = (d, x) :: rest -> sys_timeouts_sleeptime s = Z.max 0 (d - now)).
Proof.
  intros Hcy Hot Hlast Hclk Hok. cbv zeta. intros Hall Hel Hsp Hlate Hslow. set (now := timeouts_last_time s + elapsed s).
  pose proof (u32_range (clock s - timeouts_last_time s)) as Hr. fold (elapsed s) in Hr. unfold is_u32 in Hr. split.
  - assert (K : checking now late (timeouts_last_time s) s).
    { split; try done; unfold now; [by rewrite u32_id| |unfold HORIZON in *; lia|lia]. unfold elapsed, u32.
      rewrite Zplus_mod_idemp_r, Zplus_minus, Z.mod_small; [done|exact Hclk]. }
    pose proof (check_loop_spec cyclic_run pcbs other_run cyc eff again Hcy Hot now late Hlate Hslow
      (S (length (due (timeouts_last_time s) (next_timeout s)))) _ s K) as H.
    unfold sys_check_timeouts, sys_now. fold (elapsed s). replace (now - timeouts_last_time s) with (elapsed s) in H by (unfold now; lia).
    destruct (next_timeout s) as [|t l] eqn:El.
    + cbn [due length check_loop] in H. rewrite El in H. apply H. cbn. lia.
    + apply H. pose proof (List.filter_length_le (fun x : Z * entry => fst x <=? now) (due (timeouts_last_time s) (t :: l))). unfold expired. lia.
  - intros d x rest E. unfold sys_timeouts_sleeptime, sys_now. fold (elapsed s). unfold now.
    destruct (next_timeout s) as [|t l]; [done|]. cbn [due] in E. injection E as <- _ _.
    apply times_ok_cons in Hok. destruct Hok as (Ht & Hs & Hok). pose proof (span_nonneg _ Hok).
    destruct (Z.ltb_spec (time t) (elapsed s)); [lia|].
    rewrite u32_id by (unfold is_u32; lia). lia.
Qed.

(** The delay of [sys_timeout_delays] can keep a timeout that is due from being
    called: the list is worked off at 300, when the IGMP timer (due at 100) and
    another one (due at 250) have expired; the IGMP timer sets itself again in
    front of the other one, which is put off until 450. *)
Example overdue_not_called :
  let s := mk_tstate [mk_timeo 100 H_cyclic_timer 3; mk_timeo 150 (H_other 1) 7] 0 false 3 300 [] in
  let other_run f (a : Z) (s : tstate (list Z)) := Ok (with_world (f :: world s) s) in
  exists s', sys_check_timeouts (fun _ s => Ok s) (fun _ => false) other_run 9 s = Ok s'
    /\ world s' = [] /\ due (timeouts_last_time s') (next_timeout s') = [(400, (H_cyclic_timer, 3)); (450, (H_other 1, 7))].
Proof. eexists. split; [vm_compute; reflexivity|]. split; reflexivity. Qed.

(** C38: after [sys_timeouts_init], whatever timers expire and whatever clients
    do, each of the four cyclic timers of the stack is pending exactly once, and
    the TCP timer is pending exactly once if it is marked active and not at all
    otherwise. *)
Theorem stack_timers_pending_once {W} (cyclic_run : lwip_cyclic_timer_handler -> tstate W -> res (tstate W))
    (pcbs : W -> bool) (other_run : Z -> Z -> tstate W -> res (tstate W)) (s0 s1 s : tstate W) :
  (forall c s s', cyclic_run c s = Ok s' -> rtc (client_step pcbs) s s') ->
  (forall f a s s', other_run f a s = Ok s' -> rtc (client_step pcbs) s s') ->
  next_timeout s0 = [] -> tcpip_tcp_timer_active s0 = false -> sys_timeouts_init s0 = Ok s1 ->
  rtc (timer_step cyclic_run pcbs other_run) s1 s ->
  (forall i, 1 <= i < 5 -> count (H_cyclic_timer, i) (entries s) = 1%nat)
  /\ count (H_tcpip_tcp_timer, NULL) (entries s) = (if tcpip_tcp_timer_active s then 1%nat else 0%nat).
Proof.
  intros Hc Ho El Ea Ei Hs. assert (H : once [] s).
  { pose proof (init_loop_once s0 s1 El Ea Ei) as H1. clear Ei. induction Hs; [done|].
    apply IHHs. by eapply timer_once. }
  destruct H as (H1 & H2 & _). done.
Qed.

(** *** Examples *)

Definition tex : tstate Z :=
  mk_tstate [mk_timeo 100 (H_other 1) 7; mk_timeo 50 (H_other 2) 8] 4294967290 false 3 84 0.

Lemma tex_ok : times_ok (next_timeout tex).
Proof. split; [repeat constructor; cbn; lia|cbn; lia]. Qed.

Lemma sys_timeout_correct_witness :
  exists l last, sys_timeout 120 H_NULL 0 tex = Ok (with_list l last 2 tex)
    /\ due last l = [(4294967390, (H_other 1, 7)); (4294967440, (H_other 2, 8)); (4294967500, (H_NULL, 0))].
Proof.
  destruct (sys_timeout_correct tex 120 H_NULL 0 2) as (l & last & E & _ & _ & Ed);
    [reflexivity|exact tex_ok|lia|vm_compute; reflexivity|right; intros t [= <-]; cbn; lia|vm_compute; discriminate|].
  exists l, last. split; [exact E|]. rewrite Ed. reflexivity.
Defined.

Lemma sys_timeout_delays_witness :
  exists l', sys_timeout 20 H_NULL 0 tex = Ok (with_list l' 4294967290 2 tex)
    /\ due 4294967290 l' = [(4294967400, (H_NULL, 0)); (4294967480, (H_other 1, 7)); (4294967530, (H_other 2, 8))].
Proof.
  destruct (sys_timeout_delays tex 20 H_NULL 0 2 (mk_timeo 100 (H_other 1) 7) [mk_timeo 50 (H_other 2) 8])
    as (l' & E & Ed); [reflexivity|reflexivity|exact tex_ok|cbn; lia|vm_compute; reflexivity|].
  exists l'. split; [exact E|]. cbn in Ed. rewrite Ed. reflexivity.
Defined.

Lemma sys_untimeout_correct_witness :
  times_ok (next_timeout (sys_untimeout (H_other 1) 7 tex))
  /\ due 4294967290 (next_timeout (sys_untimeout (H_other 1) 7 tex)) = [(4294967440, (H_other 2, 8))].
Proof. destruct (sys_untimeout_correct tex (H_other 1) 7 tex_ok) as (_ & H & _). split; [exact H|reflexivity]. Defined.

(** The timers of the stack, a timer of another file that is set again and one
    that is not; the clock wraps around between the update and now.  The handlers
    write a log. *)
Definition tick : tstate (list Z) :=
  mk_tstate [mk_timeo 100 (H_other 1) 7; mk_timeo 0 H_cyclic_timer 3; mk_timeo 3 (H_other 2) 8; mk_timeo 50 H_tcpip_tcp_timer 0;
             mk_timeo 800 H_cyclic_timer 1; mk_timeo 0 H_cyclic_timer 2; mk_timeo 0 H_cyclic_timer 4]
    4294967290 true 8 97 [].

Definition tick_cyc (c : lwip_cyclic_timer_handler) (log : list Z) : list Z :=
  log ++ [match c with tcp_tmr => 10 | ip_reass_tmr => 11 | etharp_tmr => 12 | igmp_tmr => 13 | dns_tmr => 14 end].
Definition tick_again (f a : Z) (log : list Z) : option Z := if f =? 2 then Some 5000 else None.

Lemma tick_slower : slower (fun _ : list Z => true) tick_again 3.
Proof.
  intros [hd a] w ms Hk. unfold rearm, known in *. cbn [fst snd] in *. destruct hd as [| | |f]; [done| | |].
  - intros [= <-]. unfold HORIZON, TCP_TMR_INTERVAL. lia.
  - assert (a = 1 \/ a = 2 \/ a = 3 \/ a = 4) as [-> |[-> |[-> | ->]]] by lia; intros [= <-]; unfold HORIZON; lia.
  - unfold tick_again. destruct (f =? 2); [|done]. intros [= <-]. unfold HORIZON. lia.
Qed.

Lemma sys_check_timeouts_correct_witness :
  exists l last want, sys_check_timeouts (fun c s => Ok (with_world (tick_cyc c (world s)) s)) (fun _ => true)
      (fun f a s => let s := with_world (world s ++ [f]) s in
         match tick_again f a (world s) with Some ms => sys_timeout ms (H_other f) a s | None => Ok s end) 8 tick
      = Ok (mk_tstate l (u32 last) true 9 97 [1; 13; 2])
    /\ want ≡ₚ [(4294967493, (H_cyclic_timer, 3)); (4294972393, (H_other 2, 8))]
               ++ [(4294967443, tcp_entry); (4294968243, (H_cyclic_timer, 1)); (4294968243, (H_cyclic_timer, 2)); (4294968243, (H_cyclic_timer, 4))]
    /\ Forall2 (late_by 3) want (due last l).
Proof.
  destruct (sys_check_timeouts_correct (fun c s => Ok (with_world (tick_cyc c (world s)) s)) (fun _ => true)
      (fun f a s => let s := with_world (world s ++ [f]) s in
         match tick_again f a (world s) with Some ms => sys_timeout ms (H_other f) a s | None => Ok s end)
      tick_cyc (fun f _ w => w ++ [f]) tick_again 3 tick) as [H _];
    [intros c s; reflexivity|intros f a s; reflexivity|split; [discriminate|reflexivity]..
    |split; [repeat constructor; cbn; lia|cbn; lia]| | | | |exact tick_slower|].
  - repeat (apply List.Forall_cons; [split; [vm_compute; split; discriminate|vm_compute; try split; done]|]). apply List.Forall_nil.
  - vm_compute. discriminate.
  - vm_compute. discriminate.
  - unfold HORIZON. lia.
  - destruct H as (l & last & pool & want & E & Hp & _ & _ & _ & Hw & Hf). exists l, last, want.
    assert (pool = 9%nat) as -> by (change (pool + 2 = 11)%nat in Hp; lia). split; [exact E|]. split; [exact Hw|exact Hf].
Defined.

Lemma stack_timers_pending_once_witness :
  exists s1, sys_timeouts_init (mk_tstate [] 0 false 15 5 tt) = Ok s1
    /\ (forall i, 1 <= i < 5 -> count (H_cyclic_timer, i) (entries s1) = 1%nat).
Proof.
  destruct (sys_timeouts_init (mk_tstate [] 0 false 15 5 tt)) as [s1|f] eqn:E; [|vm_compute in E; discriminate E].
  exists s1. split; [reflexivity|].
  apply (stack_timers_pending_once (fun _ s => Ok s) (fun _ => true) (fun _ _ s => Ok s) (mk_tstate [] 0 false 15 5 tt) s1 s1);
    [intros c s s' [= <-]; apply rtc_refl|intros f a s s' [= <-]; apply rtc_refl|reflexivity|reflexivity|exact E|apply rtc_refl].
Defined.
