(* ===== verification/Etharp.v ===== *)
(** * Address resolution: lwip/src/core/ipv4/etharp.c

    The ARP table, its timer, the queueing of packets for unresolved addresses,
    and the ARP messages; [ethernet_output] of lwip/src/netif/ethernet.c frames
    the packets.  The configuration of the port: ARP_TABLE_SIZE 10, ARP_QUEUEING 1
    with ARP_QUEUE_LEN 3, no static entries, no matching of interfaces, no VLANs,
    LWIP_AUTOIP and LWIP_DHCP 0, a build without LWIP_DEBUG.  The MIB2 counters are
    not modelled.

    Packets are reached through the interface [PacketOps], which [Stack] implements with [Pbuf].
    The interfaces are [struct netif]s by address; the elements of the pool
    MEMP_ARP_QUEUE are counted.  A queue of packets is the list of its pbufs. *)

From S2P Require Import Prelude Def Ip4Addr Pbuf.

(** ** Definitions *)

Definition ARP_TABLE_SIZE : nat := 10.
Definition ARP_QUEUE_LEN : Z := 3.
Definition ARP_MAXAGE : Z := 300.
Definition ARP_AGE_REREQUEST_USED_UNICAST : Z := ARP_MAXAGE - 30.
Definition ARP_AGE_REREQUEST_USED_BROADCAST : Z := ARP_MAXAGE - 15.
Definition ARP_MAXPENDING : Z := 5.
Definition ETH_HWADDR_LEN : Z := 6.
Definition SIZEOF_ETH_HDR : Z := 14.
Definition SIZEOF_ETHARP_HDR : Z := 28.
Definition HWTYPE_ETHERNET : Z := 1.
Definition ARP_REQUEST : Z := 1.
Definition ARP_REPLY : Z := 2.
Definition ETHTYPE_IP : Z := 2048.
Definition ETHTYPE_ARP : Z := 2054.
Definition ethbroadcast : list Z := [255; 255; 255; 255; 255; 255].
Definition ethzero : list Z := [0; 0; 0; 0; 0; 0].
Definition ETHARP_FLAG_TRY_HARD : Z := 1.
Definition ETHARP_FLAG_FIND_ONLY : Z := 2.

Inductive etharp_state :=
| ETHARP_STATE_EMPTY | ETHARP_STATE_PENDING | ETHARP_STATE_STABLE
| ETHARP_STATE_STABLE_REREQUESTING_1 | ETHARP_STATE_STABLE_REREQUESTING_2.

#[global] Instance etharp_state_eq_dec : EqDecision etharp_state.
Proof. solve_decision. Defined.

(** [state >= ETHARP_STATE_STABLE]. *)
Definition at_least_stable (s : etharp_state) : bool :=
  match s with
  | ETHARP_STATE_EMPTY | ETHARP_STATE_PENDING => false
  | _ => true
  end.

Record etharp_entry := mk_entry {
  q : list Z; ipaddr : Z; entry_netif : Z; ethaddr : list Z; ctime : Z; entry_state : etharp_state
}.

Definition with_q (v : list Z) (e : etharp_entry) : etharp_entry :=
  mk_entry v (ipaddr e) (entry_netif e) (ethaddr e) (ctime e) (entry_state e).
Definition with_ctime (v : Z) (e : etharp_entry) : etharp_entry :=
  mk_entry (q e) (ipaddr e) (entry_netif e) (ethaddr e) v (entry_state e).
Definition with_state (v : etharp_state) (e : etharp_entry) : etharp_entry :=
  mk_entry (q e) (ipaddr e) (entry_netif e) (ethaddr e) (ctime e) v.

(** [struct etharp_hdr]; 16-bit and 32-bit fields as they are read from memory. *)
Record etharp_hdr := mk_hdr {
  hwtype : Z; proto : Z; hwlen : Z; protolen : Z; opcode : Z;
  shwaddr : list Z; sipaddr : Z; dhwaddr : list Z; dipaddr : Z
}.

Definition hdr_bytes (h : etharp_hdr) : list Z :=
  le_bytes 2 (hwtype h) ++ le_bytes 2 (proto h) ++ [hwlen h; protolen h] ++ le_bytes 2 (opcode h)
  ++ shwaddr h ++ le_bytes 4 (sipaddr h) ++ dhwaddr h ++ le_bytes 4 (dipaddr h).

Definition hdr_of (bs : list Z) : etharp_hdr :=
  let f i n := take n (drop i bs) in
  mk_hdr (le_val (f 0 2)%nat) (le_val (f 2 2)%nat) (le_val (f 4 1)%nat) (le_val (f 5 1)%nat)
    (le_val (f 6 2)%nat) (f 8 6)%nat (le_val (f 14 4)%nat) (f 18 6)%nat (le_val (f 24 4)%nat).

(** The packet buffers and the network driver. *)
Class PacketOps (P : Type) := {
  pbuf_free : P -> Z -> res P;
  pbuf_ref : P -> Z -> res P;
  pbuf_alloc : P -> pbuf_layer -> Z -> pbuf_type -> res (Z * P);
  pbuf_copy : P -> Z -> Z -> res (err_t * P);
  pbuf_header : P -> Z -> Z -> res (bool * P);
  pbuf_at : P -> Z -> res pbuf;
  pbuf_count : P -> nat;
  mem_read : P -> Z -> nat -> list Z;
  mem_write : P -> Z -> list Z -> P;
  linkoutput : P -> Z -> Z -> res (err_t * P);
  (* LINK_STATS_INC(link.lenerr) *)
  link_lenerr : P -> P
}.

(** The counters of [lwip_stats.etharp] that the file and ethernet.c use. *)
Record etharp_stats := mk_etharp_stats {
  st_xmit : Z; st_recv : Z; st_drop : Z; st_lenerr : Z; st_memerr : Z; st_proterr : Z; st_err : Z; st_cachehit : Z
}.

Record arp_state (P : Type) := mk_arp {
  arp_table : list etharp_entry;
  etharp_cached_entry : Z;
  arp_queue_pool : nat;
  netifs : gmap Z netif;
  stats : etharp_stats;
  packets : P
}.
Arguments mk_arp {P} _ _ _ _ _ _.
Arguments arp_table {P} _.
Arguments etharp_cached_entry {P} _.
Arguments arp_queue_pool {P} _.
Arguments netifs {P} _.
Arguments stats {P} _.
Arguments packets {P} _.

Section Etharp.
Context {P : Type} `{PacketOps P}.
Implicit Types s : arp_state P.

Definition with_table (t : list etharp_entry) s : arp_state P :=
  mk_arp t (etharp_cached_entry s) (arp_queue_pool s) (netifs s) (stats s) (packets s).
Definition with_cached (i : Z) s : arp_state P :=
  mk_arp (arp_table s) i (arp_queue_pool s) (netifs s) (stats s) (packets s).
Definition with_pool (n : nat) s : arp_state P :=
  mk_arp (arp_table s) (etharp_cached_entry s) n (netifs s) (stats s) (packets s).
Definition with_packets (p : P) s : arp_state P :=
  mk_arp (arp_table s) (etharp_cached_entry s) (arp_queue_pool s) (netifs s) (stats s) p.
Definition with_stats (f : etharp_stats -> etharp_stats) s : arp_state P :=
  mk_arp (arp_table s) (etharp_cached_entry s) (arp_queue_pool s) (netifs s) (f (stats s)) (packets s).

Definition inc_xmit (t : etharp_stats) : etharp_stats :=
  mk_etharp_stats (u16 (st_xmit t + 1)) (st_recv t) (st_drop t) (st_lenerr t) (st_memerr t) (st_proterr t) (st_err t) (st_cachehit t).
Definition inc_recv (t : etharp_stats) : etharp_stats :=
  mk_etharp_stats (st_xmit t) (u16 (st_recv t + 1)) (st_drop t) (st_lenerr t) (st_memerr t) (st_proterr t) (st_err t) (st_cachehit t).
Definition inc_proterr_drop (t : etharp_stats) : etharp_stats :=
  mk_etharp_stats (st_xmit t) (st_recv t) (u16 (st_drop t + 1)) (st_lenerr t) (st_memerr t) (u16 (st_proterr t + 1)) (st_err t) (st_cachehit t).
Definition inc_lenerr_drop (t : etharp_stats) : etharp_stats :=
  mk_etharp_stats (st_xmit t) (st_recv t) (u16 (st_drop t + 1)) (u16 (st_lenerr t + 1)) (st_memerr t) (st_proterr t) (st_err t) (st_cachehit t).
Definition inc_memerr (t : etharp_stats) : etharp_stats :=
  mk_etharp_stats (st_xmit t) (st_recv t) (st_drop t) (st_lenerr t) (u16 (st_memerr t + 1)) (st_proterr t) (st_err t) (st_cachehit t).
Definition inc_err (t : etharp_stats) : etharp_stats :=
  mk_etharp_stats (st_xmit t) (st_recv t) (st_drop t) (st_lenerr t) (st_memerr t) (st_proterr t) (u16 (st_err t + 1)) (st_cachehit t).
Definition inc_cachehit (t : etharp_stats) : etharp_stats :=
  mk_etharp_stats (st_xmit t) (st_recv t) (st_drop t) (st_lenerr t) (st_memerr t) (st_proterr t) (st_err t) (u16 (st_cachehit t + 1)).

(** [arp_table[i]]. *)
Definition entry s (i : nat) : res etharp_entry :=
  match arp_table s !! i with
  | Some e => Ok e
  | None => Fault FBadAccess
  end.

Definition set_entry s (i : nat) (e : etharp_entry) : arp_state P := with_table (<[i := e]> (arp_table s)) s.

(** *** Frames (ethernet.c) *)

Definition eth_hdr_bytes (src dst : list Z) (type_be : Z) : list Z := dst ++ src ++ le_bytes 2 type_be.

Definition ethernet_output (p : P) (nif : Z) (netif : netif) (b : Z) (src dst : list Z) (eth_type : Z)
    : res (err_t * P) :=
  let eth_type_be := lwip_htons eth_type in
  let* (failed, p) := pbuf_header p b SIZEOF_ETH_HDR in
  if (failed : bool) then Ok (ERR_BUF, link_lenerr p)
  else
    let* pb := pbuf_at p b in
    let p := mem_write p (payload pb) (eth_hdr_bytes src dst eth_type_be) in
    assert* (Z.of_nat (length (netif_hwaddr netif)) =? ETH_HWADDR_LEN) in
    linkoutput p nif b.

(** *** Requests *)

Definition etharp_raw s (nif : Z) (ethsrc_addr ethdst_addr hwsrc_addr : list Z) (ipsrc_addr : Z)
    (hwdst_addr : list Z) (ipdst_addr opcode : Z) : res (err_t * arp_state P) :=
  let* netif := deref (netifs s) nif in
  let* (p, pk) := pbuf_alloc (packets s) PBUF_LINK SIZEOF_ETHARP_HDR PBUF_RAM in
  if p =? NULL then Ok (ERR_MEM, with_stats inc_memerr (with_packets pk s))
  else
    let* b := pbuf_at pk p in
    assert* (SIZEOF_ETHARP_HDR <=? len b) in
    assert* (Z.of_nat (length (netif_hwaddr netif)) =? ETH_HWADDR_LEN) in
    let hdr := mk_hdr (PP_HTONS HWTYPE_ETHERNET) (PP_HTONS ETHTYPE_IP) ETH_HWADDR_LEN 4 (lwip_htons opcode)
                 hwsrc_addr ipsrc_addr hwdst_addr ipdst_addr in
    let pk := mem_write pk (payload b) (hdr_bytes hdr) in
    let* (_, pk) := ethernet_output pk nif netif p ethsrc_addr ethdst_addr ETHTYPE_ARP in
    let* pk := pbuf_free pk p in
    Ok (ERR_OK, with_stats inc_xmit (with_packets pk s)).

Definition etharp_request_dst s (nif addr : Z) (hw_dst_addr : list Z) : res (err_t * arp_state P) :=
  let* netif := deref (netifs s) nif in
  etharp_raw s nif (netif_hwaddr netif) hw_dst_addr (netif_hwaddr netif) (netif_ip4_addr netif) ethzero addr
    ARP_REQUEST.

Definition etharp_request s (nif addr : Z) : res (err_t * arp_state P) :=
  etharp_request_dst s nif addr ethbroadcast.

(** *** The table *)

(** The [while] loop. *)
Fixpoint free_loop (l : list Z) s : res (arp_state P) :=
  match l with
  | [] => Ok s
  | p :: l' =>
      assert* negb (p =? NULL) in
      let* pk := pbuf_free (packets s) p in
      free_loop l' (with_pool (S (arp_queue_pool s)) (with_packets pk s))
  end.

Definition free_etharp_q (l : list Z) s : res (arp_state P) :=
  match l with
  | [] => Fault FAssert
  | p :: _ => assert* negb (p =? NULL) in free_loop l s
  end.

Definition etharp_free_entry s (i : nat) : res (arp_state P) :=
  let* e := entry s i in
  let* s := match q e with [] => Ok s | l => free_etharp_q l s end in
  Ok (set_entry s i (with_state ETHARP_STATE_EMPTY (with_q [] e))).

(** The body of the loop of [etharp_tmr]. *)
Definition tmr_entry s (i : nat) : res (arp_state P) :=
  let* e := entry s i in
  if bool_decide (entry_state e = ETHARP_STATE_EMPTY) then Ok s
  else
    let e := with_ctime (u16 (ctime e + 1)) e in
    let s := set_entry s i e in
    if (ARP_MAXAGE <=? ctime e)
       || (bool_decide (entry_state e = ETHARP_STATE_PENDING) && (ARP_MAXPENDING <=? ctime e))
    then etharp_free_entry s i
    else
      match entry_state e with
      | ETHARP_STATE_STABLE_REREQUESTING_1 =>
          Ok (set_entry s i (with_state ETHARP_STATE_STABLE_REREQUESTING_2 e))
      | ETHARP_STATE_STABLE_REREQUESTING_2 => Ok (set_entry s i (with_state ETHARP_STATE_STABLE e))
      | ETHARP_STATE_PENDING => let* (_, s) := etharp_request s (entry_netif e) (ipaddr e) in Ok s
      | _ => Ok s
      end.

Fixpoint tmr_loop (n : nat) (i : nat) s : res (arp_state P) :=
  match n with
  | O => Ok s
  | S n' => let* s := tmr_entry s i in tmr_loop n' (S i) s
  end.

Definition etharp_tmr s : res (arp_state P) := tmr_loop ARP_TABLE_SIZE 0 s.

(** What the search sweep remembers; an index of [ARP_TABLE_SIZE] is none. *)
Record candidates := mk_cand {
  empty : nat; old_stable : nat; old_pending : nat; old_queue : nat;
  age_stable : Z; age_pending : Z; age_queue : Z
}.

Definition no_candidates : candidates :=
  mk_cand ARP_TABLE_SIZE ARP_TABLE_SIZE ARP_TABLE_SIZE ARP_TABLE_SIZE 0 0 0.

(** Remember the entry [e] at [i], which does not match. *)
Definition remember (i : nat) (e : etharp_entry) (c : candidates) : candidates :=
  if bool_decide (entry_state e = ETHARP_STATE_PENDING) then
    match q e with
    | _ :: _ =>
        if age_queue c <=? ctime e
        then mk_cand (empty c) (old_stable c) (old_pending c) i (age_stable c) (age_pending c) (ctime e)
        else c
    | [] =>
        if age_pending c <=? ctime e
        then mk_cand (empty c) (old_stable c) i (old_queue c) (age_stable c) (ctime e) (age_queue c)
        else c
    end
  else if age_stable c <=? ctime e
       then mk_cand (empty c) i (old_pending c) (old_queue c) (ctime e) (age_pending c) (age_queue c)
       else c.

(** The search sweep: the matching entry, or the candidates. *)
Fixpoint sweep (addr : option Z) (i : nat) (t : list etharp_entry) (c : candidates) : nat + candidates :=
  match t with
  | [] => inr c
  | e :: t' =>
      if bool_decide (empty c = ARP_TABLE_SIZE) && bool_decide (entry_state e = ETHARP_STATE_EMPTY) then
        sweep addr (S i) t' (mk_cand i (old_stable c) (old_pending c) (old_queue c) (age_stable c) (age_pending c) (age_queue c))
      else if bool_decide (entry_state e <> ETHARP_STATE_EMPTY) then
        if match addr with Some a => a =? ipaddr e | None => false end then inl i
        else sweep addr (S i) t' (remember i e c)
      else sweep addr (S i) t' c
  end.

(** The entry to use for a new address; [None] is ERR_MEM. *)
Definition choose s (c : candidates) : res (option nat) :=
  if (empty c <? ARP_TABLE_SIZE)%nat then Ok (Some (empty c))
  else if (old_stable c <? ARP_TABLE_SIZE)%nat then
    let* e := entry s (old_stable c) in
    assert* match q e with [] => true | _ => false end in
    Ok (Some (old_stable c))
  else if (old_pending c <? ARP_TABLE_SIZE)%nat then Ok (Some (old_pending c))
  else if (old_queue c <? ARP_TABLE_SIZE)%nat then Ok (Some (old_queue c))
  else Ok None.

(** The index, [None] for ERR_MEM. *)
Definition etharp_find_entry s (addr : option Z) (flags : Z) : res (option nat * arp_state P) :=
  match sweep addr 0 (arp_table s) no_candidates with
  | inl i => Ok (Some i, s)
  | inr c =>
      if negb (Z.land flags ETHARP_FLAG_FIND_ONLY =? 0)
         || (bool_decide (empty c = ARP_TABLE_SIZE) && (Z.land flags ETHARP_FLAG_TRY_HARD =? 0))
      then Ok (None, s)
      else
        let* ch := choose s c in
        match ch with
        | None => Ok (None, s)
        | Some i =>
            let* s := if (empty c <? ARP_TABLE_SIZE)%nat then Ok s else etharp_free_entry s i in
            assert* (i <? ARP_TABLE_SIZE)%nat in
            let* e := entry s i in
            assert* bool_decide (entry_state e = ETHARP_STATE_EMPTY) in
            let e := mk_entry (q e) (default (ipaddr e) addr) (entry_netif e) (ethaddr e) 0 (entry_state e) in
            Ok (Some i, set_entry s i e)
        end
  end.

(** The [while] loop that sends the queued packets of entry [i]. *)
Fixpoint send_queue (l : list Z) (i : nat) (nif : Z) (netif : netif) (dst : list Z) s : res (arp_state P) :=
  match l with
  | [] => Ok s
  | p :: l' =>
      let* e := entry s i in
      let s := with_pool (S (arp_queue_pool s)) (set_entry s i (with_q l' e)) in
      let* (_, pk) := ethernet_output (packets s) nif netif p (netif_hwaddr netif) dst ETHTYPE_IP in
      let* pk := pbuf_free pk p in
      send_queue l' i nif netif dst (with_packets pk s)
  end.

Definition ip4_addr_isany (addr : Z) : bool := ip4_addr_isany_val addr.

Definition etharp_update_arp_entry s (nif addr : Z) (hwaddr : list Z) (flags : Z) : res (err_t * arp_state P) :=
  let* netif := deref (netifs s) nif in
  assert* (Z.of_nat (length (netif_hwaddr netif)) =? ETH_HWADDR_LEN) in
  if ip4_addr_isany addr || ip4_addr_isbroadcast_u32 addr netif || ip4_addr_ismulticast addr
  then Ok (ERR_ARG, s)
  else
    let* (r, s) := etharp_find_entry s (Some addr) flags in
    match r with
    | None => Ok (ERR_MEM, s)
    | Some i =>
        let* e := entry s i in
        let s := set_entry s i (mk_entry (q e) (ipaddr e) nif hwaddr 0 ETHARP_STATE_STABLE) in
        let* s := send_queue (q e) i nif netif hwaddr s in
        Ok (ERR_OK, s)
    end.

Fixpoint cleanup_loop (n i : nat) (nif : Z) s : res (arp_state P) :=
  match n with
  | O => Ok s
  | S n' =>
      let* e := entry s i in
      let* s :=
        if bool_decide (entry_state e <> ETHARP_STATE_EMPTY) && (entry_netif e =? nif)
        then etharp_free_entry s i else Ok s in
      cleanup_loop n' (S i) nif s
  end.

Definition etharp_cleanup_netif s (nif : Z) : res (arp_state P) := cleanup_loop ARP_TABLE_SIZE 0 nif s.

(** The index and the two addresses returned by reference; [None] is -1. *)
Definition etharp_find_addr s (addr : Z) : res (option (nat * list Z * Z) * arp_state P) :=
  let* (r, s) := etharp_find_entry s (Some addr) ETHARP_FLAG_FIND_ONLY in
  match r with
  | Some i =>
      let* e := entry s i in
      if at_least_stable (entry_state e) then Ok (Some (i, ethaddr e, ipaddr e), s) else Ok (None, s)
  | None => Ok (None, s)
  end.

Definition etharp_get_entry s (i : nat) : res (option (Z * Z * list Z)) :=
  if (i <? ARP_TABLE_SIZE)%nat then
    let* e := entry s i in
    if at_least_stable (entry_state e) then Ok (Some (ipaddr e, entry_netif e, ethaddr e)) else Ok None
  else Ok None.

(** *** Input *)

(** The reply to the request in [h]. *)
Definition reply_hdr (h : etharp_hdr) (netif : netif) : etharp_hdr :=
  mk_hdr (hwtype h) (proto h) (hwlen h) (protolen h) (lwip_htons ARP_REPLY) (netif_hwaddr netif)
    (netif_ip4_addr netif) (shwaddr h) (sipaddr h).

(** [nif] NULL returns at once and leaves the packet to the caller. *)
Definition etharp_input s (p nif : Z) : res (arp_state P) :=
  if nif =? NULL then Ok s
  else
    let* netif := deref (netifs s) nif in
    let* b := pbuf_at (packets s) p in
    let hdr := hdr_of (mem_read (packets s) (payload b) (Z.to_nat SIZEOF_ETHARP_HDR)) in
    if negb (hwtype hdr =? PP_HTONS HWTYPE_ETHERNET) || negb (hwlen hdr =? ETH_HWADDR_LEN)
       || negb (protolen hdr =? 4) || negb (proto hdr =? PP_HTONS ETHTYPE_IP)
    then
      let s := with_stats inc_proterr_drop s in
      let* pk := pbuf_free (packets s) p in Ok (with_packets pk s)
    else
      let s := with_stats inc_recv s in
      let for_us :=
        if ip4_addr_isany_val (netif_ip4_addr netif) then false
        else dipaddr hdr =? netif_ip4_addr netif in
      let* (_, s) := etharp_update_arp_entry s nif (sipaddr hdr) (shwaddr hdr)
                       (if for_us then ETHARP_FLAG_TRY_HARD else ETHARP_FLAG_FIND_ONLY) in
      let hdr := hdr_of (mem_read (packets s) (payload b) (Z.to_nat SIZEOF_ETHARP_HDR)) in
      let* s :=
        if opcode hdr =? PP_HTONS ARP_REQUEST then
          if (for_us : bool) then
            assert* (Z.of_nat (length (netif_hwaddr netif)) =? ETH_HWADDR_LEN) in
            let r := reply_hdr hdr netif in
            let pk := mem_write (packets s) (payload b) (hdr_bytes r) in
            let* (_, pk) := ethernet_output pk nif netif p (shwaddr r) (dhwaddr r) ETHTYPE_ARP in
            Ok (with_packets pk s)
          else Ok s
        else if opcode hdr =? PP_HTONS ARP_REPLY then Ok s
        else Ok (with_stats inc_err s) in
      let* pk := pbuf_free (packets s) p in
      Ok (with_packets pk s).

(** *** Output *)

Definition etharp_output_to_arp_index s (nif b : Z) (arp_idx : nat) : res (err_t * arp_state P) :=
  let* netif := deref (netifs s) nif in
  let* e := entry s arp_idx in
  assert* at_least_stable (entry_state e) in
  let* s :=
    if bool_decide (entry_state e = ETHARP_STATE_STABLE) then
      if ARP_AGE_REREQUEST_USED_BROADCAST <=? ctime e then
        let* (err, s) := etharp_request s nif (ipaddr e) in
        if bool_decide (err = ERR_OK)
        then let* e := entry s arp_idx in
             Ok (set_entry s arp_idx (with_state ETHARP_STATE_STABLE_REREQUESTING_1 e))
        else Ok s
      else if ARP_AGE_REREQUEST_USED_UNICAST <=? ctime e then
        let* (err, s) := etharp_request_dst s nif (ipaddr e) (ethaddr e) in
        if bool_decide (err = ERR_OK)
        then let* e := entry s arp_idx in
             Ok (set_entry s arp_idx (with_state ETHARP_STATE_STABLE_REREQUESTING_1 e))
        else Ok s
      else Ok s
    else Ok s in
  let* e := entry s arp_idx in
  let* (err, pk) := ethernet_output (packets s) nif netif b (netif_hwaddr netif) (ethaddr e) ETHTYPE_IP in
  Ok (err, with_packets pk s).

(** The loop that looks for the first pbuf that is not PBUF_ROM. *)
Fixpoint copy_needed (fuel : nat) (pk : P) (p : Z) : res (option Z) :=
  match fuel with
  | O => Fault FFuel
  | S fuel' =>
      if negb (p =? NULL) then
        let* b := pbuf_at pk p in
        assert* (negb (len b =? tot_len b) || (next b =? NULL)) in
        if bool_decide (type b <> PBUF_ROM) then Ok (Some p) else copy_needed fuel' pk (next b)
      else Ok None
  end.

(** The packet to be queued: a copy, or a reference to [b]; NULL without memory. *)
Definition take_over (pk : P) (b : Z) : res (Z * P) :=
  let* c := copy_needed (S (pbuf_count pk)) pk b in
  match c with
  | Some p =>
      let* pb := pbuf_at pk p in
      let* (p, pk) := pbuf_alloc pk PBUF_LINK (tot_len pb) PBUF_RAM in
      if p =? NULL then Ok (NULL, pk)
      else
        let* (err, pk) := pbuf_copy pk p b in
        if bool_decide (err = ERR_OK) then Ok (p, pk)
        else let* pk := pbuf_free pk p in Ok (NULL, pk)
  | None => let* pk := pbuf_ref pk b in Ok (b, pk)
  end.

(** Append [p] to the queue of entry [i], dropping the oldest packet of a full
    queue. *)
Definition enqueue s (i : nat) (p : Z) : res (err_t * arp_state P) :=
  match arp_queue_pool s with
  | S pool =>
      let* e := entry s i in
      let qlen := Z.of_nat (length (q e)) in
      let s := with_pool pool (set_entry s i (with_q (q e ++ [p]) e)) in
      if ARP_QUEUE_LEN <=? qlen then
        let* e := entry s i in
        match q e with
        | old :: rest =>
            let s := set_entry s i (with_q rest e) in
            let* pk := pbuf_free (packets s) old in
            Ok (ERR_OK, with_pool (S (arp_queue_pool s)) (with_packets pk s))
        | [] => Fault FBadAccess
        end
      else Ok (ERR_OK, s)
  | O => let* pk := pbuf_free (packets s) p in Ok (ERR_MEM, with_packets pk s)
  end.

(** [b] NULL: only send a request. *)
Definition etharp_query s (nif addr b : Z) : res (err_t * arp_state P) :=
  let* netif := deref (netifs s) nif in
  if ip4_addr_isbroadcast_u32 addr netif || ip4_addr_ismulticast addr || ip4_addr_isany addr
  then Ok (ERR_ARG, s)
  else
    let* (r, s) := etharp_find_entry s (Some addr) ETHARP_FLAG_TRY_HARD in
    match r with
    | None => Ok (ERR_MEM, if negb (b =? NULL) then with_stats inc_memerr s else s)
    | Some i =>
        let* e := entry s i in
        let is_new_entry := bool_decide (entry_state e = ETHARP_STATE_EMPTY) in
        let s := if is_new_entry
                 then set_entry s i (mk_entry (q e) (ipaddr e) nif (ethaddr e) (ctime e) ETHARP_STATE_PENDING)
                 else s in
        let* e := entry s i in
        assert* bool_decide (entry_state e <> ETHARP_STATE_EMPTY) in
        let* (result, s) :=
          if is_new_entry || (b =? NULL) then etharp_request s nif addr else Ok (ERR_MEM, s) in
        if b =? NULL then Ok (result, s)
        else
          let* e := entry s i in
          if at_least_stable (entry_state e) then
            let s := with_cached (Z.of_nat i) s in
            let* (err, pk) := ethernet_output (packets s) nif netif b (netif_hwaddr netif) (ethaddr e) ETHTYPE_IP in
            Ok (err, with_packets pk s)
          else if bool_decide (entry_state e = ETHARP_STATE_PENDING) then
            let* (p, pk) := take_over (packets s) b in
            let s := with_packets pk s in
            if negb (p =? NULL) then enqueue s i p
            else Ok (ERR_MEM, with_stats inc_memerr s)
          else Ok (result, s)
    end.

(** The loop of [etharp_output]: the first stable entry for [addr]. *)
Fixpoint find_stable (addr : Z) (i : nat) (t : list etharp_entry) : option nat :=
  match t with
  | [] => None
  | e :: t' => if at_least_stable (entry_state e) && (addr =? ipaddr e) then Some i else find_stable addr (S i) t'
  end.

(** [ip4_addr2], [ip4_addr3] and [ip4_addr4]: bytes of the address in memory. *)
Definition ip4_addr_byte (addr : Z) (i : nat) : Z := nth i (le_bytes 4 addr) 0.

Definition mcastaddr (addr : Z) : list Z :=
  [1; 0; 94; Z.land (ip4_addr_byte addr 1) 127; ip4_addr_byte addr 2; ip4_addr_byte addr 3].

(** The next hop for a unicast address; [None]: no gateway. *)
Definition next_hop (netif : netif) (addr : Z) : option Z :=
  if negb (ip4_addr_netcmp addr (netif_ip4_addr netif) (netif_ip4_netmask netif))
     && negb (ip4_addr_islinklocal addr)
  then if negb (ip4_addr_isany_val (netif_ip4_gw netif)) then Some (netif_ip4_gw netif) else None
  else Some addr.

Definition etharp_output s (nif b addr : Z) : res (err_t * arp_state P) :=
  assert* negb (b =? NULL) in
  let* netif := deref (netifs s) nif in
  let direct dest :=
    let* (err, pk) := ethernet_output (packets s) nif netif b (netif_hwaddr netif) dest ETHTYPE_IP in
    Ok (err, with_packets pk s) in
  if ip4_addr_isbroadcast_u32 addr netif then direct ethbroadcast
  else if ip4_addr_ismulticast addr then direct (mcastaddr addr)
  else
    match next_hop netif addr with
    | None => Ok (ERR_RTE, s)
    | Some dst_addr =>
        let* c := entry s (Z.to_nat (etharp_cached_entry s)) in
        if at_least_stable (entry_state c) && (dst_addr =? ipaddr c)
        then etharp_output_to_arp_index (with_stats inc_cachehit s) nif b (Z.to_nat (etharp_cached_entry s))
        else
          match find_stable dst_addr 0 (arp_table s) with
          | Some i => etharp_output_to_arp_index (with_cached (Z.of_nat i) s) nif b i
          | None => etharp_query s nif dst_addr b
          end
    end.

End Etharp.

(** ** The search *)

Definition nonempty (e : etharp_entry) : Prop := entry_state e <> ETHARP_STATE_EMPTY.

(** How much would be lost with an entry: nothing queued on a stable entry can
    be lost, a pending one without packets is worth less than one with packets. *)
Definition rank (e : etharp_entry) : nat :=
  if bool_decide (entry_state e = ETHARP_STATE_PENDING) then match q e with [] => 1 | _ => 2 end else 0.

(** No other entry is a better one to recycle. *)
Definition least_important (t : list etharp_entry) (i : nat) : Prop :=
  exists e, t !! i = Some e /\ forall j e', t !! j = Some e' ->
    (rank e <= rank e')%nat /\ (rank e = rank e' -> ctime e' <= ctime e).

(** The oldest entry of rank [r] in [t], with its age. *)
Definition oldest (r : nat) (t : list etharp_entry) (i : nat) (age : Z) : Prop :=
  (i = ARP_TABLE_SIZE /\ age = 0 /\ Forall (fun e => nonempty e -> rank e <> r) t)
  \/ exists e, t !! i = Some e /\ nonempty e /\ rank e = r /\ ctime e = age
     /\ Forall (fun e => nonempty e -> rank e = r -> ctime e <= age) t.

(** The first empty entry. *)
Definition first_empty (t : list etharp_entry) (i : nat) : Prop :=
  (i = ARP_TABLE_SIZE /\ Forall nonempty t)
  \/ exists e, t !! i = Some e /\ entry_state e = ETHARP_STATE_EMPTY /\ Forall nonempty (take i t).

Record cand_ok (t : list etharp_entry) (c : candidates) : Prop := {
  cand_empty : first_empty t (empty c);
  cand_stable : oldest 0 t (old_stable c) (age_stable c);
  cand_pending : oldest 1 t (old_pending c) (age_pending c);
  cand_queue : oldest 2 t (old_queue c) (age_queue c)
}.

(** An entry of another rank, or an empty one, changes nothing. *)
Lemma oldest_skip r t e i age :
  (nonempty e -> rank e <> r) -> oldest r t i age -> oldest r (t ++ [e]) i age.
Proof.
  intros Hne [(-> & -> & Hf)|(e0 & Hi & Hn & Hr & Ha & Hf)].
  - left. split_and!; try done. apply Forall_app. by split; [|constructor].
  - right. exists e0. split_and!; try done; [by apply lookup_app_l_Some|]. apply Forall_app.
    split; [done|]. constructor; [|constructor]. intros Hn' Hr'. by destruct (Hne Hn').
Qed.

(** An entry of the rank: it is the oldest, or an earlier one is older. *)
Lemma oldest_take r t e age i :
  nonempty e -> rank e = r -> 0 <= ctime e -> oldest r t i age ->
  if age <=? ctime e then oldest r (t ++ [e]) (length t) (ctime e) else oldest r (t ++ [e]) i age.
Proof.
  intros Hn Hr Hc Hold. destruct (Z.leb_spec age (ctime e)) as [Hle|Hgt].
  - right. exists e. rewrite lookup_app_r, Nat.sub_diag by lia. split_and!; try done. apply Forall_app.
    split; [|constructor; [done|constructor]].
    destruct Hold as [(_ & _ & Hf)|(e0 & _ & _ & _ & _ & Hf)]; (eapply Forall_impl; [exact Hf|]); cbn.
    + intros x Hx Hnx Hrx. by destruct (Hx Hnx).
    + intros x Hx Hnx Hrx. specialize (Hx Hnx Hrx). lia.
  - destruct Hold as [(_ & -> & _)|(e0 & Hi & Hn0 & Hr0 & Ha & Hf)]; [lia|]. right. exists e0.
    split_and!; try done; [by apply lookup_app_l_Some|]. apply Forall_app. split; [done|].
    constructor; [|constructor]. intros _ _. lia.
Qed.

Lemma first_empty_skip t e i : nonempty e \/ i <> ARP_TABLE_SIZE -> first_empty t i -> first_empty (t ++ [e]) i.
Proof.
  intros Hne [(-> & Hf)|(e0 & Hi & He & Hf)].
  - destruct Hne as [Hne|]; [|done]. left. split; [done|]. apply Forall_app. by split; [|constructor].
  - right. exists e0. apply lookup_lt_Some in Hi as Hlt. rewrite take_app_le by lia.
    split_and!; [by apply lookup_app_l_Some|done|done].
Qed.

Lemma remember_ok t e c :
  nonempty e -> 0 <= ctime e -> cand_ok t c -> cand_ok (t ++ [e]) (remember (length t) e c).
Proof.
  intros Hn Hc [He Hs Hp Hq]. unfold remember.
  pose proof (oldest_take 0 t e (age_stable c) (old_stable c) Hn) as T0.
  pose proof (oldest_take 1 t e (age_pending c) (old_pending c) Hn) as T1.
  pose proof (oldest_take 2 t e (age_queue c) (old_queue c) Hn) as T2.
  assert (Hsk : forall r i age, rank e <> r -> oldest r t i age -> oldest r (t ++ [e]) i age)
    by (intros; by apply oldest_skip).
  assert (Hem : first_empty (t ++ [e]) (empty c)) by (apply first_empty_skip; [by left|done]).
  unfold rank in *. destruct (bool_decide_reflect (entry_state e = ETHARP_STATE_PENDING)) as [E|E].
  - destruct (q e) as [|x l].
    + specialize (T1 eq_refl Hc Hp). destruct (age_pending c <=? ctime e); split; cbn; auto.
    + specialize (T2 eq_refl Hc Hq). destruct (age_queue c <=? ctime e); split; cbn; auto.
  - specialize (T0 eq_refl Hc Hs). destruct (age_stable c <=? ctime e); split; cbn; auto.
Qed.

Definition no_match (addr : option Z) (e : etharp_entry) : Prop :=
  forall a, addr = Some a -> nonempty e -> ipaddr e <> a.

Lemma sweep_spec addr t : forall pre c,
  cand_ok pre c -> Forall (fun e => 0 <= ctime e) t -> (length pre + length t <= ARP_TABLE_SIZE)%nat ->
  match sweep addr (length pre) t c with
  | inl i => exists k e, i = (length pre + k)%nat /\ t !! k = Some e /\ nonempty e /\ addr = Some (ipaddr e)
      /\ Forall (no_match addr) (take k t)
  | inr c' => cand_ok (pre ++ t) c' /\ Forall (no_match addr) t
  end.
Proof.
  induction t as [|e t IH]; intros pre c Hok Hct Hlen; cbn [sweep]; [by rewrite app_nil_r|].
  apply Forall_cons in Hct. destruct Hct as [Hc Hct]. cbn [length] in Hlen.
  assert (Hnext : forall c', cand_ok (pre ++ [e]) c' -> no_match addr e ->
    match sweep addr (S (length pre)) t c' with
    | inl i => exists k e0, i = (length pre + k)%nat /\ (e :: t) !! k = Some e0 /\ nonempty e0
        /\ addr = Some (ipaddr e0) /\ Forall (no_match addr) (take k (e :: t))
    | inr c'' => cand_ok (pre ++ e :: t) c'' /\ Forall (no_match addr) (e :: t)
    end).
  { intros c' Hok' Hnm. specialize (IH (pre ++ [e]) c' Hok' Hct). rewrite length_app in IH. cbn [length] in IH.
    rewrite Nat.add_1_r in IH. specialize (IH ltac:(lia)). rewrite <- app_assoc in IH. cbn [app] in IH.
    destruct (sweep addr (S (length pre)) t c') as [i|c''].
    - destruct IH as (k & e0 & -> & Hk & Hn & Ha & Hf). exists (S k), e0. split_and!; try done; [lia|by constructor].
    - destruct IH as [? ?]. split; [done|by constructor]. }
  destruct (decide (entry_state e = ETHARP_STATE_EMPTY)) as [Ee|Ee].
  - assert (Hnm : no_match addr e) by (intros a _ Hn; by destruct (Hn Ee)).
    assert (Hskip : forall r i age, oldest r pre i age -> oldest r (pre ++ [e]) i age).
    { intros. apply oldest_skip; [|done]. intros Hn. by destruct (Hn Ee). }
    rewrite (bool_decide_true (entry_state e = _)), (bool_decide_false (entry_state e <> _)) by tauto.
    rewrite andb_true_r. destruct (bool_decide_reflect (empty c = ARP_TABLE_SIZE)) as [E|E].
    + apply Hnext; [|done]. destruct Hok as [He Hs Hp Hq]. split; cbn; auto. right. exists e.
      rewrite lookup_app_r, Nat.sub_diag, take_app_length by lia. split_and!; [done|done|].
      destruct He as [[_ Hf]|(e0 & Hi & _)]; [done|]. apply lookup_lt_Some in Hi. lia.
    + apply Hnext; [|done]. destruct Hok as [He Hs Hp Hq]. split; cbn; auto.
      apply first_empty_skip; [by right|done].
  - rewrite (bool_decide_false (entry_state e = _)), (bool_decide_true (entry_state e <> _)) by done.
    rewrite andb_false_r. destruct addr as [a|]; [destruct (Z.eqb_spec a (ipaddr e)) as [->|Hne]|].
    + exists 0%nat, e. rewrite Nat.add_0_r. by split_and!.
    + apply Hnext; [by apply remember_ok|]. intros ? [= <-] _. congruence.
    + apply Hnext; [by apply remember_ok|]. by intros ? [=].
Qed.

Lemma no_candidates_ok : cand_ok [] no_candidates.
Proof. split; left; split_and!; try done; constructor. Qed.

(** ** The invariant of the table *)

Record entry_ok (e : etharp_entry) : Prop := {
  ctime_range : 0 <= ctime e <= ARP_MAXAGE;
  ctime_used : nonempty e -> ctime e < ARP_MAXAGE;
  ctime_pending : entry_state e = ETHARP_STATE_PENDING -> ctime e < ARP_MAXPENDING;
  queue_len : Z.of_nat (length (q e)) <= ARP_QUEUE_LEN;
  queue_pending : entry_state e <> ETHARP_STATE_PENDING -> q e = []
}.

(** No two entries in use have the same address. *)
Definition distinct (t : list etharp_entry) : Prop :=
  forall i j e e', t !! i = Some e -> t !! j = Some e' -> nonempty e -> nonempty e' -> ipaddr e = ipaddr e' -> i = j.

Record table_ok (t : list etharp_entry) : Prop := {
  table_len : length t = ARP_TABLE_SIZE;
  table_entries : Forall entry_ok t;
  table_distinct : distinct t
}.

(** The packets that are queued. *)
Fixpoint queued (t : list etharp_entry) : nat :=
  match t with
  | [] => 0
  | e :: t' => length (q e) + queued t'
  end.

Lemma queued_insert t i e e' :
  t !! i = Some e -> (queued (<[i := e']> t) + length (q e) = queued t + length (q e'))%nat.
Proof.
  revert i. induction t as [|x t IH]; intros [|i]; try done.
  - intros [= ->]. cbn [insert list_insert queued]. lia.
  - intros Hi. specialize (IH i Hi). change (<[S i := e']> (x :: t)) with (x :: <[i := e']> t).
    cbn [queued]. lia.
Qed.

Section Table.
Context {P : Type} `{PacketOps P}.
Implicit Types s : arp_state P.

(** The table is in order and no element of the queue pool, which has [N], is lost. *)
Definition arp_inv (N : nat) s : Prop :=
  table_ok (arp_table s) /\ (arp_queue_pool s + queued (arp_table s) = N)%nat
  /\ 0 <= etharp_cached_entry s < Z.of_nat ARP_TABLE_SIZE.

Lemma table_insert t i e e' :
  table_ok t -> t !! i = Some e -> entry_ok e' -> (nonempty e' -> forall j x, t !! j = Some x -> j <> i -> nonempty x -> ipaddr x <> ipaddr e') ->
  table_ok (<[i := e']> t).
Proof.
  intros [Hl He Hd] Hi He' Hu. apply lookup_lt_Some in Hi as Hlt. split.
  - by rewrite length_insert.
  - by apply Forall_insert.
  - intros j k x y Hj Hk Hx Hy E. destruct (decide (j = i)) as [->|Hji], (decide (k = i)) as [->|Hki]; [done|..].
    + rewrite list_lookup_insert_eq in Hj by done. injection Hj as <-. rewrite list_lookup_insert_ne in Hk by done.
      by destruct (Hu Hx k y Hk Hki Hy).
    + rewrite list_lookup_insert_eq in Hk by done. injection Hk as <-. rewrite list_lookup_insert_ne in Hj by done.
      by destruct (Hu Hy j x Hj Hji Hx).
    + rewrite list_lookup_insert_ne in Hj, Hk by done. by eapply Hd.
Qed.

(** An entry keeps its address, or becomes empty. *)
Lemma table_update t i e e' :
  table_ok t -> t !! i = Some e -> entry_ok e' -> (nonempty e' -> nonempty e /\ ipaddr e' = ipaddr e) ->
  table_ok (<[i := e']> t).
Proof.
  intros Ht Hi He' Hu. eapply table_insert; try done. intros Hn j x Hj Hji Hx E.
  destruct (Hu Hn) as [Hne Ea]. apply Hji. eapply (table_distinct _ Ht); try done. congruence.
Qed.

Lemma entry_inv s i e : entry s i = Ok e -> arp_table s !! i = Some e.
Proof. unfold entry. destruct (arp_table s !! i); congruence. Qed.

Lemma entry_ok_eq s i e : arp_table s !! i = Some e -> entry s i = Ok e.
Proof. unfold entry. by intros ->. Qed.

(** Everything but the packets and the statistics is the same. *)
Definition same_arp s s' : Prop :=
  arp_table s' = arp_table s /\ arp_queue_pool s' = arp_queue_pool s
  /\ etharp_cached_entry s' = etharp_cached_entry s /\ netifs s' = netifs s.

Lemma raw_same s nif a1 a2 a3 i1 a4 i2 op err s' :
  etharp_raw s nif a1 a2 a3 i1 a4 i2 op = Ok (err, s') -> same_arp s s'.
Proof.
  unfold etharp_raw. intros Hr. res_inv Hr. destruct x0 as [p pk]. case_match; [by injection Hr as <- <-|].
  res_inv Hr. destruct x3 as [e pk']. res_inv Hr. by injection Hr as <- <-.
Qed.

Lemma request_same s nif addr err s' : etharp_request s nif addr = Ok (err, s') -> same_arp s s'.
Proof. unfold etharp_request, etharp_request_dst. intros Hr. res_inv Hr. by eapply raw_same. Qed.

Lemma request_dst_same s nif addr hw err s' : etharp_request_dst s nif addr hw = Ok (err, s') -> same_arp s s'.
Proof. unfold etharp_request_dst. intros Hr. res_inv Hr. by eapply raw_same. Qed.

Lemma same_inv N s s' : same_arp s s' -> arp_inv N s -> arp_inv N s'.
Proof. intros (E1 & E2 & E3 & _). unfold arp_inv. by rewrite E1, E2, E3. Qed.

Lemma free_loop_table l : forall s s', free_loop l s = Ok s' ->
  arp_table s' = arp_table s /\ arp_queue_pool s' = (arp_queue_pool s + length l)%nat
  /\ etharp_cached_entry s' = etharp_cached_entry s /\ netifs s' = netifs s.
Proof.
  induction l as [|p l IH]; intros s s'; cbn [free_loop length].
  - intros [= <-]. split_and!; done || lia.
  - intros Hr. res_inv Hr. apply IH in Hr. cbn in Hr. destruct Hr as (-> & -> & -> & ->). split_and!; done || lia.
Qed.

Definition freed (e : etharp_entry) : etharp_entry := with_state ETHARP_STATE_EMPTY (with_q [] e).

Lemma free_entry_table s i s' : etharp_free_entry s i = Ok s' ->
  exists e, arp_table s !! i = Some e /\ arp_table s' = <[i := freed e]> (arp_table s)
    /\ arp_queue_pool s' = (arp_queue_pool s + length (q e))%nat
    /\ etharp_cached_entry s' = etharp_cached_entry s /\ netifs s' = netifs s.
Proof.
  unfold etharp_free_entry. intros Hr. res_inv Hr. injection Hr as <-. apply entry_inv in Hx. rename x into e, x0 into s1.
  exists e. split; [done|]. cbn [set_entry with_table arp_table arp_queue_pool etharp_cached_entry netifs].
  destruct (q e) as [|p l].
  - injection Hx0 as <-. rewrite Nat.add_0_r. done.
  - unfold free_etharp_q in Hx0. res_inv Hx0. apply free_loop_table in Hx0. destruct Hx0 as (-> & -> & -> & ->). done.
Qed.

Lemma freed_ok e : entry_ok e -> entry_ok (freed e).
Proof. intros [Hc _ _ _ _]. by split. Qed.

Lemma free_entry_inv N s i s' : etharp_free_entry s i = Ok s' -> arp_inv N s -> arp_inv N s'.
Proof.
  intros E%free_entry_table (Ht & Hp & Hc). destruct E as (e & Hi & Et & Ep & Ec & _). unfold arp_inv.
  rewrite Et, Ep, Ec. split_and!; try lia.
  - eapply table_update; try done.
    apply freed_ok. eapply Forall_lookup_1; [apply (table_entries _ Ht)|done].
  - pose proof (queued_insert _ _ _ (freed e) Hi) as Hq. cbn [freed q with_q with_state length] in Hq. lia.
Qed.

(** *** The timer *)

(** What one tick does to an entry. *)
Definition aged (e : etharp_entry) : etharp_entry :=
  if bool_decide (entry_state e = ETHARP_STATE_EMPTY) then e
  else
    let e := with_ctime (ctime e + 1) e in
    if (ARP_MAXAGE <=? ctime e)
       || (bool_decide (entry_state e = ETHARP_STATE_PENDING) && (ARP_MAXPENDING <=? ctime e))
    then freed e
    else
      match entry_state e with
      | ETHARP_STATE_STABLE_REREQUESTING_1 => with_state ETHARP_STATE_STABLE_REREQUESTING_2 e
      | ETHARP_STATE_STABLE_REREQUESTING_2 => with_state ETHARP_STATE_STABLE e
      | _ => e
      end.

Lemma tmr_entry_table s i s' : tmr_entry s i = Ok s' -> Forall entry_ok (arp_table s) ->
  exists e, arp_table s !! i = Some e /\ arp_table s' = <[i := aged e]> (arp_table s)
    /\ (arp_queue_pool s' + length (q (aged e)) = arp_queue_pool s + length (q e))%nat
    /\ etharp_cached_entry s' = etharp_cached_entry s /\ netifs s' = netifs s.
Proof.
  unfold tmr_entry. intros Hr Hok. res_inv Hr. rename x into e. apply entry_inv in Hx. exists e. split; [done|].
  destruct (Forall_lookup_1 _ _ _ _ Hok Hx) as [Hct _ _ _ _].
  unfold aged. case_bool_decide as Ee; [injection Hr as <-; by rewrite list_insert_id|].
  rewrite u16_id in Hr by (unfold is_u16, ARP_MAXAGE in *; lia). set (e1 := with_ctime (ctime e + 1) e) in *.
  apply lookup_lt_Some in Hx as Hlt. case_match eqn:Ec.
  - apply free_entry_table in Hr. destruct Hr as (e2 & Hi & Et & Ep & Ecd & En).
    cbn [set_entry with_table arp_table arp_queue_pool etharp_cached_entry netifs] in *.
    rewrite list_lookup_insert_eq in Hi by done. injection Hi as <-. rewrite Et, list_insert_insert_eq.
    split_and!; try done. rewrite Ep. cbn. lia.
  - assert (Hset : forall e2, q e2 = q e -> s' = set_entry (set_entry s i e1) i e2 \/ s' = set_entry s i e2 ->
      arp_table s' = <[i := e2]> (arp_table s) /\ (arp_queue_pool s' + length (q e2) = arp_queue_pool s + length (q e))%nat
      /\ etharp_cached_entry s' = etharp_cached_entry s /\ netifs s' = netifs s).
    { intros e2 Eq [-> | ->]; cbn [set_entry with_table arp_table arp_queue_pool etharp_cached_entry netifs];
        rewrite ?list_insert_insert_eq, Eq; done. }
    destruct (entry_state e1) eqn:Es.
    + injection Hr as <-. apply Hset; [done|by right].
    + res_inv Hr. destruct x as [err s1]. injection Hr as <-. apply request_same in Hx0.
      destruct Hx0 as (E1 & E2 & E3 & E4). rewrite E1, E2, E3, E4. done.
    + injection Hr as <-. apply Hset; [done|by right].
    + injection Hr as <-. apply Hset; [done|by left].
    + injection Hr as <-. apply Hset; [done|by left].
Qed.

Lemma aged_ok e : entry_ok e -> entry_ok (aged e) /\ (nonempty (aged e) -> nonempty e /\ ipaddr (aged e) = ipaddr e).
Proof.
  intros He. pose proof He as [Hc Hu Hp Hq Hqp]. unfold aged, nonempty in *. case_bool_decide as Ee; [by split|].
  specialize (Hu Ee). cbn [with_ctime ctime entry_state].
  assert (Hfree : entry_ok (freed (with_ctime (ctime e + 1) e))) by (split; cbn; try done; lia).
  destruct (Z.leb_spec ARP_MAXAGE (ctime e + 1)) as [Ha|Ha]; cbn [orb]; [by split|].
  destruct (bool_decide_reflect (entry_state e = ETHARP_STATE_PENDING)) as [Ep|Ep]; cbn [andb].
  - destruct (Z.leb_spec ARP_MAXPENDING (ctime e + 1)) as [Hb|Hb]; [by split|]. rewrite Ep.
    split; [|done]. split; cbn [with_ctime ctime entry_state q nonempty] in *; try done; intros; lia.
  - specialize (Hqp Ep).
    destruct (entry_state e) eqn:Es; try done; (split; [|done]); split; cbn in *; rewrite ?Hqp; try done; intros; lia || congruence.
Qed.

(** Entries [i .. i+n-1] age, the others stay. *)
Lemma tmr_loop_table n : forall i s s', tmr_loop n i s = Ok s' -> table_ok (arp_table s) ->
  table_ok (arp_table s')
  /\ (arp_queue_pool s' + queued (arp_table s') = arp_queue_pool s + queued (arp_table s))%nat
  /\ etharp_cached_entry s' = etharp_cached_entry s /\ netifs s' = netifs s
  /\ (forall j e, arp_table s !! j = Some e ->
        arp_table s' !! j = Some (if decide (i <= j < i + n)%nat then aged e else e)).
Proof.
  induction n as [|n IH]; intros i s s'; cbn [tmr_loop].
  - intros [= <-] Ht. split_and!; try done. intros j e Hj. by rewrite decide_False by lia.
  - intros Hr Ht. res_inv Hr. rename x into s1.
    destruct (tmr_entry_table _ _ _ Hx (table_entries _ Ht)) as (e & Hi & Et & Ep & Ec & En).
    destruct (aged_ok e) as [Hok Hkeep]; [eapply Forall_lookup_1; [apply (table_entries _ Ht)|done]|].
    destruct (IH (S i) s1 s' Hr) as (Ht' & Hq & Ec' & En' & Hj).
    { rewrite Et. by eapply table_update. }
    pose proof (queued_insert _ _ _ (aged e) Hi) as Hqi. rewrite Et in Hq, Hj. apply lookup_lt_Some in Hi as Hlt.
    split_and!; [done|lia|congruence|congruence|]. intros j x Hx'. destruct (decide (j = i)) as [->|Hji].
    + rewrite (decide_True (P := (i <= i < i + S n)%nat)) by lia. rewrite Hx' in Hi. injection Hi as ->.
      specialize (Hj i (aged e)). rewrite list_lookup_insert_eq in Hj by done. specialize (Hj eq_refl).
      by rewrite decide_False in Hj by lia.
    + specialize (Hj j x). rewrite list_lookup_insert_ne in Hj by done. rewrite (Hj Hx').
      destruct (decide (S i <= j < S i + n)%nat), (decide (i <= j < i + S n)%nat); done || lia.
Qed.

(** *** etharp_find_entry *)

Lemma oldest_least r t i age :
  oldest r t i age -> (i < ARP_TABLE_SIZE)%nat -> Forall nonempty t -> Forall (fun e => (r <= rank e)%nat) t ->
  least_important t i /\ exists e, t !! i = Some e /\ rank e = r.
Proof.
  intros [(-> & _)|(e & Hi & Hn & Hr & Ha & Hf)] Hlt Hne Hge; [lia|]. split; [|by exists e].
  exists e. split; [done|]. intros j e' Hj. rewrite Forall_lookup in Hf, Hge, Hne.
  specialize (Hge j e' Hj). specialize (Hne j e' Hj). split; [lia|]. intros E. rewrite Ha. apply (Hf j e' Hj Hne). lia.
Qed.

Lemma oldest_none r t i age :
  oldest r t i age -> length t = ARP_TABLE_SIZE -> ~ (i < ARP_TABLE_SIZE)%nat -> Forall nonempty t ->
  Forall (fun e => (r <= rank e)%nat) t -> Forall (fun e => (S r <= rank e)%nat) t.
Proof.
  intros [(_ & _ & Hf)|(e & Hi & _)] Hl Hge Hne Hr; [|apply lookup_lt_Some in Hi; lia].
  rewrite Forall_lookup in *. intros j e Hj. specialize (Hf j e Hj (Hne j e Hj)). specialize (Hr j e Hj). lia.
Qed.

Lemma choose_spec s c :
  table_ok (arp_table s) -> cand_ok (arp_table s) c -> ~ (empty c < ARP_TABLE_SIZE)%nat -> Forall nonempty (arp_table s) ->
  exists i, choose s c = Ok (Some i) /\ least_important (arp_table s) i /\ (i < ARP_TABLE_SIZE)%nat.
Proof.
  intros Ht [He Hs Hp Hq] Hem Hne. unfold choose. rewrite (proj2 (Nat.ltb_nlt _ _) Hem).
  pose proof (table_len _ Ht) as Hl.
  assert (H0 : Forall (fun e => (0 <= rank e)%nat) (arp_table s)) by (apply Forall_forall; intros; lia).
  destruct (Nat.ltb_spec (old_stable c) ARP_TABLE_SIZE) as [Hlt|Hge].
  { destruct (oldest_least _ _ _ _ Hs Hlt Hne H0) as (Hli & e & Hi & Hr). rewrite (entry_ok_eq _ _ _ Hi). cbn [res_bind].
    destruct (Forall_lookup_1 _ _ _ _ (table_entries _ Ht) Hi) as [_ _ _ _ Hqp].
    rewrite Hqp; [by exists (old_stable c)|]. intros E. unfold rank in Hr. rewrite E in Hr. by destruct (q e). }
  pose proof (oldest_none _ _ _ _ Hs Hl ltac:(lia) Hne H0) as H1.
  destruct (Nat.ltb_spec (old_pending c) ARP_TABLE_SIZE) as [Hlt|Hge1].
  { destruct (oldest_least _ _ _ _ Hp Hlt Hne H1) as (Hli & _). by exists (old_pending c). }
  pose proof (oldest_none _ _ _ _ Hp Hl ltac:(lia) Hne H1) as H2.
  destruct (Nat.ltb_spec (old_queue c) ARP_TABLE_SIZE) as [Hlt|Hge2].
  { destruct (oldest_least _ _ _ _ Hq Hlt Hne H2) as (Hli & _). by exists (old_queue c). }
  pose proof (oldest_none _ _ _ _ Hq Hl ltac:(lia) Hne H2) as H3.
  destruct (arp_table s) as [|e t]; [done|]. apply Forall_inv in H3. unfold rank in H3. repeat case_match; lia.
Qed.

(** An entry taken for the address [a]. *)
Definition claim (a : Z) (e : etharp_entry) : etharp_entry :=
  mk_entry (q e) a (entry_netif e) (ethaddr e) 0 (entry_state e).

Inductive found s (a flags : Z) : res (option nat * arp_state P) -> Prop :=
| found_match i e :
    arp_table s !! i = Some e -> nonempty e -> ipaddr e = a -> found s a flags (Ok (Some i, s))
| found_none :
    Forall (no_match (Some a)) (arp_table s) ->
    Z.land flags ETHARP_FLAG_FIND_ONLY <> 0
    \/ (Forall nonempty (arp_table s) /\ Z.land flags ETHARP_FLAG_TRY_HARD = 0) ->
    found s a flags (Ok (None, s))
| found_empty i e :
    Forall (no_match (Some a)) (arp_table s) -> Z.land flags ETHARP_FLAG_FIND_ONLY = 0 ->
    arp_table s !! i = Some e -> entry_state e = ETHARP_STATE_EMPTY -> Forall nonempty (take i (arp_table s)) ->
    found s a flags (Ok (Some i, set_entry s i (claim a e)))
| found_recycled i e :
    Forall (no_match (Some a)) (arp_table s) -> Z.land flags ETHARP_FLAG_FIND_ONLY = 0 ->
    Z.land flags ETHARP_FLAG_TRY_HARD <> 0 -> Forall nonempty (arp_table s) ->
    arp_table s !! i = Some e -> least_important (arp_table s) i ->
    found s a flags (let* s1 := etharp_free_entry s i in Ok (Some i, set_entry s1 i (claim a (freed e)))).

Lemma find_entry_spec s a flags :
  table_ok (arp_table s) -> found s a flags (etharp_find_entry s (Some a) flags).
Proof.
  intros Ht. pose proof (table_len _ Ht) as Hl. unfold etharp_find_entry.
  pose proof (sweep_spec (Some a) (arp_table s) [] no_candidates no_candidates_ok) as Hsw. cbn [app length] in Hsw.
  destruct (sweep (Some a) 0 (arp_table s) no_candidates) as [i|c].
  { destruct Hsw as (k & e & -> & Hk & Hn & [= ->] & _); [|cbn; lia|by eapply found_match].
    eapply Forall_impl; [apply (table_entries _ Ht)|]. intros e [? _ _ _ _]. lia. }
  destruct Hsw as [Hok Hnm]; [|cbn; lia|].
  { eapply Forall_impl; [apply (table_entries _ Ht)|]. intros e [? _ _ _ _]. lia. }
  destruct (Z.eqb_spec (Z.land flags ETHARP_FLAG_FIND_ONLY) 0) as [Hfo|Hfo]; cbn [negb orb];
    [|apply found_none; [done|by left]].
  pose proof (cand_empty _ _ Hok) as Hem. destruct (decide (empty c < ARP_TABLE_SIZE)%nat) as [Hlt|Hge].
  - rewrite bool_decide_false by lia. cbn [andb]. unfold choose. rewrite (proj2 (Nat.ltb_lt _ _) Hlt). cbn [res_bind].
    rewrite (proj2 (Nat.ltb_lt _ _) Hlt). cbn [res_bind lwip_assert].
    destruct Hem as [[E _]|(e & Hi & Ee & Hf)]; [lia|]. rewrite (entry_ok_eq _ _ _ Hi). cbn [res_bind].
    rewrite bool_decide_true by done. cbn [lwip_assert res_bind]. by eapply found_empty.
  - assert (Hne : Forall nonempty (arp_table s)).
    { destruct Hem as [[_ Hf]|(e & Hi & _)]; [done|]. apply lookup_lt_Some in Hi. lia. }
    assert (Ee : empty c = ARP_TABLE_SIZE) by (destruct Hem as [[E _]|(e & Hi & _)]; [done|apply lookup_lt_Some in Hi; lia]).
    rewrite bool_decide_true by done. cbn [andb].
    destruct (Z.eqb_spec (Z.land flags ETHARP_FLAG_TRY_HARD) 0) as [Hth|Hth]; [apply found_none; [done|by right]|].
    destruct (choose_spec s c Ht Hok Hge Hne) as (i & Ech & Hli & Hi). rewrite Ech. cbn [res_bind].
    rewrite (proj2 (Nat.ltb_nlt _ _) Hge). pose proof Hli as (e & He & _).
    match goal with |- found _ _ _ ?r =>
      assert (Er : r = (let* s1 := etharp_free_entry s i in Ok (Some i, set_entry s1 i (claim a (freed e))))) end.
    { destruct (etharp_free_entry s i) as [s1|f] eqn:Ef; [|done]. cbn [res_bind].
      rewrite (proj2 (Nat.ltb_lt _ _) Hi). cbn [lwip_assert res_bind]. apply free_entry_table in Ef.
      destruct Ef as (e' & He' & Et & _). rewrite He in He'. injection He' as <-.
      rewrite (entry_ok_eq s1 i (freed e)) by (rewrite Et, list_lookup_insert_eq; [done|lia]).
      cbn [res_bind]. rewrite bool_decide_true by done. done. }
    rewrite Er. by eapply found_recycled.
Qed.

(** The entry found belongs to the address alone, and is new if it is empty. *)
Definition sole (t : list etharp_entry) (i : nat) (a : Z) : Prop :=
  exists e, t !! i = Some e /\ ipaddr e = a /\ (entry_state e = ETHARP_STATE_EMPTY -> ctime e = 0)
    /\ forall j x, t !! j = Some x -> j <> i -> nonempty x -> ipaddr x <> a.

Lemma claim_ok a e : entry_state e = ETHARP_STATE_EMPTY -> entry_ok e -> entry_ok (claim a e).
Proof. intros E [Hc Hu Hp Hq Hqp]. split; cbn; try done; rewrite E in *; done. Qed.

Lemma no_match_sole t i a e e' :
  Forall (no_match (Some a)) t -> t !! i = Some e -> ipaddr e' = a -> ctime e' = 0 ->
  sole (<[i := e']> t) i a.
Proof.
  intros Hf Hi Ha Hct. apply lookup_lt_Some in Hi as Hlt. exists e'. rewrite list_lookup_insert_eq by done.
  split_and!; try done. intros j x Hj Hji Hx. rewrite list_lookup_insert_ne in Hj by done.
  rewrite Forall_lookup in Hf. by apply (Hf j x Hj a).
Qed.

Lemma find_entry_inv N s a flags r s' :
  etharp_find_entry s (Some a) flags = Ok (r, s') -> arp_inv N s ->
  arp_inv N s' /\ (forall i, r = Some i -> sole (arp_table s') i a) /\ netifs s' = netifs s
  /\ (r = None -> s' = s).
Proof.
  intros E Hinv. pose proof Hinv as (Ht & Hp & Hc). pose proof (find_entry_spec s a flags Ht) as Hf. rewrite E in Hf.
  inversion Hf as [i e Hi Hn Ha E1|Hnm Hx E1|i e Hnm Hfo Hi Ee Hfi E1|i e Hnm Hfo Hth Hne Hi Hli E1]; subst.
  - split_and!; try done. intros ? [= <-]. exists e. split_and!; try done. intros j x Hj Hji Hx Ea. apply Hji.
    by eapply (table_distinct _ Ht).
  - by split_and!.
  - assert (Hok : entry_ok e) by (eapply Forall_lookup_1; [apply (table_entries _ Ht)|done]).
    pose proof (queued_insert _ _ _ (claim a e) Hi) as Hq. cbn [claim q] in Hq. split_and!; try done.
    + split_and!; cbn; try done; [|lia|lia|lia]. eapply table_update; [done|done|by apply claim_ok|].
      intros Hn. by destruct (Hn Ee).
    + intros ? [= <-]. by eapply no_match_sole.
  - res_inv E1. injection E1 as <- <-. rename x into s1.
    pose proof (free_entry_inv _ _ _ _ Hx Hinv) as (Ht1 & Hp1 & Hc1). apply free_entry_table in Hx.
    destruct Hx as (e' & He' & Et & Ep & Ec & En). rewrite Hi in He'. injection He' as <-.
    apply lookup_lt_Some in Hi as Hlt.
    assert (Hi1 : arp_table s1 !! i = Some (freed e)) by (by rewrite Et, list_lookup_insert_eq).
    pose proof (queued_insert _ _ _ (claim a (freed e)) Hi1) as Hq. cbn [claim q freed with_q with_state] in Hq.
    split_and!; try done.
    + split_and!; cbn; try done; [|lia|lia|lia]. eapply table_update; [done|done| |by intros Hn].
      apply claim_ok; [done|]. eapply Forall_lookup_1; [apply (table_entries _ Ht1)|done].
    + intros ? [= <-]. cbn [set_entry with_table arp_table]. rewrite Et, list_insert_insert_eq. by eapply no_match_sole.
Qed.

(** *** The other operations *)

Lemma send_queue_table l i nif nf dst : forall s e s',
  arp_table s !! i = Some e -> q e = l -> send_queue l i nif nf dst s = Ok s' ->
  arp_table s' = <[i := with_q [] e]> (arp_table s) /\ arp_queue_pool s' = (arp_queue_pool s + length l)%nat
  /\ etharp_cached_entry s' = etharp_cached_entry s /\ netifs s' = netifs s.
Proof.
  induction l as [|p l IH]; intros s e s' Hi Hq; cbn [send_queue length].
  - intros [= <-]. rewrite list_insert_id, Nat.add_0_r; [done|]. rewrite Hi. f_equal. destruct e. cbn in *. by subst.
  - intros Hr. res_inv Hr. destruct x0 as [err pk]. res_inv Hr. apply entry_inv in Hx. rewrite Hi in Hx. injection Hx as <-.
    apply lookup_lt_Some in Hi as Hlt. apply (IH _ (with_q l e)) in Hr; [|cbn; by rewrite list_lookup_insert_eq|done].
    cbn in Hr. destruct Hr as (-> & -> & -> & ->). rewrite list_insert_insert_eq. split_and!; done || lia.
Qed.

Definition resolved (a nif : Z) (hw : list Z) : etharp_entry := mk_entry [] a nif hw 0 ETHARP_STATE_STABLE.

Lemma update_inv N s nif a hw flags err s' :
  etharp_update_arp_entry s nif a hw flags = Ok (err, s') -> arp_inv N s ->
  arp_inv N s' /\ netifs s' = netifs s
  /\ (err <> ERR_OK -> s' = s)
  /\ (err = ERR_OK -> exists i s1, etharp_find_entry s (Some a) flags = Ok (Some i, s1)
        /\ sole (arp_table s1) i a /\ arp_table s' = <[i := resolved a nif hw]> (arp_table s1)).
Proof.
  unfold etharp_update_arp_entry. intros Hr Hinv. res_inv Hr. case_match; [by injection Hr as <- <-|].
  res_inv Hr. destruct x1 as [r s1]. destruct (find_entry_inv _ _ _ _ _ _ Hx1 Hinv) as ((Ht & Hp & Hc) & Hs & En & Hnone).
  destruct r as [i|]; [|injection Hr as <- <-; rewrite (Hnone eq_refl); by split_and!].
  res_inv Hr. injection Hr as <- <-. apply entry_inv in Hx2. rename x1 into e, x2 into s2.
  destruct (Hs i eq_refl) as (e' & He' & Ha & Hz & Hu). rewrite Hx2 in He'. injection He' as <-.
  apply lookup_lt_Some in Hx2 as Hlt.
  set (e1 := mk_entry (q e) (ipaddr e) nif hw 0 ETHARP_STATE_STABLE) in Hx3.
  assert (Hi1 : arp_table (set_entry s1 i e1) !! i = Some e1) by (cbn; by rewrite list_lookup_insert_eq).
  destruct (send_queue_table (q e) i nif _ _ _ e1 _ Hi1 eq_refl Hx3) as (Et & Ep & Ec & En2). subst e1.
  cbn in Et, Ep, Ec, En2. rewrite list_insert_insert_eq, Ha in Et.
  change (with_q [] (mk_entry (q e) a nif hw 0 ETHARP_STATE_STABLE)) with (resolved a nif hw) in Et.
  pose proof (queued_insert _ _ _ (resolved a nif hw) Hx2) as Hq. cbn [resolved q length] in Hq. split_and!.
  - split_and!; rewrite ?Et, ?Ep, ?Ec; try lia. eapply table_insert; [done|done| |].
    + by split.
    + intros _ j y Hj Hji Hyn. by apply (Hu j).
  - congruence.
  - done.
  - intros _. exists i, s1. split_and!; try done. by apply Hs.
Qed.

Lemma cleanup_inv N nif n : forall i s s', cleanup_loop n i nif s = Ok s' -> arp_inv N s -> arp_inv N s'.
Proof.
  induction n as [|n IH]; intros i s s'; cbn [cleanup_loop]; [by intros [= <-]|]. intros Hr Hinv. res_inv Hr.
  eapply IH; [exact Hr|]. case_match; [by eapply free_entry_inv|by injection Hx0 as <-].
Qed.

Lemma output_to_index_inv N s nif b i err s' :
  etharp_output_to_arp_index s nif b i = Ok (err, s') -> arp_inv N s -> arp_inv N s'.
Proof.
  unfold etharp_output_to_arp_index. intros Hr Hinv. res_inv Hr. rename x0 into e, x2 into s1, x3 into e1.
  destruct x4 as [er pk]. injection Hr as <- <-. apply entry_inv in Hx0.
  assert (Hset : forall s2 e2, same_arp s s2 -> arp_table s2 !! i = Some e2 -> nonempty e ->
    entry_state e = ETHARP_STATE_STABLE -> arp_inv N (set_entry s2 i (with_state ETHARP_STATE_STABLE_REREQUESTING_1 e2))).
  { intros s2 e2 Hs He2 Hn Es. pose proof (same_inv N _ _ Hs Hinv) as (Ht & Hp & Hc). destruct Hs as (Et & _).
    rewrite Et, Hx0 in He2. injection He2 as <-. rewrite <- Et in Hx0.
    pose proof (queued_insert _ _ _ (with_state ETHARP_STATE_STABLE_REREQUESTING_1 e) Hx0) as Hq. cbn [with_state q] in Hq.
    split_and!; cbn; try lia. eapply table_update; [done|done| |done].
    destruct (Forall_lookup_1 _ _ _ _ (table_entries _ Ht) Hx0) as [H1 H2 H3 H4 H5]. split; cbn; try done; [auto|].
    intros _. apply H5. congruence. }
  assert (Hs1 : arp_inv N s1); [|done].
  destruct (bool_decide_reflect (entry_state e = ETHARP_STATE_STABLE)) as [Es|]; [|by injection Hx2 as <-].
  assert (Hn : nonempty e) by (unfold nonempty; congruence).
  case_match; [|case_match; [|by injection Hx2 as <-]]; res_inv Hx2; destruct x0 as [er' s2];
    (case_bool_decide; [res_inv Hx2; injection Hx2 as <-; apply entry_inv in Hx6|injection Hx2 as <-]).
  - apply request_same in Hx5. by eapply Hset.
  - apply request_same in Hx5. by eapply same_inv.
  - apply request_dst_same in Hx5. by eapply Hset.
  - apply request_dst_same in Hx5. by eapply same_inv.
Qed.

Lemma enqueue_inv N s i p err s' e :
  enqueue s i p = Ok (err, s') -> arp_inv N s -> arp_table s !! i = Some e -> entry_state e = ETHARP_STATE_PENDING ->
  arp_inv N s'.
Proof.
  unfold enqueue. intros Hr Hinv Hi Es. pose proof Hinv as (Ht & Hp & Hc). destruct (arp_queue_pool s) as [|pool] eqn:Ep.
  { res_inv Hr. injection Hr as <- <-. unfold arp_inv. cbn. by rewrite Ep. }
  res_inv Hr. apply entry_inv in Hx. rewrite Hi in Hx. injection Hx as <-. apply lookup_lt_Some in Hi as Hlt.
  destruct (Forall_lookup_1 _ _ _ _ (table_entries _ Ht) Hi) as [H1 H2 H3 H4 H5].
  assert (Htab : forall l, Z.of_nat (length l) <= ARP_QUEUE_LEN -> table_ok (<[i := with_q l e]> (arp_table s))).
  { intros l Hl. eapply table_update; [done|done| |done]. split; cbn; try done; congruence. }
  destruct (Z.leb_spec ARP_QUEUE_LEN (Z.of_nat (length (q e)))) as [Hfull|Hroom].
  - res_inv Hr. apply entry_inv in Hx. cbn in Hx. rewrite list_lookup_insert_eq in Hx by done. injection Hx as <-.
    destruct (q (with_q (q e ++ [p]) e)) as [|old rest] eqn:Eq; [done|]. cbn [with_q q] in Eq. res_inv Hr.
    injection Hr as <- <-. apply (f_equal length) in Eq. rewrite length_app in Eq. cbn [length] in Eq.
    unfold arp_inv. cbn. rewrite list_insert_insert_eq. change (with_q rest (with_q (q e ++ [p]) e)) with (with_q rest e).
    pose proof (queued_insert _ _ _ (with_q rest e) Hi) as Hq. cbn [with_q q] in Hq. split_and!; try lia. apply Htab. lia.
  - injection Hr as <- <-. unfold arp_inv. cbn. pose proof (queued_insert _ _ _ (with_q (q e ++ [p]) e) Hi) as Hq.
    cbn [with_q q] in Hq. rewrite length_app in Hq. cbn [length] in Hq. split_and!; try lia. apply Htab.
    rewrite length_app. cbn [length]. unfold ARP_QUEUE_LEN in *. lia.
Qed.

Lemma query_inv N s nif a b err s' : etharp_query s nif a b = Ok (err, s') -> arp_inv N s -> arp_inv N s'.
Proof.
  unfold etharp_query. intros Hr Hinv. res_inv Hr. case_match; [by injection Hr as <- <-|].
  res_inv Hr. destruct x0 as [r s1]. destruct (find_entry_inv _ _ _ _ _ _ Hx0 Hinv) as (Hinv1 & Hs & _).
  destruct r as [i|]; [|injection Hr as <- <-; by case_match].
  res_inv Hr. rename x0 into e, x2 into u. clear u Hx3. set (new := bool_decide (entry_state e = ETHARP_STATE_EMPTY)) in *.
  set (s2 := if new then _ else _) in *. destruct x3 as [result s3]. apply entry_inv in Hx1, Hx2. rename x1 into e2.
  destruct (Hs i eq_refl) as (e' & He' & Ha & Hz & Hu). rewrite Hx1 in He'. injection He' as <-.
  apply lookup_lt_Some in Hx1 as Hlt.
  assert (Hinv2 : arp_inv N s2).
  { unfold s2. destruct new eqn:Enew; [|done]. apply bool_decide_eq_true in Enew. destruct Hinv1 as (Ht & Hp & Hc).
    destruct (Forall_lookup_1 _ _ _ _ (table_entries _ Ht) Hx1) as [H1 H2 H3 H4 H5].
    specialize (H5 ltac:(congruence)). specialize (Hz Enew).
    set (e1 := mk_entry _ _ _ _ _ _). pose proof (queued_insert _ _ _ e1 Hx1) as Hq. subst e1. cbn [q] in Hq.
    split_and!; cbn; try lia. eapply table_insert; [done|done| |].
    - split; cbn; rewrite ?Hz, ?H5; done.
    - cbn. rewrite Ha. intros _ j y Hj Hji Hyn. by apply (Hu j). }
  assert (Hinv3 : arp_inv N s3).
  { revert Hx4. destruct (new || (b =? NULL)); [|by intros [= <- <-]]. intros E%request_same. by eapply same_inv. }
  clear Hx4. destruct (b =? NULL); [by injection Hr as <- <-|]. res_inv Hr. rename x0 into e3. apply entry_inv in Hx3.
  destruct (at_least_stable (entry_state e3)); [|case_bool_decide as Ep].
  - res_inv Hr. destruct x0 as [er pk]. injection Hr as <- <-. destruct Hinv3 as (Ht & Hp & Hc). split_and!; cbn; try done; [lia|].
    apply lookup_lt_Some in Hx3. rewrite (table_len _ Ht) in Hx3. lia.
  - res_inv Hr. destruct x0 as [p pk]. destruct (negb (p =? NULL)); [|by injection Hr as <- <-].
    eapply enqueue_inv; [exact Hr|done|exact Hx3|done].
  - by injection Hr as <- <-.
Qed.

Lemma output_inv N s nif b a err s' : etharp_output s nif b a = Ok (err, s') -> arp_inv N s -> arp_inv N s'.
Proof.
  unfold etharp_output. intros Hr Hinv. res_inv Hr.
  case_match; [res_inv Hr; destruct x1; by injection Hr as <- <-|].
  case_match; [res_inv Hr; destruct x1; by injection Hr as <- <-|].
  destruct (next_hop x0 a) as [d|]; [|by injection Hr as <- <-]. res_inv Hr.
  case_match; [by eapply output_to_index_inv|].
  destruct (find_stable d 0 (arp_table s)) as [i|] eqn:Ef; [|by eapply query_inv].
  eapply output_to_index_inv; [exact Hr|]. destruct Hinv as (Ht & Hp & Hc). split_and!; cbn; try done; [lia|].
  assert (Hlt : (i < 0 + length (arp_table s))%nat).
  { clear -Ef. revert Ef. generalize 0%nat. induction (arp_table s) as [|e t IH]; intros k; cbn [find_stable length]; [done|].
    case_match; [intros [= <-]; lia|]. intros E%IH. lia. }
  rewrite (table_len _ Ht) in Hlt. lia.
Qed.

Lemma input_inv N s p nif s' : etharp_input s p nif = Ok s' -> arp_inv N s -> arp_inv N s'.
Proof.
  unfold etharp_input. intros Hr Hinv. case_match; [by injection Hr as <-|]. res_inv Hr.
  case_match; [res_inv Hr; by injection Hr as <-|]. res_inv Hr. destruct x1 as [er s1].
  assert (Hinv1 : arp_inv N s1).
  { eapply update_inv in Hx1; [by destruct Hx1|]. done. }
  res_inv Hr. injection Hr as <-. rename x1 into s2. assert (Hinv2 : arp_inv N s2); [|done].
  case_match; [case_match; [|by injection Hx2 as <-]|case_match; by injection Hx2 as <-].
  res_inv Hx2. destruct x3 as [er' pk]. by injection Hx2 as <-.
Qed.
End Table.

(** ** The operations return

    [PacketSpec]: what the ARP code relies on.  [held p l] says that one
    reference to each packet in [l] is owned: such a packet can be used and freed. *)

Class PacketSpec (P : Type) `{PacketOps P} := {
  held : P -> list Z -> Prop;
  held_perm p l l' : l ≡ₚ l' -> held p l -> held p l';
  held_at p l b : held p l -> b ∈ l -> b <> NULL /\ exists pb, pbuf_at p b = Ok pb;
  free_law p l b : held p (b :: l) -> exists p', pbuf_free p b = Ok p' /\ held p' l;
  alloc_law p l n : held p l -> is_u16 n ->
    exists b p', pbuf_alloc p PBUF_LINK n PBUF_RAM = Ok (b, p')
      /\ ((b = NULL /\ held p' l)
          \/ (held p' (b :: l) /\ exists pb, pbuf_at p' b = Ok pb /\ len pb = n));
  header_law p l b inc : held p l -> b ∈ l -> exists f p', pbuf_header p b inc = Ok (f, p') /\ held p' l;
  write_law p l a bs : held p l -> held (mem_write p a bs) l;
  output_law p l nif b : held p l -> b ∈ l -> exists err p', linkoutput p nif b = Ok (err, p') /\ held p' l;
  lenerr_law p l : held p l -> held (link_lenerr p) l
}.

Fixpoint queues (t : list etharp_entry) : list Z :=
  match t with
  | [] => []
  | e :: t' => q e ++ queues t'
  end.

Lemma queues_insert t i e e' : t !! i = Some e -> q e ++ queues (<[i := e']> t) ≡ₚ q e' ++ queues t.
Proof.
  revert i. induction t as [|x t IH]; intros [|i]; try done.
  - intros [= ->]. cbn [insert list_insert queues]. apply Permutation_app_swap_app.
  - intros Hi. specialize (IH i Hi). change (<[S i := e']> (x :: t)) with (x :: <[i := e']> t). cbn [queues].
    rewrite Permutation_app_swap_app, IH. apply Permutation_app_swap_app.
Qed.

Section Total.
Context {P : Type} `{PacketSpec P}.
Implicit Types s : arp_state P.

(** An interface that exists. *)
Definition netif_ok s (nif : Z) : Prop :=
  exists nf, netifs s !! nif = Some nf /\ Z.of_nat (length (netif_hwaddr nf)) = ETH_HWADDR_LEN.

(** The queued packets are owned, and entries in use have their interface. *)
Definition arp_owns (l : list Z) s : Prop :=
  held (packets s) (queues (arp_table s) ++ l)
  /\ Forall (fun e => nonempty e -> netif_ok s (entry_netif e)) (arp_table s).

Lemma ethernet_output_total p l nif nf b src dst ty :
  held p l -> b ∈ l -> Z.of_nat (length (netif_hwaddr nf)) = ETH_HWADDR_LEN ->
  exists err p', ethernet_output p nif nf b src dst ty = Ok (err, p') /\ held p' l.
Proof.
  intros Hh Hb Hl. unfold ethernet_output. destruct (header_law p l b SIZEOF_ETH_HDR Hh Hb) as (f & p1 & E & Hh1).
  rewrite E. cbn [res_bind]. destruct f; [exists ERR_BUF, (link_lenerr p1); split; [done|by apply lenerr_law]|].
  destruct (held_at p1 l b Hh1 Hb) as (_ & pb & Eb). rewrite Eb. cbn [res_bind]. rewrite (proj2 (Z.eqb_eq _ _) Hl).
  cbn [lwip_assert res_bind]. apply output_law; [by apply write_law|done].
Qed.

Lemma raw_total s l nif a1 a2 a3 i1 a4 i2 op :
  held (packets s) l -> netif_ok s nif ->
  exists err s', etharp_raw s nif a1 a2 a3 i1 a4 i2 op = Ok (err, s') /\ held (packets s') l.
Proof.
  intros Hh (nf & Hn & Hl). unfold etharp_raw. rewrite (deref_ok _ _ _ Hn). cbn [res_bind].
  destruct (alloc_law (packets s) l SIZEOF_ETHARP_HDR Hh) as (b & pk & Ea & Hcase); [done|].
  rewrite Ea. cbn [res_bind]. destruct Hcase as [[-> Hh1]|(Hh1 & pb & Eb & Elen)]; [by eexists _, _|].
  destruct (held_at pk (b :: l) b Hh1 ltac:(left)) as [Hne _]. rewrite (proj2 (Z.eqb_neq b NULL)) by done.
  rewrite Eb. cbn [res_bind]. rewrite Elen. cbn [Z.leb Z.compare SIZEOF_ETHARP_HDR Pos.compare Pos.compare_cont lwip_assert res_bind].
  rewrite (proj2 (Z.eqb_eq _ _) Hl). cbn [lwip_assert res_bind].
  match goal with |- context [ethernet_output ?p _ _ _ _ _ _] =>
    destruct (ethernet_output_total p (b :: l) nif nf b a1 a2 ETHTYPE_ARP) as (err & pk' & Eo & Hh2);
      [by apply write_law|left|done|] end.
  rewrite Eo. cbn [res_bind]. destruct (free_law pk' l b Hh2) as (pk'' & Ef & Hh3). rewrite Ef. cbn [res_bind].
  by eexists _, _.
Qed.

Lemma request_total s l nif a : held (packets s) l -> netif_ok s nif ->
  exists err s', etharp_request s nif a = Ok (err, s') /\ held (packets s') l.
Proof.
  intros Hh Hn. unfold etharp_request, etharp_request_dst. pose proof Hn as (nf & Hl & _).
  rewrite (deref_ok _ _ _ Hl). cbn [res_bind]. by apply raw_total.
Qed.

Lemma free_loop_total l : forall s r, held (packets s) (l ++ r) ->
  exists s', free_loop l s = Ok s' /\ held (packets s') r.
Proof.
  induction l as [|p l IH]; intros s r Hh; cbn [free_loop app] in *; [by exists s|].
  destruct (held_at _ _ p Hh ltac:(left)) as [Hne _]. rewrite (proj2 (Z.eqb_neq p NULL)) by done.
  cbn [negb lwip_assert res_bind]. destruct (free_law _ _ _ Hh) as (pk & E & Hh'). rewrite E. cbn [res_bind].
  by apply (IH (with_pool (S (arp_queue_pool s)) (with_packets pk s))).
Qed.

Lemma free_entry_total s i e l : arp_table s !! i = Some e -> arp_owns l s ->
  exists s', etharp_free_entry s i = Ok s' /\ arp_owns l s'.
Proof.
  intros Hi [Hh Hn]. assert (Hex : exists s1, match q e with [] => Ok s | l0 => free_etharp_q l0 s end = Ok s1
    /\ held (packets s1) (queues (<[i := freed e]> (arp_table s)) ++ l) /\ arp_table s1 = arp_table s /\ netifs s1 = netifs s).
  { assert (Hh2 : held (packets s) (q e ++ (queues (<[i := freed e]> (arp_table s)) ++ l))).
    { eapply held_perm; [|exact Hh]. rewrite app_assoc, (queues_insert _ _ _ (freed e) Hi). done. }
    destruct (free_loop_total (q e) s _ Hh2) as (s1 & E & Hh'). exists s1.
    destruct (free_loop_table _ _ _ E) as (Et & _ & _ & En). split_and!; try done.
    destruct (q e) as [|p l0]; [done|]. unfold free_etharp_q.
    destruct (held_at _ _ p Hh2 ltac:(left)) as [Hne _]. rewrite (proj2 (Z.eqb_neq p NULL)) by done. done. }
  destruct Hex as (s1 & E & Hh' & Et & En). unfold etharp_free_entry. rewrite (entry_ok_eq _ _ _ Hi). cbn [res_bind].
  rewrite E. cbn [res_bind]. eexists. split; [done|]. unfold arp_owns. cbn. rewrite Et. split; [done|].
  apply Forall_insert; [|done]. unfold netif_ok. cbn. rewrite En. exact Hn.
Qed.

Lemma owns_same s s' l : same_arp s s' -> held (packets s') (queues (arp_table s) ++ l) -> arp_owns l s -> arp_owns l s'.
Proof.
  intros (Et & _ & _ & En) Hh [_ Hn]. unfold arp_owns, netif_ok in *. rewrite Et, En. done.
Qed.

(** Replacing an entry by one with the same queue and interface. *)
Lemma owns_set s l i e e' :
  arp_table s !! i = Some e -> q e' = q e -> (nonempty e' -> netif_ok s (entry_netif e')) ->
  arp_owns l s -> arp_owns l (set_entry s i e').
Proof.
  intros Hi Hq Hn' [Hh Hn]. split; cbn.
  - eapply held_perm; [|exact Hh]. apply Permutation_app_tail. apply (Permutation_app_inv_l (q e)).
    rewrite (queues_insert _ _ _ e' Hi), Hq. done.
  - by apply Forall_insert.
Qed.

Lemma tmr_entry_total s i e l : arp_table s !! i = Some e -> arp_owns l s ->
  exists s', tmr_entry s i = Ok s' /\ arp_owns l s'.
Proof.
  intros Hi Ho. pose proof Ho as [_ Hn]. rewrite Forall_lookup in Hn. unfold tmr_entry. rewrite (entry_ok_eq _ _ _ Hi). cbn [res_bind].
  case_bool_decide as Ee; [by exists s|]. set (e1 := with_ctime (u16 (ctime e + 1)) e). set (s1 := set_entry s i e1).
  apply lookup_lt_Some in Hi as Hlt. assert (Hi1 : arp_table s1 !! i = Some e1) by (cbn; by rewrite list_lookup_insert_eq).
  assert (Hnif : netif_ok s (entry_netif e)) by (by apply (Hn i e Hi)).
  assert (Ho1 : arp_owns l s1) by (apply (owns_set s l i e e1); [done|done|by intros _|done]).
  assert (Hset : forall st, arp_owns l (set_entry s1 i (with_state st e1))).
  { intros st. apply (owns_set s1 l i e1); [done|done|by intros _|done]. }
  case_match; [by eapply free_entry_total|]. destruct (entry_state e1) eqn:Es; try (by eexists; eauto).
  destruct (request_total s1 (queues (arp_table s1) ++ l) (entry_netif e1) (ipaddr e1)) as (err & s2 & E & Hh);
    [apply Ho1|exact Hnif|]. rewrite E. cbn [res_bind]. exists s2. split; [done|].
  eapply owns_same; [by eapply request_same|done|done].
Qed.

Lemma tmr_loop_total n : forall i s l, (i + n <= length (arp_table s))%nat -> arp_owns l s -> Forall entry_ok (arp_table s) ->
  exists s', tmr_loop n i s = Ok s' /\ arp_owns l s'.
Proof.
  induction n as [|n IH]; intros i s l Hlen Ho Hok; cbn [tmr_loop]; [by exists s|].
  destruct (lookup_lt_is_Some_2 (arp_table s) i ltac:(lia)) as [e Hi].
  destruct (tmr_entry_total s i e l Hi Ho) as (s1 & E & Ho1). rewrite E. cbn [res_bind].
  destruct (tmr_entry_table _ _ _ E Hok) as (e' & He' & Et & _). apply IH; [rewrite Et, length_insert; lia|done|].
  rewrite Et. apply Forall_insert; [done|]. apply aged_ok. by eapply Forall_lookup_1.
Qed.

Lemma find_entry_total s a flags l : table_ok (arp_table s) -> arp_owns l s ->
  exists r s', etharp_find_entry s (Some a) flags = Ok (r, s') /\ arp_owns l s'.
Proof.
  intros Ht Ho. pose proof (find_entry_spec s a flags Ht) as Hf. pose proof Ho as [_ Hn]. rewrite Forall_lookup in Hn.
  inversion Hf as [i e Hi Hne Ha E|Hnm Hx E|i e Hnm Hfo Hi Ee Hfi E|i e Hnm Hfo Hth Hne Hi Hli E].
  - by eexists _, _.
  - by eexists _, _.
  - eexists _, _. split; [done|].
    apply (owns_set s l i e); [done|done| |done]. intros Hc. by destruct (Hc Ee).
  - destruct (free_entry_total s i e l Hi Ho) as (s1 & Ef & Ho1). rewrite Ef. cbn [res_bind].
    eexists _, _. split; [done|]. apply free_entry_table in Ef. destruct Ef as (e' & He' & Et & _).
    rewrite Hi in He'. injection He' as <-. apply lookup_lt_Some in Hi as Hlt.
    eapply (owns_set s1 l i (freed e)); try done. by rewrite Et, list_lookup_insert_eq.
Qed.

Lemma send_queue_total l0 i nif nf dst : forall s e l,
  arp_table s !! i = Some e -> q e = l0 -> Z.of_nat (length (netif_hwaddr nf)) = ETH_HWADDR_LEN ->
  arp_owns l s -> exists s', send_queue l0 i nif nf dst s = Ok s' /\ arp_owns l s'.
Proof.
  induction l0 as [|p l0 IH]; intros s e l Hi Hq Hl Ho; cbn [send_queue]; [by exists s|].
  rewrite (entry_ok_eq _ _ _ Hi). cbn [res_bind with_pool set_entry with_table packets].
  pose proof Ho as [Hh Hn]. apply lookup_lt_Some in Hi as Hlt.
  pose proof (queues_insert _ _ _ (with_q l0 e) Hi) as Hp. rewrite Hq in Hp. cbn [with_q q app] in Hp.
  assert (Hp' : p :: queues (<[i := with_q l0 e]> (arp_table s)) ≡ₚ queues (arp_table s)).
  { apply (Permutation_app_inv_l l0). rewrite <- Hp. by rewrite Permutation_middle. }
  assert (Hh1 : held (packets s) (p :: queues (<[i := with_q l0 e]> (arp_table s)) ++ l)).
  { eapply held_perm; [|exact Hh]. by rewrite <- Hp'. }
  destruct (ethernet_output_total (packets s) _ nif nf p (netif_hwaddr nf) dst ETHTYPE_IP Hh1 ltac:(left) Hl)
    as (err & pk & Eo & Hh2). rewrite Eo. cbn [res_bind].
  destruct (free_law _ _ _ Hh2) as (pk' & Ef & Hh3). rewrite Ef. cbn [res_bind].
  apply (IH _ (with_q l0 e)); [cbn; by rewrite list_lookup_insert_eq|done|done|]. split; cbn; [done|].
  apply Forall_insert; [done|]. rewrite Forall_lookup in Hn. apply (Hn i e Hi).
Qed.

Lemma update_total N s nif a hw flags l :
  arp_inv N s -> arp_owns l s -> netif_ok s nif ->
  exists err s', etharp_update_arp_entry s nif a hw flags = Ok (err, s') /\ arp_owns l s'.
Proof.
  intros Hinv Ho (nf & Hn & Hl). unfold etharp_update_arp_entry. rewrite (deref_ok _ _ _ Hn). cbn [res_bind].
  rewrite (proj2 (Z.eqb_eq _ _) Hl). cbn [lwip_assert res_bind]. case_match; [by eexists _, _|].
  destruct (find_entry_total s a flags l (proj1 Hinv) Ho) as (r & s1 & Ef & Ho1). rewrite Ef. cbn [res_bind].
  destruct (find_entry_inv N s a flags r s1 Ef Hinv) as (_ & Hs & En & _).
  destruct r as [i|]; [|by eexists _, _]. destruct (Hs i eq_refl) as (e & Hi & _).
  rewrite (entry_ok_eq _ _ _ Hi). cbn [res_bind]. apply lookup_lt_Some in Hi as Hlt.
  set (e1 := mk_entry (q e) (ipaddr e) nif hw 0 ETHARP_STATE_STABLE).
  destruct (send_queue_total (q e) i nif nf hw (set_entry s1 i e1) e1 l) as (s2 & Es & Ho2); try done.
  - cbn. by rewrite list_lookup_insert_eq.
  - apply (owns_set s1 l i e); [done|done| |done]. intros _. exists nf. by rewrite En.
  - rewrite Es. cbn [res_bind]. by eexists _, _.
Qed.

(** Only the entry returned changes. *)
Lemma find_entry_others s a flags r s' :
  etharp_find_entry s (Some a) flags = Ok (r, s') -> table_ok (arp_table s) ->
  (forall j, r <> Some j -> arp_table s' !! j = arp_table s !! j)
  /\ (Z.land flags ETHARP_FLAG_FIND_ONLY = 0 -> Z.land flags ETHARP_FLAG_TRY_HARD <> 0 -> r <> None)
  /\ (Z.land flags ETHARP_FLAG_FIND_ONLY <> 0 -> r <> None -> exists e, e ∈ arp_table s /\ nonempty e /\ ipaddr e = a).
Proof.
  intros E Ht. pose proof (find_entry_spec s a flags Ht) as Hf. rewrite E in Hf.
  inversion Hf as [i e Hi Hn Ha E1|Hnm Hx E1|i e Hnm Hfo Hi Ee Hfi E1|i e Hnm Hfo Hth Hne Hi Hli E1]; subst.
  - split_and!; try done. intros _ _. exists e. split; [by eapply list_elem_of_lookup_2|done].
  - split_and!; try done. by intros Hfo Hth; destruct Hx as [Hx|[_ Hx]].
  - split_and!; try done. intros j Hj. cbn. rewrite list_lookup_insert_ne; [done|congruence].
  - res_inv E1. injection E1 as <- <-. apply free_entry_table in Hx. destruct Hx as (e' & _ & Et & _).
    split_and!; try done. intros j Hj. cbn. rewrite Et, list_insert_insert_eq, list_lookup_insert_ne; [done|congruence].
Qed.

(** The packets [l] are framed for [dst] and given to the driver one after the other, and each is released. *)
Fixpoint deliver (l : list Z) (nif : Z) (nf : netif) (dst : list Z) (pk : P) : res P :=
  match l with
  | [] => Ok pk
  | p :: l' =>
      let* (_, pk) := ethernet_output pk nif nf p (netif_hwaddr nf) dst ETHTYPE_IP in
      let* pk := pbuf_free pk p in deliver l' nif nf dst pk
  end.

Lemma send_queue_delivers l i nif nf dst : forall s s',
  send_queue l i nif nf dst s = Ok s' -> deliver l nif nf dst (packets s) = Ok (packets s').
Proof.
  induction l as [|p l IH]; intros s s'; cbn [send_queue deliver]; [by intros [= <-]|]. intros Hr. res_inv Hr.
  destruct x0 as [err pk]. res_inv Hr. cbn [with_pool set_entry with_table packets] in *. rewrite Hx0. cbn [res_bind].
  rewrite Hx1. cbn [res_bind]. exact (IH _ _ Hr).
Qed.

(** The queue of the address is delivered. *)
Lemma update_delivers N s nif nf a hw flags s' j e :
  etharp_update_arp_entry s nif a hw flags = Ok (ERR_OK, s') -> arp_inv N s -> netifs s !! nif = Some nf ->
  arp_table s !! j = Some e -> nonempty e -> ipaddr e = a -> deliver (q e) nif nf hw (packets s) = Ok (packets s').
Proof.
  unfold etharp_update_arp_entry. intros Hr (Ht & _) Hn Hj He Ha. rewrite (deref_ok _ _ _ Hn) in Hr. cbn [res_bind] in Hr.
  res_inv Hr. case_match; [done|]. res_inv Hr. destruct x0 as [r s1].
  pose proof (find_entry_spec s a flags Ht) as Hf. rewrite Hx0 in Hf.
  assert (Habs : ~ Forall (no_match (Some a)) (arp_table s)).
  { rewrite Forall_lookup. intros Hnm. by destruct (Hnm j _ Hj a eq_refl). }
  inversion Hf as [k e' Hk Hn' Ha' E1|Hnm|? ? Hnm|? ? Hnm]; subst; try done.
  assert (k = j) as -> by (by eapply (table_distinct _ Ht)). rewrite Hj in Hk. injection Hk as <-.
  res_inv Hr. apply entry_inv in Hx1. rewrite Hj in Hx1. injection Hx1 as <-. injection Hr as <-.
  exact (send_queue_delivers _ _ _ _ _ _ _ Hx2).
Qed.

(** The addresses that the table never holds. *)
Definition bad_addr (netif : netif) (a : Z) : bool :=
  ip4_addr_isany a || ip4_addr_isbroadcast_u32 a netif || ip4_addr_ismulticast a.

Lemma update_errors s nif nf a hw flags err s' :
  etharp_update_arp_entry s nif a hw flags = Ok (err, s') -> table_ok (arp_table s) -> netifs s !! nif = Some nf ->
  err = if bad_addr nf a then ERR_ARG else
        match etharp_find_entry s (Some a) flags with Ok (None, _) => ERR_MEM | _ => ERR_OK end.
Proof.
  unfold etharp_update_arp_entry, bad_addr. intros Hr Ht Hn. rewrite (deref_ok _ _ _ Hn) in Hr. cbn [res_bind] in Hr.
  res_inv Hr. case_match; [congruence|]. res_inv Hr. destruct x0 as [[i|] s1]; rewrite Hx0; [|congruence].
  res_inv Hr. congruence.
Qed.

(** A resolved entry is found. *)
Lemma resolved_found s i a nif hw N :
  arp_inv N s -> arp_table s !! i = Some (resolved a nif hw) -> etharp_find_addr s a = Ok (Some (i, hw, a), s).
Proof.
  intros (Ht & _) Hi. unfold etharp_find_addr. pose proof (find_entry_spec s a ETHARP_FLAG_FIND_ONLY Ht) as Hf.
  assert (Habs : ~ Forall (no_match (Some a)) (arp_table s)).
  { rewrite Forall_lookup. intros Hnm. by destruct (Hnm i _ Hi a eq_refl). }
  inversion Hf as [k e Hk Hn Ha E1|Hnm|? ? Hnm|? ? Hnm]; try done. cbn [res_bind].
  assert (k = i) as -> by (by eapply (table_distinct _ Ht)). rewrite (entry_ok_eq _ _ _ Hi). done.
Qed.

Lemma input_total N s p nif l :
  arp_inv N s -> arp_owns (p :: l) s -> netif_ok s nif -> nif <> NULL ->
  exists s', etharp_input s p nif = Ok s' /\ arp_owns l s'.
Proof.
  intros Hinv Ho Hn Hne. pose proof Hn as (nf & Hnf & Hhw). unfold etharp_input.
  rewrite (proj2 (Z.eqb_neq nif NULL) Hne), (deref_ok _ _ _ Hnf). cbn [res_bind].
  assert (Hin : forall s, p ∈ queues (arp_table s) ++ p :: l) by (intros; apply elem_of_app; right; left).
  destruct (held_at _ _ p (proj1 Ho) (Hin s)) as (_ & b & Eb). rewrite Eb. cbn [res_bind].
  assert (Hfree : forall s2, arp_owns (p :: l) s2 ->
    exists s', (let* pk := pbuf_free (packets s2) p in Ok (with_packets pk s2)) = Ok s' /\ arp_owns l s').
  { intros s2 [Hh Hf]. destruct (free_law (packets s2) (queues (arp_table s2) ++ l) p) as (pk & E & Hh').
    { eapply held_perm; [|exact Hh]. by rewrite Permutation_middle. }
    rewrite E. cbn [res_bind]. eexists. split; [done|]. by split. }
  case_match; [by apply (Hfree (with_stats inc_proterr_drop s))|].
  match goal with |- context [etharp_update_arp_entry ?s0 ?n ?a ?h ?f] =>
    destruct (update_total N s0 n a h f (p :: l)) as (err & s1 & Eu & Ho1); [done|done|done|];
    destruct (update_inv N _ _ _ _ _ _ _ Eu Hinv) as (_ & En1 & _) end.
  rewrite Eu. cbn [res_bind].
  match goal with |- exists s', (let* _ := ?m in _) = _ /\ _ =>
    assert (Hm : exists s2, m = Ok s2 /\ arp_owns (p :: l) s2) end.
  { destruct (_ =? PP_HTONS ARP_REQUEST); [|destruct (_ =? PP_HTONS ARP_REPLY); by eexists].
    match goal with |- context [if ?c then _ else Ok s1] => destruct c; [|by eexists] end.
    rewrite (proj2 (Z.eqb_eq _ _) Hhw). cbn [lwip_assert res_bind].
    match goal with |- context [ethernet_output ?pk ?n ?f ?q ?a ?b ?t] =>
      destruct (ethernet_output_total pk (queues (arp_table s1) ++ p :: l) n f q a b t) as (er & pk' & Eo & Hh);
        [apply write_law, Ho1|apply Hin|done|] end.
    rewrite Eo. cbn [res_bind]. eexists. split; [done|]. split; [done|apply Ho1]. }
  destruct Hm as (s2 & Em & Ho2). rewrite Em. cbn [res_bind]. by apply Hfree.
Qed.
End Total.

(** ** Expiry *)

Lemma aged_ctime e : nonempty (aged e) ->
  nonempty e /\ ctime (aged e) = ctime e + 1
  /\ (entry_state e = ETHARP_STATE_PENDING -> entry_state (aged e) = ETHARP_STATE_PENDING).
Proof.
  unfold aged, nonempty. case_bool_decide as Ee; [done|]. cbn [with_ctime ctime entry_state].
  case_match; [done|]. intros _. destruct (entry_state e) eqn:Es; cbn; split_and!; congruence.
Qed.

Lemma aged_iter n : forall e, entry_ok e -> nonempty (Nat.iter n aged e) ->
  entry_ok (Nat.iter n aged e) /\ nonempty e /\ ctime (Nat.iter n aged e) = ctime e + Z.of_nat n
  /\ (entry_state e = ETHARP_STATE_PENDING -> entry_state (Nat.iter n aged e) = ETHARP_STATE_PENDING).
Proof.
  induction n as [|n IH]; intros e Hok Hn; cbn [Nat.iter nat_rect] in *; [split_and!; try done; lia|].
  change (aged (nat_rect _ e (fun _ => aged) n)) with (aged (Nat.iter n aged e)) in *.
  assert (Hk : entry_ok (Nat.iter n aged e)).
  { clear -Hok. induction n as [|n IH]; [done|]. by apply aged_ok. }
  destruct (aged_ctime _ Hn) as (Hn' & Hc & Hp). destruct (IH e Hok Hn') as (_ & Hne & Hc' & Hp').
  split_and!; [by apply aged_ok|done|lia|auto].
Qed.

(** Nothing survives for ever. *)
Lemma aged_expires e n : entry_ok e ->
  (ARP_MAXAGE <= Z.of_nat n -> entry_state (Nat.iter n aged e) = ETHARP_STATE_EMPTY)
  /\ (entry_state e = ETHARP_STATE_PENDING -> ARP_MAXPENDING <= Z.of_nat n ->
      entry_state (Nat.iter n aged e) = ETHARP_STATE_EMPTY).
Proof.
  intros Hok. pose proof Hok as [Hc _ _ _ _].
  split; [intros Hn|intros Hp Hn]; (destruct (decide (entry_state (Nat.iter n aged e) = ETHARP_STATE_EMPTY)) as [|Hne]; [done|]);
    destruct (aged_iter n e Hok Hne) as ([_ Hu Hpe _ _] & _ & Hct & Hst).
  - specialize (Hu Hne). lia.
  - specialize (Hpe (Hst Hp)). lia.
Qed.

Section Ticks.
Context {P : Type} `{PacketSpec P}.
Implicit Types s : arp_state P.

(** [n] expiries of the ARP timer. *)
Fixpoint ticks (n : nat) s : res (arp_state P) :=
  match n with
  | O => Ok s
  | S n' => let* s := ticks n' s in etharp_tmr s
  end.

Lemma tmr_spec N s l : arp_inv N s -> arp_owns l s ->
  exists s', etharp_tmr s = Ok s' /\ arp_inv N s' /\ arp_owns l s' /\ arp_table s' = aged <$> arp_table s
    /\ netifs s' = netifs s.
Proof.
  intros (Ht & Hp & Hc) Ho. pose proof (table_len _ Ht) as Hl. unfold etharp_tmr.
  destruct (tmr_loop_total ARP_TABLE_SIZE 0 s l) as (s' & E & Ho'); [lia|done|apply Ht|].
  destruct (tmr_loop_table _ _ _ _ E Ht) as (Ht' & Hp' & Hc' & En & Hj). exists s'. split_and!; try done; [by split_and!; try lia|].
  apply list_eq. intros j. rewrite list_lookup_fmap. destruct (arp_table s !! j) as [e|] eqn:Ej; cbn.
  - rewrite (Hj j e Ej), decide_True; [done|]. apply lookup_lt_Some in Ej. lia.
  - apply lookup_ge_None in Ej. apply lookup_ge_None. rewrite (table_len _ Ht'). lia.
Qed.

Lemma ticks_spec N l n : forall s, arp_inv N s -> arp_owns l s ->
  exists s', ticks n s = Ok s' /\ arp_inv N s' /\ arp_owns l s' /\ arp_table s' = Nat.iter n aged <$> arp_table s.
Proof.
  induction n as [|n IH]; intros s Hi Ho; cbn [ticks]; [exists s; split_and!; try done; by rewrite list_fmap_id|].
  destruct (IH s Hi Ho) as (s1 & E & Hi1 & Ho1 & Et). rewrite E. cbn [res_bind].
  destruct (tmr_spec N s1 l Hi1 Ho1) as (s2 & E2 & Hi2 & Ho2 & Et2 & _). exists s2. split_and!; try done.
  rewrite Et2, Et, <- list_fmap_compose. done.
Qed.
End Ticks.

(** ** A driver that keeps a record

    Packets that are counted, and a driver that writes down what it is given: the interface, the
    packet and the bytes last written, which are its header.  It shows that [PacketSpec] can be met. *)

(** Each reference with the length of its packet; the bytes last written; what has been sent. *)
Record store := mk_store { refs : list (Z * Z); written : list Z; frames : list (Z * Z * list Z) }.

Definition with_refs (l : list (Z * Z)) (p : store) : store := mk_store l (written p) (frames p).

Definition fresh (p : store) : Z := 1 + foldr (fun x m => Z.max (fst x) m) 0 (refs p).

Fixpoint release (l : list (Z * Z)) (b : Z) : res (list (Z * Z)) :=
  match l with
  | [] => Fault FBadAccess
  | x :: l' => if fst x =? b then Ok l' else let* l'' := release l' b in Ok (x :: l'')
  end.

Definition store_at (p : store) (b : Z) : res pbuf :=
  match list_find (fun x => fst x = b) (refs p) with
  | Some (_, x) => Ok (mk_pbuf NULL 0 (snd x) (snd x) PBUF_RAM 0 1)
  | None => Fault FBadAccess
  end.

(** The content of every packet: a request of 201.0.0.9 for the address of 201.0.0.1. *)
Definition demo_request : etharp_hdr :=
  mk_hdr (PP_HTONS HWTYPE_ETHERNET) (PP_HTONS ETHTYPE_IP) ETH_HWADDR_LEN 4 (PP_HTONS ARP_REQUEST)
    [2; 0; 0; 0; 0; 9] 150995145 ethzero 16777417.

#[global] Instance store_ops : PacketOps store := {|
  pbuf_free p b := let* l := release (refs p) b in Ok (with_refs l p);
  pbuf_ref p b := let* pb := store_at p b in Ok (with_refs ((b, tot_len pb) :: refs p) p);
  pbuf_alloc p _ n _ := Ok (fresh p, with_refs ((fresh p, n) :: refs p) p);
  pbuf_copy p _ _ := Ok (ERR_OK, p);
  pbuf_header p _ _ := Ok (false, p);
  pbuf_at := store_at;
  pbuf_count p := length (refs p);
  mem_read _ _ n := take n (hdr_bytes demo_request);
  mem_write p _ bs := mk_store (refs p) bs (frames p);
  linkoutput p nif b := Ok (ERR_OK, mk_store (refs p) (written p) (frames p ++ [(nif, b, written p)]));
  link_lenerr p := p
|}.

Definition store_held (p : store) (l : list Z) : Prop := (refs p).*1 ≡ₚ l /\ Forall (fun x => 0 < fst x) (refs p).

Lemma store_release p b l : p.*1 ≡ₚ b :: l -> Forall (fun x => 0 < fst x) p ->
  exists p', release p b = Ok p' /\ p'.*1 ≡ₚ l /\ Forall (fun x => 0 < fst x) p'.
Proof.
  revert l. induction p as [|x p IH]; intros l Hp Hf; cbn [release].
  { by apply Permutation_nil_cons in Hp. }
  apply Forall_cons in Hf. destruct Hf as [Hx Hf]. cbn in Hp. destruct (Z.eqb_spec (fst x) b) as [E|E].
  - exists p. split; [done|]. split; [|done]. rewrite E in Hp. by apply Permutation_cons_inv in Hp.
  - assert (Hin : fst x ∈ l).
    { assert (Hi : fst x ∈ b :: l) by (rewrite <- Hp; left). apply elem_of_cons in Hi. by destruct Hi. }
    apply elem_of_Permutation in Hin. destruct Hin as [l' El]. destruct (IH l') as (p' & Er & Hl & Hf'); [|done|].
    + rewrite El in Hp. apply (Permutation_cons_inv (a := fst x)). rewrite Hp. constructor.
    + rewrite Er. cbn [res_bind]. exists (x :: p'). split; [done|]. split; [|by constructor]. cbn. by rewrite Hl, El.
Qed.

Lemma store_at_spec p b : b ∈ (refs p).*1 -> exists pb, store_at p b = Ok pb.
Proof.
  intros Hb. unfold store_at. apply list_elem_of_fmap in Hb. destruct Hb as (x & -> & Hx).
  destruct (list_find_elem_of (fun y => fst y = fst x) (refs p) x Hx eq_refl) as [[i y] ->]. by eexists.
Qed.

Lemma fresh_pos p : 0 < fresh p.
Proof. unfold fresh. assert (0 <= foldr (fun x m => Z.max (fst x) m) 0 (refs p)); [|lia]. induction (refs p); cbn; lia. Qed.

#[global] Instance store_spec : PacketSpec store.
Proof.
  refine {| held := store_held |}.
  - intros p l l' Hl [Hp Hf]. split; [by rewrite Hp|done].
  - intros p l b [Hp Hf] Hb. rewrite <- Hp in Hb. split; [|by apply store_at_spec].
    apply list_elem_of_fmap in Hb. destruct Hb as (x & -> & Hx). rewrite Forall_forall in Hf. specialize (Hf x Hx).
    unfold NULL. lia.
  - intros p l b [Hp Hf]. destruct (store_release (refs p) b l Hp Hf) as (r & E & Hr). cbn [pbuf_free store_ops].
    rewrite E. by eexists.
  - intros p l n [Hp Hf] _. exists (fresh p), (with_refs ((fresh p, n) :: refs p) p). split; [done|]. right. split.
    + split; [cbn; by rewrite Hp|]. constructor; [apply fresh_pos|done].
    + cbn. unfold store_at. cbn. rewrite decide_True by done. by eexists.
  - intros p l b inc Hh _. by exists false, p.
  - done.
  - intros p l nif b Hh _. by eexists _, _.
  - done.
Defined.

(** ** What an ARP packet teaches *)

(** An ARP packet for IPv4 over Ethernet. *)
Definition valid_hdr (h : etharp_hdr) : bool :=
  (hwtype h =? PP_HTONS HWTYPE_ETHERNET) && (hwlen h =? ETH_HWADDR_LEN) && (protolen h =? 4)
  && (proto h =? PP_HTONS ETHTYPE_IP).

(** Addressed to the interface, which has an address. *)
Definition addressed_to (nf : netif) (h : etharp_hdr) : bool :=
  negb (ip4_addr_isany_val (netif_ip4_addr nf)) && (dipaddr h =? netif_ip4_addr nf).

(** The entries of [t'] are those of [t] and what [h] says; a new address is
    learnt only from a packet addressed to the interface. *)
Definition learns (nif : Z) (nf : netif) (h : etharp_hdr) (t t' : list etharp_entry) : Prop :=
  (forall e, e ∈ t' -> nonempty e -> e ∈ t
     \/ (e = resolved (sipaddr h) nif (shwaddr h) /\ valid_hdr h = true /\ bad_addr nf (sipaddr h) = false
         /\ (addressed_to nf h = true \/ exists e0, e0 ∈ t /\ nonempty e0 /\ ipaddr e0 = sipaddr h)))
  /\ (valid_hdr h = true -> bad_addr nf (sipaddr h) = false -> addressed_to nf h = true ->
      resolved (sipaddr h) nif (shwaddr h) ∈ t').

Section Learn.
Context {P : Type} `{PacketOps P}.
Implicit Types s : arp_state P.

Lemma input_table s p nif nf b s' :
  etharp_input s p nif = Ok s' -> nif <> NULL -> netifs s !! nif = Some nf -> pbuf_at (packets s) p = Ok b ->
  let h := hdr_of (mem_read (packets s) (payload b) 28) in
  if valid_hdr h
  then exists err s1, etharp_update_arp_entry (with_stats inc_recv s) nif (sipaddr h) (shwaddr h)
         (if addressed_to nf h then ETHARP_FLAG_TRY_HARD else ETHARP_FLAG_FIND_ONLY) = Ok (err, s1)
         /\ arp_table s' = arp_table s1
  else arp_table s' = arp_table s.
Proof.
  intros Hr Hne Hnf Hb h. unfold etharp_input in Hr.
  rewrite (proj2 (Z.eqb_neq nif NULL) Hne), (deref_ok _ _ _ Hnf) in Hr. cbn [res_bind] in Hr.
  rewrite Hb in Hr. cbn [res_bind] in Hr. change (Z.to_nat SIZEOF_ETHARP_HDR) with 28%nat in Hr.
  fold h in Hr. rewrite <- !negb_andb in Hr. fold (valid_hdr h) in Hr. destruct (valid_hdr h); cbn [negb] in Hr.
  2: { res_inv Hr. by injection Hr as <-. }
  assert (Ef : (if ip4_addr_isany_val (netif_ip4_addr nf) then false else dipaddr h =? netif_ip4_addr nf)
    = addressed_to nf h) by (unfold addressed_to; by destruct (ip4_addr_isany_val _)).
  rewrite Ef in Hr. res_inv Hr. destruct x as [err s1]. exists err, s1. split; [done|]. res_inv Hr. injection Hr as <-.
  cbn [with_packets arp_table]. destruct (_ =? PP_HTONS ARP_REQUEST).
  - destruct (addressed_to nf h); [|by injection Hx0 as <-]. res_inv Hx0. destruct x2 as [er pk]. by injection Hx0 as <-.
  - destruct (_ =? PP_HTONS ARP_REPLY); by injection Hx0 as <-.
Qed.

Lemma update_learns N s nif nf a hw (us : bool) err s' :
  etharp_update_arp_entry s nif a hw (if us then ETHARP_FLAG_TRY_HARD else ETHARP_FLAG_FIND_ONLY) = Ok (err, s') ->
  arp_inv N s -> netifs s !! nif = Some nf ->
  (forall e, e ∈ arp_table s' -> nonempty e -> e ∈ arp_table s
     \/ (e = resolved a nif hw /\ bad_addr nf a = false
         /\ (us = true \/ exists e0, e0 ∈ arp_table s /\ nonempty e0 /\ ipaddr e0 = a)))
  /\ (bad_addr nf a = false -> us = true -> resolved a nif hw ∈ arp_table s').
Proof.
  intros E Hinv Hnf. destruct (update_inv N _ _ _ _ _ _ _ E Hinv) as (_ & _ & Hno & Hyes).
  pose proof (update_errors _ _ _ _ _ _ _ _ E (proj1 Hinv) Hnf) as Herr.
  destruct (decide (err = ERR_OK)) as [Eok|Ene].
  - destruct (Hyes Eok) as (i & s1 & Ef & Hsole & Et). destruct Hsole as (e1 & Hi & _). apply lookup_lt_Some in Hi.
    destruct (find_entry_others _ _ _ _ _ Ef (proj1 Hinv)) as (Hoth & _ & Hfo). rewrite Et.
    assert (Hres : <[i := resolved a nif hw]> (arp_table s1) !! i = Some (resolved a nif hw)) by (by rewrite list_lookup_insert_eq).
    split; [|by intros; eapply list_elem_of_lookup_2].
    intros e He Hn. apply list_elem_of_lookup_1 in He. destruct He as [j Hj]. destruct (decide (j = i)) as [->|Hji].
    + rewrite Hres in Hj. injection Hj as <-. right. split_and!; [done|by destruct (bad_addr nf a); congruence|].
      destruct us; [by left|right]. by apply Hfo.
    + rewrite list_lookup_insert_ne, Hoth in Hj by congruence. left. by eapply list_elem_of_lookup_2.
  - rewrite (Hno Ene). split; [by left|]. intros Hb ->. rewrite Hb in Herr. destruct Ene. rewrite Herr.
    destruct (etharp_find_entry s (Some a) ETHARP_FLAG_TRY_HARD) as [[[i|] s1]|f] eqn:Ef; try done.
    destruct (find_entry_others _ _ _ _ _ Ef (proj1 Hinv)) as (_ & Hth & _). by destruct Hth.
Qed.
End Learn.

(** ** The operations as a transition system *)

Definition empty_entry : etharp_entry := mk_entry [] 0 NULL ethzero 0 ETHARP_STATE_EMPTY.

(** The table as it is at start-up: static memory, zero. *)
Definition arp_init {P} (N : nat) (nifs : gmap Z netif) (st : etharp_stats) (p : P) : arp_state P :=
  mk_arp (replicate ARP_TABLE_SIZE empty_entry) 0 N nifs st p.

Section Steps.
Context {P : Type} `{PacketOps P}.

(** A call that returns, or the rest of the system working on its own data. *)
Inductive arp_step : arp_state P -> arp_state P -> Prop :=
| step_tmr s s' : etharp_tmr s = Ok s' -> arp_step s s'
| step_input s p nif s' : etharp_input s p nif = Ok s' -> arp_step s s'
| step_output s nif b a err s' : etharp_output s nif b a = Ok (err, s') -> arp_step s s'
| step_query s nif a b err s' : etharp_query s nif a b = Ok (err, s') -> arp_step s s'
| step_request s nif a err s' : etharp_request s nif a = Ok (err, s') -> arp_step s s'
| step_find s a r s' : etharp_find_addr s a = Ok (r, s') -> arp_step s s'
| step_cleanup s nif s' : etharp_cleanup_netif s nif = Ok s' -> arp_step s s'
| step_other s nifs st p :
    arp_step s (mk_arp (arp_table s) (etharp_cached_entry s) (arp_queue_pool s) nifs st p).

Lemma arp_init_inv N nifs st (p : P) : arp_inv N (arp_init N nifs st p).
Proof.
  split_and!; cbn [arp_init arp_table etharp_cached_entry]; [|cbn; lia|done|done].
  split; [done| |].
  - apply Forall_replicate. by split.
  - intros i j e e' He _ Hn. apply lookup_replicate in He. by destruct He as [-> _].
Qed.

Lemma find_addr_same s a r s' N : arp_inv N s -> etharp_find_addr s a = Ok (r, s') -> s' = s.
Proof.
  intros Hinv. unfold etharp_find_addr. intros Hr. res_inv Hr. destruct x as [r1 s1].
  assert (s1 = s) as ->.
  { pose proof (find_entry_spec s a ETHARP_FLAG_FIND_ONLY (proj1 Hinv)) as Hf. rewrite Hx in Hf.
    by inversion Hf. }
  destruct r1; [|congruence]. res_inv Hr. case_match; congruence.
Qed.

Lemma step_inv N s s' : arp_step s s' -> arp_inv N s -> arp_inv N s'.
Proof.
  destruct 1 as [s s' E|s p nif s' E|s nif b a err s' E|s nif a b err s' E|s nif a err s' E|s a r s' E|s nif s' E|]; intros Hi.
  - destruct Hi as (Ht & Hp & Hc). destruct (tmr_loop_table _ _ _ _ E Ht) as (? & ? & ? & _). split_and!; try done; lia.
  - by eapply input_inv.
  - by eapply output_inv.
  - by eapply query_inv.
  - eapply same_inv; [by eapply request_same|done].
  - by rewrite (find_addr_same _ _ _ _ _ Hi E).
  - by eapply cleanup_inv.
  - done.
Qed.

Lemma steps_inv N s s' : rtc arp_step s s' -> arp_inv N s -> arp_inv N s'.
Proof. induction 1 as [|x y z Hs _ IH]; [done|]. intros Hi. apply IH. by eapply step_inv. Qed.
End Steps.

(** ** Properties *)

Section Properties.
Context {P : Type} `{PacketSpec P}.
Implicit Types s : arp_state P.

(** C18: Whatever sequence of timer expiries, received ARP packets, packets sent,
    queries, requests, lookups and interface removals runs from the empty table,
    the table has its ten entries, no two entries in use have the same address, ages
    stay below their limits (so the 16-bit age never wraps), only pending entries
    queue packets, at most three each, and no element of the queue pool is lost. *)
Theorem arp_table_invariant (N : nat) nifs st (p : P) (s : arp_state P) :
  rtc arp_step (arp_init N nifs st p) s -> arp_inv N s.
Proof.
  intros Hr. eapply steps_inv; [exact Hr|apply arp_init_inv].
Qed.

(** The search returns the entry in use for the address, if there is one.
    Otherwise a pure search, or one that may not recycle in a full table, reports
    ERR_MEM; a creating search returns the first empty entry, or, in a full table,
    empties and returns the least important one: the oldest stable entry, else the
    oldest pending one without packets, else the oldest pending one.  It never runs
    into an assertion, and the entry returned is the only one that changes. *)
Theorem etharp_find_entry_correct (N : nat) (s : arp_state P) (l : list Z) (a flags : Z) :
  arp_inv N s -> arp_owns l s ->
  found s a flags (etharp_find_entry s (Some a) flags)
  /\ exists r s', etharp_find_entry s (Some a) flags = Ok (r, s') /\ arp_inv N s' /\ arp_owns l s'
       /\ (forall j, r <> Some j -> arp_table s' !! j = arp_table s !! j).
Proof.
  intros Hi Ho. split; [apply find_entry_spec, Hi|].
  destruct (find_entry_total s a flags l (proj1 Hi) Ho) as (r & s' & E & Ho').
  destruct (find_entry_inv N _ _ _ _ _ E Hi) as (Hi' & _).
  destruct (find_entry_others _ _ _ _ _ E (proj1 Hi)) as (Hj & _). by exists r, s'.
Qed.



(** C29: A received ARP packet is always handled to the end and released.  Entries
    in use afterwards were there before, except for the sender's: that one is made
    from a well-formed packet only, never for an any, broadcast or multicast address,
    and for a sender not in the table only if the packet was addressed to the
    interface; in that case the sender is always learnt. *)
Theorem etharp_input_learns (N : nat) (s : arp_state P) (l : list Z) (p nif : Z) (nf : netif) (b : pbuf) :
  arp_inv N s -> arp_owns (p :: l) s -> nif <> NULL -> netifs s !! nif = Some nf ->
  Z.of_nat (length (netif_hwaddr nf)) = ETH_HWADDR_LEN -> pbuf_at (packets s) p = Ok b ->
  exists s', etharp_input s p nif = Ok s' /\ arp_inv N s' /\ arp_owns l s'
    /\ learns nif nf (hdr_of (mem_read (packets s) (payload b) 28)) (arp_table s) (arp_table s').
Proof.
  intros Hi Ho Hne Hnf Hl Hb. destruct (input_total N s p nif l Hi Ho) as (s' & E & Ho'); [by exists nf|done|].
  exists s'. split_and!; [done|by eapply input_inv|done|]. pose proof (input_table _ _ _ _ _ _ E Hne Hnf Hb) as Ht.
  cbv zeta in Ht. unfold learns. destruct (valid_hdr _) eqn:Ev; [|rewrite Ht; split; [by left|done]].
  destruct Ht as (err & s1 & Eu & Et). rewrite Et.
  destruct (update_learns N _ _ _ _ _ _ _ _ Eu Hi Hnf) as [H1 H2]. split; [|by intros; apply H2].
  intros e He Hn. destruct (H1 e He Hn) as [?|(-> & ? & ?)]; [by left|right]. by split_and!.
Qed.
End Properties.

(** *** Witnesses *)

Definition nf1 : netif := mk_netif 16777417 16777215 0 NETIF_FLAG_BROADCAST [2; 0; 0; 0; 0; 1] 1500 [] 0 0 0 0.

(** Start-up with one interface and one packet, 7, to be sent. *)
Definition wit0 : arp_state store := arp_init 5 {[1 := nf1]} (mk_etharp_stats 0 0 0 0 0 0 0 0) (mk_store [(7, 60)] [] []).

(** The packet is sent to an address that has to be resolved. *)
Definition wit1 : arp_state store :=
  match etharp_query wit0 1 33554633 7 with
  | Ok (_, s) => s
  | Fault _ => wit0
  end.

Lemma wit1_eq : etharp_query wit0 1 33554633 7 = Ok (ERR_OK, wit1).
Proof. vm_compute. reflexivity. Qed.

Lemma wit1_inv : arp_inv 5 wit1.
Proof. eapply query_inv; [exact wit1_eq|apply arp_init_inv]. Qed.

Lemma wit1_owns : arp_owns [7] wit1.
Proof.
  split.
  - split; [vm_compute; reflexivity|]. vm_compute. repeat constructor.
  - assert (E : netifs wit1 = {[1 := nf1]}) by (vm_compute; reflexivity).
    unfold netif_ok. rewrite E. vm_compute arp_table. repeat constructor; intros Hn;
      first [by destruct Hn | exists nf1; split; reflexivity].
Qed.

Lemma arp_table_invariant_witness : arp_inv 5 wit1.
Proof.
  apply (arp_table_invariant 5 {[1 := nf1]} (mk_etharp_stats 0 0 0 0 0 0 0 0) (mk_store [(7, 60)] [] [])).
  apply rtc_once. eapply step_query. exact wit1_eq.
Defined.

Lemma etharp_find_entry_correct_witness :
  found wit1 33554633 ETHARP_FLAG_TRY_HARD (etharp_find_entry wit1 (Some 33554633) ETHARP_FLAG_TRY_HARD)
  /\ exists r s', etharp_find_entry wit1 (Some 33554633) ETHARP_FLAG_TRY_HARD = Ok (r, s') /\ arp_inv 5 s' /\ arp_owns [7] s'
       /\ (forall j, r <> Some j -> arp_table s' !! j = arp_table wit1 !! j).
Proof. apply (etharp_find_entry_correct 5 wit1 [7] 33554633 ETHARP_FLAG_TRY_HARD); [apply wit1_inv|apply wit1_owns]. Defined.



Lemma etharp_input_learns_witness :
  exists s', etharp_input wit1 7 1 = Ok s' /\ arp_inv 5 s' /\ arp_owns [] s'
    /\ resolved 150995145 1 [2; 0; 0; 0; 0; 9] ∈ arp_table s'.
Proof.
  destruct (etharp_input_learns 5 wit1 [] 7 1 nf1 (mk_pbuf NULL 0 60 60 PBUF_RAM 0 1) wit1_inv wit1_owns)
    as (s' & E & Hi & Ho & [_ Hl]); [discriminate|vm_compute; reflexivity|reflexivity|vm_compute; reflexivity|].
  exists s'. split; [exact E|]. split; [exact Hi|]. split; [exact Ho|]. apply Hl; vm_compute; reflexivity.
Defined.
