(* ===== verification/EtharpOut.v ===== *)
(** * Output to addresses that the ARP table resolves: lwip/src/core/ipv4/etharp.c *)

From S2P Require Import Prelude Def Ip4Addr Pbuf Etharp.

(** The entry of the table that resolves an address and needs no new request. *)
Definition resolves (t : list etharp_entry) (hop : Z) (e : etharp_entry) : Prop :=
  exists i, t !! i = Some e /\ ipaddr e = hop /\ at_least_stable (entry_state e) = true
    /\ (entry_state e = ETHARP_STATE_STABLE -> ctime e < ARP_AGE_REREQUEST_USED_UNICAST).

(** A unicast address that an interface sends to directly or through its gateway. *)
Definition sends_via (nf : netif) (addr hop : Z) : Prop :=
  ip4_addr_isbroadcast_u32 addr nf = false /\ ip4_addr_ismulticast addr = false /\ next_hop nf addr = Some hop.

Lemma stable_nonempty e : at_least_stable (entry_state e) = true -> nonempty e.
Proof. unfold nonempty. intros Hs E. by rewrite E in Hs. Qed.

Lemma find_stable_spec addr t : forall i,
  match find_stable addr i t with
  | Some j => exists e, (i <= j)%nat /\ t !! (j - i)%nat = Some e /\ at_least_stable (entry_state e) = true /\ ipaddr e = addr
  | None => forall k e, t !! k = Some e -> at_least_stable (entry_state e) = true -> ipaddr e <> addr
  end.
Proof.
  induction t as [|e t IH]; intros i; cbn [find_stable]; [intros k e; by rewrite lookup_nil|].
  destruct (at_least_stable (entry_state e)) eqn:Es; cbn [andb].
  - destruct (Z.eqb_spec addr (ipaddr e)) as [E|E].
    + exists e. by rewrite Nat.sub_diag.
    + specialize (IH (S i)). destruct (find_stable addr (S i) t) as [j|].
      * destruct IH as (x & Hj & Hx & ?). exists x. split; [lia|]. replace (j - i)%nat with (S (j - S i)) by lia. done.
      * intros [|k] x Hk Hx; [injection Hk as <-; congruence|by eapply IH].
  - specialize (IH (S i)). destruct (find_stable addr (S i) t) as [j|].
    + destruct IH as (x & Hj & Hx & ?). exists x. split; [lia|]. replace (j - i)%nat with (S (j - S i)) by lia. done.
    + intros [|k] x Hk Hx; [injection Hk as <-; congruence|by eapply IH].
Qed.

Section Resolved.
Context {P : Type} `{PacketOps P}.
Implicit Types s : arp_state P.

Lemma output_to_index_known s nif nf b i e :
  netifs s !! nif = Some nf -> arp_table s !! i = Some e -> at_least_stable (entry_state e) = true ->
  (entry_state e = ETHARP_STATE_STABLE -> ctime e < ARP_AGE_REREQUEST_USED_UNICAST) ->
  etharp_output_to_arp_index s nif b i
  = (let* (err, pk) := ethernet_output (packets s) nif nf b (netif_hwaddr nf) (ethaddr e) ETHTYPE_IP in
     Ok (err, with_packets pk s)).
Proof.
  intros Hnf Hi Hs Hc. unfold etharp_output_to_arp_index. rewrite (deref_ok _ _ _ Hnf). cbn [res_bind].
  unfold entry. rewrite Hi. cbn [res_bind]. rewrite Hs. cbn [lwip_assert res_bind]. case_bool_decide as Es.
  - specialize (Hc Es). unfold ARP_AGE_REREQUEST_USED_UNICAST, ARP_AGE_REREQUEST_USED_BROADCAST, ARP_MAXAGE in *.
    rewrite (proj2 (Z.leb_gt _ _)), (proj2 (Z.leb_gt _ _)) by lia. cbn [res_bind]. by rewrite Hi.
  - cbn [res_bind]. by rewrite Hi.
Qed.

(** A packet for an address that the table resolves is framed and sent at once. *)
Lemma etharp_output_known N s nif nf b addr hop e :
  arp_inv N s -> netifs s !! nif = Some nf -> b <> NULL -> sends_via nf addr hop -> resolves (arp_table s) hop e ->
  exists s', arp_table s' = arp_table s /\ arp_inv N s'
    /\ etharp_output s nif b addr
       = (let* (err, pk) := ethernet_output (packets s) nif nf b (netif_hwaddr nf) (ethaddr e) ETHTYPE_IP in
          Ok (err, with_packets pk s')).
Proof.
  intros Hinv Hnf Hb (Hbc & Hmc & Hop) (i & Hi & Ea & Hs & Hc). pose proof Hinv as ([Hlen _ Hd] & Hp & Hcache).
  assert (Huniq : forall j x, arp_table s !! j = Some x -> at_least_stable (entry_state x) = true -> ipaddr x = hop -> j = i).
  { intros j x Hj Hx Ex. eapply Hd; [exact Hj|exact Hi|by apply stable_nonempty..|congruence]. }
  assert (Hscan : exists s', arp_table s' = arp_table s /\ arp_inv N s'
    /\ match find_stable hop 0 (arp_table s) with
       | Some j => etharp_output_to_arp_index (with_cached (Z.of_nat j) s) nif b j
       | None => etharp_query s nif hop b
       end = (let* (err, pk) := ethernet_output (packets s) nif nf b (netif_hwaddr nf) (ethaddr e) ETHTYPE_IP in
              Ok (err, with_packets pk s'))).
  { pose proof (find_stable_spec hop (arp_table s) 0) as Hf. destruct (find_stable hop 0 (arp_table s)) as [j|]; [|by destruct (Hf i e Hi Hs)].
    destruct Hf as (x & _ & Hx & Hxs & Ex). rewrite Nat.sub_0_r in Hx. rewrite (Huniq _ _ Hx Hxs Ex).
    exists (with_cached (Z.of_nat i) s). split; [done|]. split; [|by rewrite (output_to_index_known _ nif nf b i e)].
    apply lookup_lt_Some in Hi. rewrite Hlen in Hi. split; [apply Hinv|]. split; [done|]. cbn [with_cached etharp_cached_entry]. lia. }
  unfold etharp_output. rewrite (proj2 (Z.eqb_neq b NULL)) by done. cbn [negb lwip_assert res_bind].
  rewrite (deref_ok _ _ _ Hnf). cbn [res_bind]. rewrite Hbc, Hmc, Hop.
  destruct (lookup_lt_is_Some_2 (arp_table s) (Z.to_nat (etharp_cached_entry s))) as [c Hcc]; [rewrite Hlen; lia|].
  unfold entry at 1. rewrite Hcc. cbn [res_bind].
  destruct (at_least_stable (entry_state c)) eqn:Ec; cbn [andb]; [|exact Hscan].
  destruct (Z.eqb_spec hop (ipaddr c)) as [E|E]; [|exact Hscan].
  rewrite (Huniq _ _ Hcc Ec (eq_sym E)). exists (with_stats inc_cachehit s). split; [done|]. split; [done|].
  by rewrite (output_to_index_known _ nif nf b i e).
Qed.
End Resolved.
