(* ===== verification/TcpData.v ===== *)
(** * The data of TCP: lwip/src/include/lwip/tcp.h, priv/tcp_priv.h

    Control blocks, segments, the lists of control blocks and the static variables of
    tcp.c and tcp_in.c.  The configuration of the port: TCP_MSS 1024, TCP_WND 8096,
    TCP_SND_BUF 2048, TCP_SND_QUEUELEN 8, TCP_QUEUE_OOSEQ 1 without limits, TCP_LISTEN_BACKLOG 1,
    TCP_OVERSIZE TCP_MSS, TCP_CALCULATE_EFF_SEND_MSS 1, LWIP_CALLBACK_API 1; LWIP_WND_SCALE,
    LWIP_TCP_TIMESTAMPS, LWIP_TCP_KEEPALIVE, SO_REUSE and LWIP_CHECKSUM_ON_COPY are 0, and
    LWIP_DEBUG is not defined.

    A queue of segments is the list of its segments: a [struct tcp_seg] is on one queue at a
    time, and only the code of its control block reaches it.  The elements of the pool
    MEMP_TCP_SEG are counted. *)

From S2P Require Import Prelude.

(** ** Definitions *)

Definition TCP_HLEN : Z := 20.
Definition TCP_MSS : Z := 1024.
Definition TCP_WND : Z := 8096.
Definition TCP_SND_BUF : Z := 2048.
Definition TCP_SND_QUEUELEN : Z := 8.
Definition TCP_SNDQUEUELEN_OVERFLOW : Z := 65532.
Definition TCP_OVERSIZE : Z := TCP_MSS.
Definition TCP_TTL : Z := 255.
Definition TCP_MAXRTX : Z := 12.
Definition TCP_SYNMAXRTX : Z := 4.
Definition TCP_WND_UPDATE_THRESHOLD : Z := Z.min (TCP_WND / 4) (TCP_MSS * 4).
Definition TCP_SLOW_INTERVAL : Z := 500.
Definition TCP_FIN_WAIT_TIMEOUT : Z := 20000.
Definition TCP_SYN_RCVD_TIMEOUT : Z := 20000.
Definition TCP_OOSEQ_TIMEOUT : Z := 6.
Definition TCP_MSL : Z := 60000.
Definition TCP_KEEPIDLE_DEFAULT : Z := 7200000.
Definition TCP_KEEPINTVL_DEFAULT : Z := 75000.
Definition TCP_KEEPCNT_DEFAULT : Z := 9.
Definition TCP_MAXIDLE : Z := TCP_KEEPCNT_DEFAULT * TCP_KEEPINTVL_DEFAULT.
Definition INITIAL_MSS : Z := 536.
Definition TCP_PRIO_NORMAL : Z := 64.
Definition TCP_PRIO_MAX : Z := 127.
Definition TCP_LOCAL_PORT_RANGE_START : Z := 49152.
Definition TCP_LOCAL_PORT_RANGE_END : Z := 65535.

Definition TCP_FIN : Z := 1.
Definition TCP_SYN : Z := 2.
Definition TCP_RST : Z := 4.
Definition TCP_PSH : Z := 8.
Definition TCP_ACK : Z := 16.
Definition TCP_FLAGS : Z := 63.

Definition TF_ACK_DELAY : Z := 1.
Definition TF_ACK_NOW : Z := 2.
Definition TF_INFR : Z := 4.
Definition TF_RXCLOSED : Z := 16.
Definition TF_FIN : Z := 32.
Definition TF_NODELAY : Z := 64.
Definition TF_NAGLEMEMERR : Z := 128.
Definition TF_BACKLOGPEND : Z := 512.

Definition TF_RESET : Z := 8.
Definition TF_CLOSED : Z := 16.
Definition TF_GOT_FIN : Z := 32.

Definition TF_SEG_OPTS_MSS : Z := 1.
Definition TCP_WRITE_FLAG_COPY : Z := 1.
Definition TCP_WRITE_FLAG_MORE : Z := 2.
Definition SOF_KEEPALIVE : Z := 8.
Definition SOF_INHERITED : Z := 12.

Definition LWIP_TCP_OPT_EOL : Z := 0.
Definition LWIP_TCP_OPT_NOP : Z := 1.
Definition LWIP_TCP_OPT_MSS : Z := 2.
Definition LWIP_TCP_OPT_LEN_MSS : Z := 4.

(** [x & f], as a condition. *)
Definition has (x f : Z) : bool := negb (Z.land x f =? 0).
(** [x | f] and [x & ~f]. *)
Definition add_flag (x f : Z) : Z := Z.lor x f.
Definition del_flag (x f : Z) : Z := Z.land x (Z.lnot f).

Definition LWIP_TCP_OPT_LENGTH (flags : Z) : Z := if has flags TF_SEG_OPTS_MSS then LWIP_TCP_OPT_LEN_MSS else 0.

(** *** Sequence numbers *)

Definition TCP_SEQ_LT (a b : Z) : bool := s32 (u32 (a - b)) <? 0.
Definition TCP_SEQ_LEQ (a b : Z) : bool := s32 (u32 (a - b)) <=? 0.
Definition TCP_SEQ_GT (a b : Z) : bool := 0 <? s32 (u32 (a - b)).
Definition TCP_SEQ_GEQ (a b : Z) : bool := 0 <=? s32 (u32 (a - b)).
Definition TCP_SEQ_BETWEEN (a b c : Z) : bool := TCP_SEQ_GEQ a b && TCP_SEQ_LEQ a c.

(** *** Control blocks *)

Inductive tcp_state :=
| CLOSED | LISTEN | SYN_SENT | SYN_RCVD | ESTABLISHED | FIN_WAIT_1 | FIN_WAIT_2 | CLOSE_WAIT | CLOSING | LAST_ACK | TIME_WAIT.

#[global] Instance tcp_state_eq_dec : EqDecision tcp_state.
Proof. solve_decision. Defined.

(** The value of the enumerator. *)
Definition state_num (s : tcp_state) : Z :=
  match s with
  | CLOSED => 0 | LISTEN => 1 | SYN_SENT => 2 | SYN_RCVD => 3 | ESTABLISHED => 4 | FIN_WAIT_1 => 5
  | FIN_WAIT_2 => 6 | CLOSE_WAIT => 7 | CLOSING => 8 | LAST_ACK => 9 | TIME_WAIT => 10
  end.

Definition state_eqb (a b : tcp_state) : bool := bool_decide (a = b).

(** [struct tcp_seg]: the pbuf, the length of the data, the options and the header. *)
Record tcp_seg := mk_seg { seg_p : Z; seg_len : Z; seg_flags : Z; seg_tcphdr : Z }.

Definition set_seg_p (v : Z) (s : tcp_seg) : tcp_seg := mk_seg v (seg_len s) (seg_flags s) (seg_tcphdr s).
Definition set_seg_len (v : Z) (s : tcp_seg) : tcp_seg := mk_seg (seg_p s) v (seg_flags s) (seg_tcphdr s).

(** [struct tcp_pcb]; a callback is the address of its function, NULL for none. *)
Record tcp_pcb := mk_tcp_pcb {
  t_local_ip : Z; t_remote_ip : Z; t_so_options : Z; t_tos : Z; t_ttl : Z; t_callback_arg : Z;
  t_state : tcp_state; t_prio : Z; t_local_port : Z; t_remote_port : Z; t_flags : Z; t_polltmr : Z;
  t_pollinterval : Z; t_last_timer : Z; t_tmr : Z; t_rcv_nxt : Z; t_rcv_wnd : Z; t_rcv_ann_wnd : Z;
  t_rcv_ann_right_edge : Z; t_rtime : Z; t_mss : Z; t_rttest : Z; t_rtseq : Z; t_sa : Z; t_sv : Z; t_rto : Z;
  t_nrtx : Z; t_dupacks : Z; t_lastack : Z; t_cwnd : Z; t_ssthresh : Z; t_snd_nxt : Z; t_snd_wl1 : Z;
  t_snd_wl2 : Z; t_snd_lbb : Z; t_snd_wnd : Z; t_snd_wnd_max : Z; t_snd_buf : Z; t_snd_queuelen : Z;
  t_unsent_oversize : Z; t_unsent : list tcp_seg; t_unacked : list tcp_seg; t_ooseq : list tcp_seg;
  t_refused_data : Z; t_listener : Z; t_sent : Z; t_recv : Z; t_connected : Z; t_poll : Z; t_errf : Z;
  t_keep_idle : Z; t_persist_cnt : Z; t_persist_backoff : Z; t_keep_cnt_sent : Z
}.

(** The record with one field replaced. *)
Definition eta_tcp_pcb (t : tcp_pcb) : tcp_pcb :=
  mk_tcp_pcb (t_local_ip t) (t_remote_ip t) (t_so_options t) (t_tos t) (t_ttl t) (t_callback_arg t) (t_state t)
    (t_prio t) (t_local_port t) (t_remote_port t) (t_flags t) (t_polltmr t) (t_pollinterval t) (t_last_timer t)
    (t_tmr t) (t_rcv_nxt t) (t_rcv_wnd t) (t_rcv_ann_wnd t) (t_rcv_ann_right_edge t) (t_rtime t) (t_mss t)
    (t_rttest t) (t_rtseq t) (t_sa t) (t_sv t) (t_rto t) (t_nrtx t) (t_dupacks t) (t_lastack t) (t_cwnd t)
    (t_ssthresh t) (t_snd_nxt t) (t_snd_wl1 t) (t_snd_wl2 t) (t_snd_lbb t) (t_snd_wnd t) (t_snd_wnd_max t)
    (t_snd_buf t) (t_snd_queuelen t) (t_unsent_oversize t) (t_unsent t) (t_unacked t) (t_ooseq t)
    (t_refused_data t) (t_listener t) (t_sent t) (t_recv t) (t_connected t) (t_poll t) (t_errf t)
    (t_keep_idle t) (t_persist_cnt t) (t_persist_backoff t) (t_keep_cnt_sent t).

Definition set_local_ip (v : Z) (t : tcp_pcb) : tcp_pcb := ltac:(set_field eta_tcp_pcb t_local_ip v t).
Definition set_remote_ip (v : Z) (t : tcp_pcb) : tcp_pcb := ltac:(set_field eta_tcp_pcb t_remote_ip v t).
Definition set_so_options (v : Z) (t : tcp_pcb) : tcp_pcb := ltac:(set_field eta_tcp_pcb t_so_options v t).
Definition set_tos (v : Z) (t : tcp_pcb) : tcp_pcb := ltac:(set_field eta_tcp_pcb t_tos v t).
Definition set_ttl (v : Z) (t : tcp_pcb) : tcp_pcb := ltac:(set_field eta_tcp_pcb t_ttl v t).
Definition set_callback_arg (v : Z) (t : tcp_pcb) : tcp_pcb := ltac:(set_field eta_tcp_pcb t_callback_arg v t).
Definition set_state (v : tcp_state) (t : tcp_pcb) : tcp_pcb := ltac:(set_field eta_tcp_pcb t_state v t).
Definition set_prio (v : Z) (t : tcp_pcb) : tcp_pcb := ltac:(set_field eta_tcp_pcb t_prio v t).
Definition set_local_port (v : Z) (t : tcp_pcb) : tcp_pcb := ltac:(set_field eta_tcp_pcb t_local_port v t).
Definition set_remote_port (v : Z) (t : tcp_pcb) : tcp_pcb := ltac:(set_field eta_tcp_pcb t_remote_port v t).
Definition set_flags (v : Z) (t : tcp_pcb) : tcp_pcb := ltac:(set_field eta_tcp_pcb t_flags v t).
Definition set_polltmr (v : Z) (t : tcp_pcb) : tcp_pcb := ltac:(set_field eta_tcp_pcb t_polltmr v t).
Definition set_pollinterval (v : Z) (t : tcp_pcb) : tcp_pcb := ltac:(set_field eta_tcp_pcb t_pollinterval v t).
Definition set_last_timer (v : Z) (t : tcp_pcb) : tcp_pcb := ltac:(set_field eta_tcp_pcb t_last_timer v t).
Definition set_tmr (v : Z) (t : tcp_pcb) : tcp_pcb := ltac:(set_field eta_tcp_pcb t_tmr v t).
Definition set_rcv_nxt (v : Z) (t : tcp_pcb) : tcp_pcb := ltac:(set_field eta_tcp_pcb t_rcv_nxt v t).
Definition set_rcv_wnd (v : Z) (t : tcp_pcb) : tcp_pcb := ltac:(set_field eta_tcp_pcb t_rcv_wnd v t).
Definition set_rcv_ann_wnd (v : Z) (t : tcp_pcb) : tcp_pcb := ltac:(set_field eta_tcp_pcb t_rcv_ann_wnd v t).
Definition set_rcv_ann_right_edge (v : Z) (t : tcp_pcb) : tcp_pcb := ltac:(set_field eta_tcp_pcb t_rcv_ann_right_edge v t).
Definition set_rtime (v : Z) (t : tcp_pcb) : tcp_pcb := ltac:(set_field eta_tcp_pcb t_rtime v t).
Definition set_mss (v : Z) (t : tcp_pcb) : tcp_pcb := ltac:(set_field eta_tcp_pcb t_mss v t).
Definition set_rttest (v : Z) (t : tcp_pcb) : tcp_pcb := ltac:(set_field eta_tcp_pcb t_rttest v t).
Definition set_rtseq (v : Z) (t : tcp_pcb) : tcp_pcb := ltac:(set_field eta_tcp_pcb t_rtseq v t).
Definition set_sa (v : Z) (t : tcp_pcb) : tcp_pcb := ltac:(set_field eta_tcp_pcb t_sa v t).
Definition set_sv (v : Z) (t : tcp_pcb) : tcp_pcb := ltac:(set_field eta_tcp_pcb t_sv v t).
Definition set_rto (v : Z) (t : tcp_pcb) : tcp_pcb := ltac:(set_field eta_tcp_pcb t_rto v t).
Definition set_nrtx (v : Z) (t : tcp_pcb) : tcp_pcb := ltac:(set_field eta_tcp_pcb t_nrtx v t).
Definition set_dupacks (v : Z) (t : tcp_pcb) : tcp_pcb := ltac:(set_field eta_tcp_pcb t_dupacks v t).
Definition set_lastack (v : Z) (t : tcp_pcb) : tcp_pcb := ltac:(set_field eta_tcp_pcb t_lastack v t).
Definition set_cwnd (v : Z) (t : tcp_pcb) : tcp_pcb := ltac:(set_field eta_tcp_pcb t_cwnd v t).
Definition set_ssthresh (v : Z) (t : tcp_pcb) : tcp_pcb := ltac:(set_field eta_tcp_pcb t_ssthresh v t).
Definition set_snd_nxt (v : Z) (t : tcp_pcb) : tcp_pcb := ltac:(set_field eta_tcp_pcb t_snd_nxt v t).
Definition set_snd_wl1 (v : Z) (t : tcp_pcb) : tcp_pcb := ltac:(set_field eta_tcp_pcb t_snd_wl1 v t).
Definition set_snd_wl2 (v : Z) (t : tcp_pcb) : tcp_pcb := ltac:(set_field eta_tcp_pcb t_snd_wl2 v t).
Definition set_snd_lbb (v : Z) (t : tcp_pcb) : tcp_pcb := ltac:(set_field eta_tcp_pcb t_snd_lbb v t).
Definition set_snd_wnd (v : Z) (t : tcp_pcb) : tcp_pcb := ltac:(set_field eta_tcp_pcb t_snd_wnd v t).
Definition set_snd_wnd_max (v : Z) (t : tcp_pcb) : tcp_pcb := ltac:(set_field eta_tcp_pcb t_snd_wnd_max v t).
Definition set_snd_buf (v : Z) (t : tcp_pcb) : tcp_pcb := ltac:(set_field eta_tcp_pcb t_snd_buf v t).
Definition set_snd_queuelen (v : Z) (t : tcp_pcb) : tcp_pcb := ltac:(set_field eta_tcp_pcb t_snd_queuelen v t).
Definition set_unsent_oversize (v : Z) (t : tcp_pcb) : tcp_pcb := ltac:(set_field eta_tcp_pcb t_unsent_oversize v t).
Definition set_unsent (v : list tcp_seg) (t : tcp_pcb) : tcp_pcb := ltac:(set_field eta_tcp_pcb t_unsent v t).
Definition set_unacked (v : list tcp_seg) (t : tcp_pcb) : tcp_pcb := ltac:(set_field eta_tcp_pcb t_unacked v t).
Definition set_ooseq (v : list tcp_seg) (t : tcp_pcb) : tcp_pcb := ltac:(set_field eta_tcp_pcb t_ooseq v t).
Definition set_refused_data (v : Z) (t : tcp_pcb) : tcp_pcb := ltac:(set_field eta_tcp_pcb t_refused_data v t).
Definition set_listener (v : Z) (t : tcp_pcb) : tcp_pcb := ltac:(set_field eta_tcp_pcb t_listener v t).
Definition set_sent (v : Z) (t : tcp_pcb) : tcp_pcb := ltac:(set_field eta_tcp_pcb t_sent v t).
Definition set_recv (v : Z) (t : tcp_pcb) : tcp_pcb := ltac:(set_field eta_tcp_pcb t_recv v t).
Definition set_connected (v : Z) (t : tcp_pcb) : tcp_pcb := ltac:(set_field eta_tcp_pcb t_connected v t).
Definition set_poll (v : Z) (t : tcp_pcb) : tcp_pcb := ltac:(set_field eta_tcp_pcb t_poll v t).
Definition set_errf (v : Z) (t : tcp_pcb) : tcp_pcb := ltac:(set_field eta_tcp_pcb t_errf v t).
Definition set_keep_idle (v : Z) (t : tcp_pcb) : tcp_pcb := ltac:(set_field eta_tcp_pcb t_keep_idle v t).
Definition set_persist_cnt (v : Z) (t : tcp_pcb) : tcp_pcb := ltac:(set_field eta_tcp_pcb t_persist_cnt v t).
Definition set_persist_backoff (v : Z) (t : tcp_pcb) : tcp_pcb := ltac:(set_field eta_tcp_pcb t_persist_backoff v t).
Definition set_keep_cnt_sent (v : Z) (t : tcp_pcb) : tcp_pcb := ltac:(set_field eta_tcp_pcb t_keep_cnt_sent v t).

(** [struct tcp_pcb_listen]. *)
Record tcp_pcb_listen := mk_listen {
  l_local_ip : Z; l_so_options : Z; l_tos : Z; l_ttl : Z; l_callback_arg : Z; l_prio : Z; l_local_port : Z;
  l_accept : Z; l_backlog : Z; l_accepts_pending : Z
}.

Definition set_l_local_ip (v : Z) (l : tcp_pcb_listen) : tcp_pcb_listen :=
  mk_listen v (l_so_options l) (l_tos l) (l_ttl l) (l_callback_arg l) (l_prio l) (l_local_port l) (l_accept l)
    (l_backlog l) (l_accepts_pending l).
Definition set_l_accept (v : Z) (l : tcp_pcb_listen) : tcp_pcb_listen :=
  mk_listen (l_local_ip l) (l_so_options l) (l_tos l) (l_ttl l) (l_callback_arg l) (l_prio l) (l_local_port l) v
    (l_backlog l) (l_accepts_pending l).
Definition set_l_accepts_pending (v : Z) (l : tcp_pcb_listen) : tcp_pcb_listen :=
  mk_listen (l_local_ip l) (l_so_options l) (l_tos l) (l_ttl l) (l_callback_arg l) (l_prio l) (l_local_port l)
    (l_accept l) (l_backlog l) v.

(** The addresses of [tcp_recv_null] and [tcp_accept_null]. *)
Definition tcp_recv_null_fn : Z := 1.
Definition tcp_accept_null_fn : Z := 2.

(** The static variables of tcp_in.c. *)
Record tcp_in := mk_in {
  i_inseg : tcp_seg; i_tcphdr : Z; i_optlen : Z; i_opt1len : Z; i_opt2 : Z; i_optidx : Z; i_seqno : Z; i_ackno : Z;
  i_recv_acked : Z; i_tcplen : Z; i_flags : Z; i_recv_flags : Z; i_recv_data : Z
}.

Definition eta_tcp_in (t : tcp_in) : tcp_in :=
  mk_in (i_inseg t) (i_tcphdr t) (i_optlen t) (i_opt1len t) (i_opt2 t) (i_optidx t) (i_seqno t) (i_ackno t)
    (i_recv_acked t) (i_tcplen t) (i_flags t) (i_recv_flags t) (i_recv_data t).

Definition set_i_inseg (v : tcp_seg) (t : tcp_in) : tcp_in := ltac:(set_field eta_tcp_in i_inseg v t).
Definition set_i_optidx (v : Z) (t : tcp_in) : tcp_in := ltac:(set_field eta_tcp_in i_optidx v t).
Definition set_i_seqno (v : Z) (t : tcp_in) : tcp_in := ltac:(set_field eta_tcp_in i_seqno v t).
Definition set_i_recv_acked (v : Z) (t : tcp_in) : tcp_in := ltac:(set_field eta_tcp_in i_recv_acked v t).
Definition set_i_tcplen (v : Z) (t : tcp_in) : tcp_in := ltac:(set_field eta_tcp_in i_tcplen v t).
Definition set_i_recv_flags (v : Z) (t : tcp_in) : tcp_in := ltac:(set_field eta_tcp_in i_recv_flags v t).
Definition set_i_recv_data (v : Z) (t : tcp_in) : tcp_in := ltac:(set_field eta_tcp_in i_recv_data v t).

(** The global variables of tcp.c, the control blocks that exist, and the free elements of
    the pools MEMP_TCP_PCB, MEMP_TCP_PCB_LISTEN and MEMP_TCP_SEG. *)
Record tcp_globals := mk_tcp_globals {
  tcp_heap : gmap Z tcp_pcb; listen_heap : gmap Z tcp_pcb_listen;
  tcp_bound_pcbs : list Z; tcp_listen_pcbs : list Z; tcp_active_pcbs : list Z; tcp_tw_pcbs : list Z;
  tcp_port : Z; tcp_ticks : Z; tcp_iss : Z; tcp_active_pcbs_changed : bool; tcp_timer : Z; tcp_timer_ctr : Z;
  tcp_pcb_pool : list Z; tcp_listen_pool : list Z; tcp_seg_pool : nat; tcp_input_pcb : Z; tcp_in_vars : tcp_in
}.

Definition eta_tcp_globals (t : tcp_globals) : tcp_globals :=
  mk_tcp_globals (tcp_heap t) (listen_heap t) (tcp_bound_pcbs t) (tcp_listen_pcbs t) (tcp_active_pcbs t)
    (tcp_tw_pcbs t) (tcp_port t) (tcp_ticks t) (tcp_iss t) (tcp_active_pcbs_changed t) (tcp_timer t)
    (tcp_timer_ctr t) (tcp_pcb_pool t) (tcp_listen_pool t) (tcp_seg_pool t) (tcp_input_pcb t) (tcp_in_vars t).

Definition set_tcp_heap (v : gmap Z tcp_pcb) (t : tcp_globals) : tcp_globals := ltac:(set_field eta_tcp_globals tcp_heap v t).
Definition set_listen_heap (v : gmap Z tcp_pcb_listen) (t : tcp_globals) : tcp_globals := ltac:(set_field eta_tcp_globals listen_heap v t).
Definition set_tcp_bound_pcbs (v : list Z) (t : tcp_globals) : tcp_globals := ltac:(set_field eta_tcp_globals tcp_bound_pcbs v t).
Definition set_tcp_listen_pcbs (v : list Z) (t : tcp_globals) : tcp_globals := ltac:(set_field eta_tcp_globals tcp_listen_pcbs v t).
Definition set_tcp_active_pcbs (v : list Z) (t : tcp_globals) : tcp_globals := ltac:(set_field eta_tcp_globals tcp_active_pcbs v t).
Definition set_tcp_tw_pcbs (v : list Z) (t : tcp_globals) : tcp_globals := ltac:(set_field eta_tcp_globals tcp_tw_pcbs v t).
Definition set_tcp_port (v : Z) (t : tcp_globals) : tcp_globals := ltac:(set_field eta_tcp_globals tcp_port v t).
Definition set_tcp_ticks (v : Z) (t : tcp_globals) : tcp_globals := ltac:(set_field eta_tcp_globals tcp_ticks v t).
Definition set_tcp_iss (v : Z) (t : tcp_globals) : tcp_globals := ltac:(set_field eta_tcp_globals tcp_iss v t).
Definition set_tcp_active_pcbs_changed (v : bool) (t : tcp_globals) : tcp_globals := ltac:(set_field eta_tcp_globals tcp_active_pcbs_changed v t).
Definition set_tcp_timer (v : Z) (t : tcp_globals) : tcp_globals := ltac:(set_field eta_tcp_globals tcp_timer v t).
Definition set_tcp_timer_ctr (v : Z) (t : tcp_globals) : tcp_globals := ltac:(set_field eta_tcp_globals tcp_timer_ctr v t).
Definition set_tcp_pcb_pool (v : list Z) (t : tcp_globals) : tcp_globals := ltac:(set_field eta_tcp_globals tcp_pcb_pool v t).
Definition set_tcp_listen_pool (v : list Z) (t : tcp_globals) : tcp_globals := ltac:(set_field eta_tcp_globals tcp_listen_pool v t).
Definition set_tcp_seg_pool (v : nat) (t : tcp_globals) : tcp_globals := ltac:(set_field eta_tcp_globals tcp_seg_pool v t).
Definition set_tcp_input_pcb (v : Z) (t : tcp_globals) : tcp_globals := ltac:(set_field eta_tcp_globals tcp_input_pcb v t).
Definition set_tcp_in_vars (v : tcp_in) (t : tcp_globals) : tcp_globals := ltac:(set_field eta_tcp_globals tcp_in_vars v t).
