(* ===== verification/Net.v ===== *)
(** * The state of the network layer

    What ip4.c, ip4_frag.c, icmp.c, udp.c, tcp.c and netif.c share: the headers they read
    and write in packet memory (lwip/src/include/lwip/prot/ip4.h), the statistics
    (stats.h) and the global variables.  The MIB2 counters of SNMP are not modelled.

    [W] is what lies outside: the network drivers with the link layer below, and the
    applications above. *)

From S2P Require Import Prelude Def Ip4Addr InetChksum Pbuf TcpData.

(** ** Definitions *)

(** *** Fields in memory *)

Definition rd16 (m : memory) (a : Z) : Z := le_val (rd m a 2).
Definition rd32 (m : memory) (a : Z) : Z := le_val (rd m a 4).
Definition wr8 (m : memory) (a v : Z) : memory := wr m a [u8 v].
Definition wr16 (m : memory) (a v : Z) : memory := wr m a (le_bytes 2 v).
Definition wr32 (m : memory) (a v : Z) : memory := wr m a (le_bytes 4 v).

Definition lwip_ntohs (x : Z) : Z := lwip_htons x.
Definition PP_NTOHS (x : Z) : Z := PP_HTONS x.

(** *** struct ip_hdr *)

Definition IP_HLEN : Z := 20.
Definition IP_RF : Z := 32768.
Definition IP_DF : Z := 16384.
Definition IP_MF : Z := 8192.
Definition IP_OFFMASK : Z := 8191.

Definition IPH_V (m : memory) (hdr : Z) : Z := Z.shiftr (rd8 m hdr) 4.
Definition IPH_HL (m : memory) (hdr : Z) : Z := Z.land (rd8 m hdr) 15.
Definition IPH_TOS (m : memory) (hdr : Z) : Z := rd8 m (hdr + 1).
Definition IPH_LEN (m : memory) (hdr : Z) : Z := rd16 m (hdr + 2).
Definition IPH_ID (m : memory) (hdr : Z) : Z := rd16 m (hdr + 4).
Definition IPH_OFFSET (m : memory) (hdr : Z) : Z := rd16 m (hdr + 6).
Definition IPH_TTL (m : memory) (hdr : Z) : Z := rd8 m (hdr + 8).
Definition IPH_PROTO (m : memory) (hdr : Z) : Z := rd8 m (hdr + 9).
Definition IPH_CHKSUM (m : memory) (hdr : Z) : Z := rd16 m (hdr + 10).
Definition iph_src (m : memory) (hdr : Z) : Z := rd32 m (hdr + 12).
Definition iph_dest (m : memory) (hdr : Z) : Z := rd32 m (hdr + 16).

Definition IPH_VHL_SET (m : memory) (hdr v hl : Z) : memory := wr8 m hdr (Z.lor (Z.shiftl v 4) hl).
Definition IPH_TOS_SET (m : memory) (hdr tos : Z) : memory := wr8 m (hdr + 1) tos.
Definition IPH_LEN_SET (m : memory) (hdr len : Z) : memory := wr16 m (hdr + 2) len.
Definition IPH_ID_SET (m : memory) (hdr id : Z) : memory := wr16 m (hdr + 4) id.
Definition IPH_OFFSET_SET (m : memory) (hdr off : Z) : memory := wr16 m (hdr + 6) off.
Definition IPH_TTL_SET (m : memory) (hdr ttl : Z) : memory := wr8 m (hdr + 8) ttl.
Definition IPH_PROTO_SET (m : memory) (hdr proto : Z) : memory := wr8 m (hdr + 9) proto.
Definition IPH_CHKSUM_SET (m : memory) (hdr chksum : Z) : memory := wr16 m (hdr + 10) chksum.
Definition iph_src_set (m : memory) (hdr addr : Z) : memory := wr32 m (hdr + 12) addr.
Definition iph_dest_set (m : memory) (hdr addr : Z) : memory := wr32 m (hdr + 16) addr.

Definition IP_PROTO_ICMP : Z := 1.
Definition IP_PROTO_IGMP : Z := 2.
Definition IP_PROTO_UDP : Z := 17.
Definition IP_PROTO_UDPLITE : Z := 136.
Definition IP_PROTO_TCP : Z := 6.

(** *** Addresses *)

Definition ip4_addr_isloopback (addr : Z) : bool :=
  Z.land addr (PP_HTONL 4278190080) =? PP_HTONL 2130706432.

Definition IPADDR_LOOPBACK : Z := 2130706433.

Definition NETIF_FLAG_UP : Z := 1.
Definition NETIF_FLAG_LINK_UP : Z := 4.
Definition NETIF_FLAG_IGMP : Z := 32.

Definition netif_is_up (nf : netif) : bool := negb (Z.land (netif_flags nf) NETIF_FLAG_UP =? 0).
Definition netif_is_link_up (nf : netif) : bool := negb (Z.land (netif_flags nf) NETIF_FLAG_LINK_UP =? 0).

Definition PBUF_FLAG_LLBCAST : Z := 8.
Definition PBUF_FLAG_LLMCAST : Z := 16.
Definition PBUF_FLAG_MCASTLOOP : Z := 4.

(** *** Statistics: 16-bit counters *)

Inductive proto := P_link | P_ip_frag | P_ip | P_icmp | P_igmp | P_udp | P_tcp.

Inductive counter :=
| c_xmit | c_recv | c_fw | c_drop | c_chkerr | c_lenerr | c_memerr | c_rterr | c_proterr | c_opterr | c_err
| c_cachehit
| c_rx_v1 | c_rx_group | c_rx_general | c_rx_report | c_tx_join | c_tx_leave | c_tx_report.

#[global] Instance proto_eq_dec : EqDecision proto.
Proof. solve_decision. Defined.
#[global] Instance counter_eq_dec : EqDecision counter.
Proof. solve_decision. Defined.

Definition stats_t : Type := proto -> counter -> Z.

(** [STATS_INC]. *)
Definition stats_inc (p : proto) (c : counter) (st : stats_t) : stats_t :=
  fun p' c' => if bool_decide (p' = p /\ c' = c) then u16 (st p c + 1) else st p' c'.

(** *** Global variables *)

(** [struct ip_globals]. *)
Record ip_globals := mk_globals {
  current_netif : Z;
  current_input_netif : Z;
  current_ip4_header : Z;
  current_ip_header_tot_len : Z;
  current_iphdr_src : Z;
  current_iphdr_dest : Z
}.

(** [struct ip_reassdata]; the header is a copy of its bytes. *)
Record ip_reassdata := mk_reass {
  reass_p : Z; reass_iphdr : list Z; datagram_len : Z; reass_flags : Z; timer : Z
}.

(** [struct udp_pcb]; the address of a receive function is a number, NULL for none. *)
Record udp_pcb := mk_udp {
  u_local_ip : Z; u_remote_ip : Z; u_so_options : Z; u_tos : Z; u_ttl : Z;
  u_flags : Z; u_local_port : Z; u_remote_port : Z;
  u_multicast_ip : Z; u_mcast_ttl : Z; u_chksum_len_rx : Z; u_chksum_len_tx : Z;
  u_recv : Z; u_recv_arg : Z
}.

(** The pcbs that exist, the list of the active ones, the last local port and the
    free elements of the pool MEMP_UDP_PCB. *)
Record udp_globals := mk_udp_globals {
  udp_heap : gmap Z udp_pcb; udp_pcbs : list Z; udp_port : Z; udp_pool : list Z
}.

(** [struct raw_pcb]. *)
Record raw_pcb := mk_raw {
  r_local_ip : Z; r_remote_ip : Z; r_so_options : Z; r_tos : Z; r_ttl : Z;
  r_protocol : Z; r_recv : Z; r_recv_arg : Z
}.

Record raw_globals := mk_raw_globals {
  raw_heap : gmap Z raw_pcb; raw_pcbs : list Z; raw_pool : list Z
}.

(** [struct igmp_group]. *)
Record igmp_group := mk_group {
  group_address : Z; last_reporter_flag : Z; group_state : Z; group_timer : Z; group_use : Z
}.

(** The list of groups of each interface ([netif_igmp_data]; the empty list is NULL)
    and the number of free elements of the pool MEMP_IGMP_GROUP; [igmp_rands]: the numbers
    that [LWIP_RAND] is going to return. *)
Record igmp_globals := mk_igmp_globals { igmp_data : gmap Z (list igmp_group); igmp_pool : nat; igmp_rands : nat -> Z }.

Record net (A W : Type) := mk_net {
  packets : Pbuf.state A;
  netifs : gmap Z netif;
  netif_list : list Z;
  netif_default : Z;
  netif_counter : Z;
  ip4_default_multicast_netif : Z;
  ip_id : Z;
  ip_data : ip_globals;
  reassdatagrams : list ip_reassdata;
  reassdata_pool : nat;
  ip_reass_pbufcount : Z;
  udp : udp_globals;
  raw : raw_globals;
  tcp : tcp_globals;
  igmp : igmp_globals;
  stats : stats_t;
  polls : list Z;
  world : W
}.
Arguments mk_net {A W} _ _ _ _ _ _ _ _ _ _ _ _ _ _ _ _ _ _.
Arguments packets {A W} _.
Arguments netifs {A W} _.
Arguments netif_list {A W} _.
Arguments netif_default {A W} _.
Arguments netif_counter {A W} _.
Arguments ip4_default_multicast_netif {A W} _.
Arguments ip_id {A W} _.
Arguments ip_data {A W} _.
Arguments reassdatagrams {A W} _.
Arguments reassdata_pool {A W} _.
Arguments ip_reass_pbufcount {A W} _.
Arguments udp {A W} _.
Arguments raw {A W} _.
Arguments tcp {A W} _.
Arguments igmp {A W} _.
Arguments stats {A W} _.
Arguments polls {A W} _.
Arguments world {A W} _.

Section Setters.
Context {A W : Type}.
Implicit Types n : net A W.

Definition with_packets (p : Pbuf.state A) n : net A W :=
  mk_net p (netifs n) (netif_list n) (netif_default n) (netif_counter n) (ip4_default_multicast_netif n)
    (ip_id n) (ip_data n) (reassdatagrams n) (reassdata_pool n) (ip_reass_pbufcount n) (udp n) (raw n) (tcp n)
    (igmp n) (stats n) (polls n) (world n).
Definition with_netifs (m : gmap Z netif) n : net A W :=
  mk_net (packets n) m (netif_list n) (netif_default n) (netif_counter n) (ip4_default_multicast_netif n)
    (ip_id n) (ip_data n) (reassdatagrams n) (reassdata_pool n) (ip_reass_pbufcount n) (udp n) (raw n) (tcp n)
    (igmp n) (stats n) (polls n) (world n).
Definition with_netif_list (l : list Z) n : net A W :=
  mk_net (packets n) (netifs n) l (netif_default n) (netif_counter n) (ip4_default_multicast_netif n) (ip_id n)
    (ip_data n) (reassdatagrams n) (reassdata_pool n) (ip_reass_pbufcount n) (udp n) (raw n) (tcp n) (igmp n)
    (stats n) (polls n) (world n).
Definition with_netif_default (nif : Z) n : net A W :=
  mk_net (packets n) (netifs n) (netif_list n) nif (netif_counter n) (ip4_default_multicast_netif n) (ip_id n)
    (ip_data n) (reassdatagrams n) (reassdata_pool n) (ip_reass_pbufcount n) (udp n) (raw n) (tcp n) (igmp n)
    (stats n) (polls n) (world n).
Definition with_netif_counter (v : Z) n : net A W :=
  mk_net (packets n) (netifs n) (netif_list n) (netif_default n) v (ip4_default_multicast_netif n) (ip_id n)
    (ip_data n) (reassdatagrams n) (reassdata_pool n) (ip_reass_pbufcount n) (udp n) (raw n) (tcp n) (igmp n)
    (stats n) (polls n) (world n).
Definition with_default_multicast_netif (nif : Z) n : net A W :=
  mk_net (packets n) (netifs n) (netif_list n) (netif_default n) (netif_counter n) nif (ip_id n) (ip_data n)
    (reassdatagrams n) (reassdata_pool n) (ip_reass_pbufcount n) (udp n) (raw n) (tcp n) (igmp n) (stats n)
    (polls n) (world n).
Definition with_ip_id (v : Z) n : net A W :=
  mk_net (packets n) (netifs n) (netif_list n) (netif_default n) (netif_counter n)
    (ip4_default_multicast_netif n) v (ip_data n) (reassdatagrams n) (reassdata_pool n) (ip_reass_pbufcount n)
    (udp n) (raw n) (tcp n) (igmp n) (stats n) (polls n) (world n).
Definition with_ip_data (v : ip_globals) n : net A W :=
  mk_net (packets n) (netifs n) (netif_list n) (netif_default n) (netif_counter n)
    (ip4_default_multicast_netif n) (ip_id n) v (reassdatagrams n) (reassdata_pool n) (ip_reass_pbufcount n)
    (udp n) (raw n) (tcp n) (igmp n) (stats n) (polls n) (world n).
Definition with_reass (l : list ip_reassdata) (pool : nat) (cnt : Z) n : net A W :=
  mk_net (packets n) (netifs n) (netif_list n) (netif_default n) (netif_counter n)
    (ip4_default_multicast_netif n) (ip_id n) (ip_data n) l pool cnt (udp n) (raw n) (tcp n) (igmp n) (stats n)
    (polls n) (world n).
Definition with_udp (u : udp_globals) n : net A W :=
  mk_net (packets n) (netifs n) (netif_list n) (netif_default n) (netif_counter n)
    (ip4_default_multicast_netif n) (ip_id n) (ip_data n) (reassdatagrams n) (reassdata_pool n)
    (ip_reass_pbufcount n) u (raw n) (tcp n) (igmp n) (stats n) (polls n) (world n).
Definition with_raw (r : raw_globals) n : net A W :=
  mk_net (packets n) (netifs n) (netif_list n) (netif_default n) (netif_counter n)
    (ip4_default_multicast_netif n) (ip_id n) (ip_data n) (reassdatagrams n) (reassdata_pool n)
    (ip_reass_pbufcount n) (udp n) r (tcp n) (igmp n) (stats n) (polls n) (world n).
Definition with_tcp (t : tcp_globals) n : net A W :=
  mk_net (packets n) (netifs n) (netif_list n) (netif_default n) (netif_counter n)
    (ip4_default_multicast_netif n) (ip_id n) (ip_data n) (reassdatagrams n) (reassdata_pool n)
    (ip_reass_pbufcount n) (udp n) (raw n) t (igmp n) (stats n) (polls n) (world n).
Definition with_igmp (g : igmp_globals) n : net A W :=
  mk_net (packets n) (netifs n) (netif_list n) (netif_default n) (netif_counter n)
    (ip4_default_multicast_netif n) (ip_id n) (ip_data n) (reassdatagrams n) (reassdata_pool n)
    (ip_reass_pbufcount n) (udp n) (raw n) (tcp n) g (stats n) (polls n) (world n).
Definition inc (p : proto) (c : counter) n : net A W :=
  mk_net (packets n) (netifs n) (netif_list n) (netif_default n) (netif_counter n)
    (ip4_default_multicast_netif n) (ip_id n) (ip_data n) (reassdatagrams n) (reassdata_pool n)
    (ip_reass_pbufcount n) (udp n) (raw n) (tcp n) (igmp n) (stats_inc p c (stats n)) (polls n) (world n).
Definition with_polls (l : list Z) n : net A W :=
  mk_net (packets n) (netifs n) (netif_list n) (netif_default n) (netif_counter n)
    (ip4_default_multicast_netif n) (ip_id n) (ip_data n) (reassdatagrams n) (reassdata_pool n)
    (ip_reass_pbufcount n) (udp n) (raw n) (tcp n) (igmp n) (stats n) l (world n).
Definition with_world (w : W) n : net A W :=
  mk_net (packets n) (netifs n) (netif_list n) (netif_default n) (netif_counter n)
    (ip4_default_multicast_netif n) (ip_id n) (ip_data n) (reassdatagrams n) (reassdata_pool n)
    (ip_reass_pbufcount n) (udp n) (raw n) (tcp n) (igmp n) (stats n) (polls n) w.

(** Packet memory. *)
Definition mem (n : net A W) : memory := bytes (packets n).
Definition with_mem (m : memory) n : net A W := with_packets (with_bytes m (packets n)) n.

(** [p->...]. *)
Definition pbuf_at n (p : Z) : res pbuf := deref (pbufs (packets n)) p.

(** [netif->...]. *)
Definition netif_at n (nif : Z) : res netif := deref (netifs n) nif.

(** The chain of pbufs as the checksum functions read it. *)
Definition view n (p : Z) : res InetChksum.chain_view :=
  chain_view (walk_fuel (pbufs (packets n))) (pbufs (packets n)) (mem n) p.

End Setters.

(** ** Lemmas: fields in memory *)

Lemma rd8_wr m a bs x :
  a <= x < a + Z.of_nat (length bs) -> rd8 (wr m a bs) x = nth (Z.to_nat (x - a)) bs 0.
Proof.
  intros Hx. pose proof (rd_wr_same m a bs) as E.
  apply (f_equal (fun l => l !! Z.to_nat (x - a))) in E.
  rewrite rd_lookup in E by lia. replace (a + Z.of_nat (Z.to_nat (x - a))) with x in E by lia.
  symmetry in E. apply (nth_lookup_Some _ _ 0) in E. congruence.
Qed.

Lemma wr_app m a bs1 bs2 : wr m a (bs1 ++ bs2) = wr (wr m a bs1) (a + Z.of_nat (length bs1)) bs2.
Proof.
  revert m a. induction bs1 as [|b bs1 IH]; intros m a; cbn [app wr length].
  - by rewrite Z.add_0_r.
  - rewrite IH. f_equal. lia.
Qed.

(** Memory that holds bytes. *)
Definition mem_ok (m : memory) : Prop := forall a, is_u8 (rd8 m a).

Lemma mem_ok_rd m a n : mem_ok m -> bytes_ok (rd m a n).
Proof. intros Hm. revert a. induction n as [|n IH]; intros a; constructor; [apply Hm|apply IH]. Qed.

Lemma mem_ok_wr m a bs : mem_ok m -> bytes_ok bs -> mem_ok (wr m a bs).
Proof.
  intros Hm Hbs x. destruct (decide (a <= x < a + Z.of_nat (length bs))) as [Hx|Hx].
  - rewrite rd8_wr by done. apply Forall_nth; [done|lia].
  - rewrite wr_outside by lia. apply Hm.
Qed.

Lemma bytes_ok_u8 v : bytes_ok [u8 v].
Proof. repeat constructor; apply u8_range. Qed.

Lemma mem_ok_wr8 m a v : mem_ok m -> mem_ok (wr8 m a v).
Proof. intros. apply mem_ok_wr; [done|apply bytes_ok_u8]. Qed.
Lemma mem_ok_wr16 m a v : mem_ok m -> mem_ok (wr16 m a v).
Proof. intros. apply mem_ok_wr; [done|apply le_bytes_ok]. Qed.
Lemma mem_ok_wr32 m a v : mem_ok m -> mem_ok (wr32 m a v).
Proof. intros. apply mem_ok_wr; [done|apply le_bytes_ok]. Qed.

#[export] Hint Resolve mem_ok_rd mem_ok_wr mem_ok_wr8 mem_ok_wr16 mem_ok_wr32 bytes_ok_u8 le_bytes_ok : lwip.

Lemma rd16_range m a : mem_ok m -> is_u16 (rd16 m a).
Proof. intros Hm. pose proof (le_val_range _ (mem_ok_rd m a 2 Hm)) as Hr. rewrite length_rd in Hr. exact Hr. Qed.
Lemma rd32_range m a : mem_ok m -> is_u32 (rd32 m a).
Proof. intros Hm. pose proof (le_val_range _ (mem_ok_rd m a 4 Hm)) as Hr. rewrite length_rd in Hr. exact Hr. Qed.

Lemma rd16_wr16 m a v : is_u16 v -> rd16 (wr16 m a v) a = v.
Proof.
  intros Hv. unfold rd16, wr16. replace 2%nat with (length (le_bytes 2 v)) at 2 by apply length_le_bytes.
  rewrite rd_wr_same. by apply le_val_two.
Qed.
Lemma rd32_wr32 m a v : is_u32 v -> rd32 (wr32 m a v) a = v.
Proof.
  intros Hv. unfold rd32, wr32. replace 4%nat with (length (le_bytes 4 v)) at 2 by apply length_le_bytes.
  rewrite rd_wr_same. apply le_val_bytes. exact Hv.
Qed.

(** Reading apart from what was written. *)
Lemma rd16_apart m a bs x :
  (x + 2 <= a \/ a + Z.of_nat (length bs) <= x) -> rd16 (wr m a bs) x = rd16 m x.
Proof. intros. unfold rd16. by rewrite rd_wr_apart by lia. Qed.
Lemma rd32_apart m a bs x :
  (x + 4 <= a \/ a + Z.of_nat (length bs) <= x) -> rd32 (wr m a bs) x = rd32 m x.
Proof. intros. unfold rd32. by rewrite rd_wr_apart by lia. Qed.

Lemma mem_ok_cdata m bl : mem_ok m -> bytes_ok (cdata m bl).
Proof.
  intros Hm. induction bl as [|[x c] bl IH]; [constructor|]. rewrite cdata_cons. apply bytes_ok_app.
  split; [by apply mem_ok_rd|done].
Qed.

#[export] Hint Resolve mem_ok_cdata : lwip.

(** The bytes of a word in memory. *)
Lemma le_bytes_val bs : bytes_ok bs -> le_bytes (length bs) (le_val bs) = bs.
Proof.
  induction 1 as [|b bs Hb _ IH]; cbn [length le_bytes le_val]; [done|]. unfold is_u8 in Hb.
  replace ((b + 256 * le_val bs) mod 256) with b by zlia.
  replace ((b + 256 * le_val bs) / 256) with (le_val bs) by zlia. by rewrite IH.
Qed.

Lemma rd16_bytes m a : mem_ok m -> rd m a 2 = le_bytes 2 (rd16 m a).
Proof. intros Hm. pose proof (le_bytes_val _ (mem_ok_rd m a 2 Hm)) as E. by rewrite length_rd in E. Qed.
Lemma rd32_bytes m a : mem_ok m -> rd m a 4 = le_bytes 4 (rd32 m a).
Proof. intros Hm. pose proof (le_bytes_val _ (mem_ok_rd m a 4 Hm)) as E. by rewrite length_rd in E. Qed.

(** Evaluate reads of single bytes after writes at constant distances. *)
Ltac rd8_solve :=
  repeat match goal with
  | |- context [rd8 (wr ?m ?a ?bs) ?x] =>
      first
        [ rewrite (wr_outside m a bs x) by (cbn [length le_bytes]; lia)
        | rewrite (rd8_wr m a bs x) by (cbn [length le_bytes]; lia);
          first [ replace (Z.to_nat (x - a)) with 0%nat by lia | replace (Z.to_nat (x - a)) with 1%nat by lia
                | replace (Z.to_nat (x - a)) with 2%nat by lia | replace (Z.to_nat (x - a)) with 3%nat by lia ];
          cbn [nth le_bytes] ]
  end.

(** ** The IPv4 header as bytes *)

(** A 16-bit value in network byte order. *)
Definition be16 (x : Z) : list Z := [x / 256; x mod 256].

Definition ip_front (hl tos len id off ttl proto : Z) : list Z :=
  [64 + hl; tos] ++ be16 len ++ be16 id ++ be16 off ++ [ttl; proto].

(** The header of a packet with the options [opts] behind it; its checksum covers
    both. *)
Definition ip_header (hl tos len id off ttl proto src dest : Z) (opts : list Z) : list Z :=
  let front := ip_front hl tos len id off ttl proto in
  let addrs := le_bytes 4 src ++ le_bytes 4 dest in
  front ++ le_bytes 2 (internet_checksum (front ++ [0; 0] ++ addrs ++ opts)) ++ addrs.

Lemma bytes_ok_front hl tos len id off ttl proto :
  0 <= hl < 16 -> is_u8 tos -> is_u16 len -> is_u16 id -> is_u16 off -> is_u8 ttl -> is_u8 proto ->
  bytes_ok (ip_front hl tos len id off ttl proto).
Proof. unfold is_u8, is_u16. intros. repeat constructor; unfold is_u8; zlia. Qed.

(** Such a header verifies. *)
Lemma ip_header_verifies hl tos len id off ttl proto src dest opts :
  0 <= hl < 16 -> is_u8 tos -> is_u16 len -> is_u16 id -> is_u16 off -> is_u8 ttl -> is_u8 proto -> bytes_ok opts ->
  internet_checksum (ip_header hl tos len id off ttl proto src dest opts ++ opts) = 0.
Proof.
  intros. unfold ip_header. cbv zeta. rewrite <- !app_assoc. rewrite (app_assoc (le_bytes 4 src) (le_bytes 4 dest) opts).
  apply internet_checksum_verifies; [by apply bytes_ok_front| |done].
  rewrite !bytes_ok_app. split_and!; [apply le_bytes_ok..|done].
Qed.

(** The sum of the words of such a header without its checksum. *)
Lemma word_sum_front hl tos len id off ttl proto rest :
  word_sum (ip_front hl tos len id off ttl proto ++ rest)
  = (64 + hl) + 256 * tos + (len / 256 + 256 * (len mod 256)) + (id / 256 + 256 * (id mod 256))
    + (off / 256 + 256 * (off mod 256)) + (ttl + 256 * proto) + word_sum rest.
Proof. unfold ip_front, be16. cbn [app word_sum]. lia. Qed.

Lemma word_sum_u32 a rest :
  is_u32 a -> word_sum (le_bytes 4 a ++ rest) = a mod 65536 + a / 65536 + word_sum rest.
Proof.
  intros Ha. unfold is_u32 in Ha. cbn [le_bytes app word_sum].
  replace (a / 256 / 256 / 256) with (a / 16777216) by (rewrite !Z.div_div by lia; done).
  replace (a / 256 / 256) with (a / 65536) by (rewrite !Z.div_div by lia; done).
  enough (a mod 256 + 256 * ((a / 256) mod 256) = a mod 65536 /\
          (a / 65536) mod 256 + 256 * ((a / 16777216) mod 256) = a / 65536) by lia.
  split; zlia.
Qed.

Lemma htons_word x : is_u16 x -> lwip_htons x = x / 256 + 256 * (x mod 256).
Proof. intros Hx. rewrite lwip_htons_arith. unfold is_u16 in Hx. zlia. Qed.

(** The bytes of a word that is stored in network byte order. *)
Lemma be_word x :
  is_u16 x -> (x / 256 + 256 * (x mod 256)) mod 256 = x / 256
              /\ ((x / 256 + 256 * (x mod 256)) / 256) mod 256 = x mod 256.
Proof. unfold is_u16. intros. split; zlia. Qed.

Lemma ntohs_pair a b : is_u8 a -> is_u8 b -> PP_NTOHS (Z.lor b (Z.shiftl a 8)) = a + 256 * b.
Proof.
  unfold is_u8. intros Ha Hb. unfold PP_NTOHS. rewrite PP_HTONS_arith, Z.lor_comm, Z.shiftl_mul_pow2 by lia.
  rewrite lor_disjoint by lia. change (2 ^ 8) with 256. zlia.
Qed.

(** The checksum from a sum of words: two folds and the complement. *)
Lemma fold_inline s :
  0 <= s < 4294901760 ->
  u16 (not32 (u32 (Z.shiftr (u32 (Z.shiftr s 16 + Z.land s 65535)) 16 + u32 (Z.shiftr s 16 + Z.land s 65535))))
  = 65535 - oc s.
Proof.
  intros Hs. rewrite land_65535, !Z.shiftr_div_pow2 by lia. change (2 ^ 16) with 65536.
  rewrite (u32_id (s / 65536 + s mod 65536)) by (unfold is_u32; zlia).
  set (c := s / 65536 + s mod 65536). assert (Hc : 0 <= c <= 131069) by (subst c; zlia).
  rewrite (u32_id (c / 65536 + c)) by (unfold is_u32; zlia).
  assert (E : oc s = oc c).
  { apply oc_proper. subst c. unfold oceq. split_and!; [lia|zlia| |zlia].
    rewrite (Z.div_mod s 65536) at 1 by lia. replace (65536 * (s / 65536) + s mod 65536)
      with (s / 65536 + s mod 65536 + s / 65536 * 65535) by lia. by rewrite Z.mod_add by lia. }
  rewrite E. unfold not32, u32, u16, Z.lnot, oc. zcases; zlia.
Qed.

Lemma word_sum_range bs : bytes_ok bs -> 0 <= word_sum bs <= 65535 * Z.of_nat (S (length bs) / 2).
Proof.
  induction bs as [|a|a b bs IH] using list_pair_ind; intros H.
  - done.
  - inversion_clear H. unfold is_u8 in *. cbn [word_sum length]. change (Z.of_nat (2 / 2)) with 1. lia.
  - inversion_clear H as [|? ? Ha H']. inversion_clear H' as [|? ? Hb H]. unfold is_u8 in *.
    specialize (IH H). cbn [word_sum length].
    replace (S (S (S (length bs))) / 2)%nat with (S (S (length bs) / 2)).
    + lia.
    + replace (S (S (S (length bs)))) with (S (length bs) + 1 * 2)%nat by lia. rewrite Nat.div_add by lia. lia.
Qed.
