(* ===== verification/Ip4.v ===== *)
(** * IPv4 output: lwip/src/core/ipv4/ip4.c, ip4_frag.c, loopback of lwip/src/core/netif.c

    Routing, the construction of headers, fragmentation and loopback, in the
    configuration of the port: no routing hooks, LWIP_MULTICAST_TX_OPTIONS 1,
    IP_OPTIONS_SEND 1, the header checksum computed inline, LWIP_NETIF_LOOPBACK 1
    without a loopback interface, LWIP_NETIF_TX_SINGLE_PBUF 0. *)

From S2P Require Import Prelude Def Ip4Addr InetChksum Pbuf PbufData PbufAlloc PbufOps TcpData Net.

(** ** Definitions *)

Definition LWIP_LOOPBACK_MAX_PBUFS : Z := 10.

(** The pool MEMP_FRAG_PBUF of [struct pbuf_custom_ref]s and their [original] field. *)
Class FragPool (A : Type) := {
  ip_frag_alloc_pbuf_custom_ref : A -> res (Z * A);
  memp_free_frag : A -> Z -> res A;
  original : A -> Z -> Z;
  set_original : A -> Z -> Z -> A
}.

(** The address of [ipfrag_free_pbuf_custom]. *)
Definition ipfrag_free_fn : Z := 1.

Section FragFree.
Context {A : Type} `{AllocOps A} `{FragPool A}.
Variable custom_free : Z -> Z -> Pbuf.state A -> res (Pbuf.state A).

Definition ip_frag_free_pbuf_custom_ref (s : Pbuf.state A) (p : Z) : res (Pbuf.state A) :=
  assert* negb (p =? NULL) in
  let* a := memp_free_frag (alloc s) p in
  Ok (with_alloc a (with_pbufs (delete p (pbufs s)) s)).

(** The free function of the references that [ip4_frag] makes. *)
Definition ipfrag_free_pbuf_custom (s : Pbuf.state A) (p : Z) : res (Pbuf.state A) :=
  assert* negb (p =? NULL) in
  let o := original (alloc s) p in
  let* s := if negb (o =? NULL) then let* (_, s) := pbuf_free custom_free s o in Ok s else Ok s in
  ip_frag_free_pbuf_custom_ref s p.

End FragFree.

Section Ip4.
Context {A W : Type} `{AllocOps A} `{FragPool A}.
Variable stale_flags : Z -> Z.
Variable custom_free : Z -> Z -> Pbuf.state A -> res (Pbuf.state A).
Variable callback_ok : bool.

(** [netif->output]. *)
Variable netif_output : net A W -> Z -> Z -> Z -> res (err_t * net A W).

Implicit Types n : net A W.

(** *** The operations on packets, on the whole state *)

Definition on_packets {X} (f : Pbuf.state A -> res (X * Pbuf.state A)) n : res (X * net A W) :=
  let* (x, s) := f (packets n) in Ok (x, with_packets s n).

Definition free n (p : Z) : res (net A W) :=
  let* (_, n) := on_packets (fun s => pbuf_free custom_free s p) n in Ok n.
Definition alloc_pbuf n (layer : pbuf_layer) (length : Z) (type : pbuf_type) : res (Z * net A W) :=
  on_packets (fun s => pbuf_alloc stale_flags custom_free callback_ok s layer length type) n.
Definition header n (p inc : Z) : res (bool * net A W) := on_packets (fun s => pbuf_header s p inc) n.
Definition header_force n (p inc : Z) : res (bool * net A W) :=
  on_packets (fun s => pbuf_header_force s p inc) n.

(** *** ip4_route *)

(** The loop over [netif_list]. *)
Fixpoint route_walk n (l : list Z) (dest : Z) : res Z :=
  match l with
  | [] => Ok NULL
  | nif :: l' =>
      let* nf := netif_at n nif in
      if netif_is_up nf && netif_is_link_up nf && negb (ip4_addr_isany_val (netif_ip4_addr nf)) then
        if ip4_addr_netcmp dest (netif_ip4_addr nf) (netif_ip4_netmask nf) then Ok nif
        else if (Z.land (netif_flags nf) NETIF_FLAG_BROADCAST =? 0) && (dest =? netif_ip4_gw nf) then Ok nif
        else route_walk n l' dest
      else route_walk n l' dest
  end.

(** The loop for loopback traffic: the first interface that is up. *)
Fixpoint first_up n (l : list Z) : res Z :=
  match l with
  | [] => Ok NULL
  | nif :: l' => let* nf := netif_at n nif in if netif_is_up nf then Ok nif else first_up n l'
  end.

Definition ip4_route n (dest : Z) : res (Z * net A W) :=
  if ip4_addr_ismulticast dest && negb (ip4_default_multicast_netif n =? NULL)
  then Ok (ip4_default_multicast_netif n, n)
  else
    let* r := route_walk n (netif_list n) dest in
    if negb (r =? NULL) then Ok (r, n)
    else if ip4_addr_isloopback dest then
      let* up := if netif_default n =? NULL then Ok false
                 else let* nf := netif_at n (netif_default n) in Ok (netif_is_up nf) in
      if (up : bool) then Ok (netif_default n, n)
      else let* r := first_up n (netif_list n) in Ok (r, n)
    else
      let* usable := if netif_default n =? NULL then Ok false
                     else let* nf := netif_at n (netif_default n) in
                          Ok (netif_is_up nf && netif_is_link_up nf
                              && negb (ip4_addr_isany_val (netif_ip4_addr nf))) in
      if (usable : bool) then Ok (netif_default n, n) else Ok (NULL, inc P_ip c_rterr n).

(** *** Loopback *)

Definition set_loop (first last cnt : Z) (nf : netif) : netif :=
  mk_netif (netif_ip4_addr nf) (netif_ip4_netmask nf) (netif_ip4_gw nf) (netif_flags nf) (netif_hwaddr nf)
    (netif_mtu nf) (netif_name nf) (netif_num nf) first last cnt.

Definition upd_netif n (nif : Z) (f : netif -> netif) : res (net A W) :=
  let* nf := netif_at n nif in Ok (with_netifs (<[nif := f nf]> (netifs n)) n).

(** The last pbuf of the chain. *)
Fixpoint last_pbuf (fuel : nat) (h : heap) (p : Z) : res Z :=
  match fuel with
  | O => Fault FFuel
  | S fuel' => let* b := deref h p in if negb (next b =? NULL) then last_pbuf fuel' h (next b) else Ok p
  end.

Definition netif_loop_output n (nif p : Z) : res (err_t * net A W) :=
  let* b := pbuf_at n p in
  let* (r, n) := alloc_pbuf n PBUF_LINK (tot_len b) PBUF_RAM in
  if r =? NULL then Ok (ERR_MEM, inc P_link c_drop (inc P_link c_memerr n))
  else
    let* clen := pbuf_clen (packets n) r in
    let* nf := netif_at n nif in
    let cnt := loop_cnt_current nf + clen in
    if (cnt <? loop_cnt_current nf) || (LWIP_LOOPBACK_MAX_PBUFS <? cnt) then
      let* n := free n r in Ok (ERR_MEM, inc P_link c_drop (inc P_link c_memerr n))
    else
      let* n := upd_netif n nif (set_loop (loop_first nf) (loop_last nf) (u16 cnt)) in
      let* (err, n) := on_packets (fun s => pbuf_copy s r p) n in
      if negb (bool_decide (err = ERR_OK)) then
        let* n := free n r in Ok (err, inc P_link c_drop (inc P_link c_memerr n))
      else
        let* last := last_pbuf (walk_fuel (pbufs (packets n))) (pbufs (packets n)) r in
        let* nf := netif_at n nif in
        let* n :=
          if negb (loop_first nf =? NULL) then
            assert* negb (loop_last nf =? NULL) in
            let* s := upd (packets n) (loop_last nf) (with_next r) in
            upd_netif (with_packets s n) nif (set_loop (loop_first nf) last (loop_cnt_current nf))
          else upd_netif n nif (set_loop r last (loop_cnt_current nf)) in
        let n := inc P_link c_xmit n in
        Ok (ERR_OK, if callback_ok then with_polls (polls n ++ [nif]) n else n).

(** *** ip4_frag *)

(** The inner loop: references to [left_to_copy] bytes from offset [poff] of [p] on
    are chained behind [rambuf].  The new values of [p], [poff] and [newpbuflen]; [None]
    is [goto memerr]. *)
Fixpoint mirror (fuel : nat) n (rambuf p poff newpbuflen left_to_copy : Z)
    : res (option (Z * Z * Z) * net A W) :=
  if left_to_copy =? 0 then Ok (Some (p, poff, newpbuflen), n)
  else
    match fuel with
    | O => Fault FFuel
    | S fuel' =>
        let* b := pbuf_at n p in
        let plen := u16 (len b - poff) in
        let newpbuflen := Z.min left_to_copy plen in
        if newpbuflen =? 0 then mirror fuel' n rambuf (next b) 0 newpbuflen left_to_copy
        else
          let* (pcr, a) := ip_frag_alloc_pbuf_custom_ref (alloc (packets n)) in
          let n := with_packets (with_alloc a (packets n)) n in
          if pcr =? NULL then let* n := free n rambuf in Ok (None, n)
          else
            let* (newpbuf, n) :=
              on_packets (fun s => pbuf_alloced_custom s PBUF_RAW newpbuflen PBUF_REF pcr (payload b + poff) newpbuflen) n in
            if newpbuf =? NULL then
              let* s := ip_frag_free_pbuf_custom_ref (packets n) pcr in
              let* n := free (with_packets s n) rambuf in Ok (None, n)
            else
              let* s := pbuf_ref (packets n) p in
              let s := with_alloc (set_original (alloc s) pcr p) s in
              let s := Pbuf.mk_state (pbufs s) (bytes s) (<[pcr := ipfrag_free_fn]> (custom_free_function s)) (alloc s)
                         (pbuf_free_ooseq_pending s) (callbacks s) in
              let* s := pbuf_cat s rambuf newpbuf in
              let n := with_packets s n in
              let left_to_copy := u16 (left_to_copy - newpbuflen) in
              let '(p, poff) := if left_to_copy =? 0 then (p, poff) else (next b, 0) in
              mirror fuel' n rambuf p poff newpbuflen left_to_copy
    end.

(** The header of a fragment: offset [ofo] and the flag MF, length and checksum. *)
Definition frag_header (m : memory) (iphdr ofo fragsize : Z) (last : bool) : memory :=
  let tmp := Z.land IP_OFFMASK ofo in
  let tmp := if last then tmp else Z.lor tmp IP_MF in
  let m := IPH_OFFSET_SET m iphdr (lwip_htons tmp) in
  let m := IPH_LEN_SET m iphdr (lwip_htons (u16 (fragsize + IP_HLEN))) in
  let m := IPH_CHKSUM_SET m iphdr 0 in
  IPH_CHKSUM_SET m iphdr (inet_chksum iphdr (rd m iphdr (Z.to_nat IP_HLEN))).

(** The outer loop.  [fuel] bounds the number of fragments. *)
Fixpoint frag_loop (fuel : nat) n (p nif dest original_iphdr nfb poff ofo left newpbuflen : Z)
    : res (err_t * net A W) :=
  if left =? 0 then Ok (ERR_OK, n)
  else
    match fuel with
    | O => Fault FFuel
    | S fuel' =>
        let fragsize := u16 (Z.min left (nfb * 8)) in
        let* (rambuf, n) := alloc_pbuf n PBUF_LINK IP_HLEN PBUF_RAM in
        if rambuf =? NULL then Ok (ERR_MEM, n)
        else
          let* b := pbuf_at n p in
          assert* (IP_HLEN <=? len b) in
          let* rb := pbuf_at n rambuf in
          let iphdr := payload rb in
          let n := with_mem (wr (mem n) iphdr (rd (mem n) original_iphdr (Z.to_nat IP_HLEN))) n in
          let* (r, n) := mirror (Z.to_nat fragsize + walk_fuel (pbufs (packets n))) n rambuf p poff newpbuflen fragsize in
          match r with
          | None => Ok (ERR_MEM, n)
          | Some (p, poff, newpbuflen) =>
              let poff := u16 (poff + newpbuflen) in
              let* nf := netif_at n nif in
              let last := left <=? netif_mtu nf - IP_HLEN in
              let n := with_mem (frag_header (mem n) iphdr ofo fragsize last) n in
              let* (_, n) := netif_output n nif rambuf dest in
              let n := inc P_ip_frag c_xmit n in
              let* n := free n rambuf in
              frag_loop fuel' n p nif dest original_iphdr nfb poff (u16 (ofo + nfb)) (u16 (left - fragsize)) newpbuflen
          end
    end.

(** A fragment takes at least a byte, unless the interface has no room for any. *)
Definition ip4_frag n (p nif dest : Z) : res (err_t * net A W) :=
  let* nf := netif_at n nif in
  let nfb := u16 (Z.quot (netif_mtu nf - IP_HLEN) 8) in
  let* b := pbuf_at n p in
  let original_iphdr := payload b in
  if negb (IPH_HL (mem n) original_iphdr * 4 =? IP_HLEN) then Ok (ERR_VAL, n)
  else
    let tmp := lwip_ntohs (IPH_OFFSET (mem n) original_iphdr) in
    let ofo := Z.land tmp IP_OFFMASK in
    if negb (Z.land tmp IP_MF =? 0) then Ok (ERR_VAL, n)
    else
      let left := u16 (tot_len b - IP_HLEN) in
      frag_loop (Z.to_nat left) n p nif dest original_iphdr nfb IP_HLEN ofo left 0.

(** *** ip4_output *)

(** The sum of the 16-bit words of the options. *)
Fixpoint sum_options (k : nat) (m : memory) (a chk_sum : Z) : Z :=
  match k with
  | O => chk_sum
  | S k' => sum_options k' m (a + 2) (u32 (chk_sum + rd16 m a))
  end.

(** The options in front of the data; [None] is ERR_BUF. *)
Definition write_options n (p : Z) (ip_options : list Z) : res (option (Z * Z) * net A W) :=
  let optlen := Z.of_nat (length ip_options) in
  if optlen =? 0 then Ok (Some (IP_HLEN, 0), n)
  else
    let optlen_aligned := u16 (Z.land (optlen + 3) (Z.lnot 3)) in
    let ip_hlen := u16 (IP_HLEN + optlen_aligned) in
    let* (failed, n) := header n p (s16 optlen_aligned) in
    if (failed : bool) then Ok (None, inc P_ip c_err n)
    else
      let* b := pbuf_at n p in
      let m := wr (mem n) (payload b) ip_options in
      let m := wr m (payload b + optlen) (replicate (Z.to_nat (optlen_aligned - optlen)) 0) in
      let n := with_mem m n in
      Ok (Some (ip_hlen, sum_options (Z.to_nat (optlen_aligned / 2)) (mem n) (payload b) 0), n).

(** Fill in the header at [iphdr]; [chk_sum] is the sum over the options. *)
Definition fill_header n (iphdr tot_len ip_hlen chk_sum : Z) (src : option Z) (dest ttl tos proto : Z)
    : net A W :=
  let m := IPH_TTL_SET (mem n) iphdr ttl in
  let m := IPH_PROTO_SET m iphdr proto in
  let chk_sum := u32 (chk_sum + PP_NTOHS (Z.lor proto (Z.shiftl ttl 8))) in
  let m := iph_dest_set m iphdr dest in
  let chk_sum := u32 (chk_sum + Z.land (iph_dest m iphdr) 65535) in
  let chk_sum := u32 (chk_sum + Z.shiftr (iph_dest m iphdr) 16) in
  let m := IPH_VHL_SET m iphdr 4 (ip_hlen / 4) in
  let m := IPH_TOS_SET m iphdr tos in
  let chk_sum := u32 (chk_sum + PP_NTOHS (Z.lor tos (Z.shiftl (rd8 m iphdr) 8))) in
  let m := IPH_LEN_SET m iphdr (lwip_htons tot_len) in
  let chk_sum := u32 (chk_sum + IPH_LEN m iphdr) in
  let m := IPH_OFFSET_SET m iphdr 0 in
  let m := IPH_ID_SET m iphdr (lwip_htons (ip_id n)) in
  let chk_sum := u32 (chk_sum + IPH_ID m iphdr) in
  let n := with_ip_id (u16 (ip_id n + 1)) n in
  let m := iph_src_set m iphdr (default IPADDR_ANY src) in
  let chk_sum := u32 (chk_sum + Z.land (iph_src m iphdr) 65535) in
  let chk_sum := u32 (chk_sum + Z.shiftr (iph_src m iphdr) 16) in
  let chk_sum := u32 (Z.shiftr chk_sum 16 + Z.land chk_sum 65535) in
  let chk_sum := u32 (Z.shiftr chk_sum 16 + chk_sum) in
  let chk_sum := not32 chk_sum in
  with_mem (IPH_CHKSUM_SET m iphdr (u16 chk_sum)) n.

(** The end of [ip4_output_if_opt_src]: loopback, fragmentation or transmission. *)
Definition send_on n (p dest nif : Z) : res (err_t * net A W) :=
  let n := inc P_ip c_xmit n in
  let* nf := netif_at n nif in
  if (dest =? netif_ip4_addr nf) || ip4_addr_isloopback dest then netif_loop_output n nif p
  else
    let* b := pbuf_at n p in
    let* n := if negb (Z.land (flags b) PBUF_FLAG_MCASTLOOP =? 0)
              then let* (_, n) := netif_loop_output n nif p in Ok n else Ok n in
    let* nf := netif_at n nif in
    let* b := pbuf_at n p in
    if negb (netif_mtu nf =? 0) && (netif_mtu nf <? tot_len b) then ip4_frag n p nif dest
    else netif_output n nif p dest.

(** [dest] None is LWIP_IP_HDRINCL, [src] None is NULL. *)
Definition ip4_output_if_opt_src n (p : Z) (src dest : option Z) (ttl tos proto nif : Z) (ip_options : list Z)
    : res (err_t * net A W) :=
  let* b := pbuf_at n p in
  assert* (ref b =? 1) in
  match dest with
  | Some dest =>
      let* (o, n) := write_options n p ip_options in
      match o with
      | None => Ok (ERR_BUF, n)
      | Some (ip_hlen, chk_sum) =>
          let* (failed, n) := header n p IP_HLEN in
          if (failed : bool) then Ok (ERR_BUF, inc P_ip c_err n)
          else
            let* b := pbuf_at n p in
            assert* (IP_HLEN <=? len b) in
            let n := fill_header n (payload b) (tot_len b) ip_hlen chk_sum src dest ttl tos proto in
            send_on n p dest nif
      end
  | None =>
      let* b := pbuf_at n p in
      send_on n p (iph_dest (mem n) (payload b)) nif
  end.

Definition ip4_output_if_src n (p : Z) (src dest : option Z) (ttl tos proto nif : Z) : res (err_t * net A W) :=
  ip4_output_if_opt_src n p src dest ttl tos proto nif [].

Definition ip4_addr_isany_ptr (a : option Z) : bool :=
  match a with
  | Some a => ip4_addr_isany_val a
  | None => true
  end.

Definition ip4_output_if_opt n (p : Z) (src dest : option Z) (ttl tos proto nif : Z) (ip_options : list Z)
    : res (err_t * net A W) :=
  let* src_used :=
    match dest with
    | Some _ => if ip4_addr_isany_ptr src then let* nf := netif_at n nif in Ok (Some (netif_ip4_addr nf)) else Ok src
    | None => Ok src
    end in
  ip4_output_if_opt_src n p src_used dest ttl tos proto nif ip_options.

Definition ip4_output_if n (p : Z) (src dest : option Z) (ttl tos proto nif : Z) : res (err_t * net A W) :=
  ip4_output_if_opt n p src dest ttl tos proto nif [].

(** [ip4_route_src] is [ip4_route] without the hook. *)
Definition ip4_output n (p : Z) (src : option Z) (dest ttl tos proto : Z) : res (err_t * net A W) :=
  let* b := pbuf_at n p in
  assert* (ref b =? 1) in
  let* (nif, n) := ip4_route n dest in
  if nif =? NULL then Ok (ERR_RTE, inc P_ip c_rterr n)
  else ip4_output_if n p src (Some dest) ttl tos proto nif.

End Ip4.

(** ** The header that is sent *)

Section Header.
Context {A W : Type}.
Implicit Types n : net A W.

(** The header is the one of the arguments, with the next identification, and only
    its 20 bytes are written. *)
Lemma fill_header_spec n iphdr tl hlen src dest ttl tos proto opts :
  is_u16 tl -> is_u16 (ip_id n) -> is_u8 ttl -> is_u8 tos -> is_u8 proto -> is_u32 dest -> is_u32 (default 0 src) ->
  bytes_ok opts -> (length opts <= 40)%nat -> 0 <= hlen / 4 < 16 ->
  exists m', fill_header n iphdr tl hlen (word_sum opts) src dest ttl tos proto
      = with_ip_id (u16 (ip_id n + 1)) (with_mem m' n)
    /\ rd m' iphdr 20 = ip_header (hlen / 4) tos tl (ip_id n) 0 ttl proto (default 0 src) dest opts
    /\ (forall x, (x < iphdr \/ iphdr + 20 <= x) -> rd8 m' x = rd8 (mem n) x)
    /\ (mem_ok (mem n) -> mem_ok m').
Proof.
  intros Htl Hid Httl Htos Hproto Hdest Hsrc Hopts Hlen Hhl.
  assert (Hvhl : u8 (Z.lor (Z.shiftl 4 4) (hlen / 4)) = 64 + hlen / 4).
  { change (Z.shiftl 4 4) with (4 * 2 ^ 4). rewrite lor_disjoint by lia. apply u8_id. unfold is_u8. lia. }
  pose proof (lwip_htons_range tl) as Htl2. pose proof (lwip_htons_range (ip_id n)) as Hid2.
  unfold fill_header, iph_dest, iph_dest_set, IPH_LEN, IPH_LEN_SET, IPH_ID, IPH_ID_SET, iph_src, iph_src_set, IPADDR_ANY.
  cbv zeta. rewrite !rd32_wr32, !rd16_wr16, !(ntohs_pair ttl proto) by done.
  match goal with |- context [rd8 ?m iphdr] => assert (E : rd8 m iphdr = 64 + hlen / 4) end.
  { unfold IPH_TOS_SET, IPH_VHL_SET, wr8. rd8_solve. exact Hvhl. }
  rewrite E, (ntohs_pair (64 + hlen / 4) tos) by (done || unfold is_u8; lia). clear E.
  rewrite !htons_word by done. rewrite (land_65535 dest), (land_65535 (default 0 src)), !(Z.shiftr_div_pow2 dest), !(Z.shiftr_div_pow2 (default 0 src)) by lia.
  change (2 ^ 16) with 65536. set (sa := default 0 src) in *. clearbody sa.
  set (hdr0 := ip_front (hlen / 4) tos tl (ip_id n) 0 ttl proto ++ [0; 0] ++ (le_bytes 4 sa ++ le_bytes 4 dest) ++ opts).
  pose proof (word_sum_range _ Hopts) as Hws.
  assert (Hws' : 65535 * Z.of_nat (S (length opts) / 2) <= 65535 * 20).
  { assert (S (length opts) / 2 <= 41 / 2)%nat by (apply Nat.Div0.div_le_mono; lia). change (41 / 2)%nat with 20%nat in *. lia. }
  assert (Ehdr : word_sum hdr0 = 64 + hlen / 4 + 256 * tos + (tl / 256 + 256 * (tl mod 256))
    + (ip_id n / 256 + 256 * (ip_id n mod 256)) + (ttl + 256 * proto) + (sa mod 65536 + sa / 65536)
    + (dest mod 65536 + dest / 65536) + word_sum opts).
  { subst hdr0. rewrite word_sum_front. cbn [app word_sum]. rewrite <- app_assoc, !word_sum_u32 by done.
    change (0 / 256) with 0. change (0 mod 256) with 0. lia. }
  unfold is_u8, is_u16, is_u32 in *.
  assert (0 <= sa mod 65536 < 65536 /\ 0 <= sa / 65536 < 65536) by zlia.
  assert (0 <= dest mod 65536 < 65536 /\ 0 <= dest / 65536 < 65536) by zlia.
  assert (0 <= tl / 256 + 256 * (tl mod 256) < 65536) by zlia.
  assert (0 <= ip_id n / 256 + 256 * (ip_id n mod 256) < 65536) by zlia.
  repeat (rewrite u32_add_l || rewrite <- (Z.add_assoc (u32 _))).
  match goal with |- context [Z.land (u32 ?t) 65535] => assert (Es : u32 t = word_sum hdr0)
    by (rewrite Ehdr, u32_id by (unfold is_u32; lia); lia) end.
  rewrite Es, fold_inline by lia. eexists. split; [reflexivity|].
  assert (Ec : 65535 - oc (word_sum hdr0) = internet_checksum hdr0) by done. rewrite Ec.
  split; [|split; [|intros; unfold IPH_CHKSUM_SET, IPH_OFFSET_SET, IPH_TOS_SET, IPH_VHL_SET, IPH_PROTO_SET, IPH_TTL_SET; auto 14 with lwip]].
  - unfold ip_header. fold hdr0. set (c := internet_checksum hdr0). clearbody c.
    unfold IPH_CHKSUM_SET, IPH_OFFSET_SET, IPH_TOS_SET, IPH_VHL_SET, IPH_PROTO_SET, IPH_TTL_SET, wr32, wr16, wr8.
    cbn [rd]. repeat (rewrite <- Z.add_assoc; cbn [Z.add Pos.add Pos.succ]).
    rd8_solve. rewrite Hvhl, !u8_id by done. destruct (be_word tl Htl) as [-> ->], (be_word (ip_id n) Hid) as [-> ->]. done.
  - intros x Hx. unfold IPH_CHKSUM_SET, IPH_OFFSET_SET, IPH_TOS_SET, IPH_VHL_SET, IPH_PROTO_SET, IPH_TTL_SET, wr32, wr16, wr8.
    by rewrite !wr_outside by (cbn [length le_bytes]; lia).
Qed.

(** The state with other pbufs and bytes. *)
Definition set_ph (h : heap) (m : memory) n : net A W := with_packets (with_bytes m (with_pbufs h (packets n))) n.

Lemma set_ph_id n : set_ph (pbufs (packets n)) (mem n) n = n.
Proof. destruct n as [p]. by destruct p. Qed.

Lemma mem_set_ph h m n : mem (set_ph h m n) = m.
Proof. done. Qed.

Lemma pbufs_set_ph h m n : pbufs (packets (set_ph h m n)) = h.
Proof. done. Qed.

Lemma pbuf_at_set_ph h m n p : pbuf_at (set_ph h m n) p = deref h p.
Proof. done. Qed.

Lemma set_ph_set_ph h m h' m' n : set_ph h m (set_ph h' m' n) = set_ph h m n.
Proof. done. Qed.

Lemma with_mem_set_ph h m m' n : with_mem m' (set_ph h m n) = set_ph h m' n.
Proof. done. Qed.

(** [pbuf_header] with a positive increment and enough room. *)
Lemma header_up n p b k :
  pbufs (packets n) !! p = Some b -> p <> NULL -> 0 < k < 32768 -> type b = PBUF_RAM \/ type b = PBUF_POOL ->
  0 <= len b <= tot_len b -> tot_len b + k <= 65535 -> p + SIZEOF_STRUCT_PBUF + k <= payload b ->
  header n p k = Ok (false, set_ph (<[p := moved k b]> (pbufs (packets n))) (mem n) n).
Proof.
  intros Hb Hne Hk Hty Hl Ht Hroom. unfold header, on_packets, pbuf_header.
  rewrite (header_spec _ p b k false Hb Hne) by (unfold lens_fit, is_s16; lia).
  assert (E : header_ok p b k false = true).
  { unfold header_ok, room_ok. rewrite (proj2 (Z.ltb_lt 0 k)) by lia.
    destruct Hty as [-> | ->]; apply Z.leb_le; lia. }
  rewrite E. cbn [negb res_bind]. by destruct n as [[]].
Qed.

(** ... and with a negative one, within the first pbuf. *)
Lemma header_down n p b k :
  pbufs (packets n) !! p = Some b -> p <> NULL -> 0 < k <= 32768 -> k <= len b <= tot_len b -> tot_len b <= 65535 ->
  (type b = PBUF_RAM \/ type b = PBUF_POOL -> p + SIZEOF_STRUCT_PBUF <= payload b) ->
  header n p (- k) = Ok (false, set_ph (<[p := moved (- k) b]> (pbufs (packets n))) (mem n) n).
Proof.
  intros Hb Hne Hk Hl Ht Hroom. unfold header, on_packets, pbuf_header.
  rewrite (header_spec _ p b (- k) false Hb Hne) by (unfold lens_fit, is_s16; lia).
  assert (E : header_ok p b (- k) false = true).
  { unfold header_ok, room_ok. rewrite (proj2 (Z.ltb_ge 0 (- k))), (proj2 (Z.leb_le _ (len b))) by lia. cbn [orb andb].
    destruct (type b); try (rewrite (proj2 (Z.ltb_lt (- k) 0)) by lia; done); apply Z.leb_le;
      specialize (Hroom ltac:(tauto)); lia. }
  rewrite E. cbn [negb res_bind]. by destruct n as [[]].
Qed.

Lemma moved_packet h p b bl k :
  packet h p ((p, b) :: bl) -> 0 <= k -> total ((p, b) :: bl) + k <= 65535 ->
  packet (<[p := moved k b]> h) p ((p, moved k b) :: bl).
Proof.
  intros (Hc & Hok & Ht) Hk Hle. pose proof (chain_NoDup _ _ _ Hc) as Hnd.
  cbn [fmap list_fmap fst] in Hnd. apply NoDup_cons in Hnd. destruct Hnd as [Hp _].
  cbn [chain lens_ok] in *. rewrite total_cons in *.
  destruct Hc as (_ & Hne & Hb & Hc). destruct Hok as (Hl & Htb & Hok).
  split; [|split; [cbn [lens_ok moved next len tot_len]; split_and!; done || lia
                  |rewrite total_cons; cbn [moved len]; lia]].
  cbn [chain moved next]. split_and!; [done|done|by rewrite lookup_insert_eq|].
  eapply chain_frame; [|exact Hc]. intros a Ha. rewrite lookup_insert_ne; [done|]. by intros <-.
Qed.

(** A packet without the first [k] bytes of its first pbuf. *)
Lemma moved_down_packet h p b bl m k :
  packet h p ((p, b) :: bl) -> 0 <= k -> k <= len b ->
  packet (<[p := moved (- k) b]> h) p ((p, moved (- k) b) :: bl)
  /\ cdata m ((p, moved (- k) b) :: bl) = drop (Z.to_nat k) (cdata m ((p, b) :: bl)).
Proof.
  intros Hpk Hk Hlen. pose proof Hpk as ((_ & Hnz & Hb & Hc) & (Hl & Htl & Hlok) & Ht).
  pose proof (lens_ok_nonneg _ Hlok) as Hnn. rewrite total_cons in Ht.
  assert (Hnd : p ∉ fst <$> bl).
  { pose proof (chain_NoDup _ _ _ (proj1 Hpk)) as Hnd. cbn [fmap list_fmap fst] in Hnd. by apply NoDup_cons in Hnd as [? _]. }
  split; [split; [|split]|].
  - cbn [chain]. split_and!; [done|done|by rewrite lookup_insert_eq|].
    eapply chain_frame; [|exact Hc]. intros a Ha. rewrite lookup_insert_ne; [done|]. by intros <-.
  - cbn [lens_ok moved len tot_len]. split_and!; [lia|lia|done].
  - rewrite total_cons. cbn [moved len]. lia.
  - rewrite !cdata_cons, drop_app_le, drop_rd by (rewrite length_rd; lia). cbn [moved payload len].
    f_equal. f_equal; lia.
Qed.

Lemma moved_moved i j b : moved i (moved j b) = moved (j + i) b.
Proof. destruct b. unfold moved. cbn. f_equal; lia. Qed.

Lemma moved_0 b : moved 0 b = b.
Proof. destruct b. unfold moved. cbn. f_equal; lia. Qed.

(** *** Options *)

Lemma sum_options_spec k : forall m a c,
  mem_ok m -> 0 <= c -> c + 65535 * Z.of_nat k < 4294967296 ->
  sum_options k m a c = c + word_sum (rd m a (2 * k)).
Proof.
  induction k as [|k IH]; intros m a c Hm Hc Hb; [cbn; lia|]. cbn [sum_options].
  pose proof (rd16_range m a Hm) as Hr. unfold is_u16 in Hr.
  rewrite u32_id by (unfold is_u32; lia). rewrite IH by (done || lia).
  replace (2 * S k)%nat with (2 + 2 * k)%nat by lia. rewrite rd_add. cbn [Z.of_nat].
  change (Z.of_nat 2) with 2. unfold rd16. cbn [rd app word_sum le_val]. lia.
Qed.

(** The options padded to whole words. *)
Definition padded (opts : list Z) : list Z :=
  opts ++ replicate (Z.to_nat ((Z.of_nat (length opts) + 3) / 4 * 4 - Z.of_nat (length opts))) 0.

Lemma padded_length opts : Z.of_nat (length (padded opts)) = (Z.of_nat (length opts) + 3) / 4 * 4.
Proof. unfold padded. rewrite length_app, length_replicate. zlia. Qed.

Lemma padded_ok opts : bytes_ok opts -> bytes_ok (padded opts).
Proof.
  intros. apply bytes_ok_app. split; [done|]. apply Forall_replicate. unfold is_u8. lia.
Qed.

Lemma align4 x : 0 <= x < 65532 -> u16 (Z.land (x + 3) (Z.lnot 3)) = (x + 3) / 4 * 4.
Proof.
  intros Hx. rewrite <- Z.ldiff_land. change 3 with (Z.ones 2) at 2. rewrite Z.ldiff_ones_r by lia.
  rewrite Z.shiftl_mul_pow2, Z.shiftr_div_pow2 by lia. change (2 ^ 2) with 4. apply u16_id. unfold is_u16. zlia.
Qed.

Lemma write_options_spec n p b opts :
  pbufs (packets n) !! p = Some b -> p <> NULL -> type b = PBUF_RAM \/ type b = PBUF_POOL ->
  0 <= len b <= tot_len b -> tot_len b + Z.of_nat (length (padded opts)) <= 65535 ->
  p + SIZEOF_STRUCT_PBUF + Z.of_nat (length (padded opts)) <= payload b ->
  (length opts <= 40)%nat -> bytes_ok opts -> mem_ok (mem n) ->
  exists m1, write_options n p opts
      = Ok (Some (IP_HLEN + Z.of_nat (length (padded opts)), word_sum (padded opts)),
            set_ph (<[p := moved (Z.of_nat (length (padded opts))) b]> (pbufs (packets n))) m1 n)
    /\ m1 = wr (mem n) (payload b - Z.of_nat (length (padded opts))) (padded opts).
Proof.
  intros Hb Hne Hty Hl Ht Hroom Hlen Hok Hm. unfold write_options. pose proof (padded_length opts) as Hpl.
  destruct (Z.eqb_spec (Z.of_nat (length opts)) 0) as [E0|E0].
  - destruct opts; [|done]. eexists. split; [|reflexivity]. cbn [padded length app Z.of_nat] in *.
    change (replicate (Z.to_nat _) 0) with (@nil Z). cbn [length Z.of_nat wr word_sum].
    rewrite moved_0, insert_id, set_ph_id by done. done.
  - eexists. split; [|reflexivity]. rewrite align4 by lia. rewrite <- Hpl. set (k := Z.of_nat (length (padded opts))) in *.
    assert (Hk : 0 < k <= 40) by zlia. assert (Hk4 : k mod 4 = 0) by zlia.
    rewrite (u16_id (IP_HLEN + k)) by (unfold is_u16, IP_HLEN; lia).
    replace (s16 k) with k by (unfold s16; zlia). rewrite (header_up n p b k) by (done || lia). cbn [res_bind].
    unfold pbuf_at. cbn [set_ph with_packets packets with_bytes with_pbufs pbufs].
    rewrite (deref_ok _ _ (moved k b)) by (by rewrite lookup_insert_eq). cbn [res_bind moved payload].
    assert (Ew : wr (wr (mem n) (payload b - k) opts) (payload b - k + Z.of_nat (length opts))
                   (replicate (Z.to_nat (k - Z.of_nat (length opts))) 0)
                 = wr (mem n) (payload b - k) (padded opts)).
    { unfold padded. rewrite <- wr_app. do 3 f_equal. lia. }
    rewrite with_mem_set_ph, !mem_set_ph, Ew, sum_options_spec.
    + replace (2 * Z.to_nat (k / 2))%nat with (length (padded opts)) by zlia. by rewrite rd_wr_same, Z.add_0_l.
    + apply mem_ok_wr; [done|by apply padded_ok].
    + lia.
    + zlia.
Qed.

End Header.

(** ** Sending *)

Section Send.
Context {A W : Type} `{AllocOps A} `{FragPool A}.
Variable stale_flags : Z -> Z.
Variable custom_free : Z -> Z -> Pbuf.state A -> res (Pbuf.state A).
Variable callback_ok : bool.
Variable netif_output : net A W -> Z -> Z -> Z -> res (err_t * net A W).
Implicit Types n : net A W.

(** A packet with room for [k] bytes in front of its data. *)
Record room (n : net A W) (p : Z) (b : pbuf) (bl : list (Z * pbuf)) (k : Z) : Prop := {
  room_packet : packet (pbufs (packets n)) p ((p, b) :: bl);
  room_null : p <> NULL;
  room_type : type b = PBUF_RAM \/ type b = PBUF_POOL;
  room_front : p + SIZEOF_STRUCT_PBUF + k <= payload b;
  room_total : total ((p, b) :: bl) + k <= 65535;
  room_apart : apart (payload b - k) k bl
}.

(** The arguments of an IP packet are in range. *)
Definition ip_args (n : net A W) (src dest ttl tos proto : Z) : Prop :=
  is_u16 (ip_id n) /\ is_u32 src /\ is_u32 dest /\ is_u8 ttl /\ is_u8 tos /\ is_u8 proto /\ mem_ok (mem n).

(** The header and the options of [ip4_output_if_opt_src] in front of [len] bytes of data. *)
Definition out_header (n : net A W) (len src dest ttl tos proto : Z) (opts : list Z) : list Z :=
  ip_header ((IP_HLEN + Z.of_nat (length (padded opts))) / 4) tos
    (len + IP_HLEN + Z.of_nat (length (padded opts))) (ip_id n) 0 ttl proto src dest (padded opts) ++ padded opts.

Lemma length_ip_header hl tos len id off ttl proto src dest opts :
  length (ip_header hl tos len id off ttl proto src dest opts) = 20%nat.
Proof. unfold ip_header, ip_front, be16. rewrite !length_app, !length_le_bytes. done. Qed.

(** Up to the decision how to send the packet. *)
Lemma output_spec n p b bl src dest ttl tos proto nif opts :
  room n p b bl (IP_HLEN + Z.of_nat (length (padded opts))) -> ref b = 1 ->
  ip_args n (default 0 src) dest ttl tos proto -> bytes_ok opts -> (length opts <= 40)%nat ->
  exists h' m', ip4_output_if_opt_src stale_flags custom_free callback_ok netif_output n p src (Some dest) ttl tos proto nif opts
      = send_on stale_flags custom_free callback_ok netif_output
          (with_ip_id (u16 (ip_id n + 1)) (set_ph h' m' n)) p dest nif
    /\ h' = <[p := moved (IP_HLEN + Z.of_nat (length (padded opts))) b]> (pbufs (packets n))
    /\ packet h' p ((p, moved (IP_HLEN + Z.of_nat (length (padded opts))) b) :: bl)
    /\ cdata m' ((p, moved (IP_HLEN + Z.of_nat (length (padded opts))) b) :: bl)
       = out_header n (total ((p, b) :: bl)) (default 0 src) dest ttl tos proto opts
         ++ cdata (mem n) ((p, b) :: bl)
    /\ (forall x, (x < payload b - (IP_HLEN + Z.of_nat (length (padded opts))) \/ payload b <= x) ->
          rd8 m' x = rd8 (mem n) x)
    /\ mem_ok m'.
Proof.
  intros [Hpk Hne Hty Hfr Htot Hap] Href (Hid & Hsrc & Hdest & Httl & Htos & Hproto & Hm) Hok Hlen.
  pose proof (padded_length opts) as Hpl. set (k := Z.of_nat (length (padded opts))) in *.
  pose proof Hpk as ((_ & _ & Hb & Hc) & (Hl & Htb & Hlok) & _). rewrite total_cons in Htot.
  pose proof (lens_ok_nonneg _ Hlok) as Hnn.
  assert (Hk : 0 <= k <= 40) by zlia.
  unfold ip4_output_if_opt_src, pbuf_at at 1. rewrite (deref_ok _ _ _ Hb). cbn [res_bind].
  rewrite Href. cbn [Z.eqb Pos.eqb lwip_assert res_bind]. unfold IP_HLEN in *.
  destruct (write_options_spec n p b opts) as (m1 & Ewo & Em1); try done; [lia..|]. fold k in Ewo, Em1.
  rewrite Ewo. cbn [res_bind]. clear Ewo. set (h1 := <[p := moved k b]> (pbufs (packets n))).
  rewrite (header_up (set_ph h1 m1 n) p (moved k b) 20);
    [|rewrite pbufs_set_ph; unfold h1; by rewrite lookup_insert_eq|done|lia|done
     |cbn [moved len tot_len]; lia|cbn [moved tot_len]; lia|cbn [moved payload]; lia].
  cbn [res_bind]. rewrite set_ph_set_ph, pbufs_set_ph, mem_set_ph, moved_moved. unfold h1.
  rewrite insert_insert_eq. replace (k + 20) with (20 + k) by lia. set (b2 := moved (20 + k) b).
  set (h2 := <[p := b2]> (pbufs (packets n))). rewrite pbuf_at_set_ph.
  rewrite (deref_ok _ p b2) by (subst h2; by rewrite lookup_insert_eq). cbn [res_bind].
  rewrite (proj2 (Z.leb_le 20 (len b2))) by (cbn [b2 moved len]; lia). cbn [lwip_assert res_bind].
  assert (Hm1 : mem_ok m1) by (rewrite Em1; apply mem_ok_wr; [done|by apply padded_ok]).
  destruct (fill_header_spec (set_ph h2 m1 n) (payload b2) (tot_len b2) (IP_HLEN + k) src dest ttl tos proto (padded opts))
    as (m2 & Efh & Ehdr & Hfr2 & Hm2); try done.
  { unfold is_u16. cbn [b2 moved tot_len]. lia. }
  { by apply padded_ok. }
  { unfold k. lia. }
  { unfold IP_HLEN. zlia. }
  rewrite Efh. cbn [set_ph with_packets ip_id] in *. rewrite mem_set_ph in *.
  exists h2, m2. split_and!; [done|done| | | |by apply Hm2].
  - apply moved_packet; [done|lia|rewrite total_cons; lia].
  - rewrite !cdata_cons. cbn [b2 moved payload len].
    replace (Z.to_nat (len b + (20 + k))) with (20 + (length (padded opts) + Z.to_nat (len b)))%nat by (subst k; lia).
    rewrite !rd_add. fold (b2). change (payload b - (20 + k)) with (payload b2). rewrite Ehdr.
    unfold out_header. rewrite <- !app_assoc. rewrite total_cons, <- Htb. unfold IP_HLEN.
    f_equal; [f_equal; cbn [b2 moved tot_len]; lia|]. f_equal; [|f_equal].
    + rewrite (rd_ext m1 m2) by (intros x Hx; apply Hfr2; lia). rewrite Em1.
      replace (payload b2 + Z.of_nat 20) with (payload b - k) by (cbn [b2 moved payload]; lia). apply rd_wr_same.
    + rewrite (rd_ext m1 m2) by (intros x Hx; apply Hfr2; lia). rewrite Em1.
      replace (payload b2 + Z.of_nat 20 + Z.of_nat (length (padded opts))) with (payload b)
        by (cbn [b2 moved payload]; lia).
      apply rd_wr_apart. fold k. lia.
    + assert (Hap' : forall x, payload b - (20 + k) <= x < payload b -> outside x bl).
      { intros x Hx. eapply apart_outside; [exact Hap|lia]. }
      apply cdata_ext. intros ab x Hin Hx. unfold outside in Hap'.
      assert (~ (payload b - (20 + k) <= x < payload b)).
      { intros Hx2. specialize (Hap' x Hx2). rewrite Forall_forall in Hap'. specialize (Hap' _ Hin). cbn in Hap'. lia. }
      rewrite Hfr2, Em1 by (cbn [b2 moved payload]; lia). apply wr_outside. fold k. lia.
  - intros x Hx. rewrite Hfr2 by (cbn [b2 moved payload]; lia). rewrite Em1. apply wr_outside. fold k. lia.
Qed.
(** The header with its options verifies. *)
Lemma out_header_verifies n len src dest ttl tos proto opts a :
  ip_args n src dest ttl tos proto -> bytes_ok opts -> (length opts <= 40)%nat -> 0 <= len ->
  len + IP_HLEN + Z.of_nat (length (padded opts)) <= 65535 ->
  inet_chksum a (out_header n len src dest ttl tos proto opts) = 0.
Proof.
  intros (Hid & Hsrc & Hdest & Httl & Htos & Hproto & _) Hok Hlen Hl Hle.
  pose proof (padded_length opts) as Hpl. unfold out_header, IP_HLEN in *.
  assert (Hhl : 0 <= (20 + Z.of_nat (length (padded opts))) / 4 < 16) by zlia.
  assert (Hl16 : is_u16 (len + 20 + Z.of_nat (length (padded opts)))) by (unfold is_u16; lia).
  assert (Hz : is_u16 0) by (unfold is_u16; lia). pose proof (padded_ok _ Hok) as Hpo.
  rewrite inet_chksum_spec; [by apply ip_header_verifies| |].
  - apply bytes_ok_app. split; [|done]. unfold ip_header. cbv zeta. rewrite !bytes_ok_app.
    split_and!; auto using bytes_ok_front, le_bytes_ok.
  - rewrite length_app, length_ip_header. lia.
Qed.

(** C20: Sending an IPv4 packet, one that nobody else refers to and that is not marked for multicast loopback,
    with room for the header in front of its data.  [ip4_output_if_opt] puts there exactly the header of the
    arguments, the address of the interface as the source when none is given, with version 4, the right
    header length, total length, the next identification and no fragment offset, followed
    by the options (at most 40 bytes) padded to whole words; header and options verify under the Internet
    checksum; no other byte of memory changes.  The packet then goes to the interface's
    output function, to the fragmentation if it exceeds the MTU, or back to the stack if the
    destination is the interface's own address or a loopback address. *)
Theorem ip4_output_correct n p b bl src dest ttl tos proto nif nf opts :
  let source := if ip4_addr_isany_ptr src then netif_ip4_addr nf else default 0 src in
  room n p b bl (IP_HLEN + Z.of_nat (length (padded opts))) -> ref b = 1 ->
  ip_args n source dest ttl tos proto -> bytes_ok opts -> (length opts <= 40)%nat ->
  netifs n !! nif = Some nf -> Z.land (flags b) PBUF_FLAG_MCASTLOOP = 0 ->
  exists h' m' bl',
    let n' := inc P_ip c_xmit (with_ip_id (u16 (ip_id n + 1)) (set_ph h' m' n)) in
    let hdr := out_header n (total ((p, b) :: bl)) source dest ttl tos proto opts in
    ip4_output_if_opt stale_flags custom_free callback_ok netif_output n p src (Some dest) ttl tos proto nif opts
    = (if (dest =? netif_ip4_addr nf) || ip4_addr_isloopback dest
       then netif_loop_output stale_flags custom_free callback_ok n' nif p
       else if negb (netif_mtu nf =? 0) && (netif_mtu nf <? total bl')
       then ip4_frag stale_flags custom_free callback_ok netif_output n' p nif dest
       else netif_output n' nif p dest)
    /\ packet h' p bl' /\ cdata m' bl' = hdr ++ cdata (mem n) ((p, b) :: bl)
    /\ (forall a, inet_chksum a hdr = 0)
    /\ frame (pbufs (packets n)) h' [p]
    /\ (forall x, (x < payload b - Z.of_nat (length hdr) \/ payload b <= x) -> rd8 m' x = rd8 (mem n) x).
Proof.
  intros source Hroom Href Hargs Hok Hlen Hnf Hfl.
  set (src' := if ip4_addr_isany_ptr src then Some (netif_ip4_addr nf) else src).
  assert (Es : default 0 src' = source) by (unfold src', source; by destruct (ip4_addr_isany_ptr src)).
  assert (Eo : ip4_output_if_opt stale_flags custom_free callback_ok netif_output n p src (Some dest) ttl tos proto nif opts
    = ip4_output_if_opt_src stale_flags custom_free callback_ok netif_output n p src' (Some dest) ttl tos proto nif opts).
  { unfold ip4_output_if_opt, src'. destruct (ip4_addr_isany_ptr src); [|done]. unfold netif_at. by rewrite (deref_ok _ _ _ Hnf). }
  rewrite Eo. rewrite <- Es in *. clear Eo.
  destruct (output_spec n p b bl src' dest ttl tos proto nif opts Hroom Href Hargs Hok Hlen)
    as (h' & m' & E & Eh & Hpk & Hdat & Hfr & _).
  set (k := IP_HLEN + Z.of_nat (length (padded opts))) in *. exists h', m', ((p, moved k b) :: bl). cbv zeta.
  rewrite E. destruct Hroom as [Hpk0 _ _ _ Htot _].
  assert (Hp' : h' !! p = Some (moved k b)) by (rewrite Eh; apply lookup_insert_eq).
  set (n' := inc P_ip c_xmit (with_ip_id (u16 (ip_id n + 1)) (set_ph h' m' n))).
  assert (En : netif_at n' nif = Ok nf) by (exact (deref_ok _ _ _ Hnf)).
  assert (Ep : pbuf_at n' p = Ok (moved k b)) by (exact (deref_ok _ _ _ Hp')).
  pose proof (padded_length opts) as Hpl. pose proof Hpk as (_ & (_ & Htl & _) & _).
  pose proof (lens_ok_nonneg _ (proj1 (proj2 Hpk0))) as Hnn.
  split_and!; [|done|done| | |].
  - unfold send_on. fold n'. rewrite En. cbn [res_bind].
    destruct ((dest =? netif_ip4_addr nf) || ip4_addr_isloopback dest); [done|].
    rewrite Ep. cbn [res_bind moved flags]. rewrite Hfl. cbn [negb Z.eqb res_bind]. rewrite En, Ep. cbn [res_bind].
    rewrite <- (total_cons p) in Htl. rewrite Htl. done.
  - intros a. apply out_header_verifies; try done. lia.
  - intros a Ha. rewrite Eh, lookup_insert_ne; [done|]. intros <-. apply Ha. by left.
  - intros x Hx. apply Hfr. unfold out_header in Hx. rewrite length_app, length_ip_header in Hx.
    unfold k, IP_HLEN in *. lia.
Qed.

End Send.

(** ** Routing *)

Section Route.
Context {A W : Type}.
Implicit Types n : net A W.

Definition usable (nf : netif) : bool :=
  netif_is_up nf && netif_is_link_up nf && negb (ip4_addr_isany_val (netif_ip4_addr nf)).

(** The destination is on the network of the interface, or the other end of it. *)
Definition on_link (nf : netif) (dest : Z) : bool :=
  ip4_addr_netcmp dest (netif_ip4_addr nf) (netif_ip4_netmask nf)
  || ((Z.land (netif_flags nf) NETIF_FLAG_BROADCAST =? 0) && (dest =? netif_ip4_gw nf)).

(** The listed interfaces exist. *)
Definition netifs_ok n : Prop :=
  Forall (fun nif => nif <> NULL /\ is_Some (netifs n !! nif)) (netif_list n)
  /\ (netif_default n <> NULL -> is_Some (netifs n !! netif_default n)).

(** Interface [nif] of the state has the property [f]. *)
Definition netif_is n (nif : Z) (f : netif -> bool) : Prop := exists nf, netifs n !! nif = Some nf /\ f nf = true.

(** [r] is the first interface of [l] with the property [f]. *)
Definition first_of n (l : list Z) (f : netif -> bool) (r : Z) : Prop :=
  netif_is n r f /\ exists l1 l2, l = l1 ++ r :: l2 /\ (forall nif, nif ∈ l1 -> ~ netif_is n nif f).

Lemma first_here n l f nif nf : netifs n !! nif = Some nf -> f nf = true -> first_of n (nif :: l) f nif.
Proof. intros Hnf Hf. split; [by exists nf|]. exists [], l. split; [done|]. by intros ? ?%elem_of_nil. Qed.

Lemma not_here n l (f : netif -> bool) nif nf :
  netifs n !! nif = Some nf -> f nf = false -> (forall x, x ∈ l -> ~ netif_is n x f) -> forall x, x ∈ nif :: l -> ~ netif_is n x f.
Proof.
  intros Hnf Hf Hl x Hx. apply elem_of_cons in Hx. destruct Hx as [->|Hx]; [|by apply Hl].
  intros (nf' & Hnf' & E). rewrite Hnf in Hnf'. injection Hnf' as <-. congruence.
Qed.

Lemma first_later n l f nif nf r : netifs n !! nif = Some nf -> f nf = false -> first_of n l f r -> first_of n (nif :: l) f r.
Proof.
  intros Hnf Hf (Hr & l1 & l2 & -> & Hl1). split; [done|]. exists (nif :: l1), l2. split; [done|]. by eapply not_here.
Qed.

Lemma route_walk_spec n dest l :
  Forall (fun nif => nif <> NULL /\ is_Some (netifs n !! nif)) l ->
  exists r, route_walk n l dest = Ok r
    /\ (r = NULL /\ (forall nif, nif ∈ l -> ~ netif_is n nif (fun nf => usable nf && on_link nf dest))
        \/ r <> NULL /\ first_of n l (fun nf => usable nf && on_link nf dest) r).
Proof.
  induction 1 as [|nif l (Hne & nf & Hnf) _ (r & IHe & IH)]; cbn [route_walk].
  { exists NULL. split; [done|]. left. split; [done|]. by intros ? ?%elem_of_nil. }
  unfold netif_at. rewrite (deref_ok _ _ _ Hnf). cbn [res_bind]. fold (usable nf).
  destruct (usable nf && on_link nf dest) eqn:Eu.
  - exists nif. split; [|right; split; [done|by eapply first_here]]. apply andb_true_iff in Eu. destruct Eu as [Eu Eo]. rewrite Eu.
    unfold on_link in Eo. destruct (ip4_addr_netcmp _ _ _); [done|]. cbn [orb] in Eo. by rewrite Eo.
  - exists r. split.
    + destruct (usable nf); [|done]. cbn [andb] in Eu. unfold on_link in Eu. apply orb_false_iff in Eu.
      destruct Eu as [-> ->]. done.
    + destruct IH as [(-> & IH)|(? & ?)]; [left|right; split; [done|by eapply first_later]]. split; [done|]. by eapply not_here.
Qed.

Lemma first_up_spec n l :
  Forall (fun nif => nif <> NULL /\ is_Some (netifs n !! nif)) l ->
  exists r, first_up n l = Ok r
    /\ (r = NULL /\ (forall nif, nif ∈ l -> ~ netif_is n nif netif_is_up) \/ r <> NULL /\ first_of n l netif_is_up r).
Proof.
  induction 1 as [|nif l (Hne & nf & Hnf) _ (r & IHe & IH)]; cbn [first_up].
  { exists NULL. split; [done|]. left. split; [done|]. by intros ? ?%elem_of_nil. }
  unfold netif_at. rewrite (deref_ok _ _ _ Hnf). cbn [res_bind]. destruct (netif_is_up nf) eqn:Eu.
  - exists nif. split; [done|]. right. split; [done|by eapply first_here].
  - exists r. split; [done|]. destruct IH as [(-> & IH)|(? & ?)]; [left|right; split; [done|by eapply first_later]].
    split; [done|]. by eapply not_here.
Qed.

Lemma default_test n (f : netif -> bool) :
  (netif_default n <> NULL -> is_Some (netifs n !! netif_default n)) ->
  exists b, (if netif_default n =? NULL then Ok false
             else let* nf := netif_at n (netif_default n) in Ok (f nf)) = Ok b
    /\ (if b then netif_default n <> NULL /\ netif_is n (netif_default n) f
        else netif_default n = NULL \/ ~ netif_is n (netif_default n) f).
Proof.
  intros Hd. destruct (Z.eqb_spec (netif_default n) NULL) as [E|E]; [exists false; by auto|].
  destruct (Hd E) as (nf & Hnf). unfold netif_at. rewrite (deref_ok _ _ _ Hnf). cbn [res_bind].
  exists (f nf). split; [done|]. destruct (f nf) eqn:Ef; [split; [done|by exists nf]|].
  right. intros (nf' & Hnf' & E'). congruence.
Qed.

(** C34: Routing returns.  A multicast goes to the interface set for it, if any; otherwise the
    result is the first interface of the list that is up, with link and an address, and whose network the
    destination is on (or whose gateway it is, for an interface without broadcasts); without one, loopback
    traffic goes to the default interface if it is up and else to the first one that is up, and
    everything else to the default interface if it is up, has link and an address.  NULL is
    returned, and counted as a routing error unless the destination is a loopback address,
    only if none of this applies. *)
Theorem ip4_route_correct n dest :
  netifs_ok n ->
  exists r n', ip4_route n dest = Ok (r, n')
    /\ ((ip4_addr_ismulticast dest = true /\ ip4_default_multicast_netif n <> NULL
         /\ r = ip4_default_multicast_netif n /\ n' = n)
        \/ ((ip4_addr_ismulticast dest = false \/ ip4_default_multicast_netif n = NULL)
            /\ ((r <> NULL /\ n' = n /\ first_of n (netif_list n) (fun nf => usable nf && on_link nf dest) r)
                \/ ((forall nif, nif ∈ netif_list n -> ~ netif_is n nif (fun nf => usable nf && on_link nf dest))
                    /\ (if ip4_addr_isloopback dest then
                          n' = n
                          /\ (r <> NULL /\ r = netif_default n /\ netif_is n r netif_is_up
                              \/ (netif_default n = NULL \/ ~ netif_is n (netif_default n) netif_is_up)
                                 /\ (r <> NULL /\ first_of n (netif_list n) netif_is_up r
                                     \/ r = NULL /\ (forall nif, nif ∈ netif_list n -> ~ netif_is n nif netif_is_up)))
                        else
                          (r <> NULL /\ n' = n /\ r = netif_default n /\ netif_is n r usable)
                          \/ (r = NULL /\ n' = inc P_ip c_rterr n
                              /\ (netif_default n = NULL \/ ~ netif_is n (netif_default n) usable))))))).
Proof.
  intros [Hl Hd]. unfold ip4_route.
  destruct (ip4_addr_ismulticast dest && negb (ip4_default_multicast_netif n =? NULL)) eqn:Em.
  { apply andb_true_iff in Em. destruct Em as [Em Em2]. eexists _, _. split; [done|]. left.
    split_and!; [done| |done|done]. apply negb_true_iff, Z.eqb_neq in Em2. done. }
  destruct (route_walk_spec n dest _ Hl) as (r & Er & Hr). rewrite Er. cbn [res_bind].
  assert (Hnm : ip4_addr_ismulticast dest = false \/ ip4_default_multicast_netif n = NULL).
  { apply andb_false_iff in Em. destruct Em as [|Em]; [by left|]. right. apply negb_false_iff, Z.eqb_eq in Em. done. }
  destruct Hr as [(-> & Hr)|(Hne & Hr)].
  2:{ rewrite (proj2 (Z.eqb_neq r NULL)) by done. eexists _, _. split; [done|]. right. split; [done|]. by left. }
  cbn [NULL Z.eqb negb]. destruct (ip4_addr_isloopback dest).
  - destruct (default_test n netif_is_up Hd) as (b & Eb & Hb). rewrite Eb. cbn [res_bind]. destruct b.
    + eexists _, _. split; [done|]. right. split; [done|]. right. split; [done|]. split; [done|]. left. destruct Hb. done.
    + destruct (first_up_spec n _ Hl) as (r & Ef & Hf). rewrite Ef. cbn [res_bind]. eexists _, _. split; [done|].
      right. split; [done|]. right. split; [done|]. split; [done|].
      right. split; [done|]. destruct Hf as [(-> & Hf)|(? & ?)]; [by right|by left].
  - destruct (default_test n usable Hd) as (b & Eb & Hb). unfold usable at 1 in Eb. rewrite Eb. cbn [res_bind]. destruct b.
    + eexists _, _. split; [done|]. right. split; [done|]. right. split; [done|]. left. destruct Hb. done.
    + eexists _, _. split; [done|]. right. split; [done|]. right. split; [done|]. by right.
Qed.

End Route.

(** ** The pool of fragment references *)

(** The free elements of MEMP_FRAG_PBUF and the [original] fields. *)
Definition frag_pool : Type := list Z * gmap Z Z.

#[global] Instance frag_alloc_ops : AllocOps (heap_pools * frag_pool) := {
  mem_malloc a size := let* (p, m) := Pbuf.mem_malloc (fst a) size in Ok (p, (m, snd a));
  mem_trim a p k := let* (q, m) := Pbuf.mem_trim (fst a) p k in Ok (q, (m, snd a));
  mem_free a p := let* m := Pbuf.mem_free (fst a) p in Ok (m, snd a);
  memp_malloc a t := let* (p, m) := Pbuf.memp_malloc (fst a) t in Ok (p, (m, snd a));
  memp_free a t p := let* m := Pbuf.memp_free (fst a) t p in Ok (m, snd a)
}.

#[global] Instance frag_alloc_spec : AllocSpec (heap_pools * frag_pool).
Proof.
  refine {| owned a L := owned (fst a) L |}; cbn [fst mem_malloc mem_free mem_trim memp_malloc memp_free frag_alloc_ops].
  - intros [a f] L size Ho Hu Hs. destruct (malloc_law a L size Ho Hu Hs) as (p & a' & E & Hp). exists p, (a', f).
    cbn [fst snd]. by rewrite E.
  - intros [a f] L p n Ho HL. destruct (mem_free_law a L p n Ho HL) as (a' & E & Ho'). exists (a', f). cbn [fst snd]. by rewrite E.
  - intros [a f] L p n k Ho HL Hk. destruct (trim_law a L p n k Ho HL Hk) as (a' & n' & E & Hn). exists (a', f), n'.
    cbn [fst snd]. by rewrite E.
  - intros [a f] L t Ho. destruct (memp_malloc_law a L t Ho) as (p & a' & E & Hp). exists p, (a', f). cbn [fst snd]. by rewrite E.
  - intros [a f] L t p Ho HL. destruct (memp_free_law a L t p Ho HL) as (a' & E & Ho'). exists (a', f). cbn [fst snd]. by rewrite E.
  - intros [a f] L p o n Ho. by apply (owned_range a).
  - intros [a f] L p o n p' o' n' Ho. by apply (owned_apart a).
  - intros [a f] L p t n Ho. by apply (owned_pool_size a).
Defined.

#[global] Instance frag_pool_ops : FragPool (heap_pools * frag_pool) := {
  ip_frag_alloc_pbuf_custom_ref a :=
    match fst (snd a) with
    | [] => Ok (NULL, a)
    | p :: l => Ok (p, (fst a, (l, snd (snd a))))
    end;
  memp_free_frag a p := Ok (fst a, (p :: fst (snd a), snd (snd a)));
  original a p := default NULL (snd (snd a) !! p);
  set_original a p o := (fst a, (fst (snd a), <[p := o]> (snd (snd a))))
}.

(** The free functions of custom pbufs: references of [ip4_frag], which may refer to
    each other [depth] times. *)
Fixpoint frag_custom_free (depth : nat) (f p : Z) (s : Pbuf.state (heap_pools * frag_pool))
    : res (Pbuf.state (heap_pools * frag_pool)) :=
  match depth with
  | O => Fault FFuel
  | S depth' => if f =? ipfrag_free_fn then ipfrag_free_pbuf_custom (frag_custom_free depth') s p else Fault FBadAccess
  end.

(** ** Examples *)

Section Examples.

(** An interface 10.0.0.1/24 with MTU 1500, and a pbuf with eight bytes of data. *)
Definition ex_netif : netif :=
  mk_netif 16777226 16777215 0 (NETIF_FLAG_UP + NETIF_FLAG_LINK_UP + NETIF_FLAG_BROADCAST) [] 1500 [] 0 NULL NULL 0.

Definition ex_pbuf : pbuf := mk_pbuf NULL 1100 8 8 PBUF_RAM 0 1.

Definition ex_tcp : tcp_globals :=
  mk_tcp_globals ∅ ∅ [] [] [] [] 49152 0 6510 false 0 0 [] [] 16 NULL (mk_in (mk_seg 0 0 0 0) 0 0 0 0 0 0 0 0 0 0 0 0).

Definition ex_net : net (heap_pools * frag_pool) (list (list Z)) :=
  mk_net (Pbuf.mk_state {[1000 := ex_pbuf]} (wr ∅ 1100 [1; 2; 3; 4; 5; 6; 7; 8]) ∅ (hp0, ([], ∅)) false 0)
    {[1 := ex_netif]} [1] 1 0 NULL 7 (mk_globals NULL NULL NULL 0 0 0) [] 10 0 (mk_udp_globals ∅ [] 49152 [])
    (mk_raw_globals ∅ [] []) ex_tcp (mk_igmp_globals ∅ 8 Z.of_nat) (fun _ _ => 0) [] [].

(** The driver records what it sends. *)
Definition ex_output {A} (n : net A (list (list Z))) (nif p dest : Z) : res (err_t * net A (list (list Z))) :=
  let* v := chain_view (walk_fuel (pbufs (packets n))) (pbufs (packets n)) (mem n) p in
  Ok (ERR_OK, with_world (world n ++ [mjoin (snd <$> v)]) n).

Lemma ex_mem_ok : mem_ok (mem ex_net).
Proof.
  apply mem_ok_wr; [intros a; unfold rd8; rewrite lookup_empty; unfold is_u8; cbn; lia|].
  repeat constructor; unfold is_u8; lia.
Qed.

Lemma ex_room k : 0 <= k <= 80 -> room ex_net 1000 ex_pbuf [] k.
Proof.
  intros Hk. split; [|done|by left| | |constructor]; cbn [ex_pbuf payload]; unfold SIZEOF_STRUCT_PBUF; try lia.
  - split_and!; cbn [chain lens_ok ex_pbuf next]; try done.
  - rewrite total_cons. change (total []) with 0. cbn [ex_pbuf len]. lia.
Qed.

Lemma ip4_output_correct_witness :
  exists h' m' bl',
    let n' := inc P_ip c_xmit (with_ip_id 8 (set_ph h' m' ex_net)) in
    ip4_output_if_opt (fun _ => 0) (frag_custom_free 3) true ex_output ex_net 1000 None (Some 33554442) 255 0 17 1 []
    = ex_output n' 1 1000 33554442
    /\ packet h' 1000 bl' /\ exists hdr, cdata m' bl' = hdr ++ [1; 2; 3; 4; 5; 6; 7; 8] /\ inet_chksum 0 hdr = 0.
Proof.
  destruct (ip4_output_correct (fun _ => 0) (frag_custom_free 3) true ex_output ex_net 1000 ex_pbuf [] None 33554442 255 0 17 1
    ex_netif []) as (h' & m' & bl' & E & Hpk & Hd & Hc & _); [apply ex_room; vm_compute; split; done|done| |constructor|cbn; lia|done|done|].
  - unfold ip_args, is_u16, is_u32, is_u8. cbn [ex_net ip_id ip4_addr_isany_ptr ex_netif netif_ip4_addr]. split_and!; exact ex_mem_ok || lia.
  - exists h', m', bl'. cbv zeta. split_and!; [|done|].
    + rewrite E. assert (Et : total bl' = 28).
      { rewrite <- (length_cdata m' bl' (proj1 (proj2 Hpk))), Hd. by vm_compute. }
      rewrite Et. done.
    + eexists. split; [exact Hd|apply Hc].
Defined.

Lemma ip4_route_correct_witness : exists n', ip4_route ex_net 33554442 = Ok (1, n').
Proof.
  destruct (ip4_route_correct ex_net 33554442) as (r & n' & E & _).
  - split; [|intros _; by eexists]. constructor; [split; [done|by eexists]|constructor].
  - exists n'. rewrite E. assert (Er : r = 1) by (revert E; vm_compute; by intros [= <-]). by rewrite Er.
Defined.

(** A packet of 20 bytes of data on an interface with MTU 32, which leaves 12 bytes in a
    fragment, so 8 are used. *)
Definition small_mtu : netif := mk_netif 16777226 16777215 0 (netif_flags ex_netif) [] 32 [] 0 NULL NULL 0.
Definition frag_ex : net (heap_pools * frag_pool) (list (list Z)) :=
  with_netifs {[1 := small_mtu]}
    (with_packets (Pbuf.mk_state {[1000 := mk_pbuf NULL 1100 40 40 PBUF_RAM 0 1]}
       (wr ∅ 1100 ([69; 0; 0; 40; 0; 7; 0; 0; 64; 17; 0; 0; 10; 0; 0; 1; 10; 0; 0; 2] ++ replicate 20 1)) ∅
       (hp0, ([3000; 4000; 5000], ∅)) false 0) ex_net).

(** The flags and offset, and the number of data bytes of a fragment. *)
Definition frag_summary (bs : list Z) : Z * Z * nat := (nth 6 bs 0, nth 7 bs 0, (length bs - 20)%nat).

(** The last fragment is recognised by [left <= mtu - IP_HLEN] though a fragment holds
    only a multiple of 8 bytes: of three fragments, the second one already lacks the flag
    MF, and a receiver takes it for the end of the datagram. *)
Theorem frag_mf_missing :
  exists n', ip4_frag (fun _ => 0) (frag_custom_free 3) true ex_output frag_ex 1000 1 33554442 = Ok (ERR_OK, n')
    /\ map frag_summary (world n') = [(32, 0, 8%nat); (0, 1, 8%nat); (0, 2, 4%nat)].
Proof. eexists. split; vm_compute; reflexivity. Qed.

End Examples.
