(* ===== verification/Slip.v ===== *)
(** * SLIP: lwip/src/netif/slipif.c

    IP packets on a serial line: a packet is sent between two END characters, with END and ESC
    escaped in its data (RFC 1055), and a state machine puts the characters that come in into a
    chain of pbufs.  The serial device (sio.h) belongs to the port; it is a parameter that works
    on the world.  SLIP_USE_RX_THREAD is 1; the functions for SLIP_RX_FROM_ISR are modelled with
    its default SLIP_RX_QUEUE, too. *)

From S2P Require Import Prelude Def Ip4Addr Mem Memp Pbuf PbufData PbufAlloc PbufOps Net Ip4.

(** ** Definitions *)

Definition SLIP_END : Z := 192.
Definition SLIP_ESC : Z := 219.
Definition SLIP_ESC_END : Z := 220.
Definition SLIP_ESC_ESC : Z := 221.
Definition SLIP_MAX_SIZE : Z := 1500.

Inductive slipif_recv_state := SLIP_RECV_NORMAL | SLIP_RECV_ESCAPE.

(** What [netif->state] points to. *)
Record slipif_priv := mk_priv {
  sd : Z; rx_p : Z; rx_q : Z; rx_state : slipif_recv_state; rx_i : Z; recved : Z; rxpackets : Z
}.

Definition with_rx (p q i n : Z) (v : slipif_priv) : slipif_priv := mk_priv (sd v) p q (rx_state v) i n (rxpackets v).
Definition with_rx_state (st : slipif_recv_state) (v : slipif_priv) : slipif_priv :=
  mk_priv (sd v) (rx_p v) (rx_q v) st (rx_i v) (recved v) (rxpackets v).
Definition with_rxpackets (p : Z) (v : slipif_priv) : slipif_priv :=
  mk_priv (sd v) (rx_p v) (rx_q v) (rx_state v) (rx_i v) (recved v) p.

(** [sizeof(struct slipif_priv)] without [rxpackets]: three pointers, a byte and two 16-bit fields. *)
Definition SIZEOF_SLIPIF_PRIV : Z := 20.

Section Slip.
Context {A W : Type} `{AllocOps A}.
Variable stale_flags : Z -> Z.
Variable custom_free : Z -> Z -> Pbuf.state A -> res (Pbuf.state A).
Variable callback_ok : bool.
(** The serial device. *)
Variable sio_open : W -> Z -> Z * W.
Variable sio_send : Z -> Z -> W -> W.
Variable sio_tryread : W -> Z -> option (Z * W).
(** [netif->input]. *)
Variable input : net A W -> Z -> Z -> res (err_t * net A W).
Implicit Types n : net A W.

(** *** Sending *)

(** The [switch] on the character: what is sent for it. *)
Definition slip_send (sd c : Z) (w : W) : W :=
  if c =? SLIP_END then sio_send SLIP_ESC_END sd (sio_send SLIP_ESC sd w)
  else if c =? SLIP_ESC then sio_send SLIP_ESC_ESC sd (sio_send SLIP_ESC sd w)
  else sio_send c sd w.

(** The inner loop: [i] from 0 to [q->len], a 16-bit counter. *)
Fixpoint send_payload (fuel : nat) (m : memory) (payload len i sd : Z) (w : W) : res W :=
  match fuel with
  | O => Fault FFuel
  | S fuel' =>
      if i <? len then send_payload fuel' m payload len (u16 (i + 1)) sd (slip_send sd (rd8 m (payload + i)) w) else Ok w
  end.

Fixpoint send_chain (fuel : nat) n (q sd : Z) (w : W) : res W :=
  match fuel with
  | O => Fault FFuel
  | S fuel' =>
      if q =? NULL then Ok w
      else
        let* b := pbuf_at n q in
        let* w := send_payload (S (Z.to_nat (len b))) (mem n) (payload b) (len b) 0 sd w in
        send_chain fuel' n (next b) sd w
  end.

Definition slipif_output (priv : slipif_priv) n (p : Z) : res (err_t * net A W) :=
  assert* negb (p =? NULL) in
  let w := sio_send SLIP_END (sd priv) (world n) in
  let* w := send_chain (walk_fuel (pbufs (packets n))) n p (sd priv) w in
  Ok (ERR_OK, with_world (sio_send SLIP_END (sd priv) w) n).

Definition slipif_output_v4 (priv : slipif_priv) n (p ipaddr : Z) : res (err_t * net A W) := slipif_output priv n p.

(** *** Receiving *)

(** A pbuf for the next character, if there is none. *)
Definition rx_pbuf (priv : slipif_priv) n : res (slipif_priv * net A W) :=
  if rx_p priv =? NULL then
    let* (p, n) := alloc_pbuf stale_flags custom_free callback_ok n PBUF_LINK
                     (PBUF_POOL_BUFSIZE - PBUF_LINK_HLEN - PBUF_LINK_ENCAPSULATION_HLEN) PBUF_POOL in
    if p =? NULL then Ok (priv, inc P_link c_drop n)
    else if negb (rx_q priv =? NULL) then
      let* s := pbuf_cat (packets n) (rx_q priv) p in
      Ok (with_rx p (rx_q priv) (rx_i priv) (recved priv) priv, with_packets s n)
    else Ok (with_rx p p (rx_i priv) (recved priv) priv, n)
  else Ok (priv, n).

(** The character goes to the packet that is being received. *)
Definition rx_store (priv : slipif_priv) n (c : Z) : res (slipif_priv * net A W) :=
  let* (priv, n) := rx_pbuf priv n in
  if negb (rx_p priv =? NULL) && (recved priv <=? SLIP_MAX_SIZE) then
    let* b := pbuf_at n (rx_p priv) in
    let n := with_mem (wr (mem n) (payload b + rx_i priv) [c]) n in
    let i := u16 (rx_i priv + 1) in
    let k := u16 (recved priv + 1) in
    if len b <=? i then
      let* more := if negb (next b =? NULL) then let* b' := pbuf_at n (next b) in Ok (0 <? len b') else Ok false in
      Ok (with_rx (if (more : bool) then next b else NULL) (rx_q priv) 0 k priv, n)
    else Ok (with_rx (rx_p priv) (rx_q priv) i k priv, n)
  else Ok (priv, n).

(** One character; the result is a packet when it is complete, and NULL otherwise. *)
Definition slipif_rxbyte (priv : slipif_priv) n (c : Z) : res (Z * slipif_priv * net A W) :=
  match rx_state priv with
  | SLIP_RECV_NORMAL =>
      if c =? SLIP_END then
        if 0 <? recved priv then
          let* s := pbuf_realloc custom_free (packets n) (rx_q priv) (recved priv) in
          Ok (rx_q priv, with_rx NULL NULL 0 0 priv, inc P_link c_recv (with_packets s n))
        else Ok (NULL, priv, n)
      else if c =? SLIP_ESC then Ok (NULL, with_rx_state SLIP_RECV_ESCAPE priv, n)
      else let* (priv, n) := rx_store priv n c in Ok (NULL, priv, n)
  | SLIP_RECV_ESCAPE =>
      let c := if c =? SLIP_ESC_END then SLIP_END else if c =? SLIP_ESC_ESC then SLIP_ESC else c in
      let* (priv, n) := rx_store (with_rx_state SLIP_RECV_NORMAL priv) n c in Ok (NULL, priv, n)
  end.

Definition pass_up n (p nif : Z) : res (net A W) :=
  let* (err, n) := input n p nif in
  if bool_decide (err = ERR_OK) then Ok n else free custom_free n p.

Definition slipif_rxbyte_input (priv : slipif_priv) n (nif c : Z) : res (slipif_priv * net A W) :=
  let* (p, priv, n) := slipif_rxbyte priv n c in
  if negb (p =? NULL) then let* n := pass_up n p nif in Ok (priv, n) else Ok (priv, n).

(** The characters that wait in the device. *)
Fixpoint slipif_poll (fuel : nat) (priv : slipif_priv) n (nif : Z) : res (slipif_priv * net A W) :=
  match fuel with
  | O => Fault FFuel
  | S fuel' =>
      match sio_tryread (world n) (sd priv) with
      | Some (c, w) => let* (priv, n) := slipif_rxbyte_input priv (with_world w n) nif c in slipif_poll fuel' priv n nif
      | None => Ok (priv, n)
      end
  end.

(** The thread that reads the device, for a number of rounds; [sio_read] waits for a character,
    and has none if it was aborted. *)
Variable sio_read : W -> Z -> option (Z * W).

Fixpoint slipif_loop_thread (rounds : nat) (priv : slipif_priv) n (nif : Z) : res (slipif_priv * net A W) :=
  match rounds with
  | O => Ok (priv, n)
  | S rounds' =>
      let* (priv, n) :=
        match sio_read (world n) (sd priv) with
        | Some (c, w) => slipif_rxbyte_input priv (with_world w n) nif c
        | None => Ok (priv, n)
        end in
      slipif_loop_thread rounds' priv n nif
  end.

(** *** Initialisation *)

(** [state] is the number of the port that [netif->state] points to, if any. *)
Definition slipif_init n (nif : Z) (state : option Z) : res (err_t * option slipif_priv * net A W) :=
  let* (priv, a) := mem_malloc (alloc (packets n)) SIZEOF_SLIPIF_PRIV in
  let n := with_packets (with_alloc a (packets n)) n in
  if priv =? NULL then Ok (ERR_MEM, None, n)
  else
    let* n := upd_netif n nif (fun nf => mk_netif (netif_ip4_addr nf) (netif_ip4_netmask nf) (netif_ip4_gw nf) (netif_flags nf)
                (netif_hwaddr nf) SLIP_MAX_SIZE [115; 108] (netif_num nf) (loop_first nf) (loop_last nf) (loop_cnt_current nf)) in
    let* nf := netif_at n nif in
    let (fd, w) := sio_open (world n) (default (netif_num nf) state) in
    let n := with_world w n in
    if fd =? NULL then
      let* a := mem_free (alloc (packets n)) priv in
      Ok (ERR_IF, None, with_packets (with_alloc a (packets n)) n)
    else Ok (ERR_OK, Some (mk_priv fd NULL NULL SLIP_RECV_NORMAL 0 0 NULL), n).

(** *** Receiving in an interrupt *)

(** The last pbuf of the first packet in the queue. *)
Fixpoint packet_tail (fuel : nat) n (q : Z) : res Z :=
  match fuel with
  | O => Fault FFuel
  | S fuel' =>
      let* b := pbuf_at n q in
      if negb (len b =? tot_len b) && negb (next b =? NULL) then packet_tail fuel' n (next b) else Ok q
  end.

Fixpoint slipif_process_rxqueue (fuel : nat) (priv : slipif_priv) n (nif : Z) : res (slipif_priv * net A W) :=
  match fuel with
  | O => Fault FFuel
  | S fuel' =>
      if rxpackets priv =? NULL then Ok (priv, n)
      else
        let p := rxpackets priv in
        let* q := packet_tail (walk_fuel (pbufs (packets n))) n p in
        let* b := pbuf_at n q in
        let* s := upd (packets n) q (with_next NULL) in
        let* n := pass_up (with_packets s n) p nif in
        slipif_process_rxqueue fuel' (with_rxpackets (next b) priv) n nif
  end.

(** The last pbuf of a chain. *)
Fixpoint chain_tail (fuel : nat) n (q : Z) : res Z :=
  match fuel with
  | O => Fault FFuel
  | S fuel' => let* b := pbuf_at n q in if next b =? NULL then Ok q else chain_tail fuel' n (next b)
  end.

(** The search for the end of the queue starts from the new packet. *)
Definition slipif_rxbyte_enqueue (priv : slipif_priv) n (data : Z) : res (slipif_priv * net A W) :=
  let* (p, priv, n) := slipif_rxbyte priv n data in
  if negb (p =? NULL) then
    if negb (rxpackets priv =? NULL) then
      let* q := chain_tail (walk_fuel (pbufs (packets n))) n p in
      let* s := upd (packets n) q (with_next p) in
      Ok (priv, with_packets s n)
    else Ok (with_rxpackets p priv, n)
  else Ok (priv, n).

Definition slipif_received_byte (priv : slipif_priv) n (data : Z) : res (slipif_priv * net A W) := slipif_rxbyte_enqueue priv n data.

Fixpoint slipif_received_bytes (priv : slipif_priv) n (data : list Z) : res (slipif_priv * net A W) :=
  match data with
  | [] => Ok (priv, n)
  | c :: data' => let* (priv, n) := slipif_rxbyte_enqueue priv n c in slipif_received_bytes priv n data'
  end.

End Slip.

(** ** What is sent *)

(** RFC 1055. *)
Definition slip_escape (c : Z) : list Z :=
  if c =? SLIP_END then [SLIP_ESC; SLIP_ESC_END] else if c =? SLIP_ESC then [SLIP_ESC; SLIP_ESC_ESC] else [c].

Definition slip_frame (D : list Z) : list Z := [SLIP_END] ++ (D ≫= slip_escape) ++ [SLIP_END].

Section Output.
Context {A W : Type} `{AllocOps A}.
Variable sio_send : Z -> Z -> W -> W.
Implicit Types n : net A W.

(** Characters sent one after the other. *)
Definition send_all (sd : Z) (cs : list Z) (w : W) : W := foldl (fun w c => sio_send c sd w) w cs.

Lemma send_all_app sd cs cs' w : send_all sd (cs ++ cs') w = send_all sd cs' (send_all sd cs w).
Proof. apply foldl_app. Qed.

Lemma slip_send_spec sd c w : slip_send sio_send sd c w = send_all sd (slip_escape c) w.
Proof. unfold slip_send, slip_escape. destruct (c =? SLIP_END); [done|]. by destruct (c =? SLIP_ESC). Qed.

Lemma send_payload_spec sd m pl l k : forall i w,
  0 <= i -> i + Z.of_nat k = l -> l <= 65535 ->
  send_payload sio_send (S k) m pl l i sd w = Ok (send_all sd (rd m (pl + i) k ≫= slip_escape) w).
Proof.
  induction k as [|k IH]; intros i w Hi Hl Hm.
  - cbn [send_payload]. by rewrite (proj2 (Z.ltb_ge _ _)) by lia.
  - change (send_payload sio_send (S (S k)) m pl l i sd w) with
      (if i <? l then send_payload sio_send (S k) m pl l (u16 (i + 1)) sd (slip_send sio_send sd (rd8 m (pl + i)) w) else Ok w).
    rewrite (proj2 (Z.ltb_lt i l)) by lia. rewrite u16_id by (unfold is_u16; lia). rewrite IH, slip_send_spec by lia. change (S k) with (1 + k)%nat.
    rewrite rd_add, bind_app, send_all_app. change (Z.of_nat 1) with 1. rewrite <- Z.add_assoc.
    assert (E : rd m (pl + i) 1 = [rd8 m (pl + i)]) by (unfold rd; cbn; do 2 f_equal; lia).
    rewrite E. cbn [mbind list_bind]. by rewrite app_nil_r.
Qed.

Lemma send_chain_spec bl : forall fuel n p sd w,
  chain (pbufs (packets n)) p bl -> lens_ok bl -> total bl <= 65535 -> (length bl < fuel)%nat ->
  send_chain sio_send fuel n p sd w = Ok (send_all sd (cdata (mem n) bl ≫= slip_escape) w).
Proof.
  induction bl as [|[a b] bl IH]; intros [|fuel] n p sd w Hc Hok Ht Hf; cbn [length] in Hf; try lia; cbn [send_chain].
  - cbn [chain] in Hc. subst p. done.
  - destruct Hc as (-> & Hne & Hb & Hc), Hok as (Hl & _ & Hok). rewrite total_cons in Ht. pose proof (lens_ok_nonneg _ Hok).
    rewrite (proj2 (Z.eqb_neq _ _)) by done. unfold pbuf_at. rewrite (deref_ok _ _ _ Hb). cbn [res_bind].
    rewrite send_payload_spec by lia. cbn [res_bind]. rewrite Z.add_0_r, IH by (done || lia). by rewrite cdata_cons, bind_app, send_all_app.
Qed.

Lemma slipif_output_spec priv n p bl :
  packet (pbufs (packets n)) p bl -> p <> NULL ->
  slipif_output sio_send priv n p = Ok (ERR_OK, with_world (send_all (sd priv) (slip_frame (cdata (mem n) bl)) (world n)) n).
Proof.
  intros (Hc & Hok & Ht) Hne. unfold slipif_output. rewrite (proj2 (Z.eqb_neq p NULL)) by done. cbn [negb lwip_assert res_bind].
  rewrite (send_chain_spec bl) by (done || by eapply chain_fuel). cbn [res_bind]. unfold slip_frame. by rewrite !send_all_app.
Qed.

End Output.

(** ** What is received *)

(** The receiver of RFC 1055, which keeps at most 1501 characters of a packet: whether the last
    character was ESC, and the characters of the packet so far. *)
Definition slip_keep (D : list Z) (c : Z) : list Z := if Z.of_nat (length D) <=? SLIP_MAX_SIZE then D ++ [c] else D.
Definition slip_unescape (c : Z) : Z := if c =? SLIP_ESC_END then SLIP_END else if c =? SLIP_ESC_ESC then SLIP_ESC else c.

Definition slip_step (esc : bool) (D : list Z) (c : Z) : bool * list Z * option (list Z) :=
  if esc then (false, slip_keep D (slip_unescape c), None)
  else if c =? SLIP_END then match D with [] => (false, [], None) | _ => (false, [], Some D) end
  else if c =? SLIP_ESC then (true, D, None)
  else (false, slip_keep D c, None).

Section Input.
Context {A W : Type} `{AllocSpec A}.
Variable stale_flags : Z -> Z.
Variable custom_free : Z -> Z -> Pbuf.state A -> res (Pbuf.state A).
Variable callback_ok : bool.
Hypothesis stale_flags_law : forall p, Z.land (stale_flags p) PBUF_FLAG_IS_CUSTOM = 0.
Implicit Types n : net A W.

(** The pbufs of a packet that is being received. *)
Definition slip_pbuf (b : pbuf) : Prop := ref b = 1 /\ is_custom b = false /\ type b = PBUF_POOL /\ len b = 112.

(** There is room for the next character. *)
Definition rx_room (priv : slipif_priv) (D : list Z) (bl : list (Z * pbuf)) : Prop :=
  exists bl1 b, bl = bl1 ++ [(rx_p priv, b)] /\ rx_i priv = Z.of_nat (length D) - total bl1 /\ 0 <= rx_i priv < 112.

(** The characters [D] of a packet are in the chain [bl]; the next one goes to the last pbuf, or to
    a new one. *)
Record rx_ok n (priv : slipif_priv) (esc : bool) (D : list Z) (bl : list (Z * pbuf)) : Prop := {
  rx_wf : exists L, wf (packets n) L;
  rx_mem : mem_ok (mem n);
  rx_packet : packet (pbufs (packets n)) (rx_q priv) bl;
  rx_pbufs : Forall (slip_pbuf ∘ snd) bl;
  rx_esc : rx_state priv = (if esc then SLIP_RECV_ESCAPE else SLIP_RECV_NORMAL);
  rx_len : Z.of_nat (length D) <= SLIP_MAX_SIZE + 1;
  rx_recved : recved priv = Z.of_nat (length D);
  rx_data : take (length D) (cdata (mem n) bl) = D;
  rx_pos : (rx_p priv = NULL /\ rx_i priv = 0 /\ total bl = Z.of_nat (length D))
           \/ rx_room priv D bl
}.

(** One pbuf of 112 bytes comes from the pool. *)
Lemma rx_alloc n L :
  wf (packets n) L ->
  exists p s', alloc_pbuf stale_flags custom_free callback_ok n PBUF_LINK (PBUF_POOL_BUFSIZE - PBUF_LINK_HLEN - PBUF_LINK_ENCAPSULATION_HLEN) PBUF_POOL
      = Ok (p, with_packets s' n) /\ bytes s' = mem n
    /\ ((p = NULL /\ wf s' L /\ pbufs s' = pbufs (packets n))
        \/ exists L' b, p <> NULL /\ wf s' L' /\ packet (pbufs s') p [(p, b)] /\ slip_pbuf b
             /\ L !! p = None /\ frame (pbufs (packets n)) (pbufs s') [p]).
Proof.
  intros Hw. unfold alloc_pbuf, on_packets. change (PBUF_POOL_BUFSIZE - PBUF_LINK_HLEN - PBUF_LINK_ENCAPSULATION_HLEN) with 112.
  destruct (pbuf_alloc_spec custom_free stale_flags callback_ok stale_flags_law (packets n) L PBUF_LINK 112 PBUF_POOL Hw)
    as (p & s' & E & Eb & _ & Hpost); [done|done|]. rewrite E. cbn [res_bind]. exists p, s'. split_and!; [done|done|].
  destruct Hpost as [Hz|(Hne & bl & L' & Hpk & Htot & Hfr & Hw' & HL & _ & Hfp & _)]; [by left|right].
  assert (Hb : exists pl, pbufs s' !! p = Some (mk_pbuf NULL pl 112 112 PBUF_POOL 0 1)).
  { revert E. unfold pbuf_alloc, alloc_pool. destruct (memp_malloc _ _) as [[q a]|]; [|done]. cbn [res_bind].
    destruct (Z.eqb_spec q NULL) as [->|Hq]; [by intros [= <- _]|]. cbv zeta. destruct (lwip_assert _); [|done]. cbn [res_bind].
    change (layer_offset PBUF_LINK) with 16. change (u16 (Z.min 112 (PBUF_POOL_BUFSIZE_ALIGNED - LWIP_MEM_ALIGN_SIZE 16))) with 112.
    do 2 (destruct (lwip_assert _); [|done]; cbn [res_bind]). change (0 <? 112 - 112) with false.
    cbn [alloc_tail]. change (0 <? 112 - 112) with false. cbv iota. cbn [res_bind].
    rewrite (proj2 (Z.eqb_neq q NULL)) by done. unfold upd at 1. cbn [with_pbufs pbufs].
    rewrite (deref_ok _ q _ (lookup_insert_eq _ _ _)). cbn [res_bind]. unfold upd. cbn [with_pbufs pbufs].
    rewrite (deref_ok _ q _ (lookup_insert_eq _ _ _)). cbn [res_bind]. intros [= <- <-]. eexists. cbn [with_pbufs pbufs]. apply lookup_insert_eq. }
  destruct Hb as (pl & Hb). exists L', (mk_pbuf NULL pl 112 112 PBUF_POOL 0 1).
  assert (bl = [(p, mk_pbuf NULL pl 112 112 PBUF_POOL 0 1)]) as -> by (eapply chain_det; [apply Hpk|by split_and!]).
  split_and!; try done. apply HL. left.
Qed.

Lemma slip_apart (s : Pbuf.state A) L p bl : wf s L -> chain (pbufs s) p bl -> Forall (slip_pbuf ∘ snd) bl -> payloads_apart bl.
Proof.
  intros Hw. revert p. induction bl as [|[a b] bl IH]; intros p Hc Hf; [done|]. pose proof (chain_NoDup _ _ _ Hc) as Hnd.
  destruct Hc as (-> & _ & Hb & Hc). apply Forall_cons in Hf as [(_ & Hcu & Hty & _) Hf]. cbn [snd] in *.
  cbn [fmap list_fmap fst] in Hnd. apply NoDup_cons in Hnd as [Hnot _]. split; [|by eapply IH].
  apply Forall_forall. intros [x c] Hin. cbn [snd]. destruct (chain_lookup _ _ _ _ _ Hc Hin) as (_ & Hx).
  rewrite Forall_forall in Hf. destruct (Hf _ Hin) as (_ & Hcu' & Hty' & _). cbn [snd] in *.
  destruct (wf_placed _ _ Hw a b Hb) as (o & k & HL & Ho). destruct (wf_placed _ _ Hw x c Hx) as (o' & k' & HL' & Ho').
  destruct (Ho Hcu) as [_ Hib], (Ho' Hcu') as [_ Hib']. destruct (Hib (or_intror Hty)), (Hib' (or_intror Hty')).
  unfold SIZEOF_STRUCT_PBUF in *. destruct (owned_apart _ _ a o k x o' k' (wf_owned _ _ Hw) HL HL'); [|lia|lia].
  intros ->. apply Hnot, list_elem_of_fmap. by exists (x, c).
Qed.

(** The pbufs of both parts, after they have been linked. *)
Lemma slip_front bl r br t k : Forall (slip_pbuf ∘ snd) (bl ++ [(r, br)]) -> Forall (slip_pbuf ∘ snd) (cat_front bl r br t k).
Proof.
  intros Hf. unfold cat_front. apply Forall_app in Hf as [Hf Hr]. apply Forall_inv in Hr. apply Forall_app. split; [|by constructor].
  rewrite Forall_forall in *. intros [a c] Hin. destruct (retot_elem _ _ _ _ Hin) as (b & v & Hb & ->). exact (Hf _ Hb).
Qed.

(** Characters that were lost because the pool was empty. *)
Definition drops n : Z := stats n P_link c_drop.

(** A new pbuf is linked to the chain. *)
Lemma rx_link n priv esc D bl s' L' p b :
  rx_ok n priv esc D bl -> bl <> [] -> total bl = Z.of_nat (length D) -> rx_i priv = 0 -> wf s' L' -> bytes s' = mem n ->
  packet (pbufs s') p [(p, b)] -> slip_pbuf b -> p <> NULL -> p ∉ fst <$> bl -> frame (pbufs (packets n)) (pbufs s') [p] ->
  let priv' := with_rx p (rx_q priv) (rx_i priv) (recved priv) priv in
  exists h' bl', rx_q priv <> NULL /\ pbuf_cat s' (rx_q priv) p = Ok (with_pbufs h' s')
    /\ rx_ok (with_packets (with_pbufs h' s') n) priv' esc D bl' /\ rx_room priv' D bl'.
Proof.
  intros [_ Hm Hpk Hsp He Hlen Hrec Hdat _] Hbl Htot Hi Hw' Eb Hpk' Hsb Hne Hnot Hfr priv'.
  assert (Hlb : len b = 112) by apply Hsb.
  destruct (exists_last Hbl) as (bl0 & [r br] & ->).
  assert (Hq : rx_q priv <> NULL) by (intros E'; destruct Hpk as (Hc & _); rewrite E' in Hc; destruct bl0 as [|[] ?]; destruct Hc as (<- & ? & _); done).
  assert (Hpk1 : packet (pbufs s') (rx_q priv) (bl0 ++ [(r, br)])).
  { destruct Hpk as (Hc & Hok & Ht). split; [|done]. eapply chain_frame; [|exact Hc]. intros a Ha. apply Hfr. rewrite list_elem_of_singleton. by intros ->. }
  unfold SLIP_MAX_SIZE in Hlen.
  destruct (pbuf_cat_spec s' (rx_q priv) bl0 r br p [(p, b)] Hpk1 Hpk' Hne) as (h' & Ec & Hpk2 & Hfr2).
  { intros a Ha. cbn [fmap list_fmap fst]. rewrite list_elem_of_singleton. by intros ->. }
  { rewrite Htot, total_cons. change (total []) with 0. lia. }
  set (f := cat_front bl0 r br p (total [(p, b)])) in *.
  assert (Htf : total f = Z.of_nat (length D)) by (rewrite <- Htot; unfold f, cat_front; by rewrite !total_app, retot_total).
  assert (Hend : rx_room priv' D (f ++ [(p, b)])).
  { exists f, b. unfold priv'. cbn [with_rx rx_p rx_i]. split_and!; [done|lia|lia|lia]. }
  assert (Em : mem (with_packets (with_pbufs h' s') n) = mem n) by exact Eb.
  exists h', (f ++ [(p, b)]). split_and!; [done|exact Ec| |done].
  split; try done; [exists L'; by eapply cat_wf|by rewrite Em|apply Forall_app; split; [by apply slip_front|by constructor]| |by right].
  rewrite Em, cdata_app. unfold f. rewrite cat_front_cdata. rewrite take_app_le; [done|].
  pose proof (length_cdata (mem n) _ (proj1 (proj2 Hpk))). lia.
Qed.

Lemma rx_pbuf_spec n priv esc D bl :
  rx_ok n priv esc D bl ->
  exists priv' n' bl', rx_pbuf stale_flags custom_free callback_ok priv n = Ok (priv', n') /\ rx_ok n' priv' esc D bl' /\ world n' = world n
    /\ ((rx_p priv' = NULL /\ drops n' = u16 (drops n + 1))
        \/ (drops n' = drops n /\ rx_room priv' D bl')).
Proof.
  intros [[L Hw] Hm Hpk Hsp He Hlen Hrec Hdat Hpos]. unfold rx_pbuf. destruct Hpos as [(Hp & Hi & Htot)|Hpos].
  2:{ assert (Hne : rx_p priv <> NULL).
      { destruct Hpos as (bl1 & b & -> & _). eapply (chain_lookup _ _ _ _ b (proj1 Hpk)). apply elem_of_app. right. left. }
      rewrite (proj2 (Z.eqb_neq _ NULL)) by done. exists priv, n, bl. split_and!; [done|split; [by exists L|done..|by right]|done|by right]. }
  rewrite Hp. change (NULL =? NULL) with true. cbv iota.
  destruct (rx_alloc n L Hw) as (p & s' & E & Eb & [(-> & Hw' & Ep)|(L' & b & Hne & Hw' & Hpk' & Hsb & HL & Hfr)]); rewrite E; cbn [res_bind].
  { change (NULL =? NULL) with true. cbv iota. exists priv, (inc P_link c_drop (with_packets s' n)), bl.
    split_and!; [done| |done|left; split; [done|reflexivity]].
    split; [by exists L|unfold mem; cbn; by rewrite Eb|cbn; by rewrite Ep|done|done|done|done|unfold mem; cbn; by rewrite Eb|by left]. }
  rewrite (proj2 (Z.eqb_neq p NULL)) by done.
  assert (Hnot : p ∉ fst <$> bl).
  { intros Hin. apply list_elem_of_fmap in Hin as ([x c] & -> & Hin). destruct (chain_lookup _ _ _ _ _ (proj1 Hpk) Hin) as (_ & Hx).
    destruct (wf_placed _ _ Hw _ _ Hx) as (o & k & HL' & _). cbn [fst] in HL. congruence. }
  destruct (decide (bl = [])) as [->|Hbl].
  { pose proof Hpk as (Hq & _ & _). cbn [chain] in Hq. rewrite Hq. change (NULL =? NULL) with true. cbn [negb].
    change (total []) with 0 in Htot. assert (D = []) as -> by (destruct D; [done|cbn [length] in Htot; lia]).
    exists (with_rx p p (rx_i priv) (recved priv) priv), (with_packets s' n), [(p, b)]. cbn [with_rx rx_p rx_i].
    assert (Hend : rx_room (with_rx p p (rx_i priv) (recved priv) priv) [] [(p, b)]).
    { exists [], b. cbn [with_rx rx_p rx_i]. rewrite Hi. split_and!; [done|done|lia|lia]. }
    split_and!; [done| |done|by right]. split; try done; [by exists L'|unfold mem; cbn; by rewrite Eb|by constructor|by right]. }
  destruct (rx_link n priv esc D bl s' L' p b) as (h' & bl' & Hq & Ec & Hok' & Hroom); [split; [by exists L|done..|by left]|done..|].
  rewrite (proj2 (Z.eqb_neq _ NULL)) by done. cbn [negb with_packets packets]. rewrite Ec. cbn [res_bind].
  eexists _, _, bl'. split_and!; [reflexivity|exact Hok'|done|by right].
Qed.

(** Writing the next character. *)
Lemma rx_write m bl1 p b D c :
  lens_ok (bl1 ++ [(p, b)]) -> payloads_apart (bl1 ++ [(p, b)]) -> len b = 112 ->
  take (length D) (cdata m (bl1 ++ [(p, b)])) = D -> 0 <= Z.of_nat (length D) - total bl1 < 112 ->
  take (length (D ++ [c])) (cdata (wr m (payload b + (Z.of_nat (length D) - total bl1)) [c]) (bl1 ++ [(p, b)])) = D ++ [c].
Proof.
  intros Hok Hap Hlb Hdat Hi. rewrite cdata_wr_inside by (done || cbn [length]; lia).
  replace (Z.to_nat (total bl1 + (Z.of_nat (length D) - total bl1))) with (length D) by lia. unfold splice. rewrite Hdat, length_app.
  cbn [length]. by rewrite app_assoc, take_app_length' by (rewrite length_app; cbn [length]; lia).
Qed.

Lemma rx_store_spec n priv esc D bl c :
  rx_ok n priv esc D bl -> is_u8 c ->
  exists priv' n' bl' D', rx_store stale_flags custom_free callback_ok priv n c = Ok (priv', n') /\ rx_ok n' priv' esc D' bl' /\ world n' = world n
    /\ ((D' = slip_keep D c /\ drops n' = drops n) \/ (D' = D /\ drops n' = u16 (drops n + 1))).
Proof.
  intros Hok Hc. unfold rx_store. destruct (rx_pbuf_spec _ _ _ _ _ Hok) as (priv1 & n1 & bl1 & E & Hok1 & Ew & [(Hp & Hd)|(Hd & Hroom)]); rewrite E; cbn [res_bind].
  { rewrite Hp. change (NULL =? NULL) with true. cbn [negb andb]. exists priv1, n1, bl1, D. split_and!; try done. by right. }
  destruct Hok1 as [[L Hw] Hm Hpk Hsp He Hlen Hrec Hdat _]. destruct Hroom as (bl0 & b & -> & Ei & Hi).
  destruct (chain_lookup _ _ _ (rx_p priv1) b (proj1 Hpk)) as (Hne & Hb); [apply elem_of_app; right; left|].
  rewrite (proj2 (Z.eqb_neq _ NULL)) by done. cbn [negb andb]. rewrite Hrec. unfold slip_keep. unfold SLIP_MAX_SIZE in *.
  destruct (Z.leb_spec (Z.of_nat (length D)) 1500) as [Hle|Hgt].
  2:{ exists priv1, n1, (bl0 ++ [(rx_p priv1, b)]), D. split_and!; [done| |done|by left].
      split; try done; [by exists L|right; by exists bl0, b]. }
  assert (Hsb : slip_pbuf b) by (apply Forall_app in Hsp as [_ Hsp]; by apply Forall_inv in Hsp). pose proof Hsb as (_ & _ & _ & Hlb).
  assert (Hnx : next b = NULL) by (destruct Hpk as (Hch & _); apply cseg_chain in Hch as (q & _ & (_ & _ & _ & Hch)); exact Hch).
  unfold pbuf_at at 1. rewrite (deref_ok _ _ _ Hb). cbn [res_bind]. rewrite Hnx, Hlb. change (NULL =? NULL) with true. cbn [negb].
  rewrite !u16_id by (unfold is_u16; lia).
  set (n2 := with_mem _ n1). assert (Hdat2 : take (length (D ++ [c])) (cdata (mem n2) (bl0 ++ [(rx_p priv1, b)])) = D ++ [c]).
  { unfold n2. change (mem (with_mem ?m n1)) with m. rewrite Ei. apply rx_write; try done; [apply Hpk|by eapply slip_apart; [|apply Hpk|]|lia]. }
  assert (Hm2 : mem_ok (mem n2)) by (apply mem_ok_wr; [done|by constructor]).
  assert (Hlen2 : Z.of_nat (length (D ++ [c])) = Z.of_nat (length D) + 1) by (rewrite length_app; cbn [length]; lia).
  assert (Hgo : forall priv', rx_q priv' = rx_q priv1 -> rx_state priv' = rx_state priv1 -> recved priv' = Z.of_nat (length D) + 1 ->
    (rx_p priv' = NULL /\ rx_i priv' = 0 /\ total (bl0 ++ [(rx_p priv1, b)]) = Z.of_nat (length (D ++ [c]))) \/ rx_room priv' (D ++ [c]) (bl0 ++ [(rx_p priv1, b)]) ->
    exists priv'' n' bl' D', Ok (priv', n2) = Ok (priv'', n') /\ rx_ok n' priv'' esc D' bl' /\ world n' = world n
      /\ ((D' = D ++ [c] /\ drops n' = drops n) \/ (D' = D /\ drops n' = u16 (drops n + 1)))).
  { intros priv' Eq Es Er Hpos. exists priv', n2, (bl0 ++ [(rx_p priv1, b)]), (D ++ [c]). split_and!; [done| |done|by left].
    split; try done; [exists L; by destruct Hw|by rewrite Eq|by rewrite Es|unfold SLIP_MAX_SIZE; lia|lia]. }
  destruct (Z.leb_spec 112 (rx_i priv1 + 1)); cbn [res_bind]; apply Hgo; try done.
  - left. cbn [with_rx rx_p rx_i]. rewrite total_app, total_cons. change (total []) with 0. split_and!; [done|done|lia].
  - right. exists bl0, b. cbn [with_rx rx_p rx_i]. split_and!; [done|lia|lia|lia].
Qed.

Lemma unescape_u8 c : is_u8 c -> is_u8 (slip_unescape c).
Proof. unfold slip_unescape. destruct (c =? SLIP_ESC_END); [done|]. by destruct (c =? SLIP_ESC_ESC). Qed.

Lemma rx_state_ok n priv esc (esc' : bool) D bl :
  rx_ok n priv esc D bl -> rx_ok n (with_rx_state (if esc' then SLIP_RECV_ESCAPE else SLIP_RECV_NORMAL) priv) esc' D bl.
Proof. intros []. by split. Qed.

(** The packet is complete. *)
Lemma rx_end n priv D bl :
  rx_ok n priv false D bl -> D <> [] ->
  exists s' bl', pbuf_realloc custom_free (packets n) (rx_q priv) (recved priv) = Ok s' /\ rx_q priv <> NULL
    /\ packet (pbufs s') (rx_q priv) bl' /\ cdata (bytes s') bl' = D
    /\ rx_ok (inc P_link c_recv (with_packets s' n)) (with_rx NULL NULL 0 0 priv) false [] [].
Proof.
  intros [[L Hw] Hm Hpk Hsp He Hlen Hrec Hdat _] Hne. pose proof (length_cdata (mem n) bl (proj1 (proj2 Hpk))) as Hcd.
  assert (Hle : Z.of_nat (length D) <= total bl) by (rewrite <- Hdat, length_take; lia).
  assert (Hq : rx_q priv <> NULL).
  { intros E. destruct bl as [|[a b] bl]; [destruct D; [done|cbn in Hdat; discriminate]|]. destruct Hpk as ((E' & ? & _) & _). congruence. }
  destruct (realloc_prefix custom_free (packets n) L (rx_q priv) bl (recved priv) Hw Hpk Hq) as (s' & L' & bl' & E & Hw' & Eb & Hpk' & _ & Hd).
  { eapply Forall_impl; [exact Hsp|]. intros ab (Hr & Hc & _). split; [lia|congruence]. }
  { lia. }
  exists s', bl'. split_and!; [done|done|done| |].
  - rewrite Eb, Hd, Hrec, Nat2Z.id. exact Hdat.
  - split; [by exists L'|unfold mem; cbn; by rewrite Eb|by split_and!|by constructor|done|unfold SLIP_MAX_SIZE; cbn; lia|done|done|by left].
Qed.

(** One character is received.  In every state of the receiver and for every character the code
    does what the receiver of RFC 1055 does, with packets limited to 1501 characters: it passes
    on a packet of exactly the characters between two ENDs, with the escapes undone.  The one
    exception is a character for which the pool has no pbuf: it is lost, and counted. *)
Lemma rxbyte_spec n priv esc D bl c :
  rx_ok n priv esc D bl -> is_u8 c ->
  exists t priv' n', slipif_rxbyte stale_flags custom_free callback_ok priv n c = Ok (t, priv', n') /\ world n' = world n
    /\ match slip_step esc D c with
       | (_, _, Some D0) => t <> NULL /\ (exists blp, packet (pbufs (packets n')) t blp /\ cdata (mem n') blp = D0)
                            /\ rx_ok n' priv' false [] [] /\ drops n' = drops n
       | (esc', D', None) => t = NULL /\ exists bl' D'', rx_ok n' priv' esc' D'' bl'
                            /\ ((D'' = D' /\ drops n' = drops n) \/ (D'' = D /\ drops n' = u16 (drops n + 1)))
       end.
Proof.
  intros Hok Hc. unfold slipif_rxbyte, slip_step. rewrite (rx_esc _ _ _ _ _ Hok). destruct esc.
  - destruct (rx_store_spec _ _ _ _ _ (slip_unescape c) (rx_state_ok _ _ _ false _ _ Hok) (unescape_u8 c Hc)) as (priv' & n' & bl' & D' & E & Hok' & Ew & Hd).
    unfold slip_unescape in E at 1. rewrite E. cbn [res_bind]. exists NULL, priv', n'. split_and!; try done. by exists bl', D'.
  - destruct (c =? SLIP_END).
    + rewrite (rx_recved _ _ _ _ _ Hok). destruct D as [|d D].
      * exists NULL, priv, n. split_and!; try done. exists bl, []. split; [done|by left].
      * rewrite (proj2 (Z.ltb_lt 0 _)) by (cbn [length]; lia). rewrite <- (rx_recved _ _ _ _ _ Hok).
        destruct (rx_end _ _ _ _ Hok) as (s' & bl' & E & Hq & Hpk & Hd & Hok'); [done|]. rewrite E. cbn [res_bind].
        eexists _, _, _. split_and!; [done|done|done|by exists bl'|exact Hok'|done].
    + destruct (c =? SLIP_ESC).
      * exists NULL, (with_rx_state SLIP_RECV_ESCAPE priv), n. split_and!; try done. exists bl, D. split; [by apply (rx_state_ok _ _ false true)|by left].
      * destruct (rx_store_spec _ _ _ _ _ c Hok Hc) as (priv' & n' & bl' & D' & E & Hok' & Ew & Hd).
        rewrite E. cbn [res_bind]. exists NULL, priv', n'. split_and!; try done. by exists bl', D'.
Qed.

(** The characters one after the other, and the packets that they make up. *)
Fixpoint slip_rx (priv : slipif_priv) n (cs : list Z) : res (list Z * slipif_priv * net A W) :=
  match cs with
  | [] => Ok ([], priv, n)
  | c :: cs' =>
      let* (t, priv, n) := slipif_rxbyte stale_flags custom_free callback_ok priv n c in
      let* (ps, priv, n) := slip_rx priv n cs' in
      Ok (if t =? NULL then ps else t :: ps, priv, n)
  end.

Lemma slip_rx_app cs cs' : forall priv n,
  slip_rx priv n (cs ++ cs') =
    (let* (ps, priv, n) := slip_rx priv n cs in let* (ps', priv, n) := slip_rx priv n cs' in Ok (ps ++ ps', priv, n)).
Proof.
  induction cs as [|c cs IH]; intros priv n; cbn [app slip_rx].
  - cbn [res_bind]. by destruct (slip_rx priv n cs') as [[[ps p] x]|].
  - destruct (slipif_rxbyte _ _ _ _ _ _) as [[[t p] x]|]; [|done]. cbn [res_bind]. rewrite IH.
    destruct (slip_rx p x cs) as [[[ps p1] x1]|]; [|done]. cbn [res_bind]. destruct (slip_rx p1 x1 cs') as [[[ps2 p2] x2]|]; [|done].
    cbn [res_bind]. by destruct (t =? NULL).
Qed.

(** [k] characters have been lost. *)
Definition lost n n' (k : Z) : Prop := drops n' = u16 (drops n + k).

(** The characters for one byte of data. *)
Lemma rx_escaped n priv D bl c :
  rx_ok n priv false D bl -> is_u8 c -> is_u16 (drops n) ->
  exists priv' n' bl' D' k, slip_rx priv n (slip_escape c) = Ok ([], priv', n') /\ rx_ok n' priv' false D' bl' /\ world n' = world n
    /\ is_u16 (drops n') /\ lost n n' k /\ 0 <= k <= 1 /\ (k = 0 -> D' = slip_keep D c).
Proof.
  intros Hok Hc Hd.
  assert (Hone : forall priv1 esc x, rx_ok n priv1 esc D bl -> is_u8 x -> slip_step esc D x = (false, slip_keep D c, None) ->
    exists priv' n' bl' D' k, slip_rx priv1 n [x] = Ok ([], priv', n') /\ rx_ok n' priv' false D' bl' /\ world n' = world n
      /\ is_u16 (drops n') /\ lost n n' k /\ 0 <= k <= 1 /\ (k = 0 -> D' = slip_keep D c)).
  { intros priv1 esc x Hok1 Hx Hst. destruct (rxbyte_spec _ _ _ _ _ _ Hok1 Hx) as (t & priv' & n' & E & Ew & Hpost).
    rewrite Hst in Hpost. destruct Hpost as (-> & bl' & D' & Hok' & Hk). cbn [slip_rx]. rewrite E. cbn [res_bind].
    destruct Hk as [(-> & Ed)|(-> & Ed)].
    - exists priv', n', bl', (slip_keep D c), 0. split_and!; try done; [by rewrite Ed|unfold lost; by rewrite Ed, Z.add_0_r, u16_id].
    - exists priv', n', bl', D, 1. split_and!; try done. rewrite Ed. apply u16_range. }
  assert (Hesc : forall x, slip_rx priv n [SLIP_ESC; x] = slip_rx (with_rx_state SLIP_RECV_ESCAPE priv) n [x]).
  { intros x. change (slip_rx priv n [SLIP_ESC; x]) with (let* (t, priv, n) := slipif_rxbyte stale_flags custom_free callback_ok priv n SLIP_ESC in
      let* (ps, priv, n) := slip_rx priv n [x] in Ok (if t =? NULL then ps else t :: ps, priv, n)).
    unfold slipif_rxbyte. rewrite (rx_esc _ _ _ _ _ Hok). cbn [Z.eqb Pos.eqb SLIP_ESC SLIP_END res_bind].
    by destruct (slip_rx _ n [x]) as [[[? ?] ?]|]. }
  unfold slip_escape. destruct (Z.eqb_spec c SLIP_END) as [->|H1]; [|destruct (Z.eqb_spec c SLIP_ESC) as [->|H2]].
  - rewrite Hesc. apply (Hone _ true); [by apply (rx_state_ok _ _ false true)|done|done].
  - rewrite Hesc. apply (Hone _ true); [by apply (rx_state_ok _ _ false true)|done|done].
  - apply (Hone _ false); try done. unfold slip_step. by rewrite (proj2 (Z.eqb_neq c SLIP_END)), (proj2 (Z.eqb_neq c SLIP_ESC)).
Qed.

Lemma rx_body B : forall n priv D bl,
  rx_ok n priv false D bl -> bytes_ok B -> is_u16 (drops n) ->
  exists priv' n' bl' D' k, slip_rx priv n (B ≫= slip_escape) = Ok ([], priv', n') /\ rx_ok n' priv' false D' bl' /\ world n' = world n
    /\ is_u16 (drops n') /\ lost n n' k /\ 0 <= k <= Z.of_nat (length B) /\ (k = 0 -> D' = foldl slip_keep D B).
Proof.
  induction B as [|c B IH]; intros n priv D bl Hok HB Hd.
  - exists priv, n, bl, D, 0. unfold lost. rewrite Z.add_0_r, u16_id by done. by split_and!.
  - apply Forall_cons in HB as [Hc HB]. cbn [mbind list_bind]. rewrite slip_rx_app.
    destruct (rx_escaped _ _ _ _ _ Hok Hc Hd) as (p1 & n1 & bl1 & D1 & k1 & E1 & Hok1 & Ew1 & Hd1 & Hl1 & Hk1 & Hz1).
    destruct (IH _ _ _ _ Hok1 HB Hd1) as (p2 & n2 & bl2 & D2 & k2 & E2 & Hok2 & Ew2 & Hd2 & Hl2 & Hk2 & Hz2).
    rewrite E1. cbn [res_bind]. rewrite E2. cbn [res_bind app]. exists p2, n2, bl2, D2, (k1 + k2).
    split_and!; try done; [congruence| |lia|cbn [length]; lia|].
    + unfold lost in *. rewrite Hl2, Hl1. unfold u16. zlia.
    + intros Hz. rewrite Hz2, Hz1 by lia. done.
Qed.

Lemma foldl_keep B : forall D, Z.of_nat (length D) <= SLIP_MAX_SIZE + 1 -> foldl slip_keep D B = take 1501 (D ++ B).
Proof.
  unfold SLIP_MAX_SIZE. induction B as [|c B IH]; intros D HD; cbn [foldl].
  - rewrite app_nil_r, take_ge by lia. done.
  - unfold slip_keep at 2. unfold SLIP_MAX_SIZE. destruct (Z.leb_spec (Z.of_nat (length D)) 1500).
    + rewrite IH by (rewrite length_app; cbn [length]; lia). by rewrite <- app_assoc.
    + rewrite IH by lia. by rewrite !take_app_le by lia.
Qed.

(** The last END of a frame. *)
Lemma rx_last n priv D bl :
  rx_ok n priv false D bl ->
  exists ps priv' n' bl', slip_rx priv n [SLIP_END] = Ok (ps, priv', n') /\ world n' = world n /\ drops n' = drops n /\ rx_ok n' priv' false [] bl'
    /\ (D <> [] -> exists t blp, ps = [t] /\ packet (pbufs (packets n')) t blp /\ cdata (mem n') blp = D).
Proof.
  intros Hok. cbn [slip_rx]. unfold slipif_rxbyte. rewrite (rx_esc _ _ _ _ _ Hok). change (SLIP_END =? SLIP_END) with true. cbv iota.
  destruct (Z.ltb_spec 0 (recved priv)) as [Hpos|Hz]; rewrite (rx_recved _ _ _ _ _ Hok) in *.
  - destruct (rx_end _ _ _ _ Hok) as (s' & bl' & E & Hq & Hpk & Hd & Hok'); [by intros ->|]. rewrite (rx_recved _ _ _ _ _ Hok) in E.
    rewrite E. cbn [res_bind]. rewrite (proj2 (Z.eqb_neq _ NULL)) by done. eexists _, _, _, []. split_and!; [done|done|done|exact Hok'|].
    intros _. by exists (rx_q priv), bl'.
  - assert (D = []) as -> by (destruct D; [done|cbn [length] in Hz; lia]). exists [], priv, n, bl. by split_and!.
Qed.

(** C15: What is sent over a serial line arrives.  The characters that [slipif_output] sends for a
    packet are a frame of RFC 1055.  A receiver that is between packets takes these characters
    without a fault, whatever they are, and is between packets again afterwards; and unless the
    pool had no pbuf for some of them, which has then been counted, it passes on exactly one
    packet: the whole packet, if it is not longer than SLIP_MAX_SIZE = 1500 bytes, and else the
    beginning of it, at least that long. *)
Theorem slip_roundtrip (sio_send : Z -> Z -> W -> W) priv1 n1 p bl1 priv2 n2 bl2 :
  packet (pbufs (packets n1)) p bl1 -> p <> NULL -> mem_ok (mem n1) -> 0 < total bl1 ->
  rx_ok n2 priv2 false [] bl2 -> is_u16 (drops n2) ->
  let D := cdata (mem n1) bl1 in
  slipif_output sio_send priv1 n1 p = Ok (ERR_OK, with_world (send_all sio_send (sd priv1) (slip_frame D) (world n1)) n1)
  /\ exists ps priv' n' bl', slip_rx priv2 n2 (slip_frame D) = Ok (ps, priv', n') /\ rx_ok n' priv' false [] bl'
       /\ (drops n' <> drops n2 \/ exists t bl, ps = [t] /\ packet (pbufs (packets n')) t bl
            /\ (total bl1 <= SLIP_MAX_SIZE -> cdata (mem n') bl = D)
            /\ (SLIP_MAX_SIZE < total bl1 -> cdata (mem n') bl `prefix_of` D /\ SLIP_MAX_SIZE <= total bl)).
Proof.
  intros Hpk Hne Hm Hpos Hok Hd D. split; [by apply slipif_output_spec|].
  pose proof (length_cdata (mem n1) bl1 (proj1 (proj2 Hpk))) as HD. fold D in HD. pose proof (proj2 (proj2 Hpk)) as Hmax.
  unfold slip_frame. rewrite slip_rx_app. destruct (rx_last _ _ _ _ Hok) as (ps0 & p0 & n0 & bl0 & E0 & _ & Ed0 & Hok0 & _).
  assert (ps0 = []) as ->.
  { cbn [slip_rx] in E0. unfold slipif_rxbyte in E0. rewrite (rx_esc _ _ _ _ _ Hok), (rx_recved _ _ _ _ _ Hok) in E0. by injection E0. }
  rewrite E0. cbn [res_bind]. rewrite slip_rx_app.
  destruct (rx_body D _ _ _ _ Hok0) as (p1 & m1 & bl3 & D1 & k & E1 & Hok1 & _ & _ & Hl & Hk & Hz); [by apply mem_ok_cdata|by rewrite Ed0|].
  rewrite E1. cbn [res_bind]. destruct (rx_last _ _ _ _ Hok1) as (ps & p2 & m2 & bl4 & E2 & _ & Ed2 & Hok2 & Hgot).
  rewrite E2. cbn [res_bind app]. exists ps, p2, m2, bl4. split_and!; [done|done|]. rewrite Ed2, Hl, Ed0.
  destruct (Z.eq_dec k 0) as [->|Hnz].
  - right. rewrite Hz, foldl_keep in Hgot by (unfold SLIP_MAX_SIZE; cbn; lia). destruct Hgot as (t & bl & Ep & Hpk' & Hc); [destruct D; [cbn [length] in HD; lia|done]|].
    exists t, bl. change ([] ++ D) with D in Hc. split_and!; [done|done| |]; unfold SLIP_MAX_SIZE; intros Hle; rewrite Hc.
    + rewrite take_ge by lia. done.
    + split; [apply prefix_take|]. rewrite <- (length_cdata (mem m2) bl (proj1 (proj2 Hpk'))), Hc, length_take. lia.
  - left. unfold u16, is_u16 in *. zlia.
Qed.

(** [slipif_init] always returns.  After success the receiver is between packets; without memory
    or without the device nothing stays allocated. *)
Theorem slipif_init_correct (sio_open : W -> Z -> Z * W) n nif nf state L :
  wf (packets n) L -> mem_ok (mem n) -> netifs n !! nif = Some nf ->
  exists err r n', slipif_init sio_open n nif state = Ok (err, r, n') /\ pbufs (packets n') = pbufs (packets n)
    /\ match r with
       | Some priv => err = ERR_OK /\ rx_ok n' priv false [] [] /\ netif_mtu <$> netifs n' !! nif = Some SLIP_MAX_SIZE
                      /\ sd priv = fst (sio_open (world n) (default (netif_num nf) state)) /\ sd priv <> NULL
       | None => (err = ERR_MEM \/ err = ERR_IF) /\ wf (packets n') L
       end.
Proof.
  intros [Ho Hp] Hm Hnf. unfold slipif_init.
  destruct (malloc_law (alloc (packets n)) L SIZEOF_SLIPIF_PRIV Ho) as (p & a & E & Hcase); [done|done|]. rewrite E. cbn [res_bind].
  destruct Hcase as [(-> & Ho')|(Hne & HL & k & Hk & Ho')].
  { change (NULL =? NULL) with true. eexists _, None, _. split_and!; [done|done|by left|]. by split. }
  rewrite (proj2 (Z.eqb_neq p NULL)) by done. unfold upd_netif, netif_at at 1. cbn [with_packets netifs].
  rewrite (deref_ok _ _ _ Hnf). cbn [res_bind]. unfold netif_at. cbn [with_netifs netifs].
  rewrite (deref_ok _ nif _ (lookup_insert_eq _ _ _)). cbn [res_bind netif_num].
  change (world (with_netifs _ _)) with (world n). destruct (sio_open (world n) _) as [fd w] eqn:Eo. cbn [fst].
  destruct (Z.eqb_spec fd NULL) as [->|Hfd].
  - cbn [with_world with_netifs with_packets packets with_alloc alloc].
    destruct (mem_free_law a _ p k Ho') as (a' & E' & Ho2); [apply lookup_insert_eq|]. rewrite E'. cbn [res_bind].
    eexists _, None, _. split_and!; [done|done|by right|]. split; [|exact Hp]. by rewrite delete_insert_id in Ho2.
  - eexists _, (Some _), _. split_and!; [done|done|done| |cbn; by rewrite lookup_insert_eq|done|done].
    split; [|exact Hm|by split_and!|by constructor|done|unfold SLIP_MAX_SIZE; cbn; lia|done|done|by left].
    eexists. split; [exact Ho'|]. intros q b Hb. destruct (Hp q b Hb) as (o & j & HLq & Hin). exists o, j. split; [|done].
    rewrite lookup_insert_ne; [done|]. intros ->. congruence.
Qed.

End Input.

(** ** Examples *)

Definition slip_net : Type := net (heap_pools * frag_pool) (list (list Z)).
Definition slip_idle : slipif_priv := mk_priv 5 NULL NULL SLIP_RECV_NORMAL 0 0 NULL.
Definition slip_host : slip_net := with_packets (Pbuf.mk_state ∅ ∅ ∅ (hp0, ([], ∅)) false 0) ex_net.
(** The device records what it sends. *)
Definition ex_send (c fd : Z) (w : list (list Z)) : list (list Z) := w ++ [[fd; c]].

Lemma slip_host_ok : rx_ok slip_host slip_idle false [] [].
Proof.
  split; [|intros a; unfold rd8; cbn; rewrite lookup_empty; unfold is_u8; cbn; lia|by split_and!|by constructor|done|by vm_compute|done|done|by left].
  exists ∅. split; [exact hp0_owned|]. intros p b. cbn. by rewrite lookup_empty.
Qed.

Lemma slip_roundtrip_witness :
  slipif_output ex_send slip_idle ex_net 1000 = Ok (ERR_OK, with_world (send_all ex_send 5 (slip_frame [1; 2; 3; 4; 5; 6; 7; 8]) []) ex_net)
  /\ exists ps priv' n' bl', slip_rx (fun _ => 0) no_custom true slip_idle slip_host (slip_frame [1; 2; 3; 4; 5; 6; 7; 8]) = Ok (ps, priv', n')
       /\ rx_ok n' priv' false [] bl'.
Proof.
  destruct (slip_roundtrip (fun _ => 0) no_custom true ltac:(done) ex_send slip_idle ex_net 1000 [(1000, ex_pbuf)] slip_idle slip_host [])
    as (E & ps & priv' & n' & bl' & E' & Hok & _).
  - split; [by split_and!|]. by vm_compute.
  - done.
  - exact ex_mem_ok.
  - by vm_compute.
  - exact slip_host_ok.
  - by vm_compute.
  - split; [exact E|]. exists ps, priv', n', bl'. split; [exact E'|exact Hok].
Defined.

(** The data of the packets that arrive. *)
Definition arrivals (r : res (list Z * slipif_priv * slip_net)) : option (list (list Z)) :=
  match r with
  | Ok (ps, _, n) => mapM (fun p => match view n p with Ok v => Some (mjoin (snd <$> v)) | Fault _ => None end) ps
  | Fault _ => None
  end.
Local Abbreviation rx := (slip_rx (fun _ => 0) no_custom true slip_idle).

Example slip_escapes : arrivals (rx slip_host (slip_frame [192; 1; 219; 220] ++ slip_frame [221])) = Some [[192; 1; 219; 220]; [221]].
Proof. by vm_compute. Qed.

(** One pbuf is left in the pool: the packet arrives without the bytes that found no pbuf. *)
Definition slip_short : slip_net :=
  match alloc_pbuf (fun _ => 0) no_custom true slip_host PBUF_RAW (3 * 128) PBUF_POOL with Ok (_, n) => n | Fault _ => slip_host end.

Example slip_damaged : option_map (fmap length) (arrivals (rx slip_short (slip_frame (repeat 7 200)))) = Some [112%nat].
Proof. by vm_compute. Qed.

(** Packets received in an interrupt: the second packet is not put behind the first one; its
    last pbuf is linked to its own first one, and nothing refers to it any more. *)
Example slip_queue_cycle :
  match slipif_received_bytes (fun _ => 0) no_custom true slip_idle slip_host (slip_frame [1; 2] ++ slip_frame [3; 4]) with
  | Ok (priv, n) =>
      exists q b, rxpackets priv <> q /\ rx_q priv = NULL /\ pbufs (packets n) !! q = Some b /\ next b = q
        /\ (exists b0, pbufs (packets n) !! rxpackets priv = Some b0 /\ next b0 = NULL)
  | Fault _ => False
  end.
Proof. vm_compute. eexists 30288, _. split_and!; try done. by eexists. Qed.
