(* ===== verification/IpFrame.v ===== *)
(** * What sending leaves alone: lwip/src/core/ipv4/ip4.c, ip4_frag.c, netif.c

    A part of the state that neither the packets, the counters, the identification, the
    interfaces nor the drivers are about is the same after anything is sent. *)

From S2P Require Import Prelude Ip4Addr Pbuf Net Ip4.

(** ** Partial postconditions *)

(** If there is a result, it satisfies [Q]. *)
Definition holds {X} (r : res X) (Q : X -> Prop) : Prop :=
  match r with
  | Ok x => Q x
  | Fault _ => True
  end.

Lemma holds_bind {X Y} (r : res X) (f : X -> res Y) Q : holds r (fun x => holds (f x) Q) -> holds (res_bind r f) Q.
Proof. by destruct r. Qed.

Lemma holds_weaken {X} (r : res X) (P Q : X -> Prop) : holds r P -> (forall x, P x -> Q x) -> holds r Q.
Proof. destruct r as [x|]; [|done]. intros Hp H. by apply H. Qed.

Lemma holds_any {X} (r : res X) (Q : X -> Prop) : (forall x, Q x) -> holds r Q.
Proof. intros HQ. destruct r; [apply HQ|done]. Qed.

(** A step whose result does not matter, and one of which something is known. *)
Lemma holds_skip {X Y} (r : res X) (f : X -> res Y) Q : (forall x, holds (f x) Q) -> holds (res_bind r f) Q.
Proof. intros HQ. destruct r; [apply HQ|done]. Qed.

Lemma holds_call {X Y} (r : res X) (f : X -> res Y) (P : X -> Prop) Q :
  holds r P -> (forall x, P x -> holds (f x) Q) -> holds (res_bind r f) Q.
Proof. destruct r as [x|]; [|done]. intros Hp H. by apply (H x). Qed.

Lemma holds_ok {X} (r : res X) Q x : holds r Q -> r = Ok x -> Q x.
Proof. by intros H ->. Qed.

Lemma holds_assoc {X Y Z'} (r : res X) (f : X -> res Y) (g : Y -> res Z') Q :
  holds (res_bind r (fun x => res_bind (f x) g)) Q -> holds (res_bind (res_bind r f) g) Q.
Proof. by destruct r. Qed.

Lemma holds_group {X Y Z'} (r : res X) (f : X -> res Y) (g : Y -> res Z') Q :
  holds (res_bind (res_bind r f) g) Q -> holds (res_bind r (fun x => res_bind (f x) g)) Q.
Proof. by destruct r. Qed.

Lemma holds_both {X} (r : res X) (P Q : X -> Prop) : holds r P -> holds r Q -> holds r (fun x => P x /\ Q x).
Proof. by destruct r. Qed.

Section Frame.
Context {A W : Type} `{AllocOps A} `{FragPool A}.
Variable stale_flags : Z -> Z.
Variable custom_free : Z -> Z -> Pbuf.state A -> res (Pbuf.state A).
Variable callback_ok : bool.
Variable netif_output : net A W -> Z -> Z -> Z -> res (err_t * net A W).

(** The part [K] of the state. *)
Context {T : Type} (K : net A W -> T).
Hypothesis K_packets : forall s n, K (with_packets s n) = K n.
Hypothesis K_inc : forall p c n, K (inc p c n) = K n.
Hypothesis K_ip_id : forall i n, K (with_ip_id i n) = K n.
Hypothesis K_netifs : forall m n, K (with_netifs m n) = K n.
Hypothesis K_polls : forall l n, K (with_polls l n) = K n.
Hypothesis K_output : forall n nif p dest, holds (netif_output n nif p dest) (fun r => K (snd r) = K n).
Implicit Types n : net A W.

Lemma on_packets_keeps {X} (f : Pbuf.state A -> res (X * Pbuf.state A)) n : holds (on_packets f n) (fun r => K (snd r) = K n).
Proof. unfold on_packets. apply holds_skip. intros [x s]. cbn. apply K_packets. Qed.

Lemma free_keeps n p : holds (free custom_free n p) (fun n' => K n' = K n).
Proof.
  unfold free. eapply holds_call; [apply on_packets_keeps|]. intros [x n'] E. exact E.
Qed.

Lemma alloc_keeps n layer l t : holds (alloc_pbuf stale_flags custom_free callback_ok n layer l t) (fun r => K (snd r) = K n).
Proof. apply on_packets_keeps. Qed.

Lemma header_keeps n p k : holds (header n p k) (fun r => K (snd r) = K n).
Proof. apply on_packets_keeps. Qed.

Lemma upd_netif_keeps n nif f : holds (upd_netif n nif f) (fun n' => K n' = K n).
Proof. unfold upd_netif. apply holds_skip. intros nf. cbn. apply K_netifs. Qed.

Lemma loop_output_keeps n nif p :
  holds (netif_loop_output stale_flags custom_free callback_ok n nif p) (fun r => K (snd r) = K n).
Proof.
  unfold netif_loop_output. apply holds_skip. intros b. eapply holds_call; [apply alloc_keeps|]. intros [r n1] E1. cbn [snd] in E1. destruct (r =? NULL).
  { cbn. by rewrite !K_inc. }
  apply holds_skip. intros clen. apply holds_skip. intros nf. cbv zeta. destruct (_ || _).
  { eapply holds_call; [apply free_keeps|]. intros n2 E2. cbn. rewrite !K_inc. congruence. }
  eapply holds_call; [apply upd_netif_keeps|]. intros n2 E2. eapply holds_call; [apply on_packets_keeps|]. intros [err n3] E3. cbn [snd] in E3. destruct (negb _).
  { eapply holds_call; [apply free_keeps|]. intros n4 E4. cbn. rewrite !K_inc. congruence. }
  apply holds_skip. intros last. apply holds_skip. intros nf2. apply holds_bind.
  apply (holds_weaken _ (fun n' => K n' = K n3)).
  - destruct (negb _).
    + apply holds_skip. intros _. apply holds_skip. intros s.
      eapply holds_weaken; [apply upd_netif_keeps|]. intros n4 E4. by rewrite E4, K_packets.
    + apply upd_netif_keeps.
  - intros n4 E4. cbn. destruct callback_ok; rewrite ?K_polls, !K_inc; congruence.
Qed.

Lemma mirror_keeps : forall fuel n rambuf p poff newpbuflen left,
  holds (mirror custom_free fuel n rambuf p poff newpbuflen left) (fun r => K (snd r) = K n).
Proof.
  induction fuel as [|fuel IH]; intros; cbn [mirror]; (destruct (left =? 0); [done|]); [done|].
  apply holds_skip. intros b. cbv zeta. destruct (_ =? 0); [apply IH|].
  apply holds_skip. intros [pcr a]. destruct (pcr =? NULL).
  { eapply holds_call; [apply free_keeps|]. intros n2 E2. cbn. by rewrite E2, K_packets. }
  eapply holds_call; [apply on_packets_keeps|]. intros [q n2] E2. cbn [snd] in E2. rewrite K_packets in E2.
  destruct (q =? NULL).
  { apply holds_skip. intros s. eapply holds_call; [apply free_keeps|]. intros n3 E3. cbn.
    rewrite E3, K_packets. congruence. }
  apply holds_skip. intros s. cbv zeta. apply holds_skip. intros s2.
  destruct (if u16 _ =? 0 then _ else _) as [p' poff']. eapply holds_weaken; [apply IH|]. intros r E. rewrite E, K_packets. congruence.
Qed.

Lemma frag_loop_keeps : forall fuel n p nif dest iphdr nfb poff ofo left newpbuflen,
  holds (frag_loop stale_flags custom_free callback_ok netif_output fuel n p nif dest iphdr nfb poff ofo left newpbuflen)
    (fun r => K (snd r) = K n).
Proof.
  induction fuel as [|fuel IH]; intros; cbn [frag_loop]; (destruct (left =? 0); [done|]); [done|]. cbv zeta.
  eapply holds_call; [apply alloc_keeps|]. intros [r n1] E1. cbn [snd] in E1. destruct (r =? NULL); [done|].
  apply holds_skip. intros b. apply holds_skip. intros _. apply holds_skip. intros rb.
  eapply holds_call; [apply mirror_keeps|]. intros [o n2] E2. cbn [snd] in E2. unfold with_mem in E2. rewrite K_packets in E2.
  destruct o as [[[p' poff'] npl]|]; [|cbn; congruence]. apply holds_skip. intros nf. eapply holds_call; [apply K_output|]. intros [e n3] E3. cbn [snd] in E3. unfold with_mem in E3. rewrite K_packets in E3. eapply holds_call; [apply free_keeps|]. intros n4 E4. rewrite K_inc in E4. eapply holds_weaken; [apply IH|]. intros r2 E5. congruence.
Qed.

Lemma ip4_frag_keeps n p nif dest :
  holds (ip4_frag stale_flags custom_free callback_ok netif_output n p nif dest) (fun r => K (snd r) = K n).
Proof.
  unfold ip4_frag. apply holds_skip. intros nf. apply holds_skip. intros b. cbv zeta.
  destruct (negb _); [done|]. destruct (negb _); [done|]. apply frag_loop_keeps.
Qed.

Lemma send_on_keeps n p dest nif :
  holds (send_on stale_flags custom_free callback_ok netif_output n p dest nif) (fun r => K (snd r) = K n).
Proof.
  unfold send_on. apply holds_skip. intros nf. destruct (_ || _).
  { eapply holds_weaken; [apply loop_output_keeps|]. intros r E. by rewrite E, K_inc. }
  apply holds_skip. intros b. apply (holds_call _ _ (fun n' => K n' = K n)).
  - destruct (negb _); [|cbn; by rewrite K_inc]. eapply holds_call; [apply loop_output_keeps|].
    intros [e n1] E1. cbn in *. by rewrite E1, K_inc.
  - intros n1 E1. apply holds_skip. intros nf1. apply holds_skip. intros b1. rewrite <- E1.
    destruct (_ && _); [apply ip4_frag_keeps|apply K_output].
Qed.

Lemma output_keeps n p src dest ttl tos proto nif opts :
  holds (ip4_output_if_opt_src stale_flags custom_free callback_ok netif_output n p src dest ttl tos proto nif opts)
    (fun r => K (snd r) = K n).
Proof.
  unfold ip4_output_if_opt_src. apply holds_skip. intros b. apply holds_skip. intros _.
  destruct dest as [dest|]; [|apply holds_skip; intros b2; apply send_on_keeps].
  apply (holds_call _ _ (fun r => K (snd r) = K n)).
  { unfold write_options. cbv zeta. destruct (_ =? 0); [done|]. eapply holds_call; [apply header_keeps|].
    intros [failed n1] E1. cbn [snd] in E1. destruct failed; [cbn; by rewrite K_inc|]. apply holds_skip. intros b1.
    cbn. unfold with_mem. by rewrite K_packets. }
  intros [o n1] E1. cbn [snd] in E1. destruct o as [[hl cs]|]; [|done]. eapply holds_call; [apply header_keeps|]. intros [failed n2] E2. cbn [snd] in E2.
  destruct failed; [cbn; rewrite K_inc; congruence|]. apply holds_skip. intros b2. apply holds_skip. intros _.
  eapply holds_weaken; [apply send_on_keeps|]. intros r E. rewrite E. unfold fill_header, with_mem. rewrite K_packets, K_ip_id. congruence.
Qed.

Lemma output_if_opt_keeps n p src dest ttl tos proto nif opts :
  holds (ip4_output_if_opt stale_flags custom_free callback_ok netif_output n p src dest ttl tos proto nif opts)
    (fun r => K (snd r) = K n).
Proof. unfold ip4_output_if_opt. apply holds_skip. intros s. apply output_keeps. Qed.
End Frame.
