(* ===== verification/Icmp.v ===== *)
(** * ICMP: lwip/src/core/ipv4/icmp.c

    Echo replies and error messages.  LWIP_MULTICAST_PING and LWIP_BROADCAST_PING are
    0, LWIP_ICMP_ECHO_CHECK_INPUT_PBUF_LEN is 1. *)

From S2P Require Import Prelude Def Ip4Addr InetChksum Pbuf PbufData PbufAlloc PbufOps Net Ip4.

(** ** Definitions *)

Definition ICMP_ER : Z := 0.
Definition ICMP_DUR : Z := 3.
Definition ICMP_ECHO : Z := 8.
Definition ICMP_TE : Z := 11.
Definition ICMP_TTL : Z := 255.
Definition ICMP_DUR_PROTO : Z := 2.
Definition ICMP_DUR_PORT : Z := 3.
Definition ICMP_DUR_FRAG : Z := 4.
Definition ICMP_TE_TTL : Z := 0.
Definition ICMP_TE_FRAG : Z := 1.
Definition ICMP_DEST_UNREACH_DATASIZE : Z := 8.

(** [sizeof(struct icmp_echo_hdr)]: type, code, checksum, id and sequence number. *)
Definition SIZEOF_ICMP_ECHO_HDR : Z := 8.

Section Icmp.
Context {A W : Type} `{AllocOps A} `{FragPool A}.
Variable stale_flags : Z -> Z.
Variable custom_free : Z -> Z -> Pbuf.state A -> res (Pbuf.state A).
Variable callback_ok : bool.
Variable netif_output : net A W -> Z -> Z -> Z -> res (err_t * net A W).
Implicit Types n : net A W.

Definition icmp_send_response n (p type code : Z) : res (net A W) :=
  let* (q, n) := alloc_pbuf stale_flags custom_free callback_ok n PBUF_IP
                   (SIZEOF_ICMP_ECHO_HDR + IP_HLEN + ICMP_DEST_UNREACH_DATASIZE) PBUF_RAM in
  if q =? NULL then Ok n
  else
    let* qb := pbuf_at n q in
    assert* (SIZEOF_ICMP_ECHO_HDR + IP_HLEN + ICMP_DEST_UNREACH_DATASIZE <=? len qb) in
    let* pb := pbuf_at n p in
    let iphdr := payload pb in
    let icmphdr := payload qb in
    let m := wr8 (mem n) icmphdr type in
    let m := wr8 m (icmphdr + 1) code in
    let m := wr16 m (icmphdr + 4) 0 in
    let m := wr16 m (icmphdr + 6) 0 in
    let m := wr m (icmphdr + SIZEOF_ICMP_ECHO_HDR)
               (rd m (payload pb) (Z.to_nat (IP_HLEN + ICMP_DEST_UNREACH_DATASIZE))) in
    let iphdr_src := iph_src m iphdr in
    let* (nif, n) := ip4_route (with_mem m n) iphdr_src in
    let* n :=
      if negb (nif =? NULL) then
        let m := wr16 (mem n) (icmphdr + 2) 0 in
        let m := wr16 m (icmphdr + 2) (inet_chksum icmphdr (rd m icmphdr (Z.to_nat (len qb)))) in
        let n := inc P_icmp c_xmit (with_mem m n) in
        let* (_, n) := ip4_output_if stale_flags custom_free callback_ok netif_output n q None (Some iphdr_src)
                         ICMP_TTL 0 IP_PROTO_ICMP nif in
        Ok n
      else Ok n in
    free custom_free n q.

Definition icmp_dest_unreach n (p t : Z) : res (net A W) := icmp_send_response n p ICMP_DUR t.

Definition icmp_time_exceeded n (p t : Z) : res (net A W) := icmp_send_response n p ICMP_TE t.

(** [goto lenerr] and [goto icmperr]. *)
Definition lenerr n (p : Z) : res (net A W) := let* n := free custom_free n p in Ok (inc P_icmp c_lenerr n).
Definition icmperr n (p : Z) : res (net A W) := let* n := free custom_free n p in Ok (inc P_icmp c_err n).

(** The packet [p] itself if there is room for the link header in front of its IP
    header, or else a copy; [None]: no memory. *)
Definition room_for_reply n (p iphdr_in hlen : Z) : res (option Z * net A W) :=
  let* (failed, n) := header n p (s16 (hlen + PBUF_LINK_HLEN + PBUF_LINK_ENCAPSULATION_HLEN)) in
  if (failed : bool) then
    let* b := pbuf_at n p in
    let* (r, n) := alloc_pbuf stale_flags custom_free callback_ok n PBUF_LINK (u16 (tot_len b + hlen)) PBUF_RAM in
    if r =? NULL then Ok (None, n)
    else
      let* rb := pbuf_at n r in
      if len rb <? hlen + SIZEOF_ICMP_ECHO_HDR then let* n := free custom_free n r in Ok (None, n)
      else
        let n := with_mem (wr (mem n) (payload rb) (rd (mem n) iphdr_in (Z.to_nat hlen))) n in
        let* (failed, n) := header n r (s16 (- hlen)) in
        assert* negb failed in
        let* (err, n) := on_packets (fun s => pbuf_copy s r p) n in
        if negb (bool_decide (err = ERR_OK)) then let* n := free custom_free n r in Ok (None, n)
        else let* n := free custom_free n p in Ok (Some r, n)
  else
    let* (failed, n) := header n p (- s16 (hlen + PBUF_LINK_HLEN + PBUF_LINK_ENCAPSULATION_HLEN)) in
    assert* negb failed in
    Ok (Some p, n).

(** The checksum after the type has changed from ICMP_ECHO to ICMP_ER. *)
Definition echo_chksum (chksum : Z) : Z :=
  if PP_HTONS (65535 - Z.shiftl ICMP_ECHO 8) <? chksum
  then u16 (chksum + (PP_HTONS (Z.shiftl ICMP_ECHO 8) + 1))
  else u16 (chksum + PP_HTONS (Z.shiftl ICMP_ECHO 8)).

(** Turn the request [p] into a reply from [src] and send it. *)
Definition echo_reply n (p inp src hlen : Z) : res (net A W) :=
  let* b := pbuf_at n p in
  let iecho := payload b in
  let* (failed, n) := header n p (s16 hlen) in
  if (failed : bool) then Ok n
  else
    let* b := pbuf_at n p in
    let iphdr := payload b in
    let m := iph_src_set (mem n) iphdr src in
    let m := iph_dest_set m iphdr (current_iphdr_src (ip_data n)) in
    let m := wr8 m iecho ICMP_ER in
    let m := wr16 m (iecho + 2) (echo_chksum (rd16 m (iecho + 2))) in
    let m := IPH_TTL_SET m iphdr ICMP_TTL in
    let m := IPH_CHKSUM_SET m iphdr 0 in
    let m := IPH_CHKSUM_SET m iphdr (inet_chksum iphdr (rd m iphdr (Z.to_nat hlen))) in
    let n := inc P_icmp c_xmit (with_mem m n) in
    let* (_, n) := ip4_output_if stale_flags custom_free callback_ok netif_output n p (Some src) None ICMP_TTL 0
                     IP_PROTO_ICMP inp in
    Ok n.

Definition icmp_input n (p inp : Z) : res (net A W) :=
  let n := inc P_icmp c_recv n in
  let iphdr_in := current_ip4_header (ip_data n) in
  let hlen := IPH_HL (mem n) iphdr_in * 4 in
  if hlen <? IP_HLEN then lenerr n p
  else
    let* b := pbuf_at n p in
    if len b <? 4 then lenerr n p
    else
      let type := rd8 (mem n) (payload b) in
      if type =? ICMP_ER then free custom_free n p
      else if type =? ICMP_ECHO then
        let src := current_iphdr_dest (ip_data n) in
        if ip4_addr_ismulticast src then icmperr n p
        else
          let* nf := netif_at n (current_netif (ip_data n)) in
          if ip4_addr_isbroadcast_u32 src nf then icmperr n p
          else if tot_len b <? SIZEOF_ICMP_ECHO_HDR then lenerr n p
          else
            let* v := chain_view (walk_fuel (pbufs (packets n))) (pbufs (packets n)) (mem n) p in
            if negb (inet_chksum_pbuf v =? 0) then
              let* n := free custom_free n p in Ok (inc P_icmp c_chkerr n)
            else
              let* (r, n) := room_for_reply n p iphdr_in hlen in
              match r with
              | None => icmperr n p
              | Some p => let* n := echo_reply n p inp src hlen in free custom_free n p
              end
      else free custom_free (inc P_icmp c_drop (inc P_icmp c_proterr n)) p.

End Icmp.

(** ** Echo replies *)

(** The message with the type changed and the checksum adjusted still verifies. *)
Lemma echo_chksum_verifies code chk rest :
  is_u8 code -> is_u16 chk -> bytes_ok rest ->
  internet_checksum (ICMP_ECHO :: code :: le_bytes 2 chk ++ rest) = 0 ->
  internet_checksum (ICMP_ER :: code :: le_bytes 2 (echo_chksum chk) ++ rest) = 0.
Proof.
  intros Hcode Hchk Hrest. unfold is_u8, is_u16, ICMP_ECHO, ICMP_ER in *.
  assert (Hc2 : is_u16 (echo_chksum chk)) by (unfold echo_chksum; case_match; apply u16_range).
  assert (Hws : forall c, is_u16 c -> word_sum (le_bytes 2 c ++ rest) = c + word_sum rest).
  { intros c Hc. unfold is_u16 in Hc. cbn [le_bytes app word_sum]. zlia. }
  rewrite !checksum_zero_iff.
  2,3: constructor; [unfold is_u8; lia|constructor; [done|apply bytes_ok_app; split; [apply le_bytes_ok|done]]].
  assert (E : forall t c, is_u16 c -> word_sum (t :: code :: le_bytes 2 c ++ rest) = t + 256 * code + (c + word_sum rest)).
  { intros t c Hc. rewrite <- Hws by done. done. }
  rewrite !E by done. pose proof (word_sum_nonneg _ Hrest). unfold echo_chksum, u16.
  change (PP_HTONS (65535 - Z.shiftl 8 8)) with 65527. change (PP_HTONS (Z.shiftl 8 8)) with 8.
  unfold ICMP_ECHO. change (PP_HTONS (65535 - Z.shiftl 8 8)) with 65527. change (PP_HTONS (Z.shiftl 8 8)) with 8.
  destruct (Z.ltb_spec 65527 chk); intros [Hpos Hmod]; split; try zlia.
Qed.

Section Echo.
Context {A W : Type} `{AllocOps A} `{FragPool A}.
Variable stale_flags : Z -> Z.
Variable custom_free : Z -> Z -> Pbuf.state A -> res (Pbuf.state A).
Variable callback_ok : bool.
Variable netif_output : net A W -> Z -> Z -> Z -> res (err_t * net A W).
Implicit Types n : net A W.

(** The header of a reply from [src] to [dest] to a packet with header [hdr]. *)
Definition reply_header (hdr : list Z) (src dest : Z) : list Z :=
  let front := take 8 hdr ++ [ICMP_TTL; nth 9 hdr 0] in
  let addrs := le_bytes 4 src ++ le_bytes 4 dest in
  front ++ le_bytes 2 (internet_checksum (front ++ [0; 0] ++ addrs)) ++ addrs.

(** The message of the reply. *)
Definition reply_message (msg : list Z) : list Z :=
  ICMP_ER :: nth 1 msg 0 :: le_bytes 2 (echo_chksum (le_val (take 2 (drop 2 msg)))) ++ drop 4 msg.

(** What [echo_reply] writes. *)
Definition echo_mem (m : memory) (iphdr iecho src dest : Z) : memory :=
  let m := iph_src_set m iphdr src in
  let m := iph_dest_set m iphdr dest in
  let m := wr8 m iecho ICMP_ER in
  let m := wr16 m (iecho + 2) (echo_chksum (rd16 m (iecho + 2))) in
  let m := IPH_TTL_SET m iphdr ICMP_TTL in
  let m := IPH_CHKSUM_SET m iphdr 0 in
  IPH_CHKSUM_SET m iphdr (inet_chksum iphdr (rd m iphdr 20)).

Lemma echo_mem_spec m a src dest :
  mem_ok m ->
  rd (echo_mem m a (a + 20) src dest) a 24
  = reply_header (rd m a 20) src dest ++ [ICMP_ER; rd8 m (a + 21)] ++ le_bytes 2 (echo_chksum (rd16 m (a + 22)))
  /\ (forall x, (x < a \/ a + 24 <= x) -> rd8 (echo_mem m a (a + 20) src dest) x = rd8 m x).
Proof.
  intros Hm. unfold echo_mem. cbv zeta.
  set (m1 := wr8 (iph_dest_set (iph_src_set m a src) a dest) (a + 20) ICMP_ER).
  assert (E16 : rd16 m1 (a + 20 + 2) = rd16 m (a + 22)).
  { unfold m1, iph_dest_set, iph_src_set, wr8, wr32. rewrite !rd16_apart by (cbn; lia). f_equal. lia. }
  rewrite E16. set (ck := echo_chksum (rd16 m (a + 22))).
  set (m2 := IPH_CHKSUM_SET (IPH_TTL_SET (wr16 m1 (a + 20 + 2) ck) a ICMP_TTL) a 0).
  assert (Hm2 : mem_ok m2).
  { unfold m2, m1, IPH_CHKSUM_SET, IPH_TTL_SET, iph_dest_set, iph_src_set. auto 12 with lwip. }
  rewrite inet_chksum_spec by (rewrite ?length_rd; auto with lwip; lia).
  assert (E2 : rd m2 a 20 = (take 8 (rd m a 20) ++ [ICMP_TTL; nth 9 (rd m a 20) 0]) ++ [0; 0] ++ le_bytes 4 src ++ le_bytes 4 dest).
  { unfold m2, m1, IPH_CHKSUM_SET, IPH_TTL_SET, iph_dest_set, iph_src_set, wr32, wr16, wr8.
    cbn [rd take app nth]. repeat (rewrite <- Z.add_assoc; cbn [Z.add Pos.add Pos.succ]). rd8_solve. done. }
  rewrite E2. unfold reply_header. set (c := internet_checksum _). clearbody c. split.
  - unfold m2, m1, IPH_CHKSUM_SET, IPH_TTL_SET, iph_dest_set, iph_src_set, wr32, wr16, wr8.
    cbn [rd take app nth]. repeat (rewrite <- Z.add_assoc; cbn [Z.add Pos.add Pos.succ]). rd8_solve. done.
  - intros x Hx. unfold m2, m1, IPH_CHKSUM_SET, IPH_TTL_SET, iph_dest_set, iph_src_set, wr32, wr16, wr8.
    by rewrite !wr_outside by (cbn [length le_bytes]; lia).
Qed.

Lemma reply_header_verifies hdr src dest :
  bytes_ok hdr -> length hdr = 20%nat -> internet_checksum (reply_header hdr src dest) = 0.
Proof.
  intros Hok Hl. unfold reply_header. cbv zeta. apply internet_checksum_verifies.
  - apply bytes_ok_app. split; [by apply bytes_ok_take|].
    constructor; [unfold is_u8, ICMP_TTL; lia|]. constructor; [|constructor]. apply Forall_nth; [done|lia].
  - apply bytes_ok_app. split; apply le_bytes_ok.
  - rewrite length_app, length_take, Hl. done.
Qed.

Lemma reply_message_eq D code chk rest :
  is_u16 chk -> D = ICMP_ECHO :: code :: le_bytes 2 chk ++ rest ->
  reply_message D = ICMP_ER :: code :: le_bytes 2 (echo_chksum chk) ++ rest.
Proof.
  intros Hchk ->. unfold reply_message. rewrite <- (le_val_two chk Hchk) at 4. done.
Qed.

(** A request in memory: its IP header of 20 bytes right in front of the message, all
    data apart. *)
Record echo_request (n : net A W) (p : Z) (b : pbuf) (bl : list (Z * pbuf)) (src dest : Z) : Prop := {
  req_packet : packet (pbufs (packets n)) p ((p, b) :: bl);
  req_null : p <> NULL;
  req_len : 4 <= len b;
  req_total : 8 <= total ((p, b) :: bl);
  req_mem : mem_ok (mem n);
  req_hdr : current_ip4_header (ip_data n) = payload b - IP_HLEN;
  req_hlen : IPH_HL (mem n) (payload b - IP_HLEN) = 5;
  req_dest : current_iphdr_dest (ip_data n) = dest;
  req_src : current_iphdr_src (ip_data n) = src;
  req_type : rd8 (mem n) (payload b) = ICMP_ECHO;
  req_chksum : internet_checksum (cdata (mem n) ((p, b) :: bl)) = 0
}.

Lemma drop_cdata4 m m' p b k bl :
  4 <= len b -> 0 <= k -> payloads_apart ((p, b) :: bl) -> apart (payload b - k) k bl ->
  (forall x, (x < payload b - k \/ payload b + 4 <= x) -> rd8 m' x = rd8 m x) ->
  cdata m' ((p, moved k b) :: bl)
  = rd m' (payload b - k) (Z.to_nat (k + 4)) ++ drop 4 (cdata m ((p, b) :: bl)).
Proof.
  intros Hl Hk [Hap _] Hap2 Hfr. rewrite !cdata_cons. cbn [moved payload len].
  replace (Z.to_nat (len b + k)) with (Z.to_nat (k + 4) + Z.to_nat (len b - 4))%nat by lia.
  rewrite rd_add, <- app_assoc. f_equal. rewrite drop_app_le by (rewrite length_rd; lia). rewrite drop_rd. f_equal.
  - replace (payload b - k + Z.of_nat (Z.to_nat (k + 4))) with (payload b + Z.of_nat 4) by lia.
    replace (Z.to_nat (len b) - 4)%nat with (Z.to_nat (len b - 4)) by lia.
    apply rd_ext. intros x Hx. apply Hfr. lia.
  - apply cdata_ext. intros ab x Hin Hx. apply Hfr. unfold apart in *. rewrite Forall_forall in Hap, Hap2.
    specialize (Hap _ Hin). specialize (Hap2 _ Hin). cbn in Hap, Hap2. lia.
Qed.

(** There is room for the link header: the packet itself becomes the reply. *)
Lemma room_in_place n p b iphdr :
  pbufs (packets n) !! p = Some b -> p <> NULL -> type b = PBUF_RAM \/ type b = PBUF_POOL ->
  p + SIZEOF_STRUCT_PBUF + 36 <= payload b -> 0 <= len b <= tot_len b -> tot_len b + 36 <= 65535 ->
  room_for_reply stale_flags custom_free callback_ok n p iphdr 20 = Ok (Some p, n).
Proof.
  intros Hb Hne Hty Hfr Hl Ht. unfold room_for_reply.
  change (s16 (20 + PBUF_LINK_HLEN + PBUF_LINK_ENCAPSULATION_HLEN)) with 36.
  rewrite (header_up n p b 36) by (done || lia). cbn [res_bind].
  rewrite (header_down _ p (moved 36 b) 36);
    [|by rewrite pbufs_set_ph, lookup_insert_eq|done|lia|cbn [moved len tot_len]; lia|cbn [moved tot_len]; lia
     |cbn [moved payload]; lia].
  cbn [res_bind negb lwip_assert]. rewrite set_ph_set_ph, pbufs_set_ph, mem_set_ph, moved_moved.
  change (36 + -36) with 0. by rewrite insert_insert_eq, moved_0, insert_id, set_ph_id.
Qed.

Lemma echo_reply_spec n p b inp src :
  pbufs (packets n) !! p = Some b -> p <> NULL -> type b = PBUF_RAM \/ type b = PBUF_POOL ->
  p + SIZEOF_STRUCT_PBUF + 20 <= payload b -> 0 <= len b <= tot_len b -> tot_len b + 20 <= 65535 ->
  ref b = 1 -> is_u32 (current_iphdr_src (ip_data n)) ->
  (let* n2 := echo_reply stale_flags custom_free callback_ok netif_output n p inp src 20 in free custom_free n2 p)
  = (let* (_, n2) := send_on stale_flags custom_free callback_ok netif_output
       (inc P_icmp c_xmit (set_ph (<[p := moved 20 b]> (pbufs (packets n)))
          (echo_mem (mem n) (payload b - 20) (payload b) src (current_iphdr_src (ip_data n))) n))
       p (current_iphdr_src (ip_data n)) inp in free custom_free n2 p).
Proof.
  intros Hb Hne Hty Hfr Hl Ht Href Hs. unfold echo_reply, pbuf_at. rewrite (deref_ok _ _ _ Hb). cbn [res_bind].
  change (s16 20) with 20. rewrite (header_up n p b 20) by (done || lia). cbn [res_bind].
  rewrite !pbufs_set_ph, (deref_ok _ p (moved 20 b)) by apply lookup_insert_eq. cbn [res_bind moved payload].
  set (h' := <[p := moved 20 b]> (pbufs (packets n))). change (mem (set_ph h' (mem n) n)) with (mem n).
  change (current_iphdr_src (ip_data (set_ph h' (mem n) n))) with (current_iphdr_src (ip_data n)).
  set (dst := current_iphdr_src (ip_data n)) in *. rewrite with_mem_set_ph.
  change (Z.to_nat 20) with 20%nat. fold (echo_mem (mem n) (payload b - 20) (payload b) src dst).
  set (m' := echo_mem (mem n) (payload b - 20) (payload b) src dst).
  unfold ip4_output_if, ip4_output_if_opt, ip4_output_if_opt_src. cbn [res_bind].
  change (pbuf_at (inc P_icmp c_xmit (set_ph h' m' n)) p) with (deref h' p).
  rewrite (deref_ok _ p (moved 20 b)) by apply lookup_insert_eq. cbn [res_bind moved ref payload]. rewrite Href.
  cbn [Z.eqb Pos.eqb lwip_assert res_bind]. change (mem (inc P_icmp c_xmit (set_ph h' m' n))) with m'.
  assert (Ed : iph_dest m' (payload b - 20) = dst).
  { unfold m', echo_mem, IPH_CHKSUM_SET, IPH_TTL_SET, iph_dest, wr16, wr8. cbv zeta.
    rewrite !rd32_apart by (cbn [length le_bytes]; lia). by apply rd32_wr32. }
  rewrite Ed. destruct (send_on _ _ _ _ _ _ _ _) as [[e n2]|f]; done.
Qed.

(** What is left to do for an intact request: a packet with room for the headers, and the reply. *)
Lemma icmp_request n p b bl inp nf src dest :
  echo_request n p b bl src dest -> netifs n !! current_netif (ip_data n) = Some nf ->
  ip4_addr_ismulticast dest = false -> ip4_addr_isbroadcast_u32 dest nf = false ->
  icmp_input stale_flags custom_free callback_ok netif_output n p inp
  = (let* (r, n) := room_for_reply stale_flags custom_free callback_ok (inc P_icmp c_recv n) p (payload b - IP_HLEN) 20 in
     match r with
     | None => icmperr custom_free n p
     | Some p => let* n := echo_reply stale_flags custom_free callback_ok netif_output n p inp dest 20 in free custom_free n p
     end).
Proof.
  intros [Hpk Hne Hlen Htot Hm Ehdr Ehl Edest Esrc Ety Echk] Hnf Hmc Hbc.
  pose proof Hpk as ((_ & _ & Hb & Hc) & (Hl & Htl & Hlok) & Hmax). rewrite total_cons in *.
  set (n1 := inc P_icmp c_recv n).
  assert (Epb1 : pbuf_at n1 p = Ok b) by exact (deref_ok _ _ _ Hb).
  unfold icmp_input. fold n1. change (ip_data n1) with (ip_data n). change (mem n1) with (mem n).
  rewrite Ehdr, Ehl. change (5 * 4) with 20. change (20 <? IP_HLEN) with false. cbv iota. rewrite Epb1. cbn [res_bind].
  rewrite (proj2 (Z.ltb_ge (len b) 4)) by lia. rewrite Ety. cbn [ICMP_ECHO ICMP_ER Z.eqb Pos.eqb]. rewrite Edest, Hmc.
  change (netif_at n1 (current_netif (ip_data n))) with (deref (netifs n) (current_netif (ip_data n))).
  rewrite (deref_ok _ _ _ Hnf). cbn [res_bind]. rewrite Hbc, Htl.
  rewrite (proj2 (Z.ltb_ge _ SIZEOF_ICMP_ECHO_HDR)) by (unfold SIZEOF_ICMP_ECHO_HDR; lia).
  change (packets n1) with (packets n).
  rewrite (chain_view_spec _ _ ((p, b) :: bl)) by (exact (proj1 Hpk) || exact (chain_fuel _ _ _ (proj1 Hpk))). cbn [res_bind].
  rewrite inet_chksum_pbuf_spec, chain_view_bytes
    by (apply chain_view_ok; [auto with lwip|exact (proj1 (proj2 Hpk))|rewrite total_cons; lia]).
  rewrite Echk. cbn [Z.eqb negb]. done.
Qed.

(** The packet that [echo_reply] sends and frees: an IP header with the addresses exchanged,
    a fresh TTL and everything else as in the request; type 0 with the checksum adjusted, the
    same identifier, sequence number and data. *)
Lemma echo_answer n p b bl inp src dest :
  room n p b bl IP_HLEN -> payloads_apart ((p, b) :: bl) -> mem_ok (mem n) -> 4 <= len b -> ref b = 1 ->
  current_iphdr_src (ip_data n) = src -> is_u32 src ->
  rd8 (mem n) (payload b) = ICMP_ECHO -> internet_checksum (cdata (mem n) ((p, b) :: bl)) = 0 ->
  exists m',
    let h' := <[p := moved IP_HLEN b]> (pbufs (packets n)) in
    let hdr := reply_header (rd (mem n) (payload b - IP_HLEN) 20) dest src in
    let msg := reply_message (cdata (mem n) ((p, b) :: bl)) in
    (let* n2 := echo_reply stale_flags custom_free callback_ok netif_output n p inp dest 20 in free custom_free n2 p)
    = (let* (_, n2) := send_on stale_flags custom_free callback_ok netif_output
         (inc P_icmp c_xmit (set_ph h' m' n)) p src inp in free custom_free n2 p)
    /\ cdata m' ((p, moved IP_HLEN b) :: bl) = hdr ++ msg
    /\ internet_checksum hdr = 0 /\ internet_checksum msg = 0.
Proof.
  intros [Hpk Hne Hty Hfront Hmax Hap] Hpa Hm Hlen Href Esrc Hsrc Ety Echk. unfold IP_HLEN in *.
  pose proof Hpk as ((_ & _ & Hb & Hc) & (Hl & Htl & Hlok) & _). rewrite total_cons in *.
  pose proof (lens_ok_nonneg _ Hlok) as Hnn.
  set (iphdr := payload b - 20) in *. set (m' := echo_mem (mem n) iphdr (payload b) dest src).
  exists m'. cbv zeta. assert (Epb : payload b = iphdr + 20) by (subst iphdr; lia).
  destruct (echo_mem_spec (mem n) iphdr dest src Hm) as [Erd Hfr]. rewrite <- Epb in Erd, Hfr. fold m' in Erd, Hfr.
  assert (Hcd : bytes_ok (cdata (mem n) ((p, b) :: bl))) by auto with lwip.
  set (D := cdata (mem n) ((p, b) :: bl)) in *.
  assert (ED : D = ICMP_ECHO :: rd8 (mem n) (iphdr + 21) :: le_bytes 2 (rd16 (mem n) (iphdr + 22)) ++ drop 4 D).
  { rewrite <- rd16_bytes by done. rewrite <- Ety. unfold D at 1 2. rewrite cdata_cons, Epb.
    replace (Z.to_nat (len b)) with (4 + Z.to_nat (len b - 4))%nat by lia. rewrite rd_add. cbn [rd app drop].
    repeat (rewrite <- Z.add_assoc; cbn [Z.add Pos.add Pos.succ]). done. }
  assert (Emsg : reply_message D = ICMP_ER :: rd8 (mem n) (iphdr + 21) :: le_bytes 2 (echo_chksum (rd16 (mem n) (iphdr + 22))) ++ drop 4 D).
  { by apply reply_message_eq; [apply rd16_range|]. }
  split_and!.
  - rewrite (echo_reply_spec n p b inp dest Hb Hne Hty); [|lia|lia|lia|done|by rewrite Esrc].
    fold iphdr. rewrite Esrc. fold m'. done.
  - rewrite (drop_cdata4 (mem n) m' p b 20 bl Hlen ltac:(lia) Hpa Hap) by (intros x Hx; apply Hfr; lia).
    fold iphdr D. change (Z.to_nat (20 + 4)) with 24%nat. rewrite Erd, Emsg, <- !app_assoc. done.
  - apply reply_header_verifies; [by apply mem_ok_rd|apply length_rd].
  - rewrite Emsg. apply echo_chksum_verifies; [apply Hm|by apply rd16_range|by apply bytes_ok_drop|]. by rewrite <- ED.
Qed.
End Echo.

(** ** A copy with room for the headers *)

Section Copy.
Context {A W : Type} `{AllocSpec A} `{!FragPool A}.
Variable stale_flags : Z -> Z.
Variable custom_free : Z -> Z -> Pbuf.state A -> res (Pbuf.state A).
Variable callback_ok : bool.
Hypothesis stale_flags_law : forall p, Z.land (stale_flags p) PBUF_FLAG_IS_CUSTOM = 0.
Implicit Types n : net A W.

(** A packet whose pbufs are nobody else's, each with data in its own block, none empty. *)
Record private (bl : list (Z * pbuf)) : Prop := {
  prv_ref : Forall (fun ab => ref (snd ab) = 1 /\ is_custom (snd ab) = false) bl;
  prv_own : own_data bl;
  prv_nonempty : nonempty bl
}.

(** The copy [(q, c)] of the packet [bl] with its header at [iphdr], which is gone. *)
Record copied n (L : gmap Z (owner * Z)) (iphdr : Z) (bl : list (Z * pbuf)) (q : Z) (c : pbuf) (s' : Pbuf.state A)
    (L' : gmap Z (owner * Z)) : Prop := {
  cp_new : q <> NULL /\ L !! q = None;
  cp_packet : packet (pbufs s') q [(q, c)];
  cp_fresh : type c = PBUF_RAM /\ flags c = 0 /\ ref c = 1 /\ len c = total bl;
  cp_room : q + SIZEOF_STRUCT_PBUF + PBUF_LINK_HLEN + IP_HLEN <= payload c;
  cp_header : rd (bytes s') (payload c - IP_HLEN) 20 = rd (mem n) iphdr 20;
  cp_data : cdata (bytes s') [(q, c)] = cdata (mem n) bl;
  cp_mem : mem_ok (bytes s');
  cp_gone : forall a, a ∈ fst <$> bl -> pbufs s' !! a = None /\ L' !! a = None;
  cp_wf : wf s' L';
  cp_frame : frame (pbufs (packets n)) (pbufs s') (q :: (fst <$> bl))
}.

(** The data of a packet lies apart, the room in front of it included. *)
Lemma own_data_apart (s : Pbuf.state A) L p b bl :
  wf s L -> chain (pbufs s) p ((p, b) :: bl) -> own_data ((p, b) :: bl) ->
  apart (p + SIZEOF_STRUCT_PBUF) (payload b + len b - (p + SIZEOF_STRUCT_PBUF)) bl
  /\ p + SIZEOF_STRUCT_PBUF <= payload b.
Proof.
  intros Hwf Hc Hod. pose proof (chain_NoDup _ _ _ Hc) as Hnd. apply NoDup_cons in Hnd. destruct Hnd as [Hn _].
  apply Forall_cons in Hod. destruct Hod as [[Hcu Ht] Hod]. cbn [snd] in *. pose proof Hc as (_ & _ & Hb & Hc').
  destruct (wf_placed _ _ Hwf p b Hb) as (o & k & HL & Ho). destruct (Ho Hcu) as [_ Hib]. destruct (Hib Ht) as [? ?].
  split; [|done]. apply Forall_forall. intros [a c] Hin. cbn [snd]. rewrite Forall_forall in Hod.
  destruct (Hod _ Hin) as [Hc2 Ht2]. cbn [snd] in *.
  destruct (wf_placed _ _ Hwf a c (proj2 (chain_lookup _ _ _ _ _ Hc' Hin))) as (o' & k' & HL' & Ho').
  destruct (Ho' Hc2) as [_ Hib']. destruct (Hib' Ht2). unfold SIZEOF_STRUCT_PBUF in *.
  destruct (owned_apart _ _ p o k a o' k' (wf_owned _ _ Hwf) HL HL'); [|lia|lia].
  intros <-. apply Hn, list_elem_of_fmap. by exists (p, c).
Qed.

Lemma own_payloads_apart (s : Pbuf.state A) L p bl :
  wf s L -> chain (pbufs s) p bl -> own_data bl -> payloads_apart bl.
Proof.
  intros Hwf. revert p. induction bl as [|[a b] bl IH]; intros p Hc Hod; [done|]. pose proof Hc as (-> & _ & _ & Hc').
  destruct (own_data_apart s L a b bl Hwf Hc Hod) as [Hap Hf]. split.
  - eapply apart_sub; [exact Hap|lia|lia].
  - apply Forall_cons in Hod. exact (IH _ Hc' (proj2 Hod)).
Qed.

(** Memory in which only the bytes of one pbuf have changed. *)
Lemma copy_mem_ok m m' q c :
  mem_ok m -> (forall x, outside x [(q, c)] -> rd8 m' x = rd8 m x) -> bytes_ok (cdata m' [(q, c)]) -> mem_ok m'.
Proof.
  intros Hm Hout Hok x. destruct (decide (payload c <= x < payload c + len c)) as [Hx|Hx].
  - rewrite cdata_cons, app_nil_r in Hok. unfold bytes_ok in Hok. rewrite Forall_lookup in Hok.
    apply (Hok (Z.to_nat (x - payload c))). rewrite rd_lookup by lia. do 2 f_equal. lia.
  - rewrite Hout; [apply Hm|]. constructor; [|constructor]. cbn [snd]. lia.
Qed.

(** No room for 36 bytes in front of a pbuf of the stack. *)
Lemma header_no_room n p b bl :
  packet (pbufs (packets n)) p ((p, b) :: bl) -> p <> NULL -> type b = PBUF_RAM \/ type b = PBUF_POOL ->
  payload b < p + SIZEOF_STRUCT_PBUF + 36 -> total ((p, b) :: bl) <= 65480 -> header n p 36 = Ok (true, n).
Proof.
  intros ((_ & _ & Hb & _) & (Hl & Htl & Hlok) & _) Hne Hty Hno Htot. pose proof (lens_ok_nonneg _ Hlok) as Hnn.
  rewrite <- (total_cons p) in Htl. rewrite (total_cons p) in Htot, Htl.
  unfold header, on_packets, pbuf_header. rewrite (header_spec _ p b 36 false Hb Hne) by (unfold lens_fit, is_s16; lia).
  assert (E : header_ok p b 36 false = false).
  { unfold header_ok, room_ok. destruct Hty as [-> | ->]; rewrite (proj2 (Z.leb_gt (p + SIZEOF_STRUCT_PBUF) _)) by lia; apply andb_false_r. }
  rewrite E. cbn [res_bind negb]. by destruct n.
Qed.

(** Moving the payload of a pbuf up keeps the invariant. *)
Lemma wf_moved_down s L q c k m :
  wf s L -> pbufs s !! q = Some c -> 0 <= k <= len c ->
  wf (Pbuf.with_bytes m (Pbuf.with_pbufs (<[q := moved (- k) c]> (pbufs s)) s)) L.
Proof.
  intros [Ho Hp] Hq Hk. split; [exact Ho|]. intros a c1. cbn [Pbuf.with_bytes Pbuf.with_pbufs pbufs].
  rewrite lookup_insert_Some. intros [[<- <-]|[_ Hx]]; [|by apply Hp]. destruct (Hp _ _ Hq) as (o & z & HL & Hb0).
  exists o, z. split; [done|]. intros Hcu. destruct (Hb0 Hcu) as [Ho1 Hib]. split; [done|]. intros Hty.
  destruct (Hib Hty). cbn [moved payload len]. lia.
Qed.

(** No room for the link header, and no memory for a copy or the copy. *)
Lemma room_by_copy n L p b bl iphdr :
  wf (packets n) L -> packet (pbufs (packets n)) p ((p, b) :: bl) -> p <> NULL -> private ((p, b) :: bl) ->
  mem_ok (mem n) -> payload b < p + SIZEOF_STRUCT_PBUF + 36 -> 8 <= total ((p, b) :: bl) <= 65480 ->
  exists r s', room_for_reply stale_flags custom_free callback_ok n p iphdr 20 = Ok (r, with_packets s' n)
    /\ match r with
       | None => wf s' L /\ pbufs s' = pbufs (packets n) /\ bytes s' = mem n
       | Some q => exists c L', copied n L iphdr ((p, b) :: bl) q c s' L'
       end.
Proof.
  intros Hwf Hpk Hne [Href Hod Hnem] Hm Hno Htot. unfold room_for_reply.
  change (s16 (20 + PBUF_LINK_HLEN + PBUF_LINK_ENCAPSULATION_HLEN)) with 36.
  pose proof Hpk as (Hc & Hok & Ht). pose proof Hc as (_ & _ & Hb & Hc'). pose proof Hok as (Hl & Htl & Hlok).
  pose proof (lens_ok_nonneg _ Hlok) as Hnn. rewrite <- (total_cons p) in Htl.
  pose proof (total_cons p b bl) as Etc. set (old := (p, b) :: bl) in *.
  assert (Eh : header n p 36 = Ok (true, n)) by (apply (header_no_room n p b bl); [done|done|apply (Forall_inv Hod)|done|fold old; lia]).
  rewrite Eh. cbn [res_bind]. unfold pbuf_at at 1. rewrite (deref_ok _ _ _ Hb). cbn [res_bind]. rewrite Htl.
  rewrite u16_id by (unfold is_u16; lia).
  destruct (pbuf_alloc_spec custom_free stale_flags callback_ok stale_flags_law (packets n) L PBUF_LINK (total old + 20) PBUF_RAM Hwf)
    as (q & s1 & Ea & Eby & Ecf & Hcase); [unfold is_u16; lia| |].
  { intros _. unfold ram_request. rewrite (Mem.align_size_arith (total old + 20)) by lia.
    change (Mem.LWIP_MEM_ALIGN_SIZE (SIZEOF_STRUCT_PBUF + layer_offset PBUF_LINK)) with 32. zlia. }
  unfold alloc_pbuf, on_packets at 1. rewrite Ea. cbn [res_bind].
  destruct Hcase as [(-> & Hwf1 & Ep)|(Hq & blq & L1 & Hpk1 & Htq & Hfo & Hwf1 & HLn & HfL & Hfp & Hroom & Hone)].
  { cbn [Z.eqb NULL]. exists None, s1. split; [done|]. by split_and!. }
  rewrite (proj2 (Z.eqb_neq q NULL)) by done. destruct (Hone ltac:(done)) as [c0 ->]. clear Hone.
  assert (HLq : L !! q = None) by (apply HLn; left). pose proof (wf_unowned _ _ _ Hwf HLq) as Hpq.
  apply Forall_inv in Hfo. destruct Hfo as (Etyp & Efl & Eref). cbn [snd fmap list_fmap fst] in *.
  pose proof Hpk1 as ((_ & _ & Hqb & Hqn) & (_ & Hct & _) & _). specialize (Hroom (or_introl eq_refl) _ Hqb).
  change (layer_offset PBUF_LINK) with 16 in Hroom.
  rewrite total_cons in Htq. change (total []) with 0 in Htq, Hct.
  unfold pbuf_at. cbn [with_packets packets]. rewrite (deref_ok _ _ _ Hqb). cbn [res_bind].
  unfold SIZEOF_ICMP_ECHO_HDR. rewrite (proj2 (Z.ltb_ge _ _)) by lia.
  set (hdr := rd (mem (with_packets s1 n)) iphdr (Z.to_nat 20)).
  assert (Hnq : q ∉ fst <$> old).
  { intros Hin. apply list_elem_of_fmap in Hin. destruct Hin as ([y c] & E & Hin). cbn [fst] in E. subst y.
    destruct (chain_lookup _ _ _ _ _ Hc Hin) as [_ ?]. congruence. }
  assert (Hc1 : chain (pbufs s1) p old).
  { eapply chain_frame; [|exact Hc]. intros a Ha. apply Hfp. rewrite list_elem_of_singleton. by intros ->. }
  assert (Hcu : is_custom c0 = false) by (unfold is_custom; by rewrite Efl).
  assert (Hca : chains_apart [(q, c0)] old).
  { eapply owned_chains_apart; [exact Hwf1|done..| |done|done]. intros a c Hin. eapply chain_lookup; [exact Hc1|done]. }
  apply Forall_inv in Hca. cbn [snd] in Hca.
  set (m1 := wr (mem (with_packets s1 n)) (payload c0) hdr). change (s16 (- (20))) with (- (20)).
  rewrite (header_down (with_mem m1 (with_packets s1 n)) q c0 20 Hqb Hq); [|lia|lia|lia|lia].
  cbn [res_bind negb lwip_assert]. set (c := moved (- (20)) c0). set (h2 := <[q := c]> _). unfold on_packets at 1.
  set (s2 := packets (set_ph h2 m1 (with_packets s1 n))).
  assert (Hpk2 : packet (pbufs s2) q [(q, c)]).
  { destruct (moved_down_packet (pbufs s1) q c0 [] m1 20 Hpk1 ltac:(done) ltac:(lia)) as [Hx _]. exact Hx. }
  assert (Hc2 : chain (pbufs s2) p old).
  { eapply chain_frame; [|exact Hc1]. intros a Ha. change (pbufs s2) with (<[q := c]> (pbufs s1)).
    rewrite lookup_insert_ne; [done|]. by intros <-. }
  assert (Eold : cdata m1 old = cdata (mem n) old).
  { unfold m1, mem. cbn [with_packets packets]. rewrite Eby. apply cdata_ext. intros ab x Hin Hx. apply wr_outside.
    unfold apart in Hca. rewrite Forall_forall in Hca. specialize (Hca _ Hin). unfold hdr. rewrite length_rd. lia. }
  assert (Hwf2 : wf s2 L1) by (apply (wf_moved_down s1 L1 q c0 20 m1); [done|done|lia]).
  pose proof (pbuf_copy_spec s2 q p [(q, c)] old Hpk2 (conj Hc2 (conj Hok Ht)) Hq Hne) as Hcopy.
  rewrite total_cons, (proj2 (Z.ltb_ge _ _)) in Hcopy by (change (total []) with 0; cbn [c moved len]; lia).
  destruct Hcopy as (m2 & Ecopy & Hdat & Hout).
  { constructor; [|constructor]. cbn [snd c moved len]. lia. }
  { done. }
  { split; [constructor|done]. }
  { constructor; [|constructor]. cbn [snd]. eapply apart_sub; [exact Hca|cbn [c moved payload len]; lia..]. }
  change (packets (set_ph h2 (mem (with_mem m1 (with_packets s1 n))) (with_mem m1 (with_packets s1 n)))) with s2.
  rewrite Ecopy. cbn [res_bind]. rewrite bool_decide_true by done. cbn [negb].
  destruct (pbuf_free_whole custom_free (with_bytes m2 s2) L1 p old) as (k & s' & L' & Ef & Hwf' & Eby' & Hgone & Hfr' & _).
  { destruct Hwf2 as [Ho Hp]. by split. }
  { exact Hc2. }
  { done. }
  { exact Href. }
  unfold free, on_packets. cbn [with_packets packets]. rewrite Ef. cbn [res_bind].
  exists (Some q), s'. split; [done|]. exists c, L'.
  assert (Em1 : mem_ok m1).
  { unfold m1, hdr, mem. cbn [with_packets packets]. rewrite Eby. apply mem_ok_wr; [exact Hm|]. by apply mem_ok_rd. }
  assert (Edat : cdata m2 [(q, c)] = cdata (mem n) old).
  { rewrite Hdat. change (bytes s2) with m1. rewrite Eold. apply splice_all. apply Nat2Z.inj.
    rewrite !length_cdata by (exact Hok || exact (proj1 (proj2 Hpk2))). rewrite total_cons. change (total []) with 0.
    cbn [c moved len]. lia. }
  split; rewrite ?Eby'; cbn [with_bytes bytes].
  - done.
  - destruct Hpk2 as (Hx & Hy & Hz). split_and!; [|done|done]. eapply chain_frame; [|exact Hx].
    intros a Ha. apply list_elem_of_singleton in Ha as ->. by apply Hfr'.
  - cbn [c moved type flags ref len]. split_and!; try done. lia.
  - cbn [c moved payload]. unfold PBUF_LINK_HLEN, IP_HLEN. lia.
  - transitivity (rd m1 (payload c0) 20).
    + cbn [c moved payload]. unfold IP_HLEN. replace (payload c0 - - (20) - 20) with (payload c0) by lia.
      apply rd_ext. intros x Hx. apply Hout. constructor; [|constructor]. cbn [snd c moved payload]. lia.
    + unfold m1. replace 20%nat with (length hdr) by apply length_rd. rewrite rd_wr_same. unfold hdr, mem.
      cbn [with_packets packets]. by rewrite Eby.
  - exact Edat.
  - apply (copy_mem_ok m1 m2 q c Em1 Hout). rewrite Edat. auto with lwip.
  - exact Hgone.
  - exact Hwf'.
  - intros a Ha. apply not_elem_of_cons in Ha. destruct Ha as [Haq Ha]. rewrite Hfr' by done.
    change (pbufs (with_bytes m2 s2)) with (<[q := c]> (pbufs s1)). rewrite lookup_insert_ne by done. apply Hfp.
    by rewrite list_elem_of_singleton.
Qed.

End Copy.
