(* ===== verification/Reass.v ===== *)
(** * IPv4 reassembly: lwip/src/core/ipv4/ip4_frag.c

    The queue of incomplete datagrams.  Received fragments stay in the packet buffers
    they came in; a helper struct laid over their IP header links those of a datagram.
    IP_REASS_CHECK_OVERLAP and IP_REASS_FREE_OLDEST are 1, IP_REASS_MAX_PBUFS is 10. *)

From S2P Require Import Prelude Def Ip4Addr InetChksum Pbuf PbufData PbufAlloc Net Ip4 Icmp.

(** ** Definitions *)

Definition IP_REASS_FLAG_LASTFRAG : Z := 1.
Definition IP_REASS_MAXAGE : Z := 3.
Definition IP_REASS_MAX_PBUFS : Z := 10.

(** [struct ip_reass_helper]. *)
Definition next_pbuf (m : memory) (iprh : Z) : Z := rd32 m iprh.
Definition iprh_start (m : memory) (iprh : Z) : Z := rd16 m (iprh + 4).
Definition iprh_end (m : memory) (iprh : Z) : Z := rd16 m (iprh + 6).
Definition set_next_pbuf (m : memory) (iprh v : Z) : memory := wr32 m iprh v.

Definition SIZEOF_IP_REASS_HELPER : Z := 8.

(** The fields of a copied header. *)
Definition hdr_id (bs : list Z) : Z := le_val (take 2 (skipn 4 bs)).
Definition hdr_offset (bs : list Z) : Z := le_val (take 2 (skipn 6 bs)).
Definition hdr_src (bs : list Z) : Z := le_val (take 4 (skipn 12 bs)).
Definition hdr_dest (bs : list Z) : Z := le_val (take 4 (skipn 16 bs)).

(** The header that [fraghdr] points to. *)
Definition hdr_at (m : memory) (fraghdr : Z) : list Z := rd m fraghdr (Z.to_nat IP_HLEN).

Definition IP_ADDRESSES_AND_ID_MATCH (a b : list Z) : bool :=
  (hdr_src a =? hdr_src b) && (hdr_dest a =? hdr_dest b) && (hdr_id a =? hdr_id b).

Definition with_reass_p (v : Z) (r : ip_reassdata) : ip_reassdata :=
  mk_reass v (reass_iphdr r) (datagram_len r) (reass_flags r) (timer r).
Definition with_reass_iphdr (v : list Z) (r : ip_reassdata) : ip_reassdata :=
  mk_reass (reass_p r) v (datagram_len r) (reass_flags r) (timer r).
Definition with_datagram_len (v : Z) (r : ip_reassdata) : ip_reassdata :=
  mk_reass (reass_p r) (reass_iphdr r) v (reass_flags r) (timer r).
Definition with_reass_flags (v : Z) (r : ip_reassdata) : ip_reassdata :=
  mk_reass (reass_p r) (reass_iphdr r) (datagram_len r) v (timer r).
Definition with_timer (v : Z) (r : ip_reassdata) : ip_reassdata :=
  mk_reass (reass_p r) (reass_iphdr r) (datagram_len r) (reass_flags r) v.

Section Reass.
Context {A W : Type} `{AllocOps A} `{FragPool A}.
Variable stale_flags : Z -> Z.
Variable custom_free : Z -> Z -> Pbuf.state A -> res (Pbuf.state A).
Variable callback_ok : bool.
Variable netif_output : net A W -> Z -> Z -> Z -> res (err_t * net A W).
Implicit Types n : net A W.

Definition reass_at n (i : nat) : res ip_reassdata :=
  match reassdatagrams n !! i with
  | Some r => Ok r
  | None => Fault FBadAccess
  end.

Definition set_reass n (i : nat) (r : ip_reassdata) : net A W :=
  with_reass (<[i := r]> (reassdatagrams n)) (reassdata_pool n) (ip_reass_pbufcount n) n.

(** Entry [i] of the list is unlinked and freed. *)
Definition ip_reass_dequeue_datagram n (i : nat) : res (net A W) :=
  let* _ := reass_at n i in
  Ok (with_reass (delete i (reassdatagrams n)) (S (reassdata_pool n)) (ip_reass_pbufcount n) n).

(** The [while] loop that frees the fragments from [p] on. *)
Fixpoint free_frags (fuel : nat) n (p pbufs_freed : Z) : res (Z * net A W) :=
  match fuel with
  | O => Fault FFuel
  | S fuel' =>
      if negb (p =? NULL) then
        let* b := pbuf_at n p in
        let nxt := next_pbuf (mem n) (payload b) in
        let* clen := pbuf_clen (packets n) p in
        assert* (pbufs_freed + clen <=? 65535) in
        let* n := free custom_free n p in
        free_frags fuel' n nxt (u16 (pbufs_freed + clen))
      else Ok (pbufs_freed, n)
  end.

Definition ip_reass_free_complete_datagram n (i : nat) : res (Z * net A W) :=
  let* ipr := reass_at n i in
  let p := reass_p ipr in
  let* b := pbuf_at n p in
  let iprh := payload b in
  let* (p, pbufs_freed, n) :=
    if iprh_start (mem n) iprh =? 0 then
      let nxt := next_pbuf (mem n) iprh in
      let n := set_reass n i (with_reass_p nxt ipr) in
      let n := with_mem (wr (mem n) (payload b) (reass_iphdr ipr)) n in
      let* n := icmp_time_exceeded stale_flags custom_free callback_ok netif_output n p ICMP_TE_FRAG in
      let* clen := pbuf_clen (packets n) p in
      assert* (0 + clen <=? 65535) in
      let* n := free custom_free n p in
      Ok (nxt, u16 clen, n)
    else Ok (p, 0, n) in
  let* (pbufs_freed, n) := free_frags (walk_fuel (pbufs (packets n))) n p pbufs_freed in
  let* n := ip_reass_dequeue_datagram n i in
  assert* (pbufs_freed <=? ip_reass_pbufcount n) in
  Ok (pbufs_freed, with_reass (reassdatagrams n) (reassdata_pool n) (u16 (ip_reass_pbufcount n - pbufs_freed)) n).

(** The [while] loop of the timer: entry [i] is the next one. *)
Fixpoint tmr_reass_loop (fuel : nat) n (i : nat) : res (net A W) :=
  match fuel with
  | O => Fault FFuel
  | S fuel' =>
      match reassdatagrams n !! i with
      | None => Ok n
      | Some r =>
          if 0 <? timer r then tmr_reass_loop fuel' (set_reass n i (with_timer (timer r - 1) r)) (S i)
          else let* (_, n) := ip_reass_free_complete_datagram n i in tmr_reass_loop fuel' n i
      end
  end.

Definition ip_reass_tmr n : res (net A W) := tmr_reass_loop (S (length (reassdatagrams n))) n 0.

(** The oldest datagram other than that of the fragment, and the number of others. *)
Fixpoint find_oldest (l : list ip_reassdata) (fraghdr : list Z) (i : nat) (oldest : option (nat * Z)) (others : Z)
    : option (nat * Z) * Z :=
  match l with
  | [] => (oldest, others)
  | r :: l' =>
      if IP_ADDRESSES_AND_ID_MATCH (reass_iphdr r) fraghdr then find_oldest l' fraghdr (S i) oldest others
      else
        let oldest :=
          match oldest with
          | None => Some (i, timer r)
          | Some (_, t) => if timer r <=? t then Some (i, timer r) else oldest
          end in
        find_oldest l' fraghdr (S i) oldest (others + 1)
  end.

(** The [do ... while] loop. *)
Fixpoint remove_oldest_loop (fuel : nat) n (fraghdr pbufs_needed pbufs_freed : Z) : res (Z * net A W) :=
  match fuel with
  | O => Fault FFuel
  | S fuel' =>
      let '(oldest, others) := find_oldest (reassdatagrams n) (hdr_at (mem n) fraghdr) 0 None 0 in
      let* (pbufs_freed, n) :=
        match oldest with
        | Some (i, _) => let* (k, n) := ip_reass_free_complete_datagram n i in Ok (pbufs_freed + k, n)
        | None => Ok (pbufs_freed, n)
        end in
      if (pbufs_freed <? pbufs_needed) && (1 <? others)
      then remove_oldest_loop fuel' n fraghdr pbufs_needed pbufs_freed
      else Ok (pbufs_freed, n)
  end.

(** Each round but the last frees a datagram. *)
Definition ip_reass_remove_oldest_datagram n (fraghdr pbufs_needed : Z) : res (Z * net A W) :=
  remove_oldest_loop (S (length (reassdatagrams n))) n fraghdr pbufs_needed 0.

(** [memp_malloc(MEMP_REASSDATA)]: the elements of the pool are counted. *)
Definition reassdata_malloc n : option (net A W) :=
  match reassdata_pool n with
  | O => None
  | S k => Some (with_reass (reassdatagrams n) k (ip_reass_pbufcount n) n)
  end.

(** The new entry is the first of the list; [false] without memory. *)
Definition ip_reass_enqueue_new_datagram n (fraghdr clen : Z) : res (bool * net A W) :=
  let* (r, n) :=
    match reassdata_malloc n with
    | Some n => Ok (true, n)
    | None =>
        let* (k, n) := ip_reass_remove_oldest_datagram n fraghdr clen in
        if clen <=? k then
          match reassdata_malloc n with
          | Some n => Ok (true, n)
          | None => Ok (false, n)
          end
        else Ok (false, n)
    end in
  if (r : bool) then
    Ok (true, with_reass (mk_reass NULL (hdr_at (mem n) fraghdr) 0 0 IP_REASS_MAXAGE :: reassdatagrams n) (reassdata_pool n)
                (ip_reass_pbufcount n) n)
  else Ok (false, inc P_ip_frag c_memerr n).

(** *** Inserting a fragment *)

(** Where the [for] loop ends: the fragment overlaps, its [next_pbuf] being [q]; or it is to
    be placed before [q], behind the helper [prev] (NULL: none); [valid] is false after a
    hole. *)
Inductive place := Overlap (q : Z) | Before (q prev : Z) (valid : bool).

Fixpoint find_place (fuel : nat) (h : heap) (m : memory) (q prev iprh : Z) (valid : bool) : res place :=
  match fuel with
  | O => Fault FFuel
  | S fuel' =>
      if negb (q =? NULL) then
        let* b := deref h q in
        let tmp := payload b in
        if iprh_start m iprh <? iprh_start m tmp then
          if negb (prev =? NULL)
             && ((iprh_start m iprh <? iprh_end m prev) || (iprh_start m tmp <? iprh_end m iprh))
          then Ok (Overlap q)
          else Ok (Before q prev valid)
        else if iprh_start m iprh =? iprh_start m tmp then Ok (Overlap NULL)
        else if iprh_start m iprh <? iprh_end m tmp then Ok (Overlap NULL)
        else
          let valid := if negb (prev =? NULL) && negb (iprh_end m prev =? iprh_start m tmp) then false else valid in
          find_place fuel' h m (next_pbuf m tmp) tmp iprh valid
      else Ok (Before q prev valid)
  end.

(** Link the fragment [new_p] in: the new memory, first fragment and [valid]. *)
Definition link_frag (m : memory) (p q prev iprh new_p : Z) (valid : bool) : res (memory * Z * bool) :=
  if negb (q =? NULL) then
    let m := set_next_pbuf m iprh q in
    if negb (prev =? NULL) then Ok (set_next_pbuf m prev new_p, p, valid) else Ok (m, new_p, valid)
  else if negb (prev =? NULL) then
    assert* (iprh_end m prev <=? iprh_start m iprh) in
    let m := set_next_pbuf m prev new_p in
    Ok (m, p, if negb (iprh_end m prev =? iprh_start m iprh) then false else valid)
  else
    assert* (p =? NULL) in
    Ok (m, new_p, valid).

(** The [while] loop of the validation: no hole from the fragment [prev] on, [q] being
    the next one; the last helper of the list, or [None] after a hole. *)
Fixpoint no_holes (fuel : nat) (h : heap) (m : memory) (q prev : Z) : res (option Z) :=
  match fuel with
  | O => Fault FFuel
  | S fuel' =>
      if negb (q =? NULL) then
        let* b := deref h q in
        let iprh := payload b in
        if negb (iprh_end m prev =? iprh_start m iprh) then Ok None
        else no_holes fuel' h m (next_pbuf m iprh) iprh
      else Ok (Some prev)
  end.

(** The validation: are all fragments of the datagram there? *)
Definition validate (h : heap) (m : memory) (ipr : ip_reassdata) (iprh : Z) (valid : bool) : res bool :=
  if negb (Z.land (reass_flags ipr) IP_REASS_FLAG_LASTFRAG =? 0) then
    if valid then
      let* first :=
        if reass_p ipr =? NULL then Ok None
        else let* b := deref h (reass_p ipr) in
             Ok (if negb (iprh_start m (payload b) =? 0) then None else Some (payload b)) in
      match first with
      | None => Ok false
      | Some first =>
          let* r := no_holes (walk_fuel h) h m (next_pbuf m iprh) iprh in
          match r with
          | None => Ok false
          | Some last =>
              assert* negb (reass_p ipr =? NULL) in
              assert* negb (first =? last) in
              assert* (next_pbuf m last =? NULL) in
              assert* (iprh_end m last =? datagram_len ipr) in
              Ok true
          end
      end
    else Ok false
  else Ok false.

(** [true]: the datagram of entry [i] is complete. *)
Definition ip_reass_chain_frag_into_datagram_and_validate n (i : nat) (new_p : Z) : res (bool * net A W) :=
  let* ipr := reass_at n i in
  let* b := pbuf_at n new_p in
  let fraghdr := payload b in
  let len := u16 (lwip_ntohs (IPH_LEN (mem n) fraghdr) - IPH_HL (mem n) fraghdr * 4) in
  let offset := u16 (Z.land (lwip_ntohs (IPH_OFFSET (mem n) fraghdr)) IP_OFFMASK * 8) in
  assert* (SIZEOF_IP_REASS_HELPER <=? IP_HLEN) in
  let iprh := payload b in
  let m := set_next_pbuf (mem n) iprh NULL in
  let m := wr16 m (iprh + 4) offset in
  let m := wr16 m (iprh + 6) (u16 (offset + len)) in
  let n := with_mem m n in
  let h := pbufs (packets n) in
  let* pl := find_place (walk_fuel h) h m (reass_p ipr) NULL iprh true in
  match pl with
  | Overlap q =>
      let n := with_mem (set_next_pbuf m iprh q) n in
      let* clen := pbuf_clen (packets n) new_p in
      let n := with_reass (reassdatagrams n) (reassdata_pool n) (u16 (ip_reass_pbufcount n - clen)) n in
      let* n := free custom_free n new_p in
      Ok (false, n)
  | Before q prev valid =>
      let* (m, p, valid) := link_frag m (reass_p ipr) q prev iprh new_p valid in
      let ipr := with_reass_p p ipr in
      let n := with_mem m (set_reass n i ipr) in
      let* v := validate h m ipr iprh valid in
      Ok (v, n)
  end.

(** *** ip4_reass *)

(** The loop over the queue: the first datagram that the fragment belongs to. *)
Fixpoint find_datagram (l : list ip_reassdata) (fraghdr : list Z) (i : nat) : option nat :=
  match l with
  | [] => None
  | r :: l' => if IP_ADDRESSES_AND_ID_MATCH (reass_iphdr r) fraghdr then Some i else find_datagram l' fraghdr (S i)
  end.

(** The [while] loop that chains the fragments from [r] on behind [p]. *)
Fixpoint chain_frags (fuel : nat) n (p r : Z) : res (net A W) :=
  match fuel with
  | O => Fault FFuel
  | S fuel' =>
      if negb (r =? NULL) then
        let* b := pbuf_at n r in
        let iprh := payload b in
        let* (_, n) := header n r (- IP_HLEN) in
        let* s := pbuf_cat (packets n) p r in
        let n := with_packets s n in
        chain_frags fuel' n p (next_pbuf (mem n) iprh)
      else Ok n
  end.

(** The complete datagram of entry [i] becomes a packet. *)
Definition deliver n (i : nat) : res (Z * net A W) :=
  let* ipr := reass_at n i in
  let len := u16 (datagram_len ipr + IP_HLEN) in
  let p := reass_p ipr in
  let* b := pbuf_at n p in
  let r := next_pbuf (mem n) (payload b) in
  let fraghdr := payload b in
  let m := wr (mem n) fraghdr (reass_iphdr ipr) in
  let m := IPH_LEN_SET m fraghdr (lwip_htons len) in
  let m := IPH_OFFSET_SET m fraghdr 0 in
  let m := IPH_CHKSUM_SET m fraghdr 0 in
  let m := IPH_CHKSUM_SET m fraghdr (inet_chksum fraghdr (rd m fraghdr (Z.to_nat IP_HLEN))) in
  let n := with_mem m n in
  let* n := chain_frags (walk_fuel (pbufs (packets n))) n p r in
  let* n := ip_reass_dequeue_datagram n i in
  let* clen := pbuf_clen (packets n) p in
  Ok (p, with_reass (reassdatagrams n) (reassdata_pool n) (u16 (ip_reass_pbufcount n - clen)) n).

(** [goto nullreturn]. *)
Definition nullreturn n (p : Z) : res (Z * net A W) :=
  let* n := free custom_free (inc P_ip_frag c_drop n) p in Ok (NULL, n).

(** Room for [clen] more pbufs? *)
Definition make_room n (fraghdr clen : Z) : res (bool * net A W) :=
  if IP_REASS_MAX_PBUFS <? ip_reass_pbufcount n + clen then
    let* (k, n) := ip_reass_remove_oldest_datagram n fraghdr clen in
    Ok (negb ((k =? 0) || (IP_REASS_MAX_PBUFS <? ip_reass_pbufcount n + clen)), n)
  else Ok (true, n).

(** The entry of the queue for the fragment; [None] without memory. *)
Definition find_or_enqueue n (fraghdr clen : Z) : res (option nat * net A W) :=
  match find_datagram (reassdatagrams n) (hdr_at (mem n) fraghdr) 0 with
  | None =>
      let* (ok, n) := ip_reass_enqueue_new_datagram n fraghdr clen in
      Ok (if (ok : bool) then Some 0%nat else None, n)
  | Some i =>
      let n := inc P_ip_frag c_cachehit n in
      let* ipr := reass_at n i in
      if (Z.land (lwip_ntohs (IPH_OFFSET (mem n) fraghdr)) IP_OFFMASK =? 0)
         && negb (Z.land (lwip_ntohs (hdr_offset (reass_iphdr ipr))) IP_OFFMASK =? 0)
      then Ok (Some i, set_reass n i (with_reass_iphdr (hdr_at (mem n) fraghdr) ipr))
      else Ok (Some i, n)
  end.

(** NULL: the datagram is not complete. *)
Definition ip4_reass n (p : Z) : res (Z * net A W) :=
  let n := inc P_ip_frag c_recv n in
  let* b := pbuf_at n p in
  let fraghdr := payload b in
  if negb (IPH_HL (mem n) fraghdr * 4 =? IP_HLEN) then nullreturn (inc P_ip_frag c_err n) p
  else
    let offset := u16 (Z.land (lwip_ntohs (IPH_OFFSET (mem n) fraghdr)) IP_OFFMASK * 8) in
    let len := u16 (lwip_ntohs (IPH_LEN (mem n) fraghdr) - IPH_HL (mem n) fraghdr * 4) in
    let* clen := pbuf_clen (packets n) p in
    let* (room, n) := make_room n fraghdr clen in
    if negb room then nullreturn (inc P_ip_frag c_memerr n) p
    else
      let* (r, n) := find_or_enqueue n fraghdr clen in
      match r with
      | None => nullreturn n p
      | Some i =>
          let n := with_reass (reassdatagrams n) (reassdata_pool n) (u16 (ip_reass_pbufcount n + clen)) n in
          let* n :=
            if Z.land (IPH_OFFSET (mem n) fraghdr) (PP_NTOHS IP_MF) =? 0 then
              let* ipr := reass_at n i in
              let ipr := with_reass_flags (Z.lor (reass_flags ipr) IP_REASS_FLAG_LASTFRAG) ipr in
              Ok (set_reass n i (with_datagram_len (u16 (offset + len)) ipr))
            else Ok n in
          let* (complete, n) := ip_reass_chain_frag_into_datagram_and_validate n i p in
          if (complete : bool) then deliver n i else Ok (NULL, n)
      end.

End Reass.

(** ** Examples *)

Section Examples.

(** A fragment in memory: identification 7, from 10.0.0.2 to 10.0.0.1; [o1], [o2] are the
    bytes of the offset field. *)
Definition frag_bytes (o1 o2 : Z) (data : list Z) : list Z :=
  [69; 0; 0; 20 + Z.of_nat (length data); 0; 7; o1; o2; 64; 17; 0; 0; 10; 0; 0; 2; 10; 0; 0; 1] ++ data.

Definition frag_pbuf (p l : Z) : pbuf := mk_pbuf NULL (p + 100) (20 + l) (20 + l) PBUF_POOL 0 1.

(** Three fragments in pbufs at 1000, 2000 and 3000. *)
Definition frag_net (f1 f2 f3 : list Z) : net (heap_pools * frag_pool) (list (list Z)) :=
  let l (f : list Z) := Z.of_nat (length f) - 20 in
  with_packets
    (Pbuf.mk_state {[1000 := frag_pbuf 1000 (l f1); 2000 := frag_pbuf 2000 (l f2); 3000 := frag_pbuf 3000 (l f3)]}
       (wr (wr (wr ∅ 1100 f1) 2100 f2) 3100 f3) ∅ (hp0, ([], ∅)) false 0) ex_net.

(** The fragments come in in this order; what the last one gives. *)
Definition reass3 (f1 f2 f3 : list Z) : res (Z * net (heap_pools * frag_pool) (list (list Z))) :=
  let reass n p := ip4_reass (fun _ => 0) (fun _ _ s => Ok s) true ex_output n p in
  let* (_, n) := reass (frag_net f1 f2 f3) 1000 in
  let* (_, n) := reass n 2000 in
  reass n 3000.

Definition data8 (x : Z) : list Z := [x; x; x; x; x; x; x; x].

(** The data that comes out. *)
Definition outcome (r : res (Z * net (heap_pools * frag_pool) (list (list Z)))) : option (list Z) :=
  match r with
  | Ok (p, n) => if p =? NULL then None else
      match chain_view (walk_fuel (pbufs (packets n))) (pbufs (packets n)) (mem n) p with
      | Ok v => Some (drop 20 (mjoin (snd <$> v)))
      | Fault _ => None
      end
  | Fault _ => None
  end.

(** A hole right before a fragment that is inserted in the middle is not noticed: of a
    datagram of 32 bytes whose bytes 8 to 15 never arrived, 24 bytes are handed on, with a
    header that says 32. *)
Theorem reass_hole_delivered :
  exists n b, reass3 (frag_bytes 32 0 (data8 1)) (frag_bytes 0 3 (data8 4)) (frag_bytes 32 2 (data8 3)) = Ok (1000, n)
    /\ pbufs (packets n) !! 1000 = Some b /\ tot_len b = 44 /\ lwip_ntohs (IPH_LEN (mem n) (payload b)) = 52
    /\ outcome (Ok (1000, n)) = Some (data8 1 ++ data8 3 ++ data8 4).
Proof.
  eexists _, _. split; [vm_compute; reflexivity|]. split; [vm_compute; reflexivity|]. split; [vm_compute; reflexivity|].
  split; [vm_compute; reflexivity|]. vm_compute. reflexivity.
Qed.

(** The total length is taken from a last fragment even if that is thrown away because it
    overlaps; a fragment behind it then fails the assertion on the end of the datagram. *)
Theorem reass_overlap_aborts :
  reass3 (frag_bytes 32 0 (data8 1 ++ data8 2)) (frag_bytes 0 1 (data8 2)) (frag_bytes 32 2 (data8 3)) = Fault FAssert.
Proof. vm_compute. reflexivity. Qed.

(** The fragments of the same datagram in three orders. *)
Example reass_orders :
  let f1 := frag_bytes 32 0 (data8 1) in let f2 := frag_bytes 32 1 (data8 2) in let f3 := frag_bytes 0 2 (data8 3) in
  let all := Some (data8 1 ++ data8 2 ++ data8 3) in
  outcome (reass3 f1 f2 f3) = all /\ outcome (reass3 f3 f2 f1) = all /\ outcome (reass3 f1 f3 f2) = all.
Proof. vm_compute. done. Qed.

End Examples.
