(* ===== verification/ReassList.v ===== *)
(** * The fragments of a datagram as a list: lwip/src/core/ipv4/ip4_frag.c

    The linked list that the code threads through the headers of the fragments, as a list
    of intervals: where a new fragment goes, when it is refused, when the datagram is taken
    for complete, and what is delivered then. *)

From S2P Require Import Prelude Def Ip4Addr InetChksum Pbuf PbufData PbufAlloc PbufOps Net Ip4 Icmp Reass.

(** ** The representation *)

(** A fragment: its first pbuf, the ones chained behind it, and its interval. *)
Record frag := mk_frag { f_p : Z; f_b : pbuf; f_bl : list (Z * pbuf); f_start : Z; f_end : Z }.

(** The address of its helper struct, and its chain. *)
Definition hlp (f : frag) : Z := payload (f_b f).
Definition f_chain (f : frag) : list (Z * pbuf) := (f_p f, f_b f) :: f_bl f.

(** The pbuf [q] has the helper of [f]. *)
Definition frag_at (h : heap) (m : memory) (q : Z) (f : frag) : Prop :=
  q = f_p f /\ q <> NULL /\ h !! q = Some (f_b f) /\ hlp f <> NULL
  /\ iprh_start m (hlp f) = f_start f /\ iprh_end m (hlp f) = f_end f.

(** From [q] through the fragments [l] to [r]. *)
Fixpoint fseg (h : heap) (m : memory) (q : Z) (l : list frag) (r : Z) : Prop :=
  match l with
  | [] => q = r
  | f :: l' => frag_at h m q f /\ fseg h m (next_pbuf m (hlp f)) l' r
  end.

Definition flist (h : heap) (m : memory) (q : Z) (l : list frag) : Prop := fseg h m q l NULL.

Lemma fseg_app h m q l1 l2 r : fseg h m q (l1 ++ l2) r <-> exists s, fseg h m q l1 s /\ fseg h m s l2 r.
Proof.
  revert q. induction l1 as [|f l1 IH]; intros q; cbn [app fseg].
  - split; [intros H; by exists q|by intros (s & -> & H)].
  - rewrite IH. split; [intros (Hf & s & H1 & H2)|intros (s & (Hf & H1) & H2)]; [exists s|split; [done|exists s]]; done.
Qed.

(** ** Where a fragment goes *)

(** No hole: each fragment starts where the one before it, [prev] at first, ends. *)
Fixpoint contig (prev : option frag) (l : list frag) : bool :=
  match l with
  | [] => true
  | f :: l' => match prev with Some g => f_end g =? f_start f | None => true end && contig (Some f) l'
  end.

Definition lastf (prev : option frag) (l : list frag) : option frag := match last l with Some f => Some f | None => prev end.
Definition addr_of (o : option frag) : Z := match o with Some f => hlp f | None => NULL end.
Definition firstp (l : list frag) : Z := match l with f :: _ => f_p f | [] => NULL end.

Lemma lastf_cons prev f l : lastf prev (f :: l) = lastf (Some f) l.
Proof. unfold lastf. destruct l as [|g l]; [done|]. rewrite last_cons_cons. destruct (last (g :: l)) eqn:E; [done|]. by apply last_None in E. Qed.

(** A fragment [[s, e)] is refused if it starts inside one that starts before it, or starts
    with another one, or reaches into the next one; the last is not checked for a fragment
    that becomes the first. *)
Definition refused (l1 l2 : list frag) (s e : Z) : bool :=
  existsb (fun f => s <? f_end f) l1
  || match l2 with
     | [] => false
     | f :: _ => (f_start f =? s) || (negb (bool_decide (l1 = [])) && (f_start f <? e))
     end.

(** The fragments that start before [s], and the others. *)
Definition before (s : Z) (l1 l2 : list frag) : Prop :=
  Forall (fun f => f_start f < s) l1 /\ match l2 with [] => True | f :: _ => s <= f_start f end.

Lemma find_place_spec h m iprh s e l1 l2 : forall fuel q prev valid,
  iprh_start m iprh = s -> iprh_end m iprh = e -> flist h m q (l1 ++ l2) -> before s l1 l2 ->
  match prev with Some g => hlp g <> NULL /\ iprh_end m (hlp g) = f_end g /\ f_end g <= s | None => True end ->
  (length (l1 ++ l2) < fuel)%nat ->
  exists r, find_place fuel h m q (addr_of prev) iprh valid = Ok r
    /\ if existsb (fun f => s <? f_end f) l1
          || match l2 with
             | [] => false
             | f :: _ => (f_start f =? s) || (negb (bool_decide (lastf prev l1 = None)) && (f_start f <? e))
             end
       then exists q', r = Overlap q'
       else r = Before (firstp l2) (addr_of (lastf prev l1)) (valid && contig prev l1).
Proof.
  induction l1 as [|f l1 IH]; intros [|fuel] q prev valid Hs He Hl [Hb1 Hb2] Hp Hf; try (cbn in Hf; lia); cbn [find_place].
  - cbn [app existsb orb contig]. rewrite andb_true_r. destruct l2 as [|f l2]; cbn [app] in Hl.
    { cbn [flist fseg] in Hl. rewrite Hl. eexists. split; [reflexivity|]. done. }
    destruct Hl as ((-> & Hne & Hh & _ & Hfs & Hfe) & _). rewrite (proj2 (Z.eqb_neq _ _) Hne). cbn [negb].
    rewrite (deref_ok _ _ _ Hh). cbn [res_bind]. fold (hlp f). rewrite Hs, He, Hfs. cbn in Hb2.
    destruct (Z.ltb_spec s (f_start f)) as [Hlt|Hge].
    + rewrite (proj2 (Z.eqb_neq (f_start f) s)) by lia. cbn [orb]. unfold lastf. cbn [last].
      destruct prev as [g|]; cbn [addr_of].
      * destruct Hp as (Hgn & Hge & Hgs). rewrite (proj2 (Z.eqb_neq _ _) Hgn), Hge, (proj2 (Z.ltb_ge s (f_end g)) Hgs).
        rewrite bool_decide_false by done. cbn [negb andb orb].
        destruct (f_start f <? e); eexists; (split; [reflexivity|]); [by eexists|done].
      * rewrite bool_decide_true by done. cbn [negb andb]. eexists. split; [reflexivity|]. done.
    + rewrite (proj2 (Z.eqb_eq s (f_start f))), (proj2 (Z.eqb_eq (f_start f) s)) by lia. cbn [orb].
      eexists. split; [reflexivity|]. by eexists.
  - cbn [app] in Hl. destruct Hl as ((-> & Hne & Hh & Hhn & Hfs & Hfe) & Hl). apply Forall_cons in Hb1 as [Hlt Hb1].
    rewrite (proj2 (Z.eqb_neq _ _) Hne). cbn [negb]. rewrite (deref_ok _ _ _ Hh). cbn [res_bind]. fold (hlp f).
    rewrite Hs, Hfs, (proj2 (Z.ltb_ge s (f_start f))), (proj2 (Z.eqb_neq s (f_start f))) by lia. rewrite Hfe.
    cbn [existsb]. destruct (Z.ltb_spec s (f_end f)) as [Hov|Hov]; cbn [orb].
    { eexists. split; [reflexivity|]. by eexists. }
    set (v := if _ && _ then false else valid).
    assert (Ev : v = valid && (match prev with Some g => f_end g =? f_start f | None => true end)).
    { subst v. destruct prev as [g|]; cbn [addr_of]; [|by rewrite andb_true_r].
      destruct Hp as (Hgn & Hge & _). rewrite (proj2 (Z.eqb_neq _ _) Hgn), Hge. cbn [negb andb].
      destruct (f_end g =? f_start f); [by rewrite andb_true_r|by rewrite andb_false_r]. }
    destruct (IH fuel (next_pbuf m (hlp f)) (Some f) v Hs He Hl) as (r & Er & Hr); [done|done|cbn in Hf; lia|].
    exists r. split; [exact Er|]. rewrite !lastf_cons. destruct (existsb _ _ || _); [done|].
    rewrite Hr, Ev. cbn [contig]. by rewrite andb_assoc.
Qed.

(** ** Linking a fragment in *)

(** The helpers of different fragments do not overlap. *)
Definition helpers_apart (l : list frag) : Prop :=
  NoDup (hlp <$> l)
  /\ forall f g, f ∈ l -> g ∈ l -> hlp f <> hlp g -> hlp f + SIZEOF_IP_REASS_HELPER <= hlp g \/ hlp g + SIZEOF_IP_REASS_HELPER <= hlp f.

Lemma frag_at_frame h m m' q f :
  (forall x, hlp f + 4 <= x < hlp f + 8 -> rd8 m' x = rd8 m x) -> frag_at h m q f -> frag_at h m' q f.
Proof.
  intros Hx (Hq & Hne & Hh & Hn & Hs & He). split_and!; try done.
  - rewrite <- Hs. unfold iprh_start, rd16. f_equal. apply rd_ext. intros x Hx'. apply Hx. lia.
  - rewrite <- He. unfold iprh_end, rd16. f_equal. apply rd_ext. intros x Hx'. apply Hx. lia.
Qed.

Lemma fseg_frame h m m' l : forall q r,
  (forall f x, f ∈ l -> hlp f <= x < hlp f + 8 -> rd8 m' x = rd8 m x) -> fseg h m q l r -> fseg h m' q l r.
Proof.
  induction l as [|f l IH]; intros q r Hx Hl; cbn [fseg] in *; [done|]. destruct Hl as [Hf Hl].
  split; [eapply frag_at_frame; [|exact Hf]; intros x Hx'; apply (Hx f); [left|lia]|].
  replace (next_pbuf m' (hlp f)) with (next_pbuf m (hlp f)).
  - apply IH; [|done]. intros g x Hg. apply Hx. by right.
  - unfold next_pbuf, rd32. f_equal. apply rd_ext. intros x Hx'. symmetry. apply (Hx f); [left|lia].
Qed.

Lemma set_next_frame m a v x : (x < a \/ a + 4 <= x) -> rd8 (set_next_pbuf m a v) x = rd8 m x.
Proof. intros Hx. unfold set_next_pbuf, wr32. by rewrite wr_outside by (cbn [length le_bytes]; lia). Qed.

(** Redirecting the end of a segment. *)
Lemma fseg_set_next h m q l g r r' :
  fseg h m q (l ++ [g]) r -> helpers_apart (l ++ [g]) -> is_u32 r' -> fseg h (set_next_pbuf m (hlp g) r') q (l ++ [g]) r'.
Proof.
  intros Hl [Hnd Hap] Hr. apply fseg_app in Hl as (s & H1 & Hg & _). apply fseg_app. exists s. split.
  - eapply fseg_frame; [|exact H1]. intros f x Hf Hx. apply set_next_frame.
    assert (Hne : hlp f <> hlp g).
    { rewrite fmap_app in Hnd. apply NoDup_app in Hnd as (_ & Hd & _). intros E. apply (Hd (hlp f)).
      - by apply list_elem_of_fmap_2.
      - rewrite E. left. }
    specialize (Hap f g). unfold SIZEOF_IP_REASS_HELPER in Hap.
    destruct (Hap ltac:(by apply elem_of_app; left) ltac:(apply elem_of_app; right; left) Hne); lia.
  - split; [|cbn; unfold next_pbuf, set_next_pbuf; by apply rd32_wr32].
    eapply frag_at_frame; [|exact Hg]. intros x Hx. apply set_next_frame. lia.
Qed.

Lemma fseg_first h m q l r : fseg h m q l r -> l <> [] -> q = firstp l.
Proof. destruct l as [|f l]; [done|]. intros [[-> _] _] _. done. Qed.

Lemma flist_first h m q l : flist h m q l -> q = firstp l.
Proof. destruct l as [|f l]; [by intros ->|]. intros [[-> _] _]. done. Qed.

Lemma lastf_snoc prev l g : lastf prev (l ++ [g]) = Some g.
Proof. unfold lastf. by rewrite last_snoc. Qed.

Lemma helpers_apart_sub l l' : helpers_apart l -> l' `sublist_of` l -> helpers_apart l'.
Proof.
  intros [Hnd Hap] Hs. split; [eapply sublist_NoDup; [exact Hnd|by apply fmap_sublist]|].
  intros f g Hf Hg. apply Hap; eapply elem_of_submseteq; (eassumption || by apply sublist_submseteq).
Qed.

Lemma helpers_ne l1 f l2 g : helpers_apart (l1 ++ f :: l2) -> g ∈ l1 ++ l2 -> hlp g <> hlp f /\ (hlp f + 8 <= hlp g \/ hlp g + 8 <= hlp f).
Proof.
  intros [Hnd Hap] Hg. rewrite fmap_app, fmap_cons in Hnd. rewrite <- Permutation_middle in Hnd.
  apply NoDup_cons in Hnd as [Hn _].
  assert (Hne : hlp g <> hlp f). { intros E. apply Hn. rewrite <- E, <- fmap_app. by apply list_elem_of_fmap_2. }
  split; [done|]. specialize (Hap f g). unfold SIZEOF_IP_REASS_HELPER in Hap. apply Hap; [apply elem_of_app; right; left| |congruence].
  apply elem_of_app. apply elem_of_app in Hg as [Hg|Hg]; [by left|by right; right].
Qed.

(** The fragment [f], whose helper is filled in, goes between [l1] and [l2]. *)
Lemma link_frag_spec h m p l1 f l2 valid :
  flist h m p (l1 ++ l2) -> frag_at h m (f_p f) f -> next_pbuf m (hlp f) = NULL -> helpers_apart (l1 ++ f :: l2) ->
  Forall (fun g => is_u32 (f_p g)) (l1 ++ f :: l2) ->
  (forall g, lastf None l1 = Some g -> f_end g <= f_start f) ->
  exists m', link_frag m p (firstp l2) (addr_of (lastf None l1)) (hlp f) (f_p f) valid
      = Ok (m', firstp (l1 ++ [f]),
            if bool_decide (l2 = []) then valid && match lastf None l1 with Some g => f_end g =? f_start f | None => true end
            else valid)
    /\ flist h m' (firstp (l1 ++ [f])) (l1 ++ f :: l2)
    /\ (forall x, (forall g, g ∈ l1 ++ f :: l2 -> x < hlp g \/ hlp g + 4 <= x) -> rd8 m' x = rd8 m x).
Proof.
  intros Hl Hf Hnx Hap H32 Hend. apply Forall_app in H32 as [H32a H32b]. apply Forall_cons in H32b as [Hf32 H32b].
  apply fseg_app in Hl as (q & H1 & H2). pose proof (flist_first _ _ _ _ H2) as Eq.
  assert (Hq32 : is_u32 q). { rewrite Eq. destruct l2; [unfold is_u32, firstp, NULL; lia|]. by apply Forall_cons in H32b as [? _]. }
  (* the new fragment before [l2] *)
  set (m1 := if negb (q =? NULL) then set_next_pbuf m (hlp f) q else m).
  assert (Hm1 : forall x, (x < hlp f \/ hlp f + 4 <= x) -> rd8 m1 x = rd8 m x).
  { intros x Hx. unfold m1. destruct (negb _); [by apply set_next_frame|done]. }
  assert (Hn1 : next_pbuf m1 (hlp f) = q).
  { unfold m1. destruct (Z.eqb_spec q NULL) as [->|]; [done|]. unfold next_pbuf, set_next_pbuf. by apply rd32_wr32. }
  assert (Ho : forall g x, g ∈ l1 ++ l2 -> hlp g <= x < hlp g + 8 -> rd8 m1 x = rd8 m x).
  { intros g x Hg Hx. apply Hm1. destruct (helpers_ne l1 f l2 g Hap Hg) as [_ [?|?]]; lia. }
  assert (Hf2 : flist h m1 (f_p f) (f :: l2)).
  { split; [eapply frag_at_frame; [|exact Hf]; intros x Hx; apply Hm1; lia|].
    rewrite Hn1. eapply fseg_frame; [|exact H2]. intros g x Hg. apply Ho. apply elem_of_app. by right. }
  assert (H1' : fseg h m1 p l1 q) by (eapply fseg_frame; [|exact H1]; intros g x Hg; apply Ho; apply elem_of_app; by left).
  assert (Hfn : f_p f <> NULL) by apply Hf.
  (* behind [l1], if there is anything *)
  assert (Hprev : match lastf None l1 with
    | None => l1 = []
    | Some g => hlp g <> NULL /\ iprh_end m (hlp g) = f_end g /\ exists l0, l1 = l0 ++ [g]
        /\ flist h (set_next_pbuf m1 (hlp g) (f_p f)) p (l1 ++ f :: l2) /\ p = firstp (l1 ++ [f])
        /\ forall x, (x < hlp g \/ hlp g + 4 <= x) -> rd8 (set_next_pbuf m1 (hlp g) (f_p f)) x = rd8 m1 x end).
  { destruct (decide (l1 = [])) as [->|Hne]; [done|]. destruct (exists_last Hne) as (l0 & g & ->). rewrite lastf_snoc.
    pose proof H1 as Hg0. apply fseg_app in Hg0 as (s & _ & (_ & _ & _ & Hgn & _ & Hge) & _). split_and!; [done|done|]. exists l0. split; [done|].
    split_and!; [| |by intros x Hx; apply set_next_frame].
    - apply fseg_app. exists (f_p f). split.
      + eapply fseg_set_next; [exact H1'| |done]. eapply helpers_apart_sub; [exact Hap|]. apply sublist_inserts_r. done.
      + eapply fseg_frame; [|exact Hf2]. intros k x Hk Hx. apply set_next_frame.
        assert (Hap2 : helpers_apart (l0 ++ g :: f :: l2)) by (by rewrite <- app_assoc in Hap).
        destruct (helpers_ne l0 g (f :: l2) k Hap2) as [_ [?|?]]; [apply elem_of_app; by right|lia|lia].
    - rewrite (fseg_first _ _ _ _ _ H1 Hne). by destruct l0. }
  assert (Hframe : forall m2 x, (forall y, match lastf None l1 with Some g => y < hlp g \/ hlp g + 4 <= y | None => True end -> rd8 m2 y = rd8 m1 y)
    ->
    (forall g, g ∈ l1 ++ f :: l2 -> x < hlp g \/ hlp g + 4 <= x) -> rd8 m2 x = rd8 m x).
  { intros m2 x Hm2 Hx. rewrite Hm2; [apply Hm1, Hx; apply elem_of_app; right; left|].
    destruct (lastf None l1) as [g|]; [|done]. destruct Hprev as (_ & _ & l0 & -> & _). apply Hx. rewrite <- app_assoc.
    apply elem_of_app. right. left. }
  unfold link_frag. rewrite <- Eq. fold m1.
  destruct (lastf None l1) as [g|] eqn:El; cbn [addr_of].
  - destruct Hprev as (Hgn & Hge & l0 & El1 & Hfl & Hp & Hfr). rewrite (proj2 (Z.eqb_neq _ _) Hgn). cbn [negb].
    exists (set_next_pbuf m1 (hlp g) (f_p f)). rewrite <- Hp. split; [|split; [exact Hfl|intros x; by apply Hframe]].
    destruct Hf as (_ & _ & _ & _ & Hfs & Hfe). destruct l2 as [|f2 l2]; cbn [firstp] in Eq.
    + subst q. cbn [NULL Z.eqb negb] in *. rewrite bool_decide_true by done. unfold m1.
      rewrite Hge, Hfs, (proj2 (Z.leb_le _ _) (Hend g eq_refl)). cbn [lwip_assert res_bind].
      pose proof Hfl as Hfl2. rewrite El1, <- app_assoc in Hfl2. apply fseg_app in Hfl2 as (? & _ & (_ & _ & _ & _ & _ & Hge2) & Hfl2).
      destruct Hfl2 as [(_ & _ & _ & _ & Hfs2 & _) _]. change m1 with m in Hge2, Hfs2. rewrite Hge2, Hfs2.
      destruct (f_end g =? f_start f); [by rewrite andb_true_r|by rewrite andb_false_r].
    + destruct H2 as [(_ & Hqn & _) _]. unfold m1. rewrite (proj2 (Z.eqb_neq _ _) Hqn). cbn [negb]. by rewrite bool_decide_false.
  - subst l1. exists m1. cbn [app firstp]. split; [|split; [exact Hf2|intros x; by apply Hframe]].
    destruct l2 as [|f2 l2]; cbn [firstp] in Eq.
    + subst q. cbn in H1. rewrite H1. cbn [NULL Z.eqb negb lwip_assert res_bind]. rewrite bool_decide_true by done. by rewrite andb_true_r.
    + destruct H2 as [(_ & Hqn & _) _]. unfold m1. rewrite (proj2 (Z.eqb_neq _ _) Hqn). cbn [negb]. by rewrite bool_decide_false.
Qed.

(** ** Is the datagram complete? *)

Lemma no_holes_spec h m l : forall fuel q g,
  flist h m q l -> iprh_end m (hlp g) = f_end g -> (length l < fuel)%nat ->
  no_holes fuel h m q (hlp g) = Ok (if contig (Some g) l then Some (addr_of (lastf (Some g) l)) else None).
Proof.
  induction l as [|f l IH]; intros [|fuel] q g Hl Hg Hf; cbn [length] in Hf; try lia; cbn [no_holes].
  - by rewrite Hl.
  - destruct Hl as ((-> & Hne & Hh & _ & Hs & He) & Hl). rewrite (proj2 (Z.eqb_neq _ _) Hne). cbn [negb].
    rewrite (deref_ok _ _ _ Hh). cbn [res_bind contig]. fold (hlp f). rewrite Hg, Hs.
    destruct (f_end g =? f_start f); cbn [negb andb]; [|done]. rewrite lastf_cons. apply IH; [done|done|lia].
Qed.

Definition last_seen (ipr : ip_reassdata) : bool := negb (Z.land (reass_flags ipr) IP_REASS_FLAG_LASTFRAG =? 0).
Definition starts_at_0 (l : list frag) : bool := match l with f :: _ => f_start f =? 0 | [] => false end.
Definition end_of (l : list frag) : Z := match last l with Some f => f_end f | None => 0 end.

Lemma validate_spec h m ipr l1 f l2 valid :
  flist h m (reass_p ipr) (l1 ++ f :: l2) -> helpers_apart (l1 ++ f :: l2) -> (length l2 < walk_fuel h)%nat ->
  validate h m ipr (hlp f) valid
  = (if last_seen ipr && valid && starts_at_0 (l1 ++ f :: l2) && contig (Some f) l2 then
       if (1 <? Z.of_nat (length (l1 ++ f :: l2))) && (end_of (l1 ++ f :: l2) =? datagram_len ipr) then Ok true else Fault FAssert
     else Ok false).
Proof.
  intros Hl Hap Hf. unfold validate, last_seen. destruct (negb _); [|done]. destruct valid; [|done]. cbn [andb].
  set (l := l1 ++ f :: l2) in *. assert (Hne : exists f0 l0, l = f0 :: l0) by (unfold l; destruct l1; cbn; eauto).
  destruct Hne as (f0 & l0 & El).
  pose proof Hl as Hl0. rewrite El in Hl0. destruct Hl0 as ((Ep & Hpn & Hh & _ & Hs0 & _) & _).
  rewrite Ep. rewrite Ep in Hpn, Hh. rewrite (proj2 (Z.eqb_neq _ _) Hpn), (deref_ok _ _ _ Hh). cbn [res_bind negb lwip_assert].
  fold (hlp f0). rewrite Hs0, El. cbn [starts_at_0]. destruct (f_start f0 =? 0); cbn [negb andb]; [|done].
  apply fseg_app in Hl as (q & _ & H2). pose proof H2 as [(_ & _ & _ & _ & _ & Hfe) H2'].
  rewrite (no_holes_spec h m l2 _ _ f H2' Hfe Hf). cbn [res_bind]. destruct (contig (Some f) l2); [|done].
  destruct (exists_last (l := f :: l2)) as (l' & g & E2); [done|].
  assert (Eg : lastf (Some f) l2 = Some g) by (rewrite <- (lastf_cons None), E2; apply lastf_snoc).
  rewrite Eg. cbn [addr_of]. rewrite E2 in H2. apply fseg_app in H2 as (r & _ & (_ & _ & _ & _ & _ & Hge) & Hnx). cbn [fseg] in Hnx.
  rewrite Hge, Hnx. change (NULL =? NULL) with true. cbn [lwip_assert res_bind].
  assert (El2 : l = (l1 ++ l') ++ [g]) by (unfold l; by rewrite E2, app_assoc).
  assert (Ee : end_of l = f_end g) by (unfold end_of; by rewrite El2, last_snoc). rewrite <- El, Ee.
  assert (En : negb (hlp f0 =? hlp g) = (1 <? Z.of_nat (length l))).
  { destruct Hap as [Hnd _]. rewrite El in Hnd |- *. rewrite El2 in El. destruct (l1 ++ l') as [|f1 lm]; cbn [app] in El.
    - injection El as -> <-. by rewrite Z.eqb_refl.
    - injection El as -> <-. rewrite fmap_cons in Hnd. apply NoDup_cons in Hnd as [Hn _]. cbn [length]. rewrite length_app. cbn [length].
      rewrite (proj2 (Z.ltb_lt _ _)) by lia. destruct (Z.eqb_spec (hlp f0) (hlp g)) as [E|]; [|done]. destruct Hn.
      rewrite E, fmap_app. apply elem_of_app. right. left. }
  rewrite En. destruct (1 <? _); [|done]. cbn [lwip_assert res_bind andb]. by destruct (f_end g =? datagram_len ipr).
Qed.

(** ** One more fragment *)

Lemma flist_heap h m q l r : fseg h m q l r -> Forall (fun f => h !! f_p f = Some (f_b f)) l.
Proof. revert q. induction l as [|f l IH]; intros q Hl; constructor; destruct Hl as [(-> & _ & Hh & _) Hl]; [done|by eapply IH]. Qed.

Lemma flist_fuel h m q l : flist h m q l -> NoDup (hlp <$> l) -> (length l < walk_fuel h)%nat.
Proof.
  intros Hl Hnd. pose proof (flist_heap _ _ _ _ _ Hl) as Hh.
  assert (Hnd2 : NoDup (f_p <$> l)).
  { clear Hl. induction l as [|f l IH]; cbn in *; [constructor|]. apply NoDup_cons in Hnd as [Hn Hnd]. apply Forall_cons in Hh as [Hf Hh].
    constructor; [|by apply IH]. intros (g & E & Hg)%list_elem_of_fmap. apply Hn. apply list_elem_of_fmap. exists g. split; [|done].
    rewrite Forall_forall in Hh. specialize (Hh g Hg). rewrite <- E in Hh. unfold hlp. congruence. }
  assert (Hs : list_to_set (f_p <$> l) ⊆ (dom h : gset Z)).
  { intros x Hx. apply elem_of_list_to_set, list_elem_of_fmap in Hx as (g & -> & Hg). apply elem_of_dom.
    rewrite Forall_forall in Hh. eexists. by apply Hh. }
  apply subseteq_size in Hs. rewrite size_list_to_set, size_dom, length_fmap in Hs by done. unfold walk_fuel. lia.
Qed.

(** Does the code see the fragments [l1], [f], [l2] as being without a hole?  A hole between
    [l1] and [f] is only seen if [f] is the last. *)
Definition no_hole_seen (l1 : list frag) (f : frag) (l2 : list frag) : bool :=
  contig None l1
  && (if bool_decide (l2 = []) then match lastf None l1 with Some g => f_end g =? f_start f | None => true end else true)
  && contig (Some f) l2.

(** The helper as it is first filled in. *)
Definition helper_mem (m : memory) (a s e : Z) : memory := wr16 (wr16 (set_next_pbuf m a NULL) (a + 4) s) (a + 6) e.

Lemma helper_mem_spec m a s e :
  is_u16 s -> is_u16 e ->
  next_pbuf (helper_mem m a s e) a = NULL /\ iprh_start (helper_mem m a s e) a = s /\ iprh_end (helper_mem m a s e) a = e
  /\ (forall x, (x < a \/ a + 8 <= x) -> rd8 (helper_mem m a s e) x = rd8 m x).
Proof.
  intros Hs He. unfold helper_mem, next_pbuf, iprh_start, iprh_end, set_next_pbuf. split_and!.
  - unfold wr16. rewrite !rd32_apart by (cbn [length le_bytes]; lia). by apply rd32_wr32.
  - unfold wr16 at 1. rewrite rd16_apart by (cbn [length le_bytes]; lia). by apply rd16_wr16.
  - by apply rd16_wr16.
  - intros x Hx. unfold wr16, wr32. by rewrite !wr_outside by (cbn [length le_bytes]; lia).
Qed.

Section Chain.
Context {A W : Type} `{AllocOps A} `{FragPool A}.
Variable custom_free : Z -> Z -> Pbuf.state A -> res (Pbuf.state A).
Implicit Types n : net A W.

(** The fragment of a header at [a] without options. *)
Definition frag_interval (m : memory) (a : Z) (f : frag) : Prop :=
  IPH_HL m a = 5
  /\ f_start f = u16 (Z.land (lwip_ntohs (IPH_OFFSET m a)) IP_OFFMASK * 8)
  /\ f_end f = u16 (f_start f + u16 (lwip_ntohs (IPH_LEN m a) - 20)).

Lemma chain_frag_spec n i ipr f l1 l2 :
  reassdatagrams n !! i = Some ipr ->
  flist (pbufs (packets n)) (mem n) (reass_p ipr) (l1 ++ l2) -> before (f_start f) l1 l2 ->
  pbufs (packets n) !! f_p f = Some (f_b f) -> f_p f <> NULL -> hlp f <> NULL ->
  frag_interval (mem n) (hlp f) f -> helpers_apart (l1 ++ f :: l2) -> Forall (fun g => is_u32 (f_p g)) (l1 ++ f :: l2) ->
  exists m',
    (forall x, (forall g, g ∈ l1 ++ l2 -> x < hlp g \/ hlp g + 4 <= x) -> (x < hlp f \/ hlp f + 8 <= x) -> rd8 m' x = rd8 (mem n) x)
    /\ if refused l1 l2 (f_start f) (f_end f) then
         flist (pbufs (packets n)) m' (reass_p ipr) (l1 ++ l2)
         /\ ip_reass_chain_frag_into_datagram_and_validate custom_free n i (f_p f)
            = (let* clen := pbuf_clen (packets (with_mem m' n)) (f_p f) in
               let* n2 := free custom_free (with_reass (reassdatagrams n) (reassdata_pool n) (u16 (ip_reass_pbufcount n - clen)) (with_mem m' n))
                   (f_p f) in
               Ok (false, n2))
       else
         let l := l1 ++ f :: l2 in
         let n' := with_mem m' (set_reass n i (with_reass_p (firstp l) ipr)) in
         flist (pbufs (packets n)) m' (firstp l) l
         /\ ip_reass_chain_frag_into_datagram_and_validate custom_free n i (f_p f)
            = (if last_seen ipr && starts_at_0 l && no_hole_seen l1 f l2 then
                 if (1 <? Z.of_nat (length l)) && (end_of l =? datagram_len ipr) then Ok (true, n') else Fault FAssert
               else Ok (false, n')).
Proof.
  intros Hi Hl Hbf Hb Hne Hhn (Ehl & Es & Ee) Hap H32. unfold ip_reass_chain_frag_into_datagram_and_validate, reass_at. rewrite Hi. cbn [res_bind].
  unfold pbuf_at. rewrite (deref_ok _ _ _ Hb). cbn [res_bind]. fold (hlp f). rewrite Ehl. change (5 * 4) with 20. rewrite <- Es, <- Ee.
  change (SIZEOF_IP_REASS_HELPER <=? IP_HLEN) with true. cbn [lwip_assert res_bind].
  set (h := pbufs (packets n)) in *. fold (helper_mem (mem n) (hlp f) (f_start f) (f_end f)).
  set (m3 := helper_mem (mem n) (hlp f) (f_start f) (f_end f)). change (pbufs (packets (with_mem m3 n))) with h.
  destruct (helper_mem_spec (mem n) (hlp f) (f_start f) (f_end f)) as (Hnx & Hms & Hme & Hfr3);
    [rewrite Es; apply u16_range|rewrite Ee; apply u16_range|]. fold m3 in Hnx, Hms, Hme, Hfr3.
  assert (Hl3 : flist h m3 (reass_p ipr) (l1 ++ l2)).
  { eapply fseg_frame; [|exact Hl]. intros g x Hg Hx. apply Hfr3. destruct (helpers_ne l1 f l2 g Hap Hg) as [_ [?|?]]; lia. }
  assert (Hf3 : frag_at h m3 (f_p f) f) by (split_and!; done).
  assert (Hnd : NoDup (hlp <$> l1 ++ l2)).
  { destruct Hap as [Hnd _]. rewrite fmap_app, fmap_cons, <- Permutation_middle, <- fmap_app in Hnd. by apply NoDup_cons in Hnd as [_ ?]. }
  pose proof (flist_fuel _ _ _ _ Hl Hnd) as Hfuel.
  destruct (find_place_spec h m3 (hlp f) (f_start f) (f_end f) l1 l2 (walk_fuel h) (reass_p ipr) None true Hms Hme Hl3 Hbf I Hfuel)
    as (r & Er & Hr). cbn [addr_of] in Er. rewrite Er. cbn [res_bind].
  assert (Elast : bool_decide (lastf None l1 = None) = bool_decide (l1 = [])).
  { apply bool_decide_ext. unfold lastf. destruct (last l1) eqn:E; [|by apply last_None in E].
    split; [done|]. intros ->. done. }
  rewrite Elast in Hr. fold (refused l1 l2 (f_start f) (f_end f)) in Hr. destruct (refused l1 l2 (f_start f) (f_end f)) eqn:Eref.
  - destruct Hr as (q & ->). exists (set_next_pbuf m3 (hlp f) q). split; [|split; [|reflexivity]].
    + intros x _ Hx. rewrite set_next_frame by lia. by apply Hfr3.
    + eapply fseg_frame; [|exact Hl3]. intros g x Hg Hx. apply set_next_frame. destruct (helpers_ne l1 f l2 g Hap Hg) as [_ [?|?]]; lia.
  - subst r. assert (Hend : forall g, lastf None l1 = Some g -> f_end g <= f_start f).
    { intros g Hg. unfold lastf in Hg. destruct (last l1) as [g'|] eqn:E; [|done]. injection Hg as ->.
      apply last_Some_elem_of in E. unfold refused in Eref. apply orb_false_iff in Eref as [Eref _].
      rewrite <- not_true_iff_false, existsb_exists in Eref. apply Z.ltb_ge.
      destruct (f_start f <? f_end g) eqn:Elt; [|done]. destruct Eref. exists g. split; [by apply list_elem_of_In|done]. }
    destruct (link_frag_spec h m3 (reass_p ipr) l1 f l2 (true && contig None l1) Hl3 Hf3 Hnx Hap H32 Hend) as (m' & El & Hl' & Hfr').
    rewrite El. cbn [res_bind]. exists m'. split.
    { intros x Hx Hxf. rewrite Hfr', Hfr3; [done|lia|]. intros g Hg. apply elem_of_app in Hg as [Hg|Hg]; [apply Hx; apply elem_of_app; by left|].
      apply elem_of_cons in Hg as [->|Hg]; [lia|apply Hx; apply elem_of_app; by right]. }
    assert (Efp : firstp (l1 ++ [f]) = firstp (l1 ++ f :: l2)) by (by destruct l1). rewrite Efp in *.
    cbv zeta. split; [exact Hl'|].
    rewrite (validate_spec h m' (with_reass_p (firstp (l1 ++ f :: l2)) ipr) l1 f l2); [|exact Hl'|exact Hap|].
    2:{ rewrite length_app in Hfuel. lia. }
    change (last_seen (with_reass_p _ ipr)) with (last_seen ipr). change (datagram_len (with_reass_p _ ipr)) with (datagram_len ipr).
    unfold no_hole_seen. cbn [andb].
    match goal with |- context [if bool_decide (l2 = []) then ?c && ?x else ?c] =>
      replace (if bool_decide (l2 = []) then c && x else c) with (c && (if bool_decide (l2 = []) then x else true))
        by (destruct (bool_decide (l2 = [])); [done|by rewrite andb_true_r]); generalize x; intros lk end.
    destruct (last_seen ipr), (starts_at_0 _), (contig None l1), (contig (Some f) l2), (if bool_decide (l2 = []) then lk else true);
      cbn [andb]; try done; by destruct ((1 <? _) && _).
Qed.
End Chain.

(** ** Delivery *)

(** The data of a fragment, behind its header. *)
Definition fdata (m : memory) (f : frag) : list Z := drop 20 (cdata m (f_chain f)).

(** All pbufs of the fragments. *)
Definition all_pbufs (l : list frag) : list (Z * pbuf) := mjoin (f_chain <$> l).

(** The fragment is a packet of its own, with its header in the first pbuf. *)
Definition frag_packet (h : heap) (f : frag) : Prop :=
  packet h (f_p f) (f_chain f) /\ IP_HLEN <= len (f_b f)
  /\ (type (f_b f) = PBUF_RAM \/ type (f_b f) = PBUF_POOL -> f_p f + SIZEOF_STRUCT_PBUF <= hlp f).

(** The bytes of data of the fragments. *)
Definition data_total (l : list frag) : Z := foldr (fun f t => total (f_chain f) - IP_HLEN + t) 0 l.

Lemma packet_frame h h' p bl : (forall a, a ∈ fst <$> bl -> h' !! a = h !! a) -> packet h p bl -> packet h' p bl.
Proof. intros Hf (Hc & Hok & Ht). split; [by eapply chain_frame|done]. Qed.

Lemma fseg_heap_frame h h' m l : forall q r,
  (forall f, f ∈ l -> h' !! f_p f = h !! f_p f) -> fseg h m q l r -> fseg h' m q l r.
Proof.
  induction l as [|f l IH]; intros q r Hf Hl; cbn [fseg] in *; [done|]. destruct Hl as ((-> & Hne & Hh & Hr) & Hl).
  split; [split; [done|]; split; [done|]; split; [by rewrite (Hf f) by left|done]|]. apply IH; [|done]. intros g Hg. apply Hf. by right.
Qed.

Section Deliver.
Context {A W : Type} `{AllocOps A} `{FragPool A}.
Implicit Types n : net A W.

Lemma data_total_nonneg l h : Forall (frag_packet h) l -> 0 <= data_total l.
Proof.
  induction 1 as [|f l ((_ & (_ & _ & Hlok) & _) & Hl & _) _ IH]; cbn [data_total foldr]; [lia|]. fold (data_total l).
  unfold f_chain. rewrite total_cons. pose proof (lens_ok_nonneg _ Hlok). lia.
Qed.

Lemma chain_frags_spec p l : forall fuel n blp r,
  packet (pbufs (packets n)) p blp -> p <> NULL -> flist (pbufs (packets n)) (mem n) r l ->
  Forall (frag_packet (pbufs (packets n))) l -> NoDup (fst <$> blp ++ all_pbufs l) ->
  total blp + data_total l <= 65535 -> (length l < fuel)%nat ->
  exists h' bl', chain_frags fuel n p r = Ok (with_packets (with_pbufs h' (packets n)) n)
    /\ packet h' p bl' /\ cdata (mem n) bl' = cdata (mem n) blp ++ mjoin (fdata (mem n) <$> l)
    /\ fst <$> bl' = fst <$> blp ++ all_pbufs l
    /\ frame (pbufs (packets n)) h' (fst <$> blp ++ all_pbufs l).
Proof.
  induction l as [|f l IH]; intros [|fuel] n blp r Hp Hpn Hl Hfp Hnd Ht Hf; cbn [length] in Hf; try lia; cbn [chain_frags].
  { cbn [flist fseg] in Hl. subst r. exists (pbufs (packets n)), blp. cbn [NULL Z.eqb negb]. split_and!; try done.
    - by destruct n as [[]].
    - by rewrite app_nil_r.
    - unfold all_pbufs. cbn. by rewrite app_nil_r. }
  destruct Hl as ((-> & Hrn & Hh & _) & Hl). apply Forall_cons in Hfp as [(Hfpk & Hlen & Hty) Hfp].
  cbn [data_total foldr] in Ht. fold (data_total l) in Ht. pose proof (data_total_nonneg _ _ Hfp) as Hdn.
  rewrite (proj2 (Z.eqb_neq _ _) Hrn). cbn [negb]. unfold pbuf_at. rewrite (deref_ok _ _ _ Hh). cbn [res_bind]. fold (hlp f).
  pose proof Hfpk as (_ & (Hl0 & Htl & Hlok) & Htot). pose proof (lens_ok_nonneg _ Hlok) as Hnn.
  unfold f_chain in Htot, Ht at 1. rewrite total_cons in Htot, Ht. unfold IP_HLEN in *.
  rewrite (header_down n (f_p f) (f_b f) 20 Hh Hrn) by (done || lia). cbn [res_bind].
  set (b' := moved (- (20)) (f_b f)). set (h1 := <[f_p f := b']> (pbufs (packets n))).
  (* the two packets to be joined *)
  unfold all_pbufs in Hnd. cbn [fmap list_fmap] in Hnd. change (mjoin (f_chain f :: ?x)) with (f_chain f ++ mjoin x) in Hnd.
  fold (all_pbufs l) in Hnd. rewrite !fmap_app in Hnd. apply NoDup_app in Hnd as (Hnd1 & Hd1 & Hnd2).
  apply NoDup_app in Hnd2 as (Hnd3 & Hd2 & Hnd4).
  assert (Hp1 : packet h1 p blp).
  { eapply packet_frame; [|exact Hp]. intros a Ha. unfold h1. rewrite lookup_insert_ne; [done|]. intros <-.
    apply (Hd1 (f_p f) Ha). apply elem_of_app. left. left. }
  destruct (moved_down_packet (pbufs (packets n)) (f_p f) (f_b f) (f_bl f) (mem n) 20 Hfpk) as [Hpf Hcf]; [lia|lia|].
  fold b' h1 in Hpf, Hcf.
  destruct (exists_last (l := blp)) as (bl0 & [rr br] & Eb); [intros ->; by destruct Hp as [-> _]|].
  set (n1 := set_ph h1 (mem n) n). rewrite Eb in Hp1.
  destruct (pbuf_cat_spec (packets n1) p bl0 rr br (f_p f) ((f_p f, b') :: f_bl f) Hp1 Hpf Hrn) as (h2 & Ec & Hpk2 & Hfr2).
  { rewrite <- Eb. intros a Ha Hin. apply (Hd1 a Ha). apply elem_of_app. left. exact Hin. }
  { rewrite <- Eb. rewrite total_cons. cbn [b' moved len]. lia. }
  rewrite Ec. cbn [res_bind]. rewrite <- Eb in Hfr2.
  set (n2 := with_packets (with_pbufs h2 (packets n1)) n1). set (blp2 := cat_front bl0 rr br (f_p f) (total ((f_p f, b') :: f_bl f)) ++ (f_p f, b')
    :: f_bl f) in *.
  assert (Hfst2 : fst <$> blp2 = fst <$> blp ++ f_chain f).
  { unfold blp2. rewrite !fmap_app, cat_front_fst, Eb, fmap_app. done. }
  assert (Hfr : forall a, a ∉ fst <$> blp ++ f_chain f -> h2 !! a = pbufs (packets n) !! a).
  { intros a Ha. rewrite fmap_app, not_elem_of_app in Ha. destruct Ha as [Ha1 Ha2]. rewrite Hfr2 by done.
    cbn [n1 set_ph with_packets packets with_bytes with_pbufs pbufs]. unfold h1. rewrite lookup_insert_ne; [done|].
    intros <-. apply Ha2. left. }
  assert (Hrest : forall g a, g ∈ l -> a ∈ fst <$> f_chain g -> h2 !! a = pbufs (packets n) !! a).
  { intros g a Hg Ha. apply Hfr. rewrite fmap_app, not_elem_of_app.
    assert (Hin : a ∈ fst <$> all_pbufs l).
    { unfold all_pbufs. apply list_elem_of_fmap in Ha as (ab & -> & Hab). apply list_elem_of_fmap_2, list_elem_of_join.
      exists (f_chain g). split; [done|]. by apply list_elem_of_fmap_2. }
    split; [|by intros ?%Hd2]. intros Ha'%Hd1. apply Ha'. apply elem_of_app. by right. }
  assert (Hcd2 : cdata (mem n) blp2 = cdata (mem n) blp ++ fdata (mem n) f).
  { unfold blp2. rewrite cdata_app, cat_front_cdata, <- Eb. f_equal. exact Hcf. }
  assert (Htot2 : total blp2 = total blp + (len (f_b f) + total (f_bl f) - 20)).
  { rewrite <- (length_cdata (mem n) blp2 (proj1 (proj2 Hpk2))), Hcd2, length_app. unfold fdata. rewrite length_drop.
    pose proof (length_cdata (mem n) blp (proj1 (proj2 Hp))). pose proof (length_cdata (mem n) (f_chain f) (proj1 (proj2 Hfpk))) as Hlf.
    unfold f_chain in Hlf at 2. rewrite total_cons in Hlf. lia. }
  destruct (IH fuel n2 blp2 (next_pbuf (mem n) (hlp f))) as (h' & bl' & Er & Hpk' & Hcd & Hfst & Hfr'); [exact Hpk2|done| | | |lia|lia|].
  - eapply fseg_heap_frame; [|exact Hl]. intros g Hg. apply (Hrest g); [done|left].
  - apply Forall_forall. intros g Hg. rewrite Forall_forall in Hfp. destruct (Hfp g Hg) as (Hg1 & Hg2). split; [|done].
    eapply packet_frame; [|exact Hg1]. intros a Ha. by apply (Hrest g).
  - rewrite fmap_app, Hfst2, fmap_app, <- app_assoc. apply NoDup_app. split; [done|]. split; [exact Hd1|]. apply NoDup_app. done.
  - exists h', bl'. change (mem n2) with (mem n) in *. rewrite Hcd2 in Hcd.
    assert (Hall : fst <$> blp2 ++ all_pbufs l = fst <$> blp ++ all_pbufs (f :: l)).
    { rewrite fmap_app, Hfst2. unfold all_pbufs. cbn [fmap list_fmap]. change (mjoin (f_chain f :: ?x)) with (f_chain f ++ mjoin x).
      rewrite !fmap_app. by rewrite <- app_assoc. }
    rewrite Hall in Hfst, Hfr'. split_and!; [exact Er|exact Hpk'| |exact Hfst|].
    + rewrite Hcd, <- app_assoc. done.
    + intros a Ha. rewrite Hfr' by done. change (pbufs (packets n2)) with h2. apply Hfr. intros Hin. apply Ha.
      rewrite fmap_app in Hin |- *. apply elem_of_app in Hin as [Hin|Hin]; apply elem_of_app; [by left|right].
      unfold all_pbufs. cbn [fmap list_fmap]. change (mjoin (f_chain f :: ?x)) with (f_chain f ++ mjoin x). rewrite fmap_app. apply elem_of_app.
      by left.
Qed.

Lemma clen_loop_spec h bl : forall fuel p k,
  chain h p bl -> (length bl < fuel)%nat -> is_u16 k ->
  clen_loop fuel h p k = Ok (u16 (k + Z.of_nat (length bl))).
Proof.
  induction bl as [|[a b] bl IH]; intros [|fuel] p k Hc Hf Hk; cbn [length] in Hf; try lia; cbn [clen_loop chain] in *.
  - subst p. cbn [NULL Z.eqb negb length]. by rewrite Z.add_0_r, u16_id.
  - destruct Hc as (-> & Hne & Hb & Hc). rewrite (proj2 (Z.eqb_neq _ _) Hne). cbn [negb]. rewrite (deref_ok _ _ _ Hb). cbn [res_bind].
    rewrite (IH fuel (next b)) by (done || lia || apply u16_range). f_equal. cbn [length]. unfold u16. zlia.
Qed.

Lemma pbuf_clen_spec (s : Pbuf.state A) p bl : chain (pbufs s) p bl -> pbuf_clen s p = Ok (u16 (Z.of_nat (length bl))).
Proof. intros Hc. unfold pbuf_clen. rewrite (clen_loop_spec _ bl) by (done || by eapply chain_fuel). done. Qed.

(** The header of the datagram: that of the first fragment with the length of the whole, no
    offset and a new checksum. *)
Definition reass_header (hdr : list Z) (len : Z) : list Z :=
  let front := take 2 hdr ++ be16 len ++ take 2 (drop 4 hdr) ++ [0; 0] ++ take 2 (drop 8 hdr) in
  front ++ le_bytes 2 (internet_checksum (front ++ [0; 0] ++ drop 12 hdr)) ++ drop 12 hdr.

Lemma reass_header_verifies hdr len :
  length hdr = 20%nat -> bytes_ok hdr -> is_u16 len -> internet_checksum (reass_header hdr len) = 0.
Proof.
  intros Hl Hok Hu. unfold reass_header. apply internet_checksum_verifies; [|by apply bytes_ok_drop|].
  - rewrite !bytes_ok_app. split_and!; [by apply bytes_ok_take| |by apply bytes_ok_take, bytes_ok_drop|by repeat constructor|by apply bytes_ok_take,
      bytes_ok_drop].
    unfold is_u16 in Hu. repeat constructor; unfold is_u8; zlia.
  - by rewrite !length_app, !length_take, !length_drop, Hl.
Qed.

(** Writing that header. *)
Definition reass_mem (m : memory) (a : Z) (hdr : list Z) (len : Z) : memory :=
  let m := wr m a hdr in
  let m := IPH_LEN_SET m a (lwip_htons len) in
  let m := IPH_OFFSET_SET m a 0 in
  let m := IPH_CHKSUM_SET m a 0 in
  IPH_CHKSUM_SET m a (inet_chksum a (rd m a (Z.to_nat IP_HLEN))).

Lemma rd_wr_sub m a bs i k : (i + k <= length bs)%nat -> rd (wr m a bs) (a + Z.of_nat i) k = take k (drop i bs).
Proof.
  intros Hi. rewrite <- (rd_wr_same m a bs) at 2. rewrite drop_rd, take_rd. f_equal. lia.
Qed.

Lemma reass_mem_spec m a hdr len :
  length hdr = 20%nat -> bytes_ok hdr -> is_u16 len ->
  rd (reass_mem m a hdr len) a 20 = reass_header hdr len
  /\ (forall x, (x < a \/ a + 20 <= x) -> rd8 (reass_mem m a hdr len) x = rd8 m x).
Proof.
  intros Hl Hok Hu. unfold reass_mem. cbv zeta. change (Z.to_nat IP_HLEN) with 20%nat.
  set (m4 := IPH_CHKSUM_SET _ a 0).
  set (front := take 2 hdr ++ be16 len ++ take 2 (drop 4 hdr) ++ [0; 0] ++ take 2 (drop 8 hdr)).
  assert (Hsub : forall i k, (i + k <= 20)%nat -> rd (wr m a hdr) (a + Z.of_nat i) k = take k (drop i hdr)).
  { intros i k Hi. apply rd_wr_sub. lia. }
  assert (Hw : forall m x v, rd (wr16 m x v) x 2 = le_bytes 2 v).
  { intros m' x v. unfold wr16. replace 2%nat with (length (le_bytes 2 v)) at 2 by apply length_le_bytes. apply rd_wr_same. }
  assert (Hoff : forall m x v y k, (y + Z.of_nat k <= x \/ x + 2 <= y) -> rd (wr16 m x v) y k = rd m y k).
  { intros m' x v y k Hy. unfold wr16. apply rd_wr_apart. cbn [length le_bytes]. lia. }
  assert (E : forall c, rd (IPH_CHKSUM_SET m4 a c) a 20 = front ++ le_bytes 2 c ++ drop 12 hdr).
  { intros c. unfold front. change 20%nat with (2 + (2 + (2 + (2 + (2 + (2 + 8))))))%nat. rewrite !rd_add, <- !app_assoc.
    change (Z.of_nat 2) with 2. replace (a + 2 + 2 + 2 + 2 + 2 + 2) with (a + 12) by lia. replace (a + 2 + 2 + 2 + 2 + 2) with (a + 10) by lia.
    replace (a + 2 + 2 + 2 + 2) with (a + 8) by lia. replace (a + 2 + 2 + 2) with (a + 6) by lia. replace (a + 2 + 2) with (a + 4) by lia.
    unfold m4, IPH_CHKSUM_SET, IPH_OFFSET_SET, IPH_LEN_SET. rewrite !Hw.
    repeat match goal with |- context [rd (wr16 ?m ?x ?v) ?y ?k] => rewrite (Hoff m x v y k) by lia end. rewrite ?Hw.
    rewrite htons_word by done. cbn [le_bytes]. destruct (be_word len Hu) as [-> ->].
    pose proof (Hsub 0%nat 2%nat) as H0'. pose proof (Hsub 4%nat 2%nat) as H4. pose proof (Hsub 8%nat 2%nat) as H8.
    pose proof (Hsub 12%nat 8%nat) as H12.
    rewrite Z.add_0_r in H0'. change (Z.of_nat 4) with 4 in H4. change (Z.of_nat 8) with 8 in H8. change (Z.of_nat 12) with 12 in H12.
    rewrite H0', H4, H8, H12 by lia. rewrite (take_ge (drop 12 hdr)) by (rewrite length_drop; lia). done. }
  split.
  - rewrite E. unfold reass_header. fold front. do 3 f_equal.
    assert (E4 : rd m4 a 20 = front ++ [0; 0] ++ drop 12 hdr).
    { transitivity (rd (IPH_CHKSUM_SET m4 a 0) a 20); [|exact (E 0)]. apply rd_ext. intros x _. unfold m4, IPH_CHKSUM_SET, wr16.
      destruct (decide (a + 10 <= x < a + 12)); [by rewrite !rd8_wr by (cbn [length le_bytes]; lia)|by rewrite !wr_outside by (cbn [length le_bytes];
        lia)]. }
    rewrite E4. apply inet_chksum_spec; [|rewrite <- E4, length_rd; lia].
    unfold front. rewrite !bytes_ok_app. unfold is_u16 in Hu.
    split_and!; try (by apply bytes_ok_take); try (by apply bytes_ok_take, bytes_ok_drop); try (by apply bytes_ok_drop); try by repeat constructor.
    repeat constructor; unfold is_u8; zlia.
  - intros x Hx. unfold m4, IPH_CHKSUM_SET, IPH_OFFSET_SET, IPH_LEN_SET, wr16. by rewrite !wr_outside by (rewrite ?Hl; cbn [length le_bytes]; lia).
Qed.

Lemma all_pbufs_cons f l : all_pbufs (f :: l) = f_chain f ++ all_pbufs l.
Proof. reflexivity. Qed.

Lemma elem_all_pbufs f l ab : f ∈ l -> ab ∈ f_chain f -> ab ∈ all_pbufs l.
Proof. intros Hf Hab. unfold all_pbufs. apply list_elem_of_join. exists (f_chain f). split; [done|]. by apply list_elem_of_fmap_2. Qed.

(** Different fragments are far apart when their data is. *)
Lemma payloads_helpers h l : Forall (frag_packet h) l -> payloads_apart (all_pbufs l) -> helpers_apart l.
Proof.
  intros Hfp Hap. assert (Hlt : forall f l, Forall (frag_packet h) (f :: l) -> payloads_apart (all_pbufs (f :: l)) ->
    forall g, g ∈ l -> hlp f + 8 <= hlp g \/ hlp g + 8 <= hlp f).
  { clear. intros f l Hfp [Hap _] g Hg. apply Forall_cons in Hfp as [(_ & Hl & _) Hfp]. rewrite Forall_forall in Hfp.
    destruct (Hfp g Hg) as (_ & Hlg & _). unfold apart in Hap. rewrite Forall_forall in Hap.
    assert (Hin : (f_p g, f_b g) ∈ f_bl f ++ all_pbufs l) by (apply elem_of_app; right; apply (elem_all_pbufs g); [done|left]).
    specialize (Hap _ Hin). cbn [snd] in Hap. unfold hlp, IP_HLEN in *. lia. }
  assert (Hrec : NoDup (hlp <$> l) /\ forall f g, f ∈ l -> g ∈ l -> hlp f <> hlp g -> hlp f + 8 <= hlp g \/ hlp g + 8 <= hlp f); [|exact Hrec].
  induction l as [|f l IH]; [split; [constructor|intros f g ?%elem_of_nil; done]|].
  pose proof (Hlt f l Hfp Hap) as Hf. apply Forall_cons in Hfp as [_ Hfp]. rewrite all_pbufs_cons in Hap. apply payloads_apart_app in Hap.
  destruct (IH Hfp Hap) as [Hnd IH2]. split.
  - cbn. constructor; [|done]. intros (g & E & Hg)%list_elem_of_fmap. specialize (Hf g Hg). lia.
  - intros f1 f2 H1 H2 Hne. apply elem_of_cons in H1, H2. destruct H1 as [->|H1], H2 as [->|H2]; [done|by apply Hf| |by apply IH2].
    destruct (Hf f1 H1); [by right|by left].
Qed.

(** The fragments of a datagram in memory. *)
Record frags_ok (n : net A W) (l : list frag) : Prop := {
  fo_packets : Forall (frag_packet (pbufs (packets n))) l;
  fo_NoDup : NoDup (fst <$> all_pbufs l);
  fo_apart : payloads_apart (all_pbufs l);
  fo_total : IP_HLEN + data_total l <= 65535
}.

(** A new header at the start of the first fragment leaves the data alone. *)
Lemma header_data h m m' f l :
  Forall (frag_packet h) (f :: l) -> payloads_apart (all_pbufs (f :: l)) ->
  (forall x, (x < hlp f \/ hlp f + 20 <= x) -> rd8 m' x = rd8 m x) ->
  cdata m' (f_chain f) = rd m' (hlp f) 20 ++ fdata m f
  /\ (fdata m' <$> l) = (fdata m <$> l)
  /\ (forall g x, g ∈ l -> hlp g <= x < hlp g + 8 -> rd8 m' x = rd8 m x).
Proof.
  intros Hfp [Hap _] Hx. apply Forall_cons in Hfp as [(_ & Hl & _) Hfp]. unfold IP_HLEN in Hl. rewrite Forall_forall in Hfp.
  unfold apart in Hap. rewrite Forall_forall in Hap.
  assert (Hout : forall ab x, ab ∈ f_bl f ++ all_pbufs l -> payload (snd ab) <= x < payload (snd ab) + len (snd ab) -> rd8 m' x = rd8 m x).
  { intros ab x Hin Hxx. apply Hx. specialize (Hap _ Hin). cbn in Hap. unfold hlp. lia. }
  split_and!.
  - unfold fdata, f_chain. rewrite !cdata_cons, drop_app_le, drop_rd by (rewrite length_rd; lia). fold (hlp f).
    replace (Z.to_nat (len (f_b f))) with (20 + (Z.to_nat (len (f_b f)) - 20))%nat at 1 by lia. rewrite rd_add, <- app_assoc. f_equal. f_equal.
    + apply rd_ext. intros x Hxx. apply Hx. lia.
    + apply cdata_ext. intros ab x Hin. apply Hout. apply elem_of_app. by left.
  - apply list_fmap_ext. intros i g Hg. unfold fdata. f_equal. apply cdata_ext. intros ab x Hin. apply Hout. apply elem_of_app. right.
    eapply elem_all_pbufs; [|exact Hin]. by eapply list_elem_of_lookup_2.
  - intros g x Hg Hxx. apply (Hout (f_p g, f_b g)); [apply elem_of_app; right; apply (elem_all_pbufs g); [done|left]|].
    destruct (Hfp g Hg) as (_ & Hlg & _). cbn [snd]. unfold hlp, IP_HLEN in *. lia.
Qed.

Lemma deliver_spec n i ipr l :
  reassdatagrams n !! i = Some ipr -> flist (pbufs (packets n)) (mem n) (reass_p ipr) l -> l <> [] -> frags_ok n l ->
  length (reass_iphdr ipr) = 20%nat -> bytes_ok (reass_iphdr ipr) ->
  exists h' m' bl',
    deliver n i = Ok (firstp l, with_reass (delete i (reassdatagrams n)) (S (reassdata_pool n))
                        (u16 (ip_reass_pbufcount n - u16 (Z.of_nat (length (all_pbufs l))))) (set_ph h' m' n))
    /\ packet h' (firstp l) bl' /\ fst <$> bl' = fst <$> all_pbufs l
    /\ cdata m' bl' = reass_header (reass_iphdr ipr) (u16 (datagram_len ipr + IP_HLEN)) ++ mjoin (fdata (mem n) <$> l)
    /\ frame (pbufs (packets n)) h' (fst <$> all_pbufs l).
Proof.
  intros Hi Hl Hne [Hfp Hnd Hap Htot] Hlen Hok. destruct l as [|f l]; [done|]. unfold deliver, reass_at. rewrite Hi. cbn [res_bind].
  pose proof (flist_first _ _ _ _ Hl) as Ep. cbn [firstp] in *. pose proof Hl as [(_ & Hpn & Hh & _) Hl']. rewrite Ep in Hpn, Hh.
  rewrite Ep. unfold pbuf_at. rewrite (deref_ok _ _ _ Hh). cbn [res_bind]. fold (hlp f).
  set (tl := u16 (datagram_len ipr + IP_HLEN)). fold (reass_mem (mem n) (hlp f) (reass_iphdr ipr) tl).
  destruct (reass_mem_spec (mem n) (hlp f) (reass_iphdr ipr) tl Hlen Hok (u16_range _)) as [Ehd Hfr].
  set (m1 := reass_mem (mem n) (hlp f) (reass_iphdr ipr) tl) in *. set (n1 := with_mem m1 n).
  destruct (header_data _ _ _ _ _ Hfp Hap Hfr) as (Hcd & Hds & Hhl). rewrite Ehd in Hcd.
  pose proof (payloads_helpers _ _ Hfp Hap) as [Hndh _]. pose proof (flist_fuel _ _ _ _ Hl Hndh) as Hfuel. cbn [length] in Hfuel.
  pose proof Hfp as Hfp'. apply Forall_cons in Hfp' as [(Hpf & _) Hfp'].
  cbn [data_total foldr] in Htot. fold (data_total l) in Htot. rewrite all_pbufs_cons in *.
  assert (Hl1 : flist (pbufs (packets n1)) (mem n1) (next_pbuf (mem n) (hlp f)) l) by (eapply fseg_frame; [exact Hhl|exact Hl']).
  destruct (chain_frags_spec (f_p f) l (walk_fuel (pbufs (packets n))) n1 (f_chain f) _ Hpf Hpn Hl1 Hfp' Hnd) as (h' & bl' & Er & Hpk & Hcd' & Hfst &
    Hfr');
    [lia|lia|]. change (pbufs (packets n1)) with (pbufs (packets n)) in *. change (mem n1) with m1 in *. rewrite Er. cbn [res_bind].
  set (n2 := with_packets (with_pbufs h' (packets n1)) n1).
  unfold ip_reass_dequeue_datagram, reass_at. change (reassdatagrams n2) with (reassdatagrams n). rewrite Hi. cbn [res_bind].
  match goal with |- context [pbuf_clen ?s _] => rewrite (pbuf_clen_spec s (f_p f) bl') by exact (proj1 Hpk) end. cbn [res_bind].
  assert (Elen : length bl' = length (f_chain f ++ all_pbufs l)) by (by rewrite <- (length_fmap fst bl'), Hfst, length_fmap).
  exists h', m1, bl'. split_and!; [|exact Hpk|exact Hfst| |exact Hfr'].
  - rewrite Elen. done.
  - rewrite Hcd', Hcd, Hds, <- app_assoc. done.
Qed.
End Deliver.

(** ** A fragment arrives *)

Lemma payloads_apart_cross bl1 bl2 x y :
  payloads_apart (bl1 ++ bl2) -> x ∈ bl1 -> y ∈ bl2 ->
  payload (snd x) + len (snd x) <= payload (snd y) \/ payload (snd y) + len (snd y) <= payload (snd x).
Proof.
  induction bl1 as [|[a b] bl1 IH]; intros Hap Hx Hy; [by apply elem_of_nil in Hx|]. destruct Hap as [Hap Hrest].
  apply elem_of_cons in Hx as [->|Hx]; [|by apply IH]. unfold apart in Hap. rewrite Forall_forall in Hap.
  apply (Hap y). apply elem_of_app. by right.
Qed.

(** Writing helpers leaves the data alone. *)
Lemma helper_data h m m' l :
  Forall (frag_packet h) l -> payloads_apart (all_pbufs l) ->
  (forall ab x, ab ∈ all_pbufs l -> payload (snd ab) <= x < payload (snd ab) + len (snd ab) ->
     (forall g, g ∈ l -> x < hlp g \/ hlp g + 8 <= x) -> rd8 m' x = rd8 m x) ->
  (fdata m' <$> l) = (fdata m <$> l).
Proof.
  induction l as [|f l IH]; intros Hfp Hap Hx; [done|]. pose proof Hap as [Hhd _]. unfold apart in Hhd. rewrite Forall_forall in Hhd.
  apply Forall_cons in Hfp as [(_ & Hl & _) Hfp]. unfold IP_HLEN in Hl. pose proof Hfp as Hlen. rewrite Forall_forall in Hlen.
  rewrite all_pbufs_cons in *. cbn [fmap list_fmap]. f_equal.
  - assert (Hoth : forall ab x g, ab ∈ f_chain f -> payload (snd ab) <= x < payload (snd ab) + len (snd ab) -> g ∈ l ->
              x < hlp g \/ hlp g + 8 <= x).
    { intros ab x g Hab Hxx Hg. destruct (Hlen g Hg) as (_ & Hlg & _). unfold IP_HLEN in Hlg.
      assert (Hg1 : (f_p g, f_b g) ∈ all_pbufs l) by (apply (elem_all_pbufs g); [done|left]).
      destruct (payloads_apart_cross _ _ _ _ Hap Hab Hg1) as [H1|H1]; cbn [snd] in H1; unfold hlp; lia. }
    unfold fdata, f_chain. rewrite !cdata_cons, !drop_app_le, !drop_rd by (rewrite length_rd; lia). f_equal.
    + apply rd_ext. intros x Hxx. apply (Hx (f_p f, f_b f)); [left|cbn [snd]; lia|]. intros g Hg.
      apply elem_of_cons in Hg as [->|Hg]; [unfold hlp; lia|]. apply (Hoth (f_p f, f_b f)); [left|cbn [snd]; lia|done].
    + apply cdata_ext. intros ab x Hab Hxx. apply (Hx ab); [apply elem_of_app; left; by right|done|]. intros g Hg.
      apply elem_of_cons in Hg as [->|Hg]; [|apply (Hoth ab); [by right|done|done]].
      specialize (Hhd ab ltac:(apply elem_of_app; by left)). cbn in Hhd. unfold hlp. lia.
  - apply IH; [done|by eapply payloads_apart_app|]. intros ab x Hab Hxx Hg. apply (Hx ab); [apply elem_of_app; by right|done|].
    intros g Hin. apply elem_of_cons in Hin as [->|Hin]; [|by apply Hg].
    specialize (Hhd ab ltac:(apply elem_of_app; by right)). cbn in Hhd. unfold hlp. lia.
Qed.

Lemma delete_insert_list {X} (l : list X) i x : delete i (<[i := x]> l) = delete i l.
Proof. revert i. induction l as [|y l IH]; intros [|i]; cbn; [done..|]. f_equal. apply IH. Qed.

(** The bytes [[a, b)] of [D]. *)
Definition slice (D : list Z) (a b : Z) : list Z := take (Z.to_nat (b - a)) (drop (Z.to_nat a) D).

Lemma slice_app D a b c : 0 <= a <= b -> b <= c -> c <= Z.of_nat (length D) -> slice D a b ++ slice D b c = slice D a c.
Proof.
  intros Hab Hbc Hc. unfold slice. replace (Z.to_nat (c - a)) with (Z.to_nat (b - a) + Z.to_nat (c - b))%nat by lia.
  rewrite <- take_take_drop, drop_drop. do 3 f_equal. lia.
Qed.

(** Fragments without a hole between them that hold their part of [D] hold all of it. *)
Lemma contig_data m D l : forall g,
  contig (Some g) l = true -> 0 <= f_end g <= Z.of_nat (length D) ->
  Forall (fun f => fdata m f = slice D (f_start f) (f_end f) /\ f_start f <= f_end f <= Z.of_nat (length D)) l ->
  mjoin (fdata m <$> l) = slice D (f_end g) (match last l with Some f => f_end f | None => f_end g end)
  /\ f_end g <= (match last l with Some f => f_end f | None => f_end g end) <= Z.of_nat (length D).
Proof.
  induction l as [|f l IH]; intros g Hc Hg Hl.
  { cbn. unfold slice. replace (Z.to_nat (f_end g - f_end g)) with 0%nat by lia. split; [done|lia]. }
  cbn [contig] in Hc. apply andb_true_iff in Hc as [He Hc]. apply Z.eqb_eq in He. apply Forall_cons in Hl as [[Hd Hf] Hl].
  destruct (IH f Hc ltac:(lia) Hl) as [IHe IHr]. cbn [fmap list_fmap]. change (mjoin (?x :: ?y)) with (x ++ mjoin y). rewrite IHe, Hd, <- He.
  assert (El : match last (f :: l) with Some f0 => f_end f0 | None => f_end g end = match last l with Some f0 => f_end f0 | None => f_end f end).
  { destruct l as [|f1 l]; [done|]. rewrite last_cons_cons. destruct (last (f1 :: l)) eqn:E; [done|]. by apply last_None in E. }
  rewrite El. split; [apply slice_app; lia|lia].
Qed.

Lemma contig_whole m D l :
  starts_at_0 l = true -> contig None l = true -> end_of l = Z.of_nat (length D) ->
  Forall (fun f => fdata m f = slice D (f_start f) (f_end f) /\ f_start f <= f_end f <= Z.of_nat (length D)) l ->
  mjoin (fdata m <$> l) = D.
Proof.
  intros H0 Hc He Hl. destruct l as [|f l]; [done|]. cbn [starts_at_0 contig andb] in *. apply Z.eqb_eq in H0.
  apply Forall_cons in Hl as [[Hd Hf] Hl]. destruct (contig_data m D l f Hc ltac:(lia) Hl) as [E _].
  cbn [fmap list_fmap]. change (mjoin (?x :: ?y)) with (x ++ mjoin y). rewrite E, Hd, H0.
  assert (El : match last l with Some f0 => f_end f0 | None => f_end f end = end_of (f :: l)).
  { unfold end_of. destruct l as [|f1 l]; [done|]. rewrite last_cons_cons. destruct (last (f1 :: l)) eqn:E1; [done|]. by apply last_None in E1. }
  rewrite El, He, slice_app by lia. unfold slice. rewrite Z.sub_0_r, Nat2Z.id. cbn [Z.to_nat drop]. by rewrite take_ge.
Qed.

(** What the code sees as complete is, unless the new fragment is in the middle. *)
Lemma contig_app prev l1 f l2 :
  contig prev (l1 ++ f :: l2) = contig prev l1 && match lastf prev l1 with Some g => f_end g =? f_start f | None => true end && contig (Some f) l2.
Proof.
  revert prev. induction l1 as [|g l1 IH]; intros prev; cbn [app contig].
  - unfold lastf. cbn [last andb]. done.
  - rewrite IH, lastf_cons. by rewrite !andb_assoc.
Qed.

Lemma contig_seen l1 f l2 : contig None (l1 ++ f :: l2) = true -> no_hole_seen l1 f l2 = true.
Proof.
  rewrite contig_app. unfold no_hole_seen. intros [[H1 H2]%andb_true_iff H3]%andb_true_iff. rewrite H1, H3, H2. by destruct (bool_decide _).
Qed.

Lemma seen_contig l1 f l2 : l1 = [] \/ l2 = [] -> no_hole_seen l1 f l2 = contig None (l1 ++ f :: l2).
Proof.
  intros Hl. rewrite contig_app. unfold no_hole_seen. destruct Hl as [-> | ->]; [|by rewrite bool_decide_true].
  cbn. by destruct (bool_decide _).
Qed.

Section Arrival.
Context {A W : Type} `{AllocOps A} `{FragPool A}.
Variable stale_flags : Z -> Z.
Variable custom_free : Z -> Z -> Pbuf.state A -> res (Pbuf.state A).
Variable callback_ok : bool.
Variable netif_output : net A W -> Z -> Z -> Z -> res (err_t * net A W).
Implicit Types n : net A W.

(** The entry of the datagram after the fragment [f] with its header at [a]: the header of
    the first fragment is kept, and the last one tells the length. *)
Definition entry_after (m : memory) (a : Z) (f : frag) (ipr : ip_reassdata) : ip_reassdata :=
  let ipr :=
    if (Z.land (lwip_ntohs (IPH_OFFSET m a)) IP_OFFMASK =? 0) && negb (Z.land (lwip_ntohs (hdr_offset (reass_iphdr ipr))) IP_OFFMASK =? 0)
    then with_reass_iphdr (hdr_at m a) ipr else ipr in
  if Z.land (IPH_OFFSET m a) (PP_NTOHS IP_MF) =? 0
  then with_datagram_len (f_end f) (with_reass_flags (Z.lor (reass_flags ipr) IP_REASS_FLAG_LASTFRAG) ipr) else ipr.

(** The fragment [f] arrives for entry [i], whose fragments are [l1] and [l2], and there is
    room for it. *)
Record arrival (n : net A W) (f : frag) (i : nat) (ipr : ip_reassdata) (l1 l2 : list frag) : Prop := {
  ar_hdr : frag_interval (mem n) (hlp f) f;
  ar_mem : mem_ok (mem n);
  ar_room : 0 <= ip_reass_pbufcount n /\ ip_reass_pbufcount n + Z.of_nat (length (f_chain f)) <= IP_REASS_MAX_PBUFS;
  ar_found : find_datagram (reassdatagrams n) (hdr_at (mem n) (hlp f)) 0 = Some i;
  ar_entry : reassdatagrams n !! i = Some ipr;
  ar_iphdr : length (reass_iphdr ipr) = 20%nat /\ bytes_ok (reass_iphdr ipr);
  ar_list : flist (pbufs (packets n)) (mem n) (reass_p ipr) (l1 ++ l2);
  ar_before : before (f_start f) l1 l2;
  ar_frags : frags_ok n (l1 ++ f :: l2);
  ar_addr : Forall (fun g => is_u32 (f_p g)) (l1 ++ f :: l2) /\ f_p f <> NULL /\ hlp f <> NULL
}.

(** Up to the insertion. *)
Lemma ip4_reass_found n f i ipr l1 l2 :
  arrival n f i ipr l1 l2 ->
  exists n1, ip4_reass stale_flags custom_free callback_ok netif_output n (f_p f)
    = (let* (complete, n2) := ip_reass_chain_frag_into_datagram_and_validate custom_free n1 i (f_p f) in
       if (complete : bool) then deliver n2 i else Ok (NULL, n2))
    /\ n1 = with_reass (<[i := entry_after (mem n) (hlp f) f ipr]> (reassdatagrams n)) (reassdata_pool n)
              (ip_reass_pbufcount n + Z.of_nat (length (f_chain f))) (inc P_ip_frag c_cachehit (inc P_ip_frag c_recv n)).
Proof.
  intros [(Ehl & Es & Ee) Hm [Hr0 Hr] Hfind Hi Hip Hl Hbf Hfo Had]. eexists. split; [|reflexivity].
  assert (Hfin : f ∈ l1 ++ f :: l2) by (apply elem_of_app; right; left).
  pose proof (fo_packets _ _ Hfo) as Hfp. rewrite Forall_forall in Hfp. destruct (Hfp f Hfin) as (Hpk & _).
  pose proof Hpk as ((_ & _ & Hb & _) & _). unfold IP_REASS_MAX_PBUFS in Hr.
  set (k := Z.of_nat (length (f_chain f))) in *. assert (Hk : u16 k = k) by (apply u16_id; unfold is_u16; lia).
  unfold ip4_reass, pbuf_at. change (packets (inc P_ip_frag c_recv n)) with (packets n). rewrite (deref_ok _ _ _ Hb). cbn [res_bind]. fold (hlp f).
  change (mem (inc P_ip_frag c_recv n)) with (mem n). rewrite Ehl. change (5 * 4 =? IP_HLEN) with true. cbn [negb].
  rewrite (pbuf_clen_spec _ _ _ (proj1 Hpk)). fold k. rewrite Hk. cbn [res_bind]. change (5 * 4) with 20. rewrite <- Es, <- Ee.
  unfold make_room. change (ip_reass_pbufcount (inc P_ip_frag c_recv n)) with (ip_reass_pbufcount n).
  rewrite (proj2 (Z.ltb_ge _ _)) by (unfold IP_REASS_MAX_PBUFS; lia). cbn [res_bind negb].
  unfold find_or_enqueue. change (reassdatagrams (inc P_ip_frag c_recv n)) with (reassdatagrams n).
  change (mem (inc P_ip_frag c_recv n)) with (mem n).
  rewrite Hfind. unfold reass_at. set (n0 := inc P_ip_frag c_cachehit (inc P_ip_frag c_recv n)).
  change (reassdatagrams n0) with (reassdatagrams n). rewrite Hi. cbn [res_bind]. change (mem n0) with (mem n). unfold entry_after.
  assert (Hlt : (i < length (reassdatagrams n))%nat) by (by eapply lookup_lt_Some).
  assert (Hid : <[i := ipr]> (reassdatagrams n) = reassdatagrams n) by (by apply list_insert_id).
  destruct (_ && negb _); cbn [res_bind].
  - set (n1 := set_reass n0 i _). change (mem (with_reass _ _ _ n1)) with (mem n).
    destruct (Z.land _ (PP_NTOHS IP_MF) =? 0); cbn [res_bind].
    + unfold reass_at. change (reassdatagrams (with_reass (reassdatagrams n1) _ _ _)) with (<[i := with_reass_iphdr (hdr_at (mem n) (hlp f)) ipr]>
        (reassdatagrams n)).
      rewrite list_lookup_insert_eq by done. cbn [res_bind]. unfold set_reass.
      change (reassdatagrams (with_reass (reassdatagrams n1) _ _ _)) with (<[i := with_reass_iphdr (hdr_at (mem n) (hlp f)) ipr]> (reassdatagrams n)).
      rewrite list_insert_insert_eq. rewrite (u16_id (ip_reass_pbufcount n1 + k)) by (unfold is_u16; cbn; lia). done.
    + rewrite (u16_id (ip_reass_pbufcount n1 + k)) by (unfold is_u16; cbn; lia). done.
  - change (mem (with_reass _ _ _ n0)) with (mem n). rewrite (u16_id (ip_reass_pbufcount n0 + k)) by (unfold is_u16; cbn; lia).
    destruct (Z.land _ (PP_NTOHS IP_MF) =? 0); cbn [res_bind].
    + unfold reass_at. change (reassdatagrams (with_reass (reassdatagrams n0) _ _ _)) with (reassdatagrams n). rewrite Hi. cbn [res_bind]. done.
    + rewrite Hid. done.
Qed.

Lemma entry_after_p m a f ipr : reass_p (entry_after m a f ipr) = reass_p ipr.
Proof. unfold entry_after. cbv zeta. by repeat (destruct (Z.land _ _ =? 0) || destruct (_ && _)). Qed.

Lemma entry_after_iphdr m a f ipr :
  mem_ok m -> length (reass_iphdr ipr) = 20%nat /\ bytes_ok (reass_iphdr ipr) ->
  length (reass_iphdr (entry_after m a f ipr)) = 20%nat /\ bytes_ok (reass_iphdr (entry_after m a f ipr)).
Proof.
  intros Hm Hi. unfold entry_after. cbv zeta. destruct (_ && _), (Z.land _ (PP_NTOHS IP_MF) =? 0); cbn; try done;
    (split; [apply length_rd|by apply mem_ok_rd]).
Qed.

(** The fragment is inserted at its place; whether the datagram is taken for complete. *)
Lemma ip4_reass_spec n f i ipr l1 l2 :
  arrival n f i ipr l1 l2 -> refused l1 l2 (f_start f) (f_end f) = false ->
  let l := l1 ++ f :: l2 in
  let e := entry_after (mem n) (hlp f) f ipr in
  exists n2,
    ip4_reass stale_flags custom_free callback_ok netif_output n (f_p f)
    = (if last_seen e && starts_at_0 l && no_hole_seen l1 f l2 then
         if (1 <? Z.of_nat (length l)) && (end_of l =? datagram_len e) then deliver n2 i else Fault FAssert
       else Ok (NULL, n2))
    /\ reassdatagrams n2 = <[i := with_reass_p (firstp l) e]> (reassdatagrams n)
    /\ pbufs (packets n2) = pbufs (packets n) /\ flist (pbufs (packets n2)) (mem n2) (firstp l) l
    /\ (fdata (mem n2) <$> l) = (fdata (mem n) <$> l) /\ frags_ok n2 l
    /\ reassdata_pool n2 = reassdata_pool n
    /\ ip_reass_pbufcount n2 = ip_reass_pbufcount n + Z.of_nat (length (f_chain f)).
Proof.
  intros Har Href l e. destruct (ip4_reass_found _ _ _ _ _ _ Har) as (n1 & E & En1). fold e in En1.
  destruct Har as [Hint Hm _ _ Hi _ Hl Hbf Hfo [H32 [Hpn Hhn]]].
  assert (Hi1 : reassdatagrams n1 !! i = Some e).
  { rewrite En1. cbn [with_reass reassdatagrams inc]. apply list_lookup_insert_eq. by eapply lookup_lt_Some. }
  pose proof (fo_packets _ _ Hfo) as Hfp. pose proof (fo_apart _ _ Hfo) as Hap.
  pose proof (payloads_helpers _ _ Hfp Hap) as Hha.
  assert (Ep : packets n1 = packets n) by (by rewrite En1). assert (Em : mem n1 = mem n) by (unfold mem; by rewrite Ep).
  assert (Hb : pbufs (packets n) !! f_p f = Some (f_b f)).
  { rewrite Forall_forall in Hfp. destruct (Hfp f) as (((_ & _ & Hb & _) & _) & _); [apply elem_of_app; right; left|done]. }
  destruct (chain_frag_spec custom_free n1 i e f l1 l2 Hi1) as (m' & Hfr & Hch).
  { rewrite Ep, Em. unfold e. by rewrite entry_after_p. }
  { done. } { by rewrite Ep. } { done. } { done. } { by rewrite Em. } { done. } { done. }
  rewrite Href in Hch. cbv zeta in Hch. fold l in Hch. destruct Hch as [Hfl Hch]. rewrite Ep in Hfl.
  set (n2 := with_mem m' (set_reass n1 i (with_reass_p (firstp l) e))) in *.
  exists n2. rewrite E, Hch. split_and!.
  - destruct (_ && no_hole_seen l1 f l2); [|done]. by destruct (_ && (end_of l =? _)).
  - cbn [n2 with_mem with_packets set_reass with_reass reassdatagrams]. rewrite En1. cbn [with_reass reassdatagrams inc].
    by rewrite list_insert_insert_eq.
  - cbn [n2 with_mem with_packets set_reass with_reass packets with_bytes pbufs]. by rewrite Ep.
  - replace (pbufs (packets n2)) with (pbufs (packets n)); [exact Hfl|].
    cbn [n2 with_mem with_packets set_reass with_reass packets with_bytes pbufs]. by rewrite Ep.
  - eapply helper_data; [exact Hfp|exact Hap|]. intros ab x _ _ Hx. change (mem n2) with m'. rewrite Hfr; [by rewrite Em| |].
    + intros g Hg. specialize (Hx g). destruct (Hx ltac:(apply elem_of_app; apply elem_of_app in Hg as [?|?]; [by left|by right; right])); lia.
    + apply Hx. apply elem_of_app. right. left.
  - assert (Epp : pbufs (packets n2) = pbufs (packets n)).
    { cbn [n2 with_mem with_packets set_reass with_reass packets with_bytes pbufs]. by rewrite Ep. }
    destruct Hfo as [Ha Hb' Hc Hd]. split; [by rewrite Epp|done|done|done].
  - cbn [n2 with_mem with_packets set_reass with_reass reassdata_pool]. by rewrite En1.
  - cbn [n2 with_mem with_packets set_reass with_reass ip_reass_pbufcount]. by rewrite En1.
Qed.

(** C6: Reassembly delivers the datagram.  When the fragment arrives that completes the datagram
    [D], in whatever order the fragments came, what is handed on is one packet that consists
    of a header, that of the first fragment with the length of the whole, no offset and a
    checksum that verifies, and of exactly the bytes of [D]; the entry of the queue is freed
    and no pbuf but those of the fragments is touched. *)
Theorem ip4_reass_delivers n f i ipr l1 l2 D :
  arrival n f i ipr l1 l2 -> refused l1 l2 (f_start f) (f_end f) = false ->
  let l := l1 ++ f :: l2 in
  let e := entry_after (mem n) (hlp f) f ipr in
  last_seen e = true -> datagram_len e = Z.of_nat (length D) ->
  starts_at_0 l = true -> contig None l = true -> end_of l = Z.of_nat (length D) -> (1 < length l)%nat ->
  Forall (fun g => fdata (mem n) g = slice D (f_start g) (f_end g) /\ f_start g <= f_end g <= Z.of_nat (length D)) l ->
  exists n' bl', let hdr := reass_header (reass_iphdr e) (IP_HLEN + Z.of_nat (length D)) in
    ip4_reass stale_flags custom_free callback_ok netif_output n (f_p f) = Ok (firstp l, n')
    /\ packet (pbufs (packets n')) (firstp l) bl' /\ cdata (mem n') bl' = hdr ++ D /\ internet_checksum hdr = 0
    /\ fst <$> bl' = fst <$> all_pbufs l /\ frame (pbufs (packets n)) (pbufs (packets n')) (fst <$> all_pbufs l)
    /\ reassdatagrams n' = delete i (reassdatagrams n) /\ reassdata_pool n' = S (reassdata_pool n).
Proof.
  intros Har Href l e Hlast Hdl Hst Hc He Hlen HD. pose proof (ar_iphdr _ _ _ _ _ _ Har) as Hip.
  pose proof (entry_after_iphdr (mem n) (hlp f) f ipr (ar_mem _ _ _ _ _ _ Har) Hip) as [Hil Hib]. fold e in Hil, Hib.
  pose proof (ar_entry _ _ _ _ _ _ Har) as Hi.
  destruct (ip4_reass_spec _ _ _ _ _ _ Har Href) as (n2 & E & Er & Ep & Hfl & Hfd & Hfo & Epool & _). fold l e in E, Er, Hfl, Hfd, Hfo.
  rewrite Hlast, Hst, (contig_seen _ _ _ Hc), He, Hdl, Z.eqb_refl, (proj2 (Z.ltb_lt 1 _)) in E by lia. cbn [andb] in E.
  assert (Hi2 : reassdatagrams n2 !! i = Some (with_reass_p (firstp l) e)).
  { rewrite Er. apply list_lookup_insert_eq. by eapply lookup_lt_Some. }
  destruct (deliver_spec n2 i (with_reass_p (firstp l) e) l Hi2 Hfl) as (h' & m' & bl' & Ed & Hpk & Hfst & Hcd & Hfr);
    [by intros E0; rewrite E0 in Hlen; cbn in Hlen; lia|done|done|done|].
  rewrite Hfd, (contig_whole (mem n) D l Hst Hc He HD) in Hcd.
  assert (Hlen16 : is_u16 (IP_HLEN + Z.of_nat (length D))).
  { pose proof (length_cdata m' bl' (proj1 (proj2 Hpk))) as Hlc. rewrite Hcd, length_app in Hlc.
    destruct Hpk as (_ & _ & Ht). unfold reass_header in Hlc. rewrite !length_app in Hlc. cbn [length be16 le_bytes] in Hlc.
    rewrite !length_take, !length_drop in Hlc. cbn [with_reass_p reass_iphdr] in Hlc. rewrite Hil in Hlc. cbn in Hlc. unfold is_u16, IP_HLEN. lia. }
  cbn [with_reass_p reass_iphdr datagram_len] in Hcd. rewrite Hdl, Z.add_comm, u16_id in Hcd by done.
  eexists _, bl'. rewrite E. split_and!; [exact Ed|exact Hpk|exact Hcd|by apply reass_header_verifies|exact Hfst| | |].
  - rewrite <- Ep. exact Hfr.
  - cbn [with_reass reassdatagrams]. rewrite Er. apply delete_insert_list.
  - cbn [with_reass reassdata_pool]. by rewrite Epool.
Qed.

(** Some fragment is missing: the last one, the first one, one between two that came earlier
    on the same side of the new fragment [f], or, if [f] is the first or the last one now, any. *)
Definition missing (e : ip_reassdata) (l1 : list frag) (f : frag) (l2 : list frag) : Prop :=
  last_seen e = false \/ starts_at_0 (l1 ++ f :: l2) = false \/ contig None l1 = false \/ contig (Some f) l2 = false
  \/ ((l1 = [] \/ l2 = []) /\ contig None (l1 ++ f :: l2) = false).

Lemma missing_seen e l1 f l2 : missing e l1 f l2 -> last_seen e && starts_at_0 (l1 ++ f :: l2) && no_hole_seen l1 f l2 = false.
Proof.
  unfold missing. intros [-> |[-> |[E|[E|[Hl E]]]]]; [done|by rewrite andb_false_r|..|by rewrite (seen_contig _ _ _ Hl), E, andb_false_r];
    unfold no_hole_seen; rewrite E; cbn [andb]; by rewrite ?andb_false_r.
Qed.

(** C27: An incomplete datagram waits.  As long as a fragment is [missing], a fragment that fits
    between those received is inserted at its place, all data stays as it is, the pbufs are
    counted, no pbuf is freed, and NULL is returned.  [missing] leaves out one case, in which
    the code does otherwise: when the new fragment is put between two others and the only
    hole of the datagram is right before it, the code takes the datagram for complete
    ([Reass.reass_hole_delivered]). *)
Theorem ip4_reass_waits n f i ipr l1 l2 :
  arrival n f i ipr l1 l2 -> refused l1 l2 (f_start f) (f_end f) = false ->
  let l := l1 ++ f :: l2 in
  let e := entry_after (mem n) (hlp f) f ipr in
  missing e l1 f l2 ->
  exists n', ip4_reass stale_flags custom_free callback_ok netif_output n (f_p f) = Ok (NULL, n')
    /\ reassdatagrams n' = <[i := with_reass_p (firstp l) e]> (reassdatagrams n)
    /\ pbufs (packets n') = pbufs (packets n) /\ flist (pbufs (packets n')) (mem n') (firstp l) l
    /\ (fdata (mem n') <$> l) = (fdata (mem n) <$> l)
    /\ ip_reass_pbufcount n' = ip_reass_pbufcount n + Z.of_nat (length (f_chain f)).
Proof.
  intros Har Href l e Hm. destruct (ip4_reass_spec _ _ _ _ _ _ Har Href) as (n2 & E & Er & Ep & Hfl & Hfd & _ & _ & Hcnt).
  fold l e in E, Er, Hfl, Hfd. apply missing_seen in Hm. fold l in Hm. rewrite Hm in E. by exists n2.
Qed.
End Arrival.

(** ** Examples *)

Section Examples.

(** Three fragments of 8 bytes each; the state after the first [k] of them. *)
Definition ex_f (k : nat) : frag :=
  let p := 1000 * (Z.of_nat k + 1) in mk_frag p (frag_pbuf p 8) [] (8 * Z.of_nat k) (8 * Z.of_nat k + 8).
Definition ex_D : list Z := data8 1 ++ data8 2 ++ data8 3.
Definition ex_reass (r : res (Z * net (heap_pools * frag_pool) (list (list Z)))) (p : Z) :=
  let* (_, n) := r in ip4_reass (fun _ => 0) (fun _ _ s => Ok s) true ex_output n p.
Definition ex_n0 := frag_net (frag_bytes 32 0 (data8 1)) (frag_bytes 32 1 (data8 2)) (frag_bytes 0 2 (data8 3)).
Definition state_of (r : res (Z * net (heap_pools * frag_pool) (list (list Z)))) := match r with Ok (_, n) => n | Fault _ => ex_n0 end.
Definition ex_n1 := Eval vm_compute in state_of (ex_reass (Ok (0, ex_n0)) 1000).
Definition ex_n2 := Eval vm_compute in state_of (ex_reass (Ok (0, ex_n1)) 2000).
Definition ex_ipr := mk_reass 1000 (take 20 (frag_bytes 32 0 (data8 1))) 0 0 3.

Lemma mem_ok_forall m : map_Forall (fun _ v => is_u8 v) m -> mem_ok m.
Proof.
  intros Hm a. unfold rd8. destruct (m !! a) as [v|] eqn:E; cbn [default]; [by eapply (Hm a)|unfold is_u8; cbn; lia].
Qed.

Lemma ex_frags (n : net (heap_pools * frag_pool) (list (list Z))) l :
  l = [ex_f 0; ex_f 1] \/ l = [ex_f 0; ex_f 1; ex_f 2] ->
  (forall k, (k < 3)%nat -> pbufs (packets n) !! f_p (ex_f k) = Some (f_b (ex_f k))) -> frags_ok n l.
Proof.
  intros Hl Hp.
  assert (Hf : forall k, (k < 3)%nat -> frag_packet (pbufs (packets n)) (ex_f k)).
  { intros k Hk. split; [|split; [vm_compute; discriminate|intros _; unfold hlp, SIZEOF_STRUCT_PBUF, ex_f, frag_pbuf; cbn [f_b f_p payload]; lia]].
    split; [|split; [vm_compute; split_and!; [discriminate|reflexivity|exact I]|vm_compute; discriminate]].
    split_and!; [done|unfold ex_f, NULL; cbn [f_p]; lia|by apply Hp|done]. }
  destruct Hl as [-> | ->]; (split; [rewrite !Forall_cons; split_and!; [apply Hf; lia..|apply Forall_nil; exact I]
    |apply (bool_decide_unpack (NoDup _)); vm_compute; reflexivity
    |unfold all_pbufs, ex_f, f_chain; cbn; unfold apart; rewrite ?Forall_cons, ?Forall_nil; cbn; lia|vm_compute; discriminate]).
Qed.

(** The second and the third fragment arrive in order. *)
Ltac arrival_tac frags := split;
  [vm_compute; done|apply mem_ok_forall, (bool_decide_unpack (map_Forall _ _)); vm_compute; reflexivity
  |vm_compute; split; discriminate|vm_compute; reflexivity|vm_compute; reflexivity
  |split; [vm_compute; reflexivity|]; apply (bool_decide_unpack (bytes_ok _)); vm_compute; reflexivity
  |vm_compute; split_and!; try reflexivity; discriminate|vm_compute; split; [|exact I]; repeat constructor
  |frags; intros [|[|[|k]]] Hk; [vm_compute; reflexivity..|lia]
  |split; [|vm_compute; split; discriminate]; repeat constructor; vm_compute; (discriminate || reflexivity)].

Lemma ex_arrival2 : arrival ex_n2 (ex_f 2) 0 ex_ipr [ex_f 0; ex_f 1] [].
Proof. arrival_tac ltac:(apply ex_frags; [by right|]). Qed.

Lemma ex_arrival1 : arrival ex_n1 (ex_f 1) 0 ex_ipr [ex_f 0] [].
Proof. arrival_tac ltac:(apply ex_frags; [by left|]). Qed.

Lemma ip4_reass_delivers_witness :
  exists n', ip4_reass (fun _ => 0) (fun _ _ s => Ok s) true ex_output ex_n2 3000 = Ok (1000, n').
Proof.
  destruct (ip4_reass_delivers (fun _ => 0) (fun _ _ s => Ok s) true ex_output ex_n2 (ex_f 2) 0 ex_ipr [ex_f 0; ex_f 1] [] ex_D ex_arrival2)
    as (n' & bl' & E & _); try (vm_compute; reflexivity).
  - cbn. lia.
  - repeat constructor; vm_compute; (reflexivity || discriminate).
  - exists n'. exact E.
Defined.

Lemma ip4_reass_waits_witness :
  exists n', ip4_reass (fun _ => 0) (fun _ _ s => Ok s) true ex_output ex_n1 2000 = Ok (NULL, n')
    /\ flist (pbufs (packets n')) (mem n') 1000 [ex_f 0; ex_f 1].
Proof.
  destruct (ip4_reass_waits (fun _ => 0) (fun _ _ s => Ok s) true ex_output ex_n1 (ex_f 1) 0 ex_ipr [ex_f 0] [] ex_arrival1)
    as (n' & E & _ & _ & Hl & _); [vm_compute; reflexivity|left; vm_compute; reflexivity|].
  exists n'. split; [exact E|exact Hl].
Defined.
End Examples.
