(* ===== verification/Igmp.v ===== *)
(** * IGMP: lwip/src/core/ipv4/igmp.c

    The groups that each interface is a member of, and the state machine of the
    reports.  A group is identified by its interface and its position in the list of
    the interface.  Delays are random: [igmp_rands] has the numbers that [LWIP_RAND], which is
    [rand] of the C library (arch.h), returns from here on. *)

From S2P Require Import Prelude Def Ip4Addr InetChksum Pbuf PbufAlloc Net Ip4 IpFrame.

(** ** Definitions *)

Definition IGMP_TTL : Z := 1.
Definition IGMP_MINLEN : Z := 8.
Definition ROUTER_ALERT : Z := 37892.
Definition IGMP_MEMB_QUERY : Z := 17.
Definition IGMP_V2_MEMB_REPORT : Z := 22.
Definition IGMP_LEAVE_GROUP : Z := 23.
Definition IGMP_GROUP_NON_MEMBER : Z := 0.
Definition IGMP_GROUP_DELAYING_MEMBER : Z := 1.
Definition IGMP_GROUP_IDLE_MEMBER : Z := 2.
Definition IGMP_V1_DELAYING_MEMBER_TMR : Z := 10.
Definition IGMP_JOIN_DELAYING_MEMBER_TMR : Z := 5.

(** 224.0.0.1 and 224.0.0.2, as [igmp_init] sets them. *)
Definition allsystems : Z := 16777440.
Definition allrouters : Z := 33554656.

Definition with_state (st : Z) (g : igmp_group) : igmp_group :=
  mk_group (group_address g) (last_reporter_flag g) st (group_timer g) (group_use g).
Definition with_group_timer (t : Z) (g : igmp_group) : igmp_group :=
  mk_group (group_address g) (last_reporter_flag g) (group_state g) t (group_use g).
Definition with_reporter (f : Z) (g : igmp_group) : igmp_group :=
  mk_group (group_address g) f (group_state g) (group_timer g) (group_use g).
Definition with_use (u : Z) (g : igmp_group) : igmp_group :=
  mk_group (group_address g) (last_reporter_flag g) (group_state g) (group_timer g) u.

(** The next number, and those behind it. *)
Definition LWIP_RAND (r : nat -> Z) : Z * (nat -> Z) := (u32 (r 0%nat), fun k => r (S k)).

Definition igmp_start_timer (r : nat -> Z) (max_time : Z) (g : igmp_group) : igmp_group * (nat -> Z) :=
  let (t, r) := if 2 <? max_time then let (x, r) := LWIP_RAND r in (u16 (x mod max_time), r) else (1, r) in
  (with_group_timer (if t =? 0 then 1 else t) g, r).

Definition igmp_delaying_member (r : nat -> Z) (maxresp : Z) (g : igmp_group) : igmp_group * (nat -> Z) :=
  if (group_state g =? IGMP_GROUP_IDLE_MEMBER)
     || ((group_state g =? IGMP_GROUP_DELAYING_MEMBER) && ((group_timer g =? 0) || (maxresp <? group_timer g)))
  then let (g, r) := igmp_start_timer r maxresp g in (with_state IGMP_GROUP_DELAYING_MEMBER g, r)
  else (g, r).

(** The position of the group with the given address. *)
Fixpoint igmp_lookfor_group (l : list igmp_group) (addr : Z) : option nat :=
  match l with
  | [] => None
  | g :: l' => if group_address g =? addr then Some 0%nat else S <$> igmp_lookfor_group l' addr
  end.

Fixpoint delay_members (r : nat -> Z) (maxresp : Z) (l : list igmp_group) : list igmp_group * (nat -> Z) :=
  match l with
  | [] => ([], r)
  | g :: l' =>
      let (g, r) := igmp_delaying_member r maxresp g in
      let (l', r) := delay_members r maxresp l' in
      (g :: l', r)
  end.

Section Igmp.
Context {A W : Type} `{AllocOps A} `{FragPool A}.
Variable stale_flags : Z -> Z.
Variable custom_free : Z -> Z -> Pbuf.state A -> res (Pbuf.state A).
Variable callback_ok : bool.
Variable netif_output : net A W -> Z -> Z -> Z -> res (err_t * net A W).

(** The MAC filter of an interface, if it has one: add or delete a group. *)
Variable igmp_mac_filter : net A W -> Z -> Z -> bool -> res (net A W).
Implicit Types n : net A W.

Definition groups n (nif : Z) : list igmp_group := default [] (igmp_data (igmp n) !! nif).
Definition set_groups n (nif : Z) (l : list igmp_group) (pool : nat) : net A W :=
  with_igmp (mk_igmp_globals (<[nif := l]> (igmp_data (igmp n))) pool (igmp_rands (igmp n))) n.
Definition set_rands n (r : nat -> Z) : net A W :=
  with_igmp (mk_igmp_globals (igmp_data (igmp n)) (igmp_pool (igmp n)) r) n.

Definition group_at n (nif : Z) (k : nat) : res igmp_group :=
  match groups n nif !! k with
  | Some g => Ok g
  | None => Fault FBadAccess
  end.
Definition set_group n (nif : Z) (k : nat) (g : igmp_group) : net A W :=
  set_groups n nif (<[k := g]> (groups n nif)) (igmp_pool (igmp n)).

(** A new group is the second of the list, or the first if it is the all-systems
    group; [None] without memory. *)
Definition igmp_lookup_group n (nif addr : Z) : res (option nat * net A W) :=
  match igmp_lookfor_group (groups n nif) addr with
  | Some k => Ok (Some k, n)
  | None =>
      match igmp_pool (igmp n) with
      | O => Ok (None, n)
      | S pool =>
          let g := mk_group addr 0 IGMP_GROUP_NON_MEMBER 0 0 in
          match groups n nif with
          | [] => assert* (addr =? allsystems) in Ok (Some 0%nat, set_groups n nif [g] pool)
          | first :: l => assert* negb (addr =? allsystems) in
                          Ok (Some 1%nat, set_groups n nif (first :: g :: l) pool)
          end
      end
  end.

(** Unlink the group; the first of the list is not found. *)
Definition igmp_remove_group n (nif : Z) (k : nat) : err_t * net A W :=
  match k with
  | O => (ERR_ARG, n)
  | S _ => (ERR_OK, set_groups n nif (delete k (groups n nif)) (igmp_pool (igmp n)))
  end.

Definition igmp_ip_output_if n (p src dest nif : Z) : res (err_t * net A W) :=
  ip4_output_if_opt stale_flags custom_free callback_ok netif_output (inc P_igmp c_xmit n) p (Some src) (Some dest)
    IGMP_TTL 0 IP_PROTO_IGMP nif (le_bytes 2 (PP_HTONS ROUTER_ALERT) ++ le_bytes 2 0).

(** The message and its checksum. *)
Definition fill_igmp (m : memory) (igmp type addr : Z) : memory :=
  let m := wr32 m (igmp + 4) addr in
  let m := wr8 m igmp type in
  let m := wr8 m (igmp + 1) 0 in
  let m := wr16 m (igmp + 2) 0 in
  wr16 m (igmp + 2) (inet_chksum igmp (rd m igmp (Z.to_nat IGMP_MINLEN))).

(** Send a report or a leave message; the group as it is afterwards. *)
Definition igmp_send n (nif : Z) (g : igmp_group) (type : Z) : res (igmp_group * net A W) :=
  let* (p, n) := alloc_pbuf stale_flags custom_free callback_ok n PBUF_TRANSPORT IGMP_MINLEN PBUF_RAM in
  if p =? NULL then Ok (g, inc P_igmp c_memerr n)
  else
    let* b := pbuf_at n p in
    assert* (IGMP_MINLEN <=? len b) in
    let* nf := netif_at n nif in
    let src := netif_ip4_addr nf in
    let* (g, n) :=
      if type =? IGMP_V2_MEMB_REPORT then
        let g := with_reporter 1 g in
        let n := with_mem (fill_igmp (mem n) (payload b) type (group_address g)) n in
        let* (_, n) := igmp_ip_output_if n p src (group_address g) nif in Ok (g, n)
      else if type =? IGMP_LEAVE_GROUP then
        let n := with_mem (fill_igmp (mem n) (payload b) type (group_address g)) n in
        let* (_, n) := igmp_ip_output_if n p src allrouters nif in Ok (g, n)
      else Ok (g, n) in
    let* n := free custom_free n p in
    Ok (g, n).

Definition igmp_start n (nif : Z) : res (err_t * net A W) :=
  let* (k, n) := igmp_lookup_group n nif allsystems in
  match k with
  | None => Ok (ERR_MEM, n)
  | Some k =>
      let* g := group_at n nif k in
      let n := set_group n nif k (with_use (u8 (group_use g + 1)) (with_state IGMP_GROUP_IDLE_MEMBER g)) in
      let* n := igmp_mac_filter n nif allsystems true in
      Ok (ERR_OK, n)
  end.

(** The [while] loop over the groups, which are no longer linked to the interface. *)
Fixpoint stop_groups n (nif : Z) (l : list igmp_group) : res (net A W) :=
  match l with
  | [] => Ok n
  | g :: l' =>
      let* n := igmp_mac_filter n nif (group_address g) false in
      stop_groups (with_igmp (mk_igmp_globals (igmp_data (igmp n)) (S (igmp_pool (igmp n))) (igmp_rands (igmp n))) n) nif l'
  end.

Definition igmp_stop n (nif : Z) : res (err_t * net A W) :=
  let l := groups n nif in
  let* n := stop_groups (set_groups n nif [] (igmp_pool (igmp n))) nif l in
  Ok (ERR_OK, n).

(** All groups but the first, which is the all-systems group. *)
Definition delay_all n (nif maxresp : Z) : net A W :=
  match groups n nif with
  | [] => n
  | g :: l =>
      let (l, r) := delay_members (igmp_rands (igmp n)) maxresp l in
      set_rands (set_groups n nif (g :: l) (igmp_pool (igmp n))) r
  end.

Definition igmp_report_groups n (nif : Z) : net A W := delay_all n nif IGMP_JOIN_DELAYING_MEMBER_TMR.

(** A membership query with the fields of the message at [igmp]. *)
Definition query n (inp dest igmp : Z) (k : nat) : res (net A W) :=
  let addr := rd32 (mem n) (igmp + 4) in
  if (dest =? allsystems) && ip4_addr_isany_val addr then
    let n := if rd8 (mem n) (igmp + 1) =? 0
             then inc P_igmp c_rx_v1 (with_mem (wr8 (mem n) (igmp + 1) IGMP_V1_DELAYING_MEMBER_TMR) n)
             else inc P_igmp c_rx_general n in
    Ok (delay_all n inp (rd8 (mem n) (igmp + 1)))
  else if negb (ip4_addr_isany_val addr) then
    match (if dest =? allsystems then igmp_lookfor_group (groups n inp) addr else Some k) with
    | Some k =>
        let* g := group_at n inp k in
        let (g, r) := igmp_delaying_member (igmp_rands (Net.igmp n)) (rd8 (mem n) (igmp + 1)) g in
        Ok (set_rands (set_group (inc P_igmp c_rx_group n) inp k g) r)
    | None => Ok (inc P_igmp c_drop n)
    end
  else Ok (inc P_igmp c_proterr n).

Definition igmp_input n (p inp dest : Z) : res (net A W) :=
  let n := inc P_igmp c_recv n in
  let* b := pbuf_at n p in
  if len b <? IGMP_MINLEN then let* n := free custom_free n p in Ok (inc P_igmp c_lenerr n)
  else
    let igmp := payload b in
    if negb (inet_chksum igmp (rd (mem n) igmp (Z.to_nat (len b))) =? 0) then
      let* n := free custom_free n p in Ok (inc P_igmp c_chkerr n)
    else
      match igmp_lookfor_group (groups n inp) dest with
      | None => let* n := free custom_free n p in Ok (inc P_igmp c_drop n)
      | Some k =>
          let type := rd8 (mem n) igmp in
          let* n :=
            if type =? IGMP_MEMB_QUERY then query n inp dest igmp k
            else if type =? IGMP_V2_MEMB_REPORT then
              let n := inc P_igmp c_rx_report n in
              let* g := group_at n inp k in
              Ok (if group_state g =? IGMP_GROUP_DELAYING_MEMBER
                  then set_group n inp k (with_reporter 0 (with_state IGMP_GROUP_IDLE_MEMBER (with_group_timer 0 g)))
                  else n)
            else Ok (inc P_igmp c_proterr n) in
          free custom_free n p
      end.

Definition igmp_netif nf : bool := negb (Z.land (netif_flags nf) NETIF_FLAG_IGMP =? 0).

Definition igmp_joingroup_netif n (nif groupaddr : Z) : res (err_t * net A W) :=
  if negb (ip4_addr_ismulticast groupaddr) then Ok (ERR_VAL, n)
  else if groupaddr =? allsystems then Ok (ERR_VAL, n)
  else
    let* nf := netif_at n nif in
    if negb (igmp_netif nf) then Ok (ERR_VAL, n)
    else
      let* (k, n) := igmp_lookup_group n nif groupaddr in
      match k with
      | None => Ok (ERR_MEM, n)
      | Some k =>
          let* g := group_at n nif k in
          let* n :=
            if negb (group_state g =? IGMP_GROUP_NON_MEMBER) then Ok n
            else
              let* n := if group_use g =? 0 then igmp_mac_filter n nif groupaddr true else Ok n in
              let* (g, n) := igmp_send (inc P_igmp c_tx_join n) nif g IGMP_V2_MEMB_REPORT in
              let (g, r) := igmp_start_timer (igmp_rands (igmp n)) IGMP_JOIN_DELAYING_MEMBER_TMR g in
              Ok (set_rands (set_group n nif k (with_state IGMP_GROUP_DELAYING_MEMBER g)) r) in
          let* g := group_at n nif k in
          Ok (ERR_OK, set_group n nif k (with_use (u8 (group_use g + 1)) g))
      end.

Definition igmp_leavegroup_netif n (nif groupaddr : Z) : res (err_t * net A W) :=
  if negb (ip4_addr_ismulticast groupaddr) then Ok (ERR_VAL, n)
  else if groupaddr =? allsystems then Ok (ERR_VAL, n)
  else
    let* nf := netif_at n nif in
    if negb (igmp_netif nf) then Ok (ERR_VAL, n)
    else
      match igmp_lookfor_group (groups n nif) groupaddr with
      | None => Ok (ERR_VAL, n)
      | Some k =>
          let* g := group_at n nif k in
          if group_use g <=? 1 then
            let '(_, n) := igmp_remove_group n nif k in
            let* n :=
              if negb (last_reporter_flag g =? 0) then
                let* (_, n) := igmp_send (inc P_igmp c_tx_leave n) nif g IGMP_LEAVE_GROUP in Ok n
              else Ok n in
            let* n := igmp_mac_filter n nif groupaddr false in
            Ok (ERR_OK, with_igmp (mk_igmp_globals (igmp_data (igmp n)) (S (igmp_pool (igmp n))) (igmp_rands (igmp n))) n)
          else Ok (ERR_OK, set_group n nif k (with_use (u8 (group_use g - 1)) g))
      end.

(** [NULL] for [ifaddr] stands for any address. *)
Definition on_interface (nf : netif) (ifaddr : option Z) : bool :=
  igmp_netif nf && (ip4_addr_isany_ptr ifaddr || (netif_ip4_addr nf =? default 0 ifaddr)).

(** The loop over the interfaces stops at the first error. *)
Fixpoint join_on n (l : list Z) (ifaddr : option Z) (groupaddr : Z) (err : err_t) : res (err_t * net A W) :=
  match l with
  | [] => Ok (err, n)
  | nif :: l' =>
      let* nf := netif_at n nif in
      if on_interface nf ifaddr then
        let* (err, n) := igmp_joingroup_netif n nif groupaddr in
        if bool_decide (err = ERR_OK) then join_on n l' ifaddr groupaddr err else Ok (err, n)
      else join_on n l' ifaddr groupaddr err
  end.

Definition igmp_joingroup n (ifaddr : option Z) (groupaddr : Z) : res (err_t * net A W) :=
  if negb (ip4_addr_ismulticast groupaddr) then Ok (ERR_VAL, n)
  else if groupaddr =? allsystems then Ok (ERR_VAL, n)
  else join_on n (netif_list n) ifaddr groupaddr ERR_VAL.

(** The first success is kept. *)
Fixpoint leave_on n (l : list Z) (ifaddr : option Z) (groupaddr : Z) (err : err_t) : res (err_t * net A W) :=
  match l with
  | [] => Ok (err, n)
  | nif :: l' =>
      let* nf := netif_at n nif in
      if on_interface nf ifaddr then
        let* (r, n) := igmp_leavegroup_netif n nif groupaddr in
        leave_on n l' ifaddr groupaddr (if bool_decide (err = ERR_OK) then err else r)
      else leave_on n l' ifaddr groupaddr err
  end.

Definition igmp_leavegroup n (ifaddr : option Z) (groupaddr : Z) : res (err_t * net A W) :=
  if negb (ip4_addr_ismulticast groupaddr) then Ok (ERR_VAL, n)
  else if groupaddr =? allsystems then Ok (ERR_VAL, n)
  else leave_on n (netif_list n) ifaddr groupaddr ERR_VAL.

(** The timer of group [k] has run out. *)
Definition igmp_timeout n (nif : Z) (k : nat) : res (net A W) :=
  let* g := group_at n nif k in
  if (group_state g =? IGMP_GROUP_DELAYING_MEMBER) && negb (group_address g =? allsystems) then
    let g := with_state IGMP_GROUP_IDLE_MEMBER g in
    let n := inc P_igmp c_tx_report (set_group n nif k g) in
    let* (g, n) := igmp_send n nif g IGMP_V2_MEMB_REPORT in
    Ok (set_group n nif k g)
  else Ok n.

(** The inner loop of the timer, from group [k] on: [count] groups are left. *)
Fixpoint tmr_groups (count : nat) n (nif : Z) (k : nat) : res (net A W) :=
  match count with
  | O => Ok n
  | S count' =>
      let* g := group_at n nif k in
      let* n :=
        if 0 <? group_timer g then
          let t := group_timer g - 1 in
          let n := set_group n nif k (with_group_timer t g) in
          if t =? 0 then igmp_timeout n nif k else Ok n
        else Ok n in
      tmr_groups count' n nif (S k)
  end.

Fixpoint tmr_netifs n (l : list Z) : res (net A W) :=
  match l with
  | [] => Ok n
  | nif :: l' => let* n := tmr_groups (length (groups n nif)) n nif 0 in tmr_netifs n l'
  end.

Definition igmp_tmr n : res (net A W) := tmr_netifs n (netif_list n).

End Igmp.

(** ** The lists of groups *)

(** The first group of a list is the all-systems group; every other one is a member that
    either waits to report, with its timer running, or is idle, with its timer stopped. *)
Definition head_ok (g : igmp_group) : Prop :=
  group_address g = allsystems
  /\ (group_state g = IGMP_GROUP_DELAYING_MEMBER \/ group_state g = IGMP_GROUP_IDLE_MEMBER) /\ 0 <= group_timer g.
Definition member_ok (g : igmp_group) : Prop :=
  group_address g <> allsystems
  /\ ((group_state g = IGMP_GROUP_DELAYING_MEMBER /\ 1 <= group_timer g)
      \/ (group_state g = IGMP_GROUP_IDLE_MEMBER /\ group_timer g = 0)).
Definition group_ok (k : nat) (g : igmp_group) : Prop :=
  is_u8 (group_use g) /\ match k with O => head_ok g | S _ => member_ok g end.

Definition list_ok (l : list igmp_group) : Prop :=
  NoDup (group_address <$> l) /\ forall k g, l !! k = Some g -> group_ok k g.

Lemma list_ok_nil : list_ok [].
Proof. split; [constructor|]. intros k g. by rewrite lookup_nil. Qed.

(** Changing a group without its address. *)
Lemma list_ok_insert l k g g' :
  list_ok l -> l !! k = Some g -> group_address g' = group_address g -> group_ok k g' -> list_ok (<[k := g']> l).
Proof.
  intros [Hnd Hg] Hk Ea Hok. split.
  - rewrite list_fmap_insert, Ea, list_insert_id; [done|]. by rewrite list_lookup_fmap, Hk.
  - intros j h Hj. apply list_lookup_insert_Some in Hj as [(<- & -> & _)|[_ Hj]]; [done|by apply Hg].
Qed.

(** A new group behind the first. *)
Lemma list_ok_second first l g :
  list_ok (first :: l) -> group_address g ∉ group_address <$> first :: l -> group_ok 1 g -> list_ok (first :: g :: l).
Proof.
  intros [Hnd Hg] Ha Hok. cbn [fmap list_fmap] in Ha. apply not_elem_of_cons in Ha as [Ha1 Ha2]. split.
  - cbn [fmap list_fmap] in *. apply NoDup_cons in Hnd as [H1 H2]. constructor; [|by constructor].
    apply not_elem_of_cons. split; [congruence|done].
  - intros [|[|k]] h; cbn; intros Hh; [injection Hh as <-; by apply (Hg 0%nat)|by injection Hh as <-|].
    exact (Hg (S k) h Hh).
Qed.

(** Removing a group that is not the first. *)
Lemma list_ok_delete l k : list_ok l -> list_ok (delete (S k) l).
Proof.
  intros [Hnd Hg]. split.
  - eapply sublist_NoDup; [exact Hnd|]. apply fmap_sublist, sublist_delete.
  - intros j h Hj. destruct (decide (j < S k)%nat).
    + rewrite list_lookup_delete_lt in Hj by done. by apply Hg.
    + rewrite list_lookup_delete_ge in Hj by lia. destruct j; [lia|]. exact (Hg (S (S j)) h Hj).
Qed.

(** What may happen to a group in place. *)
Definition keeps_group (g g' : igmp_group) : Prop :=
  group_address g' = group_address g /\ forall k, group_ok k g -> group_ok k g'.

Lemma list_ok_tail g l l' : list_ok (g :: l) -> Forall2 keeps_group l l' -> list_ok (g :: l').
Proof.
  intros [Hnd Hg] Hf. split.
  - assert (E : group_address <$> l' = group_address <$> l).
    { clear -Hf. induction Hf as [|x y ? ? [E _] _ IH]; [done|]. cbn. f_equal; [exact E|exact IH]. }
    by rewrite fmap_cons, E.
  - intros [|k] h Hh; [by apply (Hg 0%nat)|]. destruct (Forall2_lookup_r _ _ _ _ _ Hf Hh) as (x & Hx & _ & Hk).
    apply Hk. by apply (Hg (S k)).
Qed.

Lemma group_ok_state k g : group_ok k g -> group_state g = IGMP_GROUP_DELAYING_MEMBER \/ group_state g = IGMP_GROUP_IDLE_MEMBER.
Proof. intros [_ Hg]. destruct k; [apply Hg|]. destruct Hg as [_ [[? _]|[? _]]]; auto. Qed.

Lemma group_ok_timer k g : group_ok k g -> 0 <= group_timer g.
Proof. intros [_ Hg]. destruct k; [apply Hg|]. destruct Hg as [_ [[_ ?]|[_ ?]]]; lia. Qed.

Lemma start_timer_pos r t g : exists x, 1 <= x <= Z.max 1 (t - 1) /\ fst (igmp_start_timer r t g) = with_group_timer x g.
Proof.
  unfold igmp_start_timer, LWIP_RAND. destruct (Z.ltb_spec 2 t) as [Ht|Ht]; cbn [fst]; [|exists 1; split; [lia|done]].
  eexists. split; [|done]. pose proof (u16_range (u32 (r 0%nat) mod t)) as Hr. unfold is_u16 in Hr.
  pose proof (Z.mod_pos_bound (u32 (r 0%nat)) t ltac:(lia)) as Hm. assert (u16 (u32 (r 0%nat) mod t) <= u32 (r 0%nat) mod t) by (apply Z.mod_le; lia).
  destruct (Z.eqb_spec (u16 (u32 (r 0%nat) mod t)) 0); lia.
Qed.

(** A timer that is started keeps the invariant, whatever the state was. *)
Lemma group_ok_delaying k g r t :
  is_u8 (group_use g) -> (group_address g = allsystems <-> k = 0%nat) ->
  group_ok k (with_state IGMP_GROUP_DELAYING_MEMBER (fst (igmp_start_timer r t g))).
Proof.
  intros Hu Ha. destruct (start_timer_pos r t g) as (x & [Hp _] & ->). split; [exact Hu|]. destruct k.
  - split_and!; [by apply Ha|by left|]. transitivity 1; [lia|exact Hp].
  - split; [|left; split; [done|exact Hp]]. intros E. by apply Ha in E.
Qed.

Lemma group_ok_head k g : group_ok k g -> (group_address g = allsystems <-> k = 0%nat).
Proof. intros [_ Hg]. destruct k; [by destruct Hg|]. destruct Hg as [Hg _]. split; [done|lia]. Qed.

Lemma delaying_ok r t g : keeps_group g (fst (igmp_delaying_member r t g)).
Proof.
  unfold igmp_delaying_member. destruct (_ || _); [|by split]. split.
  - destruct (start_timer_pos r t g) as (x & _ & E). destruct (igmp_start_timer r t g) as [g' r']. cbn in *. by rewrite E.
  - intros k Hg. pose proof (group_ok_delaying k g r t (proj1 Hg) (group_ok_head k g Hg)) as Hd.
    by destruct (igmp_start_timer r t g) as [g' r'].
Qed.

Lemma delay_members_ok t l : forall r, Forall2 keeps_group l (fst (delay_members r t l)).
Proof.
  induction l as [|g l IH]; intros r; cbn [delay_members]; [constructor|]. pose proof (delaying_ok r t g) as Hg.
  destruct (igmp_delaying_member r t g) as [g' r']. specialize (IH r'). destruct (delay_members r' t l) as [l' r'']. by constructor.
Qed.

Lemma lookfor_spec l addr :
  match igmp_lookfor_group l addr with
  | Some k => exists g, l !! k = Some g /\ group_address g = addr
  | None => addr ∉ group_address <$> l
  end.
Proof.
  induction l as [|g l IH]; cbn [igmp_lookfor_group]; [apply not_elem_of_nil|].
  destruct (Z.eqb_spec (group_address g) addr) as [E|E]; [by exists g|].
  destruct (igmp_lookfor_group l addr) as [k|]; cbn; [exact IH|]. apply not_elem_of_cons. by split.
Qed.

(** ** The invariant *)

(** The groups of all interfaces together. *)
Definition group_count (m : gmap Z (list igmp_group)) : nat := sum_list_with (length ∘ snd) (map_to_list m).

Lemma sum_list_with_perm {X} (f : X -> nat) l l' : l ≡ₚ l' -> sum_list_with f l = sum_list_with f l'.
Proof. induction 1; cbn; lia. Qed.

Lemma group_count_insert m nif l :
  (group_count (<[nif := l]> m) + length (default [] (m !! nif)) = group_count m + length l)%nat.
Proof.
  unfold group_count. assert (Hd : delete nif m !! nif = None) by apply lookup_delete_eq.
  rewrite <- insert_delete_eq, (sum_list_with_perm _ _ _ (map_to_list_insert _ _ l Hd)). cbn.
  destruct (m !! nif) as [l0|] eqn:E; cbn [default].
  - rewrite <- (sum_list_with_perm _ _ _ (map_to_list_delete m nif l0 E)). cbn. lia.
  - rewrite (delete_id m nif E). cbn. lia.
Qed.

Section Invariant.
Context {A W : Type} `{AllocOps A} `{FragPool A}.
Variable stale_flags : Z -> Z.
Variable custom_free : Z -> Z -> Pbuf.state A -> res (Pbuf.state A).
Variable callback_ok : bool.
Variable netif_output : net A W -> Z -> Z -> Z -> res (err_t * net A W).
Variable igmp_mac_filter : net A W -> Z -> Z -> bool -> res (net A W).
Hypothesis output_frame : forall n nif p dest, holds (netif_output n nif p dest) (fun r => igmp (snd r) = igmp n).
Hypothesis filter_frame : forall n nif a add, holds (igmp_mac_filter n nif a add) (fun n' => igmp n' = igmp n).
Implicit Types n : net A W.

(** [tot] groups in all, on the interfaces and in the pool. *)
Definition igmp_ok (tot : nat) n : Prop :=
  (forall nif, list_ok (groups n nif)) /\ (igmp_pool (igmp n) + group_count (igmp_data (igmp n)) = tot)%nat.

Lemma igmp_ok_same tot n n' : igmp_ok tot n -> igmp n' = igmp n -> igmp_ok tot n'.
Proof. unfold igmp_ok, groups. by intros Hok ->. Qed.

Lemma groups_set n nif l pool nif' : groups (set_groups n nif l pool) nif' = if decide (nif' = nif) then l else groups n nif'.
Proof.
  unfold groups, set_groups. cbn. destruct (decide (nif' = nif)) as [->|Hn];
    [by rewrite lookup_insert_eq|by rewrite lookup_insert_ne].
Qed.

(** Replacing the list of an interface, with the pool adjusted. *)
Lemma igmp_ok_set tot n nif l pool :
  igmp_ok tot n -> list_ok l -> (pool + length l = igmp_pool (igmp n) + length (groups n nif))%nat ->
  igmp_ok tot (set_groups n nif l pool).
Proof.
  intros [Hg Hp] Hl He. split; [intros nif'; rewrite groups_set; by destruct (decide (nif' = nif))|].
  pose proof (group_count_insert (igmp_data (igmp n)) nif l) as Hc. fold (groups n nif) in Hc.
  unfold set_groups. cbn [with_igmp igmp igmp_pool igmp_data]. lia.
Qed.

Lemma igmp_ok_group tot n nif k g g' :
  igmp_ok tot n -> groups n nif !! k = Some g -> group_address g' = group_address g -> group_ok k g' ->
  igmp_ok tot (set_group n nif k g').
Proof.
  intros Hok Hk Ea Hg. apply igmp_ok_set; [done| |by rewrite length_insert].
  eapply list_ok_insert; [apply Hok|done..].
Qed.

Lemma group_at_holds n nif k : holds (group_at n nif k) (fun g => groups n nif !! k = Some g).
Proof. unfold group_at. by destruct (groups n nif !! k). Qed.

(** Looking up or creating a group: everything but a new group, which is still unused and no
    member, is as before. *)
Lemma lookup_group_spec tot n nif addr :
  igmp_ok tot n ->
  holds (igmp_lookup_group n nif addr) (fun r =>
    match fst r with
    | None => snd r = n
    | Some k => exists g, groups (snd r) nif !! k = Some g /\ group_address g = addr
        /\ (addr = allsystems <-> k = 0%nat) /\ is_u8 (group_use g) /\ 0 <= group_timer g
        /\ (igmp_ok tot (snd r) /\ group_ok k g
            \/ group_state g = IGMP_GROUP_NON_MEMBER /\ group_use g = 0
               /\ forall g', group_address g' = addr -> group_ok k g' -> igmp_ok tot (set_group (snd r) nif k g'))
    end).
Proof.
  intros Hok. pose proof (lookfor_spec (groups n nif) addr) as Hlook. unfold igmp_lookup_group.
  destruct (igmp_lookfor_group (groups n nif) addr) as [k|].
  { destruct Hlook as (g & Hg & Ea). cbn [holds fst snd]. exists g. pose proof (proj2 (proj1 Hok nif) k g Hg) as Hgk.
    split; [done|]. split; [done|]. split; [rewrite <- Ea; apply (group_ok_head k g Hgk)|]. split; [apply Hgk|]. split; [by eapply group_ok_timer|by left]. }
  destruct (igmp_pool (igmp n)) as [|pool] eqn:Ep; [done|].
  set (g := mk_group addr 0 IGMP_GROUP_NON_MEMBER 0 0).
  assert (Hnew : forall k l, groups (set_groups n nif l pool) nif !! k = Some g ->
    length l = S (length (groups n nif)) -> (addr = allsystems <-> k = 0%nat) ->
    (forall g', group_address g' = addr -> group_ok k g' -> list_ok (<[k := g']> l)) ->
    exists g, groups (set_groups n nif l pool) nif !! k = Some g /\ group_address g = addr
        /\ (addr = allsystems <-> k = 0%nat) /\ is_u8 (group_use g) /\ 0 <= group_timer g
        /\ (igmp_ok tot (set_groups n nif l pool) /\ group_ok k g
            \/ group_state g = IGMP_GROUP_NON_MEMBER /\ group_use g = 0
               /\ forall g', group_address g' = addr -> group_ok k g' ->
                  igmp_ok tot (set_group (set_groups n nif l pool) nif k g'))).
  { intros k l Hk Hlen Hz Hl. exists g. do 5 (split; [done|]). right. split; [done|]. split; [done|].
    intros g' Ea Hg'. unfold set_group. rewrite groups_set, decide_True by done.
    change (set_groups (set_groups n nif l pool) nif ?l2 ?p2) with
      (with_igmp (mk_igmp_globals (<[nif := l2]> (<[nif := l]> (igmp_data (igmp n)))) p2 (igmp_rands (igmp n))) n).
    rewrite insert_insert_eq. change (igmp_pool (igmp (set_groups n nif l pool))) with pool.
    change (with_igmp (mk_igmp_globals (<[nif := ?l2]> (igmp_data (igmp n))) pool (igmp_rands (igmp n))) n) with (set_groups n nif l2 pool).
    apply igmp_ok_set; [done|by apply Hl|]. rewrite length_insert, Ep. lia. }
  destruct (groups n nif) as [|first l] eqn:El.
  - apply holds_call with (P := fun _ => addr = allsystems).
    { unfold lwip_assert. destruct (Z.eqb_spec addr allsystems); [done|exact I]. }
    intros _ Ea. cbn [holds fst snd]. apply Hnew; [by rewrite groups_set, decide_True|done|done|].
    intros g' Eg Hg'. split; [cbn; apply NoDup_singleton|]. intros [|k] h Hh; [by injection Hh as <-|done].
  - apply holds_call with (P := fun _ => addr <> allsystems).
    { unfold lwip_assert. destruct (Z.eqb_spec addr allsystems); [exact I|done]. }
    intros _ Ea. cbn [holds fst snd]. apply Hnew; [by rewrite groups_set, decide_True|done|split; [done|lia]|].
    intros g' Eg Hg'. cbn. apply list_ok_second; [rewrite <- El; apply Hok|by rewrite Eg|done].
Qed.

(** The same group but for the flag of the last reporter. *)
Definition same_group (g g' : igmp_group) : Prop := exists f, g' = with_reporter f g.

Lemma same_group_ok k g g' : same_group g g' -> group_ok k g -> group_ok k g'.
Proof. intros [f ->]. by destruct k. Qed.

Lemma send_keeps n nif g type :
  holds (igmp_send stale_flags custom_free callback_ok netif_output n nif g type)
    (fun r => same_group g (fst r) /\ igmp (snd r) = igmp n).
Proof.
  assert (Hself : same_group g g) by (exists (last_reporter_flag g); by destruct g).
  assert (Hout : forall n p src dest, holds (igmp_ip_output_if stale_flags custom_free callback_ok netif_output n p src dest nif)
            (fun r => igmp (snd r) = igmp n)).
  { intros. unfold igmp_ip_output_if. eapply holds_weaken; [by apply (output_if_opt_keeps _ _ _ _ igmp)|]. by intros r E. }
  unfold igmp_send. eapply holds_call; [by apply (alloc_keeps _ _ _ igmp)|]. intros [p n1] E1. cbn [snd] in E1.
  destruct (p =? NULL); [done|]. apply holds_skip. intros b. apply holds_skip. intros _. apply holds_skip. intros nf.
  apply (holds_call _ _ (fun r => same_group g (fst r) /\ igmp (snd r) = igmp n)).
  { cbv zeta. destruct (type =? _); [|destruct (type =? _)]; [| |by cbn].
    - eapply holds_call; [apply Hout|]. intros [e n2] E2. cbn in *. split; [by eexists|congruence].
    - eapply holds_call; [apply Hout|]. intros [e n2] E2. cbn in *. split; [done|congruence]. }
  intros [g2 n2] [Hg E2]. cbn [fst snd] in *. eapply holds_call; [by apply (free_keeps _ igmp)|].
  intros n3 E3. cbn. split; [done|congruence].
Qed.

Lemma igmp_start_ok tot n nif :
  igmp_ok tot n -> holds (igmp_start igmp_mac_filter n nif) (fun r => igmp_ok tot (snd r)).
Proof.
  intros Hok. unfold igmp_start. eapply holds_call; [by apply lookup_group_spec|]. intros [[k|] n1] Hl; cbn [fst snd] in Hl; [|by subst n1].
  destruct Hl as (g & Hg & Ea & Hz & Hu & Ht & Hcase). eapply holds_call; [apply group_at_holds|]. intros g2 Hg2. cbv zeta.
  rewrite Hg in Hg2. injection Hg2 as <-. set (g' := with_use _ _).
  assert (Hg' : group_ok k g').
  { rewrite (proj1 Hz eq_refl). split; [apply u8_range|]. split_and!; [done|by right|done]. }
  eapply holds_call; [apply filter_frame|]. intros n2 E2. cbn [holds snd]. eapply igmp_ok_same; [|exact E2].
  destruct Hcase as [[Hok1 _]|(_ & _ & Hnew)]; [by eapply igmp_ok_group|by apply Hnew].
Qed.

Lemma groups_pool_same n pool : groups (with_igmp (mk_igmp_globals (igmp_data (igmp n)) pool (igmp_rands (igmp n))) n) = groups n.
Proof. done. Qed.

Lemma stop_groups_ok tot nif l : forall n,
  (forall nif, list_ok (groups n nif)) -> (igmp_pool (igmp n) + group_count (igmp_data (igmp n)) + length l = tot)%nat ->
  holds (stop_groups igmp_mac_filter n nif l) (igmp_ok tot).
Proof.
  induction l as [|g l IH]; intros n Hl Hp; cbn [stop_groups length] in *; [split; [done|lia]|].
  eapply holds_call; [apply filter_frame|]. intros n1 E1. apply IH; [intros x; unfold groups; cbn; rewrite E1; apply Hl|].
  cbn. rewrite E1. lia.
Qed.

Lemma igmp_stop_ok tot n nif : igmp_ok tot n -> holds (igmp_stop igmp_mac_filter n nif) (fun r => igmp_ok tot (snd r)).
Proof.
  intros Hok. unfold igmp_stop. eapply holds_call; [|by intros n1 H1; exact H1]. apply stop_groups_ok.
  - intros x. rewrite groups_set. destruct (decide (x = nif)); [apply list_ok_nil|apply Hok].
  - pose proof (group_count_insert (igmp_data (igmp n)) nif []) as Hc. fold (groups n nif) in Hc.
    destruct Hok as [_ Hp]. unfold set_groups. cbn [with_igmp igmp igmp_pool igmp_data length] in *. lia.
Qed.

Lemma igmp_ok_rands tot n r : igmp_ok tot n -> igmp_ok tot (set_rands n r).
Proof. by intros [Hg Hp]. Qed.

Lemma delay_all_ok tot n nif t : igmp_ok tot n -> igmp_ok tot (delay_all n nif t).
Proof.
  intros Hok. unfold delay_all. destruct (groups n nif) as [|g l] eqn:El; [done|].
  pose proof (delay_members_ok t l (igmp_rands (igmp n))) as Hd. destruct (delay_members _ t l) as [l' r]. cbn [fst] in Hd.
  apply igmp_ok_rands, igmp_ok_set; [done| |].
  - apply (list_ok_tail g l); [rewrite <- El; apply Hok|done].
  - rewrite El. cbn [length]. by rewrite (Forall2_length _ _ _ Hd).
Qed.

Lemma query_ok tot n inp dest a k : igmp_ok tot n -> holds (query n inp dest a k) (igmp_ok tot).
Proof.
  intros Hok. unfold query. destruct (_ && _).
  - cbv zeta. cbn [holds]. by destruct (_ =? 0); apply delay_all_ok.
  - destruct (negb _); [|done]. cbv zeta. match goal with |- holds (match ?x with _ => _ end) _ => destruct x as [j|]; [|done] end.
    eapply holds_call; [apply group_at_holds|]. intros g Hg.
    pose proof (delaying_ok (igmp_rands (igmp n)) (rd8 (mem n) (a + 1)) g) as [Ea Hk].
    destruct (igmp_delaying_member (igmp_rands (igmp n)) (rd8 (mem n) (a + 1)) g) as [g' r]. cbn [holds fst] in *.
    apply igmp_ok_rands, (igmp_ok_group tot (inc P_igmp c_rx_group n) _ _ g); [done|done|done|]. by apply Hk, (proj2 (proj1 Hok inp)).
Qed.

Lemma igmp_input_ok tot n p inp dest :
  igmp_ok tot n -> holds (igmp_input custom_free n p inp dest) (igmp_ok tot).
Proof.
  intros Hok. unfold igmp_input.
  assert (Hfree : forall n c, igmp_ok tot n -> holds (let* n2 := free custom_free n p in Ok (inc P_igmp c n2)) (igmp_ok tot)).
  { intros n1 c H1. eapply holds_call; [by apply (free_keeps _ igmp)|]. intros n2 E2. by apply (igmp_ok_same tot n1). }
  apply holds_skip. intros b. destruct (_ <? _); [by apply Hfree|]. cbv zeta. destruct (negb _); [by apply Hfree|].
  destruct (igmp_lookfor_group _ dest) as [k|]; [|by apply Hfree].
  apply (holds_call _ _ (igmp_ok tot)).
  - destruct (_ =? _); [by apply query_ok|]. destruct (_ =? _); [|done].
    eapply holds_call; [apply group_at_holds|]. intros g Hg. cbn [holds]. destruct (group_state g =? _); [|done].
    pose proof (proj2 (proj1 Hok inp) k g Hg) as [Hu Hgk]. eapply igmp_ok_group; [exact Hok|exact Hg|done|].
    split; [done|]. destruct k; [split_and!; [apply Hgk|by right|done]|]. split; [apply Hgk|by right].
  - intros n1 H1. eapply holds_weaken; [by apply (free_keeps _ igmp)|]. intros n2 E2. by apply (igmp_ok_same tot n1).
Qed.

Lemma set_group_twice n nif k g g' : igmp (set_group (set_group n nif k g) nif k g') = igmp (set_group n nif k g').
Proof.
  unfold set_group. rewrite groups_set, decide_True by done. unfold set_groups. cbn [with_igmp igmp igmp_data igmp_pool].
  by rewrite insert_insert_eq, list_insert_insert_eq.
Qed.

Lemma igmp_set_group n n' nif k g : igmp n' = igmp n -> igmp (set_group n' nif k g) = igmp (set_group n nif k g).
Proof. intros E. unfold set_group, set_groups, groups. cbn. by rewrite E. Qed.

Lemma groups_set_group n nif k g g0 : groups n nif !! k = Some g0 -> groups (set_group n nif k g) nif !! k = Some g.
Proof.
  intros Hk. unfold set_group. rewrite groups_set, decide_True by done. apply list_lookup_insert_eq. by eapply lookup_lt_Some.
Qed.

Lemma groups_same n n' : igmp n' = igmp n -> groups n' = groups n.
Proof. unfold groups. by intros ->. Qed.

Lemma use_ok k g u : is_u8 u -> group_ok k g -> group_ok k (with_use u g).
Proof. intros Hu [_ Hg]. split; [exact Hu|]. destruct k; exact Hg. Qed.

Lemma count_use_ok tot n nif k :
  igmp_ok tot n -> holds (let* g := group_at n nif k in Ok (ERR_OK, set_group n nif k (with_use (u8 (group_use g + 1)) g)))
    (fun r => igmp_ok tot (snd r)).
Proof.
  intros Hok. eapply holds_call; [apply group_at_holds|]. intros g Hg. cbn [holds snd].
  eapply igmp_ok_group; [exact Hok|exact Hg|done|]. apply use_ok; [apply u8_range|]. by apply (proj2 (proj1 Hok nif)).
Qed.

Lemma join_netif_ok tot n nif addr :
  igmp_ok tot n ->
  holds (igmp_joingroup_netif stale_flags custom_free callback_ok netif_output igmp_mac_filter n nif addr) (fun r => igmp_ok tot (snd r)).
Proof.
  intros Hok. unfold igmp_joingroup_netif. destruct (negb _); [done|]. destruct (Z.eqb_spec addr allsystems); [done|].
  apply holds_skip. intros nf. destruct (negb _); [done|].
  eapply holds_call; [by apply lookup_group_spec|]. intros [[k|] n1] Hl; cbn [fst snd] in Hl; [|by subst n1].
  destruct Hl as (g & Hg & Ea & Hz & Hu & Ht & Hcase). eapply holds_call; [apply group_at_holds|]. intros g2 Hg2.
  rewrite Hg in Hg2. injection Hg2 as <-.
  apply (holds_call _ _ (igmp_ok tot)); [|intros n2 H2; by apply count_use_ok].
  destruct (Z.eqb_spec (group_state g) IGMP_GROUP_NON_MEMBER) as [Es|Es]; cbn [negb].
  2:{ destruct Hcase as [[H1 _]|(E & _)]; [exact H1|done]. }
  destruct Hcase as [[_ Hgk]|(_ & _ & Hnew)].
  { destruct (group_ok_state k g Hgk) as [E|E]; by rewrite E in Es. }
  apply (holds_call _ _ (fun n2 => igmp n2 = igmp n1)); [destruct (_ =? 0); [apply filter_frame|done]|]. intros n2 E2.
  eapply holds_call; [apply send_keeps|]. intros [g2 n3] [[f Ef] E3]. cbn [holds fst snd] in *. subst g2.
  pose proof (group_ok_delaying k (with_reporter f g) (igmp_rands (igmp n3)) IGMP_JOIN_DELAYING_MEMBER_TMR Hu ltac:(cbn; by rewrite Ea)) as Hd.
  destruct (start_timer_pos (igmp_rands (igmp n3)) IGMP_JOIN_DELAYING_MEMBER_TMR (with_reporter f g)) as (x & _ & Ex).
  destruct (igmp_start_timer _ _ _) as [g3 r]. cbn [holds fst] in *. subst g3.
  apply igmp_ok_rands. eapply igmp_ok_same; [by apply (Hnew (with_state IGMP_GROUP_DELAYING_MEMBER (with_group_timer x (with_reporter f g))))|].
  apply igmp_set_group. rewrite E3. exact E2.
Qed.

Lemma leave_netif_ok tot n nif addr :
  igmp_ok tot n ->
  holds (igmp_leavegroup_netif stale_flags custom_free callback_ok netif_output igmp_mac_filter n nif addr) (fun r => igmp_ok tot (snd r)).
Proof.
  intros Hok. unfold igmp_leavegroup_netif. destruct (negb _); [done|]. destruct (Z.eqb_spec addr allsystems) as [|Hne]; [done|].
  apply holds_skip. intros nf. destruct (negb _); [done|]. pose proof (lookfor_spec (groups n nif) addr) as Hlook.
  destruct (igmp_lookfor_group (groups n nif) addr) as [k|]; [|done]. destruct Hlook as (g & Hg & Ea).
  pose proof (proj2 (proj1 Hok nif) k g Hg) as Hgk.
  eapply holds_call; [apply group_at_holds|]. intros g2 Hg2. rewrite Hg in Hg2. injection Hg2 as <-.
  destruct (group_use g <=? 1).
  2:{ cbn [holds snd]. eapply igmp_ok_group; [exact Hok|exact Hg|done|]. apply use_ok; [apply u8_range|done]. }
  destruct k as [|k]; [destruct Hgk as [_ [Hgk _]]; congruence|]. cbn [igmp_remove_group].
  set (n1 := set_groups n nif _ _).
  apply (holds_call _ _ (fun n2 => igmp n2 = igmp n1)).
  { destruct (negb _); [|done]. eapply holds_call; [apply send_keeps|]. intros [g3 n3] [_ E3]. exact E3. }
  intros n2 E2. eapply holds_call; [apply filter_frame|]. intros n3 E3. cbn [holds snd].
  apply (igmp_ok_same tot (set_groups n nif (delete (S k) (groups n nif)) (S (igmp_pool (igmp n))))).
  - apply igmp_ok_set; [done|apply list_ok_delete, Hok|]. rewrite length_delete by (by eexists).
    apply lookup_lt_Some in Hg. lia.
  - cbn. by rewrite E3, E2.
Qed.

Lemma timeout_ok tot n nif k g :
  igmp_ok tot n -> groups n nif !! k = Some g -> group_timer g = 1 ->
  holds (igmp_timeout stale_flags custom_free callback_ok netif_output (set_group n nif k (with_group_timer 0 g)) nif k) (igmp_ok tot).
Proof.
  intros Hok Hg Ht. set (g0 := with_group_timer 0 g). pose proof (proj2 (proj1 Hok nif) k g Hg) as [Hu Hgk]. unfold igmp_timeout.
  eapply holds_call; [apply group_at_holds|]. intros g2 Hg2. rewrite (groups_set_group _ _ _ _ _ Hg) in Hg2. injection Hg2 as <-.
  cbn [g0 with_group_timer group_state group_address]. destruct k as [|k].
  - rewrite (proj2 (Z.eqb_eq _ _) (proj1 Hgk)), andb_false_r. cbn [holds]. eapply igmp_ok_group; [exact Hok|exact Hg|done|].
    split; [done|]. split_and!; [apply Hgk|apply Hgk|done].
  - destruct Hgk as [Hna Hgk]. rewrite (proj2 (Z.eqb_neq _ _) Hna). cbn [negb].
    destruct Hgk as [[Es _]|[_ E]]; [|lia]. rewrite Es. cbn [Z.eqb Pos.eqb andb IGMP_GROUP_DELAYING_MEMBER]. cbv zeta.
    eapply holds_call; [apply send_keeps|]. intros [g2 n3] [[f Ef] E3]. cbn [holds fst snd] in *. subst g2.
    set (g3 := with_reporter f _). apply (igmp_ok_same tot (set_group n nif (S k) g3)).
    + eapply igmp_ok_group; [exact Hok|exact Hg|done|]. split; [done|]. split; [done|]. by right.
    + rewrite (igmp_set_group _ _ _ _ _ E3). change (igmp (set_group (inc P_igmp c_tx_report ?x) nif (S k) g3)) with (igmp (set_group x nif (S k) g3)).
      by rewrite !set_group_twice.
Qed.

Lemma tmr_groups_ok tot nif : forall count n k,
  igmp_ok tot n -> holds (tmr_groups stale_flags custom_free callback_ok netif_output count n nif k) (igmp_ok tot).
Proof.
  induction count as [|count IH]; intros n k Hok; cbn [tmr_groups]; [done|].
  eapply holds_call; [apply group_at_holds|]. intros g Hg. apply (holds_call _ _ (igmp_ok tot)); [|intros n1 H1; by apply IH].
  destruct (Z.ltb_spec 0 (group_timer g)) as [Ht|Ht]; [|done]. cbv zeta.
  destruct (Z.eqb_spec (group_timer g - 1) 0) as [E|E].
  - rewrite E. apply timeout_ok; [done|done|lia].
  - cbn [holds]. eapply igmp_ok_group; [exact Hok|exact Hg|done|]. destruct (proj2 (proj1 Hok nif) k g Hg) as [Hu Hgk]. split; [done|].
    destruct k; cbn; [split_and!; [apply Hgk|apply Hgk|cbn; lia]|]. destruct Hgk as [Ha [[Es _]|[_ E0]]]; [|lia].
    split; [done|]. left. cbn. split; [done|lia].
Qed.

Lemma tmr_ok tot n : igmp_ok tot n -> holds (igmp_tmr stale_flags custom_free callback_ok netif_output n) (igmp_ok tot).
Proof.
  unfold igmp_tmr. generalize (netif_list n). intros l. revert n. induction l as [|nif l IH]; intros n Hok; cbn [tmr_netifs]; [done|].
  eapply holds_call; [by apply tmr_groups_ok|]. intros n1 H1. by apply IH.
Qed.

Lemma join_on_ok tot ifaddr addr l : forall n err,
  igmp_ok tot n ->
  holds (join_on stale_flags custom_free callback_ok netif_output igmp_mac_filter n l ifaddr addr err) (fun r => igmp_ok tot (snd r)).
Proof.
  induction l as [|nif l IH]; intros n err Hok; cbn [join_on]; [done|]. apply holds_skip. intros nf.
  destruct (on_interface nf ifaddr); [|by apply IH]. eapply holds_call; [by apply join_netif_ok|]. intros [e n1] H1. cbn [snd] in H1.
  case_bool_decide; [by apply IH|done].
Qed.

Lemma leave_on_ok tot ifaddr addr l : forall n err,
  igmp_ok tot n ->
  holds (leave_on stale_flags custom_free callback_ok netif_output igmp_mac_filter n l ifaddr addr err) (fun r => igmp_ok tot (snd r)).
Proof.
  induction l as [|nif l IH]; intros n err Hok; cbn [leave_on]; [done|]. apply holds_skip. intros nf.
  destruct (on_interface nf ifaddr); [|by apply IH]. eapply holds_call; [by apply leave_netif_ok|]. intros [e n1] H1. by apply IH.
Qed.

(** What happens to the groups: the calls of the API, incoming messages, the timer, and
    anything else that leaves them alone. *)
Inductive igmp_step : net A W -> net A W -> Prop :=
| istep_start n nif e n' : igmp_start igmp_mac_filter n nif = Ok (e, n') -> igmp_step n n'
| istep_stop n nif e n' : igmp_stop igmp_mac_filter n nif = Ok (e, n') -> igmp_step n n'
| istep_report n nif : igmp_step n (igmp_report_groups n nif)
| istep_input n p inp dest n' : igmp_input custom_free n p inp dest = Ok n' -> igmp_step n n'
| istep_join n ifaddr addr e n' :
    igmp_joingroup stale_flags custom_free callback_ok netif_output igmp_mac_filter n ifaddr addr = Ok (e, n') -> igmp_step n n'
| istep_join_netif n nif addr e n' :
    igmp_joingroup_netif stale_flags custom_free callback_ok netif_output igmp_mac_filter n nif addr = Ok (e, n') -> igmp_step n n'
| istep_leave n ifaddr addr e n' :
    igmp_leavegroup stale_flags custom_free callback_ok netif_output igmp_mac_filter n ifaddr addr = Ok (e, n') -> igmp_step n n'
| istep_leave_netif n nif addr e n' :
    igmp_leavegroup_netif stale_flags custom_free callback_ok netif_output igmp_mac_filter n nif addr = Ok (e, n') -> igmp_step n n'
| istep_tmr n n' : igmp_tmr stale_flags custom_free callback_ok netif_output n = Ok n' -> igmp_step n n'
| istep_other n n' : igmp_data (igmp n') = igmp_data (igmp n) -> igmp_pool (igmp n') = igmp_pool (igmp n) -> igmp_step n n'.

Lemma igmp_step_ok tot n n' : igmp_ok tot n -> igmp_step n n' -> igmp_ok tot n'.
Proof.
  intros Hok Hs. destruct Hs as [n nif e n' E|n nif e n' E|n nif|n p inp dest n' E|n ifaddr addr e n' E|n nif addr e n' E
    |n ifaddr addr e n' E|n nif addr e n' E|n n' E|n n' E1 E2].
  - exact (holds_ok _ _ _ (igmp_start_ok tot n nif Hok) E).
  - exact (holds_ok _ _ _ (igmp_stop_ok tot n nif Hok) E).
  - by apply delay_all_ok.
  - exact (holds_ok _ _ _ (igmp_input_ok tot n p inp dest Hok) E).
  - unfold igmp_joingroup in E. destruct (negb _); [by injection E as _ <-|]. destruct (_ =? _); [by injection E as _ <-|].
    exact (holds_ok _ _ _ (join_on_ok tot ifaddr addr _ n ERR_VAL Hok) E).
  - exact (holds_ok _ _ _ (join_netif_ok tot n nif addr Hok) E).
  - unfold igmp_leavegroup in E. destruct (negb _); [by injection E as _ <-|]. destruct (_ =? _); [by injection E as _ <-|].
    exact (holds_ok _ _ _ (leave_on_ok tot ifaddr addr _ n ERR_VAL Hok) E).
  - exact (holds_ok _ _ _ (leave_netif_ok tot n nif addr Hok) E).
  - exact (holds_ok _ _ _ (tmr_ok tot n Hok) E).
  - unfold igmp_ok, groups in *. by rewrite E1, E2.
Qed.
End Invariant.

Section Wellformed.
Context {A W : Type} `{AllocOps A} `{FragPool A}.

(** C30: The groups are well formed at all times: on each interface the first group, if any, is
    the all-systems group and it is the only one with that address, no address occurs twice,
    the use counters fit their byte, every other group is either waiting to report with its
    timer running or idle with its timer stopped, so that no report is forgotten; and the
    groups of the interfaces and of the pool together are always the same number, so that
    none is lost or freed twice. *)
Theorem igmp_groups_wellformed (stale_flags : Z -> Z) (custom_free : Z -> Z -> Pbuf.state A -> res (Pbuf.state A))
    (callback_ok : bool) (netif_output : net A W -> Z -> Z -> Z -> res (err_t * net A W))
    (igmp_mac_filter : net A W -> Z -> Z -> bool -> res (net A W)) (n n' : net A W) :
  (forall n nif p dest, holds (netif_output n nif p dest) (fun r => igmp (snd r) = igmp n)) ->
  (forall n nif a add, holds (igmp_mac_filter n nif a add) (fun n' => igmp n' = igmp n)) ->
  igmp_data (igmp n) = ∅ ->
  rtc (igmp_step stale_flags custom_free callback_ok netif_output igmp_mac_filter) n n' ->
  igmp_ok (igmp_pool (igmp n)) n'.
Proof.
  intros Hout Hfil He Hr.
  assert (Hok : igmp_ok (igmp_pool (igmp n)) n).
  { split; [intros nif; unfold groups; rewrite He, lookup_empty; apply list_ok_nil|]. rewrite He. unfold group_count.
    rewrite map_to_list_empty. cbn. lia. }
  clear He. revert Hok. generalize (igmp_pool (igmp n)). intros tot. induction Hr as [|x y z Hs _ IH]; intros Hx; [done|].
  apply IH. by eapply igmp_step_ok.
Qed.
End Wellformed.

(** ** Examples *)

Section Examples.

(** The interface of [ex_net] with IGMP, and nothing yet on it. *)
Definition igmp_net : net (heap_pools * frag_pool) (list (list Z)) :=
  with_netifs {[1 := mk_netif 16777226 16777215 0 (netif_flags ex_netif + NETIF_FLAG_IGMP) [] 1500 [] 0 NULL NULL 0]} ex_net.

Definition no_filter {A W} (n : net A W) (nif a : Z) (add : bool) : res (net A W) := Ok n.

(** 224.1.2.3. *)
Definition ex_group : Z := 50463200.

Definition ex_join (n : net (heap_pools * frag_pool) (list (list Z))) : res (net (heap_pools * frag_pool) (list (list Z))) :=
  let* (_, n) := igmp_joingroup_netif (fun _ => 0) (frag_custom_free 3) true ex_output no_filter n 1 ex_group in Ok n.

Lemma ex_output_frame {A} (n : net A (list (list Z))) nif p dest :
  holds (ex_output n nif p dest) (fun r => igmp (snd r) = igmp n).
Proof. unfold ex_output. apply holds_skip. by intros v. Qed.

Lemma igmp_groups_wellformed_witness :
  exists n1 n2 e1 e2, igmp_start no_filter igmp_net 1 = Ok (e1, n1)
    /\ igmp_joingroup_netif (fun _ => 0) (frag_custom_free 3) true ex_output no_filter n1 1 ex_group = Ok (e2, n2)
    /\ length (groups n2 1) = 2%nat /\ igmp_ok 8 n2.
Proof.
  eexists _, _, _, _. split; [vm_compute; reflexivity|]. split; [vm_compute; reflexivity|]. split; [vm_compute; reflexivity|].
  refine (igmp_groups_wellformed (fun _ => 0) (frag_custom_free 3) true ex_output no_filter igmp_net _ ex_output_frame _ _ _).
  - intros. reflexivity.
  - vm_compute. reflexivity.
  - eapply rtc_l; [eapply (istep_start _ _ _ _ _ _ 1); vm_compute; reflexivity|].
    eapply rtc_l; [eapply (istep_join_netif _ _ _ _ _ _ 1 ex_group); vm_compute; reflexivity|]. apply rtc_refl.
Defined.

(** The use counter is a byte that is not checked: after 256 joins it is 0, and the first
    leave removes the group although 255 uses remain. *)
Theorem igmp_use_wraps :
  exists n1 n2 n3 e1 e3, igmp_start no_filter igmp_net 1 = Ok (e1, n1)
    /\ Nat.iter 256 (fun r => let* n := r in ex_join n) (Ok n1) = Ok n2
    /\ (group_use <$> groups n2 1) = [1; 0]
    /\ igmp_leavegroup_netif (fun _ => 0) (frag_custom_free 3) true ex_output no_filter n2 1 ex_group = Ok (e3, n3)
    /\ igmp_lookfor_group (groups n3 1) ex_group = None.
Proof.
  eexists _, _, _, _, _. split; [vm_compute; reflexivity|]. split; [vm_compute; reflexivity|].
  split; [vm_compute; reflexivity|]. split; [vm_compute; reflexivity|]. vm_compute. reflexivity.
Qed.
End Examples.
