(* ===== verification/Udp.v ===== *)
(** * UDP: lwip/src/core/udp.c

    The list of protocol control blocks, the assignment of ports, demultiplexing and
    sending.  LWIP_UDPLITE and LWIP_MULTICAST_TX_OPTIONS are 1; SO_REUSE,
    IP_SOF_BROADCAST, LWIP_CHECKSUM_ON_COPY and LWIP_IPV6 are 0.  An argument of type
    [option Z] is a pointer to an address. *)

From S2P Require Import Prelude Def Ip4Addr InetChksum Pbuf Net Ip4 Icmp.

(** ** Definitions *)

Definition UDP_HLEN : Z := 8.
Definition UDP_TTL : Z := 255.
Definition UDP_LOCAL_PORT_RANGE_START : Z := 49152.
Definition UDP_LOCAL_PORT_RANGE_END : Z := 65535.
Definition UDP_FLAGS_NOCHKSUM : Z := 1.
Definition UDP_FLAGS_UDPLITE : Z := 2.
Definition UDP_FLAGS_CONNECTED : Z := 4.
Definition UDP_FLAGS_MULTICAST_LOOP : Z := 8.

Definition with_local (ip port : Z) (u : udp_pcb) : udp_pcb :=
  mk_udp ip (u_remote_ip u) (u_so_options u) (u_tos u) (u_ttl u) (u_flags u) port (u_remote_port u)
    (u_multicast_ip u) (u_mcast_ttl u) (u_chksum_len_rx u) (u_chksum_len_tx u) (u_recv u) (u_recv_arg u).
Definition with_remote (ip port flags : Z) (u : udp_pcb) : udp_pcb :=
  mk_udp (u_local_ip u) ip (u_so_options u) (u_tos u) (u_ttl u) flags (u_local_port u) port
    (u_multicast_ip u) (u_mcast_ttl u) (u_chksum_len_rx u) (u_chksum_len_tx u) (u_recv u) (u_recv_arg u).
Definition with_recv (recv recv_arg : Z) (u : udp_pcb) : udp_pcb :=
  mk_udp (u_local_ip u) (u_remote_ip u) (u_so_options u) (u_tos u) (u_ttl u) (u_flags u) (u_local_port u)
    (u_remote_port u) (u_multicast_ip u) (u_mcast_ttl u) (u_chksum_len_rx u) (u_chksum_len_tx u) recv recv_arg.

(** *** The list of pcbs *)

Definition set_pcb (g : udp_globals) (pcb : Z) (u : udp_pcb) : udp_globals :=
  mk_udp_globals (<[pcb := u]> (udp_heap g)) (udp_pcbs g) (udp_port g) (udp_pool g).
Definition with_pcbs (l : list Z) (g : udp_globals) : udp_globals :=
  mk_udp_globals (udp_heap g) l (udp_port g) (udp_pool g).
Definition with_port (p : Z) (g : udp_globals) : udp_globals :=
  mk_udp_globals (udp_heap g) (udp_pcbs g) p (udp_pool g).

(** A loop over the list that stops at the first pcb with the given property. *)
Fixpoint any_pcb (h : gmap Z udp_pcb) (l : list Z) (f : Z -> udp_pcb -> bool) : res bool :=
  match l with
  | [] => Ok false
  | pcb :: l' => let* u := deref h pcb in if f pcb u then Ok true else any_pcb h l' f
  end.

(** [udp_port++], back to the start of the range behind its end. *)
Definition next_port (p : Z) : Z :=
  if p =? UDP_LOCAL_PORT_RANGE_END then UDP_LOCAL_PORT_RANGE_START else u16 (p + 1).

(** From the label [again] on; [n] counts the ports found in use. *)
Fixpoint new_port_loop (fuel : nat) (g : udp_globals) (n : Z) : res (Z * udp_globals) :=
  match fuel with
  | O => Fault FFuel
  | S fuel' =>
      let g := with_port (next_port (udp_port g)) g in
      let* used := any_pcb (udp_heap g) (udp_pcbs g) (fun _ u => u_local_port u =? udp_port g) in
      if (used : bool) then
        let n := u16 (n + 1) in
        if UDP_LOCAL_PORT_RANGE_END - UDP_LOCAL_PORT_RANGE_START <? n then Ok (0, g)
        else new_port_loop fuel' g n
      else Ok (udp_port g, g)
  end.

(** The loop is left after as many ports as the range has. *)
Definition udp_new_port (g : udp_globals) : res (Z * udp_globals) :=
  new_port_loop (Z.to_nat (UDP_LOCAL_PORT_RANGE_END - UDP_LOCAL_PORT_RANGE_START + 1)) g 0.

Definition udp_bind (g : udp_globals) (pcb : Z) (ipaddr : option Z) (port : Z) : res (err_t * udp_globals) :=
  let ipaddr := default IPADDR_ANY ipaddr in
  if pcb =? NULL then Ok (ERR_VAL, g)
  else
    let rebind := existsb (Z.eqb pcb) (udp_pcbs g) in
    let* (err, port, g) :=
      if port =? 0 then
        let* (port, g) := udp_new_port g in
        Ok (if port =? 0 then ERR_USE else ERR_OK, port, g)
      else
        let* used := any_pcb (udp_heap g) (udp_pcbs g)
                       (fun ipcb u => negb (pcb =? ipcb) && (u_local_port u =? port) && (u_local_ip u =? ipaddr)) in
        Ok (if (used : bool) then ERR_USE else ERR_OK, port, g) in
    if bool_decide (err = ERR_OK) then
      let* u := deref (udp_heap g) pcb in
      let g := set_pcb g pcb (with_local ipaddr port u) in
      Ok (ERR_OK, if rebind then g else with_pcbs (pcb :: udp_pcbs g) g)
    else Ok (err, g).

Definition udp_connect (g : udp_globals) (pcb : Z) (ipaddr : option Z) (port : Z) : res (err_t * udp_globals) :=
  match ipaddr with
  | None => Ok (ERR_VAL, g)
  | Some ipaddr =>
      if pcb =? NULL then Ok (ERR_VAL, g)
      else
        let* u := deref (udp_heap g) pcb in
        let* (err, g) := if u_local_port u =? 0 then udp_bind g pcb (Some (u_local_ip u)) (u_local_port u)
                         else Ok (ERR_OK, g) in
        if bool_decide (err = ERR_OK) then
          let* u := deref (udp_heap g) pcb in
          let g := set_pcb g pcb (with_remote ipaddr port (Z.lor (u_flags u) UDP_FLAGS_CONNECTED) u) in
          Ok (ERR_OK, if existsb (Z.eqb pcb) (udp_pcbs g) then g else with_pcbs (pcb :: udp_pcbs g) g)
        else Ok (err, g)
  end.

Definition udp_disconnect (g : udp_globals) (pcb : Z) : res udp_globals :=
  let* u := deref (udp_heap g) pcb in
  Ok (set_pcb g pcb (with_remote IPADDR_ANY 0 (Z.land (u_flags u) (Z.lnot UDP_FLAGS_CONNECTED)) u)).

Definition udp_recv (g : udp_globals) (pcb recv recv_arg : Z) : res udp_globals :=
  let* u := deref (udp_heap g) pcb in Ok (set_pcb g pcb (with_recv recv recv_arg u)).

(** Unlink [pcb]; nothing happens if it is not on the list. *)
Fixpoint unlink (l : list Z) (pcb : Z) : list Z :=
  match l with
  | [] => []
  | q :: l' => if q =? pcb then l' else q :: unlink l' pcb
  end.

(** With an empty list, [udp_pcbs == NULL] makes the code read through NULL. *)
Definition udp_remove (g : udp_globals) (pcb : Z) : res udp_globals :=
  if pcb =? NULL then (if bool_decide (udp_pcbs g = []) then Fault FBadAccess else Ok g)
  else Ok (mk_udp_globals (delete pcb (udp_heap g)) (unlink (udp_pcbs g) pcb) (udp_port g) (pcb :: udp_pool g)).

(** NULL without memory. *)
Definition udp_new (g : udp_globals) : Z * udp_globals :=
  match udp_pool g with
  | [] => (NULL, g)
  | pcb :: pool =>
      (pcb, mk_udp_globals (<[pcb := mk_udp 0 0 0 0 UDP_TTL 0 0 0 0 UDP_TTL 0 0 NULL NULL]> (udp_heap g))
              (udp_pcbs g) (udp_port g) pool)
  end.

Definition udp_new_ip_type (g : udp_globals) (type : Z) : Z * udp_globals := udp_new g.

(** The loop of [udp_netif_ip_addr_changed]. *)
Fixpoint change_addrs (h : gmap Z udp_pcb) (l : list Z) (old_addr new_addr : Z) : res (gmap Z udp_pcb) :=
  match l with
  | [] => Ok h
  | pcb :: l' =>
      let* u := deref h pcb in
      change_addrs (if u_local_ip u =? old_addr then <[pcb := with_local new_addr (u_local_port u) u]> h else h)
        l' old_addr new_addr
  end.

Definition udp_netif_ip_addr_changed (g : udp_globals) (old_addr new_addr : option Z) : res udp_globals :=
  match old_addr, new_addr with
  | Some old_addr, Some new_addr =>
      if negb (ip4_addr_isany_val old_addr) && negb (ip4_addr_isany_val new_addr) then
        let* h := change_addrs (udp_heap g) (udp_pcbs g) old_addr new_addr in
        Ok (mk_udp_globals h (udp_pcbs g) (udp_port g) (udp_pool g))
      else Ok g
  | _, _ => Ok g
  end.

(** *** Input *)

Definition udp_input_local_match (u : udp_pcb) (inp : netif) (dest_ip : Z) (broadcast : bool) : bool :=
  if broadcast then
    ip4_addr_isany_val (u_local_ip u) || (dest_ip =? IPADDR_BROADCAST)
    || ip4_addr_netcmp (u_local_ip u) dest_ip (netif_ip4_netmask inp)
  else ip4_addr_isany_val (u_local_ip u) || (u_local_ip u =? dest_ip).

(** The [for] loop: the position of the first pcb that matches fully, and the first
    unconnected one before it that matches the local side. *)
Fixpoint find_pcb (h : gmap Z udp_pcb) (l : list Z) (k : nat) (inp : netif) (src_ip src dest_ip dest : Z)
    (broadcast : bool) (uncon_pcb : Z) : res (option (nat * Z) * Z) :=
  match l with
  | [] => Ok (None, uncon_pcb)
  | pcb :: l' =>
      let* u := deref h pcb in
      if (u_local_port u =? dest) && udp_input_local_match u inp dest_ip broadcast then
        let uncon_pcb :=
          if (Z.land (u_flags u) UDP_FLAGS_CONNECTED =? 0) && (uncon_pcb =? NULL) then pcb else uncon_pcb in
        if (u_remote_port u =? src) && (ip4_addr_isany_val (u_remote_ip u) || (u_remote_ip u =? src_ip))
        then Ok (Some (k, pcb), uncon_pcb)
        else find_pcb h l' (S k) inp src_ip src dest_ip dest broadcast uncon_pcb
      else find_pcb h l' (S k) inp src_ip src dest_ip dest broadcast uncon_pcb
  end.

Section Udp.
Context {A W : Type} `{AllocOps A} `{FragPool A}.
Variable stale_flags : Z -> Z.
Variable custom_free : Z -> Z -> Pbuf.state A -> res (Pbuf.state A).
Variable callback_ok : bool.
Variable netif_output : net A W -> Z -> Z -> Z -> res (err_t * net A W).

(** The receive function at the given address, with [recv_arg], the pcb, the packet,
    and the source address and port. *)
Variable recv_fn : Z -> net A W -> Z -> Z -> Z -> Z -> Z -> res (net A W).
Implicit Types n : net A W.

(** The pcb for a datagram, NULL for none; a full match is moved to the front. *)
Definition demux n (inp : netif) (src_ip src dest_ip dest : Z) (broadcast : bool) : res (Z * net A W) :=
  let g := udp n in
  let* (m, uncon_pcb) := find_pcb (udp_heap g) (udp_pcbs g) 0 inp src_ip src dest_ip dest broadcast NULL in
  match m with
  | Some (O, pcb) => Ok (pcb, inc P_udp c_cachehit n)
  | Some (S k, pcb) => Ok (pcb, with_udp (with_pcbs (pcb :: delete (S k) (udp_pcbs g)) g) n)
  | None => Ok (uncon_pcb, n)
  end.

(** Is the checksum of the datagram at [udphdr] right? *)
Definition chksum_good n (p udphdr : Z) : res bool :=
  let src := current_iphdr_src (ip_data n) in
  let dest := current_iphdr_dest (ip_data n) in
  let* b := pbuf_at n p in
  let* v := view n p in
  if IPH_PROTO (mem n) (current_ip4_header (ip_data n)) =? IP_PROTO_UDPLITE then
    let chklen := lwip_ntohs (rd16 (mem n) (udphdr + 4)) in
    if (chklen <? UDP_HLEN) && negb (chklen =? 0) then Ok false
    else
      let chklen := if chklen =? 0 then tot_len b else chklen in
      let* c := ip_chksum_pseudo_partial v IP_PROTO_UDPLITE (tot_len b) chklen src dest in
      Ok (c =? 0)
  else if negb (rd16 (mem n) (udphdr + 6) =? 0) then
    Ok (ip_chksum_pseudo v IP_PROTO_UDP (tot_len b) src dest =? 0)
  else Ok true.

(** The datagram for [pcb], NULL for none, goes to its receiver or is refused. *)
Definition pass_on n (p pcb src : Z) (broadcast : bool) : res (net A W) :=
  let* (failed, n) := header n p (- UDP_HLEN) in
  assert* negb failed in
  if negb (pcb =? NULL) then
    let* u := deref (udp_heap (udp n)) pcb in
    if negb (u_recv u =? NULL) then recv_fn (u_recv u) n (u_recv_arg u) pcb p (current_iphdr_src (ip_data n)) src
    else free custom_free n p
  else
    let* n :=
      if negb broadcast && negb (ip4_addr_ismulticast (current_iphdr_dest (ip_data n))) then
        let* (_, n) := header_force n p (s16 (current_ip_header_tot_len (ip_data n) + UDP_HLEN)) in
        icmp_dest_unreach stale_flags custom_free callback_ok netif_output n p ICMP_DUR_PORT
      else Ok n in
    free custom_free (inc P_udp c_drop (inc P_udp c_proterr n)) p.

Definition udp_input n (p inp : Z) : res (net A W) :=
  let n := inc P_udp c_recv n in
  let* b := pbuf_at n p in
  if len b <? UDP_HLEN then free custom_free (inc P_udp c_drop (inc P_udp c_lenerr n)) p
  else
    let udphdr := payload b in
    let dest_ip := current_iphdr_dest (ip_data n) in
    let* cur := netif_at n (current_netif (ip_data n)) in
    let broadcast := ip4_addr_isbroadcast_u32 dest_ip cur in
    let src := lwip_ntohs (rd16 (mem n) udphdr) in
    let dest := lwip_ntohs (rd16 (mem n) (udphdr + 2)) in
    let* nf := netif_at n inp in
    let* (pcb, n) := demux n nf (current_iphdr_src (ip_data n)) src dest_ip dest broadcast in
    if negb (pcb =? NULL) || (netif_ip4_addr nf =? dest_ip) then
      let* good := chksum_good n p udphdr in
      if (good : bool) then pass_on n p pcb src broadcast
      else free custom_free (inc P_udp c_drop (inc P_udp c_chkerr n)) p
    else free custom_free n p.

(** *** Output *)

(** Room for the header in [p], or else in a pbuf in front of it; NULL without memory. *)
Definition add_header n (p : Z) : res (Z * net A W) :=
  let* (failed, n) := header n p UDP_HLEN in
  if (failed : bool) then
    let* (q, n) := alloc_pbuf stale_flags custom_free callback_ok n PBUF_IP UDP_HLEN PBUF_RAM in
    if q =? NULL then Ok (NULL, n)
    else
      let* b := pbuf_at n p in
      if negb (tot_len b =? 0) then
        let* s := pbuf_chain (packets n) q p in Ok (q, with_packets s n)
      else Ok (q, n)
  else Ok (p, n).

(** Length and checksum of the datagram [q] of the pcb [u], and the protocol. *)
Definition fill_udp n (q udphdr src_ip dst_ip : Z) (u : udp_pcb) : res (Z * net A W) :=
  let* b := pbuf_at n q in
  if negb (Z.land (u_flags u) UDP_FLAGS_UDPLITE =? 0) then
    let illegal := (u_chksum_len_tx u <? UDP_HLEN) || (tot_len b <? u_chksum_len_tx u) in
    let chklen_hdr := if illegal then 0 else u_chksum_len_tx u in
    let chklen := if illegal then tot_len b else u_chksum_len_tx u in
    let n := with_mem (wr16 (mem n) (udphdr + 4) (lwip_htons chklen_hdr)) n in
    let* v := view n q in
    let* c := ip_chksum_pseudo_partial v IP_PROTO_UDPLITE (tot_len b) chklen src_ip dst_ip in
    let m := wr16 (mem n) (udphdr + 6) c in
    let m := if rd16 m (udphdr + 6) =? 0 then wr16 m (udphdr + 6) 65535 else m in
    Ok (IP_PROTO_UDPLITE, with_mem m n)
  else
    let n := with_mem (wr16 (mem n) (udphdr + 4) (lwip_htons (tot_len b))) n in
    let* n :=
      if Z.land (u_flags u) UDP_FLAGS_NOCHKSUM =? 0 then
        let* v := view n q in
        let c := ip_chksum_pseudo v IP_PROTO_UDP (tot_len b) src_ip dst_ip in
        let c := if c =? 0 then 65535 else c in
        Ok (with_mem (wr16 (mem n) (udphdr + 6) c) n)
      else Ok n in
    Ok (IP_PROTO_UDP, n).

Definition udp_sendto_if_src n (pcb p : Z) (dst_ip : option Z) (dst_port nif src_ip : Z) : res (err_t * net A W) :=
  match dst_ip with
  | None => Ok (ERR_VAL, n)
  | Some dst_ip =>
      if pcb =? NULL then Ok (ERR_VAL, n)
      else
        let* u := deref (udp_heap (udp n)) pcb in
        let* (err, g) :=
          if u_local_port u =? 0 then udp_bind (udp n) pcb (Some (u_local_ip u)) (u_local_port u)
          else Ok (ERR_OK, udp n) in
        let n := with_udp g n in
        if bool_decide (err = ERR_OK) then
          let* (q, n) := add_header n p in
          if q =? NULL then Ok (ERR_MEM, n)
          else
            let* b := pbuf_at n q in
            assert* (UDP_HLEN <=? len b) in
            let udphdr := payload b in
            let* u := deref (udp_heap (udp n)) pcb in
            let m := wr16 (mem n) udphdr (lwip_htons (u_local_port u)) in
            let m := wr16 m (udphdr + 2) (lwip_htons dst_port) in
            let n := with_mem (wr16 m (udphdr + 6) 0) n in
            let* s :=
              if negb (Z.land (u_flags u) UDP_FLAGS_MULTICAST_LOOP =? 0) && ip4_addr_ismulticast dst_ip
              then upd (packets n) q (fun b => with_flags (Z.lor (flags b) PBUF_FLAG_MCASTLOOP) b)
              else Ok (packets n) in
            let n := with_packets s n in
            let* (ip_proto, n) := fill_udp n q udphdr src_ip dst_ip u in
            let ttl := if ip4_addr_ismulticast dst_ip then u_mcast_ttl u else u_ttl u in
            let* (err, n) := ip4_output_if_src stale_flags custom_free callback_ok netif_output n q (Some src_ip)
                               (Some dst_ip) ttl (u_tos u) ip_proto nif in
            let* n := if negb (q =? p) then free custom_free n q else Ok n in
            Ok (err, inc P_udp c_xmit n)
        else Ok (err, n)
  end.

Definition udp_sendto_if n (pcb p : Z) (dst_ip : option Z) (dst_port nif : Z) : res (err_t * net A W) :=
  match dst_ip with
  | None => Ok (ERR_VAL, n)
  | Some _ =>
      if pcb =? NULL then Ok (ERR_VAL, n)
      else
        let* u := deref (udp_heap (udp n)) pcb in
        let* nf := netif_at n nif in
        if ip4_addr_isany_val (u_local_ip u) || ip4_addr_ismulticast (u_local_ip u)
        then udp_sendto_if_src n pcb p dst_ip dst_port nif (netif_ip4_addr nf)
        else if negb (u_local_ip u =? netif_ip4_addr nf) then Ok (ERR_RTE, n)
        else udp_sendto_if_src n pcb p dst_ip dst_port nif (u_local_ip u)
  end.

Definition udp_sendto n (pcb p : Z) (dst_ip : option Z) (dst_port : Z) : res (err_t * net A W) :=
  match dst_ip with
  | None => Ok (ERR_VAL, n)
  | Some dst =>
      if pcb =? NULL then Ok (ERR_VAL, n)
      else
        let* u := deref (udp_heap (udp n)) pcb in
        let dst_ip_route :=
          if ip4_addr_ismulticast dst && negb (ip4_addr_isany_val (u_multicast_ip u))
             && negb (u_multicast_ip u =? IPADDR_BROADCAST)
          then u_multicast_ip u else dst in
        let* (nif, n) := ip4_route n dst_ip_route in
        if nif =? NULL then Ok (ERR_RTE, inc P_udp c_rterr n)
        else udp_sendto_if n pcb p dst_ip dst_port nif
  end.

Definition udp_send n (pcb p : Z) : res (err_t * net A W) :=
  if pcb =? NULL then Ok (ERR_VAL, n)
  else
    let* u := deref (udp_heap (udp n)) pcb in
    udp_sendto n pcb p (Some (u_remote_ip u)) (u_remote_port u).

End Udp.

(** ** Local ports *)

(** The pcbs of the list exist. *)
Definition listed_ok (g : udp_globals) : Prop := Forall (fun pcb => is_Some (udp_heap g !! pcb)) (udp_pcbs g).

(** Some pcb of the list has the property. *)
Definition some_pcb (g : udp_globals) (P : Z -> udp_pcb -> Prop) : Prop :=
  exists pcb u, pcb ∈ udp_pcbs g /\ udp_heap g !! pcb = Some u /\ P pcb u.

Definition port_used (g : udp_globals) (port : Z) : Prop := some_pcb g (fun _ u => u_local_port u = port).

Definition in_range (port : Z) : Prop := UDP_LOCAL_PORT_RANGE_START <= port <= UDP_LOCAL_PORT_RANGE_END.

Lemma any_pcb_spec h f l :
  Forall (fun pcb => is_Some (h !! pcb)) l ->
  exists r, any_pcb h l f = Ok r
    /\ (r = true <-> exists pcb u, pcb ∈ l /\ h !! pcb = Some u /\ f pcb u = true).
Proof.
  induction 1 as [|pcb l (u & Hu) _ (r & Er & Hr)]; cbn [any_pcb].
  { exists false. split; [done|]. split; [done|]. by intros (? & ? & ?%elem_of_nil & _). }
  rewrite (deref_ok _ _ _ Hu). cbn [res_bind]. destruct (f pcb u) eqn:Ef.
  - exists true. split; [done|]. split; [|done]. intros _. exists pcb, u. split_and!; [left|done|done].
  - exists r. split; [done|]. rewrite Hr. split.
    + intros (q & v & Hq & Hv). exists q, v. split; [by right|done].
    + intros (q & v & Hq & Hv & Hf). apply elem_of_cons in Hq as [->|Hq]; [congruence|by exists q, v].
Qed.

(** The port tried at the [k]th attempt after [p]. *)
Definition port_at (p k : Z) : Z := UDP_LOCAL_PORT_RANGE_START + (p - UDP_LOCAL_PORT_RANGE_START + k) mod 16384.

Lemma port_at_range p k : in_range (port_at p k).
Proof. unfold in_range, port_at, UDP_LOCAL_PORT_RANGE_START, UDP_LOCAL_PORT_RANGE_END. zlia. Qed.

Lemma next_port_at p : in_range p -> next_port p = port_at p 1.
Proof.
  unfold in_range, port_at, next_port, UDP_LOCAL_PORT_RANGE_START, UDP_LOCAL_PORT_RANGE_END. intros Hp.
  unfold u16. zcases; zlia.
Qed.

Lemma port_at_next p k : port_at (port_at p 1) k = port_at p (k + 1).
Proof. unfold port_at, UDP_LOCAL_PORT_RANGE_START. zlia. Qed.

Lemma port_at_onto p q : in_range p -> in_range q -> exists k, 1 <= k <= 16384 /\ port_at p k = q.
Proof.
  unfold in_range, port_at, UDP_LOCAL_PORT_RANGE_START, UDP_LOCAL_PORT_RANGE_END. intros Hp Hq.
  exists ((q - p - 1) mod 16384 + 1). zlia.
Qed.

Lemma new_port_loop_spec : forall fuel g n,
  listed_ok g -> in_range (udp_port g) -> (0 < fuel)%nat -> 0 <= n -> Z.of_nat fuel + n = 16384 ->
  exists port last, new_port_loop fuel g n = Ok (port, with_port last g) /\ in_range last
    /\ ((in_range port /\ port = last /\ ~ port_used g port)
        \/ (port = 0 /\ forall k, 1 <= k <= Z.of_nat fuel -> port_used g (port_at (udp_port g) k))).
Proof.
  induction fuel as [|fuel IH]; intros g n Hl Hr Hf Hn Hs; [lia|]. cbn [new_port_loop].
  rewrite (next_port_at _ Hr). set (q := port_at (udp_port g) 1). cbn [with_port udp_heap udp_pcbs udp_port].
  pose proof (port_at_range (udp_port g) 1) as Hq. fold q in Hq.
  destruct (any_pcb_spec (udp_heap g) (fun _ u => u_local_port u =? q) _ Hl) as (r & Er & Hu). rewrite Er. cbn [res_bind].
  assert (Hused : r = true <-> port_used g q).
  { rewrite Hu. unfold port_used, some_pcb. by setoid_rewrite Z.eqb_eq. }
  destruct r.
  2:{ exists q, q. split; [done|]. split; [done|]. left. split_and!; [done..|]. intros Hp. by apply Hused in Hp. }
  rewrite u16_id by (unfold is_u16; lia). unfold UDP_LOCAL_PORT_RANGE_END, UDP_LOCAL_PORT_RANGE_START.
  destruct (Z.ltb_spec (65535 - 49152) (n + 1)) as [E|E].
  - exists 0, q. split; [done|]. split; [done|]. right. split; [done|]. intros k Hk. replace k with 1 by lia. by apply Hused.
  - destruct (IH (with_port q g) (n + 1)) as (port & last & El & Hlast & Hres); [done|done|lia|lia|lia|].
    exists port, last. split; [done|]. split; [done|]. destruct Hres as [Hres|[-> Hres]]; [by left|right].
    split; [done|]. intros k Hk. destruct (decide (k = 1)) as [->|Hk1]; [by apply Hused|].
    specialize (Hres (k - 1) ltac:(lia)). cbn [with_port udp_port] in Hres. unfold q in Hres. rewrite port_at_next in Hres.
    by replace (k - 1 + 1) with k in Hres by lia.
Qed.

Lemma udp_new_port_spec g :
  listed_ok g -> in_range (udp_port g) ->
  exists port last, udp_new_port g = Ok (port, with_port last g) /\ in_range last
    /\ ((in_range port /\ port = last /\ ~ port_used g port) \/ (port = 0 /\ forall q, in_range q -> port_used g q)).
Proof.
  intros Hl Hr. unfold udp_new_port.
  change (UDP_LOCAL_PORT_RANGE_END - UDP_LOCAL_PORT_RANGE_START + 1) with 16384.
  destruct (new_port_loop_spec (Z.to_nat 16384) g 0 Hl Hr) as (port & last & E & Hlast & H); [lia..|].
  exists port, last. split; [done|]. split; [done|]. destruct H as [H|[-> H]]; [by left|right]. split; [done|].
  intros q Hq. destruct (port_at_onto _ q Hr Hq) as (k & Hk & <-). apply H. lia.
Qed.

(** ** The invariant of the list *)

(** Pcbs with the same local address and port are the same. *)
Definition ports_unique (g : udp_globals) : Prop :=
  forall p q u v, p ∈ udp_pcbs g -> q ∈ udp_pcbs g -> udp_heap g !! p = Some u -> udp_heap g !! q = Some v ->
    u_local_port u = u_local_port v -> u_local_ip u = u_local_ip v -> p = q.

(** The list has no duplicates and consists of pcbs that exist and are bound; the other
    ones are not bound; what exists and what is in the pool is disjoint; no two pcbs are
    bound to the same address and port; the last port is in the range. *)
Record udp_ok (g : udp_globals) : Prop := {
  ok_NoDup : NoDup (udp_pcbs g);
  ok_bound pcb : pcb ∈ udp_pcbs g <-> exists u, udp_heap g !! pcb = Some u /\ u_local_port u <> 0;
  ok_null : udp_heap g !! NULL = None /\ NULL ∉ udp_pool g;
  ok_pool : NoDup (udp_pool g) /\ forall pcb, pcb ∈ udp_pool g -> udp_heap g !! pcb = None;
  ok_unique : ports_unique g;
  ok_port : in_range (udp_port g)
}.

Lemma ok_listed g : udp_ok g -> listed_ok g.
Proof. intros Hok. apply Forall_forall. intros pcb Hin. apply (ok_bound g Hok) in Hin as (u & Hu & _). by exists u. Qed.

Lemma listed_existsb l pcb : existsb (Z.eqb pcb) l = true <-> pcb ∈ l.
Proof.
  rewrite existsb_exists. setoid_rewrite Z.eqb_eq. setoid_rewrite <- list_elem_of_In.
  split; [by intros (x & ? & ->)|by eauto].
Qed.

(** [pcb] is set and put on the list unless it is there. *)
Definition install (g : udp_globals) (pcb : Z) (u : udp_pcb) : udp_globals :=
  let g' := set_pcb g pcb u in
  if existsb (Z.eqb pcb) (udp_pcbs g) then g' else with_pcbs (pcb :: udp_pcbs g) g'.

(** Giving a pcb an address and port that no other has. *)
Lemma udp_ok_set g pcb u u' :
  udp_ok g -> udp_heap g !! pcb = Some u -> u_local_port u' <> 0 ->
  (forall q v, q ∈ udp_pcbs g -> q <> pcb -> udp_heap g !! q = Some v ->
     u_local_port v = u_local_port u' -> u_local_ip v = u_local_ip u' -> False) ->
  udp_ok (install g pcb u').
Proof.
  intros [Hnd Hb [Hn1 Hn2] [Hp1 Hp2] Hun Hpo] Hu Hu' Hfresh.
  set (l := if existsb (Z.eqb pcb) (udp_pcbs g) then udp_pcbs g else pcb :: udp_pcbs g).
  assert (Hl : NoDup l /\ forall q, q ∈ l <-> q = pcb \/ q ∈ udp_pcbs g).
  { subst l. destruct (existsb (Z.eqb pcb) (udp_pcbs g)) eqn:E.
    - apply listed_existsb in E. split; [done|]. intros q. split; [by right|]. by intros [->|].
    - assert (pcb ∉ udp_pcbs g) by (intros Hin; apply listed_existsb in Hin; congruence).
      split; [by constructor|]. intros q. by rewrite elem_of_cons. }
  replace (install g pcb u') with (mk_udp_globals (<[pcb := u']> (udp_heap g)) l (udp_port g) (udp_pool g))
    by (subst l; unfold install; by destruct (existsb (Z.eqb pcb) (udp_pcbs g))).
  destruct Hl as [Hnd' Hl]. split; cbn [udp_heap udp_pcbs udp_port udp_pool]; try done.
  - intros q. rewrite Hl, Hb. destruct (decide (q = pcb)) as [->|Hq].
    + rewrite lookup_insert_eq. split; [|by left]. intros _. by exists u'.
    + rewrite lookup_insert_ne by done. tauto.
  - split; [|done]. rewrite lookup_insert_ne; [done|]. intros ->. congruence.
  - split; [done|]. intros q Hq. rewrite lookup_insert_ne; [by apply Hp2|]. intros ->. apply Hp2 in Hq. congruence.
  - intros p q v w Hp Hq. cbn [udp_heap udp_pcbs] in *. rewrite Hl in Hp, Hq.
    destruct (decide (p = pcb)) as [->|Hpn], (decide (q = pcb)) as [->|Hqn]; [done| | |];
      rewrite ?lookup_insert_eq, ?lookup_insert_ne by done; intros Hv Hw Eport Eip.
    + injection Hv as <-. destruct Hq as [->|Hq]; [done|]. destruct (Hfresh q w); done.
    + injection Hw as <-. destruct Hp as [->|Hp]; [done|]. destruct (Hfresh p v); done.
    + destruct Hp as [->|Hp], Hq as [->|Hq]; try done. by eapply (Hun p q v w).
Qed.

(** The same when neither address nor port changes. *)
Lemma udp_ok_same g pcb u u' :
  udp_ok g -> udp_heap g !! pcb = Some u -> u_local_port u' = u_local_port u -> u_local_ip u' = u_local_ip u ->
  udp_ok (set_pcb g pcb u').
Proof.
  intros [Hnd Hb [Hn1 Hn2] [Hp1 Hp2] Hun Hpo] Hu Ep Ei. split; cbn [set_pcb udp_heap udp_pcbs udp_port udp_pool]; try done.
  - intros q. rewrite Hb. destruct (decide (q = pcb)) as [->|Hq]; [|by rewrite lookup_insert_ne].
    rewrite lookup_insert_eq, Hu. split; intros (v & [= <-] & ?); eexists; (split; [done|congruence]).
  - split; [|done]. rewrite lookup_insert_ne; [done|]. intros ->. congruence.
  - split; [done|]. intros q Hq. rewrite lookup_insert_ne; [by apply Hp2|]. intros ->. apply Hp2 in Hq. congruence.
  - intros p q v w Hp Hq. cbn [set_pcb udp_heap udp_pcbs] in *. rewrite !lookup_insert_Some.
    intros [[<- <-]|[Hpn Hv]] [[<- <-]|[Hqn Hw]] E1 E2; try done; rewrite ?Ep, ?Ei in *; by eapply (Hun _ _ _ _ Hp Hq).
Qed.

Lemma udp_ok_port g p : udp_ok g -> in_range p -> udp_ok (with_port p g).
Proof. intros [Hnd Hb Hn Hp Hun Hpo] Hr. by split. Qed.

(** Binding: whatever the outcome, the invariant holds, and on success [pcb] has the address
    and the port asked for, or a free one of the range for port 0. *)
Lemma udp_bind_spec g pcb ipaddr port u :
  udp_ok g -> udp_heap g !! pcb = Some u -> is_u16 port ->
  exists err g', udp_bind g pcb ipaddr port = Ok (err, g') /\ udp_ok g'
    /\ ((err = ERR_OK /\ pcb ∈ udp_pcbs g' /\ exists port', udp_heap g' = <[pcb := with_local (default IPADDR_ANY ipaddr) port' u]> (udp_heap g)
           /\ if port =? 0 then in_range port' /\ ~ port_used g port' else port' = port)
        \/ (err = ERR_USE /\ udp_heap g' = udp_heap g /\ udp_pcbs g' = udp_pcbs g
            /\ if port =? 0 then forall q, in_range q -> port_used g q
               else some_pcb g (fun q v => q <> pcb /\ u_local_port v = port /\ u_local_ip v = default IPADDR_ANY ipaddr))).
Proof.
  intros Hok Hu Hport. pose proof (ok_listed g Hok) as Hl. unfold udp_bind. set (ip := default IPADDR_ANY ipaddr).
  assert (Hne : pcb <> NULL). { intros ->. destruct (ok_null g Hok). congruence. }
  rewrite (proj2 (Z.eqb_neq _ _) Hne).
  assert (Hdone : forall gp port', (forall q, q ∈ udp_pcbs g -> q <> pcb -> forall v, udp_heap g !! q = Some v ->
      u_local_port v = port' -> u_local_ip v = ip -> False) -> port' <> 0 -> in_range gp ->
    let g' := install (with_port gp g) pcb (with_local ip port' u) in
    udp_ok g' /\ pcb ∈ udp_pcbs g' /\ udp_heap g' = <[pcb := with_local ip port' u]> (udp_heap g)).
  { intros gp port' Hf Hp0 Hgp g'.
    assert (Hg : udp_ok g').
    { apply (udp_ok_set (with_port gp g) pcb u); [by apply udp_ok_port|done|done|]. intros q v Hq Hqn Hv. by apply (Hf q Hq Hqn). }
    assert (Eh : udp_heap g' = <[pcb := with_local ip port' u]> (udp_heap g)).
    { subst g'. unfold install. cbn [with_port udp_pcbs]. by destruct (existsb (Z.eqb pcb) (udp_pcbs g)). }
    split_and!; [done| |done]. apply (ok_bound g' Hg). rewrite Eh, lookup_insert_eq. by eexists. }
  destruct (Z.eqb_spec port 0) as [->|Hp0].
  - destruct (udp_new_port_spec g Hl (ok_port g Hok)) as (port' & last & Ep & Hlast & Hres). rewrite Ep. cbn [res_bind].
    destruct Hres as [(Hr & -> & Hfree)|[-> Hall]].
    + assert (H0 : last <> 0) by (unfold in_range, UDP_LOCAL_PORT_RANGE_START in Hr; lia).
      rewrite (proj2 (Z.eqb_neq _ _) H0). rewrite bool_decide_true by done. cbn [with_port udp_heap udp_pcbs].
      rewrite (deref_ok _ _ _ Hu). cbn [res_bind].
      destruct (Hdone last last) as (Hg & Hin & Eh); [|done|done|].
      { intros q Hq _ v Hv Ev _. apply Hfree. by exists q, v. }
      eexists _, _. split; [reflexivity|]. split; [exact Hg|]. left. split_and!; [done|exact Hin|]. by exists last.
    + eexists _, _. split; [reflexivity|]. split; [by apply udp_ok_port|]. right. done.
  - destruct (any_pcb_spec (udp_heap g) (fun ipcb v => negb (pcb =? ipcb) && (u_local_port v =? port) && (u_local_ip v =? ip)) _ Hl)
      as (r & Er & Hr). rewrite Er. cbn [res_bind].
    assert (Hused : r = true <-> some_pcb g (fun q v => q <> pcb /\ u_local_port v = port /\ u_local_ip v = ip)).
    { rewrite Hr. unfold some_pcb. setoid_rewrite andb_true_iff. setoid_rewrite andb_true_iff. setoid_rewrite Z.eqb_eq.
      setoid_rewrite negb_true_iff. setoid_rewrite Z.eqb_neq.
      split; intros (q & v & Hq & Hv & HP); exists q, v; (split; [exact Hq|]; split; [exact Hv|]); destruct_and!;
        split_and!; congruence. }
    destruct r.
    + rewrite bool_decide_false by done. eexists _, _. split; [reflexivity|]. split; [done|]. right. split_and!; try done.
      by apply Hused.
    + rewrite bool_decide_true by done. rewrite (deref_ok _ _ _ Hu). cbn [res_bind].
      destruct (Hdone (udp_port g) port) as (Hg & Hin & Eh); [|done|by apply (ok_port g)|].
      { intros q Hq Hqn v Hv E1 E2. enough (false = true) by done. apply Hused. by exists q, v. }
      assert (Eg : with_port (udp_port g) g = g) by (by destruct g). rewrite Eg in *.
      eexists _, _. split; [reflexivity|]. split; [exact Hg|]. left. split_and!; [done|exact Hin|]. by exists port.
Qed.

Lemma udp_connect_ok g pcb ipaddr port u :
  udp_ok g -> udp_heap g !! pcb = Some u ->
  exists err g', udp_connect g pcb ipaddr port = Ok (err, g') /\ udp_ok g'.
Proof.
  intros Hok Hu. unfold udp_connect. destruct ipaddr as [ip|]; [|by eauto].
  destruct (pcb =? NULL); [by eauto|]. rewrite (deref_ok _ _ _ Hu). cbn [res_bind].
  assert (Hconn : forall g u', udp_ok g -> udp_heap g !! pcb = Some u' -> u_local_port u' <> 0 ->
    exists err g', (let* u := deref (udp_heap g) pcb in
      let g := set_pcb g pcb (with_remote ip port (Z.lor (u_flags u) UDP_FLAGS_CONNECTED) u) in
      Ok (ERR_OK, if existsb (Z.eqb pcb) (udp_pcbs g) then g else with_pcbs (pcb :: udp_pcbs g) g)) = Ok (err, g')
    /\ udp_ok g').
  { intros g1 u1 Hok1 Hu1 Hp1. rewrite (deref_ok _ _ _ Hu1). cbn [res_bind]. eexists _, _. split; [reflexivity|].
    assert (Hin : pcb ∈ udp_pcbs g1) by (apply (ok_bound g1 Hok1); by exists u1).
    apply listed_existsb in Hin. cbn [set_pcb udp_pcbs]. rewrite Hin. by eapply udp_ok_same. }
  destruct (Z.eqb_spec (u_local_port u) 0) as [E|E]; cbn [res_bind].
  - destruct (udp_bind_spec g pcb (Some (u_local_ip u)) (u_local_port u) u Hok Hu) as (err & g1 & Eb & Hok1 & Hres).
    { rewrite E. done. }
    rewrite Eb. cbn [res_bind]. destruct Hres as [(-> & _ & port' & Eh & Hp)|(-> & _)].
    + rewrite bool_decide_true by done. eapply Hconn; [done|rewrite Eh; apply lookup_insert_eq|].
      rewrite E in Hp. cbn [Z.eqb] in Hp. destruct Hp as [Hr _]. unfold in_range, UDP_LOCAL_PORT_RANGE_START in Hr. cbn [with_local u_local_port]. lia.
    + rewrite bool_decide_false by done. by eauto.
  - rewrite bool_decide_true by done. by eapply Hconn.
Qed.

Lemma udp_new_ok g : udp_ok g -> udp_ok (snd (udp_new g)).
Proof.
  intros Hok. unfold udp_new. destruct (udp_pool g) as [|pcb pool] eqn:Ep; [done|]. cbn [snd].
  destruct Hok as [Hnd Hb [Hn1 Hn2] [Hp1 Hp2] Hun Hpo]. rewrite Ep in *.
  assert (Hpn : udp_heap g !! pcb = None) by (apply Hp2; left).
  apply NoDup_cons in Hp1 as [Hpp Hp1]. apply not_elem_of_cons in Hn2 as [Hn2 Hn3].
  assert (Hnl : pcb ∉ udp_pcbs g) by (intros (v & Hv & _)%Hb; congruence).
  split; cbn [udp_heap udp_pcbs udp_port udp_pool]; try done.
  - intros q. rewrite Hb. destruct (decide (q = pcb)) as [->|Hq]; [|by rewrite lookup_insert_ne].
    rewrite lookup_insert_eq, Hpn. split; [by intros (? & ? & _)|]. intros (v & [= <-] & Hv). done.
  - split; [by rewrite lookup_insert_ne|done].
  - split; [done|]. intros q Hq. rewrite lookup_insert_ne by (by intros ->). apply Hp2. by right.
  - intros p q v w Hp Hq. cbn [udp_heap udp_pcbs] in *. rewrite !lookup_insert_ne by (by intros ->). by apply Hun.
Qed.

Lemma elem_of_unlink l pcb q : NoDup l -> q ∈ unlink l pcb <-> q ∈ l /\ q <> pcb.
Proof.
  induction 1 as [|x l Hx Hl IH]; cbn [unlink]; [by rewrite elem_of_nil; tauto|].
  destruct (Z.eqb_spec x pcb) as [->|Hn]; rewrite !elem_of_cons, ?IH.
  2:{ split; [intros [->|[? ?]]; tauto|intros [[->|?] ?]; tauto]. }
  split; [|by intros [[->|?] ?]]. intros Hq. split; [by right|]. by intros ->.
Qed.

Lemma NoDup_unlink l pcb : NoDup l -> NoDup (unlink l pcb).
Proof.
  induction 1 as [|x l Hx Hl IH]; cbn [unlink]; [constructor|]. destruct (x =? pcb); [done|].
  constructor; [|done]. rewrite elem_of_unlink by done. by intros [? _].
Qed.

Lemma udp_remove_ok g pcb u :
  udp_ok g -> udp_heap g !! pcb = Some u -> exists g', udp_remove g pcb = Ok g' /\ udp_ok g'.
Proof.
  intros [Hnd Hb [Hn1 Hn2] [Hp1 Hp2] Hun Hpo] Hu. unfold udp_remove.
  assert (Hne : pcb <> NULL) by (intros ->; congruence). rewrite (proj2 (Z.eqb_neq _ _) Hne).
  eexists. split; [reflexivity|]. split; cbn [udp_heap udp_pcbs udp_port udp_pool]; try done.
  - by apply NoDup_unlink.
  - intros q. rewrite elem_of_unlink, Hb by done. setoid_rewrite lookup_delete_Some. split.
    + intros [(v & ? & ?) ?]. by exists v.
    + intros (v & [? ?] & ?). split; [by exists v|done].
  - split; [by rewrite lookup_delete_ne|]. apply not_elem_of_cons. by split.
  - split; [constructor; [intros Hin; apply Hp2 in Hin; congruence|done]|].
    intros q Hq. apply lookup_delete_None. apply elem_of_cons in Hq as [->|Hq]; [by left|right; by apply Hp2].
  - intros p q v w Hp Hq. cbn [udp_heap udp_pcbs] in *. rewrite elem_of_unlink in Hp, Hq by done.
    rewrite !lookup_delete_Some. intros [_ Hv] [_ Hw]. by apply (Hun p q v w (proj1 Hp) (proj1 Hq)).
Qed.

(** The address of an interface changes to one that no pcb is bound to. *)
Lemma change_addrs_spec old new l : forall h,
  NoDup l -> Forall (fun pcb => is_Some (h !! pcb)) l ->
  exists h', change_addrs h l old new = Ok h'
    /\ forall pcb, h' !! pcb = (if bool_decide (pcb ∈ l) then
          (fun u => if u_local_ip u =? old then with_local new (u_local_port u) u else u) <$> h !! pcb else h !! pcb).
Proof.
  induction l as [|x l IH]; intros h Hnd Hl; cbn [change_addrs]; [by exists h|].
  apply NoDup_cons in Hnd as [Hx Hnd]. apply Forall_cons in Hl as [(u & Hu) Hl].
  rewrite (deref_ok _ _ _ Hu). cbn [res_bind].
  set (u' := if u_local_ip u =? old then with_local new (u_local_port u) u else u).
  replace (if u_local_ip u =? old then _ else h) with (<[x := u']> h)
    by (subst u'; destruct (u_local_ip u =? old); [done|by apply insert_id]).
  destruct (IH (<[x := u']> h) Hnd) as (h' & E & Hh).
  { eapply Forall_impl; [exact Hl|]. intros q [v Hv]. destruct (decide (q = x)) as [->|Hq];
      [rewrite lookup_insert_eq|rewrite lookup_insert_ne by done]; by eexists. }
  exists h'. split; [done|]. intros q. rewrite Hh. destruct (decide (q = x)) as [->|Hq].
  - rewrite bool_decide_false, bool_decide_true by (done || left). by rewrite lookup_insert_eq, Hu.
  - rewrite lookup_insert_ne by done. erewrite (bool_decide_ext (q ∈ l)); [reflexivity|]. rewrite elem_of_cons. tauto.
Qed.

Lemma udp_addr_changed_ok g old new :
  udp_ok g -> ~ some_pcb g (fun _ u => u_local_ip u = new) ->
  exists g', udp_netif_ip_addr_changed g (Some old) (Some new) = Ok g' /\ udp_ok g'.
Proof.
  intros Hok Hnew. pose proof (ok_listed g Hok) as Hl. unfold udp_netif_ip_addr_changed.
  destruct (_ && _); [|by eauto].
  destruct (change_addrs_spec old new (udp_pcbs g) (udp_heap g) (ok_NoDup g Hok) Hl) as (h' & E & Hh). rewrite E. cbn [res_bind].
  eexists. split; [reflexivity|]. destruct Hok as [Hnd Hb [Hn1 Hn2] [Hp1 Hp2] Hun Hpo].
  assert (Hfrom : forall q v, h' !! q = Some v -> exists u, udp_heap g !! q = Some u /\ u_local_port v = u_local_port u
            /\ (q ∈ udp_pcbs g -> u_local_ip v = if u_local_ip u =? old then new else u_local_ip u)).
  { intros q v Hv. rewrite Hh in Hv. case_bool_decide as Hq.
    - apply fmap_Some in Hv as (u & Hu & ->). exists u. split; [done|]. by destruct (u_local_ip u =? old).
    - by exists v. }
  assert (Hnone : forall q, udp_heap g !! q = None -> h' !! q = None).
  { intros q Hq. destruct (h' !! q) eqn:Ev; [|done]. apply Hfrom in Ev as (u0 & Hu0 & _). congruence. }
  split; cbn [udp_heap udp_pcbs udp_port udp_pool]; try done.
  - intros q. rewrite Hb. split.
    + intros (u & Hu & Hp). rewrite Hh, Hu. case_bool_decide; [|by exists u]. eexists. split; [reflexivity|].
      by destruct (u_local_ip u =? old).
    + intros (v & Hv & Hp). destruct (Hfrom q v Hv) as (u & Hu & Ep & _). exists u. split; [done|congruence].
  - split; [by apply Hnone|done].
  - split; [done|]. intros q Hq. by apply Hnone, Hp2.
  - intros p q v w Hp Hq Hv Hw E1 E2. cbn [udp_heap udp_pcbs] in *.
    destruct (Hfrom p v Hv) as (u1 & Hu1 & Ep1 & Ei1), (Hfrom q w Hw) as (u2 & Hu2 & Ep2 & Ei2).
    specialize (Ei1 Hp). specialize (Ei2 Hq). apply (Hun p q u1 u2 Hp Hq Hu1 Hu2); [congruence|].
    rewrite Ei1, Ei2 in E2. destruct (Z.eqb_spec (u_local_ip u1) old), (Z.eqb_spec (u_local_ip u2) old); try congruence.
    + destruct Hnew. by exists q, u2.
    + destruct Hnew. by exists p, u1.
Qed.

(** The order of the list does not matter. *)
Lemma udp_ok_perm g l : udp_ok g -> l ≡ₚ udp_pcbs g -> udp_ok (with_pcbs l g).
Proof.
  intros [Hnd Hb Hn Hp Hun Hpo] Hl. split; cbn [with_pcbs udp_heap udp_pcbs udp_port udp_pool]; try done.
  - by rewrite Hl.
  - intros q. by rewrite Hl.
  - intros p q v w Hp' Hq'. cbn [with_pcbs udp_heap udp_pcbs] in *. rewrite Hl in Hp', Hq'. by apply Hun.
Qed.

(** ** Demultiplexing *)

Section Match.
Context (h : gmap Z udp_pcb) (inp : netif) (src_ip src dest_ip dest : Z) (broadcast : bool).

(** The datagram is for the local side of the pcb, which is not connected; and the pcb
    matches fully. *)
Definition local_side (pcb : Z) : Prop :=
  exists u, h !! pcb = Some u /\ u_local_port u = dest /\ udp_input_local_match u inp dest_ip broadcast = true.
Definition unconnected (pcb : Z) : Prop :=
  local_side pcb /\ exists u, h !! pcb = Some u /\ Z.land (u_flags u) UDP_FLAGS_CONNECTED = 0.
Definition full_match (pcb : Z) : Prop :=
  local_side pcb /\ exists u, h !! pcb = Some u /\ u_remote_port u = src /\ (u_remote_ip u = 0 \/ u_remote_ip u = src_ip).

(** The first element of a list with a property. *)
Definition first_with (P : Z -> Prop) (l : list Z) (pcb : Z) : Prop :=
  exists l1 l2, l = l1 ++ pcb :: l2 /\ P pcb /\ Forall (fun q => ~ P q) l1.

Lemma find_pcb_spec l : forall k uncon,
  Forall (fun pcb => pcb <> NULL /\ is_Some (h !! pcb)) l ->
  exists r uncon', find_pcb h l k inp src_ip src dest_ip dest broadcast uncon = Ok (r, uncon')
    /\ match r with
       | Some (j, pcb) => exists l1 l2, l = l1 ++ pcb :: l2 /\ j = (k + length l1)%nat /\ full_match pcb
                          /\ Forall (fun q => ~ full_match q) l1
       | None => Forall (fun q => ~ full_match q) l
                 /\ if uncon =? NULL then (uncon' = NULL /\ Forall (fun q => ~ unconnected q) l) \/ first_with unconnected l uncon'
                    else uncon' = uncon
       end.
Proof.
  induction l as [|pcb l IH]; intros k uncon Hl; cbn [find_pcb].
  { exists None, uncon. split; [done|]. split; [constructor|]. destruct (Z.eqb_spec uncon NULL); [left|done]. by split; [|constructor]. }
  apply Forall_cons in Hl as [[Hne (u & Hu)] Hl]. rewrite (deref_ok _ _ _ Hu). cbn [res_bind].
  assert (Hls : local_side pcb <-> (u_local_port u =? dest) && udp_input_local_match u inp dest_ip broadcast = true).
  { rewrite andb_true_iff, Z.eqb_eq. unfold local_side. rewrite Hu. split; [by intros (? & [= <-] & ?)|]. intros ?. by exists u. }
  destruct (_ && udp_input_local_match u inp dest_ip broadcast).
  2:{ assert (Hn : ~ local_side pcb) by (intros ?%Hls; done).
      destruct (IH (S k) uncon Hl) as (r & uncon' & E & Hr). exists r, uncon'. split; [done|]. destruct r as [[j q]|].
      - destruct Hr as (l1 & l2 & -> & -> & Hf & Hl1). exists (pcb :: l1), l2. split_and!; [done|cbn [length]; lia|done|].
        constructor; [by intros [? _]|done].
      - destruct Hr as [Hf Hr]. split; [constructor; [by intros [? _]|done]|]. destruct (uncon =? NULL); [|done].
        destruct Hr as [[-> Hr]|(l1 & l2 & -> & Hp & Hl1)]; [left; split; [done|]; constructor; [by intros [? _]|done]|right].
        exists (pcb :: l1), l2. split_and!; [done|done|]. constructor; [by intros [? _]|done]. }
  assert (Hl0 : local_side pcb) by (by apply Hls).
  assert (Hun : unconnected pcb <-> (Z.land (u_flags u) UDP_FLAGS_CONNECTED =? 0) = true).
  { rewrite Z.eqb_eq. unfold unconnected. rewrite Hu. split; [by intros (_ & ? & [= <-] & ?)|]. intros ?. by split; [|exists u]. }
  assert (Hfm : full_match pcb <-> (u_remote_port u =? src) && (ip4_addr_isany_val (u_remote_ip u) || (u_remote_ip u =? src_ip)) = true).
  { unfold ip4_addr_isany_val, full_match. rewrite andb_true_iff, orb_true_iff, !Z.eqb_eq, Hu.
    split; [by intros (_ & ? & [= <-] & ?)|]. intros ?. by split; [|exists u]. }
  destruct (_ && (_ || _)).
  { eexists (Some (k, pcb)), _. split; [reflexivity|]. exists [], l. split_and!; [done|cbn [length]; lia|by apply Hfm|constructor]. }
  assert (Hnf : ~ full_match pcb) by (intros ?%Hfm; done).
  set (un := if (Z.land (u_flags u) UDP_FLAGS_CONNECTED =? 0) && (uncon =? NULL) then pcb else uncon).
  destruct (IH (S k) un Hl) as (r & uncon' & E & Hr). exists r, uncon'. split; [done|]. destruct r as [[j q]|].
  - destruct Hr as (l1 & l2 & -> & -> & Hf & Hl1). exists (pcb :: l1), l2. split_and!; [done|cbn [length]; lia|done|by constructor].
  - destruct Hr as [Hf Hr]. split; [by constructor|]. subst un.
    destruct (Z.land (u_flags u) UDP_FLAGS_CONNECTED =? 0) eqn:Ec, (uncon =? NULL) eqn:Eu; cbn [andb] in Hr; rewrite ?Eu in Hr; try done.
    + rewrite (proj2 (Z.eqb_neq _ _) Hne) in Hr. subst uncon'. right. exists [], l. split_and!; [done|by apply Hun|constructor].
    + assert (Hnu : ~ unconnected pcb) by (intros ?%Hun; done).
      destruct Hr as [[-> Hr]|(l1 & l2 & -> & Hp & Hl1)]; [left; split; [done|by constructor]|right].
      exists (pcb :: l1), l2. split_and!; [done|done|by constructor].
Qed.
End Match.

Section Steps.
Context {A W : Type}.
Implicit Types n : net A W.

Lemma move_front_perm (l1 l2 : list Z) pcb : pcb :: delete (length l1) (l1 ++ pcb :: l2) ≡ₚ l1 ++ pcb :: l2.
Proof. rewrite delete_middle. by rewrite Permutation_middle. Qed.

Lemma demux_spec n inp src_ip src dest_ip dest broadcast :
  udp_ok (udp n) ->
  exists pcb n', demux n inp src_ip src dest_ip dest broadcast = Ok (pcb, n')
    /\ udp_heap (udp n') = udp_heap (udp n) /\ udp_pcbs (udp n') ≡ₚ udp_pcbs (udp n) /\ udp_ok (udp n')
    /\ (n' = n \/ n' = inc P_udp c_cachehit n \/ n' = with_udp (udp n') n)
    /\ let P := full_match (udp_heap (udp n)) inp src_ip src dest_ip dest broadcast in
       let Q := unconnected (udp_heap (udp n)) inp dest_ip dest broadcast in
       (first_with P (udp_pcbs (udp n)) pcb /\ exists rest, udp_pcbs (udp n') = pcb :: rest)
       \/ (Forall (fun q => ~ P q) (udp_pcbs (udp n)) /\ n' = n
           /\ (first_with Q (udp_pcbs (udp n)) pcb \/ pcb = NULL /\ Forall (fun q => ~ Q q) (udp_pcbs (udp n)))).
Proof.
  intros Hok. unfold demux.
  assert (Hl : Forall (fun pcb => pcb <> NULL /\ is_Some (udp_heap (udp n) !! pcb)) (udp_pcbs (udp n))).
  { apply Forall_forall. intros q Hq. apply (ok_bound _ Hok) in Hq as (u & Hu & _). split; [|by exists u].
    intros ->. destruct (ok_null _ Hok). congruence. }
  destruct (find_pcb_spec (udp_heap (udp n)) inp src_ip src dest_ip dest broadcast _ 0 NULL Hl) as (r & un & E & Hr).
  rewrite E. cbn [res_bind]. destruct r as [[j pcb]|].
  - destruct Hr as (l1 & l2 & El & Ej & Hf & Hl1). cbn [Nat.add] in Ej. subst j. destruct l1 as [|x l1]; cbn [length].
    + eexists _, _. split; [reflexivity|]. cbn. split_and!; [done..|by auto|]. left. split; [by exists [], l2|]. by exists l2.
    + change (S (length l1)) with (length (x :: l1)).
      assert (Hp : pcb :: delete (length (x :: l1)) (udp_pcbs (udp n)) ≡ₚ udp_pcbs (udp n)) by (rewrite El; apply move_front_perm).
      eexists _, _. split; [reflexivity|]. cbn [with_udp udp with_pcbs udp_heap udp_pcbs]. split_and!; [done|done| |by auto|].
      * by apply udp_ok_perm.
      * left. split; [by exists (x :: l1), l2|]. by eexists.
  - destruct Hr as [Hn Hr]. eexists _, _. split; [reflexivity|]. cbn. split_and!; [done..|by auto|]. right. split_and!; [done..|].
    cbn in Hr. destruct Hr as [[-> Hr]|Hr]; auto.
Qed.

(** What the API and incoming datagrams do to the pcbs.  An address of an interface changes
    to one that no pcb is bound to. *)
Inductive udp_step : udp_globals -> udp_globals -> Prop :=
| step_new g type : udp_step g (snd (udp_new_ip_type g type))
| step_bind g pcb ip port err g' :
    is_Some (udp_heap g !! pcb) -> is_u16 port -> udp_bind g pcb ip port = Ok (err, g') -> udp_step g g'
| step_connect g pcb ip port err g' :
    is_Some (udp_heap g !! pcb) -> udp_connect g pcb ip port = Ok (err, g') -> udp_step g g'
| step_disconnect g pcb g' : udp_disconnect g pcb = Ok g' -> udp_step g g'
| step_recv g pcb recv recv_arg g' : udp_recv g pcb recv recv_arg = Ok g' -> udp_step g g'
| step_remove g pcb g' : is_Some (udp_heap g !! pcb) -> udp_remove g pcb = Ok g' -> udp_step g g'
| step_addr g old new g' :
    ~ some_pcb g (fun _ u => u_local_ip u = new) -> udp_netif_ip_addr_changed g (Some old) (Some new) = Ok g' -> udp_step g g'
| step_demux n inp src_ip src dest_ip dest broadcast pcb n' :
    demux n inp src_ip src dest_ip dest broadcast = Ok (pcb, n') -> udp_step (udp n) (udp n').

Lemma udp_step_ok g g' : udp_ok g -> udp_step g g' -> udp_ok g'.
Proof.
  intros Hok Hs. destruct Hs as [g type|g pcb ip port err g' [u Hu] Hp E|g pcb ip port err g' [u Hu] E|g pcb g' E|g pcb r ra g' E
    |g pcb g' [u Hu] E|g old new g' Hn E|n inp src_ip src dest_ip dest bc pcb n' E].
  - by apply udp_new_ok.
  - destruct (udp_bind_spec g pcb ip port u Hok Hu Hp) as (e & g2 & E2 & Hok2 & _). congruence.
  - destruct (udp_connect_ok g pcb ip port u Hok Hu) as (e & g2 & E2 & Hok2). congruence.
  - unfold udp_disconnect, deref in E. destruct (udp_heap g !! pcb) as [u|] eqn:Hu; [|done]. cbn in E.
    injection E as <-. by eapply udp_ok_same.
  - unfold udp_recv, deref in E. destruct (udp_heap g !! pcb) as [u|] eqn:Hu; [|done]. cbn in E.
    injection E as <-. by eapply udp_ok_same.
  - destruct (udp_remove_ok g pcb u Hok Hu) as (g2 & E2 & Hok2). congruence.
  - destruct (udp_addr_changed_ok g old new Hok Hn) as (g2 & E2 & Hok2). congruence.
  - destruct (demux_spec n inp src_ip src dest_ip dest bc Hok) as (q & n2 & E2 & _ & _ & Hok2 & _). congruence.
Qed.

Lemma udp_steps_ok g g' : rtc udp_step g g' -> udp_ok g -> udp_ok g'.
Proof. induction 1 as [|x y z Hs _ IH]; intros Hx; [done|]. apply IH. by eapply udp_step_ok. Qed.

(** The state after [udp_init], with the elements of the pool. *)
Definition udp_start (pool : list Z) : udp_globals := mk_udp_globals ∅ [] UDP_LOCAL_PORT_RANGE_START pool.

Lemma udp_start_ok pool : NoDup pool -> NULL ∉ pool -> udp_ok (udp_start pool).
Proof.
  intros Hnd Hn. split; cbn [udp_start udp_heap udp_pcbs udp_port udp_pool]; try done.
  - constructor.
  - intros pcb. rewrite elem_of_nil. split; [done|]. intros (u & Hu & _). by rewrite lookup_empty in Hu.
Qed.

(** C21: Whatever sequence of calls of the API, incoming datagrams and changes of an interface
    address to one that no pcb is bound to, the list of UDP pcbs stays sound: no duplicates, exactly the bound ones of the pcbs that exist, none
    of them in the pool, and never two bound to the same address and port, so that bound
    endpoints are unambiguous. *)
Theorem udp_list_invariant pool g :
  NoDup pool -> NULL ∉ pool -> rtc udp_step (udp_start pool) g -> udp_ok g.
Proof.
  intros Hnd Hn Hr. eapply udp_steps_ok; [exact Hr|]. by apply udp_start_ok.
Qed.

(** C32: The search for a local port always ends, within as many attempts as the range has
    ports: with a port of the range that no pcb uses, or, if and only if there is none, with 0. *)
Theorem udp_new_port_terminates g :
  udp_ok g ->
  exists port g', udp_new_port g = Ok (port, g') /\ udp_ok g' /\ udp_heap g' = udp_heap g /\ udp_pcbs g' = udp_pcbs g
    /\ (port <> 0 -> in_range port /\ ~ port_used g port)
    /\ (port = 0 <-> forall q, in_range q -> port_used g q).
Proof.
  intros Hok. destruct (udp_new_port_spec g (ok_listed g Hok) (ok_port g Hok)) as (port & last & E & Hlast & Hres).
  eexists _, _. split; [exact E|]. split; [by apply udp_ok_port|]. split_and!; [done|done| |].
  - destruct Hres as [(? & _ & ?)|[-> _]]; done.
  - destruct Hres as [(Hr & _ & Hf)|[-> Hall]]; [|done]. split; [|by intros Hall; destruct Hf; apply Hall].
    unfold in_range, UDP_LOCAL_PORT_RANGE_START in Hr. lia.
Qed.

(** Binding never faults and keeps the invariant.  It succeeds exactly if no other pcb
    has the address and port (for port 0, if a port of the range is free), and then the
    pcb, on the list, has the address and that port, and nothing else about it or any other
    pcb changes; otherwise it reports ERR_USE and changes no pcb. *)
Theorem udp_bind_correct g pcb ipaddr port u :
  udp_ok g -> udp_heap g !! pcb = Some u -> is_u16 port ->
  exists err g', udp_bind g pcb ipaddr port = Ok (err, g') /\ udp_ok g'
    /\ ((err = ERR_OK /\ pcb ∈ udp_pcbs g' /\ exists port', udp_heap g' = <[pcb := with_local (default IPADDR_ANY ipaddr) port' u]> (udp_heap g)
           /\ if port =? 0 then in_range port' /\ ~ port_used g port' else port' = port)
        \/ (err = ERR_USE /\ udp_heap g' = udp_heap g /\ udp_pcbs g' = udp_pcbs g
            /\ if port =? 0 then forall q, in_range q -> port_used g q
               else some_pcb g (fun q v => q <> pcb /\ u_local_port v = port /\ u_local_ip v = default IPADDR_ANY ipaddr))).
Proof. exact (udp_bind_spec g pcb ipaddr port u). Qed.

(** C33: A datagram goes to the first pcb of the list whose addresses and ports match on both
    sides, which moves to the front of the list; without one, to the first pcb that is not
    connected and matches the local side; without one, to none.  Pcbs are neither lost nor
    changed. *)
Theorem udp_demux_correct n inp src_ip src dest_ip dest broadcast :
  udp_ok (udp n) ->
  exists pcb n', demux n inp src_ip src dest_ip dest broadcast = Ok (pcb, n')
    /\ udp_heap (udp n') = udp_heap (udp n) /\ udp_pcbs (udp n') ≡ₚ udp_pcbs (udp n) /\ udp_ok (udp n')
    /\ let P := full_match (udp_heap (udp n)) inp src_ip src dest_ip dest broadcast in
       let Q := unconnected (udp_heap (udp n)) inp dest_ip dest broadcast in
       (first_with P (udp_pcbs (udp n)) pcb /\ exists rest, udp_pcbs (udp n') = pcb :: rest)
       \/ (Forall (fun q => ~ P q) (udp_pcbs (udp n)) /\ n' = n
           /\ (first_with Q (udp_pcbs (udp n)) pcb \/ pcb = NULL /\ Forall (fun q => ~ Q q) (udp_pcbs (udp n)))).
Proof.
  intros Hok. destruct (demux_spec n inp src_ip src dest_ip dest broadcast Hok) as (pcb & n' & E & Hh & Hl & Hok' & _ & H).
  by exists pcb, n'.
Qed.
End Steps.

(** ** Examples *)

(** Two pcbs of a pool of three, bound to 10.0.0.1:7 and to a port of the range. *)
Definition udp_ex : udp_globals :=
  mk_udp_globals {[1 := mk_udp 16777226 0 0 0 255 0 7 0 0 255 0 0 NULL NULL;
                   2 := mk_udp 0 0 0 0 255 0 49153 0 0 255 0 0 NULL NULL;
                   3 := mk_udp 0 0 0 0 255 0 0 0 0 255 0 0 NULL NULL]} [2; 1] 49153 [].

Lemma udp_ex_reached : rtc (udp_step (A := unit) (W := unit)) (udp_start [1; 2; 3]) udp_ex.
Proof.
  eapply rtc_l; [apply (step_new _ 0)|]. eapply rtc_l; [apply (step_new _ 0)|]. eapply rtc_l; [apply (step_new _ 0)|].
  eapply rtc_l; [eapply (step_bind _ 1 (Some 16777226) 7); [vm_compute; by eexists|done|vm_compute; reflexivity]|].
  eapply rtc_l; [eapply (step_bind _ 2 None 0); [vm_compute; by eexists|done|vm_compute; reflexivity]|].
  match goal with |- rtc _ ?x _ => replace x with udp_ex by (vm_compute; reflexivity) end. apply rtc_refl.
Qed.

Lemma udp_ex_pool : NoDup [1; 2; 3] /\ NULL ∉ [1; 2; 3].
Proof. split; [apply (bool_decide_unpack (NoDup [1; 2; 3]))|apply (bool_decide_unpack (NULL ∉ [1; 2; 3]))]; by vm_compute. Qed.

Lemma udp_ex_ok : udp_ok udp_ex.
Proof. eapply udp_steps_ok; [exact udp_ex_reached|]. apply udp_start_ok; apply udp_ex_pool. Qed.

Lemma udp_list_invariant_witness : udp_ok udp_ex.
Proof. apply (udp_list_invariant [1; 2; 3] udp_ex (proj1 udp_ex_pool) (proj2 udp_ex_pool) udp_ex_reached). Defined.

Lemma udp_new_port_terminates_witness : exists g', udp_new_port udp_ex = Ok (49154, g') /\ udp_ok g'.
Proof.
  destruct (udp_new_port_terminates udp_ex udp_ex_ok) as (port & g' & E & Hok & _).
  exists g'. split; [|exact Hok]. rewrite E. do 2 f_equal. revert E. vm_compute. by intros [= <- _].
Defined.

Lemma udp_bind_correct_witness : exists g', udp_bind udp_ex 3 (Some 16777226) 7 = Ok (ERR_USE, g') /\ udp_ok g'.
Proof.
  destruct (udp_bind_correct udp_ex 3 (Some 16777226) 7 (mk_udp 0 0 0 0 255 0 0 0 0 255 0 0 NULL NULL) udp_ex_ok)
    as (err & g' & E & Hok & _); [vm_compute; reflexivity|done|].
  exists g'. split; [|exact Hok]. rewrite E. do 2 f_equal. revert E. vm_compute. by intros [= <- _].
Defined.

Lemma udp_demux_correct_witness :
  exists n', demux (with_udp udp_ex ex_net) ex_netif 33554442 1000 16777226 7 false = Ok (1, n').
Proof.
  destruct (udp_demux_correct (with_udp udp_ex ex_net) ex_netif 33554442 1000 16777226 7 false udp_ex_ok) as (pcb & n' & E & _).
  exists n'. rewrite E. do 2 f_equal. revert E. vm_compute. by intros [= <- _].
Defined.

(** The check of [udp_bind] is not made when the address of an interface changes: a pcb
    bound to the old address can end up with the address and the port of another one. *)
Theorem udp_addr_change_collides :
  exists g1 g2, udp_bind udp_ex 3 (Some 33554442) 7 = Ok (ERR_OK, g1) /\ udp_ok g1
    /\ udp_netif_ip_addr_changed g1 (Some 16777226) (Some 33554442) = Ok g2 /\ ~ ports_unique g2.
Proof.
  destruct (udp_bind_spec udp_ex 3 (Some 33554442) 7 (mk_udp 0 0 0 0 255 0 0 0 0 255 0 0 NULL NULL) udp_ex_ok)
    as (err & g1 & E & Hok & _); [vm_compute; reflexivity|done|].
  vm_compute in E. injection E as <- <-.
  eexists _, _. split; [vm_compute; reflexivity|]. split; [exact Hok|]. split; [vm_compute; reflexivity|].
  intros Hu. enough (3 = 1) by done.
  eapply Hu; [left|right; right; left|vm_compute; reflexivity|vm_compute; reflexivity|vm_compute; reflexivity|vm_compute; reflexivity].
Qed.
