(* ===== verification/Raw.v ===== *)
(** * Raw sockets: lwip/src/core/raw.c

    Control blocks that see whole IP packets.  IP_SOF_BROADCAST, IP_SOF_BROADCAST_RECV
    and LWIP_IPV6 are 0. *)

From S2P Require Import Prelude Def Ip4Addr InetChksum Pbuf Net Ip4 Udp.

(** ** Definitions *)

Definition RAW_TTL : Z := 255.

Definition set_raw (g : raw_globals) (pcb : Z) (r : raw_pcb) : raw_globals :=
  mk_raw_globals (<[pcb := r]> (raw_heap g)) (raw_pcbs g) (raw_pool g).
Definition with_raw_local (ip : Z) (r : raw_pcb) : raw_pcb :=
  mk_raw ip (r_remote_ip r) (r_so_options r) (r_tos r) (r_ttl r) (r_protocol r) (r_recv r) (r_recv_arg r).
Definition with_raw_remote (ip : Z) (r : raw_pcb) : raw_pcb :=
  mk_raw (r_local_ip r) ip (r_so_options r) (r_tos r) (r_ttl r) (r_protocol r) (r_recv r) (r_recv_arg r).

Definition raw_input_match (r : raw_pcb) (dest_ip : Z) (broadcast : bool) : bool :=
  if broadcast then ip4_addr_isany_val (r_local_ip r)
  else ip4_addr_isany_val (r_local_ip r) || (r_local_ip r =? dest_ip).

(** [pcb->next], NULL for the last one. *)
Fixpoint raw_next (l : list Z) (pcb : Z) : res Z :=
  match l with
  | [] => Fault FBadAccess
  | q :: l' => if q =? pcb then Ok (default NULL (head l')) else raw_next l' pcb
  end.

Definition raw_bind (g : raw_globals) (pcb : Z) (ipaddr : option Z) : res (err_t * raw_globals) :=
  match ipaddr with
  | None => Ok (ERR_VAL, g)
  | Some ip =>
      if pcb =? NULL then Ok (ERR_VAL, g)
      else let* r := deref (raw_heap g) pcb in Ok (ERR_OK, set_raw g pcb (with_raw_local ip r))
  end.

Definition raw_connect (g : raw_globals) (pcb : Z) (ipaddr : option Z) : res (err_t * raw_globals) :=
  match ipaddr with
  | None => Ok (ERR_VAL, g)
  | Some ip =>
      if pcb =? NULL then Ok (ERR_VAL, g)
      else let* r := deref (raw_heap g) pcb in Ok (ERR_OK, set_raw g pcb (with_raw_remote ip r))
  end.

Definition raw_recv (g : raw_globals) (pcb recv recv_arg : Z) : res raw_globals :=
  let* r := deref (raw_heap g) pcb in
  Ok (set_raw g pcb (mk_raw (r_local_ip r) (r_remote_ip r) (r_so_options r) (r_tos r) (r_ttl r) (r_protocol r)
                       recv recv_arg)).

(** With an empty list, [raw_pcbs == NULL] makes the code read through NULL. *)
Definition raw_remove (g : raw_globals) (pcb : Z) : res raw_globals :=
  if pcb =? NULL then (if bool_decide (raw_pcbs g = []) then Fault FBadAccess else Ok g)
  else Ok (mk_raw_globals (delete pcb (raw_heap g)) (unlink (raw_pcbs g) pcb) (pcb :: raw_pool g)).

Definition raw_new (g : raw_globals) (proto : Z) : Z * raw_globals :=
  match raw_pool g with
  | [] => (NULL, g)
  | pcb :: pool =>
      (pcb, mk_raw_globals (<[pcb := mk_raw 0 0 0 0 RAW_TTL proto NULL NULL]> (raw_heap g)) (pcb :: raw_pcbs g) pool)
  end.

Definition raw_new_ip_type (g : raw_globals) (type proto : Z) : Z * raw_globals := raw_new g proto.

(** The loop of [raw_netif_ip_addr_changed]. *)
Fixpoint raw_change_addrs (h : gmap Z raw_pcb) (l : list Z) (old_addr new_addr : Z) : res (gmap Z raw_pcb) :=
  match l with
  | [] => Ok h
  | pcb :: l' =>
      let* r := deref h pcb in
      raw_change_addrs (if r_local_ip r =? old_addr then <[pcb := with_raw_local new_addr r]> h else h)
        l' old_addr new_addr
  end.

Definition raw_netif_ip_addr_changed (g : raw_globals) (old_addr new_addr : option Z) : res raw_globals :=
  match old_addr, new_addr with
  | Some old_addr, Some new_addr =>
      if negb (ip4_addr_isany_val old_addr) && negb (ip4_addr_isany_val new_addr) then
        let* h := raw_change_addrs (raw_heap g) (raw_pcbs g) old_addr new_addr in
        Ok (mk_raw_globals h (raw_pcbs g) (raw_pool g))
      else Ok g
  | _, _ => Ok g
  end.

Section Raw.
Context {A W : Type} `{AllocOps A} `{FragPool A}.
Variable stale_flags : Z -> Z.
Variable custom_free : Z -> Z -> Pbuf.state A -> res (Pbuf.state A).
Variable callback_ok : bool.
Variable netif_output : net A W -> Z -> Z -> Z -> res (err_t * net A W).

(** The receive function at the given address, with [recv_arg], the pcb, the packet and
    its source; nonzero: it has taken the packet. *)
Variable raw_recv_fn : Z -> net A W -> Z -> Z -> Z -> Z -> res (Z * net A W).
Implicit Types n : net A W.

(** The [while] loop, from [pcb] on.  [prev] is the pcb before it. *)
Fixpoint raw_loop (fuel : nat) n (p proto pcb prev : Z) (broadcast : bool) : res (bool * net A W) :=
  match fuel with
  | O => Fault FFuel
  | S fuel' =>
      if pcb =? NULL then Ok (false, n)
      else
        let* r := deref (raw_heap (raw n)) pcb in
        let* (eaten, n) :=
          if (r_protocol r =? proto) && raw_input_match r (current_iphdr_dest (ip_data n)) broadcast
             && negb (r_recv r =? NULL) then
            let* b := pbuf_at n p in
            let* (eaten, n) := raw_recv_fn (r_recv r) n (r_recv_arg r) pcb p (current_iphdr_src (ip_data n)) in
            if negb (eaten =? 0) then
              let g := raw n in
              Ok (true, if negb (prev =? NULL)
                        then with_raw (mk_raw_globals (raw_heap g) (pcb :: unlink (raw_pcbs g) pcb) (raw_pool g)) n
                        else n)
            else
              let* b' := pbuf_at n p in
              assert* (payload b' =? payload b) in
              Ok (false, n)
          else Ok (false, n) in
        if (eaten : bool) then Ok (true, n)
        else
          let* nxt := raw_next (raw_pcbs (raw n)) pcb in
          raw_loop fuel' n p proto nxt pcb broadcast
  end.

(** [true]: the packet has been eaten. *)
Definition raw_input n (p inp : Z) : res (bool * net A W) :=
  let* cur := netif_at n (current_netif (ip_data n)) in
  let broadcast := ip4_addr_isbroadcast_u32 (current_iphdr_dest (ip_data n)) cur in
  let* b := pbuf_at n p in
  let proto := IPH_PROTO (mem n) (payload b) in
  raw_loop (S (length (raw_pcbs (raw n)))) n p proto (default NULL (head (raw_pcbs (raw n)))) NULL broadcast.

(** Room for the IP header in [p], or else in a pbuf in front of it; NULL without memory. *)
Definition raw_add_header n (p : Z) : res (Z * net A W) :=
  let* (failed, n) := header n p IP_HLEN in
  if (failed : bool) then
    let* (q, n) := alloc_pbuf stale_flags custom_free callback_ok n PBUF_IP 0 PBUF_RAM in
    if q =? NULL then Ok (NULL, n)
    else
      let* b := pbuf_at n p in
      if negb (tot_len b =? 0) then let* s := pbuf_chain (packets n) q p in Ok (q, with_packets s n)
      else Ok (q, n)
  else
    let* (failed, n) := header n p (- IP_HLEN) in
    assert* negb failed in
    Ok (p, n).

Definition raw_sendto n (pcb p : Z) (ipaddr : option Z) : res (err_t * net A W) :=
  match ipaddr with
  | None => Ok (ERR_VAL, n)
  | Some dest =>
      if pcb =? NULL then Ok (ERR_VAL, n)
      else
        let* r := deref (raw_heap (raw n)) pcb in
        let* (q, n) := raw_add_header n p in
        if q =? NULL then Ok (ERR_MEM, n)
        else
          let* (nif, n) := ip4_route n dest in
          if nif =? NULL then
            let* n := if negb (q =? p) then free custom_free n q else Ok n in Ok (ERR_RTE, n)
          else
            let* nf := netif_at n nif in
            let src_ip := if ip4_addr_isany_val (r_local_ip r) then netif_ip4_addr nf else r_local_ip r in
            let* (err, n) := ip4_output_if stale_flags custom_free callback_ok netif_output n q (Some src_ip)
                               (Some dest) (r_ttl r) (r_tos r) (r_protocol r) nif in
            let* n := if negb (q =? p) then free custom_free n q else Ok n in
            Ok (err, n)
  end.

Definition raw_send n (pcb p : Z) : res (err_t * net A W) :=
  let* r := deref (raw_heap (raw n)) pcb in raw_sendto n pcb p (Some (r_remote_ip r)).

End Raw.
