(* ===== verification/Ip4In.v ===== *)
(** * IPv4 input and forwarding: lwip/src/core/ipv4/ip4.c

    What happens to a packet that a driver hands to the stack.  LWIP_DHCP and
    LWIP_AUTOIP are 0; LWIP_IGMP, IP_FORWARD, IP_REASSEMBLY, LWIP_RAW and
    IP_OPTIONS_ALLOWED are 1, IP_FORWARD_ALLOW_TX_ON_RX_NETIF is 0. *)

From S2P Require Import Prelude Def Ip4Addr InetChksum Pbuf PbufData PbufAlloc PbufOps Net Ip4 Icmp Reass Igmp Udp Raw.

(** ** Definitions *)

Definition IP_EXPERIMENTAL (a : Z) : bool := Z.land a 4026531840 =? 4026531840.
Definition IP_MULTICAST (a : Z) : bool := Z.land a 4026531840 =? 3758096384.
Definition IP_CLASSA (a : Z) : bool := Z.land a 2147483648 =? 0.
Definition IP_CLASSA_NET : Z := 4278190080.
Definition IP_CLASSA_NSHIFT : Z := 24.
Definition IP_LOOPBACKNET : Z := 127.

Definition ip4_canforward (flags dest : Z) : bool :=
  let addr := lwip_htonl dest in
  if negb (Z.land flags PBUF_FLAG_LLBCAST =? 0) then false
  else if negb (Z.land flags PBUF_FLAG_LLMCAST =? 0) && negb (IP_MULTICAST addr) then false
  else if IP_EXPERIMENTAL addr then false
  else if IP_CLASSA addr then
    let net := Z.land addr IP_CLASSA_NET in
    negb ((net =? 0) || (net =? Z.shiftl IP_LOOPBACKNET IP_CLASSA_NSHIFT))
  else true.

(** The checksum after the TTL has been decremented. *)
Definition forward_chksum (chksum : Z) : Z :=
  if PP_HTONS (65535 - 256) <=? chksum then u16 (chksum + PP_HTONS 256 + 1) else u16 (chksum + PP_HTONS 256).

Section Ip4In.
Context {A W : Type} `{AllocOps A} `{FragPool A}.
Variable stale_flags : Z -> Z.
Variable custom_free : Z -> Z -> Pbuf.state A -> res (Pbuf.state A).
Variable callback_ok : bool.
Variable netif_output : net A W -> Z -> Z -> Z -> res (err_t * net A W).
Variable udp_recv_fn : Z -> net A W -> Z -> Z -> Z -> Z -> Z -> res (net A W).
Variable raw_recv_fn : Z -> net A W -> Z -> Z -> Z -> Z -> res (Z * net A W).

(** [tcp_input] of lwip/src/core/tcp_in.c. *)
Variable tcp_input : net A W -> Z -> Z -> res (net A W).
Implicit Types n : net A W.

(** The TTL has been decremented: forward the packet on [nif]. *)
Definition forward_on n (p iphdr nif dest : Z) : res (net A W) :=
  let m := IPH_CHKSUM_SET (mem n) iphdr (forward_chksum (IPH_CHKSUM (mem n) iphdr)) in
  let n := inc P_ip c_xmit (inc P_ip c_fw (with_mem m n)) in
  let* nf := netif_at n nif in
  let* b := pbuf_at n p in
  if negb (netif_mtu nf =? 0) && (netif_mtu nf <? tot_len b) then
    if Z.land (IPH_OFFSET (mem n) iphdr) (PP_NTOHS IP_DF) =? 0 then
      let* (_, n) := ip4_frag stale_flags custom_free callback_ok netif_output n p nif dest in Ok n
    else icmp_dest_unreach stale_flags custom_free callback_ok netif_output n p ICMP_DUR_FRAG
  else let* (_, n) := netif_output n nif p dest in Ok n.

Definition ip4_forward n (p iphdr inp : Z) : res (net A W) :=
  let dest := current_iphdr_dest (ip_data n) in
  let* b := pbuf_at n p in
  if negb (ip4_canforward (flags b) dest) then Ok n
  else if ip4_addr_islinklocal dest then Ok n
  else
    let* (nif, n) := ip4_route n dest in
    if nif =? NULL then Ok n
    else if nif =? inp then Ok n
    else
      let n := with_mem (IPH_TTL_SET (mem n) iphdr (IPH_TTL (mem n) iphdr - 1)) n in
      if IPH_TTL (mem n) iphdr =? 0 then
        if negb (IPH_PROTO (mem n) iphdr =? IP_PROTO_ICMP)
        then icmp_time_exceeded stale_flags custom_free callback_ok netif_output n p ICMP_TE_TTL
        else Ok n
      else forward_on n p iphdr nif dest.

(** Is the packet for the interface? *)
Definition accepts (nf : netif) (dest : Z) : bool :=
  netif_is_up nf && negb (ip4_addr_isany_val (netif_ip4_addr nf))
  && ((dest =? netif_ip4_addr nf) || ip4_addr_isbroadcast_u32 dest nf || (dest =? PP_HTONL IPADDR_LOOPBACK)).

(** The walk over the list of interfaces, without [inp]. *)
Fixpoint accept_walk n (l : list Z) (inp dest : Z) : res Z :=
  match l with
  | [] => Ok NULL
  | nif :: l' =>
      if nif =? inp then accept_walk n l' inp dest
      else let* nf := netif_at n nif in if accepts nf dest then Ok nif else accept_walk n l' inp dest
  end.

(** The interface that a packet to [dest] is for, NULL for none, and whether the
    source address is to be checked. *)
Definition accept n (inp dest src : Z) : res (Z * bool) :=
  let* nf := netif_at n inp in
  if ip4_addr_ismulticast dest then
    if igmp_netif nf && bool_decide (igmp_lookfor_group (groups n inp) dest <> None) then
      Ok (inp, negb ((dest =? allsystems) && ip4_addr_isany_val src))
    else Ok (NULL, true)
  else if accepts nf dest then Ok (inp, true)
  else let* nif := accept_walk n (netif_list n) inp dest in Ok (nif, true).

(** To the upper layers. *)
Definition dispatch n (p inp nif iphdr iphdr_hlen : Z) : res (net A W) :=
  let* (eaten, n) := raw_input raw_recv_fn n p inp in
  if (eaten : bool) then Ok n
  else
    let dest := current_iphdr_dest (ip_data n) in
    let* (_, n) := header n p (- s16 iphdr_hlen) in
    let proto := IPH_PROTO (mem n) iphdr in
    if (proto =? IP_PROTO_UDP) || (proto =? IP_PROTO_UDPLITE) then
      udp_input stale_flags custom_free callback_ok netif_output udp_recv_fn n p inp
    else if proto =? IP_PROTO_TCP then tcp_input n p inp
    else if proto =? IP_PROTO_ICMP then icmp_input stale_flags custom_free callback_ok netif_output n p inp
    else if proto =? IP_PROTO_IGMP then igmp_input custom_free n p inp dest
    else
      let* nf := netif_at n nif in
      let* n :=
        if negb (ip4_addr_isbroadcast_u32 dest nf) && negb (ip4_addr_ismulticast dest) then
          let* (_, n) := header_force n p (s16 iphdr_hlen) in
          let* s := upd (packets n) p (with_payload iphdr) in
          icmp_dest_unreach stale_flags custom_free callback_ok netif_output (with_packets s n) p ICMP_DUR_PROTO
        else Ok n in
      let* n := free custom_free n p in
      Ok (inc P_ip c_drop (inc P_ip c_proterr n)).

(** The packet is dropped. *)
Definition drop_packet n (p : Z) (why : list counter) : res (net A W) :=
  let* n := free custom_free n p in
  Ok (foldl (fun n c => inc P_ip c n) n why).

(** After the checks of the header: is the packet for us? *)
Definition input_checked n (p inp iphdr iphdr_hlen : Z) : res (net A W) :=
  let dest := iph_dest (mem n) iphdr in
  let src := iph_src (mem n) iphdr in
  let g := ip_data n in
  let n := with_ip_data (mk_globals (current_netif g) (current_input_netif g) (current_ip4_header g)
                           (current_ip_header_tot_len g) src dest) n in
  let* (nif, check_ip_src) := accept n inp dest src in
  let* nf := netif_at n inp in
  if check_ip_src && (ip4_addr_isbroadcast_u32 src nf || ip4_addr_ismulticast src) then drop_packet n p [c_drop]
  else if nif =? NULL then
    let* n :=
      if negb (ip4_addr_isbroadcast_u32 dest nf) then ip4_forward n p iphdr inp
      else Ok (inc P_ip c_drop n) in
    free custom_free n p
  else
    let* (p, n) :=
      if negb (Z.land (IPH_OFFSET (mem n) iphdr) (PP_HTONS (Z.lor IP_OFFMASK IP_MF)) =? 0)
      then ip4_reass stale_flags custom_free callback_ok netif_output n p
      else Ok (p, n) in
    if p =? NULL then Ok n
    else
      let* b := pbuf_at n p in
      let iphdr := payload b in
      let n := with_ip_data (mk_globals nif inp iphdr (IPH_HL (mem n) iphdr * 4) src dest) n in
      let* n := dispatch n p inp nif iphdr iphdr_hlen in
      Ok (with_ip_data (mk_globals NULL NULL NULL 0 IPADDR_ANY IPADDR_ANY) n).

(** [ip4_input] always returns ERR_OK. *)
Definition ip4_input n (p inp : Z) : res (err_t * net A W) :=
  let n := inc P_ip c_recv n in
  let* b := pbuf_at n p in
  let iphdr := payload b in
  let* n :=
    if negb (IPH_V (mem n) iphdr =? 4) then drop_packet n p [c_err; c_drop]
    else
      let iphdr_hlen := IPH_HL (mem n) iphdr * 4 in
      let iphdr_len := lwip_ntohs (IPH_LEN (mem n) iphdr) in
      let* n := if iphdr_len <? tot_len b
                then let* s := pbuf_realloc custom_free (packets n) p iphdr_len in Ok (with_packets s n) else Ok n in
      let* b := pbuf_at n p in
      if (len b <? iphdr_hlen) || (tot_len b <? iphdr_len) || (iphdr_hlen <? IP_HLEN)
      then drop_packet n p [c_lenerr; c_drop]
      else if negb (inet_chksum iphdr (rd (mem n) iphdr (Z.to_nat iphdr_hlen)) =? 0)
      then drop_packet n p [c_chkerr; c_drop]
      else input_checked n p inp iphdr iphdr_hlen in
  Ok (ERR_OK, n).

Definition ip4_set_default_multicast_netif n (nif : Z) : net A W := with_default_multicast_netif nif n.

End Ip4In.

(** ** Forwarding *)

(** Decrementing the TTL and adjusting the checksum keeps a header valid. *)
Lemma forward_chksum_verifies front ttl proto chk rest :
  length front = 8%nat -> bytes_ok front -> 0 < word_sum front -> 1 <= ttl < 256 -> is_u8 proto -> is_u16 chk ->
  bytes_ok rest ->
  internet_checksum (front ++ [ttl; proto] ++ le_bytes 2 chk ++ rest) = 0 ->
  internet_checksum (front ++ [ttl - 1; proto] ++ le_bytes 2 (forward_chksum chk) ++ rest) = 0.
Proof.
  intros Hl Hf Hpos Httl Hproto Hchk Hrest.
  assert (Hc2 : is_u16 (forward_chksum chk)) by (unfold forward_chksum; case_match; apply u16_range).
  assert (E : forall t c, is_u16 c ->
    word_sum (front ++ [t; proto] ++ le_bytes 2 c ++ rest) = word_sum front + (t + 256 * proto + (c + word_sum rest))).
  { intros t c Hc. rewrite word_sum_app by (by rewrite Hl). unfold is_u16 in Hc. cbn [le_bytes app word_sum]. zlia. }
  assert (Hb : forall t c, is_u8 t -> bytes_ok (front ++ [t; proto] ++ le_bytes 2 c ++ rest)).
  { intros t c Ht. rewrite !bytes_ok_app. split_and!; [done|by apply Forall_cons; split; [|apply Forall_singleton]|apply le_bytes_ok|done]. }
  unfold is_u8, is_u16 in *. rewrite !checksum_zero_iff by (apply Hb; lia). rewrite !E by done.
  pose proof (word_sum_nonneg _ Hrest). unfold forward_chksum, u16.
  change (PP_HTONS (65535 - 256)) with 65534. change (PP_HTONS 256) with 1.
  destruct (Z.leb_spec 65534 chk); intros [Hs Hmod]; split; zlia.
Qed.

(** Which destinations are not forwarded: network 0, loopback and class E, and what came
    as a link-layer broadcast, or as a link-layer multicast without being an IP multicast. *)
Lemma ip4_canforward_spec flags a b c d :
  is_u8 a -> is_u8 b -> is_u8 c -> is_u8 d ->
  ip4_canforward flags (le_val [a; b; c; d])
  = (Z.land flags PBUF_FLAG_LLBCAST =? 0)
    && ((Z.land flags PBUF_FLAG_LLMCAST =? 0) || ((224 <=? a) && (a <? 240)))
    && (a <? 240) && negb (a =? 0) && negb (a =? 127).
Proof.
  unfold is_u8. intros Ha Hb Hc Hd. unfold ip4_canforward.
  set (addr := lwip_htonl (le_val [a; b; c; d])).
  assert (Eaddr : addr = a * 16777216 + b * 65536 + c * 256 + d).
  { subst addr. unfold lwip_htonl, u32. rewrite PP_HTONL_arith. cbn [le_val].
    replace ((a + 256 * (b + 256 * (c + 256 * (d + 256 * 0)))) mod 256) with a by zlia.
    replace (((a + 256 * (b + 256 * (c + 256 * (d + 256 * 0)))) / 256) mod 256) with b by zlia.
    replace (((a + 256 * (b + 256 * (c + 256 * (d + 256 * 0)))) / 65536) mod 256) with c by zlia.
    replace (((a + 256 * (b + 256 * (c + 256 * (d + 256 * 0)))) / 16777216) mod 256) with d by zlia. zlia. }
  assert (E28 : Z.land addr 4026531840 = a / 16 * 268435456).
  { change 4026531840 with ((2 ^ 4 - 1) * 2 ^ 28). rewrite land_field by lia.
    change (2 ^ 28) with 268435456. change (2 ^ 4) with 16. rewrite Eaddr. zlia. }
  assert (E31 : Z.land addr 2147483648 = a / 128 * 2147483648).
  { change 2147483648 with ((2 ^ 1 - 1) * 2 ^ 31) at 1. rewrite land_field by lia.
    change (2 ^ 31) with 2147483648. change (2 ^ 1) with 2. rewrite Eaddr. zlia. }
  assert (E24 : Z.land addr IP_CLASSA_NET = a * 16777216).
  { unfold IP_CLASSA_NET. rewrite land_byte3, Eaddr. zlia. }
  unfold IP_MULTICAST, IP_EXPERIMENTAL, IP_CLASSA. rewrite E28, E31, E24.
  change (Z.shiftl IP_LOOPBACKNET IP_CLASSA_NSHIFT) with (127 * 16777216).
  destruct (Z.land flags PBUF_FLAG_LLBCAST =? 0); [|done]. cbn [negb andb].
  destruct (Z.land flags PBUF_FLAG_LLMCAST =? 0); cbn [negb andb orb];
    zcases; cbn [negb andb orb]; try done; zlia.
Qed.

Section Forward.
Context {A W : Type} `{AllocOps A} `{FragPool A}.
Variable stale_flags : Z -> Z.
Variable custom_free : Z -> Z -> Pbuf.state A -> res (Pbuf.state A).
Variable callback_ok : bool.
Variable netif_output : net A W -> Z -> Z -> Z -> res (err_t * net A W).
Implicit Types n : net A W.

(** The header at [a] with the TTL decremented and the checksum adjusted. *)
Definition aged_mem (m : memory) (a : Z) : memory :=
  let m1 := IPH_TTL_SET m a (IPH_TTL m a - 1) in
  IPH_CHKSUM_SET m1 a (forward_chksum (IPH_CHKSUM m1 a)).

Lemma aged_mem_spec m a hlen :
  mem_ok m -> (20 <= hlen)%nat -> 1 <= IPH_TTL m a -> 0 < rd8 m a ->
  internet_checksum (rd m a hlen) = 0 ->
  internet_checksum (rd (aged_mem m a) a hlen) = 0
  /\ rd (aged_mem m a) a hlen
     = take 8 (rd m a hlen) ++ [IPH_TTL m a - 1; rd8 m (a + 9)] ++ le_bytes 2 (forward_chksum (IPH_CHKSUM m a))
       ++ drop 12 (rd m a hlen)
  /\ (forall x, (x < a + 8 \/ a + 12 <= x) -> rd8 (aged_mem m a) x = rd8 m x)
  /\ IPH_TTL (aged_mem m a) a = IPH_TTL m a - 1 /\ rd8 (aged_mem m a) (a + 9) = rd8 m (a + 9).
Proof.
  intros Hm Hh Httl Hv Hc. unfold IPH_TTL in *. pose proof (Hm (a + 8)) as H8. unfold is_u8 in H8.
  assert (E16 : IPH_CHKSUM (IPH_TTL_SET m a (rd8 m (a + 8) - 1)) a = IPH_CHKSUM m a).
  { unfold IPH_CHKSUM, IPH_TTL_SET, wr8. apply rd16_apart. cbn. lia. }
  assert (Ht : rd8 m (a + 8) - 1 = u8 (rd8 m (a + 8) - 1)) by (symmetry; apply u8_id; unfold is_u8; lia).
  assert (Hfr : forall x, (x < a + 8 \/ a + 12 <= x) -> rd8 (aged_mem m a) x = rd8 m x).
  { intros x Hx. unfold aged_mem, IPH_TTL. cbv zeta. rewrite E16. unfold IPH_CHKSUM_SET, IPH_TTL_SET, wr16, wr8.
    by rewrite !wr_outside by (cbn [length le_bytes]; lia). }
  assert (E : rd (aged_mem m a) a hlen
     = take 8 (rd m a hlen) ++ [rd8 m (a + 8) - 1; rd8 m (a + 9)] ++ le_bytes 2 (forward_chksum (IPH_CHKSUM m a))
       ++ drop 12 (rd m a hlen)).
  { rewrite take_rd, drop_rd. replace (8 `min` hlen)%nat with 8%nat by lia.
    replace hlen with (8 + (4 + (hlen - 12)))%nat at 1 by lia. rewrite !rd_add.
    rewrite (app_assoc [rd8 m (a + 8) - 1; rd8 m (a + 9)]). f_equal; [|f_equal].
    - apply rd_ext. intros x Hx. apply Hfr. lia.
    - unfold aged_mem, IPH_TTL. cbv zeta. rewrite E16. unfold IPH_CHKSUM_SET, IPH_TTL_SET, wr16, wr8. cbn [rd].
      change (Z.of_nat 8) with 8. repeat (rewrite <- Z.add_assoc; cbn [Z.add Pos.add Pos.succ]). rd8_solve.
      rewrite <- Ht. done.
    - replace (a + Z.of_nat 8 + Z.of_nat 4) with (a + Z.of_nat 12) by lia. apply rd_ext. intros x Hx. apply Hfr. lia. }
  assert (E89 : rd8 (aged_mem m a) (a + 8) = rd8 m (a + 8) - 1 /\ rd8 (aged_mem m a) (a + 9) = rd8 m (a + 9)).
  { unfold aged_mem, IPH_TTL. cbv zeta. rewrite E16. unfold IPH_CHKSUM_SET, IPH_TTL_SET, wr16, wr8. rd8_solve. done. }
  split; [|done]. rewrite E.
  pose proof (rd16_range m (a + 10) Hm) as H10. fold (IPH_CHKSUM m a) in H10.
  apply forward_chksum_verifies; try done.
  - rewrite length_take, length_rd. lia.
  - by apply bytes_ok_take, mem_ok_rd.
  - rewrite take_rd. replace (8 `min` hlen)%nat with 8%nat by lia. cbn [rd word_sum].
    pose proof (fun x => Hm x) as Hb. unfold mem_ok, is_u8 in Hb.
    pose proof (Hb (a+1)). pose proof (Hb (a+1+1)). pose proof (Hb (a+1+1+1)). pose proof (Hb (a+1+1+1+1)).
    pose proof (Hb (a+1+1+1+1+1)). pose proof (Hb (a+1+1+1+1+1+1)). pose proof (Hb (a+1+1+1+1+1+1+1)). lia.
  - lia.
  - by apply bytes_ok_drop, mem_ok_rd.
  - rewrite <- Hc. f_equal. rewrite take_rd, drop_rd. replace (8 `min` hlen)%nat with 8%nat by lia.
    replace hlen with (8 + (4 + (hlen - 12)))%nat at 2 by lia. rewrite !rd_add. f_equal.
    unfold IPH_CHKSUM. rewrite <- rd16_bytes by done. cbn [rd]. change (Z.of_nat 8) with 8. change (Z.of_nat 4) with 4.
    change (Z.of_nat 12) with 12. repeat (rewrite <- Z.add_assoc; cbn [Z.add Pos.add Pos.succ]). done.
Qed.

(** C24: Forwarding.  A packet that may be forwarded, has a valid header and a TTL of at least
    2, and for which there is a route to another interface, leaves on that interface with
    the TTL decremented by one and a checksum that verifies, and nothing else changed: it is
    sent, fragmented if it exceeds the MTU and may be, or else refused with an ICMP message. *)
Theorem ip4_forward_correct n p b bl iphdr inp nif nf hlen :
  packet (pbufs (packets n)) p ((p, b) :: bl) -> payload b = iphdr -> mem_ok (mem n) ->
  (20 <= hlen)%nat -> IPH_V (mem n) iphdr = 4 -> internet_checksum (rd (mem n) iphdr hlen) = 0 ->
  2 <= IPH_TTL (mem n) iphdr ->
  ip4_canforward (flags b) (current_iphdr_dest (ip_data n)) = true ->
  ip4_addr_islinklocal (current_iphdr_dest (ip_data n)) = false ->
  ip4_route n (current_iphdr_dest (ip_data n)) = Ok (nif, n) -> nif <> NULL -> nif <> inp ->
  netifs n !! nif = Some nf ->
  let dest := current_iphdr_dest (ip_data n) in
  let m' := aged_mem (mem n) iphdr in
  let n' := inc P_ip c_xmit (inc P_ip c_fw (with_mem m' n)) in
  ip4_forward stale_flags custom_free callback_ok netif_output n p iphdr inp
  = (if negb (netif_mtu nf =? 0) && (netif_mtu nf <? total ((p, b) :: bl)) then
       if Z.land (IPH_OFFSET (mem n) iphdr) (PP_NTOHS IP_DF) =? 0 then
         let* (_, n2) := ip4_frag stale_flags custom_free callback_ok netif_output n' p nif dest in Ok n2
       else icmp_dest_unreach stale_flags custom_free callback_ok netif_output n' p ICMP_DUR_FRAG
     else let* (_, n2) := netif_output n' nif p dest in Ok n2)
  /\ IPH_TTL m' iphdr = IPH_TTL (mem n) iphdr - 1
  /\ internet_checksum (rd m' iphdr hlen) = 0
  /\ (forall x, x <> iphdr + 8 -> (x < iphdr + 10 \/ iphdr + 12 <= x) -> rd8 m' x = rd8 (mem n) x).
Proof.
  intros Hpk Epl Hm Hh Hv Hc Httl Hcf Hll Hrt Hne Hni Hnf dest m' n'. fold dest in Hcf, Hll, Hrt.
  pose proof Hpk as ((_ & _ & Hb & _) & (_ & Htl & _) & _). rewrite <- (total_cons p) in Htl.
  assert (Hv0 : 0 < rd8 (mem n) iphdr).
  { unfold IPH_V in Hv. rewrite Z.shiftr_div_pow2 in Hv by lia. change (2 ^ 4) with 16 in Hv. zlia. }
  destruct (aged_mem_spec (mem n) iphdr hlen Hm Hh ltac:(lia) Hv0 Hc) as (Hver & _ & Hfr & Ht). fold m' in Hver, Hfr, Ht.
  split_and!; [|apply Ht|done|].
  2:{ intros x Hx8 Hx. destruct (decide (x = iphdr + 9)) as [->|]; [apply Ht|apply Hfr; lia]. }
  unfold ip4_forward. fold dest. unfold pbuf_at at 1. rewrite (deref_ok _ _ _ Hb). cbn [res_bind].
  rewrite Hcf, Hll. cbn [negb]. rewrite Hrt. cbn [res_bind].
  rewrite (proj2 (Z.eqb_neq nif NULL)), (proj2 (Z.eqb_neq nif inp)) by done.
  set (m1 := IPH_TTL_SET (mem n) iphdr (IPH_TTL (mem n) iphdr - 1)). change (mem (with_mem m1 n)) with m1.
  pose proof (Hm (iphdr + 8)) as H8. unfold is_u8 in H8. unfold IPH_TTL in Httl.
  assert (E1 : IPH_TTL m1 iphdr = IPH_TTL (mem n) iphdr - 1).
  { unfold IPH_TTL, m1, IPH_TTL_SET, wr8. rd8_solve. apply u8_id. unfold is_u8, IPH_TTL. lia. }
  rewrite E1, (proj2 (Z.eqb_neq _ 0)) by (unfold IPH_TTL; lia).
  unfold forward_on. change (mem (with_mem m1 n)) with m1.
  change (IPH_CHKSUM_SET m1 iphdr (forward_chksum (IPH_CHKSUM m1 iphdr))) with m'.
  change (with_mem m' (with_mem m1 n)) with (with_mem m' n). fold n'.
  change (netif_at n' nif) with (deref (netifs n) nif). rewrite (deref_ok _ _ _ Hnf). cbn [res_bind].
  change (pbuf_at n' p) with (deref (pbufs (packets n)) p). rewrite (deref_ok _ _ _ Hb). cbn [res_bind]. rewrite Htl.
  assert (Eo : IPH_OFFSET (mem n') iphdr = IPH_OFFSET (mem n) iphdr).
  { unfold IPH_OFFSET, rd16. f_equal. apply rd_ext. intros x Hx. apply Hfr. lia. }
  rewrite Eo. done.
Qed.

End Forward.

(** ** From the driver to the reply *)

Section Ping.
Context {A W : Type} `{AllocOps A} `{FragPool A}.
Variable stale_flags : Z -> Z.
Variable custom_free : Z -> Z -> Pbuf.state A -> res (Pbuf.state A).
Variable callback_ok : bool.
Variable netif_output : net A W -> Z -> Z -> Z -> res (err_t * net A W).
Variable udp_recv_fn : Z -> net A W -> Z -> Z -> Z -> Z -> Z -> res (net A W).
Variable raw_recv_fn : Z -> net A W -> Z -> Z -> Z -> Z -> res (Z * net A W).
Variable tcp_input : net A W -> Z -> Z -> res (net A W).
Implicit Types n : net A W.

(** A whole packet in memory, with a valid header of 20 bytes in its first pbuf. *)
Record ip_packet (n : net A W) (p : Z) (b : pbuf) (bl : list (Z * pbuf)) (src dest proto : Z) : Prop := {
  ipp_packet : packet (pbufs (packets n)) p ((p, b) :: bl);
  ipp_null : p <> NULL;
  ipp_type : type b = PBUF_RAM \/ type b = PBUF_POOL;
  ipp_mem : mem_ok (mem n);
  ipp_len : IP_HLEN <= len b;
  ipp_vhl : rd8 (mem n) (payload b) = 69;
  ipp_iplen : lwip_ntohs (IPH_LEN (mem n) (payload b)) = total ((p, b) :: bl);
  ipp_offset : Z.land (IPH_OFFSET (mem n) (payload b)) (PP_HTONS (Z.lor IP_OFFMASK IP_MF)) = 0;
  ipp_proto : IPH_PROTO (mem n) (payload b) = proto;
  ipp_chksum : internet_checksum (rd (mem n) (payload b) 20) = 0;
  ipp_src : iph_src (mem n) (payload b) = src;
  ipp_dest : iph_dest (mem n) (payload b) = dest
}.

(** An interface that a packet to [dest] is for, and a source that is acceptable. *)
Definition for_us (nf : netif) (src dest : Z) : Prop :=
  netif_is_up nf = true /\ dest <> IPADDR_ANY /\ netif_ip4_addr nf = dest
  /\ ip4_addr_ismulticast dest = false
  /\ ip4_addr_isbroadcast_u32 src nf = false /\ ip4_addr_ismulticast src = false.

(** The state in which the upper layers see a packet that came in on [inp]. *)
Definition delivered n (p : Z) (b : pbuf) (inp src dest : Z) : net A W :=
  set_ph (<[p := moved (- IP_HLEN) b]> (pbufs (packets n))) (mem n)
    (with_ip_data (mk_globals inp inp (payload b) 20 src dest) (inc P_ip c_recv n)).

(** A packet for us gets to the upper layer that its protocol field names. *)
Lemma ip4_input_delivers n p b bl inp nf src dest proto :
  ip_packet n p b bl src dest proto -> netifs n !! inp = Some nf -> for_us nf src dest -> inp <> NULL ->
  p + SIZEOF_STRUCT_PBUF <= payload b -> raw_pcbs (raw n) = [] ->
  (proto = IP_PROTO_UDP \/ proto = IP_PROTO_TCP \/ proto = IP_PROTO_ICMP) ->
  ip4_input stale_flags custom_free callback_ok netif_output udp_recv_fn raw_recv_fn tcp_input n p inp
  = (let* n2 :=
       (if proto =? IP_PROTO_UDP then
          udp_input stale_flags custom_free callback_ok netif_output udp_recv_fn (delivered n p b inp src dest) p inp
        else if proto =? IP_PROTO_TCP then tcp_input (delivered n p b inp src dest) p inp
        else icmp_input stale_flags custom_free callback_ok netif_output (delivered n p b inp src dest) p inp) in
     Ok (ERR_OK, with_ip_data (mk_globals NULL NULL NULL 0 IPADDR_ANY IPADDR_ANY) n2)).
Proof.
  intros [Hpk Hne Hty Hm Hlen Hvhl Hipl Hoff Hproto Hchk Hsrc Hdest] Hnf (Hup & Hany & Haddr & Hmc & Hsb & Hsm) Hinp Hfr Hraw Hpr.
  pose proof Hpk as ((_ & _ & Hb & Hc) & (Hl & Htl & Hlok) & Htot). pose proof (lens_ok_nonneg _ Hlok) as Hnn.
  rewrite total_cons in Hipl, Htot.
  set (n1 := inc P_ip c_recv n).
  assert (Epb : pbuf_at n1 p = Ok b) by exact (deref_ok _ _ _ Hb).
  assert (Enf : forall g, netif_at (with_ip_data g n1) inp = Ok nf) by (intros g; exact (deref_ok _ _ _ Hnf)).
  unfold ip4_input. fold n1. rewrite Epb. cbn [res_bind]. change (mem n1) with (mem n).
  unfold IPH_V, IPH_HL. rewrite Hvhl. change (Z.shiftr 69 4 =? 4) with true. cbn [negb].
  change (Z.land 69 15 * 4) with 20. rewrite Hipl, <- Htl, Z.ltb_irrefl. cbn [res_bind]. rewrite Epb. cbn [res_bind].
  unfold IP_HLEN in *. rewrite Z.ltb_irrefl, (proj2 (Z.ltb_ge (len b) 20)) by lia. change (20 <? 20) with false. cbn [orb].
  change (mem n1) with (mem n). change (Z.to_nat 20) with 20%nat.
  rewrite inet_chksum_spec by (rewrite ?length_rd; auto with lwip; lia). rewrite Hchk. cbn [Z.eqb negb].
  unfold input_checked. change (mem n1) with (mem n). rewrite Hsrc, Hdest.
  set (g1 := mk_globals (current_netif (ip_data n1)) (current_input_netif (ip_data n1)) (current_ip4_header (ip_data n1))
               (current_ip_header_tot_len (ip_data n1)) src dest). cbv zeta. unfold accept. rewrite Enf. cbn [res_bind]. rewrite Hmc.
  assert (Eacc : accepts nf dest = true).
  { unfold accepts. rewrite Hup, Haddr, Z.eqb_refl. unfold ip4_addr_isany_val. by rewrite (proj2 (Z.eqb_neq _ _) Hany). }
  rewrite Eacc. cbn [res_bind]. rewrite Hsb, Hsm. cbn [orb andb].
  rewrite (proj2 (Z.eqb_neq inp NULL)) by done. change (mem (with_ip_data g1 n1)) with (mem n). rewrite Hoff.
  cbn [Z.eqb negb res_bind]. rewrite (proj2 (Z.eqb_neq p NULL)) by done.
  change (pbuf_at (with_ip_data g1 n1) p) with (pbuf_at n1 p). rewrite Epb. cbn [res_bind].
  change (mem (with_ip_data g1 n1)) with (mem n). unfold IPH_HL. rewrite Hvhl. change (Z.land 69 15 * 4) with 20.
  set (g2 := mk_globals inp inp (payload b) 20 src dest). change (with_ip_data g2 (with_ip_data g1 n1)) with (with_ip_data g2 n1).
  set (n2 := with_ip_data g2 n1).
  assert (Eraw : raw_input raw_recv_fn n2 p inp = Ok (false, n2)).
  { unfold raw_input. change (ip_data n2) with g2. cbn [g2 current_netif]. unfold n2. rewrite Enf. cbn [res_bind].
    change (pbuf_at (with_ip_data g2 n1) p) with (pbuf_at n1 p). rewrite Epb. cbn [res_bind].
    change (raw (with_ip_data g2 n1)) with (raw n). rewrite Hraw. done. }
  unfold dispatch. rewrite Eraw. cbn [res_bind]. change (s16 20) with 20. cbv zeta.
  rewrite (header_down n2 p b 20 Hb Hne) by lia. cbn [res_bind].
  change (set_ph (<[p := moved (- (20)) b]> (pbufs (packets n2))) (mem n2) n2) with (delivered n p b inp src dest).
  change (mem (delivered n p b inp src dest)) with (mem n). rewrite Hproto.
  destruct Hpr as [-> | [-> | ->]]; cbn [IP_PROTO_UDP IP_PROTO_TCP IP_PROTO_ICMP IP_PROTO_UDPLITE Z.eqb Pos.eqb orb].
  - destruct (udp_input _ _ _ _ _ _ _ _); done.
  - destruct (tcp_input _ _ _); done.
  - destruct (icmp_input _ _ _ _ _ _ _); done.
Qed.

(** The packet as the upper layers see it. *)
Lemma delivered_packet n p b bl inp src dest :
  packet (pbufs (packets n)) p ((p, b) :: bl) -> IP_HLEN <= len b ->
  packet (pbufs (packets (delivered n p b inp src dest))) p ((p, moved (- IP_HLEN) b) :: bl)
  /\ cdata (mem n) ((p, moved (- IP_HLEN) b) :: bl) = drop 20 (cdata (mem n) ((p, b) :: bl)).
Proof.
  intros Hpk Hlen. exact (moved_down_packet (pbufs (packets n)) p b bl (mem n) IP_HLEN Hpk ltac:(done) Hlen).
Qed.

(** A packet that fits goes to the driver as it is. *)
Lemma send_on_direct n p b dest nif nf :
  pbufs (packets n) !! p = Some b -> netifs n !! nif = Some nf -> dest <> netif_ip4_addr nf ->
  ip4_addr_isloopback dest = false -> Z.land (flags b) PBUF_FLAG_MCASTLOOP = 0 ->
  (netif_mtu nf = 0 \/ tot_len b <= netif_mtu nf) ->
  send_on stale_flags custom_free callback_ok netif_output n p dest nif = netif_output (inc P_ip c_xmit n) nif p dest.
Proof.
  intros Hb Hnf Hd Hlb Hfl Hmtu. unfold send_on.
  change (netif_at (inc P_ip c_xmit n) nif) with (deref (netifs n) nif). rewrite (deref_ok _ _ _ Hnf). cbn [res_bind].
  rewrite (proj2 (Z.eqb_neq _ _) Hd), Hlb. cbn [orb].
  change (pbuf_at (inc P_ip c_xmit n) p) with (deref (pbufs (packets n)) p). rewrite (deref_ok _ _ _ Hb). cbn [res_bind].
  rewrite Hfl. cbn [Z.eqb negb res_bind].
  change (netif_at (inc P_ip c_xmit n) nif) with (deref (netifs n) nif). rewrite (deref_ok _ _ _ Hnf). cbn [res_bind].
  change (pbuf_at (inc P_ip c_xmit n) p) with (deref (pbufs (packets n)) p). rewrite (deref_ok _ _ _ Hb). cbn [res_bind].
  replace (negb (netif_mtu nf =? 0) && (netif_mtu nf <? tot_len b)) with false; [done|].
  destruct Hmtu as [-> | Hm]; [done|]. by rewrite (proj2 (Z.ltb_ge _ _) Hm), andb_false_r.
Qed.

End Ping.

Section PingReply.
Context {A W : Type} `{AllocSpec A} `{!FragPool A}.
Variable stale_flags : Z -> Z.
Variable custom_free : Z -> Z -> Pbuf.state A -> res (Pbuf.state A).
Variable callback_ok : bool.
Variable netif_output : net A W -> Z -> Z -> Z -> res (err_t * net A W).
Variable udp_recv_fn : Z -> net A W -> Z -> Z -> Z -> Z -> Z -> res (net A W).
Variable raw_recv_fn : Z -> net A W -> Z -> Z -> Z -> Z -> res (Z * net A W).
Variable tcp_input : net A W -> Z -> Z -> res (net A W).
Hypothesis stale_flags_law : forall p, Z.land (stale_flags p) PBUF_FLAG_IS_CUSTOM = 0.
Implicit Types n : net A W.

(** An intact echo request as a driver hands it over. *)
Record ping_packet (n : net A W) (p : Z) (b : pbuf) (bl : list (Z * pbuf)) (src dest : Z) : Prop := {
  ping_ip : ip_packet n p b bl src dest IP_PROTO_ICMP;
  ping_private : private ((p, b) :: bl);
  ping_len : 24 <= len b;
  ping_total : 28 <= total ((p, b) :: bl) <= 65500;
  ping_type : rd8 (mem n) (payload b + 20) = ICMP_ECHO;
  ping_chksum : internet_checksum (drop 20 (cdata (mem n) ((p, b) :: bl))) = 0;
  ping_noloop : Z.land (flags b) PBUF_FLAG_MCASTLOOP = 0
}.

Lemma ping_request n p b bl inp src dest :
  ping_packet n p b bl src dest ->
  echo_request (delivered n p b inp src dest) p (moved (- IP_HLEN) b) bl src dest.
Proof.
  intros [Hip _ Hlen Htot Hty Hck _]. destruct Hip as [Hpk Hne Htyp Hm Hl Hvhl Hipl _ _ _ Hsrc _].
  destruct (delivered_packet n p b bl inp src dest Hpk Hl) as [Hpk' Hcd].
  rewrite total_cons in *. unfold IP_HLEN in *.
  split; change (mem (delivered n p b inp src dest)) with (mem n); cbn [moved len payload ref type].
  - exact Hpk'.
  - exact Hne.
  - lia.
  - rewrite total_cons. cbn [moved len]. unfold IP_HLEN. lia.
  - exact Hm.
  - cbn [ip_data delivered set_ph]. change (payload b = payload b - - (20) - 20). lia.
  - unfold IPH_HL, IP_HLEN. replace (payload b - - (20) - 20) with (payload b) by lia. rewrite Hvhl. done.
  - done.
  - done.
  - unfold IP_HLEN. replace (payload b - - (20)) with (payload b + 20) by lia. done.
  - by rewrite Hcd.
Qed.

(** The same packet without its IP header. *)
Lemma private_moved p b bl k : private ((p, b) :: bl) -> k < len b -> private ((p, moved (- k) b) :: bl).
Proof.
  intros [Hr Ho Hn] Hk. apply Forall_cons in Hr. apply Forall_cons in Ho. apply Forall_cons in Hn.
  split; constructor; try tauto. cbn [snd moved len]. lia.
Qed.

Lemma delivered_wf n L p b inp src dest :
  wf (packets n) L -> pbufs (packets n) !! p = Some b -> IP_HLEN <= len b ->
  wf (packets (delivered n p b inp src dest)) L.
Proof.
  intros Hwf Hb Hl. destruct Hwf as [Ho Hp]. split; [exact Ho|]. intros a c. unfold delivered. rewrite pbufs_set_ph.
  rewrite lookup_insert_Some. intros [[<- <-]|[_ Hx]]; [|by apply Hp]. destruct (Hp _ _ Hb) as (o & k & HL & Hb0).
  exists o, k. split; [done|]. intros Hcu. destruct (Hb0 Hcu) as [Ho1 Hib]. split; [done|]. intros Hty.
  destruct (Hib Hty). cbn [moved payload len]. unfold IP_HLEN in *. lia.
Qed.

(** The globals of the input path after a packet. *)
Definition cleared : ip_globals := mk_globals NULL NULL NULL 0 IPADDR_ANY IPADDR_ANY.

(** The request has room for the link header: it becomes the reply itself. *)
Lemma ping_in_place n L p b bl inp nf src dest :
  ping_packet n p b bl src dest -> wf (packets n) L -> is_u32 src ->
  netifs n !! inp = Some nf -> ip4_addr_ismulticast dest = false -> ip4_addr_isbroadcast_u32 dest nf = false ->
  p + SIZEOF_STRUCT_PBUF + PBUF_LINK_HLEN <= payload b ->
  exists n',
    let D := cdata (mem n) ((p, b) :: bl) in
    icmp_input stale_flags custom_free callback_ok netif_output (delivered n p b inp src dest) p inp
    = (let* (_, n2) := send_on stale_flags custom_free callback_ok netif_output n' p src inp in free custom_free n2 p)
    /\ pbufs (packets n') = pbufs (packets n) /\ world n' = world n /\ netifs n' = netifs n
    /\ cdata (mem n') ((p, b) :: bl) = reply_header (take 20 D) dest src ++ reply_message (drop 20 D)
    /\ internet_checksum (reply_header (take 20 D) dest src) = 0 /\ internet_checksum (reply_message (drop 20 D)) = 0.
Proof.
  intros Hping Hwf Hsrc Hnf Hmc Hbc Hroom. pose proof (ping_request n p b bl inp src dest Hping) as Hreq.
  destruct Hping as [Hip [Hrf Hod _] Hlen Htot Hty Hck Hfl]. destruct Hip as [Hpk Hne Htyp Hm Hl20 _ _ _ _ _ Esrc _].
  destruct (own_data_apart _ _ _ _ _ Hwf (proj1 Hpk) Hod) as [Hap _].
  pose proof (own_payloads_apart _ _ _ _ Hwf (proj1 Hpk) Hod) as [_ Hpa].
  destruct (delivered_packet n p b bl inp src dest Hpk Hl20) as [Hpk' Hcd].
  set (nd := delivered n p b inp src dest) in *. set (b' := moved (- IP_HLEN) b) in *.
  rewrite (icmp_request stale_flags custom_free callback_ok netif_output nd p b' bl inp nf src dest Hreq Hnf Hmc Hbc).
  set (n1 := inc P_icmp c_recv nd). pose proof Hpk' as ((_ & _ & Hb' & _) & (Hl' & Htl' & Hlok) & _).
  pose proof (lens_ok_nonneg _ Hlok) as Hnn. rewrite total_cons in Htot. apply Forall_inv in Hrf. cbn [snd] in Hrf.
  unfold IP_HLEN, PBUF_LINK_HLEN in *.
  rewrite (room_in_place stale_flags custom_free callback_ok n1 p b' _ Hb' Hne Htyp)
    by (cbn [b' moved payload len tot_len] in *; lia).
  cbn [res_bind].
  assert (Hb2 : moved 20 b' = b) by (unfold b'; rewrite moved_moved; apply moved_0).
  destruct (echo_answer stale_flags custom_free callback_ok netif_output n1 p b' bl inp src dest) as (m' & E & Hd & Hc1 & Hc2).
  { split; [exact Hpk'|done|exact Htyp|cbn [b' moved payload]; unfold IP_HLEN; lia
      |rewrite total_cons; cbn [b' moved len]; unfold IP_HLEN; lia|].
    eapply apart_sub; [exact Hap|cbn [b' moved payload]; unfold IP_HLEN; lia..]. }
  { split; [|exact Hpa]. eapply apart_sub; [exact Hap|cbn [b' moved payload len]; lia..]. }
  { exact Hm. }
  { cbn [b' moved len]. lia. }
  { exact (proj1 Hrf). }
  { reflexivity. }
  { exact Hsrc. }
  { exact (req_type _ _ _ _ _ _ Hreq). }
  { exact (req_chksum _ _ _ _ _ _ Hreq). }
  cbv zeta in *. change (mem n1) with (mem n) in Hd, Hc1, Hc2. unfold IP_HLEN in E, Hd, Hc1. rewrite Hb2 in E, Hd.
  rewrite Hcd in Hd, Hc2. rewrite E.
  assert (Et : rd (mem n) (payload b' - 20) 20 = take 20 (cdata (mem n) ((p, b) :: bl))).
  { rewrite cdata_cons, take_app_le, take_rd by (rewrite length_rd; lia). cbn [b' moved payload]. f_equal; lia. }
  rewrite Et in Hd, Hc1. eexists. split; [reflexivity|]. split_and!; try done.
  change (<[p := b]> (<[p := b']> (pbufs (packets n))) = pbufs (packets n)).
  rewrite insert_insert_eq. apply insert_id. exact (proj1 (proj2 (proj2 (proj1 Hpk)))).
Qed.

Lemma nth_rd_front m a k l : 0 < k -> nth 0 (rd m a (Z.to_nat k) ++ l) 0 = rd8 m a.
Proof. intros Hk. replace (Z.to_nat k) with (S (Z.to_nat (k - 1))) by lia. done. Qed.

(** It has not: the reply is a copy of it, or there is no memory for one. *)
Lemma ping_copied n L p b bl inp nf src dest :
  ping_packet n p b bl src dest -> wf (packets n) L -> is_u32 src ->
  netifs n !! inp = Some nf -> ip4_addr_ismulticast dest = false -> ip4_addr_isbroadcast_u32 dest nf = false ->
  payload b < p + SIZEOF_STRUCT_PBUF + PBUF_LINK_HLEN ->
  let D := cdata (mem n) ((p, b) :: bl) in
  let nd := delivered n p b inp src dest in
  let run := icmp_input stale_flags custom_free callback_ok netif_output nd p inp in
  (exists n' q c,
    run = (let* (_, n2) := send_on stale_flags custom_free callback_ok netif_output n' q src inp in free custom_free n2 q)
    /\ q <> NULL /\ L !! q = None /\ packet (pbufs (packets n')) q [(q, c)] /\ flags c = 0 /\ tot_len c = total ((p, b) :: bl)
    /\ (forall a, a ∈ fst <$> (p, b) :: bl -> pbufs (packets n') !! a = None)
    /\ frame (pbufs (packets n)) (pbufs (packets n')) (q :: (fst <$> (p, b) :: bl))
    /\ world n' = world n /\ netifs n' = netifs n
    /\ cdata (mem n') [(q, c)] = reply_header (take 20 D) dest src ++ reply_message (drop 20 D)
    /\ internet_checksum (reply_header (take 20 D) dest src) = 0 /\ internet_checksum (reply_message (drop 20 D)) = 0)
  \/ (exists s' L', run = Ok (inc P_icmp c_err (with_packets s' (inc P_icmp c_recv nd)))
    /\ wf s' L' /\ bytes s' = mem n /\ (forall a, a ∈ fst <$> (p, b) :: bl -> pbufs s' !! a = None /\ L' !! a = None)
    /\ frame (pbufs (packets n)) (pbufs s') (fst <$> (p, b) :: bl)).
Proof.
  intros Hping Hwf Hsrc Hnf Hmc Hbc Hno. cbv zeta. pose proof (ping_request n p b bl inp src dest Hping) as Hreq.
  destruct Hping as [Hip Hprv Hlen Htot Hty Hck Hfl]. destruct Hip as [Hpk Hne Htyp Hm Hl20 _ _ _ _ _ Esrc _].
  set (nd := delivered n p b inp src dest) in *.
  destruct (delivered_packet n p b bl inp src dest Hpk Hl20) as [Hpk' Hcd]. fold nd in Hpk'. set (b' := moved (- IP_HLEN) b) in *.
  rewrite (icmp_request stale_flags custom_free callback_ok netif_output nd p b' bl inp nf src dest Hreq Hnf Hmc Hbc).
  set (n1 := inc P_icmp c_recv nd). pose proof Hpk as ((_ & _ & Hb & _) & (_ & Htl & _) & _).
  destruct (room_by_copy stale_flags custom_free callback_ok stale_flags_law n1 L p b' bl (payload b' - IP_HLEN))
    as (r & s' & Er & Hr).
  { exact (delivered_wf n L p b inp src dest Hwf Hb Hl20). }
  { exact Hpk'. }
  { exact Hne. }
  { apply private_moved; [done|]. unfold IP_HLEN. lia. }
  { exact Hm. }
  { cbn [b' moved payload]. unfold IP_HLEN, PBUF_LINK_HLEN in *. lia. }
  { rewrite total_cons in *. cbn [b' moved len]. unfold IP_HLEN. lia. }
  rewrite Er. cbn [res_bind]. destruct r as [q|].
  - left. destruct Hr as (c & L' & [[Hq HLq] Hpq (Htc & Hfc & Hrc & Hlc) Hroom Hhdr Hdat Hmem Hgone _ Hfrm]).
    pose proof Hpq as ((_ & _ & Hqb & _) & (_ & Hct & _) & _). change (total []) with 0 in Hct.
    assert (Eb : total ((p, b') :: bl) = total ((p, b) :: bl) - 20).
    { rewrite !total_cons. cbn [b' moved len]. unfold IP_HLEN. lia. }
    change (mem n1) with (mem n) in *. rewrite Hcd in Hdat.
    destruct (echo_answer stale_flags custom_free callback_ok netif_output (with_packets s' n1) q c [] inp src dest)
      as (m' & E & Hd & Hc1 & Hc2).
    { split; [exact Hpq|done|by left|unfold IP_HLEN, PBUF_LINK_HLEN in *; lia| |constructor].
      rewrite total_cons. change (total []) with 0. unfold IP_HLEN. lia. }
    { split; [constructor|done]. }
    { exact Hmem. }
    { lia. }
    { done. }
    { reflexivity. }
    { exact Hsrc. }
    { unfold mem. cbn [with_packets packets]. eapply (f_equal (fun l => nth 0 l 0)) in Hdat. revert Hdat.
      rewrite <- Hcd, !cdata_cons. rewrite !nth_rd_front by (cbn [b' moved len]; unfold IP_HLEN in *; lia). intros ->.
      exact (req_type _ _ _ _ _ _ Hreq). }
    { unfold mem. cbn [with_packets packets]. by rewrite Hdat. }
    cbv zeta in *. unfold mem in Hd, Hc1, Hc2. cbn [with_packets packets] in Hd, Hc1, Hc2. rewrite Hhdr in Hd, Hc1. rewrite Hdat in Hd, Hc2.
    assert (Et : rd (mem n) (payload b' - IP_HLEN) 20 = take 20 (cdata (mem n) ((p, b) :: bl))).
    { rewrite cdata_cons, take_app_le, take_rd by (rewrite length_rd; lia). cbn [b' moved payload]. f_equal; lia. }
    change (mem n1) with (mem n) in *.
    rewrite Et in Hd, Hc1. eexists _, q, (moved IP_HLEN c). split; [exact E|]. split_and!; try done.
    + change (packet (<[q := moved IP_HLEN c]> (pbufs s')) q [(q, moved IP_HLEN c)]).
      assert (Hc80 : 0 <= len c <= 65480) by (rewrite Hlc, Eb; lia). pose proof (proj2 (proj2 (proj2 (proj1 Hpq)))) as Hn.
      split; [|split].
      * cbn [chain moved next]. split_and!; [done|done|by rewrite lookup_insert_eq|exact Hn].
      * cbn [lens_ok moved len tot_len]. unfold IP_HLEN. change (total []) with 0. split_and!; [lia|lia|done].
      * rewrite total_cons. cbn [moved len]. change (total []) with 0. unfold IP_HLEN. lia.
    + cbn [moved tot_len]. unfold IP_HLEN. lia.
    + intros a Ha. change (<[q := moved IP_HLEN c]> (pbufs s') !! a = None). rewrite lookup_insert_ne; [by apply Hgone|].
      intros <-. rewrite (proj1 (Hgone _ Ha)) in Hqb. done.
    + intros a Ha. change (<[q := moved IP_HLEN c]> (pbufs s') !! a = pbufs (packets n) !! a).
      rewrite lookup_insert_ne by (intros <-; apply Ha; left). rewrite Hfrm by done.
      change (<[p := b']> (pbufs (packets n)) !! a = pbufs (packets n) !! a). rewrite lookup_insert_ne; [done|].
      intros <-. apply Ha. right. left.
  - right. destruct Hr as (Hw & Ep & Eby). unfold icmperr.
    destruct (pbuf_free_whole custom_free s' L p ((p, b') :: bl)) as (k & s2 & L2 & Ef & Hw2 & Eby2 & Hg & Hfr2 & _).
    { done. }
    { rewrite Ep. exact (proj1 Hpk'). }
    { done. }
    { apply private_moved; [done|]. unfold IP_HLEN. lia. }
    unfold free, on_packets. cbn [with_packets packets]. rewrite Ef. cbn [res_bind]. exists s2, L2. split_and!; try done.
    + by rewrite Eby2.
    + intros a Ha. rewrite Hfr2 by done. rewrite Ep.
      change (<[p := b']> (pbufs (packets n)) !! a = pbufs (packets n) !! a). rewrite lookup_insert_ne; [done|].
      intros <-. apply Ha. left.
Qed.

End PingReply.

(** ** Malformed packets *)

Section Malformed.
Context {A W : Type} `{AllocSpec A} `{!FragPool A}.
Variable stale_flags : Z -> Z.
Variable custom_free : Z -> Z -> Pbuf.state A -> res (Pbuf.state A).
Variable callback_ok : bool.
Variable netif_output : net A W -> Z -> Z -> Z -> res (err_t * net A W).
Variable udp_recv_fn : Z -> net A W -> Z -> Z -> Z -> Z -> Z -> res (net A W).
Variable raw_recv_fn : Z -> net A W -> Z -> Z -> Z -> Z -> res (Z * net A W).
Variable tcp_input : net A W -> Z -> Z -> res (net A W).
Implicit Types n : net A W.

(** What is wrong with the header at [a] of a packet of [tot] bytes, [l] of them in the
    first pbuf, and the counters that say so; None when it is well formed.  Of the first pbuf
    only what the length field covers counts. *)
Definition header_error (m : memory) (a l tot : Z) : option (list counter) :=
  let hlen := IPH_HL m a * 4 in
  let iplen := lwip_ntohs (IPH_LEN m a) in
  if negb (IPH_V m a =? 4) then Some [c_err; c_drop]
  else if (Z.min l iplen <? hlen) || (tot <? iplen) || (hlen <? IP_HLEN) then Some [c_lenerr; c_drop]
  else if negb (internet_checksum (rd m a (Z.to_nat hlen)) =? 0) then Some [c_chkerr; c_drop]
  else None.

(** A packet that nobody else refers to. *)
Definition unshared (bl : list (Z * pbuf)) : Prop :=
  Forall (fun ab : Z * pbuf => ref (snd ab) = 1 /\ is_custom (snd ab) = false) bl.

(** What is left of a packet that is cut. *)
Lemma unshared_cut bl1 r br bl2 l k :
  unshared (bl1 ++ (r, br) :: bl2) -> unshared (retot l bl1 ++ [(r, shrunk k br)]) /\ Forall (fun ab => ref (snd ab) = 1) bl2.
Proof.
  unfold unshared. intros Hu. apply Forall_app in Hu. destruct Hu as [Hu1 Hu]. apply Forall_cons in Hu. destruct Hu as [Hr Hu2]. split.
  - apply Forall_app. split; [|constructor; [exact Hr|constructor]]. apply Forall_forall. intros [a c] Hin.
    destruct (retot_elem _ _ _ _ Hin) as (b & v & Hb & ->). rewrite Forall_forall in Hu1. exact (Hu1 _ Hb).
  - eapply Forall_impl; [exact Hu2|]. by intros ? [].
Qed.

(** The first pbuf of a packet that is cut. *)
Lemma first_cut p b bl bl1 r br bl2 l :
  (p, b) :: bl = bl1 ++ (r, br) :: bl2 -> lens_ok ((p, b) :: bl) -> 0 <= l - total bl1 <= len br ->
  exists b' bl', retot l bl1 ++ [(r, shrunk (l - total bl1) br)] = (p, b') :: bl'
    /\ payload b' = payload b /\ len b' = Z.min (len b) l /\ tot_len b' = l.
Proof.
  intros E Hok Hl. destruct bl1 as [|[x c] bl1]; injection E as <- <- E.
  - change (total []) with 0 in *. eexists _, _. split; [reflexivity|]. cbn [shrunk payload len tot_len with_next with_tot_len with_len].
    split_and!; [done|lia|lia].
  - eexists _, _. split; [reflexivity|]. cbn [payload len tot_len with_tot_len]. rewrite total_cons in Hl. subst bl.
    pose proof (lens_ok_len _ (proj2 (proj2 Hok))) as Hn. apply Forall_app in Hn. pose proof (total_nonneg _ (proj1 Hn)).
    split_and!; [done|lia|done].
Qed.

(** A packet cut to the length that its header gives: the rest of its pbufs is gone. *)
Lemma cut_to_length n L p b bl l :
  wf (packets n) L -> packet (pbufs (packets n)) p ((p, b) :: bl) -> p <> NULL -> unshared ((p, b) :: bl) -> 0 <= l ->
  exists s' L' b' bl',
    (if l <? tot_len b then let* s := pbuf_realloc custom_free (packets n) p l in Ok (with_packets s n) else Ok n)
    = Ok (with_packets s' n)
    /\ wf s' L' /\ bytes s' = mem n /\ packet (pbufs s') p ((p, b') :: bl')
    /\ payload b' = payload b /\ len b' = Z.min (len b) l /\ tot_len b' = Z.min (tot_len b) l /\ unshared ((p, b') :: bl')
    /\ fst <$> (p, b') :: bl' ⊆ fst <$> (p, b) :: bl
    /\ (forall a, a ∈ fst <$> (p, b) :: bl -> a ∉ fst <$> (p, b') :: bl' -> pbufs s' !! a = None /\ L' !! a = None)
    /\ frame (pbufs (packets n)) (pbufs s') (fst <$> (p, b) :: bl) /\ frame L L' (fst <$> (p, b) :: bl).
Proof.
  intros Hwf Hpk Hne Hu Hl. pose proof Hpk as (_ & Hok & _). pose proof Hok as (Hlb & Htl & Hlok).
  pose proof (lens_ok_nonneg _ Hlok) as Hnn. destruct (Z.ltb_spec l (tot_len b)) as [Hlt|Hge].
  2:{ exists (packets n), L, b, bl. split; [by destruct n|]. split_and!; try done; lia. }
  rewrite <- (total_cons p) in Htl.
  destruct (pbuf_realloc_spec custom_free (packets n) L p ((p, b) :: bl) l Hwf Hpk Hne) as
    (bl1 & r & br & bl2 & s' & L' & E & Hr & Er & Hw & Eby & Hpk' & Hf & HfL & Hg); [|lia|].
  { eapply Forall_impl; [exact Hu|]. intros ab [H1 H2]. split; [lia|congruence]. }
  destruct (first_cut p b bl bl1 r br bl2 l E Hok Hr) as (b' & bl' & E' & Epl & El & Et).
  rewrite E in Hu. destruct (unshared_cut bl1 r br bl2 l (l - total bl1) Hu) as [Hu' H1]. rewrite E' in Hu', Hpk'.
  assert (Efst : fst <$> (p, b') :: bl' = (fst <$> bl1) ++ [r]) by (by rewrite <- E', fmap_app, retot_fst).
  exists s', L', b', bl'. rewrite Er. split; [done|]. split_and!; try done; [lia| | |].
  - rewrite Efst, E, fmap_app. cbn [fmap list_fmap fst]. intros a Ha. rewrite elem_of_app in Ha |- *.
    destruct Ha as [Ha|Ha%list_elem_of_singleton]; [by left|right; subst a; left].
  - intros a Ha Hn. apply (Hg H1). rewrite Efst in Hn. rewrite E, fmap_app in Ha. cbn [fmap list_fmap fst] in Ha.
    apply elem_of_app in Ha. apply not_elem_of_app in Hn. destruct Hn as [Hn1 Hn2]. rewrite list_elem_of_singleton in Hn2.
    destruct Ha as [Ha|Ha]; [done|]. by apply elem_of_cons in Ha as [Ha|Ha].
  - intros a Ha. apply HfL. intros Hin. apply Ha. rewrite E, fmap_app. apply elem_of_app. by right.
Qed.

(** C31: A malformed packet (another version; a header shorter than 20 bytes, or longer than the
    first pbuf or than the length field; a length field larger than the packet; a header checksum
    that does not verify) never gets past [ip4_input], padded or not: nothing is sent and no
    state but the counters changes, every pbuf of the packet goes back to its allocator (for
    pbufs of the stack that nobody else refers to), no other pbuf or block is touched, and the
    caller is told that the packet was taken. *)
Theorem ip4_input_malformed n L p b bl inp why :
  wf (packets n) L -> packet (pbufs (packets n)) p ((p, b) :: bl) -> p <> NULL -> mem_ok (mem n) ->
  unshared ((p, b) :: bl) ->
  header_error (mem n) (payload b) (len b) (total ((p, b) :: bl)) = Some why ->
  exists s' L',
    ip4_input stale_flags custom_free callback_ok netif_output udp_recv_fn raw_recv_fn tcp_input n p inp
    = Ok (ERR_OK, foldl (fun n c => inc P_ip c n) (with_packets s' (inc P_ip c_recv n)) why)
    /\ wf s' L' /\ bytes s' = mem n
    /\ (forall a, a ∈ fst <$> (p, b) :: bl -> pbufs s' !! a = None /\ L' !! a = None)
    /\ frame (pbufs (packets n)) (pbufs s') (fst <$> (p, b) :: bl) /\ frame L L' (fst <$> (p, b) :: bl).
Proof.
  intros Hwf Hpk Hne Hm Hr He. set (n1 := inc P_ip c_recv n). set (old := (p, b) :: bl) in *.
  pose proof Hpk as (Hc & (Hl & Htl & Hlok) & Ht). pose proof Hc as (_ & _ & Hb & _). rewrite <- (total_cons p) in Htl.
  pose proof (lens_ok_nonneg _ Hlok) as Hnn. pose proof (total_cons p b bl) as Etc. fold old in Htl, Etc.
  assert (Epb : pbuf_at n1 p = Ok b) by exact (deref_ok _ _ _ Hb).
  unfold ip4_input. fold n1. rewrite Epb. cbn [res_bind]. change (mem n1) with (mem n). unfold header_error in He.
  destruct (Z.eqb_spec (IPH_V (mem n) (payload b)) 4) as [Ev|Ev]; cbn [negb] in *.
  2:{ injection He as <-. destruct (pbuf_free_whole custom_free (packets n) L p old Hwf Hc Hne Hr) as (k & s' & L' & Ef & Hs').
      exists s', L'. split; [|exact Hs']. unfold drop_packet, free, on_packets. change (packets n1) with (packets n).
      by rewrite Ef. }
  set (iplen := lwip_ntohs (IPH_LEN (mem n) (payload b))) in *. set (hlen := IPH_HL (mem n) (payload b) * 4) in *.
  destruct (cut_to_length n1 L p b bl iplen Hwf Hpk Hne Hr) as (s1 & L1 & b1 & bl1 & E1 & Hw1 & Eby1 & Hpk1 & Epl & Elen & Etot & Hr1 & Hsub & Hgone & Hf1 & HfL1).
  { apply lwip_htons_range. }
  fold old in Hgone, Hsub, Hf1, HfL1. rewrite E1. cbn [res_bind]. set (n2 := with_packets s1 n1).
  pose proof Hpk1 as (Hc1 & _). pose proof Hc1 as (_ & _ & Hb1 & _).
  assert (Epb1 : pbuf_at n2 p = Ok b1) by exact (deref_ok _ _ _ Hb1). rewrite Epb1. cbn [res_bind].
  destruct (pbuf_free_whole custom_free s1 L1 p _ Hw1 Hc1 Hne Hr1) as (k & s' & L' & Ef & Hw' & Eby' & Hg' & Hf' & HfL').
  assert (Edrop : forall why, drop_packet custom_free n2 p why = Ok (foldl (fun n c => inc P_ip c n) (with_packets s' n1) why)).
  { intros w. unfold drop_packet, free, on_packets. change (packets n2) with s1. rewrite Ef. done. }
  exists s', L'. split.
  2:{ split_and!; [done|by rewrite Eby', Eby1| | |].
      - intros a Ha. destruct (decide (a ∈ fst <$> (p, b1) :: bl1)) as [Hin|Hin]; [by apply Hg'|].
        rewrite Hf', HfL' by done. by apply Hgone.
      - intros a Ha. rewrite Hf', Hf1; [done|done|]. intros Hin. by apply Ha, Hsub.
      - intros a Ha. rewrite HfL', HfL1; [done|done|]. intros Hin. by apply Ha, Hsub. }
  rewrite Elen, Etot, Htl.
  replace (Z.min (total old) iplen <? iplen) with (total old <? iplen) by (zcases; done || lia).
  destruct (_ || (hlen <? IP_HLEN)) eqn:Eor.
  { injection He as <-. by rewrite Edrop. }
  change (mem n2) with (bytes s1). rewrite Eby1. rewrite inet_chksum_spec.
  2:{ by apply mem_ok_rd. }
  2:{ rewrite length_rd. unfold hlen, IPH_HL. change 15 with (2 ^ 4 - 1). rewrite land_low by lia. change (2 ^ 4) with 16. zlia. }
  destruct (internet_checksum _ =? 0); cbn [negb] in *; [done|]. injection He as <-. by rewrite Edrop.
Qed.

End Malformed.

(** ** Examples *)

Section Examples.

(** The interface 10.0.0.1/24 of [ex_net] and another one, 10.0.1.1/24; one packet of 28
    bytes at address 1100. *)
Definition in_pbuf : pbuf := mk_pbuf NULL 1100 28 28 PBUF_POOL 0 1.
Definition in_netif2 : netif := mk_netif 16842762 16777215 0 (netif_flags ex_netif) [] 1500 [] 1 NULL NULL 0.
Definition in_net (bs : list Z) (dest : Z) : net (heap_pools * frag_pool) (list (list Z)) :=
  mk_net (Pbuf.mk_state {[1000 := in_pbuf]} (wr ∅ 1100 bs) ∅ (hp0, ([], ∅)) false 0)
    {[1 := ex_netif; 2 := in_netif2]} [1; 2] 1 2 NULL 7 (mk_globals NULL NULL NULL 0 0 dest) [] 10 0
    (mk_udp_globals ∅ [] 49152 []) (mk_raw_globals ∅ [] []) ex_tcp (mk_igmp_globals ∅ 8 Z.of_nat) (fun _ _ => 0) [] [].

(** A ping from 10.0.0.2 to 10.0.0.1, and one to 10.0.1.2 with a given TTL and checksum. *)
Definition ping_bytes : list Z :=
  [69; 0; 0; 28; 0; 0; 0; 0; 64; 1; 102; 223; 10; 0; 0; 2; 10; 0; 0; 1; 8; 0; 247; 255; 0; 0; 0; 0].
Definition transit_bytes (ttl c1 c2 : Z) : list Z :=
  [69; 0; 0; 28; 0; 0; 0; 0; ttl; 1; c1; c2; 10; 0; 0; 2; 10; 0; 1; 2; 8; 0; 247; 255; 0; 0; 0; 0].

Lemma mem_ok_list a bs : bytes_ok bs -> mem_ok (wr ∅ a bs).
Proof. apply mem_ok_wr. intros x. unfold rd8. rewrite lookup_empty. unfold is_u8. cbn. lia. Qed.

Lemma in_packet bs dest : packet (pbufs (packets (in_net bs dest))) 1000 [(1000, in_pbuf)].
Proof. split_and!; cbn [chain lens_ok in_pbuf next]; try done. Qed.

(** The ping in a pbuf of the pool as a driver allocates it, without room in front. *)
Definition drv_state : Pbuf.state (heap_pools * frag_pool) := Pbuf.mk_state ∅ ∅ ∅ (hp0, ([], ∅)) false 0.
Definition drv : Z * Pbuf.state (heap_pools * frag_pool) :=
  or_else (NULL, drv_state) (pbuf_alloc (fun _ => 0) no_custom true drv_state PBUF_RAW 28 PBUF_POOL).
Definition drv_pbuf : pbuf := mk_pbuf NULL (fst drv + SIZEOF_STRUCT_PBUF) 28 28 PBUF_POOL 0 1.
Definition drv_net : net (heap_pools * frag_pool) (list (list Z)) :=
  with_packets (with_bytes (wr ∅ (payload drv_pbuf) ping_bytes) (snd drv)) (in_net [] 0).

Lemma drv_ok : exists L, wf (packets drv_net) L.
Proof.
  destruct (pbuf_alloc_spec (A := heap_pools * frag_pool) no_custom (fun _ => 0) true ltac:(done)
    drv_state ∅ PBUF_RAW 28 PBUF_POOL) as (p & s & E & _ & _ & Hpost).
  { split; [exact hp0_owned|]. intros p b. cbn. by rewrite lookup_empty. }
  { done. }
  { done. }
  assert (Es : drv = (p, s)) by (unfold drv; by rewrite E).
  destruct Hpost as [(-> & _)|(_ & bl & L' & _ & _ & _ & [Ho Hp] & _)]; [vm_compute in E; discriminate E|].
  exists L'. unfold drv_net. rewrite Es. by split.
Qed.

Lemma ping_is : ping_packet drv_net (fst drv) drv_pbuf [] 33554442 16777226.
Proof.
  split.
  - split; [|by vm_compute|by right| |vm_compute; done|by vm_compute..].
    + split_and!; cbn [chain lens_ok drv_pbuf next]; try done; by vm_compute.
    + apply (mem_ok_list (payload drv_pbuf) ping_bytes). apply (bool_decide_unpack (bytes_ok ping_bytes)). by vm_compute.
  - split; (constructor; [|constructor]); [done|split; [done|by right]|done].
  - cbn. lia.
  - vm_compute. done.
  - by vm_compute.
  - by vm_compute.
  - by vm_compute.
Qed.


Lemma ip4_forward_correct_witness :
  exists n', ip4_forward (fun _ => 0) (frag_custom_free 3) true ex_output (in_net (transit_bytes 64 101 222) 33619978) 1000 1100 1
    = (let* (_, n2) := ex_output n' 2 1000 33619978 in Ok n2) /\ IPH_TTL (mem n') 1100 = 63.
Proof.
  destruct (ip4_forward_correct (fun _ => 0) (frag_custom_free 3) true ex_output
    (in_net (transit_bytes 64 101 222) 33619978) 1000 in_pbuf [] 1100 1 2 in_netif2 20) as (E & Ht & _).
  - apply in_packet.
  - done.
  - apply mem_ok_list. apply (bool_decide_unpack (bytes_ok (transit_bytes 64 101 222))). by vm_compute.
  - lia.
  - by vm_compute.
  - by vm_compute.
  - vm_compute; done.
  - by vm_compute.
  - by vm_compute.
  - by vm_compute.
  - done.
  - done.
  - by vm_compute.
  - eexists. split; [exact E|exact Ht].
Defined.

Lemma ip4_input_malformed_witness :
  exists p s, pbuf_alloc (fun _ => 0) no_custom true (Pbuf.mk_state ∅ ∅ ∅ (hp0, ([], ∅)) false 0) PBUF_RAW 300 PBUF_POOL = Ok (p, s)
    /\ exists s' L', ip4_input (fun _ => 0) (frag_custom_free 3) true ex_output (fun _ n _ _ _ _ _ => Ok n)
        (fun _ n _ _ _ _ => Ok (0, n)) (fun n _ _ => Ok n) (with_packets s (in_net [] 0)) p 1
      = Ok (ERR_OK, foldl (fun n c => inc P_ip c n) (with_packets s' (inc P_ip c_recv (with_packets s (in_net [] 0)))) [c_err; c_drop])
      /\ wf s' L'.
Proof.
  destruct (pbuf_alloc_spec (A := heap_pools * frag_pool) no_custom (fun _ => 0) true ltac:(done)
    (Pbuf.mk_state ∅ ∅ ∅ (hp0, ([], ∅)) false 0) ∅ PBUF_RAW 300 PBUF_POOL) as (p & s & E & Eby & Ecf & Hpost).
  { split; [exact hp0_owned|]. intros p b. cbn. by rewrite lookup_empty. }
  { done. }
  { done. }
  destruct Hpost as [(-> & _)|(Hne & bl & L' & Hpk & _ & Hfo & Hwf & _)]; [vm_compute in E; discriminate E|].
  exists p, s. split; [exact E|]. destruct bl as [|[q b] bl]; [by destruct Hpk as [-> _]|].
  pose proof (proj1 (proj1 Hpk)) as <-.
  assert (Hm : mem (with_packets s (in_net [] 0)) = ∅) by exact Eby.
  destruct (ip4_input_malformed (fun _ => 0) (frag_custom_free 3) true ex_output (fun _ n _ _ _ _ _ => Ok n)
        (fun _ n _ _ _ _ => Ok (0, n)) (fun n _ _ => Ok n) (with_packets s (in_net [] 0)) L' p b bl 1 [c_err; c_drop])
    as (s' & L2 & Ei & Hw & _).
  - exact Hwf.
  - exact Hpk.
  - exact Hne.
  - rewrite Hm. exact (mem_ok_list 0 [] (Forall_nil_2 _)).
  - eapply Forall_impl; [exact Hfo|]. intros ab (_ & Hf & Hr). split; [done|]. unfold is_custom. by rewrite Hf.
  - unfold header_error, IPH_V, rd8. rewrite Hm, lookup_empty. reflexivity.
  - exists s', L2. split; [exact Ei|exact Hw].
Defined.

(** A packet that arrives with TTL 0 is not discarded: the decrement wraps, and it is
    forwarded with TTL 255 and a checksum that does not verify. *)
Theorem forward_ttl_zero :
  internet_checksum (take 20 (transit_bytes 0 165 222)) = 0
  /\ exists n', ip4_forward (fun _ => 0) (frag_custom_free 3) true ex_output (in_net (transit_bytes 0 165 222) 33619978) 1000 1100 1 = Ok n'
    /\ exists out, world n' = [out] /\ nth 8 out 0 = 255 /\ internet_checksum (take 20 out) <> 0.
Proof.
  split; [by vm_compute|]. eexists. split; [vm_compute; reflexivity|]. eexists. split; [reflexivity|]. split; by vm_compute.
Qed.

End Examples.
