(* ===== verification/UdpIo.v ===== *)
(** * Sending and receiving datagrams: lwip/src/core/udp.c on top of ip4.c

    The datagram as bytes, what [udp_sendto_if_src] makes of the data of the caller and what
    [ip4_input] and [udp_input] make of such a datagram. *)

From S2P Require Import Prelude Def Ip4Addr InetChksum Pbuf PbufData PbufAlloc PbufOps Net Ip4 Icmp Reass Igmp Udp Raw Ip4In.

(** ** The datagram as bytes *)

Definition udp_front (sport dport len : Z) : list Z := be16 sport ++ be16 dport ++ be16 len.

(** The checksum is that of the pseudo header, the header and the data; 0 is sent as 65535. *)
Definition udp_checksum (src dest sport dport : Z) (data : list Z) : Z :=
  let len := UDP_HLEN + Z.of_nat (length data) in
  let c := internet_checksum (pseudo_header src dest IP_PROTO_UDP len ++ udp_front sport dport len ++ [0; 0] ++ data) in
  if c =? 0 then 65535 else c.

Definition udp_datagram (src dest sport dport : Z) (data : list Z) : list Z :=
  udp_front sport dport (UDP_HLEN + Z.of_nat (length data)) ++ le_bytes 2 (udp_checksum src dest sport dport data) ++ data.

(** The whole packet on the wire. *)
Definition udp_packet (id src dest ttl tos sport dport : Z) (data : list Z) : list Z :=
  ip_header 5 tos (IP_HLEN + (UDP_HLEN + Z.of_nat (length data))) id 0 ttl IP_PROTO_UDP src dest []
  ++ udp_datagram src dest sport dport data.

Lemma internet_checksum_range bs : bytes_ok bs -> is_u16 (internet_checksum bs).
Proof.
  intros Hok. pose proof (word_sum_nonneg _ Hok). unfold internet_checksum, ones_complement_sum, oc, is_u16.
  destruct (word_sum bs =? 0); zlia.
Qed.

Lemma bytes_ok_be16 x : is_u16 x -> bytes_ok (be16 x).
Proof. unfold is_u16. intros. repeat constructor; unfold is_u8; zlia. Qed.

Lemma bytes_ok_udp_front sport dport len : is_u16 sport -> is_u16 dport -> is_u16 len -> bytes_ok (udp_front sport dport len).
Proof. intros. unfold udp_front. rewrite !bytes_ok_app. auto using bytes_ok_be16. Qed.

(** The checksum of a datagram verifies and says that there is one. *)
Lemma udp_datagram_verifies src dest sport dport data :
  is_u32 src -> is_u32 dest -> is_u16 sport -> is_u16 dport -> bytes_ok data -> UDP_HLEN + Z.of_nat (length data) <= 65535 ->
  internet_checksum (pseudo_header src dest IP_PROTO_UDP (UDP_HLEN + Z.of_nat (length data))
                     ++ udp_datagram src dest sport dport data) = 0
  /\ 0 < udp_checksum src dest sport dport data < 65536.
Proof.
  intros Hs Hd Hsp Hdp Hdata Hlen. unfold UDP_HLEN in *. unfold udp_datagram, udp_checksum, UDP_HLEN. set (l := 8 + Z.of_nat (length data)) in *.
  assert (Hl : is_u16 l) by (unfold is_u16; lia). set (front := udp_front sport dport l).
  assert (Hf : bytes_ok front) by (by apply bytes_ok_udp_front).
  set (ph := pseudo_header src dest IP_PROTO_UDP l).
  assert (Hp : bytes_ok ph) by (by apply bytes_ok_pseudo).
  assert (Hpre : bytes_ok (ph ++ front)) by (by apply bytes_ok_app).
  rewrite !(app_assoc ph front).
  assert (H0 : bytes_ok ((ph ++ front) ++ [0; 0] ++ data)) by (rewrite !bytes_ok_app; split_and!; try done; by repeat constructor).
  pose proof (internet_checksum_range _ H0) as Hr. unfold is_u16 in Hr.
  destruct (Z.eqb_spec (internet_checksum ((ph ++ front) ++ [0; 0] ++ data)) 0) as [E|E].
  - split; [|lia]. rewrite checksum_zero_iff in E |- * by (rewrite ?bytes_ok_app; split_and!; done || (by repeat constructor)).
    rewrite word_sum_app in E |- * by done. change (le_bytes 2 65535) with [255; 255]. cbn [app word_sum] in *.
    pose proof (word_sum_nonneg _ Hpre). pose proof (word_sum_nonneg _ Hdata). zlia.
  - split; [|lia]. by apply internet_checksum_verifies.
Qed.

(** ** Sending *)

Section Send.
Context {A W : Type} `{AllocOps A} `{FragPool A}.
Variable stale_flags : Z -> Z.
Variable custom_free : Z -> Z -> Pbuf.state A -> res (Pbuf.state A).
Variable callback_ok : bool.
Variable netif_output : net A W -> Z -> Z -> Z -> res (err_t * net A W).
Implicit Types n : net A W.

(** A packet with something new in front of its data. *)
Lemma cdata_front m m' p b k bl :
  0 <= k -> 0 <= len b -> apart (payload b - k) k bl -> lens_ok bl ->
  (forall x, (x < payload b - k \/ payload b <= x) -> rd8 m' x = rd8 m x) ->
  cdata m' ((p, moved k b) :: bl) = rd m' (payload b - k) (Z.to_nat k) ++ cdata m ((p, b) :: bl).
Proof.
  intros Hk Hl Hap Hok Hfr. rewrite !cdata_cons. cbn [moved payload len].
  replace (Z.to_nat (len b + k)) with (Z.to_nat k + Z.to_nat (len b))%nat by lia. rewrite rd_add, <- app_assoc. f_equal. f_equal.
  - replace (payload b - k + Z.of_nat (Z.to_nat k)) with (payload b) by lia. apply rd_ext. intros x Hx. apply Hfr. lia.
  - apply cdata_ext. intros ab x Hin Hx. apply Hfr. unfold apart in Hap. rewrite Forall_forall in Hap.
    specialize (Hap _ Hin). cbn in Hap. lia.
Qed.

(** The header that [udp_sendto_if_src] writes, with the checksum [c]. *)
Definition udp_mem (m : memory) (a sport dport len c : Z) : memory :=
  wr16 (wr16 (wr16 (wr16 (wr16 m a (lwip_htons sport)) (a + 2) (lwip_htons dport)) (a + 6) 0) (a + 4) (lwip_htons len)) (a + 6) c.

Lemma udp_mem_spec m a sport dport len c :
  is_u16 sport -> is_u16 dport -> is_u16 len ->
  rd (udp_mem m a sport dport len c) a 8 = udp_front sport dport len ++ le_bytes 2 c
  /\ (forall x, (x < a \/ a + 8 <= x) -> rd8 (udp_mem m a sport dport len c) x = rd8 m x)
  /\ (mem_ok m -> mem_ok (udp_mem m a sport dport len c)).
Proof.
  intros Hs Hd Hl. unfold udp_mem. rewrite !htons_word by done. split; [|split; [|intros; auto 8 with lwip]].
  - unfold wr16. cbn [rd]. repeat (rewrite <- Z.add_assoc; cbn [Z.add Pos.add Pos.succ]). rd8_solve.
    destruct (be_word sport Hs) as [-> ->], (be_word dport Hd) as [-> ->], (be_word len Hl) as [-> ->]. done.
  - intros x Hx. unfold wr16. by rewrite !wr_outside by (cbn [length le_bytes]; lia).
Qed.

(** Writing the same place twice. *)
Lemma wr16_wr16 m a v w x : rd8 (wr16 (wr16 m a v) a w) x = rd8 (wr16 m a w) x.
Proof.
  unfold wr16. destruct (decide (a <= x < a + 2)) as [Hx|Hx].
  - by rewrite !rd8_wr by (cbn [length le_bytes]; lia).
  - by rewrite !wr_outside by (cbn [length le_bytes]; lia).
Qed.

(** A pcb that sends plain UDP with a checksum and is bound. *)
Definition plain_pcb (u : udp_pcb) : Prop :=
  0 < u_local_port u < 65536 /\ Z.land (u_flags u) UDP_FLAGS_UDPLITE = 0 /\ Z.land (u_flags u) UDP_FLAGS_NOCHKSUM = 0
  /\ Z.land (u_flags u) UDP_FLAGS_MULTICAST_LOOP = 0.

(** A header with any checksum in front of the data. *)
Lemma datagram_mem m m5 p b bl sport dport tl c :
  is_u16 sport -> is_u16 dport -> is_u16 tl -> 0 <= len b -> apart (payload b - 8) 8 bl -> lens_ok bl ->
  (forall x, rd8 m5 x = rd8 (udp_mem m (payload b - 8) sport dport tl c) x) ->
  cdata m5 ((p, moved 8 b) :: bl) = (udp_front sport dport tl ++ le_bytes 2 c) ++ cdata m ((p, b) :: bl).
Proof.
  intros Hs Hd Ht Hl Hap Hlok Hx. destruct (udp_mem_spec m (payload b - 8) sport dport tl c) as (Er & Hf & _); [done..|].
  rewrite (cdata_front m m5 p b 8 bl) by (done || lia || (intros x Hx'; rewrite Hx; apply Hf; lia)).
  change (Z.to_nat 8) with 8%nat. f_equal. rewrite <- Er. apply rd_ext. intros x _. apply Hx.
Qed.

(** Length and checksum. *)
Lemma fill_udp_spec n p b bl sport dport src dst u :
  plain_pcb u -> is_u16 sport -> is_u16 dport -> is_u32 src -> is_u32 dst -> mem_ok (mem n) ->
  room n p b bl (IP_HLEN + UDP_HLEN) ->
  let a := payload b - 8 in
  let h1 := <[p := moved 8 b]> (pbufs (packets n)) in
  let m3 := wr16 (wr16 (wr16 (mem n) a (lwip_htons sport)) (a + 2) (lwip_htons dport)) (a + 6) 0 in
  exists m5, fill_udp (set_ph h1 m3 n) p a src dst u = Ok (IP_PROTO_UDP, set_ph h1 m5 n) /\ mem_ok m5
    /\ cdata m5 ((p, moved 8 b) :: bl) = udp_datagram src dst sport dport (cdata (mem n) ((p, b) :: bl))
    /\ (forall x, (x < a \/ payload b <= x) -> rd8 m5 x = rd8 (mem n) x).
Proof.
  intros (_ & Hlite & Hnock & _) Hsp Hdp Hsrc Hdst Hm [Hpk Hne Hty Hfr Htot Hap] a h1 m3. unfold IP_HLEN, UDP_HLEN in *.
  pose proof Hpk as (_ & (Hl & Htl & Hlok) & _). pose proof (lens_ok_nonneg _ Hlok) as Hnn.
  assert (Hlen : Z.of_nat (length (cdata (mem n) ((p, b) :: bl))) = len b + total bl).
  { rewrite length_cdata by exact (proj1 (proj2 Hpk)). apply total_cons. }
  rewrite total_cons in Htot. set (D := cdata (mem n) ((p, b) :: bl)) in *. set (tl := tot_len b + 8).
  assert (Htl16 : is_u16 tl) by (unfold is_u16; lia).
  assert (Hpk1 : packet h1 p ((p, moved 8 b) :: bl)) by (apply moved_packet; [done|lia|rewrite total_cons; lia]).
  assert (Hap8 : apart (payload b - 8) 8 bl) by (eapply apart_sub; [exact Hap|lia|lia]).
  unfold fill_udp. rewrite pbuf_at_set_ph, (deref_ok h1 p (moved 8 b)) by apply lookup_insert_eq. cbn [res_bind].
  rewrite Hlite, Hnock. cbn [Z.eqb negb]. rewrite mem_set_ph, with_mem_set_ph. change (tot_len (moved 8 b)) with tl.
  set (m4 := wr16 m3 (a + 4) (lwip_htons tl)). unfold view.
  change (packets (set_ph h1 m4 n)) with (with_bytes m4 (with_pbufs h1 (packets n))).
  rewrite mem_set_ph. cbn [with_bytes with_pbufs pbufs].
  rewrite (chain_view_spec h1 m4 ((p, moved 8 b) :: bl)) by (exact (proj1 Hpk1) || exact (chain_fuel _ _ _ (proj1 Hpk1))). cbn [res_bind].
  assert (Em4 : cdata m4 ((p, moved 8 b) :: bl) = (udp_front sport dport tl ++ [0; 0]) ++ D).
  { apply (datagram_mem (mem n) m4 p b bl sport dport tl 0); [done..|]. intros x. fold a. change (udp_mem _ _ _ _ _ 0) with (wr16 m4 (a + 6) 0).
    destruct (decide (a + 6 <= x < a + 8)) as [Hx|Hx]; [|unfold wr16; by rewrite wr_outside by (cbn [length le_bytes]; lia)].
    assert (Hx2 : x = a + 6 \/ x = a + 7) by lia. unfold m4, m3, wr16. destruct Hx2 as [-> | ->]; rd8_solve; done. }
  assert (Hmok4 : mem_ok m4) by (unfold m4, m3; auto 8 with lwip).
  rewrite ip_chksum_pseudo_spec, chain_view_bytes, Em4;
    [|apply chain_view_ok; [by auto with lwip|exact (proj1 (proj2 Hpk1))|exact (proj2 (proj2 Hpk1))]|done..].
  rewrite <- app_assoc, with_mem_set_ph. set (c := if _ =? 0 then 65535 else _).
  assert (Ec : c = udp_checksum src dst sport dport D).
  { unfold c, udp_checksum, UDP_HLEN. by replace (8 + Z.of_nat (length D)) with tl by (subst tl; lia). }
  eexists. split; [reflexivity|]. split; [by auto with lwip|]. split.
  - rewrite (datagram_mem (mem n) _ p b bl sport dport tl c) by done. unfold udp_datagram, UDP_HLEN. rewrite <- Ec, <- app_assoc.
    by replace (8 + Z.of_nat (length D)) with tl by (subst tl; lia).
  - intros x Hx. unfold m4, m3, wr16. by rewrite !wr_outside by (cbn [length le_bytes]; lia).
Qed.

Lemma udp_send_spec n pcb u p b bl src dst dst_port nif :
  udp_heap (udp n) !! pcb = Some u -> pcb <> NULL -> plain_pcb u -> is_u16 dst_port ->
  room n p b bl (IP_HLEN + UDP_HLEN) -> ref b = 1 ->
  ip_args n src dst (if ip4_addr_ismulticast dst then u_mcast_ttl u else u_ttl u) (u_tos u) IP_PROTO_UDP ->
  exists m',
    let D := cdata (mem n) ((p, b) :: bl) in
    let b' := moved (IP_HLEN + UDP_HLEN) b in
    let n' := with_ip_id (u16 (ip_id n + 1)) (set_ph (<[p := b']> (pbufs (packets n))) m' n) in
    let ttl := if ip4_addr_ismulticast dst then u_mcast_ttl u else u_ttl u in
    udp_sendto_if_src stale_flags custom_free callback_ok netif_output n pcb p (Some dst) dst_port nif src
    = (let* (err, n2) := send_on stale_flags custom_free callback_ok netif_output n' p dst nif in
       Ok (err, inc P_udp c_xmit n2))
    /\ packet (pbufs (packets n')) p ((p, b') :: bl)
    /\ cdata m' ((p, b') :: bl)
       = out_header n (UDP_HLEN + Z.of_nat (length D)) src dst ttl (u_tos u) IP_PROTO_UDP []
         ++ udp_datagram src dst (u_local_port u) dst_port D
    /\ (forall x, (x < payload b - (IP_HLEN + UDP_HLEN) \/ payload b <= x) -> rd8 m' x = rd8 (mem n) x).
Proof.
  intros Hu Hpcb Hpl Hdp Hroom Href Hargs. pose proof Hargs as (Hid & Hsrc & Hdst & Httl & Htos & _ & Hm).
  assert (Hlp16 : is_u16 (u_local_port u)) by (destruct Hpl; unfold is_u16; lia).
  destruct (fill_udp_spec n p b bl (u_local_port u) dst_port src dst u Hpl Hlp16 Hdp Hsrc Hdst Hm Hroom)
    as (m5 & Efill & Hmok5 & Em5 & Hfr5). destruct Hpl as (Hlp & _ & _ & Hml). cbv zeta in *.
  pose proof Hroom as [Hpk Hne Hty Hfr Htot Hap]. unfold IP_HLEN, UDP_HLEN in *.
  pose proof Hpk as ((_ & _ & Hb & Hc) & (Hl & Htl & Hlok) & _). rewrite total_cons in *.
  pose proof (lens_ok_nonneg _ Hlok) as Hnn.
  assert (Hlen : Z.of_nat (length (cdata (mem n) ((p, b) :: bl))) = len b + total bl).
  { rewrite length_cdata by exact (proj1 (proj2 Hpk)). apply total_cons. }
  set (D := cdata (mem n) ((p, b) :: bl)) in *. set (a := payload b - 8) in *. set (b1 := moved 8 b) in *.
  set (h1 := <[p := b1]> (pbufs (packets n))) in *.
  unfold udp_sendto_if_src. rewrite (proj2 (Z.eqb_neq _ _) Hpcb), (deref_ok _ _ _ Hu). cbn [res_bind].
  rewrite (proj2 (Z.eqb_neq (u_local_port u) 0)) by lia. cbn [res_bind]. rewrite bool_decide_true by done.
  assert (Ew : with_udp (udp n) n = n) by (by destruct n). rewrite Ew. unfold add_header, UDP_HLEN at 1.
  rewrite (header_up n p b 8) by (done || lia). cbn [res_bind]. fold b1 h1. rewrite (proj2 (Z.eqb_neq _ _) Hne).
  rewrite pbuf_at_set_ph, (deref_ok h1 p b1) by apply lookup_insert_eq. cbn [res_bind b1 moved len payload].
  rewrite (proj2 (Z.leb_le UDP_HLEN _)) by (unfold UDP_HLEN; lia). cbn [lwip_assert res_bind].
  change (udp (set_ph h1 (mem n) n)) with (udp n). rewrite (deref_ok _ _ _ Hu). cbn [res_bind]. rewrite Hml. cbn [Z.eqb negb andb res_bind].
  rewrite mem_set_ph, with_mem_set_ph. fold a.
  match goal with |- context [with_packets (packets ?x) ?x] => change (with_packets (packets x) x) with x end.
  rewrite Efill. cbn [res_bind]. set (n4 := set_ph h1 m5 n).
  assert (Hroom4 : room n4 p b1 bl (IP_HLEN + Z.of_nat (length (padded [])))).
  { change (IP_HLEN + Z.of_nat (length (padded []))) with 20. split; try done; cbn [b1 moved payload]; [|lia| |].
    - apply moved_packet; [done|lia|rewrite total_cons; lia].
    - rewrite total_cons. cbn [b1 moved len]. lia.
    - eapply apart_sub; [exact Hap|lia|lia]. }
  unfold ip4_output_if_src.
  destruct (output_spec stale_flags custom_free callback_ok netif_output n4 p b1 bl (Some src) dst
    (if ip4_addr_ismulticast dst then u_mcast_ttl u else u_ttl u) (u_tos u) IP_PROTO_UDP nif [] Hroom4 Href) as (h' & m' & E & Eh & Hpk' & Hd & Hfr' & _);
    [by split_and!|constructor|cbn; lia|].
  change (IP_HLEN + Z.of_nat (length (padded []))) with 20 in *. exists m'. cbv zeta. change (20 + 8) with 28.
  assert (Eb : moved 20 b1 = moved 28 b) by (unfold b1; by rewrite moved_moved). rewrite Eb in *.
  assert (Eh' : h' = <[p := moved 28 b]> (pbufs (packets n))).
  { rewrite Eh. unfold n4. rewrite pbufs_set_ph. unfold h1. apply insert_insert_eq. }
  rewrite Eh' in *. split_and!; [|exact Hpk'| |].
  - rewrite E. change (set_ph (<[p := moved 28 b]> (pbufs (packets n))) m' n4) with (set_ph (<[p := moved 28 b]> (pbufs (packets n))) m' n).
    change (ip_id n4) with (ip_id n). destruct (send_on _ _ _ _ _ _ _ _) as [[err n2]|f]; [|done]. cbn [res_bind].
    rewrite Z.eqb_refl. done.
  - rewrite Hd. change (mem n4) with m5. rewrite Em5. f_equal. unfold out_header. change (ip_id n4) with (ip_id n).
    rewrite total_cons. cbn [b1 moved len default]. do 2 f_equal. rewrite Hlen. unfold UDP_HLEN. lia.
  - intros x Hx. rewrite Hfr' by (cbn [b1 moved payload]; lia). change (mem n4) with m5. apply Hfr5. lia.
Qed.

(** Sending a datagram.  With room for both headers in front of the data, what goes to the
    driver is exactly the IPv4 packet with the UDP datagram of the data: the ports of the pcb
    and of the destination, the length, and a checksum over pseudo header, header and data
    that verifies and is never 0; no other byte of memory changes. *)
Theorem udp_send_correct n pcb u p b bl src dst dst_port nif nf :
  udp_heap (udp n) !! pcb = Some u -> pcb <> NULL -> plain_pcb u -> is_u16 dst_port ->
  room n p b bl (IP_HLEN + UDP_HLEN) -> ref b = 1 ->
  ip_args n src dst (if ip4_addr_ismulticast dst then u_mcast_ttl u else u_ttl u) (u_tos u) IP_PROTO_UDP ->
  netifs n !! nif = Some nf -> dst <> netif_ip4_addr nf -> ip4_addr_isloopback dst = false ->
  Z.land (flags b) PBUF_FLAG_MCASTLOOP = 0 ->
  (netif_mtu nf = 0 \/ total ((p, b) :: bl) + IP_HLEN + UDP_HLEN <= netif_mtu nf) ->
  exists n',
    let D := cdata (mem n) ((p, b) :: bl) in
    let bl' := (p, moved (IP_HLEN + UDP_HLEN) b) :: bl in
    let ttl := if ip4_addr_ismulticast dst then u_mcast_ttl u else u_ttl u in
    udp_sendto_if_src stale_flags custom_free callback_ok netif_output n pcb p (Some dst) dst_port nif src
    = (let* (err, n2) := netif_output n' nif p dst in Ok (err, inc P_udp c_xmit n2))
    /\ packet (pbufs (packets n')) p bl' /\ world n' = world n /\ netifs n' = netifs n
    /\ cdata (mem n') bl' = udp_packet (ip_id n) src dst ttl (u_tos u) (u_local_port u) dst_port D
    /\ internet_checksum (pseudo_header src dst IP_PROTO_UDP (UDP_HLEN + Z.of_nat (length D))
                          ++ udp_datagram src dst (u_local_port u) dst_port D) = 0
    /\ udp_checksum src dst (u_local_port u) dst_port D <> 0
    /\ (forall x, (x < payload b - (IP_HLEN + UDP_HLEN) \/ payload b <= x) -> rd8 (mem n') x = rd8 (mem n) x).
Proof.
  intros Hu Hpcb Hpl Hdp Hroom Href Hargs Hnf Hd Hlb Hfl Hmtu.
  destruct (udp_send_spec n pcb u p b bl src dst dst_port nif Hu Hpcb Hpl Hdp Hroom Href Hargs) as (m' & E & Hpk & Hdat & Hfr).
  cbv zeta in *. set (D := cdata (mem n) ((p, b) :: bl)) in *. set (b' := moved (IP_HLEN + UDP_HLEN) b) in *.
  destruct Hroom as [Hpk0 _ _ _ Htot _]. pose proof Hpk0 as (_ & (Hl0 & Htl0 & Hlok0) & _).
  assert (Hlen : Z.of_nat (length D) = total ((p, b) :: bl)) by (apply length_cdata, Hpk0).
  destruct Hargs as (_ & Hs32 & Hd32 & _ & _ & _ & Hm). unfold IP_HLEN, UDP_HLEN in *.
  assert (Hp16 : is_u16 (u_local_port u)) by (destruct Hpl as [? _]; unfold is_u16; lia).
  destruct (udp_datagram_verifies src dst (u_local_port u) dst_port D Hs32 Hd32 Hp16 Hdp) as [Hv Hc];
    [by apply mem_ok_cdata|unfold UDP_HLEN; lia|].
  eexists. rewrite E. erewrite (send_on_direct _ _ _ _ _ p b' dst nif nf);
    [|exact (lookup_insert_eq (pbufs (packets n)) p b')|exact Hnf|done|done|done|].
  2:{ rewrite total_cons, <- Htl0 in Hmtu. cbn [b' moved tot_len]. lia. }
  split; [reflexivity|]. split; [exact Hpk|]. split; [reflexivity|]. split; [reflexivity|]. split; [|split; [exact Hv|split; [lia|exact Hfr]]].
  transitivity (cdata m' ((p, b') :: bl)); [reflexivity|]. rewrite Hdat. unfold out_header, udp_packet. change (padded []) with (@nil Z). rewrite app_nil_r. cbn [length].
  do 2 f_equal. unfold UDP_HLEN, IP_HLEN. lia.
Qed.
End Send.

(** ** Receiving *)

Lemma rd_split m a j bs1 bs2 : rd m a j = bs1 ++ bs2 ->
  rd m a (length bs1) = bs1 /\ rd m (a + Z.of_nat (length bs1)) (length bs2) = bs2.
Proof.
  intros E. assert (Ej : j = (length bs1 + length bs2)%nat) by (by rewrite <- length_app, <- E, length_rd).
  rewrite Ej, rd_add in E. by apply app_inj_1 in E; [|rewrite length_rd].
Qed.

(** Reading a word in network byte order, and an address. *)
Lemma rd16_be m a x : is_u16 x -> rd m a 2 = be16 x -> lwip_ntohs (rd16 m a) = x.
Proof.
  intros Hx E. unfold rd16. rewrite E. unfold be16, lwip_ntohs. cbn [le_val]. rewrite lwip_htons_arith. unfold is_u16 in Hx. zlia.
Qed.

Lemma rd32_addr m a x : is_u32 x -> rd m a 4 = le_bytes 4 x -> rd32 m a = x.
Proof. intros Hx E. unfold rd32. rewrite E. apply le_val_bytes. exact Hx. Qed.

(** What the accessors read from a header without options that is not a fragment. *)
Lemma ip_header_fields m a tos len id ttl proto src dest :
  is_u16 len -> is_u32 src -> is_u32 dest ->
  rd m a 20 = ip_header 5 tos len id 0 ttl proto src dest [] ->
  rd8 m a = 69 /\ lwip_ntohs (IPH_LEN m a) = len /\ IPH_OFFSET m a = 0 /\ IPH_PROTO m a = proto
  /\ iph_src m a = src /\ iph_dest m a = dest.
Proof.
  intros Hl Hs Hd E. unfold ip_header, ip_front in E. cbv zeta in E. rewrite app_nil_r in E.
  set (c := internet_checksum _) in E. clearbody c. rewrite <- !app_assoc in E.
  apply rd_split in E as [E0 E]. apply rd_split in E as [E1 E]. apply rd_split in E as [_ E]. apply rd_split in E as [E2 E].
  apply rd_split in E as [E3 E]. apply rd_split in E as [_ E]. apply rd_split in E as [E4 E5].
  cbn [length le_bytes be16] in E0, E1, E2, E3, E4, E5. change (Z.of_nat 2) with 2 in *. change (Z.of_nat 4) with 4 in *.
  replace (a + 2 + 2 + 2 + 2 + 2 + 2 + 4) with (a + 16) in E5 by lia. replace (a + 2 + 2 + 2 + 2 + 2 + 2) with (a + 12) in E4 by lia.
  replace (a + 2 + 2 + 2 + 2) with (a + 8) in E3 by lia. replace (a + 2 + 2 + 2) with (a + 6) in E2 by lia.
  split_and!.
  - by injection E0 as ->.
  - by apply rd16_be.
  - unfold IPH_OFFSET, rd16. by rewrite E2.
  - unfold IPH_PROTO. cbn [rd] in E3. injection E3 as _ E3. rewrite <- Z.add_assoc in E3. exact E3.
  - by apply rd32_addr.
  - by apply rd32_addr.
Qed.

Lemma length_udp_datagram src dest sport dport data :
  Z.of_nat (length (udp_datagram src dest sport dport data)) = UDP_HLEN + Z.of_nat (length data).
Proof. unfold udp_datagram, udp_front, be16, UDP_HLEN. rewrite !length_app. cbn [length le_bytes]. lia. Qed.

Lemma drop_udp_datagram src dest sport dport data : drop 8 (udp_datagram src dest sport dport data) = data.
Proof. reflexivity. Qed.

(** The header of a datagram in memory. *)
Lemma udp_fields m p b bl src dest sport dport data :
  is_u16 sport -> is_u16 dport -> 8 <= len b -> cdata m ((p, b) :: bl) = udp_datagram src dest sport dport data ->
  0 < udp_checksum src dest sport dport data < 65536 ->
  lwip_ntohs (rd16 m (payload b)) = sport /\ lwip_ntohs (rd16 m (payload b + 2)) = dport
  /\ rd16 m (payload b + 6) = udp_checksum src dest sport dport data.
Proof.
  intros Hs Hd Hl E Hc. rewrite cdata_cons in E. replace (Z.to_nat (len b)) with (8 + Z.to_nat (len b - 8))%nat in E by lia.
  rewrite rd_add, <- app_assoc in E. unfold udp_datagram in E. rewrite (app_assoc (udp_front _ _ _)) in E.
  apply app_inj_1 in E as [E _]; [|by rewrite length_rd].
  unfold udp_front in E. rewrite <- !app_assoc in E.
  apply rd_split in E as [E1 E]. apply rd_split in E as [E2 E]. apply rd_split in E as [_ E].
  cbn [length be16] in E1, E2, E. change (Z.of_nat 2) with 2 in *. split_and!; [by apply rd16_be..|].
  change (length (le_bytes 2 (udp_checksum src dest sport dport data))) with 2%nat in E.
  replace (payload b + 2 + 2 + 2) with (payload b + 6) in E by lia. unfold rd16. rewrite E. apply le_val_two. unfold is_u16. lia.
Qed.

Section Receive.
Context {A W : Type} `{AllocOps A} `{FragPool A}.
Variable stale_flags : Z -> Z.
Variable custom_free : Z -> Z -> Pbuf.state A -> res (Pbuf.state A).
Variable callback_ok : bool.
Variable netif_output : net A W -> Z -> Z -> Z -> res (err_t * net A W).
Variable udp_recv_fn : Z -> net A W -> Z -> Z -> Z -> Z -> Z -> res (net A W).
Variable raw_recv_fn : Z -> net A W -> Z -> Z -> Z -> Z -> res (Z * net A W).
Variable tcp_input : net A W -> Z -> Z -> res (net A W).
Implicit Types n : net A W.

(** Demultiplexing leaves everything but the list and a counter alone. *)
Lemma demux_frame n inp src_ip src dest_ip dest broadcast pcb n1 :
  udp_ok (udp n) -> demux n inp src_ip src dest_ip dest broadcast = Ok (pcb, n1) ->
  packets n1 = packets n /\ ip_data n1 = ip_data n /\ netifs n1 = netifs n /\ udp_heap (udp n1) = udp_heap (udp n).
Proof.
  intros Hok E. destruct (demux_spec n inp src_ip src dest_ip dest broadcast Hok) as (q & n' & E' & Hh & _ & _ & Hn & _).
  rewrite E in E'. injection E' as <- <-. destruct Hn as [-> | [-> | ->]]; done.
Qed.

(** A datagram whose checksum verifies is accepted. *)
Lemma chksum_good_spec n p b bl src dest sport dport data :
  packet (pbufs (packets n)) p ((p, b) :: bl) -> mem_ok (mem n) -> 8 <= len b ->
  cdata (mem n) ((p, b) :: bl) = udp_datagram src dest sport dport data ->
  current_iphdr_src (ip_data n) = src -> current_iphdr_dest (ip_data n) = dest ->
  is_u32 src -> is_u32 dest -> is_u16 sport -> is_u16 dport ->
  IPH_PROTO (mem n) (current_ip4_header (ip_data n)) = IP_PROTO_UDP ->
  chksum_good n p (payload b) = Ok true.
Proof.
  intros Hpk Hm Hl Hd Esrc Edest Hs32 Hd32 Hsp Hdp Hpr. pose proof Hpk as ((_ & _ & Hb & Hc) & Hlok & Ht).
  pose proof Hlok as (_ & Htl & _). rewrite <- (total_cons p) in Htl.
  assert (Hlen : total ((p, b) :: bl) = UDP_HLEN + Z.of_nat (length data)).
  { rewrite <- (length_cdata (mem n)) by done. rewrite Hd. apply length_udp_datagram. }
  assert (Hok : bytes_ok (cdata (mem n) ((p, b) :: bl))) by auto with lwip.
  assert (Hdata : bytes_ok data).
  { rewrite Hd in Hok. rewrite <- (drop_udp_datagram src dest sport dport data). by apply bytes_ok_drop. }
  destruct (udp_datagram_verifies src dest sport dport data) as [Hv Hc0]; [done..|lia|].
  destruct (udp_fields (mem n) p b bl src dest sport dport data Hsp Hdp Hl Hd Hc0) as (_ & _ & E6).
  unfold chksum_good. rewrite Esrc, Edest. unfold pbuf_at. rewrite (deref_ok _ _ _ Hb). cbn [res_bind]. unfold view.
  rewrite (chain_view_spec _ _ ((p, b) :: bl)) by (exact (proj1 Hpk) || exact (chain_fuel _ _ _ (proj1 Hpk))). cbn [res_bind].
  rewrite Hpr, E6. change (IP_PROTO_UDP =? IP_PROTO_UDPLITE) with false. rewrite (proj2 (Z.eqb_neq (udp_checksum _ _ _ _ _) 0)) by lia. cbn [negb].
  rewrite ip_chksum_pseudo_spec, chain_view_bytes, Hd, Htl, Hlen, Hv;
    [done|by apply chain_view_ok|done|rewrite Htl; unfold is_u16, UDP_HLEN in *; lia|done|done].
Qed.

(** A datagram for a pcb with a receive function is handed to it without its header. *)
Lemma udp_input_spec n p b bl inp nf cur src dest sport dport data pcb u n1 :
  packet (pbufs (packets n)) p ((p, b) :: bl) -> p <> NULL -> mem_ok (mem n) -> 8 <= len b ->
  (type b = PBUF_RAM \/ type b = PBUF_POOL -> p + SIZEOF_STRUCT_PBUF <= payload b) ->
  cdata (mem n) ((p, b) :: bl) = udp_datagram src dest sport dport data ->
  current_iphdr_src (ip_data n) = src -> current_iphdr_dest (ip_data n) = dest ->
  is_u32 src -> is_u32 dest -> is_u16 sport -> is_u16 dport ->
  IPH_PROTO (mem n) (current_ip4_header (ip_data n)) = IP_PROTO_UDP ->
  netifs n !! current_netif (ip_data n) = Some cur -> netifs n !! inp = Some nf -> udp_ok (udp n) ->
  demux (inc P_udp c_recv n) nf src sport dest dport (ip4_addr_isbroadcast_u32 dest cur) = Ok (pcb, n1) ->
  pcb <> NULL -> udp_heap (udp n) !! pcb = Some u -> u_recv u <> NULL ->
  udp_input stale_flags custom_free callback_ok netif_output udp_recv_fn n p inp
  = udp_recv_fn (u_recv u) (set_ph (<[p := moved (- UDP_HLEN) b]> (pbufs (packets n))) (mem n) n1) (u_recv_arg u) pcb p src sport.
Proof.
  intros Hpk Hne Hm Hl Hfr Hd Esrc Edest Hs32 Hd32 Hsp Hdp Hpr Hcur Hnf Hok Hdm Hpcb Hu Hrecv.
  pose proof Hpk as ((_ & _ & Hb & Hc) & Hlok & Ht). rewrite total_cons in Ht. pose proof Hlok as (_ & Htl & Hlok2).
  pose proof (lens_ok_nonneg _ Hlok2) as Hnn.
  assert (Hok0 : udp_ok (udp (inc P_udp c_recv n))) by done.
  destruct (demux_frame _ _ _ _ _ _ _ _ _ Hok0 Hdm) as (Ep & Eg & En & Eh).
  change (packets (inc P_udp c_recv n)) with (packets n) in Ep. change (ip_data (inc P_udp c_recv n)) with (ip_data n) in Eg.
  change (udp_heap (udp (inc P_udp c_recv n))) with (udp_heap (udp n)) in Eh.
  assert (Em : mem n1 = mem n) by (unfold mem; by rewrite Ep).
  assert (Hgood : chksum_good n1 p (payload b) = Ok true)
    by (eapply (chksum_good_spec n1 p b bl src dest sport dport data); rewrite ?Em, ?Eg, ?Ep; done).
  assert (Hdb : bytes_ok data).
  { rewrite <- (drop_udp_datagram src dest sport dport data), <- Hd. apply bytes_ok_drop. by auto with lwip. }
  assert (Hlen : total ((p, b) :: bl) = UDP_HLEN + Z.of_nat (length data)).
  { rewrite <- (length_cdata (mem n)) by done. rewrite Hd. apply length_udp_datagram. }
  rewrite total_cons in Hlen.
  destruct (udp_datagram_verifies src dest sport dport data) as [_ Hc0]; [done..|unfold UDP_HLEN in *; lia|].
  destruct (udp_fields (mem n) p b bl src dest sport dport data Hsp Hdp Hl Hd Hc0) as (E0 & E2 & _).
  unfold udp_input. change (pbuf_at (inc P_udp c_recv n) p) with (deref (pbufs (packets n)) p).
  rewrite (deref_ok _ _ _ Hb). cbn [res_bind]. rewrite (proj2 (Z.ltb_ge _ _)) by (unfold UDP_HLEN; lia).
  change (mem (inc P_udp c_recv n)) with (mem n). change (ip_data (inc P_udp c_recv n)) with (ip_data n).
  rewrite E0, E2, Edest, Esrc. change (netif_at (inc P_udp c_recv n)) with (deref (netifs n)).
  rewrite (deref_ok _ _ _ Hcur), (deref_ok _ _ _ Hnf). cbn [res_bind]. rewrite Hdm. cbn [res_bind].
  rewrite (proj2 (Z.eqb_neq _ _) Hpcb). cbn [negb orb]. rewrite Hgood. cbn [res_bind]. unfold pass_on, UDP_HLEN.
  rewrite (header_down n1 p b 8) by (rewrite ?Ep; done || lia). cbn [res_bind negb lwip_assert].
  rewrite Ep, Em, (proj2 (Z.eqb_neq _ _) Hpcb). cbn [negb].
  change (udp (set_ph _ _ n1)) with (udp n1). rewrite Eh, (deref_ok _ _ _ Hu). cbn [res_bind].
  rewrite (proj2 (Z.eqb_neq _ _) Hrecv). cbn [negb]. change (ip_data (set_ph _ _ n1)) with (ip_data n1). by rewrite Eg, Esrc.
Qed.

(** A packet that consists of the given bytes. *)
Lemma udp_ip_packet n p b bl id src dest ttl tos sport dport data :
  packet (pbufs (packets n)) p ((p, b) :: bl) -> p <> NULL -> type b = PBUF_RAM \/ type b = PBUF_POOL ->
  mem_ok (mem n) -> IP_HLEN <= len b -> is_u32 src -> is_u32 dest -> is_u8 tos -> is_u16 id -> is_u8 ttl ->
  cdata (mem n) ((p, b) :: bl) = udp_packet id src dest ttl tos sport dport data ->
  ip_packet n p b bl src dest IP_PROTO_UDP
  /\ drop 20 (cdata (mem n) ((p, b) :: bl)) = udp_datagram src dest sport dport data.
Proof.
  intros Hpk Hne Hty Hm Hl Hs32 Hd32 Htos Hid Httl Hd. pose proof Hpk as (_ & Hlok & Ht). unfold IP_HLEN in *.
  pose proof (length_cdata (mem n) _ Hlok) as Elen. rewrite Hd in Elen. unfold udp_packet in Elen.
  rewrite length_app, length_ip_header, Nat2Z.inj_add, length_udp_datagram in Elen.
  assert (Hl16 : is_u16 (IP_HLEN + (UDP_HLEN + Z.of_nat (length data)))) by (unfold is_u16, IP_HLEN, UDP_HLEN in *; lia).
  assert (Ehd : rd (mem n) (payload b) 20
    = ip_header 5 tos (IP_HLEN + (UDP_HLEN + Z.of_nat (length data))) id 0 ttl IP_PROTO_UDP src dest []).
  { rewrite cdata_cons in Hd. replace (Z.to_nat (len b)) with (20 + Z.to_nat (len b - 20))%nat in Hd by lia.
    rewrite rd_add, <- app_assoc in Hd. unfold udp_packet in Hd. apply app_inj_1 in Hd as [Hd _]; [done|].
    by rewrite length_rd, length_ip_header. }
  destruct (ip_header_fields _ _ _ _ _ _ _ _ _ Hl16 Hs32 Hd32 Ehd) as (E0 & E2 & E6 & E9 & E12 & E16).
  split; [|rewrite Hd; unfold udp_packet; rewrite drop_app_le, drop_ge by (by rewrite length_ip_header); done].
  split; try done; [rewrite E2; unfold IP_HLEN; lia|by rewrite E6|].
  rewrite Ehd, <- (app_nil_r (ip_header _ _ _ _ _ _ _ _ _ _)). apply ip_header_verifies; (lia || done || by constructor).
Qed.

(** The receiver: a packet in a single RAM or pool pbuf or with at least both headers in the
    first one, and an interface that the packet is for. *)
Record receiver (n : net A W) (p : Z) (b : pbuf) (bl : list (Z * pbuf)) (inp : Z) (nf : netif) (src dest : Z) : Prop := {
  rcv_packet : packet (pbufs (packets n)) p ((p, b) :: bl);
  rcv_null : p <> NULL;
  rcv_type : type b = PBUF_RAM \/ type b = PBUF_POOL;
  rcv_front : p + SIZEOF_STRUCT_PBUF <= payload b;
  rcv_mem : mem_ok (mem n);
  rcv_len : IP_HLEN + UDP_HLEN <= len b;
  rcv_netif : netifs n !! inp = Some nf;
  rcv_inp : inp <> NULL;
  rcv_for_us : for_us nf src dest;
  rcv_raw : raw_pcbs (raw n) = [];
  rcv_udp : udp_ok (udp n)
}.

(** A datagram arrives as it was sent.  If the bytes of [udp_packet] come in on an
    interface with that address, and the pcb that [demux] picks has a receive function,
    then this function is called with the pcb, the source address and port of the sender
    and the packet, which then holds exactly the data that was sent. *)
Theorem udp_receive_roundtrip n p b bl inp nf id src dest ttl tos sport dport data pcb u n1 :
  receiver n p b bl inp nf src dest ->
  is_u32 src -> is_u32 dest -> is_u8 tos -> is_u16 id -> is_u8 ttl -> is_u16 sport -> is_u16 dport ->
  cdata (mem n) ((p, b) :: bl) = udp_packet id src dest ttl tos sport dport data ->
  demux (inc P_udp c_recv (delivered n p b inp src dest)) nf src sport dest dport (ip4_addr_isbroadcast_u32 dest nf) = Ok (pcb, n1) ->
  pcb <> NULL -> udp_heap (udp n) !! pcb = Some u -> u_recv u <> NULL ->
  exists n', let bl' := (p, moved (- (IP_HLEN + UDP_HLEN)) b) :: bl in
    ip4_input stale_flags custom_free callback_ok netif_output udp_recv_fn raw_recv_fn tcp_input n p inp
    = (let* n2 := udp_recv_fn (u_recv u) n' (u_recv_arg u) pcb p src sport in
       Ok (ERR_OK, with_ip_data (mk_globals NULL NULL NULL 0 IPADDR_ANY IPADDR_ANY) n2))
    /\ packet (pbufs (packets n')) p bl' /\ cdata (mem n') bl' = data
    /\ mem n' = mem n /\ world n' = world n.
Proof.
  intros [Hpk Hne Hty Hfr Hm Hl Hnf Hinp Hfu Hraw Hok] Hs32 Hd32 Htos Hid Httl Hsp Hdp Hd Hdm Hpcb Hu Hrecv.
  unfold IP_HLEN, UDP_HLEN in Hl.
  destruct (udp_ip_packet n p b bl id src dest ttl tos sport dport data Hpk Hne Hty Hm) as [Hip Hdg]; [unfold IP_HLEN; lia|done..|].
  destruct (delivered_packet n p b bl inp src dest Hpk) as [Hpk1 Hcd]; [unfold IP_HLEN; lia|]. rewrite Hdg in Hcd.
  set (nd := delivered n p b inp src dest) in *. set (b1 := moved (- IP_HLEN) b) in *.
  assert (Hb2 : moved (- UDP_HLEN) b1 = moved (- (IP_HLEN + UDP_HLEN)) b) by (unfold b1; rewrite moved_moved; done).
  assert (Hok1 : udp_ok (udp (inc P_udp c_recv nd))) by done.
  destruct (demux_frame _ _ _ _ _ _ _ _ _ Hok1 Hdm) as (Ep & _ & _ & _).
  rewrite (ip4_input_delivers _ _ _ _ _ _ _ n p b bl inp nf src dest IP_PROTO_UDP Hip Hnf Hfu Hinp Hfr Hraw) by (by left).
  change (IP_PROTO_UDP =? IP_PROTO_UDP) with true. cbv iota. fold nd.
  assert (Hproto : IPH_PROTO (mem nd) (current_ip4_header (ip_data nd)) = IP_PROTO_UDP) by exact (ipp_proto _ _ _ _ _ _ _ Hip).
  rewrite (udp_input_spec nd p b1 bl inp nf nf src dest sport dport data pcb u n1);
    [|done|done|done|cbn [b1 moved len]; unfold IP_HLEN; lia|intros _; cbn [b1 moved payload]; unfold IP_HLEN; lia|done..].
  rewrite Hb2. eexists. split; [reflexivity|]. cbv zeta. rewrite pbufs_set_ph, mem_set_ph.
  destruct (moved_down_packet (pbufs (packets nd)) p b1 bl (mem n) UDP_HLEN Hpk1) as [Hpk2 Hc2];
    [unfold UDP_HLEN; lia|cbn [b1 moved len]; unfold IP_HLEN, UDP_HLEN; lia|]. rewrite Hb2 in Hpk2, Hc2.
  change (mem nd) with (mem n) in *. rewrite Hcd in Hc2.
  split_and!; [exact Hpk2|exact Hc2|done|].
  destruct (demux_spec _ nf src sport dest dport (ip4_addr_isbroadcast_u32 dest nf) Hok1) as (q & n' & E' & _ & _ & _ & Hn & _).
  rewrite Hdm in E'. injection E' as <- <-. destruct Hn as [-> | [-> | ->]]; done.
Qed.
End Receive.

(** ** Examples *)

Section Examples.

Definition ex_pcb : udp_pcb := mk_udp 16777226 0 0 0 255 0 7 0 0 255 0 0 NULL NULL.

Lemma udp_send_correct_witness :
  exists n', udp_sendto_if_src (fun _ => 0) (frag_custom_free 3) true ex_output (with_udp udp_ex ex_net) 1 1000 (Some 33554442) 1000 1 16777226
    = (let* (err, n2) := ex_output n' 1 1000 33554442 in Ok (err, inc P_udp c_xmit n2))
    /\ cdata (mem n') [(1000, moved 28 ex_pbuf)] = udp_packet 7 16777226 33554442 255 0 7 1000 [1; 2; 3; 4; 5; 6; 7; 8].
Proof.
  destruct (udp_send_correct (fun _ => 0) (frag_custom_free 3) true ex_output (with_udp udp_ex ex_net) 1 ex_pcb 1000 ex_pbuf []
    16777226 33554442 1000 1 ex_netif) as (n' & E & _ & _ & _ & Hd & _).
  - vm_compute. reflexivity.
  - done.
  - vm_compute. done.
  - done.
  - destruct (ex_room 28) as [H1 H2 H3 H4 H5 H6]; [lia|]. by split.
  - done.
  - split_and!; try done. exact ex_mem_ok.
  - vm_compute. reflexivity.
  - done.
  - vm_compute. reflexivity.
  - done.
  - right. vm_compute. done.
  - exists n'. split; [exact E|]. refine (eq_trans Hd _). vm_compute. reflexivity.
Defined.

(** The same datagram the other way, to a pcb with a receive function. *)
Definition rx_udp : udp_globals := set_pcb udp_ex 1 (with_recv 99 0 ex_pcb).
Definition rx_bytes : list Z := udp_packet 7 33554442 16777226 255 0 1000 7 [1; 2; 3; 4].
Definition rx_pbuf : pbuf := mk_pbuf NULL 1100 32 32 PBUF_POOL 0 1.
Definition rx_net : net (heap_pools * frag_pool) (list (list Z)) :=
  with_udp rx_udp (with_packets (Pbuf.mk_state {[1000 := rx_pbuf]} (wr ∅ 1100 rx_bytes) ∅ (hp0, ([], ∅)) false 0) (in_net [] 0)).

Lemma rx_receiver : receiver rx_net 1000 rx_pbuf [] 1 ex_netif 33554442 16777226.
Proof.
  split; try done; [by right| |].
  - apply mem_ok_list. apply (bool_decide_unpack (bytes_ok rx_bytes)). vm_compute. reflexivity.
  - eapply udp_ok_same; [exact udp_ex_ok|vm_compute; reflexivity|done|done].
Qed.

Lemma udp_receive_roundtrip_witness :
  exists n', ip4_input (fun _ => 0) (frag_custom_free 3) true ex_output (fun f n a pcb p s sp => Ok n) (fun _ n _ _ _ _ => Ok (0, n))
      (fun n _ _ => Ok n) rx_net 1000 1
    = Ok (ERR_OK, with_ip_data (mk_globals NULL NULL NULL 0 IPADDR_ANY IPADDR_ANY) n')
    /\ cdata (mem n') [(1000, moved (-28) rx_pbuf)] = [1; 2; 3; 4].
Proof.
  destruct (udp_receive_roundtrip (fun _ => 0) (frag_custom_free 3) true ex_output (fun f n a pcb p s sp => Ok n)
    (fun _ n _ _ _ _ => Ok (0, n)) (fun n _ _ => Ok n) rx_net 1000 rx_pbuf [] 1 ex_netif 7 33554442 16777226 255 0 1000 7
    [1; 2; 3; 4] 1 (with_recv 99 0 ex_pcb)
    (inc P_udp c_recv (delivered rx_net 1000 rx_pbuf 1 33554442 16777226))) as (n' & E & _ & Hd & _).
  - exact rx_receiver.
  - done.
  - done.
  - done.
  - done.
  - done.
  - done.
  - done.
  - vm_compute. reflexivity.
  - vm_compute. reflexivity.
  - done.
  - vm_compute. reflexivity.
  - done.
  - exists n'. split; [exact E|exact Hd].
Defined.

End Examples.
