(* ===== verification/Dns.v ===== *)
(** * The DNS client: lwip/src/core/dns.c

    The configuration has random transaction ids and source ports, and shares the outstanding
    query of a name among its requests (LWIP_DNS_SECURE); there are no local hosts and no
    multicast queries, and addresses are IPv4.  The table and the requests are arrays, as in
    the code; a name is the array of 256 characters with a NUL in it.  [rand] stands for the
    generator of the C library, [found_fn] for the callbacks of the applications, which get
    the whole state. *)

From S2P Require Import Prelude Def Ip4Addr Pbuf TcpData Net Ip4 Udp.

Definition DNS_MAX_RETRIES : Z := 4.
Definition DNS_MAX_TTL : Z := 604800.
Definition DNS_TABLE_SIZE : nat := 4.
Definition DNS_MAX_REQUESTS : nat := 4.
Definition DNS_MAX_SOURCE_PORTS : Z := 4.
Definition DNS_MAX_SERVERS : Z := 2.
Definition DNS_MAX_NAME_LENGTH : Z := 256.
Definition DNS_SERVER_PORT : Z := 53.
Definition SIZEOF_DNS_HDR : Z := 12.
Definition SIZEOF_DNS_QUERY : Z := 4.
Definition SIZEOF_DNS_ANSWER : Z := 10.
Definition DNS_RRTYPE_A : Z := 1.
Definition DNS_RRCLASS_IN : Z := 1.
Definition DNS_FLAG1_RESPONSE : Z := 128.
Definition DNS_FLAG1_RD : Z := 1.
Definition DNS_FLAG2_ERR_MASK : Z := 15.
Definition DNS_PORT_ALLOWED (port : Z) : bool := 1024 <=? port.

(** The address of the function [dns_recv]. *)
Definition dns_recv_fn : Z := 3.

(** ** Data *)

Inductive dns_state := DNS_STATE_UNUSED | DNS_STATE_NEW | DNS_STATE_ASKING | DNS_STATE_DONE.

#[export] Instance dns_state_eq_dec : EqDecision dns_state.
Proof. solve_decision. Defined.

Definition dstate_eqb (a b : dns_state) : bool := bool_decide (a = b).

Record dns_table_entry := mk_dentry {
  d_ttl : Z; d_ipaddr : Z; d_txid : Z; d_state : dns_state; d_server_idx : Z; d_tmr : Z; d_retries : Z;
  d_seqno : Z; d_pcb_idx : Z; d_name : list Z
}.

(** [q_found]: the callback, NULL for a free entry. *)
Record dns_req_entry := mk_dreq { q_found : Z; q_arg : Z; q_idx : Z }.

Record dns_globals := mk_dns {
  dns_pcbs : list Z; dns_last_pcb_idx : Z; dns_seqno : Z; dns_table : list dns_table_entry;
  dns_requests : list dns_req_entry; dns_servers : list Z; dns_seed : Z
}.

Definition eta_dentry (e : dns_table_entry) : dns_table_entry :=
  mk_dentry (d_ttl e) (d_ipaddr e) (d_txid e) (d_state e) (d_server_idx e) (d_tmr e) (d_retries e) (d_seqno e)
    (d_pcb_idx e) (d_name e).
Definition set_d_ttl (v : Z) (e : dns_table_entry) : dns_table_entry := ltac:(set_field eta_dentry d_ttl v e).
Definition set_d_ipaddr (v : Z) (e : dns_table_entry) : dns_table_entry := ltac:(set_field eta_dentry d_ipaddr v e).
Definition set_d_txid (v : Z) (e : dns_table_entry) : dns_table_entry := ltac:(set_field eta_dentry d_txid v e).
Definition set_d_state (v : dns_state) (e : dns_table_entry) : dns_table_entry := ltac:(set_field eta_dentry d_state v e).
Definition set_d_server_idx (v : Z) (e : dns_table_entry) : dns_table_entry := ltac:(set_field eta_dentry d_server_idx v e).
Definition set_d_tmr (v : Z) (e : dns_table_entry) : dns_table_entry := ltac:(set_field eta_dentry d_tmr v e).
Definition set_d_retries (v : Z) (e : dns_table_entry) : dns_table_entry := ltac:(set_field eta_dentry d_retries v e).
Definition set_d_seqno (v : Z) (e : dns_table_entry) : dns_table_entry := ltac:(set_field eta_dentry d_seqno v e).
Definition set_d_pcb_idx (v : Z) (e : dns_table_entry) : dns_table_entry := ltac:(set_field eta_dentry d_pcb_idx v e).
Definition set_d_name (v : list Z) (e : dns_table_entry) : dns_table_entry := ltac:(set_field eta_dentry d_name v e).

Definition eta_dns (g : dns_globals) : dns_globals :=
  mk_dns (dns_pcbs g) (dns_last_pcb_idx g) (dns_seqno g) (dns_table g) (dns_requests g) (dns_servers g) (dns_seed g).
Definition set_dns_pcbs (v : list Z) (g : dns_globals) : dns_globals := ltac:(set_field eta_dns dns_pcbs v g).
Definition set_dns_last_pcb_idx (v : Z) (g : dns_globals) : dns_globals := ltac:(set_field eta_dns dns_last_pcb_idx v g).
Definition set_dns_seqno (v : Z) (g : dns_globals) : dns_globals := ltac:(set_field eta_dns dns_seqno v g).
Definition set_dns_table (v : list dns_table_entry) (g : dns_globals) : dns_globals := ltac:(set_field eta_dns dns_table v g).
Definition set_dns_requests (v : list dns_req_entry) (g : dns_globals) : dns_globals := ltac:(set_field eta_dns dns_requests v g).
Definition set_dns_servers (v : list Z) (g : dns_globals) : dns_globals := ltac:(set_field eta_dns dns_servers v g).
Definition set_dns_seed (v : Z) (g : dns_globals) : dns_globals := ltac:(set_field eta_dns dns_seed v g).

(** An element of an array. *)
Definition nth_at {X} (l : list X) (i : Z) : res X :=
  if i <? 0 then Fault FBadAccess else match l !! Z.to_nat i with Some x => Ok x | None => Fault FBadAccess end.

(** The array [name] as a C string, and [strlen]. *)
Fixpoint c_string (l : list Z) : list Z :=
  match l with [] => [] | c :: l' => if c =? 0 then [] else c :: c_string l' end.
Definition strlen (l : list Z) : Z := Z.of_nat (length (c_string l)).

(** All variables are zero at the start. *)
Definition dns_entry_zero : dns_table_entry :=
  mk_dentry 0 0 0 DNS_STATE_UNUSED 0 0 0 0 0 (replicate (Z.to_nat DNS_MAX_NAME_LENGTH) 0).
Definition dns_start (seed : Z) : dns_globals :=
  mk_dns (replicate (Z.to_nat DNS_MAX_SOURCE_PORTS) NULL) 0 0 (replicate DNS_TABLE_SIZE dns_entry_zero)
    (replicate DNS_MAX_REQUESTS (mk_dreq NULL NULL 0)) (replicate (Z.to_nat DNS_MAX_SERVERS) 0) seed.

(** ** Names in messages *)

Section Names.
Context {A : Type} `{AllocOps A}.
Implicit Types s : Pbuf.state A.

(** The characters of one label: [None] when they differ, else the two positions behind it.
    The characters of the name are signed, those of the message are not. *)
Fixpoint compare_label s (query : list Z) (p : Z) (n : nat) (q response_offset : Z) : res (option (Z * Z)) :=
  match n with
  | O => Ok (Some (q, response_offset))
  | S n' =>
      let* c := pbuf_try_get_at s p response_offset in
      if c <? 0 then Ok None
      else
        let* qc := nth_at query q in
        if negb (s8 qc =? u8 c) then Ok None
        else compare_label s query p n' (q + 1) (u16 (response_offset + 1))
  end.

Fixpoint compare_loop (fuel : nat) s (query : list Z) (p q response_offset : Z) : res Z :=
  match fuel with
  | O => Fault FFuel
  | S fuel' =>
      let* n := pbuf_try_get_at s p response_offset in
      let response_offset := u16 (response_offset + 1) in
      if n <? 0 then Ok 65535
      else if Z.land n 192 =? 192 then Ok 65535
      else
        let* r := compare_label s query p (Z.to_nat n) q response_offset in
        match r with
        | None => Ok 65535
        | Some (q, response_offset) =>
            let* n := pbuf_try_get_at s p response_offset in
            if n <? 0 then Ok 65535
            else if negb (n =? 0) then compare_loop fuel' s query p (q + 1) response_offset
            else Ok (u16 (response_offset + 1))
        end
  end.

(** Every round moves on in a packet of at most 65535 bytes. *)
Definition name_fuel : nat := Z.to_nat 65536.

Definition dns_compare_name s (query : list Z) (p start_offset : Z) : res Z :=
  compare_loop name_fuel s query p 0 start_offset.

Fixpoint skip_loop (fuel : nat) s (p offset : Z) : res Z :=
  match fuel with
  | O => Fault FFuel
  | S fuel' =>
      let* n := pbuf_try_get_at s p offset in
      let offset := u16 (offset + 1) in
      if n <? 0 then Ok 65535
      else if Z.land n 192 =? 192 then Ok (u16 (offset + 1))
      else
        let* b := deref (pbufs s) p in
        if tot_len b <=? offset + n then Ok 65535
        else
          let offset := u16 (offset + n) in
          let* n := pbuf_try_get_at s p offset in
          if n <? 0 then Ok 65535
          else if negb (n =? 0) then skip_loop fuel' s p offset
          else Ok (u16 (offset + 1))
  end.

Definition dns_skip_name s (p query_idx : Z) : res Z := skip_loop name_fuel s p query_idx.

(** The label of the host name that starts at [h]: how many characters before a dot or the
    end. *)
Fixpoint label_len (fuel : nat) (name : list Z) (h n : Z) : res (Z * Z) :=
  match fuel with
  | O => Fault FFuel
  | S fuel' =>
      let* c := nth_at name h in
      if (c =? 46) || (c =? 0) then Ok (h, n) else label_len fuel' name (h + 1) (u8 (n + 1))
  end.

(** The loop of [dns_send] that writes the name into the packet. *)
Fixpoint put_labels (fuel : nat) s (p : Z) (name : list Z) (hostname query_idx : Z) : res (Z * Pbuf.state A) :=
  match fuel with
  | O => Fault FFuel
  | S fuel' =>
      let hostname := hostname + 1 in
      let hostname_part := hostname in
      let* (hostname, n) := label_len (S (length name)) name hostname 0 in
      let copy_len := u16 (hostname - hostname_part) in
      let* s := pbuf_put_at s p query_idx n in
      let* (_, s) := pbuf_take_at s p (take (Z.to_nat copy_len) (drop (Z.to_nat hostname_part) name)) copy_len (u16 (query_idx + 1)) in
      let query_idx := u16 (query_idx + n + 1) in
      let* c := nth_at name hostname in
      if negb (c =? 0) then put_labels fuel' s p name hostname query_idx else Ok (query_idx, s)
  end.

(** The local variables [hdr] and [qry] as bytes, in network order. *)
Definition query_hdr (txid : Z) : list Z :=
  le_bytes 2 (lwip_htons txid) ++ [DNS_FLAG1_RD; 0] ++ le_bytes 2 (PP_HTONS 1) ++ replicate 6 0.
Definition query_qry : list Z := le_bytes 2 (PP_HTONS DNS_RRTYPE_A) ++ le_bytes 2 (PP_HTONS DNS_RRCLASS_IN).

(** The query for the name in the packet [p]. *)
Definition fill_query s (p txid : Z) (name : list Z) : res (Pbuf.state A) :=
  let* (_, s) := pbuf_take s p (Some (query_hdr txid)) SIZEOF_DNS_HDR in
  let* (query_idx, s) := put_labels (S (length name)) s p name (-1) SIZEOF_DNS_HDR in
  let* s := pbuf_put_at s p query_idx 0 in
  let query_idx := u16 (query_idx + 1) in
  let* (_, s) := pbuf_take_at s p query_qry SIZEOF_DNS_QUERY query_idx in
  Ok s.

End Names.

(** ** The client *)

Record dnet (A W : Type) := mk_dnet { dns : dns_globals; stack : net A W }.
Arguments mk_dnet {A W} _ _.
Arguments dns {A W} _.
Arguments stack {A W} _.

Section Dns.
Context {A W : Type} `{AllocOps A} `{FragPool A}.
Variable stale_flags : Z -> Z.
Variable custom_free : Z -> Z -> Pbuf.state A -> res (Pbuf.state A).
Variable callback_ok : bool.
Variable netif_output : net A W -> Z -> Z -> Z -> res (err_t * net A W).
Local Abbreviation udp_sendto := (udp_sendto stale_flags custom_free callback_ok netif_output).
Local Abbreviation alloc_pbuf := (alloc_pbuf stale_flags custom_free callback_ok).
Local Abbreviation free := (free custom_free).

(** The next number of [rand], from the seed, and the new seed. *)
Variable rand : Z -> Z * Z.
(** The callback with the function's address, the name, the address that was found, and the
    argument. *)
Variable found_fn : Z -> dnet A W -> list Z -> option Z -> Z -> res (dnet A W).

Implicit Types d : dnet A W.

Definition with_dns (g : dns_globals) d : dnet A W := mk_dnet g (stack d).
Definition with_stack (n : net A W) d : dnet A W := mk_dnet (dns d) n.
Definition upd_dns d (f : dns_globals -> dns_globals) : dnet A W := with_dns (f (dns d)) d.

(** [dns_table[i].field = ...]. *)
Definition entry_at d (i : Z) : res dns_table_entry := nth_at (dns_table (dns d)) i.
Definition upd_entry d (i : Z) (f : dns_table_entry -> dns_table_entry) : res (dnet A W) :=
  let* e := entry_at d i in
  Ok (upd_dns d (fun g => set_dns_table (<[Z.to_nat i := f e]> (dns_table g)) g)).
Definition upd_req d (i : Z) (f : dns_req_entry -> dns_req_entry) : res (dnet A W) :=
  let* r := nth_at (dns_requests (dns d)) i in
  Ok (upd_dns d (fun g => set_dns_requests (<[Z.to_nat i := f r]> (dns_requests g)) g)).

(** [DNS_RAND_TXID()], cut to 16 bits. *)
Definition DNS_RAND_TXID d : Z * dnet A W :=
  let (v, seed) := rand (dns_seed (dns d)) in (u16 v, upd_dns d (set_dns_seed seed)).

Definition dns_setserver d (numdns : Z) (dnsserver : option Z) : dnet A W :=
  if numdns <? DNS_MAX_SERVERS
  then upd_dns d (fun g => set_dns_servers (<[Z.to_nat numdns := default IPADDR_ANY dnsserver]> (dns_servers g)) g)
  else d.

Definition dns_getserver d (numdns : Z) : res Z :=
  if numdns <? DNS_MAX_SERVERS then nth_at (dns_servers (dns d)) numdns else Ok IPADDR_ANY.

(** [DNS_SERVER_ADDRESS] of lwipcfg_msvc.h, 208.67.222.222. *)
Definition DNS_SERVER_ADDRESS : Z := PP_HTONL (LWIP_MAKEU32 208 67 222 222).

Definition dns_init d : dnet A W := dns_setserver d 0 (Some DNS_SERVER_ADDRESS).

(** The entry in which the name is known. *)
Fixpoint lookup_loop (name : list Z) (l : list dns_table_entry) : option Z :=
  match l with
  | [] => None
  | e :: l' =>
      if dstate_eqb (d_state e) DNS_STATE_DONE
         && (lwip_strnicmp name (c_string (d_name e)) (Z.to_nat DNS_MAX_NAME_LENGTH) =? 0)
      then Some (d_ipaddr e) else lookup_loop name l'
  end.

Definition dns_lookup d (name : list Z) : option Z := lookup_loop name (dns_table (dns d)).

(** *** Source ports *)

(** [do { ... } while (err == ERR_USE)]: how often depends on [rand]. *)
Fixpoint random_port_loop (fuel : nat) d (ret : Z) : res (err_t * dnet A W) :=
  match fuel with
  | O => Fault FFuel
  | S fuel' =>
      let (port, d) := DNS_RAND_TXID d in
      if negb (DNS_PORT_ALLOWED port) then random_port_loop fuel' d ret
      else
        let* (err, g) := udp_bind (udp (stack d)) ret (Some IPADDR_ANY) port in
        let d := with_stack (with_udp g (stack d)) d in
        if bool_decide (err = ERR_USE) then random_port_loop fuel' d ret else Ok (err, d)
  end.

Variable rand_fuel : nat.

Definition dns_alloc_random_port d : res (Z * dnet A W) :=
  let (ret, g) := udp_new_ip_type (udp (stack d)) 46 in
  let d := with_stack (with_udp g (stack d)) d in
  if ret =? NULL then Ok (NULL, d)
  else
    let* (err, d) := random_port_loop rand_fuel d ret in
    if negb (bool_decide (err = ERR_OK)) then
      let* g := udp_remove (udp (stack d)) ret in Ok (NULL, with_stack (with_udp g (stack d)) d)
    else
      let* g := udp_recv (udp (stack d)) ret dns_recv_fn NULL in
      Ok (ret, with_stack (with_udp g (stack d)) d).

(** The first element from [i] on with the property, the length of the array without. *)
Fixpoint find_index {X} (f : X -> bool) (l : list X) (i : Z) : Z :=
  match l with [] => i | x :: l' => if f x then i else find_index f l' (i + 1) end.

Fixpoint reuse_loop (k : nat) d (idx : Z) : res (Z * dnet A W) :=
  match k with
  | O => Ok (DNS_MAX_SOURCE_PORTS, d)
  | S k' =>
      let idx := if DNS_MAX_SOURCE_PORTS <=? idx then 0 else idx in
      let* pcb := nth_at (dns_pcbs (dns d)) idx in
      if negb (pcb =? NULL) then Ok (idx, upd_dns d (set_dns_last_pcb_idx idx)) else reuse_loop k' d (u8 (idx + 1))
  end.

Definition dns_alloc_pcb d : res (Z * dnet A W) :=
  let i := find_index (fun pcb => pcb =? NULL) (dns_pcbs (dns d)) 0 in
  let* (ok, d) :=
    if i <? DNS_MAX_SOURCE_PORTS then
      let* (pcb, d) := dns_alloc_random_port d in
      let d := upd_dns d (fun g => set_dns_pcbs (<[Z.to_nat i := pcb]> (dns_pcbs g)) g) in
      if negb (pcb =? NULL) then Ok (true, upd_dns d (set_dns_last_pcb_idx i)) else Ok (false, d)
    else Ok (false, d) in
  if (ok : bool) then Ok (i, d)
  else reuse_loop (Z.to_nat DNS_MAX_SOURCE_PORTS) d (u8 (dns_last_pcb_idx (dns d) + 1)).

(** *** Answering the applications *)

(** The first loop of [dns_call_found], from the request [i] on: the callbacks of all requests
    for the entry, with its address when [addr]. *)
Fixpoint call_loop (k : nat) d (i idx : Z) (addr : bool) : res (dnet A W) :=
  match k with
  | O => Ok d
  | S k' =>
      let* r := nth_at (dns_requests (dns d)) i in
      let* d :=
        if negb (q_found r =? NULL) && (q_idx r =? idx) then
          let* e := entry_at d idx in
          let* d := found_fn (q_found r) d (c_string (d_name e)) (if addr then Some (d_ipaddr e) else None) (q_arg r) in
          upd_req d i (fun r => mk_dreq NULL (q_arg r) (q_idx r))
        else Ok d in
      call_loop k' d (i + 1) idx addr
  end.

(** The second loop: does another entry that is asked for use the same pcb? *)
Fixpoint shared_pcb (l : list dns_table_entry) (i idx pcb_idx : Z) : bool :=
  match l with
  | [] => false
  | e :: l' =>
      (negb (i =? idx) && dstate_eqb (d_state e) DNS_STATE_ASKING && (d_pcb_idx e =? pcb_idx))
      || shared_pcb l' (i + 1) idx pcb_idx
  end.

Definition dns_call_found d (idx : Z) (addr : bool) : res (dnet A W) :=
  let* d := call_loop DNS_MAX_REQUESTS d 0 idx addr in
  let* e := entry_at d idx in
  let* d := if shared_pcb (dns_table (dns d)) 0 idx (d_pcb_idx e) then upd_entry d idx (set_d_pcb_idx DNS_MAX_SOURCE_PORTS) else Ok d in
  let* e := entry_at d idx in
  if d_pcb_idx e <? DNS_MAX_SOURCE_PORTS then
    let* pcb := nth_at (dns_pcbs (dns d)) (d_pcb_idx e) in
    let* g := udp_remove (udp (stack d)) pcb in
    let d := with_stack (with_udp g (stack d)) d in
    let d := upd_dns d (fun g => set_dns_pcbs (<[Z.to_nat (d_pcb_idx e) := NULL]> (dns_pcbs g)) g) in
    upd_entry d idx (set_d_pcb_idx DNS_MAX_SOURCE_PORTS)
  else Ok d.

(** *** Asking the server *)

Definition dns_send d (idx : Z) : res (err_t * dnet A W) :=
  let* e := entry_at d idx in
  assert* (d_server_idx e <? DNS_MAX_SERVERS) in
  let* server := nth_at (dns_servers (dns d)) (d_server_idx e) in
  if ip4_addr_isany_val server then
    let* d := dns_call_found d idx false in
    let* d := upd_entry d idx (set_d_state DNS_STATE_UNUSED) in
    Ok (ERR_OK, d)
  else
    let* (p, n) := alloc_pbuf (stack d) PBUF_TRANSPORT (u16 (SIZEOF_DNS_HDR + strlen (d_name e) + 2 + SIZEOF_DNS_QUERY)) PBUF_RAM in
    if negb (p =? NULL) then
      let* s := fill_query (packets n) p (d_txid e) (d_name e) in
      let n := with_packets s n in
      let* pcb := nth_at (dns_pcbs (dns d)) (d_pcb_idx e) in
      let* (err, n) := udp_sendto n pcb p (Some server) DNS_SERVER_PORT in
      let* n := free n p in
      Ok (err, with_stack n d)
    else Ok (ERR_MEM, with_stack n d).

Definition txid_used (txid : Z) (l : list dns_table_entry) : bool :=
  existsb (fun e => dstate_eqb (d_state e) DNS_STATE_ASKING && (d_txid e =? txid)) l.

Fixpoint create_txid_loop (fuel : nat) d : res (Z * dnet A W) :=
  match fuel with
  | O => Fault FFuel
  | S fuel' =>
      let (txid, d) := DNS_RAND_TXID d in
      if txid_used txid (dns_table (dns d)) then create_txid_loop fuel' d else Ok (txid, d)
  end.

Definition dns_create_txid d : res (Z * dnet A W) := create_txid_loop rand_fuel d.

Definition dns_check_entry d (i : Z) : res (dnet A W) :=
  let* e := entry_at d i in
  match d_state e with
  | DNS_STATE_NEW =>
      let* (txid, d) := dns_create_txid d in
      let* d := upd_entry d i (fun e =>
        set_d_retries 0 (set_d_tmr 1 (set_d_server_idx 0 (set_d_state DNS_STATE_ASKING (set_d_txid txid e))))) in
      let* (_, d) := dns_send d i in Ok d
  | DNS_STATE_ASKING =>
      let e := set_d_tmr (u8 (d_tmr e - 1)) e in
      if d_tmr e =? 0 then
        let e := set_d_retries (u8 (d_retries e + 1)) e in
        if d_retries e =? DNS_MAX_RETRIES then
          let* other :=
            if d_server_idx e + 1 <? DNS_MAX_SERVERS then
              let* server := nth_at (dns_servers (dns d)) (d_server_idx e + 1) in
              Ok (negb (ip4_addr_isany_val server))
            else Ok false in
          if (other : bool) then
            let* d := upd_entry d i (fun _ => set_d_retries 0 (set_d_tmr 1 (set_d_server_idx (u8 (d_server_idx e + 1)) e))) in
            let* (_, d) := dns_send d i in Ok d
          else
            let* d := upd_entry d i (fun _ => e) in
            let* d := dns_call_found d i false in
            upd_entry d i (set_d_state DNS_STATE_UNUSED)
        else
          let* d := upd_entry d i (fun _ => set_d_tmr (d_retries e) e) in
          let* (_, d) := dns_send d i in Ok d
      else upd_entry d i (fun _ => e)
  | DNS_STATE_DONE =>
      if d_ttl e =? 0 then upd_entry d i (set_d_state DNS_STATE_UNUSED)
      else
        let e := set_d_ttl (d_ttl e - 1) e in
        upd_entry d i (fun _ => if d_ttl e =? 0 then set_d_state DNS_STATE_UNUSED e else e)
  | DNS_STATE_UNUSED => Ok d
  end.

Fixpoint entries_loop (k : nat) d (i : Z) : res (dnet A W) :=
  match k with O => Ok d | S k' => let* d := dns_check_entry d i in entries_loop k' d (i + 1) end.

Definition dns_check_entries d : res (dnet A W) := entries_loop DNS_TABLE_SIZE d 0.

Definition dns_tmr d : res (dnet A W) := dns_check_entries d.

(** *** Responses *)

Definition dns_correct_response d (idx ttl : Z) : res (dnet A W) :=
  let* d := upd_entry d idx (fun e => set_d_ttl (if DNS_MAX_TTL <? ttl then DNS_MAX_TTL else ttl) (set_d_state DNS_STATE_DONE e)) in
  let* d := dns_call_found d idx true in
  let* e := entry_at d idx in
  if d_ttl e =? 0 then
    if dstate_eqb (d_state e) DNS_STATE_DONE then upd_entry d idx (set_d_state DNS_STATE_UNUSED) else Ok d
  else Ok d.

(** What the answers of a response say: nothing because it is malformed, the time to live and
    the address of the first address record, or no address. *)
Inductive dns_answer := Malformed | Answer (ttl addr : Z) | NoAnswer.

(** The record header: type, class, time to live and length, in network order. *)
Definition ans_type (b : list Z) : Z := le_val (take 2 b).
Definition ans_cls (b : list Z) : Z := le_val (take 2 (drop 2 b)).
Definition ans_ttl (b : list Z) : Z := le_val (take 4 (drop 4 b)).
Definition ans_len (b : list Z) : Z := le_val (take 2 (drop 8 b)).

Fixpoint answer_loop (nanswers : nat) (s : Pbuf.state A) (p tot res_idx : Z) : res dns_answer :=
  match nanswers with
  | O => Ok NoAnswer
  | S nanswers' =>
      if negb (res_idx <? tot) then Ok NoAnswer
      else
        let* res_idx := dns_skip_name s p res_idx in
        if res_idx =? 65535 then Ok Malformed
        else
          let* (copied, ans) := pbuf_copy_partial s p true SIZEOF_DNS_ANSWER res_idx in
          if negb (copied =? SIZEOF_DNS_ANSWER) then Ok Malformed
          else
            let res_idx := u16 (res_idx + SIZEOF_DNS_ANSWER) in
            if (ans_cls ans =? PP_HTONS DNS_RRCLASS_IN)
               && ((ans_type ans =? PP_HTONS DNS_RRTYPE_A) && (ans_len ans =? PP_HTONS 4)) then
              let* (copied, addr) := pbuf_copy_partial s p true 4 res_idx in
              if negb (copied =? 4) then Ok Malformed else Ok (Answer (lwip_htonl (ans_ttl ans)) (le_val addr))
            else if 65535 <? res_idx + lwip_htons (ans_len ans) then Ok Malformed
            else answer_loop nanswers' s p tot (u16 (res_idx + lwip_htons (ans_len ans)))
  end.

(** The response to the query of an entry: [None] to ignore the packet. *)
Definition check_response d (e : dns_table_entry) (p addr : Z) (hdr : list Z) : res (option dns_answer) :=
  let s := packets (stack d) in
  let nquestions := lwip_htons (le_val (take 2 (drop 4 hdr))) in
  let nanswers := lwip_htons (le_val (take 2 (drop 6 hdr))) in
  if Z.land (nth 2 hdr 0) DNS_FLAG1_RESPONSE =? 0 then Ok None
  else if negb (nquestions =? 1) then Ok None
  else
    let* server := nth_at (dns_servers (dns d)) (d_server_idx e) in
    if negb (addr =? server) then Ok None
    else
      let* res_idx := dns_compare_name s (d_name e) p SIZEOF_DNS_HDR in
      if res_idx =? 65535 then Ok None
      else
        let* (copied, qry) := pbuf_copy_partial s p true SIZEOF_DNS_QUERY res_idx in
        if negb (copied =? SIZEOF_DNS_QUERY) then Ok None
        else if negb (le_val (take 2 (drop 2 qry)) =? PP_HTONS DNS_RRCLASS_IN) || negb (le_val (take 2 qry) =? PP_HTONS DNS_RRTYPE_A)
        then Ok None
        else
          let res_idx := u16 (res_idx + SIZEOF_DNS_QUERY) in
          if negb (Z.land (nth 3 hdr 0) DNS_FLAG2_ERR_MASK =? 0) then Ok (Some NoAnswer)
          else
            let* b := deref (pbufs s) p in
            let* r := answer_loop (Z.to_nat nanswers) s p (tot_len b) res_idx in
            Ok (match r with Malformed => None | r => Some r end).

Definition dns_recv d (p addr : Z) : res (dnet A W) :=
  let free_packet d := let* n := free (stack d) p in Ok (with_stack n d) in
  let* b := pbuf_at (stack d) p in
  if tot_len b <? SIZEOF_DNS_HDR + SIZEOF_DNS_QUERY then free_packet d
  else
    let* (copied, hdr) := pbuf_copy_partial (packets (stack d)) p true SIZEOF_DNS_HDR 0 in
    if negb (copied =? SIZEOF_DNS_HDR) then free_packet d
    else
      let txid := lwip_htons (le_val (take 2 hdr)) in
      let i := find_index (fun e => dstate_eqb (d_state e) DNS_STATE_ASKING && (d_txid e =? txid)) (dns_table (dns d)) 0 in
      if Z.of_nat DNS_TABLE_SIZE <=? i then free_packet d
      else
        let* e := entry_at d i in
        let* r := check_response d e p addr hdr in
        match r with
        | None | Some Malformed => free_packet d
        | Some (Answer ttl ip) =>
            let* d := upd_entry d i (set_d_ipaddr ip) in
            let* d := free_packet d in
            dns_correct_response d i ttl
        | Some NoAnswer =>
            let* d := free_packet d in
            let* d := dns_call_found d i false in
            upd_entry d i (set_d_state DNS_STATE_UNUSED)
        end.

(** *** Requests *)

(** An outstanding query for the name, with a free request for it. *)
Fixpoint duplicate_loop (name : list Z) (l : list dns_table_entry) (i r : Z) : option (Z * Z) :=
  match l with
  | [] => None
  | e :: l' =>
      if dstate_eqb (d_state e) DNS_STATE_ASKING
         && (lwip_strnicmp name (c_string (d_name e)) (Z.to_nat DNS_MAX_NAME_LENGTH) =? 0)
         && (r <? Z.of_nat DNS_MAX_REQUESTS)
      then Some (i, r) else duplicate_loop name l' (i + 1) r
  end.

(** An unused entry, or the oldest completed one: the first unused index, the greatest age of
    the completed entries before it and where it is. *)
Fixpoint oldest_loop (seqno : Z) (l : list dns_table_entry) (i lseq lseqi : Z) : Z * Z :=
  match l with
  | [] => (i, lseqi)
  | e :: l' =>
      match d_state e with
      | DNS_STATE_UNUSED => (i, lseqi)
      | DNS_STATE_DONE =>
          let age := u8 (seqno - d_seqno e) in
          if lseq <? age then oldest_loop seqno l' (i + 1) age i else oldest_loop seqno l' (i + 1) lseq lseqi
      | _ => oldest_loop seqno l' (i + 1) lseq lseqi
      end
  end.

(** [MEMCPY(entry->name, name, namelen); entry->name[namelen] = 0]. *)
Definition copy_name (name old : list Z) : list Z := name ++ [0] ++ drop (S (length name)) old.

Definition dns_enqueue d (name : list Z) (found callback_arg : Z) : res (err_t * dnet A W) :=
  let r := find_index (fun r => q_found r =? NULL) (dns_requests (dns d)) 0 in
  match duplicate_loop name (dns_table (dns d)) 0 r with
  | Some (i, r) => let* d := upd_req d r (fun _ => mk_dreq found callback_arg i) in Ok (ERR_INPROGRESS, d)
  | None =>
      let size := Z.of_nat DNS_TABLE_SIZE in
      let (i, lseqi) := oldest_loop (dns_seqno (dns d)) (dns_table (dns d)) 0 0 size in
      let i := if i =? size then lseqi else i in
      if size <=? i then Ok (ERR_MEM, d)
      else if Z.of_nat DNS_MAX_REQUESTS <=? r then Ok (ERR_MEM, d)
      else
        let name := take (Z.to_nat (DNS_MAX_NAME_LENGTH - 1)) name in
        let* d := upd_entry d i (fun e =>
          set_d_name (copy_name name (d_name e)) (set_d_seqno (dns_seqno (dns d)) (set_d_state DNS_STATE_NEW e))) in
        let* d := upd_req d r (fun _ => mk_dreq found callback_arg i) in
        let* (pcb_idx, d) := dns_alloc_pcb d in
        let* d := upd_entry d i (set_d_pcb_idx pcb_idx) in
        if DNS_MAX_SOURCE_PORTS <=? pcb_idx then
          let* d := upd_entry d i (set_d_state DNS_STATE_UNUSED) in
          let* d := upd_req d r (fun q => mk_dreq NULL (q_arg q) (q_idx q)) in
          Ok (ERR_MEM, d)
        else
          let d := upd_dns d (fun g => set_dns_seqno (u8 (dns_seqno g + 1)) g) in
          let* d := dns_check_entry d i in
          Ok (ERR_INPROGRESS, d)
  end.

(** [hostname]: [None] is NULL; [addr]: the pointer is not NULL.  The result has what is
    written through it. *)
Definition dns_gethostbyname_addrtype d (hostname : option (list Z)) (addr : bool) (found callback_arg dns_addrtype : Z)
    : res (err_t * option Z * dnet A W) :=
  match hostname with
  | None => Ok (ERR_ARG, None, d)
  | Some name =>
      if negb addr || bool_decide (name = []) then Ok (ERR_ARG, None, d)
      else if DNS_MAX_NAME_LENGTH <=? Z.of_nat (length name) then Ok (ERR_ARG, None, d)
      else
        let* a := ip4addr_aton name in
        match a with
        | Some ip => Ok (ERR_OK, Some ip, d)
        | None =>
            match dns_lookup d name with
            | Some ip => Ok (ERR_OK, Some ip, d)
            | None =>
                let* server := nth_at (dns_servers (dns d)) 0 in
                if ip4_addr_isany_val server then Ok (ERR_VAL, None, d)
                else let* (err, d) := dns_enqueue d name found callback_arg in Ok (err, None, d)
            end
        end
  end.

Definition dns_gethostbyname d (hostname : option (list Z)) (addr : bool) (found callback_arg : Z)
    : res (err_t * option Z * dnet A W) :=
  dns_gethostbyname_addrtype d hostname addr found callback_arg 0.

End Dns.
