(* ===== verification/DnsName.v ===== *)
(** * Host names in DNS messages: the encoding of dns_send, dns_compare_name and dns_skip_name

    A host name is a list of labels.  [dot_join] is its text, as an application writes it;
    [dns_name] its form in a message (RFC 1035, section 3.1). *)

From S2P Require Import Prelude Def Ip4Addr Pbuf PbufData TcpData Net Ip4 Udp Dns.

Fixpoint dot_join (labs : list (list Z)) : list Z :=
  match labs with
  | [] => []
  | [l] => l
  | l :: labs' => l ++ 46 :: dot_join labs'
  end.

Definition dns_labels (labs : list (list Z)) : list Z := mjoin ((fun l => Z.of_nat (length l) :: l) <$> labs).
Definition dns_name (labs : list (list Z)) : list Z := dns_labels labs ++ [0].

(** Labels of 1 to 63 characters of ASCII. *)
Definition label_ok (l : list Z) : Prop := (0 < length l <= 63)%nat /\ Forall (fun c => 1 <= c < 128 /\ c <> 46) l.
Definition labels_ok (labs : list (list Z)) : Prop := labs <> [] /\ Forall label_ok labs /\ (length (dot_join labs) <= 255)%nat.

(** The array in the table: the text, its NUL, and what a longer name has left behind it. *)
Definition name_array (labs : list (list Z)) (rest : list Z) : list Z := dot_join labs ++ 0 :: rest.

Lemma dns_labels_cons l labs : dns_labels (l :: labs) = Z.of_nat (length l) :: l ++ dns_labels labs.
Proof. done. Qed.

Lemma length_dns_labels labs : labs <> [] -> length (dns_labels labs) = S (length (dot_join labs)).
Proof.
  induction labs as [|l [|l' labs] IH]; [done| |]; intros _; rewrite dns_labels_cons; cbn [length].
  - rewrite length_app. cbn. lia.
  - rewrite length_app, IH by done. cbn [dot_join]. rewrite length_app. cbn [length]. lia.
Qed.

Lemma nth_at_mid {X} (l1 : list X) x l2 : nth_at (l1 ++ x :: l2) (Z.of_nat (length l1)) = Ok x.
Proof.
  unfold nth_at. rewrite (proj2 (Z.ltb_ge _ _)) by lia. rewrite Nat2Z.id.
  assert (E : (l1 ++ x :: l2) !! length l1 = Some x) by (by apply list_lookup_middle). by rewrite E.
Qed.

Section Names.
Context {A : Type} `{AllocOps A}.
Implicit Types s : Pbuf.state A.

(** ** Writing *)

Lemma label_len_spec lab : forall fuel pre c post n,
  Forall (fun c => c <> 46 /\ c <> 0) lab -> c = 46 \/ c = 0 -> (length lab < fuel)%nat -> 0 <= n -> n + Z.of_nat (length lab) < 256 ->
  label_len fuel (pre ++ lab ++ c :: post) (Z.of_nat (length pre)) n
  = Ok (Z.of_nat (length (pre ++ lab)), n + Z.of_nat (length lab)).
Proof.
  induction lab as [|x lab IH]; intros fuel pre c post n Hl Hc Hf Hn Hs; (destruct fuel as [|fuel]; [cbn in Hf; lia|]); cbn [label_len].
  - rewrite app_nil_l, nth_at_mid. cbn [res_bind]. rewrite app_nil_r, Z.add_0_r.
    destruct Hc as [-> | ->]; done.
  - apply Forall_cons in Hl as [[N1 N2] Hl]. cbn [app]. rewrite nth_at_mid. cbn [res_bind].
    rewrite (proj2 (Z.eqb_neq _ _) N1), (proj2 (Z.eqb_neq _ _) N2). cbn [orb length] in *.
    replace (pre ++ x :: lab ++ c :: post) with ((pre ++ [x]) ++ lab ++ c :: post) by (by rewrite <- app_assoc).
    replace (Z.of_nat (length pre) + 1) with (Z.of_nat (length (pre ++ [x]))) by (rewrite length_app; cbn; lia).
    unfold u8. rewrite Z.mod_small by lia. rewrite IH; [|done..|lia|lia|lia].
    do 2 f_equal; [|lia]. f_equal. rewrite <- app_assoc. done.
Qed.

(** The length and the characters of one label. *)
Lemma put_label_spec s p bl q lab :
  packet (pbufs s) p bl -> payloads_apart bl -> 0 <= q -> q + Z.of_nat (length lab) + 1 < total bl ->
  exists m' s1, pbuf_put_at s p q (Z.of_nat (length lab)) = Ok s1
    /\ pbuf_take_at s1 p lab (Z.of_nat (length lab)) (q + 1) = Ok (ERR_OK, with_bytes m' s)
    /\ cdata m' bl = splice (Z.to_nat q) (Z.of_nat (length lab) :: lab) (cdata (bytes s) bl)
    /\ (forall x, outside x bl -> rd8 m' x = rd8 (bytes s) x).
Proof.
  intros Hp Ha Hq Ht. pose proof Hp as (_ & Hok & Htot). pose proof (length_cdata (bytes s) bl Hok) as Hlen.
  destruct (pbuf_put_at_spec s p bl (Z.of_nat (length lab)) q Hp Ha) as (m1 & E1 & D1 & O1); [unfold is_u16; lia|].
  destruct (pbuf_take_at_spec (with_bytes m1 s) p bl lab (Z.of_nat (length lab)) (q + 1) Hp Ha) as (m2 & E2 & D2 & O2); [unfold is_u16; lia..|].
  exists m2, (with_bytes m1 s). split_and!; [done|exact E2| |].
  - rewrite D2. cbn [with_bytes bytes]. rewrite D1, <- splice_insert by lia.
    change (Z.of_nat (length lab) :: lab) with ([Z.of_nat (length lab)] ++ lab). rewrite <- splice_splice by (cbn; lia).
    f_equal. cbn. lia.
  - intros x Hx. rewrite O2 by done. by apply O1.
Qed.

Lemma label_chars l : label_ok l -> Forall (fun c => c <> 46 /\ c <> 0) l.
Proof. intros [_ Hl]. eapply Forall_impl; [exact Hl|]. cbn. lia. Qed.

Lemma put_labels_spec labs : forall fuel s pre rest p bl,
  labs <> [] -> Forall label_ok labs -> (length pre + length (dot_join labs) <= 255)%nat -> (length labs <= fuel)%nat ->
  packet (pbufs s) p bl -> payloads_apart bl ->
  12 + Z.of_nat (length pre + length (dns_labels labs)) < total bl ->
  exists m', put_labels fuel s p (pre ++ dot_join labs ++ 0 :: rest) (Z.of_nat (length pre) - 1) (12 + Z.of_nat (length pre))
      = Ok (12 + Z.of_nat (length pre + length (dns_labels labs)), with_bytes m' s)
    /\ cdata m' bl = splice (12 + length pre) (dns_labels labs) (cdata (bytes s) bl)
    /\ (forall x, outside x bl -> rd8 m' x = rd8 (bytes s) x).
Proof.
  induction labs as [|lab labs IH]; intros fuel s pre rest p bl Hne Hok Hlen Hf Hp Ha Ht; [done|].
  apply Forall_cons in Hok as [Hlab Hok]. destruct fuel as [|fuel]; [cbn in Hf; lia|]. cbn [put_labels].
  rewrite Z.sub_add. rewrite dns_labels_cons in Ht |- *. cbn [length] in Ht |- *. rewrite length_app in Ht |- *.
  assert (E : exists c post, (c = 46 /\ labs <> [] /\ post = dot_join labs ++ 0 :: rest \/ c = 0 /\ labs = [] /\ post = rest)
    /\ dot_join (lab :: labs) ++ 0 :: rest = lab ++ c :: post).
  { destruct labs as [|l2 labs].
    - exists 0, rest. split; [right|]; done.
    - exists 46, (dot_join (l2 :: labs) ++ 0 :: rest). split; [left; done|]. cbn [dot_join]. by rewrite <- app_assoc. }
  destruct E as (c & post & Hc & E). rewrite E.
  assert (Hl : (length lab <= length (dot_join (lab :: labs)))%nat) by (destruct labs; cbn [dot_join]; rewrite ?length_app; lia).
  rewrite label_len_spec; [|by apply label_chars|by destruct Hc as [[-> _]|[-> _]]; auto|rewrite !length_app; lia|lia|lia].
  cbn [res_bind]. rewrite Z.add_0_l. rewrite length_app.
  replace (Z.of_nat (length pre + length lab) - Z.of_nat (length pre)) with (Z.of_nat (length lab)) by lia.
  unfold u16. rewrite !Z.mod_small by (pose proof Hp as (_ & _ & ?); lia).
  rewrite !Nat2Z.id, drop_app_length, take_app_length.
  destruct (put_label_spec s p bl (12 + Z.of_nat (length pre)) lab) as (m1 & s1 & E1 & E2 & D1 & O1); [done..|lia|lia|].
  rewrite E1. cbn [res_bind]. rewrite E2. cbn [res_bind].
  replace (pre ++ lab ++ c :: post) with ((pre ++ lab) ++ c :: post) by (by rewrite <- app_assoc).
  rewrite <- (length_app pre lab), nth_at_mid. cbn [res_bind].
  assert (D1' : cdata m1 bl = splice (12 + length pre) (Z.of_nat (length lab) :: lab) (cdata (bytes s) bl)).
  { rewrite D1. f_equal. lia. }
  destruct Hc as [(-> & Hn & ->)|(-> & -> & ->)]; cbn [negb Z.eqb].
  - set (pre' := (pre ++ lab) ++ [46]). assert (Lp : length pre' = S (length pre + length lab)) by (unfold pre'; rewrite !length_app; cbn; lia).
    replace ((pre ++ lab) ++ 46 :: dot_join labs ++ 0 :: rest) with (pre' ++ dot_join labs ++ 0 :: rest) by (unfold pre'; by rewrite <- app_assoc).
    replace (Z.of_nat (length (pre ++ lab))) with (Z.of_nat (length pre') - 1) by (rewrite length_app; lia).
    replace (12 + Z.of_nat (length pre) + Z.of_nat (length lab) + 1) with (12 + Z.of_nat (length pre')) by lia.
    assert (Hj : length (dot_join (lab :: labs)) = S (length lab + length (dot_join labs))).
    { destruct labs; [done|]. cbn [dot_join]. rewrite length_app. cbn [length]. lia. }
    destruct (IH fuel (with_bytes m1 s) pre' rest p bl) as (m2 & E3 & D2 & O2); [done|done|lia|cbn in Hf; lia|done|done|lia|].
    exists m2. rewrite E3. split_and!.
    + do 2 f_equal. rewrite length_app. lia.
    + rewrite D2. cbn [with_bytes bytes]. rewrite D1'. rewrite app_comm_cons.
      pose proof Hp as (_ & Hok' & _). pose proof (length_cdata (bytes s) bl Hok') as Hlen'.
      rewrite <- splice_splice by (cbn; lia). f_equal. cbn [length]. lia.
    + intros x Hx. rewrite O2 by done. by apply O1.
  - exists m1. split_and!; [|by rewrite app_nil_r|done]. do 2 f_equal. change (dns_labels []) with (@nil Z). rewrite app_nil_r, ?length_app. cbn [length]. lia.
Qed.

Lemma length_labels labs : Forall label_ok labs -> (length labs <= S (length (dot_join labs)))%nat.
Proof.
  induction labs as [|l [|l' labs] IH]; intros Hok; [cbn; lia..|]. apply Forall_cons in Hok as [_ Hok]. specialize (IH Hok).
  cbn [dot_join length] in *. rewrite length_app. cbn [length]. lia.
Qed.

(** The whole query. *)
Lemma fill_query_spec s p bl txid labs rest :
  labels_ok labs -> packet (pbufs s) p bl -> payloads_apart bl ->
  total bl = SIZEOF_DNS_HDR + Z.of_nat (length (dot_join labs)) + 2 + SIZEOF_DNS_QUERY ->
  exists m', fill_query s p txid (name_array labs rest) = Ok (with_bytes m' s)
    /\ cdata m' bl = query_hdr txid ++ dns_name labs ++ query_qry
    /\ (forall x, outside x bl -> rd8 m' x = rd8 (bytes s) x).
Proof.
  unfold SIZEOF_DNS_HDR, SIZEOF_DNS_QUERY. intros (Hne & Hok & Hlen) Hp Ha Ht. unfold fill_query, name_array, SIZEOF_DNS_HDR, SIZEOF_DNS_QUERY.
  pose proof Hp as (_ & Hok' & Htot). pose proof (length_dns_labels labs Hne) as Hl.
  assert (Hnn : p <> NULL).
  { intros ->. destruct Hp as (Hc & _). apply chain_null in Hc as ->. cbn in Ht. lia. }
  pose proof (length_cdata (bytes s) bl Hok') as Hlen'. assert (Hq : length (query_hdr txid) = 12%nat) by done.
  destruct (pbuf_take_spec s p bl (query_hdr txid) 12 Hp Ha Hnn) as (m1 & E1 & D1 & O1); [lia|lia|].
  rewrite E1. cbn [res_bind]. change (Z.to_nat 12) with 12%nat in D1. rewrite take_ge in D1 by lia.
  assert (D1' : cdata m1 bl = splice 0 (query_hdr txid) (cdata (bytes s) bl)) by (rewrite D1; done). clear D1.
  destruct (put_labels_spec labs (S (length (dot_join labs ++ 0 :: rest))) (with_bytes m1 s) [] rest p bl) as (m2 & E2 & D2 & O2);
    [done..|rewrite length_app; cbn [length]; pose proof (length_labels labs Hok); lia|done|done|cbn [length]; lia|].
  cbn [app length] in E2, D2. rewrite Nat.add_0_r in D2. change (Z.of_nat 0 - 1) with (-1) in E2. change (12 + Z.of_nat 0) with 12 in E2. rewrite E2. cbn [res_bind].
  replace (with_bytes m2 (with_bytes m1 s)) with (with_bytes m2 s) by done. rewrite Nat.add_0_l, Hl in *.
  set (q := 12 + Z.of_nat (S (length (dot_join labs)))).
  destruct (pbuf_put_at_spec (with_bytes m2 s) p bl 0 q Hp Ha) as (m3 & E3 & D3 & O3); [unfold is_u16, q; lia|].
  rewrite E3. cbn [res_bind]. unfold u16. rewrite Z.mod_small by (unfold q; lia).
  destruct (pbuf_take_at_spec (with_bytes m3 s) p bl query_qry 4 (q + 1) Hp Ha) as (m4 & E4 & D4 & O4); [unfold is_u16, q; cbn; lia..|].
  replace (with_bytes m3 (with_bytes m2 s)) with (with_bytes m3 s) by done. rewrite E4. cbn [res_bind].
  exists m4. split_and!; [done| |].
  - rewrite D4. cbn [with_bytes bytes]. rewrite D3. cbn [with_bytes bytes]. rewrite D2. cbn [with_bytes bytes]. rewrite D1'.
    set (C := cdata (bytes s) bl) in *. pose proof (splice_splice 0 (query_hdr txid) (dns_labels labs) C) as S1.
    cbn [Nat.add] in S1. rewrite Hq in S1. rewrite S1 by lia.
    rewrite <- splice_insert by (rewrite length_splice by (rewrite length_app; lia); unfold q; lia).
    replace (Z.to_nat q) with (0 + length (query_hdr txid ++ dns_labels labs))%nat by (rewrite length_app; unfold q; lia).
    rewrite splice_splice by (rewrite length_app; lia).
    replace (Z.to_nat (q + 1)) with (0 + length ((query_hdr txid ++ dns_labels labs) ++ [0%Z]))%nat by (rewrite !length_app; cbn [length]; unfold q; lia).
    rewrite splice_splice by (rewrite !length_app; cbn [length]; lia).
    rewrite splice_all by (rewrite !length_app; cbn [length]; change (length query_qry) with 4%nat; lia).
    unfold dns_name. by rewrite <- !app_assoc.
  - intros x Hx. rewrite O4, O3, O2 by done. by apply O1.
Qed.

(** ** Reading *)

Section Read.
Variables (s : Pbuf.state A) (p : Z) (bl : list (Z * pbuf)).
Hypothesis Hp : packet (pbufs s) p bl.
Hypothesis Hb : bytes_ok (cdata (bytes s) bl).
Local Abbreviation D := (cdata (bytes s) bl).

Lemma length_data : Z.of_nat (length D) = total bl.
Proof. destruct Hp as (_ & Hok & _). by rewrite length_cdata. Qed.

Lemma data_short : Z.of_nat (length D) <= 65535.
Proof. pose proof length_data. destruct Hp as (_ & _ & ?). lia. Qed.

Lemma get_mid pre x post : D = pre ++ x :: post -> pbuf_try_get_at s p (Z.of_nat (length pre)) = Ok x.
Proof.
  intros E. pose proof data_short as Hs. rewrite E, length_app in Hs. cbn [length] in Hs.
  assert (Hoff : 0 <= Z.of_nat (length pre) <= 65535) by lia.
  rewrite (proj1 (try_get_at_spec s p bl _ Hp Hoff Hb)), E, Nat2Z.id. by rewrite list_lookup_middle.
Qed.

Lemma compare_label_spec lab : forall qpre qpost pre post,
  Forall (fun c => 1 <= c < 128) lab -> D = pre ++ lab ++ post ->
  compare_label s (qpre ++ lab ++ qpost) p (length lab) (Z.of_nat (length qpre)) (Z.of_nat (length pre))
  = Ok (Some (Z.of_nat (length (qpre ++ lab)), Z.of_nat (length (pre ++ lab)))).
Proof.
  induction lab as [|x lab IH]; intros qpre qpost pre post Hl E; cbn [length compare_label].
  - by rewrite !app_nil_r.
  - apply Forall_cons in Hl as [Hx Hl]. pose proof data_short as Hs. rewrite E, !length_app in Hs. cbn [length] in Hs.
    rewrite (get_mid pre x (lab ++ post)) by done. cbn [res_bind app]. rewrite (proj2 (Z.ltb_ge _ _)) by lia.
    rewrite nth_at_mid. cbn [res_bind]. unfold s8, u8, u16. rewrite !Z.mod_small by lia.
    replace (x + 128 - 128) with x by lia. rewrite Z.eqb_refl. cbn [negb].
    replace (qpre ++ x :: lab ++ qpost) with ((qpre ++ [x]) ++ lab ++ qpost) by (by rewrite <- app_assoc).
    replace (Z.of_nat (length qpre) + 1) with (Z.of_nat (length (qpre ++ [x]))) by (rewrite length_app; cbn; lia).
    replace (Z.of_nat (length pre) + 1) with (Z.of_nat (length (pre ++ [x]))) by (rewrite length_app; cbn; lia).
    rewrite (IH _ _ _ post) by (done || by rewrite <- app_assoc). do 3 f_equal; rewrite <- app_assoc; done.
Qed.

Lemma label_ascii l : label_ok l -> Forall (fun c => 1 <= c < 128) l.
Proof. intros [_ Hl]. eapply Forall_impl; [exact Hl|]. cbn. lia. Qed.

Lemma label_bits n : 0 <= n <= 63 -> (Z.land n 192 =? 192) = false.
Proof.
  intros Hn. assert (X : forallb (fun k => negb (Z.land (Z.of_nat k) 192 =? 192)) (seq 0 64) = true) by done.
  rewrite forallb_forall in X. specialize (X (Z.to_nat n)). rewrite Z2Nat.id in X by lia. apply negb_true_iff, X, in_seq. lia.
Qed.

Lemma compare_loop_spec labs : forall fuel qpre rest pre post,
  labs <> [] -> Forall label_ok labs -> (length labs <= fuel)%nat -> D = pre ++ dns_labels labs ++ 0 :: post ->
  compare_loop fuel s (qpre ++ dot_join labs ++ 0 :: rest) p (Z.of_nat (length qpre)) (Z.of_nat (length pre))
  = Ok (u16 (Z.of_nat (length (pre ++ dns_labels labs)) + 1)).
Proof.
  induction labs as [|lab labs IH]; intros fuel qpre rest pre post Hne Hok Hf E; [done|].
  apply Forall_cons in Hok as [Hlab Hok]. destruct fuel as [|fuel]; [cbn in Hf; lia|]. cbn [compare_loop].
  rewrite dns_labels_cons in E |- *. pose proof data_short as Hs. rewrite E, length_app in Hs. cbn [length app] in Hs, E.
  rewrite (get_mid _ _ _ E). cbn [res_bind]. pose proof Hlab as [Hn _]. rewrite (proj2 (Z.ltb_ge _ _)) by lia.
  rewrite label_bits by lia. unfold u16 at 1. rewrite Z.mod_small by lia. rewrite Nat2Z.id.
  replace (Z.of_nat (length pre) + 1) with (Z.of_nat (length (pre ++ [Z.of_nat (length lab)]))) by (rewrite length_app; cbn; lia).
  assert (Eq : exists c post', dot_join (lab :: labs) ++ 0 :: rest = lab ++ c :: post'
    /\ (labs <> [] -> c :: post' = 46 :: dot_join labs ++ 0 :: rest)).
  { destruct labs; [by exists 0, rest|]. exists 46, (dot_join (l :: labs) ++ 0 :: rest). cbn [dot_join]. by rewrite <- app_assoc. }
  destruct Eq as (c & post' & Eq & Eq'). rewrite Eq.
  rewrite (compare_label_spec lab qpre (c :: post') _ (dns_labels labs ++ 0 :: post));
    [|by apply label_ascii|by rewrite E, <- !app_assoc]. cbn [res_bind].
  destruct labs as [|l2 labs].
  - rewrite (get_mid ((pre ++ [Z.of_nat (length lab)]) ++ lab) 0 post) by (rewrite E, <- !app_assoc; done). cbn [res_bind Z.ltb Z.eqb negb Z.compare].
    rewrite <- !app_assoc. by rewrite app_nil_r.
  - rewrite (get_mid ((pre ++ [Z.of_nat (length lab)]) ++ lab) (Z.of_nat (length l2)) (l2 ++ dns_labels labs ++ 0 :: post))
      by (rewrite E, dns_labels_cons; by simplify_list_eq). cbn [res_bind].
    apply Forall_cons in Hok as [Hl2 Hok]. pose proof Hl2 as [Hn2 _].
    rewrite (proj2 (Z.ltb_ge _ _)) by lia. rewrite (proj2 (Z.eqb_neq _ _)) by lia. cbn [negb].
    rewrite Eq' by done.
    replace (qpre ++ lab ++ 46 :: dot_join (l2 :: labs) ++ 0 :: rest)
      with (((qpre ++ lab) ++ [46]) ++ dot_join (l2 :: labs) ++ 0 :: rest) by (by rewrite <- !app_assoc).
    replace (Z.of_nat (length (qpre ++ lab)) + 1) with (Z.of_nat (length ((qpre ++ lab) ++ [46]))) by (rewrite !length_app; cbn; lia).
    rewrite (IH _ _ _ _ post); [|done|by constructor|cbn in Hf |- *; lia|by rewrite E, <- !app_assoc].
    do 3 f_equal. by rewrite <- !app_assoc.
Qed.

Lemma dns_compare_name_spec labs rest pre post :
  labels_ok labs -> D = pre ++ dns_name labs ++ post ->
  dns_compare_name s (name_array labs rest) p (Z.of_nat (length pre)) = Ok (u16 (Z.of_nat (length (pre ++ dns_name labs)))).
Proof.
  intros (Hne & Hok & Hlen) E. unfold dns_compare_name, name_array, dns_name in *.
  rewrite <- app_assoc in E. pose proof (length_labels labs Hok) as Hl.
  pose proof (compare_loop_spec labs name_fuel [] rest pre post Hne Hok) as C. cbn [app length] in C. change (Z.of_nat 0) with 0 in C. rewrite C; [|unfold name_fuel; lia|done].
  do 2 f_equal. rewrite !length_app. cbn [length]. lia.
Qed.

(** ** Parsing ends *)

Lemma get_any off : 0 <= off <= 65535 ->
  exists x, pbuf_try_get_at s p off = Ok x /\ (x < 0 /\ total bl <= off \/ 0 <= x < 256 /\ off < total bl).
Proof.
  intros Hoff. rewrite (proj1 (try_get_at_spec s p bl _ Hp Hoff Hb)). eexists. split; [done|]. pose proof length_data as Hl.
  destruct (D !! Z.to_nat off) as [x|] eqn:E.
  - right. assert (Hx : is_u8 x) by (by eapply Forall_lookup_1). apply lookup_lt_Some in E. unfold is_u8 in Hx. lia.
  - left. apply lookup_ge_None in E. lia.
Qed.

Lemma tot_len_total : p <> NULL -> exists b, deref (pbufs s) p = Ok b /\ tot_len b = total bl.
Proof using Hp.
  clear Hb.
  destruct Hp as (Hc & Hok & _). intros Hn. destruct bl as [|[a b] bl']; [done|]. destruct Hc as (<- & _ & Hd & _).
  exists b. split; [by apply deref_ok|]. destruct Hok as (_ & -> & _). done.
Qed.

Hypothesis Hnn : p <> NULL.

Lemma skip_loop_total fuel : forall off,
  0 <= off <= 65535 -> Z.max 0 (total bl - off) < Z.of_nat fuel -> exists r, skip_loop fuel s p off = Ok r /\ 0 <= r <= 65535.
Proof.
  pose proof Hp as (_ & _ & Ht). destruct (tot_len_total Hnn) as (b & Eb & Etot).
  assert (U : forall x, 0 <= u16 x <= 65535) by (intros; unfold u16; zlia).
  induction fuel as [|fuel IH]; intros off Ho Hf; [lia|]. cbn [skip_loop].
  destruct (get_any off Ho) as (x & -> & Hx). cbn [res_bind].
  destruct (Z.ltb_spec x 0); [by exists 65535|]. destruct (Z.land x 192 =? 192); [by eexists|].
  rewrite Eb. cbn [res_bind]. rewrite Etot. rewrite (u16_id (off + 1)) by (unfold is_u16; lia).
  destruct (Z.leb_spec (total bl) (off + 1 + x)); [by exists 65535|]. rewrite (u16_id (off + 1 + x)) by (unfold is_u16; lia).
  destruct (get_any (off + 1 + x)) as (y & -> & Hy); [lia|]. cbn [res_bind].
  destruct (Z.ltb_spec y 0); [by exists 65535|]. destruct (y =? 0); cbn [negb]; [by eexists|].
  apply IH; lia.
Qed.

Lemma dns_skip_name_total off : 0 <= off <= 65535 -> exists r, dns_skip_name s p off = Ok r /\ 0 <= r <= 65535.
Proof. intros Ho. apply skip_loop_total; [done|]. pose proof Hp as (_ & _ & Ht). unfold name_fuel. lia. Qed.

Lemma answer_loop_total tot k : forall off, 0 <= off <= 65535 -> exists r, answer_loop k s p tot off = Ok r.
Proof.
  induction k as [|k IH]; intros off Ho; cbn [answer_loop]; [by eexists|]. destruct (off <? tot); cbn [negb]; [|by eexists].
  destruct (dns_skip_name_total off Ho) as (r & -> & Hr). cbn [res_bind]. destruct (r =? 65535) eqn:E; [by eexists|].
  unfold SIZEOF_DNS_ANSWER. rewrite (copy_partial_spec s p bl) by (done || unfold is_u16; lia). cbn [res_bind].
  destruct (negb (_ =? 10)); [by eexists|]. assert (Hu : 0 <= u16 (r + 10) <= 65535) by (unfold u16; zlia).
  destruct (_ && _).
  - rewrite (copy_partial_spec s p bl) by (done || unfold is_u16; lia). cbn [res_bind]. destruct (negb (_ =? 4)); by eexists.
  - destruct (65535 <? _); [by eexists|]. apply IH. unfold u16. zlia.
Qed.

End Read.

End Names.
