(* ===== verification/DnsMsg.v ===== *)
(** * DNS messages: queries and responses of lwip/src/core/dns.c

    What the client makes of a well-formed response, and that a response of any form is
    parsed to its end. *)

From S2P Require Import Prelude Def Ip4Addr Pbuf PbufData TcpData Net Ip4 Udp Dns DnsName.

(** Numbers in network order. *)
Definition net16 (x : Z) : list Z := le_bytes 2 (lwip_htons x).
Definition net32 (x : Z) : list Z := le_bytes 4 (lwip_htonl x).

(** A resource record, with its name as it stands in the message. *)
Record rr := mk_rr { rr_name : list Z; rr_type : Z; rr_class : Z; rr_ttl : Z; rr_data : list Z }.

Definition rr_head (r : rr) : list Z :=
  net16 (rr_type r) ++ net16 (rr_class r) ++ net32 (rr_ttl r) ++ net16 (Z.of_nat (length (rr_data r))).
Definition rr_bytes (r : rr) : list Z := rr_name r ++ rr_head r ++ rr_data r.

(** The name of a record: labels of 1 to 63 bytes, and after them the end of the name or a pointer to the
    rest of it (RFC 1035, 4.1.4), or the pointer alone.  The name of the root, the end alone, is left out:
    see [dns_skip_root]. *)
Definition wire_label (l : list Z) : Prop := (0 < length l <= 63)%nat.
Definition pointer (t : list Z) : Prop := exists hi lo, t = [hi; lo] /\ 192 <= hi < 256.
Definition rr_name_ok (nm : list Z) : Prop :=
  exists labs t, Forall wire_label labs /\ nm = dns_labels labs ++ t /\ (t = [0] /\ labs <> [] \/ pointer t).

Definition rr_ok (r : rr) : Prop :=
  rr_name_ok (rr_name r) /\ is_u16 (rr_type r) /\ is_u16 (rr_class r) /\ is_u32 (rr_ttl r)
  /\ is_u16 (Z.of_nat (length (rr_data r))).

(** The first record that has an IPv4 address. *)
Definition is_address (r : rr) : bool :=
  (rr_class r =? DNS_RRCLASS_IN) && (rr_type r =? DNS_RRTYPE_A) && (Z.of_nat (length (rr_data r)) =? 4).
Fixpoint first_address (l : list rr) : dns_answer :=
  match l with
  | [] => NoAnswer
  | r :: l' => if is_address r then Answer (rr_ttl r) (le_val (rr_data r)) else first_address l'
  end.

(** The header of a response to one question with [k] answers. *)
Definition response_hdr (txid flags1 flags2 : Z) (k : nat) (other : list Z) : list Z :=
  net16 txid ++ [flags1; flags2] ++ net16 1 ++ net16 (Z.of_nat k) ++ other.

Lemma net16_val x : le_val (net16 x) = lwip_htons x.
Proof. unfold net16. apply le_val_bytes. pose proof (lwip_htons_range x) as R. unfold is_u16 in R. cbn. lia. Qed.
Lemma net32_val x : le_val (net32 x) = lwip_htonl x.
Proof. unfold net32. apply le_val_bytes. pose proof (lwip_htonl_range x) as R. unfold is_u32 in R. cbn. lia. Qed.

Lemma net16_back x : is_u16 x -> lwip_htons (le_val (net16 x)) = x.
Proof. intros. rewrite net16_val. by apply lwip_htons_involutive. Qed.

Lemma net16_eqb x y : is_u16 x -> is_u16 y -> PP_HTONS y = lwip_htons y -> (le_val (net16 x) =? PP_HTONS y) = (x =? y).
Proof.
  intros Hx Hy E. rewrite net16_val, E. destruct (Z.eqb_spec x y) as [->|N]; [apply Z.eqb_refl|]. apply Z.eqb_neq. intros E'.
  apply N. rewrite <- (lwip_htons_involutive x), <- (lwip_htons_involutive y) by done. congruence.
Qed.

(** The fields of a record header. *)
Lemma rr_head_fields r : rr_ok r ->
  ans_type (rr_head r) = le_val (net16 (rr_type r)) /\ ans_cls (rr_head r) = le_val (net16 (rr_class r))
  /\ ans_ttl (rr_head r) = le_val (net32 (rr_ttl r)) /\ ans_len (rr_head r) = le_val (net16 (Z.of_nat (length (rr_data r))))
  /\ length (rr_head r) = 10%nat.
Proof. done. Qed.

(** What follows a label: the end of the name, or another byte than 0. *)
Lemma next_byte labs t :
  (t = [0] /\ True \/ pointer t) -> Forall wire_label labs ->
  (labs = [] /\ t = [0]) \/ exists c rest, dns_labels labs ++ t = c :: rest /\ 0 < c < 256.
Proof.
  intros Ht Hok. destruct Hok as [|l labs Hl Hok].
  - destruct Ht as [[-> _]|(hi & lo & -> & Hhi)]; [by left|]. right. exists hi, [lo]. split; [done|lia].
  - right. rewrite dns_labels_cons. unfold wire_label in Hl. eexists _, _. split; [reflexivity|]. lia.
Qed.

Lemma labels_bytes labs : (length labs <= length (dns_labels labs))%nat.
Proof. induction labs as [|l labs IH]; [done|]. rewrite dns_labels_cons. cbn [length]. rewrite length_app. lia. Qed.

Section Messages.
Context {A : Type} `{AllocOps A}.
Variables (s : Pbuf.state A) (p : Z) (bl : list (Z * pbuf)).
Hypothesis Hp : packet (pbufs s) p bl.
Hypothesis Hb : bytes_ok (cdata (bytes s) bl).
Hypothesis Hnn : p <> NULL.
Local Abbreviation D := (cdata (bytes s) bl).

Lemma pointer_bits hi : 192 <= hi < 256 -> (Z.land hi 192 =? 192) = true.
Proof.
  intros Hn. assert (X : forallb (fun k => Z.land (Z.of_nat (192 + k)) 192 =? 192) (seq 0 64) = true) by done.
  rewrite forallb_forall in X. specialize (X (Z.to_nat (hi - 192))).
  replace (Z.of_nat (192 + Z.to_nat (hi - 192))) with hi in X by lia. apply X, in_seq. lia.
Qed.

Lemma skip_labels_spec labs t : forall fuel pre post,
  (t = [0] /\ labs <> [] \/ pointer t) -> Forall wire_label labs -> (length labs < fuel)%nat -> D = pre ++ dns_labels labs ++ t ++ post ->
  skip_loop fuel s p (Z.of_nat (length pre)) = Ok (Z.of_nat (length (pre ++ dns_labels labs ++ t))).
Proof.
  destruct (tot_len_total s p bl Hp Hnn) as (b & Eb & Etot). pose proof (data_short s p bl Hp) as Hs. pose proof (length_data s p bl Hp) as Hl.
  induction labs as [|lab labs IH]; intros fuel pre post Ht Hok Hf E; (destruct fuel as [|fuel]; [cbn in Hf; lia|]); cbn [skip_loop].
  - destruct Ht as [[_ ?]|(hi & lo & -> & Hhi)]; [done|]. cbn [app] in E. change (dns_labels []) with (@nil Z) in *. cbn [app] in E |- *.
    rewrite (get_mid s p bl Hp Hb _ _ _ E). cbn [res_bind]. rewrite E, length_app in Hs. cbn [length] in Hs.
    rewrite (proj2 (Z.ltb_ge _ _)) by lia. rewrite pointer_bits by done. rewrite length_app. cbn [length].
    rewrite (u16_id (Z.of_nat (length pre) + 1)) by (unfold is_u16; lia). rewrite u16_id by (unfold is_u16; lia). f_equal. lia.
  - apply Forall_cons in Hok as [Hlab Hok]. unfold wire_label in Hlab.
    rewrite dns_labels_cons in E |- *. pose proof Hs as Hs'. rewrite E, !length_app in Hs', Hl. cbn [length app] in Hs', Hl, E.
    rewrite !length_app in Hs', Hl. assert (Hp1 : (0 < length t)%nat) by (destruct Ht as [[-> _]|(? & ? & -> & _)]; cbn; lia).
    rewrite (get_mid s p bl Hp Hb _ _ _ E). cbn [res_bind]. rewrite (proj2 (Z.ltb_ge _ _)) by lia.
    rewrite label_bits by lia. rewrite Eb. cbn [res_bind]. rewrite (u16_id (Z.of_nat (length pre) + 1)) by (unfold is_u16; lia).
    rewrite Etot, (proj2 (Z.leb_gt _ _)) by lia. rewrite (u16_id (_ + Z.of_nat (length lab))) by (unfold is_u16; lia).
    set (pre' := pre ++ Z.of_nat (length lab) :: lab).
    assert (Lp : Z.of_nat (length pre) + 1 + Z.of_nat (length lab) = Z.of_nat (length pre')) by (unfold pre'; rewrite length_app; cbn [length]; lia).
    rewrite Lp. assert (E' : D = pre' ++ dns_labels labs ++ t ++ post) by (rewrite E; unfold pre'; by simplify_list_eq).
    assert (Eres : length (pre ++ (Z.of_nat (length lab) :: lab ++ dns_labels labs) ++ t) = length (pre' ++ dns_labels labs ++ t)).
    { unfold pre'. f_equal. by simplify_list_eq. }
    rewrite Eres. clear E Eres. destruct (next_byte labs t ltac:(tauto) Hok) as [(-> & ->)|(c & rest & Ec & Hc)].
    + change (dns_labels []) with (@nil Z) in *. cbn [app] in E'. rewrite (get_mid s p bl Hp Hb pre' 0 post) by done.
      cbn [res_bind Z.ltb Z.eqb negb Z.compare app]. rewrite E', length_app in Hs. cbn [length] in Hs.
      rewrite u16_id by (unfold is_u16; lia). rewrite length_app. cbn [length]. f_equal. lia.
    + rewrite (get_mid s p bl Hp Hb pre' c (rest ++ post)) by (rewrite E', (app_assoc (dns_labels labs)), Ec; done). cbn [res_bind].
      rewrite (proj2 (Z.ltb_ge _ _)) by lia. rewrite (proj2 (Z.eqb_neq _ _)) by lia. cbn [negb].
      apply (IH _ _ post); [|done|cbn in Hf; lia|done]. destruct Ht as [[-> _]|?]; [left; split; [done|]|by right].
      intros ->. cbn in Ec. injection Ec as <- _. lia.
Qed.

Lemma dns_skip_name_spec nm pre post :
  rr_name_ok nm -> D = pre ++ nm ++ post -> dns_skip_name s p (Z.of_nat (length pre)) = Ok (Z.of_nat (length (pre ++ nm))).
Proof.
  intros (labs & t & Hok & -> & Ht) E. pose proof (data_short s p bl Hp) as Hs. unfold dns_skip_name.
  rewrite <- app_assoc in E. apply (skip_labels_spec labs t name_fuel pre post Ht Hok); [|exact E].
  pose proof (labels_bytes labs). rewrite E, !length_app in Hs. unfold name_fuel. lia.
Qed.

(** Reading [w] at its place. *)
Lemma copy_mid pre w post l :
  D = pre ++ w ++ post -> Z.of_nat (length w) = l -> pbuf_copy_partial s p true l (Z.of_nat (length pre)) = Ok (l, w).
Proof.
  intros E El. pose proof (data_short s p bl Hp) as Hs. rewrite E, !length_app in Hs.
  rewrite (copy_partial_spec s p bl) by (done || unfold is_u16; lia). rewrite E, Nat2Z.id, drop_app_length, take_app_length' by lia. by rewrite El.
Qed.

Lemma is_address_spec r : rr_ok r ->
  (ans_cls (rr_head r) =? PP_HTONS DNS_RRCLASS_IN)
  && ((ans_type (rr_head r) =? PP_HTONS DNS_RRTYPE_A) && (ans_len (rr_head r) =? PP_HTONS 4)) = is_address r.
Proof.
  intros Hr. destruct (rr_head_fields r Hr) as (-> & -> & _ & -> & _). destruct Hr as (_ & Ht & Hc & _ & Hl).
  rewrite !net16_eqb by (done || unfold is_u16; lia). unfold is_address. by rewrite andb_assoc.
Qed.

Lemma answer_loop_spec recs : forall pre post,
  Forall rr_ok recs -> D = pre ++ mjoin (rr_bytes <$> recs) ++ post ->
  answer_loop (length recs) s p (total bl) (Z.of_nat (length pre)) = Ok (first_address recs).
Proof.
  pose proof (length_data s p bl Hp) as Hl. pose proof (data_short s p bl Hp) as Hs.
  induction recs as [|r recs IH]; intros pre post Hok E; cbn [length answer_loop first_address]; [done|].
  apply Forall_cons in Hok as [Hr Hok]. pose proof Hr as (Hnm & Ht & Hc & Httl & Hlen).
  destruct (rr_head_fields r Hr) as (_ & _ & Ettl & Elen & Eh).
  set (tail := mjoin (rr_bytes <$> recs) ++ post) in *.
  assert (E1 : D = pre ++ rr_name r ++ rr_head r ++ rr_data r ++ tail).
  { rewrite E. cbn [fmap list_fmap mjoin list_join]. unfold rr_bytes, tail. by rewrite <- !app_assoc. }
  assert (Ld := Hl). assert (Ls := Hs). rewrite E1, !length_app in Ld, Ls. rewrite Eh in Ld, Ls.
  assert (Hnl : (0 < length (rr_name r))%nat).
  { destruct Hnm as (labs & t & _ & -> & [[-> _]|(? & ? & -> & _)]); rewrite length_app; cbn; lia. }
  rewrite (proj2 (Z.ltb_lt _ _)) by lia. cbn [negb].
  rewrite (dns_skip_name_spec _ _ _ Hnm E1). cbn [res_bind]. rewrite (proj2 (Z.eqb_neq _ _)) by (rewrite length_app; lia).
  unfold SIZEOF_DNS_ANSWER. rewrite (copy_mid (pre ++ rr_name r) (rr_head r) (rr_data r ++ tail)) by (rewrite ?E1, <- ?app_assoc, ?Eh; done).
  cbn [res_bind negb Z.eqb Pos.eqb].
  replace (u16 (Z.of_nat (length (pre ++ rr_name r)) + 10)) with (Z.of_nat (length ((pre ++ rr_name r) ++ rr_head r)))
    by (rewrite u16_id; rewrite !length_app, ?Eh; unfold is_u16; lia).
  rewrite is_address_spec by done. destruct (is_address r) eqn:Ea.
  - unfold is_address in Ea. rewrite !andb_true_iff, !Z.eqb_eq in Ea. destruct Ea as [_ Ea].
    rewrite (copy_mid _ (rr_data r) tail) by (rewrite ?E1, <- ?app_assoc; done). cbn [res_bind negb Z.eqb Pos.eqb].
    rewrite Ettl, net32_val, lwip_htonl_involutive by done. done.
  - rewrite Elen, net16_back by done. rewrite (proj2 (Z.ltb_ge _ _)) by (rewrite !length_app, Eh; lia).
    replace (u16 (Z.of_nat (length ((pre ++ rr_name r) ++ rr_head r)) + Z.of_nat (length (rr_data r))))
      with (Z.of_nat (length (((pre ++ rr_name r) ++ rr_head r) ++ rr_data r)))
      by (rewrite u16_id; rewrite !length_app, ?Eh; unfold is_u16; lia).
    rewrite (IH _ post); [done|done|]. rewrite E1, <- !app_assoc. done.
Qed.

End Messages.

(** ** Properties *)

Section Properties.
Context {A W : Type} `{AllocOps A}.

Lemma packet_not_null (s : Pbuf.state A) p bl : packet (pbufs s) p bl -> 0 < total bl -> p <> NULL.
Proof. intros (Hc & _) Ht ->. apply chain_null in Hc as ->. cbn in Ht. lia. Qed.

(** C14: What a query asks is recognised in the response.  The packet filled for a host name
    holds the header, the name in the form of RFC 1035 and the question, and nothing else is
    written; in every message that repeats the name, [dns_compare_name] finds it equal and
    [dns_skip_name] its end, however the message is split into pbufs. *)
Theorem dns_question_roundtrip (s : Pbuf.state A) (p txid : Z) (bl : list (Z * pbuf)) (labs : list (list Z)) (rest : list Z) :
  labels_ok labs -> packet (pbufs s) p bl -> payloads_apart bl ->
  total bl = SIZEOF_DNS_HDR + Z.of_nat (length (dot_join labs)) + 2 + SIZEOF_DNS_QUERY ->
  (exists m', fill_query s p txid (name_array labs rest) = Ok (with_bytes m' s)
     /\ cdata m' bl = query_hdr txid ++ dns_name labs ++ query_qry
     /\ (forall x, outside x bl -> rd8 m' x = rd8 (bytes s) x))
  /\ (forall (s2 : Pbuf.state A) p2 bl2 pre post,
        packet (pbufs s2) p2 bl2 -> bytes_ok (cdata (bytes s2) bl2) ->
        cdata (bytes s2) bl2 = pre ++ dns_name labs ++ post ->
        dns_compare_name s2 (name_array labs rest) p2 (Z.of_nat (length pre)) = Ok (Z.of_nat (length (pre ++ dns_name labs)))
        /\ dns_skip_name s2 p2 (Z.of_nat (length pre)) = Ok (Z.of_nat (length (pre ++ dns_name labs)))).
Proof.
  intros Hl Hp Ha Ht. split; [by apply fill_query_spec|]. intros s2 p2 bl2 pre post Hp2 Hb2 E.
  pose proof (length_data s2 p2 bl2 Hp2) as Hd. pose proof (data_short s2 p2 bl2 Hp2) as Hs.
  assert (Hn : p2 <> NULL).
  { apply (packet_not_null s2 p2 bl2 Hp2). rewrite <- Hd, E. unfold dns_name. rewrite !length_app. cbn [length]. lia. }
  rewrite E, !length_app in Hs. split.
  - rewrite (dns_compare_name_spec s2 p2 bl2 Hp2 Hb2 labs rest pre post Hl E). f_equal. rewrite u16_id; [done|]. rewrite length_app. unfold is_u16. lia.
  - apply (dns_skip_name_spec s2 p2 bl2 Hp2 Hb2 Hn _ _ post); [|done]. destruct Hl as (Hne & Hok & _).
    exists labs, [0]. split_and!; [|done|by left]. eapply Forall_impl; [exact Hok|]. by intros l [? _].
Qed.

(** C13: The response of the server to the query of an entry is understood, if its records belong to names other
    than the root: the client takes the time to live and the address of the first address record, whatever other
    records, names with or without compression or trailing bytes are there, and reports that there is no address if
    there is no such record or the server reports an error. *)
Theorem dns_response_correct (d : dnet A W) (e : dns_table_entry) (p addr txid f1 f2 : Z) (bl : list (Z * pbuf))
    (labs : list (list Z)) (rest other post : list Z) (recs : list rr) :
  let hdr := response_hdr txid f1 f2 (length recs) other in
  d_name e = name_array labs rest -> labels_ok labs -> Forall rr_ok recs -> is_u16 (Z.of_nat (length recs)) ->
  length other = 4%nat -> packet (pbufs (packets (stack d))) p bl -> bytes_ok (cdata (mem (stack d)) bl) ->
  nth_at (dns_servers (dns d)) (d_server_idx e) = Ok addr -> Z.land f1 DNS_FLAG1_RESPONSE <> 0 ->
  cdata (mem (stack d)) bl = hdr ++ dns_name labs ++ query_qry ++ mjoin (rr_bytes <$> recs) ++ post ->
  check_response d e p addr hdr = Ok (Some (if Z.land f2 DNS_FLAG2_ERR_MASK =? 0 then first_address recs else NoAnswer)).
Proof.
  intros hdr En Hl Hr Hk Ho Hp Hb Hs Hf E. set (s := packets (stack d)) in *. unfold mem in *. fold s in Hb, E.
  assert (Lh : length hdr = 12%nat) by (unfold hdr, response_hdr; rewrite !length_app, Ho; done).
  pose proof (length_data s p bl Hp) as Hd. pose proof (data_short s p bl Hp) as Hd'. assert (Ln : (0 < length (dns_name labs))%nat).
  { unfold dns_name. rewrite length_app. cbn. lia. }
  rewrite E, !length_app, Lh in Hd, Hd'. change (length query_qry) with 4%nat in Hd, Hd'.
  assert (Hn : p <> NULL) by (apply (packet_not_null s p bl Hp); lia).
  unfold check_response. cbv zeta. fold s.
  assert (Enq : lwip_htons (le_val (take 2 (drop 4 hdr))) = 1) by done.
  assert (Ena : lwip_htons (le_val (take 2 (drop 6 hdr))) = Z.of_nat (length recs)) by (exact (net16_back _ Hk)).
  assert (E1 : nth 2 hdr 0 = f1) by done. assert (E2 : nth 3 hdr 0 = f2) by done.
  rewrite Enq, Ena, E1, E2, (proj2 (Z.eqb_neq _ _) Hf), Hs. cbn [negb Z.eqb Pos.eqb res_bind]. rewrite Z.eqb_refl. cbn [negb].
  pose proof (dns_compare_name_spec s p bl Hp Hb labs rest hdr _ Hl E) as Ec. rewrite Lh in Ec. change (Z.of_nat 12) with SIZEOF_DNS_HDR in Ec.
  rewrite En, Ec. cbn [res_bind]. rewrite length_app, Lh, u16_id by (unfold is_u16; lia). rewrite (proj2 (Z.eqb_neq _ _)) by lia.
  unfold SIZEOF_DNS_QUERY. replace (Z.of_nat (12 + length (dns_name labs))) with (Z.of_nat (length (hdr ++ dns_name labs))) by (rewrite length_app; lia).
  rewrite (copy_mid s p bl Hp Hn _ query_qry (mjoin (rr_bytes <$> recs) ++ post)) by (rewrite ?E, <- ?app_assoc; done).
  cbn [res_bind negb Z.eqb Pos.eqb]. change (negb _ || negb _) with false at 1. cbv iota.
  destruct (Z.land f2 DNS_FLAG2_ERR_MASK =? 0); cbn [negb]; [|done].
  destruct (tot_len_total s p bl Hp Hn) as (b & Eb & Etot). rewrite Eb. cbn [res_bind]. rewrite Etot, Nat2Z.id.
  replace (u16 (Z.of_nat (length (hdr ++ dns_name labs)) + 4)) with (Z.of_nat (length ((hdr ++ dns_name labs) ++ query_qry)))
    by (rewrite u16_id; rewrite !length_app, ?Lh; change (length query_qry) with 4%nat; unfold is_u16; lia).
  rewrite (answer_loop_spec s p bl Hp Hb Hn recs _ post Hr) by (rewrite E, <- !app_assoc; done). cbn [res_bind].
  f_equal. assert (Hm : first_address recs <> Malformed) by (clear; induction recs; cbn; [done|]; by case_match). by destruct (first_address recs).
Qed.

(** Parsing the answers of a message ends, on every packet and from every position: it does
    not loop, and no access is out of bounds. *)
Theorem dns_answers_terminate (s : Pbuf.state A) (p tot off : Z) (bl : list (Z * pbuf)) (k : nat) :
  packet (pbufs s) p bl -> bytes_ok (cdata (bytes s) bl) -> p <> NULL -> is_u16 off ->
  (exists r, answer_loop k s p tot off = Ok r) /\ (exists r, dns_skip_name s p off = Ok r /\ 0 <= r <= 65535).
Proof.
  intros Hp Hb Hn Ho. unfold is_u16 in Ho. split; [apply (answer_loop_total s p bl Hp Hb Hn); lia|]. apply (dns_skip_name_total s p bl Hp Hb Hn). lia.
Qed.

End Properties.
