(* ===== verification/DnsInv.v ===== *)
(** * The invariant of the DNS client: lwip/src/core/dns.c

    What holds of the table, the requests and the source ports between any two calls of the
    client, for callbacks that do not call the client themselves (the runs in [DnsExamples]
    show what happens when they do). *)

From S2P Require Import Prelude Def Ip4Addr Pbuf TcpData Net Ip4 IpFrame Udp Dns.

(** ** Steps through code *)

Lemma holds_nth {X Y} (l : list X) i (f : X -> res Y) Q :
  (forall k x, i = Z.of_nat k -> l !! k = Some x -> holds (f x) Q) -> holds (res_bind (nth_at l i) f) Q.
Proof.
  intros Hf. unfold nth_at. destruct (Z.ltb_spec i 0); [done|]. destruct (l !! Z.to_nat i) as [x|] eqn:E; [|done].
  cbn [res_bind]. apply (Hf (Z.to_nat i)); [lia|done].
Qed.

Lemma nth_at_nat {X} (l : list X) k x : l !! k = Some x -> nth_at l (Z.of_nat k) = Ok x.
Proof. intros E. unfold nth_at. rewrite (proj2 (Z.ltb_ge _ _)) by lia. by rewrite Nat2Z.id, E. Qed.

(** ** What sending leaves alone *)

Section Sendto.
Context {A W : Type} `{AllocOps A} `{FragPool A}.
Variable stale_flags : Z -> Z.
Variable custom_free : Z -> Z -> Pbuf.state A -> res (Pbuf.state A).
Variable callback_ok : bool.
Variable netif_output : net A W -> Z -> Z -> Z -> res (err_t * net A W).
Context {T : Type} (K : net A W -> T).
Hypothesis K_packets : forall s n, K (with_packets s n) = K n.
Hypothesis K_inc : forall p c n, K (inc p c n) = K n.
Hypothesis K_ip_id : forall i n, K (with_ip_id i n) = K n.
Hypothesis K_netifs : forall m n, K (with_netifs m n) = K n.
Hypothesis K_polls : forall l n, K (with_polls l n) = K n.
Hypothesis K_output : forall n nif p dest, holds (netif_output n nif p dest) (fun r => K (snd r) = K n).
Implicit Types n : net A W.

Lemma route_keeps n dest : holds (ip4_route n dest) (fun r => K (snd r) = K n).
Proof.
  unfold ip4_route. destruct (_ && _); [done|]. apply holds_skip. intros r. destruct (negb _); [done|]. destruct (ip4_addr_isloopback dest).
  - apply holds_skip. intros []; [done|]. apply holds_skip. done.
  - apply holds_skip. intros []; [done|]. apply K_inc.
Qed.

Lemma add_header_keeps n p : holds (add_header stale_flags custom_free callback_ok n p) (fun r => K (snd r) = K n).
Proof.
  unfold add_header. eapply holds_call; [by apply header_keeps with (K := K)|]. cbv beta. intros [[] n1] E1; [|done]. cbn [snd] in E1.
  eapply holds_call; [by apply alloc_keeps with (K := K)|]. cbv beta. intros [q n2] E2. cbn [snd] in E2. destruct (q =? NULL); [cbn; congruence|].
  apply holds_skip. intros b. destruct (negb _); [|cbn; congruence]. apply holds_skip. intros s. cbn. rewrite K_packets. congruence.
Qed.

Lemma fill_udp_keeps n q hdr src dst u : holds (fill_udp n q hdr src dst u) (fun r => K (snd r) = K n).
Proof.
  unfold fill_udp, with_mem. apply holds_skip. intros b. destruct (negb _).
  - apply holds_skip. intros v. apply holds_skip. intros c. cbn [holds snd]. by rewrite !K_packets.
  - eapply (holds_call _ _ (fun n' => K n' = K n)); [|by intros n' E].
    destruct (_ =? 0); [|cbn; by rewrite K_packets]. apply holds_skip. intros v. cbn [holds]. by rewrite !K_packets.
Qed.

(** Sending with a pcb that is bound. *)
Lemma sendto_if_src_keeps n pcb u p dst port nif src :
  udp_heap (udp n) !! pcb = Some u -> u_local_port u <> 0 ->
  holds (udp_sendto_if_src stale_flags custom_free callback_ok netif_output n pcb p dst port nif src) (fun r => K (snd r) = K n).
Proof.
  intros Hu Hp. unfold udp_sendto_if_src. destruct dst as [dst|]; [|done]. destruct (pcb =? NULL); [done|].
  unfold deref at 1. rewrite Hu. cbn [res_bind]. rewrite (proj2 (Z.eqb_neq _ _) Hp). cbn [res_bind]. rewrite bool_decide_eq_true_2 by done.
  replace (with_udp (udp n) n) with n by (by destruct n).
  eapply holds_call; [by apply add_header_keeps|]. cbv beta. intros [q n1] E1. cbn [snd] in E1. destruct (q =? NULL); [done|].
  apply holds_skip. intros b. apply holds_skip. intros _. apply holds_skip. intros u'. apply holds_skip. intros s.
  eapply holds_call; [apply fill_udp_keeps|]. cbv beta. intros [proto n2] E2. cbn [snd] in E2. unfold with_mem in E2. rewrite !K_packets in E2.
  eapply holds_call; [by apply output_keeps with (K := K)|]. cbv beta. intros [err n3] E3. cbn [snd] in E3.
  eapply (holds_call _ _ (fun n' => K n' = K n3)); [destruct (negb _); [by apply free_keeps with (K := K)|done]|].
  intros n4 E4. cbn [holds snd]. rewrite K_inc. congruence.
Qed.

Lemma sendto_if_keeps n pcb u p dst port nif :
  udp_heap (udp n) !! pcb = Some u -> u_local_port u <> 0 ->
  holds (udp_sendto_if stale_flags custom_free callback_ok netif_output n pcb p dst port nif) (fun r => K (snd r) = K n).
Proof.
  intros Hu Hp. unfold udp_sendto_if. destruct dst as [dst|]; [|done]. destruct (pcb =? NULL); [done|].
  unfold deref at 1. rewrite Hu. cbn [res_bind]. apply holds_skip. intros nf.
  destruct (_ || _); [by eapply sendto_if_src_keeps|]. destruct (negb _); [done|]. by eapply sendto_if_src_keeps.
Qed.

End Sendto.

Lemma route_udp {A W} (n : net A W) dest : holds (ip4_route n dest) (fun r => udp (snd r) = udp n).
Proof. by apply route_keeps with (K := udp). Qed.

Section Sendto2.
Context {A W : Type} `{AllocOps A} `{FragPool A}.
Variable stale_flags : Z -> Z.
Variable custom_free : Z -> Z -> Pbuf.state A -> res (Pbuf.state A).
Variable callback_ok : bool.
Variable netif_output : net A W -> Z -> Z -> Z -> res (err_t * net A W).
(** What the theorems of this section suppose of the code outside: the driver leaves the UDP
    control blocks alone, and so do the functions that applications wait with for an answer
    (the argument [found] of dns_gethostbyname): they change nothing of the DNS client, in
    particular they do not ask again from within ([left_alone]), and keep the UDP list in
    order.  dns.c does not forbid a callback to ask again; [dns_reentrant_wrong_address],
    [dns_reentrant_bad_index] and [dns_retry_attached_to_failure] show how that
    breaks the invariant.  An application may call the client at any other time. *)
Hypothesis driver_ok : forall n nif p dest, holds (netif_output n nif p dest) (fun r => udp (snd r) = udp n).

Lemma sendto_udp (n : net A W) pcb u p dst port :
  udp_heap (udp n) !! pcb = Some u -> u_local_port u <> 0 ->
  holds (udp_sendto stale_flags custom_free callback_ok netif_output n pcb p dst port) (fun r => udp (snd r) = udp n).
Proof.
  intros Hu Hp. unfold udp_sendto. destruct dst as [dst|]; [|done]. destruct (pcb =? NULL); [done|].
  unfold deref at 1. rewrite Hu. cbn [res_bind]. eapply holds_call; [apply route_udp|]. cbv beta. intros [nif n1] E1. cbn [snd] in E1.
  destruct (nif =? NULL); [done|]. rewrite <- E1. rewrite <- E1 in Hu. by apply sendto_if_keeps with (K := udp) (u := u).
Qed.

End Sendto2.

Definition asking (e : dns_table_entry) : Prop := d_state e = DNS_STATE_ASKING.
#[export] Instance asking_dec e : Decision (asking e) := _.

(** The name fits its array, with its NUL. *)
Definition name_ok (e : dns_table_entry) : Prop := length (d_name e) = Z.to_nat DNS_MAX_NAME_LENGTH /\ 0 ∈ d_name e.

(** How many seconds the timer will still ask for an entry. *)
Definition patience (e : dns_table_entry) : Z :=
  d_tmr e + (match d_retries e with 0 => 6 | 1 => 5 | 2 => 3 | _ => 0 end) + (if d_server_idx e =? 0 then 7 else 0).

(** An entry that waits for an answer. *)
Record waiting (pcbs : list Z) (e : dns_table_entry) : Prop := {
  w_server : 0 <= d_server_idx e < DNS_MAX_SERVERS;
  w_tmr : 1 <= d_tmr e <= Z.max 1 (d_retries e);
  w_retries : 0 <= d_retries e < DNS_MAX_RETRIES;
  w_pcb : exists j pcb, d_pcb_idx e = Z.of_nat j /\ pcbs !! j = Some pcb /\ pcb <> NULL
}.

Section Inv.
Context {A W : Type} `{AllocOps A} `{FragPool A}.
Implicit Types d : dnet A W.

Local Abbreviation table d := (dns_table (dns d)).
Local Abbreviation reqs d := (dns_requests (dns d)).
Local Abbreviation pcbs d := (dns_pcbs (dns d)).
Local Abbreviation heap d := (udp_heap (udp (stack d))).

(** The pcbs of the client are open, and receive with [dns_recv]. *)
Definition own_pcb d (pcb : Z) : Prop :=
  exists u, heap d !! pcb = Some u /\ u_recv u = dns_recv_fn /\ u_local_port u <> 0.

(** The invariant.  The entry [b] is being worked on: nothing is said of it, but requests and
    source ports may belong to it. *)
Record dns_inv (b : option nat) d : Prop := {
  i_table : length (table d) = DNS_TABLE_SIZE;
  i_reqs : length (reqs d) = DNS_MAX_REQUESTS;
  i_pcbs : length (pcbs d) = Z.to_nat DNS_MAX_SOURCE_PORTS;
  i_servers : length (dns_servers (dns d)) = Z.to_nat DNS_MAX_SERVERS;
  i_names i e : table d !! i = Some e -> name_ok e;
  i_waiting i e : table d !! i = Some e -> Some i <> b -> asking e -> waiting (pcbs d) e;
  i_done i e : table d !! i = Some e -> Some i <> b -> d_state e = DNS_STATE_DONE -> 1 <= d_ttl e <= DNS_MAX_TTL;
  i_new i e : table d !! i = Some e -> Some i <> b -> d_state e <> DNS_STATE_NEW;
  i_txids i j e f : table d !! i = Some e -> table d !! j = Some f -> asking e -> asking f -> d_txid e = d_txid f -> i = j;
  i_requests k r : reqs d !! k = Some r -> q_found r <> NULL ->
    exists i e, q_idx r = Z.of_nat i /\ table d !! i = Some e /\ (asking e \/ Some i = b);
  i_used j pcb : pcbs d !! j = Some pcb -> pcb <> NULL ->
    exists i e, table d !! i = Some e /\ d_pcb_idx e = Z.of_nat j /\ (asking e \/ Some i = b);
  i_own j pcb : pcbs d !! j = Some pcb -> pcb <> NULL -> own_pcb d pcb;
  i_distinct j k pcb : pcbs d !! j = Some pcb -> pcbs d !! k = Some pcb -> pcb <> NULL -> j = k;
  i_udp : udp_ok (udp (stack d))
}.

Definition dns_ok d : Prop := dns_inv None d.

Lemma inv_busy i d : dns_ok d -> dns_inv (Some i) d.
Proof.
  intros [? ? ? ? ? Hw Hd Hn ? Hr Hu ? ? ?]. split; try done.
  - intros. by eapply Hw.
  - intros. by eapply Hd.
  - intros. by eapply Hn.
  - intros k r Hk Hf. destruct (Hr k r Hk Hf) as (j & e & E1 & E2 & [E3|E3]); [|done]. exists j, e. auto.
  - intros j pcb Hj Hp. destruct (Hu j pcb Hj Hp) as (k & e & E1 & E2 & [E3|E3]); [|done]. exists k, e. auto.
Qed.

(** What a callback, a driver or another part of the system may do. *)
Definition left_alone d d' : Prop :=
  dns d' = dns d
  /\ (udp_ok (udp (stack d)) -> udp_ok (udp (stack d')))
  /\ forall pcb, own_pcb d pcb -> own_pcb d' pcb.

Lemma left_alone_refl d : left_alone d d.
Proof. by split. Qed.

Lemma left_alone_udp d n : udp n = udp (stack d) -> left_alone d (with_stack n d).
Proof. intros E. split; [done|]. unfold own_pcb. cbn. by rewrite E. Qed.

Lemma inv_left_alone b d d' : dns_inv b d -> left_alone d d' -> dns_inv b d'.
Proof. intros [] (E & Hu & Ho). split; rewrite ?E; eauto. Qed.

(** ** Writing entries *)

Definition put_entry d (i : nat) (e : dns_table_entry) : dnet A W :=
  upd_dns d (fun g => set_dns_table (<[i := e]> (dns_table g)) g).
Definition put_req d (k : nat) (r : dns_req_entry) : dnet A W :=
  upd_dns d (fun g => set_dns_requests (<[k := r]> (dns_requests g)) g).
Definition put_pcb d (j : nat) (pcb : Z) : dnet A W :=
  upd_dns d (fun g => set_dns_pcbs (<[j := pcb]> (dns_pcbs g)) g).

Lemma holds_upd_entry {Y} d i f (g : dnet A W -> res Y) Q :
  (forall k e, i = Z.of_nat k -> table d !! k = Some e -> holds (g (put_entry d k (f e))) Q) ->
  holds (res_bind (upd_entry d i f) g) Q.
Proof.
  intros Hg. unfold upd_entry, entry_at, nth_at. destruct (Z.ltb_spec i 0); [done|].
  destruct (table d !! Z.to_nat i) as [e|] eqn:E; [|done]. cbn [res_bind]. apply Hg; [lia|done].
Qed.

Lemma holds_upd_req {Y} d i f (g : dnet A W -> res Y) Q :
  (forall k r, i = Z.of_nat k -> reqs d !! k = Some r -> holds (g (put_req d k (f r))) Q) ->
  holds (res_bind (upd_req d i f) g) Q.
Proof.
  intros Hg. unfold upd_req, nth_at. destruct (Z.ltb_spec i 0); [done|].
  destruct (reqs d !! Z.to_nat i) as [e|] eqn:E; [|done]. cbn [res_bind]. apply Hg; [lia|done].
Qed.

Lemma holds_ret {X} (r : res X) Q : holds (res_bind r Ok) Q -> holds r Q.
Proof. by destruct r. Qed.

Lemma lookup_put {X} (l : list X) i k x y : <[i := x]> l !! k = Some y -> k = i /\ y = x /\ (i < length l)%nat \/ k <> i /\ l !! k = Some y.
Proof. intros [(-> & -> & Hl)|[N E]]%list_lookup_insert_Some; [left|right]; auto. Qed.

(** The entry that is worked on is rewritten. *)
Lemma inv_put_busy i d e e' :
  dns_inv (Some i) d -> table d !! i = Some e -> name_ok e' ->
  (forall j pcb, pcbs d !! j = Some pcb -> pcb <> NULL -> d_pcb_idx e = Z.of_nat j -> d_pcb_idx e' = Z.of_nat j
     \/ exists k f, k <> i /\ table d !! k = Some f /\ asking f /\ d_pcb_idx f = Z.of_nat j) ->
  (asking e' -> forall j f, j <> i -> table d !! j = Some f -> asking f -> d_txid f <> d_txid e') ->
  dns_inv (Some i) (put_entry d i e').
Proof.
  intros [] Hi Hn Hp Ht. assert (Hl : (i < length (table d))%nat) by (by eapply lookup_lt_Some).
  split; cbn [put_entry upd_dns with_dns dns set_dns_table dns_table dns_requests dns_pcbs dns_servers stack]; try done.
  - by rewrite length_insert.
  - intros k f [(-> & -> & _)|[N E]]%lookup_put; eauto.
  - intros k f [(-> & -> & _)|[N E]]%lookup_put; [done|]. intros. by eapply i_waiting0.
  - intros k f [(-> & -> & _)|[N E]]%lookup_put; [done|]. intros. by eapply i_done0.
  - intros k f [(-> & -> & _)|[N E]]%lookup_put; [done|]. intros. by eapply i_new0.
  - intros k j f g [(-> & -> & _)|[N1 E1]]%lookup_put [(-> & -> & _)|[N2 E2]]%lookup_put Hf Hg Heq; [done|..].
    + exfalso. by eapply (Ht Hf j g).
    + exfalso. eapply (Ht Hg k f); auto.
    + by eapply i_txids0.
  - intros k r Hk Hf. destruct (i_requests0 k r Hk Hf) as (j & f & E1 & E2 & E3). destruct (decide (j = i)) as [->|N].
    + exists i, e'. split_and!; [done|by apply list_lookup_insert_eq|by right].
    + exists j, f. split_and!; [done|by rewrite list_lookup_insert_ne|done].
  - intros j pcb Hj Hne. destruct (i_used0 j pcb Hj Hne) as (k & f & E1 & E2 & E3). destruct (decide (k = i)) as [->|N].
    + replace f with e in * by congruence. destruct (Hp j pcb Hj Hne E2) as [E4|(k & g & N & Eg & Ag & Pg)].
      * exists i, e'. split_and!; [by apply list_lookup_insert_eq|done|by right].
      * exists k, g. split_and!; [by rewrite list_lookup_insert_ne|done|by left].
    + exists k, f. split_and!; [by rewrite list_lookup_insert_ne|done|done].
Qed.

(** The work on an entry is done. *)
Lemma inv_settle i d e :
  dns_inv (Some i) d -> table d !! i = Some e ->
  asking e /\ waiting (pcbs d) e
  \/ (d_state e = DNS_STATE_UNUSED \/ d_state e = DNS_STATE_DONE /\ 1 <= d_ttl e <= DNS_MAX_TTL)
     /\ (forall k r, reqs d !! k = Some r -> q_found r <> NULL -> q_idx r <> Z.of_nat i)
     /\ (forall j pcb, pcbs d !! j = Some pcb -> pcb <> NULL -> d_pcb_idx e = Z.of_nat j ->
          exists k f, table d !! k = Some f /\ asking f /\ d_pcb_idx f = Z.of_nat j) ->
  dns_ok d.
Proof.
  intros [] Hi Hcase. split; try done.
  - intros k f Hk _ Ha. destruct (decide (k = i)) as [->|N]; [|apply (i_waiting0 k); [done|congruence|done]].
    replace f with e in * by congruence. unfold asking in *. destruct Hcase as [[_ ?]|([?|[? _]] & _)]; [done|congruence..].
  - intros k f Hk _ Ha. destruct (decide (k = i)) as [->|N]; [|apply (i_done0 k); [done|congruence|done]].
    replace f with e in * by congruence. unfold asking in *. destruct Hcase as [[? _]|([?|[_ ?]] & _)]; [congruence..|done].
  - intros k f Hk _. destruct (decide (k = i)) as [->|N]; [|apply (i_new0 k); [done|congruence]].
    replace f with e in * by congruence. unfold asking in *. destruct Hcase as [[? _]|([?|[? _]] & _)]; congruence.
  - intros k r Hk Hf. destruct (i_requests0 k r Hk Hf) as (j & f & E1 & E2 & [E3|[= ->]]); [exists j, f; auto|].
    destruct Hcase as [[Ha _]|(_ & Hq & _)]; [|by destruct (Hq k r Hk Hf)]. exists i, e. auto.
  - intros j pcb Hj Hne. destruct (i_used0 j pcb Hj Hne) as (k & f & E1 & E2 & [E3|[= ->]]); [exists k, f; auto|].
    replace f with e in * by congruence. destruct Hcase as [[Ha _]|(_ & _ & Hq)]; [exists i, e; auto|].
    destruct (Hq j pcb Hj Hne E2) as (k & g & Hk & Ag & Pg). exists k, g. auto.
Qed.

End Inv.

(** ** Answering the applications *)

(** A request for the entry [idx] is forgotten once it is answered. *)
Definition flushed (idx : Z) (r : dns_req_entry) : dns_req_entry :=
  if negb (q_found r =? NULL) && (q_idx r =? idx) then mk_dreq NULL (q_arg r) (q_idx r) else r.

Lemma shared_pcb_spec l : forall i idx j,
  shared_pcb l (Z.of_nat i) (Z.of_nat idx) j = true <->
  exists k f, (i + k)%nat <> idx /\ l !! k = Some f /\ asking f /\ d_pcb_idx f = j.
Proof.
  induction l as [|e l IH]; intros i idx j; cbn [shared_pcb].
  - split; [done|]. by intros (k & f & _ & E & _).
  - replace (Z.of_nat i + 1) with (Z.of_nat (S i)) by lia. rewrite orb_true_iff, !andb_true_iff, negb_true_iff, Z.eqb_neq, Z.eqb_eq, IH.
    unfold dstate_eqb. rewrite bool_decide_eq_true. split.
    + intros [[[N Ha] Ep]|(k & f & N & E & Ha & Ep)].
      * exists 0%nat, e. split_and!; try done. lia.
      * exists (S k), f. split_and!; try done. lia.
    + intros ([|k] & f & N & E & Ha & Ep).
      * injection E as ->. left. split_and!; try done. lia.
      * right. exists k, f. split_and!; try done. lia.
Qed.

Section Client.
Context {A W : Type} `{AllocOps A} `{FragPool A}.
Variable stale_flags : Z -> Z.
Variable custom_free : Z -> Z -> Pbuf.state A -> res (Pbuf.state A).
Variable callback_ok : bool.
Variable netif_output : net A W -> Z -> Z -> Z -> res (err_t * net A W).
Variable rand : Z -> Z * Z.
Variable found_fn : Z -> dnet A W -> list Z -> option Z -> Z -> res (dnet A W).
Variable rand_fuel : nat.
Implicit Types d : dnet A W.

Hypothesis driver_ok : forall n nif p dest, holds (netif_output n nif p dest) (fun r => udp (snd r) = udp n).
Hypothesis found_ok : forall f d name addr arg, holds (found_fn f d name addr arg) (left_alone d).

Local Abbreviation table d := (dns_table (dns d)).
Local Abbreviation reqs d := (dns_requests (dns d)).
Local Abbreviation pcbs d := (dns_pcbs (dns d)).

(** The requests for an entry have been answered. *)
Definition answered (idx : Z) d d' : Prop :=
  dns d' = set_dns_requests (flushed idx <$> reqs d) (dns d)
  /\ (udp_ok (udp (stack d)) -> udp_ok (udp (stack d'))) /\ (forall pcb, own_pcb d pcb -> own_pcb d' pcb).

Lemma call_loop_spec idx addr l2 : forall l1 d,
  reqs d = l1 ++ l2 -> flushed idx <$> l1 = l1 ->
  holds (call_loop found_fn (length l2) d (Z.of_nat (length l1)) idx addr) (answered idx d).
Proof.
  induction l2 as [|r l2 IH]; intros l1 d Er Hl1; cbn [length call_loop].
  - cbn [holds]. split; [|done]. rewrite Er, app_nil_r, Hl1. rewrite app_nil_r in Er. destruct (dns d) as [? ? ? ? rs ? ?]. cbn in *. by rewrite Er.
  - apply holds_nth. intros k x Ek Ex. apply Nat2Z.inj in Ek as <-. rewrite Er, list_lookup_middle in Ex by done. injection Ex as <-.
    eapply (holds_call _ _ (fun d1 => dns d1 = set_dns_requests (l1 ++ flushed idx r :: l2) (dns d)
      /\ (udp_ok (udp (stack d)) -> udp_ok (udp (stack d1))) /\ (forall pcb, own_pcb d pcb -> own_pcb d1 pcb))).
    { unfold flushed. destruct (negb (q_found r =? NULL) && (q_idx r =? idx)).
      - apply holds_nth. intros i e _ _. eapply holds_call; [apply found_ok|]. cbv beta. intros d1 (E1 & U1 & O1).
        apply holds_ret, holds_upd_req. intros k q Ek Eq. apply Nat2Z.inj in Ek as <-. rewrite E1, Er, list_lookup_middle in Eq by done.
        injection Eq as <-.
        cbn [holds]. split; [|done]. cbn [put_req upd_dns with_dns dns]. rewrite E1, Er. rewrite insert_app_r_alt, Nat.sub_diag by lia. done.
      - cbn [holds]. split; [|done]. rewrite <- Er. by destruct (dns d). }
    intros d1 (E1 & U1 & O1). replace (Z.of_nat (length l1) + 1) with (Z.of_nat (length (l1 ++ [flushed idx r]))) by (rewrite length_app; cbn; lia).
    assert (Ef : flushed idx (flushed idx r) = flushed idx r).
    { unfold flushed. destruct (negb (q_found r =? NULL) && (q_idx r =? idx)) eqn:C; [done|]. by rewrite C. }
    eapply holds_weaken; [apply IH|].
    + rewrite E1. cbn [set_dns_requests dns_requests]. by rewrite <- app_assoc.
    + rewrite fmap_app, Hl1. cbn. by rewrite Ef.
    + intros d2 (E2 & U2 & O2). split; [|by auto]. rewrite E2, E1, Er.
      cbn [set_dns_requests dns_requests dns_pcbs dns_last_pcb_idx dns_seqno dns_table dns_servers dns_seed].
      unfold set_dns_requests. cbn. f_equal. rewrite !fmap_app. cbn. rewrite Hl1, Ef. done.
Qed.

Lemma inv_answered b idx d d' : dns_inv b d -> answered idx d d' -> dns_inv b d'.
Proof.
  intros [] (E & Hu & Ho). split; rewrite ?E; cbn [set_dns_requests dns_table dns_requests dns_pcbs dns_servers]; eauto.
  - by rewrite length_fmap.
  - intros k r Hk Hf. apply list_lookup_fmap_Some in Hk as (r0 & -> & Hk). unfold flushed in *.
    destruct (negb (q_found r0 =? NULL) && (q_idx r0 =? idx)); [done|]. eauto.
Qed.

(** Closing the source port of an entry. *)
Lemma inv_close_pcb i j d e g pcb :
  dns_inv (Some i) d -> table d !! i = Some e -> d_pcb_idx e = Z.of_nat j -> pcbs d !! j = Some pcb ->
  (forall k f, k <> i -> table d !! k = Some f -> asking f -> d_pcb_idx f <> Z.of_nat j) ->
  udp_ok g -> udp_heap g = delete pcb (udp_heap (udp (stack d))) ->
  dns_inv (Some i) (put_pcb (with_stack (with_udp g (stack d)) d) j NULL).
Proof.
  intros [] Hi Hj Hp Hno Hg Eg. assert (Hjl : (j < length (pcbs d))%nat) by (by eapply lookup_lt_Some).
  split; cbn [put_pcb upd_dns with_dns with_stack dns set_dns_pcbs dns_table dns_requests dns_pcbs dns_servers stack with_udp udp]; try done.
  - by rewrite length_insert.
  - intros k f Hk Hb Ha. pose proof (i_waiting0 k f Hk Hb Ha) as [w1 w2 w3 (j' & pcb' & E1 & E2 & E3)]. split; try done.
    exists j', pcb'. split_and!; [done| |done]. rewrite list_lookup_insert_ne; [done|]. intros <-. apply (Hno k f); [congruence|done..].
  - intros k q [(_ & -> & _)|[N E]]%lookup_put Hq; [done|]. eauto.
  - intros k q [(_ & -> & _)|[N E]]%lookup_put Hq; [done|]. destruct (i_own0 k q E Hq) as (u & Eu & R & L).
    exists u. change (udp_heap g !! q = Some u /\ u_recv u = dns_recv_fn /\ u_local_port u <> 0). rewrite Eg, lookup_delete_ne; [done|]. intros <-.
    apply N. by eapply i_distinct0.
  - intros k k' q [(_ & E & _)|[N E]]%lookup_put [(_ & E' & _)|[N' E']]%lookup_put Hq; [done..|]. by eapply i_distinct0.
Qed.

Lemma inv_forget_pcb i d e :
  dns_inv (Some i) d -> table d !! i = Some e -> name_ok e ->
  (forall j pcb, pcbs d !! j = Some pcb -> pcb <> NULL -> d_pcb_idx e = Z.of_nat j ->
     exists k f, k <> i /\ table d !! k = Some f /\ asking f /\ d_pcb_idx f = Z.of_nat j) ->
  dns_inv (Some i) (put_entry d i (set_d_pcb_idx DNS_MAX_SOURCE_PORTS e)).
Proof.
  intros Hd He Hn Hk. apply (inv_put_busy i d e); [done|done|done| |].
  - intros k pcb' Hk1 Hk2 Hk3. right. by eapply Hk.
  - intros Ha k f N Hf Af Eq'. apply N. by eapply (i_txids _ _ Hd k i f e).
Qed.

Definition released (i : nat) d d' : Prop :=
  dns_inv (Some i) d'
  /\ (exists e, table d !! i = Some e /\ table d' = <[i := set_d_pcb_idx DNS_MAX_SOURCE_PORTS e]> (table d))
  /\ reqs d' = flushed (Z.of_nat i) <$> reqs d /\ dns_servers (dns d') = dns_servers (dns d).

Lemma call_found_spec i d e addr :
  dns_inv (Some i) d -> table d !! i = Some e ->
  (exists j pcb, d_pcb_idx e = Z.of_nat j /\ pcbs d !! j = Some pcb /\ pcb <> NULL) ->
  holds (dns_call_found found_fn d (Z.of_nat i) addr) (released i d).
Proof.
  intros Hd Hi (j & pcb & Ej & Hj & Hne). unfold dns_call_found.
  pose proof (i_reqs _ _ Hd) as Hlr. rewrite <- Hlr. eapply holds_call; [by apply (call_loop_spec (Z.of_nat i) addr (reqs d) [])|].
  intros d1 Ha. pose proof (inv_answered _ _ _ _ Hd Ha) as H1d. destruct Ha as (E1 & _).
  assert (Et : table d1 = table d) by (by rewrite E1). assert (Ep : pcbs d1 = pcbs d) by (by rewrite E1).
  assert (Eq : reqs d1 = flushed (Z.of_nat i) <$> reqs d) by (by rewrite E1).
  assert (Esv : dns_servers (dns d1) = dns_servers (dns d)) by (by rewrite E1).
  unfold entry_at at 1. rewrite Et, (nth_at_nat _ _ _ Hi). cbn [res_bind].
  pose proof (i_names _ _ Hd i e Hi) as Hn.
  destruct (shared_pcb (table d) 0 (Z.of_nat i) (d_pcb_idx e)) eqn:Esh.
  - apply (shared_pcb_spec (table d) 0 i) in Esh as (k & f & N & Hk & Af & Pf). cbn [Nat.add] in N.
    apply holds_upd_entry. intros i' e' Ei Hi'. apply Nat2Z.inj in Ei as <-. rewrite Et in Hi'. replace e' with e in * by congruence.
    unfold entry_at. cbn [put_entry upd_dns with_dns dns set_dns_table dns_table]. rewrite Et.
    erewrite nth_at_nat by (apply list_lookup_insert_eq; by eapply lookup_lt_Some). cbn [res_bind].
    cbn [set_d_pcb_idx d_pcb_idx]. cbn [Z.ltb Z.compare DNS_MAX_SOURCE_PORTS Pos.compare Pos.compare_cont]. cbn [holds].
    split_and!; [|exists e; split; [done|]; unfold put_entry, upd_dns; cbn; by rewrite Et|done|done].
    apply (inv_forget_pcb i d1 e); [done|by rewrite Et|done|]. rewrite Et. intros k' pcb' _ _ E'. exists k, f. split_and!; [done..|congruence].
  - assert (Hno : forall k f, k <> i -> table d !! k = Some f -> asking f -> d_pcb_idx f <> Z.of_nat j).
    { intros k f N Hk Af Pf. assert (X : shared_pcb (table d) 0 (Z.of_nat i) (d_pcb_idx e) = true); [|congruence].
      apply (shared_pcb_spec (table d) 0 i). exists k, f. split_and!; [done..|congruence]. }
    cbn [res_bind]. unfold entry_at at 1. rewrite Et, (nth_at_nat _ _ _ Hi). cbn [res_bind].
    assert (Hjl : (j < 4)%nat) by (pose proof (i_pcbs _ _ Hd) as Hl; apply lookup_lt_Some in Hj; change (Z.to_nat DNS_MAX_SOURCE_PORTS) with 4%nat in
      Hl; lia).
    rewrite (proj2 (Z.ltb_lt _ _)) by (rewrite Ej; unfold DNS_MAX_SOURCE_PORTS; lia).
    rewrite Ep, Ej, (nth_at_nat _ _ _ Hj). cbn [res_bind].
    assert (Hj1 : pcbs d1 !! j = Some pcb) by (by rewrite Ep). destruct (i_own _ _ H1d j pcb Hj1 Hne) as (u & Hu & _).
    destruct (udp_remove_ok _ _ _ (i_udp _ _ H1d) Hu) as (g & Eg & Hg). rewrite Eg. cbn [res_bind].
    assert (Egh : udp_heap g = delete pcb (udp_heap (udp (stack d1)))).
    { unfold udp_remove in Eg. rewrite (proj2 (Z.eqb_neq _ _) Hne) in Eg. by injection Eg as <-. }
    assert (H2d : dns_inv (Some i) (put_pcb (with_stack (with_udp g (stack d1)) d1) j NULL)).
    { apply (inv_close_pcb i j d1 e g pcb); [done|by rewrite Et|done..|by rewrite Et|done|done]. }
    rewrite Nat2Z.id. apply holds_ret, holds_upd_entry. intros i' e' Ei Hi'. apply Nat2Z.inj in Ei as <-.
    change (table d1 !! i = Some e') in Hi'. rewrite Et in Hi'. replace e' with e in * by congruence. cbn [holds].
    split_and!; [|exists e; split; [done|]; unfold put_entry, upd_dns; cbn; by rewrite Et|done|done].
    apply (inv_forget_pcb i (put_pcb (with_stack (with_udp g (stack d1)) d1) j NULL) e); [done|by cbn; rewrite Et|done|].
    cbn. intros k pcb' [(_ & -> & _)|[N E]]%lookup_put Hp' E'; [done|]. exfalso. apply N. apply Nat2Z.inj. congruence.
Qed.

(** ** Asking *)

Local Abbreviation send := (dns_send stale_flags custom_free callback_ok netif_output found_fn).
Local Abbreviation check_entry := (dns_check_entry stale_flags custom_free callback_ok netif_output rand found_fn rand_fuel).

(** What the work on the entry [i] has done: the invariant holds again, other entries are as
    they were, no request is new, and the entry satisfies [P]. *)
Definition worked (i : nat) (P : dns_table_entry -> Prop) d d' : Prop :=
  dns_ok d' /\ (forall k, k <> i -> table d' !! k = table d !! k)
  /\ (forall k r, reqs d' !! k = Some r -> q_found r <> NULL -> reqs d !! k = Some r)
  /\ dns_servers (dns d') = dns_servers (dns d)
  /\ exists e, table d' !! i = Some e /\ P e.

Lemma flushed_pending idx (l : list dns_req_entry) (k : nat) r :
  (flushed idx <$> l) !! k = Some r -> q_found r <> NULL -> l !! k = Some r /\ q_idx r <> idx.
Proof.
  intros (r0 & -> & Hk)%list_lookup_fmap_Some. unfold flushed. destruct (negb (q_found r0 =? NULL) && (q_idx r0 =? idx)) eqn:C; [done|].
  intros Hf. split; [done|]. intros E. rewrite E, Z.eqb_refl, andb_true_r, negb_false_iff, Z.eqb_eq in C. done.
Qed.

(** The entry is given up after its requests were answered. *)
Lemma released_unused i d d1 :
  released i d d1 -> dns_inv (Some i) d ->
  holds (upd_entry d1 (Z.of_nat i) (set_d_state DNS_STATE_UNUSED)) (worked i (fun e => d_state e = DNS_STATE_UNUSED) d).
Proof.
  intros (Hd1 & (e & He & Et) & Eq & Esv) Hd. apply holds_ret, holds_upd_entry. intros k e1 Ek He1. apply Nat2Z.inj in Ek as <-. cbn [holds].
  assert (Hl : (i < length (table d))%nat) by (by eapply lookup_lt_Some).
  rewrite Et, list_lookup_insert_eq in He1 by done. injection He1 as <-.
  assert (He1 : table d1 !! i = Some (set_d_pcb_idx DNS_MAX_SOURCE_PORTS e)) by (by rewrite Et, list_lookup_insert_eq).
  set (e' := set_d_state DNS_STATE_UNUSED (set_d_pcb_idx DNS_MAX_SOURCE_PORTS e)).
  assert (Hput : dns_inv (Some i) (put_entry d1 i e')).
  { apply (inv_put_busy i d1 _ _ Hd1 He1); [exact (i_names _ _ Hd i e He)|by left|done]. }
  assert (He' : table (put_entry d1 i e') !! i = Some e').
  { cbn. rewrite Et, list_insert_insert_eq. by apply list_lookup_insert_eq. }
  split_and!.
  - apply (inv_settle i _ e' Hput He'). right. split_and!; [by left| |].
    + intros k r Hk Hf. cbn in Hk. rewrite Eq in Hk. by eapply flushed_pending.
    + intros j pcb Hj _ E. exfalso. assert (Hjl := lookup_lt_Some _ _ _ Hj). rewrite (i_pcbs _ _ Hput) in Hjl. cbn in E.
      unfold DNS_MAX_SOURCE_PORTS in *. lia.
  - intros k N. cbn. rewrite Et, list_insert_insert_eq. by apply list_lookup_insert_ne.
  - intros k r Hk Hf. cbn in Hk. rewrite Eq in Hk. by eapply flushed_pending.
  - done.
  - by exists e'.
Qed.

Lemma send_spec i d e :
  dns_inv (Some i) d -> table d !! i = Some e -> asking e -> waiting (pcbs d) e ->
  holds (send d (Z.of_nat i)) (fun r => worked i (fun e' => e' = e \/ d_state e' = DNS_STATE_UNUSED) d (snd r)).
Proof.
  intros Hd He Ha Hw. unfold dns_send, entry_at at 1. rewrite (nth_at_nat _ _ _ He). cbn [res_bind].
  apply holds_skip. intros _. apply holds_nth. intros sv server _ _. destruct (ip4_addr_isany_val server).
  { eapply holds_call; [apply (call_found_spec i d e false Hd He); apply Hw|]. intros d1 H1.
    eapply holds_call; [by apply (released_unused i d)|]. intros d2 (H2 & H3 & H4 & H5 & e2 & He2 & Hs). cbn [holds snd].
    split_and!; [done..|]. exists e2. auto. }
  assert (Hok : dns_ok d) by (apply (inv_settle i d e Hd He); by left).
  assert (Hsame : forall d', left_alone d d' -> worked i (fun e' => e' = e \/ d_state e' = DNS_STATE_UNUSED) d d').
  { intros d' Hl. split_and!; [by eapply inv_left_alone|..]; destruct Hl as (E & _); rewrite E; try done. exists e. auto. }
  eapply holds_call; [by apply alloc_keeps with (K := udp)|]. cbv beta. intros [p n1] E1. cbn [snd] in E1.
  destruct (negb (p =? NULL)); [|cbn [holds snd]; by apply Hsame, left_alone_udp].
  apply holds_skip. intros s. destruct (w_pcb _ _ Hw) as (j & pcb & Ej & Hj & Hne). rewrite Ej, (nth_at_nat _ _ _ Hj). cbn [res_bind].
  destruct (i_own _ _ Hd j pcb Hj Hne) as (u & Hu & _ & Hp).
  eapply holds_call; [apply (sendto_udp _ _ _ _ driver_ok _ pcb u); [by cbn; rewrite E1|done]|]. cbv beta. intros [err n2] E2. cbn [snd] in E2.
  eapply holds_call; [by apply free_keeps with (K := udp)|]. cbv beta. intros n3 E3. cbn [holds snd]. apply Hsame, left_alone_udp. rewrite E3, E2.
  done.
Qed.

Lemma inv_seed b d v : dns_inv b d -> dns_inv b (upd_dns d (set_dns_seed v)).
Proof. intros []. by split. Qed.

Lemma create_txid_spec fuel : forall d,
  holds (create_txid_loop rand fuel d) (fun r => txid_used (fst r) (table d) = false /\ exists v, snd r = upd_dns d (set_dns_seed v)).
Proof.
  induction fuel as [|fuel IH]; intros d; cbn [create_txid_loop]; [done|]. unfold DNS_RAND_TXID. destruct (rand (dns_seed (dns d))) as [v seed].
  cbn [upd_dns with_dns dns set_dns_seed dns_table]. destruct (txid_used (u16 v) (table d)) eqn:E; [|cbn [holds fst snd]; eauto].
  eapply holds_weaken; [apply IH|]. cbv beta. intros [x d'] [Ex [w Ew]]. cbn [fst snd] in *. split; [done|]. exists w. by rewrite Ew.
Qed.

Lemma txid_unused txid l (k : nat) f : txid_used txid l = false -> l !! k = Some f -> asking f -> d_txid f <> txid.
Proof.
  intros Hu Hk Ha E. unfold txid_used in Hu. assert (X : existsb (fun e => dstate_eqb (d_state e) DNS_STATE_ASKING && (d_txid e =? txid)) l = true);
    [|congruence].
  apply existsb_exists. exists f. split; [by apply list_elem_of_In; eapply list_elem_of_lookup_2|]. rewrite E, Z.eqb_refl, andb_true_r.
  by apply bool_decide_eq_true.
Qed.

(** A new entry is asked for. *)
Lemma check_new_spec i d e :
  dns_inv (Some i) d -> table d !! i = Some e -> d_state e = DNS_STATE_NEW ->
  (exists j pcb, d_pcb_idx e = Z.of_nat j /\ pcbs d !! j = Some pcb /\ pcb <> NULL) ->
  holds (check_entry d (Z.of_nat i)) (worked i (fun e' => asking e' \/ d_state e' = DNS_STATE_UNUSED) d).
Proof.
  intros Hd He Hs Hp. unfold dns_check_entry, entry_at at 1. rewrite (nth_at_nat _ _ _ He). cbn [res_bind]. rewrite Hs.
  eapply holds_call; [apply create_txid_spec|]. intros [txid d1] [Ht [v E1]]. cbn [fst snd] in *. subst d1.
  apply holds_upd_entry. intros k e1 Ek He1. apply Nat2Z.inj in Ek as <-. change (table d !! i = Some e1) in He1.
  replace e1 with e in * by congruence.
  set (e' := set_d_retries 0 _). set (d1 := upd_dns d (set_dns_seed v)).
  assert (Hd1 : dns_inv (Some i) (put_entry d1 i e')).
  { apply (inv_put_busy i d1 e); [by apply inv_seed|done|exact (i_names _ _ Hd i e He)|by left|]. intros _ j f N Hf Af.
    by apply (txid_unused txid (table d) j). }
  assert (Hl : (i < length (table d))%nat) by (by eapply lookup_lt_Some).
  eapply holds_call; [apply (send_spec i _ e' Hd1); [by apply list_lookup_insert_eq|done|]|].
  { split; try (cbn; unfold DNS_MAX_SERVERS, DNS_MAX_RETRIES; lia). exact Hp. }
  cbv beta. intros [err d2] (H2 & H3 & H4 & H5 & e2 & He2 & Hs2). cbn [holds snd] in *. split_and!; [done| |done|done|].
  - intros k N. rewrite H3 by done. cbn. by apply list_lookup_insert_ne.
  - exists e2. split; [done|]. destruct Hs2 as [->|?]; auto. by left.
Qed.

(** An entry keeps its query while it waits. *)
Lemma inv_rewait i d e e' :
  dns_ok d -> table d !! i = Some e -> asking e -> asking e' -> name_ok e' -> d_txid e' = d_txid e -> d_pcb_idx e' = d_pcb_idx e ->
  dns_inv (Some i) (put_entry d i e').
Proof.
  intros Hd He Ha Ha' Hn Et Ep. apply (inv_put_busy i d e); [by apply inv_busy|done|done| |].
  - intros. left. congruence.
  - intros _ j f N Hf Af Eq. apply N. eapply (i_txids _ _ Hd j i f e); [done..|congruence].
Qed.

Lemma waiting_again i d e e' :
  dns_ok d -> table d !! i = Some e -> asking e -> asking e' -> d_name e' = d_name e -> d_txid e' = d_txid e -> d_pcb_idx e' = d_pcb_idx e ->
  0 <= d_server_idx e' < DNS_MAX_SERVERS -> 1 <= d_tmr e' <= Z.max 1 (d_retries e') -> 0 <= d_retries e' < DNS_MAX_RETRIES ->
  dns_inv (Some i) (put_entry d i e') /\ waiting (pcbs d) e' /\ table (put_entry d i e') !! i = Some e'.
Proof.
  intros Hd He Ha Ha' En Et Ep Hs Ht Hr. assert (Hl : (i < length (table d))%nat) by (by eapply lookup_lt_Some). split_and!.
  - apply (inv_rewait i d e); try done. unfold name_ok. rewrite En. exact (i_names _ _ Hd i e He).
  - split; try done. rewrite Ep. exact (w_pcb _ _ (i_waiting _ _ Hd i e He (fun E => ltac:(done)) Ha)).
  - by apply list_lookup_insert_eq.
Qed.

Lemma worked_from i P d e' d' : worked i P (put_entry d i e') d' -> worked i P d d'.
Proof.
  intros (H1 & H2 & H3 & H4 & H5). split_and!; try done. intros k N. rewrite H2 by done. cbn. by apply list_lookup_insert_ne.
Qed.

(** The query is sent again. *)
Lemma resend_spec i d e e' :
  dns_ok d -> table d !! i = Some e -> asking e -> asking e' -> d_name e' = d_name e -> d_txid e' = d_txid e -> d_pcb_idx e' = d_pcb_idx e ->
  0 <= d_server_idx e' < DNS_MAX_SERVERS -> 1 <= d_tmr e' <= Z.max 1 (d_retries e') -> 0 <= d_retries e' < DNS_MAX_RETRIES ->
      patience e' < patience e ->
  holds (let* d := upd_entry d (Z.of_nat i) (fun _ => e') in let* (_, d) := send d (Z.of_nat i) in Ok d)
    (worked i (fun x => asking x -> patience x < patience e) d).
Proof.
  intros Hd He Ha Ha' En Et Ep Hs Ht Hr Hp. destruct (waiting_again i d e e') as (Hi & Hw & He'); try done.
  apply holds_upd_entry. intros k e1 Ek _. apply Nat2Z.inj in Ek as <-.
  eapply holds_call; [by apply (send_spec i _ e' Hi)|]. cbv beta. intros [err d2] Hd2. cbn [holds snd] in *. apply (worked_from i _ d e').
  destruct Hd2 as (H1 & H2 & H3 & H4 & x & Hx & Hc). split_and!; try done. exists x. split; [done|]. intros Ax.
  destruct Hc as [->|Hc]; [done|]. unfold asking in Ax. congruence.
Qed.

(** Nothing is said of an entry that is still asked for. *)
Lemma unused_worked i d d' P : worked i (fun e => d_state e = DNS_STATE_UNUSED) d d' -> worked i (fun x => asking x -> P x) d d'.
Proof.
  intros (H1 & H2 & H3 & H4 & x & Hx & Hc). split_and!; try done. exists x. split; [done|]. intros Ax. unfold asking in Ax. congruence.
Qed.

Lemma check_asking_spec i d e :
  dns_ok d -> table d !! i = Some e -> asking e ->
  holds (check_entry d (Z.of_nat i)) (worked i (fun x => asking x -> patience x < patience e) d).
Proof.
  intros Hd He Ha. unfold dns_check_entry, entry_at at 1. rewrite (nth_at_nat _ _ _ He). cbn [res_bind]. rewrite Ha.
  pose proof (i_waiting _ _ Hd i e He (fun E => ltac:(done)) Ha) as Hw. pose proof Hw as [Hs Ht Hr _]. unfold DNS_MAX_SERVERS, DNS_MAX_RETRIES in *.
  assert (Et : u8 (d_tmr e - 1) = d_tmr e - 1) by (apply u8_id; unfold is_u8; lia).
  assert (Er : u8 (d_retries e + 1) = d_retries e + 1) by (apply u8_id; unfold is_u8; lia).
  cbn [set_d_tmr d_tmr d_retries d_server_idx set_d_retries]. rewrite Et, Er. destruct (Z.eqb_spec (d_tmr e - 1) 0) as [E0|E0].
  2: { apply holds_ret, holds_upd_entry. intros k e1 Ek _. apply Nat2Z.inj in Ek as <-. cbn [holds].
    match goal with |- worked _ _ _ (put_entry _ _ ?x) => set (e' := x) end.
    destruct (waiting_again i d e e') as (Hi & Hw' & He'); try done; [cbn; lia|]. apply (worked_from i _ d e').
    split_and!; try done; [apply (inv_settle i _ e' Hi He'); by left|]. exists e'. split; [done|]. intros _. unfold patience. cbn. lia. }
  destruct (Z.eqb_spec (d_retries e + 1) 4) as [E4|E4].
  - eapply (holds_call _ _ (fun b => b = true -> d_server_idx e = 0)).
    { destruct (Z.ltb_spec (d_server_idx e + 1) 2); [|done]. apply holds_skip. intros sv. cbn [holds]. intros _. lia. }
    intros [] Hb.
    + specialize (Hb eq_refl). rewrite Hb. apply (resend_spec i d e); try done; cbn; try lia. unfold patience. cbn. rewrite Hb.
      replace (d_retries e) with 3 by lia. replace (d_tmr e) with 1 by lia. done.
    + match goal with |- holds (res_bind (upd_entry _ _ (fun _ => ?x)) _) _ => set (e' := x) end.
      assert (Hi : dns_inv (Some i) (put_entry d i e')) by (apply (inv_rewait i d e); try done; exact (i_names _ _ Hd i e He)).
      assert (Hl : (i < length (table d))%nat) by (by eapply lookup_lt_Some).
      apply holds_upd_entry. intros k e1 Ek _. apply Nat2Z.inj in Ek as <-.
      eapply holds_call; [apply (call_found_spec i (put_entry d i e') e' false Hi); [by apply list_lookup_insert_eq|exact (w_pcb _ _ Hw)]|].
      intros d1 H1. eapply holds_weaken; [by apply (released_unused i (put_entry d i e'))|]. intros d2 H2.
      by apply (worked_from i _ d e'), unused_worked.
  - apply (resend_spec i d e); try done; try (cbn; unfold DNS_MAX_RETRIES; lia). unfold patience. cbn.
    assert (Hc : d_retries e = 0 \/ d_retries e = 1 \/ d_retries e = 2) by lia.
    destruct Hc as [->|[->| ->]]; change (0 + 1) with 1; change (1 + 1) with 2; change (2 + 1) with 3; cbv iota; destruct (d_server_idx e =? 0); lia.
Qed.

(** The timer looks at one entry. *)
Lemma check_entry_spec i d e :
  dns_ok d -> table d !! i = Some e ->
  holds (check_entry d (Z.of_nat i)) (worked i (fun x => asking x -> asking e /\ patience x < patience e) d).
Proof.
  intros Hd He. destruct (decide (asking e)) as [Ha|Ha].
  { eapply holds_weaken; [by apply check_asking_spec|]. intros d' (H1 & H2 & H3 & H4 & x & Hx & Hc). split_and!; try done. exists x. auto. }
  assert (Hself : worked i (fun x => asking x -> asking e /\ patience x < patience e) d d) by (split_and!; try done; by exists e).
  assert (Hl : (i < length (table d))%nat) by (by eapply lookup_lt_Some).
  assert (Hput : forall e', d_name e' = d_name e -> d_pcb_idx e' = d_pcb_idx e ->
    d_state e' = DNS_STATE_UNUSED \/ d_state e' = DNS_STATE_DONE /\ 1 <= d_ttl e' <= DNS_MAX_TTL ->
    worked i (fun x => asking x -> asking e /\ patience x < patience e) d (put_entry d i e')).
  { intros e' En Ep Hs. assert (Na : ~ asking e') by (unfold asking; destruct Hs as [Hs|[Hs _]]; congruence).
    assert (Hi : dns_inv (Some i) (put_entry d i e')).
    { apply (inv_put_busy i d e); [by apply inv_busy|done|unfold name_ok; rewrite En; exact (i_names _ _ Hd i e He)|by intros; left;
        congruence|done]. }
    assert (He' : table (put_entry d i e') !! i = Some e') by (by apply list_lookup_insert_eq).
    split_and!; try done; [|by intros k N; apply list_lookup_insert_ne|by exists e'].
    apply (inv_settle i _ e' Hi He'). right. split_and!; [done| |].
    - intros k r Hk Hf E. destruct (i_requests _ _ Hd k r Hk Hf) as (i' & f & E1 & E2 & [E3|]); [|done]. apply Ha.
      replace i' with i in * by (apply Nat2Z.inj; congruence). congruence.
    - intros j pcb Hj Hne _. destruct (i_used _ _ Hd j pcb Hj Hne) as (k & f & E1 & E2 & [E3|]); [|done]. exists k, f.
      split_and!; [|done|done]. cbn. rewrite list_lookup_insert_ne; [done|]. intros <-. congruence. }
  unfold dns_check_entry, entry_at at 1. rewrite (nth_at_nat _ _ _ He). cbn [res_bind]. destruct (d_state e) eqn:Es; [done| |done|].
  - by destruct (i_new _ _ Hd i e He).
  - assert (Httl := i_done _ _ Hd i e He (fun E => ltac:(done)) Es).
    rewrite (proj2 (Z.eqb_neq _ _)) by lia. apply holds_ret, holds_upd_entry. intros k e1 Ek _. apply Nat2Z.inj in Ek as <-. cbn [holds].
    cbn [set_d_ttl d_ttl]. destruct (Z.eqb_spec (d_ttl e - 1) 0); apply Hput; try done; [by left|]. right. cbn. split; [done|lia].
Qed.

(** ** The timer *)

Local Abbreviation tmr := (dns_tmr stale_flags custom_free callback_ok netif_output rand found_fn rand_fuel).

(** A second has passed: every entry that still waits has less patience than before. *)
Definition second_passed (from : nat) d d' : Prop :=
  dns_ok d'
  /\ (forall k r, reqs d' !! k = Some r -> q_found r <> NULL -> reqs d !! k = Some r)
  /\ (forall k, (k < from)%nat -> table d' !! k = table d !! k)
  /\ (forall k e', (from <= k)%nat -> table d' !! k = Some e' -> asking e' ->
        exists e, table d !! k = Some e /\ asking e /\ patience e' < patience e).

Lemma entries_loop_spec k : forall d i,
  dns_ok d -> (i + k = DNS_TABLE_SIZE)%nat ->
  holds (entries_loop stale_flags custom_free callback_ok netif_output rand found_fn rand_fuel k d (Z.of_nat i)) (second_passed i d).
Proof.
  induction k as [|k IH]; intros d i Hd Hi; cbn [entries_loop].
  - cbn [holds]. split_and!; try done. intros j e' Hj He'. apply lookup_lt_Some in He'. rewrite (i_table _ _ Hd) in He'. lia.
  - destruct (lookup_lt_is_Some_2 (table d) i) as [e He]; [rewrite (i_table _ _ Hd); lia|].
    eapply holds_call; [by apply (check_entry_spec i d e)|]. intros d1 (H1 & H2 & H3 & H4 & x & Hx & Hc).
    replace (Z.of_nat i + 1) with (Z.of_nat (S i)) by lia. eapply holds_weaken; [apply IH; [done|lia]|].
    intros d2 (G1 & G2 & G3 & G4). split_and!; [done|eauto| |].
    + intros j Hj. rewrite G3, H2 by lia. done.
    + intros j e' Hj He' Ha. destruct (decide (j = i)) as [->|N].
      * rewrite G3 in He' by lia. replace e' with x in * by congruence. exists e. destruct (Hc Ha). auto.
      * destruct (G4 j e') as (f & Hf & Af & Pf); [lia|done|done|]. exists f. by rewrite <- H2.
Qed.

Lemma dns_tmr_spec d : dns_ok d -> holds (tmr d) (second_passed 0 d).
Proof. intros Hd. by apply (entries_loop_spec DNS_TABLE_SIZE d 0). Qed.

Lemma setserver_ok d k a : dns_ok d -> dns_ok (dns_setserver d k a).
Proof.
  intros Hd. unfold dns_setserver. destruct (k <? DNS_MAX_SERVERS); [|done]. destruct Hd. split; try done. cbn. by rewrite length_insert.
Qed.

(** ** Responses *)

Lemma answer_ttl k : forall (st : Pbuf.state A) p tot off ttl a, answer_loop k st p tot off = Ok (Answer ttl a) -> 0 <= ttl.
Proof.
  induction k as [|k IH]; intros st p tot off ttl a; cbn [answer_loop]; [done|]. destruct (negb (off <? tot)); [done|].
  destruct (dns_skip_name st p off) as [r|]; [|done]. cbn [res_bind]. destruct (r =? 65535); [done|].
  destruct (pbuf_copy_partial st p true SIZEOF_DNS_ANSWER r) as [[c b]|]; [|done]. cbn [res_bind]. destruct (negb _); [done|].
  destruct (_ && _).
  - destruct (pbuf_copy_partial _ _ _ _ _) as [[c' b']|]; [|done]. cbn [res_bind]. destruct (negb _); [done|]. intros [= <- _].
    pose proof (lwip_htonl_range (ans_ttl b)) as R. unfold is_u32 in R. lia.
  - destruct (65535 <? _); [done|]. apply IH.
Qed.

Lemma check_response_ttl d e p addr hdr ttl a : check_response d e p addr hdr = Ok (Some (Answer ttl a)) -> 0 <= ttl.
Proof.
  unfold check_response. cbv zeta. destruct (_ =? 0); [done|]. destruct (negb _); [done|]. destruct (nth_at _ _) as [sv|]; [|done]. cbn [res_bind].
  destruct (negb _); [done|]. destruct (dns_compare_name _ _ _ _) as [r|]; [|done]. cbn [res_bind]. destruct (r =? 65535); [done|].
  destruct (pbuf_copy_partial _ _ _ _ _) as [[c q]|]; [|done]. cbn [res_bind]. destruct (negb _); [done|]. destruct (_ || _); [done|].
  destruct (negb _); [done|]. destruct (deref _ _) as [b|]; [|done]. cbn [res_bind]. destruct (answer_loop _ _ _ _ _) as [r'|] eqn:E; [|done].
  cbn [res_bind]. destruct r'; [done| |done]. intros [= <- <-]. by eapply answer_ttl.
Qed.

Lemma find_index_spec {X} (f : X -> bool) l : forall i, 0 <= i ->
  find_index f l i = i + Z.of_nat (length l) \/ exists k x, find_index f l i = i + Z.of_nat k /\ l !! k = Some x /\ f x = true.
Proof.
  induction l as [|x l IH]; intros i Hi; cbn [find_index length]; [left; lia|]. destruct (f x) eqn:E.
  - right. exists 0%nat, x. split_and!; [lia|done|done].
  - destruct (IH (i + 1)) as [->|(k & y & -> & Hk & Hy)]; [lia|left; lia|]. right. exists (S k), y. split_and!; [lia|done|done].
Qed.

Lemma correct_response_ok i d e ttl :
  dns_ok d -> table d !! i = Some e -> asking e -> 0 <= ttl ->
  holds (dns_correct_response found_fn d (Z.of_nat i) ttl) dns_ok.
Proof.
  intros Hd He Ha Ht. unfold dns_correct_response. apply holds_upd_entry. intros k e1 Ek He1. apply Nat2Z.inj in Ek as <-.
  replace e1 with e in * by congruence. set (t := if DNS_MAX_TTL <? ttl then DNS_MAX_TTL else ttl). set (e' := set_d_ttl t _).
  assert (Htt : 0 <= t <= DNS_MAX_TTL) by (unfold t, DNS_MAX_TTL; destruct (Z.ltb_spec 604800 ttl); lia).
  assert (Hl : (i < length (table d))%nat) by (by eapply lookup_lt_Some).
  assert (He' : table (put_entry d i e') !! i = Some e') by (by apply list_lookup_insert_eq).
  assert (Hi : dns_inv (Some i) (put_entry d i e')).
  { apply (inv_put_busy i d e); [by apply inv_busy|done|exact (i_names _ _ Hd i e He)|by left|done]. }
  eapply holds_call; [apply (call_found_spec i _ e' true Hi He'); exact (w_pcb _ _ (i_waiting _ _ Hd i e He (fun E => ltac:(done)) Ha))|].
  intros d1 Hd1. pose proof Hd1 as (Hi1 & (e2 & He2 & Et) & Eq & _). rewrite He' in He2. injection He2 as <-.
  assert (He1' : table d1 !! i = Some (set_d_pcb_idx DNS_MAX_SOURCE_PORTS e')) by (rewrite Et; apply list_lookup_insert_eq; by eapply lookup_lt_Some).
  unfold entry_at. rewrite (nth_at_nat _ _ _ He1'). cbn [res_bind]. cbn [set_d_pcb_idx d_ttl d_state e' set_d_ttl set_d_state].
  destruct (Z.eqb_spec t 0) as [E0|E0].
  - unfold dstate_eqb. rewrite bool_decide_eq_true_2 by done. eapply holds_weaken; [by apply (released_unused i (put_entry d i e'))|].
    by intros d2 (? & _).
  - cbn [holds]. apply (inv_settle i d1 _ Hi1 He1'). right. split_and!.
    + right. cbn. split; [done|lia].
    + intros k r Hk Hf. rewrite Eq in Hk. by eapply flushed_pending.
    + intros j pcb Hj _ E. exfalso. apply lookup_lt_Some in Hj. rewrite (i_pcbs _ _ Hi1) in Hj. cbn in E. unfold DNS_MAX_SOURCE_PORTS in *. lia.
Qed.

Lemma free_packet_spec d p : holds (let* n := free custom_free (stack d) p in Ok (with_stack n d)) (left_alone d).
Proof. eapply holds_call; [by apply free_keeps with (K := udp)|]. intros n E. by apply left_alone_udp. Qed.

Lemma recv_ok d p addr : dns_ok d -> holds (dns_recv custom_free found_fn d p addr) dns_ok.
Proof.
  intros Hd. assert (Hfree : holds (let* n := free custom_free (stack d) p in Ok (with_stack n d)) dns_ok).
  { eapply holds_weaken; [apply free_packet_spec|]. intros d'. by apply inv_left_alone. }
  unfold dns_recv. apply holds_skip. intros b. destruct (_ <? _); [done|]. apply holds_skip. intros [c hdr]. destruct (negb _); [done|].
  set (f := fun e => dstate_eqb (d_state e) DNS_STATE_ASKING && _).
  destruct (find_index_spec f (table d) 0) as [E|(i & e & E & He & Hf)]; [lia| |]; rewrite E; clear E.
  { rewrite (i_table _ _ Hd), Z.add_0_l, Z.leb_refl. done. }
  rewrite Z.add_0_l. assert (Hl := lookup_lt_Some _ _ _ He). rewrite (i_table _ _ Hd) in Hl.
  rewrite (proj2 (Z.leb_gt _ _)) by lia. unfold entry_at at 1. rewrite (nth_at_nat _ _ _ He). cbn [res_bind].
  assert (Ha : asking e) by (unfold f in Hf; apply andb_true_iff in Hf as [Hf _]; by apply bool_decide_eq_true in Hf).
  destruct (check_response d e p addr hdr) as [r|] eqn:Er; [|done]. cbn [res_bind]. destruct r as [[|ttl a|]|]; [done| | |done].
  - apply check_response_ttl in Er. apply holds_upd_entry. intros k e1 Ek He1. apply Nat2Z.inj in Ek as <-. replace e1 with e in * by congruence.
    pose proof (i_waiting _ _ Hd i e He (fun E => ltac:(done)) Ha) as [w1 w2 w3 w4].
    destruct (waiting_again i d e (set_d_ipaddr a e)) as (Hi & Hw & He'); try done.
    assert (Hok : dns_ok (put_entry d i (set_d_ipaddr a e))) by (apply (inv_settle i _ _ Hi He'); by left).
    eapply holds_call; [apply free_packet_spec|]. intros d1 Hd1.
    apply (correct_response_ok i d1 (set_d_ipaddr a e)); [by eapply inv_left_alone| |done|done].
    destruct Hd1 as (E1 & _). by rewrite E1.
  - eapply holds_call; [apply free_packet_spec|]. intros d1 Hd1. pose proof (inv_left_alone _ _ _ Hd Hd1) as Hok1. destruct Hd1 as (E1 & _).
    assert (He1 : table d1 !! i = Some e) by (by rewrite E1). pose proof (inv_busy i _ Hok1) as Hi1.
    eapply holds_call; [apply (call_found_spec i d1 e false Hi1 He1); exact (w_pcb _ _ (i_waiting _ _ Hok1 i e He1 (fun E => ltac:(done)) Ha))|].
    intros d2 Hd2. eapply holds_weaken; [by apply (released_unused i d1)|]. by intros d3 (? & _).
Qed.

(** ** Source ports *)

Lemma random_port_spec fuel : forall d ret u,
  udp_ok (udp (stack d)) -> udp_heap (udp (stack d)) !! ret = Some u ->
  holds (random_port_loop rand fuel d ret) (fun r =>
    exists seed port, r.1 = ERR_OK /\ dns r.2 = set_dns_seed seed (dns d) /\ port <> 0 /\ udp_ok (udp (stack r.2))
    /\ udp_heap (udp (stack r.2)) = <[ret := with_local IPADDR_ANY port u]> (udp_heap (udp (stack d)))).
Proof.
  induction fuel as [|fuel IH]; intros d ret u Hok Hu; cbn [random_port_loop]; [done|]. unfold DNS_RAND_TXID.
  destruct (rand (dns_seed (dns d))) as [v seed]. cbn [upd_dns with_dns stack dns].
  destruct (DNS_PORT_ALLOWED (u16 v)) eqn:Ep; cbn [negb].
  2: { eapply holds_weaken; [by apply (IH _ ret u)|]. cbv beta. intros r (sd & port & E1 & E2 & E3). exists sd, port.
  split_and!; [done| |apply E3..]. by rewrite E2. }
  unfold DNS_PORT_ALLOWED in Ep.
  destruct (udp_bind_spec (udp (stack d)) ret (Some IPADDR_ANY) (u16 v) u Hok Hu (u16_range v)) as (err & g & E & Hg & Hc). rewrite E. cbn [res_bind].
  destruct Hc as [(-> & _ & port' & Eh & Hp)|(-> & Eh & _)].
  - rewrite bool_decide_eq_false_2 by done. cbn [holds fst snd]. exists seed, port'. rewrite (proj2 (Z.eqb_neq _ _)) in Hp by lia.
    split_and!; try done. lia.
  - rewrite bool_decide_eq_true_2 by done. eapply holds_weaken; [apply (IH _ ret u); [done|by cbn; rewrite Eh]|]. cbv beta.
    intros r (sd & port & E1 & E2 & E3 & E4 & E5). exists sd, port. split_and!; [done|by rewrite E2|done|done|]. rewrite E5. cbn. by rewrite Eh.
Qed.

(** A new source port: the pcb is not one that existed before. *)
Lemma alloc_port_spec d :
  udp_ok (udp (stack d)) ->
  holds (dns_alloc_random_port rand rand_fuel d) (fun r =>
    (exists seed, dns r.2 = set_dns_seed seed (dns d)) /\ udp_ok (udp (stack r.2)) /\ (forall pcb, own_pcb d pcb -> own_pcb r.2 pcb)
    /\ (r.1 <> NULL -> own_pcb r.2 r.1 /\ ~ own_pcb d r.1)).
Proof.
  intros Hok. unfold dns_alloc_random_port, udp_new_ip_type. pose proof (udp_new_ok _ Hok) as Hok1.
  assert (Hself : exists seed, dns d = set_dns_seed seed (dns d)) by (exists (dns_seed (dns d)); by destruct (dns d)).
  unfold udp_new in *. destruct (udp_pool (udp (stack d))) as [|ret pool] eqn:Epool.
  { cbn [snd fst] in *. cbn [Z.eqb]. cbn [holds fst snd]. split_and!; done. }
  cbn [snd] in Hok1. destruct (ok_null _ Hok) as [_ Hnn]. destruct (ok_pool _ Hok) as [_ Hpool]. rewrite Epool in Hnn, Hpool.
  assert (Hne : ret <> NULL) by (intros ->; apply Hnn; left). assert (Hfree : udp_heap (udp (stack d)) !! ret = None) by (apply Hpool; left).
  rewrite (proj2 (Z.eqb_neq _ _) Hne). set (g1 := mk_udp_globals _ _ _ _) in *. set (u0 := mk_udp _ _ _ _ _ _ _ _ _ _ _ _ _ _) in *.
  eapply holds_call; [apply (random_port_spec _ _ ret u0); [done|by apply lookup_insert_eq]|]. cbv beta.
  intros [err d1] (seed & port & E1 & E2 & Hp & Hok2 & Eh). cbn [fst snd] in *. subst err. rewrite bool_decide_eq_true_2 by done. cbn [negb].
  unfold udp_recv, deref. rewrite Eh, lookup_insert_eq. cbn [res_bind holds fst snd].
  assert (Heap : forall q, q <> ret -> udp_heap (udp (stack d1)) !! q = udp_heap (udp (stack d)) !! q).
  { intros q N. rewrite Eh. cbn. by rewrite !lookup_insert_ne. }
  split_and!.
  - exists seed. exact E2.
  - cbn. eapply (udp_ok_same _ ret); [done|by rewrite Eh, lookup_insert_eq|done|done].
  - intros q (u & Hu & R & L). assert (N : q <> ret) by (intros ->; congruence). exists u. cbn. by rewrite lookup_insert_ne, Heap.
  - intros _. split; [|intros (u & Hu & _); congruence]. eexists. cbn. rewrite lookup_insert_eq. split; [done|]. by cbn.
Qed.

(** The parts of the client that the invariant is about. *)
Definition same_client d d' : Prop :=
  table d' = table d /\ reqs d' = reqs d /\ pcbs d' = pcbs d /\ dns_servers (dns d') = dns_servers (dns d)
  /\ udp_ok (udp (stack d')) /\ (forall pcb, own_pcb d pcb -> own_pcb d' pcb).

Lemma inv_same b d d' : dns_inv b d -> same_client d d' -> dns_inv b d'.
Proof. intros [] (E1 & E2 & E3 & E4 & Hu & Ho). split; rewrite ?E1, ?E2, ?E3, ?E4; eauto. Qed.

(** The entry [i] is given the source port [idx]. *)
Definition port_given (i : nat) (e : dns_table_entry) d (r : Z * dnet A W) : Prop :=
  table r.2 = table d /\ reqs r.2 = reqs d /\ dns_servers (dns r.2) = dns_servers (dns d)
  /\ dns_inv (Some i) (put_entry r.2 i (set_d_pcb_idx r.1 e))
  /\ (r.1 = DNS_MAX_SOURCE_PORTS \/ exists j pcb, r.1 = Z.of_nat j /\ (j < 4)%nat /\ pcbs r.2 !! j = Some pcb /\ pcb <> NULL).

(** The entry does not hold a source port alone. *)
Definition no_port (i : nat) (e : dns_table_entry) d : Prop :=
  forall j pcb, pcbs d !! j = Some pcb -> pcb <> NULL -> d_pcb_idx e = Z.of_nat j ->
  exists k f, k <> i /\ table d !! k = Some f /\ asking f /\ d_pcb_idx f = Z.of_nat j.

Lemma inv_give i d e idx :
  dns_inv (Some i) d -> table d !! i = Some e -> ~ asking e -> no_port i e d -> dns_inv (Some i) (put_entry d i (set_d_pcb_idx idx e)).
Proof.
  intros Hd He Na Hp. apply (inv_put_busy i d e); [done|done|exact (i_names _ _ Hd i e He)| |by intros ?].
  intros j pcb Hj Hne E. right. by eapply Hp.
Qed.

Lemma reuse_loop_spec i e k : forall d idx,
  dns_inv (Some i) d -> table d !! i = Some e -> ~ asking e -> no_port i e d -> holds (reuse_loop k d idx) (port_given i e d).
Proof.
  induction k as [|k IH]; intros d idx Hd He Na Hp; cbn [reuse_loop].
  - cbn [holds]. split_and!; try done; [by apply inv_give|by left].
  - apply holds_nth. intros j pcb Ej Hj. destruct (Z.eqb_spec pcb NULL) as [->|N]; cbn [negb]; [by apply IH|]. cbn [holds].
    split_and!; try done; cbn [fst snd].
    + apply (inv_give i (upd_dns d (set_dns_last_pcb_idx _)) e); try done. eapply inv_same; [exact Hd|]. split_and!; try done.
      by apply (i_udp _ _ Hd).
    + right. exists j, pcb. split_and!; try done. apply lookup_lt_Some in Hj. rewrite (i_pcbs _ _ Hd) in Hj. exact Hj.
Qed.

(** A new pcb in a free place. *)
Lemma inv_new_pcb i d d1 e j pcb :
  dns_inv (Some i) d -> table d !! i = Some e -> ~ asking e -> no_port i e d -> same_client d d1 ->
  pcbs d !! j = Some NULL -> own_pcb d1 pcb -> ~ own_pcb d pcb ->
  dns_inv (Some i) (put_entry (put_pcb d1 j pcb) i (set_d_pcb_idx (Z.of_nat j) e)).
Proof.
  intros [] He Na Hp (E1 & E2 & E3 & E4 & Hu & Ho) Hj Hown Hnew. assert (Hjl : (j < length (pcbs d))%nat) by (by eapply lookup_lt_Some).
  assert (Hil : (i < length (table d))%nat) by (by eapply lookup_lt_Some).
  split; cbn [put_pcb put_entry upd_dns with_dns dns set_dns_pcbs set_dns_table dns_table dns_requests dns_pcbs dns_servers stack]; rewrite ?E1, ?E2,
    ?E3, ?E4; try done.
  - by rewrite length_insert.
  - by rewrite length_insert.
  - intros k f [(-> & -> & _)|[N E]]%lookup_put; [exact (i_names0 i e He)|eauto].
  - intros k f [(-> & -> & _)|[N E]]%lookup_put Hb Ha; [done|]. pose proof (i_waiting0 k f E Hb Ha) as [w1 w2 w3 (j' & pcb' & F1 & F2 & F3)].
    split; try done. exists j', pcb'. split_and!; [done| |done]. rewrite list_lookup_insert_ne; [done|]. intros <-. congruence.
  - intros k f [(-> & -> & _)|[N E]]%lookup_put Hb Ha; [done|]. by eapply i_done0.
  - intros k f [(-> & -> & _)|[N E]]%lookup_put Hb; [done|]. by eapply i_new0.
  - intros k k' f f' [(-> & -> & _)|[N E]]%lookup_put [(-> & -> & _)|[N' E']]%lookup_put Ha Ha'; [done..|]. by eapply i_txids0.
  - intros k r Hk Hf. destruct (i_requests0 k r Hk Hf) as (i' & f & F1 & F2 & F3). destruct (decide (i' = i)) as [->|N].
    + exists i, (set_d_pcb_idx (Z.of_nat j) e). split_and!; [done|by apply list_lookup_insert_eq|by right].
    + exists i', f. split_and!; [done|by rewrite list_lookup_insert_ne|done].
  - intros k q [(-> & -> & _)|[N E]]%lookup_put Hq.
    + exists i, (set_d_pcb_idx (Z.of_nat j) e). split_and!; [by apply list_lookup_insert_eq|done|by right].
    + destruct (i_used0 k q E Hq) as (i' & f & F1 & F2 & F3). destruct (decide (i' = i)) as [->|N'].
      * replace f with e in * by congruence. destruct (Hp k q E Hq F2) as (k' & g & G1 & G2 & G3 & G4).
        exists k', g. split_and!; [by rewrite list_lookup_insert_ne|done|by left].
      * exists i', f. split_and!; [by rewrite list_lookup_insert_ne|done|done].
  - intros k q [(-> & -> & _)|[N E]]%lookup_put Hq; [done|]. apply Ho. eauto.
  - intros k k' q [(-> & -> & _)|[N E]]%lookup_put [(-> & E' & _)|[N' E']]%lookup_put Hq; [done|..].
    + destruct Hnew. eauto.
    + subst q. destruct Hnew. eauto.
    + by eapply i_distinct0.
Qed.

Lemma alloc_pcb_spec i d e :
  dns_inv (Some i) d -> table d !! i = Some e -> ~ asking e -> no_port i e d -> holds (dns_alloc_pcb rand rand_fuel d) (port_given i e d).
Proof.
  intros Hd He Na Hp. unfold dns_alloc_pcb.
  assert (Hre : forall d1 idx, same_client d d1 -> holds (reuse_loop (Z.to_nat DNS_MAX_SOURCE_PORTS) d1 idx) (port_given i e d)).
  { intros d1 idx Hs. pose proof (inv_same _ _ _ Hd Hs) as Hd1. destruct Hs as (E1 & E2 & E3 & E4 & _).
    eapply holds_weaken; [apply (reuse_loop_spec i e); [done|by rewrite E1|done|]|].
    - unfold no_port. by rewrite E1, E3.
    - intros r (R1 & R2 & R3 & R4). split_and!; [congruence..|apply R4|apply R4]. }
  assert (Hself : same_client d d) by (split_and!; try done; by apply (i_udp _ _ Hd)).
  destruct (find_index_spec (fun pcb => pcb =? NULL) (pcbs d) 0) as [E|(j & pcb & E & Hj & Hn)]; [lia| |]; rewrite E; clear E.
  { rewrite (i_pcbs _ _ Hd). cbn [Z.add Z.of_nat Z.ltb]. cbn. by apply Hre. }
  apply Z.eqb_eq in Hn as ->. rewrite Z.add_0_l. assert (Hjl := lookup_lt_Some _ _ _ Hj). rewrite (i_pcbs _ _ Hd) in Hjl.
  unfold DNS_MAX_SOURCE_PORTS in Hjl. rewrite (proj2 (Z.ltb_lt _ _)) by (unfold DNS_MAX_SOURCE_PORTS; lia). apply holds_assoc.
  eapply holds_call; [apply alloc_port_spec; by apply (i_udp _ _ Hd)|]. cbv beta. intros [pcb d1] ([seed Es] & Hu & Ho & Hnew). cbn [fst snd] in *.
  assert (Hs : same_client d d1) by (split_and!; try done; by rewrite Es).
  rewrite Nat2Z.id. destruct (Z.eqb_spec pcb NULL) as [->|Hne]; cbn [negb res_bind].
  - apply Hre. destruct Hs as (E1 & E2 & E3 & E4 & E5). split_and!; try done. cbn. by rewrite E3, list_insert_id.
  - destruct (Hnew Hne) as [H1 H2]. cbn [holds]. destruct Hs as (E1 & E2 & E3 & E4 & E5).
    split_and!; try done; cbn [fst snd].
    + eapply (inv_same _ (put_entry (put_pcb d1 j pcb) i (set_d_pcb_idx (Z.of_nat j) e))); [|by split_and!].
      by apply (inv_new_pcb i d d1 e j pcb).
    + right. exists j, pcb. split_and!; [done|lia| |done]. cbn. rewrite E3. apply list_lookup_insert_eq. by eapply lookup_lt_Some.
Qed.

(** ** Requests *)

Lemma inv_put_req b d k r :
  dns_inv b d ->
  (q_found r <> NULL -> exists i e, q_idx r = Z.of_nat i /\ table d !! i = Some e /\ (asking e \/ Some i = b)) ->
  dns_inv b (put_req d k r).
Proof.
  intros [] Hr. split; try done; cbn.
  - by rewrite length_insert.
  - intros k' r' [(-> & -> & _)|[N E]]%lookup_put; eauto.
Qed.

Lemma duplicate_spec name r l : forall i x,
  duplicate_loop name l (Z.of_nat i) r = Some x -> exists k e, x = (Z.of_nat (i + k), r) /\ l !! k = Some e /\ asking e.
Proof.
  induction l as [|e l IH]; intros i x; cbn [duplicate_loop]; [done|]. destruct (_ && _) eqn:C.
  - intros [= <-]. exists 0%nat, e. rewrite !andb_true_iff in C. destruct C as [[C _] _]. apply bool_decide_eq_true in C. rewrite Nat.add_0_r. done.
  - replace (Z.of_nat i + 1) with (Z.of_nat (S i)) by lia. intros (k & f & -> & Hk & Hf)%IH. exists (S k), f. split_and!; try done. do 2 f_equal. lia.
Qed.

(** Neither index is that of an entry that waits. *)
Definition free_index (l : list dns_table_entry) (x : Z) : Prop :=
  Z.of_nat (length l) <= x \/ exists k e, x = Z.of_nat k /\ l !! k = Some e /\ ~ asking e.

Lemma oldest_spec seqno l : forall pre lseq lseqi,
  free_index (pre ++ l) lseqi ->
  free_index (pre ++ l) (fst (oldest_loop seqno l (Z.of_nat (length pre)) lseq lseqi))
  /\ free_index (pre ++ l) (snd (oldest_loop seqno l (Z.of_nat (length pre)) lseq lseqi)).
Proof.
  induction l as [|e l IH]; intros pre lseq lseqi Hx; cbn [oldest_loop].
  - split; [|done]. left. rewrite app_nil_r. cbn. lia.
  - assert (He : (pre ++ e :: l) !! length pre = Some e) by (by apply list_lookup_middle).
    replace (Z.of_nat (length pre) + 1) with (Z.of_nat (length (pre ++ [e]))) by (rewrite length_app; cbn; lia).
    replace (pre ++ e :: l) with ((pre ++ [e]) ++ l) in * by (by rewrite <- app_assoc).
    destruct (d_state e) eqn:Es; [|by apply IH..|].
    + split; [|done]. right. exists (length pre), e. unfold asking. split_and!; [done..|congruence].
    + destruct (lseq <? _); [|by apply IH]. apply IH. right. exists (length pre), e. unfold asking. split_and!; [done..|congruence].
Qed.

Lemma copy_name_ok name e : (length name < 256)%nat -> name_ok e -> name_ok (set_d_name (copy_name name (d_name e)) e).
Proof.
  unfold name_ok, copy_name. change (Z.to_nat DNS_MAX_NAME_LENGTH) with 256%nat. intros Hl [Hn _]. cbn [set_d_name d_name]. split.
  - rewrite !length_app, length_drop, Hn. cbn. lia.
  - apply elem_of_app. right. left.
Qed.

(** No request and no source port belongs to an entry that does not wait. *)
Lemma idle_entry i d e : dns_ok d -> table d !! i = Some e -> ~ asking e ->
  (forall k r, reqs d !! k = Some r -> q_found r <> NULL -> q_idx r <> Z.of_nat i)
  /\ (forall j pcb, pcbs d !! j = Some pcb -> pcb <> NULL ->
        exists k f, k <> i /\ table d !! k = Some f /\ asking f /\ d_pcb_idx f = Z.of_nat j).
Proof.
  intros Hd He Na. split.
  - intros k r Hk Hf E. destruct (i_requests _ _ Hd k r Hk Hf) as (i' & f & E1 & E2 & [E3|]); [|done].
    apply Na. replace i' with i in * by (apply Nat2Z.inj; congruence). congruence.
  - intros j pcb Hj Hne. destruct (i_used _ _ Hd j pcb Hj Hne) as (k & f & E1 & E2 & [E3|]); [|done].
    exists k, f. split_and!; try done. intros ->. congruence.
Qed.

Local Abbreviation enqueue := (dns_enqueue stale_flags custom_free callback_ok netif_output rand found_fn rand_fuel).

Lemma enqueue_new_spec i r d e name found arg :
  dns_ok d -> table d !! i = Some e -> ~ asking e -> (length name < 256)%nat -> 
  holds (let* d := upd_entry d (Z.of_nat i) (fun e =>
           set_d_name (copy_name name (d_name e)) (set_d_seqno (dns_seqno (dns d)) (set_d_state DNS_STATE_NEW e))) in
         let* d := upd_req d r (fun _ => mk_dreq found arg (Z.of_nat i)) in
         let* (pcb_idx, d) := dns_alloc_pcb rand rand_fuel d in
         let* d := upd_entry d (Z.of_nat i) (set_d_pcb_idx pcb_idx) in
         if DNS_MAX_SOURCE_PORTS <=? pcb_idx then
           let* d := upd_entry d (Z.of_nat i) (set_d_state DNS_STATE_UNUSED) in
           let* d := upd_req d r (fun q => mk_dreq NULL (q_arg q) (q_idx q)) in
           Ok (ERR_MEM, d)
         else
           let d := upd_dns d (fun g => set_dns_seqno (u8 (dns_seqno g + 1)) g) in
           let* d := check_entry d (Z.of_nat i) in
           Ok (ERR_INPROGRESS, d)) (fun x => dns_ok (snd x)).
Proof.
  intros Hd He Na Hlen. destruct (idle_entry i d e Hd He Na) as [Hreq Hport]. assert (Hl : (i < length (table d))%nat) by (by eapply lookup_lt_Some).
  apply holds_upd_entry. intros k e0 Ek He0. apply Nat2Z.inj in Ek as <-. replace e0 with e in * by congruence.
  set (e1 := set_d_name _ _). assert (Na1 : ~ asking e1) by done.
  assert (H1i : dns_inv (Some i) (put_entry d i e1)).
  { apply (inv_put_busy i d e); [by apply inv_busy|done|apply (copy_name_ok name e); [done|exact (i_names _ _ Hd i e He)]|by left|done]. }
  assert (He1 : table (put_entry d i e1) !! i = Some e1) by (by apply list_lookup_insert_eq).
  apply holds_upd_req. intros kr r0 Ekr Hr0. set (d2 := put_req (put_entry d i e1) kr (mk_dreq found arg (Z.of_nat i))).
  assert (H2i : dns_inv (Some i) d2) by (apply inv_put_req; [done|]; intros _; exists i, e1; auto).
  assert (Hnp : no_port i e1 d2).
  { intros j pcb Hj Hne _. destruct (Hport j pcb Hj Hne) as (k & f & G1 & G2 & G3 & G4). exists k, f. split_and!; try done.
    cbn. by rewrite list_lookup_insert_ne. }
  eapply holds_call; [by apply (alloc_pcb_spec i d2 e1)|]. intros [idx d3] (T3 & R3 & S3 & I3 & P3). cbn [fst snd] in *.
  assert (He3 : table d3 !! i = Some e1) by (by rewrite T3).
  apply holds_upd_entry. intros k e4 Ek He4. apply Nat2Z.inj in Ek as <-. replace e4 with e1 in * by congruence.
  set (e4' := set_d_pcb_idx idx e1) in *. assert (He4' : table (put_entry d3 i e4') !! i = Some e4') by (apply list_lookup_insert_eq; by eapply
    lookup_lt_Some).
  destruct (Z.leb_spec DNS_MAX_SOURCE_PORTS idx) as [Hge|Hlt].
  - destruct P3 as [->|(j & pcb & -> & Hj & _)]; [|unfold DNS_MAX_SOURCE_PORTS in Hge; lia].
    apply holds_upd_entry. intros k e5 Ek He5. apply Nat2Z.inj in Ek as <-. replace e5 with e4' in * by congruence.
    set (e5' := set_d_state DNS_STATE_UNUSED e4'). assert (H5i : dns_inv (Some i) (put_entry (put_entry d3 i e4') i e5')).
    { apply (inv_put_busy i _ e4'); [done|done|exact (i_names _ _ I3 i e4' He4')|by left|done]. }
    apply holds_upd_req. intros k q Ek Hq. assert (k = kr) as -> by (apply Nat2Z.inj; congruence). cbn [holds snd].
    assert (H6i : dns_inv (Some i) (put_req (put_entry (put_entry d3 i e4') i e5') kr (mk_dreq NULL (q_arg q) (q_idx q)))) by (by apply inv_put_req).
    apply (inv_settle i _ e5' H6i).
    + cbn. rewrite list_insert_insert_eq. apply list_lookup_insert_eq. by eapply lookup_lt_Some.
    + right. split_and!; [by left| |].
      * cbn. rewrite R3. cbn. intros k rr [(-> & -> & _)|[N E]]%lookup_put Hf; [done|]. rewrite list_lookup_insert_ne in E by done. eauto.
      * intros j pcb Hj _ E. exfalso. apply lookup_lt_Some in Hj. rewrite (i_pcbs _ _ H6i) in Hj. cbn in E. unfold DNS_MAX_SOURCE_PORTS in *. lia.
  - destruct P3 as [->|(j & pcb & Ej & Hj & Hpj & Hpn)]; [lia|].
    set (d5 := upd_dns _ _). assert (H5i : dns_inv (Some i) d5) by (eapply inv_same; [exact I3|]; split_and!; try done; by apply (i_udp _ _ I3)).
    eapply holds_call; [apply (check_new_spec i d5 e4' H5i He4'); [done|by exists j, pcb]|]. intros d6 (Hok & _). done.
Qed.

Lemma enqueue_ok d name found arg : dns_ok d -> (length name < 256)%nat -> holds (enqueue d name found arg) (fun x => dns_ok (snd x)).
Proof.
  intros Hd Hlen. unfold dns_enqueue. set (r := find_index _ _ _). destruct (duplicate_loop name (table d) 0 r) as [[i r']|] eqn:Ed.
  - apply (duplicate_spec name r (table d) 0) in Ed as (k & e & Ex & He & Ha). injection Ex as -> ->. cbn [Nat.add].
    apply holds_upd_req. intros kr r0 _ _. cbn [holds snd]. apply inv_put_req; [done|]. intros _. exists k, e. auto.
  - destruct (oldest_spec (dns_seqno (dns d)) (table d) [] 0 (Z.of_nat DNS_TABLE_SIZE)) as [F1 F2]; [left; cbn [app]; by rewrite (i_table _ _ Hd)|].
    cbn [app length] in F1, F2. change (Z.of_nat 0) with 0 in F1, F2. destruct (oldest_loop _ _ _ _ _) as [i lseqi]. cbn [fst snd] in F1, F2.
    set (x := if i =? Z.of_nat DNS_TABLE_SIZE then lseqi else i). assert (F : free_index (table d) x) by (unfold x; by destruct (_ =? _)).
    clearbody x.
    destruct (Z.leb_spec (Z.of_nat DNS_TABLE_SIZE) x) as [|Hx]; [done|]. destruct (_ <=? r); [done|].
    destruct F as [F|(k & e & -> & He & Na)]; [rewrite (i_table _ _ Hd) in F; lia|].
    rewrite take_ge by (change (Z.to_nat (DNS_MAX_NAME_LENGTH - 1)) with 255%nat; lia). by apply (enqueue_new_spec k r d e).
Qed.

Lemma gethostbyname_ok d hostname addr found arg :
  dns_ok d -> holds (dns_gethostbyname stale_flags custom_free callback_ok netif_output rand found_fn rand_fuel d hostname addr found arg) (fun x =>
      dns_ok (snd x)).
Proof.
  intros Hd. unfold dns_gethostbyname, dns_gethostbyname_addrtype. destruct hostname as [name|]; [|done]. destruct (negb addr || _); [done|].
  destruct (Z.leb_spec DNS_MAX_NAME_LENGTH (Z.of_nat (length name))) as [|Hl]; [done|]. apply holds_skip. intros [ip|]; [done|].
  destruct (dns_lookup d name); [done|]. apply holds_skip. intros sv. destruct (ip4_addr_isany_val sv); [done|].
  eapply holds_call; [apply enqueue_ok; [done|unfold DNS_MAX_NAME_LENGTH in Hl; lia]|]. by intros [err d'].
Qed.

(** ** Runs *)

Local Abbreviation gethostbyname := (dns_gethostbyname stale_flags custom_free callback_ok netif_output rand found_fn rand_fuel).

(** The calls of the client, and what the rest of the system does in between: it may draw
    random numbers, and do what leaves the client alone. *)
Inductive dns_step d : dnet A W -> Prop :=
| step_init : dns_step d (dns_init d)
| step_setserver numdns dnsserver : dns_step d (dns_setserver d numdns dnsserver)
| step_gethostbyname hostname addr found arg err ip d' :
    gethostbyname d hostname addr found arg = Ok (err, ip, d') -> dns_step d d'
| step_tmr d' : tmr d = Ok d' -> dns_step d d'
| step_recv p addr d' : dns_recv custom_free found_fn d p addr = Ok d' -> dns_step d d'
| step_rand seed : dns_step d (upd_dns d (set_dns_seed seed))
| step_rest d' : left_alone d d' -> dns_step d d'.

Lemma dns_step_ok d d' : dns_ok d -> dns_step d d' -> dns_ok d'.
Proof.
  intros Hd [|k a|h a f arg err ip d1 E|d1 E|p a d1 E|seed|d1 E].
  - by apply setserver_ok.
  - by apply setserver_ok.
  - exact (holds_ok _ _ _ (gethostbyname_ok d h a f arg Hd) E).
  - destruct (holds_ok _ _ _ (dns_tmr_spec d Hd) E) as (Hok & _). done.
  - exact (holds_ok _ _ _ (recv_ok d p a Hd) E).
  - by apply inv_seed.
  - by eapply inv_left_alone.
Qed.

Lemma dns_start_ok seed (n : net A W) : udp_ok (udp n) -> dns_ok (mk_dnet (dns_start seed) n).
Proof.
  intros Hu. assert (Ht : forall i e, table (mk_dnet (dns_start seed) n) !! i = Some e -> e = dns_entry_zero).
  { intros i e E. by apply lookup_replicate_1 in E as [-> _]. }
  assert (Hp : forall j pcb, pcbs (mk_dnet (dns_start seed) n) !! j = Some pcb -> pcb = NULL).
  { intros j pcb E. by apply lookup_replicate_1 in E as [-> _]. }
  split; try done.
  - intros i e ->%Ht. split; [done|]. left.
  - intros i e ->%Ht. done.
  - intros i e ->%Ht. done.
  - intros i e ->%Ht. done.
  - intros i j e f ->%Ht ->%Ht. done.
  - intros k r E. by apply lookup_replicate_1 in E as [-> _].
  - intros j pcb ->%Hp. done.
  - intros j pcb ->%Hp. done.
  - intros j k pcb ->%Hp. done.
Qed.

Lemma dns_steps_ok d d' : rtc dns_step d d' -> dns_ok d -> dns_ok d'.
Proof. induction 1; eauto using dns_step_ok. Qed.

(** The timer, [k] times. *)
Fixpoint seconds (k : nat) d : res (dnet A W) :=
  match k with O => Ok d | S k' => let* d := tmr d in seconds k' d end.

Lemma seconds_spec k : forall d B,
  dns_ok d -> (forall i e, table d !! i = Some e -> asking e -> patience e <= B) ->
  holds (seconds k d) (fun d' => dns_ok d' /\ forall i e, table d' !! i = Some e -> asking e -> patience e <= B - Z.of_nat k).
Proof.
  induction k as [|k IH]; intros d B Hd HB; cbn [seconds].
  - cbn [holds]. split; [done|]. intros i e He Ha. rewrite Z.sub_0_r. by eapply HB.
  - eapply holds_call; [by apply dns_tmr_spec|]. intros d1 (H1 & _ & _ & Hp). eapply holds_weaken; [apply (IH d1 (B - 1)); [done|]|].
    + intros i e He Ha. destruct (Hp i e) as (e0 & He0 & Ha0 & Hlt); [lia|done|done|]. pose proof (HB i e0 He0 Ha0). lia.
    + cbv beta. intros d2 [H2 Hb]. split; [done|]. intros i e He Ha. specialize (Hb i e He Ha). lia.
Qed.

Lemma patience_bounds l e : waiting l e -> 1 <= patience e <= 14.
Proof.
  intros [Hs Ht Hr _]. unfold patience, DNS_MAX_RETRIES in *.
  assert (Hc : d_retries e = 0 \/ d_retries e = 1 \/ d_retries e = 2 \/ d_retries e = 3) by lia.
  destruct Hc as [E|[E|[E|E]]]; rewrite E in *; destruct (d_server_idx e =? 0); lia.
Qed.

(** C12: However the calls of the DNS client, responses, the timer and other parts of the system
    follow each other, the client stays consistent: the queries that wait for an answer have
    different transaction ids, a server, a number of retries below the limit and an open
    source port; every request of an application belongs to such a query; every source port
    is used by one; cached answers have a time to live; names fit their arrays.  Provided
    ([found_ok], [driver_ok]) that the callbacks of applications do not call the DNS client
    again from within and that the driver leaves the UDP control blocks alone. *)
Theorem dns_client_invariant seed (n : net A W) d :
  udp_ok (udp n) -> rtc dns_step (mk_dnet (dns_start seed) n) d -> dns_ok d.
Proof. intros Hu Hr. eapply dns_steps_ok; [exact Hr|]. by apply dns_start_ok. Qed.

(** C36: No request is forgotten: if 14 calls of the timer return and no response comes, every
    request that was pending in a reachable state has been answered, and no query and no
    source port is left; under the same conditions on callbacks ([found_ok]: they do not ask
    again from within, which could leave a new query behind) and the driver. *)
Theorem dns_requests_answered seed (n : net A W) d :
  udp_ok (udp n) -> rtc dns_step (mk_dnet (dns_start seed) n) d ->
  holds (seconds 14 d) (fun d' =>
    Forall (fun r => q_found r = NULL) (reqs d') /\ Forall (fun e => ~ asking e) (table d') /\ Forall (fun pcb => pcb = NULL) (pcbs d')).
Proof.
  intros Hu Hr. pose proof (dns_steps_ok _ _ Hr (dns_start_ok seed n Hu)) as Hd.
  eapply holds_weaken; [apply (seconds_spec 14 d 14 Hd)|].
  - intros i e He Ha. by apply (patience_bounds _ _ (i_waiting _ _ Hd i e He (fun E => ltac:(done)) Ha)).
  - cbv beta. intros d' [Hd' Hb]. assert (Hn : forall i e, table d' !! i = Some e -> ~ asking e).
    { intros i e He Ha. specialize (Hb i e He Ha). pose proof (patience_bounds _ _ (i_waiting _ _ Hd' i e He (fun E => ltac:(done)) Ha)). lia. }
    split_and!; apply Forall_lookup_2.
    + intros k r Hk. destruct (decide (q_found r = NULL)) as [|Hf]; [done|].
      destruct (i_requests _ _ Hd' k r Hk Hf) as (i & e & _ & He & [Ha|]); [|done].
      by destruct (Hn i e He).
    + exact Hn.
    + intros j pcb Hj. destruct (decide (pcb = NULL)) as [|Hp]; [done|]. destruct (i_used _ _ Hd' j pcb Hj Hp) as (i & e & He & _ & [Ha|]); [|done].
      by destruct (Hn i e He).
Qed.

End Client.
