(* ===== verification/DnsExamples.v ===== *)
(** * The DNS client on concrete messages

    Runs of the client, the witnesses of its theorems, and what goes wrong: names that are
    taken for equal, a read behind the name, and callbacks that call the client again. *)

From S2P Require Import Prelude Def Ip4Addr Mem Memp Pbuf PbufData PbufAlloc TcpData Net Ip4 IpFrame Udp Dns DnsName DnsMsg DnsInv.

Definition dstate : Type := dnet (heap_pools * frag_pool) (list (list Z)).

Definition sf : Z -> Z := fun _ => 0.
Definition cf : Z -> Z -> Pbuf.state (heap_pools * frag_pool) -> res (Pbuf.state (heap_pools * frag_pool)) := frag_custom_free 3.
(** A generator with a long period. *)
Definition rnd (s : Z) : Z * Z := (s * 7 + 1000, s + 1).

(** What a callback was told goes to the log of the driver. *)
Definition note (f : Z) (name : list Z) (a : option Z) (arg : Z) (d : dstate) : dstate :=
  with_stack (with_world (world (stack d) ++ [[f; arg; default 0 a] ++ name]) (stack d)) d.
Definition found0 (f : Z) (d : dstate) (name : list Z) (a : option Z) (arg : Z) : res dstate := Ok (note f name a arg d).

Definition str (x : String.string) : list Z := chars_of_string x.

Section Run.
Variable found : Z -> dstate -> list Z -> option Z -> Z -> res dstate.

Definition ask (name : String.string) (f : Z) (d : dstate) : res dstate :=
  let* (_, _, d) := dns_gethostbyname sf cf true ex_output rnd found 100 d (Some (str name)) true f 60 in Ok d.

(** A message from the server. *)
Definition message (bs : list Z) (d : dstate) : res (Z * dstate) :=
  let* (p, n) := alloc_pbuf sf cf true (stack d) PBUF_RAW (Z.of_nat (length bs)) PBUF_RAM in
  let* b := pbuf_at n p in
  Ok (p, with_stack (with_mem (wr (mem n) (payload b) bs) n) d).
Definition server_says (bs : list Z) (d : dstate) : res dstate :=
  let* (p, d) := message bs d in dns_recv cf found d p DNS_SERVER_ADDRESS.

(** The response to the query of the entry [i]: a question and one address record. *)
Definition response (i : Z) (question : list Z) (addr : list Z) (d : dstate) : res dstate :=
  let* e := entry_at d i in
  server_says (response_hdr (d_txid e) 128 0 1 [0; 0; 0; 0] ++ question ++ query_qry
               ++ rr_bytes (mk_rr [192; 12] 1 1 300 addr)) d.
Definition failure (i : Z) (question : list Z) (d : dstate) : res dstate :=
  let* e := entry_at d i in server_says (response_hdr (d_txid e) 128 3 0 [0; 0; 0; 0] ++ question ++ query_qry) d.

End Run.

Definition d0 : dstate := dns_init (mk_dnet (dns_start 100) (with_udp (mk_udp_globals ∅ [] 49152 [31; 32; 33; 34]) ex_net)).

(** The log, the states of the entries and their source ports, the pending requests. *)
Definition glance (r : res dstate) : option (list (list Z) * list (dns_state * Z) * list (Z * Z)) :=
  match r with
  | Ok d => Some (world (stack d), (fun e => (d_state e, d_pcb_idx e)) <$> dns_table (dns d),
                  (fun q => (q_found q, q_idx q)) <$> dns_requests (dns d))
  | Fault _ => None
  end.
Definition q_ab : list Z := dns_name [str "ab"].

(** ** Runs *)

Definition log (r : res dstate) : option (list (list Z)) := match r with Ok d => Some (world (stack d)) | Fault _ => None end.

(** The last entries of the log. *)
Definition last_calls (k : nat) (r : res dstate) : option (list (list Z)) :=
  (fun l => drop (length l - k) l) <$> log r.

(** A name is asked for, the server answers, and the next request gets the answer from the
    table, in either case of the letters. *)
Definition ab_known : res dstate :=
  let* d := ask found0 "ab.cd" 50 d0 in response found0 0 (dns_name [str "ab"; str "cd"]) [1; 2; 3; 4] d.
Definition ab_again : res (err_t * option Z) :=
  let* d := ab_known in
  let* (err, a, _) := dns_gethostbyname sf cf true ex_output rnd found0 100 d (Some (str "AB.cd")) true 51 60 in Ok (err, a).

Example dns_answer_example : last_calls 1 ab_known = Some [[50; 60; le_val [1; 2; 3; 4]] ++ str "ab.cd"].
Proof. vm_compute. reflexivity. Qed.

Example dns_cache_example : ab_again = Ok (ERR_OK, Some (le_val [1; 2; 3; 4])).
Proof. vm_compute. reflexivity. Qed.

(** Without an answer the request fails at the seventh call of the timer: there is one server. *)
Definition ab_asked : res dstate := ask found0 "ab.cd" 50 d0.
Definition waited (k : nat) : res dstate := let* d := ab_asked in seconds sf cf true ex_output rnd found0 100 k d.

Example dns_timeout_example : last_calls 1 (waited 7) = Some [[50; 60; 0] ++ str "ab.cd"].
Proof. vm_compute. reflexivity. Qed.

(** ** Names that are taken for equal *)

(** The comparison ends with the name in the message: the question for [ab], or for any other
    leading labels, is taken for the question for [ab.cd]. *)
Lemma dns_compare_prefix :
  last_calls 1 (let* d := ab_asked in response found0 0 q_ab [6; 6; 6; 6] d) = Some [[50; 60; le_val [6; 6; 6; 6]] ++ str "ab.cd"].
Proof. vm_compute. reflexivity. Qed.

(** An empty label matches every name: the question 00 00 is taken for the question for any
    name. *)
Lemma dns_compare_empty :
  last_calls 1 (let* d := ab_asked in response found0 0 [0; 0] [6; 6; 6; 6] d) = Some [[50; 60; le_val [6; 6; 6; 6]] ++ str "ab.cd"].
Proof. vm_compute. reflexivity. Qed.

(** The comparison goes on behind the NUL of the name: labels of NULs match the rest of the
    array, and then what lies behind it is read. *)
Definition nul_labels : list Z := (1 :: str "a") ++ (191 :: replicate 191 0) ++ (191 :: replicate 191 0) ++ [0].

Lemma dns_compare_overrun : (let* d := ask found0 "a" 50 d0 in response found0 0 nul_labels [6; 6; 6; 6] d) = Fault FBadAccess.
Proof. vm_compute. reflexivity. Qed.

(** The name of the root is one byte; skipping it takes two, so that the type and class of the
    record are read one byte too late. *)
Definition root_message : res (Z * dstate) := message [0; 0; 1; 0; 1] d0.

Lemma dns_skip_root : (let* (p, d) := root_message in dns_skip_name (packets (stack d)) p 0) = Ok 2.
Proof. vm_compute. reflexivity. Qed.

(** ** Callbacks that call the client *)

(** The callback 77 asks for another name. *)
Definition again (name : String.string) (f : Z) (d : dstate) (nm : list Z) (a : option Z) (arg : Z) : res dstate :=
  let d := note f nm a arg d in if (f =? 77)%Z then ask found0 name 78 d else Ok d.

Definition nm1 (c : String.string) : list Z := dns_name [str c].
Definition addr4 (k : Z) : list Z := [10; 0; 0; k]%Z.

(** Four names are asked for, and all but the first one are answered. *)
Definition busy_table : res dstate :=
  let* d := ask found0 "a" 77 d0 in
  let* d := ask found0 "b" 50 d in
  let* d := ask found0 "c" 50 d in
  let* d := ask found0 "d" 50 d in
  let* d := response found0 1 (nm1 "b") (addr4 2) d in
  let* d := response found0 2 (nm1 "c") (addr4 3) d in
  response found0 3 (nm1 "d") (addr4 4) d.
Definition reused : res dstate := let* d := busy_table in response (again "e") 0 (nm1 "a") (addr4 1) d.

(** The callback for [a] asks for [e]: the oldest entry is the one that was answered just now,
    so that the request for [e] gets the address of [a] at once. *)
Lemma dns_reentrant_wrong_address :
  last_calls 1 reused = Some [[78; 60; le_val (addr4 1)] ++ str "e"].
Proof. vm_compute. reflexivity. Qed.

(** Then the source port of the new query is closed, and the timer uses the pcb at the index
    DNS_MAX_SOURCE_PORTS, behind the array. *)
Lemma dns_reentrant_bad_index : (let* d := reused in dns_tmr sf cf true ex_output rnd found0 100 d) = Fault FBadAccess.
Proof. vm_compute. reflexivity. Qed.

(** A callback that is told of a failure asks for the same name again: the request is added to
    the query that is given up.  It is answered with the address of the next name that gets
    the entry. *)
Definition retried : res dstate :=
  let* d := ask found0 "x" 50 d0 in
  let* d := ask found0 "a" 77 d in
  let* d := response found0 0 (nm1 "x") (addr4 2) d in
  let* d := failure (again "a") 1 (nm1 "a") d in
  let* d := ask found0 "y" 79 d in
  response found0 1 (nm1 "y") (addr4 9) d.

Lemma dns_retry_attached_to_failure :
  last_calls 2 retried = Some [[78; 60; le_val (addr4 9)] ++ str "y"; [79; 60; le_val (addr4 9)] ++ str "y"].
Proof. vm_compute. reflexivity. Qed.

(** ** The theorems on concrete inputs *)

(** A message in two pbufs. *)
Definition msg_pbufs (bs : list Z) : list (Z * pbuf) :=
  let k := Z.of_nat (length bs) in
  [(1000, mk_pbuf 1001 1100 k 15 PBUF_RAM 0 1); (1001, mk_pbuf NULL 2000 (k - 15) (k - 15) PBUF_RAM 0 1)].
Definition msg_state (bs : list Z) : Pbuf.state (heap_pools * frag_pool) :=
  Pbuf.mk_state (list_to_map (msg_pbufs bs)) (wr (wr ∅ 1100 (take 15 bs)) 2000 (drop 15 bs)) ∅ (hp0, ([], ∅)) false 0.

Lemma msg_packet bs : (15 <= length bs <= 1000)%nat -> packet (pbufs (msg_state bs)) 1000 (msg_pbufs bs).
Proof. intros Hl. split_and!; [split_and!; done|split_and!; cbn; lia|cbn; lia]. Qed.

Lemma msg_apart bs : (15 <= length bs <= 1000)%nat -> payloads_apart (msg_pbufs bs).
Proof. intros Hl. repeat constructor; cbn; lia. Qed.

Definition ab_cd : list (list Z) := [str "ab"; str "cd"].
Definition ab_rest : list Z := replicate 250 0.

Lemma ab_cd_ok : labels_ok ab_cd.
Proof. split_and!; [done| |cbn; lia]. repeat constructor; cbn; lia. Qed.

Definition blank : list Z := replicate 23 0.

Lemma dns_question_roundtrip_witness :
  (exists m', fill_query (msg_state blank) 1000 9 (name_array ab_cd ab_rest) = Ok (with_bytes m' (msg_state blank))
     /\ cdata m' (msg_pbufs blank) = query_hdr 9 ++ [2; 97; 98; 2; 99; 100; 0] ++ query_qry)
  /\ dns_compare_name (msg_state (query_hdr 9 ++ dns_name ab_cd ++ query_qry)) (name_array ab_cd ab_rest) 1000 12 = Ok 19.
Proof.
  destruct (dns_question_roundtrip (msg_state blank) 1000 9 (msg_pbufs blank) ab_cd ab_rest ab_cd_ok
    (msg_packet blank ltac:(cbn; lia)) (msg_apart blank ltac:(cbn; lia)) eq_refl) as [(m' & E & Hc & _) Hq]. split.
  - exists m'. split; [exact E|exact Hc].
  - pose (bs := query_hdr 9 ++ dns_name ab_cd ++ query_qry).
    exact (proj1 (Hq (msg_state bs) 1000 (msg_pbufs bs) (query_hdr 9) query_qry (msg_packet bs ltac:(cbn; lia))
      ltac:(vm_compute; repeat constructor; discriminate) ltac:(vm_compute; reflexivity))).
Defined.

(** A response with an alias and a record of another class before the address. *)
Definition ex_records : list rr := [mk_rr [192; 12] 5 1 60 [1; 120; 192; 12]; mk_rr [1; 121; 0] 1 28 300 [1; 2; 3; 4]; mk_rr [1; 120; 192; 12] 1 1 300 [1; 2; 3; 4]].
Definition ex_response : list Z :=
  response_hdr 9 129 128 3 [0; 0; 0; 0] ++ dns_name ab_cd ++ query_qry ++ mjoin (rr_bytes <$> ex_records) ++ [7].
Definition ex_entry : dns_table_entry := mk_dentry 0 0 9 DNS_STATE_ASKING 0 1 0 0 0 (name_array ab_cd ab_rest).
Definition ex_client : dstate := mk_dnet (dns (dns_init d0)) (with_packets (msg_state ex_response) ex_net).

Lemma ex_records_ok : Forall rr_ok ex_records.
Proof.
  apply Forall_cons; split; [|apply Forall_cons; split; [|apply Forall_singleton]];
    (split_and!; [|unfold is_u16, is_u32; cbn; lia..]).
  - exists [], [192; 12]. split_and!; [constructor|done|right]. exists 192, 12. split; [done|lia].
  - exists [[121]], [0]. split_and!; [repeat constructor|done|by left].
  - exists [[120]], [192; 12]. split_and!; [repeat constructor|done|right]. exists 192, 12. split; [done|lia].
Qed.

Lemma dns_response_correct_witness :
  check_response ex_client ex_entry 1000 DNS_SERVER_ADDRESS (response_hdr 9 129 128 3 [0; 0; 0; 0])
  = Ok (Some (Answer 300 (le_val [1; 2; 3; 4]))).
Proof.
  exact (dns_response_correct ex_client ex_entry 1000 DNS_SERVER_ADDRESS 9 129 128 (msg_pbufs ex_response) ab_cd ab_rest
    [0; 0; 0; 0] [7] ex_records eq_refl ab_cd_ok ex_records_ok ltac:(unfold is_u16; cbn; lia) eq_refl
    (msg_packet ex_response ltac:(cbn; lia)) ltac:(vm_compute; repeat constructor; discriminate) eq_refl ltac:(discriminate)
    ltac:(vm_compute; reflexivity)).
Defined.

Lemma dns_answers_terminate_witness : exists r, answer_loop 60 (msg_state ex_response) 1000 65535 20 = Ok r.
Proof.
  exact (proj1 (dns_answers_terminate (msg_state ex_response) 1000 65535 20 (msg_pbufs ex_response) 60
    (msg_packet ex_response ltac:(cbn; lia)) ltac:(vm_compute; repeat constructor; discriminate) ltac:(discriminate)
    ltac:(unfold is_u16; lia))).
Defined.

Lemma ex_output_keeps_udp (n : net (heap_pools * frag_pool) (list (list Z))) nif p dest :
  holds (ex_output n nif p dest) (fun r => udp (snd r) = udp n).
Proof. unfold ex_output. by apply holds_skip. Qed.

Lemma found0_leaves f d name addr arg : holds (found0 f d name addr arg) (left_alone d).
Proof. by apply left_alone_udp. Qed.

Definition start_net : net (heap_pools * frag_pool) (list (list Z)) := with_udp (udp_start [31; 32; 33; 34]) ex_net.

Lemma start_net_ok : udp_ok (udp start_net).
Proof. apply udp_start_ok; by apply (bool_decide_unpack _). Qed.

(** The client starts and is asked for a name. *)
Definition asked_run : res dstate := ask found0 "ab.cd" 50 (dns_init (mk_dnet (dns_start 100) start_net)).

Lemma asked_reached :
  exists d, asked_run = Ok d /\ rtc (dns_step sf cf true ex_output rnd found0 100) (mk_dnet (dns_start 100) start_net) d.
Proof.
  unfold asked_run, ask.
  destruct (dns_gethostbyname sf cf true ex_output rnd found0 100 (dns_init (mk_dnet (dns_start 100) start_net)) (Some (str "ab.cd")) true 50 60)
    as [[[err a] d]|] eqn:E; [|vm_compute in E; discriminate E].
  exists d. split; [done|]. eapply rtc_l; [apply step_init|]. eapply rtc_once, step_gethostbyname, E.
Qed.

Lemma dns_client_invariant_witness : exists d, asked_run = Ok d /\ dns_ok d.
Proof.
  destruct asked_reached as (d & E & Hr). exists d. split; [exact E|].
  exact (dns_client_invariant sf cf true ex_output rnd found0 100 ex_output_keeps_udp found0_leaves 100 start_net d start_net_ok Hr).
Defined.

Lemma dns_requests_answered_witness : exists d d', asked_run = Ok d
  /\ seconds sf cf true ex_output rnd found0 100 14 d = Ok d'
  /\ Forall (fun r => q_found r = NULL) (dns_requests (dns d')).
Proof.
  destruct asked_reached as (d & E & Hr).
  pose proof (dns_requests_answered sf cf true ex_output rnd found0 100 ex_output_keeps_udp found0_leaves 100 start_net d start_net_ok Hr) as H14.
  destruct (seconds sf cf true ex_output rnd found0 100 14 d) as [d'|fl] eqn:E14.
  - exists d, d'. split; [exact E|]. split; [exact E14|exact (proj1 H14)].
  - assert (F : (let* d := asked_run in seconds sf cf true ex_output rnd found0 100 14 d) = Fault fl) by (rewrite E; exact E14).
    vm_compute in F. discriminate F.
Defined.
