(* ===== verification/Netif.v ===== *)
(** * Network interfaces: lwip/src/core/netif.c

    Adding, removing and configuring interfaces, and the packets that loop back.
    LWIP_NETIF_STATUS_CALLBACK and LWIP_NETIF_LINK_CALLBACK are 1,
    LWIP_NETIF_REMOVE_CALLBACK and LWIP_HAVE_LOOPIF are 0.  The tables of the SNMP agent
    are not modelled. *)

From S2P Require Import Prelude Def Ip4Addr InetChksum Pbuf Net Ip4 Igmp Udp Raw.

(** ** Definitions *)

Definition NETIF_FLAG_ETHARP : Z := 8.

(** [struct netif] with other addresses, flags or loop queue. *)
Definition with_addr (ip mask gw : Z) (nf : netif) : netif :=
  mk_netif ip mask gw (netif_flags nf) (netif_hwaddr nf) (netif_mtu nf) (netif_name nf) (netif_num nf)
    (loop_first nf) (loop_last nf) (loop_cnt_current nf).
Definition with_netif_flags (f : Z) (nf : netif) : netif :=
  mk_netif (netif_ip4_addr nf) (netif_ip4_netmask nf) (netif_ip4_gw nf) f (netif_hwaddr nf) (netif_mtu nf)
    (netif_name nf) (netif_num nf) (loop_first nf) (loop_last nf) (loop_cnt_current nf).

Section Netif.
Context {A W : Type} `{AllocOps A} `{FragPool A}.
Variable custom_free : Z -> Z -> Pbuf.state A -> res (Pbuf.state A).
Variable igmp_mac_filter : net A W -> Z -> Z -> bool -> res (net A W).

(** The callbacks of the interfaces that have them. *)
Variable status_callback link_callback : net A W -> Z -> res (net A W).

(** [etharp_gratuitous] and [etharp_cleanup_netif] of etharp.c, which own the ARP table. *)
Variable etharp_gratuitous etharp_cleanup_netif : net A W -> Z -> res (net A W).

(** [tcp_netif_ip_addr_changed] of tcp.c. *)
Variable tcp_netif_ip_addr_changed : net A W -> option Z -> option Z -> res (net A W).

(** [ip_input], that is [ip4_input]. *)
Variable ip_input : net A W -> Z -> Z -> res (err_t * net A W).

(** The initialisation function of the driver. *)
Variable init : net A W -> Z -> res (err_t * net A W).
Implicit Types n : net A W.

(** *** Configuration *)

Definition netif_issue_reports n (nif : Z) (ipv4 : bool) : res (net A W) :=
  let* nf := netif_at n nif in
  if ipv4 && negb (ip4_addr_isany_val (netif_ip4_addr nf)) then
    let* n := if negb (Z.land (netif_flags nf) NETIF_FLAG_ETHARP =? 0) then etharp_gratuitous n nif else Ok n in
    let* nf := netif_at n nif in
    Ok (if igmp_netif nf then igmp_report_groups n nif else n)
  else Ok n.

(** The transport layers learn about a new address. *)
Definition addr_changed n (old_addr new_addr : option Z) : res (net A W) :=
  let* n := tcp_netif_ip_addr_changed n old_addr new_addr in
  let* u := udp_netif_ip_addr_changed (udp n) old_addr new_addr in
  let n := with_udp u n in
  let* r := raw_netif_ip_addr_changed (raw n) old_addr new_addr in
  Ok (with_raw r n).

Definition netif_set_ipaddr n (nif : Z) (ipaddr : option Z) : res (net A W) :=
  let new_addr := default IPADDR_ANY ipaddr in
  let* nf := netif_at n nif in
  if negb (new_addr =? netif_ip4_addr nf) then
    let* n := addr_changed n (Some (netif_ip4_addr nf)) (Some new_addr) in
    let* n := upd_netif n nif (fun nf => with_addr new_addr (netif_ip4_netmask nf) (netif_ip4_gw nf) nf) in
    let* n := netif_issue_reports n nif true in
    status_callback n nif
  else Ok n.

Definition netif_set_gw n (nif : Z) (gw : option Z) : res (net A W) :=
  upd_netif n nif (fun nf => with_addr (netif_ip4_addr nf) (netif_ip4_netmask nf) (default IPADDR_ANY gw) nf).

Definition netif_set_netmask n (nif : Z) (netmask : option Z) : res (net A W) :=
  upd_netif n nif (fun nf => with_addr (netif_ip4_addr nf) (default IPADDR_ANY netmask) (netif_ip4_gw nf) nf).

Definition netif_set_addr n (nif : Z) (ipaddr netmask gw : option Z) : res (net A W) :=
  if ip4_addr_isany_ptr ipaddr then
    let* n := netif_set_ipaddr n nif ipaddr in
    let* n := netif_set_netmask n nif netmask in
    netif_set_gw n nif gw
  else
    let* n := netif_set_netmask n nif netmask in
    let* n := netif_set_gw n nif gw in
    netif_set_ipaddr n nif ipaddr.

Definition netif_set_default n (nif : Z) : net A W := with_netif_default nif n.

Definition netif_set_up n (nif : Z) : res (net A W) :=
  let* nf := netif_at n nif in
  if Z.land (netif_flags nf) NETIF_FLAG_UP =? 0 then
    let* n := upd_netif n nif (fun nf => with_netif_flags (Z.lor (netif_flags nf) NETIF_FLAG_UP) nf) in
    let* n := status_callback n nif in
    let* nf := netif_at n nif in
    if negb (Z.land (netif_flags nf) NETIF_FLAG_LINK_UP =? 0) then netif_issue_reports n nif true else Ok n
  else Ok n.

Definition netif_set_down n (nif : Z) : res (net A W) :=
  let* nf := netif_at n nif in
  if negb (Z.land (netif_flags nf) NETIF_FLAG_UP =? 0) then
    let* n := upd_netif n nif (fun nf => with_netif_flags (Z.land (netif_flags nf) (Z.lnot NETIF_FLAG_UP)) nf) in
    let* n := if negb (Z.land (netif_flags nf) NETIF_FLAG_ETHARP =? 0) then etharp_cleanup_netif n nif else Ok n in
    status_callback n nif
  else Ok n.

Definition netif_set_link_up n (nif : Z) : res (net A W) :=
  let* nf := netif_at n nif in
  if Z.land (netif_flags nf) NETIF_FLAG_LINK_UP =? 0 then
    let* n := upd_netif n nif (fun nf => with_netif_flags (Z.lor (netif_flags nf) NETIF_FLAG_LINK_UP) nf) in
    let* n := if negb (Z.land (netif_flags nf) NETIF_FLAG_UP =? 0) then netif_issue_reports n nif true else Ok n in
    link_callback n nif
  else Ok n.

Definition netif_set_link_down n (nif : Z) : res (net A W) :=
  let* nf := netif_at n nif in
  if negb (Z.land (netif_flags nf) NETIF_FLAG_LINK_UP =? 0) then
    let* n := upd_netif n nif (fun nf => with_netif_flags (Z.land (netif_flags nf) (Z.lnot NETIF_FLAG_LINK_UP)) nf) in
    link_callback n nif
  else Ok n.

(** NULL if the driver could not be initialised; the number is 8 bits wide. *)
Definition netif_add n (nif : Z) (ipaddr netmask gw : option Z) : res (Z * net A W) :=
  let* nf := netif_at n nif in
  let nf := mk_netif IPADDR_ANY IPADDR_ANY IPADDR_ANY 0 (netif_hwaddr nf) (netif_mtu nf) (netif_name nf)
              (netif_counter n) NULL NULL 0 in
  let n := with_netif_counter (u8 (netif_counter n + 1)) (with_netifs (<[nif := nf]> (netifs n)) n) in
  let n := set_groups n nif [] (igmp_pool (igmp n)) in
  let* n := netif_set_addr n nif ipaddr netmask gw in
  let* (err, n) := init n nif in
  if negb (bool_decide (err = ERR_OK)) then Ok (NULL, n)
  else
    let n := with_netif_list (nif :: netif_list n) n in
    let* nf := netif_at n nif in
    let* n := if igmp_netif nf then let* (_, n) := igmp_start igmp_mac_filter n nif in Ok n else Ok n in
    Ok (nif, n).

Definition netif_remove n (nif : Z) : res (net A W) :=
  if nif =? NULL then Ok n
  else
    let* nf := netif_at n nif in
    let* n := if negb (ip4_addr_isany_val (netif_ip4_addr nf)) then addr_changed n (Some (netif_ip4_addr nf)) None
              else Ok n in
    let* n := if igmp_netif nf then let* (_, n) := igmp_stop igmp_mac_filter n nif in Ok n else Ok n in
    let* nf := netif_at n nif in
    let* n := if netif_is_up nf then netif_set_down n nif else Ok n in
    let n := if netif_default n =? nif then netif_set_default n NULL else n in
    Ok (with_netif_list (unlink (netif_list n) nif) n).

(** The interface with the given name and number. *)
Fixpoint find_named n (l : list Z) (c0 c1 num : Z) : res Z :=
  match l with
  | [] => Ok NULL
  | nif :: l' =>
      let* nf := netif_at n nif in
      if (num =? netif_num nf) && (c0 =? nth 0 (netif_name nf) 0) && (c1 =? nth 1 (netif_name nf) 0) then Ok nif
      else find_named n l' c0 c1 num
  end.

(** [name] has at least three characters. *)
Definition netif_find n (name : option (list Z)) : res Z :=
  match name with
  | None => Ok NULL
  | Some s => find_named n (netif_list n) (nth 0 s 0) (nth 1 s 0) (u8 (nth 2 s 0 - 48))
  end.

(** *** Loopback *)

(** The last pbuf of the first packet of the queue, and the number of its pbufs. *)
Fixpoint packet_end (fuel : nat) (h : heap) (in_end clen : Z) : res (Z * Z) :=
  match fuel with
  | O => Fault FFuel
  | S fuel' =>
      let* b := deref h in_end in
      if negb (len b =? tot_len b) then
        assert* negb (next b =? NULL) in
        packet_end fuel' h (next b) (u8 (clen + 1))
      else Ok (in_end, clen)
  end.

(** Take the first packet off the queue. *)
Definition pop_loop n (nif : Z) (nf : netif) : res (Z * net A W) :=
  let p := loop_first nf in
  let* (in_end, clen) := packet_end (walk_fuel (pbufs (packets n))) (pbufs (packets n)) p 1 in
  assert* (loop_cnt_current nf - clen <? loop_cnt_current nf) in
  let cnt := u16 (loop_cnt_current nf - clen) in
  let* b := pbuf_at n in_end in
  let* n :=
    if in_end =? loop_last nf then upd_netif n nif (set_loop NULL NULL cnt)
    else
      assert* negb (next b =? NULL) in
      upd_netif n nif (set_loop (next b) (loop_last nf) cnt) in
  let* s := upd (packets n) in_end (with_next NULL) in
  Ok (p, inc P_link c_recv (with_packets s n)).

(** Every round takes one packet; those that are queued meanwhile are handled too. *)
Fixpoint poll_loop (fuel : nat) n (nif : Z) : res (net A W) :=
  match fuel with
  | O => Fault FFuel
  | S fuel' =>
      let* nf := netif_at n nif in
      if negb (loop_first nf =? NULL) then
        let* (p, n) := pop_loop n nif nf in
        let* (err, n) := ip_input n p nif in
        let* n := if negb (bool_decide (err = ERR_OK)) then free custom_free n p else Ok n in
        poll_loop fuel' n nif
      else Ok n
  end.

Definition netif_poll (fuel : nat) n (nif : Z) : res (net A W) := poll_loop fuel n nif.

End Netif.
