(* ===== verification/TcpBase.v ===== *)
(** * Shared pieces of TCP: lwip/src/include/lwip/prot/tcp.h, priv/tcp_priv.h and helpers of tcp.c

    The TCP header in memory, access to the control blocks, segments, the lists of control
    blocks, the calls of the application, and the maximum segment size.  The application is
    the class [TcpApp]: what its callback functions do. *)

From S2P Require Import Prelude Def Ip4Addr InetChksum Pbuf TcpData Net Ip4.

(** ** Definitions *)

(** *** struct tcp_hdr *)

Definition lwip_ntohl (x : Z) : Z := lwip_htonl x.

Definition tcph_src (m : memory) (hdr : Z) : Z := rd16 m hdr.
Definition tcph_dest (m : memory) (hdr : Z) : Z := rd16 m (hdr + 2).
Definition tcph_seqno (m : memory) (hdr : Z) : Z := rd32 m (hdr + 4).
Definition tcph_ackno (m : memory) (hdr : Z) : Z := rd32 m (hdr + 8).
Definition tcph_hdrlen_rsvd_flags (m : memory) (hdr : Z) : Z := rd16 m (hdr + 12).
Definition tcph_wnd (m : memory) (hdr : Z) : Z := rd16 m (hdr + 14).

Definition set_tcph_src (m : memory) (hdr v : Z) : memory := wr16 m hdr v.
Definition set_tcph_dest (m : memory) (hdr v : Z) : memory := wr16 m (hdr + 2) v.
Definition set_tcph_seqno (m : memory) (hdr v : Z) : memory := wr32 m (hdr + 4) v.
Definition set_tcph_ackno (m : memory) (hdr v : Z) : memory := wr32 m (hdr + 8) v.
Definition set_tcph_wnd (m : memory) (hdr v : Z) : memory := wr16 m (hdr + 14) v.
Definition set_tcph_chksum (m : memory) (hdr v : Z) : memory := wr16 m (hdr + 16) v.
Definition set_tcph_urgp (m : memory) (hdr v : Z) : memory := wr16 m (hdr + 18) v.

Definition TCPH_HDRLEN (m : memory) (hdr : Z) : Z := u16 (Z.shiftr (lwip_ntohs (tcph_hdrlen_rsvd_flags m hdr)) 12).
Definition TCPH_FLAGS (m : memory) (hdr : Z) : Z := u16 (Z.land (lwip_ntohs (tcph_hdrlen_rsvd_flags m hdr)) TCP_FLAGS).
Definition TCPH_FLAGS_SET (m : memory) (hdr flags : Z) : memory :=
  wr16 m (hdr + 12) (Z.lor (Z.land (tcph_hdrlen_rsvd_flags m hdr) (PP_HTONS (Z.lnot TCP_FLAGS))) (lwip_htons flags)).
Definition TCPH_HDRLEN_FLAGS_SET (m : memory) (hdr len flags : Z) : memory :=
  wr16 m (hdr + 12) (lwip_htons (Z.lor (u16 (Z.shiftl len 12)) flags)).
Definition TCPH_SET_FLAG (m : memory) (hdr flags : Z) : memory :=
  wr16 m (hdr + 12) (Z.lor (tcph_hdrlen_rsvd_flags m hdr) (lwip_htons flags)).

Definition TCP_BUILD_MSS_OPTION (mss : Z) : Z := lwip_htonl (Z.lor 33816576 (Z.land mss 65535)).

(** The sequence numbers that a segment takes. *)
Definition TCP_TCPLEN (m : memory) (s : tcp_seg) : Z :=
  seg_len s + (if has (TCPH_FLAGS m (seg_tcphdr s)) (Z.lor TCP_FIN TCP_SYN) then 1 else 0).

(** The sequence number of an outgoing segment, whose header is in network order. *)
Definition seg_seqno (m : memory) (s : tcp_seg) : Z := lwip_ntohl (tcph_seqno m (seg_tcphdr s)).

(** *** The application *)

(** What the function at a given address does: its arguments are [callback_arg] and those
    that the function type of tcp.h names. *)
Class TcpApp (A W : Type) := {
  accept_fn : Z -> net A W -> Z -> Z -> err_t -> res (err_t * net A W);
  recv_fn : Z -> net A W -> Z -> Z -> Z -> err_t -> res (err_t * net A W);
  sent_fn : Z -> net A W -> Z -> Z -> Z -> res (err_t * net A W);
  connected_fn : Z -> net A W -> Z -> Z -> err_t -> res (err_t * net A W);
  poll_fn : Z -> net A W -> Z -> Z -> res (err_t * net A W);
  err_fn : Z -> net A W -> Z -> err_t -> res (net A W)
}.

Section TcpBase.
Context {A W : Type} `{AllocOps A} `{FragPool A}.
Variable custom_free : Z -> Z -> Pbuf.state A -> res (Pbuf.state A).
Implicit Types n : net A W.

(** *** Control blocks *)

(** [pcb->...]. *)
Definition tcp_at n (pcb : Z) : res tcp_pcb := deref (tcp_heap (tcp n)) pcb.
Definition put_tcp n (pcb : Z) (t : tcp_pcb) : net A W :=
  with_tcp (set_tcp_heap (<[pcb := t]> (tcp_heap (tcp n))) (tcp n)) n.
Definition upd_tcp n (pcb : Z) (f : tcp_pcb -> tcp_pcb) : res (net A W) :=
  let* t := tcp_at n pcb in Ok (put_tcp n pcb (f t)).

Definition listen_at n (pcb : Z) : res tcp_pcb_listen := deref (listen_heap (tcp n)) pcb.
Definition put_listen n (pcb : Z) (l : tcp_pcb_listen) : net A W :=
  with_tcp (set_listen_heap (<[pcb := l]> (listen_heap (tcp n))) (tcp n)) n.

(** [pcb->state] of a control block of either kind. *)
Definition tcp_state_of n (pcb : Z) : res tcp_state :=
  match tcp_heap (tcp n) !! pcb with
  | Some t => Ok (t_state t)
  | None => let* _ := listen_at n pcb in Ok LISTEN
  end.

(** [pcb->flags |= f] and [pcb->flags &= ~f]. *)
Definition raise_flag n (pcb f : Z) : res (net A W) := upd_tcp n pcb (fun t => set_flags (add_flag (t_flags t) f) t).
Definition clear_flag n (pcb f : Z) : res (net A W) := upd_tcp n pcb (fun t => set_flags (del_flag (t_flags t) f) t).

Definition tcp_ack_now n (pcb : Z) : res (net A W) := raise_flag n pcb TF_ACK_NOW.

Definition tcp_ack n (pcb : Z) : res (net A W) :=
  let* t := tcp_at n pcb in
  if has (t_flags t) TF_ACK_DELAY
  then Ok (put_tcp n pcb (set_flags (add_flag (del_flag (t_flags t) TF_ACK_DELAY) TF_ACK_NOW) t))
  else Ok (put_tcp n pcb (set_flags (add_flag (t_flags t) TF_ACK_DELAY) t)).

(** The static variables of tcp_in.c. *)
Definition in_of n : tcp_in := tcp_in_vars (tcp n).
Definition upd_in n (f : tcp_in -> tcp_in) : net A W := with_tcp (set_tcp_in_vars (f (in_of n)) (tcp n)) n.

(** *** Segments *)

(** [memp_malloc(MEMP_TCP_SEG)]. *)
Definition seg_malloc n : option (net A W) :=
  match tcp_seg_pool (tcp n) with
  | O => None
  | S k => Some (with_tcp (set_tcp_seg_pool k (tcp n)) n)
  end.

Definition tcp_seg_free n (s : tcp_seg) : res (net A W) :=
  let* n := if negb (seg_p s =? NULL) then free custom_free n (seg_p s) else Ok n in
  Ok (with_tcp (set_tcp_seg_pool (S (tcp_seg_pool (tcp n))) (tcp n)) n).

Fixpoint tcp_segs_free n (l : list tcp_seg) : res (net A W) :=
  match l with
  | [] => Ok n
  | s :: l' => let* n := tcp_seg_free n s in tcp_segs_free n l'
  end.

(** [None] without memory. *)
Definition tcp_seg_copy n (s : tcp_seg) : res (option tcp_seg * net A W) :=
  match seg_malloc n with
  | None => Ok (None, n)
  | Some n => let* p := pbuf_ref (packets n) (seg_p s) in Ok (Some s, with_packets p n)
  end.

(** *** The maximum segment size *)

Definition tcp_eff_send_mss n (sendmss dest : Z) : res (Z * net A W) :=
  let* (outif, n) := ip4_route n dest in
  if outif =? NULL then Ok (sendmss, n)
  else
    let* nf := netif_at n outif in
    let mtu := s16 (netif_mtu nf) in
    if negb (mtu =? 0) then Ok (Z.min sendmss (u16 (mtu - IP_HLEN - TCP_HLEN)), n) else Ok (sendmss, n).

Definition tcp_next_iss n : Z * net A W :=
  let iss := u32 (tcp_iss (tcp n) + tcp_ticks (tcp n)) in
  (iss, with_tcp (set_tcp_iss iss (tcp n)) n).

End TcpBase.
