(* ===== verification/TcpOut.v ===== *)
(** * TCP output: lwip/src/core/tcp_out.c

    Queueing data and flags, sending what the windows allow, retransmission, and the packets
    without a segment: acknowledgements, resets, keepalive and window probes. *)

From S2P Require Import Prelude Def Ip4Addr InetChksum Mem Pbuf TcpData Net Ip4 TcpBase.

(** ** Definitions *)

Definition is_nil {X} (l : list X) : bool := match l with [] => true | _ :: _ => false end.

Definition tcp_do_output_nagle (t : tcp_pcb) : bool :=
  is_nil (t_unacked t) || has (t_flags t) (Z.lor TF_NODELAY TF_INFR)
  || match t_unsent t with
     | [] => false
     | s :: l => negb (is_nil l) || (t_mss t <=? seg_len s)
     end
  || ((t_snd_buf t =? 0) || (TCP_SND_QUEUELEN <=? t_snd_queuelen t)).

(** A segment at its place in a queue sorted by sequence numbers. *)
Fixpoint insert_seg (m : memory) (s : tcp_seg) (l : list tcp_seg) : list tcp_seg :=
  match l with
  | [] => [s]
  | c :: l' => if TCP_SEQ_LT (seg_seqno m c) (seg_seqno m s) then c :: insert_seg m s l' else s :: l
  end.

(** The last segment of a queue replaced. *)
Fixpoint upd_last (f : tcp_seg -> tcp_seg) (l : list tcp_seg) : list tcp_seg :=
  match l with
  | [] => []
  | [s] => [f s]
  | s :: l' => s :: upd_last f l'
  end.

(** [pcb->snd_queuelen != 0] implies that a queue is not empty. *)
Definition queues_valid (t : tcp_pcb) : bool :=
  (t_snd_queuelen t =? 0) || negb (is_nil (t_unacked t)) || negb (is_nil (t_unsent t)).

Section TcpOut.
Context {A W : Type} `{AllocOps A} `{FragPool A}.
Variable stale_flags : Z -> Z.
Variable custom_free : Z -> Z -> Pbuf.state A -> res (Pbuf.state A).
Variable callback_ok : bool.
Variable netif_output : net A W -> Z -> Z -> Z -> res (err_t * net A W).
Implicit Types n : net A W.

(** *** Packets without a segment *)

Definition tcp_output_alloc_header n (pcb optlen datalen seqno_be : Z) : res (Z * net A W) :=
  let* (p, n) := alloc_pbuf stale_flags custom_free callback_ok n PBUF_IP (u16 (TCP_HLEN + optlen + datalen)) PBUF_RAM in
  if p =? NULL then Ok (NULL, n)
  else
    let* b := pbuf_at n p in
    assert* (TCP_HLEN + optlen <=? len b) in
    let* t := tcp_at n pcb in
    let tcphdr := payload b in
    let m := set_tcph_src (mem n) tcphdr (lwip_htons (t_local_port t)) in
    let m := set_tcph_dest m tcphdr (lwip_htons (t_remote_port t)) in
    let m := set_tcph_seqno m tcphdr seqno_be in
    let m := set_tcph_ackno m tcphdr (lwip_htonl (t_rcv_nxt t)) in
    let m := TCPH_HDRLEN_FLAGS_SET m tcphdr (5 + optlen / 4) TCP_ACK in
    let m := set_tcph_wnd m tcphdr (lwip_htons (t_rcv_ann_wnd t)) in
    let m := set_tcph_chksum m tcphdr 0 in
    let m := set_tcph_urgp m tcphdr 0 in
    Ok (p, put_tcp (with_mem m n) pcb (set_rcv_ann_right_edge (u32 (t_rcv_nxt t + t_rcv_ann_wnd t)) t)).

(** Checksum and transmission of the packet [p], whose TCP header starts its payload. *)
Definition checksum_and_send n (p local_ip remote_ip ttl tos nif : Z) : res (err_t * net A W) :=
  let* b := pbuf_at n p in
  let* v := view n p in
  let n := with_mem (set_tcph_chksum (mem n) (payload b)
                       (ip_chksum_pseudo v IP_PROTO_TCP (tot_len b) local_ip remote_ip)) n in
  ip4_output_if stale_flags custom_free callback_ok netif_output n p (Some local_ip) (Some remote_ip) ttl tos
    IP_PROTO_TCP nif.

Definition tcp_send_empty_ack n (pcb : Z) : res (err_t * net A W) :=
  let* t := tcp_at n pcb in
  let* (p, n) := tcp_output_alloc_header n pcb 0 0 (lwip_htonl (t_snd_nxt t)) in
  if p =? NULL then let* n := raise_flag n pcb (Z.lor TF_ACK_DELAY TF_ACK_NOW) in Ok (ERR_BUF, n)
  else
    let* t := tcp_at n pcb in
    let* (nif, n) := ip4_route n (t_remote_ip t) in
    let* (err, n) :=
      if nif =? NULL then Ok (ERR_RTE, n)
      else checksum_and_send n p (t_local_ip t) (t_remote_ip t) (t_ttl t) (t_tos t) nif in
    let* n := free custom_free n p in
    let* n := if bool_decide (err = ERR_OK) then clear_flag n pcb (Z.lor TF_ACK_DELAY TF_ACK_NOW)
              else raise_flag n pcb (Z.lor TF_ACK_DELAY TF_ACK_NOW) in
    Ok (err, n).

Definition tcp_rst n (seqno ackno local_ip remote_ip local_port remote_port : Z) : res (net A W) :=
  let* (p, n) := alloc_pbuf stale_flags custom_free callback_ok n PBUF_IP TCP_HLEN PBUF_RAM in
  if p =? NULL then Ok n
  else
    let* b := pbuf_at n p in
    assert* (TCP_HLEN <=? len b) in
    let tcphdr := payload b in
    let m := set_tcph_src (mem n) tcphdr (lwip_htons local_port) in
    let m := set_tcph_dest m tcphdr (lwip_htons remote_port) in
    let m := set_tcph_seqno m tcphdr (lwip_htonl seqno) in
    let m := set_tcph_ackno m tcphdr (lwip_htonl ackno) in
    let m := TCPH_HDRLEN_FLAGS_SET m tcphdr (TCP_HLEN / 4) (Z.lor TCP_RST TCP_ACK) in
    let m := set_tcph_wnd m tcphdr (PP_HTONS TCP_WND) in
    let m := set_tcph_chksum m tcphdr 0 in
    let m := set_tcph_urgp m tcphdr 0 in
    let n := inc P_tcp c_xmit (with_mem m n) in
    let* (nif, n) := ip4_route n remote_ip in
    let* n := if negb (nif =? NULL)
              then let* (_, n) := checksum_and_send n p local_ip remote_ip TCP_TTL 0 nif in Ok n else Ok n in
    free custom_free n p.

Definition tcp_keepalive n (pcb : Z) : res (err_t * net A W) :=
  let* t := tcp_at n pcb in
  let* (p, n) := tcp_output_alloc_header n pcb 0 0 (lwip_htonl (u32 (t_snd_nxt t - 1))) in
  if p =? NULL then Ok (ERR_MEM, n)
  else
    let* t := tcp_at n pcb in
    let* (nif, n) := ip4_route n (t_remote_ip t) in
    let* (err, n) :=
      if nif =? NULL then Ok (ERR_RTE, n)
      else checksum_and_send (inc P_tcp c_xmit n) p (t_local_ip t) (t_remote_ip t) (t_ttl t) 0 nif in
    let* n := free custom_free n p in
    Ok (err, n).

(** *** Segments *)

(** [None]: no memory; [p] has been freed. *)
Definition tcp_create_segment n (pcb p flags seqno optflags : Z) : res (option tcp_seg * net A W) :=
  let optlen := u8 (LWIP_TCP_OPT_LENGTH optflags) in
  match seg_malloc n with
  | None => let* n := free custom_free n p in Ok (None, n)
  | Some n =>
      let* b := pbuf_at n p in
      assert* (optlen <=? tot_len b) in
      let seglen := u16 (tot_len b - optlen) in
      let* (failed, n) := header n p TCP_HLEN in
      if (failed : bool) then
        let* n := tcp_seg_free custom_free (inc P_tcp c_err n) (mk_seg p seglen optflags NULL) in Ok (None, n)
      else
        let* b := pbuf_at n p in
        let* t := tcp_at n pcb in
        let tcphdr := payload b in
        let m := set_tcph_src (mem n) tcphdr (lwip_htons (t_local_port t)) in
        let m := set_tcph_dest m tcphdr (lwip_htons (t_remote_port t)) in
        let m := set_tcph_seqno m tcphdr (lwip_htonl seqno) in
        let m := TCPH_HDRLEN_FLAGS_SET m tcphdr (5 + optlen / 4) flags in
        let m := set_tcph_urgp m tcphdr 0 in
        Ok (Some (mk_seg p seglen optflags tcphdr), with_mem m n)
  end.

(** The pbuf and the bytes that it has room for behind [length]; [None] without memory. *)
Definition tcp_pbuf_prealloc n (layer : pbuf_layer) (length max_length pcb apiflags : Z) (first_seg : bool)
    : res (option (Z * Z) * net A W) :=
  let* t := tcp_at n pcb in
  let alloc :=
    if length <? max_length then
      if has apiflags TCP_WRITE_FLAG_MORE
         || (negb (has (t_flags t) TF_NODELAY)
             && (negb first_seg || negb (is_nil (t_unsent t)) || negb (is_nil (t_unacked t))))
      then u16 (Z.min max_length (LWIP_MEM_ALIGN_SIZE (length + TCP_OVERSIZE)))
      else length
    else length in
  let* (p, n) := alloc_pbuf stale_flags custom_free callback_ok n layer alloc PBUF_RAM in
  if p =? NULL then Ok (None, n)
  else
    let* b := pbuf_at n p in
    assert* (next b =? NULL) in
    let oversize := u16 (len b - length) in
    let* s := upd (packets n) p (fun b => with_len length (with_tot_len length b)) in
    Ok (Some (p, oversize), with_packets s n).

(** *** tcp_write *)

Definition tcp_write_checks n (pcb l : Z) : res (err_t * net A W) :=
  let* t := tcp_at n pcb in
  if negb (state_eqb (t_state t) ESTABLISHED) && negb (state_eqb (t_state t) CLOSE_WAIT)
     && negb (state_eqb (t_state t) SYN_SENT) && negb (state_eqb (t_state t) SYN_RCVD) then Ok (ERR_CONN, n)
  else if l =? 0 then Ok (ERR_OK, n)
  else if t_snd_buf t <? l then let* n := raise_flag n pcb TF_NAGLEMEMERR in Ok (ERR_MEM, n)
  else if (TCP_SND_QUEUELEN <=? t_snd_queuelen t) || (TCP_SNDQUEUELEN_OVERFLOW <? t_snd_queuelen t) then
    let* n := raise_flag (inc P_tcp c_memerr n) pcb TF_NAGLEMEMERR in Ok (ERR_MEM, n)
  else if negb (t_snd_queuelen t =? 0) then
    assert* (negb (is_nil (t_unacked t)) || negb (is_nil (t_unsent t))) in Ok (ERR_OK, n)
  else
    assert* (is_nil (t_unacked t) && is_nil (t_unsent t)) in Ok (ERR_OK, n).

(** What the first phase of [tcp_write] has prepared for the last unsent segment: how far
    [arg] has been consumed, the room behind that segment, how much of it is used, the pbuf
    to be chained behind it (NULL for none), by how much a reference is extended, and the
    length of the queue. *)
Record tail_plan := mk_tail {
  w_pos : Z; w_oversize : Z; w_oversize_used : Z; w_concat_p : Z; w_extendlen : Z; w_queuelen : Z
}.

(** Phase 1: the end of the last unsent segment [last].  [None] is [goto memerr]. *)
Definition write_tail n (pcb arg l apiflags mss_local : Z) (t : tcp_pcb) (last : tcp_seg)
    : res (option tail_plan * net A W) :=
  let unsent_optlen := LWIP_TCP_OPT_LENGTH (seg_flags last) in
  assert* (seg_len last + unsent_optlen <=? mss_local) in
  let space := u16 (mss_local - (seg_len last + unsent_optlen)) in
  let oversize := t_unsent_oversize t in
  let used := if 0 <? oversize then Z.min space (Z.min oversize l) else 0 in
  let pos := used in
  let oversize := oversize - used in
  let space := space - used in
  assert* ((oversize =? 0) || (pos =? l)) in
  if (pos <? l) && (0 <? space) && (0 <? seg_len last) then
    let seglen := if space <? l - pos then space else l - pos in
    if has apiflags TCP_WRITE_FLAG_COPY then
      let* (r, n) := tcp_pbuf_prealloc n PBUF_RAW seglen space pcb apiflags true in
      match r with
      | None => Ok (None, n)
      | Some (concat_p, oversize) =>
          let* b := pbuf_at n concat_p in
          let n := with_mem (wr (mem n) (payload b) (rd (mem n) (arg + pos) (Z.to_nat seglen))) n in
          let* clen := pbuf_clen (packets n) concat_p in
          Ok (Some (mk_tail (pos + seglen) oversize used concat_p 0 (u16 (t_snd_queuelen t + clen))), n)
      end
    else
      let* p := last_pbuf (walk_fuel (pbufs (packets n))) (pbufs (packets n)) (seg_p last) in
      let* b := pbuf_at n p in
      if bool_decide (type b = PBUF_ROM) && (payload b + len b =? arg) then
        assert* (pos =? 0) in
        Ok (Some (mk_tail (pos + seglen) oversize used NULL seglen (t_snd_queuelen t)), n)
      else
        let* (concat_p, n) := alloc_pbuf stale_flags custom_free callback_ok n PBUF_RAW seglen PBUF_ROM in
        if concat_p =? NULL then Ok (None, n)
        else
          let* s := upd (packets n) concat_p (with_payload (arg + pos)) in
          let n := with_packets s n in
          let* clen := pbuf_clen (packets n) concat_p in
          Ok (Some (mk_tail (pos + seglen) oversize used concat_p 0 (u16 (t_snd_queuelen t + clen))), n)
  else Ok (Some (mk_tail pos oversize used NULL 0 (t_snd_queuelen t)), n).

(** The pbuf for the next [seglen] bytes of data; [None] is [goto memerr]. *)
Definition write_pbuf n (pcb data seglen apiflags mss_local oversize : Z) (first_seg : bool)
    : res (option (Z * Z) * net A W) :=
  if has apiflags TCP_WRITE_FLAG_COPY then
    let* (r, n) := tcp_pbuf_prealloc n PBUF_TRANSPORT seglen mss_local pcb apiflags first_seg in
    match r with
    | None => Ok (None, n)
    | Some (p, oversize) =>
        let* b := pbuf_at n p in
        assert* (seglen <=? len b) in
        Ok (Some (p, oversize), with_mem (wr (mem n) (payload b) (rd (mem n) data (Z.to_nat seglen))) n)
    end
  else
    assert* (oversize =? 0) in
    let* (p2, n) := alloc_pbuf stale_flags custom_free callback_ok n PBUF_TRANSPORT seglen PBUF_ROM in
    if p2 =? NULL then Ok (None, n)
    else
      let* s := upd (packets n) p2 (with_payload data) in
      let n := with_packets s n in
      let* (p, n) := alloc_pbuf stale_flags custom_free callback_ok n PBUF_TRANSPORT 0 PBUF_RAM in
      if p =? NULL then let* n := free custom_free n p2 in Ok (None, n)
      else let* s := pbuf_cat (packets n) p p2 in Ok (Some (p, oversize), with_packets s n).

(** Phase 2: new segments for the data from [pos] on.  [None] is [goto memerr]; the segments
    made so far are returned in either case. *)
Fixpoint write_segs (fuel : nat) n (pcb arg l apiflags mss_local pos oversize queuelen : Z) (queue : list tcp_seg)
    : res (option (Z * Z) * list tcp_seg * net A W) :=
  if pos <? l then
    match fuel with
    | O => Fault FFuel
    | S fuel' =>
        let left := l - pos in
        let seglen := if mss_local <? left then mss_local else left in
        let* (r, n) := write_pbuf n pcb (arg + pos) seglen apiflags mss_local oversize (is_nil queue) in
        match r with
        | None => Ok (None, queue, n)
        | Some (p, oversize) =>
            let* clen := pbuf_clen (packets n) p in
            let queuelen := u16 (queuelen + clen) in
            if (TCP_SND_QUEUELEN <? queuelen) || (TCP_SNDQUEUELEN_OVERFLOW <? queuelen) then
              let* n := free custom_free n p in Ok (None, queue, n)
            else
              let* t := tcp_at n pcb in
              let* (seg, n) := tcp_create_segment n pcb p 0 (u32 (t_snd_lbb t + pos)) 0 in
              match seg with
              | None => Ok (None, queue, n)
              | Some seg =>
                  write_segs fuel' n pcb arg l apiflags mss_local (pos + seglen) oversize queuelen (queue ++ [seg])
              end
        end
    end
  else Ok (Some (oversize, queuelen), queue, n).

(** The loops over the pbufs of the last segment that make it [k] bytes longer; [copy] are
    the bytes to be written behind the last pbuf. *)
Fixpoint extend_chain (fuel : nat) (s : Pbuf.state A) (p k : Z) (copy : list Z) : res (Pbuf.state A) :=
  match fuel with
  | O => Fault FFuel
  | S fuel' =>
      let* b := deref (pbufs s) p in
      let* s := upd s p (with_tot_len (u16 (tot_len b + k))) in
      if next b =? NULL then
        let s := with_bytes (wr (bytes s) (payload b + len b) copy) s in
        upd s p (fun b => with_len (u16 (len b + k)) b)
      else extend_chain fuel' s (next b) k copy
  end.

(** Phase 3: everything is allocated; the segments are put on the queue. *)
Definition write_commit n (pcb arg l apiflags : Z) (w : tail_plan) (oversize queuelen : Z) (queue : list tcp_seg)
    : res (net A W) :=
  let* t := tcp_at n pcb in
  let unsent_oversize := t_unsent_oversize t in
  let tail := last (t_unsent t) in
  let* (n, tail) :=
    match tail with
    | Some seg =>
        if 0 <? w_oversize_used w then
          let* s := extend_chain (walk_fuel (pbufs (packets n))) (packets n) (seg_p seg) (w_oversize_used w)
                      (rd (mem n) arg (Z.to_nat (w_oversize_used w))) in
          Ok (with_packets s n, Some (set_seg_len (u16 (seg_len seg + w_oversize_used w)) seg))
        else Ok (n, Some seg)
    | None => Ok (n, None)
    end in
  let* (n, tail) :=
    if negb (w_concat_p w =? NULL) then
      match tail with
      | None => Fault FAssert
      | Some seg =>
          let* s := pbuf_cat (packets n) (seg_p seg) (w_concat_p w) in
          let n := with_packets s n in
          let* c := pbuf_at n (w_concat_p w) in
          Ok (n, Some (set_seg_len (u16 (seg_len seg + tot_len c)) seg))
      end
    else if 0 <? w_extendlen w then
      match tail with
      | None => Fault FAssert
      | Some seg =>
          assert* negb (seg_p seg =? NULL) in
          let* s := extend_chain (walk_fuel (pbufs (packets n))) (packets n) (seg_p seg) (w_extendlen w) [] in
          Ok (with_packets s n, Some (set_seg_len (u16 (seg_len seg + w_extendlen w)) seg))
      end
    else Ok (n, tail) in
  let unsent := match tail with Some seg => upd_last (fun _ => seg) (t_unsent t) | None => [] end in
  let t := set_unsent_oversize oversize (set_unsent (unsent ++ queue) t) in
  let t := set_snd_lbb (u32 (t_snd_lbb t + l)) t in
  let t := set_snd_buf (u16 (t_snd_buf t - l)) t in
  let t := set_snd_queuelen queuelen t in
  let n := put_tcp n pcb t in
  assert* queues_valid t in
  let seg :=
    match last queue with
    | Some seg => Some seg
    | None => if (0 <? unsent_oversize) || negb (w_concat_p w =? NULL) || (0 <? w_extendlen w) then tail else None
    end in
  match seg with
  | Some seg =>
      if negb (seg_tcphdr seg =? NULL) && negb (has apiflags TCP_WRITE_FLAG_MORE)
      then Ok (with_mem (TCPH_SET_FLAG (mem n) (seg_tcphdr seg) TCP_PSH) n) else Ok n
  | None => Ok n
  end.

(** [memerr:] *)
Definition write_memerr n (pcb concat_p : Z) (queue : list tcp_seg) : res (err_t * net A W) :=
  let* n := raise_flag n pcb TF_NAGLEMEMERR in
  let n := inc P_tcp c_memerr n in
  let* n := if negb (concat_p =? NULL) then free custom_free n concat_p else Ok n in
  let* n := tcp_segs_free custom_free n queue in
  let* t := tcp_at n pcb in
  assert* queues_valid t in
  Ok (ERR_MEM, n).

(** Every round of the second phase makes the queue longer by a pbuf at least. *)
Definition write_fuel : nat := 10.

Definition tcp_write n (pcb arg l apiflags : Z) : res (err_t * net A W) :=
  let* t := tcp_at n pcb in
  let mss_local := Z.min (t_mss t) (t_snd_wnd_max t / 2) in
  let mss_local := if negb (mss_local =? 0) then mss_local else t_mss t in
  if arg =? NULL then Ok (ERR_ARG, n)
  else
    let* (err, n) := tcp_write_checks n pcb l in
    if negb (bool_decide (err = ERR_OK)) then Ok (err, n)
    else
      let* t := tcp_at n pcb in
      let* (w, n) :=
        match last (t_unsent t) with
        | Some seg => write_tail n pcb arg l apiflags mss_local t seg
        | None =>
            assert* (t_unsent_oversize t =? 0) in
            Ok (Some (mk_tail 0 0 0 NULL 0 (t_snd_queuelen t)), n)
        end in
      match w with
      | None => write_memerr n pcb NULL []
      | Some w =>
          let* (r, queue, n) :=
            write_segs write_fuel n pcb arg l apiflags mss_local (w_pos w) (w_oversize w) (w_queuelen w) [] in
          match r with
          | None => write_memerr n pcb (w_concat_p w) queue
          | Some (oversize, queuelen) =>
              let* n := write_commit n pcb arg l apiflags w oversize queuelen queue in
              Ok (ERR_OK, n)
          end
      end.

(** *** Flags that take a sequence number *)

Definition tcp_enqueue_flags n (pcb flags : Z) : res (err_t * net A W) :=
  assert* has flags (Z.lor TCP_SYN TCP_FIN) in
  let* t := tcp_at n pcb in
  if ((TCP_SND_QUEUELEN <=? t_snd_queuelen t) || (TCP_SNDQUEUELEN_OVERFLOW <? t_snd_queuelen t))
     && negb (has flags TCP_FIN) then
    let* n := raise_flag (inc P_tcp c_memerr n) pcb TF_NAGLEMEMERR in Ok (ERR_MEM, n)
  else
    let optflags := if has flags TCP_SYN then TF_SEG_OPTS_MSS else 0 in
    let optlen := u8 (LWIP_TCP_OPT_LENGTH optflags) in
    let* (p, n) := alloc_pbuf stale_flags custom_free callback_ok n PBUF_TRANSPORT optlen PBUF_RAM in
    if p =? NULL then
      let* n := raise_flag (inc P_tcp c_memerr n) pcb TF_NAGLEMEMERR in Ok (ERR_MEM, n)
    else
      let* b := pbuf_at n p in
      assert* (optlen <=? len b) in
      let* (seg, n) := tcp_create_segment n pcb p flags (t_snd_lbb t) optflags in
      match seg with
      | None => let* n := raise_flag (inc P_tcp c_memerr n) pcb TF_NAGLEMEMERR in Ok (ERR_MEM, n)
      | Some seg =>
          assert* (seg_tcphdr seg mod 4 =? 0) in
          assert* (seg_len seg =? 0) in
          let* t := tcp_at n pcb in
          let t := set_unsent_oversize 0 (set_unsent (t_unsent t ++ [seg]) t) in
          let t := if has flags TCP_SYN || has flags TCP_FIN then set_snd_lbb (u32 (t_snd_lbb t + 1)) t else t in
          let t := if has flags TCP_FIN then set_flags (add_flag (t_flags t) TF_FIN) t else t in
          let* clen := pbuf_clen (packets n) (seg_p seg) in
          let t := set_snd_queuelen (u16 (t_snd_queuelen t + clen)) t in
          assert* queues_valid t in
          Ok (ERR_OK, put_tcp n pcb t)
      end.

Definition tcp_send_fin n (pcb : Z) : res (err_t * net A W) :=
  let* t := tcp_at n pcb in
  match last (t_unsent t) with
  | Some last_unsent =>
      if negb (has (TCPH_FLAGS (mem n) (seg_tcphdr last_unsent)) (Z.lor TCP_SYN (Z.lor TCP_FIN TCP_RST))) then
        let n := with_mem (TCPH_SET_FLAG (mem n) (seg_tcphdr last_unsent) TCP_FIN) n in
        let* n := raise_flag n pcb TF_FIN in Ok (ERR_OK, n)
      else tcp_enqueue_flags n pcb TCP_FIN
  | None => tcp_enqueue_flags n pcb TCP_FIN
  end.

(** *** tcp_output *)

Definition tcp_output_segment n (seg : tcp_seg) (pcb nif : Z) : res (err_t * net A W) :=
  let* b := pbuf_at n (seg_p seg) in
  if negb (ref b =? 1) then Ok (ERR_OK, n)
  else
    let* t := tcp_at n pcb in
    let tcphdr := seg_tcphdr seg in
    let m := set_tcph_ackno (mem n) tcphdr (lwip_htonl (t_rcv_nxt t)) in
    let m := set_tcph_wnd m tcphdr (lwip_htons (t_rcv_ann_wnd t)) in
    let t := set_rcv_ann_right_edge (u32 (t_rcv_nxt t + t_rcv_ann_wnd t)) t in
    let n := with_mem m n in
    let* n :=
      if has (seg_flags seg) TF_SEG_OPTS_MSS then
        let* (mss, n) := tcp_eff_send_mss n TCP_MSS (t_remote_ip t) in
        Ok (with_mem (wr32 (mem n) (tcphdr + TCP_HLEN) (TCP_BUILD_MSS_OPTION mss)) n)
      else Ok n in
    let t := if t_rtime t <? 0 then set_rtime 0 t else t in
    let t := if t_rttest t =? 0 then set_rtseq (seg_seqno (mem n) seg) (set_rttest (tcp_ticks (tcp n)) t) else t in
    let n := put_tcp n pcb t in
    let l := u16 (tcphdr - payload b) in
    let* s := upd (packets n) (seg_p seg)
                (fun b => with_payload tcphdr (with_tot_len (u16 (tot_len b - l)) (with_len (u16 (len b - l)) b))) in
    let n := with_packets s n in
    let n := inc P_tcp c_xmit (with_mem (set_tcph_chksum (mem n) tcphdr 0) n) in
    checksum_and_send n (seg_p seg) (t_local_ip t) (t_remote_ip t) (t_ttl t) (t_tos t) nif.

(** [lwip_ntohl(seg->tcphdr->seqno) - pcb->lastack + seg->len]: how far the end of the
    segment is beyond what has been acknowledged. *)
Definition seg_reach (m : memory) (t : tcp_pcb) (seg : tcp_seg) : Z :=
  u32 (seg_seqno m seg - t_lastack t + seg_len seg).

(** A segment that has been sent goes to the queue of unacknowledged ones.  [useg], the last
    of that queue, is its last element. *)
Definition enqueue_unacked (m : memory) (seg : tcp_seg) (unacked : list tcp_seg) : list tcp_seg :=
  match last unacked with
  | None => [seg]
  | Some useg =>
      if TCP_SEQ_LT (seg_seqno m seg) (seg_seqno m useg) then insert_seg m seg unacked else unacked ++ [seg]
  end.

(** The loop over [pcb->unsent]; [Some err] is [return err]. *)
Fixpoint output_loop (fuel : nat) n (pcb nif wnd : Z) : res (option err_t * net A W) :=
  let* t := tcp_at n pcb in
  match t_unsent t with
  | [] => Ok (None, n)
  | seg :: rest =>
      if wnd <? seg_reach (mem n) t seg then Ok (None, n)
      else
        match fuel with
        | O => Fault FFuel
        | S fuel' =>
            assert* negb (has (TCPH_FLAGS (mem n) (seg_tcphdr seg)) TCP_RST) in
            if negb (tcp_do_output_nagle t) && negb (has (t_flags t) (Z.lor TF_NAGLEMEMERR TF_FIN)) then Ok (None, n)
            else
              let n := if negb (state_eqb (t_state t) SYN_SENT)
                       then with_mem (TCPH_SET_FLAG (mem n) (seg_tcphdr seg) TCP_ACK) n else n in
              let* (err, n) := tcp_output_segment n seg pcb nif in
              if negb (bool_decide (err = ERR_OK)) then
                let* n := raise_flag n pcb TF_NAGLEMEMERR in Ok (Some err, n)
              else
                let* t := tcp_at n pcb in
                let t := set_unsent rest t in
                let t := if negb (state_eqb (t_state t) SYN_SENT)
                         then set_flags (del_flag (t_flags t) (Z.lor TF_ACK_DELAY TF_ACK_NOW)) t else t in
                let snd_nxt := u32 (seg_seqno (mem n) seg + TCP_TCPLEN (mem n) seg) in
                let t := if TCP_SEQ_LT (t_snd_nxt t) snd_nxt then set_snd_nxt snd_nxt t else t in
                let* n :=
                  if 0 <? TCP_TCPLEN (mem n) seg
                  then Ok (put_tcp n pcb (set_unacked (enqueue_unacked (mem n) seg (t_unacked t)) t))
                  else tcp_seg_free custom_free (put_tcp n pcb t) seg in
                output_loop fuel' n pcb nif wnd
        end
  end.

(** [output_done:] *)
Definition output_done n (pcb : Z) : res (err_t * net A W) :=
  let* t := tcp_at n pcb in
  let t := if is_nil (t_unsent t) then set_unsent_oversize 0 t else t in
  Ok (ERR_OK, put_tcp n pcb (set_flags (del_flag (t_flags t) TF_NAGLEMEMERR) t)).

(** The first segment does not fit into the window of the peer, and nothing is in flight. *)
Definition wnd_too_small (m : memory) (t : tcp_pcb) (wnd : Z) : bool :=
  match t_unsent t with
  | [] => false
  | seg :: _ => (wnd <? seg_reach m t seg) && (0 <? wnd) && (wnd =? t_snd_wnd t) && is_nil (t_unacked t)
  end.

Definition tcp_output n (pcb : Z) : res (err_t * net A W) :=
  let* st := tcp_state_of n pcb in
  assert* negb (state_eqb st LISTEN) in
  if tcp_input_pcb (tcp n) =? pcb then Ok (ERR_OK, n)
  else
    let* t := tcp_at n pcb in
    let wnd := Z.min (t_snd_wnd t) (t_cwnd t) in
    let blocked := match t_unsent t with [] => true | seg :: _ => wnd <? seg_reach (mem n) t seg end in
    if has (t_flags t) TF_ACK_NOW && blocked then tcp_send_empty_ack n pcb
    else
      let* (nif, n) := ip4_route n (t_remote_ip t) in
      if nif =? NULL then Ok (ERR_RTE, n)
      else
        let* nf := netif_at n nif in
        let t := if ip4_addr_isany_val (t_local_ip t) then set_local_ip (netif_ip4_addr nf) t else t in
        let n := put_tcp n pcb t in
        if wnd_too_small (mem n) t wnd then
          let t := if t_persist_backoff t =? 0 then set_persist_backoff 1 (set_persist_cnt 0 t) else t in
          output_done (put_tcp n pcb t) pcb
        else
          let* (r, n) := output_loop (S (length (t_unsent t))) n pcb nif wnd in
          match r with
          | Some err => Ok (err, n)
          | None => output_done n pcb
          end.

(** *** Retransmission *)

Definition tcp_rexmit_rto n (pcb : Z) : res (net A W) :=
  let* t := tcp_at n pcb in
  if is_nil (t_unacked t) then Ok n
  else
    let t := set_unacked [] (set_unsent (t_unacked t ++ t_unsent t) t) in
    let t := set_rttest 0 (set_nrtx (u8 (t_nrtx t + 1)) t) in
    let* (_, n) := tcp_output (put_tcp n pcb t) pcb in
    Ok n.

Definition tcp_rexmit n (pcb : Z) : res (net A W) :=
  let* t := tcp_at n pcb in
  match t_unacked t with
  | [] => Ok n
  | seg :: rest =>
      let at_end := forallb (fun c => TCP_SEQ_LT (seg_seqno (mem n) c) (seg_seqno (mem n) seg)) (t_unsent t) in
      let t := set_unsent (insert_seg (mem n) seg (t_unsent t)) (set_unacked rest t) in
      let t := if at_end then set_unsent_oversize 0 t else t in
      Ok (put_tcp n pcb (set_rttest 0 (set_nrtx (u8 (t_nrtx t + 1)) t)))
  end.

Definition tcp_rexmit_fast n (pcb : Z) : res (net A W) :=
  let* t := tcp_at n pcb in
  if negb (is_nil (t_unacked t)) && negb (has (t_flags t) TF_INFR) then
    let* n := tcp_rexmit n pcb in
    upd_tcp n pcb (fun t =>
      let ssthresh := if t_snd_wnd t <? t_cwnd t then t_snd_wnd t / 2 else t_cwnd t / 2 in
      let ssthresh := if ssthresh <? 2 * t_mss t then u16 (2 * t_mss t) else ssthresh in
      let t := set_cwnd (u16 (ssthresh + 3 * t_mss t)) (set_ssthresh ssthresh t) in
      set_rtime 0 (set_flags (add_flag (t_flags t) TF_INFR) t))
  else Ok n.

Definition tcp_zero_window_probe n (pcb : Z) : res (err_t * net A W) :=
  let* t := tcp_at n pcb in
  match t_unacked t ++ t_unsent t with
  | [] => Ok (ERR_OK, n)
  | seg :: _ =>
      let is_fin := has (TCPH_FLAGS (mem n) (seg_tcphdr seg)) TCP_FIN && (seg_len seg =? 0) in
      let l := if is_fin then 0 else 1 in
      let* (p, n) := tcp_output_alloc_header n pcb 0 l (tcph_seqno (mem n) (seg_tcphdr seg)) in
      if p =? NULL then Ok (ERR_MEM, n)
      else
        let* b := pbuf_at n p in
        let* n :=
          if is_fin then Ok (with_mem (TCPH_FLAGS_SET (mem n) (payload b) (Z.lor TCP_ACK TCP_FIN)) n)
          else
            let* q := pbuf_at n (seg_p seg) in
            let* (_, d) := pbuf_copy_partial (packets n) (seg_p seg) true 1 (u16 (tot_len q - seg_len seg)) in
            Ok (with_mem (wr (mem n) (payload b + TCP_HLEN) d) n) in
        let* t := tcp_at n pcb in
        let snd_nxt := u32 (seg_seqno (mem n) seg + 1) in
        let t := if TCP_SEQ_LT (t_snd_nxt t) snd_nxt then set_snd_nxt snd_nxt t else t in
        let* (nif, n) := ip4_route (put_tcp n pcb t) (t_remote_ip t) in
        let* (err, n) :=
          if nif =? NULL then Ok (ERR_RTE, n)
          else checksum_and_send (inc P_tcp c_xmit n) p (t_local_ip t) (t_remote_ip t) (t_ttl t) 0 nif in
        let* n := free custom_free n p in
        Ok (err, n)
  end.

End TcpOut.
