(* ===== verification/Tcp.v ===== *)
(** * TCP control blocks: lwip/src/core/tcp.c

    Creation, binding, connecting, listening, closing and aborting; the lists of control
    blocks; the receive window; the timers.

    A list of control blocks is the list of their addresses.  A control block is on one list
    at a time (priv/tcp_priv.h states this as an axiom about the lists); to register one on a
    list that has it already would make the list cyclic, which is a fault here. *)

From S2P Require Import Prelude Def Ip4Addr InetChksum Mem Pbuf TcpData Net Ip4 TcpBase TcpOut.

(** ** Definitions *)

Inductive pcblist := L_listen | L_bound | L_active | L_tw.

Definition tcp_pcb_lists : list pcblist := [L_listen; L_bound; L_active; L_tw].

Definition pcbs_of (g : tcp_globals) (w : pcblist) : list Z :=
  match w with
  | L_listen => tcp_listen_pcbs g
  | L_bound => tcp_bound_pcbs g
  | L_active => tcp_active_pcbs g
  | L_tw => tcp_tw_pcbs g
  end.

Definition set_pcbs (w : pcblist) (l : list Z) (g : tcp_globals) : tcp_globals :=
  match w with
  | L_listen => set_tcp_listen_pcbs l g
  | L_bound => set_tcp_bound_pcbs l g
  | L_active => set_tcp_active_pcbs l g
  | L_tw => set_tcp_tw_pcbs l g
  end.

(** The list without [pcb]. *)
Fixpoint pcb_unlink (pcb : Z) (l : list Z) : list Z :=
  match l with
  | [] => []
  | x :: l' => if x =? pcb then l' else x :: pcb_unlink pcb l'
  end.

(** [pcb->next] of a member of the list. *)
Fixpoint pcb_next (pcb : Z) (l : list Z) : Z :=
  match l with
  | [] => NULL
  | x :: l' => if x =? pcb then hd NULL l' else pcb_next pcb l'
  end.

(** [prev->next = pcb->next]. *)
Fixpoint pcbs_before (pcb : Z) (l : list Z) : list Z :=
  match l with
  | [] => []
  | x :: l' => if x =? pcb then [] else x :: pcbs_before pcb l'
  end.
Fixpoint pcbs_after (pcb : Z) (l : list Z) : list Z :=
  match l with
  | [] => []
  | x :: l' => if x =? pcb then l' else pcbs_after pcb l'
  end.
Definition relink (prev pcb : Z) (l : list Z) : list Z := pcbs_before prev l ++ prev :: pcbs_after pcb l.

Definition tcp_backoff : list Z := [1; 2; 3; 4; 5; 6; 7; 7; 7; 7; 7; 7; 7].
Definition tcp_persist_backoff : list Z := [3; 6; 12; 24; 48; 96; 120].

(** [a[i]] of a constant array. *)
Definition array_at (a : list Z) (i : Z) : res Z :=
  if i <? 0 then Fault FBadAccess
  else match a !! Z.to_nat i with Some x => Ok x | None => Fault FBadAccess end.

(** [memset(pcb, 0, sizeof(struct tcp_pcb))]. *)
Definition tcp_pcb_zero : tcp_pcb :=
  mk_tcp_pcb 0 0 0 0 0 NULL CLOSED 0 0 0 0 0 0 0 0 0 0 0 0 0 0 0 0 0 0 0 0 0 0 0 0 0 0 0 0 0 0 0 0 0 [] [] []
    NULL NULL NULL NULL NULL NULL NULL 0 0 0 0.

Section Tcp.
Context {A W : Type} `{AllocOps A} `{FragPool A} `{TcpApp A W}.
Variable stale_flags : Z -> Z.
Variable custom_free : Z -> Z -> Pbuf.state A -> res (Pbuf.state A).
Variable callback_ok : bool.
Variable netif_output : net A W -> Z -> Z -> Z -> res (err_t * net A W).
Variable tcp_timer_needed : net A W -> res (net A W).
Implicit Types n : net A W.

Local Abbreviation tcp_output := (TcpOut.tcp_output stale_flags custom_free callback_ok netif_output).
Local Abbreviation tcp_rst := (TcpOut.tcp_rst stale_flags custom_free callback_ok netif_output).
Local Abbreviation tcp_send_fin := (TcpOut.tcp_send_fin stale_flags custom_free callback_ok).
Local Abbreviation tcp_enqueue_flags := (TcpOut.tcp_enqueue_flags stale_flags custom_free callback_ok).
Local Abbreviation tcp_keepalive := (TcpOut.tcp_keepalive stale_flags custom_free callback_ok netif_output).
Local Abbreviation tcp_zero_window_probe :=
  (TcpOut.tcp_zero_window_probe stale_flags custom_free callback_ok netif_output).
Local Abbreviation tcp_rexmit_rto := (TcpOut.tcp_rexmit_rto stale_flags custom_free callback_ok netif_output).

(** *** The lists *)

(** The new member goes in front.  The macro does not look whether it is on the list already; if it
    is, its [next] then leads back to it, which shows as a member that occurs twice: a walk in the
    code does not get past the second occurrence. *)
Definition TCP_REG n (w : pcblist) (npcb : Z) : res (net A W) :=
  tcp_timer_needed (with_tcp (set_pcbs w (npcb :: pcbs_of (tcp n) w) (tcp n)) n).

Definition TCP_RMV n (w : pcblist) (npcb : Z) : net A W :=
  with_tcp (set_pcbs w (pcb_unlink npcb (pcbs_of (tcp n) w)) (tcp n)) n.

Definition active_changed n : net A W := with_tcp (set_tcp_active_pcbs_changed true (tcp n)) n.

Definition TCP_REG_ACTIVE n (npcb : Z) : res (net A W) :=
  let* n := TCP_REG n L_active npcb in Ok (active_changed n).

Definition TCP_RMV_ACTIVE n (npcb : Z) : net A W := active_changed (TCP_RMV n L_active npcb).

(** [memp_free(MEMP_TCP_PCB, pcb)] and [memp_free(MEMP_TCP_PCB_LISTEN, pcb)]. *)
Definition free_tcp n (pcb : Z) : res (net A W) :=
  let* _ := tcp_at n pcb in
  let g := set_tcp_heap (delete pcb (tcp_heap (tcp n))) (tcp n) in
  Ok (with_tcp (set_tcp_pcb_pool (pcb :: tcp_pcb_pool g) g) n).

Definition free_listen n (pcb : Z) : res (net A W) :=
  let* _ := listen_at n pcb in
  let g := set_listen_heap (delete pcb (listen_heap (tcp n))) (tcp n) in
  Ok (with_tcp (set_tcp_listen_pool (pcb :: tcp_listen_pool g) g) n).

(** *** Listeners *)

(** [tcp_remove_listener], over the members of a list. *)
Fixpoint tcp_remove_listener n (l : list Z) (lpcb : Z) : res (net A W) :=
  match l with
  | [] => Ok n
  | pcb :: l' =>
      let* t := tcp_at n pcb in
      let n := if t_listener t =? lpcb then put_tcp n pcb (set_listener NULL t) else n in
      tcp_remove_listener n l' lpcb
  end.

Definition tcp_listen_closed n (pcb : Z) : res (net A W) :=
  let* st := tcp_state_of n pcb in
  assert* state_eqb st LISTEN in
  let* n := tcp_remove_listener n (tcp_bound_pcbs (tcp n)) pcb in
  let* n := tcp_remove_listener n (tcp_active_pcbs (tcp n)) pcb in
  tcp_remove_listener n (tcp_tw_pcbs (tcp n)) pcb.

Definition tcp_backlog_delayed n (pcb : Z) : res (net A W) :=
  let* t := tcp_at n pcb in
  if has (t_flags t) TF_BACKLOGPEND then Ok n
  else if t_listener t =? NULL then Ok n
  else
    let* l := listen_at n (t_listener t) in
    let pending := u8 (l_accepts_pending l + 1) in
    assert* negb (pending =? 0) in
    let n := put_listen n (t_listener t) (set_l_accepts_pending pending l) in
    raise_flag n pcb TF_BACKLOGPEND.

Definition tcp_backlog_accepted n (pcb : Z) : res (net A W) :=
  let* t := tcp_at n pcb in
  if negb (has (t_flags t) TF_BACKLOGPEND) then Ok n
  else if t_listener t =? NULL then Ok n
  else
    let* l := listen_at n (t_listener t) in
    assert* negb (l_accepts_pending l =? 0) in
    let n := put_listen n (t_listener t) (set_l_accepts_pending (l_accepts_pending l - 1) l) in
    clear_flag n pcb TF_BACKLOGPEND.

(** *** Removing control blocks *)

Definition tcp_pcb_purge n (pcb : Z) : res (net A W) :=
  let* t := tcp_at n pcb in
  if state_eqb (t_state t) CLOSED || state_eqb (t_state t) TIME_WAIT || state_eqb (t_state t) LISTEN then Ok n
  else
    let* n := tcp_backlog_accepted n pcb in
    let* n :=
      if negb (t_refused_data t =? NULL) then
        let* n := free custom_free n (t_refused_data t) in upd_tcp n pcb (set_refused_data NULL)
      else Ok n in
    let* n := tcp_segs_free custom_free n (t_ooseq t) in
    let* n := upd_tcp n pcb (fun t => set_rtime (-1) (set_ooseq [] t)) in
    let* n := tcp_segs_free custom_free n (t_unsent t) in
    let* n := tcp_segs_free custom_free n (t_unacked t) in
    upd_tcp n pcb (fun t => set_unsent_oversize 0 (set_unacked [] (set_unsent [] t))).

(** For the lists of [struct tcp_pcb]. *)
Definition tcp_pcb_remove n (w : pcblist) (pcb : Z) : res (net A W) :=
  let* n := tcp_pcb_purge (TCP_RMV n w pcb) pcb in
  let* t := tcp_at n pcb in
  let* n :=
    if negb (state_eqb (t_state t) TIME_WAIT) && negb (state_eqb (t_state t) LISTEN) && has (t_flags t) TF_ACK_DELAY
    then let* n := raise_flag n pcb TF_ACK_NOW in let* (_, n) := tcp_output n pcb in Ok n
    else Ok n in
  let* t := tcp_at n pcb in
  assert* is_nil (t_unsent t) in
  assert* is_nil (t_unacked t) in
  assert* is_nil (t_ooseq t) in
  Ok (put_tcp n pcb (set_local_port 0 (set_state CLOSED t))).

Definition TCP_PCB_REMOVE_ACTIVE n (pcb : Z) : res (net A W) :=
  let* n := tcp_pcb_remove n L_active pcb in Ok (active_changed n).

(** For a listening control block, on the list of those: there is nothing to purge. *)
Definition tcp_listen_remove n (pcb : Z) : net A W := TCP_RMV n L_listen pcb.

Definition tcp_event_err n (errf arg : Z) (err : err_t) : res (net A W) :=
  if negb (errf =? NULL) then err_fn errf n arg err else Ok n.

Definition tcp_abandon n (pcb : Z) (reset : bool) : res (net A W) :=
  let* st := tcp_state_of n pcb in
  assert* negb (state_eqb st LISTEN) in
  let* t := tcp_at n pcb in
  if state_eqb (t_state t) TIME_WAIT then
    let* n := tcp_pcb_remove n L_tw pcb in free_tcp n pcb
  else
    let closed := state_eqb (t_state t) CLOSED in
    let* n :=
      if closed then Ok (if negb (t_local_port t =? 0) then TCP_RMV n L_bound pcb else n)
      else TCP_PCB_REMOVE_ACTIVE n pcb in
    let* t' := tcp_at n pcb in
    let* n := tcp_segs_free custom_free n (t_unacked t') in
    let* n := tcp_segs_free custom_free n (t_unsent t') in
    let* n := tcp_segs_free custom_free n (t_ooseq t') in
    let* n := tcp_backlog_accepted n pcb in
    let* n :=
      if negb closed && reset
      then tcp_rst n (t_snd_nxt t) (t_rcv_nxt t) (t_local_ip t') (t_remote_ip t') (t_local_port t) (t_remote_port t')
      else Ok n in
    let* n := free_tcp n pcb in
    tcp_event_err n (t_errf t) (t_callback_arg t) ERR_ABRT.

Definition tcp_abort n (pcb : Z) : res (net A W) := tcp_abandon n pcb true.

(** *** Closing *)

Definition tcp_trigger_input_pcb_close n : net A W :=
  upd_in n (fun i => set_i_recv_flags (Z.lor (i_recv_flags i) TF_CLOSED) i).

(** The [switch] over the states: whether [pcb] still exists, and the result. *)
Definition close_by_state n (pcb : Z) : res (bool * err_t * net A W) :=
  let* st := tcp_state_of n pcb in
  match st with
  | CLOSED =>
      let* t := tcp_at n pcb in
      let n := if negb (t_local_port t =? 0) then TCP_RMV n L_bound pcb else n in
      let* n := free_tcp n pcb in Ok (false, ERR_OK, n)
  | LISTEN =>
      let* n := tcp_listen_closed n pcb in
      let* n := free_listen (tcp_listen_remove n pcb) pcb in Ok (false, ERR_OK, n)
  | SYN_SENT =>
      let* n := TCP_PCB_REMOVE_ACTIVE n pcb in
      let* n := free_tcp n pcb in Ok (false, ERR_OK, n)
  | SYN_RCVD =>
      let* (err, n) := tcp_send_fin n pcb in
      if bool_decide (err = ERR_OK) then
        let* n := tcp_backlog_accepted n pcb in
        let* n := upd_tcp n pcb (set_state FIN_WAIT_1) in Ok (true, err, n)
      else Ok (true, err, n)
  | ESTABLISHED =>
      let* (err, n) := tcp_send_fin n pcb in
      let* n := if bool_decide (err = ERR_OK) then upd_tcp n pcb (set_state FIN_WAIT_1) else Ok n in
      Ok (true, err, n)
  | CLOSE_WAIT =>
      let* (err, n) := tcp_send_fin n pcb in
      let* n := if bool_decide (err = ERR_OK) then upd_tcp n pcb (set_state LAST_ACK) else Ok n in
      Ok (true, err, n)
  | _ => Ok (false, ERR_OK, n)
  end.

(** There is data that the application has not taken. *)
Definition unread (t : tcp_pcb) : bool :=
  (state_eqb (t_state t) ESTABLISHED || state_eqb (t_state t) CLOSE_WAIT)
  && (negb (t_refused_data t =? NULL) || negb (t_rcv_wnd t =? TCP_WND)).

Definition tcp_close_shutdown n (pcb : Z) (rst_on_unacked_data : bool) : res (err_t * net A W) :=
  let* rst := match tcp_heap (tcp n) !! pcb with
              | Some t => Ok (rst_on_unacked_data && unread t)
              | None => Ok false
              end in
  if (rst : bool) then
    let* t := tcp_at n pcb in
    assert* has (t_flags t) TF_RXCLOSED in
    let* n := tcp_rst n (t_snd_nxt t) (t_rcv_nxt t) (t_local_ip t) (t_remote_ip t) (t_local_port t) (t_remote_port t) in
    let* n := tcp_pcb_purge n pcb in
    let n := TCP_RMV_ACTIVE n pcb in
    let* t := tcp_at n pcb in
    let* n :=
      if state_eqb (t_state t) ESTABLISHED then TCP_REG (put_tcp n pcb (set_state TIME_WAIT t)) L_tw pcb
      else if tcp_input_pcb (tcp n) =? pcb then Ok (tcp_trigger_input_pcb_close n)
      else free_tcp n pcb in
    Ok (ERR_OK, n)
  else
    let* (exists_, err, n) := close_by_state n pcb in
    if (exists_ : bool) && bool_decide (err = ERR_OK)
    then let* (_, n) := tcp_output n pcb in Ok (err, n) else Ok (err, n).

Definition tcp_close n (pcb : Z) : res (err_t * net A W) :=
  let* st := tcp_state_of n pcb in
  let* n := if negb (state_eqb st LISTEN) then raise_flag n pcb TF_RXCLOSED else Ok n in
  tcp_close_shutdown n pcb true.

Definition tcp_shutdown n (pcb : Z) (shut_rx shut_tx : bool) : res (err_t * net A W) :=
  let* st := tcp_state_of n pcb in
  if state_eqb st LISTEN then Ok (ERR_CONN, n)
  else
    let* n := if shut_rx then raise_flag n pcb TF_RXCLOSED else Ok n in
    if shut_rx && shut_tx then tcp_close_shutdown n pcb true
    else
      let* t := tcp_at n pcb in
      let* n :=
        if shut_rx && negb (t_refused_data t =? NULL) then
          let* n := free custom_free n (t_refused_data t) in upd_tcp n pcb (set_refused_data NULL)
        else Ok n in
      if shut_tx then
        match t_state t with
        | SYN_RCVD | ESTABLISHED | CLOSE_WAIT => tcp_close_shutdown n pcb shut_rx
        | _ => Ok (ERR_CONN, n)
        end
      else Ok (ERR_OK, n).

(** *** Ports *)

Definition local_port_of n (pcb : Z) : res Z :=
  match tcp_heap (tcp n) !! pcb with
  | Some t => Ok (t_local_port t)
  | None => let* l := listen_at n pcb in Ok (l_local_port l)
  end.

Definition local_ip_of n (pcb : Z) : res Z :=
  match tcp_heap (tcp n) !! pcb with
  | Some t => Ok (t_local_ip t)
  | None => let* l := listen_at n pcb in Ok (l_local_ip l)
  end.

(** All control blocks on the lists, in the order in which the loops visit them. *)
Definition all_pcbs n : list Z := concat (pcbs_of (tcp n) <$> tcp_pcb_lists).

(** The loops over the lists. *)
Fixpoint tcp_port_used n (l : list Z) (port : Z) : res bool :=
  match l with
  | [] => Ok false
  | pcb :: l' => let* p := local_port_of n pcb in if p =? port then Ok true else tcp_port_used n l' port
  end.

(** From [again:]; [k] is the variable n of the code. *)
Fixpoint tcp_new_port_loop (fuel : nat) n (k : Z) : res (Z * net A W) :=
  match fuel with
  | O => Fault FFuel
  | S fuel' =>
      let port := if tcp_port (tcp n) =? TCP_LOCAL_PORT_RANGE_END then TCP_LOCAL_PORT_RANGE_START
                  else u16 (tcp_port (tcp n) + 1) in
      let n := with_tcp (set_tcp_port port (tcp n)) n in
      let* used := tcp_port_used n (all_pcbs n) port in
      if (used : bool) then
        let k := u16 (k + 1) in
        if TCP_LOCAL_PORT_RANGE_END - TCP_LOCAL_PORT_RANGE_START <? k then Ok (0, n) else tcp_new_port_loop fuel' n k
      else Ok (port, n)
  end.

(** Every round but the last increments [k], which is at most the size of the range. *)
Definition new_port_fuel : nat := Z.to_nat (TCP_LOCAL_PORT_RANGE_END - TCP_LOCAL_PORT_RANGE_START + 1).

Definition tcp_new_port n : res (Z * net A W) := tcp_new_port_loop new_port_fuel n 0.

(** Whether a control block has the port with an address that collides. *)
Fixpoint bind_conflict n (l : list Z) (ipaddr port : Z) : res bool :=
  match l with
  | [] => Ok false
  | cpcb :: l' =>
      let* p := local_port_of n cpcb in
      let* ip := local_ip_of n cpcb in
      if (p =? port) && (ip4_addr_isany_val ip || ip4_addr_isany_val ipaddr || (ip =? ipaddr)) then Ok true
      else bind_conflict n l' ipaddr port
  end.

Definition tcp_bind n (pcb : Z) (ipaddr : option Z) (port : Z) : res (err_t * net A W) :=
  let ipaddr := default IPADDR_ANY ipaddr in
  if pcb =? NULL then Ok (ERR_VAL, n)
  else
    let* st := tcp_state_of n pcb in
    if negb (state_eqb st CLOSED) then Ok (ERR_VAL, n)
    else
      let* (r, n) :=
        if port =? 0 then
          let* (port, n) := tcp_new_port n in
          if port =? 0 then Ok (inl ERR_BUF, n) else Ok (inr port, n)
        else
          let* used := bind_conflict n (all_pcbs n) ipaddr port in
          if (used : bool) then Ok (inl ERR_USE, n) else Ok (inr port, n) in
      match r with
      | inl err => Ok (err, n)
      | inr port =>
          let* n := upd_tcp n pcb (fun t =>
            set_local_port port (if negb (ip4_addr_isany_val ipaddr) then set_local_ip ipaddr t else t)) in
          let* n := TCP_REG n L_bound pcb in
          Ok (ERR_OK, n)
      end.

(** *** Listening *)

(** The new control block (NULL for none) and the error. *)
Definition tcp_listen_with_backlog_and_err n (pcb backlog : Z) : res (Z * err_t * net A W) :=
  let* st := tcp_state_of n pcb in
  if negb (state_eqb st CLOSED) then Ok (NULL, ERR_CLSD, n)
  else
    let* t := tcp_at n pcb in
    match tcp_listen_pool (tcp n) with
    | [] => Ok (NULL, ERR_MEM, n)
    | lpcb :: pool =>
        let n := with_tcp (set_tcp_listen_pool pool (tcp n)) n in
        let n := if negb (t_local_port t =? 0) then TCP_RMV n L_bound pcb else n in
        let* n := free_tcp n pcb in
        let n := put_listen n lpcb
                   (mk_listen (t_local_ip t) (t_so_options t) (t_tos t) (t_ttl t) (t_callback_arg t) (t_prio t)
                      (t_local_port t) tcp_accept_null_fn (if negb (backlog =? 0) then backlog else 1) 0) in
        let* n := TCP_REG n L_listen lpcb in
        Ok (lpcb, ERR_OK, n)
    end.

Definition tcp_listen_with_backlog n (pcb backlog : Z) : res (Z * net A W) :=
  let* (lpcb, _, n) := tcp_listen_with_backlog_and_err n pcb backlog in Ok (lpcb, n).

Definition tcp_accept_null n (arg pcb : Z) (err : err_t) : res (err_t * net A W) :=
  let* n := tcp_abort n pcb in Ok (ERR_ABRT, n).

(** *** The receive window *)

(** The window to announce, and by how much its right edge advances; [None] is a failed
    assertion. *)
Definition rcv_ann (t : tcp_pcb) : option (Z * Z) :=
  let new_right_edge := u32 (t_rcv_nxt t + t_rcv_wnd t) in
  if TCP_SEQ_GEQ new_right_edge (u32 (t_rcv_ann_right_edge t + Z.min (TCP_WND / 2) (t_mss t)))
  then Some (t_rcv_wnd t, u32 (new_right_edge - t_rcv_ann_right_edge t))
  else if TCP_SEQ_GT (t_rcv_nxt t) (t_rcv_ann_right_edge t) then Some (0, 0)
  else
    let new_rcv_ann_wnd := u32 (t_rcv_ann_right_edge t - t_rcv_nxt t) in
    if new_rcv_ann_wnd <=? 65535 then Some (new_rcv_ann_wnd, 0) else None.

Definition tcp_update_rcv_ann_wnd n (pcb : Z) : res (Z * net A W) :=
  let* t := tcp_at n pcb in
  match rcv_ann t with
  | None => Fault FAssert
  | Some (wnd, inflation) => Ok (inflation, put_tcp n pcb (set_rcv_ann_wnd wnd t))
  end.

Definition tcp_recved n (pcb len : Z) : res (net A W) :=
  let* st := tcp_state_of n pcb in
  assert* negb (state_eqb st LISTEN) in
  let* t := tcp_at n pcb in
  let wnd := u16 (t_rcv_wnd t + len) in
  let* n :=
    if TCP_WND <? wnd then Ok (put_tcp n pcb (set_rcv_wnd TCP_WND t))
    else if wnd =? 0 then
      if state_eqb (t_state t) CLOSE_WAIT || state_eqb (t_state t) LAST_ACK
      then Ok (put_tcp n pcb (set_rcv_wnd TCP_WND t)) else Fault FAssert
    else Ok (put_tcp n pcb (set_rcv_wnd wnd t)) in
  let* (wnd_inflation, n) := tcp_update_rcv_ann_wnd n pcb in
  if TCP_WND_UPDATE_THRESHOLD <=? s32 wnd_inflation then
    let* n := tcp_ack_now n pcb in
    let* (_, n) := tcp_output n pcb in Ok n
  else Ok n.

Definition tcp_recv_null n (arg pcb p : Z) (err : err_t) : res (err_t * net A W) :=
  if negb (p =? NULL) then
    let* b := pbuf_at n p in
    let* n := tcp_recved n pcb (tot_len b) in
    let* n := free custom_free n p in Ok (ERR_OK, n)
  else if bool_decide (err = ERR_OK) then tcp_close n pcb
  else Ok (ERR_OK, n).

(** *** Connecting *)

Definition tcp_connect n (pcb : Z) (ipaddr : option Z) (port connected : Z) : res (err_t * net A W) :=
  match ipaddr with
  | None => Ok (ERR_VAL, n)
  | Some ipaddr =>
    if pcb =? NULL then Ok (ERR_VAL, n)
    else
      let* st := tcp_state_of n pcb in
      if negb (state_eqb st CLOSED) then Ok (ERR_ISCONN, n)
      else
        let* n := upd_tcp n pcb (fun t => set_remote_port port (set_remote_ip ipaddr t)) in
        let* t := tcp_at n pcb in
        let* (routed, n) :=
          if ip4_addr_isany_val (t_local_ip t) then
            let* (nif, n) := ip4_route n ipaddr in
            if nif =? NULL then Ok (false, n)
            else
              let* nf := netif_at n nif in
              let* n := upd_tcp n pcb (set_local_ip (netif_ip4_addr nf)) in Ok (true, n)
          else Ok (true, n) in
        if negb routed then Ok (ERR_RTE, n)
        else
          let old_local_port := t_local_port t in
          let* (bound, n) :=
            if old_local_port =? 0 then
              let* (port, n) := tcp_new_port n in
              let* n := upd_tcp n pcb (set_local_port port) in Ok (negb (port =? 0), n)
            else Ok (true, n) in
          if negb bound then Ok (ERR_BUF, n)
          else
            let (iss, n) := tcp_next_iss n in
            let* (mss, n) := tcp_eff_send_mss n INITIAL_MSS ipaddr in
            let* n := upd_tcp n pcb (fun t =>
              let t := set_lastack (u32 (iss - 1)) (set_snd_nxt iss (set_rcv_nxt 0 t)) in
              let t := set_snd_lbb (u32 (iss - 1)) (set_snd_wl2 (u32 (iss - 1)) t) in
              let t := set_rcv_ann_right_edge 0 (set_rcv_ann_wnd TCP_WND (set_rcv_wnd TCP_WND t)) in
              let t := set_mss mss (set_snd_wnd TCP_WND t) in
              set_connected connected (set_ssthresh TCP_WND (set_cwnd 1 t))) in
            let* (ret, n) := tcp_enqueue_flags n pcb TCP_SYN in
            if bool_decide (ret = ERR_OK) then
              let* n := upd_tcp n pcb (set_state SYN_SENT) in
              let n := if negb (old_local_port =? 0) then TCP_RMV n L_bound pcb else n in
              let* n := TCP_REG_ACTIVE n pcb in
              let* (_, n) := tcp_output n pcb in Ok (ret, n)
            else Ok (ret, n)
  end.

(** *** Allocation *)

(** [memp_malloc(MEMP_TCP_PCB)]. *)
Definition pcb_malloc n : option (Z * net A W) :=
  match tcp_pcb_pool (tcp n) with
  | [] => None
  | pcb :: pool => Some (pcb, with_tcp (set_tcp_pcb_pool pool (tcp n)) n)
  end.

(** The loop of [tcp_kill_prio]. *)
Fixpoint find_prio n (l : list Z) (mprio inactivity inactive : Z) : res Z :=
  match l with
  | [] => Ok inactive
  | pcb :: l' =>
      let* t := tcp_at n pcb in
      let idle := u32 (tcp_ticks (tcp n) - t_tmr t) in
      if (t_prio t <=? mprio) && (inactivity <=? idle) then find_prio n l' (t_prio t) idle pcb
      else find_prio n l' mprio inactivity inactive
  end.

(** The loops of [tcp_kill_state] and [tcp_kill_timewait]: the control block that satisfies
    [f] and has been idle for longest. *)
Fixpoint find_idle n (f : tcp_pcb -> bool) (l : list Z) (inactivity inactive : Z) : res Z :=
  match l with
  | [] => Ok inactive
  | pcb :: l' =>
      let* t := tcp_at n pcb in
      let idle := u32 (tcp_ticks (tcp n) - t_tmr t) in
      if f t && (inactivity <=? idle) then find_idle n f l' idle pcb else find_idle n f l' inactivity inactive
  end.

Definition tcp_kill_prio n (prio : Z) : res (net A W) :=
  let* inactive := find_prio n (tcp_active_pcbs (tcp n)) (Z.min TCP_PRIO_MAX prio) 0 NULL in
  if negb (inactive =? NULL) then tcp_abort n inactive else Ok n.

Definition tcp_kill_state n (state : tcp_state) : res (net A W) :=
  assert* state_eqb state CLOSING || state_eqb state LAST_ACK in
  let* inactive := find_idle n (fun t => state_eqb (t_state t) state) (tcp_active_pcbs (tcp n)) 0 NULL in
  if negb (inactive =? NULL) then tcp_abandon n inactive false else Ok n.

Definition tcp_kill_timewait n : res (net A W) :=
  let* inactive := find_idle n (fun _ => true) (tcp_tw_pcbs (tcp n)) 0 NULL in
  if negb (inactive =? NULL) then tcp_abort n inactive else Ok n.

(** One attempt after the other; the first that succeeds ends the series. *)
Fixpoint malloc_killing n (kills : list (net A W -> res (net A W))) : res (option (Z * net A W) * net A W) :=
  match pcb_malloc n, kills with
  | Some r, _ => Ok (Some r, n)
  | None, [] => Ok (None, n)
  | None, kill :: kills' => let* n := kill n in malloc_killing n kills'
  end.

Definition tcp_pcb_init (g : tcp_globals) (prio : Z) : tcp_pcb :=
  let t := set_snd_buf TCP_SND_BUF (set_prio prio tcp_pcb_zero) in
  let t := set_ttl TCP_TTL (set_rcv_wnd TCP_WND (set_rcv_ann_wnd TCP_WND t)) in
  let t := set_sv (3000 / TCP_SLOW_INTERVAL) (set_rto (3000 / TCP_SLOW_INTERVAL) (set_mss INITIAL_MSS t)) in
  let t := set_tmr (tcp_ticks g) (set_cwnd 1 (set_rtime (-1) t)) in
  set_keep_idle TCP_KEEPIDLE_DEFAULT (set_recv tcp_recv_null_fn (set_last_timer (tcp_timer_ctr g) t)).

Definition tcp_alloc n (prio : Z) : res (Z * net A W) :=
  let* (r, n) := malloc_killing n [tcp_kill_timewait; (fun n => tcp_kill_state n LAST_ACK);
                                   (fun n => tcp_kill_state n CLOSING); (fun n => tcp_kill_prio n prio)] in
  match r with
  | None => Ok (NULL, n)
  | Some (pcb, n) => Ok (pcb, put_tcp n pcb (tcp_pcb_init (tcp n) prio))
  end.

Definition tcp_new n : res (Z * net A W) := tcp_alloc n TCP_PRIO_NORMAL.
Definition tcp_new_ip_type n (type : Z) : res (Z * net A W) := tcp_alloc n TCP_PRIO_NORMAL.

(** *** Arguments and callbacks *)

Definition tcp_setprio n (pcb prio : Z) : res (net A W) :=
  match listen_heap (tcp n) !! pcb with
  | Some l => Ok (put_listen n pcb (mk_listen (l_local_ip l) (l_so_options l) (l_tos l) (l_ttl l) (l_callback_arg l)
                    prio (l_local_port l) (l_accept l) (l_backlog l) (l_accepts_pending l)))
  | None => upd_tcp n pcb (set_prio prio)
  end.

Definition tcp_arg n (pcb arg : Z) : res (net A W) :=
  if pcb =? NULL then Ok n
  else
    match listen_heap (tcp n) !! pcb with
    | Some l => Ok (put_listen n pcb (mk_listen (l_local_ip l) (l_so_options l) (l_tos l) (l_ttl l) arg
                      (l_prio l) (l_local_port l) (l_accept l) (l_backlog l) (l_accepts_pending l)))
    | None => upd_tcp n pcb (set_callback_arg arg)
    end.

(** The assertion that [pcb] does not listen, and an assignment. *)
Definition set_unless_listen n (pcb : Z) (f : tcp_pcb -> tcp_pcb) : res (net A W) :=
  let* st := tcp_state_of n pcb in
  assert* negb (state_eqb st LISTEN) in
  upd_tcp n pcb f.

Definition tcp_recv n (pcb recv : Z) : res (net A W) :=
  if pcb =? NULL then Ok n else set_unless_listen n pcb (set_recv recv).
Definition tcp_sent n (pcb sent : Z) : res (net A W) :=
  if pcb =? NULL then Ok n else set_unless_listen n pcb (set_sent sent).
Definition tcp_err n (pcb err : Z) : res (net A W) :=
  if pcb =? NULL then Ok n else set_unless_listen n pcb (set_errf err).
Definition tcp_poll n (pcb poll interval : Z) : res (net A W) :=
  set_unless_listen n pcb (fun t => set_pollinterval interval (set_poll poll t)).

Definition tcp_accept n (pcb accept : Z) : res (net A W) :=
  if pcb =? NULL then Ok n
  else
    let* st := tcp_state_of n pcb in
    if state_eqb st LISTEN then let* l := listen_at n pcb in Ok (put_listen n pcb (set_l_accept accept l)) else Ok n.

(** *** Calls of the application *)

(** [pcb->recv(pcb->callback_arg, pcb, p, err)]. *)
Definition call_recv n (f arg pcb p : Z) (err : err_t) : res (err_t * net A W) :=
  if f =? tcp_recv_null_fn then tcp_recv_null n arg pcb p err else recv_fn f n arg pcb p err.

Definition TCP_EVENT_RECV n (pcb p : Z) (err : err_t) : res (err_t * net A W) :=
  let* t := tcp_at n pcb in
  if negb (t_recv t =? NULL) then call_recv n (t_recv t) (t_callback_arg t) pcb p err
  else tcp_recv_null n NULL pcb p err.

Definition TCP_EVENT_CLOSED n (pcb : Z) : res (err_t * net A W) :=
  let* t := tcp_at n pcb in
  if negb (t_recv t =? NULL) then call_recv n (t_recv t) (t_callback_arg t) pcb NULL ERR_OK else Ok (ERR_OK, n).

Definition TCP_EVENT_SENT n (pcb space : Z) : res (err_t * net A W) :=
  let* t := tcp_at n pcb in
  if negb (t_sent t =? NULL) then sent_fn (t_sent t) n (t_callback_arg t) pcb space else Ok (ERR_OK, n).

Definition TCP_EVENT_CONNECTED n (pcb : Z) (err : err_t) : res (err_t * net A W) :=
  let* t := tcp_at n pcb in
  if negb (t_connected t =? NULL) then connected_fn (t_connected t) n (t_callback_arg t) pcb err else Ok (ERR_OK, n).

Definition TCP_EVENT_POLL n (pcb : Z) : res (err_t * net A W) :=
  let* t := tcp_at n pcb in
  if negb (t_poll t =? NULL) then poll_fn (t_poll t) n (t_callback_arg t) pcb else Ok (ERR_OK, n).

Definition TCP_EVENT_ACCEPT n (lpcb pcb arg : Z) (err : err_t) : res (err_t * net A W) :=
  if lpcb =? NULL then Ok (ERR_ARG, n)
  else
    let* l := listen_at n lpcb in
    if l_accept l =? NULL then Ok (ERR_ARG, n)
    else if l_accept l =? tcp_accept_null_fn then tcp_accept_null n arg pcb err
    else accept_fn (l_accept l) n arg pcb err.

(** Data that the application refused before is passed to it once more. *)
Definition tcp_process_refused_data n (pcb : Z) : res (err_t * net A W) :=
  let* t := tcp_at n pcb in
  let refused_data := t_refused_data t in
  let* b := pbuf_at n refused_data in
  let refused_flags := flags b in
  let* (err, n) := TCP_EVENT_RECV (put_tcp n pcb (set_refused_data NULL t)) pcb refused_data ERR_OK in
  if bool_decide (err = ERR_OK) then
    if has refused_flags PBUF_FLAG_TCP_FIN then
      let* n := upd_tcp n pcb (fun t => if negb (t_rcv_wnd t =? TCP_WND) then set_rcv_wnd (u16 (t_rcv_wnd t + 1)) t else t) in
      let* (err, n) := TCP_EVENT_CLOSED n pcb in
      if bool_decide (err = ERR_ABRT) then Ok (ERR_ABRT, n) else Ok (ERR_OK, n)
    else Ok (ERR_OK, n)
  else if bool_decide (err = ERR_ABRT) then Ok (ERR_ABRT, n)
  else let* n := upd_tcp n pcb (set_refused_data refused_data) in Ok (ERR_INPROGRESS, n).

(** *** The timers *)

(** One control block of [tcp_fasttmr]: the next one, or [None] for [goto tcp_fasttmr_start]. *)
Definition fast_pcb n (pcb : Z) : res (option Z * net A W) :=
  let* n := upd_tcp n pcb (set_last_timer (tcp_timer_ctr (tcp n))) in
  let* t := tcp_at n pcb in
  let* n :=
    if has (t_flags t) TF_ACK_DELAY then
      let* n := tcp_ack_now n pcb in
      let* (_, n) := tcp_output n pcb in
      clear_flag n pcb (Z.lor TF_ACK_DELAY TF_ACK_NOW)
    else Ok n in
  let next := pcb_next pcb (tcp_active_pcbs (tcp n)) in
  let* t := tcp_at n pcb in
  if negb (t_refused_data t =? NULL) then
    let* (_, n) := tcp_process_refused_data (with_tcp (set_tcp_active_pcbs_changed false (tcp n)) n) pcb in
    Ok (if tcp_active_pcbs_changed (tcp n) then None else Some next, n)
  else Ok (Some next, n).

Fixpoint fast_loop (fuel : nat) n (pcb : Z) : res (net A W) :=
  if pcb =? NULL then Ok n
  else
    match fuel with
    | O => Fault FFuel
    | S fuel' =>
        let* t := tcp_at n pcb in
        if negb (t_last_timer t =? tcp_timer_ctr (tcp n)) then
          let* (r, n) := fast_pcb n pcb in
          match r with
          | Some next => fast_loop fuel' n next
          | None => fast_loop fuel' n (hd NULL (tcp_active_pcbs (tcp n)))
          end
        else fast_loop fuel' n (pcb_next pcb (tcp_active_pcbs (tcp n)))
    end.

(** [fuel] bounds the rounds of the loop, of which there are more than control blocks when the
    callbacks change the list. *)
Definition tcp_fasttmr (fuel : nat) n : res (net A W) :=
  let n := with_tcp (set_tcp_timer_ctr (u8 (tcp_timer_ctr (tcp n) + 1)) (tcp n)) n in
  fast_loop fuel n (hd NULL (tcp_active_pcbs (tcp n))).

(** The retransmission and persist timers of a control block that has not been tried too
    often. *)
Definition slow_rexmit n (pcb : Z) : res (net A W) :=
  let* t := tcp_at n pcb in
  if 0 <? t_persist_backoff t then
    let* backoff_cnt := array_at tcp_persist_backoff (t_persist_backoff t - 1) in
    let t := if t_persist_cnt t <? backoff_cnt then set_persist_cnt (u8 (t_persist_cnt t + 1)) t else t in
    let n := put_tcp n pcb t in
    if backoff_cnt <=? t_persist_cnt t then
      let* (err, n) := tcp_zero_window_probe n pcb in
      if bool_decide (err = ERR_OK) then
        upd_tcp n pcb (fun t =>
          let t := set_persist_cnt 0 t in
          if t_persist_backoff t <? Z.of_nat (length tcp_persist_backoff)
          then set_persist_backoff (t_persist_backoff t + 1) t else t)
      else Ok n
    else Ok n
  else
    let t := if 0 <=? t_rtime t then set_rtime (s16 (t_rtime t + 1)) t else t in
    let n := put_tcp n pcb t in
    if negb (is_nil (t_unacked t)) && (t_rto t <=? t_rtime t) then
      let* t :=
        if negb (state_eqb (t_state t) SYN_SENT) then
          let* k := array_at tcp_backoff (t_nrtx t) in
          Ok (set_rto (s16 (Z.shiftl (Z.shiftr (t_sa t) 3 + t_sv t) k)) t)
        else Ok t in
      let ssthresh := Z.shiftr (Z.min (t_cwnd t) (t_snd_wnd t)) 1 in
      let ssthresh := if ssthresh <? u16 (Z.shiftl (t_mss t) 1) then u16 (Z.shiftl (t_mss t) 1) else ssthresh in
      let t := set_cwnd (t_mss t) (set_ssthresh ssthresh (set_rtime 0 t)) in
      tcp_rexmit_rto (put_tcp n pcb t) pcb
    else Ok n.

(** The keepalive timer: [true] when the peer is given up. *)
Definition slow_keepalive n (pcb : Z) : res (bool * net A W) :=
  let* t := tcp_at n pcb in
  let idle := u32 (tcp_ticks (tcp n) - t_tmr t) in
  if has (t_so_options t) SOF_KEEPALIVE
     && (state_eqb (t_state t) ESTABLISHED || state_eqb (t_state t) CLOSE_WAIT) then
    if u32 (t_keep_idle t + TCP_MAXIDLE) / TCP_SLOW_INTERVAL <? idle then Ok (true, n)
    else if u32 (t_keep_idle t + t_keep_cnt_sent t * TCP_KEEPINTVL_DEFAULT) / TCP_SLOW_INTERVAL <? idle then
      let* (err, n) := tcp_keepalive n pcb in
      let* n := if bool_decide (err = ERR_OK)
                then upd_tcp n pcb (fun t => set_keep_cnt_sent (u8 (t_keep_cnt_sent t + 1)) t) else Ok n in
      Ok (false, n)
    else Ok (false, n)
  else Ok (false, n).

(** The timers of one active control block: whether it is to be removed, and reset. *)
Definition slow_timers n (pcb : Z) : res (bool * bool * net A W) :=
  let* t := tcp_at n pcb in
  let exhausted := (state_eqb (t_state t) SYN_SENT && (t_nrtx t =? TCP_SYNMAXRTX)) || (t_nrtx t =? TCP_MAXRTX) in
  let* n := if exhausted then Ok n else slow_rexmit n pcb in
  let* t := tcp_at n pcb in
  let idle := u32 (tcp_ticks (tcp n) - t_tmr t) in
  let fin_wait := state_eqb (t_state t) FIN_WAIT_2 && has (t_flags t) TF_RXCLOSED
                  && (TCP_FIN_WAIT_TIMEOUT / TCP_SLOW_INTERVAL <? idle) in
  let* (dead, n) := slow_keepalive n pcb in
  let* t := tcp_at n pcb in
  let* n :=
    if negb (is_nil (t_ooseq t)) && (u32 (t_rto t * TCP_OOSEQ_TIMEOUT) <=? idle) then
      let* n := tcp_segs_free custom_free n (t_ooseq t) in upd_tcp n pcb (set_ooseq [])
    else Ok n in
  let syn_rcvd := state_eqb (t_state t) SYN_RCVD && (TCP_SYN_RCVD_TIMEOUT / TCP_SLOW_INTERVAL <? idle) in
  let last_ack := state_eqb (t_state t) LAST_ACK && (2 * TCP_MSL / TCP_SLOW_INTERVAL <? idle) in
  Ok (exhausted || fin_wait || dead || syn_rcvd || last_ack, dead, n).

(** An active control block is removed: the next one, or [None] for [goto tcp_slowtmr_start]. *)
Definition slow_remove n (prev pcb : Z) (pcb_reset : bool) : res (option Z * net A W) :=
  let* t := tcp_at n pcb in
  let err_fn := t_errf t in
  let* n := tcp_pcb_purge n pcb in
  let l := tcp_active_pcbs (tcp n) in
  let next := pcb_next pcb l in
  let* n :=
    if negb (prev =? NULL) then
      assert* negb (pcb =? hd NULL l) in
      Ok (with_tcp (set_tcp_active_pcbs (relink prev pcb l) (tcp n)) n)
    else
      assert* (hd NULL l =? pcb) in
      Ok (with_tcp (set_tcp_active_pcbs (tl l) (tcp n)) n) in
  let* t := tcp_at n pcb in
  let* n :=
    if pcb_reset
    then tcp_rst n (t_snd_nxt t) (t_rcv_nxt t) (t_local_ip t) (t_remote_ip t) (t_local_port t) (t_remote_port t)
    else Ok n in
  let* n := free_tcp n pcb in
  let n := with_tcp (set_tcp_active_pcbs_changed false (tcp n)) n in
  let* n := tcp_event_err n err_fn (t_callback_arg t) ERR_ABRT in
  Ok (if tcp_active_pcbs_changed (tcp n) then None else Some next, n).

(** An active control block is kept: the poll timer.  [true] is [goto tcp_slowtmr_start]. *)
Definition slow_poll n (pcb : Z) : res (bool * net A W) :=
  let* t := tcp_at n pcb in
  let polltmr := u8 (t_polltmr t + 1) in
  if t_pollinterval t <=? polltmr then
    let n := put_tcp n pcb (set_polltmr 0 t) in
    let n := with_tcp (set_tcp_active_pcbs_changed false (tcp n)) n in
    let* (err, n) := TCP_EVENT_POLL n pcb in
    if tcp_active_pcbs_changed (tcp n) then Ok (true, n)
    else if bool_decide (err = ERR_OK) then let* (_, n) := tcp_output n pcb in Ok (false, n)
    else Ok (false, n)
  else Ok (false, put_tcp n pcb (set_polltmr polltmr t)).

(** The loop over the active control blocks.  A control block that has been processed is
    passed over without becoming [prev]. *)
Fixpoint slow_loop (fuel : nat) n (prev pcb : Z) : res (net A W) :=
  if pcb =? NULL then Ok n
  else
    match fuel with
    | O => Fault FFuel
    | S fuel' =>
        let* st := tcp_state_of n pcb in
        assert* negb (state_eqb st CLOSED) in
        assert* negb (state_eqb st LISTEN) in
        assert* negb (state_eqb st TIME_WAIT) in
        let* t := tcp_at n pcb in
        if t_last_timer t =? tcp_timer_ctr (tcp n)
        then slow_loop fuel' n prev (pcb_next pcb (tcp_active_pcbs (tcp n)))
        else
          let n := put_tcp n pcb (set_last_timer (tcp_timer_ctr (tcp n)) t) in
          let* (pcb_remove, pcb_reset, n) := slow_timers n pcb in
          if (pcb_remove : bool) then
            let* (r, n) := slow_remove n prev pcb pcb_reset in
            match r with
            | Some next => slow_loop fuel' n prev next
            | None => slow_loop fuel' n NULL (hd NULL (tcp_active_pcbs (tcp n)))
            end
          else
            let next := pcb_next pcb (tcp_active_pcbs (tcp n)) in
            let* (again, n) := slow_poll n pcb in
            if (again : bool) then slow_loop fuel' n NULL (hd NULL (tcp_active_pcbs (tcp n)))
            else slow_loop fuel' n pcb next
    end.

(** The loop over the control blocks in TIME-WAIT. *)
Fixpoint tw_loop (fuel : nat) n (prev pcb : Z) : res (net A W) :=
  if pcb =? NULL then Ok n
  else
    match fuel with
    | O => Fault FFuel
    | S fuel' =>
        let* t := tcp_at n pcb in
        assert* state_eqb (t_state t) TIME_WAIT in
        if 2 * TCP_MSL / TCP_SLOW_INTERVAL <? u32 (tcp_ticks (tcp n) - t_tmr t) then
          let* n := tcp_pcb_purge n pcb in
          let l := tcp_tw_pcbs (tcp n) in
          let next := pcb_next pcb l in
          let* n :=
            if negb (prev =? NULL) then
              assert* negb (pcb =? hd NULL l) in
              Ok (with_tcp (set_tcp_tw_pcbs (relink prev pcb l) (tcp n)) n)
            else
              assert* (hd NULL l =? pcb) in
              Ok (with_tcp (set_tcp_tw_pcbs (tl l) (tcp n)) n) in
          let* n := free_tcp n pcb in
          tw_loop fuel' n prev next
        else tw_loop fuel' n pcb (pcb_next pcb (tcp_tw_pcbs (tcp n)))
    end.

Definition tcp_slowtmr (fuel : nat) n : res (net A W) :=
  let n := with_tcp (set_tcp_ticks (u32 (tcp_ticks (tcp n) + 1)) (tcp n)) n in
  let n := with_tcp (set_tcp_timer_ctr (u8 (tcp_timer_ctr (tcp n) + 1)) (tcp n)) n in
  let* n := slow_loop fuel n NULL (hd NULL (tcp_active_pcbs (tcp n))) in
  tw_loop (length (tcp_tw_pcbs (tcp n))) n NULL (hd NULL (tcp_tw_pcbs (tcp n))).

Definition tcp_tmr (fuel : nat) n : res (net A W) :=
  let* n := tcp_fasttmr fuel n in
  let n := with_tcp (set_tcp_timer (u8 (tcp_timer (tcp n) + 1)) (tcp n)) n in
  if Z.odd (tcp_timer (tcp n)) then tcp_slowtmr fuel n else Ok n.

(** The loop of [tcp_txnow]. *)
Fixpoint txnow_loop n (l : list Z) : res (net A W) :=
  match l with
  | [] => Ok n
  | pcb :: l' =>
      let* t := tcp_at n pcb in
      let* n := if has (t_flags t) TF_NAGLEMEMERR then let* (_, n) := tcp_output n pcb in Ok n else Ok n in
      txnow_loop n l'
  end.

Definition tcp_txnow n : res (net A W) := txnow_loop n (tcp_active_pcbs (tcp n)).

(** *** A new address of an interface *)

Fixpoint tcp_netif_ip_addr_changed_pcblist (fuel : nat) n (w : pcblist) (old_addr pcb : Z) : res (net A W) :=
  if pcb =? NULL then Ok n
  else
    match fuel with
    | O => Fault FFuel
    | S fuel' =>
        let* t := tcp_at n pcb in
        let next := pcb_next pcb (pcbs_of (tcp n) w) in
        let* n := if t_local_ip t =? old_addr then tcp_abort n pcb else Ok n in
        tcp_netif_ip_addr_changed_pcblist fuel' n w old_addr next
    end.

Fixpoint listen_addr_changed n (l : list Z) (old_addr new_addr : Z) : res (net A W) :=
  match l with
  | [] => Ok n
  | lpcb :: l' =>
      let* x := listen_at n lpcb in
      let n := if l_local_ip x =? old_addr then put_listen n lpcb (set_l_local_ip new_addr x) else n in
      listen_addr_changed n l' old_addr new_addr
  end.

Definition tcp_netif_ip_addr_changed n (old_addr new_addr : option Z) : res (net A W) :=
  if ip4_addr_isany_ptr old_addr then Ok n
  else
    let old_addr := default IPADDR_ANY old_addr in
    let* n := tcp_netif_ip_addr_changed_pcblist (length (tcp_active_pcbs (tcp n))) n L_active old_addr
                (hd NULL (tcp_active_pcbs (tcp n))) in
    let* n := tcp_netif_ip_addr_changed_pcblist (length (tcp_bound_pcbs (tcp n))) n L_bound old_addr
                (hd NULL (tcp_bound_pcbs (tcp n))) in
    if ip4_addr_isany_ptr new_addr then Ok n
    else listen_addr_changed n (tcp_listen_pcbs (tcp n)) old_addr (default IPADDR_ANY new_addr).

End Tcp.
