(* ===== verification/TcpRecv.v ===== *)
(** * Received segments: lwip/src/core/tcp_in.c, options, acknowledgements and data

    [tcp_parseopt], [tcp_oos_insert_segment] and [tcp_receive].  The header of a received
    segment is in memory with its numbers in host byte order (except for the word of the
    flags); [inseg] and the other static variables of the file are [in_of n]. *)

From S2P Require Import Prelude Def Ip4Addr InetChksum Mem Pbuf TcpData Net Ip4 TcpBase TcpOut Tcp.

(** ** Definitions *)

Definition set_tcph_flags_off (m : memory) (hdr f : Z) : memory :=
  TCPH_FLAGS_SET m hdr (del_flag (TCPH_FLAGS m hdr) f).

(** The numbers of a received segment: its first, and the one behind its data. *)
Definition rseg_seqno (m : memory) (s : tcp_seg) : Z := tcph_seqno m (seg_tcphdr s).
Definition rseg_end (m : memory) (s : tcp_seg) : Z := u32 (rseg_seqno m s + seg_len s).
Definition rseg_fin (m : memory) (s : tcp_seg) : bool := has (TCPH_FLAGS m (seg_tcphdr s)) TCP_FIN.
Definition rseg_syn (m : memory) (s : tcp_seg) : bool := has (TCPH_FLAGS m (seg_tcphdr s)) TCP_SYN.

(** *** The window of the peer *)

(** The acknowledgement is newer than the one of the last update, or as new with a larger
    window. *)
Definition wnd_newer (t : tcp_pcb) (seqno ackno wnd : Z) : bool :=
  TCP_SEQ_LT (t_snd_wl1 t) seqno
  || ((t_snd_wl1 t =? seqno) && TCP_SEQ_LT (t_snd_wl2 t) ackno)
  || ((t_snd_wl2 t =? ackno) && (t_snd_wnd t <? wnd)).

Definition update_snd_wnd (t : tcp_pcb) (seqno ackno wnd : Z) : tcp_pcb :=
  if wnd_newer t seqno ackno wnd then
    let t := set_snd_wnd wnd t in
    let t := if t_snd_wnd_max t <? wnd then set_snd_wnd_max wnd t else t in
    let t := set_snd_wl2 ackno (set_snd_wl1 seqno t) in
    if wnd =? 0 then
      if t_persist_backoff t =? 0 then set_persist_backoff 1 (set_persist_cnt 0 t) else t
    else if 0 <? t_persist_backoff t then set_persist_backoff 0 t else t
  else t.

(** *** The congestion window *)

(** [pcb->cwnd += pcb->mss], unless that wraps. *)
Definition grow_cwnd (t : tcp_pcb) : tcp_pcb :=
  if t_cwnd t <? u16 (t_cwnd t + t_mss t) then set_cwnd (u16 (t_cwnd t + t_mss t)) t else t.

(** Slow start and congestion avoidance; a division by 0 is a fault. *)
Definition open_cwnd (t : tcp_pcb) : res tcp_pcb :=
  if t_cwnd t <? t_ssthresh t then Ok (grow_cwnd t)
  else if t_cwnd t =? 0 then Fault FBadAccess
  else
    let new_cwnd := u16 (t_cwnd t + t_mss t * t_mss t / t_cwnd t) in
    Ok (if t_cwnd t <? new_cwnd then set_cwnd new_cwnd t else t).

(** *** The round-trip time *)

Definition rtt_update (t : tcp_pcb) (ticks : Z) : tcp_pcb :=
  let m := s16 (s16 (ticks - t_rttest t) - Z.shiftr (t_sa t) 3) in
  let sa := s16 (t_sa t + m) in
  let m := if m <? 0 then s16 (- m) else m in
  let m := s16 (m - Z.shiftr (t_sv t) 2) in
  let sv := s16 (t_sv t + m) in
  set_rttest 0 (set_rto (s16 (Z.shiftr sa 3 + sv)) (set_sv sv (set_sa sa t))).

Section TcpRecv.
Context {A W : Type} `{AllocOps A} `{FragPool A} `{TcpApp A W}.
Variable stale_flags : Z -> Z.
Variable custom_free : Z -> Z -> Pbuf.state A -> res (Pbuf.state A).
Variable callback_ok : bool.
Variable netif_output : net A W -> Z -> Z -> Z -> res (err_t * net A W).
Implicit Types n : net A W.

Local Abbreviation tcp_send_empty_ack := (TcpOut.tcp_send_empty_ack stale_flags custom_free callback_ok netif_output).
Local Abbreviation seg_free := (tcp_seg_free custom_free).
Local Abbreviation segs_free := (tcp_segs_free custom_free).

(** *** Options *)

Definition tcp_getoptbyte n : Z * net A W :=
  let i := in_of n in
  let n' := upd_in n (set_i_optidx (u16 (i_optidx i + 1))) in
  if (i_opt2 i =? NULL) || (i_optidx i <? i_opt1len i) then (rd8 (mem n) (i_tcphdr i + TCP_HLEN + i_optidx i), n')
  else (rd8 (mem n) (i_opt2 i + u8 (i_optidx i - i_opt1len i)), n').

Definition mss_of_option (mss : Z) : Z := if (TCP_MSS <? mss) || (mss =? 0) then TCP_MSS else mss.

Fixpoint parseopt_loop (fuel : nat) n (pcb : Z) : res (net A W) :=
  if i_optidx (in_of n) <? i_optlen (in_of n) then
    match fuel with
    | O => Fault FFuel
    | S fuel' =>
        let (opt, n) := tcp_getoptbyte n in
        if opt =? LWIP_TCP_OPT_EOL then Ok n
        else if opt =? LWIP_TCP_OPT_NOP then parseopt_loop fuel' n pcb
        else if opt =? LWIP_TCP_OPT_MSS then
          let (len, n) := tcp_getoptbyte n in
          if negb (len =? LWIP_TCP_OPT_LEN_MSS)
             || (i_optlen (in_of n) <? i_optidx (in_of n) - 2 + LWIP_TCP_OPT_LEN_MSS) then Ok n
          else
            let (hi, n) := tcp_getoptbyte n in
            let (lo, n) := tcp_getoptbyte n in
            let mss := Z.lor (u16 (Z.shiftl hi 8)) lo in
            let* n := upd_tcp n pcb (set_mss (mss_of_option mss)) in
            parseopt_loop fuel' n pcb
        else
          let (data, n) := tcp_getoptbyte n in
          if data <? 2 then Ok n
          else parseopt_loop fuel' (upd_in n (fun i => set_i_optidx (u16 (i_optidx i + data - 2)) i)) pcb
    end
  else Ok n.

(** Every round takes a byte of the options at least. *)
Definition tcp_parseopt n (pcb : Z) : res (net A W) :=
  if negb (i_optlen (in_of n) =? 0)
  then parseopt_loop (Z.to_nat (i_optlen (in_of n))) (upd_in n (set_i_optidx 0)) pcb
  else Ok n.

(** *** Acknowledgements *)

(** A segment leaves the queues: the number of pbufs queued, the bytes acknowledged, and the
    segment itself.  [t] is the control block without the segment. *)
Definition free_acked n (pcb : Z) (t : tcp_pcb) (next : tcp_seg) : res (net A W) :=
  let* clen := pbuf_clen (packets n) (seg_p next) in
  assert* (clen <=? t_snd_queuelen t) in
  let t := set_snd_queuelen (t_snd_queuelen t - clen) t in
  let n := put_tcp n pcb t in
  let n := upd_in n (fun i => set_i_recv_acked (u16 (i_recv_acked i + seg_len next)) i) in
  let* n := seg_free n next in
  assert* queues_valid t in
  Ok n.

(** The number behind a segment of the sending side. *)
Definition seg_end (m : memory) (s : tcp_seg) : Z := u32 (seg_seqno m s + TCP_TCPLEN m s).

(** The loop over [pcb->unacked]. *)
Fixpoint ack_unacked n (pcb : Z) (l : list tcp_seg) : res (net A W) :=
  match l with
  | [] => Ok n
  | next :: l' =>
      if TCP_SEQ_LEQ (seg_end (mem n) next) (i_ackno (in_of n)) then
        let* t := tcp_at n pcb in
        let* n := free_acked n pcb (set_unacked l' t) next in
        ack_unacked n pcb l'
      else Ok n
  end.

(** The loop over [pcb->unsent]: segments that were to be sent again. *)
Fixpoint ack_unsent n (pcb : Z) (l : list tcp_seg) : res (net A W) :=
  match l with
  | [] => Ok n
  | next :: l' =>
      let* t := tcp_at n pcb in
      if TCP_SEQ_BETWEEN (i_ackno (in_of n)) (seg_end (mem n) next) (t_snd_nxt t) then
        let t := set_unsent l' t in
        let t := if is_nil l' then set_unsent_oversize 0 t else t in
        let* n := free_acked n pcb t next in
        ack_unsent n pcb l'
      else Ok n
  end.

(** An acknowledgement of nothing new: [right_wnd_edge] is the edge before this segment. *)
Definition dupack n (pcb right_wnd_edge : Z) : res (net A W) :=
  let* t := tcp_at n pcb in
  let i := in_of n in
  if (i_tcplen i =? 0) && (u32 (t_snd_wl2 t + t_snd_wnd t) =? right_wnd_edge) && (0 <=? t_rtime t)
     && (t_lastack t =? i_ackno i) then
    let t := if t_dupacks t <? u8 (t_dupacks t + 1) then set_dupacks (t_dupacks t + 1) t else t in
    let t := if 3 <? t_dupacks t then grow_cwnd t else t in
    let n := put_tcp n pcb t in
    if t_dupacks t =? 3 then tcp_rexmit_fast n pcb else Ok n
  else Ok (put_tcp n pcb (set_dupacks 0 t)).

(** An acknowledgement of something new. *)
Definition newack n (pcb : Z) : res (net A W) :=
  let* t := tcp_at n pcb in
  let t := if has (t_flags t) TF_INFR then set_cwnd (t_ssthresh t) (set_flags (del_flag (t_flags t) TF_INFR) t) else t in
  let t := set_rto (s16 (Z.shiftr (t_sa t) 3 + t_sv t)) (set_nrtx 0 t) in
  let t := set_lastack (i_ackno (in_of n)) (set_dupacks 0 t) in
  let* t := if state_num ESTABLISHED <=? state_num (t_state t) then open_cwnd t else Ok t in
  let* n := ack_unacked (put_tcp n pcb t) pcb (t_unacked t) in
  upd_tcp n pcb (fun t => set_polltmr 0 (set_rtime (if is_nil (t_unacked t) then -1 else 0) t)).

Definition receive_ack n (pcb : Z) : res (net A W) :=
  let* t := tcp_at n pcb in
  let i := in_of n in
  let right_wnd_edge := u32 (t_snd_wnd t + t_snd_wl2 t) in
  let t := update_snd_wnd t (i_seqno i) (i_ackno i) (tcph_wnd (mem n) (i_tcphdr i)) in
  let n := put_tcp n pcb t in
  let* n :=
    if TCP_SEQ_LEQ (i_ackno i) (t_lastack t) then dupack n pcb right_wnd_edge
    else if TCP_SEQ_BETWEEN (i_ackno i) (u32 (t_lastack t + 1)) (t_snd_nxt t) then newack n pcb
    else let* (_, n) := tcp_send_empty_ack n pcb in Ok n in
  let* t := tcp_at n pcb in
  let* n := ack_unsent n pcb (t_unsent t) in
  upd_tcp n pcb (fun t =>
    let t := set_snd_buf (u16 (t_snd_buf t + i_recv_acked (in_of n))) t in
    if negb (t_rttest t =? 0) && TCP_SEQ_LT (t_rtseq t) (i_ackno i) then rtt_update t (tcp_ticks (tcp n)) else t).

(** *** Data out of order *)

(** [cseg] comes before the segments [next] of the queue: those that it covers are freed, and
    it is cut where the first of the others starts. *)
Fixpoint oos_drop_covered n (cseg : tcp_seg) (next : list tcp_seg) : res (list tcp_seg * net A W) :=
  match next with
  | [] => Ok ([], n)
  | s :: next' =>
      if TCP_SEQ_GEQ (u32 (i_seqno (in_of n) + seg_len cseg)) (rseg_end (mem n) s) then
        let n := if rseg_fin (mem n) s then with_mem (TCPH_SET_FLAG (mem n) (seg_tcphdr cseg) TCP_FIN) n else n in
        let* n := seg_free n s in
        oos_drop_covered n cseg next'
      else Ok (next, n)
  end.

Definition tcp_oos_insert_segment n (cseg : tcp_seg) (next : list tcp_seg) : res (list tcp_seg * net A W) :=
  if rseg_fin (mem n) cseg then let* n := segs_free n next in Ok ([cseg], n)
  else
    let* (next, n) := oos_drop_covered n cseg next in
    let seqno := i_seqno (in_of n) in
    match next with
    | s :: _ =>
        if TCP_SEQ_GT (u32 (seqno + seg_len cseg)) (rseg_seqno (mem n) s) then
          let l := u16 (rseg_seqno (mem n) s - seqno) in
          let* p := pbuf_realloc custom_free (packets n) (seg_p cseg) l in
          Ok (set_seg_len l cseg :: next, with_packets p n)
        else Ok (cseg :: next, n)
    | [] => Ok ([cseg], n)
    end.

(** [s->len = (u16_t)(seqno - s->tcphdr->seqno); pbuf_realloc(s->p, s->len)], when the segment
    [s] reaches beyond [seqno]. *)
Definition trim_before n (s : tcp_seg) : res (tcp_seg * net A W) :=
  let seqno := i_seqno (in_of n) in
  if TCP_SEQ_GT (rseg_end (mem n) s) seqno then
    let l := u16 (seqno - rseg_seqno (mem n) s) in
    let* p := pbuf_realloc custom_free (packets n) (seg_p s) l in
    Ok (set_seg_len l s, with_packets p n)
  else Ok (s, n).

(** The last segment of the queue is cut at the end of the window. *)
Definition trim_to_wnd n (pcb : Z) (s : tcp_seg) : res (tcp_seg * net A W) :=
  let* t := tcp_at n pcb in
  let i := in_of n in
  let edge := u32 (t_rcv_nxt t + t_rcv_wnd t) in
  if TCP_SEQ_GT (u32 (i_tcplen i + i_seqno i)) edge then
    let n := if rseg_fin (mem n) s then with_mem (set_tcph_flags_off (mem n) (seg_tcphdr s) TCP_FIN) n else n in
    let s := set_seg_len (u16 (edge - i_seqno i)) s in
    let* p := pbuf_realloc custom_free (packets n) (seg_p s) (seg_len s) in
    let n := with_packets p n in
    let tcplen := u16 (TCP_TCPLEN (mem n) s) in
    let n := upd_in n (set_i_tcplen tcplen) in
    assert* (u32 (i_seqno i + tcplen) =? edge) in
    Ok (s, n)
  else Ok (s, n).

(** The loop over [pcb->ooseq]: [front] is the part behind it, whose last element is [prev],
    and [rest] starts with [next]. *)
Fixpoint oos_loop n (pcb : Z) (front rest : list tcp_seg) : res (list tcp_seg * net A W) :=
  match rest with
  | [] => Ok (front, n)
  | next :: rest' =>
      let i := in_of n in
      let seqno := i_seqno i in
      let nseq := rseg_seqno (mem n) next in
      if seqno =? nseq then
        if seg_len next <? seg_len (i_inseg i) then
          let* (c, n) := tcp_seg_copy n (i_inseg i) in
          match c with
          | None => Ok (front ++ rest, n)
          | Some cseg => let* (l, n) := tcp_oos_insert_segment n cseg rest in Ok (front ++ l, n)
          end
        else Ok (front ++ rest, n)
      else
        let here :=
          match last front with
          | None => TCP_SEQ_LT seqno nseq
          | Some prev => TCP_SEQ_BETWEEN seqno (u32 (rseg_seqno (mem n) prev + 1)) (u32 (nseq - 1))
          end in
        if here then
          let* (c, n) := tcp_seg_copy n (i_inseg i) in
          match c with
          | None => Ok (front ++ rest, n)
          | Some cseg =>
              let* (front, n) :=
                match last front with
                | None => Ok (front, n)
                | Some prev => let* (prev, n) := trim_before n prev in Ok (upd_last (fun _ => prev) front, n)
                end in
              let* (l, n) := tcp_oos_insert_segment n cseg rest in Ok (front ++ l, n)
          end
        else if is_nil rest' && TCP_SEQ_GT seqno nseq then
          if rseg_fin (mem n) next then Ok (front ++ rest, n)
          else
            let* (c, n) := tcp_seg_copy n (i_inseg i) in
            match c with
            | None => Ok (front ++ rest, n)
            | Some cseg =>
                let* (next, n) := trim_before n next in
                let* (cseg, n) := trim_to_wnd n pcb cseg in
                Ok (front ++ [next; cseg], n)
            end
        else oos_loop n pcb (front ++ [next]) rest'
  end.

(** The segment is copied and goes to its place in [pcb->ooseq]. *)
Definition queue_ooseq n (pcb : Z) : res (net A W) :=
  let* t := tcp_at n pcb in
  match t_ooseq t with
  | [] =>
      let* (c, n) := tcp_seg_copy n (i_inseg (in_of n)) in
      upd_tcp n pcb (set_ooseq (match c with Some cseg => [cseg] | None => [] end))
  | ooseq => let* (l, n) := oos_loop n pcb [] ooseq in upd_tcp n pcb (set_ooseq l)
  end.

Definition receive_out_of_order n (pcb : Z) : res (net A W) :=
  let* (_, n) := tcp_send_empty_ack n pcb in queue_ooseq n pcb.

(** *** Data in order *)

(** The loop that empties the pbufs in front of the new data. *)
Fixpoint skip_old (fuel : nat) (s : Pbuf.state A) (p off new_tot_len : Z) : res (Z * Z * Pbuf.state A) :=
  match fuel with
  | O => Fault FFuel
  | S fuel' =>
      let* b := deref (pbufs s) p in
      if len b <? off then
        let* s := upd s p (fun b => with_len 0 (with_tot_len new_tot_len b)) in
        skip_old fuel' s (next b) (off - len b) new_tot_len
      else Ok (p, off, s)
  end.

(** The segment starts before [pcb->rcv_nxt]: what was received before is cut off. *)
Definition trim_front n (pcb : Z) : res (net A W) :=
  let* t := tcp_at n pcb in
  let i := in_of n in
  let inseg := i_inseg i in
  let off := s32 (u32 (t_rcv_nxt t - i_seqno i)) in
  assert* negb (seg_p inseg =? NULL) in
  assert* (off <? 32767) in
  let* b := pbuf_at n (seg_p inseg) in
  let* (failed, n) :=
    if len b <? off then
      assert* (off <=? tot_len b) in
      let* (p, off, s) := skip_old (walk_fuel (pbufs (packets n))) (packets n) (seg_p inseg) off (u16 (tot_len b - off)) in
      header (with_packets s n) p (s16 (- off))
    else header n (seg_p inseg) (s16 (- off)) in
  assert* negb failed in
  let inseg := set_seg_len (u16 (seg_len inseg - u16 (t_rcv_nxt t - i_seqno i))) inseg in
  let n := with_mem (set_tcph_seqno (mem n) (seg_tcphdr inseg) (t_rcv_nxt t)) n in
  Ok (upd_in n (fun i => set_i_seqno (t_rcv_nxt t) (set_i_inseg inseg i))).

(** [inseg.len], less one for a SYN, and the pbuf cut accordingly; [tcplen] is computed anew. *)
Definition cut_inseg n (l : Z) : res (net A W) :=
  let inseg := i_inseg (in_of n) in
  let l := if rseg_syn (mem n) inseg then u16 (l - 1) else l in
  let inseg := set_seg_len l inseg in
  let* p := pbuf_realloc custom_free (packets n) (seg_p inseg) l in
  let n := with_packets p n in
  Ok (upd_in n (fun i => set_i_tcplen (u16 (TCP_TCPLEN (mem n) inseg)) (set_i_inseg inseg i))).

(** The segment is cut at the end of the window. *)
Definition fit_to_wnd n (pcb : Z) : res (net A W) :=
  let* t := tcp_at n pcb in
  let n := upd_in n (fun i => set_i_tcplen (u16 (TCP_TCPLEN (mem n) (i_inseg i))) i) in
  if t_rcv_wnd t <? i_tcplen (in_of n) then
    let inseg := i_inseg (in_of n) in
    let n := if rseg_fin (mem n) inseg then with_mem (set_tcph_flags_off (mem n) (seg_tcphdr inseg) TCP_FIN) n else n in
    let* n := cut_inseg n (t_rcv_wnd t) in
    assert* (u32 (i_seqno (in_of n) + i_tcplen (in_of n)) =? u32 (t_rcv_nxt t + t_rcv_wnd t)) in
    Ok n
  else Ok n.

(** The segments of the queue that the new one covers. *)
Fixpoint ooseq_drop_covered n (next : list tcp_seg) : res (list tcp_seg * net A W) :=
  match next with
  | [] => Ok ([], n)
  | s :: next' =>
      let i := in_of n in
      if TCP_SEQ_GEQ (u32 (i_seqno i + i_tcplen i)) (rseg_end (mem n) s) then
        let n :=
          if rseg_fin (mem n) s && negb (rseg_syn (mem n) (i_inseg i)) then
            let n := with_mem (TCPH_SET_FLAG (mem n) (seg_tcphdr (i_inseg i)) TCP_FIN) n in
            upd_in n (set_i_tcplen (u16 (TCP_TCPLEN (mem n) (i_inseg i))))
          else n in
        let* n := seg_free n s in
        ooseq_drop_covered n next'
      else Ok (next, n)
  end.

(** The queue of segments out of order, when [inseg] continues the data received. *)
Definition ooseq_overlap n (pcb : Z) : res (net A W) :=
  let* t := tcp_at n pcb in
  match t_ooseq t with
  | [] => Ok n
  | ooseq =>
      if rseg_fin (mem n) (i_inseg (in_of n)) then
        let* n := segs_free n ooseq in upd_tcp n pcb (set_ooseq [])
      else
        let* (next, n) := ooseq_drop_covered n ooseq in
        let* n :=
          match next with
          | s :: _ =>
              let i := in_of n in
              if TCP_SEQ_GT (u32 (i_seqno i + i_tcplen i)) (rseg_seqno (mem n) s) then
                let* n := cut_inseg n (u16 (rseg_seqno (mem n) s - i_seqno i)) in
                assert* (u32 (i_seqno (in_of n) + i_tcplen (in_of n)) =? rseg_seqno (mem n) s) in
                Ok n
              else Ok n
          | [] => Ok n
          end in
        upd_tcp n pcb (set_ooseq next)
  end.

(** [pcb->rcv_nxt] and [pcb->rcv_wnd] after [tcplen] more numbers, and the window to announce. *)
Definition advance n (pcb rcv_nxt tcplen : Z) : res (net A W) :=
  let* t := tcp_at n pcb in
  assert* (tcplen <=? t_rcv_wnd t) in
  let t := set_rcv_wnd (t_rcv_wnd t - tcplen) (set_rcv_nxt rcv_nxt t) in
  let* (_, n) := tcp_update_rcv_ann_wnd (put_tcp n pcb t) pcb in
  Ok n.

(** The segments of the queue that continue the data. *)
Fixpoint ooseq_deliver n (pcb : Z) (ooseq : list tcp_seg) : res (net A W) :=
  match ooseq with
  | [] => Ok n
  | cseg :: rest =>
      let* t := tcp_at n pcb in
      if rseg_seqno (mem n) cseg =? t_rcv_nxt t then
        let n := upd_in n (set_i_seqno (rseg_seqno (mem n) cseg)) in
        let l := TCP_TCPLEN (mem n) cseg in
        let* n := advance n pcb (u32 (t_rcv_nxt t + l)) l in
        let* b := pbuf_at n (seg_p cseg) in
        let* (cseg, n) :=
          if 0 <? tot_len b then
            let recv_data := i_recv_data (in_of n) in
            let* n :=
              if negb (recv_data =? NULL)
              then let* s := pbuf_cat (packets n) recv_data (seg_p cseg) in Ok (with_packets s n)
              else Ok (upd_in n (set_i_recv_data (seg_p cseg))) in
            Ok (set_seg_p NULL cseg, n)
          else Ok (cseg, n) in
        let* n :=
          if rseg_fin (mem n) cseg then
            let n := upd_in n (fun i => set_i_recv_flags (Z.lor (i_recv_flags i) TF_GOT_FIN) i) in
            upd_tcp n pcb (fun t => if state_eqb (t_state t) ESTABLISHED then set_state CLOSE_WAIT t else t)
          else Ok n in
        let* n := upd_tcp n pcb (set_ooseq rest) in
        let* n := seg_free n cseg in
        ooseq_deliver n pcb rest
      else Ok n
  end.

Definition receive_in_order n (pcb : Z) : res (net A W) :=
  let* n := fit_to_wnd n pcb in
  let* n := ooseq_overlap n pcb in
  let i := in_of n in
  let* n := advance n pcb (u32 (i_seqno i + i_tcplen i)) (i_tcplen i) in
  let* b := pbuf_at n (seg_p (i_inseg i)) in
  let n := if 0 <? tot_len b
           then upd_in n (fun i => set_i_inseg (set_seg_p NULL (i_inseg i)) (set_i_recv_data (seg_p (i_inseg i)) i))
           else n in
  let n := if rseg_fin (mem n) (i_inseg i)
           then upd_in n (fun i => set_i_recv_flags (Z.lor (i_recv_flags i) TF_GOT_FIN) i) else n in
  let* t := tcp_at n pcb in
  let* n := ooseq_deliver n pcb (t_ooseq t) in
  tcp_ack n pcb.

Definition receive_data n (pcb : Z) : res (net A W) :=
  let* t := tcp_at n pcb in
  let i := in_of n in
  let* n :=
    if TCP_SEQ_BETWEEN (t_rcv_nxt t) (u32 (i_seqno i + 1)) (u32 (i_seqno i + i_tcplen i - 1)) then trim_front n pcb
    else if TCP_SEQ_LT (i_seqno i) (t_rcv_nxt t) then tcp_ack_now n pcb else Ok n in
  let seqno := i_seqno (in_of n) in
  if TCP_SEQ_BETWEEN seqno (t_rcv_nxt t) (u32 (t_rcv_nxt t + t_rcv_wnd t - 1)) then
    if t_rcv_nxt t =? seqno then receive_in_order n pcb else receive_out_of_order n pcb
  else let* (_, n) := tcp_send_empty_ack n pcb in Ok n.

Definition tcp_receive n (pcb : Z) : res (net A W) :=
  let* t := tcp_at n pcb in
  assert* (state_num ESTABLISHED <=? state_num (t_state t)) in
  let* n := if has (i_flags (in_of n)) TCP_ACK then receive_ack n pcb else Ok n in
  let* t := tcp_at n pcb in
  let i := in_of n in
  if (0 <? i_tcplen i) && (state_num (t_state t) <? state_num CLOSE_WAIT) then receive_data n pcb
  else if negb (TCP_SEQ_BETWEEN (i_seqno i) (t_rcv_nxt t) (u32 (t_rcv_nxt t + t_rcv_wnd t - 1)))
  then tcp_ack_now n pcb else Ok n.

End TcpRecv.
