(* ===== verification/TcpIn.v ===== *)
(** * TCP input: lwip/src/core/tcp_in.c, [tcp_input] and the state machine

    [tcp_input] finds the control block of a segment and calls [tcp_process], the state
    machine of a connection, [tcp_listen_input] or [tcp_timewait_input]; then it calls the
    application. *)

From S2P Require Import Prelude Def Ip4Addr InetChksum Mem Pbuf TcpData Net Ip4 TcpBase TcpOut Tcp TcpRecv.

(** ** Definitions *)

Definition PBUF_FLAG_PUSH : Z := 1.

Definition LWIP_TCP_CALC_INITIAL_CWND (mss : Z) : Z := Z.min (4 * mss) (Z.max (2 * mss) 4380).

Section TcpIn.
Context {A W : Type} `{AllocOps A} `{FragPool A} `{TcpApp A W}.
Variable stale_flags : Z -> Z.
Variable custom_free : Z -> Z -> Pbuf.state A -> res (Pbuf.state A).
Variable callback_ok : bool.
Variable netif_output : net A W -> Z -> Z -> Z -> res (err_t * net A W).
Variable tcp_timer_needed : net A W -> res (net A W).
Implicit Types n : net A W.

Local Abbreviation tcp_output := (TcpOut.tcp_output stale_flags custom_free callback_ok netif_output).
Local Abbreviation tcp_rst := (TcpOut.tcp_rst stale_flags custom_free callback_ok netif_output).
Local Abbreviation tcp_send_empty_ack := (TcpOut.tcp_send_empty_ack stale_flags custom_free callback_ok netif_output).
Local Abbreviation tcp_rexmit_rto := (TcpOut.tcp_rexmit_rto stale_flags custom_free callback_ok netif_output).
Local Abbreviation tcp_enqueue_flags := (TcpOut.tcp_enqueue_flags stale_flags custom_free callback_ok).
Local Abbreviation tcp_alloc := (Tcp.tcp_alloc stale_flags custom_free callback_ok netif_output).
Local Abbreviation tcp_abort := (Tcp.tcp_abort stale_flags custom_free callback_ok netif_output).
Local Abbreviation tcp_abandon := (Tcp.tcp_abandon stale_flags custom_free callback_ok netif_output).
Local Abbreviation tcp_pcb_purge := (Tcp.tcp_pcb_purge custom_free).
Local Abbreviation tcp_pcb_remove := (Tcp.tcp_pcb_remove stale_flags custom_free callback_ok netif_output).
Local Abbreviation TCP_REG := (Tcp.TCP_REG tcp_timer_needed).
Local Abbreviation tcp_receive := (TcpRecv.tcp_receive stale_flags custom_free callback_ok netif_output).
Local Abbreviation TCP_EVENT_ACCEPT := (Tcp.TCP_EVENT_ACCEPT stale_flags custom_free callback_ok netif_output).
Local Abbreviation TCP_EVENT_RECV := (Tcp.TCP_EVENT_RECV stale_flags custom_free callback_ok netif_output tcp_timer_needed).
Local Abbreviation TCP_EVENT_CLOSED := (Tcp.TCP_EVENT_CLOSED stale_flags custom_free callback_ok netif_output tcp_timer_needed).
Local Abbreviation tcp_process_refused_data :=
  (Tcp.tcp_process_refused_data stale_flags custom_free callback_ok netif_output tcp_timer_needed).

(** The reset that answers the segment being processed. *)
Definition rst_reply n : res (net A W) :=
  let i := in_of n in
  tcp_rst n (i_ackno i) (u32 (i_seqno i + i_tcplen i)) (current_iphdr_dest (ip_data n)) (current_iphdr_src (ip_data n))
    (tcph_dest (mem n) (i_tcphdr i)) (tcph_src (mem n) (i_tcphdr i)).

(** *** A segment for a listening control block *)

(** The new control block of a connection request. *)
Definition listen_init n (lpcb : Z) (l : tcp_pcb_listen) (iss : Z) (t : tcp_pcb) : tcp_pcb :=
  let i := in_of n in
  let t := set_flags (add_flag (t_flags t) TF_BACKLOGPEND) t in
  let t := set_remote_ip (current_iphdr_src (ip_data n)) (set_local_ip (current_iphdr_dest (ip_data n)) t) in
  let t := set_remote_port (tcph_src (mem n) (i_tcphdr i)) (set_local_port (l_local_port l) t) in
  let t := set_rcv_nxt (u32 (i_seqno i + 1)) (set_state SYN_RCVD t) in
  let t := set_rcv_ann_right_edge (t_rcv_nxt t) t in
  let t := set_snd_lbb iss (set_lastack iss (set_snd_nxt iss (set_snd_wl2 iss t))) in
  let t := set_callback_arg (l_callback_arg l) (set_snd_wl1 (u32 (i_seqno i - 1)) t) in
  set_so_options (Z.land (l_so_options l) SOF_INHERITED) (set_listener lpcb t).

Definition tcp_listen_input n (lpcb : Z) : res (net A W) :=
  let i := in_of n in
  if has (i_flags i) TCP_RST then Ok n
  else if has (i_flags i) TCP_ACK then rst_reply n
  else if has (i_flags i) TCP_SYN then
    let* l := listen_at n lpcb in
    if l_backlog l <=? l_accepts_pending l then Ok n
    else
      let* (npcb, n) := tcp_alloc n (l_prio l) in
      let* l := listen_at n lpcb in
      if npcb =? NULL then
        let* (_, n) := TCP_EVENT_ACCEPT (inc P_tcp c_memerr n) lpcb NULL (l_callback_arg l) ERR_MEM in Ok n
      else
        let n := put_listen n lpcb (set_l_accepts_pending (u8 (l_accepts_pending l + 1)) l) in
        let (iss, n) := tcp_next_iss n in
        let* n := upd_tcp n npcb (listen_init n lpcb l iss) in
        let* n := Tcp.TCP_REG_ACTIVE tcp_timer_needed n npcb in
        let* n := tcp_parseopt n npcb in
        let wnd := tcph_wnd (mem n) (i_tcphdr i) in
        let* t := tcp_at n npcb in
        let* (mss, n) := tcp_eff_send_mss n (t_mss t) (t_remote_ip t) in
        let* n := upd_tcp n npcb (fun t => set_mss mss (set_ssthresh wnd (set_snd_wnd_max wnd (set_snd_wnd wnd t)))) in
        let* (rc, n) := tcp_enqueue_flags n npcb (Z.lor TCP_SYN TCP_ACK) in
        if negb (bool_decide (rc = ERR_OK)) then tcp_abandon n npcb false
        else let* (_, n) := tcp_output n npcb in Ok n
  else Ok n.

(** *** A segment for a connection in TIME-WAIT *)

Definition tcp_timewait_input n (pcb : Z) : res (net A W) :=
  let i := in_of n in
  if has (i_flags i) TCP_RST then Ok n
  else
    let* t := tcp_at n pcb in
    if has (i_flags i) TCP_SYN && TCP_SEQ_BETWEEN (i_seqno i) (t_rcv_nxt t) (u32 (t_rcv_nxt t + t_rcv_wnd t))
    then rst_reply n
    else
      let t := if negb (has (i_flags i) TCP_SYN) && has (i_flags i) TCP_FIN then set_tmr (tcp_ticks (tcp n)) t else t in
      let n := put_tcp n pcb t in
      if 0 <? i_tcplen i then
        let* n := raise_flag n pcb TF_ACK_NOW in
        let* (_, n) := tcp_output n pcb in Ok n
      else Ok n.

(** *** The state machine *)

(** A reset: only accepted with the expected numbers. *)
Definition process_rst n (pcb : Z) : res (err_t * net A W) :=
  let* t := tcp_at n pcb in
  let i := in_of n in
  let acceptable := if state_eqb (t_state t) SYN_SENT then i_ackno i =? t_snd_nxt t else i_seqno i =? t_rcv_nxt t in
  if acceptable then
    assert* negb (state_eqb (t_state t) CLOSED) in
    let n := upd_in n (fun i => set_i_recv_flags (Z.lor (i_recv_flags i) TF_RESET) i) in
    let* n := clear_flag n pcb TF_ACK_DELAY in
    Ok (ERR_RST, n)
  else if negb (state_eqb (t_state t) SYN_SENT)
          && TCP_SEQ_BETWEEN (i_seqno i) (t_rcv_nxt t) (u32 (t_rcv_nxt t + t_rcv_wnd t))
  then let* n := tcp_ack_now n pcb in Ok (ERR_OK, n)
  else Ok (ERR_OK, n).

(** The segment with the SYN leaves the queues. *)
Definition free_syn n (pcb : Z) : res (net A W) :=
  let* t := tcp_at n pcb in
  assert* (0 <? t_snd_queuelen t) in
  let t := set_snd_queuelen (t_snd_queuelen t - 1) t in
  let* (rseg, t) :=
    match t_unacked t with
    | rseg :: l => Ok (rseg, set_unacked l t)
    | [] => match t_unsent t with
            | rseg :: l => Ok (rseg, set_unsent l t)
            | [] => Fault FAssert
            end
    end in
  let* n := tcp_seg_free custom_free (put_tcp n pcb t) rseg in
  upd_tcp n pcb (fun t => if is_nil (t_unacked t) then set_rtime (-1) t else set_nrtx 0 (set_rtime 0 t)).

Definition process_syn_sent n (pcb : Z) : res (err_t * net A W) :=
  let* t := tcp_at n pcb in
  let i := in_of n in
  if has (i_flags i) TCP_ACK && has (i_flags i) TCP_SYN && (i_ackno i =? u32 (t_lastack t + 1)) then
    let wnd := tcph_wnd (mem n) (i_tcphdr i) in
    let t := set_rcv_nxt (u32 (i_seqno i + 1)) t in
    let t := set_lastack (i_ackno i) (set_rcv_ann_right_edge (t_rcv_nxt t) t) in
    let t := set_snd_wl1 (u32 (i_seqno i - 1)) (set_snd_wnd_max wnd (set_snd_wnd wnd t)) in
    let t := set_state ESTABLISHED t in
    let* (mss, n) := tcp_eff_send_mss n (t_mss t) (t_remote_ip t) in
    let t := set_cwnd (u16 (LWIP_TCP_CALC_INITIAL_CWND mss)) (set_ssthresh wnd (set_mss mss t)) in
    let* n := free_syn (put_tcp n pcb t) pcb in
    let* (err, n) := TCP_EVENT_CONNECTED n pcb ERR_OK in
    if bool_decide (err = ERR_ABRT) then Ok (ERR_ABRT, n)
    else let* n := tcp_ack_now n pcb in Ok (ERR_OK, n)
  else if has (i_flags i) TCP_ACK then
    let* n := rst_reply n in
    let* n := upd_tcp n pcb (set_rtime 0) in
    let* n := tcp_rexmit_rto n pcb in Ok (ERR_OK, n)
  else Ok (ERR_OK, n).

(** [recv_flags & TF_GOT_FIN]. *)
Definition got_fin n : bool := has (i_recv_flags (in_of n)) TF_GOT_FIN.

(** The peer has closed: [tcp_ack_now] and the new state. *)
Definition on_fin n (pcb : Z) (st : tcp_state) : res (net A W) :=
  let* n := tcp_ack_now n pcb in upd_tcp n pcb (set_state st).

Definition process_syn_rcvd n (pcb : Z) : res (err_t * net A W) :=
  let* t := tcp_at n pcb in
  let i := in_of n in
  if has (i_flags i) TCP_ACK then
    if TCP_SEQ_BETWEEN (i_ackno i) (u32 (t_lastack t + 1)) (t_snd_nxt t) then
      let n := put_tcp n pcb (set_state ESTABLISHED t) in
      let* (err, n) :=
        if t_listener t =? NULL then Ok (ERR_VAL, n)
        else
          let* l := listen_at n (t_listener t) in
          assert* negb (l_accept l =? NULL) in
          let* n := tcp_backlog_accepted n pcb in
          TCP_EVENT_ACCEPT n (t_listener t) pcb (t_callback_arg t) ERR_OK in
      if negb (bool_decide (err = ERR_OK)) then
        let* n := if negb (bool_decide (err = ERR_ABRT)) then tcp_abort n pcb else Ok n in
        Ok (ERR_ABRT, n)
      else
        let* n := tcp_receive n pcb in
        let n := upd_in n (fun i => if negb (i_recv_acked i =? 0) then set_i_recv_acked (i_recv_acked i - 1) i else i) in
        let* n := upd_tcp n pcb (fun t =>
          set_cwnd (u16 (LWIP_TCP_CALC_INITIAL_CWND (t_mss t))) (set_ssthresh (t_snd_wnd t) t)) in
        let* n := if got_fin n then on_fin n pcb CLOSE_WAIT else Ok n in
        Ok (ERR_OK, n)
    else let* n := rst_reply n in Ok (ERR_OK, n)
  else if has (i_flags i) TCP_SYN && (i_seqno i =? u32 (t_rcv_nxt t - 1)) then
    let* n := tcp_rexmit n pcb in Ok (ERR_OK, n)
  else Ok (ERR_OK, n).

(** The segment acknowledges everything that was sent, and there is nothing to send. *)
Definition all_acked n (pcb : Z) : res bool :=
  let* t := tcp_at n pcb in
  Ok (has (i_flags (in_of n)) TCP_ACK && (i_ackno (in_of n) =? t_snd_nxt t) && is_nil (t_unsent t)).

Definition enter_time_wait n (pcb : Z) : res (net A W) :=
  let* n := tcp_pcb_purge n pcb in
  let n := TCP_RMV_ACTIVE n pcb in
  let* n := upd_tcp n pcb (set_state TIME_WAIT) in
  TCP_REG n L_tw pcb.

(** The [switch] over the states. *)
Definition process_by_state n (pcb : Z) : res (err_t * net A W) :=
  let* t := tcp_at n pcb in
  match t_state t with
  | SYN_SENT => process_syn_sent n pcb
  | SYN_RCVD => process_syn_rcvd n pcb
  | CLOSE_WAIT | ESTABLISHED =>
      let* n := tcp_receive n pcb in
      let* n := if got_fin n then on_fin n pcb CLOSE_WAIT else Ok n in
      Ok (ERR_OK, n)
  | FIN_WAIT_1 =>
      let* n := tcp_receive n pcb in
      let* acked := all_acked n pcb in
      let* n :=
        if got_fin n then
          if (acked : bool) then let* n := tcp_ack_now n pcb in enter_time_wait n pcb
          else on_fin n pcb CLOSING
        else if (acked : bool) then upd_tcp n pcb (set_state FIN_WAIT_2) else Ok n in
      Ok (ERR_OK, n)
  | FIN_WAIT_2 =>
      let* n := tcp_receive n pcb in
      let* n := if got_fin n then let* n := tcp_ack_now n pcb in enter_time_wait n pcb else Ok n in
      Ok (ERR_OK, n)
  | CLOSING =>
      let* n := tcp_receive n pcb in
      let* acked := all_acked n pcb in
      let* n := if (acked : bool) then enter_time_wait n pcb else Ok n in
      Ok (ERR_OK, n)
  | LAST_ACK =>
      let* n := tcp_receive n pcb in
      let* acked := all_acked n pcb in
      Ok (ERR_OK, if (acked : bool)
                  then upd_in n (fun i => set_i_recv_flags (Z.lor (i_recv_flags i) TF_CLOSED) i) else n)
  | _ => Ok (ERR_OK, n)
  end.

Definition tcp_process n (pcb : Z) : res (err_t * net A W) :=
  let i := in_of n in
  if has (i_flags i) TCP_RST then process_rst n pcb
  else
    let* t := tcp_at n pcb in
    if has (i_flags i) TCP_SYN && negb (state_eqb (t_state t) SYN_SENT) && negb (state_eqb (t_state t) SYN_RCVD)
    then let* n := tcp_ack_now n pcb in Ok (ERR_OK, n)
    else
      let t := if has (t_flags t) TF_RXCLOSED then t else set_tmr (tcp_ticks (tcp n)) t in
      let* n := tcp_parseopt (put_tcp n pcb (set_keep_cnt_sent 0 t)) pcb in
      process_by_state n pcb.

(** *** tcp_input *)

(** The options: [None] is [goto dropped]. *)
Definition input_header n (p hdrlen_bytes : Z) : res (option (Z * Z) * net A W) :=
  let* b := pbuf_at n p in
  let optlen := hdrlen_bytes - TCP_HLEN in
  if hdrlen_bytes <=? len b then
    let* (_, n) := header n p (- hdrlen_bytes) in
    Ok (Some (optlen, NULL), n)
  else
    assert* negb (next b =? NULL) in
    let* (_, n) := header n p (- TCP_HLEN) in
    let* b := pbuf_at n p in
    let opt1len := len b in
    let opt2len := u16 (optlen - opt1len) in
    let* (_, n) := header n p (- s16 opt1len) in
    let* q := pbuf_at n (next b) in
    if len q <? opt2len then Ok (None, inc P_tcp c_lenerr n)
    else
      let* (_, n) := header n (next b) (- s16 opt2len) in
      let* s := upd (packets n) p (fun b => with_tot_len (u16 (tot_len b - opt2len)) b) in
      let n := with_packets s n in
      let* b' := pbuf_at n p in
      let* q' := pbuf_at n (next b) in
      assert* (len b' =? 0) in
      assert* (tot_len b' =? tot_len q') in
      Ok (Some (opt1len, payload q), n).

(** The header in host byte order, and the static variables. *)
Definition input_fields n (p tcphdr hdrlen_bytes opt1len opt2 : Z) : res (net A W) :=
  let m := set_tcph_src (mem n) tcphdr (lwip_ntohs (tcph_src (mem n) tcphdr)) in
  let m := set_tcph_dest m tcphdr (lwip_ntohs (tcph_dest m tcphdr)) in
  let seqno := lwip_ntohl (tcph_seqno m tcphdr) in
  let m := set_tcph_seqno m tcphdr seqno in
  let ackno := lwip_ntohl (tcph_ackno m tcphdr) in
  let m := set_tcph_ackno m tcphdr ackno in
  let m := set_tcph_wnd m tcphdr (lwip_ntohs (tcph_wnd m tcphdr)) in
  let flags := u8 (TCPH_FLAGS m tcphdr) in
  let* b := pbuf_at n p in
  let tcplen := u16 (tot_len b + (if has flags (Z.lor TCP_FIN TCP_SYN) then 1 else 0)) in
  let i := in_of n in
  Ok (upd_in (with_mem m n) (fun i =>
    mk_in (i_inseg i) tcphdr (hdrlen_bytes - TCP_HLEN) opt1len opt2 (i_optidx i) seqno ackno (i_recv_acked i) tcplen
      flags (i_recv_flags i) (i_recv_data i))).

(** The connection of the segment: ports in the header, addresses of the IP header. *)
Definition pcb_matches n (t : tcp_pcb) : bool :=
  let i := in_of n in
  (t_remote_port t =? tcph_src (mem n) (i_tcphdr i)) && (t_local_port t =? tcph_dest (mem n) (i_tcphdr i))
  && (t_remote_ip t =? current_iphdr_src (ip_data n)) && (t_local_ip t =? current_iphdr_dest (ip_data n)).

Fixpoint find_active n (l : list Z) : res Z :=
  match l with
  | [] => Ok NULL
  | pcb :: l' =>
      let* t := tcp_at n pcb in
      assert* negb (state_eqb (t_state t) CLOSED) in
      assert* negb (state_eqb (t_state t) TIME_WAIT) in
      assert* negb (state_eqb (t_state t) LISTEN) in
      if pcb_matches n t then Ok pcb else find_active n l'
  end.

Fixpoint find_tw n (l : list Z) : res Z :=
  match l with
  | [] => Ok NULL
  | pcb :: l' =>
      let* t := tcp_at n pcb in
      assert* state_eqb (t_state t) TIME_WAIT in
      if pcb_matches n t then Ok pcb else find_tw n l'
  end.

Fixpoint find_listen n (l : list Z) : res Z :=
  match l with
  | [] => Ok NULL
  | lpcb :: l' =>
      let* x := listen_at n lpcb in
      if (l_local_port x =? tcph_dest (mem n) (i_tcphdr (in_of n)))
         && ((l_local_ip x =? current_iphdr_dest (ip_data n)) || ip4_addr_isany_val (l_local_ip x))
      then Ok lpcb else find_listen n l'
  end.

(** The control block that was found moves to the front of its list. *)
Definition move_to_front n (w : pcblist) (pcb : Z) : net A W :=
  let l := pcbs_of (tcp n) w in
  if hd NULL l =? pcb then inc P_tcp c_cachehit n
  else with_tcp (set_pcbs w (pcb :: pcb_unlink pcb l) (tcp n)) n.

(** [tcp_pcb_remove] and [memp_free] of an active connection. *)
Definition remove_active n (pcb : Z) : res (net A W) :=
  let* n := tcp_pcb_remove n L_active pcb in free_tcp n pcb.

(** The peer has closed: the application is told, unless it has refused data. *)
Definition deliver_fin n (pcb : Z) : res (bool * net A W) :=
  if got_fin n then
    let* t := tcp_at n pcb in
    if negb (t_refused_data t =? NULL) then
      let* s := upd (packets n) (t_refused_data t) (fun b => with_flags (Z.lor (flags b) PBUF_FLAG_TCP_FIN) b) in
      Ok (true, with_packets s n)
    else
      let n := put_tcp n pcb (if negb (t_rcv_wnd t =? TCP_WND) then set_rcv_wnd (u16 (t_rcv_wnd t + 1)) t else t) in
      let* (err, n) := TCP_EVENT_CLOSED n pcb in
      Ok (negb (bool_decide (err = ERR_ABRT)), n)
  else Ok (true, n).

(** The data goes to the application; [false] is [goto aborted]. *)
Definition deliver_data n (pcb : Z) : res (bool * net A W) :=
  let recv_data := i_recv_data (in_of n) in
  if negb (recv_data =? NULL) then
    let* t := tcp_at n pcb in
    assert* (t_refused_data t =? NULL) in
    if has (t_flags t) TF_RXCLOSED then
      let* n := free custom_free n recv_data in
      let* n := tcp_abort n pcb in Ok (false, n)
    else
      let* (err, n) := TCP_EVENT_RECV n pcb recv_data ERR_OK in
      if bool_decide (err = ERR_ABRT) then Ok (false, n)
      else if negb (bool_decide (err = ERR_OK)) then
        let* n := upd_tcp n pcb (set_refused_data recv_data) in Ok (true, n)
      else Ok (true, n)
  else Ok (true, n).

(** The acknowledged data is reported; [false] is [goto aborted]. *)
Definition deliver_sent n (pcb : Z) : res (bool * net A W) :=
  let acked := i_recv_acked (in_of n) in
  if 0 <? acked then
    let* (err, n) := TCP_EVENT_SENT n pcb acked in
    if bool_decide (err = ERR_ABRT) then Ok (false, n) else Ok (true, upd_in n (set_i_recv_acked 0))
  else Ok (true, n).

(** What [tcp_input] does after [tcp_process], up to [aborted:]. *)
Definition input_deliver n (pcb : Z) : res (net A W) :=
  if has (i_recv_flags (in_of n)) TF_RESET then
    let* t := tcp_at n pcb in
    let* n := tcp_event_err n (t_errf t) (t_callback_arg t) ERR_RST in
    remove_active n pcb
  else
    let* (go, n) := deliver_sent n pcb in
    if negb go then Ok n
    else if has (i_recv_flags (in_of n)) TF_CLOSED then
      let* t := tcp_at n pcb in
      let* n := if negb (has (t_flags t) TF_RXCLOSED)
                then tcp_event_err n (t_errf t) (t_callback_arg t) ERR_CLSD else Ok n in
      remove_active n pcb
    else
      let* (go, n) := deliver_data n pcb in
      if negb go then Ok n
      else
        let* (go, n) := deliver_fin n pcb in
        if negb go then Ok n
        else
          let* (_, n) := tcp_output (with_tcp (set_tcp_input_pcb NULL (tcp n)) n) pcb in Ok n.

(** [aborted:] *)
Definition input_aborted n : res (net A W) :=
  let n := with_tcp (set_tcp_input_pcb NULL (tcp n)) n in
  let n := upd_in n (set_i_recv_data NULL) in
  let inseg := i_inseg (in_of n) in
  if negb (seg_p inseg =? NULL) then
    let* n := free custom_free n (seg_p inseg) in
    Ok (upd_in n (set_i_inseg (set_seg_p NULL inseg)))
  else Ok n.

(** A segment for the active connection [pcb]. *)
Definition input_active n (p pcb : Z) : res (net A W) :=
  let* b := pbuf_at n p in
  let i := in_of n in
  let n := upd_in n (fun i =>
    let i := set_i_inseg (mk_seg p (tot_len b) (seg_flags (i_inseg i)) (i_tcphdr i)) i in
    set_i_recv_acked 0 (set_i_recv_flags 0 (set_i_recv_data NULL i))) in
  let* n :=
    if has (i_flags i) TCP_PSH then
      let* s := upd (packets n) p (fun b => with_flags (Z.lor (flags b) PBUF_FLAG_PUSH) b) in Ok (with_packets s n)
    else Ok n in
  let* t := tcp_at n pcb in
  let* (drop, n) :=
    if negb (t_refused_data t =? NULL) then
      let* (err, n) := tcp_process_refused_data n pcb in
      if bool_decide (err = ERR_ABRT) then Ok (true, n)
      else let* t := tcp_at n pcb in Ok (negb (t_refused_data t =? NULL) && (0 <? i_tcplen (in_of n)), n)
    else Ok (false, n) in
  if (drop : bool) then
    let* t := tcp_at n pcb in
    let* n := if t_rcv_ann_wnd t =? 0 then let* (_, n) := tcp_send_empty_ack n pcb in Ok n else Ok n in
    input_aborted (inc P_tcp c_drop n)
  else
    let n := with_tcp (set_tcp_input_pcb pcb (tcp n)) n in
    let* (err, n) := tcp_process n pcb in
    let* n := if negb (bool_decide (err = ERR_ABRT)) then input_deliver n pcb else Ok n in
    input_aborted n.

(** [dropped:] *)
Definition input_dropped n (p : Z) : res (net A W) := free custom_free (inc P_tcp c_drop n) p.

(** The segment goes to the control block that it belongs to. *)
Definition input_demux n (p : Z) : res (net A W) :=
  let* pcb := find_active n (tcp_active_pcbs (tcp n)) in
  if negb (pcb =? NULL) then input_active (move_to_front n L_active pcb) p pcb
  else
    let* pcb := find_tw n (tcp_tw_pcbs (tcp n)) in
    if negb (pcb =? NULL) then let* n := tcp_timewait_input n pcb in free custom_free n p
    else
      let* lpcb := find_listen n (tcp_listen_pcbs (tcp n)) in
      if negb (lpcb =? NULL) then
        let* n := tcp_listen_input (move_to_front n L_listen lpcb) lpcb in free custom_free n p
      else
        let* n :=
          if negb (has (TCPH_FLAGS (mem n) (i_tcphdr (in_of n))) TCP_RST)
          then rst_reply (inc P_tcp c_drop (inc P_tcp c_proterr n)) else Ok n in
        free custom_free n p.

(** The checks of the segment, its header and its options; [false] is [goto dropped]. *)
Definition input_check n (p : Z) : res (bool * net A W) :=
  let* b := pbuf_at n p in
  let tcphdr := payload b in
  if len b <? TCP_HLEN then Ok (false, inc P_tcp c_lenerr n)
  else
    let dest := current_iphdr_dest (ip_data n) in
    let* cur := netif_at n (current_netif (ip_data n)) in
    if ip4_addr_isbroadcast_u32 dest cur || ip4_addr_ismulticast dest then Ok (false, inc P_tcp c_proterr n)
    else
      let* v := view n p in
      if negb (ip_chksum_pseudo v IP_PROTO_TCP (tot_len b) (current_iphdr_src (ip_data n)) dest =? 0)
      then Ok (false, inc P_tcp c_chkerr n)
      else
        let hdrlen_bytes := u8 (TCPH_HDRLEN (mem n) tcphdr * 4) in
        if (hdrlen_bytes <? TCP_HLEN) || (tot_len b <? hdrlen_bytes) then Ok (false, inc P_tcp c_lenerr n)
        else
          let* (opts, n) := input_header n p hdrlen_bytes in
          match opts with
          | None => Ok (false, n)
          | Some (opt1len, opt2) =>
              let* n := input_fields n p tcphdr hdrlen_bytes opt1len opt2 in Ok (true, n)
          end.

Definition tcp_input n (p : Z) : res (net A W) :=
  let* (ok, n) := input_check (inc P_tcp c_recv n) p in
  if (ok : bool) then input_demux n p else input_dropped n p.

End TcpIn.
