(* ===== verification/TcpFrame.v ===== *)
(** * What sending and freeing leave alone in TCP

    The functions of tcp_out.c, and the functions that free segments, change the queues, the
    counters and the windows of one control block.  They leave alone which control blocks
    exist, on which lists they are and the [ident] of each: its state, its ports, its
    listener and its callbacks. *)

From S2P Require Import Prelude Ip4Addr Pbuf TcpData Net Ip4 IpFrame TcpBase TcpOut Tcp.

(** ** What is kept *)

(** [pcb->flags & TF_BACKLOGPEND]: the connection counts in the backlog of its listener. *)
Definition pending (t : tcp_pcb) : bool := has (t_flags t) TF_BACKLOGPEND.

Definition ident (t : tcp_pcb) :=
  (t_state t, t_local_port t, t_remote_ip t, t_remote_port t, t_listener t, pending t,
   (t_refused_data t, t_errf t, t_callback_arg t, t_last_timer t)).

(** The global variables outside the control blocks and the segments. *)
Definition outer (g : tcp_globals) :=
  (tcp_listen_pcbs g, tcp_bound_pcbs g, tcp_active_pcbs g, tcp_tw_pcbs g, (tcp_pcb_pool g, tcp_listen_pool g, listen_heap g),
   (tcp_port g, tcp_ticks g, tcp_timer_ctr g, tcp_active_pcbs_changed g, tcp_input_pcb g)).

(** Other flags do not disturb it. *)
Lemma has_add x f g : Z.land f g = 0 -> has (add_flag x f) g = has x g.
Proof. intros E. unfold has, add_flag. by rewrite Z.land_lor_distr_l, E, Z.lor_0_r. Qed.

Lemma has_del x f g : Z.land (Z.lnot f) g = g -> has (del_flag x f) g = has x g.
Proof. intros E. unfold has, del_flag. by rewrite <- Z.land_assoc, E. Qed.

Lemma has_raised x f : f <> 0 -> has (Z.lor x f) f = true.
Proof.
  intros Hf. unfold has. rewrite Z.land_lor_distr_l, Z.land_diag. apply negb_true_iff, Z.eqb_neq. intros E.
  apply Z.lor_eq_0_iff in E. tauto.
Qed.

(** ** Running code *)

Lemma holds_deref {V Y} (h : gmap Z V) p (f : V -> res Y) Q :
  (forall v, h !! p = Some v -> holds (f v) Q) -> holds (res_bind (deref h p) f) Q.
Proof. intros Hf. unfold deref. destruct (h !! p) eqn:E; [by apply Hf|done]. Qed.

Lemma holds_assert {Y} b (f : unit -> res Y) Q : (b = true -> holds (f tt) Q) -> holds (res_bind (lwip_assert b) f) Q.
Proof. unfold lwip_assert. destruct b; cbn; auto. Qed.

(** The lemmas about calls. *)
Create HintDb tcp_frame.

(** Two control blocks with the same [ident]. *)
Ltac ident_solve :=
  intros; try reflexivity;
  unfold ident, pending; cbn; repeat case_match; cbn;
  rewrite ?has_add, ?has_del by reflexivity; reflexivity.

(** One step through code. *)
Ltac tstep :=
  cbv beta zeta;
  lazymatch goal with
  | |- holds (res_bind (lwip_assert _) _) _ => apply holds_assert; intros _
  | |- holds (res_bind (Ok _) _) _ => cbn [res_bind]
  | |- holds (res_bind (Fault _) _) _ => exact I
  | |- holds (Fault _) _ => exact I
  | |- holds (res_bind (res_bind _ _) _) _ => apply holds_assoc
  | |- holds (res_bind (tcp_at _ _) _) _ => unfold tcp_at at 1; apply holds_deref; intros ? ?
  | |- holds (res_bind (listen_at _ _) _) _ => unfold listen_at at 1; apply holds_deref; intros ? ?
  | |- holds (res_bind (if ?b then _ else _) _) _ => destruct b eqn:?
  | |- holds (res_bind (match ?o with _ => _ end) _) _ => destruct o eqn:?
  | |- holds (if ?b then _ else _) _ => destruct b eqn:?
  | |- holds (match ?o with _ => _ end) _ => destruct o eqn:?
  | |- holds (res_bind _ _) _ =>
      first [ eapply holds_call; [solve [eauto 3 with tcp_frame nocore]|cbv beta; intros ? ?]
            | apply holds_skip; intros ? ]
  end.

Section TcpFrame.
Context {A W : Type}.
Implicit Types n : net A W.

Definition kept n := (outer (tcp n), tcp_in_vars (tcp n), ident <$> tcp_heap (tcp n)).

Lemma kept_tcp n n' : tcp n' = tcp n -> kept n' = kept n.
Proof. unfold kept. by intros ->. Qed.

Lemma kept_put n pcb t t' : tcp_heap (tcp n) !! pcb = Some t -> ident t' = ident t -> kept (put_tcp n pcb t') = kept n.
Proof.
  intros Ht E. unfold kept. f_equal. cbn. rewrite fmap_insert, E. apply insert_id. by rewrite lookup_fmap, Ht.
Qed.

Lemma kept_pool n k : kept (with_tcp (set_tcp_seg_pool k (tcp n)) n) = kept n.
Proof. done. Qed.

Lemma at_kept n n' pcb t' :
  kept n' = kept n -> tcp_heap (tcp n') !! pcb = Some t' ->
  exists t, tcp_heap (tcp n) !! pcb = Some t /\ ident t' = ident t.
Proof.
  unfold kept. intros [= _ _ _ _ _ _ _ _ _ _ _ _ _ E] Ht'. apply (f_equal (.!! pcb)) in E. rewrite !lookup_fmap, Ht' in E.
  destruct (tcp_heap (tcp n) !! pcb) as [t|]; [|discriminate]. injection E. intros. exists t. split; [done|]. unfold ident. congruence.
Qed.

End TcpFrame.

(** [tcp_heap (tcp n) !! pcb = Some ?t], from the history of [n]. *)
Ltac at_solve :=
  first
    [ eassumption
    | lazymatch goal with
      | |- tcp_heap (tcp (put_tcp _ _ _)) !! _ = _ => apply lookup_insert_eq
      | |- tcp_heap (tcp (with_mem _ ?m)) !! ?p = ?t => change (tcp_heap (tcp m) !! p = t); at_solve
      | |- tcp_heap (tcp (with_packets _ ?m)) !! ?p = ?t => change (tcp_heap (tcp m) !! p = t); at_solve
      | |- tcp_heap (tcp (inc _ _ ?m)) !! ?p = ?t => change (tcp_heap (tcp m) !! p = t); at_solve
      | E : tcp ?m = tcp _ |- tcp_heap (tcp ?m) !! _ = _ => rewrite E; at_solve
      end ].

(** [kept n' = kept n], from the history of [n']. *)
Ltac kept_solve :=
  cbn [fst snd] in *;
  repeat
    (cbv beta zeta;
     lazymatch goal with
     | |- kept ?m = kept ?m => reflexivity
     | |- kept (with_mem _ ?m) = ?r => change (kept m = r)
     | |- kept (with_packets _ ?m) = ?r => change (kept m = r)
     | |- kept (inc _ _ ?m) = ?r => change (kept m = r)
     | |- kept (with_tcp (set_tcp_seg_pool _ _) ?m) = ?r => change (kept m = r)
     | |- kept (put_tcp ?m ?p ?t) = _ => erewrite (kept_put m p _ t) by first [at_solve|ident_solve]
     | |- kept (if ?b then _ else _) = _ => destruct b
     | E : kept ?m = kept _ |- kept ?m = _ => rewrite E; clear E
     | E : tcp ?m = tcp _ |- kept ?m = _ => rewrite (kept_tcp _ _ E); clear E
     end).

(** Run the code, then look at each end. *)
Ltac tend :=
  lazymatch goal with
  | |- holds (Ok _) _ => cbn [holds]; kept_solve
  | |- holds _ _ => eapply holds_weaken; [solve [eauto 3 with tcp_frame nocore]|cbv beta; intros; kept_solve]
  end.
Ltac trun := repeat tstep; tend.

Section Sending.
Context {A W : Type} `{AllocOps A} `{FragPool A} `{TcpApp A W}.
Variable stale_flags : Z -> Z.
Variable custom_free : Z -> Z -> Pbuf.state A -> res (Pbuf.state A).
Variable callback_ok : bool.
Variable netif_output : net A W -> Z -> Z -> Z -> res (err_t * net A W).
Implicit Types n : net A W.

(** The driver does not call TCP. *)
Hypothesis driver_ok : forall n nif p dest, holds (netif_output n nif p dest) (fun r => tcp (snd r) = tcp n).

(** Sending on the IP layer. *)
Lemma free_kept n p : holds (free custom_free n p) (fun n' => tcp n' = tcp n).
Proof. by apply free_keeps. Qed.
Lemma alloc_kept n layer l t : holds (alloc_pbuf stale_flags custom_free callback_ok n layer l t) (fun r => tcp (snd r) = tcp n).
Proof. by apply alloc_keeps. Qed.
Lemma header_kept n p k : holds (header n p k) (fun r => tcp (snd r) = tcp n).
Proof. by apply header_keeps. Qed.
Lemma output_kept n p src dest ttl tos proto nif :
  holds (ip4_output_if stale_flags custom_free callback_ok netif_output n p src dest ttl tos proto nif) (fun r => tcp (snd r) = tcp n).
Proof. by apply output_if_opt_keeps. Qed.
Lemma route_kept n dest : holds (ip4_route n dest) (fun r => tcp (snd r) = tcp n).
Proof.
  unfold ip4_route. destruct (_ && _); [done|]. apply holds_skip. intros r. destruct (negb _); [done|]. destruct (ip4_addr_isloopback dest).
  - apply holds_skip. intros []; [done|]. apply holds_skip. done.
  - apply holds_skip. by intros [].
Qed.

Lemma upd_kept n pcb f : (forall t, ident (f t) = ident t) -> holds (upd_tcp n pcb f) (fun n' => kept n' = kept n).
Proof. intros Hf. unfold upd_tcp. repeat tstep. by eapply kept_put. Qed.

Lemma raise_kept n pcb f : Z.land f TF_BACKLOGPEND = 0 -> holds (raise_flag n pcb f) (fun n' => kept n' = kept n).
Proof. intros Hf. apply upd_kept. intros t. unfold ident, pending. cbn. by rewrite has_add. Qed.

Lemma clear_kept n pcb f :
  Z.land (Z.lnot f) TF_BACKLOGPEND = TF_BACKLOGPEND -> holds (clear_flag n pcb f) (fun n' => kept n' = kept n).
Proof. intros Hf. apply upd_kept. intros t. unfold ident, pending. cbn. by rewrite has_del. Qed.

Hint Resolve free_kept alloc_kept header_kept output_kept route_kept : tcp_frame.
Hint Extern 1 (holds (raise_flag _ _ _) _) => (apply raise_kept; reflexivity) : tcp_frame.
Hint Extern 1 (holds (clear_flag _ _ _) _) => (apply clear_kept; reflexivity) : tcp_frame.
Hint Extern 1 (holds (upd_tcp _ _ _) _) => (apply upd_kept; ident_solve) : tcp_frame.

Lemma alloc_header_kept n pcb ol dl seq :
  holds (tcp_output_alloc_header stale_flags custom_free callback_ok n pcb ol dl seq) (fun r => kept (snd r) = kept n).
Proof. unfold tcp_output_alloc_header. trun. Qed.

Lemma send_kept n p l r ttl tos nif :
  holds (checksum_and_send stale_flags custom_free callback_ok netif_output n p l r ttl tos nif) (fun r => tcp (snd r) = tcp n).
Proof. unfold checksum_and_send. do 2 tstep. eapply holds_weaken; [apply output_kept|]. done. Qed.

Hint Resolve alloc_header_kept send_kept : tcp_frame.

Lemma send_empty_ack_kept n pcb :
  holds (tcp_send_empty_ack stale_flags custom_free callback_ok netif_output n pcb) (fun r => kept (snd r) = kept n).
Proof. unfold tcp_send_empty_ack. trun. Qed.

Lemma rst_kept n a b l r lp rp :
  holds (tcp_rst stale_flags custom_free callback_ok netif_output n a b l r lp rp) (fun n' => tcp n' = tcp n).
Proof.
  unfold tcp_rst. repeat tstep; [done|..];
    (eapply holds_weaken; [apply free_kept|]); cbn [tcp inc with_mem with_packets snd] in *; intros; congruence.
Qed.

Lemma keepalive_kept n pcb :
  holds (tcp_keepalive stale_flags custom_free callback_ok netif_output n pcb) (fun r => kept (snd r) = kept n).
Proof. unfold tcp_keepalive. trun. Qed.

Lemma seg_malloc_kept n n' : seg_malloc n = Some n' -> kept n' = kept n.
Proof. unfold seg_malloc. destruct (tcp_seg_pool (tcp n)); [done|]. by intros [= <-]. Qed.

Lemma seg_free_kept n sg : holds (tcp_seg_free custom_free n sg) (fun n' => kept n' = kept n).
Proof. unfold tcp_seg_free. trun. Qed.
Hint Resolve seg_free_kept rst_kept keepalive_kept send_empty_ack_kept : tcp_frame.

Lemma segs_free_kept l : forall n, holds (tcp_segs_free custom_free n l) (fun n' => kept n' = kept n).
Proof. induction l as [|sg l IH]; intros n; cbn [tcp_segs_free]; [done|]. trun. Qed.
Hint Resolve segs_free_kept : tcp_frame.

Lemma seg_copy_kept n sg : holds (tcp_seg_copy n sg) (fun r => kept (snd r) = kept n).
Proof. unfold tcp_seg_copy. destruct (seg_malloc n) eqn:E; [|done]. trun. by apply seg_malloc_kept. Qed.

Lemma eff_mss_kept n m dest : holds (tcp_eff_send_mss n m dest) (fun r => tcp (snd r) = tcp n).
Proof. unfold tcp_eff_send_mss. repeat tstep; done. Qed.
Hint Resolve seg_copy_kept eff_mss_kept : tcp_frame.

Lemma create_segment_kept n pcb p flags seqno opt :
  holds (tcp_create_segment custom_free n pcb p flags seqno opt) (fun r => kept (snd r) = kept n).
Proof.
  unfold tcp_create_segment. cbv zeta. destruct (seg_malloc n) as [n1|] eqn:E; [|trun]. apply seg_malloc_kept in E.
  rewrite <- E. clear E. trun.
Qed.

Lemma prealloc_kept n layer l m pcb api first :
  holds (tcp_pbuf_prealloc stale_flags custom_free callback_ok n layer l m pcb api first) (fun r => kept (snd r) = kept n).
Proof. unfold tcp_pbuf_prealloc. trun. Qed.
Hint Resolve create_segment_kept prealloc_kept : tcp_frame.

Lemma enqueue_flags_kept n pcb flags :
  holds (tcp_enqueue_flags stale_flags custom_free callback_ok n pcb flags) (fun r => kept (snd r) = kept n).
Proof. unfold tcp_enqueue_flags. trun. Qed.
Hint Resolve enqueue_flags_kept : tcp_frame.

Lemma send_fin_kept n pcb :
  holds (tcp_send_fin stale_flags custom_free callback_ok n pcb) (fun r => kept (snd r) = kept n).
Proof. unfold tcp_send_fin. trun. Qed.

Lemma output_segment_kept n sg pcb nif :
  holds (tcp_output_segment stale_flags custom_free callback_ok netif_output n sg pcb nif) (fun r => kept (snd r) = kept n).
Proof. unfold tcp_output_segment. trun. Qed.
Hint Resolve send_fin_kept output_segment_kept : tcp_frame.

Lemma output_loop_kept fuel : forall n pcb nif wnd,
  holds (output_loop stale_flags custom_free callback_ok netif_output fuel n pcb nif wnd) (fun r => kept (snd r) = kept n).
Proof. induction fuel as [|fuel IH]; intros; cbn [output_loop]; trun. Qed.
Hint Resolve output_loop_kept : tcp_frame.

Lemma output_done_kept n pcb : holds (output_done n pcb) (fun r => kept (snd r) = kept n).
Proof. unfold output_done. trun. Qed.
Hint Resolve output_done_kept : tcp_frame.

Lemma tcp_output_kept n pcb :
  holds (tcp_output stale_flags custom_free callback_ok netif_output n pcb) (fun r => kept (snd r) = kept n).
Proof. unfold tcp_output. trun. Qed.
Hint Resolve tcp_output_kept : tcp_frame.

Lemma rexmit_rto_kept n pcb :
  holds (tcp_rexmit_rto stale_flags custom_free callback_ok netif_output n pcb) (fun n' => kept n' = kept n).
Proof. unfold tcp_rexmit_rto. trun. Qed.

Lemma rexmit_kept n pcb : holds (tcp_rexmit n pcb) (fun n' => kept n' = kept n).
Proof. unfold tcp_rexmit. trun. Qed.
Hint Resolve rexmit_rto_kept rexmit_kept : tcp_frame.

Lemma rexmit_fast_kept n pcb : holds (tcp_rexmit_fast n pcb) (fun n' => kept n' = kept n).
Proof. unfold tcp_rexmit_fast. trun. Qed.

Lemma probe_kept n pcb :
  holds (tcp_zero_window_probe stale_flags custom_free callback_ok netif_output n pcb) (fun r => kept (snd r) = kept n).
Proof. unfold tcp_zero_window_probe. trun. Qed.

(** tcp_write. *)
Lemma write_checks_kept n pcb l : holds (tcp_write_checks n pcb l) (fun r => kept (snd r) = kept n).
Proof. unfold tcp_write_checks. trun. Qed.

Lemma write_tail_kept n pcb arg l fl m t sg :
  holds (write_tail stale_flags custom_free callback_ok n pcb arg l fl m t sg) (fun r => kept (snd r) = kept n).
Proof. unfold write_tail. trun. Qed.

Lemma write_pbuf_kept n pcb data l fl m o first :
  holds (write_pbuf stale_flags custom_free callback_ok n pcb data l fl m o first) (fun r => kept (snd r) = kept n).
Proof. unfold write_pbuf. trun. Qed.
Hint Resolve write_checks_kept write_tail_kept write_pbuf_kept : tcp_frame.

Lemma write_segs_kept fuel : forall n pcb arg l fl m pos o ql queue,
  holds (write_segs stale_flags custom_free callback_ok fuel n pcb arg l fl m pos o ql queue) (fun r => kept (snd r) = kept n).
Proof. induction fuel as [|fuel IH]; intros; cbn [write_segs]; trun. Qed.

Lemma write_commit_kept n pcb arg l fl w o ql queue :
  holds (write_commit n pcb arg l fl w o ql queue) (fun n' => kept n' = kept n).
Proof. unfold write_commit. trun. Qed.

Lemma write_memerr_kept n pcb p queue : holds (write_memerr custom_free n pcb p queue) (fun r => kept (snd r) = kept n).
Proof. unfold write_memerr. trun. Qed.
Hint Resolve write_segs_kept write_commit_kept write_memerr_kept : tcp_frame.

Lemma tcp_write_kept n pcb arg l fl :
  holds (tcp_write stale_flags custom_free callback_ok n pcb arg l fl) (fun r => kept (snd r) = kept n).
Proof. unfold tcp_write. trun. Qed.

End Sending.

#[export] Hint Resolve free_kept alloc_kept header_kept output_kept route_kept alloc_header_kept send_kept seg_free_kept
  rst_kept keepalive_kept send_empty_ack_kept segs_free_kept seg_copy_kept eff_mss_kept create_segment_kept prealloc_kept
  enqueue_flags_kept send_fin_kept output_segment_kept output_loop_kept output_done_kept tcp_output_kept rexmit_rto_kept
  rexmit_kept rexmit_fast_kept probe_kept tcp_write_kept : tcp_frame.
