(* ===== verification/TcpObs.v ===== *)
(** * What receiving leaves alone in TCP: lwip/src/core/tcp_in.c

    [tcp_receive] and what it calls change the queues, the windows and the timers of a control
    block.  They leave alone its [core]: its state, its addresses and ports, its listener.  The
    lemmas are about any observation of the state that depends on the cores, on what sending
    keeps, and on a few of the static variables. *)

From S2P Require Import Prelude Ip4Addr Pbuf TcpData Net Ip4 IpFrame TcpBase TcpOut Tcp TcpRecv TcpFrame.

Definition core (t : tcp_pcb) :=
  (t_state t, t_local_ip t, t_local_port t, t_remote_ip t, t_remote_port t, t_listener t).

(** Two control blocks with the same [core]. *)
Ltac core_solve :=
  intros; try reflexivity; unfold core; cbn; repeat case_match; cbn;
  repeat match goal with
         | H : state_eqb _ _ = true |- _ => apply bool_decide_eq_true in H
         | H : t_state _ = _ |- _ => rewrite H
         end; reflexivity.

(** An update of the static variables that leaves the flags and the acknowledgement number alone. *)
Definition calm (f : tcp_in -> tcp_in) : Prop :=
  forall i, i_recv_flags (f i) = i_recv_flags i /\ i_flags (f i) = i_flags i /\ i_ackno (f i) = i_ackno i.

Definition got_fin_flag (i : tcp_in) : tcp_in := set_i_recv_flags (Z.lor (i_recv_flags i) TF_GOT_FIN) i.

Ltac flags_solve := intros ?; cbn; repeat case_match; by split_and!.

(** [listen_heap (tcp n) !! l = Some ?x], from the history of [n]. *)
Ltac listen_solve :=
  first
    [ eassumption
    | lazymatch goal with
      | |- listen_heap (tcp (put_tcp ?m _ _)) !! ?p = ?t => change (listen_heap (tcp m) !! p = t); listen_solve
      | |- listen_heap (tcp (with_mem _ ?m)) !! ?p = ?t => change (listen_heap (tcp m) !! p = t); listen_solve
      | |- listen_heap (tcp (with_packets _ ?m)) !! ?p = ?t => change (listen_heap (tcp m) !! p = t); listen_solve
      | |- listen_heap (tcp (inc _ _ ?m)) !! ?p = ?t => change (listen_heap (tcp m) !! p = t); listen_solve
      | E : tcp ?m = tcp _ |- listen_heap (tcp ?m) !! _ = _ => rewrite E; listen_solve
      end ].

Ltac at_solve' :=
  first
    [ at_solve
    | lazymatch goal with
      | |- tcp_heap (tcp (put_listen ?m _ _)) !! ?p = ?t => change (tcp_heap (tcp m) !! p = t); at_solve'
      | |- tcp_heap (tcp (upd_in ?m _)) !! ?p = ?t => change (tcp_heap (tcp m) !! p = t); at_solve'
      | |- tcp_heap (tcp (with_mem _ ?m)) !! ?p = ?t => change (tcp_heap (tcp m) !! p = t); at_solve'
      | |- tcp_heap (tcp (with_packets _ ?m)) !! ?p = ?t => change (tcp_heap (tcp m) !! p = t); at_solve'
      | |- tcp_heap (tcp (inc _ _ ?m)) !! ?p = ?t => change (tcp_heap (tcp m) !! p = t); at_solve'
      end ].

Section Observe.
Context {A W : Type} `{AllocOps A} `{FragPool A} `{TcpApp A W}.
Variable stale_flags : Z -> Z.
Variable custom_free : Z -> Z -> Pbuf.state A -> res (Pbuf.state A).
Variable callback_ok : bool.
Variable netif_output : net A W -> Z -> Z -> Z -> res (err_t * net A W).
Implicit Types n : net A W.
Hypothesis driver_ok : forall n nif p dest, holds (netif_output n nif p dest) (fun r => tcp (snd r) = tcp n).


(** The observation. *)
Context {T : Type} (obs : net A W -> T).
Hypothesis obs_kept : forall n n', kept n' = kept n -> obs n' = obs n.
Hypothesis obs_put : forall n pcb t t', tcp_heap (tcp n) !! pcb = Some t -> core t' = core t -> obs (put_tcp n pcb t') = obs n.
Hypothesis obs_put_listen : forall n l x y, listen_heap (tcp n) !! l = Some x -> obs (put_listen n l y) = obs n.
Hypothesis obs_upd_in : forall n f, calm f -> obs (upd_in n f) = obs n.
(** For the end of the stream only: the flag is set, and a connection goes from ESTABLISHED to
    CLOSE_WAIT. *)
Hypothesis obs_got_fin : forall n, obs (upd_in n got_fin_flag) = obs n.
Hypothesis obs_close : forall n pcb t,
  tcp_heap (tcp n) !! pcb = Some t -> t_state t = ESTABLISHED -> obs (put_tcp n pcb (set_state CLOSE_WAIT t)) = obs n.

Lemma obs_tcp n n' : tcp n' = tcp n -> obs n' = obs n.
Proof. intros E. by apply obs_kept, kept_tcp. Qed.

Lemma obs_packets n s : obs (with_packets s n) = obs n.
Proof. by apply obs_tcp. Qed.
Lemma obs_inc n p c : obs (inc p c n) = obs n.
Proof. by apply obs_tcp. Qed.
Lemma obs_pool n k : obs (with_tcp (set_tcp_seg_pool k (tcp n)) n) = obs n.
Proof. by apply obs_kept. Qed.

Ltac obs_solve :=
  cbn [fst snd] in *;
  repeat
    (cbv beta zeta;
     lazymatch goal with
     | |- obs ?m = obs ?m => reflexivity
     | |- obs (with_mem _ ?m) = _ => unfold with_mem; rewrite obs_packets
     | |- obs (with_packets _ ?m) = _ => rewrite obs_packets
     | |- obs (inc _ _ ?m) = _ => rewrite obs_inc
     | |- obs (with_tcp (set_tcp_seg_pool _ _) ?m) = _ => rewrite obs_pool
     | |- obs (put_tcp ?m ?p ?t) = _ => erewrite (obs_put m p _ t) by first [at_solve'|core_solve]
     | |- obs (put_listen ?m ?l ?x) = _ => erewrite (obs_put_listen m l _ x) by listen_solve
     | |- obs (upd_in ?m ?f) = _ => first [rewrite (obs_upd_in m f) by flags_solve | transitivity (obs m); [exact (obs_got_fin m)|]]
     | |- obs (if ?b then _ else _) = _ => destruct b
     | E : obs ?m = obs _ |- obs ?m = _ => rewrite E; clear E
     | E : kept ?m = kept _ |- obs ?m = _ => rewrite (obs_kept _ _ E); clear E
     | E : tcp ?m = tcp _ |- obs ?m = _ => rewrite (obs_tcp _ _ E); clear E
     end).

Ltac oend :=
  lazymatch goal with
  | |- holds (Ok _) _ => cbn [holds]; obs_solve
  | |- holds _ _ => eapply holds_weaken; [solve [eauto 3 with tcp_frame nocore]|cbv beta; intros; obs_solve]
  end.
Ltac orun := repeat tstep; oend.

Lemma upd_obs n pcb f : (forall t, core (f t) = core t) -> holds (upd_tcp n pcb f) (fun n' => obs n' = obs n).
Proof. intros Hf. unfold upd_tcp. repeat tstep. by eapply obs_put. Qed.

Lemma raise_obs n pcb f : holds (raise_flag n pcb f) (fun n' => obs n' = obs n).
Proof. by apply upd_obs. Qed.
Lemma clear_obs n pcb f : holds (clear_flag n pcb f) (fun n' => obs n' = obs n).
Proof. by apply upd_obs. Qed.
Lemma ack_now_obs n pcb : holds (tcp_ack_now n pcb) (fun n' => obs n' = obs n).
Proof. by apply upd_obs. Qed.

Hint Extern 1 (holds (upd_tcp _ _ _) _) => (apply upd_obs; core_solve) : tcp_frame.
Hint Resolve raise_obs clear_obs ack_now_obs : tcp_frame.

Lemma ack_obs n pcb : holds (tcp_ack n pcb) (fun n' => obs n' = obs n).
Proof. unfold tcp_ack. orun. Qed.

Lemma backlog_accepted_obs n pcb : holds (tcp_backlog_accepted n pcb) (fun n' => obs n' = obs n).
Proof. unfold tcp_backlog_accepted. orun. Qed.

Lemma backlog_delayed_obs n pcb : holds (tcp_backlog_delayed n pcb) (fun n' => obs n' = obs n).
Proof. unfold tcp_backlog_delayed. orun. Qed.
Hint Resolve ack_obs backlog_accepted_obs : tcp_frame.

Lemma purge_obs n pcb : holds (tcp_pcb_purge custom_free n pcb) (fun n' => obs n' = obs n).
Proof. unfold tcp_pcb_purge. orun. Qed.

Lemma ann_wnd_obs n pcb : holds (tcp_update_rcv_ann_wnd n pcb) (fun r => obs (snd r) = obs n).
Proof. unfold tcp_update_rcv_ann_wnd. orun. Qed.
Hint Resolve purge_obs ann_wnd_obs : tcp_frame.

Lemma recved_obs n pcb len :
  holds (tcp_recved stale_flags custom_free callback_ok netif_output n pcb len) (fun n' => obs n' = obs n).
Proof. unfold tcp_recved. orun. Qed.
Hint Resolve recved_obs : tcp_frame.

(** Options. *)
Lemma getoptbyte_obs n b n' : tcp_getoptbyte n = (b, n') -> obs n' = obs n.
Proof. unfold tcp_getoptbyte. destruct (_ || _); intros [= <- <-]; by apply obs_upd_in; flags_solve. Qed.

Lemma parseopt_loop_obs fuel : forall n pcb, holds (parseopt_loop fuel n pcb) (fun n' => obs n' = obs n).
Proof.
  induction fuel as [|fuel IH]; intros n pcb; cbn [parseopt_loop]; repeat tstep; try done;
    repeat match goal with E : tcp_getoptbyte _ = _ |- _ => apply getoptbyte_obs in E end; oend.
Qed.
Hint Resolve parseopt_loop_obs : tcp_frame.

Lemma parseopt_obs n pcb : holds (tcp_parseopt n pcb) (fun n' => obs n' = obs n).
Proof. unfold tcp_parseopt. orun. Qed.

(** Acknowledgements. *)
Lemma free_acked_obs n pcb t t0 sg :
  tcp_heap (tcp n) !! pcb = Some t0 -> core t = core t0 ->
  holds (free_acked custom_free n pcb t sg) (fun n' => obs n' = obs n).
Proof.
  intros Ht E. unfold free_acked. repeat tstep. cbn. obs_solve.
Qed.

Lemma ack_unacked_obs l : forall n pcb, holds (ack_unacked custom_free n pcb l) (fun n' => obs n' = obs n).
Proof.
  induction l as [|sg l IH]; intros n pcb; cbn [ack_unacked]; [done|]. tstep; [|done]. tstep.
  eapply holds_call; [by eapply free_acked_obs|]. intros n1 E1. eapply holds_weaken; [apply IH|]. cbn. congruence.
Qed.

Lemma ack_unsent_obs l : forall n pcb, holds (ack_unsent custom_free n pcb l) (fun n' => obs n' = obs n).
Proof.
  induction l as [|sg l IH]; intros n pcb; cbn [ack_unsent]; [done|]. tstep. tstep; [|done]. cbv zeta.
  eapply holds_call; [eapply free_acked_obs; [done|core_solve]|]. intros n1 E1. eapply holds_weaken; [apply IH|]. cbn. congruence.
Qed.
Hint Resolve parseopt_obs ack_unacked_obs ack_unsent_obs : tcp_frame.

Lemma dupack_obs n pcb e : holds (dupack n pcb e) (fun n' => obs n' = obs n).
Proof. unfold dupack, grow_cwnd. orun. Qed.

Lemma newack_obs n pcb : holds (newack custom_free n pcb) (fun n' => obs n' = obs n).
Proof. unfold newack, open_cwnd, grow_cwnd. orun. Qed.
Hint Resolve dupack_obs newack_obs : tcp_frame.

Lemma receive_ack_obs n pcb :
  holds (receive_ack stale_flags custom_free callback_ok netif_output n pcb) (fun n' => obs n' = obs n).
Proof. unfold receive_ack, update_snd_wnd, rtt_update. orun. Qed.
Hint Resolve receive_ack_obs : tcp_frame.

(** Data out of order. *)
Lemma oos_drop_obs cseg l : forall n, holds (oos_drop_covered custom_free n cseg l) (fun r => obs (snd r) = obs n).
Proof. induction l as [|sg l IH]; intros n; cbn [oos_drop_covered]; [done|]. orun. Qed.
Hint Resolve oos_drop_obs : tcp_frame.

Lemma oos_insert_obs n cseg l : holds (tcp_oos_insert_segment custom_free n cseg l) (fun r => obs (snd r) = obs n).
Proof. unfold tcp_oos_insert_segment. orun. Qed.

Lemma trim_before_obs n sg : holds (trim_before custom_free n sg) (fun r => obs (snd r) = obs n).
Proof. unfold trim_before. orun. Qed.

Lemma trim_to_wnd_obs n pcb sg : holds (trim_to_wnd custom_free n pcb sg) (fun r => obs (snd r) = obs n).
Proof. unfold trim_to_wnd. orun. Qed.
Hint Resolve oos_insert_obs trim_before_obs trim_to_wnd_obs : tcp_frame.

Lemma oos_loop_obs rest : forall n pcb front, holds (oos_loop custom_free n pcb front rest) (fun r => obs (snd r) = obs n).
Proof. induction rest as [|sg rest IH]; intros n pcb front; cbn [oos_loop]; [done|]. orun. Qed.
Hint Resolve oos_loop_obs : tcp_frame.

Lemma out_of_order_obs n pcb :
  holds (receive_out_of_order stale_flags custom_free callback_ok netif_output n pcb) (fun n' => obs n' = obs n).
Proof. unfold receive_out_of_order, queue_ooseq. orun. Qed.

(** Data in order. *)
Lemma trim_front_obs n pcb : holds (trim_front n pcb) (fun n' => obs n' = obs n).
Proof. unfold trim_front. orun. Qed.

Lemma cut_inseg_obs n l : holds (cut_inseg custom_free n l) (fun n' => obs n' = obs n).
Proof. unfold cut_inseg. orun. Qed.
Hint Resolve out_of_order_obs trim_front_obs cut_inseg_obs : tcp_frame.

Lemma fit_to_wnd_obs n pcb : holds (fit_to_wnd custom_free n pcb) (fun n' => obs n' = obs n).
Proof. unfold fit_to_wnd. orun. Qed.

Lemma ooseq_drop_obs l : forall n, holds (ooseq_drop_covered custom_free n l) (fun r => obs (snd r) = obs n).
Proof. induction l as [|sg l IH]; intros n; cbn [ooseq_drop_covered]; [done|]. orun. Qed.
Hint Resolve fit_to_wnd_obs ooseq_drop_obs : tcp_frame.

Lemma ooseq_overlap_obs n pcb : holds (ooseq_overlap custom_free n pcb) (fun n' => obs n' = obs n).
Proof. unfold ooseq_overlap. orun. Qed.

Lemma advance_obs n pcb a b : holds (advance n pcb a b) (fun n' => obs n' = obs n).
Proof. unfold advance. orun. Qed.
Hint Resolve ooseq_overlap_obs advance_obs : tcp_frame.

Lemma close_wait_obs n pcb :
  holds (upd_tcp n pcb (fun t => if state_eqb (t_state t) ESTABLISHED then set_state CLOSE_WAIT t else t)) (fun n' => obs n' = obs n).
Proof.
  unfold upd_tcp. tstep. cbn [holds]. destruct (state_eqb _ _) eqn:E; [|by eapply obs_put].
  apply obs_close; [done|]. by apply bool_decide_eq_true in E.
Qed.
Hint Resolve close_wait_obs : tcp_frame.

Lemma ooseq_deliver_obs l : forall n pcb, holds (ooseq_deliver custom_free n pcb l) (fun n' => obs n' = obs n).
Proof. induction l as [|sg l IH]; intros n pcb; cbn [ooseq_deliver]; [done|]. orun. Qed.
Hint Resolve ooseq_deliver_obs : tcp_frame.

Lemma in_order_obs n pcb : holds (receive_in_order custom_free n pcb) (fun n' => obs n' = obs n).
Proof. unfold receive_in_order. orun. Qed.
Hint Resolve in_order_obs : tcp_frame.

Lemma receive_data_obs n pcb :
  holds (receive_data stale_flags custom_free callback_ok netif_output n pcb) (fun n' => obs n' = obs n).
Proof. unfold receive_data. orun. Qed.
Hint Resolve receive_data_obs : tcp_frame.

Lemma receive_obs n pcb :
  holds (tcp_receive stale_flags custom_free callback_ok netif_output n pcb) (fun n' => obs n' = obs n).
Proof. unfold tcp_receive. orun. Qed.

End Observe.
