(* ===== verification/TcpLists.v ===== *)
(** * The lists of control blocks: lwip/src/core/tcp.c, tcp_in.c

    priv/tcp_priv.h states what the code relies on as axioms about the lists: every control
    block that is not CLOSED is on one of them, on one only, those on [tcp_listen_pcbs]
    listen, those on [tcp_tw_pcbs] are in TIME-WAIT.  Here these are an invariant,
    [pcbs_ok], and every operation keeps it. *)

From S2P Require Import Prelude Ip4Addr Pbuf TcpData Net Ip4 IpFrame TcpBase TcpOut Tcp TcpRecv TcpIn TcpFrame TcpObs.

(** ** The invariant *)

(** Which list a control block in a given state belongs to. *)
Inductive kind := K_closed | K_listen | K_active | K_tw.

Definition kind_of (st : tcp_state) : kind :=
  match st with
  | CLOSED => K_closed
  | LISTEN => K_listen
  | TIME_WAIT => K_tw
  | _ => K_active
  end.

(** What the invariant says of a control block: its kind, whether it has a port, its listener. *)
Definition place (t : tcp_pcb) := (kind_of (t_state t), negb (t_local_port t =? 0), t_listener t).

(** All that the invariant is about: the lists and the pools, the connection whose segment is
    processed and whether it is to be freed, which listeners exist, and the places of the other
    control blocks. *)
Record pcb_view := mk_view {
  v_listen : list Z; v_bound : list Z; v_active : list Z; v_tw : list Z; v_pool : list Z; v_listen_pool : list Z;
  v_input : Z; v_closing : bool; v_reset : bool; v_flags : Z; v_listeners : gmap Z unit; v_places : gmap Z (kind * bool * Z)
}.

(** The connections that are off the lists without being CLOSED.  One that was closed while its
    segment is processed is left to [tcp_input], which frees it; [L] are those for which
    [tcp_input] did not do so: it looks at TF_CLOSED before it calls the receive function, and
    not again when that function has called [tcp_close]. *)
Definition dropped (L : gset Z) (v : pcb_view) (p : Z) : Prop := p ∈ L \/ (p = v_input v /\ v_closing v = true).

(** A list of control blocks, all but [q], whose places satisfy [Q]. *)
Definition members (q : Z) (l : list Z) (m : gmap Z (kind * bool * Z)) (Q : kind * bool * Z -> Prop) : Prop :=
  NoDup l /\ forall p, p ∈ l -> p <> q /\ exists x, m !! p = Some x /\ Q x.

(** A pool of addresses that are not in use. *)
Definition unused (l : list Z) (m : gmap Z (kind * bool * Z)) (ls : gmap Z unit) : Prop :=
  NoDup l /\ forall p, p ∈ l -> p <> NULL /\ m !! p = None /\ ls !! p = None.

(** The invariant, except that the control block [q] is on no list, whatever its state. *)
Record inv (L : gset Z) (q : Z) (v : pcb_view) : Prop := {
  ok_listen : NoDup (v_listen v) /\ forall p, p ∈ v_listen v <-> is_Some (v_listeners v !! p);
  ok_bound : members q (v_bound v) (v_places v) (fun x => fst x = (K_closed, true));
  ok_active : members q (v_active v) (v_places v) (fun x => fst (fst x) = K_active);
  ok_tw : members q (v_tw v) (v_places v) (fun x => fst (fst x) = K_tw);
  ok_listed : forall p k b l, v_places v !! p = Some (k, b, l) ->
    p = q \/ dropped L v p \/ (k = K_closed /\ l = NULL) \/ (k = K_active /\ p ∈ v_active v) \/ (k = K_tw /\ p ∈ v_tw v);
  ok_null : v_places v !! NULL = None /\ v_listeners v !! NULL = None;
  ok_disjoint : forall p, is_Some (v_places v !! p) -> v_listeners v !! p = None;
  ok_pool : unused (v_pool v) (v_places v) (v_listeners v);
  ok_listen_pool : unused (v_listen_pool v) (v_places v) (v_listeners v);
  ok_pools : forall p, p ∈ v_pool v -> p ∈ v_listen_pool v -> False;
  ok_listener : forall p k b l, v_places v !! p = Some (k, b, l) ->
    k <> K_listen /\ (dropped L v p \/ l = NULL \/ is_Some (v_listeners v !! l))
}.

Section Invariant.
Context {A W : Type}.
Implicit Types n : net A W.

Definition closing n : bool := has (i_recv_flags (in_of n)) TF_CLOSED.
Definition resetting n : bool := has (i_recv_flags (in_of n)) TF_RESET.
Definition listeners n : gmap Z unit := (fun _ => tt) <$> listen_heap (tcp n).
Definition places n := place <$> tcp_heap (tcp n).

Definition spots n : pcb_view :=
  mk_view (tcp_listen_pcbs (tcp n)) (tcp_bound_pcbs (tcp n)) (tcp_active_pcbs (tcp n)) (tcp_tw_pcbs (tcp n))
    (tcp_pcb_pool (tcp n)) (tcp_listen_pool (tcp n)) (tcp_input_pcb (tcp n)) (closing n) (resetting n)
    (i_flags (in_of n)) (listeners n) (places n).

(** The invariant: only the connections [L] are excepted. *)
Definition pcbs_ok (L : gset Z) n : Prop := inv L NULL (spots n).

Lemma spots_kept n n' : kept n' = kept n -> spots n' = spots n.
Proof.
  unfold kept. intros E. injection E. intros E1 E2 E3 E4 E5 E6 E7 E8 E9 E10 E11 E12 E13 E14.
  assert (Ep : places n' = places n).
  { apply map_eq. intros p. unfold places. rewrite !lookup_fmap. apply (f_equal (.!! p)) in E1. rewrite !lookup_fmap in E1.
    destruct (tcp_heap (tcp n') !! p) as [t'|], (tcp_heap (tcp n) !! p) as [t|]; try done.
    injection E1. intros. cbn. unfold place. congruence. }
  unfold spots, closing, resetting, listeners, in_of. congruence.
Qed.

Lemma spots_tcp n n' : tcp n' = tcp n -> spots n' = spots n.
Proof. intros E. by apply spots_kept, kept_tcp. Qed.

Lemma spots_put n pcb t t' : tcp_heap (tcp n) !! pcb = Some t -> place t' = place t -> spots (put_tcp n pcb t') = spots n.
Proof.
  intros Ht E. assert (Ep : places (put_tcp n pcb t') = places n).
  { unfold places. cbn [tcp put_tcp with_tcp tcp_heap set_tcp_heap]. rewrite fmap_insert, E. apply insert_id. by rewrite lookup_fmap, Ht. }
  unfold spots. by rewrite Ep.
Qed.

Lemma spots_put_listen n l x y : listen_heap (tcp n) !! l = Some x -> spots (put_listen n l y) = spots n.
Proof.
  intros Hx. assert (El : listeners (put_listen n l y) = listeners n).
  { unfold listeners. cbn [tcp put_listen with_tcp listen_heap set_listen_heap]. rewrite fmap_insert. apply insert_id. by rewrite lookup_fmap, Hx. }
  unfold spots. by rewrite El.
Qed.

Lemma spots_flags n f :
  (forall i, has (i_recv_flags (f i)) TF_CLOSED = has (i_recv_flags i) TF_CLOSED) ->
  (forall i, has (i_recv_flags (f i)) TF_RESET = has (i_recv_flags i) TF_RESET) -> (forall i, i_flags (f i) = i_flags i) ->
  spots (upd_in n f) = spots n.
Proof.
  intros E1 E2 E3. assert (Ec : closing (upd_in n f) = closing n) by apply E1. assert (Er : resetting (upd_in n f) = resetting n) by apply E2.
  assert (Ef : i_flags (in_of (upd_in n f)) = i_flags (in_of n)) by apply E3. unfold spots. by rewrite Ec, Er, Ef.
Qed.

Lemma spots_upd_in n f : calm f -> spots (upd_in n f) = spots n.
Proof. intros Hf. apply spots_flags; intros i; destruct (Hf i) as (E1 & E2 & _); by rewrite ?E1, ?E2. Qed.

Lemma spots_got_fin n : spots (upd_in n got_fin_flag) = spots n.
Proof. apply spots_flags; intros i; [by apply has_add..|done]. Qed.

Lemma spots_core n pcb t t' : tcp_heap (tcp n) !! pcb = Some t -> core t' = core t -> spots (put_tcp n pcb t') = spots n.
Proof. intros Ht E. eapply spots_put; [done|]. unfold core in E. unfold place. congruence. Qed.

Lemma spots_close n pcb t :
  tcp_heap (tcp n) !! pcb = Some t -> t_state t = ESTABLISHED -> spots (put_tcp n pcb (set_state CLOSE_WAIT t)) = spots n.
Proof. intros Ht E. eapply spots_put; [done|]. unfold place. cbn. by rewrite E. Qed.

Lemma places_lookup n p t : tcp_heap (tcp n) !! p = Some t -> places n !! p = Some (place t).
Proof. intros Ht. unfold places. by rewrite lookup_fmap, Ht. Qed.

Lemma listeners_lookup n p x : listen_heap (tcp n) !! p = Some x -> listeners n !! p = Some tt.
Proof. intros Hx. unfold listeners. by rewrite lookup_fmap, Hx. Qed.

End Invariant.

(** ** Operations that leave every control block in its place *)

Ltac place_solve :=
  intros; try reflexivity; unfold place; cbn; repeat case_match; cbn;
  repeat match goal with
         | H : state_eqb _ _ = true |- _ => apply bool_decide_eq_true in H
         | H : t_state _ = _ |- _ => rewrite H
         end; reflexivity.

Ltac spots_solve :=
  cbn [fst snd] in *;
  repeat
    (cbv beta zeta;
     lazymatch goal with
     | |- spots ?m = spots ?m => reflexivity
     | |- spots (with_mem _ ?m) = ?r => change (spots m = r)
     | |- spots (with_packets _ ?m) = ?r => change (spots m = r)
     | |- spots (inc _ _ ?m) = ?r => change (spots m = r)
     | |- spots (with_tcp (set_tcp_seg_pool _ _) ?m) = ?r => change (spots m = r)
     | |- spots (put_tcp ?m ?p ?t) = _ => erewrite (spots_put m p _ t) by first [at_solve'|place_solve]
     | |- spots (put_listen ?m ?l ?x) = _ => erewrite (spots_put_listen m l _ x) by listen_solve
     | |- spots (upd_in ?m ?f) = _ => rewrite (spots_upd_in m f) by flags_solve
     | |- spots (if ?b then _ else _) = _ => destruct b
     | E : spots ?m = spots _ |- spots ?m = _ => rewrite E; clear E
     | E : kept ?m = kept _ |- spots ?m = _ => rewrite (spots_kept _ _ E); clear E
     | E : tcp ?m = tcp _ |- spots ?m = _ => rewrite (spots_tcp _ _ E); clear E
     end).

Ltac send_ :=
  lazymatch goal with
  | |- holds (Ok _) _ => cbn [holds]; spots_solve
  | |- holds _ _ => eapply holds_weaken; [solve [eauto 3 with tcp_frame nocore]|cbv beta; intros; spots_solve]
  end.
Ltac srun := repeat tstep; send_.

Section Places.
Context {A W : Type} `{AllocOps A} `{FragPool A} `{TcpApp A W}.
Variable stale_flags : Z -> Z.
Variable custom_free : Z -> Z -> Pbuf.state A -> res (Pbuf.state A).
Variable callback_ok : bool.
Variable netif_output : net A W -> Z -> Z -> Z -> res (err_t * net A W).
Implicit Types n : net A W.
Hypothesis driver_ok : forall n nif p dest, holds (netif_output n nif p dest) (fun r => tcp (snd r) = tcp n).

Lemma upd_spots n pcb f : (forall t, place (f t) = place t) -> holds (upd_tcp n pcb f) (fun n' => spots n' = spots n).
Proof. intros Hf. unfold upd_tcp. repeat tstep. by eapply spots_put. Qed.

Ltac by_obs := by eauto using spots_kept, spots_core, spots_put_listen, spots_upd_in, spots_got_fin, spots_close.

Lemma raise_spots n pcb f : holds (raise_flag n pcb f) (fun n' => spots n' = spots n).
Proof. by apply upd_spots. Qed.
Lemma clear_spots n pcb f : holds (clear_flag n pcb f) (fun n' => spots n' = spots n).
Proof. by apply upd_spots. Qed.
Lemma ack_now_spots n pcb : holds (tcp_ack_now n pcb) (fun n' => spots n' = spots n).
Proof. by apply upd_spots. Qed.
Lemma ack_spots n pcb : holds (tcp_ack n pcb) (fun n' => spots n' = spots n).
Proof. apply ack_obs; by_obs. Qed.
Lemma backlog_accepted_spots n pcb : holds (tcp_backlog_accepted n pcb) (fun n' => spots n' = spots n).
Proof. apply backlog_accepted_obs; by_obs. Qed.
Lemma backlog_delayed_spots n pcb : holds (tcp_backlog_delayed n pcb) (fun n' => spots n' = spots n).
Proof. apply backlog_delayed_obs; by_obs. Qed.
Lemma purge_spots n pcb : holds (tcp_pcb_purge custom_free n pcb) (fun n' => spots n' = spots n).
Proof. apply purge_obs; by_obs. Qed.
Lemma ann_wnd_spots n pcb : holds (tcp_update_rcv_ann_wnd n pcb) (fun r => spots (snd r) = spots n).
Proof. apply ann_wnd_obs; by_obs. Qed.
Lemma recved_spots n pcb len :
  holds (tcp_recved stale_flags custom_free callback_ok netif_output n pcb len) (fun n' => spots n' = spots n).
Proof. apply recved_obs; by_obs. Qed.
Lemma parseopt_spots n pcb : holds (tcp_parseopt n pcb) (fun n' => spots n' = spots n).
Proof. apply parseopt_obs; by_obs. Qed.
Lemma receive_spots n pcb :
  holds (tcp_receive stale_flags custom_free callback_ok netif_output n pcb) (fun n' => spots n' = spots n).
Proof. apply receive_obs; by_obs. Qed.

End Places.

#[export] Hint Resolve raise_spots clear_spots ack_now_spots ack_spots backlog_accepted_spots backlog_delayed_spots purge_spots
  ann_wnd_spots recved_spots parseopt_spots receive_spots : tcp_frame.
#[export] Hint Extern 1 (holds (upd_tcp _ _ _) _) => (apply upd_spots; place_solve) : tcp_frame.

(** ** Moving a control block from one list to another *)

Section Moves.
Variable L : gset Z.
Local Abbreviation inv := (inv L).
Local Abbreviation dropped := (dropped L).

(** The list for control blocks of a kind. *)
Definition list_of (k : kind) : pcblist :=
  match k with
  | K_closed => L_bound
  | K_listen => L_listen
  | K_active => L_active
  | K_tw => L_tw
  end.

Lemma unlink_in pcb l x : NoDup l -> x ∈ pcb_unlink pcb l <-> x ∈ l /\ x <> pcb.
Proof.
  induction 1 as [|y l Hy _ IH]; cbn [pcb_unlink]; [rewrite elem_of_nil; tauto|].
  destruct (Z.eqb_spec y pcb) as [->|Hne].
  - rewrite elem_of_cons. split; [intros Hx; split; [by right|by intros ->]|]. by intros [[->|] ?].
  - rewrite !elem_of_cons, IH. split; [intros [->|[]]; auto|]. intros [[->|] ?]; auto.
Qed.

Lemma unlink_nodup pcb l : NoDup l -> NoDup (pcb_unlink pcb l).
Proof.
  induction 1 as [|y l Hy Hl IH]; cbn [pcb_unlink]; [constructor|]. destruct (y =? pcb); [done|].
  constructor; [|done]. rewrite unlink_in by done. by intros [].
Qed.

(** A control block is taken off its list. *)
Definition unlisted (k : kind) (pcb : Z) (v : pcb_view) : pcb_view :=
  mk_view (v_listen v) (match k with K_closed => pcb_unlink pcb (v_bound v) | _ => v_bound v end)
    (match k with K_active => pcb_unlink pcb (v_active v) | _ => v_active v end)
    (match k with K_tw => pcb_unlink pcb (v_tw v) | _ => v_tw v end)
    (v_pool v) (v_listen_pool v) (v_input v) (v_closing v) (v_reset v) (v_flags v) (v_listeners v) (v_places v).

Lemma members_unlink q pcb l m Q : members q l m Q -> members pcb (pcb_unlink pcb l) m Q.
Proof.
  intros [Hn HP]. split; [by apply unlink_nodup|]. intros p. rewrite unlink_in by done. intros [Hp ?].
  split; [done|by apply HP].
Qed.

Lemma members_apart q pcb l m (Q : kind * bool * Z -> Prop) x :
  members q l m Q -> m !! pcb = Some x -> ~ Q x -> members pcb l m Q.
Proof.
  intros [Hn HP] Hx Hq. split; [done|]. intros p Hp. destruct (HP p Hp) as (_ & y & Hy & Qy).
  split; [|by exists y]. intros ->. congruence.
Qed.

Lemma members_insert q l m Q x : members q l m Q -> members q l (<[q := x]> m) Q.
Proof.
  intros [Hn HP]. split; [done|]. intros p Hp. destruct (HP p Hp) as (? & ?). by rewrite lookup_insert_ne.
Qed.

Lemma members_delete q l m Q : members q l m Q -> m !! NULL = None -> members NULL l (delete q m) Q.
Proof.
  intros [Hn HP] H0. split; [done|]. intros p Hp. destruct (HP p Hp) as (? & x & Hx & Qx).
  rewrite lookup_delete_ne by done. split; [intros ->; congruence|by exists x].
Qed.

Lemma members_weaken q l m Q : members q l m Q -> m !! NULL = None -> members NULL l m Q.
Proof.
  intros [Hn HP] H0. split; [done|]. intros p Hp. destruct (HP p Hp) as (? & x & Hx & Qx).
  split; [intros ->; congruence|by exists x].
Qed.

Lemma members_cons q l m (Q : kind * bool * Z -> Prop) x :
  members q l m Q -> m !! NULL = None -> m !! q = Some x -> Q x -> members NULL (q :: l) m Q.
Proof.
  intros HM H0 Hx Qx. destruct (members_weaken _ _ _ _ HM H0) as [Hn HP]. split.
  - constructor; [|done]. intros Hq. by destruct (proj2 HM q Hq).
  - intros p [->|Hp]%elem_of_cons; [|by apply HP]. split; [intros ->; congruence|by exists x].
Qed.

Lemma unused_insert l m ls q x y : unused l m ls -> m !! q = Some x -> unused l (<[q := y]> m) ls.
Proof.
  intros [Hn HP] Hx. split; [done|]. intros p Hp. destruct (HP p Hp) as (? & ? & ?).
  by rewrite lookup_insert_ne by congruence.
Qed.

Lemma unused_delete l m ls q x : unused l m ls -> m !! q = Some x -> unused l (delete q m) ls.
Proof.
  intros [Hn HP] Hx. split; [done|]. intros p Hp. destruct (HP p Hp) as (? & ? & ?).
  by rewrite lookup_delete_ne by congruence.
Qed.

Lemma detach v pcb k b l : inv NULL v -> v_places v !! pcb = Some (k, b, l) -> inv pcb (unlisted k pcb v).
Proof.
  intros [Hli Hb Ha Ht Hl Hn Hd Hp Hlp Hpp Hln] E. split; try assumption; cbn.
  - destruct k; [by eapply members_unlink|..]; by eapply members_apart.
  - destruct k; [| |by eapply members_unlink|]; by eapply members_apart.
  - destruct k; [| | |by eapply members_unlink]; by eapply members_apart.
  - intros p k' b' l' Hx. destruct (decide (p = pcb)) as [->|Hne]; [by left|]. right.
    destruct (Hl _ _ _ _ Hx) as [->|[?|[?|[[-> ?]|[-> ?]]]]].
    + destruct Hn. congruence.
    + by left.
    + auto.
    + do 2 right. left. destruct k; rewrite ?unlink_in by apply Ha; auto.
    + do 3 right. destruct k; rewrite ?unlink_in by apply Ht; auto.
Qed.

(** A closed control block that is not bound is on no list. *)
Lemma detached_if v pcb b l : inv NULL v -> v_places v !! pcb = Some (K_closed, b, l) -> pcb ∉ v_bound v -> inv pcb v.
Proof.
  intros [Hli Hb Ha Ht Hl Hn Hd Hp Hlp Hpp Hln] E Hnb. split; try assumption; try (by eapply members_apart).
  - destruct Hb as [Hb1 Hb2]. split; [done|]. intros p Hx. split; [by intros ->|by apply Hb2].
  - intros p k1 b1 l1 Hx. destruct (Hl _ _ _ _ Hx) as [->|?]; [|by right]. destruct Hn. congruence.
Qed.

Lemma detached v pcb l : inv NULL v -> v_places v !! pcb = Some (K_closed, false, l) -> inv pcb v.
Proof.
  intros Hi E. eapply detached_if; [done..|]. intros Hb. destruct (proj2 (ok_bound _ _ _ Hi) _ Hb) as (_ & x & Hx & Qx).
  rewrite E in Hx. by injection Hx as <-.
Qed.

(** A closed connection has no listener. *)
Lemma closed_listener v pcb b l : inv NULL v -> v_places v !! pcb = Some (K_closed, b, l) -> dropped v pcb \/ l = NULL.
Proof.
  intros Hi E. destruct (ok_listed _ _ _ Hi _ _ _ _ E) as [->|[?|[[_ ?]|[[? _]|[? _]]]]]; [|by left|by right|done..].
  destruct (ok_null _ _ _ Hi). congruence.
Qed.

(** The place of a control block that is on no list changes. *)
Definition placed (pcb : Z) (x : kind * bool * Z) (v : pcb_view) : pcb_view :=
  mk_view (v_listen v) (v_bound v) (v_active v) (v_tw v) (v_pool v) (v_listen_pool v) (v_input v) (v_closing v) (v_reset v) (v_flags v)
    (v_listeners v) (<[pcb := x]> (v_places v)).

Lemma replace_inv v pcb x k' b' l' :
  inv pcb v -> v_places v !! pcb = Some x -> k' <> K_listen ->
  dropped v pcb \/ l' = NULL \/ is_Some (v_listeners v !! l') -> inv pcb (placed pcb (k', b', l') v).
Proof.
  intros [Hli Hb Ha Ht Hl Hn Hd Hp Hlp Hpp Hln] E Hk Hl'. assert (Hne : pcb <> NULL) by (intros ->; destruct Hn; congruence).
  split; try assumption; cbn; try (by apply members_insert); try (by eapply unused_insert).
  - intros p k1 b1 l1. destruct (decide (p = pcb)) as [->|]; [by left|]. rewrite lookup_insert_ne by done. apply Hl.
  - by rewrite lookup_insert_ne.
  - intros p [y Hy]. apply Hd. destruct (decide (p = pcb)) as [->|]; [by rewrite E|].
    rewrite lookup_insert_ne in Hy by done. by rewrite Hy.
  - intros p k1 b1 l1. destruct (decide (p = pcb)) as [->|].
    + rewrite lookup_insert_eq. by intros [= -> -> ->].
    + rewrite lookup_insert_ne by done. apply Hln.
Qed.

Lemma place_inv v pcb k b l k' b' :
  inv pcb v -> v_places v !! pcb = Some (k, b, l) -> k' <> K_listen -> inv pcb (placed pcb (k', b', l) v).
Proof. intros Hi E Hk. eapply replace_inv; [done..|]. by eapply (ok_listener _ _ _ Hi). Qed.

(** It is freed. *)
Definition released (pcb : Z) (v : pcb_view) : pcb_view :=
  mk_view (v_listen v) (v_bound v) (v_active v) (v_tw v) (pcb :: v_pool v) (v_listen_pool v) (v_input v) (v_closing v) (v_reset v) (v_flags v)
    (v_listeners v) (delete pcb (v_places v)).

Lemma release_inv v pcb x : inv pcb v -> v_places v !! pcb = Some x -> inv NULL (released pcb v).
Proof.
  intros [Hli Hb Ha Ht Hl Hn Hd Hp Hlp Hpp Hln] E. assert (Hne : pcb <> NULL) by (intros ->; destruct Hn; congruence).
  split; try assumption; cbn; try (apply members_delete; [done|apply Hn]); try (by eapply unused_delete).
  - intros p k1 b1 l1 (Hpp' & Hx)%lookup_delete_Some. right. destruct (Hl _ _ _ _ Hx) as [->|?]; done.
  - by rewrite lookup_delete_ne.
  - intros p [y (? & Hy)%lookup_delete_Some]. apply Hd. by rewrite Hy.
  - destruct (unused_delete _ _ _ _ _ Hp E) as [Hp1 Hp2]. split.
    + constructor; [|done]. intros Hx%Hp. destruct Hx as (? & ? & ?). congruence.
    + intros p [->|?]%elem_of_cons; [|by apply Hp2]. rewrite lookup_delete_eq. split_and!; [done..|]. apply Hd. by rewrite E.
  - intros p [->|?]%elem_of_cons Hq; [|by eapply Hpp]. apply Hlp in Hq. destruct Hq as (? & ? & ?). congruence.
  - intros p k1 b1 l1 (? & Hx)%lookup_delete_Some. by eapply Hln.
Qed.

(** It goes on the list of its kind. *)
Definition listed (k : kind) (pcb : Z) (v : pcb_view) : pcb_view :=
  mk_view (v_listen v) (match k with K_closed => pcb :: v_bound v | _ => v_bound v end)
    (match k with K_active => pcb :: v_active v | _ => v_active v end)
    (match k with K_tw => pcb :: v_tw v | _ => v_tw v end)
    (v_pool v) (v_listen_pool v) (v_input v) (v_closing v) (v_reset v) (v_flags v) (v_listeners v) (v_places v).

Lemma attach v pcb k b l :
  inv pcb v -> v_places v !! pcb = Some (k, b, l) -> (k = K_closed -> b = true /\ (dropped v pcb \/ l = NULL)) -> inv NULL (listed k pcb v).
Proof.
  intros [Hli Hb Ha Ht Hl Hn Hd Hp Hlp Hpp Hln] E Hk. assert (H0 := proj1 Hn). split; try assumption; cbn.
  - destruct k; [|by eapply members_weaken..]. eapply members_cons; [done..|]. by destruct (Hk eq_refl) as [-> _].
  - destruct k; [by eapply members_weaken..| |by eapply members_weaken]. by eapply members_cons.
  - destruct k; [by eapply members_weaken..|]. by eapply members_cons.
  - intros p k1 b1 l1 Hx. right. destruct (Hl _ _ _ _ Hx) as [->|[?|[?|[[-> ?]|[-> ?]]]]].
    + rewrite E in Hx. injection Hx as <- <- <-. destruct (Hln _ _ _ _ E) as [? _].
      destruct k; [destruct (Hk eq_refl) as [_ [?|?]]; auto|done|..]; rewrite elem_of_cons; auto 6.
    + by left.
    + auto.
    + do 2 right. left. destruct k; rewrite ?elem_of_cons; auto.
    + do 3 right. destruct k; rewrite ?elem_of_cons; auto.
Qed.

(** It stays closed, without a list. *)
Lemma settle v pcb b l : inv pcb v -> v_places v !! pcb = Some (K_closed, b, l) -> dropped v pcb \/ l = NULL -> inv NULL v.
Proof.
  intros [Hli Hb Ha Ht Hl Hn Hd Hp Hlp Hpp Hln] E HE. assert (H0 := proj1 Hn).
  split; try assumption; try (by eapply members_weaken).
  intros p k1 b1 l1 Hx. right. destruct (Hl _ _ _ _ Hx) as [->|?]; [|done]. rewrite E in Hx. injection Hx as <- <- <-. destruct HE; auto.
Qed.

(** A control block from the pool. *)
Definition acquired (pcb : Z) (pool : list Z) (v : pcb_view) : pcb_view :=
  mk_view (v_listen v) (v_bound v) (v_active v) (v_tw v) pool (v_listen_pool v) (v_input v) (v_closing v) (v_reset v) (v_flags v)
    (v_listeners v) (<[pcb := (K_closed, false, NULL)]> (v_places v)).

Lemma members_new q l m Q x : members NULL l m Q -> m !! q = None -> members NULL l (<[q := x]> m) Q.
Proof.
  intros [Hn HP] Hq. split; [done|]. intros p Hp. destruct (HP p Hp) as (? & y & Hy & Qy).
  rewrite lookup_insert_ne by congruence. eauto.
Qed.

Lemma acquire_inv v pcb pool : inv NULL v -> v_pool v = pcb :: pool -> inv NULL (acquired pcb pool v).
Proof.
  intros [Hli Hb Ha Ht Hl Hn Hd Hp Hlp Hpp Hln] E. rewrite E in *. destruct Hp as [Hnd Hp].
  apply NoDup_cons in Hnd as [Hnp Hnd]. destruct (Hp pcb) as (Hne & Hf & Hfl); [by left|].
  split; try assumption; cbn; try (by apply members_new).
  - intros p k b l. destruct (decide (p = pcb)) as [->|]; [|rewrite lookup_insert_ne by done; apply Hl].
    rewrite lookup_insert_eq. intros [= <- <- <-]. auto.
  - by rewrite lookup_insert_ne.
  - intros p. destruct (decide (p = pcb)) as [->|]; [done|]. rewrite lookup_insert_ne by done. apply Hd.
  - split; [done|]. intros p Hx. rewrite lookup_insert_ne by congruence. apply Hp. by right.
  - split; [apply Hlp|]. intros p Hx. destruct (decide (p = pcb)) as [->|].
    + destruct (Hpp pcb); [by left|done].
    + rewrite lookup_insert_ne by done. by apply Hlp.
  - intros p Hx. apply Hpp. by right.
  - intros p k b l. destruct (decide (p = pcb)) as [->|]; [|rewrite lookup_insert_ne by done; apply Hln].
    rewrite lookup_insert_eq. intros [= <- <- <-]. auto.
Qed.

(** A listening control block from its pool. *)
Definition listen_acquired (pcb : Z) (pool : list Z) (v : pcb_view) : pcb_view :=
  mk_view (pcb :: v_listen v) (v_bound v) (v_active v) (v_tw v) (v_pool v) pool (v_input v) (v_closing v) (v_reset v) (v_flags v)
    (<[pcb := tt]> (v_listeners v)) (v_places v).

Lemma is_Some_insert {V} (m : gmap Z V) k x p : is_Some (m !! p) -> is_Some (<[k := x]> m !! p).
Proof. intros Hp. destruct (decide (p = k)) as [->|]; [by rewrite lookup_insert_eq|by rewrite lookup_insert_ne]. Qed.

Lemma listen_acquire_inv v pcb pool : inv NULL v -> v_listen_pool v = pcb :: pool -> inv NULL (listen_acquired pcb pool v).
Proof.
  intros [Hli Hb Ha Ht Hl Hn Hd Hp Hlp Hpp Hln] E. rewrite E in *. destruct Hlp as [Hnd Hlp].
  apply NoDup_cons in Hnd as [Hnp Hnd]. destruct (Hlp pcb) as (Hne & Hf & Hfl); [by left|].
  split; try assumption; cbn.
  - split.
    + constructor; [|apply Hli]. rewrite (proj2 Hli), Hfl. by intros [].
    + intros p. rewrite elem_of_cons, (proj2 Hli). destruct (decide (p = pcb)) as [->|].
      * rewrite lookup_insert_eq. split; [done|]. by left.
      * rewrite lookup_insert_ne by done. tauto.
  - by rewrite lookup_insert_ne.
  - intros p Hx. rewrite lookup_insert_ne; [by apply Hd|]. intros <-. rewrite Hf in Hx. by destruct Hx.
  - split; [apply Hp|]. intros p Hx. rewrite lookup_insert_ne; [by apply Hp|]. intros <-. eapply Hpp; [done|by left].
  - split; [done|]. intros p Hx. rewrite lookup_insert_ne by congruence. apply Hlp. by right.
  - intros p Hx Hy. eapply Hpp; [done|by right].
  - intros p k b l Hx. destruct (Hln _ _ _ _ Hx) as [? [?|[?|?]]]; auto using is_Some_insert.
Qed.

(** A listening control block is freed, after no other refers to it. *)
Definition listen_released (pcb : Z) (v : pcb_view) : pcb_view :=
  mk_view (pcb_unlink pcb (v_listen v)) (v_bound v) (v_active v) (v_tw v) (v_pool v) (pcb :: v_listen_pool v) (v_input v)
    (v_closing v) (v_reset v) (v_flags v) (delete pcb (v_listeners v)) (v_places v).

Lemma listen_release_inv v pcb :
  inv NULL v -> is_Some (v_listeners v !! pcb) ->
  (forall p k b, v_places v !! p = Some (k, b, pcb) -> dropped v p) -> inv NULL (listen_released pcb v).
Proof.
  intros [Hli Hb Ha Ht Hl Hn Hd Hp Hlp Hpp Hln] E Hno. assert (Hne : pcb <> NULL) by (intros ->; rewrite (proj2 Hn) in E; by destruct E).
  assert (Hfr : v_places v !! pcb = None).
  { destruct (v_places v !! pcb) eqn:Ex; [|done]. rewrite Hd in E by (by rewrite Ex). by destruct E. }
  split; try assumption; cbn.
  - split; [by apply unlink_nodup, Hli|]. intros p. rewrite unlink_in by apply Hli. rewrite (proj2 Hli).
    destruct (decide (p = pcb)) as [->|]; [rewrite lookup_delete_eq|rewrite lookup_delete_ne by done].
    + split; [by intros []|by intros []].
    + tauto.
  - by rewrite lookup_delete_ne.
  - intros p Hx. destruct (decide (p = pcb)) as [->|]; [by rewrite lookup_delete_eq|]. rewrite lookup_delete_ne by done. by apply Hd.
  - split; [apply Hp|]. intros p Hx. destruct (proj2 Hp p Hx) as (? & ? & ?). split_and!; [done..|]. by apply lookup_delete_None; right.
  - split.
    + constructor; [|apply Hlp]. intros Hx%(proj2 Hlp). destruct Hx as (? & ? & Hx). rewrite Hx in E. by destruct E.
    + intros p [->|Hx]%elem_of_cons; [by rewrite lookup_delete_eq|]. destruct (proj2 Hlp p Hx) as (? & ? & ?).
      split_and!; [done..|]. by apply lookup_delete_None; right.
  - intros p Hx [->|Hy]%elem_of_cons; [|by eapply Hpp]. apply (proj2 Hp) in Hx as (? & ? & Hx). rewrite Hx in E. by destruct E.
  - intros p k b l Hx. destruct (Hln _ _ _ _ Hx) as [? Hc]. split; [done|]. destruct (decide (l = pcb)) as [->|Hl'].
    + left. by eapply Hno.
    + by rewrite lookup_delete_ne.
Qed.

(** The connection whose segment is processed is left to [tcp_input]. *)
Definition with_input (q : Z) (c r : bool) (v : pcb_view) : pcb_view :=
  mk_view (v_listen v) (v_bound v) (v_active v) (v_tw v) (v_pool v) (v_listen_pool v) q c r (v_flags v) (v_listeners v) (v_places v).

Lemma drop_inv v q : inv q v -> q = v_input v -> inv NULL (with_input (v_input v) true (v_reset v) v).
Proof.
  intros [Hli Hb Ha Ht Hl Hn Hd Hp Hlp Hpp Hln] ->. assert (H0 := proj1 Hn).
  split; try assumption; cbn; try (by eapply members_weaken).
  - intros p k b l Hx. right. destruct (Hl _ _ _ _ Hx) as [->|[[?|[-> _]]|?]]; [left; by right|left; by left|left; by right|by right].
  - intros p k b l Hx. destruct (Hln _ _ _ _ Hx) as [? [[?|[-> _]]|?]]; (split; [done|]); [left; by left|left; by right|by right].
Qed.

(** More may be left to it. *)
Lemma closing_inv v : inv NULL v -> inv NULL (with_input (v_input v) true (v_reset v) v).
Proof.
  intros [Hli Hb Ha Ht Hl Hn Hd Hp Hlp Hpp Hln]. split; try assumption; cbn.
  - intros p k b l Hx. destruct (Hl _ _ _ _ Hx) as [?|[[?|[-> _]]|?]]; [by left|right; left; by left|right; left; by right|by right; right].
  - intros p k b l Hx. destruct (Hln _ _ _ _ Hx) as [? [[?|[-> _]]|?]]; (split; [done|]); [left; by left|left; by right|by right].
Qed.

(** Nothing is left to [tcp_input]: the connection may change. *)
Lemma with_input_inv v q c r :
  inv NULL v -> v_closing v = false \/ v_places v !! v_input v = None -> inv NULL (with_input q c r v).
Proof.
  intros [Hli Hb Ha Ht Hl Hn Hd Hp Hlp Hpp Hln] Hno.
  assert (Hnd : forall p x, v_places v !! p = Some x -> dropped v p -> p ∈ L) by (intros p x Hx [?|[-> ?]]; [done|]; destruct Hno; congruence).
  split; try assumption; cbn.
  - intros p k b l Hx. destruct (Hl _ _ _ _ Hx) as [?|[?|?]]; [by left| |by right; right]. right. left. left. by eapply Hnd.
  - intros p k b l Hx. destruct (Hln _ _ _ _ Hx) as [? [?|?]]; (split; [done|]); [|by right]. left. left. by eapply Hnd.
Qed.

(** The control blocks [l] forget the listener [lpcb]. *)
Definition forgot (lpcb : Z) (ls : list Z) (v v' : pcb_view) : Prop :=
  v' = mk_view (v_listen v) (v_bound v) (v_active v) (v_tw v) (v_pool v) (v_listen_pool v) (v_input v) (v_closing v) (v_reset v) (v_flags v)
         (v_listeners v) (v_places v')
  /\ forall p, match v_places v !! p, v_places v' !! p with
               | None, None => True
               | Some (k, b, l), Some (k', b', l') => (k', b') = (k, b) /\ (l' = l \/ l' = NULL) /\ (p ∈ ls -> l' <> lpcb)
               | _, _ => False
               end.

Lemma forgot_trans lpcb l1 l2 v1 v2 v3 :
  lpcb <> NULL -> forgot lpcb l1 v1 v2 -> forgot lpcb l2 v2 v3 -> forgot lpcb (l1 ++ l2) v1 v3.
Proof.
  intros Hn (E1 & H1) (E2 & H2). split; [rewrite E2, E1; done|]. intros p. specialize (H1 p). specialize (H2 p).
  destruct (v_places v1 !! p) as [[[k b] l]|], (v_places v2 !! p) as [[[k' b'] l']|], (v_places v3 !! p) as [[[k'' b''] l'']|]; try done.
  destruct H1 as (E & Hl & Hm), H2 as (E' & Hl' & Hm'). split_and!; [congruence|destruct Hl, Hl'; subst; auto|].
  rewrite elem_of_app. intros [Hp|Hp]; [|auto]. destruct Hl' as [->| ->]; auto.
Qed.

Lemma members_forgot lpcb ls v v' l (Q : kind * bool -> Prop) :
  forgot lpcb ls v v' -> members NULL l (v_places v) (fun x => Q (fst x)) -> members NULL l (v_places v') (fun x => Q (fst x)).
Proof.
  intros [_ Hf] [Hn HP]. split; [done|]. intros p Hp. destruct (HP p Hp) as (? & [[k b] x] & Hx & Qx). split; [done|].
  specialize (Hf p). rewrite Hx in Hf. destruct (v_places v' !! p) as [[[k' b'] x']|]; [|done]. destruct Hf as ([= -> ->] & _ & _).
  by exists (k, b, x').
Qed.

Lemma unused_forgot lpcb ls v v' l :
  forgot lpcb ls v v' -> unused l (v_places v) (v_listeners v) -> unused l (v_places v') (v_listeners v).
Proof.
  intros [_ Hf] [Hn HP]. split; [done|]. intros p Hp. destruct (HP p Hp) as (? & Hx & ?). split_and!; [done| |done].
  specialize (Hf p). rewrite Hx in Hf. by destruct (v_places v' !! p).
Qed.

Lemma forgot_inv lpcb ls v v' : forgot lpcb ls v v' -> inv NULL v -> inv NULL v'.
Proof.
  intros Hf [Hli Hb Ha Ht Hl Hn Hd Hp Hlp Hpp Hln]. pose proof Hf as [E Hf']. rewrite E. clear E.
  assert (Hback : forall p k b l, v_places v' !! p = Some (k, b, l) -> exists l0, v_places v !! p = Some (k, b, l0) /\ (l = l0 \/ l = NULL)).
  { intros p k b l Hx. specialize (Hf' p). rewrite Hx in Hf'. destruct (v_places v !! p) as [[[k0 b0] l0]|]; [|done].
    destruct Hf' as ([= -> ->] & ? & _). by exists l0. }
  split; try assumption; cbn.
  - by apply (members_forgot _ _ _ _ _ (fun x => x = (K_closed, true)) Hf).
  - by apply (members_forgot _ _ _ _ _ (fun x => fst x = K_active) Hf).
  - by apply (members_forgot _ _ _ _ _ (fun x => fst x = K_tw) Hf).
  - intros p k b l Hx. destruct (Hback _ _ _ _ Hx) as (l0 & Hx0 & [->| ->]); destruct (Hl _ _ _ _ Hx0) as [?|[?|[[? _]|?]]]; auto.
    destruct (Hl _ _ _ _ Hx0) as [?|[?|[?|?]]]; auto.
  - split; [|apply Hn]. specialize (Hf' NULL). rewrite (proj1 Hn) in Hf'. by destruct (v_places v' !! NULL).
  - intros p [[[k b] l] Hx]. destruct (Hback _ _ _ _ Hx) as (l0 & Hx0 & _). apply Hd. by rewrite Hx0.
  - by apply (unused_forgot _ _ _ _ _ Hf).
  - by apply (unused_forgot _ _ _ _ _ Hf).
  - intros p k b l Hx. destruct (Hback _ _ _ _ Hx) as (l0 & Hx0 & [->| ->]); destruct (Hln _ _ _ _ Hx0) as [? ?]; auto.
Qed.

End Moves.

(** What was left to [tcp_input] and not freed is lost. *)
Definition lost (v : pcb_view) : gset Z := if v_closing v then {[v_input v]} else ∅.

Lemma lose_inv L v q c r : inv L NULL v -> inv (lost v ∪ L) NULL (with_input q c r v).
Proof.
  intros [Hli Hb Ha Ht Hl Hn Hd Hp Hlp Hpp Hln].
  assert (Hnd : forall p, dropped L v p -> p ∈ lost v ∪ L).
  { intros p [?|[-> Hc]]; [by apply elem_of_union_r|]. apply elem_of_union_l. unfold lost. rewrite Hc. by apply elem_of_singleton. }
  split; try assumption; cbn.
  - intros p k b l Hx. destruct (Hl _ _ _ _ Hx) as [?|[?|?]]; [by left|right; left; left; by apply Hnd|by right; right].
  - intros p k b l Hx. destruct (Hln _ _ _ _ Hx) as [? [?|?]]; (split; [done|]); [left; left; by apply Hnd|by right].
Qed.

Lemma inv_mono L L' q v : L ⊆ L' -> inv L q v -> inv L' q v.
Proof.
  intros HL [Hli Hb Ha Ht Hl Hn Hd Hp Hlp Hpp Hln]. assert (Hnd : forall p, dropped L v p -> dropped L' v p) by (intros p [?|?]; [left; auto|by right]).
  split; try assumption.
  - intros p k b l Hx. destruct (Hl _ _ _ _ Hx) as [?|[?|?]]; auto.
  - intros p k b l Hx. destruct (Hln _ _ _ _ Hx) as [? [?|?]]; auto.
Qed.

(** Addresses that are not in use need no exception. *)
Lemma inv_restrict L q v : inv L q v -> inv (L ∩ dom (v_places v)) q v.
Proof.
  intros [Hli Hb Ha Ht Hl Hn Hd Hp Hlp Hpp Hln].
  assert (Hnd : forall p x, v_places v !! p = Some x -> dropped L v p -> dropped (L ∩ dom (v_places v)) v p).
  { intros p x Hx [?|?]; [left|by right]. apply elem_of_intersection. split; [done|]. apply elem_of_dom. by rewrite Hx. }
  split; try assumption.
  - intros p k b l Hx. destruct (Hl _ _ _ _ Hx) as [?|[?|?]]; eauto.
  - intros p k b l Hx. destruct (Hln _ _ _ _ Hx) as [? [?|?]]; eauto.
Qed.

(** A member of a list comes to its front. *)
Lemma front_inv L v k pcb b l : inv L NULL v -> v_places v !! pcb = Some (k, b, l) -> k <> K_closed -> inv L NULL (listed k pcb (unlisted k pcb v)).
Proof. intros Hi E Hk. eapply attach; [by eapply detach|exact E|done]. Qed.

Lemma front_listen_inv L v pcb :
  inv L NULL v -> is_Some (v_listeners v !! pcb) ->
  inv L NULL (mk_view (pcb :: pcb_unlink pcb (v_listen v)) (v_bound v) (v_active v) (v_tw v) (v_pool v) (v_listen_pool v) (v_input v)
    (v_closing v) (v_reset v) (v_flags v) (v_listeners v) (v_places v)).
Proof.
  intros [Hli Hb Ha Ht Hl Hn Hd Hp Hlp Hpp Hln] Hs. split; try assumption; cbn. destruct Hli as [Hnd Hli]. split.
  - constructor; [|by apply unlink_nodup]. rewrite unlink_in by done. by intros [].
  - intros p. rewrite elem_of_cons, unlink_in, Hli by done. destruct (decide (p = pcb)) as [->|]; tauto.
Qed.

(** What an operation, called within [tcp_input] or not, does with the connection that is
    processed: it may leave it to [tcp_input]. *)
Definition goes (v v' : pcb_view) : Prop :=
  v_input v' = v_input v /\ v_reset v' = v_reset v /\ v_flags v' = v_flags v /\ (v_closing v = true -> v_closing v' = true)
  /\ (v_input v = NULL -> v_closing v' = v_closing v).

Lemma goes_refl v : goes v v.
Proof. unfold goes. auto. Qed.

Lemma goes_trans v1 v2 v3 : goes v1 v2 -> goes v2 v3 -> goes v1 v3.
Proof.
  intros (? & ? & ? & ? & E12) (? & ? & ? & ? & E23). unfold goes. split_and!; [congruence..|auto|].
  intros E. rewrite E23; [auto|congruence].
Qed.
