(* ===== verification/TcpInv.v ===== *)
(** * Every operation keeps the lists of control blocks: lwip/src/core/tcp.c, tcp_in.c

    The theorems about the invariant of [TcpLists], operation by operation, and for every
    sequence of operations. *)

From S2P Require Import Prelude Ip4Addr Pbuf TcpData Net Ip4 IpFrame TcpBase TcpOut Tcp TcpRecv TcpIn TcpFrame TcpLists.

(** ** What is asked of the application *)

Section Laws.
Context {A W : Type} `{TcpApp A W}.
Implicit Types n : net A W.

(** The state after an operation: the invariant, and [tcp_input] goes on with the connection
    it has begun with. *)
Definition good (L : gset Z) n n' : Prop :=
  goes (spots n) (spots n') /\ pcbs_ok L n'.

(** A connection that is on the list of active ones, or on none. *)
Definition live n (pcb : Z) : Prop := exists b l, places n !! pcb = Some (K_active, b, l).

(** The callbacks do what they like with control blocks, as long as they keep the invariant:
    the operations of the TCP interface do.  An accept function that reports success has not
    closed the connection for good; when the connection is to be freed by [tcp_input], the
    functions that are called before that do not take it elsewhere. *)
Class WellBehaved : Prop := {
  accept_ok L f n arg pcb err : pcbs_ok L n -> holds (accept_fn f n arg pcb err) (fun r => good L n (snd r));
  recv_ok L f n arg pcb p err : pcbs_ok L n -> holds (recv_fn f n arg pcb p err) (fun r => good L n (snd r));
  sent_ok L f n arg pcb l : pcbs_ok L n -> holds (sent_fn f n arg pcb l) (fun r => good L n (snd r));
  connected_ok L f n arg pcb err : pcbs_ok L n -> holds (connected_fn f n arg pcb err) (fun r => good L n (snd r));
  poll_ok L f n arg pcb : pcbs_ok L n -> holds (poll_fn f n arg pcb) (fun r => good L n (snd r));
  err_ok L f n arg err : pcbs_ok L n -> holds (err_fn f n arg err) (good L n);
  accept_keeps L f n arg pcb err : pcbs_ok L n -> live n pcb ->
    holds (accept_fn f n arg pcb err) (fun r => fst r = ERR_OK -> live (snd r) pcb);
  connected_keeps L f n arg pcb err : pcbs_ok L n -> (closing n = true -> live n pcb) ->
    holds (connected_fn f n arg pcb err) (fun r => closing (snd r) = true -> fst r <> ERR_ABRT -> live (snd r) pcb);
  sent_keeps L f n arg pcb l : pcbs_ok L n -> (closing n = true -> live n pcb) ->
    holds (sent_fn f n arg pcb l) (fun r => closing (snd r) = true -> fst r <> ERR_ABRT -> live (snd r) pcb);
  err_keeps L f n arg err pcb t : pcbs_ok L n -> live n pcb -> tcp_heap (tcp n) !! pcb = Some t ->
    t_errf t = f -> t_callback_arg t = arg -> holds (err_fn f n arg err) (fun n' => live n' pcb)
}.

Lemma good_refl L n : pcbs_ok L n -> good L n n.
Proof. split; [apply goes_refl|done]. Qed.

Lemma good_trans L n1 n2 n3 : good L n1 n2 -> good L n2 n3 -> good L n1 n3.
Proof. intros [? ?] [? ?]. split; [by eapply goes_trans|done]. Qed.

Lemma good_spots L n n' : spots n' = spots n -> pcbs_ok L n -> good L n n'.
Proof. intros E Hn. unfold good, pcbs_ok. rewrite E. split; [apply goes_refl|done]. Qed.

Lemma good_after L n n1 n2 : good L n n1 -> spots n2 = spots n1 -> good L n n2.
Proof. intros Hg E. eapply good_trans; [done|]. apply good_spots; [done|apply Hg]. Qed.

Lemma live_spots n n' pcb : spots n' = spots n -> live n pcb -> live n' pcb.
Proof. intros E. apply (f_equal v_places) in E. cbn in E. unfold live. by rewrite E. Qed.

Lemma live_kind n pcb t : tcp_heap (tcp n) !! pcb = Some t -> kind_of (t_state t) = K_active -> live n pcb.
Proof. intros Ht Hk. exists (negb (t_local_port t =? 0)), (t_listener t). rewrite (places_lookup _ _ _ Ht). unfold place. by rewrite Hk. Qed.

End Laws.

Arguments WellBehaved A W {_}.

(** Operations that leave every control block in its place. *)
Lemma holds_good {A W} L (n : net A W) (r : res (net A W)) :
  pcbs_ok L n -> holds r (fun n' => spots n' = spots n) -> holds r (good L n).
Proof. intros Hn Hr. eapply holds_weaken; [exact Hr|]. intros n' E. by apply good_spots. Qed.

Lemma holds_good2 {A W X} L (n : net A W) (r : res (X * net A W)) :
  pcbs_ok L n -> holds r (fun x => spots (snd x) = spots n) -> holds r (fun x => good L n (snd x)).
Proof. intros Hn Hr. eapply holds_weaken; [exact Hr|]. intros n' E. by apply good_spots. Qed.

Section Ops.
Context {A W : Type} `{AllocOps A} `{FragPool A} `{TcpApp A W} `{!WellBehaved A W}.
Variable stale_flags : Z -> Z.
Variable custom_free : Z -> Z -> Pbuf.state A -> res (Pbuf.state A).
Variable callback_ok : bool.
Variable netif_output : net A W -> Z -> Z -> Z -> res (err_t * net A W).
Variable tcp_timer_needed : net A W -> res (net A W).
Implicit Types n : net A W.
Hypothesis driver_ok : forall n nif p dest, holds (netif_output n nif p dest) (fun r => tcp (snd r) = tcp n).
(** The TCP timer is not part of the state of TCP. *)
Hypothesis timer_ok : forall n, holds (tcp_timer_needed n) (fun n' => tcp n' = tcp n).

Variable L : gset Z.
Local Abbreviation pcbs_ok := (pcbs_ok L).
Local Abbreviation good := (good L).
Local Abbreviation inv := (inv L).

(** ** The elementary moves *)

Lemma rmv_spots n k pcb : k <> K_listen -> spots (TCP_RMV n (list_of k) pcb) = unlisted k pcb (spots n).
Proof. by destruct k. Qed.

Lemma places_kind n pcb t : pcbs_ok n -> tcp_heap (tcp n) !! pcb = Some t -> kind_of (t_state t) <> K_listen.
Proof. intros Hn Ht. eapply (ok_listener _ _ _ Hn). cbn. by apply places_lookup. Qed.

Lemma reg_spots n k pcb :
  k <> K_listen -> holds (TCP_REG tcp_timer_needed n (list_of k) pcb) (fun n' => spots n' = listed k pcb (spots n)).
Proof.
  intros Hk. unfold TCP_REG. eapply holds_weaken; [apply timer_ok|]. intros n' E.
  rewrite (spots_tcp _ _ E). by destruct k.
Qed.

Lemma free_spots n pcb :
  holds (free_tcp n pcb) (fun n' => spots n' = released pcb (spots n) /\ is_Some (places n !! pcb)).
Proof.
  unfold free_tcp. tstep. cbn [holds]. split.
  - unfold spots, released, places. cbn. by rewrite fmap_delete.
  - by rewrite (places_lookup _ _ _ H2).
Qed.

Lemma put_spots n pcb t : spots (put_tcp n pcb t) = placed pcb (place t) (spots n).
Proof. unfold spots, placed, places. cbn [tcp put_tcp with_tcp tcp_heap set_tcp_heap]. by rewrite fmap_insert. Qed.

(** A control block that is on no list is freed. *)
Lemma free_good n n0 pcb : inv pcb (spots n) -> goes (spots n0) (spots n) -> holds (free_tcp n pcb) (good n0).
Proof.
  intros Hi Hg. eapply holds_weaken; [apply free_spots|]. intros n' (E & x & Hx). unfold good, TcpLists.pcbs_ok. rewrite E.
  split; [exact Hg|by eapply release_inv].
Qed.

(** [tcp_pcb_remove]. *)
Lemma remove_spots n k pcb b l :
  k <> K_listen -> places n !! pcb = Some (k, b, l) ->
  holds (tcp_pcb_remove stale_flags custom_free callback_ok netif_output n (list_of k) pcb)
    (fun n' => spots n' = placed pcb (K_closed, false, l) (unlisted k pcb (spots n))).
Proof.
  intros Hk Hp. unfold tcp_pcb_remove. eapply holds_call; [apply purge_spots|]. cbv beta. intros n1 E1.
  rewrite rmv_spots in E1 by done.
  assert (Hend : forall n2, spots n2 = spots n1 ->
    holds (let* t := tcp_at n2 pcb in assert* is_nil (t_unsent t) in assert* is_nil (t_unacked t) in assert* is_nil (t_ooseq t) in
           Ok (put_tcp n2 pcb (set_local_port 0 (set_state CLOSED t))))
      (fun n' => spots n' = placed pcb (K_closed, false, l) (unlisted k pcb (spots n)))).
  { intros n2 E2. unfold tcp_at. apply holds_deref. intros t Ht. do 3 tstep. cbn [holds]. rewrite put_spots, E2, E1.
    apply places_lookup in Ht. assert (Ep : places n2 = places n) by (change (v_places (spots n2) = places n); by rewrite E2, E1).
    rewrite Ep, Hp in Ht. unfold place in *. cbn. by injection Ht as _ _ <-. }
  tstep. tstep.
  - tstep. eapply holds_call; [apply raise_spots|]. cbv beta. intros n2 E2. tstep. tstep. tstep. apply Hend.
    cbn [snd] in *. rewrite (spots_kept _ _ H3). congruence.
  - tstep. by apply Hend.
Qed.

(** A state that an operation has reached in which [pcb] is on no list. *)
Definition midway n0 n (pcb : Z) : Prop := goes (spots n0) (spots n) /\ inv pcb (spots n).

Lemma midway_spots n0 n n' pcb : spots n' = spots n -> midway n0 n pcb -> midway n0 n' pcb.
Proof. intros E. unfold midway. by rewrite E. Qed.

Lemma midway_free n0 n pcb : midway n0 n pcb -> holds (free_tcp n pcb) (good n0).
Proof. intros [? ?]. by apply free_good. Qed.

Lemma midway_remove n k pcb t :
  pcbs_ok n -> tcp_heap (tcp n) !! pcb = Some t -> kind_of (t_state t) = k ->
  holds (tcp_pcb_remove stale_flags custom_free callback_ok netif_output n (list_of k) pcb) (fun n' => midway n n' pcb).
Proof.
  intros Hn Ht Hk. assert (Hk' := places_kind _ _ _ Hn Ht). apply places_lookup in Ht. unfold place in Ht. rewrite Hk in Hk', Ht.
  eapply holds_weaken; [by eapply remove_spots|]. cbv beta. intros n' E. unfold midway. rewrite E.
  split; [exact (goes_refl _)|]. eapply place_inv; [by eapply detach|done|done].
Qed.

Lemma midway_unbind n pcb t :
  pcbs_ok n -> tcp_heap (tcp n) !! pcb = Some t -> t_state t = CLOSED ->
  midway n (if negb (t_local_port t =? 0) then TCP_RMV n L_bound pcb else n) pcb.
Proof.
  intros Hn Ht Hs. apply places_lookup in Ht. unfold place in Ht. rewrite Hs in Ht. cbn in Ht. unfold midway.
  destruct (t_local_port t =? 0); cbn [negb] in *.
  - split; [exact (goes_refl _)|]. by eapply detached.
  - split; [exact (goes_refl _)|]. change L_bound with (list_of K_closed). rewrite rmv_spots by done. by eapply detach.
Qed.

Lemma err_event_ok n f arg err : pcbs_ok n -> holds (tcp_event_err n f arg err) (good n).
Proof. intros Hn. unfold tcp_event_err. destruct (negb _); [by apply err_ok|by apply good_refl]. Qed.

Lemma abandon_ok n pcb reset :
  pcbs_ok n -> holds (tcp_abandon stale_flags custom_free callback_ok netif_output n pcb reset) (good n).
Proof.
  intros Hn. unfold tcp_abandon. do 3 tstep. tstep.
  { apply bool_decide_eq_true in Heqb. change L_tw with (list_of K_tw).
    eapply holds_call; [eapply midway_remove; [done..|by rewrite Heqb]|]. intros n1 H1'. by apply midway_free. }
  apply bool_decide_eq_false in Heqb.
  apply (holds_call _ _ (fun n' => midway n n' pcb)).
  { destruct (state_eqb (t_state v) CLOSED) eqn:Hc.
    - apply bool_decide_eq_true in Hc. by apply midway_unbind.
    - unfold TCP_PCB_REMOVE_ACTIVE. change L_active with (list_of K_active). eapply holds_call.
      + eapply midway_remove; [done..|]. apply bool_decide_eq_false in Hc. assert (Hk := places_kind _ _ _ Hn H2). by destruct (t_state v).
      + intros n1 H1'. exact H1'. }
  intros n1 H1'. do 5 tstep. cbn [snd] in *.
  assert (Hend : forall n2, spots n2 = spots n1 ->
    holds (let* n := free_tcp n2 pcb in tcp_event_err n (t_errf v) (t_callback_arg v) ERR_ABRT) (good n)).
  { intros n2 E2. eapply holds_call; [eapply midway_free, midway_spots; [exact E2|exact H1']|]. intros n3 H3'.
    eapply holds_weaken; [apply err_event_ok, H3'|]. intros n4 H4'. by eapply good_trans. }
  tstep; tstep; apply Hend; spots_solve.
Qed.

(** ** Closing *)

(** An active connection changes to another active state. *)
Lemma set_state_spots n pcb st :
  live n pcb -> kind_of st = K_active -> holds (upd_tcp n pcb (set_state st)) (fun n' => spots n' = spots n).
Proof.
  intros (b & l & Hl) Hk. unfold upd_tcp. tstep. cbn [holds]. eapply spots_put; [done|]. rewrite (places_lookup _ _ _ H2) in Hl.
  unfold place in *. cbn. rewrite Hk. by injection Hl as ->.
Qed.

Lemma remove_listener_forgot lpcb l : lpcb <> NULL -> forall n,
  holds (tcp_remove_listener n l lpcb) (fun n' => forgot lpcb l (spots n) (spots n')).
Proof.
  intros Hne. induction l as [|pcb l IH]; intros n; cbn [tcp_remove_listener].
  { cbn. split; [done|]. intros p. cbn. destruct (places n !! p) as [[[k b] x]|]; [|done]. split_and!; [done|by left|]. by intros ?%elem_of_nil. }
  unfold tcp_at. apply holds_deref. intros t Ht. cbv zeta.
  eapply holds_weaken; [apply IH|]. cbv beta. intros n' Hf. change (pcb :: l) with ([pcb] ++ l).
  eapply forgot_trans; [done| |exact Hf]. apply places_lookup in Ht.
  destruct (t_listener t =? lpcb) eqn:E.
  - rewrite put_spots. split; [done|]. intros p. cbn. destruct (decide (p = pcb)) as [->|Hp].
    + rewrite lookup_insert_eq, Ht. cbn. split_and!; [done|by right|]. intros _. congruence.
    + rewrite lookup_insert_ne by done. destruct (places n !! p) as [[[k b] x]|]; [|done]. split_and!; [done|by left|].
      by intros ?%list_elem_of_singleton.
  - split; [done|]. intros p. cbn. destruct (places n !! p) as [[[k b] x]|] eqn:Ex; [|done]. split_and!; [done|by left|].
    intros ->%list_elem_of_singleton. rewrite Ht in Ex. injection Ex as <- <- <-. by apply Z.eqb_neq.
Qed.

(** A listening control block is closed: nothing refers to it any more. *)
Lemma listen_close_ok n pcb :
  pcbs_ok n -> is_Some (listeners n !! pcb) ->
  holds (let* n := tcp_listen_closed n pcb in free_listen (tcp_listen_remove n pcb) pcb) (good n).
Proof.
  intros Hn Hs. assert (Hne : pcb <> NULL) by (intros ->; pose proof (proj2 (ok_null _ _ _ Hn)) as E; cbn in E; rewrite E in Hs; by destruct Hs).
  unfold tcp_listen_closed. do 5 tstep.
  eapply holds_call; [by apply remove_listener_forgot|]. cbv beta. intros n1 H1'. tstep.
  eapply holds_call; [by apply remove_listener_forgot|]. cbv beta. intros n2 H2'.
  eapply holds_call; [by apply remove_listener_forgot|]. cbv beta. intros n3 H3'.
  pose proof (forgot_trans _ _ _ _ _ _ Hne H1' H2') as H12. pose proof (forgot_trans _ _ _ _ _ _ Hne H12 H3') as Hf. clear H12.
  assert (El1 : tcp_active_pcbs (tcp n1) = tcp_active_pcbs (tcp n)) by (exact (f_equal v_active (proj1 H1'))).
  assert (El2 : tcp_tw_pcbs (tcp n2) = tcp_tw_pcbs (tcp n)) by (etransitivity; [exact (f_equal v_tw (proj1 H2'))|exact (f_equal v_tw (proj1 H1'))]).
  rewrite El1, El2 in Hf. clear H1' H2' H3' El1 El2. unfold free_listen, listen_at. apply holds_deref. intros lx Hx. cbn [holds].
  pose proof (forgot_inv _ _ _ _ _ Hf Hn) as Hi. destruct Hf as [E Hf].
  assert (Es : forall g, g = spots (with_tcp (set_tcp_listen_pool (pcb :: tcp_listen_pool (tcp n3))
      (set_listen_heap (delete pcb (listen_heap (tcp n3))) (tcp (tcp_listen_remove n3 pcb)))) (tcp_listen_remove n3 pcb)) ->
      g = listen_released pcb (spots n3)).
  { intros g ->. unfold spots, listen_released, listeners. cbn. by rewrite fmap_delete. }
  split.
  - erewrite Es by reflexivity. rewrite E. exact (goes_refl _).
  - unfold pcbs_ok. erewrite Es by reflexivity. apply listen_release_inv; [done|by rewrite (f_equal v_listeners E)|].
    intros p k b Hp. specialize (Hf p). rewrite Hp in Hf. destruct (v_places (spots n) !! p) as [[[k0 b0] l0]|] eqn:E0; [|done].
    destruct Hf as ([= -> ->] & Hl & Hm). rewrite !elem_of_app in Hm. destruct (ok_listed _ _ _ Hn _ _ _ _ E0) as [->|[[?|[-> Hc]]|[[-> ->]|[[_ ?]|[_ ?]]]]].
    + destruct (ok_null _ _ _ Hn). congruence.
    + by left.
    + right. split; [symmetry; exact (f_equal v_input E)|]. rewrite E. exact Hc.
    + destruct Hl; congruence.
    + destruct Hm; auto.
    + destruct Hm; auto.
Qed.

(** [pcb->state] of a control block of either kind. *)
Lemma state_of_inv n pcb st : pcbs_ok n -> tcp_state_of n pcb = Ok st ->
  (exists t, tcp_heap (tcp n) !! pcb = Some t /\ t_state t = st /\ st <> LISTEN)
  \/ (st = LISTEN /\ is_Some (listeners n !! pcb)).
Proof.
  intros Hn. unfold tcp_state_of, listen_at, deref. destruct (tcp_heap (tcp n) !! pcb) as [t|] eqn:Et.
  - intros [= <-]. left. exists t. split_and!; [done..|]. intros E. apply (places_kind _ _ _ Hn Et). by rewrite E.
  - destruct (listen_heap (tcp n) !! pcb) as [x|] eqn:Ex; [|done]. intros [= <-]. right. by rewrite (listeners_lookup _ _ _ Ex).
Qed.

(** The states of an active connection after a FIN. *)
Lemma fin_state_ok n n1 pcb st :
  pcbs_ok n -> live n pcb -> kind_of st = K_active -> spots n1 = spots n -> holds (upd_tcp n1 pcb (set_state st)) (good n).
Proof.
  intros Hn Hl Hk E. eapply holds_weaken; [eapply set_state_spots; [by eapply live_spots|done]|]. intros n2 E2.
  apply good_spots; [congruence|done].
Qed.

Lemma close_by_state_ok n pcb :
  pcbs_ok n -> holds (close_by_state stale_flags custom_free callback_ok netif_output n pcb) (fun r => good n (snd r)).
Proof.
  intros Hn. unfold close_by_state. destruct (tcp_state_of n pcb) as [st|] eqn:Es; [|done]. cbn [res_bind].
  destruct (state_of_inv _ _ _ Hn Es) as [(t & Ht & Hst & Hnl)|[-> Hs]].
  - assert (Hlive : kind_of st = K_active -> live n pcb) by (intros; eapply live_kind; [done|congruence]).
    destruct st; try done; cbn [kind_of] in *.
    + tstep. assert (v = t) as -> by congruence. eapply holds_call; [by eapply midway_free, midway_unbind|]. auto.
    + apply holds_assoc. change L_active with (list_of K_active).
      eapply holds_call; [eapply midway_remove; [done..|by rewrite Hst]|]. intros n1 H1'. cbn [res_bind].
      eapply holds_call; [eapply (midway_free n (active_changed n1)); exact H1'|]. auto.
    + tstep. tstep. tstep; [|cbn; apply good_spots; [spots_solve|done]]. cbn [snd] in *. tstep.
      eapply holds_call; [eapply (fin_state_ok n); [done|by apply Hlive|done|spots_solve]|]. auto.
    + tstep. tstep. apply bool_decide_eq_true in Heqb || idtac. tstep; cbn [snd] in *.
      * eapply holds_call; [eapply (fin_state_ok n); [done|by apply Hlive|done|spots_solve]|]. auto.
      * tstep. cbn. apply good_spots; [spots_solve|done].
    + tstep. tstep. tstep; cbn [snd] in *.
      * eapply holds_call; [eapply (fin_state_ok n); [done|by apply Hlive|done|spots_solve]|]. auto.
      * tstep. cbn. apply good_spots; [spots_solve|done].
  - apply holds_group. eapply holds_call; [by apply listen_close_ok|]. auto.
Qed.

(** An active connection is taken off the list, and goes on that of TIME-WAIT. *)
Lemma midway_unlist n n1 pcb : pcbs_ok n -> live n pcb -> spots n1 = spots n -> midway n (TCP_RMV_ACTIVE n1 pcb) pcb.
Proof.
  intros Hn (b & l & Hl) E. change (midway n (TCP_RMV n1 (list_of K_active) pcb) pcb).
  assert (E' : spots (TCP_RMV n1 (list_of K_active) pcb) = unlisted K_active pcb (spots n)) by (by rewrite rmv_spots, E).
  unfold midway. rewrite E'. split; [exact (goes_refl _)|]. by eapply detach.
Qed.

Lemma midway_tw n0 n pcb t :
  midway n0 n pcb -> tcp_heap (tcp n) !! pcb = Some t ->
  holds (TCP_REG tcp_timer_needed (put_tcp n pcb (set_state TIME_WAIT t)) L_tw pcb) (good n0).
Proof.
  intros [Hg Hi] Ht. apply places_lookup in Ht. change L_tw with (list_of K_tw).
  eapply holds_weaken; [by apply reg_spots|]. cbv beta. intros n' E. rewrite put_spots in E. unfold good, TcpLists.pcbs_ok. rewrite E.
  split; [exact Hg|]. unfold place in *. eapply attach; [by eapply place_inv|by apply lookup_insert_eq|done].
Qed.

Lemma trigger_spots n :
  spots (tcp_trigger_input_pcb_close n) = with_input (tcp_input_pcb (tcp n)) true (resetting n) (spots n).
Proof.
  assert (Ec : closing (tcp_trigger_input_pcb_close n) = true) by (by apply has_raised).
  assert (Er : resetting (tcp_trigger_input_pcb_close n) = resetting n) by (by apply has_add).
  unfold spots, with_input. by rewrite Ec, Er.
Qed.

Lemma trigger_ok n0 n pcb :
  midway n0 n pcb -> pcb <> NULL -> tcp_input_pcb (tcp n) = pcb -> good n0 (tcp_trigger_input_pcb_close n).
Proof.
  intros [(E1 & E2 & E3 & _ & _) Hi] Hne E. unfold good, TcpLists.pcbs_ok. rewrite trigger_spots. split.
  - unfold goes. split_and!; [exact E1|exact E2|exact E3|done|]. intros E0. destruct Hne. cbn in E0, E1. congruence.
  - by eapply drop_inv.
Qed.

Lemma unread_live n pcb t : tcp_heap (tcp n) !! pcb = Some t -> unread t = true -> live n pcb.
Proof.
  intros Ht Hu. eapply live_kind; [done|]. unfold unread in Hu. apply andb_true_iff in Hu as [Hu _].
  apply orb_true_iff in Hu as [Hu|Hu]; apply bool_decide_eq_true in Hu; by rewrite Hu.
Qed.

(** Closing by state, and what is sent afterwards. *)
Lemma close_and_send_ok n pcb :
  pcbs_ok n ->
  holds (let* (exists_, err, n) := close_by_state stale_flags custom_free callback_ok netif_output n pcb in
         if (exists_ : bool) && bool_decide (err = ERR_OK)
         then let* (_, n) := tcp_output stale_flags custom_free callback_ok netif_output n pcb in Ok (err, n) else Ok (err, n))
    (fun r => good n (snd r)).
Proof.
  intros Hn. eapply holds_call; [by apply close_by_state_ok|]. cbv beta. intros [[e err] n1] H1'. cbn [snd] in H1'. tstep; [|done].
  tstep. tstep. cbn. eapply good_after; [exact H1'|spots_solve].
Qed.

Lemma close_shutdown_ok n pcb rst :
  pcbs_ok n -> holds (tcp_close_shutdown stale_flags custom_free callback_ok netif_output tcp_timer_needed n pcb rst) (fun r => good n (snd r)).
Proof.
  intros Hn. unfold tcp_close_shutdown. tstep; tstep; [tstep|]; [|by apply close_and_send_ok..].
  apply andb_true_iff in Heqb as [_ Hu]. do 5 tstep. assert (v = t) as -> by congruence.
  assert (Hm : midway n (TCP_RMV_ACTIVE x0 pcb) pcb) by (apply midway_unlist; [done|by eapply unread_live|spots_solve]).
  apply (holds_call _ _ (good n)); [|auto]. destruct (state_eqb _ _); [by apply midway_tw|].
  destruct (_ =? _) eqn:E; [|by apply midway_free]. cbn [holds]. eapply trigger_ok; [done| |by apply Z.eqb_eq].
  intros ->. apply places_lookup in Heqo. pose proof (proj1 (ok_null _ _ _ Hn)) as E0. cbn in E0. congruence.
Qed.

Lemma close_ok n pcb :
  pcbs_ok n -> holds (tcp_close stale_flags custom_free callback_ok netif_output tcp_timer_needed n pcb) (fun r => good n (snd r)).
Proof.
  intros Hn. unfold tcp_close. tstep. tstep; tstep; [|by apply close_shutdown_ok].
  assert (Hg : good n x0) by (by apply good_spots).
  eapply holds_weaken; [apply close_shutdown_ok, Hg|]. intros r Hr. by eapply good_trans.
Qed.

Lemma shutdown_ok n pcb rx tx :
  pcbs_ok n -> holds (tcp_shutdown stale_flags custom_free callback_ok netif_output tcp_timer_needed n pcb rx tx) (fun r => good n (snd r)).
Proof.
  intros Hn. unfold tcp_shutdown. tstep. tstep; [by apply good_refl|].
  assert (Hcl : forall n1 r, spots n1 = spots n -> holds (tcp_close_shutdown stale_flags custom_free callback_ok netif_output tcp_timer_needed n1 pcb r) (fun r => good n (snd r))).
  { intros n1 r E1. assert (Hg : good n n1) by (by apply good_spots). eapply holds_weaken; [apply close_shutdown_ok, Hg|]. intros r' Hr. by eapply good_trans. }
  repeat first [ apply Hcl; spots_solve | tstep ]; cbn [holds snd]; (apply good_spots; [spots_solve|done]).
Qed.

(** ** Binding, listening, connecting *)

(** A state whose view is known. *)
Lemma good_view n n' w : spots n' = w -> goes (spots n) w -> inv NULL w -> good n n'.
Proof. intros E Hg Hi. unfold good, TcpLists.pcbs_ok. by rewrite E. Qed.

Lemma new_port_loop_spots fuel : forall n k, holds (tcp_new_port_loop fuel n k) (fun r => spots (snd r) = spots n).
Proof.
  induction fuel as [|fuel IH]; intros n k; cbn [tcp_new_port_loop]; [done|]. tstep. tstep; [|done]. tstep; [done|].
  eapply holds_weaken; [apply IH|]. done.
Qed.

Lemma new_port_spots n : holds (tcp_new_port n) (fun r => spots (snd r) = spots n).
Proof. apply new_port_loop_spots. Qed.
Hint Resolve new_port_spots : tcp_frame.

Lemma closed_inv n pcb st :
  pcbs_ok n -> tcp_state_of n pcb = Ok st -> negb (state_eqb st CLOSED) = false ->
  exists t, tcp_heap (tcp n) !! pcb = Some t /\ t_state t = CLOSED /\ places n !! pcb = Some (K_closed, negb (t_local_port t =? 0), t_listener t).
Proof.
  intros Hn Es Hc. apply negb_false_iff, bool_decide_eq_true in Hc. subst st.
  destruct (state_of_inv _ _ _ Hn Es) as [(t & Ht & Hst & _)|[? _]]; [|done]. exists t. split_and!; [done..|].
  rewrite (places_lookup _ _ _ Ht). unfold place. by rewrite Hst.
Qed.

Lemma bind_ok n pcb ip port :
  pcbs_ok n -> pcb ∉ tcp_bound_pcbs (tcp n) -> holds (tcp_bind tcp_timer_needed n pcb ip port) (fun r => good n (snd r)).
Proof.
  intros Hn Hb. unfold tcp_bind. tstep; [by apply good_refl|]. destruct (tcp_state_of n pcb) as [st|] eqn:Es; [|done]. cbn [res_bind].
  destruct (negb (state_eqb st CLOSED)) eqn:Hc; [by apply good_refl|]. destruct (closed_inv _ _ _ Hn Es Hc) as (t & Ht & Hst & Hp).
  apply (holds_call _ _ (fun x => spots (snd x) = spots n /\ match fst x with inr port => port <> 0 | inl _ => True end)).
  { destruct (port =? 0) eqn:E0; tstep.
    - destruct x as [port' n1]. destruct (port' =? 0) eqn:E1; cbn [holds fst snd] in *; [done|]. split; [done|by apply Z.eqb_neq].
    - destruct x; cbn [holds fst snd]; [done|]. split; [done|by apply Z.eqb_neq]. }
  intros [[err|p] n1] [E1 Hne]; cbn [fst snd] in *; [by apply good_spots|].
  apply holds_assoc. unfold tcp_at. apply holds_deref. intros t' Ht'. cbn [res_bind]. unfold TCP_REG.
  eapply holds_call; [apply timer_ok|]. cbv beta. intros n2 E2. cbn [holds snd].
  apply (f_equal v_places) in E1 as Ep. cbn in Ep. apply places_lookup in Ht'. rewrite Ep, Hp in Ht'. injection Ht' as Hk Hb' Hl.
  assert (Epl : forall (c : bool) a, place (set_local_port p (if c then set_local_ip a t' else t')) = (K_closed, true, t_listener t)).
  { intros c a. unfold place. apply Z.eqb_neq in Hne. destruct c; cbn; rewrite Hne, <- Hk, <- Hl; done. }
  eapply (good_view _ _ (listed K_closed pcb (placed pcb (K_closed, true, t_listener t) (spots n)))); [|exact (goes_refl _)|].
  - rewrite (spots_tcp _ _ E2). rewrite <- E1. unfold spots, listed, placed, places. cbn. by rewrite fmap_insert, Epl.
  - eapply attach; [|by apply lookup_insert_eq|].
    + eapply place_inv; [eapply detached_if; [done|exact Hp|]|exact Hp|done].
      exact Hb.
    + intros _. split; [done|]. exact (closed_listener _ _ _ _ _ Hn Hp).
Qed.

Lemma listen_ok n pcb backlog :
  pcbs_ok n -> holds (tcp_listen_with_backlog_and_err tcp_timer_needed n pcb backlog) (fun r => good n (snd r)).
Proof.
  intros Hn. unfold tcp_listen_with_backlog_and_err. destruct (tcp_state_of n pcb) as [st|] eqn:Es; [|done]. cbn [res_bind].
  destruct (negb (state_eqb st CLOSED)) eqn:Hc; [by apply good_refl|]. destruct (closed_inv _ _ _ Hn Es Hc) as (t & Ht & Hst & Hp).
  tstep. assert (v = t) as -> by congruence. destruct (tcp_listen_pool (tcp n)) as [|lpcb pool] eqn:Ep; [by apply good_refl|].
  pose proof (midway_unbind _ _ _ Hn Ht Hst) as [_ Hi]. cbv zeta.
  assert (Hi' := release_inv _ _ _ (K_closed, negb (t_local_port t =? 0), t_listener t) Hi). clear Hi.
  destruct (negb (t_local_port t =? 0)); unfold free_tcp; do 3 tstep; unfold TCP_REG;
    (eapply holds_call; [apply timer_ok|]; cbv beta; intros n2 E2; cbn [holds snd];
     eapply good_view; [rewrite (spots_tcp _ _ E2); unfold spots, places, listeners; cbn; rewrite fmap_insert, fmap_delete; reflexivity|exact (goes_refl _)|]).
  all: exact (listen_acquire_inv _ _ lpcb pool (Hi' Hp) Ep).
Qed.

(** A closed control block gets a port without being bound, and becomes active. *)
Lemma port_inv v pcb b b' l :
  inv NULL v -> v_places v !! pcb = Some (K_closed, b, l) -> (b = true -> b' = true) -> inv NULL (placed pcb (K_closed, b', l) v).
Proof.
  intros Hi E Hb. destruct b.
  - rewrite Hb by done. destruct v as [v1 v2 v3 v4 v5 v6 v7 v8 v9 v10]. unfold placed. cbn in *. by rewrite insert_id.
  - eapply settle; [eapply place_inv; [by eapply detached|done|done]|by apply lookup_insert_eq|]. exact (closed_listener _ _ _ _ _ Hi E).
Qed.

Lemma connect_inv v pcb (b b' : bool) l :
  inv NULL v -> v_places v !! pcb = Some (K_closed, b, l) ->
  inv NULL (listed K_active pcb ((if b then unlisted K_closed pcb else id) (placed pcb (K_active, b', l) v))).
Proof.
  intros Hi E. destruct b.
  - change (unlisted K_closed pcb (placed pcb (K_active, b', l) v)) with (placed pcb (K_active, b', l) (unlisted K_closed pcb v)).
    eapply attach; [eapply place_inv; [by eapply detach|exact E|done]|by apply lookup_insert_eq|done].
  - eapply attach; [eapply place_inv; [by eapply detached|exact E|done]|by apply lookup_insert_eq|done].
Qed.

Lemma connect_ok n pcb ip port f :
  pcbs_ok n ->
  holds (tcp_connect stale_flags custom_free callback_ok netif_output tcp_timer_needed n pcb ip port f) (fun r => good n (snd r)).
Proof.
  intros Hn. unfold tcp_connect. tstep; [|by apply good_refl]. tstep; [by apply good_refl|].
  destruct (tcp_state_of n pcb) as [st|] eqn:Es; [|done]. cbn [res_bind].
  destruct (negb (state_eqb st CLOSED)) eqn:Hc; [by apply good_refl|]. destruct (closed_inv _ _ _ Hn Es Hc) as (t & Ht & Hst & Hp). clear Hc Es.
  eapply holds_call; [apply upd_spots; place_solve|]. cbv beta. intros n1 E1. tstep.
  assert (Hpv : place v = place t).
  { apply places_lookup in H2, Ht. apply (f_equal v_places) in E1. cbn in E1. rewrite E1, Ht in H2. congruence. }
  apply (holds_call _ _ (fun x => spots (snd x) = spots n)); [repeat tstep; cbn [holds snd] in *; spots_solve; done|].
  cbv beta. intros [routed n2] E2. cbn [snd] in E2. tstep; [by apply good_spots|].
  injection Hpv as Hk Hpo Hl. rewrite <- Hpo in Hp. cbv zeta.
  apply (holds_call _ _ (fun x => exists b, spots (snd x) = placed pcb (K_closed, b, t_listener t) (spots n) /\ (negb (t_local_port v =? 0) = true -> b = true))).
  { destruct (t_local_port v =? 0) eqn:E0.
    - tstep. destruct x as [q n3]. cbn [snd] in *. unfold upd_tcp. do 3 tstep. cbn [holds snd]. exists (negb (q =? 0)). split; [|done].
      rewrite put_spots, H3, E2. f_equal. apply places_lookup in H4. apply (f_equal v_places) in H3, E2. cbn in H3, E2. rewrite H3, E2, Hp in H4.
      injection H4 as Hk4 _ Hl4. unfold place. cbn. by rewrite <- Hk4, <- Hl4.
    - cbn [holds snd]. exists true. split; [|done]. rewrite E2. unfold placed. cbn in *. rewrite insert_id; done. }
  cbv beta. intros [bound n3] (b & E3 & Hb). cbn [snd] in E3.
  assert (Hfail : forall n', spots n' = spots n3 -> good n n').
  { intros n' E'. rewrite E3 in E'. eapply good_view; [exact E'|exact (goes_refl _)|]. by eapply port_inv. }
  tstep; [by apply Hfail|]. unfold tcp_next_iss. cbv zeta.
  eapply holds_call; [apply eff_mss_kept|]. cbv beta. intros [mss n4] E4. cbn [snd] in E4.
  eapply holds_call; [apply upd_spots; place_solve|]. cbv beta. intros n5 E5.
  eapply holds_call; [by apply enqueue_flags_kept|]. cbv beta. intros [ret n6] E6. cbn [snd] in E6.
  assert (E36 : spots n6 = spots n3) by (rewrite (spots_kept _ _ E6), E5, (spots_tcp _ _ E4); done).
  tstep; [|by apply Hfail]. unfold upd_tcp. do 3 tstep. unfold TCP_REG_ACTIVE. tstep. change L_active with (list_of K_active).
  eapply holds_call; [by apply reg_spots|]. cbv beta. intros n7 E7. tstep. tstep. destruct x as [e n8]. cbn [holds snd].
  eapply (good_view _ _ (listed K_active pcb ((if negb (t_local_port v =? 0) then unlisted K_closed pcb else id) (placed pcb (K_active, b, t_listener t) (spots n)))));
    [|by destruct (negb _); exact (goes_refl _)|by eapply connect_inv].
  cbn [snd] in *. rewrite (spots_kept _ _ H4). change (spots (active_changed n7)) with (spots n7). rewrite E7. f_equal.
  apply places_lookup in H3. apply (f_equal v_places) in E36 as Ep. rewrite E3 in Ep. cbn in Ep. rewrite Ep, lookup_insert_eq in H3. injection H3 as Hk3 Hb3 Hl3.
  assert (Ef : spots (put_tcp n6 pcb (set_state SYN_SENT v0)) = placed pcb (K_active, b, t_listener t) (spots n)).
  { rewrite put_spots, E36, E3. unfold place. cbn. rewrite <- Hb3, <- Hl3. unfold placed. cbn. by rewrite insert_insert_eq. }
  destruct (negb (t_local_port v =? 0)); [|exact Ef].
  change L_bound with (list_of K_closed). rewrite rmv_spots by done. by rewrite Ef.
Qed.

(** ** Allocation *)

Lemma abandon_if_ok n pcb reset :
  pcbs_ok n ->
  holds (if negb (pcb =? NULL) then tcp_abandon stale_flags custom_free callback_ok netif_output n pcb reset else Ok n) (good n).
Proof. intros Hn. tstep; [by apply abandon_ok|by apply good_refl]. Qed.

Lemma kill_prio_ok n prio : pcbs_ok n -> holds (tcp_kill_prio stale_flags custom_free callback_ok netif_output n prio) (good n).
Proof. intros Hn. unfold tcp_kill_prio. tstep. by apply abandon_if_ok. Qed.
Lemma kill_state_ok n st : pcbs_ok n -> holds (tcp_kill_state stale_flags custom_free callback_ok netif_output n st) (good n).
Proof. intros Hn. unfold tcp_kill_state. do 2 tstep. by apply abandon_if_ok. Qed.
Lemma kill_timewait_ok n : pcbs_ok n -> holds (tcp_kill_timewait stale_flags custom_free callback_ok netif_output n) (good n).
Proof. intros Hn. unfold tcp_kill_timewait. tstep. by apply abandon_if_ok. Qed.

Lemma malloc_killing_ok kills :
  Forall (fun kill => forall n, pcbs_ok n -> holds (kill n) (good n)) kills -> forall n, pcbs_ok n ->
  holds (malloc_killing n kills) (fun r => good n (snd r) /\ fst r = pcb_malloc (snd r)).
Proof.
  induction 1 as [|kill kills Hk _ IH]; intros n Hn; cbn [malloc_killing]; destruct (pcb_malloc n) as [r|] eqn:E.
  1, 3: cbn; split; [by apply good_refl|done].
  - cbn. split; [by apply good_refl|done].
  - eapply holds_call; [by apply Hk|]. cbv beta. intros n1 H1'. eapply holds_weaken; [apply IH, H1'|].
    cbv beta. intros [r n2] [H2' E2]. split; [by eapply good_trans|done].
Qed.

(** A new control block is closed and on no list. *)
Lemma alloc_ok n prio :
  pcbs_ok n ->
  holds (tcp_alloc stale_flags custom_free callback_ok netif_output n prio)
    (fun r => good n (snd r) /\ (fst r <> NULL -> places (snd r) !! fst r = Some (K_closed, false, NULL))).
Proof.
  intros Hn. unfold tcp_alloc. eapply holds_call.
  { apply malloc_killing_ok; [|done]. repeat constructor; intros; first [by apply kill_prio_ok|by apply kill_state_ok|by apply kill_timewait_ok]. }
  cbv beta. intros [r n1] [Hg E]. cbn [fst snd] in E, Hg. subst r. unfold pcb_malloc.
  destruct (tcp_pcb_pool (tcp n1)) as [|pcb pool] eqn:Ep; cbn [holds]; [done|]. split.
  - eapply good_trans; [exact Hg|]. eapply (good_view _ _ (acquired pcb pool (spots n1))); [|exact (goes_refl _)|by apply acquire_inv; [apply Hg|]].
    cbn [snd]. rewrite put_spots. done.
  - intros _. cbn [fst snd]. erewrite places_lookup; [|apply lookup_insert_eq]. done.
Qed.

(** ** Arguments and callbacks *)

Lemma unless_listen_spots n pcb f :
  (forall t, place (f t) = place t) -> holds (set_unless_listen n pcb f) (fun n' => spots n' = spots n).
Proof. intros Hf. unfold set_unless_listen. do 2 tstep. by apply upd_spots. Qed.

Lemma setprio_spots n pcb prio : holds (tcp_setprio n pcb prio) (fun n' => spots n' = spots n).
Proof. unfold tcp_setprio. srun. Qed.
Lemma arg_spots n pcb arg : holds (tcp_arg n pcb arg) (fun n' => spots n' = spots n).
Proof. unfold tcp_arg. srun. Qed.
Lemma recv_spots n pcb f : holds (tcp_recv n pcb f) (fun n' => spots n' = spots n).
Proof. unfold tcp_recv. tstep; [done|by apply unless_listen_spots]. Qed.
Lemma sent_spots n pcb f : holds (tcp_sent n pcb f) (fun n' => spots n' = spots n).
Proof. unfold tcp_sent. tstep; [done|by apply unless_listen_spots]. Qed.
Lemma err_spots n pcb f : holds (tcp_err n pcb f) (fun n' => spots n' = spots n).
Proof. unfold tcp_err. tstep; [done|by apply unless_listen_spots]. Qed.
Lemma poll_spots n pcb f i : holds (tcp_poll n pcb f i) (fun n' => spots n' = spots n).
Proof. by apply unless_listen_spots. Qed.
Lemma accept_spots n pcb f : holds (tcp_accept n pcb f) (fun n' => spots n' = spots n).
Proof. unfold tcp_accept. srun. Qed.

(** ** Calls of the application *)

Lemma recv_null_ok n arg pcb p err :
  pcbs_ok n ->
  holds (tcp_recv_null stale_flags custom_free callback_ok netif_output tcp_timer_needed n arg pcb p err) (fun r => good n (snd r)).
Proof.
  intros Hn. unfold tcp_recv_null. tstep; [|tstep; [by apply close_ok|by apply good_refl]].
  repeat tstep. cbn. apply good_spots; [spots_solve|done].
Qed.

Lemma call_recv_ok n f arg pcb p err :
  pcbs_ok n ->
  holds (call_recv stale_flags custom_free callback_ok netif_output tcp_timer_needed n f arg pcb p err) (fun r => good n (snd r)).
Proof. intros Hn. unfold call_recv. tstep; [by apply recv_null_ok|by apply recv_ok]. Qed.

Lemma event_recv_ok n pcb p err :
  pcbs_ok n ->
  holds (TCP_EVENT_RECV stale_flags custom_free callback_ok netif_output tcp_timer_needed n pcb p err) (fun r => good n (snd r)).
Proof. intros Hn. unfold TCP_EVENT_RECV. tstep. tstep; [by apply call_recv_ok|by apply recv_null_ok]. Qed.

Lemma event_closed_ok n pcb :
  pcbs_ok n ->
  holds (TCP_EVENT_CLOSED stale_flags custom_free callback_ok netif_output tcp_timer_needed n pcb) (fun r => good n (snd r)).
Proof. intros Hn. unfold TCP_EVENT_CLOSED. tstep. tstep; [by apply call_recv_ok|by apply good_refl]. Qed.

Lemma event_sent_ok n pcb space : pcbs_ok n -> holds (TCP_EVENT_SENT n pcb space) (fun r => good n (snd r)).
Proof. intros Hn. unfold TCP_EVENT_SENT. tstep. tstep; [by apply sent_ok|by apply good_refl]. Qed.

Lemma event_connected_ok n pcb err : pcbs_ok n -> holds (TCP_EVENT_CONNECTED n pcb err) (fun r => good n (snd r)).
Proof. intros Hn. unfold TCP_EVENT_CONNECTED. tstep. tstep; [by apply connected_ok|by apply good_refl]. Qed.

Lemma event_accept_ok n lpcb pcb arg err :
  pcbs_ok n -> holds (TCP_EVENT_ACCEPT stale_flags custom_free callback_ok netif_output n lpcb pcb arg err) (fun r => good n (snd r)).
Proof.
  intros Hn. unfold TCP_EVENT_ACCEPT. tstep; [by apply good_refl|]. tstep. tstep; [by apply good_refl|]. tstep; [|by apply accept_ok].
  unfold tcp_accept_null, tcp_abort. eapply holds_call; [by apply abandon_ok|]. auto.
Qed.

(** A step after another one. *)
Lemma good_call {X Y} n (r : res X) (f : X -> res Y) (P : X -> net A W) (Q : Y -> net A W) :
  holds r (fun x => good n (P x)) -> (forall x, good n (P x) -> holds (f x) (fun y => good (P x) (Q y))) ->
  holds (res_bind r f) (fun y => good n (Q y)).
Proof.
  intros Hr Hf. eapply holds_call; [exact Hr|]. cbv beta. intros x Hx. eapply holds_weaken; [by apply Hf|]. intros y Hy.
  by eapply good_trans.
Qed.

Lemma refused_ok n pcb :
  pcbs_ok n ->
  holds (tcp_process_refused_data stale_flags custom_free callback_ok netif_output tcp_timer_needed n pcb) (fun r => good n (snd r)).
Proof.
  intros Hn. unfold tcp_process_refused_data. do 2 tstep.
  set (n1 := put_tcp n pcb _). assert (H1' : good n n1) by (apply good_spots; [unfold n1; spots_solve|done]).
  eapply (good_call n _ _ snd snd).
  { eapply holds_weaken; [apply event_recv_ok, H1'|]. intros r Hr. by eapply good_trans. }
  intros [err n2] H2'. cbn [snd] in H2'. tstep; [tstep|].
  - tstep. assert (H3' : good n2 x0) by (apply good_spots; [done|apply H2']). eapply (good_call n2 _ _ snd snd).
    { eapply holds_weaken; [apply event_closed_ok, H3'|]. intros r Hr. by eapply good_trans. }
    intros [err' n4] H4'. cbn [snd] in *. tstep; by apply good_refl, H4'.
  - by apply good_refl, H2'.
  - tstep; [by apply good_refl, H2'|]. tstep. cbn. apply good_spots; [spots_solve|apply H2'].
Qed.

(** ** The fast timer, and a new address *)

Lemma fast_pcb_ok n pcb :
  pcbs_ok n -> holds (fast_pcb stale_flags custom_free callback_ok netif_output tcp_timer_needed n pcb) (fun r => good n (snd r)).
Proof.
  intros Hn. unfold fast_pcb. do 2 tstep.
  apply (holds_call _ _ (fun n' => spots n' = spots n)); [srun|]. cbv beta. intros n1 E1. do 2 tstep.
  - eapply holds_call; [apply refused_ok; unfold TcpLists.pcbs_ok; change (inv NULL (spots n1)); by rewrite E1|]. cbv beta. intros [e n2] H2'.
    cbn [holds snd] in *. eapply good_trans; [by apply good_spots|exact H2'].
  - cbn. by apply good_spots.
Qed.

Lemma fast_loop_ok fuel : forall n pcb,
  pcbs_ok n -> holds (fast_loop stale_flags custom_free callback_ok netif_output tcp_timer_needed fuel n pcb) (good n).
Proof.
  induction fuel as [|fuel IH]; intros n pcb Hn; cbn [fast_loop]; (tstep; [by apply good_refl|]); [done|]. tstep. tstep; [|by apply IH].
  eapply (good_call n _ _ snd id); [by apply fast_pcb_ok|]. intros [[next|] n1] H1'; cbn [snd] in *; by apply IH, H1'.
Qed.

Lemma fasttmr_ok fuel n : pcbs_ok n -> holds (tcp_fasttmr stale_flags custom_free callback_ok netif_output tcp_timer_needed fuel n) (good n).
Proof. intros Hn. unfold tcp_fasttmr. cbv zeta. by apply (fast_loop_ok fuel (with_tcp (set_tcp_timer_ctr _ _) n)). Qed.

Lemma txnow_spots l : forall n, holds (txnow_loop stale_flags custom_free callback_ok netif_output n l) (fun n' => spots n' = spots n).
Proof.
  induction l as [|pcb l IH]; intros n; cbn [txnow_loop]; [done|]. tstep.
  apply (holds_call _ _ (fun n' => spots n' = spots n)); [srun|]. cbv beta. intros n1 E1.
  eapply holds_weaken; [apply IH|]. cbv beta. congruence.
Qed.

Lemma addr_changed_pcblist_ok fuel : forall n w old pcb,
  pcbs_ok n ->
  holds (tcp_netif_ip_addr_changed_pcblist stale_flags custom_free callback_ok netif_output fuel n w old pcb) (good n).
Proof.
  induction fuel as [|fuel IH]; intros n w old pcb Hn; cbn [tcp_netif_ip_addr_changed_pcblist]; (tstep; [by apply good_refl|]); [done|].
  tstep. cbv zeta. eapply (good_call n _ _ id id); [destruct (t_local_ip _ =? _); [by apply abandon_ok|by apply good_refl]|].
  intros n1 H1'. by apply IH, H1'.
Qed.

Lemma listen_addr_changed_spots l : forall n old new, holds (listen_addr_changed n l old new) (fun n' => spots n' = spots n).
Proof.
  induction l as [|lpcb l IH]; intros n old new; cbn [listen_addr_changed]; [done|]. tstep. cbv zeta.
  eapply holds_weaken; [apply IH|]. cbv beta. intros n' ->. spots_solve.
Qed.

Lemma addr_changed_ok n old new :
  pcbs_ok n -> holds (tcp_netif_ip_addr_changed stale_flags custom_free callback_ok netif_output n old new) (good n).
Proof.
  intros Hn. unfold tcp_netif_ip_addr_changed. tstep; [by apply good_refl|].
  eapply (good_call n _ _ id id); [by apply addr_changed_pcblist_ok|]. intros n1 H1'.
  eapply (good_call _ _ _ id id); [by apply addr_changed_pcblist_ok, H1'|]. intros n2 H2'. tstep; [by apply good_refl, H2'|].
  apply holds_good; [apply H2'|]. apply listen_addr_changed_spots.
Qed.

End Ops.
