(* ===== verification/TcpStep.v ===== *)
(** * Every reachable state keeps the lists of control blocks: lwip/src/core/tcp_in.c

    [tcp_input] keeps the invariant of [TcpLists], and so does every sequence of calls of the
    TCP interface, of segments and of timer ticks. *)

From S2P Require Import Prelude Ip4Addr Pbuf TcpData Net Ip4 IpFrame TcpBase TcpOut Tcp TcpRecv TcpIn TcpFrame TcpObs TcpLists TcpInv.

Section Input.
Context {A W : Type} `{AllocOps A} `{FragPool A} `{TcpApp A W} `{!WellBehaved A W}.
Variable stale_flags : Z -> Z.
Variable custom_free : Z -> Z -> Pbuf.state A -> res (Pbuf.state A).
Variable callback_ok : bool.
Variable netif_output : net A W -> Z -> Z -> Z -> res (err_t * net A W).
Variable tcp_timer_needed : net A W -> res (net A W).
Implicit Types n : net A W.
Hypothesis driver_ok : forall n nif p dest, holds (netif_output n nif p dest) (fun r => tcp (snd r) = tcp n).
Hypothesis timer_ok : forall n, holds (tcp_timer_needed n) (fun n' => tcp n' = tcp n).

Variable L : gset Z.
Local Abbreviation pcbs_ok := (pcbs_ok L).
Local Abbreviation good := (good L).
Local Abbreviation inv := (inv L).

(** ** Segments for other than active connections *)

Lemma rst_reply_kept n : holds (rst_reply stale_flags custom_free callback_ok netif_output n) (fun n' => tcp n' = tcp n).
Proof. unfold rst_reply. by apply rst_kept. Qed.
Hint Resolve rst_reply_kept : tcp_frame.

(** The control block of a connection request goes on the list. *)
Lemma register_ok n n1 pcb lpcb t :
  pcbs_ok n -> places n !! pcb = Some (K_closed, false, NULL) -> is_Some (listeners n !! lpcb) -> spots n1 = spots n ->
  t_state t = SYN_RCVD -> t_listener t = lpcb -> holds (TCP_REG_ACTIVE tcp_timer_needed (put_tcp n1 pcb t) pcb) (good n).
Proof.
  intros Hn Hp Hl E Hs Hlp. unfold TCP_REG_ACTIVE. change L_active with (list_of K_active).
  eapply holds_call; [by apply reg_spots|]. cbv beta. intros n2 E2. cbn [holds].
  eapply good_view; [change (spots (active_changed n2)) with (spots n2); rewrite E2, put_spots, E; reflexivity|exact (goes_refl _)|].
  unfold place. rewrite Hs, Hlp. eapply attach; [|by apply lookup_insert_eq|done].
  eapply replace_inv; [by eapply detached|exact Hp|done|by auto].
Qed.

Lemma listen_input_ok n lpcb :
  pcbs_ok n -> holds (tcp_listen_input stale_flags custom_free callback_ok netif_output tcp_timer_needed n lpcb) (good n).
Proof.
  intros Hn. unfold tcp_listen_input. cbv zeta. tstep; [by apply good_refl|]. tstep.
  { apply holds_good; [done|]. eapply holds_weaken; [apply rst_reply_kept|]. intros. by apply spots_tcp. }
  tstep; [|by apply good_refl]. tstep. tstep; [by apply good_refl|].
  eapply holds_call; [by apply alloc_ok|]. cbv beta. intros [npcb n1] [Hg Hp]. cbn [fst snd] in *. tstep. tstep.
  { eapply holds_call; [apply event_accept_ok; [done|exact (proj2 Hg)]|]. cbv beta. intros [e n2] H2'. cbn [holds snd] in *.
    by eapply good_trans. }
  unfold tcp_next_iss. unfold upd_tcp at 1. do 3 tstep.
  assert (Hnp : npcb <> NULL) by (by apply Z.eqb_neq). specialize (Hp Hnp).
  eapply (good_call L n _ _ id id).
  { eapply holds_weaken; [eapply (register_ok n1); [apply Hg|done|by rewrite (listeners_lookup _ _ _ H3)| |done|done]|].
    - etransitivity; [|by eapply spots_put_listen]. done.
    - cbv beta. intros n2 H2'. by eapply good_trans. }
  cbv beta. intros n2 H2'. cbv beta zeta. do 7 tstep. cbn [snd] in *.
  assert (E : spots n3 = spots n2) by (subst; spots_solve).
  tstep; [|do 2 tstep; cbn [holds snd id] in *; apply good_spots; [spots_solve|apply H2']].
  assert (Hg3 : good n2 n3) by (apply good_spots; [done|apply H2']).
  eapply holds_weaken; [apply abandon_ok; [done|apply Hg3]|]. intros n4 H4'. by eapply good_trans.
Qed.

Lemma timewait_input_spots n pcb :
  holds (tcp_timewait_input stale_flags custom_free callback_ok netif_output n pcb) (fun n' => spots n' = spots n).
Proof. unfold tcp_timewait_input. srun. Qed.

(** ** The state machine *)

(** The connection has a state of those on the list of active connections. *)
Lemma live_inv n pcb t : live n pcb -> tcp_heap (tcp n) !! pcb = Some t -> kind_of (t_state t) = K_active.
Proof. intros (b & l & Hp) Ht. apply places_lookup in Ht. rewrite Hp in Ht. unfold place in Ht. congruence. Qed.

Lemma put_active_spots n pcb t t' :
  live n pcb -> tcp_heap (tcp n) !! pcb = Some t -> kind_of (t_state t') = K_active -> t_local_port t' = t_local_port t ->
  t_listener t' = t_listener t -> spots (put_tcp n pcb t') = spots n.
Proof.
  intros Hl Ht Hk Hp Hli. eapply spots_put; [done|]. unfold place. by rewrite Hk, Hp, Hli, (live_inv _ _ _ Hl Ht).
Qed.

(** What [tcp_process] leaves to [tcp_input]: a connection to be freed is still an active one. *)
Definition processed n (pcb : Z) (r : err_t * net A W) : Prop :=
  tcp_input_pcb (tcp (snd r)) = tcp_input_pcb (tcp n) /\ pcbs_ok (snd r)
  /\ (fst r <> ERR_ABRT -> closing (snd r) = true \/ resetting (snd r) = true -> live (snd r) pcb).

(** What it relies on. *)
Definition ready n : Prop := pcbs_ok n /\ closing n = false /\ resetting n = false.

Lemma ready_spots n n' : spots n' = spots n -> ready n -> ready n'.
Proof.
  intros E (Hn & Hc & Hr). unfold ready, TcpLists.pcbs_ok. rewrite E. split_and!; [done|..].
  - rewrite <- Hc. exact (f_equal v_closing E).
  - rewrite <- Hr. exact (f_equal v_reset E).
Qed.

Lemma processed_good n n' pcb err :
  ready n -> good n n' -> (closing n' = true -> err <> ERR_ABRT -> live n' pcb) -> processed n pcb (err, n').
Proof.
  intros (Hn & Hc & Hr) [(E1 & E2 & _) Hg] Hlive. unfold processed. cbn [fst snd]. split_and!; [exact E1|done|].
  intros He [Hx|Hx]; [auto|]. cbn in E2. congruence.
Qed.

Lemma processed_spots n n' pcb err : ready n -> spots n' = spots n -> processed n pcb (err, n').
Proof.
  intros Hr E. apply processed_good; [done|by apply good_spots; [|apply Hr]|]. destruct (ready_spots _ _ E Hr) as (_ & Hc & _). congruence.
Qed.

Lemma reset_inv v r : inv NULL v -> inv NULL (with_input (v_input v) (v_closing v) r v).
Proof. intros []. by split. Qed.

Lemma process_rst_ok n pcb : ready n -> live n pcb -> holds (process_rst n pcb) (processed n pcb).
Proof.
  intros Hr Hl. unfold process_rst. tstep. cbv zeta. destruct (if state_eqb _ _ then _ else _).
  - tstep. set (n1 := upd_in n _).
    assert (E1 : spots n1 = with_input (tcp_input_pcb (tcp n)) (closing n) true (spots n)).
    { assert (Ec : closing n1 = closing n) by (by apply has_add). assert (Ex : resetting n1 = true) by (by apply has_raised).
      unfold spots, with_input. by rewrite Ec, Ex. }
    eapply holds_call; [apply clear_spots|]. cbv beta. intros n2 E2. cbn [holds]. rewrite E1 in E2.
    unfold processed, TcpLists.pcbs_ok. cbn [fst snd]. rewrite E2. split_and!.
    + exact (f_equal v_input E2).
    + apply (reset_inv (spots n)), Hr.
    + intros _ _. unfold live. apply (f_equal v_places) in E2. cbn in E2. rewrite E2. exact Hl.
  - tstep; [|cbn; by apply processed_spots]. tstep. cbn. by apply processed_spots.
Qed.

Lemma free_syn_spots n pcb : holds (free_syn custom_free n pcb) (fun n' => spots n' = spots n).
Proof. unfold free_syn. srun. Qed.
Hint Resolve free_syn_spots : tcp_frame.

Lemma process_syn_sent_ok n pcb :
  ready n -> live n pcb -> holds (process_syn_sent stale_flags custom_free callback_ok netif_output n pcb) (processed n pcb).
Proof.
  intros Hr Hl. unfold process_syn_sent. tstep. cbv zeta. tstep.
  - do 2 tstep. cbn [snd] in *. eapply holds_call; [apply free_syn_spots|]. cbv beta. intros n1 E1.
    erewrite put_active_spots in E1; [|eapply live_spots; [by apply spots_tcp|done]|by rewrite H3|done|done|done].
    rewrite (spots_tcp _ _ H3) in E1. pose proof (ready_spots _ _ E1 Hr) as (Hn1 & Hc1 & _). pose proof (live_spots _ _ _ E1 Hl) as Hl1.
    assert (Hg1 : good n n1) by (by apply good_spots; [|apply Hr]).
    eapply (holds_call _ _ (fun r => good n1 (snd r) /\ (closing (snd r) = true -> fst r <> ERR_ABRT -> live (snd r) pcb))).
    { unfold TCP_EVENT_CONNECTED. tstep. tstep; [|cbn; by split; [apply good_refl|]].
      pose proof (connected_ok L (t_connected v0) n1 (t_callback_arg v0) pcb ERR_OK Hn1) as Hx.
      pose proof (connected_keeps L (t_connected v0) n1 (t_callback_arg v0) pcb ERR_OK Hn1 (fun _ => Hl1)) as Hy.
      destruct (connected_fn _ _ _ _ _); [|done]. by split. }
    cbv beta. intros [err n2] [Hg2 Hk]. cbn [fst snd] in *. tstep.
    + cbn. apply processed_good; [done|by eapply good_trans|done].
    + apply bool_decide_eq_false in Heqb0. tstep. cbn. apply processed_good; [done| |].
      * eapply good_trans; [exact Hg1|]. by eapply good_after.
      * intros Hc _. eapply live_spots; [exact H4|]. apply Hk; [|done]. rewrite <- Hc. symmetry. exact (f_equal v_closing H4).
  - tstep; [|cbn; by apply processed_spots]. repeat tstep. cbn. apply processed_spots; [done|spots_solve].
Qed.

Lemma on_fin_spots n pcb st :
  live n pcb -> kind_of st = K_active -> holds (on_fin n pcb st) (fun n' => spots n' = spots n).
Proof.
  intros Hl Hk. unfold on_fin. tstep. eapply holds_weaken; [apply set_state_spots; [by eapply live_spots|done]|]. cbv beta. congruence.
Qed.

Lemma fin_if_spots n pcb st :
  live n pcb -> kind_of st = K_active -> holds (if got_fin n then on_fin n pcb st else Ok n) (fun n' => spots n' = spots n).
Proof. intros Hl Hk. tstep; [by apply on_fin_spots|done]. Qed.

(** The accept function is called: on success the connection is still there. *)
Lemma accept_event_ok n lpcb pcb arg :
  pcbs_ok n -> live n pcb ->
  holds (TCP_EVENT_ACCEPT stale_flags custom_free callback_ok netif_output n lpcb pcb arg ERR_OK)
    (fun r => good n (snd r) /\ (fst r = ERR_OK -> live (snd r) pcb)).
Proof.
  intros Hn Hl. assert (Hg := event_accept_ok stale_flags custom_free callback_ok netif_output driver_ok L n lpcb pcb arg ERR_OK Hn).
  revert Hg. unfold TCP_EVENT_ACCEPT, tcp_accept_null. destruct (lpcb =? NULL); [done|].
  destruct (listen_at n lpcb) as [l|]; [|done]. cbn [res_bind]. destruct (l_accept l =? NULL); [done|]. destruct (_ =? tcp_accept_null_fn).
  - destruct (tcp_abort _ _ _ _ n pcb); [|done]. done.
  - assert (Hk := accept_keeps L (l_accept l) n arg pcb ERR_OK Hn Hl). by destruct (accept_fn _ _ _ _ _).
Qed.

Lemma process_syn_rcvd_ok n pcb :
  ready n -> live n pcb -> holds (process_syn_rcvd stale_flags custom_free callback_ok netif_output n pcb) (processed n pcb).
Proof.
  intros Hr Hl. unfold process_syn_rcvd. tstep. cbv zeta. tstep; [tstep|].
  - set (n1 := put_tcp n pcb _). assert (E1 : spots n1 = spots n) by (eapply put_active_spots; done).
    apply (holds_call _ _ (fun r => good n (snd r) /\ (fst r = ERR_OK -> live (snd r) pcb))).
    { tstep; [cbn; split; [by apply good_spots; [|apply Hr]|done]|]. do 3 tstep. assert (E2 : spots x = spots n) by congruence.
      destruct (ready_spots _ _ E2 Hr) as (Hn2 & _ & _). pose proof (live_spots _ _ _ E2 Hl) as Hl2. eapply holds_weaken; [by apply accept_event_ok|].
      cbv beta. intros r [Hg Hk]. split; [|done]. eapply good_trans; [|exact Hg]. by apply good_spots; [|apply Hr]. }
    cbv beta. intros [err n2] [Hg Hk]. cbn [fst snd] in *. tstep.
    + apply (holds_call _ _ (good n)).
      * tstep; [|done]. eapply holds_weaken; [apply abandon_ok; [done|apply Hg]|]. intros n3 H3'. by eapply good_trans.
      * intros n3 H3'. cbn. by apply processed_good.
    + apply negb_false_iff, bool_decide_eq_true in Heqb1. specialize (Hk Heqb1). tstep. tstep.
      assert (E4 : spots x0 = spots n2) by spots_solve.
      eapply holds_call; [apply fin_if_spots; [by eapply live_spots|done]|]. cbv beta. intros n5 E5. rewrite E4 in E5. cbn.
      apply processed_good; [done|by eapply good_after|]. intros _ _. by eapply live_spots.
  - tstep. cbn. apply processed_spots; [done|spots_solve].
  - tstep; [|cbn; by apply processed_spots]. tstep. cbn. apply processed_spots; [done|spots_solve].
Qed.

(** A connection enters TIME-WAIT. *)
Lemma time_wait_ok n n1 pcb :
  pcbs_ok n -> live n pcb -> spots n1 = spots n -> holds (enter_time_wait custom_free tcp_timer_needed n1 pcb) (good n).
Proof.
  intros Hn Hl E. unfold enter_time_wait. tstep. rewrite E in H2. pose proof (midway_unlist L n x pcb Hn Hl H2) as Hm.
  unfold upd_tcp. do 3 tstep. by apply midway_tw.
Qed.

Lemma time_wait_closing n pcb :
  holds (enter_time_wait custom_free tcp_timer_needed n pcb) (fun n' => closing n' = closing n).
Proof.
  unfold enter_time_wait, upd_tcp, TCP_REG. tstep. do 3 tstep. eapply holds_weaken; [apply timer_ok|]. cbv beta.
  intros n' E. apply spots_tcp in E. etransitivity; [exact (f_equal v_closing E)|exact (f_equal v_closing H2)].
Qed.

(** The state after the segment has been processed. *)
Definition settled n (pcb : Z) n' : Prop := good n n' /\ (closing n' = true -> live n' pcb).

Lemma settled_spots n pcb n' : ready n -> spots n' = spots n -> settled n pcb n'.
Proof.
  intros Hr E. split; [by apply good_spots; [|apply Hr]|]. destruct (ready_spots _ _ E Hr) as (_ & Hc & _). congruence.
Qed.

Lemma settled_tw n n1 pcb :
  ready n -> live n pcb -> spots n1 = spots n -> holds (enter_time_wait custom_free tcp_timer_needed n1 pcb) (settled n pcb).
Proof.
  intros Hr Hl E. apply holds_both; [apply time_wait_ok; [apply Hr|done..]|].
  eapply holds_weaken; [apply time_wait_closing|]. cbv beta. intros n' E' Hc. rewrite Hc in E'. destruct Hr as (_ & Hc' & _).
  apply (f_equal v_closing) in E. cbn in E. congruence.
Qed.

Lemma settled_fin n n1 pcb :
  ready n -> live n pcb -> spots n1 = spots n ->
  holds (let* n := tcp_ack_now n1 pcb in enter_time_wait custom_free tcp_timer_needed n pcb) (settled n pcb).
Proof. intros Hr Hl E. tstep. apply settled_tw; [done..|congruence]. Qed.

Lemma holds_settled n pcb (r : res (net A W)) :
  ready n -> holds r (fun n' => spots n' = spots n) -> holds r (settled n pcb).
Proof. intros Hr Hs. eapply holds_weaken; [exact Hs|]. intros n' E. by apply settled_spots. Qed.

Lemma process_by_state_ok n pcb :
  ready n ->
  holds (process_by_state stale_flags custom_free callback_ok netif_output tcp_timer_needed n pcb) (processed n pcb).
Proof.
  intros Hr. unfold process_by_state. tstep.
  assert (Hend : forall r : res (net A W), holds r (settled n pcb) -> holds (let* n := r in Ok (ERR_OK, n)) (processed n pcb)).
  { intros r Hs. eapply holds_call; [exact Hs|]. intros n' [Hg Hl]. cbn. by apply processed_good; [..|intros ? _; apply Hl]. }
  destruct (t_state v) eqn:Est; try (cbn; by apply processed_spots);
    [apply process_syn_sent_ok|apply process_syn_rcvd_ok|..];
    [done|by eapply live_kind; [|rewrite Est]|done|by eapply live_kind; [|rewrite Est]|..]; tstep; 
    (assert (Hl0 : live n pcb) by (eapply live_kind; [done|by rewrite Est])); pose proof (live_spots _ _ _ H3 Hl0) as Hl.
  - apply Hend, holds_settled; [done|]. eapply holds_weaken; [by apply fin_if_spots|]. cbv beta. congruence.
  - tstep. apply Hend. tstep; [tstep; [by apply settled_fin|]|].
    + apply holds_settled; [done|]. eapply holds_weaken; [by apply on_fin_spots|]. cbv beta. congruence.
    + tstep; [|by apply settled_spots]. apply holds_settled; [done|].
      eapply holds_weaken; [by apply set_state_spots|]. cbv beta. congruence.
  - apply Hend. tstep; [by apply settled_fin|by apply settled_spots].
  - apply Hend, holds_settled; [done|]. eapply holds_weaken; [by apply fin_if_spots|]. cbv beta. congruence.
  - tstep. apply Hend. tstep; [by apply settled_tw|by apply settled_spots].
  - tstep. cbn [holds]. destruct x0; [|by apply processed_spots].
    change (upd_in x _) with (tcp_trigger_input_pcb_close x). unfold processed, TcpLists.pcbs_ok. cbn [fst snd]. rewrite trigger_spots. split_and!.
    + exact (f_equal v_input H3).
    + apply (closing_inv L (spots x)). rewrite H3. apply Hr.
    + intros _ _. exact Hl.
Qed.

Lemma process_ok n pcb :
  ready n -> (has (i_flags (in_of n)) TCP_RST = true -> live n pcb) ->
  holds (tcp_process stale_flags custom_free callback_ok netif_output tcp_timer_needed n pcb) (processed n pcb).
Proof.
  intros Hr Hl. unfold tcp_process. cbv zeta. tstep; [by apply process_rst_ok; [|apply Hl]|]. tstep. tstep.
  { tstep. cbn. by apply processed_spots. }
  tstep. assert (E : spots x = spots n) by spots_solve.
  eapply holds_weaken; [apply process_by_state_ok; by eapply ready_spots|]. intros r (E1 & E2 & E3). split_and!; [|done..].
  rewrite E1. exact (f_equal v_input E).
Qed.

(** ** What [tcp_input] does after [tcp_process] *)

Lemma live_at n pcb : live n pcb -> exists t, tcp_heap (tcp n) !! pcb = Some t.
Proof.
  intros (b & l & Hp). unfold places in Hp. rewrite lookup_fmap in Hp. destruct (tcp_heap (tcp n) !! pcb) as [t|]; [by exists t|done].
Qed.

Lemma remove_active_ok n pcb :
  pcbs_ok n -> live n pcb -> holds (remove_active stale_flags custom_free callback_ok netif_output n pcb) (good n).
Proof.
  intros Hn Hl. destruct (live_at _ _ Hl) as (t & Ht). unfold remove_active. change L_active with (list_of K_active).
  eapply holds_call; [eapply midway_remove; [done..|by eapply live_inv]|]. intros n1 H1'. by eapply midway_free.
Qed.

(** The application is told of an error, and the connection is freed. *)
Lemma err_remove_ok n pcb t err (tell : bool) :
  pcbs_ok n -> live n pcb -> tcp_heap (tcp n) !! pcb = Some t ->
  holds (let* n := if tell then tcp_event_err n (t_errf t) (t_callback_arg t) err else Ok n in
         remove_active stale_flags custom_free callback_ok netif_output n pcb) (good n).
Proof.
  intros Hn Hl Ht. apply (holds_call _ _ (fun n' => good n n' /\ live n' pcb)).
  - destruct tell; [|by split; [apply good_refl|]]. apply holds_both; [by apply err_event_ok|].
    unfold tcp_event_err. destruct (negb _); [by eapply err_keeps|done].
  - intros n1 [Hg Hl1]. eapply holds_weaken; [apply remove_active_ok; [apply Hg|done]|]. intros n2 H2'. by eapply good_trans.
Qed.

Lemma deliver_sent_ok n pcb :
  pcbs_ok n -> (closing n = true -> live n pcb) ->
  holds (deliver_sent n pcb) (fun r => good n (snd r) /\ (fst r = true -> closing (snd r) = true -> live (snd r) pcb)).
Proof.
  intros Hn Hl. unfold deliver_sent. cbv zeta. tstep; [|cbn; by split; [apply good_refl|]].
  apply (holds_call _ _ (fun r => good n (snd r) /\ (closing (snd r) = true -> fst r <> ERR_ABRT -> live (snd r) pcb))).
  - apply holds_both; [by apply event_sent_ok|]. unfold TCP_EVENT_SENT. tstep. tstep; [by eapply sent_keeps|cbn; intros; by apply Hl].
  - intros [err n1] [Hg Hk]. cbn [fst snd] in *. tstep; [cbn; by split|]. apply bool_decide_eq_false in Heqb0. cbn. split; [|auto].
    eapply good_after; [exact Hg|spots_solve].
Qed.

Lemma deliver_data_ok n pcb :
  pcbs_ok n ->
  holds (deliver_data stale_flags custom_free callback_ok netif_output tcp_timer_needed n pcb) (fun r => good n (snd r)).
Proof.
  intros Hn. unfold deliver_data. cbv zeta. tstep; [|by apply good_refl]. do 2 tstep. tstep.
  - tstep. assert (Hx : good n x) by (apply good_spots; [spots_solve|done]).
    eapply holds_call; [apply abandon_ok; [done|apply Hx]|]. intros n1 H1'. cbn. by eapply good_trans.
  - eapply holds_call; [by apply event_recv_ok|]. cbv beta. intros [err n1] Hg. cbn [snd] in Hg. tstep; [done|]. tstep; [|done].
    tstep. cbn. eapply good_after; [exact Hg|spots_solve].
Qed.

Lemma deliver_fin_ok n pcb :
  pcbs_ok n ->
  holds (deliver_fin stale_flags custom_free callback_ok netif_output tcp_timer_needed n pcb) (fun r => good n (snd r)).
Proof.
  intros Hn. unfold deliver_fin. tstep; [|by apply good_refl]. do 2 tstep.
  - tstep. cbn. apply good_spots; [spots_solve|done].
  - set (n1 := put_tcp n pcb _). assert (H1' : good n n1) by (apply good_spots; [unfold n1; spots_solve|done]).
    eapply holds_call; [apply event_closed_ok; [done..|apply H1']|]. cbv beta. intros [err n2] Hg. cbn [holds snd]. eapply good_trans; [exact H1'|exact Hg].
Qed.

(** The connection that is left to [tcp_input] and not freed by it. *)
Definition unfreed n (pcb : Z) : gset Z :=
  if closing n && bool_decide (is_Some (places n !! pcb)) then {[pcb]} else ∅.

(** The state, up to [tcp_input_pcb = NULL]. *)
Definition finished n (pcb : Z) : Prop :=
  TcpLists.inv (unfreed n pcb ∪ L) NULL (with_input NULL (closing n) (resetting n) (spots n)).

Lemma finish n pcb : pcbs_ok n -> tcp_input_pcb (tcp n) = pcb -> finished n pcb.
Proof.
  intros [Hli Hb Ha Ht Hl Hn Hd Hp Hlp Hpp Hln] E.
  assert (Hnd : forall p x, places n !! p = Some x -> dropped L (spots n) p -> p ∈ unfreed n pcb ∪ L).
  { intros p x Hx [?|[-> Hc]]; [by apply elem_of_union_r|]. apply elem_of_union_l. cbn in Hc, Hx |- *. rewrite E in Hx |- *.
    unfold unfreed. rewrite Hc, Hx. by apply elem_of_singleton. }
  split; try assumption; cbn.
  - intros p k b l Hx. destruct (Hl _ _ _ _ Hx) as [?|[?|?]]; [by left|right; left; left; by eapply Hnd|by right; right].
  - intros p k b l Hx. destruct (Hln _ _ _ _ Hx) as [? [?|?]]; (split; [done|]); [left; left; by eapply Hnd|by right].
Qed.

Lemma finished_view n n' pcb :
  with_input NULL (closing n') (resetting n') (spots n') = with_input NULL (closing n) (resetting n) (spots n) ->
  finished n pcb -> finished n' pcb.
Proof.
  intros E Hf. assert (Eu : unfreed n' pcb = unfreed n pcb).
  { unfold unfreed. apply (f_equal v_closing) in E as Ec. apply (f_equal v_places) in E as Ep. cbn in Ec, Ep. by rewrite Ec, Ep. }
  unfold finished. by rewrite Eu, E.
Qed.

(** What is sent at the end. *)
Lemma last_output_ok n pcb :
  finished n pcb ->
  holds (let* (_, n) := tcp_output stale_flags custom_free callback_ok netif_output (with_tcp (set_tcp_input_pcb NULL (tcp n)) n) pcb in Ok n)
    (fun n' => finished n' pcb).
Proof.
  intros Hf. do 2 tstep. cbn [holds snd] in *. apply spots_kept in H2. eapply finished_view; [|exact Hf].
  pose proof (f_equal v_closing H2) as Ec. pose proof (f_equal v_reset H2) as Er. cbn in Ec, Er. rewrite H2, Ec, Er. done.
Qed.

Lemma input_deliver_ok n pcb :
  pcbs_ok n -> tcp_input_pcb (tcp n) = pcb -> (closing n = true \/ resetting n = true -> live n pcb) ->
  holds (input_deliver stale_flags custom_free callback_ok netif_output tcp_timer_needed n pcb) (fun n' => finished n' pcb).
Proof.
  intros Hn Ei Hl. unfold input_deliver.
  assert (Hfin : forall n', good n n' -> finished n' pcb).
  { intros n' [(E & _) Hg]. apply finish; [done|]. cbn in E. congruence. }
  destruct (has _ TF_RESET) eqn:Er.
  { tstep. eapply holds_weaken; [apply (err_remove_ok n pcb v ERR_RST true); [done|by apply Hl; right|done]|apply Hfin]. }
  eapply holds_call; [apply deliver_sent_ok; [done|auto]|]. cbv beta. intros [go n1] [H1' Hl1]. cbn [fst snd] in *.
  destruct go; cbn [negb]; [|by apply Hfin]. tstep.
  { tstep. eapply holds_weaken; [apply (err_remove_ok n1 pcb v ERR_CLSD (negb (has (t_flags v) TF_RXCLOSED))); [apply H1'|by apply Hl1|done]|].
    intros n2 H2'. apply Hfin. by eapply good_trans. }
  eapply holds_call; [apply deliver_data_ok; [done..|apply H1']|]. cbv beta. intros [go n2] H2'. cbn [snd] in H2'.
  assert (H02 : good n n2) by (by eapply good_trans). destruct go; cbn [negb]; [|by apply Hfin].
  eapply holds_call; [apply deliver_fin_ok; [done..|apply H2']|]. cbv beta. intros [go n3] H3'. cbn [snd] in H3'.
  assert (H03 : good n n3) by (by eapply good_trans). destruct go; cbn [negb]; [|by apply Hfin].
  by apply last_output_ok, Hfin.
Qed.

Lemma input_aborted_ok n pcb :
  finished n pcb ->
  holds (input_aborted custom_free n)
    (fun n' => tcp_input_pcb (tcp n') = NULL /\ TcpLists.pcbs_ok (unfreed n' pcb ∪ L) n').
Proof.
  intros Hf. unfold input_aborted. cbv zeta.
  set (n1 := upd_in (with_tcp (set_tcp_input_pcb NULL (tcp n)) n) _).
  assert (E1 : spots n1 = with_input NULL (closing n) (resetting n) (spots n)) by (unfold n1; rewrite spots_upd_in by flags_solve; done).
  apply (holds_weaken _ (fun n' => spots n' = spots n1)); [srun|]. intros n' E'. rewrite E1 in E'. split; [exact (f_equal v_input E')|].
  unfold TcpLists.pcbs_ok. rewrite E'. unfold finished in Hf.
  assert (Eu : unfreed n' pcb = unfreed n pcb).
  { unfold unfreed. apply (f_equal v_closing) in E' as Ec. apply (f_equal v_places) in E' as Ep. cbn in Ec, Ep. by rewrite Ec, Ep. }
  by rewrite Eu.
Qed.

(** ** tcp_input *)

(** Between segments nothing is left to [tcp_input]. *)
Lemma idle_inv n q c r : pcbs_ok n -> tcp_input_pcb (tcp n) = NULL -> inv NULL (with_input q c r (spots n)).
Proof.
  intros Hn E. apply with_input_inv; [done|]. right. change (v_places (spots n) !! tcp_input_pcb (tcp n) = None). rewrite E. apply (ok_null _ _ _ Hn).
Qed.

Lemma finish_idle n pcb : pcbs_ok n -> tcp_input_pcb (tcp n) = NULL -> finished n pcb.
Proof. intros Hn E. unfold finished. eapply inv_mono; [apply union_subseteq_r|by apply idle_inv]. Qed.

(** The data that was refused before is passed on: the connection is there if a reset is next. *)
Lemma input_refused_ok n pcb t :
  ready n -> live n pcb -> tcp_heap (tcp n) !! pcb = Some t ->
  (has (i_flags (in_of n)) TCP_RST = true -> t_refused_data t = NULL) ->
  holds (if negb (t_refused_data t =? NULL) then
           let* (err, n) := tcp_process_refused_data stale_flags custom_free callback_ok netif_output tcp_timer_needed n pcb in
           if bool_decide (err = ERR_ABRT) then Ok (true, n)
           else let* t := tcp_at n pcb in Ok (negb (t_refused_data t =? NULL) && (0 <? i_tcplen (in_of n)), n)
         else Ok (false, n))
    (fun r => good n (snd r) /\ (has (i_flags (in_of (snd r))) TCP_RST = true -> live (snd r) pcb)).
Proof.
  intros Hr Hl Ht Hrst. tstep; [|cbn; by split; [apply good_refl, Hr|]]. apply negb_true_iff, Z.eqb_neq in Heqb.
  apply (holds_call _ _ (fun r => good n (snd r) /\ has (i_flags (in_of (snd r))) TCP_RST = false)).
  - eapply holds_weaken; [apply refused_ok; [done..|apply Hr]|]. cbv beta. intros r Hg. split; [done|].
    destruct Hg as [(_ & _ & Ef & _) _]. cbn in Ef. rewrite Ef. destruct (has _ _); [|done]. by destruct Heqb; apply Hrst.
  - intros [err n1] [Hg Ef]. cbn [fst snd] in *. tstep; [cbn; split; [done|congruence]|]. tstep. cbn. split; [done|congruence].
Qed.

Lemma input_active_ok n p pcb :
  pcbs_ok n -> tcp_input_pcb (tcp n) = NULL -> live n pcb ->
  (has (i_flags (in_of n)) TCP_RST = true -> forall t, tcp_heap (tcp n) !! pcb = Some t -> t_refused_data t = NULL) ->
  holds (input_active stale_flags custom_free callback_ok netif_output tcp_timer_needed n p pcb)
    (fun n' => tcp_input_pcb (tcp n') = NULL /\ TcpLists.pcbs_ok (unfreed n' pcb ∪ L) n').
Proof.
  intros Hn Ei Hl Hrst. unfold input_active. tstep. cbv zeta. set (n1 := upd_in n _).
  assert (E1 : spots n1 = with_input NULL false false (spots n)) by (rewrite <- Ei; done).
  apply (holds_call _ _ (fun n2 => spots n2 = spots n1 /\ tcp_heap (tcp n2) = tcp_heap (tcp n))); [repeat tstep; done|].
  intros n2 [E2 Eh]. rewrite E1 in E2. clear E1. clearbody n1.
  assert (Hr : ready n2).
  { split_and!; [unfold TcpLists.pcbs_ok; rewrite E2; by apply idle_inv|exact (f_equal v_closing E2)|exact (f_equal v_reset E2)]. }
  assert (Hl2 : live n2 pcb) by (unfold live, places; rewrite Eh; done).
  assert (Ef2 : i_flags (in_of n2) = i_flags (in_of n)) by exact (f_equal v_flags E2).
  tstep. eapply holds_call; [apply input_refused_ok; [done|done|done|]|].
  { rewrite Ef2. intros Hx. apply Hrst; [done|by rewrite <- Eh]. }
  cbv beta. intros [drop n3] [H3' Hl3]. cbn [fst snd] in *.
  assert (Ei3 : tcp_input_pcb (tcp n3) = NULL) by (destruct H3' as [(E & _) _]; cbn in E; rewrite E; exact (f_equal v_input E2)).
  destruct drop.
  - tstep. apply (holds_call _ _ (fun n4 => spots n4 = spots n3)); [srun|]. intros n4 E4. apply input_aborted_ok, finish_idle.
    + unfold TcpLists.pcbs_ok. change (spots (inc P_tcp c_drop n4)) with (spots n4). rewrite E4. apply H3'.
    + etransitivity; [exact (f_equal v_input E4)|done].
  - set (n4 := with_tcp (set_tcp_input_pcb pcb (tcp n3)) n3).
    assert (Hr4 : ready n4).
    { destruct H3' as [(Hg1 & Hg2 & _ & _ & Hg3) H3']. split_and!.
      - exact (idle_inv n3 pcb (closing n3) (resetting n3) H3' Ei3).
      - etransitivity; [apply Hg3; exact (f_equal v_input E2)|apply Hr].
      - etransitivity; [exact Hg2|apply Hr]. }
    eapply holds_call; [apply process_ok; [exact Hr4|exact Hl3]|]. intros [err n5] (E5 & H5' & Hl5). cbn [fst snd] in *.
    apply (holds_call _ _ (fun n6 => finished n6 pcb)); [|intros n6 H6'; by apply input_aborted_ok].
    destruct (bool_decide (err = ERR_ABRT)) eqn:He; cbn [negb].
    + by apply finish.
    + apply bool_decide_eq_false in He. apply input_deliver_ok; auto.
Qed.

(** The control block that a segment belongs to is on its list, and comes to the front. *)
Lemma find_active_in n l : holds (find_active n l) (fun pcb => pcb = NULL \/ pcb ∈ l).
Proof.
  induction l as [|p l IH]; cbn [find_active]; [by left|]. do 4 tstep. tstep; [right; by left|].
  eapply holds_weaken; [exact IH|]. intros pcb [?|?]; [by left|right; by right].
Qed.

Lemma find_listen_in n l : holds (find_listen n l) (fun pcb => pcb = NULL \/ pcb ∈ l).
Proof.
  induction l as [|p l IH]; cbn [find_listen]; [by left|]. tstep. tstep; [right; by left|].
  eapply holds_weaken; [exact IH|]. intros pcb [?|?]; [by left|right; by right].
Qed.

Lemma active_live n pcb : pcbs_ok n -> pcb ∈ tcp_active_pcbs (tcp n) -> live n pcb.
Proof.
  intros Hn Hp. destruct (proj2 (ok_active _ _ _ Hn) pcb Hp) as (_ & [[k b] l] & Hx & Hk). cbn in Hk. subst k. by exists b, l.
Qed.

Lemma front_active_ok n pcb : pcbs_ok n -> live n pcb -> good n (move_to_front n L_active pcb) /\ live (move_to_front n L_active pcb) pcb.
Proof.
  intros Hn Hl. unfold move_to_front. destruct (_ =? _); (split; [|exact Hl]); [by apply good_spots|].
  destruct Hl as (b & l & Hp). eapply (good_view _ _ _ (listed K_active pcb (unlisted K_active pcb (spots n)))); [done|exact (goes_refl _)|].
  by eapply front_inv.
Qed.

Lemma front_listen_ok n pcb : pcbs_ok n -> pcb ∈ tcp_listen_pcbs (tcp n) -> good n (move_to_front n L_listen pcb).
Proof.
  intros Hn Hp. unfold move_to_front. destruct (_ =? _); [by apply good_spots|].
  eapply good_view; [reflexivity|exact (goes_refl _)|]. apply (front_listen_inv L (spots n)); [done|]. by apply (ok_listen _ _ _ Hn).
Qed.

(** The state after a segment for [pcb], NULL for one without an active connection. *)
Definition input_post (pcb : Z) n' : Prop := tcp_input_pcb (tcp n') = NULL /\ TcpLists.pcbs_ok (unfreed n' pcb ∪ L) n'.

Lemma input_post_good n n' pcb : tcp_input_pcb (tcp n) = NULL -> good n n' -> input_post pcb n'.
Proof.
  intros Ei [(E & _) Hg]. split; [cbn in E; congruence|]. eapply inv_mono; [apply union_subseteq_r|done].
Qed.

Lemma input_demux_ok n p pcb :
  pcbs_ok n -> tcp_input_pcb (tcp n) = NULL ->
  (has (i_flags (in_of n)) TCP_RST = true -> forall pcb t, tcp_heap (tcp n) !! pcb = Some t -> t_refused_data t = NULL) ->
  find_active n (tcp_active_pcbs (tcp n)) = Ok pcb ->
  holds (input_demux stale_flags custom_free callback_ok netif_output tcp_timer_needed n p) (input_post pcb).
Proof.
  intros Hn Ei Hrst Hfind. unfold input_demux. pose proof (find_active_in n (tcp_active_pcbs (tcp n))) as Hin. rewrite Hfind in *.
  cbn [holds res_bind] in *. tstep.
  - apply negb_true_iff, Z.eqb_neq in Heqb. destruct Hin as [?|Hin]; [done|]. assert (Hl := active_live _ _ Hn Hin).
    destruct (front_active_ok _ _ Hn Hl) as [[(E1 & _) H1'] Hl1]. set (n1 := move_to_front n L_active pcb) in *.
    assert (E : tcp_in_vars (tcp n1) = tcp_in_vars (tcp n) /\ tcp_heap (tcp n1) = tcp_heap (tcp n)).
    { unfold n1, move_to_front. by destruct (_ =? _). }
    destruct E as [Ev Eh]. apply input_active_ok; [done|cbn in E1; congruence|done|].
    unfold in_of. rewrite Ev, Eh. intros Hx t. by apply Hrst.
  - eapply holds_weaken; [|intros n' Hg; apply (input_post_good n); [done|exact Hg]]. tstep. tstep.
    + apply (holds_call _ _ (fun n1 => spots n1 = spots n)); [apply timewait_input_spots|]. cbv beta. intros n1 E1.
      eapply holds_weaken; [apply free_kept|]. cbv beta. intros n2 E2. apply good_spots; [spots_solve|done].
    + eapply holds_call; [apply find_listen_in|]. cbv beta. intros lpcb Hlin. tstep.
      * apply negb_true_iff, Z.eqb_neq in Heqb1. destruct Hlin as [?|Hlin]; [done|].
        assert (H1' := front_listen_ok _ _ Hn Hlin). eapply holds_call; [apply listen_input_ok; apply H1'|]. cbv beta. intros n2 H2'.
        eapply holds_weaken; [apply free_kept|]. cbv beta. intros n3 E3. eapply good_after; [by eapply good_trans|spots_solve].
      * apply (holds_call _ _ (fun n1 => spots n1 = spots n)); [srun|]. cbv beta. intros n1 E1.
        eapply holds_weaken; [apply free_kept|]. cbv beta. intros n2 E2. apply good_spots; [spots_solve|done].
Qed.

(** The header of a segment is read, and its fields converted. *)
Lemma upd_bytes (st : Pbuf.state A) p f : holds (upd st p f) (fun st' => bytes st' = bytes st).
Proof. unfold upd. apply holds_deref. done. Qed.

Lemma header_mem n p k : holds (header n p k) (fun r => tcp (snd r) = tcp n /\ mem (snd r) = mem n).
Proof.
  apply holds_both; [by apply header_kept|]. unfold header, on_packets, pbuf_header, pbuf_header_impl.
  apply (holds_call _ _ (fun x => bytes (snd x) = bytes (packets n))); [|by intros [x st]].
  tstep. tstep; [done|]. apply holds_deref. intros b _. cbv zeta. tstep; [done|].
  apply (holds_call _ _ (fun x => bytes (snd x) = bytes (packets n))).
  - repeat first [ eapply holds_call; [apply upd_bytes|cbv beta; intros ? ?] | tstep ]; cbn [holds snd]; congruence.
  - intros [fail st] E. cbn [snd] in E. tstep; [done|]. do 2 (eapply holds_call; [apply upd_bytes|]; cbv beta; intros ? ?). cbn. congruence.
Qed.

Lemma input_header_mem n p k :
  holds (input_header n p k) (fun r => tcp (snd r) = tcp n /\ mem (snd r) = mem n).
Proof.
  unfold input_header. tstep. cbv zeta. tstep; repeat first
    [ eapply holds_call; [apply header_mem|cbv beta; intros [? ?] [? ?]; cbn [snd] in *]
    | eapply holds_call; [apply upd_bytes|cbv beta; intros ? ?]
    | tstep ]; cbn [holds snd tcp mem packets with_packets inc] in *; unfold mem in *; cbn [packets with_packets inc] in *; split; congruence.
Qed.

(** The flags of the segment [p]. *)
Definition flags_of n (p : Z) : Z :=
  match pbufs (packets n) !! p with
  | Some b => u8 (TCPH_FLAGS (mem n) (payload b))
  | None => 0
  end.

(** The view with the flags of another segment. *)
Definition reflagged (f : Z) (v : pcb_view) : pcb_view :=
  mk_view (v_listen v) (v_bound v) (v_active v) (v_tw v) (v_pool v) (v_listen_pool v) (v_input v) (v_closing v) (v_reset v)
    f (v_listeners v) (v_places v).

Lemma reflag_inv v f : inv NULL v -> inv NULL (reflagged f v).
Proof. intros []. by split. Qed.

Lemma input_fields_ok n p hdr k o1 o2 :
  holds (input_fields n p hdr k o1 o2) (fun n' => spots n' = reflagged (u8 (TCPH_FLAGS (mem n) hdr)) (spots n)
    /\ tcp_heap (tcp n') = tcp_heap (tcp n) /\ i_flags (in_of n') = u8 (TCPH_FLAGS (mem n) hdr)).
Proof.
  unfold input_fields. cbv zeta. tstep. cbn [holds]. set (m := set_tcph_wnd _ _ _).
  assert (Ef : TCPH_FLAGS m hdr = TCPH_FLAGS (mem n) hdr).
  { unfold TCPH_FLAGS, tcph_hdrlen_rsvd_flags, m, set_tcph_wnd, set_tcph_ackno, set_tcph_seqno, set_tcph_dest, set_tcph_src, wr16, wr32.
    rewrite !rd16_apart by (rewrite length_le_bytes; lia). done. }
  rewrite Ef. done.
Qed.

Lemma input_check_ok n p :
  pcbs_ok n ->
  holds (input_check n p) (fun r =>
    if fst r then pcbs_ok (snd r) /\ tcp_input_pcb (tcp (snd r)) = tcp_input_pcb (tcp n) /\ tcp_heap (tcp (snd r)) = tcp_heap (tcp n)
                  /\ i_flags (in_of (snd r)) = flags_of n p
    else tcp (snd r) = tcp n).
Proof.
  intros Hn. unfold input_check. unfold pbuf_at at 1. apply holds_deref. intros b Hb. cbv zeta. tstep; [done|]. do 2 (tstep; try done).
  tstep. tstep; [done|]. tstep; [done|].
  eapply holds_call; [apply input_header_mem|]. cbv beta. intros [opts n1] [E1 Em]. cbn [snd] in E1, Em.
  destruct opts as [[o1 o2]|]; [|done].
  eapply holds_call; [apply input_fields_ok|]. cbv beta. intros n2 (E2 & Eh & Ef). rewrite Em in E2, Ef.
  rewrite (spots_tcp _ _ E1) in E2. cbn [holds fst snd]. split_and!.
  - unfold TcpLists.pcbs_ok. rewrite E2. by apply reflag_inv.
  - exact (f_equal v_input E2).
  - congruence.
  - unfold flags_of. by rewrite Hb.
Qed.

(** The active connection that the segment [p] belongs to, NULL for none. *)
Definition target n (p : Z) : Z :=
  match input_check (inc P_tcp c_recv n) p with
  | Ok (true, n1) => match find_active n1 (tcp_active_pcbs (tcp n1)) with Ok pcb => pcb | Fault _ => NULL end
  | _ => NULL
  end.

Lemma tcp_input_spec n p :
  pcbs_ok n -> tcp_input_pcb (tcp n) = NULL ->
  (has (flags_of n p) TCP_RST = true -> forall pcb t, tcp_heap (tcp n) !! pcb = Some t -> t_refused_data t = NULL) ->
  holds (tcp_input stale_flags custom_free callback_ok netif_output tcp_timer_needed n p) (input_post (target n p)).
Proof.
  intros Hn Ei Hrst. unfold tcp_input, target. pose proof (input_check_ok (inc P_tcp c_recv n) p Hn) as Hc.
  destruct (input_check _ p) as [[ok n1]|]; [|done]. cbn [holds fst snd res_bind] in *. destruct ok.
  - destruct Hc as (Hn1 & E1 & Eh & Ef). destruct (find_active n1 _) as [pcb|] eqn:Hf.
    + apply input_demux_ok; [done|cbn in E1; congruence| |done]. rewrite Ef, Eh. exact Hrst.
    + unfold input_demux. by rewrite Hf.
  - unfold input_dropped. eapply holds_weaken; [apply free_kept|]. cbv beta. intros n2 E2.
    apply (input_post_good n); [done|]. apply good_spots; [spots_solve|done].
Qed.

End Input.
