(* ===== verification/TcpReach.v ===== *)
(** * Every reachable state of TCP satisfies the axioms of priv/tcp_priv.h

    The steps of TCP: the calls of its interface, segments, and the fast timer.  In every
    state that they reach from an initial one, the lists are as the comment of
    priv/tcp_priv.h says, except for the connections that [tcp_input] has lost.

    [tcp_slowtmr] is not among the steps: after a callback has changed the list, and when a
    control block has already been processed in this tick, it does not keep the axioms (see
    [TcpExamples]). *)

From S2P Require Import Prelude Ip4Addr Pbuf TcpData Net Ip4 IpFrame TcpBase TcpOut Tcp TcpRecv TcpIn TcpFrame TcpLists TcpInv TcpStep.

(** ** The axioms *)

Section Axioms.
Context {A W : Type}.
Implicit Types n : net A W.

(** Of all connections but [lost]. *)
Record tcp_axioms (lost : gset Z) n : Prop := {
  (** Every control block that is not CLOSED is on one of the lists, that of its state. *)
  ax_listed : forall pcb t, tcp_heap (tcp n) !! pcb = Some t -> t_state t <> CLOSED -> pcb ∉ lost ->
    pcb ∈ pcbs_of (tcp n) (list_of (kind_of (t_state t)));
  ax_listening : forall pcb, is_Some (listen_heap (tcp n) !! pcb) -> pcb ∈ tcp_listen_pcbs (tcp n);
  (** A control block is only on one of the lists, once. *)
  ax_once : NoDup (all_pcbs n);
  (** Those on [tcp_listen_pcbs] listen, and those on [tcp_tw_pcbs] are in TIME-WAIT. *)
  ax_listen : forall pcb, pcb ∈ tcp_listen_pcbs (tcp n) -> is_Some (listen_heap (tcp n) !! pcb);
  ax_tw : forall pcb, pcb ∈ tcp_tw_pcbs (tcp n) -> exists t, tcp_heap (tcp n) !! pcb = Some t /\ t_state t = TIME_WAIT;
  (** Those on the other lists exist, too; what they take to be their listener does. *)
  ax_active : forall pcb, pcb ∈ tcp_active_pcbs (tcp n) ->
    exists t, tcp_heap (tcp n) !! pcb = Some t /\ kind_of (t_state t) = K_active;
  ax_bound : forall pcb, pcb ∈ tcp_bound_pcbs (tcp n) ->
    exists t, tcp_heap (tcp n) !! pcb = Some t /\ t_state t = CLOSED /\ t_local_port t <> 0;
  ax_listener : forall pcb t, tcp_heap (tcp n) !! pcb = Some t -> pcb ∉ lost ->
    t_listener t = NULL \/ is_Some (listen_heap (tcp n) !! t_listener t);
  (** What can be allocated is not in use. *)
  ax_pool : forall pcb, pcb ∈ tcp_pcb_pool (tcp n) \/ pcb ∈ tcp_listen_pool (tcp n) ->
    tcp_heap (tcp n) !! pcb = None /\ listen_heap (tcp n) !! pcb = None
}.

Lemma places_inv n pcb x : places n !! pcb = Some x -> exists t, tcp_heap (tcp n) !! pcb = Some t /\ place t = x.
Proof. unfold places. rewrite lookup_fmap. destruct (tcp_heap (tcp n) !! pcb) as [t|]; [|done]. intros [= <-]. eauto. Qed.

Lemma listeners_inv n pcb : is_Some (listeners n !! pcb) <-> is_Some (listen_heap (tcp n) !! pcb).
Proof. unfold listeners. by rewrite lookup_fmap, fmap_is_Some. Qed.

Lemma members_kind q l n (k : kind) pcb :
  members q l (places n) (fun x => fst (fst x) = k) -> pcb ∈ l -> exists t, tcp_heap (tcp n) !! pcb = Some t /\ kind_of (t_state t) = k.
Proof.
  intros [_ HP] Hp. destruct (HP pcb Hp) as (_ & x & Hx & Hk). destruct (places_inv _ _ _ Hx) as (t & Ht & <-). by exists t.
Qed.

Lemma kind_closed st : kind_of st = K_closed -> st = CLOSED.
Proof. by destruct st. Qed.
Lemma kind_tw st : kind_of st = K_tw -> st = TIME_WAIT.
Proof. by destruct st. Qed.

Lemma pcbs_ok_once L n : pcbs_ok L n -> NoDup (all_pcbs n).
Proof.
  intros [[Hl1 Hl2] Hb Ha Ht _ _ Hd _ _ _ _]. unfold all_pcbs. cbn. rewrite (right_id_L [] (++)).
  assert (Hno : forall pcb, pcb ∈ tcp_listen_pcbs (tcp n) -> places n !! pcb = None).
  { intros pcb Hp. apply Hl2 in Hp. destruct (places n !! pcb) eqn:E; [|done]. rewrite Hd in Hp by (by cbn; rewrite E). by destruct Hp. }
  cbn in Hb, Ha, Ht. rewrite !NoDup_app. split_and!; [exact Hl1| |exact (proj1 Hb)| |exact (proj1 Ha)| |exact (proj1 Ht)].
  - intros pcb Hp%Hno. rewrite !elem_of_app. intros [Hx|[Hx|Hx]].
    + destruct (proj2 Hb _ Hx) as (_ & ? & ? & _). congruence.
    + destruct (proj2 Ha _ Hx) as (_ & ? & ? & _). congruence.
    + destruct (proj2 Ht _ Hx) as (_ & ? & ? & _). congruence.
  - intros pcb Hp. destruct (proj2 Hb _ Hp) as (_ & x & Hx & Qx). rewrite elem_of_app. intros [Hy|Hy].
    + destruct (proj2 Ha _ Hy) as (_ & y & Hy' & Qy). assert (x = y) as <- by congruence. destruct x as [[] ?]; cbn in *; congruence.
    + destruct (proj2 Ht _ Hy) as (_ & y & Hy' & Qy). assert (x = y) as <- by congruence. destruct x as [[] ?]; cbn in *; congruence.
  - intros pcb Hp Hy. destruct (proj2 Ha _ Hp) as (_ & x & Hx & Qx). destruct (proj2 Ht _ Hy) as (_ & y & Hy' & Qy). congruence.
Qed.

Lemma pcbs_ok_axioms L n : pcbs_ok L n -> tcp_input_pcb (tcp n) = NULL -> tcp_axioms L n.
Proof.
  intros Hn Ei. assert (Hnd : forall p, is_Some (places n !! p) -> dropped L (spots n) p -> p ∈ L).
  { intros p Hp [?|[-> _]]; [done|]. cbn in Hp. rewrite Ei in Hp. pose proof (proj1 (ok_null _ _ _ Hn)) as E0. cbn in E0. rewrite E0 in Hp. by destruct Hp. }
  split.
  - intros pcb t Ht Hs HL. apply places_lookup in Ht as Hp. destruct (ok_listed _ _ _ Hn _ _ _ _ Hp) as [->|[Hd|[[Hk _]|[[Hk Hx]|[Hk Hx]]]]].
    + destruct (ok_null _ _ _ Hn). cbn in *. congruence.
    + destruct HL. apply Hnd; [by rewrite Hp|done].
    + by apply kind_closed in Hk.
    + by rewrite Hk.
    + by rewrite Hk.
  - intros pcb Hp. apply listeners_inv in Hp. by apply (ok_listen _ _ _ Hn).
  - by eapply pcbs_ok_once.
  - intros pcb Hp. apply listeners_inv. by apply (ok_listen _ _ _ Hn).
  - intros pcb Hp. destruct (members_kind _ _ _ _ _ (ok_tw _ _ _ Hn) Hp) as (t & Ht & Hk). exists t. split; [done|by apply kind_tw].
  - intros pcb Hp. by eapply members_kind; [apply (ok_active _ _ _ Hn)|].
  - intros pcb Hp. destruct (proj2 (ok_bound _ _ _ Hn) pcb Hp) as (_ & x & Hx & Qx). destruct (places_inv _ _ _ Hx) as (t & Ht & <-).
    exists t. cbn in Qx. injection Qx as Hk Hb. split_and!; [done|by apply kind_closed|]. by apply negb_true_iff, Z.eqb_neq in Hb.
  - intros pcb t Ht HL. apply places_lookup in Ht as Hp. destruct (ok_listener _ _ _ Hn _ _ _ _ Hp) as [_ [Hd|[?|Hl]]].
    + destruct HL. apply Hnd; [by rewrite Hp|done].
    + by left.
    + right. by apply listeners_inv.
  - intros pcb [Hp|Hp]; [apply (ok_pool _ _ _ Hn) in Hp as (_ & E1 & E2)|apply (ok_listen_pool _ _ _ Hn) in Hp as (_ & E1 & E2)];
      change (places n !! pcb = None) in E1; change (listeners n !! pcb = None) in E2;
      unfold places in E1; unfold listeners in E2; rewrite lookup_fmap in E1; rewrite lookup_fmap in E2;
      destruct (tcp_heap (tcp n) !! pcb), (listen_heap (tcp n) !! pcb); done.
Qed.

End Axioms.

(** ** Reachable states *)

Section Reach.
Context {A W : Type} `{AllocOps A} `{FragPool A} `{TcpApp A W}.
Variable stale_flags : Z -> Z.
Variable custom_free : Z -> Z -> Pbuf.state A -> res (Pbuf.state A).
Variable callback_ok : bool.
Variable netif_output : net A W -> Z -> Z -> Z -> res (err_t * net A W).
Variable tcp_timer_needed : net A W -> res (net A W).
Implicit Types n : net A W.

Local Abbreviation output := (tcp_output stale_flags custom_free callback_ok netif_output).

(** A call of the TCP interface, the fast timer, or a new address of an interface.  A control
    block that has been bound is not bound again: that makes the list cyclic, see
    [bind_twice_is_cyclic]. *)
Inductive tcp_step n : net A W -> Prop :=
| step_alloc prio pcb n' : tcp_alloc stale_flags custom_free callback_ok netif_output n prio = Ok (pcb, n') -> tcp_step n n'
| step_bind pcb ip port err n' :
    pcb ∉ tcp_bound_pcbs (tcp n) -> tcp_bind tcp_timer_needed n pcb ip port = Ok (err, n') -> tcp_step n n'
| step_listen pcb backlog lpcb err n' :
    tcp_listen_with_backlog_and_err tcp_timer_needed n pcb backlog = Ok (lpcb, err, n') -> tcp_step n n'
| step_connect pcb ip port f err n' :
    tcp_connect stale_flags custom_free callback_ok netif_output tcp_timer_needed n pcb ip port f = Ok (err, n') -> tcp_step n n'
| step_close pcb err n' :
    tcp_close stale_flags custom_free callback_ok netif_output tcp_timer_needed n pcb = Ok (err, n') -> tcp_step n n'
| step_shutdown pcb rx tx err n' :
    tcp_shutdown stale_flags custom_free callback_ok netif_output tcp_timer_needed n pcb rx tx = Ok (err, n') -> tcp_step n n'
| step_abort pcb n' : tcp_abort stale_flags custom_free callback_ok netif_output n pcb = Ok n' -> tcp_step n n'
| step_write pcb arg l fl err n' : tcp_write stale_flags custom_free callback_ok n pcb arg l fl = Ok (err, n') -> tcp_step n n'
| step_output pcb err n' : output n pcb = Ok (err, n') -> tcp_step n n'
| step_recved pcb l n' : tcp_recved stale_flags custom_free callback_ok netif_output n pcb l = Ok n' -> tcp_step n n'
| step_delayed pcb n' : tcp_backlog_delayed n pcb = Ok n' -> tcp_step n n'
| step_accepted pcb n' : tcp_backlog_accepted n pcb = Ok n' -> tcp_step n n'
| step_setprio pcb prio n' : tcp_setprio n pcb prio = Ok n' -> tcp_step n n'
| step_arg pcb arg n' : tcp_arg n pcb arg = Ok n' -> tcp_step n n'
| step_recv pcb f n' : tcp_recv n pcb f = Ok n' -> tcp_step n n'
| step_sent pcb f n' : tcp_sent n pcb f = Ok n' -> tcp_step n n'
| step_err pcb f n' : tcp_err n pcb f = Ok n' -> tcp_step n n'
| step_poll pcb f i n' : tcp_poll n pcb f i = Ok n' -> tcp_step n n'
| step_accept pcb f n' : tcp_accept n pcb f = Ok n' -> tcp_step n n'
| step_fasttmr fuel n' :
    tcp_fasttmr stale_flags custom_free callback_ok netif_output tcp_timer_needed fuel n = Ok n' -> tcp_step n n'
| step_txnow n' : tcp_txnow stale_flags custom_free callback_ok netif_output n = Ok n' -> tcp_step n n'
| step_addr_changed old new n' :
    tcp_netif_ip_addr_changed stale_flags custom_free callback_ok netif_output n old new = Ok n' -> tcp_step n n'
| step_rest n' : tcp n' = tcp n -> tcp_step n n'.

(** The initial state: nothing is allocated. *)
Definition tcp_initial n : Prop :=
  tcp_heap (tcp n) = ∅ /\ listen_heap (tcp n) = ∅ /\ all_pcbs n = [] /\ tcp_input_pcb (tcp n) = NULL
  /\ NoDup (tcp_pcb_pool (tcp n) ++ tcp_listen_pool (tcp n)) /\ NULL ∉ tcp_pcb_pool (tcp n) ++ tcp_listen_pool (tcp n).

(** The connections of [L] that still exist. *)
Definition still (L : gset Z) n : gset Z := L ∩ dom (tcp_heap (tcp n)).

(** The reachable states, with the connections that have been lost: a segment was processed,
    TF_CLOSED is set, and its connection still exists.  A reset does not come while data is
    refused: see [TcpExamples] for what happens then. *)
Inductive tcp_reach : gset Z -> net A W -> Prop :=
| reach_initial n : tcp_initial n -> tcp_reach ∅ n
| reach_step L n n' : tcp_reach L n -> tcp_step n n' -> tcp_reach (still L n') n'
| reach_input L n p n' :
    tcp_reach L n ->
    (has (flags_of n p) TCP_RST = true -> forall pcb t, tcp_heap (tcp n) !! pcb = Some t -> t_refused_data t = NULL) ->
    tcp_input stale_flags custom_free callback_ok netif_output tcp_timer_needed n p = Ok n' ->
    tcp_reach (still (unfreed n' (target n p) ∪ L) n') n'.

Lemma initial_ok n : tcp_initial n -> pcbs_ok ∅ n.
Proof.
  intros (E1 & E2 & E3 & E4 & Hnd & Hnull). unfold all_pcbs in E3. cbn in E3.
  apply app_eq_nil in E3 as [El E3]. apply app_eq_nil in E3 as [Eb E3]. apply app_eq_nil in E3 as [Ea E3]. apply app_eq_nil in E3 as [Et _].
  assert (Ep : places n = ∅) by (unfold places; by rewrite E1). assert (Els : listeners n = ∅) by (unfold listeners; by rewrite E2).
  apply NoDup_app in Hnd as (Hnd1 & Hnd2 & Hnd3). rewrite elem_of_app in Hnull.
  assert (Hm : forall q Q, members q [] (∅ : gmap Z (kind * bool * Z)) Q) by (intros q Q; split; [constructor|by intros p ?%elem_of_nil]).
  assert (Hu : forall l, NoDup l -> NULL ∉ l -> unused l ∅ ∅).
  { intros l Hl Hl0. split; [done|]. intros p Hp. split_and!; [by intros ->|apply lookup_empty..]. }
  unfold pcbs_ok, spots. rewrite El, Eb, Ea, Et, Ep, Els. split; cbn; try done.
  - split; [constructor|]. intros p. rewrite lookup_empty. split; [by intros ?%elem_of_nil|by intros []].
  - apply Hu; [done|]. tauto.
  - apply Hu; [done|]. tauto.
Qed.

Lemma initial_input n : tcp_initial n -> tcp_input_pcb (tcp n) = NULL.
Proof. intros (_ & _ & _ & E & _). exact E. Qed.

Context `{!WellBehaved A W}.
Hypothesis driver_ok : forall n nif p dest, holds (netif_output n nif p dest) (fun r => tcp (snd r) = tcp n).
Hypothesis timer_ok : forall n, holds (tcp_timer_needed n) (fun n' => tcp n' = tcp n).

Lemma good_ok L n (r : res (net A W)) n' : holds r (good L n) -> r = Ok n' -> good L n n'.
Proof. by intros Hr ->. Qed.
Lemma good_ok2 {X} L n (r : res (X * net A W)) x n' : holds r (fun r => good L n (snd r)) -> r = Ok (x, n') -> good L n n'.
Proof. by intros Hr ->. Qed.

Lemma step_good L n n' : pcbs_ok L n -> tcp_step n n' -> good L n n'.
Proof.
  intros Hn Hs. destruct Hs as
    [prio pcb n' E|pcb ip port err n' Hb E|pcb backlog lpcb err n' E|pcb ip port f err n' E|pcb err n' E|pcb rx tx err n' E|pcb n' E
    |pcb arg l fl err n' E|pcb err n' E|pcb l n' E|pcb n' E|pcb n' E|pcb prio n' E|pcb arg n' E|pcb f n' E|pcb f n' E|pcb f n' E
    |pcb f i n' E|pcb f n' E|fuel n' E|n' E|old new n' E|n' E].
  - eapply good_ok2; [|exact E]. eapply holds_weaken; [by apply alloc_ok|]. by intros r [Hg _].
  - eapply good_ok2; [by apply bind_ok|exact E].
  - eapply good_ok2; [by apply listen_ok|exact E].
  - eapply good_ok2; [by apply connect_ok|exact E].
  - eapply good_ok2; [by apply close_ok|exact E].
  - eapply good_ok2; [by apply shutdown_ok|exact E].
  - eapply good_ok; [by apply abandon_ok|exact E].
  - eapply good_ok2; [|exact E]. apply holds_good2; [done|]. eapply holds_weaken; [by apply tcp_write_kept|]. intros r Hk. by apply spots_kept.
  - eapply good_ok2; [|exact E]. apply holds_good2; [done|]. eapply holds_weaken; [by apply tcp_output_kept|]. intros r Hk. by apply spots_kept.
  - eapply good_ok; [|exact E]. apply holds_good; [done|by apply recved_spots].
  - eapply good_ok; [|exact E]. apply holds_good; [done|apply backlog_delayed_spots].
  - eapply good_ok; [|exact E]. apply holds_good; [done|apply backlog_accepted_spots].
  - eapply good_ok; [|exact E]. apply holds_good; [done|apply setprio_spots].
  - eapply good_ok; [|exact E]. apply holds_good; [done|apply arg_spots].
  - eapply good_ok; [|exact E]. apply holds_good; [done|apply recv_spots].
  - eapply good_ok; [|exact E]. apply holds_good; [done|apply sent_spots].
  - eapply good_ok; [|exact E]. apply holds_good; [done|apply err_spots].
  - eapply good_ok; [|exact E]. apply holds_good; [done|apply poll_spots].
  - eapply good_ok; [|exact E]. apply holds_good; [done|apply accept_spots].
  - eapply good_ok; [by apply fasttmr_ok|exact E].
  - eapply good_ok; [|exact E]. apply holds_good; [done|by apply txnow_spots].
  - eapply good_ok; [by apply addr_changed_ok|exact E].
  - apply good_spots; [by apply spots_tcp|done].
Qed.

Lemma still_ok L n : pcbs_ok L n -> pcbs_ok (still L n) n.
Proof.
  intros Hn. assert (E : still L n = L ∩ dom (v_places (spots n))) by (unfold still; cbn; unfold places; by rewrite dom_fmap_L).
  unfold pcbs_ok. rewrite E. by apply inv_restrict.
Qed.

Lemma reach_ok L n : tcp_reach L n -> pcbs_ok L n /\ tcp_input_pcb (tcp n) = NULL.
Proof.
  induction 1 as [n Hi|L n n' _ [Hn Ei] Hs|L n p n' _ [Hn Ei] Hrst E].
  - split; [by apply initial_ok|by apply initial_input].
  - destruct (step_good _ _ _ Hn Hs) as [(E & _) Hg]. split; [by apply still_ok|]. cbn in E. congruence.
  - pose proof (tcp_input_spec stale_flags custom_free callback_ok netif_output tcp_timer_needed driver_ok timer_ok L n p Hn Ei Hrst) as Hx.
    rewrite E in Hx. destruct Hx as [En Hg]. split; [by apply still_ok|done].
Qed.

(** C1: in every reachable state the lists of control blocks are as priv/tcp_priv.h says:
    every control block that is not CLOSED is on the list of its state, on one list only and
    once; those on [tcp_listen_pcbs] listen, those on [tcp_tw_pcbs] are in TIME-WAIT, those on
    [tcp_active_pcbs] are in one of the other states, all of them are allocated, and so is the
    listener that a connection refers to.  Reachable are the states that the calls of the
    interface, segments and the fast timer lead to from the initial one, in any order, provided
    that tcp_bind is called for control blocks that are not bound, that no segment with RST comes
    while a connection holds refused data, and that the callbacks keep the invariant, an accept
    function that reports success has not closed the connection, and the connected, sent and error
    functions leave a connection that [tcp_input] is about to free to it ([WellBehaved]).  Excepted
    are the connections [L] that [tcp_input] has lost because their receive function closed them;
    the slow timer is not among the steps.  What goes wrong in the cases left out is shown in [TcpExamples]. *)
Theorem tcp_axioms_hold L n : tcp_reach L n -> tcp_axioms L n.
Proof. intros Hr. destruct (reach_ok _ _ Hr). by apply pcbs_ok_axioms. Qed.

End Reach.
