(* ===== verification/TcpRfc.v ===== *)
(** * The state machine of a connection: tcp_process in lwip/src/core/tcp_in.c

    RFC 793 says how a segment that arrives moves a connection from state to state.  [rfc_next]
    is that diagram; what it is told of the segment is whether the segment resets, opens or
    acknowledges the opening of the connection, whether the end of the peer's stream has been
    reached, and whether everything this side has sent, its FIN included, is acknowledged.
    [tcp_process] follows the diagram but for the arc of a simultaneous open, and moves no other
    connection. *)

From S2P Require Import Prelude Ip4Addr Pbuf TcpData Net Ip4 IpFrame TcpBase TcpOut Tcp TcpRecv TcpIn TcpFrame TcpObs.

(** What the diagram is told. *)
Record seen := mk_seen {
  s_rst : bool;      (* RST *)
  s_syn : bool;      (* SYN *)
  s_ack : bool;      (* ACK *)
  s_opened : bool;   (* acknowledges the SYN of this side *)
  s_fin : bool;      (* the peer's FIN has been reached *)
  s_acked : bool     (* everything sent is acknowledged *)
}.

(** The diagram.  CLOSED, LISTEN and TIME_WAIT are handled elsewhere. *)
Definition rfc_next (e : seen) (s : tcp_state) : tcp_state :=
  if s_rst e then s
  else
    match s with
    | SYN_SENT =>
        if s_syn e then
          if s_opened e then ESTABLISHED else if s_ack e then SYN_SENT else SYN_RCVD
        else SYN_SENT
    | SYN_RCVD => if s_opened e then if s_fin e then CLOSE_WAIT else ESTABLISHED else SYN_RCVD
    | _ =>
        if s_syn e then s
        else
          match s with
          | ESTABLISHED => if s_fin e then CLOSE_WAIT else ESTABLISHED
          | FIN_WAIT_1 =>
              if s_fin e then if s_acked e then TIME_WAIT else CLOSING
              else if s_acked e then FIN_WAIT_2 else FIN_WAIT_1
          | FIN_WAIT_2 => if s_fin e then TIME_WAIT else FIN_WAIT_2
          | CLOSING => if s_acked e then TIME_WAIT else CLOSING
          | _ => s
          end
    end.

(** A SYN without an acknowledgement in SYN_SENT: both sides open the connection at once. *)
Definition simultaneous (e : seen) (s : tcp_state) : bool :=
  match s with SYN_SENT => negb (s_rst e) && s_syn e && negb (s_ack e) | _ => false end.

(** The diagram without the arc of a simultaneous open. *)
Definition next_state (e : seen) (s : tcp_state) : tcp_state := if simultaneous e s then s else rfc_next e s.

Lemma next_syn_sent e :
  s_rst e = false -> (s_opened e = true -> s_ack e = true) ->
  next_state e SYN_SENT = if s_syn e && s_opened e then ESTABLISHED else SYN_SENT.
Proof.
  intros Hr Ho. unfold next_state, simultaneous, rfc_next. rewrite Hr. destruct (s_syn e), (s_ack e), (s_opened e); try done.
  by specialize (Ho eq_refl).
Qed.

Lemma next_rst e s : s_rst e = true -> next_state e s = s.
Proof. intros Hr. unfold next_state, simultaneous, rfc_next. rewrite Hr. by destruct s. Qed.

Section Rfc.
Context {A W : Type} `{AllocOps A} `{FragPool A} `{TcpApp A W}.
Variable stale_flags : Z -> Z.
Variable custom_free : Z -> Z -> Pbuf.state A -> res (Pbuf.state A).
Variable callback_ok : bool.
Variable netif_output : net A W -> Z -> Z -> Z -> res (err_t * net A W).
Variable tcp_timer_needed : net A W -> res (net A W).
Implicit Types n : net A W.

(** The states of all connections. *)
Definition states n : gmap Z tcp_state := t_state <$> tcp_heap (tcp n).
Definition segm n : Z * Z := (i_flags (in_of n), i_ackno (in_of n)).
Definition sight n : gmap Z tcp_state * (Z * (Z * Z)) := (states n, (i_recv_flags (in_of n), segm n)).

Hypothesis driver_ok : forall n nif p dest, holds (netif_output n nif p dest) (fun r => tcp (snd r) = tcp n).
Hypothesis timer_ok : forall n, holds (tcp_timer_needed n) (fun n' => tcp n' = tcp n).
(** The callbacks [connected] and [accept] may send; they do not close a connection. *)
Hypothesis connected_ok : forall f n arg pcb err, holds (connected_fn f n arg pcb err) (fun r => sight (snd r) = sight n).
Hypothesis accept_ok : forall f n arg pcb err, holds (accept_fn f n arg pcb err) (fun r => sight (snd r) = sight n).

Local Abbreviation receive := (tcp_receive stale_flags custom_free callback_ok netif_output).
Local Abbreviation process := (tcp_process stale_flags custom_free callback_ok netif_output tcp_timer_needed).

(** ** [sight] is an observation *)

Lemma sight_kept n n' : kept n' = kept n -> sight n' = sight n.
Proof.
  intros E. assert (Ei : tcp_in_vars (tcp n') = tcp_in_vars (tcp n)) by (by apply (f_equal (fun x => x.1.2)) in E).
  assert (Eh : ident <$> tcp_heap (tcp n') = ident <$> tcp_heap (tcp n)) by (by apply (f_equal snd) in E).
  unfold sight, segm, states, in_of. rewrite Ei. f_equal.
  assert (X : forall h : gmap Z tcp_pcb, t_state <$> h = (fun x => x.1.1.1.1.1.1) <$> (ident <$> h)).
  { intros h. rewrite <- map_fmap_compose. by apply map_fmap_ext. }
  by rewrite !X, Eh.
Qed.

Lemma states_put n pcb t : states (put_tcp n pcb t) = <[pcb:=t_state t]> (states n).
Proof. unfold states, put_tcp. cbn. by rewrite fmap_insert. Qed.

Lemma states_at n pcb t : tcp_heap (tcp n) !! pcb = Some t -> states n !! pcb = Some (t_state t).
Proof. intros E. unfold states. by rewrite lookup_fmap, E. Qed.

Lemma sight_put n pcb t t' :
  tcp_heap (tcp n) !! pcb = Some t -> core t' = core t -> sight (put_tcp n pcb t') = sight n.
Proof.
  intros E Ec. unfold sight. rewrite states_put. cbn. injection Ec as -> _ _ _ _ _.
  by rewrite insert_id by (by apply states_at).
Qed.

Lemma sight_put_listen n l x y : listen_heap (tcp n) !! l = Some x -> sight (put_listen n l y) = sight n.
Proof. done. Qed.

Lemma sight_upd_in n f : calm f -> sight (upd_in n f) = sight n.
Proof. intros Hf. unfold sight, states. cbn. unfold segm. cbn. destruct (Hf (in_of n)) as (-> & -> & ->). done. Qed.

Lemma sight_tcp n n' : tcp n' = tcp n -> sight n' = sight n.
Proof. intros E. by apply sight_kept, kept_tcp. Qed.

Ltac by_sight := by eauto using sight_kept, sight_put, sight_put_listen, sight_upd_in.

Lemma advance_sight n pcb a b : holds (advance n pcb a b) (fun n' => sight n' = sight n).
Proof. apply advance_obs; by_sight. Qed.
Lemma fit_sight n pcb : holds (fit_to_wnd custom_free n pcb) (fun n' => sight n' = sight n).
Proof. apply fit_to_wnd_obs; by_sight. Qed.
Lemma overlap_sight n pcb : holds (ooseq_overlap custom_free n pcb) (fun n' => sight n' = sight n).
Proof. apply ooseq_overlap_obs; by_sight. Qed.
Lemma out_of_order_sight n pcb :
  holds (receive_out_of_order stale_flags custom_free callback_ok netif_output n pcb) (fun n' => sight n' = sight n).
Proof. apply out_of_order_obs; by_sight. Qed.
Lemma trim_front_sight n pcb : holds (trim_front n pcb) (fun n' => sight n' = sight n).
Proof. apply trim_front_obs; by_sight. Qed.
Lemma receive_ack_sight n pcb :
  holds (receive_ack stale_flags custom_free callback_ok netif_output n pcb) (fun n' => sight n' = sight n).
Proof. apply receive_ack_obs; by_sight. Qed.
Lemma parseopt_sight n pcb : holds (tcp_parseopt n pcb) (fun n' => sight n' = sight n).
Proof. apply parseopt_obs; by_sight. Qed.
Lemma ack_sight n pcb : holds (tcp_ack n pcb) (fun n' => sight n' = sight n).
Proof. apply ack_obs; by_sight. Qed.
Lemma purge_sight n pcb : holds (tcp_pcb_purge custom_free n pcb) (fun n' => sight n' = sight n).
Proof. apply purge_obs; by_sight. Qed.
Lemma accepted_sight n pcb : holds (tcp_backlog_accepted n pcb) (fun n' => sight n' = sight n).
Proof. apply backlog_accepted_obs; by_sight. Qed.
Lemma upd_sight n pcb f : (forall t, core (f t) = core t) -> holds (upd_tcp n pcb f) (fun n' => sight n' = sight n).
Proof. apply upd_obs; by_sight. Qed.
Lemma ack_now_sight n pcb : holds (tcp_ack_now n pcb) (fun n' => sight n' = sight n).
Proof. by apply upd_sight. Qed.

Hint Resolve advance_sight fit_sight overlap_sight out_of_order_sight trim_front_sight receive_ack_sight parseopt_sight
  ack_sight purge_sight accepted_sight ack_now_sight connected_ok accept_ok : tcp_frame.
Hint Extern 1 (holds (upd_tcp _ _ _) _) => (apply upd_sight; core_solve) : tcp_frame.

(** ** The end of the peer's stream *)

(** An established connection is closed by the peer. *)
Definition close_one (pcb : Z) (m : gmap Z tcp_state) : gmap Z tcp_state :=
  alter (fun s => if state_eqb s ESTABLISHED then CLOSE_WAIT else s) pcb m.

(** Nothing has happened, or the end has been reached and the connection may be closed. *)
Definition heard (pcb : Z) n n' : Prop :=
  sight n' = sight n
  \/ segm n' = segm n /\ got_fin n' = true
     /\ (states n' = states n \/ states n' = close_one pcb (states n)).

Lemma close_one_idem pcb m : close_one pcb (close_one pcb m) = close_one pcb m.
Proof.
  unfold close_one. apply map_eq. intros q. destruct (decide (q = pcb)) as [->|Hq].
  - rewrite !lookup_alter_eq. destruct (m !! pcb) as [[]|]; done.
  - by rewrite !lookup_alter_ne.
Qed.

Lemma heard_trans pcb n1 n2 n3 : heard pcb n1 n2 -> heard pcb n2 n3 -> heard pcb n1 n3.
Proof.
  unfold heard, sight, segm, got_fin. intros [E1|(F1 & G1 & S1)] [E2|(F2 & G2 & S2)].
  - left. congruence.
  - injection E1 as E1 _ Ef Ea. right. rewrite <- Ef, <- Ea, <- E1. done.
  - injection E2 as Es Er Ef Ea. right. rewrite Ef, Ea, Er, Es. done.
  - right. split_and!; [congruence|done|]. destruct S1 as [<-|E]; [done|]. destruct S2 as [->| ->]; [by right|].
    right. by rewrite E, close_one_idem.
Qed.

Lemma heard_sight pcb n1 n2 n3 : heard pcb n1 n2 -> sight n3 = sight n2 -> heard pcb n1 n3.
Proof. intros Hh E. eapply heard_trans; [exact Hh|by left]. Qed.

Lemma heard_fin pcb n1 n2 : heard pcb n1 n2 -> heard pcb n1 (upd_in n2 got_fin_flag).
Proof.
  intros Hh. eapply heard_trans; [exact Hh|]. right. split_and!; [done| |by left].
  unfold got_fin. cbn. by apply has_raised.
Qed.

Lemma close_put n pcb t :
  tcp_heap (tcp n) !! pcb = Some t ->
  states (put_tcp n pcb (if state_eqb (t_state t) ESTABLISHED then set_state CLOSE_WAIT t else t)) = close_one pcb (states n).
Proof.
  intros E. rewrite states_put. apply map_eq. intros q. unfold close_one. destruct (decide (q = pcb)) as [->|Hq].
  - rewrite lookup_insert_eq, lookup_alter_eq, (states_at _ _ _ E). cbn. by destruct (state_eqb _ _).
  - by rewrite lookup_insert_ne, lookup_alter_ne.
Qed.

Lemma heard_close n1 n2 pcb :
  heard pcb n1 n2 ->
  holds (upd_tcp (upd_in n2 got_fin_flag) pcb (fun t => if state_eqb (t_state t) ESTABLISHED then set_state CLOSE_WAIT t else t))
    (heard pcb n1).
Proof.
  intros Hh. unfold upd_tcp. tstep. cbn [holds]. eapply heard_trans; [by apply heard_fin|]. right. split_and!; [done| |].
  - unfold got_fin. cbn. by apply has_raised.
  - right. by apply close_put.
Qed.

(** [sight] along the steps taken. *)
Ltac sight_solve :=
  cbn [fst snd] in *;
  repeat
    (cbv beta zeta;
     lazymatch goal with
     | |- sight ?m = sight ?m => reflexivity
     | |- sight (with_mem _ ?m) = _ => transitivity (sight m); [by apply sight_tcp|]
     | |- sight (with_packets _ ?m) = _ => transitivity (sight m); [by apply sight_tcp|]
     | |- sight (upd_in ?m ?f) = _ => rewrite (sight_upd_in m f) by flags_solve
     | |- sight (put_tcp ?m ?p ?t) = _ => erewrite (sight_put m p _ t) by first [at_solve'|core_solve]
     | |- sight (if ?b then _ else _) = _ => destruct b
     | E : sight ?m = sight _ |- sight ?m = _ => rewrite E; clear E
     | E : kept ?m = kept _ |- sight ?m = _ => rewrite (sight_kept _ _ E); clear E
     | E : tcp ?m = tcp _ |- sight ?m = _ => rewrite (sight_tcp _ _ E); clear E
     end).
Ltac heard_solve := eapply heard_sight; [eassumption|sight_solve].

Lemma ooseq_deliver_heard pcb n0 l : forall n, heard pcb n0 n -> holds (ooseq_deliver custom_free n pcb l) (heard pcb n0).
Proof.
  induction l as [|sg l IH]; intros n Hn; cbn [ooseq_deliver]; [done|].
  tstep. tstep; [|done]. tstep.
  match goal with |- holds (res_bind (pbuf_at ?m _) _) _ => assert (heard pcb n0 m) by heard_solve end.
  tstep.
  eapply (holds_call _ _ (fun r => heard pcb n0 (snd r))).
  { repeat tstep; cbn [holds snd]; heard_solve. }
  intros [sg' n2] H2'. cbn [snd] in H2'.
  eapply (holds_call _ _ (heard pcb n0)).
  { tstep; [by apply heard_close|done]. }
  intros n3 Hn3. do 2 tstep. apply IH. heard_solve.
Qed.

Lemma in_order_heard n pcb : holds (receive_in_order custom_free n pcb) (heard pcb n).
Proof.
  unfold receive_in_order. do 4 tstep.
  match goal with |- holds (res_bind (tcp_at ?m _) _) _ => assert (Hm : heard pcb n m) end.
  { match goal with |- heard _ _ (if _ then _ else ?m) => assert (heard pcb n m) by (left; sight_solve) end.
    destruct (rseg_fin _ _); [by apply heard_fin|done]. }
  tstep. eapply holds_call; [apply ooseq_deliver_heard; exact Hm|]. intros n1 Hn1.
  eapply holds_weaken; [apply ack_sight|]. cbv beta. intros n2 E. by eapply heard_sight.
Qed.

Lemma receive_data_heard n pcb : holds (receive_data stale_flags custom_free callback_ok netif_output n pcb) (heard pcb n).
Proof.
  unfold receive_data. tstep. eapply (holds_call _ _ (fun n' => sight n' = sight n)).
  { repeat tstep; cbn [holds]; try reflexivity; auto with tcp_frame. }
  intros n1 E1. tstep; [tstep|].
  - eapply holds_weaken; [apply in_order_heard|]. intros n2. apply heard_trans. by left.
  - eapply holds_weaken; [apply out_of_order_sight|]. cbv beta. intros n2 E2. left. congruence.
  - tstep. tstep. left. sight_solve.
Qed.

(** [tcp_receive] looks at the data in three states only. *)
Lemma receive_heard n pcb t :
  tcp_heap (tcp n) !! pcb = Some t ->
  holds (receive n pcb) (fun n' =>
    heard pcb n n' /\ ((state_num CLOSE_WAIT <=? state_num (t_state t)) = true -> sight n' = sight n)).
Proof.
  intros Ht. unfold tcp_receive. tstep. tstep.
  eapply (holds_call _ _ (fun n' => sight n' = sight n)). { tstep; [apply receive_ack_sight|done]. }
  intros n1 E1. unfold tcp_at at 1. apply holds_deref. intros t1 H1t. assert (Es : t_state t1 = t_state t).
  { apply states_at in Ht. assert (X := states_at _ _ _ H1t). injection E1 as E1 _ _ _. rewrite E1 in X. congruence. }
  tstep.
  - apply andb_true_iff in Heqb as [_ Hlt]. rewrite Es in Hlt. eapply holds_weaken; [apply receive_data_heard|].
    intros n2 Hh. split; [by eapply heard_trans; [left; exact E1|]|]. lia.
  - tstep; [|split; [by left|done]]. eapply holds_weaken; [apply ack_now_sight|]. cbv beta. intros n2 E2.
    assert (sight n2 = sight n) by congruence. split; [by left|done].
Qed.

(** ** What this side has sent *)

(** The static variables, and the numbers of a control block that tell what has been sent. *)
Definition sent n (pcb : Z) := (in_of n, (fun t => (t_snd_nxt t, t_lastack t)) <$> tcp_heap (tcp n) !! pcb).

Lemma sent_put n pcb t t' :
  tcp_heap (tcp n) !! pcb = Some t -> t_snd_nxt t' = t_snd_nxt t -> t_lastack t' = t_lastack t -> sent (put_tcp n pcb t') pcb = sent n pcb.
Proof. intros E E1 E2. unfold sent, put_tcp, in_of. cbn. rewrite lookup_insert_eq, E. cbn. by rewrite E1, E2. Qed.

Lemma sent_upd n pcb f :
  (forall t, t_snd_nxt (f t) = t_snd_nxt t /\ t_lastack (f t) = t_lastack t) ->
  holds (upd_tcp n pcb f) (fun n' => sent n' pcb = sent n pcb).
Proof. intros Hf. unfold upd_tcp. tstep. cbn [holds]. eapply sent_put; [done|apply Hf..]. Qed.

Lemma sent_tcp n n' pcb : tcp n' = tcp n -> sent n' pcb = sent n pcb.
Proof. intros E. unfold sent, in_of. by rewrite E. Qed.

Lemma segs_free_sent l pcb : forall n, holds (tcp_segs_free custom_free n l) (fun n' => sent n' pcb = sent n pcb).
Proof.
  induction l as [|sg l IH]; intros n; cbn [tcp_segs_free]; [done|].
  eapply (holds_call _ _ (fun n' => sent n' pcb = sent n pcb)); [|intros n1 E; rewrite <- E; apply IH].
  unfold tcp_seg_free. tstep; [|done]. eapply holds_call; [apply free_kept|]. cbv beta. intros n1 E.
  by apply (sent_tcp _ _ pcb) in E.
Qed.

Lemma purge_sent n pcb :
  holds (tcp_pcb_purge custom_free n pcb) (fun n' =>
    sent n' pcb = sent n pcb
    /\ forall t, tcp_heap (tcp n) !! pcb = Some t -> t_state t <> CLOSED -> t_state t <> TIME_WAIT -> t_state t <> LISTEN ->
        exists t', tcp_heap (tcp n') !! pcb = Some t' /\ t_unsent t' = []).
Proof.
  unfold tcp_pcb_purge. tstep. tstep.
  { cbn [holds]. split; [done|]. intros t Ht N1 N2 N3. simplify_eq. exfalso.
    rewrite !orb_true_iff in Heqb. unfold state_eqb in Heqb. rewrite !bool_decide_eq_true in Heqb. destruct Heqb as [[?|?]|?]; congruence. }
  assert (X : forall m, sent m pcb = sent n pcb -> holds (upd_tcp m pcb (fun t => set_unsent_oversize 0 (set_unacked [] (set_unsent [] t))))
    (fun n' => sent n' pcb = sent n pcb /\ exists t', tcp_heap (tcp n') !! pcb = Some t' /\ t_unsent t' = [])).
  { intros m E. unfold upd_tcp. tstep. cbn [holds]. split; [erewrite sent_put; [done..|]; done|].
    eexists. split; [apply lookup_insert_eq|done]. }
  eapply (holds_call _ _ (fun n' => sent n' pcb = sent n pcb)).
  { unfold tcp_backlog_accepted. tstep. tstep; [done|]. tstep; [done|]. do 2 tstep. eapply holds_weaken; [by apply sent_upd|done]. }
  intros n1 E1. eapply (holds_call _ _ (fun n' => sent n' pcb = sent n pcb)).
  { tstep; [|done]. eapply holds_call; [apply free_kept|]. cbv beta. intros n2 E2. 
    eapply holds_weaken; [by apply sent_upd|]. cbv beta. intros n3 E3. rewrite E3, (sent_tcp _ _ _ E2). done. }
  intros n2 E2. eapply holds_call; [apply (segs_free_sent _ pcb)|]. cbv beta. intros n3 E3.
  eapply holds_call; [by apply sent_upd|]. cbv beta. intros n4 E4.
  eapply holds_call; [apply (segs_free_sent _ pcb)|]. cbv beta. intros n5 E5.
  eapply holds_call; [apply (segs_free_sent _ pcb)|]. cbv beta. intros n6 E6.
  eapply holds_weaken; [apply X; congruence|]. cbv beta. intros n7 [E7 T7]. by split.
Qed.

(** Parsing the options changes the index and the maximum segment size only. *)
Definition parsed n (pcb : Z) := (set_i_optidx 0 (in_of n), snd (sent n pcb)).

Lemma getoptbyte_parsed n pcb b n' : tcp_getoptbyte n = (b, n') -> parsed n' pcb = parsed n pcb.
Proof. unfold tcp_getoptbyte. cbv zeta. destruct (_ || _); by intros [= _ <-]. Qed.

Ltac optbyte pcb :=
  lazymatch goal with
  | |- holds (let (_, _) := tcp_getoptbyte ?m in _) _ =>
      destruct (tcp_getoptbyte m) as [? ?] eqn:E; apply (getoptbyte_parsed _ pcb) in E
  end.

Lemma parseopt_loop_parsed pcb fuel : forall n, holds (parseopt_loop fuel n pcb) (fun n' => parsed n' pcb = parsed n pcb).
Proof.
  induction fuel as [|fuel IH]; intros n; cbn [parseopt_loop]; (tstep; [|done]); [done|].
  optbyte pcb. tstep; [exact E|]. tstep; [rewrite <- E; apply IH|]. rewrite <- E. clear E. tstep.
  - optbyte pcb. tstep; [exact E|]. rewrite <- E. clear E. do 2 (optbyte pcb; rewrite <- E; clear E).
    unfold upd_tcp. do 2 tstep. eapply holds_weaken; [apply IH|]. intros n5 ->. unfold parsed. by erewrite sent_put.
  - optbyte pcb. tstep; [exact E|]. rewrite <- E. eapply holds_weaken; [apply IH|done].
Qed.

Lemma parseopt_parsed n pcb : holds (tcp_parseopt n pcb) (fun n' => parsed n' pcb = parsed n pcb).
Proof. unfold tcp_parseopt. tstep; [|done]. eapply holds_weaken; [apply parseopt_loop_parsed|done]. Qed.

(** ** Following the diagram *)

(** The segment acknowledges the SYN of this side. *)
Definition opened n (t : tcp_pcb) : bool :=
  has (i_flags (in_of n)) TCP_ACK
  && match t_state t with
     | SYN_SENT => i_ackno (in_of n) =? u32 (t_lastack t + 1)
     | SYN_RCVD => TCP_SEQ_BETWEEN (i_ackno (in_of n)) (u32 (t_lastack t + 1)) (t_snd_nxt t)
     | _ => false
     end.

(** What the code asks, when it asks it. *)
Definition acked n (pcb : Z) : bool := match all_acked n pcb with Ok b => b | Fault _ => false end.

(** The segment that arrived in [n] acknowledges everything this side has sent, and when it has been
    processed nothing is left to be sent. *)
Definition acked_by n n' (pcb : Z) : bool :=
  match tcp_heap (tcp n') !! pcb with
  | Some t => has (i_flags (in_of n)) TCP_ACK && (i_ackno (in_of n) =? t_snd_nxt t) && is_nil (t_unsent t)
  | None => false
  end.

Lemma acked_by_eq n n' pcb : segm n' = segm n -> acked_by n n' pcb = acked n' pcb.
Proof.
  intros E. injection E as Ef Ea. unfold acked_by, acked, all_acked, tcp_at, deref.
  destruct (tcp_heap (tcp n') !! pcb); [|done]. cbn [res_bind]. by rewrite <- Ef, <- Ea.
Qed.

Definition seen_of n (t : tcp_pcb) n' (pcb : Z) : seen := {|
  s_rst := has (i_flags (in_of n)) TCP_RST;
  s_syn := has (i_flags (in_of n)) TCP_SYN;
  s_ack := has (i_flags (in_of n)) TCP_ACK;
  s_opened := opened n t;
  s_fin := got_fin n';
  s_acked := acked_by n n' pcb
|}.

Lemma acked_val n pcb t :
  tcp_heap (tcp n) !! pcb = Some t ->
  acked n pcb = has (i_flags (in_of n)) TCP_ACK && (i_ackno (in_of n) =? t_snd_nxt t) && is_nil (t_unsent t).
Proof. intros E. unfold acked, all_acked, tcp_at, deref. by rewrite E. Qed.

Lemma acked_put n pcb t t' :
  tcp_heap (tcp n) !! pcb = Some t -> t_snd_nxt t' = t_snd_nxt t -> t_unsent t' = t_unsent t -> acked (put_tcp n pcb t') pcb = acked n pcb.
Proof.
  intros E E1 E2. rewrite (acked_val _ _ _ E), (acked_val (put_tcp n pcb t') pcb t'), E1, E2; [done|]. apply lookup_insert_eq.
Qed.

Lemma acked_upd n pcb f :
  (forall t, t_snd_nxt (f t) = t_snd_nxt t /\ t_unsent (f t) = t_unsent t) ->
  holds (upd_tcp n pcb f) (fun n' => acked n' pcb = acked n pcb /\ in_of n' = in_of n).
Proof. intros Hf. unfold upd_tcp. tstep. cbn [holds]. split; [eapply acked_put; [done|apply Hf..]|done]. Qed.

Lemma set_state_states n pcb st :
  holds (upd_tcp n pcb (set_state st)) (fun n' => states n' = <[pcb:=st]> (states n)).
Proof. unfold upd_tcp. tstep. cbn [holds]. by rewrite states_put. Qed.

(** The acknowledgement of the peer's FIN, and the change of state. *)
Lemma on_fin_spec n pcb st :
  holds (on_fin n pcb st) (fun n' => states n' = <[pcb:=st]> (states n) /\ acked n' pcb = acked n pcb /\ in_of n' = in_of n).
Proof.
  unfold on_fin, tcp_ack_now.
  eapply holds_call; [apply holds_both; [by apply upd_sight|by apply acked_upd]|]. cbv beta. intros n1 (E1 & A1 & I1).
  eapply holds_weaken; [apply holds_both; [apply set_state_states|by apply acked_upd]|]. cbv beta. intros n2 (E2 & A2 & I2).
  injection E1 as E1 _ _ _. rewrite E2, E1, A2, I2. done.
Qed.

Lemma time_wait_spec n pcb t :
  tcp_heap (tcp n) !! pcb = Some t -> t_state t <> CLOSED -> t_state t <> TIME_WAIT -> t_state t <> LISTEN ->
  holds (enter_time_wait custom_free tcp_timer_needed n pcb) (fun n' =>
    states n' = <[pcb:=TIME_WAIT]> (states n) /\ (acked n pcb = true -> acked n' pcb = true) /\ in_of n' = in_of n).
Proof.
  intros Ht N1 N2 N3. unfold enter_time_wait.
  eapply holds_call; [apply holds_both; [apply purge_sight|apply purge_sent]|]. cbv beta. intros n1 (E1 & S1 & U1).
  destruct (U1 t Ht N1 N2 N3) as (t1 & Ht1 & Eu). injection E1 as E1 _ _ _.
  assert (X : (acked n pcb = true -> acked n1 pcb = true) /\ in_of n1 = in_of n).
  { unfold sent in S1. rewrite Ht, Ht1 in S1. cbn in S1. injection S1 as Ei En _. split; [|done].
    rewrite (acked_val _ _ _ Ht), (acked_val _ _ _ Ht1), En, Eu, Ei. cbn [is_nil]. rewrite andb_true_r. by intros [? _]%andb_true_iff. }
  unfold upd_tcp, tcp_at, deref. change (tcp_heap (tcp (TCP_RMV_ACTIVE n1 pcb)) !! pcb) with (tcp_heap (tcp n1) !! pcb).
  rewrite Ht1. cbn [res_bind]. unfold TCP_REG. eapply holds_weaken; [apply timer_ok|]. cbv beta. intros n2 E2.
  assert (E3 : tcp_heap (tcp n2) = <[pcb:=set_state TIME_WAIT t1]> (tcp_heap (tcp n1)) /\ in_of n2 = in_of n1).
  { unfold in_of. by rewrite E2. }
  destruct E3 as [E3 I3]. split_and!.
  - rewrite <- E1. unfold states. rewrite E3, fmap_insert. done.
  - intros Ha. apply X in Ha. rewrite (acked_val _ _ _ Ht1) in Ha. erewrite acked_val by (rewrite E3; apply lookup_insert_eq). by rewrite I3.
  - rewrite I3. apply X.
Qed.

Lemma insert_close pcb st m : <[pcb:=st]> (close_one pcb m) = <[pcb:=st]> m.
Proof. apply map_eq. intros q. unfold close_one. destruct (decide (q = pcb)) as [->|Hq]; [by rewrite !lookup_insert_eq|]. by rewrite !lookup_insert_ne, lookup_alter_ne. Qed.

Lemma all_acked_spec n pcb : holds (all_acked n pcb) (fun b => b = acked n pcb).
Proof. unfold acked. by destruct (all_acked n pcb). Qed.

Lemma state_lookup n pcb st : states n !! pcb = Some st -> exists t, tcp_heap (tcp n) !! pcb = Some t /\ t_state t = st.
Proof. unfold states. rewrite lookup_fmap. destruct (tcp_heap (tcp n) !! pcb) as [t|]; [|done]. intros [= <-]. by exists t. Qed.

(** What [tcp_receive] leaves for the state machine. *)
Lemma receive_spec n pcb t :
  tcp_heap (tcp n) !! pcb = Some t -> got_fin n = false ->
  holds (receive n pcb) (fun n1 =>
    segm n1 = segm n
    /\ (forall st, <[pcb:=st]> (states n1) = <[pcb:=st]> (states n))
    /\ (got_fin n1 = false -> states n1 = <[pcb:=t_state t]> (states n))
    /\ (t_state t <> ESTABLISHED -> exists t1, tcp_heap (tcp n1) !! pcb = Some t1 /\ t_state t1 = t_state t)
    /\ ((state_num CLOSE_WAIT <=? state_num (t_state t)) = true -> sight n1 = sight n)).
Proof.
  intros Ht Hf. eapply holds_weaken; [by apply receive_heard|]. cbv beta. intros n1 [Hh Hs].
  assert (Es := states_at _ _ _ Ht).
  assert (L : forall st, states n1 !! pcb = Some st -> exists t1, tcp_heap (tcp n1) !! pcb = Some t1 /\ t_state t1 = st).
  { apply state_lookup. }
  destruct Hh as [E|(Ef & Eg & [E|E])].
  - assert (Em : segm n1 = segm n) by exact (f_equal (fun x => x.2.2) E). injection E as E Er _ _. rewrite E in L |- *. split_and!; auto. intros _. by rewrite insert_id.
  - rewrite E in L |- *. split_and!; auto; congruence.
  - rewrite E in L |- *. split_and!; auto; [intros st; apply insert_close|congruence|].
    intros Hne. apply L. unfold close_one. rewrite lookup_alter_eq, Es. cbn. unfold state_eqb. by rewrite (bool_decide_eq_false_2 _ Hne).
Qed.

(** The connection is opened. *)
Lemma sight_weaken {X} (r : res X) (f : X -> net A W) n n0 Q :
  holds r (fun x => sight (f x) = sight n) -> sight n = sight n0 -> (forall x, sight (f x) = sight n0 -> Q x) -> holds r Q.
Proof. intros Hr E HQ. eapply holds_weaken; [exact Hr|]. cbv beta. intros x Ex. apply HQ. congruence. Qed.

Lemma free_syn_sight n pcb : holds (free_syn custom_free n pcb) (fun n' => sight n' = sight n).
Proof.
  unfold free_syn. do 2 tstep. eapply (holds_call _ _ (fun r => core r.2 = core v)).
  { destruct (t_unacked _); [destruct (t_unsent _)|]; cbn [holds snd]; done. }
  intros [sg t] Ec. cbn [snd] in Ec. eapply holds_call; [apply seg_free_kept|]. cbv beta. intros n1 E1.
  eapply holds_weaken; [apply upd_sight; core_solve|]. cbv beta. intros n2 E2. rewrite E2. apply sight_kept in E1. rewrite E1. by eapply sight_put.
Qed.

Lemma connected_sight n pcb err : holds (TCP_EVENT_CONNECTED n pcb err) (fun r => sight r.2 = sight n).
Proof. unfold TCP_EVENT_CONNECTED. tstep. tstep; [apply connected_ok|done]. Qed.

Lemma rst_reply_sight n : holds (rst_reply stale_flags custom_free callback_ok netif_output n) (fun n' => sight n' = sight n).
Proof. eapply holds_weaken; [by apply rst_kept|]. cbv beta. intros n'. apply sight_tcp. Qed.
Hint Resolve free_syn_sight connected_sight rst_reply_sight : tcp_frame.

Lemma syn_sent_spec n pcb t :
  tcp_heap (tcp n) !! pcb = Some t -> t_state t = SYN_SENT -> has (i_flags (in_of n)) TCP_RST = false ->
  holds (process_syn_sent stale_flags custom_free callback_ok netif_output n pcb) (fun r =>
    r.1 <> ERR_RST /\ (r.1 = ERR_OK -> states r.2 = <[pcb:=next_state (seen_of n t r.2 pcb) SYN_SENT]> (states n))).
Proof.
  intros Ht Es Hr. unfold process_syn_sent, tcp_at at 1, deref. rewrite Ht. cbn [res_bind].
  assert (En : forall n', next_state (seen_of n t n' pcb) SYN_SENT
                         = if has (i_flags (in_of n)) TCP_SYN && opened n t then ESTABLISHED else SYN_SENT).
  { intros n'. apply next_syn_sent; [done|]. cbn [seen_of s_opened s_ack]. unfold opened. by intros [? _]%andb_true_iff. }
  apply (holds_weaken _ (fun r => r.1 <> ERR_RST /\ (r.1 = ERR_OK -> states r.2
    = <[pcb:=if has (i_flags (in_of n)) TCP_SYN && opened n t then ESTABLISHED else SYN_SENT]> (states n))));
    [|intros r; by rewrite En].
  clear En. unfold opened. rewrite Es.
  assert (Hstay : forall n', sight n' = sight n -> states n' = <[pcb:=SYN_SENT]> (states n)).
  { intros n' E. injection E as -> _ _ _. rewrite insert_id; [done|]. by rewrite (states_at _ _ _ Ht), Es. }
  destruct (has (i_flags (in_of n)) TCP_ACK); cbn [andb].
  2: { split; [done|]. intros _. rewrite andb_false_r. by apply Hstay. }
  destruct (has (i_flags (in_of n)) TCP_SYN && _) eqn:Eo.
  - eapply holds_call; [apply eff_mss_kept|]. intros [mss n1] E1. cbn [snd] in E1.
    match goal with |- holds (res_bind (free_syn _ ?m _) _) _ =>
      set (m0 := m); assert (E0 : states m0 = <[pcb:=ESTABLISHED]> (states n)) end.
    { unfold m0. rewrite states_put. unfold states. by rewrite E1. }
    clearbody m0. do 3 tstep. tstep; [by split|]. tstep. split; [done|]. intros _. cbn [snd] in *. rewrite <- E0.
    enough (E : sight x1 = sight m0) by (by injection E). sight_solve.
  - do 3 tstep. split; [done|]. intros _. apply Hstay. cbn [snd]. sight_solve.
Qed.

Lemma accept_sight n l pcb arg :
  holds (TCP_EVENT_ACCEPT stale_flags custom_free callback_ok netif_output n l pcb arg ERR_OK) (fun r =>
    r.1 = ERR_OK -> sight r.2 = sight n).
Proof.
  unfold TCP_EVENT_ACCEPT, tcp_accept_null. tstep; [done|]. tstep. tstep; [done|]. tstep; [by tstep|].
  eapply holds_weaken; [apply accept_ok|]. by cbv beta.
Qed.

Lemma syn_rcvd_spec n pcb t :
  tcp_heap (tcp n) !! pcb = Some t -> t_state t = SYN_RCVD -> has (i_flags (in_of n)) TCP_RST = false -> got_fin n = false ->
  holds (process_syn_rcvd stale_flags custom_free callback_ok netif_output n pcb) (fun r =>
    r.1 <> ERR_RST /\ (r.1 = ERR_OK -> states r.2 = <[pcb:=next_state (seen_of n t r.2 pcb) SYN_RCVD]> (states n))).
Proof.
  intros Ht Es Hr Hf. unfold process_syn_rcvd, tcp_at at 1, deref. rewrite Ht. cbn [res_bind].
  unfold next_state, simultaneous, rfc_next, seen_of, opened. cbn [s_rst s_syn s_ack s_opened s_fin]. rewrite Es, Hr.
  assert (Hstay : forall n', sight n' = sight n -> states n' = <[pcb:=SYN_RCVD]> (states n)).
  { intros n' E. injection E as -> _ _ _. rewrite insert_id; [done|]. by rewrite (states_at _ _ _ Ht), Es. }
  destruct (has (i_flags (in_of n)) TCP_ACK); cbn [andb].
  2: { repeat tstep; (split; [done|]); intros _; apply Hstay; cbn [snd]; sight_solve. }
  destruct (TCP_SEQ_BETWEEN _ _ _).
  2: { repeat tstep; (split; [done|]); intros _; apply Hstay; cbn [snd]; sight_solve. }
  assert (Hput : sight (put_tcp n pcb (set_state ESTABLISHED t)) = (<[pcb:=ESTABLISHED]> (states n), snd (sight n))).
  { unfold sight. by rewrite states_put. }
  assert (Hlook : tcp_heap (tcp (put_tcp n pcb (set_state ESTABLISHED t))) !! pcb = Some (set_state ESTABLISHED t)) by apply lookup_insert_eq.
  set (m := put_tcp n pcb (set_state ESTABLISHED t)) in *. clearbody m.
  eapply (holds_call _ _ (fun r => r.1 = ERR_OK -> sight r.2 = sight m)).
  { tstep; [done|]. do 2 tstep. eapply holds_call; [apply accepted_sight|]. cbv beta. intros n1 E1.
    eapply holds_weaken; [apply accept_sight|]. cbv beta. intros r Hs Hok. rewrite <- E1. by apply Hs. }
  intros [err n1] E1. cbn [fst snd] in E1. destruct (decide (err = ERR_OK)) as [->|Hne].
  2: { rewrite bool_decide_eq_false_2 by done. cbn [negb]. repeat tstep; by split. }
  specialize (E1 eq_refl). rewrite bool_decide_eq_true_2 by done. cbn [negb].
  rewrite Hput in E1. injection E1 as E1 Er1 _ _.
  destruct (state_lookup n1 pcb ESTABLISHED) as (t1 & Ht1 & Et1); [by rewrite E1, lookup_insert_eq|].
  eapply holds_call; [apply (receive_spec _ _ _ Ht1); by rewrite <- Hf; unfold got_fin; rewrite Er1|].
  cbv beta. rewrite Et1. intros n2 (F2 & S2 & S2' & _). tstep.
  match goal with E : sight ?x = sight _ |- _ => rename E into E3, x into n3 end.
  assert (E4 : sight n3 = sight n2).
  { rewrite E3. apply sight_upd_in. intros i. cbn. by destruct (negb _). }
  injection E4 as E4 Er4 _ _. assert (G4 : got_fin n3 = got_fin n2) by (unfold got_fin; by rewrite Er4).
  assert (S : forall st, <[pcb:=st]> (states n3) = <[pcb:=st]> (states n)).
  { intros st. by rewrite E4, S2, E1, insert_insert_eq. }
  destruct (got_fin n3) eqn:G3.
  - eapply holds_call; [apply on_fin_spec|]. cbv beta. intros n5 (E5 & _ & I5). split; [done|]. intros _. cbn [snd fst].
    unfold got_fin in *. by rewrite I5, G3, E5, S.
  - cbn [res_bind holds fst snd]. split; [done|]. intros _. rewrite G3, E4, S2' by (by rewrite <- G4). by rewrite E1, insert_insert_eq.
Qed.

(** The last steps of a connection, after [tcp_receive]. *)
Lemma ack_time_wait_spec n pcb t :
  tcp_heap (tcp n) !! pcb = Some t -> t_state t <> CLOSED -> t_state t <> TIME_WAIT -> t_state t <> LISTEN ->
  holds (let* n := tcp_ack_now n pcb in enter_time_wait custom_free tcp_timer_needed n pcb) (fun n' =>
    states n' = <[pcb:=TIME_WAIT]> (states n) /\ (acked n pcb = true -> acked n' pcb = true) /\ in_of n' = in_of n).
Proof.
  intros Ht N1 N2 N3. unfold tcp_ack_now.
  eapply holds_call; [apply holds_both; [by apply upd_sight|by apply acked_upd]|]. cbv beta. intros n1 (E1 & A1 & I1).
  injection E1 as E1 _ _ _. destruct (state_lookup n1 pcb (t_state t)) as (t1 & Ht1 & Es1); [rewrite E1; by apply states_at|].
  rewrite <- Es1 in N1, N2, N3. rewrite <- A1, <- I1, <- E1. by apply (time_wait_spec n1 pcb t1).
Qed.

Lemma end_of_stream_spec n pcb st :
  got_fin n = true ->
  holds (let* n := on_fin n pcb st in Ok (ERR_OK, n)) (fun r =>
    r.1 = ERR_OK /\ states r.2 = <[pcb:=st]> (states n) /\ got_fin r.2 = true /\ acked r.2 pcb = acked n pcb /\ segm r.2 = segm n).
Proof.
  intros G. eapply holds_call; [apply on_fin_spec|]. cbv beta. intros n2 (E2 & A2 & I2). cbn [holds fst snd].
  unfold got_fin, segm in *. by rewrite I2.
Qed.

Lemma fin_wait_1_spec n pcb t :
  tcp_heap (tcp n) !! pcb = Some t -> t_state t = FIN_WAIT_1 ->
  holds (let* acked := all_acked n pcb in
         let* n :=
           if got_fin n then
             if (acked : bool) then let* n := tcp_ack_now n pcb in enter_time_wait custom_free tcp_timer_needed n pcb
             else on_fin n pcb CLOSING
           else if (acked : bool) then upd_tcp n pcb (set_state FIN_WAIT_2) else Ok n in
         Ok (ERR_OK, n)) (fun r =>
    r.1 = ERR_OK /\ got_fin r.2 = got_fin n /\ acked r.2 pcb = acked n pcb /\ segm r.2 = segm n
    /\ states r.2 = <[pcb:=if got_fin n then if acked n pcb then TIME_WAIT else CLOSING
                           else if acked n pcb then FIN_WAIT_2 else FIN_WAIT_1]> (states n)).
Proof.
  intros Ht Es. eapply holds_call; [apply all_acked_spec|]. cbv beta. intros b ->. destruct (got_fin n) eqn:G.
  - destruct (acked n pcb) eqn:Ha.
    + eapply holds_call; [apply (ack_time_wait_spec n pcb t); [done|congruence..]|]. cbv beta. intros n2 (E2 & A2 & I2).
      cbn [holds fst snd]. unfold got_fin, segm in *. rewrite I2. auto.
    + eapply holds_weaken; [by apply end_of_stream_spec|]. cbv beta. intros r (E1 & E2 & E3 & E4 & E5). by rewrite E4.
  - destruct (acked n pcb) eqn:Ha.
    + eapply holds_call; [apply holds_both; [apply set_state_states|by apply acked_upd]|]. cbv beta. intros n2 (E2 & A2 & I2).
      cbn [holds fst snd]. unfold got_fin, segm in *. by rewrite I2, A2.
    + cbn [res_bind holds fst snd]. split_and!; [done..|]. symmetry. apply insert_id. by rewrite (states_at _ _ _ Ht), Es.
Qed.

(** What holds of the result of [tcp_process]. *)
Definition follows n (t : tcp_pcb) (pcb : Z) (r : err_t * net A W) : Prop :=
  r.1 <> ERR_RST
  /\ (r.1 = ERR_OK -> states r.2 = <[pcb:=next_state (seen_of n t r.2 pcb) (t_state t)]> (states n))
  /\ (t_state t = LAST_ACK -> has (i_flags (in_of n)) TCP_SYN = false -> has (i_recv_flags (in_of r.2)) TF_CLOSED = acked_by n r.2 pcb).

Ltac received := eapply holds_call; [eassumption|]; cbv beta; intros n1 (F1 & S1 & S1' & L1 & E1).

Lemma by_state_spec n pcb t :
  tcp_heap (tcp n) !! pcb = Some t -> i_recv_flags (in_of n) = 0 -> has (i_flags (in_of n)) TCP_RST = false ->
  (has (i_flags (in_of n)) TCP_SYN = true -> t_state t = SYN_SENT \/ t_state t = SYN_RCVD) ->
  holds (process_by_state stale_flags custom_free callback_ok netif_output tcp_timer_needed n pcb) (follows n t pcb).
Proof.
  intros Ht H0r Hr Hsyn. assert (Hf : got_fin n = false) by (unfold got_fin; by rewrite H0r).
  assert (Hid := insert_id _ _ _ (states_at _ _ _ Ht)).
  unfold process_by_state, tcp_at at 1, deref. rewrite Ht. cbn [res_bind].
  pose proof (receive_spec n pcb t Ht Hf) as Hrec. pose proof (syn_sent_spec n pcb t Ht) as Hss. pose proof (syn_rcvd_spec n pcb t Ht) as Hsr.
  destruct (t_state t) eqn:Es.
  all: try (destruct (has (i_flags (in_of n)) TCP_SYN) eqn:Esyn; [by destruct (Hsyn eq_refl)|]).
  all: unfold follows, next_state, simultaneous, rfc_next, seen_of in *; rewrite Es; cbn [s_rst s_syn s_ack s_opened s_fin s_acked] in *; rewrite ?Hr, ?Esyn in *; cbn match in *.
  all: try (cbn [holds fst snd]; split_and!; [done|by rewrite Hid|done]).
  - eapply holds_weaken; [by apply Hss|]. cbv beta. intros r [E1 E2]. by split_and!.
  - eapply holds_weaken; [by apply Hsr|]. cbv beta. intros r [E1 E2]. by split_and!.
  - received. destruct (got_fin n1) eqn:G1.
    + eapply holds_weaken; [by apply end_of_stream_spec|]. cbv beta. intros r (-> & E2 & -> & _). by rewrite E2, S1.
    + cbn [res_bind holds fst snd]. rewrite G1. split_and!; by auto.
  - received. destruct L1 as (t1 & Ht1 & Et1); [done|].
    eapply holds_weaken; [by apply (fin_wait_1_spec n1 pcb t1)|]. cbv beta. intros r (-> & -> & Ea & Em & ->).
    rewrite (acked_by_eq n r.2 pcb), Ea by congruence. by rewrite S1.
  - received. destruct L1 as (t1 & Ht1 & Et1); [done|]. destruct (got_fin n1) eqn:G1.
    + eapply holds_call; [apply (ack_time_wait_spec n1 pcb t1); [done|congruence..]|]. cbv beta. intros n2 (E2 & _ & I2).
      cbn [holds fst snd]. unfold got_fin in *. by rewrite I2, G1, E2, S1.
    + cbn [res_bind holds fst snd]. rewrite G1. split_and!; by auto.
  - received. destruct (got_fin n1) eqn:G1.
    + eapply holds_weaken; [by apply end_of_stream_spec|]. cbv beta. intros r (-> & E2 & _). by rewrite E2, S1.
    + cbn [res_bind holds fst snd]. split_and!; by auto.
  - received. specialize (E1 eq_refl). destruct L1 as (t1 & Ht1 & Et1); [done|]. injection E1 as E1 _ _ _.
    eapply holds_call; [apply all_acked_spec|]. cbv beta. intros b ->. destruct (acked n1 pcb) eqn:A1.
    + eapply holds_call; [apply (time_wait_spec n1 pcb t1); [done|congruence..]|]. cbv beta. intros n2 (E2 & A2 & I2).
      cbn [holds fst snd]. rewrite (acked_by_eq n n2 pcb) by (unfold segm in *; congruence). by rewrite A2, E2, S1.
    + cbn [res_bind holds fst snd]. by rewrite (acked_by_eq n n1 pcb F1), A1, E1, Hid.
  - received. specialize (E1 eq_refl). injection E1 as E1 Er1 _ _.
    eapply holds_call; [apply all_acked_spec|]. cbv beta. intros b ->. cbn [holds fst snd]. split_and!; [done| |].
    + intros _. rewrite Hid. by destruct (acked n1 pcb).
    + intros _ _. rewrite acked_by_eq by (by destruct (acked n1 pcb)). destruct (acked n1 pcb) eqn:A1.
      * replace (acked _ pcb) with (acked n1 pcb) by done. rewrite A1. cbn. by apply has_raised.
      * by rewrite A1, Er1, H0r.
Qed.

(** A reset is accepted only with the number that is expected. *)
Definition reset n (t : tcp_pcb) : bool :=
  has (i_flags (in_of n)) TCP_RST
  && (if state_eqb (t_state t) SYN_SENT then i_ackno (in_of n) =? t_snd_nxt t else i_seqno (in_of n) =? t_rcv_nxt t).

Lemma rst_spec n pcb t :
  tcp_heap (tcp n) !! pcb = Some t -> has (i_flags (in_of n)) TCP_RST = true ->
  holds (process_rst n pcb) (fun r =>
    states r.2 = states n /\ r.1 = (if reset n t then ERR_RST else ERR_OK)
    /\ i_recv_flags (in_of r.2) = (if reset n t then Z.lor (i_recv_flags (in_of n)) TF_RESET else i_recv_flags (in_of n))).
Proof.
  intros Ht Hr. unfold process_rst, reset, tcp_at at 1, deref. rewrite Ht, Hr. cbn [res_bind andb].
  destruct (if state_eqb _ _ then _ else _).
  - tstep. eapply holds_call; [by apply (upd_sight _ _ (fun t => set_flags _ t))|]. cbv beta. intros n1 E. injection E as E1 E2 _ _. done.
  - tstep; [|done]. eapply holds_call; [apply ack_now_sight|]. cbv beta. intros n1 E. injection E as E1 E2 _ _. done.
Qed.

(** What the diagram is told is not changed by the options. *)
Lemma options_spec n pcb t t' :
  tcp_heap (tcp n) !! pcb = Some t -> core t' = core t -> t_snd_nxt t' = t_snd_nxt t -> t_lastack t' = t_lastack t ->
  holds (tcp_parseopt (put_tcp n pcb t') pcb) (fun n1 =>
    sight n1 = sight n /\ exists t1, tcp_heap (tcp n1) !! pcb = Some t1 /\ t_state t1 = t_state t
    /\ (forall n', seen_of n1 t1 n' pcb = seen_of n t n' pcb) /\ forall n', acked_by n1 n' pcb = acked_by n n' pcb).
Proof.
  intros Ht Ec En El. eapply holds_weaken; [apply holds_both; [apply parseopt_sight|apply parseopt_parsed]|]. cbv beta.
  intros n1 [E1 E2]. erewrite sight_put in E1 by done. split; [done|].
  destruct (state_lookup n1 pcb (t_state t)) as (t1 & Ht1 & Es1); [injection E1 as -> _ _ _; by apply states_at|].
  exists t1.
  unfold parsed in E2. erewrite sent_put in E2 by done. unfold sent in E2. rewrite Ht, Ht1 in E2. cbn [fmap option_fmap option_map snd] in E2.
  assert (Ef := f_equal (fun x => i_flags x.1) E2). assert (Ea := f_equal (fun x => i_ackno x.1) E2). cbn [fst] in Ef, Ea.
  change (i_flags (in_of n1) = i_flags (in_of n)) in Ef. change (i_ackno (in_of n1) = i_ackno (in_of n)) in Ea.
  apply (f_equal snd) in E2. cbn [snd] in E2. injection E2 as En1 El1.
  split_and!; [done|done|intros n'; unfold seen_of, opened, acked_by; by rewrite Ef, Ea, Es1, En1, El1|].
  intros n'. unfold acked_by. by rewrite Ef, Ea.
Qed.


End Rfc.
