(* ===== verification/TcpWnd.v ===== *)
(** * The receive window of a connection: tcp_update_rcv_ann_wnd in lwip/src/core/tcp.c

    Sequence numbers wrap at 2^32.  [lead] is the distance from the next number expected to the
    right edge of the window announced last, as an integer that may be negative; the window to
    announce next is a function of it, without wrap-around. *)

From S2P Require Import Prelude Ip4Addr Pbuf TcpData Net Ip4 IpFrame TcpBase TcpOut Tcp.

Definition lead (t : tcp_pcb) : Z := s32 (u32 (t_rcv_ann_right_edge t - t_rcv_nxt t)).

(** The window to announce: all of the free buffer when this moves the right edge by a useful
    amount, else up to the edge that has been announced already. *)
Definition window (lead wnd mss : Z) : Z :=
  if lead + Z.min (TCP_WND / 2) mss <=? wnd then wnd else Z.max 0 lead.

(** The window may lag behind what was received by at most its own size. *)
Definition wnd_ok (t : tcp_pcb) : Prop :=
  0 <= t_rcv_wnd t <= TCP_WND /\ 0 <= t_rcv_nxt t < 4294967296 /\ 0 <= t_rcv_ann_right_edge t < 4294967296
  /\ 0 <= t_mss t <= 65535 /\ - 1073741824 <= lead t <= 65535.

(** Signed distances modulo 2^32. *)
Lemma s32_u32 x y : - 2147483648 <= y < 2147483648 -> (exists k, x = y + k * 4294967296) -> s32 (u32 x) = y.
Proof. unfold s32, u32. intros Hy [k ->]. zlia. Qed.

Lemma edge_lead t : exists k, t_rcv_ann_right_edge t = t_rcv_nxt t + lead t + k * 4294967296.
Proof.
  set (d := t_rcv_ann_right_edge t - t_rcv_nxt t).
  exists (d / 4294967296 + (d mod 4294967296 + 2147483648) / 4294967296). unfold lead, s32, u32. fold d.
  assert (Ed : t_rcv_ann_right_edge t = t_rcv_nxt t + d) by (unfold d; lia). clearbody d. rewrite Ed. zlia.
Qed.

Lemma rcv_ann_spec t : wnd_ok t -> exists inflation, rcv_ann t = Some (window (lead t) (t_rcv_wnd t) (t_mss t), inflation).
Proof.
  intros Hok. destruct (edge_lead t) as [k Ek]. destruct Hok as (Hw & Hn & He & Hm & Hl).
  unfold rcv_ann, window, TCP_SEQ_GEQ, TCP_SEQ_GT, TCP_WND in *. cbv zeta.
  set (m := Z.min (8096 / 2) (t_mss t)). assert (0 <= m <= 4048) by (unfold m; change (8096 / 2) with 4048; lia).
  assert (E1 : s32 (u32 (u32 (t_rcv_nxt t + t_rcv_wnd t) - u32 (t_rcv_ann_right_edge t + m))) = t_rcv_wnd t - lead t - m).
  { apply s32_u32; [lia|]. unfold u32. rewrite Ek. 
    exists (- ((t_rcv_nxt t + t_rcv_wnd t) / 4294967296) + (t_rcv_nxt t + lead t + k * 4294967296 + m) / 4294967296 - k). zlia. }
  assert (E2 : s32 (u32 (t_rcv_nxt t - t_rcv_ann_right_edge t)) = - lead t) by (apply s32_u32; [lia|]; exists (- k); lia).
  rewrite E1, E2. destruct (0 <=? t_rcv_wnd t - lead t - m) eqn:C1.
  { eexists. do 2 f_equal. assert (C : (lead t + m <=? t_rcv_wnd t) = true) by lia. by rewrite C. }
  assert (C : (lead t + m <=? t_rcv_wnd t) = false) by lia. rewrite C. destruct (0 <? - lead t) eqn:C2.
  { eexists. do 2 f_equal. lia. }
  assert (E3 : u32 (t_rcv_ann_right_edge t - t_rcv_nxt t) = lead t).
  { unfold u32. rewrite Ek. replace (t_rcv_nxt t + lead t + k * 4294967296 - t_rcv_nxt t) with (lead t + k * 4294967296) by lia.
    rewrite Z.mod_add by done. apply Z.mod_small. lia. }
  rewrite E3. assert (C3 : (lead t <=? 65535) = true) by lia. rewrite C3. eexists. do 2 f_equal. lia.
Qed.

Section Window.
Context {A W : Type}.
Implicit Types n : net A W.

(** C10: [tcp_update_rcv_ann_wnd] always returns, and of the connection it changes the announced
    window only, to the value of [window]: the right edge of the window never moves left,
    whatever wraps around, and no more is announced than the free buffer or what was
    announced before. *)
Theorem tcp_window_never_shrinks n pcb t :
  tcp_heap (tcp n) !! pcb = Some t -> wnd_ok t ->
  exists inflation wnd,
    tcp_update_rcv_ann_wnd n pcb = Ok (inflation, put_tcp n pcb (set_rcv_ann_wnd wnd t))
    /\ wnd = window (lead t) (t_rcv_wnd t) (t_mss t)
    /\ lead t <= wnd <= Z.max (t_rcv_wnd t) (lead t)
    /\ 0 <= wnd <= 65535.
Proof.
  intros Ht Hok. destruct (rcv_ann_spec t Hok) as [inf E]. destruct Hok as (Hw & _ & _ & Hm & Hl). unfold TCP_WND in Hw.
  exists inf, (window (lead t) (t_rcv_wnd t) (t_mss t)). unfold tcp_update_rcv_ann_wnd, tcp_at, deref. rewrite Ht. cbn [res_bind].
  rewrite E. split_and!; [done..| | | |]; unfold window, TCP_WND in *; change (8096 / 2) with 4048 in *; destruct (_ <=? _) eqn:C; lia.
Qed.

End Window.
