(* ===== verification/TcpSeq.v ===== *)
(** * Sequence numbers and flags of TCP (lwip/tcp.h, priv/tcp_priv.h, prot/tcp.h)

    Comparisons of sequence numbers agree with the order of the positions they stand for, as
    long as these are less than 2^31 apart; and what the macros that change the flags of a
    header do to FIN and SYN. *)

From S2P Require Import Prelude Def Pbuf TcpData Net TcpBase TcpWnd.

(** ** Sequence numbers and positions *)

Lemma seq_diff a b : - 2147483648 <= a - b < 2147483648 -> s32 (u32 (u32 a - u32 b)) = a - b.
Proof. intros Hd. apply s32_u32; [done|]. unfold u32. exists (b / 4294967296 - a / 4294967296). zlia. Qed.

Definition near (a b : Z) : Prop := - 2147483648 < a - b < 2147483648.

Lemma seq_lt a b : near a b -> TCP_SEQ_LT (u32 a) (u32 b) = (a <? b).
Proof. intros. unfold TCP_SEQ_LT, near in *. rewrite seq_diff by lia. lia. Qed.
Lemma seq_leq a b : near a b -> TCP_SEQ_LEQ (u32 a) (u32 b) = (a <=? b).
Proof. intros. unfold TCP_SEQ_LEQ, near in *. rewrite seq_diff by lia. lia. Qed.
Lemma seq_gt a b : near a b -> TCP_SEQ_GT (u32 a) (u32 b) = (b <? a).
Proof. intros. unfold TCP_SEQ_GT, near in *. rewrite seq_diff by lia. lia. Qed.
Lemma seq_geq a b : near a b -> TCP_SEQ_GEQ (u32 a) (u32 b) = (b <=? a).
Proof. intros. unfold TCP_SEQ_GEQ, near in *. rewrite seq_diff by lia. lia. Qed.
Lemma seq_between a b c : near a b -> near a c -> TCP_SEQ_BETWEEN (u32 a) (u32 b) (u32 c) = (b <=? a) && (a <=? c).
Proof. intros. unfold TCP_SEQ_BETWEEN. by rewrite seq_geq, seq_leq. Qed.
Lemma seq_eqb a b : near a b -> (u32 a =? u32 b) = (a =? b).
Proof.
  unfold near, u32. intros Hd. destruct (Z.eqb_spec a b) as [->|Hne]; [apply Z.eqb_refl|]. apply Z.eqb_neq. intros E.
  apply Hne. zlia.
Qed.

Lemma u32_sub_u32 a b : u32 (u32 a - u32 b) = u32 (a - b).
Proof. unfold u32. by rewrite <- Zminus_mod. Qed.
Lemma u32_sub_l a b : u32 (u32 a - b) = u32 (a - b).
Proof. unfold u32. apply Zminus_mod_idemp_l. Qed.
Lemma u16_sub_u32 a b : u16 (u32 a - u32 b) = u16 (a - b).
Proof. unfold u16, u32. zlia. Qed.

(** ** The flags of a header *)

(** A property of all 16-bit words, by evaluation. *)
Definition on_all_words (P : Z -> bool) : bool :=
  let bytes := seqZ 0 256 in forallb (fun hi => forallb (fun lo => P (hi * 256 + lo)) bytes) bytes.

Lemma all_words (P : Z -> bool) : on_all_words P = true -> forall w, is_u16 w -> P w = true.
Proof.
  intros Hf w Hw. unfold is_u16 in Hw. unfold on_all_words in Hf. cbv zeta in Hf. rewrite forallb_forall in Hf.
  assert (Hin : forall x, 0 <= x < 256 -> In x (seqZ 0 256)) by (intros; apply list_elem_of_In, elem_of_seqZ; lia).
  specialize (Hf (w / 256) ltac:(apply Hin; zlia)). rewrite forallb_forall in Hf.
  specialize (Hf (w mod 256) ltac:(apply Hin; zlia)). by replace (w / 256 * 256 + w mod 256) with w in Hf by zlia.
Qed.

Definition word_flags (w : Z) : Z := u16 (Z.land (lwip_ntohs w) TCP_FLAGS).

Lemma word_set_fin w : is_u16 w ->
  let w' := Z.lor w (lwip_htons TCP_FIN) in
  is_u16 w' /\ has (word_flags w') TCP_FIN = true /\ has (word_flags w') TCP_SYN = has (word_flags w) TCP_SYN.
Proof.
  intros Hw. cbv zeta. pose proof (all_words (fun w => let w' := Z.lor w (lwip_htons TCP_FIN) in
    (0 <=? w') && (w' <=? 65535) && has (word_flags w') TCP_FIN
    && eqb (has (word_flags w') TCP_SYN) (has (word_flags w) TCP_SYN)) ltac:(vm_cast_no_check (eq_refl true)) w Hw) as Hp.
  cbv beta zeta in Hp. apply andb_true_iff in Hp as [Hp H4]. apply andb_true_iff in Hp as [Hp H3].
  apply eqb_prop in H4. unfold is_u16. split_and!; [lia|lia|done|done].
Qed.

Lemma word_clear_fin w : is_u16 w ->
  let w' := Z.lor (Z.land w (PP_HTONS (Z.lnot TCP_FLAGS))) (lwip_htons (del_flag (word_flags w) TCP_FIN)) in
  is_u16 w' /\ has (word_flags w') TCP_FIN = false /\ has (word_flags w') TCP_SYN = has (word_flags w) TCP_SYN.
Proof.
  intros Hw. cbv zeta. pose proof (all_words (fun w =>
    let w' := Z.lor (Z.land w (PP_HTONS (Z.lnot TCP_FLAGS))) (lwip_htons (del_flag (word_flags w) TCP_FIN)) in
    (0 <=? w') && (w' <=? 65535) && negb (has (word_flags w') TCP_FIN)
    && eqb (has (word_flags w') TCP_SYN) (has (word_flags w) TCP_SYN)) ltac:(vm_cast_no_check (eq_refl true)) w Hw) as Hp.
  cbv beta zeta in Hp. apply andb_true_iff in Hp as [Hp H4]. apply andb_true_iff in Hp as [Hp H3].
  apply eqb_prop in H4. apply negb_true_iff in H3. unfold is_u16. split_and!; [lia|lia|done|done].
Qed.

Lemma word_fin_syn w : is_u16 w ->
  has (word_flags w) (Z.lor TCP_FIN TCP_SYN) = has (word_flags w) TCP_FIN || has (word_flags w) TCP_SYN.
Proof.
  intros Hw. pose proof (all_words (fun w => eqb (has (word_flags w) (Z.lor TCP_FIN TCP_SYN))
    (has (word_flags w) TCP_FIN || has (word_flags w) TCP_SYN)) ltac:(vm_cast_no_check (eq_refl true)) w Hw) as Hp. by apply eqb_prop in Hp.
Qed.
