(* ===== verification/TcpStream.v ===== *)
(** * The stream of bytes that TCP delivers: the data part of tcp_receive in lwip/src/core/tcp_in.c

    The peer sends a stream: [byte_at k] is the byte at position [k], and [fin_at] is the
    position behind the last one.  Positions are integers; the sequence number of a position
    is the position modulo 2^32.  A segment is [genuine] if it carries the bytes of the stream
    from its position on, and a FIN only at the end of the stream.  The invariant [queued]
    orders the segments of [pcb->ooseq] by position, without overlaps, inside the window.  The
    theorems say that segments that arrive in any order, again, or overlapping, are assembled
    into the stream, with nothing missing and nothing twice. *)

From S2P Require Import Prelude Def Ip4Addr InetChksum Mem Memp Pbuf PbufData PbufAlloc PbufOps Chunks.
From S2P Require Import TcpData Net Ip4 TcpBase TcpOut Tcp TcpRecv TcpWnd TcpSeq.

(** ** Genuine segments *)

(** A segment, its position in the stream and its pbufs. *)
Record gseg := mk_g { g_pos : Z; g_seg : tcp_seg; g_bl : list (Z * pbuf) }.

Definition g_chunk (g : gseg) : chunk := mk_chunk (seg_tcphdr (g_seg g)) (g_bl g).
Definition g_len (g : gseg) : Z := seg_len (g_seg g).
Definition g_end (g : gseg) : Z := g_pos g + g_len g.
Definition g_fin (m : memory) (g : gseg) : bool := rseg_fin m (g_seg g).

(** The position behind the segment, its FIN included. *)
Definition g_next (m : memory) (g : gseg) : Z := g_pos g + TCP_TCPLEN m (g_seg g).

Section Stream.
Variable byte_at : Z -> Z.
Variable fin_at : Z.

Definition stream (k l : Z) : list Z := byte_at <$> seqZ k l.

Record genuine (m : memory) (g : gseg) : Prop := {
  gen_p : seg_p (g_seg g) = first (g_bl g);
  gen_len : total (g_bl g) = g_len g;
  gen_range : 0 <= g_len g < 65535;
  gen_seq : rseg_seqno m (g_seg g) = u32 (g_pos g);
  gen_data : cdata m (g_bl g) = stream (g_pos g) (g_len g);
  gen_end : g_end g <= fin_at;
  gen_fin : g_fin m g = true -> g_end g = fin_at;
  gen_syn : rseg_syn m (g_seg g) = false
}.

(** The segments of the queue, from position [r] to the edge of the window. *)
Fixpoint queued (m : memory) (r edge : Z) (Q : list gseg) : Prop :=
  match Q with
  | [] => True
  | g :: Q' =>
      r <= g_pos g /\ g_pos g < g_next m g /\ g_next m g <= edge
      /\ (g_fin m g = true -> Q' = []) /\ queued m (g_end g) edge Q'
  end.

(** *** Lemmas *)

Lemma stream_app k a b : 0 <= a -> 0 <= b -> stream k (a + b) = stream k a ++ stream (k + a) b.
Proof. intros. unfold stream. by rewrite seqZ_app, fmap_app. Qed.

Lemma length_stream k l : length (stream k l) = Z.to_nat l.
Proof. unfold stream. by rewrite length_fmap, length_seqZ. Qed.

Lemma take_stream k l j : 0 <= j <= l -> take (Z.to_nat j) (stream k l) = stream k j.
Proof.
  intros. replace l with (j + (l - j)) by lia. rewrite stream_app by lia. rewrite take_app_le by (rewrite length_stream; lia).
  apply take_ge. rewrite length_stream. lia.
Qed.

Lemma drop_stream k l j : 0 <= j <= l -> drop (Z.to_nat j) (stream k l) = stream (k + j) (l - j).
Proof.
  intros. replace (stream k l) with (stream k (j + (l - j))) by (f_equal; lia). rewrite stream_app by lia.
  rewrite drop_app_ge by (rewrite length_stream; lia). rewrite length_stream, Nat.sub_diag. done.
Qed.

Lemma tcplen_fin m s : mem_ok m -> rseg_syn m s = false -> TCP_TCPLEN m s = seg_len s + (if rseg_fin m s then 1 else 0).
Proof.
  intros Hm Hs. unfold TCP_TCPLEN. unfold rseg_syn, rseg_fin in *. pose proof (word_fin_syn _ (rd16_range m (seg_tcphdr s + 12) Hm)) as E.
  change (word_flags _) with (TCPH_FLAGS m (seg_tcphdr s)) in E. rewrite E, Hs. by rewrite orb_false_r.
Qed.

Lemma g_next_fin m g : mem_ok m -> genuine m g -> g_next m g = g_end g + (if g_fin m g then 1 else 0).
Proof. intros Hm Hg. unfold g_next, g_end, g_fin, g_len. rewrite tcplen_fin by (done || apply Hg). lia. Qed.

(** *** What a segment says in two memories *)

Definition same_hdr (m m' : memory) (s : tcp_seg) : Prop :=
  rseg_seqno m' s = rseg_seqno m s /\ TCPH_FLAGS m' (seg_tcphdr s) = TCPH_FLAGS m (seg_tcphdr s).

Definition agree (m m' : memory) (g : gseg) : Prop := same_hdr m m' (g_seg g) /\ cdata m' (g_bl g) = cdata m (g_bl g).

Lemma genuine_agree m m' g : agree m m' g -> genuine m g -> genuine m' g.
Proof.
  intros ((Es & Ef) & Ed) [Hp Hl Hr Hq Hd He Hf Hs]. unfold g_fin, rseg_fin, rseg_syn in *.
  split; unfold g_fin, rseg_fin, rseg_syn; rewrite ?Es, ?Ef, ?Ed; done.
Qed.

Lemma genuine_agrees m m' Q : Forall (agree m m') Q -> Forall (genuine m) Q -> Forall (genuine m') Q.
Proof. rewrite !Forall_forall. intros Ha Hg g Hin. eapply genuine_agree; eauto. Qed.

Lemma agree_fin m m' g : agree m m' g -> g_fin m' g = g_fin m g.
Proof. intros ((_ & Ef) & _). unfold g_fin, rseg_fin. by rewrite Ef. Qed.

Lemma agree_next m m' g : agree m m' g -> g_next m' g = g_next m g.
Proof. intros ((_ & Ef) & _). unfold g_next, TCP_TCPLEN. by rewrite Ef. Qed.

Lemma queued_agrees m m' Q : forall r edge, Forall (agree m m') Q -> queued m r edge Q -> queued m' r edge Q.
Proof.
  induction Q as [|g Q IH]; intros r edge Ha; cbn [queued]; [done|]. apply Forall_cons in Ha as [Ha HaQ].
  rewrite (agree_next _ _ _ Ha), (agree_fin _ _ _ Ha). intros (? & ? & ? & ? & ?). split_and!; auto.
Qed.

Lemma agree_refl m g : agree m m g.
Proof. by split_and!. Qed.

Lemma agrees_refl m Q : Forall (agree m m) Q.
Proof. apply Forall_forall. intros. apply agree_refl. Qed.

Lemma agrees_trans m1 m2 m3 Q : Forall (agree m1 m2) Q -> Forall (agree m2 m3) Q -> Forall (agree m1 m3) Q.
Proof.
  rewrite !Forall_forall. intros H1 H2 g Hin. destruct (H1 g Hin) as ((E1 & E2) & E3), (H2 g Hin) as ((F1 & F2) & F3).
  unfold agree, same_hdr. rewrite F1, F2, F3. by split_and!.
Qed.

Lemma queued_weaken m r r' edge Q : r' <= r -> queued m r edge Q -> queued m r' edge Q.
Proof. destruct Q as [|g Q]; cbn [queued]; [done|]. intros ? (? & ?). split; [lia|done]. Qed.

Section Headers.
Context {A : Type} `{AllocSpec A}.
Implicit Types s : Pbuf.state A.

(** A write to the header of [g] leaves the other segments alone, and its own data. *)
Lemma agree_wr s g Q o bs :
  held s (g_chunk g :: (g_chunk <$> Q)) -> 0 <= o -> o + Z.of_nat (length bs) <= HDR ->
  let m := bytes s in let m' := wr m (seg_tcphdr (g_seg g) + o) bs in
  Forall (agree m m') Q /\ cdata m' (g_bl g) = cdata m (g_bl g).
Proof.
  intros Hh Ho Hl. cbv zeta. split.
  2: { apply (held_wr_data _ _ _ (g_chunk g) _ _ _ Hh); [left|lia|lia]. }
  apply Forall_forall. intros x Hx.
  assert (Hx' : g_chunk x ∈ g_chunk <$> Q) by (by apply list_elem_of_fmap_2).
  split; [split|].
  - unfold rseg_seqno, tcph_seqno, rd32. f_equal. apply (held_wr_hdr _ _ _ (g_chunk x) _ _ _ 4 4 Hh); unfold HDR in *; done || lia.
  - unfold TCPH_FLAGS, tcph_hdrlen_rsvd_flags, rd16. do 4 f_equal.
    apply (held_wr_hdr _ _ _ (g_chunk x) _ _ _ 12 2 Hh); unfold HDR in *; done || lia.
  - apply (held_wr_data _ _ _ (g_chunk x) _ _ _ Hh); [by right|lia|lia].
Qed.

End Headers.

Lemma flags_wr16 m hdr w : is_u16 w -> TCPH_FLAGS (wr16 m (hdr + 12) w) hdr = word_flags w.
Proof. intros Hw. unfold TCPH_FLAGS, tcph_hdrlen_rsvd_flags, word_flags. by rewrite rd16_wr16. Qed.

Lemma seqno_wr16 m s w : rseg_seqno (wr16 m (seg_tcphdr s + 12) w) s = rseg_seqno m s.
Proof. unfold rseg_seqno, tcph_seqno. apply rd32_apart. cbn. lia. Qed.

Lemma set_fin_hdr m s : mem_ok m ->
  let m' := TCPH_SET_FLAG m (seg_tcphdr s) TCP_FIN in
  mem_ok m' /\ rseg_seqno m' s = rseg_seqno m s /\ rseg_fin m' s = true /\ rseg_syn m' s = rseg_syn m s.
Proof.
  intros Hm. cbv zeta. unfold TCPH_SET_FLAG, rseg_fin, rseg_syn.
  destruct (word_set_fin _ (rd16_range m (seg_tcphdr s + 12) Hm)) as (Hw & Hf & Hs). unfold tcph_hdrlen_rsvd_flags in *.
  rewrite flags_wr16, seqno_wr16 by done. split_and!; [by apply mem_ok_wr16|done|done|done].
Qed.

Lemma clear_fin_hdr m s : mem_ok m ->
  let m' := set_tcph_flags_off m (seg_tcphdr s) TCP_FIN in
  mem_ok m' /\ rseg_seqno m' s = rseg_seqno m s /\ rseg_fin m' s = false /\ rseg_syn m' s = rseg_syn m s.
Proof.
  intros Hm. cbv zeta. unfold set_tcph_flags_off, TCPH_FLAGS_SET, rseg_fin, rseg_syn.
  destruct (word_clear_fin _ (rd16_range m (seg_tcphdr s + 12) Hm)) as (Hw & Hf & Hs).
  change (word_flags (rd16 m (seg_tcphdr s + 12))) with (TCPH_FLAGS m (seg_tcphdr s)) in Hw, Hf, Hs. unfold tcph_hdrlen_rsvd_flags in *.
  rewrite flags_wr16, seqno_wr16 by done. split_and!; [by apply mem_ok_wr16|done|done|done].
Qed.

Lemma set_seqno_hdr m s v : mem_ok m -> is_u32 v ->
  let m' := set_tcph_seqno m (seg_tcphdr s) v in
  mem_ok m' /\ rseg_seqno m' s = v /\ TCPH_FLAGS m' (seg_tcphdr s) = TCPH_FLAGS m (seg_tcphdr s).
Proof.
  intros Hm Hv. cbv zeta. unfold set_tcph_seqno. split_and!; [by apply mem_ok_wr32|by apply rd32_wr32|].
  unfold TCPH_FLAGS, tcph_hdrlen_rsvd_flags, wr32. rewrite rd16_apart; [done|]. cbn. lia.
Qed.

(** Taking on and taking off the FIN of a segment, beside others. *)
Section Fin.
Context {A : Type} `{AllocSpec A}.
Implicit Types s : Pbuf.state A.

Lemma set_fin_seg s g Q :
  held s (g_chunk g :: (g_chunk <$> Q)) -> mem_ok (bytes s) -> genuine (bytes s) g -> g_end g = fin_at ->
  let m' := TCPH_SET_FLAG (bytes s) (seg_tcphdr (g_seg g)) TCP_FIN in
  mem_ok m' /\ genuine m' g /\ g_fin m' g = true /\ Forall (agree (bytes s) m') Q.
Proof.
  intros Hh Hm [Hp Hl Hr Hq Hd He Hf Hs] Hend m'. destruct (set_fin_hdr (bytes s) (g_seg g) Hm) as (Hm' & Hsq & Hfin & Hsyn).
  fold m' in Hm', Hsq, Hfin, Hsyn.
  destruct (agree_wr s g Q 12 (le_bytes 2 (Z.lor (tcph_hdrlen_rsvd_flags (bytes s) (seg_tcphdr (g_seg g))) (lwip_htons TCP_FIN))) Hh)
    as (Ha & Ed); [lia|done|]. cbv zeta in Ha, Ed. change (wr (bytes s) _ (le_bytes 2 _)) with m' in Ha, Ed.
  split_and!; [done| |exact Hfin|exact Ha]. split; try done; congruence.
Qed.

Lemma clear_fin_seg s g Q :
  held s (g_chunk g :: (g_chunk <$> Q)) -> mem_ok (bytes s) -> genuine (bytes s) g ->
  let m' := set_tcph_flags_off (bytes s) (seg_tcphdr (g_seg g)) TCP_FIN in
  mem_ok m' /\ genuine m' g /\ g_fin m' g = false /\ Forall (agree (bytes s) m') Q.
Proof.
  intros Hh Hm [Hp Hl Hr Hq Hd He Hf Hs] m'. destruct (clear_fin_hdr (bytes s) (g_seg g) Hm) as (Hm' & Hsq & Hfin & Hsyn).
  fold m' in Hm', Hsq, Hfin, Hsyn.
  destruct (agree_wr s g Q 12 (le_bytes 2 (Z.lor (Z.land (tcph_hdrlen_rsvd_flags (bytes s) (seg_tcphdr (g_seg g))) (PP_HTONS (Z.lnot TCP_FLAGS)))
    (lwip_htons (del_flag (TCPH_FLAGS (bytes s) (seg_tcphdr (g_seg g))) TCP_FIN)))) Hh) as (Ha & Ed); [lia|done|].
  cbv zeta in Ha, Ed. change (wr (bytes s) _ (le_bytes 2 _)) with m' in Ha, Ed.
  split_and!; [done| |exact Hfin|exact Ha]. split; try done; try congruence. intros Hc.
  change (rseg_fin m' (g_seg g) = true) in Hc. congruence.
Qed.

End Fin.

(** ** The state of the connection *)

Section Receive.
Context {A W : Type} `{AllocSpec A} `{FragPool A}.
Variable custom_free : Z -> Z -> Pbuf.state A -> res (Pbuf.state A).
Implicit Types n : net A W.

Record seen n (pcb : Z) (t : tcp_pcb) (i : tcp_in) (s : Pbuf.state A) : Prop := {
  seen_t : tcp_heap (tcp n) !! pcb = Some t;
  seen_i : in_of n = i;
  seen_s : packets n = s
}.

Lemma seen_at n pcb t i s : seen n pcb t i s -> tcp_at n pcb = Ok t.
Proof. intros [Ht _ _]. unfold tcp_at, deref. by rewrite Ht. Qed.

Lemma seen_mem n pcb t i s : seen n pcb t i s -> mem n = bytes s.
Proof. intros [_ _ <-]. done. Qed.

Lemma seen_put n pcb t i s t' : seen n pcb t i s -> seen (put_tcp n pcb t') pcb t' i s.
Proof. intros [Ht Hi Hs]. split; [apply lookup_insert_eq|done|done]. Qed.

Lemma seen_upd_in n pcb t i s f : seen n pcb t i s -> seen (upd_in n f) pcb t (f i) s.
Proof. intros [Ht <- Hs]. by split. Qed.

Lemma seen_packets n pcb t i s s' : seen n pcb t i s -> seen (with_packets s' n) pcb t i s'.
Proof. intros [Ht Hi Hs]. by split. Qed.

Lemma seen_with_mem n pcb t i s m : seen n pcb t i s -> seen (with_mem m n) pcb t i (with_bytes m s).
Proof. intros [Ht Hi <-]. by split. Qed.

Lemma upd_tcp_seen n pcb t i s f : seen n pcb t i s -> upd_tcp n pcb f = Ok (put_tcp n pcb (f t)).
Proof. intros Hs. unfold upd_tcp. by rewrite (seen_at _ _ _ _ _ Hs). Qed.

Lemma seg_free_seen n pcb t i s sg c cs :
  seen n pcb t i s -> held s (c :: cs) -> seg_p sg = first (c_bl c) ->
  exists n' s', tcp_seg_free custom_free n sg = Ok n' /\ seen n' pcb t i s' /\ held s' cs /\ bytes s' = bytes s.
Proof.
  intros Hn Hh Hp. destruct (held_free custom_free s c cs Hh) as (k & s' & E & Hh' & Eb).
  destruct (held_cons _ _ _ Hh) as ((_ & _ & Hne & _) & _). unfold tcp_seg_free. rewrite Hp, (proj2 (Z.eqb_neq _ NULL)) by done.
  cbn [negb]. unfold free, on_packets. rewrite (seen_s _ _ _ _ _ Hn), E. cbn [res_bind].
  eexists _, s'. split_and!; [done| |done|done]. destruct Hn as [Ht Hi _]. by split.
Qed.

(** Segments that are thrown away, in front of chunks that stay. *)
Lemma segs_free_seen Q : forall n pcb t i s cs,
  seen n pcb t i s -> held s ((g_chunk <$> Q) ++ cs) -> Forall (fun g => seg_p (g_seg g) = first (g_bl g)) Q ->
  exists n' s', tcp_segs_free custom_free n (g_seg <$> Q) = Ok n' /\ seen n' pcb t i s' /\ held s' cs /\ bytes s' = bytes s.
Proof.
  induction Q as [|g Q IH]; intros n pcb t i s cs Hn Hh Hp; cbn [fmap list_fmap tcp_segs_free]; [by exists n, s|].
  apply Forall_cons in Hp as [Hp HpQ]. destruct (seg_free_seen _ _ _ _ _ (g_seg g) _ _ Hn Hh Hp) as (n1 & s1 & E1 & Hn1 & Hh1 & Eb1).
  rewrite E1. cbn [res_bind]. destruct (IH _ _ _ _ _ _ Hn1 Hh1 HpQ) as (n' & s' & E' & Hn' & Hh' & Eb').
  exists n', s'. split_and!; [done|done|done|congruence].
Qed.

(** A segment [g] that has been received, with the queue behind it. *)
Record flow n (pcb : Z) (t : tcp_pcb) (i : tcp_in) (s : Pbuf.state A) (g : gseg) (edge : Z) (Q : list gseg) : Prop := {
  fl_seen : seen n pcb t i s;
  fl_mem : mem_ok (bytes s);
  fl_held : held s (g_chunk g :: (g_chunk <$> Q));
  fl_g : genuine (bytes s) g;
  fl_Q : Forall (genuine (bytes s)) Q;
  fl_queued : queued (bytes s) (g_pos g + 1) edge Q;
  fl_inseg : i_inseg i = g_seg g;
  fl_seqno : i_seqno i = u32 (g_pos g);
  fl_edge : edge - g_pos g <= 65535
}.

(** [tcplen] is the length of the segment. *)
Definition tcplen_is (i : tcp_in) (m : memory) (g : gseg) : Prop := i_tcplen i = TCP_TCPLEN m (g_seg g).

(** The header of [g] is changed. *)
Lemma flow_mem n pcb t i s g edge Q m' f :
  flow n pcb t i s g edge Q -> mem_ok m' -> genuine m' g -> Forall (agree (bytes s) m') Q ->
  i_inseg (f i) = i_inseg i -> i_seqno (f i) = i_seqno i ->
  flow (upd_in (with_mem m' n) f) pcb t (f i) (with_bytes m' s) g edge Q.
Proof.
  intros [Hn Hm Hh Hg HQ HqQ Hi Hsq Hedge] Hm' Hg' Ha Ei Es. split; try done.
  - by apply seen_upd_in, seen_with_mem.
  - by apply held_bytes.
  - by eapply genuine_agrees.
  - by eapply queued_agrees.
  - by rewrite Ei.
  - by rewrite Es.
Qed.

(** The segment takes the FIN of one that it covers. *)
Lemma flow_set_fin n pcb t i s g edge Q :
  flow n pcb t i s g edge Q -> g_end g = fin_at -> g_end g + 1 <= edge ->
  let m' := TCPH_SET_FLAG (bytes s) (seg_tcphdr (g_seg g)) TCP_FIN in
  let f := set_i_tcplen (u16 (TCP_TCPLEN m' (g_seg g))) in
  flow (upd_in (with_mem m' n) f) pcb t (f i) (with_bytes m' s) g edge Q /\ g_fin m' g = true
  /\ tcplen_is (f i) m' g.
Proof.
  intros Hfl He Hedge m' f. pose proof Hfl as [Hn Hm Hh Hg _ _ _ _ He2].
  destruct (set_fin_seg s g Q Hh Hm Hg He) as (Hm' & Hg' & Hfin & Ha). fold m' in Hm', Hg', Hfin, Ha.
  assert (Hu : is_u16 (TCP_TCPLEN m' (g_seg g))).
  { pose proof (gen_range _ _ Hg) as Hr. rewrite tcplen_fin by (done || apply Hg').
    change (rseg_fin m' (g_seg g)) with (g_fin m' g). rewrite Hfin. unfold is_u16, g_end, g_len in *. lia. }
  split_and!; [by apply flow_mem|exact Hfin|by apply u16_id].
Qed.

(** A covered segment of the queue leaves it. *)
Lemma flow_drop n pcb t i s g edge x Q :
  flow n pcb t i s g edge (x :: Q) ->
  exists n' s', tcp_seg_free custom_free n (g_seg x) = Ok n' /\ flow n' pcb t i s' g edge Q /\ bytes s' = bytes s.
Proof.
  intros [Hn Hm Hh Hg HQ HqQ Hi Hsq Hedge]. apply Forall_cons in HQ as [Hx HQ]. cbn [fmap list_fmap] in Hh.
  destruct (seg_free_seen n pcb t i s (g_seg x) (g_chunk x) (g_chunk g :: (g_chunk <$> Q)) Hn) as (n' & s' & E & Hn' & Hh' & Eb).
  { eapply held_perm; [|exact Hh]. apply Permutation_swap. }
  { apply Hx. }
  exists n', s'. split_and!; [done| |done]. destruct HqQ as (Hlo & Hpos & _ & _ & HqQ). pose proof (gen_range _ _ Hx).
  split; rewrite ?Eb; try done. eapply queued_weaken; [|exact HqQ]. unfold g_end. lia.
Qed.

Lemma flow_ends n pcb t i s g edge x Q :
  flow n pcb t i s g edge (x :: Q) ->
  g_pos g < g_pos x <= g_end x /\ g_end x <= g_next (bytes s) x <= edge /\ (g_fin (bytes s) x = true -> g_next (bytes s) x = g_end x + 1 /\ Q = []).
Proof.
  intros [Hn Hm Hh Hg HQ HqQ Hi Hsq Hedge]. apply Forall_cons in HQ as [Hx HQ]. destruct HqQ as (Hlo & Hpos & Hle & Hfin & _).
  pose proof (gen_range _ _ Hx) as Hr. rewrite (g_next_fin _ _ Hm Hx) in *. unfold g_end in *.
  destruct (g_fin (bytes s) x); split_and!; try lia; intros; try done. split; [lia|auto].
Qed.

(** The loop that drops the segments that the new one covers: those left end behind it. *)
Lemma drop_covered_spec Q : forall n pcb t i s g edge,
  flow n pcb t i s g edge Q -> tcplen_is i (bytes s) g -> g_next (bytes s) g <= edge -> (g_fin (bytes s) g = true -> Q = []) ->
  exists Q' n' v s', ooseq_drop_covered custom_free n (g_seg <$> Q) = Ok (g_seg <$> Q', n')
    /\ flow n' pcb t (set_i_tcplen v i) s' g edge Q' /\ v = TCP_TCPLEN (bytes s') (g_seg g) /\ g_next (bytes s') g <= edge
    /\ g_next (bytes s) g <= g_next (bytes s') g
    /\ match Q' with [] => True | x :: _ => g_fin (bytes s') g = false /\ g_end g < g_end x end.
Proof.
  induction Q as [|x Q IH]; intros n pcb t i s g edge Hfl Htl Hge Hfin; cbn [fmap list_fmap ooseq_drop_covered].
  { exists [], n, (i_tcplen i), s. split_and!; [done| |done|done|lia|done]. by destruct i. }
  pose proof (flow_ends _ _ _ _ _ _ _ _ _ Hfl) as (Hx1 & Hx2 & Hx3).
  assert (Ef : g_fin (bytes s) g = false) by (destruct (g_fin (bytes s) g); [by discriminate Hfin|done]).
  pose proof (g_next_fin _ _ (fl_mem _ _ _ _ _ _ _ _ Hfl) (fl_g _ _ _ _ _ _ _ _ Hfl)) as En. rewrite Ef in En.
  pose proof (fl_edge _ _ _ _ _ _ _ _ Hfl) as Hedge. pose proof (Forall_inv (fl_Q _ _ _ _ _ _ _ _ Hfl)) as Hgx.
  pose proof (gen_range _ _ (fl_g _ _ _ _ _ _ _ _ Hfl)) as Hgr. unfold g_end at 1 in En.
  rewrite (seen_i _ _ _ _ _ (fl_seen _ _ _ _ _ _ _ _ Hfl)), (seen_mem _ _ _ _ _ (fl_seen _ _ _ _ _ _ _ _ Hfl)).
  rewrite (fl_seqno _ _ _ _ _ _ _ _ Hfl), Htl, u32_add_l. unfold rseg_end.
  rewrite (gen_seq _ _ Hgx), u32_add_l. change (g_pos g + _) with (g_next (bytes s) g). change (g_pos x + _) with (g_end x).
  rewrite seq_geq by (unfold near, g_end in *; lia). destruct (Z.leb_spec (g_end x) (g_next (bytes s) g)) as [Hc|Hc].
  2: { exists (x :: Q), n, (i_tcplen i), s. split_and!; [done|by destruct i|done|done|lia|done|unfold g_end in *; lia]. }
  rewrite (fl_inseg _ _ _ _ _ _ _ _ Hfl), (gen_syn _ _ (fl_g _ _ _ _ _ _ _ _ Hfl)), andb_true_r.
  change (rseg_fin (bytes s) (g_seg x)) with (g_fin (bytes s) x). destruct (g_fin (bytes s) x) eqn:Efx.
  - destruct (Hx3 eq_refl) as (Ex & ->). pose proof (gen_fin _ _ Hgx Efx) as Efin.
    pose proof (gen_end _ _ (fl_g _ _ _ _ _ _ _ _ Hfl)) as Hend.
    destruct (flow_set_fin _ _ _ _ _ _ _ _ Hfl) as (Hfl2 & Ef2 & Etl2); [unfold g_end in *; lia|unfold g_end in *; lia|].
    set (m' := TCPH_SET_FLAG (bytes s) (seg_tcphdr (g_seg g)) TCP_FIN) in *.
    change (mem (with_mem m' n)) with m'. assert (Ei : i_inseg (in_of n) = g_seg g).
    { rewrite (seen_i _ _ _ _ _ (fl_seen _ _ _ _ _ _ _ _ Hfl)). apply (fl_inseg _ _ _ _ _ _ _ _ Hfl). }
    destruct (flow_drop _ _ _ _ _ _ _ _ _ Hfl2) as (n3 & s3 & E3 & Hfl3 & Eb3). rewrite E3. cbn [res_bind ooseq_drop_covered].
    exists [], n3, (u16 (TCP_TCPLEN m' (g_seg g))), s3. rewrite Eb3. cbn [with_bytes bytes].
    pose proof (g_next_fin _ _ (fl_mem _ _ _ _ _ _ _ _ Hfl2) (fl_g _ _ _ _ _ _ _ _ Hfl2)) as En2. cbn [with_bytes bytes] in En2.
    rewrite Ef2 in En2. split_and!; [done|exact Hfl3|exact Etl2|unfold g_end in *; lia|unfold g_end in *; lia|done].
  - destruct (flow_drop _ _ _ _ _ _ _ _ _ Hfl) as (n3 & s3 & E3 & Hfl3 & Eb3). rewrite E3. cbn [res_bind].
    destruct (IH _ _ _ _ _ _ _ Hfl3) as (Q' & n' & v & s' & E' & Hfl' & Hrest); rewrite ?Eb3; [done|done|congruence|].
    rewrite Eb3 in Hrest. by exists Q', n', v, s'.
Qed.

Lemma tcplen_range m g : mem_ok m -> genuine m g -> is_u16 (TCP_TCPLEN m (g_seg g)).
Proof.
  intros Hm Hg. pose proof (gen_range _ _ Hg). rewrite tcplen_fin by (done || apply Hg). unfold is_u16, g_len in *.
  destruct (rseg_fin m (g_seg g)); lia.
Qed.

(** What the processing of the data does not change in the variables of the file. *)
Definition same_rest (i i' : tcp_in) : Prop := i_recv_data i' = i_recv_data i /\ i_recv_flags i' = i_recv_flags i.

Definition cut_seg (l : Z) (g : gseg) (bl : list (Z * pbuf)) : gseg := mk_g (g_pos g) (set_seg_len l (g_seg g)) bl.

(** The first [l] bytes of a genuine segment without FIN are one. *)
Lemma genuine_cut m g l bl :
  genuine m g -> g_fin m g = false -> 0 <= l <= g_len g -> first bl = first (g_bl g) -> total bl = l ->
  cdata m bl = take (Z.to_nat l) (cdata m (g_bl g)) -> genuine m (cut_seg l g bl).
Proof.
  intros [Hp Hl Hr Hq Hd He Hf Hs] Hfin Hl' Ef Et Ed. unfold g_fin in *.
  unfold g_end, g_len, rseg_fin, rseg_syn, rseg_seqno in *.
  split; unfold g_fin, g_end, g_len, rseg_fin, rseg_syn, rseg_seqno; cbn [cut_seg g_bl g_seg g_pos set_seg_len seg_p seg_len seg_tcphdr].
  - by rewrite Ef.
  - done.
  - lia.
  - done.
  - rewrite Ed, Hd. by apply take_stream.
  - lia.
  - congruence.
  - done.
Qed.

Lemma cut_inseg_spec n pcb t i s g edge Q l :
  flow n pcb t i s g edge Q -> g_fin (bytes s) g = false -> 0 <= l <= g_len g ->
  exists n' bl s' i', cut_inseg custom_free n l = Ok n' /\ flow n' pcb t i' s' (cut_seg l g bl) edge Q
    /\ bytes s' = bytes s /\ same_rest i i' /\ i_tcplen i' = l /\ tcplen_is i' (bytes s') (cut_seg l g bl)
    /\ g_fin (bytes s') (cut_seg l g bl) = false.
Proof.
  intros Hfl Hfin Hl. pose proof Hfl as [Hn Hm Hh Hg HQ HqQ Hi Hsq Hedge]. unfold cut_inseg.
  rewrite (seen_i _ _ _ _ _ Hn), Hi, (seen_mem _ _ _ _ _ Hn), (gen_syn _ _ Hg), (seen_s _ _ _ _ _ Hn).
  destruct (held_realloc custom_free s (g_chunk g) (g_chunk <$> Q) l Hh) as (s' & bl & E & Hh' & Eb & Ef & Et & Ed).
  { cbn [g_chunk c_bl]. rewrite (gen_len _ _ Hg). done. }
  cbn [set_seg_len seg_p]. rewrite (gen_p _ _ Hg). cbn [g_chunk c_bl c_hdr] in *. rewrite E. cbn [res_bind].
  pose proof (genuine_cut _ g l bl Hg Hfin Hl Ef Et (Ed _)) as Hg'.
  change (set_seg_len l (g_seg g)) with (g_seg (cut_seg l g bl)).
  assert (Etl : TCP_TCPLEN (bytes s) (g_seg (cut_seg l g bl)) = l).
  { rewrite tcplen_fin by (done || apply Hg'). unfold g_fin, rseg_fin in *. cbn [cut_seg g_seg set_seg_len seg_len seg_tcphdr].
    rewrite Hfin. lia. }
  change (mem (with_packets s' n)) with (bytes s'). rewrite Eb, Etl, u16_id by (unfold is_u16, g_len in *; pose proof (gen_range _ _ Hg) as Hr; unfold g_len in Hr; lia).
  eexists _, bl, s', (set_i_tcplen l (set_i_inseg (g_seg (cut_seg l g bl)) i)). split_and!; [done| |done|done|done|by rewrite Eb|by rewrite Eb].
  split; rewrite ?Eb; try done.
  exact (seen_upd_in _ _ _ _ _ (fun i => set_i_tcplen l (set_i_inseg (g_seg (cut_seg l g bl)) i)) (seen_packets _ _ _ _ s s' Hn)).
Qed.

(** A FIN that lies beyond the window is taken off. *)
Lemma clear_fin_flow n pcb t i s g edge Q :
  flow n pcb t i s g edge Q ->
  exists n' s',
    (if rseg_fin (bytes s) (g_seg g) then with_mem (set_tcph_flags_off (bytes s) (seg_tcphdr (g_seg g)) TCP_FIN) n else n) = n'
    /\ flow n' pcb t i s' g edge Q /\ g_fin (bytes s') g = false.
Proof.
  intros Hfl. pose proof Hfl as [Hn Hm Hh Hg HQ HqQ Hi Hsq Hedge]. destruct (rseg_fin (bytes s) (g_seg g)) eqn:Ef.
  2: { by exists n, s. }
  destruct (clear_fin_seg s g Q Hh Hm Hg) as (Hm' & Hg' & Hfin' & Ha).
  set (m' := set_tcph_flags_off _ _ _) in *. eexists _, (with_bytes m' s). split_and!; [done| |exact Hfin'].
  destruct (flow_mem n pcb t i s g edge Q m' (fun i => i) Hfl Hm' Hg' Ha eq_refl eq_refl) as [[Ht2 Hi2 Hs2] ? ? ? ? ? ? ? ?].
  by split.
Qed.

(** The segment is cut at the end of the window. *)
Lemma fit_to_wnd_spec n pcb t i s g edge Q :
  flow n pcb t i s g edge Q -> t_rcv_nxt t = u32 (g_pos g) -> edge = g_pos g + t_rcv_wnd t -> 0 <= t_rcv_wnd t ->
  exists n' g' i' s', fit_to_wnd custom_free n pcb = Ok n' /\ flow n' pcb t i' s' g' edge Q /\ same_rest i i'
    /\ tcplen_is i' (bytes s') g' /\ g_pos g' = g_pos g /\ g_next (bytes s') g' = Z.min (g_next (bytes s) g) edge.
Proof.
  intros Hfl Hnxt Hedge Hw. pose proof Hfl as [Hn Hm Hh Hg HQ HqQ Hi Hsq He]. unfold fit_to_wnd.
  rewrite (seen_at _ _ _ _ _ Hn). cbn [res_bind].
  set (f := fun i => set_i_tcplen (u16 (TCP_TCPLEN (mem n) (i_inseg i))) i).
  pose proof (tcplen_range _ _ Hm Hg) as Hu. pose proof (g_next_fin _ _ Hm Hg) as En. unfold g_end, g_next in En.
  pose proof (gen_range _ _ Hg) as Hgr. pose proof (seen_upd_in _ _ _ _ _ f Hn) as Hn1.
  assert (Hfl1 : flow (upd_in n f) pcb t (f i) s g edge Q) by (by split).
  assert (Htl : i_tcplen (f i) = TCP_TCPLEN (bytes s) (g_seg g)).
  { cbn. by rewrite (seen_mem _ _ _ _ _ Hn), Hi, u16_id. }
  rewrite (seen_i _ _ _ _ _ Hn1), Htl, (fl_inseg _ _ _ _ _ _ _ _ Hfl1), (seen_mem _ _ _ _ _ Hn1).
  destruct (Z.ltb_spec (t_rcv_wnd t) (TCP_TCPLEN (bytes s) (g_seg g))) as [Hlt|Hge].
  2: { exists (upd_in n f), g, (f i), s. split_and!; [done|done|done|done|done|unfold g_next; lia]. }
  destruct (clear_fin_flow _ _ _ _ _ _ _ _ Hfl1) as (n2 & s2 & E2 & Hfl2 & Ef2). rewrite E2.
  destruct (cut_inseg_spec _ _ _ _ _ _ _ _ (t_rcv_wnd t) Hfl2 Ef2) as (n3 & bl & s3 & i3 & E3 & Hfl3 & Eb3 & Hr3 & Etl3 & Htl3 & Ef3).
  { destruct (g_fin (bytes s) g); lia. }
  rewrite E3. cbn [res_bind]. pose proof (fl_seen _ _ _ _ _ _ _ _ Hfl3) as Hn3. pose proof (fl_seqno _ _ _ _ _ _ _ _ Hfl3) as Hs3.
  cbn [cut_seg g_pos] in Hs3. rewrite (seen_i _ _ _ _ _ Hn3), Etl3, Hs3, Hnxt, Z.eqb_refl. cbn [lwip_assert res_bind].
  eexists n3, _, i3, s3. split_and!; [done|exact Hfl3|exact Hr3|exact Htl3|done|].
  unfold g_next. unfold tcplen_is in Htl3. rewrite <- Htl3, Etl3. cbn [cut_seg g_pos]. lia.
Qed.

Lemma flow_put n pcb t i s g edge Q t' : flow n pcb t i s g edge Q -> flow (put_tcp n pcb t') pcb t' i s g edge Q.
Proof. intros [Hn Hm Hh Hg HQ HqQ Hi Hsq He]. split; try done. by eapply seen_put. Qed.

(** The queue starts where the segment ends, or behind. *)
Definition behind (m : memory) (g : gseg) (edge : Z) (Q : list gseg) : Prop :=
  queued m (g_next m g) edge Q /\ (g_fin m g = true -> Q = []).

(** The segment reaches position [k], alone or together with the first of the queue. *)
Definition reaches (m : memory) (g : gseg) (Q : list gseg) (k : Z) : Prop :=
  k <= g_next m g \/ match Q with [] => False | x :: _ => g_pos x = g_next m g /\ k < g_end x end.

Lemma cut_overlap n pcb t i s g edge x Q :
  flow n pcb t i s g edge (x :: Q) -> tcplen_is i (bytes s) g -> g_fin (bytes s) g = false -> g_end g < g_end x ->
  exists n' g' i' s',
    (if TCP_SEQ_GT (u32 (i_seqno (in_of n) + i_tcplen (in_of n))) (rseg_seqno (mem n) (g_seg x)) then
       let* n := cut_inseg custom_free n (u16 (rseg_seqno (mem n) (g_seg x) - i_seqno (in_of n))) in
       assert* (u32 (i_seqno (in_of n) + i_tcplen (in_of n)) =? rseg_seqno (mem n) (g_seg x)) in
       Ok n
     else Ok n) = Ok n'
    /\ flow n' pcb t i' s' g' edge (x :: Q) /\ same_rest i i' /\ tcplen_is i' (bytes s') g' /\ g_pos g' = g_pos g
    /\ g_fin (bytes s') g' = false /\ g_end g' <= g_pos x /\ reaches (bytes s') g' (x :: Q) (g_next (bytes s) g).
Proof.
  intros Hfl Htl Ef Hlt. pose proof Hfl as [Hn Hm Hh Hg HQ HqQ Hi Hsq He].
  pose proof (flow_ends _ _ _ _ _ _ _ _ _ Hfl) as (Hx1 & Hx2 & _). pose proof (Forall_inv HQ) as Hgx.
  pose proof (g_next_fin _ _ Hm Hg) as En. rewrite Ef in En. pose proof (gen_range _ _ Hg) as Hgr. unfold g_end at 1 in En.
  rewrite (seen_i _ _ _ _ _ Hn), (seen_mem _ _ _ _ _ Hn), Hsq, Htl, (gen_seq _ _ Hgx), u32_add_l.
  change (g_pos g + TCP_TCPLEN _ _) with (g_next (bytes s) g).
  rewrite seq_gt by (unfold near, g_end in *; lia). destruct (Z.ltb_spec (g_pos x) (g_next (bytes s) g)) as [Hc|Hc].
  2: { exists n, g, i, s. split_and!; try done; [unfold g_end in *; lia|left; lia]. }
  rewrite u16_sub_u32, u16_id by (unfold is_u16; lia).
  destruct (cut_inseg_spec _ _ _ _ _ _ _ _ (g_pos x - g_pos g) Hfl Ef) as (n3 & bl & s3 & i3 & E3 & Hfl3 & Eb3 & Hr3 & Etl3 & Htl3 & Ef3).
  { lia. }
  rewrite E3. cbn [res_bind]. pose proof (fl_seen _ _ _ _ _ _ _ _ Hfl3) as Hn3. pose proof (fl_seqno _ _ _ _ _ _ _ _ Hfl3) as Hs3.
  cbn [cut_seg g_pos] in Hs3. rewrite (seen_i _ _ _ _ _ Hn3), (seen_mem _ _ _ _ _ Hn3), Etl3, Hs3, Eb3, (gen_seq _ _ Hgx), u32_add_l.
  replace (g_pos g + (g_pos x - g_pos g)) with (g_pos x) by lia. rewrite Z.eqb_refl. cbn [lwip_assert res_bind].
  assert (Ee : g_end (cut_seg (g_pos x - g_pos g) g bl) = g_pos x) by (unfold g_end, g_len; cbn; lia).
  eexists n3, _, i3, s3. split_and!; [done|exact Hfl3|done|exact Htl3|done|exact Ef3|lia|].
  right. rewrite (g_next_fin _ _ (fl_mem _ _ _ _ _ _ _ _ Hfl3) (fl_g _ _ _ _ _ _ _ _ Hfl3)), Ef3, Ee. unfold g_end in *. lia.
Qed.

Lemma queued_behind n pcb t i s g edge x Q :
  flow n pcb t i s g edge (x :: Q) -> g_fin (bytes s) g = false -> g_end g <= g_pos x -> behind (bytes s) g edge (x :: Q).
Proof.
  intros [Hn Hm Hh Hg HQ HqQ Hi Hsq He] Ef Hle. split; [|congruence]. rewrite (g_next_fin _ _ Hm Hg), Ef.
  destruct HqQ as (_ & ?). split; [lia|done].
Qed.

Lemma set_ooseq_id t l : t_ooseq t = l -> set_ooseq l t = t.
Proof. intros <-. by destruct t. Qed.

(** The new segment and the queue: nothing overlaps afterwards. *)
Lemma ooseq_overlap_spec n pcb t i s g edge Q :
  flow n pcb t i s g edge Q -> tcplen_is i (bytes s) g -> g_next (bytes s) g <= edge -> t_ooseq t = g_seg <$> Q ->
  exists n' g' i' s' Q', ooseq_overlap custom_free n pcb = Ok n'
    /\ flow n' pcb (set_ooseq (g_seg <$> Q') t) i' s' g' edge Q' /\ same_rest i i' /\ tcplen_is i' (bytes s') g'
    /\ g_pos g' = g_pos g /\ g_next (bytes s') g' <= edge /\ behind (bytes s') g' edge Q'
    /\ reaches (bytes s') g' Q' (g_next (bytes s) g).
Proof.
  intros Hfl Htl Hge Hoo. pose proof Hfl as [Hn Hm Hh Hg HQ HqQ Hi Hsq He]. unfold ooseq_overlap.
  rewrite (seen_at _ _ _ _ _ Hn). cbn [res_bind]. rewrite Hoo. destruct Q as [|x Q].
  { exists n, g, i, s, []. split_and!; try done; [|by left].
    cbn [fmap list_fmap]. by rewrite set_ooseq_id. }
  rewrite (seen_i _ _ _ _ _ Hn), (seen_mem _ _ _ _ _ Hn), Hi. change (rseg_fin (bytes s) (g_seg g)) with (g_fin (bytes s) g).
  change (g_seg <$> x :: Q) with (g_seg x :: (g_seg <$> Q)). cbv beta iota.
  change (g_seg x :: (g_seg <$> Q)) with (g_seg <$> x :: Q). destruct (g_fin (bytes s) g) eqn:Ef.
  - destruct (segs_free_seen (x :: Q) n pcb t i s [g_chunk g] Hn) as (n' & s' & E & Hn' & Hh' & Eb).
    { eapply held_perm; [|exact Hh]. rewrite <- Permutation_cons_append. done. }
    { eapply Forall_impl; [exact HQ|]. intros ? Hx. apply Hx. }
    rewrite E. cbn [res_bind]. rewrite (upd_tcp_seen _ _ _ _ _ _ Hn').
    exists (put_tcp n' pcb (set_ooseq [] t)), g, i, s', []. rewrite Eb. split_and!; try done; [|by left].
    eapply flow_put. split; rewrite ?Eb; try done.
  - assert (Hno : g_fin (bytes s) g = true -> x :: Q = []) by (by rewrite Ef).
    destruct (drop_covered_spec _ _ _ _ _ _ _ _ Hfl Htl Hge Hno) as (Q' & n1 & v & s1 & E1 & Hfl1 & Hv & Hge1 & Hle1 & HQ').
    rewrite E1. cbn [res_bind]. destruct Q' as [|y Q'].
    + cbn [fmap list_fmap res_bind]. rewrite (upd_tcp_seen _ _ _ _ _ _ (fl_seen _ _ _ _ _ _ _ _ Hfl1)).
      eexists _, g, _, s1, []. split_and!; [done|eapply flow_put; exact Hfl1|done|done|done|done|done|by left].
    + destruct HQ' as (Ef1 & Hlt). change (g_seg <$> y :: Q') with (g_seg y :: (g_seg <$> Q')). cbv beta iota.
      change (g_seg y :: (g_seg <$> Q')) with (g_seg <$> y :: Q').
      destruct (cut_overlap _ _ _ _ _ _ _ _ _ Hfl1 Hv Ef1 Hlt) as (n2 & g2 & i2 & s2 & E2 & Hfl2 & Hr2 & Htl2 & Ep2 & Ef2 & Hend2 & Hre2).
      rewrite E2. cbn [res_bind]. rewrite (upd_tcp_seen _ _ _ _ _ _ (fl_seen _ _ _ _ _ _ _ _ Hfl2)).
      eexists _, g2, i2, s2, (y :: Q'). pose proof (flow_ends _ _ _ _ _ _ _ _ _ Hfl2) as (Hy1 & Hy2 & _).
      pose proof (g_next_fin _ _ (fl_mem _ _ _ _ _ _ _ _ Hfl2) (fl_g _ _ _ _ _ _ _ _ Hfl2)) as En2. rewrite Ef2 in En2.
      split_and!; [done|eapply flow_put; exact Hfl2|exact Hr2|exact Htl2|exact Ep2|lia|by eapply queued_behind|].
      destruct Hre2 as [Hre2|Hre2]; [left; lia|right; lia].
Qed.

(** ** The window and what has been delivered *)

(** The next position expected is [r], and the window ends at [edge]; [a] is the position of
    the right edge that has been announced. *)
Definition window_at (r edge : Z) (t : tcp_pcb) : Prop :=
  t_rcv_nxt t = u32 r /\ t_rcv_wnd t = edge - r /\ 0 <= edge - r <= TCP_WND /\ 0 <= t_mss t <= 65535
  /\ 0 <= t_rcv_ann_wnd t <= 65535
  /\ exists a, t_rcv_ann_right_edge t = u32 a /\ - 536870912 <= a - edge /\ a - r <= 65535.

Lemma advance_spec n pcb t i s r edge l :
  seen n pcb t i s -> window_at r edge t -> 0 <= l -> r + l <= edge ->
  exists n' t', advance n pcb (u32 (r + l)) l = Ok n' /\ seen n' pcb t' i s /\ window_at (r + l) edge t' /\ t_ooseq t' = t_ooseq t.
Proof.
  intros Hn (Hnx & Hw & Hwr & Hmss & Hann & a & Ha & Ha1 & Ha2) Hl Hle. unfold advance. rewrite (seen_at _ _ _ _ _ Hn). cbn [res_bind].
  rewrite (proj2 (Z.leb_le _ _)) by lia. cbn [lwip_assert res_bind].
  set (t1 := set_rcv_wnd _ (set_rcv_nxt _ t)). pose proof (seen_put _ _ _ _ _ t1 Hn) as Hn1.
  unfold TCP_WND in *.
  assert (Hlead : lead t1 = a - (r + l)).
  { unfold lead. change (t_rcv_nxt t1) with (u32 (r + l)). change (t_rcv_ann_right_edge t1) with (t_rcv_ann_right_edge t).
    rewrite Ha. apply seq_diff. lia. }
  assert (Hok : wnd_ok t1).
  { unfold wnd_ok. rewrite Hlead. change (t_rcv_wnd t1) with (t_rcv_wnd t - l). change (t_rcv_nxt t1) with (u32 (r + l)).
    change (t_rcv_ann_right_edge t1) with (t_rcv_ann_right_edge t). change (t_mss t1) with (t_mss t). rewrite Ha.
    pose proof (u32_range (r + l)). pose proof (u32_range a). unfold is_u32, TCP_WND in *. lia. }
  destruct (rcv_ann_spec t1 Hok) as (inf & E). unfold tcp_update_rcv_ann_wnd. rewrite (seen_at _ _ _ _ _ Hn1). cbn [res_bind].
  rewrite E. cbn [res_bind]. eexists _, _. split_and!; [done|eapply seen_put; exact Hn1| |done].
  assert (Hwd : 0 <= window (lead t1) (t_rcv_wnd t1) (t_mss t1) <= 65535).
  { rewrite Hlead. change (t_rcv_wnd t1) with (t_rcv_wnd t - l). unfold window. destruct (_ <=? _); lia. }
  unfold window_at, TCP_WND. split_and!; try done; try apply Hwd; try (cbn; lia). exists a. split_and!; [done|lia|lia].
Qed.

Definition olist (D : option chunk) : list chunk := match D with Some c => [c] | None => [] end.

(** The data [D] is what is to be passed to the application: the stream from [r0] to [r]. *)
Record delivered (m : memory) (i : tcp_in) (D : option chunk) (r0 r : Z) : Prop := {
  del_data : match D with
             | None => i_recv_data i = NULL /\ Z.min r fin_at = r0
             | Some c => i_recv_data i = first (c_bl c) /\ cdata m (c_bl c) = stream r0 (Z.min r fin_at - r0)
                         /\ total (c_bl c) = Z.min r fin_at - r0
             end;
  del_fin : has (i_recv_flags i) TF_GOT_FIN = (r =? fin_at + 1);
  del_range : r0 <= Z.min r fin_at /\ r <= fin_at + 1
}.

Lemma head_tot_len (s : Pbuf.state A) c : lives s c -> exists b, deref (pbufs s) (first (c_bl c)) = Ok b /\ tot_len b = total (c_bl c).
Proof.
  intros ((Hc & Hok & _) & _ & Hne & _). destruct (c_bl c) as [|[a b] bl]; [done|]. destruct Hc as (_ & _ & Hb & _).
  exists b. split; [by apply deref_ok|]. destruct Hok as (_ & Et & _). rewrite total_cons. done.
Qed.

(** The data of a segment of the queue goes behind what is there. *)
Lemma append_seg n pcb t i s D x Q r0 r :
  seen n pcb t i s -> held s (olist D ++ g_chunk x :: (g_chunk <$> Q)) -> genuine (bytes s) x ->
  delivered (bytes s) i D r0 (g_pos x) -> 0 < g_len x -> g_end x - r0 <= 65535 -> r = g_end x ->
  exists n' i' s' D',
    (let recv_data := i_recv_data (in_of n) in
     let* n := if negb (recv_data =? NULL)
               then let* s := pbuf_cat (packets n) recv_data (seg_p (g_seg x)) in Ok (with_packets s n)
               else Ok (upd_in n (set_i_recv_data (seg_p (g_seg x)))) in
     Ok (set_seg_p NULL (g_seg x), n)) = Ok (set_seg_p NULL (g_seg x), n')
    /\ seen n' pcb t i' s' /\ held s' (olist D' ++ (g_chunk <$> Q)) /\ bytes s' = bytes s
    /\ delivered (bytes s') i' D' r0 r /\ i_recv_flags i' = i_recv_flags i.
Proof.
  intros Hn Hh Hx [Hd Hfin Hrng] Hl Hbig ->. cbv zeta. rewrite (seen_i _ _ _ _ _ Hn), (seen_s _ _ _ _ _ Hn).
  pose proof (gen_end _ _ Hx) as Hend. pose proof (gen_range _ _ Hx) as Hr. unfold g_end in *.
  assert (Hfin' : (g_pos x =? fin_at + 1) = (g_pos x + g_len x =? fin_at + 1)) by lia.
  destruct D as [c|]; cbn [olist app] in *.
  - destruct Hd as (E & Ed & Et). destruct (held_cons _ _ _ Hh) as ((_ & _ & Hne & _) & _).
    rewrite E, (proj2 (Z.eqb_neq _ NULL)) by done. cbn [negb]. rewrite (gen_p _ _ Hx).
    destruct (held_cat s c (g_chunk x) (g_chunk <$> Q) Hh) as (s' & bl & Ec & Hh' & Eb & Ef & Et' & Ed').
    { cbn [g_chunk c_bl]. rewrite (gen_len _ _ Hx). lia. }
    cbn [g_chunk c_bl] in Ec. rewrite Ec. cbn [res_bind]. eexists _, i, s', (Some (mk_chunk (c_hdr c) bl)).
    split_and!; [done|by eapply seen_packets|exact Hh'|done| |done]. rewrite Eb. cbn [g_chunk c_bl] in *.
    split; [|congruence|lia]. cbn [c_bl]. rewrite Ed', Ed, (gen_data _ _ Hx), Et', Et, (gen_len _ _ Hx).
    split_and!; [congruence| |lia]. replace (Z.min (g_pos x + g_len x) fin_at - r0) with ((g_pos x - r0) + g_len x) by lia.
    rewrite stream_app by lia. do 2 f_equal; lia.
  - destruct Hd as (E & Er). rewrite E. cbn [NULL Z.eqb negb res_bind].
    eexists _, (set_i_recv_data (seg_p (g_seg x)) i), s, (Some (g_chunk x)).
    split_and!; [done|by apply seen_upd_in|exact Hh|done| |done]. split; [|cbn; congruence|lia]. cbn [g_chunk c_bl set_i_recv_data i_recv_data].
    rewrite (gen_data _ _ Hx), (gen_len _ _ Hx). split_and!; [apply Hx|f_equal; lia|lia].
Qed.

Lemma has_lor x f : f <> 0 -> has (Z.lor x f) f = true.
Proof.
  intros Hf. unfold has. assert (E : Z.land (Z.lor x f) f = f).
  { apply Z.bits_inj'. intros k _. rewrite Z.land_spec, Z.lor_spec. by destruct (Z.testbit x k), (Z.testbit f k). }
  rewrite E. by apply negb_true_iff, Z.eqb_neq.
Qed.

Lemma delivered_fin m i D r0 :
  delivered m i D r0 fin_at -> delivered m (set_i_recv_flags (Z.lor (i_recv_flags i) TF_GOT_FIN) i) D r0 (fin_at + 1).
Proof.
  intros [Hd _ Hr]. rewrite Z.min_id in Hd, Hr.
  assert (E : Z.min (fin_at + 1) fin_at = fin_at) by lia. split; rewrite ?E; [exact Hd| |lia].
  cbn [set_i_recv_flags i_recv_flags]. by rewrite has_lor, Z.eqb_refl.
Qed.

(** One segment of the queue, with or without data. *)
Lemma take_seg n pcb t i s D x Q r0 :
  seen n pcb t i s -> held s (olist D ++ g_chunk x :: (g_chunk <$> Q)) -> genuine (bytes s) x ->
  delivered (bytes s) i D r0 (g_pos x) -> g_end x - r0 <= 65535 ->
  exists b, pbuf_at n (seg_p (g_seg x)) = Ok b /\
  exists n' i' s' D' sg,
    (if 0 <? tot_len b then
       let recv_data := i_recv_data (in_of n) in
       let* n := if negb (recv_data =? NULL)
                 then let* s := pbuf_cat (packets n) recv_data (seg_p (g_seg x)) in Ok (with_packets s n)
                 else Ok (upd_in n (set_i_recv_data (seg_p (g_seg x)))) in
       Ok (set_seg_p NULL (g_seg x), n)
     else Ok (g_seg x, n)) = Ok (sg, n')
    /\ seen n' pcb t i' s' /\ bytes s' = bytes s /\ delivered (bytes s') i' D' r0 (g_end x) /\ seg_tcphdr sg = seg_tcphdr (g_seg x)
    /\ ((seg_p sg = NULL /\ held s' (olist D' ++ (g_chunk <$> Q)))
        \/ (seg_p sg = first (g_bl x) /\ held s' (olist D' ++ g_chunk x :: (g_chunk <$> Q)))).
Proof.
  intros Hn Hh Hx Hd Hbig. assert (Hlv : lives s (g_chunk x)).
  { pose proof (held_lives _ _ Hh) as Hl. apply Forall_app in Hl as [_ Hl]. by apply Forall_inv in Hl. }
  destruct (head_tot_len _ _ Hlv) as (b & Eb & Et). cbn [g_chunk c_bl] in Eb, Et. exists b.
  split; [unfold pbuf_at; by rewrite (seen_s _ _ _ _ _ Hn), (gen_p _ _ Hx)|]. rewrite Et, (gen_len _ _ Hx).
  destruct (Z.ltb_spec 0 (g_len x)) as [Hl|Hl].
  - destruct (append_seg n pcb t i s D x Q r0 _ Hn Hh Hx Hd Hl Hbig eq_refl) as (n' & i' & s' & D' & E & Hn' & Hh' & Ebs & Hd' & _).
    exists n', i', s', D', (set_seg_p NULL (g_seg x)). split_and!; [exact E|done|done|done|done|by left].
  - exists n, i, s, D, (g_seg x). pose proof (gen_range _ _ Hx). unfold g_end in *. replace (g_len x) with 0 in * by lia.
    rewrite Z.add_0_r. split_and!; try done. right. split; [apply Hx|done].
Qed.

(** The segment is freed, its data only if it has not been passed on. *)
Lemma free_taken n pcb t i s sg D x Q :
  seen n pcb t i s ->
  ((seg_p sg = NULL /\ held s (olist D ++ (g_chunk <$> Q)))
   \/ (seg_p sg = first (g_bl x) /\ held s (olist D ++ g_chunk x :: (g_chunk <$> Q)))) ->
  exists n' s', tcp_seg_free custom_free n sg = Ok n' /\ seen n' pcb t i s' /\ held s' (olist D ++ (g_chunk <$> Q)) /\ bytes s' = bytes s.
Proof.
  intros Hn [(Hp & Hh)|(Hp & Hh)].
  - unfold tcp_seg_free. rewrite Hp. cbn [NULL Z.eqb negb res_bind]. eexists _, s. split_and!; [done| |done|done].
    destruct Hn as [Ht Hi Hs]. by split.
  - apply (seg_free_seen n pcb t i s sg (g_chunk x)); [done| |done]. eapply held_perm; [|exact Hh].
    symmetry. apply Permutation_middle.
Qed.

(** The segments of the queue that continue the data are delivered. *)
Lemma ooseq_deliver_spec r0 edge Q : forall n pcb t i s D r,
  seen n pcb t i s -> mem_ok (bytes s) -> held s (olist D ++ (g_chunk <$> Q)) -> Forall (genuine (bytes s)) Q ->
  queued (bytes s) r edge Q -> window_at r edge t -> t_ooseq t = g_seg <$> Q -> delivered (bytes s) i D r0 r ->
  edge - r0 <= 65535 ->
  exists r' Q' n' t' i' s' D', ooseq_deliver custom_free n pcb (g_seg <$> Q) = Ok n' /\ seen n' pcb t' i' s' /\ bytes s' = bytes s
    /\ held s' (olist D' ++ (g_chunk <$> Q')) /\ Forall (genuine (bytes s')) Q' /\ queued (bytes s') (r' + 1) edge Q'
    /\ window_at r' edge t' /\ t_ooseq t' = g_seg <$> Q' /\ delivered (bytes s') i' D' r0 r' /\ r <= r'
    /\ match Q with [] => True | x :: _ => g_pos x = r -> g_end x <= r' end.
Proof.
  induction Q as [|x Q IH]; intros n pcb t i s D r Hn Hm Hh HQ HqQ Hwin Hoo Hd Hbig.
  { exists r, [], n, t, i, s, D. cbn [fmap list_fmap ooseq_deliver]. by split_and!. }
  change (g_seg <$> x :: Q) with (g_seg x :: (g_seg <$> Q)). cbn [ooseq_deliver].
  pose proof HQ as HxQ. apply Forall_cons in HQ as [Hx HQ]. pose proof Hwin as (Hnx & _ & Hwr & _). unfold TCP_WND in Hwr.
  pose proof (gen_range _ _ Hx) as Hr. pose proof (g_next_fin _ _ Hm Hx) as En. pose proof HqQ as (Hlo & Hpos & Hle & Hfin & HqQ').
  rewrite (seen_at _ _ _ _ _ Hn). cbn [res_bind]. rewrite (seen_mem _ _ _ _ _ Hn), (gen_seq _ _ Hx), Hnx.
  rewrite seq_eqb by (unfold near, g_end in *; lia). destruct (Z.eqb_spec (g_pos x) r) as [Ep|Ep].
  2: { exists r, (x :: Q), n, t, i, s, D. split_and!; try done. split; [lia|]. by split_and!. }
  subst r. change (mem (upd_in n (set_i_seqno (u32 (g_pos x))))) with (mem n). rewrite (seen_mem _ _ _ _ _ Hn), u32_add_l.
  pose proof (seen_upd_in _ _ _ _ _ (set_i_seqno (u32 (g_pos x))) Hn) as Hn1. unfold g_end in En.
  destruct (advance_spec _ _ _ _ _ _ edge (TCP_TCPLEN (bytes s) (g_seg x)) Hn1 Hwin) as (n2 & t2 & E2 & Hn2 & Hwin2 & Hoo2);
    [unfold g_next in *; lia|unfold g_next in *; lia|]. rewrite E2. cbn [res_bind].
  destruct (take_seg n2 pcb t2 _ s D x Q r0 Hn2 Hh Hx) as (b & Eb & n3 & i3 & s3 & D3 & sg & E3 & Hn3 & Ebs & Hd3 & Eh & Hsg).
  { destruct Hd as [Hd Hf Hdr]. by split. }
  { unfold g_end. destruct (g_fin (bytes s) x); lia. }
  rewrite Eb. cbn [res_bind]. cbv zeta in E3 |- *. rewrite E3. cbn [res_bind]. unfold rseg_fin at 1. rewrite Eh, (seen_mem _ _ _ _ _ Hn3), Ebs.
  change (has (TCPH_FLAGS (bytes s) (seg_tcphdr (g_seg x))) TCP_FIN) with (g_fin (bytes s) x).
  change (g_pos x + TCP_TCPLEN _ _) with (g_next (bytes s) x) in Hwin2.
  assert (Hfins : exists n4 t4 i4,
    (if g_fin (bytes s) x then
       let n := upd_in n3 (fun i => set_i_recv_flags (Z.lor (i_recv_flags i) TF_GOT_FIN) i) in
       upd_tcp n pcb (fun t => if state_eqb (t_state t) ESTABLISHED then set_state CLOSE_WAIT t else t)
     else Ok n3) = Ok n4 /\ seen n4 pcb t4 i4 s3 /\ window_at (g_next (bytes s) x) edge t4 /\ delivered (bytes s3) i4 D3 r0 (g_next (bytes s) x)).
  { destruct (g_fin (bytes s) x) eqn:Ef.
    - pose proof (gen_fin _ _ Hx Ef) as Efin. rewrite Efin in Hd3. apply delivered_fin in Hd3.
      pose proof (seen_upd_in _ _ _ _ _ (fun i => set_i_recv_flags (Z.lor (i_recv_flags i) TF_GOT_FIN) i) Hn3) as Hn4.
      cbv zeta. rewrite (upd_tcp_seen _ _ _ _ _ _ Hn4). eexists _, _, _. split_and!; [done|eapply seen_put; exact Hn4| |].
      + cbv beta. destruct (state_eqb _ _); exact Hwin2.
      + replace (g_next (bytes s) x) with (fin_at + 1) by (unfold g_end in *; lia). exact Hd3.
    - exists n3, t2, i3. rewrite En. unfold g_end in Hd3. rewrite Z.add_0_r. rewrite En, Z.add_0_r in Hwin2. by split_and!. }
  destruct Hfins as (n4 & t4 & i4 & E4 & Hn4 & Hwin4 & Hd4). rewrite Ebs in Hd4. cbv zeta in E4 |- *. rewrite E4. cbn [res_bind].
  rewrite (upd_tcp_seen _ _ _ _ _ _ Hn4). cbn [res_bind]. pose proof (seen_put _ _ _ _ _ (set_ooseq (g_seg <$> Q) t4) Hn4) as Hn5.
  destruct (free_taken _ _ _ _ _ _ _ _ _ Hn5 Hsg) as (n6 & s6 & E6 & Hn6 & Hh6 & Eb6). rewrite E6. cbn [res_bind].
  destruct (IH n6 pcb _ i4 s6 D3 (g_next (bytes s) x) Hn6) as (r' & Q' & n' & t' & i' & s' & D' & E' & Hn' & Eb' & Hrest); rewrite ?Eb6, ?Ebs; try done.
  { destruct (g_fin (bytes s) x); [by rewrite (Hfin eq_refl)|]. rewrite En, Z.add_0_r. done. }
  exists r', Q', n', t', i', s', D'. destruct Hrest as (? & ? & ? & ? & ? & ? & ? & _). split_and!; try done.
  - congruence.
  - unfold g_next in *. lia.
  - intros _. unfold g_end. destruct (g_fin (bytes s) x); lia.
Qed.

(** ** Data in order *)

Lemma held_tail (s : Pbuf.state A) c cs : held s (c :: cs) -> held s cs.
Proof. intros Hh. apply (held_cons _ _ _ Hh). Qed.

Lemma tcp_ack_spec n pcb t i s r edge :
  seen n pcb t i s -> window_at r edge t ->
  exists n' t', tcp_ack n pcb = Ok n' /\ seen n' pcb t' i s /\ window_at r edge t' /\ t_ooseq t' = t_ooseq t.
Proof.
  intros Hn Hw. unfold tcp_ack. rewrite (seen_at _ _ _ _ _ Hn). cbn [res_bind].
  destruct (has _ _); eexists _, _; (split_and!; [done|eapply seen_put; exact Hn|exact Hw|done]).
Qed.

(** What the application is going to get from the new segment itself. *)
Lemma take_inseg n pcb t i s g edge Q :
  flow n pcb t i s g edge Q -> i_recv_data i = NULL -> has (i_recv_flags i) TF_GOT_FIN = false ->
  exists b, pbuf_at n (seg_p (i_inseg i)) = Ok b /\
  exists n' i' D,
    (let n := if 0 <? tot_len b
              then upd_in n (fun i => set_i_inseg (set_seg_p NULL (i_inseg i)) (set_i_recv_data (seg_p (i_inseg i)) i))
              else n in
     if rseg_fin (mem n) (i_inseg i)
     then upd_in n (fun i => set_i_recv_flags (Z.lor (i_recv_flags i) TF_GOT_FIN) i) else n) = n'
    /\ seen n' pcb t i' s /\ held s (olist D ++ (g_chunk <$> Q)) /\ delivered (bytes s) i' D (g_pos g) (g_next (bytes s) g).
Proof.
  intros [Hn Hm Hh Hg HQ HqQ Hi Hsq He] Hrd Hrf. destruct (held_cons _ _ _ Hh) as (Hlv & _).
  destruct (head_tot_len _ _ Hlv) as (b & Eb & Et). cbn [g_chunk c_bl] in Eb, Et. exists b. rewrite Hi.
  split; [unfold pbuf_at; by rewrite (seen_s _ _ _ _ _ Hn), (gen_p _ _ Hg)|]. cbv zeta. rewrite Et, (gen_len _ _ Hg).
  pose proof (gen_range _ _ Hg) as Hr. pose proof (gen_end _ _ Hg) as Hend. pose proof (g_next_fin _ _ Hm Hg) as En.
  set (n1 := if 0 <? g_len g then _ else n).
  assert (Hd : exists i1 D, seen n1 pcb t i1 s /\ held s (olist D ++ (g_chunk <$> Q)) /\ delivered (bytes s) i1 D (g_pos g) (g_end g)).
  { unfold n1. destruct (Z.ltb_spec 0 (g_len g)) as [Hl|Hl].
    - eexists _, (Some (g_chunk g)). split_and!; [apply seen_upd_in; exact Hn|exact Hh|].
      unfold g_end in *. split; cbn [set_i_inseg set_i_recv_data i_recv_data i_recv_flags g_chunk c_bl]; [|rewrite Hrf; lia|lia].
      rewrite Hi, (gen_data _ _ Hg), (gen_len _ _ Hg). split_and!; [apply Hg|f_equal; lia|lia].
    - exists i, None. split_and!; [exact Hn|by eapply held_tail|]. unfold g_end in *. split; [split; [done|lia]|rewrite Hrf; lia|lia]. }
  destruct Hd as (i1 & D & Hn1 & Hh1 & Hd1). rewrite (seen_mem _ _ _ _ _ Hn1).
  change (rseg_fin (bytes s) (g_seg g)) with (g_fin (bytes s) g). destruct (g_fin (bytes s) g) eqn:Ef.
  - eexists _, _, D. split_and!; [done|apply seen_upd_in; exact Hn1|done|]. cbv beta. pose proof (gen_fin _ _ Hg Ef) as Efin.
    rewrite En, Efin. apply delivered_fin. by rewrite <- Efin.
  - exists n1, i1, D. rewrite En, Z.add_0_r. by split_and!.
Qed.

Lemma receive_in_order_spec n pcb t i s g edge Q :
  flow n pcb t i s g edge Q -> window_at (g_pos g) edge t -> t_ooseq t = g_seg <$> Q ->
  i_recv_data i = NULL -> has (i_recv_flags i) TF_GOT_FIN = false ->
  exists r' Q' n' t' i' s' D', receive_in_order custom_free n pcb = Ok n' /\ seen n' pcb t' i' s' /\ mem_ok (bytes s')
    /\ held s' (olist D' ++ (g_chunk <$> Q')) /\ Forall (genuine (bytes s')) Q' /\ queued (bytes s') (r' + 1) edge Q'
    /\ window_at r' edge t' /\ t_ooseq t' = g_seg <$> Q' /\ delivered (bytes s') i' D' (g_pos g) r'
    /\ Z.min (g_next (bytes s) g) edge <= r'.
Proof.
  intros Hfl Hwin Hoo Hrd Hrf. unfold receive_in_order. pose proof Hwin as (Hnx & Hw & Hwr & _).
  destruct (fit_to_wnd_spec _ _ _ _ _ _ _ _ Hfl Hnx ltac:(lia) ltac:(lia)) as (n1 & g1 & i1 & s1 & E1 & Hfl1 & (Hrd1 & Hrf1) & Htl1 & Ep1 & En1).
  rewrite E1. cbn [res_bind].
  destruct (ooseq_overlap_spec _ _ _ _ _ _ _ _ Hfl1 Htl1 ltac:(lia) Hoo)
    as (n2 & g2 & i2 & s2 & Q2 & E2 & Hfl2 & (Hrd2 & Hrf2) & Htl2 & Ep2 & Hle2 & (HqQ2 & Hfin2) & Hre2).
  rewrite E2. cbn [res_bind]. pose proof (fl_seen _ _ _ _ _ _ _ _ Hfl2) as Hn2.
  rewrite (seen_i _ _ _ _ _ Hn2), (fl_seqno _ _ _ _ _ _ _ _ Hfl2), u32_add_l, Htl2.
  assert (Hwin2 : window_at (g_pos g2) edge (set_ooseq (g_seg <$> Q2) t)) by (rewrite Ep2, Ep1; exact Hwin).
  pose proof (tcplen_range _ _ (fl_mem _ _ _ _ _ _ _ _ Hfl2) (fl_g _ _ _ _ _ _ _ _ Hfl2)) as Hu2. unfold is_u16 in Hu2.
  destruct (advance_spec _ _ _ _ _ _ _ (TCP_TCPLEN (bytes s2) (g_seg g2)) Hn2 Hwin2) as (n3 & t3 & E3 & Hn3 & Hwin3 & Hoo3);
    [lia|unfold g_next in *; lia|]. rewrite E3. cbn [res_bind].
  change (g_pos g2 + TCP_TCPLEN (bytes s2) (g_seg g2)) with (g_next (bytes s2) g2) in Hwin3.
  assert (Hfl3 : flow n3 pcb t3 i2 s2 g2 edge Q2) by (by destruct Hfl2; split).
  destruct (take_inseg _ _ _ _ _ _ _ _ Hfl3) as (b & Eb & n4 & i4 & D & E4 & Hn4 & Hh4 & Hd4); [congruence|congruence|].
  rewrite Eb. cbn [res_bind]. cbv zeta in E4 |- *. rewrite E4. rewrite (seen_at _ _ _ _ _ Hn4). cbn [res_bind]. rewrite Hoo3.
  rewrite Ep2, Ep1 in Hd4. unfold TCP_WND in *.
  destruct (ooseq_deliver_spec (g_pos g) edge Q2 n4 pcb t3 i4 s2 D (g_next (bytes s2) g2) Hn4)
    as (r' & Q' & n5 & t5 & i5 & s5 & D' & E5 & Hn5 & Eb5 & Hh5 & HQ5 & HqQ5 & Hwin5 & Hoo5 & Hd5 & Hrr & Hre5);
    try done; try apply Hfl3; [lia|].
  change (t_ooseq (set_ooseq (g_seg <$> Q2) t)) with (g_seg <$> Q2). rewrite E5. cbn [res_bind].
  destruct (tcp_ack_spec _ _ _ _ _ _ _ Hn5 Hwin5) as (n6 & t6 & E6 & Hn6 & Hwin6 & Hoo6). rewrite E6.
  exists r', Q', n6, t6, i5, s5, D'. split_and!; try done; [rewrite Eb5; apply Hfl3|congruence|].
  rewrite <- En1. destruct Hre2 as [Hre2|Hre2]; [lia|]. destruct Q2 as [|x Q2]; [done|]. destruct Hre2 as (Ex & Hlt).
  specialize (Hre5 Ex). lia.
Qed.

(** ** A segment that starts with old data *)

Definition emptied (nt : Z) (bl : list (Z * pbuf)) : list (Z * pbuf) :=
  (fun ab => (fst ab, with_len 0 (with_tot_len nt (snd ab)))) <$> bl.

Lemma emptied_fst nt bl : fst <$> emptied nt bl = fst <$> bl.
Proof. unfold emptied. rewrite <- list_fmap_compose. by apply list_fmap_ext. Qed.

Lemma emptied_data m nt bl : cdata m (emptied nt bl) = [] /\ total (emptied nt bl) = 0.
Proof.
  induction bl as [|[a b] bl IH]; [done|]. change (emptied nt ((a, b) :: bl)) with ((a, with_len 0 (with_tot_len nt b)) :: emptied nt bl).
  rewrite cdata_cons, total_cons. destruct IH as [-> ->]. done.
Qed.

Lemma skip_old_spec bl : forall fuel (s : Pbuf.state A) p off nt,
  chain (pbufs s) p bl -> Forall (fun ab => 0 <= len (snd ab)) bl -> 1 <= off <= total bl -> (length bl < fuel)%nat ->
  exists bl1 q b bl2 h', bl = bl1 ++ (q, b) :: bl2 /\ 1 <= off - total bl1 <= len b
    /\ skip_old fuel s p off nt = Ok (q, off - total bl1, with_pbufs h' s)
    /\ cseg h' p (emptied nt bl1) q /\ frame (pbufs s) h' (fst <$> bl1).
Proof.
  induction bl as [|[a b] bl IH]; intros [|fuel] s p off nt Hc Hl Hoff Hf; cbn [length] in Hf; try lia;
    [change (total []) with 0 in Hoff; lia|].
  pose proof (chain_NoDup _ _ _ Hc) as Hnd. cbn [fmap list_fmap fst] in Hnd. apply NoDup_cons in Hnd as [Hna _].
  destruct Hc as (-> & Hne & Hb & Hc). apply Forall_cons in Hl as [Hlb Hl]. cbn [snd] in Hlb. rewrite total_cons in Hoff.
  cbn [skip_old]. rewrite (deref_ok _ _ _ Hb). cbn [res_bind]. destruct (Z.ltb_spec (len b) off) as [Hlt|Hge].
  - rewrite (upd_ok _ _ _ _ Hb). cbn [res_bind].
    destruct (IH fuel (with_pbufs (<[a := with_len 0 (with_tot_len nt b)]> (pbufs s)) s) (next b) (off - len b) nt)
      as (bl1 & q & c & bl2 & h' & E & Hrng & Es & Hs & Hfr); [|done|lia|lia|].
    { cbn [with_pbufs pbufs]. eapply chain_frame; [|exact Hc]. intros x Hx. rewrite lookup_insert_ne; [done|]. by intros <-. }
    exists ((a, b) :: bl1), q, c, bl2, h'. rewrite total_cons. cbn [with_pbufs pbufs] in Hfr. rewrite Es, with_pbufs_twice.
    replace (off - (len b + total bl1)) with (off - len b - total bl1) by lia.
    split_and!; [by rewrite E|lia|lia|done| |by eapply frame_insert].
    change (emptied nt ((a, b) :: bl1)) with ((a, with_len 0 (with_tot_len nt b)) :: emptied nt bl1).
    cbn [cseg]. split_and!; [done|done| |done]. rewrite Hfr; [by rewrite lookup_insert_eq|].
    intros Hin. apply Hna. rewrite E, fmap_app, elem_of_app. by left.
  - exists [], a, b, bl, (pbufs s). change (total []) with 0. rewrite Z.sub_0_r. cbn [app emptied fmap list_fmap cseg].
    split_and!; [done|lia|lia|by destruct s|done|by intros x ?].
Qed.

Lemma lens_ok_emptied nt bl1 bl2 : lens_ok bl2 -> total bl2 = nt -> lens_ok (emptied nt bl1 ++ bl2).
Proof.
  intros Hok Ht. induction bl1 as [|[a b] bl1 IH]; [done|].
  change (emptied nt ((a, b) :: bl1)) with ((a, with_len 0 (with_tot_len nt b)) :: emptied nt bl1). cbn [app lens_ok].
  rewrite total_app, (proj2 (emptied_data ∅ nt bl1)). cbn [with_len with_tot_len len tot_len]. split_and!; [lia|lia|done].
Qed.

(** The chunk without its first [off] bytes. *)
Lemma held_trim (s : Pbuf.state A) c cs bl1 q b bl2 h' off nt :
  held s (c :: cs) -> c_bl c = bl1 ++ (q, b) :: bl2 -> 1 <= off - total bl1 <= len b -> nt = total (c_bl c) - off ->
  cseg h' (first (c_bl c)) (emptied nt bl1) q -> frame (pbufs s) h' (fst <$> bl1) ->
  let b' := moved (- (off - total bl1)) b in let bl := emptied nt bl1 ++ (q, b') :: bl2 in
  h' !! q = Some b /\ held (with_pbufs (<[q := b']> h') s) (mk_chunk (c_hdr c) bl :: cs)
  /\ first bl = first (c_bl c) /\ total bl = nt /\ (forall m, cdata m bl = drop (Z.to_nat off) (cdata m (c_bl c))).
Proof.
  intros Hh E Hoff Hnt Hs Hfr b' bl. pose proof (held_lives _ _ Hh) as Hl. apply Forall_inv in Hl as ((Hc & Hok & Ht) & Hp & Hne & _).
  pose proof (chain_NoDup _ _ _ Hc) as Hnd. rewrite E in Hc, Hok, Ht, Hnt, Hnd. rewrite fmap_app in Hnd. cbn [fmap list_fmap fst] in Hnd.
  apply NoDup_app in Hnd as (_ & Hd & Hnd). apply NoDup_cons in Hnd as [Hq2 _].
  assert (Hq1 : q ∉ fst <$> bl1) by (intros Hin; apply (Hd q Hin); left).
  apply cseg_chain in Hc as (q' & Hc1 & (-> & Hqne & Hqb & Hc2)). rewrite total_app, total_cons in Ht, Hnt.
  pose proof (lens_ok_app _ _ Hok) as (Hlb & Etb & Hok2). pose proof (lens_ok_nonneg _ Hok2) as Hnn.
  assert (Hfirst : first bl = first (c_bl c)) by (rewrite E; by destruct bl1 as [|[] ?]).
  assert (Htot : total bl = nt).
  { unfold bl. rewrite total_app, (proj2 (emptied_data ∅ nt bl1)), total_cons. cbn [b' moved len]. lia. }
  pose proof (lens_ok_len _ Hok) as Hlens. apply Forall_app in Hlens as [Hlens _]. pose proof (total_nonneg _ Hlens) as Hnn1.
  split_and!; [by rewrite Hfr| |done|done|].
  - apply (held_less s c cs); [done| |done| | |].
    + split_and!; [| |lia].
      * apply cseg_chain. exists q. split.
        -- eapply cseg_frame; [|exact Hs]. intros a Ha. rewrite emptied_fst in Ha. rewrite lookup_insert_ne; [done|]. by intros <-.
        -- cbn [chain]. rewrite lookup_insert_eq. split_and!; try done. cbn [b' moved next]. eapply chain_frame; [|exact Hc2].
           intros a Ha. rewrite lookup_insert_ne by (by intros <-). apply Hfr. intros Hin. apply (Hd a Hin). by right.
      * apply lens_ok_emptied; [cbn [lens_ok b' moved len tot_len]; split_and!; [lia|lia|done]|].
        rewrite total_cons. cbn [b' moved len]. lia.
    + intros a Ha. unfold addrs in Ha. rewrite E, fmap_app, not_elem_of_app in Ha. destruct Ha as [Ha1 Ha2].
      cbn [fmap list_fmap fst] in Ha2. apply not_elem_of_cons in Ha2 as [Ha2 _]. rewrite lookup_insert_ne by done. by apply Hfr.
    + unfold bl. rewrite E. apply Forall_app. split; [|constructor].
      * apply Forall_forall. intros ab' Hin. unfold emptied in Hin. apply list_elem_of_fmap in Hin as ([a c'] & -> & Hin). cbn [fst snd].
        rewrite Forall_forall in Hlens. specialize (Hlens _ Hin). cbn [snd] in Hlens.
        exists c'. split; [apply elem_of_app; by left|]. split; [|done]. split_and!; cbn; [done|done|lia|lia].
      * exists b. split; [apply elem_of_app; right; left|]. split; [|done]. split_and!; cbn; [done|done|lia|lia].
      * apply Forall_forall. intros [a c'] Hin. exists c'. split; [apply elem_of_app; right; by right|].
        split; [|done]. split_and!; cbn; [done|done|lia|lia].
    + unfold bl, addrs. rewrite E, !fmap_app, emptied_fst. done.
  - intros m. unfold bl. rewrite E, !cdata_app, !cdata_cons, (proj1 (emptied_data m nt bl1)). cbn [app b' moved len payload].
    assert (Hlen1 : Z.of_nat (length (cdata m bl1)) = total bl1) by (by eapply prefix_length).
    rewrite drop_app_ge by lia. rewrite drop_app_le by (rewrite length_rd; lia). f_equal. rewrite drop_rd. f_equal; lia.
Qed.

(** [pbuf_header] that moves forward inside a pbuf. *)
Lemma header_forward (s : Pbuf.state A) L q b k :
  wf s L -> pbufs s !! q = Some b -> q <> NULL -> is_custom b = false -> 1 <= k <= len b -> k <= 32767 ->
  len b <= tot_len b <= 65535 ->
  pbuf_header s q (- k) = Ok (false, with_pbufs (<[q := moved (- k) b]> (pbufs s)) s).
Proof.
  intros Hw Hb Hne Hcu Hk Hk2 Hl. unfold pbuf_header. rewrite (header_spec s q b (- k) false Hb Hne) by (unfold lens_fit, is_s16; lia).
  assert (Eok : header_ok q b (- k) false = true).
  { unfold header_ok. rewrite (proj2 (Z.ltb_ge 0 (- k))) by lia. rewrite (proj2 (Z.leb_le (- - k) (len b))) by lia. cbn [orb andb].
    unfold room_ok. destruct (wf_placed _ _ Hw q b Hb) as (o & nn & HL & Hin). destruct (Hin Hcu) as [_ Hbl]. unfold in_block in Hbl.
    destruct (type b) eqn:Et; try (rewrite (proj2 (Z.ltb_lt (- k) 0)) by lia; done);
      apply Z.leb_le; (specialize (Hbl (or_introl eq_refl)) || specialize (Hbl (or_intror eq_refl))); lia. }
  by rewrite Eok.
Qed.

Lemma wf_emptied (s : Pbuf.state A) L h' p bl1 bl2 q nt :
  wf s L -> chain (pbufs s) p (bl1 ++ bl2) -> lens_ok (bl1 ++ bl2) -> cseg h' p (emptied nt bl1) q ->
  frame (pbufs s) h' (fst <$> bl1) -> wf (with_pbufs h' s) L.
Proof.
  intros Hw Hc Hok Hs Hfr. apply (wf_less s L h' Hw). intros x d Hd. destruct (decide (x ∈ fst <$> bl1)) as [Hin|Hin].
  - apply list_elem_of_fmap in Hin as ([y e] & -> & Hin). cbn [fst] in *. exists e. split.
    { apply (chain_lookup _ _ _ y e Hc). apply elem_of_app. by left. }
    assert (Hy : (y, with_len 0 (with_tot_len nt e)) ∈ emptied nt bl1)
      by (by apply (list_elem_of_fmap_2 (fun ab => (fst ab, with_len 0 (with_tot_len nt (snd ab)))) bl1 (y, e))).
    rewrite (cseg_lookup _ _ _ _ _ _ Hs Hy) in Hd. injection Hd as <-. pose proof (lens_ok_len _ Hok) as Hlens.
    apply Forall_app in Hlens as [Hlens _]. rewrite Forall_forall in Hlens. specialize (Hlens _ Hin). cbn [snd] in Hlens.
    split_and!; cbn; [done|done|lia|lia].
  - exists d. rewrite <- (Hfr x Hin). split; [done|]. split_and!; [done|done|lia|lia].
Qed.

(** What is left of the chunk [c] in [s'] when its first [off] bytes are cut off. *)
Definition trimmed (s s' : Pbuf.state A) (c : chunk) (cs : list chunk) (off : Z) (bl : list (Z * pbuf)) : Prop :=
  held s' (mk_chunk (c_hdr c) bl :: cs) /\ bytes s' = bytes s /\ first bl = first (c_bl c)
  /\ total bl = total (c_bl c) - off /\ (forall m, cdata m bl = drop (Z.to_nat off) (cdata m (c_bl c))).

Lemma trim_header n pcb t i s c cs bl1 q b bl2 h' off :
  seen n pcb t i s -> held s (c :: cs) -> c_bl c = bl1 ++ (q, b) :: bl2 -> 1 <= off - total bl1 <= len b -> off < 32767 ->
  cseg h' (first (c_bl c)) (emptied (total (c_bl c) - off) bl1) q -> frame (pbufs s) h' (fst <$> bl1) ->
  exists n' s' bl, header (with_packets (with_pbufs h' s) n) q (s16 (- (off - total bl1))) = Ok (false, n')
    /\ seen n' pcb t i s' /\ trimmed s s' c cs off bl.
Proof.
  intros Hn Hh E Hrng Hsmall Hs Hfr. pose proof Hh as [[L Hw] Hl _]. apply Forall_inv in Hl as ((Hc & Hok & Ht) & Hp & Hne & _).
  destruct (held_trim s c cs bl1 q b bl2 h' off _ Hh E Hrng eq_refl Hs Hfr) as (Hq & Hh' & Hf' & Ht' & Hd').
  rewrite E in Hc, Hok, Ht, Hp. pose proof (lens_ok_len _ Hok) as Hlens. apply Forall_app in Hlens as [Hlens _].
  pose proof (total_nonneg _ Hlens). pose proof (lens_ok_app _ _ Hok) as (Hlc & Etc & Hok2). pose proof (lens_ok_nonneg _ Hok2).
  rewrite total_app, total_cons in Ht. assert (Es : s16 (- (off - total bl1)) = - (off - total bl1)) by (unfold s16; zlia).
  rewrite Es. unfold header, on_packets. assert (Hqne : q <> NULL) by (by apply chain_suffix in Hc as (_ & ? & _)).
  apply Forall_app in Hp as [_ Hp]. apply Forall_inv in Hp as (_ & Hcu & _). cbn [with_packets packets].
  rewrite (header_forward _ L q b); [|by eapply wf_emptied; rewrite <- ?E in *|done|done|done|lia|lia|lia].
  cbn [res_bind]. rewrite with_pbufs_twice. eexists _, _, _. split_and!; [done|eapply seen_packets, seen_packets, Hn|].
  by split_and!.
Qed.

Lemma trim_pbufs n pcb t i s c cs p off :
  seen n pcb t i s -> held s (c :: cs) -> p = first (c_bl c) -> 1 <= off <= total (c_bl c) -> off < 32767 ->
  exists b, pbuf_at n p = Ok b /\
  exists n' s' bl,
    (if len b <? off then
       assert* (off <=? tot_len b) in
       let* (p, off, s) := skip_old (walk_fuel (pbufs (packets n))) (packets n) p off (u16 (tot_len b - off)) in
       header (with_packets s n) p (s16 (- off))
     else header n p (s16 (- off))) = Ok (false, n')
    /\ seen n' pcb t i s' /\ trimmed s s' c cs off bl.
Proof.
  intros Hn Hh -> Hoff Hsmall. pose proof Hh as [_ Hl _]. apply Forall_inv in Hl as Hlv. pose proof Hlv as ((Hc & Hok & Ht) & _ & Hne & _).
  destruct (head_tot_len _ _ Hlv) as (b & Eb & Et). exists b. unfold pbuf_at. rewrite (seen_s _ _ _ _ _ Hn). split; [done|].
  destruct c as [hdr [|[a b0] bl0]]; [done|]. cbn [c_bl first] in *. pose proof Hc as (_ & _ & Hb & _).
  rewrite (deref_ok _ _ _ Hb) in Eb. injection Eb as ->. destruct (Z.ltb_spec (len b) off) as [Hlt|Hge].
  - rewrite Et, (proj2 (Z.leb_le off _)) by lia. cbn [lwip_assert res_bind]. rewrite u16_id by (unfold is_u16; lia).
    destruct (skip_old_spec _ (walk_fuel (pbufs s)) s a off (total ((a, b) :: bl0) - off) Hc (lens_ok_len _ Hok) Hoff)
      as (bl1 & q & c' & bl2 & h' & E & Hrng & Es & Hs & Hfr); [by eapply chain_fuel|]. rewrite Es. cbn [res_bind].
    by eapply trim_header.
  - destruct (trim_header n pcb t i s _ cs [] a b bl0 (pbufs s) off Hn Hh) as (n' & s' & bl & E & Hrest);
      [done|change (total []) with 0; lia|done|done|by intros x ?|].
    exists n', s', bl. change (total []) with 0 in E. rewrite Z.sub_0_r in E. split; [|exact Hrest]. rewrite <- E. f_equal.
    rewrite <- (seen_s _ _ _ _ _ Hn). by destruct n as [[] ? ? ? ? ? ? ? ? ? ? ? ? ? ? ? ? ?].
Qed.

(** The old data of a segment is cut off: it starts at [r] afterwards. *)
Lemma trim_front_spec n pcb t i s g edge Q r :
  seen n pcb t i s -> mem_ok (bytes s) -> held s (g_chunk g :: (g_chunk <$> Q)) -> genuine (bytes s) g ->
  Forall (genuine (bytes s)) Q -> queued (bytes s) (r + 1) edge Q -> i_inseg i = g_seg g -> i_seqno i = u32 (g_pos g) ->
  t_rcv_nxt t = u32 r -> g_pos g < r <= g_end g -> r - g_pos g < 32767 -> edge - r <= 65535 ->
  exists n' i' s' g', trim_front n pcb = Ok n' /\ flow n' pcb t i' s' g' edge Q /\ same_rest i i'
    /\ g_pos g' = r /\ g_next (bytes s') g' = g_next (bytes s) g.
Proof.
  intros Hn Hm Hh Hg HQ HqQ Hi Hsq Hnx Hr Hsmall Hedge. unfold trim_front. rewrite (seen_at _ _ _ _ _ Hn). cbn [res_bind].
  rewrite (seen_i _ _ _ _ _ Hn), Hi, Hsq, Hnx, seq_diff, u16_sub_u32 by lia. cbv zeta.
  pose proof (gen_range _ _ Hg) as Hgr. unfold g_end in Hr. destruct (held_cons _ _ _ Hh) as ((_ & _ & Hne & _) & _). cbn [g_chunk c_bl] in Hne.
  rewrite (gen_p _ _ Hg), (proj2 (Z.eqb_neq _ NULL)), (proj2 (Z.ltb_lt _ _)) by done. cbn [negb lwip_assert res_bind].
  destruct (trim_pbufs n pcb t i s (g_chunk g) (g_chunk <$> Q) (first (g_bl g)) (r - g_pos g) Hn Hh eq_refl)
    as (b & Eb & n1 & s1 & bl & E1 & Hn1 & Hh1 & Ebs & Ef & Et & Ed); [cbn [g_chunk c_bl]; rewrite (gen_len _ _ Hg); lia|lia|].
  cbn [g_chunk c_bl c_hdr] in *. rewrite Eb. cbn [res_bind]. rewrite E1. cbn [res_bind negb lwip_assert].
  rewrite (u16_id (r - g_pos g)) by (unfold is_u16; lia). rewrite u16_id by (unfold is_u16, g_len in *; lia).
  set (g' := mk_g r (set_seg_len (seg_len (g_seg g) - (r - g_pos g)) (g_seg g)) bl).
  change (set_seg_len _ (g_seg g)) with (g_seg g'). change (seg_tcphdr (g_seg g')) with (seg_tcphdr (g_seg g)) in *.
  rewrite (seen_mem _ _ _ _ _ Hn1), Ebs.
  destruct (set_seqno_hdr (bytes s) (g_seg g) (u32 r) Hm (u32_range r)) as (Hm' & Hsq' & Hfl').
  set (m' := set_tcph_seqno (bytes s) (seg_tcphdr (g_seg g)) (u32 r)) in *.
  assert (Hh' : held s1 (g_chunk g' :: (g_chunk <$> Q))) by exact Hh1.
  destruct (agree_wr s1 g' Q 4 (le_bytes 4 (u32 r)) Hh') as (Ha & Edd); [lia|done|]. cbv zeta in Ha, Edd. rewrite Ebs in Ha, Edd.
  change (wr (bytes s) (seg_tcphdr (g_seg g') + 4) (le_bytes 4 (u32 r))) with m' in Ha, Edd.
  assert (Hlen : g_len g' = g_end g - r) by (unfold g_len, g_end; cbn; unfold g_len; lia).
  eexists _, (set_i_seqno (u32 r) (set_i_inseg (g_seg g') i)), (with_bytes m' s1), g'. split_and!; [done| |done|done|].
  2: { unfold g_next, TCP_TCPLEN. cbn [with_bytes bytes]. change (seg_tcphdr (g_seg g')) with (seg_tcphdr (g_seg g)). rewrite Hfl'. cbn. lia. }
  split.
  - exact (seen_upd_in _ _ _ _ _ (fun i => set_i_seqno (u32 r) (set_i_inseg (g_seg g') i)) (seen_with_mem _ _ _ _ _ m' Hn1)).
  - done.
  - by apply held_bytes.
  - cbn [with_bytes bytes]. split.
    + cbn. rewrite Ef. apply Hg.
    + cbn [g' g_bl]. rewrite Et, Hlen, (gen_len _ _ Hg). unfold g_end. lia.
    + rewrite Hlen. unfold g_end. lia.
    + exact Hsq'.
    + rewrite Edd, Hlen. cbn [g' g_bl g_pos]. rewrite Ed, (gen_data _ _ Hg), drop_stream by lia. unfold g_end. f_equal; lia.
    + unfold g_end at 1. rewrite Hlen. cbn [g' g_pos]. pose proof (gen_end _ _ Hg). lia.
    + unfold g_fin, rseg_fin. change (seg_tcphdr (g_seg g')) with (seg_tcphdr (g_seg g)). rewrite Hfl'. intros Hf.
      pose proof (gen_fin _ _ Hg Hf). unfold g_end at 1. rewrite Hlen. cbn [g' g_pos]. lia.
    + unfold rseg_syn. change (seg_tcphdr (g_seg g')) with (seg_tcphdr (g_seg g)). rewrite Hfl'. apply Hg.
  - cbn [with_bytes bytes]. by eapply genuine_agrees.
  - cbn [with_bytes bytes g' g_pos]. by eapply queued_agrees.
  - done.
  - done.
  - done.
Qed.

End Receive.

End Stream.
