(* ===== verification/TcpOos.v ===== *)
(** * Segments out of order: the queue pcb->ooseq of lwip/src/core/tcp_in.c

    [queue_ooseq], with [tcp_oos_insert_segment], puts a copy of the segment that has been
    received into the queue: the queue stays sorted by position, without overlaps, and holds
    nothing but bytes of the stream.  The first part is about one segment [g] in front of the
    segments [Q] that it may cover; [G] are others that must stay as they are. *)

From S2P Require Import Prelude Def Ip4Addr InetChksum Mem Memp Pbuf PbufData PbufAlloc PbufOps Chunks.
From S2P Require Import TcpData Net Ip4 TcpBase TcpOut Tcp TcpRecv TcpWnd TcpSeq TcpStream.

Section Oos.
Variable byte_at : Z -> Z.
Variable fin_at : Z.
Local Abbreviation genuine := (TcpStream.genuine byte_at fin_at).
Context {A W : Type} `{AllocSpec A} `{FragPool A}.
Variable custom_free : Z -> Z -> Pbuf.state A -> res (Pbuf.state A).
Implicit Types n : net A W.

(** ** Inserting a segment in front of others *)

Record oflow n (pcb : Z) (t : tcp_pcb) (i : tcp_in) (s : Pbuf.state A) (g : gseg) (edge : Z) (Q G : list gseg) : Prop := {
  of_seen : seen n pcb t i s;
  of_mem : mem_ok (bytes s);
  of_held : held s (g_chunk g :: (g_chunk <$> Q) ++ (g_chunk <$> G));
  of_g : genuine (bytes s) g;
  of_Q : Forall (genuine (bytes s)) Q;
  of_queued : queued (bytes s) (g_pos g) edge Q;
  of_seqno : i_seqno i = u32 (g_pos g);
  of_edge : edge - g_pos g <= 65535
}.

Lemma of_ends n pcb t i s g edge x Q G :
  oflow n pcb t i s g edge (x :: Q) G ->
  g_pos g <= g_pos x <= g_end x /\ g_end x <= g_next (bytes s) x <= edge
  /\ (g_fin (bytes s) x = true -> g_next (bytes s) x = g_end x + 1 /\ Q = []).
Proof.
  intros [Hn Hm Hh Hg HQ HqQ Hsq Hedge]. apply Forall_cons in HQ as [Hx HQ]. destruct HqQ as (Hlo & Hpos & Hle & Hfin & _).
  pose proof (gen_range _ _ _ _ Hx) as Hr. rewrite (g_next_fin _ _ _ _ Hm Hx) in *. unfold g_end in *.
  destruct (g_fin (bytes s) x); split_and!; try lia; intros; try done. split; [lia|auto].
Qed.

(** A covered segment leaves the queue. *)
Lemma of_drop n pcb t i s g edge x Q G :
  oflow n pcb t i s g edge (x :: Q) G ->
  exists n' s', tcp_seg_free custom_free n (g_seg x) = Ok n' /\ oflow n' pcb t i s' g edge Q G /\ bytes s' = bytes s.
Proof.
  intros [Hn Hm Hh Hg HQ HqQ Hsq Hedge]. apply Forall_cons in HQ as [Hx HQ]. cbn [fmap list_fmap app] in Hh.
  destruct (seg_free_seen custom_free n pcb t i s (g_seg x) (g_chunk x)
    (g_chunk g :: (g_chunk <$> Q) ++ (g_chunk <$> G)) Hn) as (n' & s' & E & Hn' & Hh' & Eb).
  { eapply held_perm; [|exact Hh]. apply Permutation_swap. }
  { apply Hx. }
  exists n', s'. split_and!; [done| |done]. destruct HqQ as (Hlo & Hpos & _ & _ & HqQ). pose proof (gen_range _ _ _ _ Hx).
  split; rewrite ?Eb; try done. eapply queued_weaken; [|exact HqQ]. unfold g_end. lia.
Qed.

(** The segment takes the FIN of one that it covers. *)
Lemma of_set_fin n pcb t i s g edge Q G :
  oflow n pcb t i s g edge Q G -> g_end g = fin_at ->
  let m' := TCPH_SET_FLAG (bytes s) (seg_tcphdr (g_seg g)) TCP_FIN in
  oflow (with_mem m' n) pcb t i (with_bytes m' s) g edge Q G /\ g_fin m' g = true /\ Forall (agree (bytes s) m') (Q ++ G).
Proof.
  intros [Hn Hm Hh Hg HQ HqQ Hsq Hedge] He m'. rewrite <- fmap_app in Hh.
  destruct (set_fin_seg _ _ s g (Q ++ G) Hh Hm Hg He) as (Hm' & Hg' & Hfin & Ha). fold m' in Hm', Hg', Hfin, Ha.
  split_and!; [|exact Hfin|exact Ha]. pose proof Ha as HaQ. apply Forall_app in HaQ as [HaQ _].
  split; cbn [with_bytes bytes]; try done;
    [by apply seen_with_mem|apply held_bytes; by rewrite <- fmap_app|by eapply genuine_agrees|by eapply queued_agrees].
Qed.

(** The first segment behind [g] starts behind it, or is shorter. *)
Definition later (g : gseg) (Q : list gseg) : Prop :=
  match Q with [] => True | x :: _ => g_pos g < g_pos x \/ g_len x < g_len g end.

Lemma of_later n pcb t i s g edge x Q G : oflow n pcb t i s g edge (x :: Q) G -> g_fin (bytes s) x = false -> later g Q.
Proof.
  intros Hfl Ef. pose proof (of_ends _ _ _ _ _ _ _ _ _ _ Hfl) as (Hx1 & Hx2 & _). destruct Hfl as [Hn Hm Hh Hg HQ HqQ Hsq Hedge].
  destruct HqQ as (_ & Hpos & _ & _ & HqQ). apply Forall_inv in HQ. rewrite (g_next_fin _ _ _ _ Hm HQ), Ef in Hpos.
  destruct Q as [|y Q]; [done|]. destruct HqQ as (Hy & _). left. lia.
Qed.

Lemma oos_drop_covered_spec Q : forall n pcb t i s g edge G,
  oflow n pcb t i s g edge Q G -> g_fin (bytes s) g = false -> g_end g <= edge -> later g Q ->
  exists Q' n' s', oos_drop_covered custom_free n (g_seg g) (g_seg <$> Q) = Ok (g_seg <$> Q', n')
    /\ oflow n' pcb t i s' g edge Q' G /\ Forall (agree (bytes s) (bytes s')) G /\ g_next (bytes s') g <= edge
    /\ match Q' with [] => True | x :: _ => g_fin (bytes s') g = false /\ g_end g < g_end x /\ g_pos g < g_pos x end.
Proof.
  induction Q as [|x Q IH]; intros n pcb t i s g edge G Hfl Ef Hge Hlt; cbn [fmap list_fmap oos_drop_covered].
  { exists [], n, s. split_and!; [done|done|apply agrees_refl| |done].
    rewrite (g_next_fin _ _ _ _ (of_mem _ _ _ _ _ _ _ _ _ Hfl) (of_g _ _ _ _ _ _ _ _ _ Hfl)), Ef. lia. }
  pose proof (of_ends _ _ _ _ _ _ _ _ _ _ Hfl) as (Hx1 & Hx2 & Hx3). pose proof Hfl as [Hn Hm Hh Hg HQ HqQ Hsq Hedge].
  pose proof (Forall_inv HQ) as Hgx. pose proof (gen_range _ _ _ _ Hg) as Hgr.
  rewrite (seen_i _ _ _ _ _ Hn), (seen_mem _ _ _ _ _ Hn), Hsq, u32_add_l. unfold rseg_end.
  rewrite (gen_seq _ _ _ _ Hgx), u32_add_l. change (g_pos g + _) with (g_end g). change (g_pos x + _) with (g_end x).
  rewrite seq_geq by (unfold near, g_end in *; lia). destruct (Z.leb_spec (g_end x) (g_end g)) as [Hc|Hc].
  2: { exists (x :: Q), n, s. split_and!; [done|done|apply agrees_refl| |done|done|]; [rewrite (g_next_fin _ _ _ _ Hm Hg), Ef; lia|]. cbn [later] in Hlt. unfold g_end in *. lia. }
  change (rseg_fin (bytes s) (g_seg x)) with (g_fin (bytes s) x). destruct (g_fin (bytes s) x) eqn:Efx.
  - destruct (Hx3 eq_refl) as (Ex & ->). pose proof (gen_fin _ _ _ _ Hgx Efx) as Efin. pose proof (gen_end _ _ _ _ Hg) as Hend.
    destruct (of_set_fin _ _ _ _ _ _ _ _ _ Hfl) as (Hfl2 & Ef2 & Ha2); [lia|].
    set (m' := TCPH_SET_FLAG (bytes s) (seg_tcphdr (g_seg g)) TCP_FIN) in *.
    destruct (of_drop _ _ _ _ _ _ _ _ _ _ Hfl2) as (n3 & s3 & E3 & Hfl3 & Eb3). rewrite E3. cbn [res_bind oos_drop_covered].
    exists [], n3, s3. rewrite Eb3. cbn [with_bytes bytes]. apply Forall_app in Ha2 as [_ Ha2].
    split_and!; [done|exact Hfl3|done| |done].
    pose proof (g_next_fin _ _ _ _ (of_mem _ _ _ _ _ _ _ _ _ Hfl2) (of_g _ _ _ _ _ _ _ _ _ Hfl2)) as En2. cbn [with_bytes bytes] in En2.
    rewrite En2, Ef2. lia.
  - destruct (of_drop _ _ _ _ _ _ _ _ _ _ Hfl) as (n3 & s3 & E3 & Hfl3 & Eb3). rewrite E3. cbn [res_bind].
    pose proof (of_later _ _ _ _ _ _ _ _ _ _ Hfl Efx) as Hlt'.
    destruct (IH _ _ _ _ _ _ _ _ Hfl3) as (Q' & n' & s' & E' & Hfl' & Hrest); rewrite ?Eb3; [done..|].
    rewrite Eb3 in Hrest. by exists Q', n', s'.
Qed.

(** The queue from [g] on, with [G] elsewhere. *)
Record placed_seg n (pcb : Z) (t : tcp_pcb) (i : tcp_in) (s : Pbuf.state A) (k edge : Z) (Q G : list gseg) : Prop := {
  pl_seen : seen n pcb t i s;
  pl_mem : mem_ok (bytes s);
  pl_held : held s ((g_chunk <$> Q) ++ (g_chunk <$> G));
  pl_Q : Forall (genuine (bytes s)) Q;
  pl_queued : queued (bytes s) k edge Q
}.

Lemma of_placed n pcb t i s g edge Q G :
  oflow n pcb t i s g edge Q G -> g_pos g < g_next (bytes s) g <= edge -> (g_fin (bytes s) g = true -> Q = []) ->
  match Q with [] => True | x :: _ => g_end g <= g_pos x end -> placed_seg n pcb t i s (g_pos g) edge (g :: Q) G.
Proof.
  intros [Hn Hm Hh Hg HQ HqQ Hsq Hedge] Hp Hf Hx. split; try done; [by constructor|].
  cbn [queued]. split_and!; [lia|lia|lia|done|]. destruct Q as [|x Q]; [done|]. destruct HqQ as (_ & HqQ). by split.
Qed.

(** A segment in front is cut where the next one starts. *)
Lemma of_cut n pcb t i s g edge x Q G :
  oflow n pcb t i s g edge (x :: Q) G -> g_fin (bytes s) g = false -> g_pos g < g_pos x <= g_end g ->
  exists bl s', pbuf_realloc custom_free s (seg_p (g_seg g)) (g_pos x - g_pos g) = Ok s'
    /\ oflow (with_packets s' n) pcb t i s' (cut_seg (g_pos x - g_pos g) g bl) edge (x :: Q) G
    /\ bytes s' = bytes s /\ g_fin (bytes s') (cut_seg (g_pos x - g_pos g) g bl) = false.
Proof.
  intros [Hn Hm Hh Hg HQ HqQ Hsq Hedge] Ef Hx. unfold g_end in Hx.
  destruct (held_realloc custom_free s _ _ (g_pos x - g_pos g) Hh) as (s' & bl & E & Hh' & Eb & Ef' & Et & Ed).
  { cbn [g_chunk c_bl]. rewrite (gen_len _ _ _ _ Hg). lia. }
  cbn [g_chunk c_bl c_hdr] in *. exists bl, s'. rewrite (gen_p _ _ _ _ Hg). split_and!; [exact E| |done|by rewrite Eb].
  split; rewrite ?Eb; try done; [by eapply seen_packets|]. apply genuine_cut; try done. lia.
Qed.

Lemma oos_insert_spec n pcb t i s g edge Q G :
  oflow n pcb t i s g edge Q G -> g_pos g < g_next (bytes s) g <= edge -> later g Q ->
  exists g' Q' n' s', tcp_oos_insert_segment custom_free n (g_seg g) (g_seg <$> Q) = Ok (g_seg <$> g' :: Q', n')
    /\ placed_seg n' pcb t i s' (g_pos g) edge (g' :: Q') G /\ g_pos g' = g_pos g /\ Forall (agree (bytes s) (bytes s')) G.
Proof.
  intros Hfl Hp Hlt. pose proof Hfl as [Hn Hm Hh Hg HQ HqQ Hsq Hedge]. unfold tcp_oos_insert_segment.
  rewrite (seen_mem _ _ _ _ _ Hn). change (rseg_fin (bytes s) (g_seg g)) with (g_fin (bytes s) g).
  pose proof (g_next_fin _ _ _ _ Hm Hg) as En. pose proof (gen_range _ _ _ _ Hg) as Hgr. destruct (g_fin (bytes s) g) eqn:Ef.
  - destruct (segs_free_seen custom_free Q n pcb t i s (g_chunk g :: (g_chunk <$> G)) Hn) as (n' & s' & E & Hn' & Hh' & Eb).
    { eapply held_perm; [|exact Hh]. apply Permutation_middle. }
    { eapply Forall_impl; [exact HQ|]. intros ? Hx. apply Hx. }
    rewrite E. cbn [res_bind]. exists g, [], n', s'. split_and!; [done| |done|rewrite Eb; apply agrees_refl].
    split; rewrite ?Eb; try done; [by constructor|]. cbn [queued]. split_and!; [lia|lia|lia|done|done].
  - destruct (oos_drop_covered_spec _ _ _ _ _ _ _ _ _ Hfl Ef ltac:(lia) Hlt) as (Q' & n1 & s1 & E1 & Hfl1 & Ha1 & Hle1 & HQ').
    rewrite E1. cbn [res_bind]. pose proof Hfl1 as [Hn1 Hm1 Hh1 Hg1 HQ1 HqQ1 Hsq1 _]. pose proof (g_next_fin _ _ _ _ Hm1 Hg1) as En1.
    destruct Q' as [|x Q'].
    { exists g, [], n1, s1. split_and!; [done| |done|done]. apply of_placed; try done. unfold g_end in *. destruct (g_fin (bytes s1) g); lia. }
    destruct HQ' as (Ef1 & Hend & Hpos). rewrite Ef1 in En1. change (g_seg <$> x :: Q') with (g_seg x :: (g_seg <$> Q')). cbv beta iota.
    pose proof (of_ends _ _ _ _ _ _ _ _ _ _ Hfl1) as (Hx1 & Hx2 & _). pose proof (Forall_inv HQ1) as Hgx.
    rewrite (seen_i _ _ _ _ _ Hn1), (seen_mem _ _ _ _ _ Hn1), Hsq1, (gen_seq _ _ _ _ Hgx), u32_add_l.
    change (g_pos g + seg_len (g_seg g)) with (g_end g). rewrite seq_gt by (unfold near, g_end in *; lia).
    destruct (Z.ltb_spec (g_pos x) (g_end g)) as [Hc|Hc].
    + rewrite u16_sub_u32, u16_id by (unfold is_u16; lia). rewrite (seen_s _ _ _ _ _ Hn1). cbv zeta.
      destruct (of_cut _ _ _ _ _ _ _ _ _ _ Hfl1 Ef1 ltac:(lia)) as (bl & s2 & E2 & Hfl2 & Eb2 & Ef2). rewrite E2. cbn [res_bind].
      set (g2 := cut_seg (g_pos x - g_pos g) g bl) in *. exists g2, (x :: Q'), (with_packets s2 n1), s2.
      split_and!; [done| |done|by rewrite Eb2]. change (g_pos g) with (g_pos g2).
      pose proof (g_next_fin _ _ _ _ (of_mem _ _ _ _ _ _ _ _ _ Hfl2) (of_g _ _ _ _ _ _ _ _ _ Hfl2)) as En2. rewrite Ef2 in En2.
      assert (Ee : g_end g2 = g_pos x) by (unfold g_end, g_len, g2; cbn; lia). assert (Ep : g_pos g2 = g_pos g) by done.
      apply of_placed; [done|lia|by rewrite Ef2|lia].
    + exists g, (x :: Q'), n1, s1. split_and!; [done| |done|done]. apply of_placed; [done|unfold g_end in *; lia|by rewrite Ef1|lia].
Qed.

(** ** The parts of a queue *)

Fixpoint ends (r : Z) (F : list gseg) : Z := match F with [] => r | g :: F' => ends (g_end g) F' end.

Definition no_fin (m : memory) (F : list gseg) : Prop := Forall (fun g => g_fin m g = false) F.

Lemma queued_app m F : forall r edge Q, Q <> [] ->
  queued m r edge (F ++ Q) <-> queued m r edge F /\ no_fin m F /\ queued m (ends r F) edge Q.
Proof.
  induction F as [|g F IH]; intros r edge Q HQ; cbn [app queued ends].
  { split; [intros; split_and!; [done|constructor|done]|by intros (_ & _ & ?)]. }
  rewrite IH by done. split.
  - intros (Hlo & Hpos & Hle & Hfin & HF & Hno & Hq). assert (Ef : g_fin m g = false).
    { destruct (g_fin m g); [|done]. specialize (Hfin eq_refl). by destruct F, Q. }
    split_and!; try done; [by rewrite Ef|by constructor].
  - intros ((Hlo & Hpos & Hle & Hfin & HF) & Hno & Hq). apply Forall_cons in Hno as [Ef Hno]. split_and!; try done. by rewrite Ef.
Qed.

Lemma ends_snoc r F p : ends r (F ++ [p]) = g_end p.
Proof. revert r. induction F as [|g F IH]; intros r; cbn [app ends]; [done|apply IH]. Qed.

Lemma ends_ge m F : forall r edge, Forall (genuine m) F -> queued m r edge F -> r <= ends r F.
Proof.
  induction F as [|g F IH]; intros r edge HF Hq; cbn [ends]; [lia|]. apply Forall_cons in HF as [Hg HF].
  destruct Hq as (Hlo & _ & _ & _ & Hq). specialize (IH _ _ HF Hq). pose proof (gen_range _ _ _ _ Hg). unfold g_end in *. lia.
Qed.

(** The last segment in front ends earlier. *)
Lemma queued_snoc m F p p' : forall r edge,
  queued m r edge (F ++ [p]) -> g_pos p' = g_pos p -> g_pos p' < g_next m p' <= edge -> queued m r edge (F ++ [p']).
Proof.
  intros r edge Hq Hp Hn. apply queued_app in Hq as (HF & Hf & (Hlo & _)); [|done]. apply queued_app; [done|]. split_and!; try done.
  cbn [queued]. split_and!; [lia|lia|lia|done|done].
Qed.

(** ** A copy of the segment, and trimming *)

Lemma seg_copy_spec n pcb t i s g cs :
  seen n pcb t i s -> held s (g_chunk g :: cs) -> genuine (bytes s) g -> head_ref (g_bl g) < 65535 ->
  tcp_seg_copy n (g_seg g) = Ok (None, n)
  \/ exists n' s' bl, tcp_seg_copy n (g_seg g) = Ok (Some (g_seg g), n') /\ seen n' pcb t i s' /\ bytes s' = bytes s
       /\ held s' (g_chunk (mk_g (g_pos g) (g_seg g) bl) :: cs) /\ genuine (bytes s') (mk_g (g_pos g) (g_seg g) bl).
Proof.
  intros Hn Hh Hg Hr. unfold tcp_seg_copy, seg_malloc. destruct (tcp_seg_pool (tcp n)) as [|k]; [by left|right].
  destruct (held_ref s (g_chunk g) cs Hh Hr) as (s' & bl & E & Hh' & Eb & Ef & Et & Ed). cbn [g_chunk c_bl c_hdr] in *.
  set (n1 := with_tcp _ n). assert (Hn1 : seen n1 pcb t i s) by (destruct Hn as [Ht Hi Hs]; by split).
  rewrite (seen_s _ _ _ _ _ Hn1), (gen_p _ _ _ _ Hg), E. cbn [res_bind]. eexists _, s', bl.
  split_and!; [done|by eapply seen_packets|done|done|]. rewrite Eb. destruct Hg as [Hp Hl Hrg Hq Hd He Hf Hs].
  split; try done; cbn [g_bl g_seg]; rewrite ?Ef, ?Et, ?Ed; done.
Qed.

(** A segment in front of position [k] is cut there. *)
Lemma trim_before_spec n pcb t i s p cs k edge :
  seen n pcb t i s -> held s (g_chunk p :: cs) -> genuine (bytes s) p -> mem_ok (bytes s) -> g_fin (bytes s) p = false ->
  i_seqno i = u32 k -> g_pos p < k -> k - g_pos p <= 65535 -> g_pos p < g_next (bytes s) p <= edge ->
  exists p' n' s', trim_before custom_free n (g_seg p) = Ok (g_seg p', n') /\ seen n' pcb t i s' /\ held s' (g_chunk p' :: cs)
    /\ bytes s' = bytes s /\ genuine (bytes s') p' /\ g_pos p' = g_pos p /\ g_end p' <= k
    /\ g_pos p' < g_next (bytes s') p' <= edge /\ g_fin (bytes s') p' = false.
Proof.
  intros Hn Hh Hg Hm Ef Hsq Hk Hk2 Hnx. unfold trim_before. pose proof (gen_range _ _ _ _ Hg) as Hr.
  pose proof (g_next_fin _ _ _ _ Hm Hg) as En. rewrite Ef in En.
  rewrite (seen_i _ _ _ _ _ Hn), (seen_mem _ _ _ _ _ Hn), Hsq. unfold rseg_end. rewrite (gen_seq _ _ _ _ Hg), u32_add_l.
  change (g_pos p + seg_len (g_seg p)) with (g_end p). rewrite seq_gt by (unfold near, g_end in *; lia).
  destruct (Z.ltb_spec k (g_end p)) as [Hc|Hc].
  2: { exists p, n, s. split_and!; try done; lia. }
  rewrite u16_sub_u32, u16_id by (unfold is_u16; lia). cbv zeta. rewrite (seen_s _ _ _ _ _ Hn), (gen_p _ _ _ _ Hg).
  unfold g_end in *. destruct (held_realloc custom_free s _ _ (k - g_pos p) Hh) as (s' & bl & E & Hh' & Eb & Ef' & Et & Ed).
  { cbn [g_chunk c_bl]. rewrite (gen_len _ _ _ _ Hg). lia. }
  cbn [g_chunk c_bl c_hdr] in *. rewrite E. cbn [res_bind].
  assert (Hg' : genuine (bytes s') (cut_seg (k - g_pos p) p bl)) by (rewrite Eb; apply genuine_cut; try done; lia).
  assert (Ef2 : g_fin (bytes s') (cut_seg (k - g_pos p) p bl) = false) by (by rewrite Eb).
  assert (En2 : g_next (bytes s') (cut_seg (k - g_pos p) p bl) = k).
  { assert (Hm' : mem_ok (bytes s')) by (by rewrite Eb). rewrite (g_next_fin _ _ _ _ Hm' Hg'), Ef2. unfold g_end, g_len. cbn. lia. }
  exists (cut_seg (k - g_pos p) p bl), (with_packets s' n), s'.
  split_and!; [done|by eapply seen_packets|done|done|done|done|unfold g_len; cbn; lia|rewrite En2; cbn; lia|lia|done].
Qed.

(** The last segment is cut at the end of the window. *)
Lemma trim_to_wnd_spec n pcb t i s g cs r edge :
  seen n pcb t i s -> held s (g_chunk g :: (g_chunk <$> cs)) -> genuine (bytes s) g -> mem_ok (bytes s) -> i_seqno i = u32 (g_pos g) ->
  i_tcplen i = TCP_TCPLEN (bytes s) (g_seg g) -> window_at r edge t -> r < g_pos g < edge -> g_pos g < g_next (bytes s) g ->
  exists g' n' i' s', trim_to_wnd custom_free n pcb (g_seg g) = Ok (g_seg g', n') /\ seen n' pcb t i' s' /\ same_rest i i'
    /\ held s' (g_chunk g' :: (g_chunk <$> cs)) /\ mem_ok (bytes s') /\ genuine (bytes s') g' /\ g_pos g' = g_pos g
    /\ g_pos g' < g_next (bytes s') g' <= edge /\ Forall (agree (bytes s) (bytes s')) cs.
Proof.
  intros Hn Hh Hg Hm Hsq Htl Hw Hk Hnx. unfold trim_to_wnd. rewrite (seen_at _ _ _ _ _ Hn). cbn [res_bind].
  pose proof Hw as (Hrn & Hrw & Hwr & _). unfold TCP_WND in Hwr. pose proof (gen_range _ _ _ _ Hg) as Hr.
  pose proof (g_next_fin _ _ _ _ Hm Hg) as En. unfold g_end in En.
  rewrite (seen_i _ _ _ _ _ Hn), (seen_mem _ _ _ _ _ Hn), Hsq, Htl, Hrn, Hrw, u32_add_l. replace (r + (edge - r)) with edge by lia.
  rewrite (Z.add_comm (TCP_TCPLEN _ _)), u32_add_l. change (g_pos g + TCP_TCPLEN _ _) with (g_next (bytes s) g).
  rewrite seq_gt by (unfold near; destruct (g_fin (bytes s) g); lia). destruct (Z.ltb_spec edge (g_next (bytes s) g)) as [Hc|Hc].
  2: { exists g, n, i, s. split_and!; try done; try lia. apply agrees_refl. }
  set (n1 := if rseg_fin (bytes s) (g_seg g) then _ else n).
  assert (Hclr : exists s1, seen n1 pcb t i s1 /\ held s1 (g_chunk g :: (g_chunk <$> cs)) /\ mem_ok (bytes s1) /\ genuine (bytes s1) g
                 /\ g_fin (bytes s1) g = false /\ Forall (agree (bytes s) (bytes s1)) cs).
  { unfold n1. destruct (rseg_fin (bytes s) (g_seg g)) eqn:Ef.
    2: { exists s. split_and!; try done. apply agrees_refl. }
    destruct (clear_fin_seg _ _ s g cs Hh Hm Hg) as (Hm' & Hg' & Hfin' & Ha).
    exists (with_bytes (set_tcph_flags_off (bytes s) (seg_tcphdr (g_seg g)) TCP_FIN) s).
    split_and!; [by apply seen_with_mem|by apply held_bytes|done|done|exact Hfin'|exact Ha]. }
  destruct Hclr as (s1 & Hn1 & Hh1 & Hm1 & Hg1 & Ef1 & Ha1). clearbody n1.
  rewrite u16_sub_u32, u16_id by (unfold is_u16; lia). cbn [set_seg_len seg_p seg_len].
  rewrite (seen_s _ _ _ _ _ Hn1), (gen_p _ _ _ _ Hg).
  destruct (held_realloc custom_free s1 _ _ (edge - g_pos g) Hh1) as (s' & bl & E & Hh' & Eb & Ef' & Et & Ed).
  { cbn [g_chunk c_bl]. rewrite (gen_len _ _ _ _ Hg1). destruct (g_fin (bytes s) g); lia. }
  cbn [g_chunk c_bl c_hdr] in *. rewrite E. cbn [res_bind]. set (g' := cut_seg (edge - g_pos g) g bl).
  change (set_seg_len (edge - g_pos g) (g_seg g)) with (g_seg g').
  assert (Hg' : genuine (bytes s') g') by (rewrite Eb; apply genuine_cut; try done; destruct (g_fin (bytes s) g); lia).
  assert (Hm' : mem_ok (bytes s')) by (by rewrite Eb). assert (Ef2 : g_fin (bytes s') g' = false) by (by rewrite Eb).
  assert (En2 : TCP_TCPLEN (bytes s') (g_seg g') = edge - g_pos g).
  { rewrite tcplen_fin by (done || apply Hg'). change (rseg_fin (bytes s') (g_seg g')) with (g_fin (bytes s') g'). rewrite Ef2. cbn. lia. }
  change (mem (with_packets s' n1)) with (bytes s'). rewrite En2, u16_id by (unfold is_u16; lia).
  rewrite u32_add_l. replace (g_pos g + (edge - g_pos g)) with edge by lia. rewrite Z.eqb_refl. cbn [lwip_assert res_bind].
  eexists g', _, (set_i_tcplen (edge - g_pos g) i), s'. split_and!; [done|apply seen_upd_in; by eapply seen_packets|done|done|done|done|done|..].
  - unfold g_next. rewrite En2. cbn [g' cut_seg g_pos]. lia.
  - unfold g_next. rewrite En2. cbn [g' cut_seg g_pos]. lia.
  - by rewrite Eb.
Qed.

(** ** Finding the place *)

(** A segment [g] has arrived on a connection whose queue is [Q]. *)
Record arrived n (pcb : Z) (t : tcp_pcb) (i : tcp_in) (s : Pbuf.state A) (g : gseg) (r edge : Z) (Q : list gseg) : Prop := {
  ar_seen : seen n pcb t i s;
  ar_mem : mem_ok (bytes s);
  ar_held : held s (g_chunk g :: (g_chunk <$> Q));
  ar_g : genuine (bytes s) g;
  ar_Q : Forall (genuine (bytes s)) Q;
  ar_queued : queued (bytes s) (r + 1) edge Q;
  ar_inseg : i_inseg i = g_seg g;
  ar_seqno : i_seqno i = u32 (g_pos g);
  ar_tcplen : i_tcplen i = TCP_TCPLEN (bytes s) (g_seg g);
  ar_len : 0 < TCP_TCPLEN (bytes s) (g_seg g);
  ar_ref : head_ref (g_bl g) < 65535;
  ar_win : window_at r edge t;
  ar_ooseq : t_ooseq t = g_seg <$> Q
}.

(** The queue [L] of a connection. *)
Record queue_ok n (pcb : Z) (t : tcp_pcb) (i : tcp_in) (s : Pbuf.state A) (r edge : Z) (L : list gseg) : Prop := {
  q_seen : seen n pcb t i s;
  q_mem : mem_ok (bytes s);
  q_held : held s (g_chunk <$> L);
  q_genuine : Forall (genuine (bytes s)) L;
  q_queued : queued (bytes s) (r + 1) edge L
}.

Lemma arrived_queue n pcb t i s g r edge Q : arrived n pcb t i s g r edge Q -> queue_ok n pcb t i s r edge Q.
Proof. intros []. split; try done. by eapply held_tail. Qed.

Lemma no_fin_agree m m' F : Forall (agree m m') F -> no_fin m F -> no_fin m' F.
Proof. unfold no_fin. rewrite !Forall_forall. intros Ha Hn g Hg. rewrite (agree_fin m m'); auto. Qed.

(** The segments in front and those from the new one on make up the queue. *)
Lemma assemble n pcb t i s r edge m F g Q :
  placed_seg n pcb t i s (g_pos g) edge (g :: Q) F -> queued m (r + 1) edge F -> no_fin m F -> Forall (genuine m) F ->
  Forall (agree m (bytes s)) F -> ends (r + 1) F <= g_pos g -> queue_ok n pcb t i s r edge (F ++ g :: Q).
Proof.
  intros [Hn Hm Hh HQ HqQ] HqF Hno HF Ha He. split; try done.
  - rewrite fmap_app. eapply held_perm; [|exact Hh]. apply Permutation_app_comm.
  - apply Forall_app. split; [by eapply genuine_agrees|done].
  - apply queued_app; [done|]. split_and!; [by eapply queued_agrees|by eapply no_fin_agree|by eapply queued_weaken].
Qed.

(** Inserting the copy [g] between [F] and [R]. *)
Lemma insert_between n pcb t i s g r edge F R :
  seen n pcb t i s -> mem_ok (bytes s) -> held s (g_chunk g :: (g_chunk <$> F ++ R)) -> genuine (bytes s) g ->
  Forall (genuine (bytes s)) F -> Forall (genuine (bytes s)) R -> queued (bytes s) (r + 1) edge F -> no_fin (bytes s) F ->
  queued (bytes s) (g_pos g) edge R -> later g R -> ends (r + 1) F <= g_pos g -> i_seqno i = u32 (g_pos g) ->
  g_pos g < g_next (bytes s) g <= edge -> edge - g_pos g <= 65535 ->
  exists L n' s', (let* (l, n) := tcp_oos_insert_segment custom_free n (g_seg g) (g_seg <$> R) in Ok ((g_seg <$> F) ++ l, n))
      = Ok (g_seg <$> L, n')
    /\ queue_ok n' pcb t i s' r edge L /\ exists x, x ∈ L /\ g_pos x = g_pos g.
Proof.
  intros Hn Hm Hh Hg HF HR HqF Hno HqR Hlt He Hsq Hnx Hedge.
  assert (Hfl : oflow n pcb t i s g edge R F).
  { split; try done. eapply held_perm; [|exact Hh]. rewrite fmap_app. apply perm_skip, Permutation_app_comm. }
  destruct (oos_insert_spec _ _ _ _ _ _ _ _ _ Hfl Hnx Hlt) as (g' & Q' & n' & s' & E & Hpl & Ep & Ha). rewrite E. cbn [res_bind].
  exists (F ++ g' :: Q'), n', s'. split_and!; [by rewrite fmap_app|rewrite <- Ep in *; by eapply assemble|].
  exists g'. split; [apply elem_of_app; right; left|done].
Qed.

Lemma upd_last_snoc f l x : upd_last f (l ++ [x]) = l ++ [f x].
Proof. induction l as [|y l IH]; [done|]. cbn [app upd_last]. rewrite IH. by destruct l. Qed.

Definition copied (g : gseg) (bl : list (Z * pbuf)) : gseg := mk_g (g_pos g) (g_seg g) bl.

(** The outcome of the search: the queue as it was, or with the new segment in it. *)
Definition queued_up (r0 : res (list tcp_seg * net A W)) (pcb : Z) (t : tcp_pcb) (i : tcp_in) (g : gseg) (r edge : Z) (Q : list gseg) : Prop :=
  exists L n' i' s', r0 = Ok (g_seg <$> L, n') /\ queue_ok n' pcb t i' s' r edge L /\ same_rest i i'
    /\ (L = Q \/ exists x, x ∈ L /\ g_pos x = g_pos g).

Lemma arrived_parts n pcb t i s g r edge F x R :
  arrived n pcb t i s g r edge (F ++ x :: R) ->
  Forall (genuine (bytes s)) F /\ Forall (genuine (bytes s)) (x :: R) /\ queued (bytes s) (r + 1) edge F /\ no_fin (bytes s) F
  /\ queued (bytes s) (ends (r + 1) F) edge (x :: R) /\ ends (r + 1) F <= g_pos x.
Proof.
  intros []. apply Forall_app in ar_Q0 as [HF HR]. apply queued_app in ar_queued0 as (HqF & Hno & HqR); [|done].
  split_and!; try done. apply HqR.
Qed.

Lemma queued_from m k r edge x R : queued m r edge (x :: R) -> k <= g_pos x -> queued m k edge (x :: R).
Proof. cbn [queued]. intros (_ & ?) ?. by split. Qed.

(** A copy goes in front of [x]; [F] stays as it is. *)
Lemma place_copy n pcb t i s g r edge F x R :
  arrived n pcb t i s g r edge (F ++ x :: R) -> r < g_pos g -> ends (r + 1) F <= g_pos g <= g_pos x -> later g (x :: R) ->
  g_next (bytes s) g <= edge ->
  queued_up (let* (c, n) := tcp_seg_copy n (g_seg g) in
             match c with
             | None => Ok ((g_seg <$> F) ++ (g_seg <$> x :: R), n)
             | Some cseg => let* (l, n) := tcp_oos_insert_segment custom_free n cseg (g_seg <$> x :: R) in Ok ((g_seg <$> F) ++ l, n)
             end) pcb t i g r edge (F ++ x :: R).
Proof.
  intros Har Hr Hk Hlt Hnx. pose proof (arrived_parts _ _ _ _ _ _ _ _ _ _ _ Har) as (HF & HR & HqF & Hno & HqR & _).
  pose proof Har as [Hn Hm Hh Hg _ _ Hi Hsq Htl Hpos Href (_ & _ & Hwr & _) _]. unfold TCP_WND in Hwr.
  destruct (seg_copy_spec _ _ _ _ _ _ _ Hn Hh Hg Href) as [E|(n1 & s1 & bl & E & Hn1 & Eb & Hh1 & Hg1)]; rewrite E; cbn [res_bind].
  { exists (F ++ x :: R), n, i, s. split_and!; [by rewrite <- fmap_app|by eapply arrived_queue|done|by left]. }
  change (g_seg g) with (g_seg (copied g bl)).
  rewrite Eb in Hg1. destruct (insert_between n1 pcb t i s1 (copied g bl) r edge F (x :: R)) as (L & n' & s' & E' & Hq & Hx);
    rewrite ?Eb; try done; try (cbn [copied g_pos]; lia).
  { eapply queued_from; [exact HqR|cbn [copied g_pos]; lia]. }
  { unfold g_next in *. cbn [copied g_pos g_seg]. lia. }
  rewrite E'. exists L, n', i, s'. split_and!; [done|done|done|by right].
Qed.

(** After the copy, the segment [p] in front is cut where the new one starts. *)
Lemma copy_trim n pcb t i s g r edge F p R :
  arrived n pcb t i s g r edge (F ++ p :: R) -> r < g_pos g < edge -> g_pos p < g_pos g -> g_fin (bytes s) p = false ->
  tcp_seg_copy n (g_seg g) = Ok (None, n)
  \/ exists n1 n2 s2 bl p', tcp_seg_copy n (g_seg g) = Ok (Some (g_seg g), n1) /\ trim_before custom_free n1 (g_seg p) = Ok (g_seg p', n2)
    /\ seen n2 pcb t i s2 /\ bytes s2 = bytes s /\ held s2 (g_chunk (copied g bl) :: (g_chunk <$> F ++ p' :: R))
    /\ genuine (bytes s) (copied g bl) /\ genuine (bytes s) p' /\ g_pos p' = g_pos p /\ g_end p' <= g_pos g
    /\ g_pos p' < g_next (bytes s) p' <= edge /\ g_fin (bytes s) p' = false.
Proof.
  intros Har Hr Hp Ef. pose proof (arrived_parts _ _ _ _ _ _ _ _ _ _ _ Har) as (HF & HR & HqF & Hno & HqR & He).
  pose proof Har as [Hn Hm Hh Hg _ HqQ Hi Hsq Htl Hpos Href (_ & _ & Hwr & _) _]. unfold TCP_WND in Hwr.
  assert (Hlow : r < g_pos p).
  { pose proof (ends_ge _ _ _ _ HF HqF). lia. }
  apply Forall_cons in HR as [Hgp HR]. destruct HqR as (_ & Hp1 & Hp2 & _ & _).
  destruct (seg_copy_spec _ _ _ _ _ _ _ Hn Hh Hg Href) as [E|(n1 & s1 & bl & E & Hn1 & Eb & Hh1 & Hg1)]; [by left|right].
  destruct (trim_before_spec n1 pcb t i s1 p (g_chunk (copied g bl) :: (g_chunk <$> F ++ R)) (g_pos g) edge Hn1)
    as (p' & n2 & s2 & E2 & Hn2 & Hh2 & Eb2 & Hg2 & Ep & Hend & Hnx & Ef'); rewrite ?Eb; try done; try lia.
  { eapply held_perm; [|exact Hh1]. rewrite !fmap_app. cbn [fmap list_fmap]. change (mk_g _ _ bl) with (copied g bl).
    rewrite <- Permutation_middle. apply Permutation_swap. }
  rewrite Eb2, Eb in *. exists n1, n2, s2, bl, p'. split_and!; try done; try lia.
  eapply held_perm; [|exact Hh2]. rewrite !fmap_app. cbn [fmap list_fmap]. rewrite <- Permutation_middle. apply Permutation_swap.
Qed.

(** A copy goes between [p], which is cut, and [x]. *)
Lemma place_trimmed n pcb t i s g r edge F p x R :
  arrived n pcb t i s g r edge ((F ++ [p]) ++ x :: R) -> r < g_pos g -> g_pos p < g_pos g < g_pos x -> g_next (bytes s) g <= edge ->
  queued_up (let* (c, n) := tcp_seg_copy n (g_seg g) in
             match c with
             | None => Ok ((g_seg <$> F ++ [p]) ++ (g_seg <$> x :: R), n)
             | Some cseg =>
                 let* (front, n) := (let* (prev, n) := trim_before custom_free n (g_seg p) in
                                     Ok (upd_last (fun _ => prev) (g_seg <$> F ++ [p]), n)) in
                 let* (l, n) := tcp_oos_insert_segment custom_free n cseg (g_seg <$> x :: R) in Ok (front ++ l, n)
             end) pcb t i g r edge ((F ++ [p]) ++ x :: R).
Proof.
  intros Har Hr Hk Hnx. pose proof (arrived_parts _ _ _ _ _ _ _ _ _ _ _ Har) as (HF & HR & HqF & Hno & HqR & _).
  pose proof Har as [Hn Hm Hh Hg _ _ Hi Hsq Htl Hpos Href (_ & _ & Hwr & _) _]. unfold TCP_WND in Hwr.
  pose proof Hno as Hno'. apply Forall_app in Hno' as [HnoF Hnop]. apply Forall_inv in Hnop. apply Forall_app in HF as [HF _].
  assert (Har' : arrived n pcb t i s g r edge (F ++ p :: x :: R)) by (by rewrite <- app_assoc in Har).
  assert (Hx : g_pos x < edge) by (destruct HqR as (_ & ? & ? & _); lia).
  destruct (copy_trim _ _ _ _ _ _ _ _ _ _ _ Har' ltac:(lia) ltac:(lia) Hnop)
    as [E|(n1 & n2 & s2 & bl & p' & E & E2 & Hn2 & Eb & Hh2 & Hg2 & Hgp & Ep & Hend & Hnxp & Efp)]; rewrite E; cbn [res_bind].
  { exists ((F ++ [p]) ++ x :: R), n, i, s. split_and!; [by rewrite <- fmap_app|by eapply arrived_queue|done|by left]. }
  rewrite E2. cbn [res_bind]. rewrite fmap_app. change (g_seg <$> [p]) with [g_seg p]. rewrite upd_last_snoc.
  destruct (insert_between n2 pcb t i s2 (copied g bl) r edge (F ++ [p']) (x :: R)) as (L & n' & s' & E' & Hq & Hin);
    rewrite ?Eb; try done; try (cbn [copied g_pos]; lia).
  - by rewrite <- app_assoc.
  - apply Forall_app. split; [done|by constructor].
  - eapply queued_snoc; [exact HqF|done|done].
  - apply Forall_app. split; [done|by constructor].
  - eapply queued_from; [exact HqR|cbn [copied g_pos]; lia].
  - left. cbn [copied g_pos]. lia.
  - rewrite ends_snoc. done.
  - unfold g_next in *. cbn [copied g_pos g_seg]. lia.
  - rewrite (fmap_app g_seg F [p']) in E'. exists L, n', i, s'. split_and!; [exact E'|done|done|by right].
Qed.

(** A copy goes behind the last segment [p], which is cut, and is cut itself at the window. *)
Lemma place_last n pcb t i s g r edge F p :
  arrived n pcb t i s g r edge (F ++ [p]) -> r < g_pos g < edge -> g_pos p < g_pos g -> g_fin (bytes s) p = false ->
  queued_up (let* (c, n) := tcp_seg_copy n (g_seg g) in
             match c with
             | None => Ok ((g_seg <$> F) ++ [g_seg p], n)
             | Some cseg =>
                 let* (next, n) := trim_before custom_free n (g_seg p) in
                 let* (cseg, n) := trim_to_wnd custom_free n pcb cseg in
                 Ok ((g_seg <$> F) ++ [next; cseg], n)
             end) pcb t i g r edge (F ++ [p]).
Proof.
  intros Har Hr Hp Ef. pose proof (arrived_parts _ _ _ _ _ _ _ _ _ _ _ Har) as (HF & HR & HqF & Hno & HqR & _).
  pose proof Har as [Hn Hm Hh Hg _ HqQ Hi Hsq Htl Hpos Href Hwin _].
  destruct (copy_trim _ _ _ _ _ _ _ _ _ _ _ Har Hr Hp Ef)
    as [E|(n1 & n2 & s2 & bl & p' & E & E2 & Hn2 & Eb & Hh2 & Hg2 & Hgp & Ep & Hend & Hnxp & Efp)]; rewrite E; cbn [res_bind].
  { exists (F ++ [p]), n, i, s. split_and!; [by rewrite fmap_app|by eapply arrived_queue|done|by left]. }
  rewrite E2. cbn [res_bind].
  destruct (trim_to_wnd_spec n2 pcb t i s2 (copied g bl) (F ++ [p']) r edge Hn2 Hh2)
    as (g3 & n3 & i3 & s3 & E3 & Hn3 & Hr3 & Hh3 & Hm3 & Hg3 & Ep3 & Hnx3 & Ha3); rewrite ?Eb; try done.
  { unfold g_next. cbn [copied g_pos g_seg]. lia. }
  change (g_seg (copied g bl)) with (g_seg g) in E3. rewrite E3. cbn [res_bind]. rewrite Eb in Ha3. exists ((F ++ [p']) ++ [g3]), n3, i3, s3.
  assert (HFp : Forall (genuine (bytes s)) (F ++ [p'])) by (apply Forall_app; split; [done|by constructor]).
  assert (HqFp : queued (bytes s) (r + 1) edge (F ++ [p'])) by (by eapply queued_snoc).
  assert (Hnop : no_fin (bytes s) (F ++ [p'])) by (apply Forall_app; split; [done|by constructor]).
  split_and!; [by rewrite <- app_assoc, fmap_app| |done|right; exists g3; split; [apply elem_of_app; right; left|exact Ep3]]. split; try done.
  - eapply held_perm; [|exact Hh3]. rewrite (fmap_app g_chunk (F ++ [p']) [g3]). apply Permutation_cons_append.
  - apply Forall_app. split; [by eapply genuine_agrees|by constructor].
  - apply queued_app; [done|]. split_and!; [by eapply queued_agrees|by eapply no_fin_agree|]. rewrite ends_snoc. cbn [queued].
    cbn [copied g_pos] in Ep3. split_and!; [lia|lia|lia|done|done].
Qed.

(** The segment lies in the window, or behind all others, where it is cut. *)
Definition fits (m : memory) (g : gseg) (edge : Z) (Q : list gseg) : Prop :=
  g_next m g <= edge \/ (Q <> [] /\ Forall (fun x => g_pos x < g_pos g) Q).

Lemma fits_before m g edge Q x : fits m g edge Q -> x ∈ Q -> g_pos g <= g_pos x -> g_next m g <= edge.
Proof. intros [?|(_ & Hall)] Hx Hle; [done|]. rewrite Forall_forall in Hall. specialize (Hall x Hx). lia. Qed.

Lemma kept_as_is n pcb t i s g r edge Q : arrived n pcb t i s g r edge Q -> queued_up (Ok (g_seg <$> Q, n)) pcb t i g r edge Q.
Proof. intros Har. exists Q, n, i, s. split_and!; [done|by eapply arrived_queue|done|by left]. Qed.

(** The segments in front, if any, start before the new one. *)
Definition passed (g : gseg) (F : list gseg) : Prop := F = [] \/ exists F0 p, F = F0 ++ [p] /\ g_pos p < g_pos g.

(** One round of the loop, and the place if it is here. *)
Lemma oos_step n pcb t i s g r edge F x R :
  arrived n pcb t i s g r edge (F ++ x :: R) -> r < g_pos g < edge -> fits (bytes s) g edge (F ++ x :: R) -> passed g F ->
  (forall y R', R = y :: R' -> passed g (F ++ [x]) ->
     queued_up (oos_loop custom_free n pcb (g_seg <$> F ++ [x]) (g_seg <$> R)) pcb t i g r edge (F ++ x :: R)) ->
  queued_up (oos_loop custom_free n pcb (g_seg <$> F) (g_seg <$> x :: R)) pcb t i g r edge (F ++ x :: R).
Proof.
  intros Har Hr Hfit Hpas Hnext. pose proof (arrived_parts _ _ _ _ _ _ _ _ _ _ _ Har) as (HF & HR & HqF & Hno & HqR & He).
  pose proof Har as [Hn Hm Hh Hg _ HqQ Hi Hsq Htl Hpos Href (_ & _ & Hwr & _) _]. unfold TCP_WND in Hwr.
  pose proof (kept_as_is _ _ _ _ _ _ _ _ _ Har) as Hkeep. apply Forall_cons in HR as [Hgx HR]. destruct HqR as (_ & Hx1 & Hx2 & _).
  assert (Hin : x ∈ F ++ x :: R) by (apply elem_of_app; right; left).
  pose proof (ends_ge _ _ _ _ HF HqF) as Hends. rewrite (fmap_app g_seg F (x :: R)) in Hkeep.
  change (g_seg <$> x :: R) with (g_seg x :: (g_seg <$> R)). cbn [oos_loop].
  rewrite (seen_i _ _ _ _ _ Hn), (seen_mem _ _ _ _ _ Hn), Hsq, (gen_seq _ _ _ _ Hgx), Hi.
  rewrite seq_eqb by (unfold near; lia). destruct (Z.eqb_spec (g_pos g) (g_pos x)) as [Ek|Ek].
  { destruct (Z.ltb_spec (seg_len (g_seg x)) (seg_len (g_seg g))) as [Hl|Hl].
    - apply (place_copy n pcb t i s g r edge F x R Har); [lia|lia|by right|]. eapply fits_before; [done..|lia].
    - exact Hkeep. }
  assert (Hbehind : g_pos x < g_pos g -> queued_up
    (if is_nil (g_seg <$> R) && TCP_SEQ_GT (u32 (g_pos g)) (u32 (g_pos x)) then
       if rseg_fin (bytes s) (g_seg x) then Ok ((g_seg <$> F) ++ g_seg x :: (g_seg <$> R), n)
       else
         let* (c, n) := tcp_seg_copy n (g_seg g) in
         match c with
         | None => Ok ((g_seg <$> F) ++ g_seg x :: (g_seg <$> R), n)
         | Some cseg =>
             let* (next, n) := trim_before custom_free n (g_seg x) in
             let* (cseg, n) := trim_to_wnd custom_free n pcb cseg in
             Ok ((g_seg <$> F) ++ [next; cseg], n)
         end
     else oos_loop custom_free n pcb ((g_seg <$> F) ++ [g_seg x]) (g_seg <$> R)) pcb t i g r edge (F ++ x :: R)).
  { intros Hlt. destruct R as [|y R]; cbn [is_nil andb].
    - rewrite seq_gt by (unfold near; lia). rewrite (proj2 (Z.ltb_lt _ _)) by done.
      change (rseg_fin (bytes s) (g_seg x)) with (g_fin (bytes s) x). destruct (g_fin (bytes s) x) eqn:Ef.
      + exact Hkeep.
      + by apply (place_last n pcb t i s g r edge F x).
    - assert (Hp : passed g (F ++ [x])) by (right; by exists F, x).
      specialize (Hnext y R eq_refl Hp). by rewrite fmap_app in Hnext. }
  destruct Hpas as [->|(F0 & p & -> & Hp)].
  - cbn [fmap list_fmap last app] in *. rewrite seq_lt by (unfold near; lia).
    destruct (Z.ltb_spec (g_pos g) (g_pos x)) as [Hlt|Hge]; [|apply Hbehind; lia].
    apply (place_copy n pcb t i s g r edge [] x R Har); [lia|cbn [ends]; lia|left; lia|]. eapply fits_before; [done..|lia].
  - assert (El : last (g_seg <$> F0 ++ [p]) = Some (g_seg p)) by (rewrite fmap_app; apply last_snoc).
    rewrite El. apply Forall_app in HF as [HF0 Hgp]. apply Forall_inv in Hgp.
    assert (Hlow : r < g_pos p).
    { apply queued_app in HqF as (HqF0 & _ & (Hlo & _)); [|done]. pose proof (ends_ge _ _ _ _ HF0 HqF0). lia. }
    rewrite (gen_seq _ _ _ _ Hgp), u32_add_l, u32_sub_l, seq_between by (unfold near; lia).
    destruct (Z.leb_spec (g_pos p + 1) (g_pos g)) as [_|Hc]; [|lia]. cbn [andb].
    destruct (Z.leb_spec (g_pos g) (g_pos x - 1)) as [Hlt|Hge]; [|apply Hbehind; lia].
    apply (place_trimmed n pcb t i s g r edge F0 p x R Har); [lia|lia|]. eapply fits_before; [done..|lia].
Qed.

Lemma oos_loop_spec R : forall n pcb t i s g r edge F x,
  arrived n pcb t i s g r edge (F ++ x :: R) -> r < g_pos g < edge -> fits (bytes s) g edge (F ++ x :: R) -> passed g F ->
  queued_up (oos_loop custom_free n pcb (g_seg <$> F) (g_seg <$> x :: R)) pcb t i g r edge (F ++ x :: R).
Proof.
  induction R as [|y R IH]; intros n pcb t i s g r edge F x Har Hr Hfit Hpas; eapply oos_step; try done.
  intros y' R' [= <- <-] Hp. assert (E : F ++ x :: y :: R = (F ++ [x]) ++ y :: R) by (by rewrite <- app_assoc).
  rewrite E in *. by eapply IH.
Qed.

(** The segment goes to its place in the queue: nothing in the queue but genuine segments, in
    order. *)
Lemma queue_ooseq_spec n pcb t i s g r edge Q :
  arrived n pcb t i s g r edge Q -> r < g_pos g < edge -> fits (bytes s) g edge Q ->
  exists L n' i' s', queue_ooseq custom_free n pcb = Ok n' /\ queue_ok n' pcb (set_ooseq (g_seg <$> L) t) i' s' r edge L
    /\ same_rest i i' /\ (L = Q \/ exists x, x ∈ L /\ g_pos x = g_pos g).
Proof.
  intros Har Hr Hfit. pose proof Har as [Hn Hm Hh Hg HQ HqQ Hi Hsq Htl Hpos Href Hwin Hoo]. unfold queue_ooseq.
  rewrite (seen_at _ _ _ _ _ Hn). cbn [res_bind]. rewrite Hoo. destruct Q as [|x Q].
  - cbn [fmap list_fmap]. rewrite (seen_i _ _ _ _ _ Hn), Hi. assert (Hnx : g_next (bytes s) g <= edge) by (by destruct Hfit as [?|[]]).
    destruct (seg_copy_spec _ _ _ _ _ _ _ Hn Hh Hg Href) as [E|(n1 & s1 & bl & E & Hn1 & Eb & Hh1 & Hg1)]; rewrite E; cbn [res_bind].
    + rewrite (upd_tcp_seen _ _ _ _ _ _ Hn). exists [], (put_tcp n pcb (set_ooseq [] t)), i, s. split_and!; [done| |done|by left].
      split; try done; [by eapply seen_put|by eapply held_tail].
    + rewrite (upd_tcp_seen _ _ _ _ _ _ Hn1). exists [copied g bl], (put_tcp n1 pcb (set_ooseq [g_seg g] t)), i, s1.
      split_and!; [done| |done|right; exists (copied g bl); split; [left|done]]. split; try done; rewrite ?Eb; try done.
      * by eapply seen_put.
      * constructor; [by rewrite Eb in Hg1|constructor].
      * unfold g_next in *. cbn [queued copied g_pos]. unfold g_next. cbn [copied g_pos g_seg]. split_and!; [lia|lia|lia|done|done].
  - destruct (oos_loop_spec Q n pcb t i s g r edge [] x Har Hr Hfit (or_introl eq_refl)) as (L & n' & i' & s' & E & [Hn' Hm' Hh' HL HqL] & Hrest).
    change (g_seg <$> x :: Q) with (g_seg x :: (g_seg <$> Q)) in *. cbv beta iota. change (g_seg <$> []) with (@nil tcp_seg) in E.
    rewrite E. cbn [res_bind]. rewrite (upd_tcp_seen _ _ _ _ _ _ Hn'). exists L, (put_tcp n' pcb (set_ooseq (g_seg <$> L) t)), i', s'.
    split_and!; [done| |apply Hrest|apply Hrest]. split; try done. by eapply seen_put.
Qed.

End Oos.
