(* ===== verification/TcpAck.v ===== *)
(** * An acknowledgement beside the packets that are held: tcp_send_empty_ack of tcp_out.c

    TCP sends an empty segment in the middle of processing another.  The driver is a parameter;
    [quiet] is what it is asked for: that it handles the packet it is given and leaves other
    live pbufs and blocks of memory alone.  Then the segments that TCP holds, and the connection
    apart from its flags and the edge it has announced, are afterwards as before. *)

From S2P Require Import Prelude Def Ip4Addr InetChksum Mem Memp Pbuf PbufData PbufAlloc PbufOps Chunks.
From S2P Require Import TcpData Net Ip4 Ip4In TcpBase TcpOut Tcp TcpRecv TcpWnd TcpSeq TcpStream.

(** ** Memory block by block *)

(** Nothing has changed in the blocks [L], except the one at [p]. *)
Definition others_same (L : gmap Z (owner * Z)) (p : Z) (m m' : memory) : Prop :=
  forall a o k x, L !! a = Some (o, k) -> a <> p -> a <= x < a + k -> rd8 m' x = rd8 m x.

Lemma others_refl L p m : others_same L p m m.
Proof. done. Qed.

Lemma others_trans L p m1 m2 m3 : others_same L p m1 m2 -> others_same L p m2 m3 -> others_same L p m1 m3.
Proof. intros Ha Hb a o k x HL Hne Hx. rewrite (Hb a o k x), (Ha a o k x); done. Qed.

(** A chunk as it is in two memories. *)
Definition same_chunk (m m' : memory) (c : chunk) : Prop :=
  cdata m' (c_bl c) = cdata m (c_bl c) /\ rd m' (c_hdr c) 20 = rd m (c_hdr c) 20.

Lemma same_chunk_agree m m' g : same_chunk m m' (g_chunk g) -> agree m m' g.
Proof.
  intros (Ed & Eh). cbn [g_chunk c_bl c_hdr] in *. split; [|done].
  assert (Hsub : forall o k, (o + k <= 20)%nat -> rd m' (seg_tcphdr (g_seg g) + Z.of_nat o) k = rd m (seg_tcphdr (g_seg g) + Z.of_nat o) k).
  { intros o k Hk. apply (f_equal (drop o)) in Eh. rewrite !drop_rd in Eh. apply (f_equal (take k)) in Eh. rewrite !take_rd in Eh.
    by replace (k `min` (20 - o))%nat with k in Eh by lia. }
  split; unfold rseg_seqno, tcph_seqno, TCPH_FLAGS, tcph_hdrlen_rsvd_flags, rd32, rd16.
  - pose proof (Hsub 4%nat 4%nat ltac:(lia)) as E. change (Z.of_nat 4) with 4 in E. by rewrite E.
  - pose proof (Hsub 12%nat 2%nat ltac:(lia)) as E. change (Z.of_nat 12) with 12 in E. by rewrite E.
Qed.

Lemma same_chunks_agree m m' Q : Forall (same_chunk m m') (g_chunk <$> Q) -> Forall (agree m m') Q.
Proof. rewrite Forall_fmap. intros Hf. eapply Forall_impl; [exact Hf|]. intros g. apply same_chunk_agree. Qed.

Section Blocks.
Context {A : Type} `{AllocSpec A}.
Implicit Types s : Pbuf.state A.

Lemma others_chunk s L p m m' c :
  wf s L -> lives s c -> p ∉ addrs c -> others_same L p m m' -> same_chunk m m' c.
Proof.
  intros Hw Hl Hp Ho. split.
  - apply cdata_ext. intros [a b] x Hin Hx. cbn [snd] in Hx.
    destruct (data_block s L c a b Hw Hl Hin) as (_ & _ & o & n & HL & H1 & H2).
    apply (Ho a o n); [done| |lia]. intros ->. apply Hp. unfold addrs. apply list_elem_of_fmap. by exists (p, b).
  - apply rd_ext. intros x Hx. destruct (hdr_block s L c Hw Hl) as (o & n & HL & H1 & H2). unfold HDR in *.
    apply (Ho (first (c_bl c)) o n); [done| |lia]. intros <-. apply Hp. destruct Hl as (_ & _ & _ & Hh).
    unfold addrs. destruct (c_bl c) as [|[] ?]; [done|left].
Qed.

(** A write inside the block of [p]. *)
Lemma others_wr s L p o k m a bs :
  wf s L -> L !! p = Some (o, k) -> p <= a -> a + Z.of_nat (length bs) <= p + k -> others_same L p m (wr m a bs).
Proof.
  intros Hw HL H1 H2 a' o' k' x HL' Hne Hx. apply wr_outside.
  destruct (owned_apart _ _ _ _ _ _ _ _ (wf_owned _ _ Hw) HL HL' (not_eq_sym Hne)); lia.
Qed.

(** Chunks of pbufs that are all still there. *)
Lemma held_kept s s' L cs p :
  held s cs -> wf s' L -> Forall (fun c => p ∉ addrs c) cs ->
  (forall a b, a <> p -> pbufs s !! a = Some b -> pbufs s' !! a = Some b) -> held s' cs.
Proof.
  intros [_ Hl Hs] Hw Hp Hk. split; [by exists L| |done]. rewrite Forall_forall in *. intros c Hc.
  destruct (Hl c Hc) as ((Hch & Hok) & Hrest). split; [|done]. split; [|done]. eapply chain_frame; [|exact Hch].
  intros a Ha. apply list_elem_of_fmap in Ha as ([x b] & -> & Hin). cbn [fst].
  destruct (chain_lookup _ _ _ _ _ Hch Hin) as (_ & Hb). rewrite Hb. apply Hk; [|done]. intros ->. apply (Hp c Hc).
  apply list_elem_of_fmap. by exists (p, b).
Qed.

Lemma held_same s s' L cs : held s cs -> wf s' L -> pbufs s' = pbufs s -> held s' cs.
Proof.
  intros [_ Hl Hs] Hw E. split; [by exists L| |done]. eapply Forall_impl; [exact Hl|]. intros c ((Hch & Hok) & Hrest).
  split; [|done]. split; [|done]. by rewrite E.
Qed.

End Blocks.

(** ** The acknowledgement *)

Section Ack.
Context {A W : Type} `{AllocSpec A} `{FragPool A}.
Variable stale_flags : Z -> Z.
Variable custom_free : Z -> Z -> Pbuf.state A -> res (Pbuf.state A).
Variable callback_ok : bool.
Variable netif_output : net A W -> Z -> Z -> Z -> res (err_t * net A W).
Hypothesis stale_flags_law : forall p, Z.land (stale_flags p) PBUF_FLAG_IS_CUSTOM = 0.
Implicit Types n : net A W.

(** What the driver does with a packet of one pbuf, with room for a link header: it may move the payload, take references and
    use memory that nobody else has; it leaves the other pbufs and blocks alone. *)
Definition quiet : Prop := forall n nif p dest b L,
  wf (packets n) L -> mem_ok (mem n) -> p <> NULL -> pbufs (packets n) !! p = Some b -> next b = NULL -> ref b = 1 -> is_custom b = false ->
  type b = PBUF_RAM -> p + SIZEOF_STRUCT_PBUF + PBUF_LINK_HLEN <= payload b -> len b = tot_len b ->
  exists err n' L' b', netif_output n nif p dest = Ok (err, n') /\ tcp n' = tcp n /\ wf (packets n') L' /\ mem_ok (mem n')
    /\ pbufs (packets n') !! p = Some b' /\ next b' = NULL /\ 0 < ref b' < 65536 /\ is_custom b' = false
    /\ (forall a c, a <> p -> pbufs (packets n) !! a = Some c -> pbufs (packets n') !! a = Some c)
    /\ others_same L p (mem n) (mem n').
Hypothesis quiet_output : quiet.

(** The peer is reached through interface [nif], with room for 40 bytes. *)
Record reachable n (t : tcp_pcb) : Prop := {
  re_id : is_u16 (ip_id n);
  re_local : is_u32 (t_local_ip t) /\ ip4_addr_isany_val (t_local_ip t) = false;
  re_remote : is_u32 (t_remote_ip t) /\ ip4_addr_isloopback (t_remote_ip t) = false;
  re_args : is_u8 (t_ttl t) /\ is_u8 (t_tos t);
  re_route : exists nif nf, ip4_route n (t_remote_ip t) = Ok (nif, n) /\ nif <> NULL /\ netifs n !! nif = Some nf
               /\ t_remote_ip t <> netif_ip4_addr nf /\ (netif_mtu nf = 0 \/ 40 <= netif_mtu nf)
}.

(** Routing looks at the interfaces only. *)
Lemma route_walk_same n n' dest l : netifs n' = netifs n -> route_walk n' l dest = route_walk n l dest.
Proof. intros E. induction l as [|x l IH]; [done|]. cbn [route_walk]. unfold netif_at. by rewrite E, IH. Qed.

Lemma first_up_same n n' l : netifs n' = netifs n -> first_up n' l = first_up n l.
Proof. intros E. induction l as [|x l IH]; [done|]. cbn [first_up]. unfold netif_at. by rewrite E, IH. Qed.

Lemma route_same n n' dest nif :
  netifs n' = netifs n -> netif_list n' = netif_list n -> netif_default n' = netif_default n ->
  ip4_default_multicast_netif n' = ip4_default_multicast_netif n ->
  ip4_route n dest = Ok (nif, n) -> nif <> NULL -> ip4_route n' dest = Ok (nif, n').
Proof.
  intros En El Ed Em. unfold ip4_route, netif_at. rewrite Em, El, Ed, (route_walk_same n n'), (first_up_same n n'), En by done.
  destruct (_ && _); [intros [= ->]; done|]. destruct (route_walk n _ dest) as [r|]; [|done]. cbn [res_bind].
  destruct (negb (r =? NULL)); [intros [= ->]; done|]. destruct (ip4_addr_isloopback dest).
  - destruct (if netif_default n =? NULL then _ else _) as [up|]; [|done]. cbn [res_bind].
    destruct up; [intros [= ->]; done|]. destruct (first_up n _) as [u|]; [|done]. cbn [res_bind]. by intros [= ->].
  - destruct (if netif_default n =? NULL then _ else _) as [us|]; [|done]. cbn [res_bind].
    destruct us; [intros [= ->]; done|]. intros [= <- _] Hne. done.
Qed.

(** What sending looks at, apart from the packet. *)
Definition same_env n n' : Prop :=
  netifs n' = netifs n /\ netif_list n' = netif_list n /\ netif_default n' = netif_default n
  /\ ip4_default_multicast_netif n' = ip4_default_multicast_netif n /\ ip_id n' = ip_id n.

(** The packet of an empty segment, before its IP header. *)
Record ack_packet (s : Pbuf.state A) (L : gmap Z (owner * Z)) (p : Z) (b : pbuf) : Prop := {
  ap_wf : wf s L;
  ap_b : pbufs s !! p = Some b;
  ap_null : p <> NULL;
  ap_next : next b = NULL;
  ap_ref : ref b = 1;
  ap_flags : flags b = 0;
  ap_type : type b = PBUF_RAM;
  ap_len : len b = 20 /\ tot_len b = 20;
  ap_room : p + 52 <= payload b
}.

Lemma ack_block s L p b : ack_packet s L p b -> exists k, L !! p = Some (Heap, k) /\ payload b + 20 <= p + k.
Proof.
  intros []. destruct (wf_placed _ _ ap_wf0 p b ap_b0) as (o & k & HL & Hin). unfold is_custom in Hin. rewrite ap_flags0 in Hin.
  destruct (Hin eq_refl) as [-> Hb]. rewrite ap_type0 in HL. destruct (Hb (or_introl ap_type0)). exists k. split; [done|lia].
Qed.

Lemma ack_bytes s L p b m : ack_packet s L p b -> ack_packet (with_bytes m s) L p b.
Proof. intros [[Ho Hp] ?]. split; try done. Qed.

(** A write to the header of the packet. *)
Lemma ack_wr s L p b m o bs :
  ack_packet s L p b -> 0 <= o -> o + Z.of_nat (length bs) <= 20 -> others_same L p m (wr m (payload b + o) bs).
Proof.
  intros Hap Ho Hl. destruct (ack_block _ _ _ _ Hap) as (k & HL & Hk). destruct Hap as [Hw ? ? ? ? ? ? ? Hr].
  eapply others_wr; [exact Hw|exact HL|lia|lia].
Qed.

Lemma ack_not_held s L p cs : wf s L -> held s cs -> L !! p = None -> Forall (fun c => p ∉ addrs c) cs.
Proof.
  intros Hw [_ Hl _] HL. rewrite Forall_forall in *. intros c Hc Hin. apply list_elem_of_fmap in Hin as ([x b] & -> & Hin).
  destruct (data_block s L c _ b Hw (Hl c Hc) Hin) as (_ & _ & o & k & HL' & _). cbn [fst] in HL. congruence.
Qed.

(** The header that [tcp_output_alloc_header] writes. *)
Definition ack_header (m : memory) (hdr : Z) (t : tcp_pcb) (seqno_be : Z) : memory :=
  let m := set_tcph_src m hdr (lwip_htons (t_local_port t)) in
  let m := set_tcph_dest m hdr (lwip_htons (t_remote_port t)) in
  let m := set_tcph_seqno m hdr seqno_be in
  let m := set_tcph_ackno m hdr (lwip_htonl (t_rcv_nxt t)) in
  let m := TCPH_HDRLEN_FLAGS_SET m hdr (5 + 0 / 4) TCP_ACK in
  let m := set_tcph_wnd m hdr (lwip_htons (t_rcv_ann_wnd t)) in
  let m := set_tcph_chksum m hdr 0 in
  set_tcph_urgp m hdr 0.

Lemma ack_header_same s L p b m t sq : ack_packet s L p b -> others_same L p m (ack_header m (payload b) t sq).
Proof.
  intros Hap. unfold ack_header, set_tcph_src, set_tcph_dest, set_tcph_seqno, set_tcph_ackno, TCPH_HDRLEN_FLAGS_SET, set_tcph_wnd,
    set_tcph_chksum, set_tcph_urgp, wr16, wr32. cbv zeta.
  repeat (eapply others_trans; [|eapply (ack_wr s L p b); [exact Hap|lia|rewrite length_le_bytes; lia]]).
  rewrite <- (Z.add_0_r (payload b)) at 1. eapply (ack_wr s L p b); [exact Hap|lia|rewrite length_le_bytes; lia].
Qed.

Lemma ack_header_ok m hdr t sq : mem_ok m -> mem_ok (ack_header m hdr t sq).
Proof.
  intros Hm. unfold ack_header, set_tcph_src, set_tcph_dest, set_tcph_seqno, set_tcph_ackno, TCPH_HDRLEN_FLAGS_SET, set_tcph_wnd,
    set_tcph_chksum, set_tcph_urgp. cbv zeta. repeat (apply mem_ok_wr16 || apply mem_ok_wr32). done.
Qed.

Lemma alloc_header_spec n pcb t i s cs sq :
  seen n pcb t i s -> mem_ok (bytes s) -> held s cs ->
  exists p n' s', tcp_output_alloc_header stale_flags custom_free callback_ok n pcb 0 0 sq = Ok (p, n') /\ same_env n n'
    /\ held s' cs /\ mem_ok (bytes s')
    /\ ((p = NULL /\ seen n' pcb t i s' /\ bytes s' = bytes s)
        \/ exists b L, ack_packet s' L p b /\ Forall (fun c => p ∉ addrs c) cs /\ others_same L p (bytes s) (bytes s')
              /\ seen n' pcb (set_rcv_ann_right_edge (u32 (t_rcv_nxt t + t_rcv_ann_wnd t)) t) i s').
Proof.
  intros Hn Hm Hh. pose proof Hh as [[L Hw] _ _]. unfold tcp_output_alloc_header, alloc_pbuf, on_packets. rewrite (seen_s _ _ _ _ _ Hn).
  change (u16 (TCP_HLEN + 0 + 0)) with 20.
  destruct (pbuf_alloc_spec custom_free stale_flags callback_ok stale_flags_law s L PBUF_IP 20 PBUF_RAM Hw)
    as (p & s1 & E & Eb & _ & Hpost); [done|by vm_compute|]. rewrite E. cbn [res_bind].
  destruct Hpost as [(-> & Hw1 & Ep)|(Hne & bl & L1 & Hpk & Htot & Hfr & Hw1 & HL & HfL & Hfp & Hpl & Hone)].
  { exists NULL, (with_packets s1 n), s1. split_and!; [done|done|by eapply held_same|by rewrite Eb|].
    left. split_and!; [done|by eapply seen_packets|done]. }
  rewrite (proj2 (Z.eqb_neq p NULL)) by done. destruct (Hone ltac:(done)) as (b & ->).
  pose proof Hpk as ((_ & _ & Hb & Hnx) & (Hl & Htl & _) & _). rewrite total_cons in Htot. change (total []) with 0 in *.
  apply Forall_inv in Hfr as (Hty & Hfl & Hrf). cbn [snd] in *.
  assert (Hap : ack_packet s1 L1 p b).
  { split; try done; [split; lia|]. specialize (Hpl (or_introl eq_refl) b Hb). change (layer_offset PBUF_IP) with 36 in Hpl. unfold SIZEOF_STRUCT_PBUF in Hpl. lia. }
  assert (HpL : L !! p = None) by (apply HL; left). pose proof (ack_not_held s L p cs Hw Hh HpL) as Hnot.
  pose proof (seen_packets _ _ _ _ _ s1 Hn) as Hn1. unfold pbuf_at. cbn [with_packets packets].
  rewrite (deref_ok _ _ _ Hb). cbn [res_bind]. rewrite (proj2 (Z.leb_le _ _)) by (unfold TCP_HLEN; lia). cbn [lwip_assert res_bind].
  rewrite (seen_at _ _ _ _ _ Hn1). cbn [res_bind].
  set (m' := ack_header (mem (with_packets s1 n)) (payload b) t sq). change (set_tcph_urgp _ _ _) with m'.
  assert (Em : mem (with_packets s1 n) = bytes s) by exact Eb.
  exists p, (put_tcp (with_mem m' (with_packets s1 n)) pcb (set_rcv_ann_right_edge (u32 (t_rcv_nxt t + t_rcv_ann_wnd t)) t)), (with_bytes m' s1).
  split_and!; [done|done| | |].
  - apply held_bytes. eapply (held_kept s s1 L1 cs p); try done. intros a c Ha Hc. rewrite (Hfp a); [done|].
    cbn [fmap list_fmap fst]. by rewrite list_elem_of_singleton.
  - cbn [with_bytes bytes]. unfold m'. rewrite Em. by apply ack_header_ok.
  - right. exists b, L1. split_and!; [by apply ack_bytes|done| |eapply seen_put, seen_with_mem; exact Hn1].
    cbn [with_bytes bytes]. unfold m'. rewrite Em. by eapply ack_header_same.
Qed.

Lemma ack_moved s L p b :
  ack_packet s L p b -> packet (pbufs s) p [(p, b)] /\ wf (with_pbufs (<[p := moved 20 b]> (pbufs s)) s) L.
Proof.
  intros Hap. destruct (ack_block _ _ _ _ Hap) as (k & HL & Hk). destruct Hap as [Hw Hb Hne Hnx Hrf Hfl Hty (Hl & Htl) Hr]. split.
  - split; [by split_and!|]. split; [|rewrite total_cons; change (total []) with 0; lia]. split_and!; [lia|change (total []) with 0; lia|done].
  - eapply wf_upd; [exact Hw|exact Hb| |done]. exists Heap, k. split; [done|]. intros _. cbn [moved type]. rewrite Hty. split; [done|].
    intros _. unfold SIZEOF_STRUCT_PBUF. cbn [moved payload len]. lia.
Qed.

(** The packet reaches the driver, with its IP header. *)
Lemma checksum_and_send_spec n p b L nif nf lip rip ttl tos :
  ack_packet (packets n) L p b -> mem_ok (mem n) -> is_u16 (ip_id n) -> is_u32 lip -> is_u32 rip -> is_u8 ttl -> is_u8 tos ->
  ip4_addr_isany_val lip = false -> ip4_addr_isloopback rip = false ->
  netifs n !! nif = Some nf -> rip <> netif_ip4_addr nf -> (netif_mtu nf = 0 \/ 40 <= netif_mtu nf) ->
  exists n', checksum_and_send stale_flags custom_free callback_ok netif_output n p lip rip ttl tos nif = netif_output n' nif p rip
    /\ tcp n' = tcp n /\ packets n' = with_bytes (mem n') (with_pbufs (<[p := moved 20 b]> (pbufs (packets n))) (packets n))
    /\ mem_ok (mem n') /\ others_same L p (mem n) (mem n').
Proof.
  intros Hap Hm Hid Hlip Hrip Httl Htos Hany Hlb Hnf Hd Hmtu. pose proof (ack_moved _ _ _ _ Hap) as (Hpk & _).
  pose proof (ack_block _ _ _ _ Hap) as (k & HL & Hk). pose proof Hap as [Hw Hb Hne Hnx Hrf Hfl Hty (Hl & Htl) Hr].
  unfold checksum_and_send, pbuf_at. rewrite (deref_ok _ _ _ Hb). cbn [res_bind]. unfold view.
  erewrite chain_view_spec by (apply Hpk || eapply chain_fuel, Hpk). cbn [res_bind].
  set (m1 := set_tcph_chksum _ _ _). assert (Hm1 : mem_ok m1) by (by apply mem_ok_wr16).
  assert (Ho1 : others_same L p (mem n) m1) by (eapply (ack_wr (packets n) L p b); [exact Hap|lia|rewrite length_le_bytes; lia]).
  unfold ip4_output_if, ip4_output_if_opt. cbn [ip4_addr_isany_ptr]. rewrite Hany. cbn [res_bind].
  destruct (output_spec stale_flags custom_free callback_ok netif_output (with_mem m1 n) p b [] (Some lip) rip ttl tos IP_PROTO_TCP nif [])
    as (h' & m' & E & Eh & Hpk' & _ & Hfr & Hm'); [|done|by split_and!|constructor|cbn; lia|].
  { change (IP_HLEN + Z.of_nat (length (padded []))) with 20. split; [exact Hpk|done|by left| | |constructor].
    - unfold SIZEOF_STRUCT_PBUF. lia.
    - rewrite total_cons. change (total []) with 0. lia. }
  change (IP_HLEN + Z.of_nat (length (padded []))) with 20 in *. change (pbufs (packets (with_mem m1 n))) with (pbufs (packets n)) in Eh.
  rewrite E, (send_on_direct _ _ _ _ _ p (moved 20 b) rip nif nf);
    [|rewrite Eh; apply lookup_insert_eq|exact Hnf|done|done|cbn [moved flags]; by rewrite Hfl|cbn [moved tot_len]; lia].
  eexists. split_and!; [reflexivity|done|by rewrite Eh|exact Hm'|].
  eapply others_trans; [exact Ho1|]. intros a o j x HLa Hne' Hx. change (mem (with_mem m1 n)) with m1 in Hfr. apply Hfr.
  destruct (owned_apart _ _ _ _ _ _ _ _ (wf_owned _ _ Hw) HL HLa (not_eq_sym Hne')); lia.
Qed.

(** The packet is released, whether or not the driver keeps a reference. *)
Lemma free_ack n pcb t i s cs L p b :
  seen n pcb t i s -> wf s L -> held s cs -> Forall (fun c => p ∉ addrs c) cs ->
  pbufs s !! p = Some b -> p <> NULL -> next b = NULL -> 0 < ref b < 65536 -> is_custom b = false ->
  exists n' s', free custom_free n p = Ok n' /\ seen n' pcb t i s' /\ held s' cs /\ bytes s' = bytes s.
Proof.
  intros Hn Hw Hh Hp Hb Hne Hnx Hrf Hcu.
  destruct (pbuf_free_spec custom_free s L p [(p, b)] Hw) as (s' & E & Hw' & Ep & Eb & _).
  { by split_and!. } { done. } { constructor; [|constructor]. split; cbn [snd]; [lia|congruence]. }
  unfold free, on_packets. rewrite (seen_s _ _ _ _ _ Hn), E. cbn [res_bind]. eexists _, s'.
  split_and!; [done|by eapply seen_packets| |done]. eapply held_kept; [exact Hh|exact Hw'|exact Hp|].
  intros a c Ha Hc. rewrite Ep, free_heap_other; [done|]. cbn [fmap list_fmap fst]. by rewrite list_elem_of_singleton.
Qed.

(** The window after an acknowledgement: what was announced has been sent. *)
Lemma window_announced r edge t : window_at r edge t -> window_at r edge (set_rcv_ann_right_edge (u32 (t_rcv_nxt t + t_rcv_ann_wnd t)) t).
Proof.
  intros (Hnx & Hw & Hwr & Hmss & Hann & _). split_and!; try done; try apply Hwr; try apply Hmss; try apply Hann.
  exists (r + t_rcv_ann_wnd t). unfold TCP_WND in Hwr. split_and!; [|lia|lia]. cbn. rewrite Hnx. apply u32_add_l.
Qed.

Lemma flags_kept r edge t f : window_at r edge t -> window_at r edge (set_flags f t).
Proof. done. Qed.

(** [tcp_send_empty_ack] leaves everything that is held as it is; the connection's window and
    its queue of segments out of order are as before. *)
Lemma empty_ack_spec n pcb t i s cs r edge :
  seen n pcb t i s -> mem_ok (bytes s) -> held s cs -> window_at r edge t -> reachable n t ->
  exists err n' t' s', tcp_send_empty_ack stale_flags custom_free callback_ok netif_output n pcb = Ok (err, n') /\ seen n' pcb t' i s'
    /\ held s' cs /\ mem_ok (bytes s') /\ Forall (same_chunk (bytes s) (bytes s')) cs /\ window_at r edge t' /\ t_ooseq t' = t_ooseq t.
Proof.
  intros Hn Hm Hh Hwin [Hid [Hlip Hany] [Hrip Hlb] [Httl Htos] (nif & nf & Hroute & Hnif & Hnf & Hd & Hmtu)].
  unfold tcp_send_empty_ack. rewrite (seen_at _ _ _ _ _ Hn). cbn [res_bind].
  destruct (alloc_header_spec n pcb t i s cs (lwip_htonl (t_snd_nxt t)) Hn Hm Hh)
    as (p & n1 & s1 & E & (En & El & Ed & Em & Ei) & Hh1 & Hm1 & [(-> & Hn1 & Eb)|(b & L & Hap & Hnot & Ho1 & Hn1)]); rewrite E; cbn [res_bind]; cbv iota.
  { unfold raise_flag. change (NULL =? NULL) with true. cbv iota. rewrite (upd_tcp_seen _ _ _ _ _ _ Hn1). cbn [res_bind].
    eexists _, _, _, s1. split_and!; [done|by eapply seen_put|done|done| |done|done]. rewrite Eb. by apply Forall_true. }
  pose proof (ap_null _ _ _ _ Hap) as Hne. rewrite (proj2 (Z.eqb_neq p NULL)) by done. rewrite (seen_at _ _ _ _ _ Hn1). cbn [res_bind].
  set (t1 := set_rcv_ann_right_edge _ t) in *. change (t_remote_ip t1) with (t_remote_ip t).
  rewrite (route_same n n1 _ nif) by done. cbn [res_bind]. rewrite (proj2 (Z.eqb_neq nif NULL)) by done.
  destruct (checksum_and_send_spec n1 p b L nif nf (t_local_ip t1) (t_remote_ip t) (t_ttl t1) (t_tos t1)) as (n2 & E2 & Et2 & Ep2 & Hm2 & Ho2);
    try done; [by rewrite (seen_s _ _ _ _ _ Hn1)|by rewrite (seen_mem _ _ _ _ _ Hn1)|by rewrite Ei|by rewrite En|].
  rewrite E2. rewrite (seen_s _ _ _ _ _ Hn1) in Ep2. rewrite (seen_mem _ _ _ _ _ Hn1) in Ho2.
  destruct (ack_moved _ _ _ _ Hap) as (_ & Hw2). pose proof Hap as [Hw1 Hb Hne' Hnx Hrf Hfl Hty (Hl & Htl) Hr].
  destruct (quiet_output n2 nif p (t_remote_ip t) (moved 20 b) L) as (err & n3 & L3 & b3 & E3 & Et3 & Hw3 & Hm3 & Hb3 & Hnx3 & Hrf3 & Hcu3 & Hk3 & Ho3);
    try done; [rewrite Ep2; destruct Hw2; by split|rewrite Ep2; apply lookup_insert_eq|unfold is_custom; cbn [moved flags]; by rewrite Hfl
      |cbn [moved payload]; unfold SIZEOF_STRUCT_PBUF, PBUF_LINK_HLEN; lia|cbn [moved len tot_len]; lia|].
  rewrite E3. cbn [res_bind].
  assert (Hn3 : seen n3 pcb t1 i (packets n3)).
  { destruct Hn1 as [Ht1 Hi1 _]. split; [by rewrite Et3, Et2|unfold in_of in *; by rewrite Et3, Et2|done]. }
  assert (Hh3 : held (packets n3) cs).
  { eapply held_kept; [exact Hh1|exact Hw3|exact Hnot|]. intros a c Ha Hc. apply Hk3; [done|]. rewrite Ep2. cbn [with_bytes with_pbufs pbufs]. by rewrite lookup_insert_ne. }
  destruct (free_ack n3 pcb t1 i _ cs L3 p b3 Hn3 Hw3 Hh3 Hnot Hb3 Hne Hnx3 Hrf3 Hcu3) as (n4 & s4 & E4 & Hn4 & Hh4 & Eb4).
  rewrite E4. cbn [res_bind].
  assert (Hsame : Forall (same_chunk (bytes s) (bytes s4)) cs).
  { rewrite Eb4, Forall_forall. intros c Hc. eapply (others_chunk s1 L p); [done| | |].
    - by eapply Forall_forall; [apply Hh1|].
    - by eapply Forall_forall in Hnot; [|exact Hc].
    - eapply others_trans; [exact Ho1|]. eapply others_trans; [exact Ho2|exact Ho3]. }
  unfold raise_flag, clear_flag. rewrite !(upd_tcp_seen _ _ _ _ _ _ Hn4).
  destruct (bool_decide (err = ERR_OK)); cbn [res_bind]; eexists _, _, _, s4;
    (split_and!; [done|by eapply seen_put|done|by rewrite Eb4|done|by apply flags_kept, window_announced|done]).
Qed.

End Ack.
