(* ===== verification/TcpReceive.v ===== *)
(** * The data of a segment: the data part of tcp_receive in lwip/src/core/tcp_in.c

    A receiver of a byte stream has got everything before position [r], and holds in its queue
    pieces of the stream further on.  Whatever segment of the stream arrives, in order or not,
    overlapping what is known or not, what [receive_data] passes on is the next piece of the
    stream, and what it queues are pieces of the stream. *)

From S2P Require Import Prelude Def Ip4Addr InetChksum Mem Memp Pbuf PbufData PbufAlloc PbufOps Chunks.
From S2P Require Import TcpData Net Ip4 Ip4In TcpBase TcpOut Tcp TcpRecv TcpWnd TcpSeq TcpStream TcpOos TcpAck.

Section Receive.
Variable byte_at : Z -> Z.
Variable fin_at : Z.
Context {A W : Type} `{AllocSpec A} `{FragPool A}.
Variable stale_flags : Z -> Z.
Variable custom_free : Z -> Z -> Pbuf.state A -> res (Pbuf.state A).
Variable callback_ok : bool.
Variable netif_output : net A W -> Z -> Z -> Z -> res (err_t * net A W).
Hypothesis stale_flags_law : forall p, Z.land (stale_flags p) PBUF_FLAG_IS_CUSTOM = 0.
Hypothesis quiet_output : quiet netif_output.
Implicit Types n : net A W.
Local Abbreviation arrived := (arrived byte_at fin_at).

(** The receiver: everything up to [r] has been passed on, of which [D] (from [r0] on) in this
    call; the window ends at [edge] and [Q] is queued. *)
Record receiver n (pcb : Z) (t : tcp_pcb) (i : tcp_in) (s : Pbuf.state A) (D : option chunk) (r0 r edge : Z) (Q : list gseg) : Prop := {
  rc_seen : seen n pcb t i s;
  rc_mem : mem_ok (bytes s);
  rc_held : held s (olist D ++ (g_chunk <$> Q));
  rc_genuine : Forall (genuine byte_at fin_at (bytes s)) Q;
  rc_queued : queued (bytes s) (r + 1) edge Q;
  rc_window : window_at r edge t;
  rc_ooseq : t_ooseq t = g_seg <$> Q;
  rc_data : delivered byte_at fin_at (bytes s) i D r0 r
}.

Definition nothing_yet (i : tcp_in) (r : Z) : Prop := i_recv_data i = NULL /\ has (i_recv_flags i) TF_GOT_FIN = false /\ r <= fin_at.

Lemma nothing_delivered m i i' r : nothing_yet i r -> same_rest i i' -> delivered byte_at fin_at m i' None r r.
Proof.
  intros (Hd & Hf & Hr) (Ed & Ef). split; [split; [congruence|lia]| |lia]. rewrite Ef, Hf. symmetry. apply Z.eqb_neq. lia.
Qed.

(** An acknowledgement changes nothing of a segment and its surroundings. *)
Lemma ack_arrived n pcb t i s g r edge Q :
  arrived n pcb t i s g r edge Q -> reachable n t ->
  exists err n' t' s', tcp_send_empty_ack stale_flags custom_free callback_ok netif_output n pcb = Ok (err, n')
    /\ arrived n' pcb t' i s' g r edge Q /\ Forall (agree (bytes s) (bytes s')) (g :: Q).
Proof.
  intros [Hn Hm Hh Hg HQ HqQ Hi Hsq Htl Hpos Href Hwin Hoo] Hre.
  destruct (empty_ack_spec stale_flags custom_free callback_ok netif_output stale_flags_law quiet_output
    n pcb t i s _ r edge Hn Hm Hh Hwin Hre) as (err & n' & t' & s' & E & Hn' & Hh' & Hm' & Hsame & Hwin' & Hoo').
  pose proof (same_chunks_agree _ _ (g :: Q) Hsame) as Hag. pose proof Hag as [Ha HaQ]%Forall_cons.
  exists err, n', t', s'. split_and!; [done| |done]. pose proof (agree_next _ _ _ Ha) as En. unfold g_next in En.
  split; try done; [by eapply genuine_agree|by eapply genuine_agrees|by eapply queued_agrees|lia|lia|congruence].
Qed.

Lemma arrived_receiver n pcb t i i' s g r edge Q :
  arrived n pcb t i' s g r edge Q -> nothing_yet i r -> same_rest i i' -> receiver n pcb t i' s None r r edge Q.
Proof.
  intros [Hn Hm Hh Hg HQ HqQ Hi Hsq Htl Hpos Href Hwin Hoo] Hno Hsm. split; try done; [by eapply held_tail|by eapply nothing_delivered].
Qed.

(** A segment from which nothing can be taken. *)
Lemma refuse_segment n pcb t i s r edge Q :
  receiver n pcb t i s None r r edge Q -> reachable n t ->
  exists n' t' s', (let* (_, n') := tcp_send_empty_ack stale_flags custom_free callback_ok netif_output n pcb in Ok n') = Ok n'
    /\ receiver n' pcb t' i s' None r r edge Q.
Proof.
  intros [Hn Hm Hh HQ HqQ Hwin Hoo Hdel] Hre.
  destruct (empty_ack_spec stale_flags custom_free callback_ok netif_output stale_flags_law quiet_output
    n pcb t i s _ r edge Hn Hm Hh Hwin Hre) as (err & n' & t' & s' & E & Hn' & Hh' & Hm' & Hsame & Hwin' & Hoo').
  rewrite E. cbn [olist app] in *. apply same_chunks_agree in Hsame. exists n', t', s'. split; [done|].
  split; try done; [by eapply genuine_agrees|by eapply queued_agrees|congruence|]. destruct Hdel. by split.
Qed.

Lemma trim_front_env n pcb n' : trim_front n pcb = Ok n' -> same_env n n'.
Proof.
  unfold trim_front. destruct (tcp_at n pcb) as [t|]; [|done]. cbn [res_bind]. cbv zeta.
  do 2 (destruct (lwip_assert _); [|done]; cbn [res_bind]). destruct (pbuf_at _ _) as [b|]; [|done]. cbn [res_bind].
  unfold header, on_packets. destruct (_ <? _).
  - destruct (lwip_assert _); [|done]. cbn [res_bind]. destruct (skip_old _ _ _ _ _) as [[[p o] s]|]; [|done]. cbn [res_bind].
    destruct (pbuf_header _ _ _) as [[f s']|]; [|done]. cbn [res_bind]. destruct (lwip_assert _); [|done]. cbn [res_bind]. by intros [= <-].
  - destruct (pbuf_header _ _ _) as [[f s']|]; [|done]. cbn [res_bind]. destruct (lwip_assert _); [|done]. cbn [res_bind]. by intros [= <-].
Qed.

Lemma reachable_env n n' t : same_env n n' -> reachable n t -> reachable n' t.
Proof.
  intros (En & El & Ed & Em & Ei) [Hid Hl Hr Ha (nif & nf & Hroute & Hnif & Hnf & Hrest)]. split; try done; [by rewrite Ei|].
  exists nif, nf. split_and!; try apply Hrest; [by eapply (route_same n n')|done|by rewrite En].
Qed.

(** A segment further on in the window. *)
Lemma out_of_order n pcb t i s g r edge Q :
  arrived n pcb t i s g r edge Q -> reachable n t -> nothing_yet i r -> r < g_pos g < edge -> fits (bytes s) g edge Q ->
  exists n' t' i' s' Q', receive_out_of_order stale_flags custom_free callback_ok netif_output n pcb = Ok n'
    /\ receiver n' pcb t' i' s' None r r edge Q' /\ (Q' = Q \/ exists x, x ∈ Q' /\ g_pos x = g_pos g).
Proof.
  intros Har Hre Hno Hpos Hfit. destruct (ack_arrived _ _ _ _ _ _ _ _ _ Har Hre) as (err & n1 & t1 & s1 & E & Har1 & [Ha _]%Forall_cons).
  unfold receive_out_of_order. rewrite E. cbn [res_bind].
  destruct (queue_ooseq_spec byte_at fin_at custom_free _ _ _ _ _ _ _ _ _ Har1 Hpos)
    as (L & n' & i' & s' & E' & [Hn' Hm' Hh' HL HqL] & Hsm & Hput).
  { unfold fits in *. by rewrite (agree_next _ _ _ Ha). }
  exists n', (set_ooseq (g_seg <$> L) t1), i', s', L. split_and!; [done| |done]. split; try done; [apply Har1|by eapply nothing_delivered].
Qed.

(** Before a segment that lies in order: the data that is old is cut off. *)
Lemma cut_old n pcb t i s g r edge Q :
  arrived n pcb t i s g r edge Q -> nothing_yet i r -> g_pos g <= r < g_next (bytes s) g -> g_len g < 32767 ->
  exists n' i' s' g', (if g_pos g =? r then Ok n else trim_front n pcb) = Ok n' /\ flow byte_at fin_at n' pcb t i' s' g' edge Q
    /\ nothing_yet i' r /\ g_pos g' = r /\ g_next (bytes s') g' = g_next (bytes s) g.
Proof.
  intros [Hn Hm Hh Hg HQ HqQ Hi Hsq Htl Hpos Href Hwin Hoo] Hno Hr Hlen. pose proof Hwin as (Hnx & _ & Hwr & _). unfold TCP_WND in Hwr.
  destruct (Z.eqb_spec (g_pos g) r) as [<-|Hne].
  { exists n, i, s, g. split_and!; try done. split; try done. lia. }
  rewrite (g_next_fin byte_at fin_at) in Hr by done. unfold g_end in Hr. pose proof (gen_range _ _ _ _ Hg) as Hgr.
  destruct (trim_front_spec byte_at fin_at custom_free n pcb t i s g edge Q r Hn Hm Hh Hg HQ HqQ Hi Hsq Hnx) as (n' & i' & s' & g' & E & Hfl & (E1 & E2) & Ep & En);
    [unfold g_end; destruct (g_fin _ g); lia..|].
  exists n', i', s', g'. split_and!; try done. destruct Hno as (? & ? & ?). split_and!; [congruence|congruence|done].
Qed.

(** The rest of [receive_data], for a segment that starts at [r]: without a window nothing is taken. *)
Lemma take_at n pcb t i s g edge Q r :
  flow byte_at fin_at n pcb t i s g edge Q -> g_pos g = r -> window_at r edge t -> t_ooseq t = g_seg <$> Q ->
  nothing_yet i r -> reachable n t ->
  exists r' Q' n' t' i' s' D',
    (if r <? edge then receive_in_order custom_free n pcb
     else let* (_, n') := tcp_send_empty_ack stale_flags custom_free callback_ok netif_output n pcb in Ok n') = Ok n'
    /\ receiver n' pcb t' i' s' D' r r' edge Q' /\ Z.min (g_next (bytes s) g) edge <= r'.
Proof.
  intros Hfl <- Hwin Hoo Hno Hre. destruct (Z.ltb_spec (g_pos g) edge) as [_|Hle].
  - destruct Hno as (Hd & Hf & Hr).
    destruct (receive_in_order_spec byte_at fin_at custom_free _ _ _ _ _ _ _ _ Hfl Hwin Hoo Hd Hf)
      as (r' & Q' & n' & t' & i' & s' & D' & E' & Hn' & Hm' & Hh' & HQ' & HqQ' & Hwin' & Hoo' & Hdel & Hpr).
    exists r', Q', n', t', i', s', D'. split_and!; [done|by split|done].
  - destruct Hfl as [Hn Hm Hh Hg HQ HqQ _ _ _].
    assert (Hrc : receiver n pcb t i s None (g_pos g) (g_pos g) edge Q) by (split; try done; [by eapply held_tail|by eapply nothing_delivered]).
    destruct (refuse_segment _ _ _ _ _ _ _ _ Hrc Hre) as (n' & t' & s' & E & Hrc').
    exists (g_pos g), Q, n', t', i, s', None. split_and!; [exact E|done|lia].
Qed.

(** What the first test of [receive_data] decides. *)
Lemma old_part r pos tl :
  - 1073741824 < pos - r < 1073741824 -> 0 < tl <= 65535 ->
  TCP_SEQ_BETWEEN (u32 r) (u32 (u32 pos + 1)) (u32 (u32 pos + tl - 1)) = (pos <? r) && (r <? pos + tl).
Proof.
  intros Hp Ht. replace (u32 pos + tl - 1) with (u32 pos + (tl - 1)) by lia. rewrite !u32_add_l, seq_between by (unfold near; lia). lia.
Qed.

Lemma in_window pos r w :
  - 1073741824 < pos - r < 1073741824 -> 0 <= w <= 65535 ->
  TCP_SEQ_BETWEEN (u32 pos) (u32 r) (u32 (u32 r + w - 1)) = (r <=? pos) && (pos <? r + w).
Proof.
  intros Hp Hw. replace (u32 r + w - 1) with (u32 r + (w - 1)) by lia. rewrite u32_add_l, seq_between by (unfold near; lia). lia.
Qed.

(** C3: A TCP receiver passes on the stream that was sent, and nothing else.  The receiver has got
    the stream up to position [r] and holds a queue of pieces further on.  A segment with any part
    of the stream arrives, of less than 32767 bytes, its position within 2^30 of [r]: old, overlapping,
    in order, or ahead; a segment that starts ahead, inside the window, must also end inside it or start
    behind all queued pieces, of which there is at least one ([fits]: otherwise the code queues it
    without cutting it, and fails an assertion when the gap is filled, see [peer_can_fail_assertion]).
    The code then finishes without a fault; what it hands to the application is the stream from
    [r] to some [r'], byte for byte, and the end of the stream is reported exactly if [r'] is
    behind the FIN; the queue is again made of pieces of the stream in order; and the right edge
    of the window stays where it is.  A segment that starts at or before [r] takes the receiver to
    its end or to the edge of the window, and a segment ahead delivers nothing. *)
Theorem receive_data_stream n pcb t i s g r edge Q :
  arrived n pcb t i s g r edge Q -> reachable n t -> nothing_yet i r -> g_len g < 32767 ->
  - 1073741824 < g_pos g - r < 1073741824 -> (r < g_pos g < edge -> fits (bytes s) g edge Q) ->
  exists r' Q' n' t' i' s' D',
    receive_data stale_flags custom_free callback_ok netif_output n pcb = Ok n' /\ receiver n' pcb t' i' s' D' r r' edge Q'
    /\ (g_pos g <= r -> Z.min (g_next (bytes s) g) edge <= r')
    /\ (r < g_pos g -> r' = r /\ (Q' = Q \/ exists x, x ∈ Q' /\ g_pos x = g_pos g)).
Proof.
  intros Har Hre Hno Hlen Hnear Hfit. pose proof Har as [Hn Hm Hh Hg HQ HqQ Hi Hsq Htl Hpos Href Hwin Hoo].
  pose proof Hwin as (Hnx & Hw & Hwr & _). unfold TCP_WND in Hwr. pose proof (tcplen_range byte_at fin_at _ _ Hm Hg) as Htr. unfold is_u16 in Htr.
  unfold receive_data. rewrite (seen_at _ _ _ _ _ Hn). cbn [res_bind]. rewrite (seen_i _ _ _ _ _ Hn), Hsq, Htl, Hnx, Hw, old_part, seq_lt by (unfold near; lia).
  fold (g_next (bytes s) g). destruct (Z.leb_spec (g_pos g) r) as [Hle|Hgt]; [destruct (Z.ltb_spec r (g_next (bytes s) g)) as [Hin|Hout]|].
  - (* some of the segment is new, and it starts at [r] or before *)
    destruct (cut_old _ _ _ _ _ _ _ _ _ Har Hno (conj Hle Hin) Hlen) as (n1 & i1 & s1 & g1 & E1 & Hfl & Hno1 & Ep & En).
    assert (Hre1 : reachable n1 t).
    { destruct (Z.eqb_spec (g_pos g) r); [by injection E1 as <-|]. by eapply reachable_env; [eapply trim_front_env|]. }
    assert (E : (if (g_pos g <? r) && true then trim_front n pcb else if g_pos g <? r then tcp_ack_now n pcb else Ok n) = Ok n1).
    { rewrite <- E1. destruct (Z.ltb_spec (g_pos g) r), (Z.eqb_spec (g_pos g) r); cbn; try done; lia. }
    rewrite E. cbn [res_bind]. rewrite (seen_i _ _ _ _ _ (fl_seen _ _ _ _ _ _ _ _ _ _ Hfl)), (fl_seqno _ _ _ _ _ _ _ _ _ _ Hfl), Ep, in_window, Z.eqb_refl by lia.
    rewrite Z.leb_refl. cbn [andb]. replace (r + (edge - r)) with edge by lia.
    destruct (take_at _ _ _ _ _ _ _ _ _ Hfl Ep Hwin Hoo Hno1 Hre1) as (r' & Q' & n' & t' & i' & s' & D' & E2 & Hrc & Hpr).
    rewrite En in Hpr. exists r', Q', n', t', i', s', D'. split_and!; [exact E2|done|done|lia].
  - (* all of it is old *)
    rewrite andb_false_r. unfold g_next in Hout. rewrite (proj2 (Z.ltb_lt (g_pos g) r)) by lia.
    unfold tcp_ack_now, raise_flag. rewrite (upd_tcp_seen _ _ _ _ _ _ Hn). cbn [res_bind].
    set (t1 := set_flags _ t). pose proof (seen_put _ _ _ _ _ t1 Hn) as Hn1.
    rewrite (seen_i _ _ _ _ _ Hn1), Hsq, in_window by lia. rewrite (proj2 (Z.leb_gt _ _)) by lia. cbn [andb].
    assert (Hrc : receiver (put_tcp n pcb t1) pcb t1 i s None r r edge Q) by (split; try done; [by eapply held_tail|by eapply nothing_delivered]).
    destruct (refuse_segment _ _ _ _ _ _ _ _ Hrc) as (n' & t' & s' & E & Hrc'); [apply (reachable_env n); [done|]; destruct Hre; by split|].
    exists r, Q, n', t', i, s', None. split_and!; [exact E|done|unfold g_next; lia|lia].
  - (* it is ahead *)
    rewrite (proj2 (Z.ltb_ge (g_pos g) r)) by lia. cbn [andb res_bind]. rewrite (seen_i _ _ _ _ _ Hn), Hsq, in_window by lia.
    rewrite (proj2 (Z.leb_le _ _)) by lia. cbn [andb]. replace (r + (edge - r)) with edge by lia. rewrite seq_eqb by (unfold near; lia).
    rewrite (proj2 (Z.eqb_neq r _)) by lia. destruct (Z.ltb_spec (g_pos g) edge) as [Hlt|Hge].
    + destruct (out_of_order _ _ _ _ _ _ _ _ _ Har Hre Hno (conj Hgt Hlt) (Hfit (conj Hgt Hlt))) as (n' & t' & i' & s' & Q' & E & Hrc & Hput).
      exists r, Q', n', t', i', s', None. split_and!; [exact E|done|lia|done].
    + destruct (refuse_segment _ _ _ _ _ _ _ _ (arrived_receiver _ _ _ _ _ _ _ _ _ _ Har Hno (conj eq_refl eq_refl)) Hre) as (n' & t' & s' & E & Hrc').
      exists r, Q, n', t', i, s', None. split_and!; [exact E|done|lia|intros _; split; [done|by left]].
Qed.

End Receive.

(** ** An example *)

(** The driver of the examples keeps to what is asked of it. *)
Lemma ex_output_quiet {A} `{AllocSpec A} : quiet (@ex_output A).
Proof.
  intros n nif p dest b L Hw Hm Hne Hb Hnx Hrf Hcu Hty Hroom Hl. unfold ex_output.
  assert (Hc : chain (pbufs (packets n)) p [(p, b)]) by (by split_and!).
  erewrite chain_view_spec by (exact Hc || eapply chain_fuel, Hc). cbn [res_bind].
  eexists _, _, L, b. split_and!; try done; lia.
Qed.

(** A new pbuf beside the chunks that are held, with its header in front. *)
Lemma held_alloc {A} `{AllocSpec A} (s : Pbuf.state A) cs l p s' b :
  held s cs -> is_u16 l -> ram_request (layer_offset PBUF_TRANSPORT) l <= 65532 ->
  pbuf_alloc (fun _ => 0) no_custom true s PBUF_TRANSPORT l PBUF_RAM = Ok (p, s') -> p <> NULL ->
  pbufs s' !! p = Some b -> held s' (mk_chunk (payload b - HDR) [(p, b)] :: cs).
Proof.
  intros Hh Hl Hrq E Hne Hb. pose proof Hh as [[L Hw] Hlv Hs].
  destruct (pbuf_alloc_spec no_custom (fun _ => 0) true ltac:(done) s L PBUF_TRANSPORT l PBUF_RAM Hw Hl (fun _ => Hrq))
    as (p' & s'' & E' & _ & _ & Hpost).
  rewrite E in E'. injection E' as <- <-.
  destruct Hpost as [(-> & _)|(_ & bl & L1 & Hpk & Htot & Hfr & Hw1 & HL & HfL & Hfp & Hpl & Hone)]; [done|].
  destruct (Hone ltac:(done)) as (b' & ->). pose proof Hpk as ((_ & _ & Hb' & _) & _). assert (b' = b) as -> by congruence.
  apply Forall_inv in Hfr as (Hty & Hfl & Hrf). cbn [snd] in *. specialize (Hpl (or_introl eq_refl) b Hb). change (layer_offset PBUF_TRANSPORT) with 56 in Hpl.
  assert (Hnot : Forall (fun c => p ∉ addrs c) cs) by (eapply ack_not_held; [exact Hw|exact Hh|apply HL; left]).
  assert (Hh' : held s' cs).
  { eapply (held_kept s s' L1 cs p); try done. intros a c Ha Hc. rewrite (Hfp a); [done|]. cbn [fmap list_fmap fst]. by rewrite list_elem_of_singleton. }
  split; [by exists L1| |].
  - constructor; [|apply Hh']. split_and!; [done| |done|].
    + constructor; [|constructor]. cbn [snd]. split_and!; [lia|lia|unfold is_custom; by rewrite Hfl|by left].
    + cbn [c_hdr c_bl hdr_ok]. unfold SIZEOF_STRUCT_PBUF, HDR in *. lia.
  - split; [|done]. eapply Forall_impl; [exact Hnot|]. intros c Hc a. cbn [addrs c_bl fmap list_fmap fst]. rewrite list_elem_of_singleton. by intros ->.
Qed.

(** The stream is the alphabet from position 1001 on, with the FIN at 1004.  "BC" and the FIN have
    been received ahead; now "AB" arrives. *)
Definition abc (k : Z) : Z := k - 936.

Definition rx0 : Pbuf.state (heap_pools * frag_pool) := Pbuf.mk_state ∅ ∅ ∅ (hp0, ([], ∅)) false 0.
Definition rx1 : Z * Pbuf.state (heap_pools * frag_pool) := or_else (NULL, rx0) (pbuf_alloc (fun _ => 0) no_custom true rx0 PBUF_TRANSPORT 2 PBUF_RAM).
Definition rx2 : Z * Pbuf.state (heap_pools * frag_pool) := or_else (NULL, rx0) (pbuf_alloc (fun _ => 0) no_custom true (snd rx1) PBUF_TRANSPORT 2 PBUF_RAM).

Definition rx_pbuf_at (r : Z * Pbuf.state (heap_pools * frag_pool)) : pbuf := default ex_pbuf (pbufs (snd r) !! fst r).

Definition rx_gseg (pos : Z) (r : Z * Pbuf.state (heap_pools * frag_pool)) : gseg :=
  mk_g pos (mk_seg (fst r) 2 0 (payload (rx_pbuf_at r) - HDR)) [(fst r, rx_pbuf_at r)].
Definition rx_late : gseg := rx_gseg 1002 rx1.
Definition rx_now : gseg := rx_gseg 1001 rx2.

(** A header in host byte order, and the data. *)
Definition rx_image (g : gseg) (flags : Z) (m : memory) : memory :=
  wr m (seg_tcphdr (g_seg g)) ([0; 0; 0; 0] ++ le_bytes 4 (g_pos g) ++ [0; 0; 0; 0; 80; flags] ++ repeat 0 6 ++ stream abc (g_pos g) 2).
Definition rx_mem : memory := rx_image rx_now TCP_ACK (rx_image rx_late (Z.lor TCP_ACK TCP_FIN) ∅).
Definition rx_state : Pbuf.state (heap_pools * frag_pool) := with_bytes rx_mem (snd rx2).

Definition rx_tcp_pcb : tcp_pcb :=
  set_ooseq [g_seg rx_late] (set_local_ip 16777226 (set_remote_ip 33554442 (set_mss 536 (set_rcv_nxt 1001 (set_rcv_wnd 500
    (set_rcv_ann_wnd 500 (set_rcv_ann_right_edge 1501 tcp_pcb_zero))))))).
Definition rx_in : tcp_in := mk_in (g_seg rx_now) (seg_tcphdr (g_seg rx_now)) 0 0 NULL 0 1001 0 0 2 TCP_ACK 0 NULL.
Definition rx_net : net (heap_pools * frag_pool) (list (list Z)) := upd_in (put_tcp (with_packets rx_state ex_net) 11 rx_tcp_pcb) (fun _ => rx_in).

Lemma rx_held : held rx_state (g_chunk rx_now :: (g_chunk <$> [rx_late])).
Proof.
  apply held_bytes. apply (held_alloc (snd rx1) [g_chunk rx_late] 2 (fst rx2) (snd rx2));
    [|done|vm_compute; discriminate|vm_compute; reflexivity|vm_compute; discriminate|vm_compute; reflexivity].
  apply (held_alloc rx0 [] 2 (fst rx1) (snd rx1)); [|done|vm_compute; discriminate|vm_compute; reflexivity|vm_compute; discriminate|vm_compute; reflexivity].
  split; [|constructor|done].
  exists ∅. split; [exact hp0_owned|]. intros p b. cbn. by rewrite lookup_empty.
Qed.

Lemma rx_mem_ok : mem_ok rx_mem.
Proof.
  unfold rx_mem, rx_image. repeat (apply mem_ok_wr; [|apply (bool_decide_unpack (Forall is_u8 _)); by vm_compute]).
  intros a. unfold rd8. rewrite lookup_empty. unfold is_u8. cbn. lia.
Qed.

Lemma rx_genuine g : g ∈ [rx_now; rx_late] -> genuine abc 1004 rx_mem g.
Proof. rewrite list_elem_of_In. intros [<-|[<-|[]]]; split; by vm_compute. Qed.

Lemma rx_arrived : arrived abc 1004 rx_net 11 rx_tcp_pcb rx_in rx_state rx_now 1001 1501 [rx_late].
Proof.
  split; [by split|exact rx_mem_ok|exact rx_held|apply rx_genuine; left|constructor; [apply rx_genuine; right; left|constructor]
    | |done|done|by vm_compute|by vm_compute|by vm_compute| |done].
  - cbn [queued]. split_and!; by vm_compute.
  - split; [done|]. split; [done|]. do 3 (split; [by vm_compute|]). exists 1501. by vm_compute.
Qed.

Lemma receive_data_stream_witness :
  exists r' Q' n' t' i' s' D', receive_data (fun _ => 0) no_custom true ex_output rx_net 11 = Ok n'
    /\ receiver abc 1004 n' 11 t' i' s' D' 1001 r' 1501 Q' /\ 1003 <= r'.
Proof.
  destruct (receive_data_stream abc 1004 (fun _ => 0) no_custom true ex_output ltac:(done) ex_output_quiet
    rx_net 11 rx_tcp_pcb rx_in rx_state rx_now 1001 1501 [rx_late] rx_arrived) as (r' & Q' & n' & t' & i' & s' & D' & E & Hr & Hp & _).
  - split; try (by vm_compute). exists 1, ex_netif. split; [reflexivity|]. split; [done|]. split; [reflexivity|]. split; [by vm_compute|]. right. by vm_compute.
  - by vm_compute.
  - by vm_compute.
  - by vm_compute.
  - intros Hc. exfalso. revert Hc. vm_compute. intros []. discriminate.
  - exists r', Q', n', t', i', s', D'. split; [exact E|]. split; [exact Hr|]. apply Hp. vm_compute. discriminate.
Defined.
