(* ===== verification/Chains.v ===== *)
(** * Packets that are owned: chains of pbufs beside each other, with their blocks

    What [Chunks] says of received segments, for packets of any kind: the chains [cs] are alive and
    share no pbuf, and [L] are the blocks that the allocators have handed out, so that the room
    behind the data of a pbuf can be talked about.  The operations of pbuf.c that tcp_out.c uses to
    build segments are described on them. *)

From S2P Require Import Prelude Mem Memp Pbuf PbufData PbufAlloc PbufOps Chunks TcpAck.

Implicit Types (bl : list (Z * pbuf)) (cs : list (list (Z * pbuf))) (L : gmap Z (owner * Z)).

Fixpoint addresses cs : list Z := match cs with [] => [] | bl :: cs' => (fst <$> bl) ++ addresses cs' end.

Lemma addresses_app cs1 cs2 : addresses (cs1 ++ cs2) = addresses cs1 ++ addresses cs2.
Proof. induction cs1 as [|bl cs1 IH]; cbn [app addresses]; [done|]. by rewrite IH, app_assoc. Qed.

Lemma addresses_perm cs cs' : cs ≡ₚ cs' -> addresses cs ≡ₚ addresses cs'.
Proof.
  induction 1 as [|bl l l' _ IH|bl bl' l|l1 l2 l3 _ IH1 _ IH2]; cbn [addresses]; [done|by rewrite IH| |by rewrite IH1].
  rewrite !app_assoc. by rewrite (Permutation_app_comm (fst <$> bl')).
Qed.

Lemma elem_of_addresses a cs : a ∈ addresses cs <-> exists bl, bl ∈ cs /\ a ∈ fst <$> bl.
Proof.
  induction cs as [|bl cs IH]; cbn [addresses].
  - rewrite elem_of_nil. split; [done|]. by intros (? & ?%elem_of_nil & _).
  - rewrite elem_of_app, IH. split; [intros [Ha|(bl' & Hin & Ha)]; [exists bl; split; [left|done]|exists bl'; split; [by right|done]]|].
    intros (bl' & Hin & Ha). apply elem_of_cons in Hin as [->|Hin]; [by left|right; by exists bl'].
Qed.

(** There is room for [k] more bytes behind the last pbuf, in its block. *)
Definition fits L bl (k : Z) : Prop :=
  exists a b o n, last bl = Some (a, b) /\ L !! a = Some (o, n) /\ payload b + len b + k <= a + n.

Lemma fits_le L bl k k' : fits L bl k -> k' <= k -> fits L bl k'.
Proof. intros (a & b & o & n & Hl & HL & Hk) ?. exists a, b, o, n. split_and!; [done|done|lia]. Qed.

Lemma fits_frame L L' bl k : (forall a, a ∈ fst <$> bl -> L' !! a = L !! a) -> fits L bl k -> fits L' bl k.
Proof.
  intros Hf (a & b & o & n & Hl & HL & Hk). exists a, b, o, n. split_and!; [done| |done]. rewrite Hf; [done|].
  apply list_elem_of_fmap. exists (a, b). split; [done|]. by apply last_Some_elem_of.
Qed.

(** The first pbufs: the same place, and not less data. *)
Definition same_head bl bl' : Prop :=
  match bl, bl' with
  | (a, b) :: _, (a', b') :: _ => a' = a /\ payload b' = payload b /\ len b <= len b'
  | _, _ => False
  end.

(** A region of memory in a block that is not one of the chains. *)
Definition source L cs (a k : Z) : Prop := exists p o n, L !! p = Some (o, n) /\ p <= a /\ a + k <= p + n /\ p ∉ addresses cs.

Section Owns.
Context {A : Type} `{AllocSpec A}.
Variable custom_free : Z -> Z -> state A -> res (state A).
Variable stale_flags : Z -> Z.
Hypothesis stale_flags_law : forall p, Z.land (stale_flags p) PBUF_FLAG_IS_CUSTOM = 0.
Variable callback_ok : bool.
Implicit Types s : state A.

Definition alive s bl : Prop := packet (pbufs s) (first bl) bl /\ plain bl /\ first bl <> NULL.

Record owns s L cs : Prop := {
  ow_wf : wf s L;
  ow_alive : Forall (alive s) cs;
  ow_sep : NoDup (addresses cs)
}.

Lemma owns_perm s L cs cs' : cs ≡ₚ cs' -> owns s L cs -> owns s L cs'.
Proof. intros Hp [Hw Hl Hs]. split; [done|by rewrite <- Hp|by rewrite <- (addresses_perm _ _ Hp)]. Qed.

#[global] Instance owns_proper s L : Proper (Permutation ==> iff) (owns s L).
Proof. intros cs cs' Hp. split; apply owns_perm; [done|by symmetry]. Qed.

Lemma owns_app s L cs1 cs2 : owns s L (cs1 ++ cs2) -> owns s L cs1 /\ owns s L cs2 /\ (forall a, a ∈ addresses cs1 -> a ∉ addresses cs2).
Proof.
  intros [Hw Hl Hs]. rewrite addresses_app in Hs. apply NoDup_app in Hs as (H1 & H2 & H3). apply Forall_app in Hl as (Hl1 & Hl2).
  split_and!; [by split|by split|done].
Qed.

Lemma owns_cons s L bl cs : owns s L (bl :: cs) -> alive s bl /\ owns s L cs /\ (forall a, a ∈ fst <$> bl -> a ∉ addresses cs).
Proof.
  intros Ho. destruct (owns_app s L [bl] cs Ho) as (H1 & H2 & H3). cbn [addresses] in H3. rewrite app_nil_r in H3. split_and!; [|done|done].
  apply (Forall_inv (ow_alive _ _ _ H1)).
Qed.

Lemma alive_frame s s' bl l : frame (pbufs s) (pbufs s') l -> (forall a, a ∈ fst <$> bl -> a ∉ l) -> alive s bl -> alive s' bl.
Proof.
  intros Hf Hd ((Hc & Hok) & Hp). split; [|done]. split; [|done]. eapply chain_frame; [|exact Hc]. intros a Ha. by apply Hf, Hd.
Qed.

(** A change to pbufs that are not among the chains. *)
Lemma owns_frame s s' L L' cs l :
  owns s L cs -> wf s' L' -> frame (pbufs s) (pbufs s') l -> (forall a, a ∈ addresses cs -> a ∉ l) -> owns s' L' cs.
Proof.
  intros [Hw Hl Hs] Hw' Hf Hd. split; [done| |done]. rewrite Forall_forall in *. intros bl Hin. eapply alive_frame; [exact Hf| |by apply Hl].
  intros a Ha. apply Hd. apply elem_of_addresses. by exists bl.
Qed.

(** The first chain is replaced. *)
Lemma owns_replace s s' L L' bl bl' cs :
  owns s L (bl :: cs) -> wf s' L' -> alive s' bl' -> (forall a, a ∈ fst <$> bl' -> a ∈ fst <$> bl) -> frame (pbufs s) (pbufs s') (fst <$> bl) ->
      owns s' L' (bl' :: cs).
Proof.
  intros Ho Hw' Ha Hsub Hf. destruct (owns_cons _ _ _ _ Ho) as (Hal & Hcs & Hd).
  pose proof (owns_frame _ _ _ L' _ _ Hcs Hw' Hf (fun a Hin Hin' => Hd a Hin' Hin)) as [_ Hl' Hs']. split; [done|by constructor|].
  cbn [addresses]. apply NoDup_app. split_and!; [eapply chain_NoDup, Ha| |done]. intros a Hin. by apply Hd, Hsub.
Qed.

(** The block of a pbuf with its data. *)
Lemma own_block s L bl a b : wf s L -> alive s bl -> (a, b) ∈ bl ->
  pbufs s !! a = Some b /\ 0 <= len b /\ exists o n, L !! a = Some (o, n) /\ a + SIZEOF_STRUCT_PBUF <= payload b /\ payload b + len b <= a + n.
Proof.
  intros Hw ((Hc & Hok & _) & Hp & _) Hin. destruct (chain_lookup _ _ _ _ _ Hc Hin) as (_ & Hb). unfold plain in Hp. rewrite Forall_forall in Hp.
  destruct (Hp _ Hin) as (_ & Hcu & Ht). cbn [snd] in *. pose proof (lens_ok_len _ Hok) as Hl. rewrite Forall_forall in Hl. specialize (Hl _ Hin).
  destruct (wf_placed _ _ Hw a b Hb) as (o & n & HL & Hbl). destruct (Hbl Hcu) as [_ Hbl']. specialize (Hbl' Ht). split_and!; [done|done|].
  exists o, n. split_and!; [done|lia|lia].
Qed.

Lemma own_elem s L bl a : wf s L -> alive s bl -> a ∈ fst <$> bl -> exists o n, L !! a = Some (o, n).
Proof.
  intros Hw Ha Hin. apply list_elem_of_fmap in Hin as ([x b] & -> & Hin). destruct (own_block s L bl x b Hw Ha Hin) as (_ & _ & o & n & HL & _).
  by exists o, n.
Qed.

Lemma owns_fresh s L cs p : owns s L cs -> L !! p = None -> p ∉ addresses cs.
Proof.
  intros [Hw Hl _] HL Hin. apply elem_of_addresses in Hin as (bl & Hbl & Hin). rewrite Forall_forall in Hl.
  destruct (own_elem s L bl p Hw (Hl _ Hbl) Hin) as (o & n & HL'). congruence.
Qed.

(** Only the block at [p] has changed. *)
Lemma keep_data s L p m m' bl : wf s L -> alive s bl -> p ∉ fst <$> bl -> others_same L p m m' -> cdata m' bl = cdata m bl.
Proof.
  intros Hw Ha Hp Ho. apply cdata_ext. intros [a b] x Hin Hx. cbn [snd] in Hx.
  destruct (own_block s L bl a b Hw Ha Hin) as (_ & _ & o & n & HL & H1 & H2).
  apply (Ho a o n); [done| |unfold SIZEOF_STRUCT_PBUF in *; lia]. intros ->. apply Hp. apply list_elem_of_fmap. by exists (p, b).
Qed.

Lemma keep_source L cs p m m' a k : p ∈ addresses cs -> others_same L p m m' -> source L cs a (Z.of_nat k) -> rd m' a k = rd m a k.
Proof.
  intros Hp Hs (q & o & n & HL & Hq1 & Hq2 & Hq). apply rd_ext. intros x Hx. apply (Hs q o n); [done|by intros ->|lia].
Qed.

(** The data of a pbuf that is beside the chains [cs]. *)
Lemma source_pbuf s L cs cs' bl a b : owns s L (cs ++ cs') -> bl ∈ cs' -> (a, b) ∈ bl -> source L cs (payload b) (len b).
Proof.
  intros Ho Hin Hab. destruct (owns_app _ _ _ _ Ho) as (_ & Ho' & Hd). pose proof (ow_alive _ _ _ Ho') as Hal. rewrite Forall_forall in Hal.
  destruct (own_block s L bl a b (ow_wf _ _ _ Ho) (Hal _ Hin) Hab) as (_ & _ & o & n & HL & Ha1 & Ha2). exists a, o, n.
  unfold SIZEOF_STRUCT_PBUF in *. split_and!; [done|lia|lia|].
  intros Ha. apply (Hd a Ha). apply elem_of_addresses. exists bl. split; [done|]. apply list_elem_of_fmap. by exists (a, b).
Qed.

Lemma owns_bytes s L m cs : owns s L cs -> owns (with_bytes m s) L cs.
Proof. intros [[Ho Hp] Hl Hs]. split; [by split|done|done]. Qed.

(** *** Allocation and release *)

Lemma own_alloc s L cs layer l : owns s L cs -> is_u16 l -> ram_request (layer_offset layer) l <= 65532 ->
  exists p s', pbuf_alloc stale_flags custom_free callback_ok s layer l PBUF_RAM = Ok (p, s') /\ bytes s' = bytes s
    /\ ((p = NULL /\ owns s' L cs)
        \/ (p <> NULL /\ exists b L', pbufs s' !! p = Some b /\ owns s' L' ([(p, b)] :: cs) /\ L !! p = None /\ frame L L' [p]
              /\ next b = NULL /\ ref b = 1 /\ len b = l /\ tot_len b = l /\ type b = PBUF_RAM /\ flags b = 0
              /\ p + SIZEOF_STRUCT_PBUF + layer_offset layer <= payload b)).
Proof.
  intros Ho Hl Hrq. pose proof (ow_wf _ _ _ Ho) as Hw.
  destruct (pbuf_alloc_spec custom_free stale_flags callback_ok stale_flags_law s L layer l PBUF_RAM Hw Hl (fun _ => Hrq))
    as (p & s' & E & Eb & _ & Hpost). exists p, s'. split; [exact E|]. split; [done|].
  destruct Hpost as [(-> & Hw' & Ep)|(Hne & bl & L1 & Hpk & Htot & Hfr & Hw1 & HL & HfL & Hfp & Hpl & Hone)]; [left|right].
  - split; [done|]. eapply (owns_frame _ _ _ _ _ []); [done|done| |intros ? _; by intros ?%elem_of_nil]. intros a _. by rewrite Ep.
  - split; [done|]. destruct (Hone ltac:(done)) as (b & ->). pose proof Hpk as ((_ & _ & Hb & Hnx) & (Hlb & Htl & _) & _). cbn in Hnx.
    apply Forall_inv in Hfr as (Hty & Hfl & Hrf). cbn [snd] in *. change (total [(p, b)]) with (len b + 0) in Htot. change (total []) with 0 in Htl.
    assert (HLp : L !! p = None) by (apply HL; left).
    exists b, L1. split_and!; try done; [|lia|lia|by apply (Hpl (or_introl eq_refl) b)].
    assert (Ho' : owns s' L1 cs). { eapply owns_frame; [exact Ho|done|exact Hfp|]. intros a Ha ->%list_elem_of_singleton.
    by apply (owns_fresh _ _ _ _ Ho HLp). }
    split; [done| |].
    + constructor; [|apply Ho']. split_and!; [done| |done]. constructor; [|constructor]. cbn [snd].
      split_and!; [lia|lia|unfold is_custom; by rewrite Hfl|by left].
    + cbn [addresses fmap list_fmap fst app]. constructor; [|apply Ho']. by apply (owns_fresh s L).
Qed.

Lemma own_free s L bl cs : owns s L (bl :: cs) ->
  exists k s' L', pbuf_free custom_free s (first bl) = Ok (k, s') /\ owns s' L' cs /\ bytes s' = bytes s /\ frame L L' (fst <$> bl).
Proof.
  intros Ho. destruct (owns_cons _ _ _ _ Ho) as (((Hc & _) & Hp & Hne) & Hcs & Hd).
  destruct (pbuf_free_spec custom_free s L _ _ (ow_wf _ _ _ Ho) Hc Hne (plain_refs _ Hp)) as (s' & E & Hw' & Ep & Eb & _).
  eexists _, s', (free_owned L bl). split_and!; [exact E| |done|intros a Ha; by apply free_owned_other].
  eapply (owns_frame _ _ _ _ _ (fst <$> bl)); [exact Hcs|done| |by intros a Ha Ha'; apply (Hd a)]. intros a Ha. rewrite Ep. by apply free_heap_other.
Qed.

(** *** One pbuf *)

(** A new struct for the only pbuf of a packet, in the same block. *)
Lemma own_single s L p b b' cs :
  owns s L ([(p, b)] :: cs) -> next b' = NULL -> ref b' = ref b -> type b' = type b -> flags b' = flags b -> tot_len b' = len b' ->
  0 <= len b' <= 65535 -> (exists o n, L !! p = Some (o, n) /\ p + SIZEOF_STRUCT_PBUF <= payload b' /\ payload b' + len b' <= p + n) ->
  owns (with_pbufs (<[p := b']> (pbufs s)) s) L ([(p, b')] :: cs).
Proof.
  intros Ho Hnx Hr Ht Hf Htl Hl (o & n & HL & H1 & H2). destruct (owns_cons _ _ _ _ Ho) as (((Hc & _) & Hp & Hne) & _ & _).
  destruct Hc as (_ & _ & Hb & _).
  apply Forall_inv in Hp as (Hrf & Hcu & Hty). cbn [snd first] in *. eapply owns_replace; [exact Ho| | |done|].
  - eapply wf_upd; [apply Ho|exact Hb| |reflexivity]. destruct (wf_placed _ _ (ow_wf _ _ _ Ho) p b Hb) as (o1 & n1 & HL1 & Hin). rewrite HL in HL1.
    injection HL1 as <- <-.
    exists o, n. split; [done|]. unfold is_custom in *. rewrite Hf. intros Hc'. destruct (Hin Hc') as (-> & _). rewrite Ht. split; [done|].
    by intros _.
  - split_and!; [|constructor; [|constructor]; cbn [snd]; unfold is_custom in *; by rewrite Hr, Hf, Ht|done].
    split_and!; [|cbn; lia|cbn; lia]. cbn [chain first with_pbufs pbufs]. rewrite lookup_insert_eq. done.
  - intros a Ha. cbn [with_pbufs pbufs]. rewrite lookup_insert_ne; [done|]. intros <-. apply Ha. left.
Qed.

(** *** Concatenation *)

Lemma cat_front_head bl0 r br t k bl2 : same_head (bl0 ++ [(r, br)]) (cat_front bl0 r br t k ++ bl2).
Proof. destruct bl0 as [|[a b] bl0]; cbn; split_and!; done || lia. Qed.

Lemma own_cat s L bl1 bl2 cs :
  owns s L (bl1 :: bl2 :: cs) -> total bl1 + total bl2 <= 65535 ->
  exists s' bl', pbuf_cat s (first bl1) (first bl2) = Ok s' /\ owns s' L (bl' :: cs) /\ bytes s' = bytes s
    /\ first bl' = first bl1 /\ total bl' = total bl1 + total bl2 /\ (forall m, cdata m bl' = cdata m bl1 ++ cdata m bl2)
    /\ last bl' = last bl2 /\ same_head bl1 bl' /\ frame (pbufs s) (pbufs s') (fst <$> bl1).
Proof.
  intros Ho Ht. destruct (owns_cons _ _ _ _ Ho) as ((Hp1 & Hr1 & Hn1) & Ho2 & Hd1).
  destruct (owns_cons _ _ _ _ Ho2) as ((Hp2 & Hr2 & Hn2) & Hocs & Hd2).
  destruct (exists_last (l := bl1)) as (bl0 & [r br] & ->); [by intros ->|].
  destruct (pbuf_cat_spec s (first (bl0 ++ [(r, br)])) bl0 r br (first bl2) bl2 Hp1 Hp2 Hn2) as (h' & Ec & Hpk & Hfr); [|done|].
  { intros a Ha Ha'. apply (Hd1 a Ha). cbn [addresses]. apply elem_of_app. by left. }
  set (f := cat_front bl0 r br (first bl2) (total bl2)) in *. assert (Hfst : fst <$> f = fst <$> bl0 ++ [(r, br)]) by apply cat_front_fst.
  assert (Hf1 : first (f ++ bl2) = first (bl0 ++ [(r, br)])) by (unfold f; by destruct bl0 as [|[] ?]).
  exists (with_pbufs h' s), (f ++ bl2). split_and!; [done| |done|done| | | |apply cat_front_head|exact Hfr].
  - assert (Hw' : wf (with_pbufs h' s) L) by (eapply cat_wf; [apply Ho|exact Hp1|exact Hpk|done]). split; [done| |].
    + constructor.
      * split_and!; [by rewrite Hf1| |by rewrite Hf1]. apply Forall_app. split; [|done]. apply Forall_forall. intros [a c] Hin.
        unfold f, cat_front in Hin. unfold plain in Hr1. rewrite Forall_forall in Hr1. apply elem_of_app in Hin as [Hin|Hin%list_elem_of_singleton].
        -- destruct (retot_elem _ _ _ _ Hin) as (b & v & Hb & ->). apply (Hr1 (a, b)). apply elem_of_app. by left.
        -- injection Hin as -> ->. apply (Hr1 (r, br)). apply elem_of_app. right. left.
      * eapply (owns_frame _ (with_pbufs h' s) L L); [exact Hocs|done|exact Hfr|]. intros a Ha Ha'. apply (Hd1 a Ha'). cbn [addresses].
        apply elem_of_app. by right.
    + cbn [addresses]. rewrite fmap_app, Hfst, <- app_assoc. apply Ho.
  - rewrite total_app. f_equal. unfold f, cat_front. rewrite !total_app, retot_total. done.
  - intros m. rewrite cdata_app. f_equal. apply cat_front_cdata.
  - destruct bl2 as [|x bl2]; [done|]. rewrite last_app. by destruct (last (x :: bl2)) eqn:El; [|apply last_None in El].
Qed.

End Owns.
