(* ===== verification/TcpWrite.v ===== *)
(** * The stream of a sender: tcp_write of lwip/src/core/tcp_out.c

    The segments of the queue [unsent] hold the stream of the application in pieces, with the
    sequence numbers in their headers.  [tcp_write] with TCP_WRITE_FLAG_COPY appends the data of the
    application to it, in the room behind the last segment, in a pbuf that is linked behind it, and
    in new segments; or it runs out of memory and leaves the stream as it was. *)

From S2P Require Import Prelude Def Mem Memp Pbuf PbufData PbufAlloc PbufOps Chunks TcpData Net.
From S2P Require Import Ip4 IpFrame TcpBase TcpOut TcpFrame ReassList TcpSeq TcpRecv TcpStream TcpAck Chains.

(** ** Pbufs that get longer *)

Section Extend.
Context {A : Type} `{AllocSpec A}.
Implicit Types (s : Pbuf.state A) (bl : list (Z * pbuf)).

Definition longer (k : Z) (b : pbuf) : pbuf := with_len (len b + k) (with_tot_len (len b + k) b).
Definition extended (k : Z) bl0 (r : Z) (br : pbuf) : list (Z * pbuf) := retot (total bl0 + len br + k) bl0 ++ [(r, longer k br)].

Lemma extend_chain_spec bl0 : forall fuel s r br k copy,
  packet (pbufs s) (first (bl0 ++ [(r, br)])) (bl0 ++ [(r, br)]) -> 0 <= k -> total (bl0 ++ [(r, br)]) + k <= 65535 -> (length bl0 < fuel)%nat ->
  exists h', extend_chain fuel s (first (bl0 ++ [(r, br)])) k copy = Ok (with_bytes (wr (bytes s) (payload br + len br) copy) (with_pbufs h' s))
    /\ chain h' (first (bl0 ++ [(r, br)])) (extended k bl0 r br) /\ frame (pbufs s) h' (fst <$> bl0 ++ [(r, br)]).
Proof.
  induction bl0 as [|[a b] bl0 IH]; intros [|fuel] s r br k copy (Hc & Hok & Ht) Hk Htk Hf; cbn [length] in Hf; try lia.
  - cbn [app first chain lens_ok] in *. destruct Hc as (_ & Hne & Hb & Hnx). destruct Hok as (Hl & Etl & _). change (total []) with 0 in Etl.
    change (total [(r, br)]) with (len br + 0) in Htk. cbn [extend_chain]. rewrite (deref_ok _ _ _ Hb). cbn [res_bind]. rewrite (upd_ok _ _ _ _ Hb).
    cbn [res_bind].
    rewrite Hnx. cbn [Z.eqb NULL]. erewrite upd_ok by (cbn [with_bytes with_pbufs pbufs]; apply lookup_insert_eq).
    cbn [with_bytes with_pbufs pbufs bytes]. rewrite insert_insert_eq.
    exists (<[r := with_len (u16 (len br + k)) (with_tot_len (u16 (tot_len br + k)) br)]> (pbufs s)). split; [done|]. split.
    + unfold extended. cbn [retot app chain]. rewrite lookup_insert_eq. split_and!; [done|done| |done]. unfold longer. cbn [with_tot_len len].
      rewrite !u16_id by (unfold is_u16; lia). f_equal. f_equal. f_equal. lia.
    + intros x Hx. cbn [fmap list_fmap fst] in Hx. rewrite lookup_insert_ne; [done|]. intros <-. apply Hx. left.
  - cbn [app first] in *. pose proof (chain_NoDup _ _ _ Hc) as Hnd. cbn [fmap list_fmap fst] in Hnd. apply NoDup_cons in Hnd as (Hna & _).
    cbn [chain lens_ok] in Hc, Hok. destruct Hc as (_ & Hne & Hb & Hc). destruct Hok as (Hl & Etl & Hok). rewrite total_cons in Ht, Htk.
    pose proof (lens_ok_nonneg _ Hok) as Hnn.
    cbn [extend_chain]. rewrite (deref_ok _ _ _ Hb). cbn [res_bind]. rewrite (upd_ok _ _ _ _ Hb). cbn [res_bind].
    pose proof (chain_first _ _ _ Hc) as Hfst. assert (Hnn' : next b <> NULL).
    { destruct bl0 as [|[] ?]; cbn [app chain] in Hc; destruct Hc as (-> & ? & _); done. }
    rewrite (proj2 (Z.eqb_neq _ NULL) Hnn'), Hfst. set (s1 := with_pbufs _ s).
    destruct (IH fuel s1 r br k copy) as (h' & E & Hc' & Hfr); [split_and!; [|done|lia]|done|lia|lia|].
    { rewrite <- Hfst. eapply chain_frame; [|exact Hc]. intros x Hx. cbn [s1 with_pbufs pbufs]. rewrite lookup_insert_ne; [done|]. by intros <-. }
    rewrite E. exists h'. split; [done|]. split.
    + unfold extended. cbn [retot app chain]. split_and!; [done|done| |].
      * rewrite (Hfr a Hna). cbn [s1 with_pbufs pbufs]. rewrite lookup_insert_eq. f_equal. f_equal. rewrite u16_id by (unfold is_u16; lia).
        rewrite total_cons. rewrite total_app in Etl. change (total [(r, br)]) with (len br + 0) in Etl. lia.
      * cbn [with_tot_len next]. rewrite Hfst. unfold extended in Hc'. rewrite total_cons.
        by replace (len b + total bl0 + len br + k - len b) with (total bl0 + len br + k) by lia.
    + intros x Hx. cbn [fmap list_fmap fst] in Hx. apply not_elem_of_cons in Hx as (Hxa & Hx). rewrite (Hfr x Hx). cbn [s1 with_pbufs pbufs].
      by rewrite lookup_insert_ne.
Qed.

Lemma extended_fst k bl0 r br : fst <$> extended k bl0 r br = fst <$> bl0 ++ [(r, br)].
Proof. unfold extended. by rewrite !fmap_app, retot_fst. Qed.

Lemma extended_total k bl0 r br : total (extended k bl0 r br) = total (bl0 ++ [(r, br)]) + k.
Proof. unfold extended. rewrite !total_app, retot_total. cbn. lia. Qed.

Lemma extended_lens k bl0 r br : lens_ok (bl0 ++ [(r, br)]) -> 0 <= k -> lens_ok (extended k bl0 r br).
Proof.
  intros Hok Hk. pose proof (lens_ok_len _ Hok) as Hl. apply Forall_app in Hl as (Hl & Hr). apply Forall_inv in Hr. cbn [snd] in Hr.
  apply lens_ok_retot; [done| |cbn; lia]. cbn [lens_ok]. cbn. lia.
Qed.

(** A packet gets longer in the room behind its last pbuf. *)
Lemma own_extend s L bl cs k copy :
  owns s L (bl :: cs) -> fits L bl k -> 0 <= k -> total bl + k <= 65535 -> Z.of_nat (length copy) = k ->
  exists s' bl' r a, extend_chain (walk_fuel (pbufs s)) s (first bl) k copy = Ok s' /\ owns s' L (bl' :: cs) /\ bytes s' = wr (bytes s) a copy
    /\ r ∈ fst <$> bl /\ others_same L r (bytes s) (bytes s') /\ fst <$> bl' = fst <$> bl /\ total bl' = total bl + k
    /\ cdata (bytes s') bl' = cdata (bytes s) bl ++ copy /\ same_head bl bl' /\ (forall j, fits L bl j -> fits L bl' (j - k)).
Proof.
  intros Ho (r & br & o & n & Hlast & HL & Hroom) Hk Ht Hcp. destruct (owns_cons _ _ _ _ Ho) as (Hal & _ & _). pose proof Hal as (Hpk & Hp & Hne).
  apply last_Some in Hlast as (bl0 & ->). pose proof Hpk as (Hc & Hok & _). pose proof (chain_fuel _ _ _ Hc) as Hfuel. rewrite length_app in Hfuel.
  cbn [length] in Hfuel.
  destruct (extend_chain_spec bl0 (walk_fuel (pbufs s)) s r br k copy Hpk Hk Ht ltac:(lia)) as (h' & E & Hc' & Hfr).
  destruct (own_block s L _ r br (ow_wf _ _ _ Ho) Hal) as (Hr & Hlr & o1 & n1 & HL1 & Hpl & _); [apply elem_of_app; right; left|].
  rewrite HL in HL1. injection HL1 as <- <-. unfold SIZEOF_STRUCT_PBUF in Hpl.
  set (a := payload br + len br) in *. set (m' := wr (bytes s) a copy).
  assert (Hoth : others_same L r (bytes s) m') by (eapply others_wr; [apply Ho|exact HL|unfold a; lia|lia]).
  assert (Hmem : forall x, x ∈ fst <$> extended k bl0 r br -> x ∈ fst <$> bl0 ++ [(r, br)]) by (intros x; by rewrite extended_fst).
  assert (Hfirst : first (extended k bl0 r br) = first (bl0 ++ [(r, br)])) by (by destruct bl0 as [|[] ?]).
  exists (with_bytes m' (with_pbufs h' s)), (extended k bl0 r br), r, a.
  split_and!; [exact E| |done| |done|apply extended_fst|apply extended_total| | |].
  - apply owns_bytes. eapply owns_replace; [exact Ho| | |exact Hmem|exact Hfr].
    + split; [apply Ho|]. intros x b Hb. cbn [with_pbufs pbufs] in Hb. destruct (decide (x ∈ fst <$> bl0 ++ [(r, br)])) as [Hin|Hin].
      * rewrite <- (extended_fst k) in Hin. apply list_elem_of_fmap in Hin as ([y c] & -> & Hin). cbn [fst] in *.
        destruct (chain_lookup _ _ _ _ _ Hc' Hin) as (_ & Hb').
        rewrite Hb in Hb'. injection Hb' as <-. unfold extended in Hin. apply elem_of_app in Hin as [Hin|Hin%list_elem_of_singleton].
        -- destruct (retot_elem _ _ _ _ Hin) as (b0 & v & Hb0 & ->). apply (placed_same L y b0); [done|]. apply (wf_placed _ _ (ow_wf _ _ _ Ho)).
           eapply chain_lookup; [exact Hc|]. apply elem_of_app. by left.
        -- injection Hin as -> ->. destruct (wf_placed _ _ (ow_wf _ _ _ Ho) r br Hr) as (o1 & n1 & HL1 & Hin). rewrite HL in HL1.
           injection HL1 as <- <-.
           exists o, n. split; [done|]. intros Hcu. destruct (Hin Hcu) as (-> & Hbl). split; [done|]. intros Hty. specialize (Hbl Hty).
           cbn [longer with_len with_tot_len len payload]. unfold a in Hroom. lia.
      * apply (wf_placed _ _ (ow_wf _ _ _ Ho)). by rewrite <- (Hfr x Hin).
    + unfold alive. rewrite Hfirst. split; [split_and!; [done|by apply extended_lens|rewrite extended_total; lia]|split; [|done]].
      unfold extended, plain in *. rewrite Forall_app in *. destruct Hp as (Hp1 & Hp2). split.
      * rewrite Forall_forall in *. intros [y c] Hin. destruct (retot_elem _ _ _ _ Hin) as (b0 & v & Hb0 & ->). exact (Hp1 _ Hb0).
      * apply Forall_inv in Hp2. by constructor.
  - rewrite fmap_app. apply elem_of_app. right. left.
  - cbn [with_bytes bytes]. unfold extended. rewrite !cdata_app, retot_cdata, <- app_assoc.
    assert (Hd0 : cdata m' bl0 = cdata (bytes s) bl0).
    { apply cdata_ext. intros [x b] y Hin Hy. cbn [snd] in Hy.
      destruct (own_block s L _ x b (ow_wf _ _ _ Ho) Hal) as (_ & _ & o2 & n2 & HL2 & Hx1 & Hx2); [apply elem_of_app; by left|].
      apply (Hoth x o2 n2); [done| |unfold SIZEOF_STRUCT_PBUF in *; lia]. intros ->. pose proof (chain_NoDup _ _ _ Hc) as Hnd.
      rewrite fmap_app in Hnd. apply NoDup_app in Hnd as (_ & Hnd & _).
      apply (Hnd r); [apply list_elem_of_fmap; by exists (r, b)|left]. }
    rewrite Hd0. f_equal. unfold longer. rewrite !cdata_cons. change (cdata _ []) with (@nil Z). rewrite !app_nil_r.
    cbn [with_len with_tot_len len payload].
    replace (Z.to_nat (len br + k)) with (Z.to_nat (len br) + length copy)%nat by lia. rewrite rd_add.
    replace (payload br + Z.of_nat (Z.to_nat (len br))) with a by (unfold a; lia).
    unfold m'. rewrite rd_wr_same. f_equal. apply rd_wr_apart. unfold a. lia.
  - destruct bl0 as [|[x b] bl0]; cbn; split_and!; done || lia.
  - intros j (r2 & b2 & o2 & n2 & Hl2 & HL2 & Hj). rewrite last_snoc in Hl2. injection Hl2 as <- <-. exists r, (longer k br), o2, n2.
    unfold extended. rewrite last_snoc.
    split_and!; [done|done|]. cbn [longer with_len with_tot_len len payload]. lia.
Qed.

End Extend.

(** ** Segments of a sender *)

(** A segment and its pbufs. *)
Record sseg := mk_ss { ss_seg : tcp_seg; ss_bl : list (Z * pbuf) }.

(** What lies in front of the data: headers and options. *)
Definition skipped (x : sseg) : Z := total (ss_bl x) - seg_len (ss_seg x).
Definition sdata (m : memory) (x : sseg) : list Z := drop (Z.to_nat (skipped x)) (cdata m (ss_bl x)).

(** The header is in the first pbuf, in front of the data. *)
Record sgood (x : sseg) : Prop := {
  sg_p : seg_p (ss_seg x) = first (ss_bl x);
  sg_len : 0 <= seg_len (ss_seg x);
  sg_skip : skipped x <= 255;
  sg_hdr : match ss_bl x with
           | (_, b) :: _ => payload b <= seg_tcphdr (ss_seg x) /\ seg_tcphdr (ss_seg x) + 20 <= payload b + len b
                            /\ seg_tcphdr (ss_seg x) + 20 - payload b <= skipped x
           | [] => False
           end
}.

(** The segments are numbered from [k] on, and end at [send_end]. *)
Fixpoint numbered (m : memory) (k : Z) (U : list sseg) : Prop :=
  match U with
  | [] => True
  | x :: U' => seg_seqno m (ss_seg x) = u32 k /\ numbered m (k + TCP_TCPLEN m (ss_seg x)) U'
  end.

Fixpoint send_end (m : memory) (k : Z) (U : list sseg) : Z :=
  match U with
  | [] => k
  | x :: U' => send_end m (k + TCP_TCPLEN m (ss_seg x)) U'
  end.

(** The data of the segments. *)
Fixpoint out_data (m : memory) (U : list sseg) : list Z :=
  match U with
  | [] => []
  | x :: U' => sdata m x ++ out_data m U'
  end.

Lemma numbered_app m U V : forall k, numbered m k (U ++ V) <-> numbered m k U /\ numbered m (send_end m k U) V.
Proof. induction U as [|x U IH]; intros k; cbn [app numbered send_end]; [tauto|]. rewrite IH. tauto. Qed.

Lemma send_end_app m U V : forall k, send_end m k (U ++ V) = send_end m (send_end m k U) V.
Proof. induction U as [|x U IH]; intros k; cbn [app send_end]; [done|]. apply IH. Qed.

Lemma out_data_app m U V : out_data m (U ++ V) = out_data m U ++ out_data m V.
Proof. induction U as [|x U IH]; cbn [app out_data]; [done|]. by rewrite IH, app_assoc. Qed.

(** The header is part of the data of the packet. *)
Definition hdr_off (x : sseg) : Z := match ss_bl x with (_, b) :: _ => seg_tcphdr (ss_seg x) - payload b | [] => 0 end.

Lemma hdr_bytes x : sgood x -> lens_ok (ss_bl x) ->
  0 <= hdr_off x /\ hdr_off x + 20 <= skipped x
    /\ forall m, rd m (seg_tcphdr (ss_seg x)) 20 = take 20 (drop (Z.to_nat (hdr_off x)) (cdata m (ss_bl x))).
Proof.
  intros [_ Hl _ Hh] Hok. unfold hdr_off. destruct (ss_bl x) as [|[a b] bl] eqn:E; [done|]. destruct Hh as (Hh1 & Hh2 & Hh3). cbn [lens_ok] in Hok.
  destruct Hok as (Hlb & _ & Hok).
  split_and!; [lia|lia|]. intros m.
  rewrite cdata_cons, drop_app_le, take_app_le by (rewrite ?length_drop, length_rd; lia). rewrite drop_rd, take_rd.
  replace (payload b + Z.of_nat (Z.to_nat (seg_tcphdr (ss_seg x) - payload b))) with (seg_tcphdr (ss_seg x)) by lia.
  by replace (20 `min` (Z.to_nat (len b) - Z.to_nat (seg_tcphdr (ss_seg x) - payload b)))%nat with 20%nat by lia.
Qed.

Lemma hdr_fields m m' x : rd m' (seg_tcphdr (ss_seg x)) 20 = rd m (seg_tcphdr (ss_seg x)) 20 ->
  seg_seqno m' (ss_seg x) = seg_seqno m (ss_seg x) /\ TCP_TCPLEN m' (ss_seg x) = TCP_TCPLEN m (ss_seg x).
Proof.
  intros Eh. destruct (same_chunk_agree m m' (mk_g 0 (ss_seg x) [])) as ((E1 & E2) & _); [by split|]. unfold rseg_seqno, g_seg in *.
  unfold seg_seqno, TCP_TCPLEN. by rewrite E1, E2.
Qed.

(** Segments whose packets hold the same bytes. *)
Definition same_packet (m m' : memory) (x : sseg) : Prop := cdata m' (ss_bl x) = cdata m (ss_bl x).

Lemma kept_seg m m' x : sgood x -> lens_ok (ss_bl x) -> same_packet m m' x ->
  seg_seqno m' (ss_seg x) = seg_seqno m (ss_seg x) /\ TCP_TCPLEN m' (ss_seg x) = TCP_TCPLEN m (ss_seg x) /\ sdata m' x = sdata m x.
Proof.
  intros Hg Hok Hk. destruct (hdr_bytes x Hg Hok) as (_ & _ & Ed). assert (Eh : rd m' (seg_tcphdr (ss_seg x)) 20 = rd m (seg_tcphdr (ss_seg x)) 20).
  { rewrite !Ed. by rewrite Hk. }
  destruct (hdr_fields m m' x Eh) as (E1 & E2). split_and!; [done|done|]. unfold sdata. by rewrite Hk.
Qed.

Lemma kept_all m m' U : Forall sgood U -> Forall (fun x => lens_ok (ss_bl x)) U -> Forall (same_packet m m') U ->
  forall k, (numbered m k U -> numbered m' k U) /\ send_end m' k U = send_end m k U /\ out_data m' U = out_data m U.
Proof.
  induction U as [|x U IH]; intros Hg Hok Hk k; cbn [numbered send_end out_data]; [done|]. inversion_clear Hg as [|?? Hg1 Hg2].
  inversion_clear Hok as [|?? Hok1 Hok2]. inversion_clear Hk as [|?? Hk1 Hk2].
  destruct (kept_seg m m' x Hg1 Hok1 Hk1) as (-> & -> & ->). destruct (IH Hg2 Hok2 Hk2 (k + TCP_TCPLEN m (ss_seg x))) as (IH1 & -> & ->). tauto.
Qed.

(** Sequence numbers count modulo 2^32. *)
Lemma send_end_shift m U : forall k d, send_end m (k + d) U = send_end m k U + d.
Proof. induction U as [|x U IH]; intros k d; cbn [send_end]; [done|]. by rewrite <- IH, <- Z.add_assoc, (Z.add_comm d), Z.add_assoc. Qed.

Lemma numbered_mod m U : forall k k', u32 k = u32 k' -> numbered m k U -> numbered m k' U.
Proof.
  induction U as [|x U IH]; intros k k' E; cbn [numbered]; [done|]. intros (E1 & Hn). split; [by rewrite <- E|]. eapply IH; [|exact Hn].
  by rewrite <- (u32_add_l k), E, u32_add_l.
Qed.

Lemma send_end_mod m U k k' : u32 k = u32 k' -> u32 (send_end m k U) = u32 (send_end m k' U).
Proof. intros E. rewrite <- (Z.add_0_l k), <- (Z.add_0_l k'), !send_end_shift, (Z.add_comm _ k), (Z.add_comm _ k').
  by rewrite <- (u32_add_l k), E, u32_add_l. Qed.

(** A segment with the data [d] behind it. *)
Definition grown (x : sseg) (bl : list (Z * pbuf)) (d : list Z) : sseg := mk_ss (set_seg_len (seg_len (ss_seg x) + Z.of_nat (length d)) (ss_seg x))
    bl.

Lemma grown_ok m m' x bl d : sgood x -> lens_ok (ss_bl x) -> lens_ok bl -> same_head (ss_bl x) bl -> first bl = first (ss_bl x) ->
  total bl = total (ss_bl x) + Z.of_nat (length d) -> cdata m' bl = cdata m (ss_bl x) ++ d ->
  let x' := grown x bl d in
  sgood x' /\ seg_seqno m' (ss_seg x') = seg_seqno m (ss_seg x) /\ TCP_TCPLEN m' (ss_seg x') = TCP_TCPLEN m (ss_seg x) + Z.of_nat (length d)
  /\ sdata m' x' = sdata m x ++ d.
Proof.
  intros Hg Hok Hok' Hh Hf Ht Hd. cbv zeta. set (x' := grown x bl d).
  assert (Hsk : skipped x' = skipped x) by (unfold skipped, x', grown; cbn [ss_bl ss_seg seg_len set_seg_len]; lia).
  pose proof Hg as [Hp Hl Hs Hr]. assert (Hg' : sgood x').
  { split; [cbn; congruence|cbn [x' grown ss_seg seg_len set_seg_len]; lia|lia|]. rewrite Hsk. cbn [x' grown ss_bl ss_seg seg_tcphdr set_seg_len].
    destruct (ss_bl x) as [|[a b] bl0]; [done|]. destruct bl as [|[a' b'] bl']; [done|].
    destruct Hh as (_ & -> & Hlb). lia. }
  destruct (hdr_bytes x Hg Hok) as (Ho1 & Ho2 & Ed). destruct (hdr_bytes x' Hg' Hok') as (_ & _ & Ed'). pose proof (length_cdata m _ Hok) as Hlen.
  assert (Eo : hdr_off x' = hdr_off x).
  { unfold hdr_off. cbn [x' grown ss_bl ss_seg seg_tcphdr set_seg_len]. destruct (ss_bl x) as [|[a b] bl0]; [done|].
    destruct bl as [|[a' b'] bl']; [done|]. by destruct Hh as (_ & -> & _). }
  assert (Hle : skipped x <= total (ss_bl x)) by (unfold skipped; lia).
  assert (Eh : rd m' (seg_tcphdr (ss_seg x)) 20 = rd m (seg_tcphdr (ss_seg x)) 20).
  { change (seg_tcphdr (ss_seg x)) with (seg_tcphdr (ss_seg x')) at 1. rewrite Ed', Ed, Eo. cbn [x' grown ss_bl].
    rewrite Hd, drop_app_le, take_app_le by (rewrite ?length_drop; lia); done. }
  destruct (hdr_fields m m' x Eh) as (E1 & E2). split_and!; [done|exact E1| |].
  - unfold TCP_TCPLEN in *. cbn [x' grown ss_seg seg_len set_seg_len seg_tcphdr]. lia.
  - unfold sdata. rewrite Hsk. cbn [x' grown ss_bl]. rewrite Hd, drop_app_le; [done|lia].
Qed.

(** ** New pbufs *)

Section Write.
Context {A W : Type} `{AllocSpec A} `{FragPool A}.
Variable stale_flags : Z -> Z.
Variable custom_free : Z -> Z -> Pbuf.state A -> res (Pbuf.state A).
Variable callback_ok : bool.
Hypothesis stale_flags_law : forall p, Z.land (stale_flags p) PBUF_FLAG_IS_CUSTOM = 0.
Implicit Types (n : net A W) (s : Pbuf.state A) (L : gmap Z (owner * Z)) (cs : list (list (Z * pbuf))).

(** A new pbuf for [l] bytes, with room for [over] more. *)
Record fresh_pbuf s L L' cs (p : Z) (b : pbuf) (l over off : Z) : Prop := {
  fp_owns : owns s L' ([(p, b)] :: cs);
  fp_new : L !! p = None;
  fp_frame : frame L L' [p];
  fp_len : len b = l;
  fp_next : next b = NULL;
  fp_room : fits L' [(p, b)] over;
  fp_head : p + SIZEOF_STRUCT_PBUF + off <= payload b
}.

Lemma alloc_size max l : 0 <= l -> l <= max -> max <= TCP_MSS -> let a := u16 (Z.min max (LWIP_MEM_ALIGN_SIZE (l + TCP_OVERSIZE))) in l <= a <= max.
Proof.
  intros Hl0 Hl1 Hm. unfold TCP_MSS, TCP_OVERSIZE in *. rewrite align_size_arith by (unfold TCP_MSS; lia). unfold TCP_MSS. cbv zeta.
  rewrite u16_id by (unfold is_u16; zlia). zlia.
Qed.

Lemma ram_request_small layer l : 0 <= l <= TCP_MSS -> ram_request (layer_offset layer) l <= 65532.
Proof.
  intros Hl. unfold TCP_MSS in *. destruct (layer_offset_range layer) as (Ho & _). unfold ram_request, SIZEOF_STRUCT_PBUF.
  rewrite !align_size_arith by lia. zlia.
Qed.

Lemma prealloc_spec n pcb t i s L cs layer l max apiflags first_seg :
  seen n pcb t i s -> owns s L cs -> 0 <= l <= max -> max <= TCP_MSS ->
  exists r n' s', tcp_pbuf_prealloc stale_flags custom_free callback_ok n layer l max pcb apiflags first_seg = Ok (r, n')
    /\ seen n' pcb t i s' /\ bytes s' = bytes s
    /\ match r with
       | None => owns s' L cs
       | Some (p, over) => p <> NULL /\ 0 <= over /\ l + over <= max /\ exists b L', fresh_pbuf s' L L' cs p b l over (layer_offset layer)
       end.
Proof.
  intros Hn Ho Hl Hm. unfold tcp_pbuf_prealloc. rewrite (seen_at _ _ _ _ _ Hn). cbn [res_bind].
  set (a := if l <? max then _ else l). assert (Ha : l <= a <= max).
  { unfold a. destruct (Z.ltb_spec l max); [|lia]. destruct (_ || _); [apply alloc_size; lia|lia]. }
  clearbody a. unfold TCP_MSS in Hm. unfold alloc_pbuf, on_packets. rewrite (seen_s _ _ _ _ _ Hn).
  destruct (own_alloc custom_free stale_flags stale_flags_law callback_ok s L cs layer a Ho) as (p & s1 & -> & Eb & Hcase);
    [unfold is_u16; lia|apply ram_request_small; unfold TCP_MSS; lia|]. cbn [res_bind].
  destruct Hcase as [(-> & Ho1)|(Hne & b & L1 & Hb & Ho1 & HLn & HfL & Hnx & Hrf & Hlb & Htl & Hty & Hfl & Hpl)].
  - cbn [Z.eqb NULL]. exists None, (with_packets s1 n), s1. split; [done|]. split; [by apply (seen_packets n pcb t i s)|done].
  - rewrite (proj2 (Z.eqb_neq p NULL) Hne). unfold pbuf_at. cbn [packets with_packets]. rewrite (deref_ok _ _ _ Hb). cbn [res_bind]. rewrite Hnx.
    cbn [Z.eqb NULL lwip_assert res_bind].
    rewrite (upd_ok _ _ _ _ Hb). cbn [res_bind]. rewrite Hlb. rewrite u16_id by (unfold is_u16; lia).
    set (b' := with_len l (with_tot_len l b)). set (s2 := with_pbufs (<[p := b']> (pbufs s1)) s1).
    destruct (owns_cons _ _ _ _ Ho1) as (Hal & _ & _). destruct (own_block s1 L1 _ p b (ow_wf _ _ _ Ho1) Hal) as (_ & _ & o & k & HL & Hb1 & Hb2);
      [left|].
    eexists (Some (p, a - l)), _, s2. split; [done|]. split; [by split; [apply Hn|apply Hn|]|]. split; [done|]. split; [done|]. split; [lia|].
    split; [lia|].
    exists b', L1. split; [|done|done|done|done| |done].
    + apply (own_single s1 L1 p b b' cs Ho1); try done; [cbn; lia|]. exists o, k. cbn. split_and!; [done|done|lia].
    + exists p, b', o, k. split_and!; [done|done|]. cbn. lia.
Qed.

(** *** tcp_create_segment *)

(** The header of a segment with sequence number [sq]. *)
Definition seg_header (m : memory) (hdr : Z) (t : tcp_pcb) (sq : Z) : memory :=
  let m := set_tcph_src m hdr (lwip_htons (t_local_port t)) in
  let m := set_tcph_dest m hdr (lwip_htons (t_remote_port t)) in
  let m := set_tcph_seqno m hdr (lwip_htonl sq) in
  let m := TCPH_HDRLEN_FLAGS_SET m hdr 5 0 in
  set_tcph_urgp m hdr 0.

Lemma seg_header_same s L p o k m hdr t sq : wf s L -> L !! p = Some (o, k) -> p <= hdr -> hdr + 20 <= p + k ->
    others_same L p m (seg_header m hdr t sq).
Proof.
  intros Hw HL Hlo Hhi. unfold seg_header, set_tcph_src, set_tcph_dest, set_tcph_seqno, TCPH_HDRLEN_FLAGS_SET, set_tcph_urgp, wr16, wr32. cbv zeta.
  repeat (eapply others_trans; [|eapply (others_wr s L p); [exact Hw|exact HL|lia|rewrite length_le_bytes; lia]]). apply others_refl.
Qed.

Lemma seg_header_facts m hdr t sq : mem_ok m -> is_u32 sq ->
  mem_ok (seg_header m hdr t sq) /\ lwip_ntohl (tcph_seqno (seg_header m hdr t sq) hdr) = sq /\ TCPH_FLAGS (seg_header m hdr t sq) hdr = 0
  /\ (forall a k, hdr + 20 <= a -> rd (seg_header m hdr t sq) a k = rd m a k).
Proof.
  intros Hm Hsq. unfold seg_header, set_tcph_src, set_tcph_dest, set_tcph_seqno, TCPH_HDRLEN_FLAGS_SET, set_tcph_urgp. cbv zeta. split_and!.
  - repeat (apply mem_ok_wr16 || apply mem_ok_wr32). done.
  - unfold tcph_seqno. unfold wr16. rewrite !rd32_apart by (rewrite length_le_bytes; lia). rewrite rd32_wr32 by apply lwip_htonl_range.
    by apply lwip_htonl_involutive.
  - unfold TCPH_FLAGS, tcph_hdrlen_rsvd_flags. unfold wr16 at 1. rewrite rd16_apart by (rewrite length_le_bytes; lia).
    rewrite rd16_wr16 by (apply u16_range || by vm_compute). by vm_compute.
  - intros a k Ha. unfold wr16, wr32. rewrite !rd_wr_apart by (rewrite length_le_bytes; lia). done.
Qed.

Lemma create_segment_spec n pcb t i s L cs p b l over sq :
  seen n pcb t i s -> mem_ok (bytes s) -> owns s L ([(p, b)] :: cs) -> len b = l -> next b = NULL -> fits L [(p, b)] over ->
      p + SIZEOF_STRUCT_PBUF + 20 <= payload b ->
  0 <= l <= TCP_MSS -> is_u32 sq ->
  exists r n' s', tcp_create_segment custom_free n pcb p 0 sq 0 = Ok (r, n') /\ seen n' pcb t i s' /\ mem_ok (bytes s')
    /\ match r with
       | None => bytes s' = bytes s /\ exists L', owns s' L' cs /\ frame L L' [p]
       | Some seg => exists x, ss_seg x = seg /\ sgood x /\ fst <$> ss_bl x = [p] /\ owns s' L (ss_bl x :: cs) /\ fits L (ss_bl x) over
           /\ seg_len seg = l /\ seg_flags seg = 0 /\ seg_seqno (bytes s') seg = sq /\ TCP_TCPLEN (bytes s') seg = l
           /\ sdata (bytes s') x = cdata (bytes s) [(p, b)] /\ others_same L p (bytes s) (bytes s')
       end.
Proof.
  intros Hn Hm Ho Hl Hnx Hfit Hhead Hlr Hsq. unfold TCP_MSS, SIZEOF_STRUCT_PBUF in *. destruct (owns_cons _ _ _ _ Ho) as (Hal & _ & _).
  pose proof Hal as (((_ & Hne & Hb & _) & (_ & Htl & _) & _) & Hpl & _).
  change (total []) with 0 in Htl. apply Forall_inv in Hpl as (_ & _ & Hty). cbn [snd] in Hty.
  destruct (own_block s L _ p b (ow_wf _ _ _ Ho) Hal) as (_ & _ & o & k & HL & Hb1 & Hb2); [left|]. unfold SIZEOF_STRUCT_PBUF in *.
  unfold tcp_create_segment. change (LWIP_TCP_OPT_LENGTH 0) with 0. change (u8 0) with 0. destruct (seg_malloc n) as [n1|] eqn:Em.
  2:{ destruct (own_free custom_free s L _ _ Ho) as (c & s1 & L1 & E & Ho1 & Eb & HfL). unfold free, on_packets.
  rewrite (seen_s _ _ _ _ _ Hn). cbn [first] in E. rewrite E.
      cbn [res_bind]. exists None, (with_packets s1 n), s1. split; [done|]. split; [by apply (seen_packets n pcb t i s)|]. rewrite Eb.
      split; [done|]. split; [done|]. by exists L1. }
  assert (Hn1 : seen n1 pcb t i s). { unfold seg_malloc in Em. destruct (tcp_seg_pool (tcp n)); [done|]. injection Em as <-. destruct Hn. by split. }
  unfold pbuf_at. rewrite (seen_s _ _ _ _ _ Hn1), (deref_ok _ _ _ Hb). cbn [res_bind]. rewrite (proj2 (Z.leb_le 0 _)) by lia.
  cbn [lwip_assert res_bind].
  rewrite Z.sub_0_r, (u16_id (tot_len b)) by (unfold is_u16; lia). unfold header, on_packets, pbuf_header. rewrite (seen_s _ _ _ _ _ Hn1).
  rewrite (header_spec s p b TCP_HLEN false Hb Hne) by (unfold TCP_HLEN, lens_fit, is_s16; lia).
  assert (Hhok : header_ok p b TCP_HLEN false = true).
  { unfold header_ok, room_ok, SIZEOF_STRUCT_PBUF, TCP_HLEN. cbn [Z.ltb Z.compare orb andb]. destruct Hty as [-> | ->]; apply Z.leb_le; lia. }
  rewrite Hhok. cbn [negb res_bind]. set (b' := moved TCP_HLEN b). set (s1 := with_pbufs _ s).
  assert (Hb' : pbufs s1 !! p = Some b') by apply lookup_insert_eq.
  cbn [packets with_packets]. rewrite (deref_ok _ _ _ Hb'). cbn [res_bind]. pose proof (seen_packets _ _ _ _ _ s1 Hn1) as Hn2.
  rewrite (seen_at _ _ _ _ _ Hn2). cbn [res_bind].
  replace (mem (with_packets s1 n1)) with (bytes s) by done. change (5 + 0 / 4) with 5. set (hdr := payload b'). fold (seg_header (bytes s) hdr t sq).
  destruct (seg_header_facts (bytes s) hdr t sq Hm Hsq) as (Hm' & Esq & Efl & Erd). set (m' := seg_header (bytes s) hdr t sq) in *.
  assert (Hph : hdr = payload b - 20) by done. assert (Hlb' : len b' = l + 20) by (cbn; unfold TCP_HLEN; lia).
  set (seg := mk_seg p (tot_len b) 0 hdr). exists (Some seg), (with_mem m' (with_packets s1 n1)), (with_bytes m' s1). split; [done|].
  split; [by apply seen_with_mem|]. split; [done|].
  exists (mk_ss seg [(p, b')]). unfold skipped. cbn [ss_seg ss_bl]. change (total [(p, b')]) with (len b' + 0). split; [done|].
  split; [|split; [done|]].
  - split; cbn [ss_seg ss_bl seg_p seg seg_len seg_tcphdr]; unfold skipped; cbn [ss_seg ss_bl seg seg_len]; change (total [(p, b')]) with (len b' +
      0); [done|lia|lia|]. fold hdr. lia.
  - split; [|split; [|split; [|split; [done|split; [done|split; [|split]]]]]].
    + apply owns_bytes. apply (own_single s L p b b' cs Ho); try done; [cbn; unfold TCP_HLEN; lia|lia|]. exists o, k. cbn [b' moved payload].
      unfold SIZEOF_STRUCT_PBUF, TCP_HLEN. fold b'. rewrite Hlb'. split_and!; [done|lia|lia].
    + destruct Hfit as (p1 & b1 & o1 & k1 & [= <- <-] & HL1 & Hroom). rewrite HL in HL1. injection HL1 as <- <-. exists p, b', o, k.
      split_and!; [done|done|]. rewrite Hlb'. cbn [b' moved payload]. unfold TCP_HLEN. lia.
    + cbn. lia.
    + unfold TCP_TCPLEN. cbn [seg seg_tcphdr seg_len with_bytes bytes]. rewrite Efl. change (has 0 _) with false. cbv iota. lia.
    + unfold sdata, skipped. cbn [ss_seg ss_bl seg seg_len with_bytes bytes]. change (total [(p, b')]) with (len b' + 0). rewrite !cdata_cons.
      change (cdata _ []) with (@nil Z). rewrite !app_nil_r, drop_rd.
      fold hdr. replace (Z.to_nat (len b' + 0 - tot_len b)) with 20%nat by lia. rewrite Erd by lia. f_equal; lia.
    + cbn [with_bytes bytes]. eapply (seg_header_same s L p o k); [apply Ho|done|lia|lia].
Qed.

(** *** The data of the application *)

(** The chains [cs], their blocks and the data of the application are as they were. *)
Record carried (m m' : memory) L L' cs (arg : Z) (l : nat) : Prop := {
  ca_data : forall bl, bl ∈ cs -> cdata m' bl = cdata m bl;
  ca_blocks : forall a, a ∈ addresses cs -> L' !! a = L !! a;
  ca_source : rd m' arg l = rd m arg l
}.

Lemma carried_trans m1 m2 m3 L1 L2 L3 cs arg l : carried m1 m2 L1 L2 cs arg l -> carried m2 m3 L2 L3 cs arg l -> carried m1 m3 L1 L3 cs arg l.
Proof. intros [Ha1 Ha2 Ha3] [Hb1 Hb2 Hb3]. split; [intros bl Hin; by rewrite Hb1, Ha1|intros a Hin; by rewrite Hb2, Ha2|by rewrite Hb3]. Qed.

Lemma carried_sub m m' L L' cs cs' arg l : (forall bl, bl ∈ cs' -> bl ∈ cs) -> carried m m' L L' cs arg l -> carried m m' L L' cs' arg l.
Proof.
  intros Hsub [Ha1 Ha2 Ha3]. split; [auto| |done]. intros a Ha. apply Ha2. apply elem_of_addresses in Ha as (bl & Hin & Ha). apply elem_of_addresses.
  exists bl. auto.
Qed.

Lemma source_frame L L' S p arg l : source L S arg l -> frame L L' [p] -> L !! p = None -> source L' S arg l.
Proof. intros (q & o & k & HL & Hq1 & Hq2 & Hq) Hf Hp. exists q, o, k. split_and!; [|done|done|done]. rewrite Hf; [done|].
  intros ->%list_elem_of_singleton. congruence. Qed.

(** A new block, and writes to the new pbuf [p]. *)
Lemma carried_new s L L' cs S p m m' arg l :
  owns s L cs -> L !! p = None -> source L S arg (Z.of_nat l) -> frame L L' [p] -> others_same L' p m m' -> carried m m' L L' cs arg l.
Proof.
  intros Ho HLp (q & o & k & HLq & Hq1 & Hq2 & _) Hf Hs. assert (Hqp : q <> p) by (intros ->; congruence).
  pose proof (owns_fresh _ _ _ _ Ho HLp) as Hpc.
  assert (HL : forall a, a ∈ addresses cs -> L' !! a = L !! a). { intros a Ha. apply Hf. intros ->%list_elem_of_singleton. done. }
  split; [|done|].
  - intros bl Hin. pose proof (ow_alive _ _ _ Ho) as Hal. rewrite Forall_forall in Hal. specialize (Hal _ Hin). apply cdata_ext.
    intros [a c] x Hab Hx. cbn [snd] in Hx.
    destruct (own_block s L bl a c (ow_wf _ _ _ Ho) Hal Hab) as (_ & _ & o1 & k1 & HL1 & Hk1 & Hk2).
    assert (Hac : a ∈ addresses cs) by (apply elem_of_addresses; exists bl; split; [done|]; apply list_elem_of_fmap; by exists (a, c)).
    apply (Hs a o1 k1); [by rewrite HL|by intros ->|unfold SIZEOF_STRUCT_PBUF in *; lia].
  - apply rd_ext. intros x Hx. apply (Hs q o k); [|done|lia]. rewrite Hf; [done|]. by intros ->%list_elem_of_singleton.
Qed.

(** The pbuf for the next piece of data. *)
Lemma write_pbuf_spec n pcb t i s L cs data l mss over0 apiflags first_seg :
  seen n pcb t i s -> mem_ok (bytes s) -> owns s L cs -> has apiflags TCP_WRITE_FLAG_COPY = true -> 0 <= l <= mss -> mss <= TCP_MSS ->
  exists r n' s', write_pbuf stale_flags custom_free callback_ok n pcb data l apiflags mss over0 first_seg = Ok (r, n') /\ seen n' pcb t i s'
      /\ mem_ok (bytes s')
    /\ match r with
       | None => bytes s' = bytes s /\ owns s' L cs
       | Some (p, over) => p <> NULL /\ 0 <= over /\ l + over <= mss /\ exists b L', fresh_pbuf s' L L' cs p b l over 56
           /\ cdata (bytes s') [(p, b)] = rd (bytes s) data (Z.to_nat l) /\ others_same L' p (bytes s) (bytes s')
       end.
Proof.
  intros Hn Hm Ho Hcp Hl Hms. unfold write_pbuf. rewrite Hcp.
  destruct (prealloc_spec n pcb t i s L cs PBUF_TRANSPORT l mss apiflags first_seg Hn Ho Hl Hms) as (r & n1 & s1 & -> & Hn1 & Eb & Hr).
  cbn [res_bind].
  destruct r as [[p over]|]; [|exists None, n1, s1; rewrite Eb; by split_and!]. destruct Hr as (Hne & Hov & Hlo & b & L1 & Hfp).
  pose proof Hfp as [Ho1 HLn HfL Hlb Hnx Hfit Hhd].
  destruct (owns_cons _ _ _ _ Ho1) as (Hal & _ & _). destruct (own_block s1 L1 _ p b (ow_wf _ _ _ Ho1) Hal) as (Hb & _ & o & k & HL & Hb1 & Hb2);
    [left|].
  unfold pbuf_at. rewrite (seen_s _ _ _ _ _ Hn1), (deref_ok _ _ _ Hb). cbn [res_bind]. rewrite (proj2 (Z.leb_le l _)) by lia.
  cbn [lwip_assert res_bind].
  rewrite (seen_mem _ _ _ _ _ Hn1), Eb. set (m' := wr (bytes s) (payload b) (rd (bytes s) data (Z.to_nat l))).
  exists (Some (p, over)), (with_mem m' n1), (with_bytes m' s1).
  split; [done|]. split; [by apply (seen_with_mem n1)|]. split; [apply mem_ok_wr; [done|by apply mem_ok_rd]|]. split; [done|]. split; [done|].
  split; [done|]. exists b, L1.
  split; [split; try done; by apply owns_bytes|]. split.
  - cbn [with_bytes bytes]. rewrite cdata_cons. change (cdata m' []) with (@nil Z). rewrite app_nil_r, Hlb. unfold m'.
    rewrite <- (length_rd (bytes s) data (Z.to_nat l)) at 2. apply rd_wr_same.
  - cbn [with_bytes bytes]. unfold SIZEOF_STRUCT_PBUF in *. eapply (others_wr s1 L1 p o k); [apply Ho1|done|lia|rewrite length_rd; lia].
Qed.

(** *** New segments *)

(** The segments [Q] hold the data from [pos0] to [pos], behind sequence number [base]. *)
Record newsegs (m : memory) L (base pos0 pos mss over : Z) (D : list Z) (Q : list sseg) : Prop := {
  ns_good : Forall sgood Q;
  ns_num : numbered m (base + pos0) Q;
  ns_end : send_end m (base + pos0) Q = base + pos;
  ns_data : out_data m Q = take (Z.to_nat (pos - pos0)) (drop (Z.to_nat pos0) D);
  ns_tail : match last Q with
            | Some x => 0 <= over /\ seg_flags (ss_seg x) = 0 /\ seg_len (ss_seg x) + over <= mss /\ fits L (ss_bl x) over
            | None => True
            end
}.

Lemma take_drop_step (D : list Z) (a b c : nat) : (a <= b <= c)%nat -> take (b - a) (drop a D) ++ take (c - b) (drop b D) = take (c - a) (drop a D).
Proof. intros Hl. replace (drop b D) with (drop (b - a) (drop a D)) by (rewrite drop_drop; f_equal; lia). rewrite take_take_drop. f_equal. lia. Qed.

Lemma owns_lens s L cs bl : owns s L cs -> bl ∈ cs -> lens_ok bl.
Proof. intros Ho Hin. pose proof (ow_alive _ _ _ Ho) as Hal. rewrite Forall_forall in Hal. apply (Hal _ Hin). Qed.

(** The segments of a list of chains that has been carried along. *)
Lemma carried_kept s L cs (U : list sseg) m' L' arg l : owns s L cs -> (forall x, x ∈ U -> ss_bl x ∈ cs) -> carried (bytes s) m' L L' cs arg l ->
    Forall sgood U ->
  forall k, (numbered (bytes s) k U -> numbered m' k U) /\ send_end m' k U = send_end (bytes s) k U /\ out_data m' U = out_data (bytes s) U.
Proof.
  intros Ho Hin Hc Hg. apply kept_all; [done| |]; apply Forall_forall; intros x Hx; [by eapply owns_lens, Hin|].
  by apply (ca_data _ _ _ _ _ _ _ Hc), Hin.
Qed.

Lemma bl_in (x : sseg) (Q : list sseg) cs : x ∈ Q -> ss_bl x ∈ (ss_bl <$> Q) ++ cs.
Proof. intros Hx. apply elem_of_app. left. by apply list_elem_of_fmap_2. Qed.

Lemma newsegs_add s L L' s' base pos0 pos mss over over' D Q cs x l arg :
  newsegs (bytes s) L base pos0 pos mss over D Q -> owns s L ((ss_bl <$> Q) ++ cs) ->
      carried (bytes s) (bytes s') L L' ((ss_bl <$> Q) ++ cs) arg (length D) ->
  0 <= pos0 <= pos -> 0 <= l -> sgood x -> seg_flags (ss_seg x) = 0 -> seg_len (ss_seg x) = l -> seg_seqno (bytes s') (ss_seg x) = u32 (base + pos) ->
      TCP_TCPLEN (bytes s') (ss_seg x) = l ->
  sdata (bytes s') x = take (Z.to_nat l) (drop (Z.to_nat pos) D) -> 0 <= over' -> l + over' <= mss -> fits L' (ss_bl x) over' ->
  newsegs (bytes s') L' base pos0 (pos + l) mss over' D (Q ++ [x]).
Proof.
  intros [Hg Hnum Hend Hdat _] Ho Hc Hp Hl Hgx Hfl Hlx Hsq Htl Hsd Hov Hlo Hfit.
  destruct (carried_kept s L _ Q (bytes s') L' arg (length D) Ho (fun x Hx => bl_in x Q cs Hx) Hc Hg (base + pos0)) as (K1 & K2 & K3). split.
  - apply Forall_app. split; [done|by constructor].
  - apply numbered_app. split; [by apply K1|]. cbn [numbered]. rewrite K2, Hend. done.
  - rewrite send_end_app, K2, Hend. cbn [send_end]. rewrite Htl. lia.
  - rewrite out_data_app, K3, Hdat. cbn [out_data]. rewrite app_nil_r, Hsd. replace (Z.to_nat l) with (Z.to_nat (pos + l) - Z.to_nat pos)%nat by lia.
    replace (Z.to_nat (pos - pos0)) with (Z.to_nat pos - Z.to_nat pos0)%nat by lia. rewrite take_drop_step by lia. f_equal. lia.
  - rewrite last_snoc. rewrite Hlx. done.
Qed.

Lemma queue_perm (Q : list sseg) x cs : (ss_bl <$> Q ++ [x]) ++ cs ≡ₚ ss_bl x :: (ss_bl <$> Q) ++ cs.
Proof. rewrite fmap_app, <- app_assoc. cbn. by rewrite Permutation_middle. Qed.

Lemma owns_queue s L (Q : list sseg) x cs : owns s L (ss_bl x :: (ss_bl <$> Q) ++ cs) -> owns s L ((ss_bl <$> Q ++ [x]) ++ cs).
Proof. apply owns_perm. symmetry. apply queue_perm. Qed.

Lemma write_segs_spec pcb t i arg l apiflags mss pos0 D cs S : has apiflags TCP_WRITE_FLAG_COPY = true -> 0 < mss <= TCP_MSS -> 0 <= l ->
    length D = Z.to_nat l ->
  forall fuel n s L Q pos over ql,
  seen n pcb t i s -> mem_ok (bytes s) -> owns s L ((ss_bl <$> Q) ++ cs) -> source L S arg l -> rd (bytes s) arg (Z.to_nat l) = D ->
  newsegs (bytes s) L (t_snd_lbb t) pos0 pos mss over D Q -> 0 <= pos0 <= pos -> pos <= l -> 0 <= ql -> (pos < l -> ql <= 8
      /\ 10 <= Z.of_nat fuel + ql) ->
  exists r Q' n' s' L', write_segs stale_flags custom_free callback_ok fuel n pcb arg l apiflags mss pos over ql (ss_seg <$> Q) = Ok (r, ss_seg <$>
      Q', n')
    /\ seen n' pcb t i s' /\ mem_ok (bytes s') /\ owns s' L' ((ss_bl <$> Q') ++ cs) /\ source L' S arg l
    /\ carried (bytes s) (bytes s') L L' cs arg (length D) /\ Forall sgood Q'
    /\ match r with
       | None => True
       | Some (over', ql') => newsegs (bytes s') L' (t_snd_lbb t) pos0 l mss over' D Q' /\ ql' <= Z.max 8 ql
           /\ ql' = ql + Z.of_nat (length Q') - Z.of_nat (length Q) /\ (length Q <= length Q')%nat /\ (Q' = [] -> over' = over)
       end.
Proof.
  intros Hcp Hms Hl0 HD. induction fuel as [|fuel IH]; intros n s L Q pos over ql Hn Hm Ho Hsrc Hrd Hns Hp0 Hpl Hql Hfu; cbn [write_segs]; destruct
    (Z.ltb_spec pos l) as [Hlt|Hge].
  1: lia.
  1,3: (exists (Some (over, ql)), Q, n, s, L; replace l with pos in * by lia; split_and!; try done; first [apply Hns|lia]).
  specialize (Hfu Hlt). set (sl := if mss <? l - pos then mss else l - pos).
  assert (Hsl : 0 < sl <= mss /\ sl <= l - pos) by (unfold sl; destruct (Z.ltb_spec mss (l - pos)); lia). clearbody sl.
  destruct (write_pbuf_spec n pcb t i s L _ (arg + pos) sl mss over apiflags (is_nil (ss_seg <$> Q)) Hn Hm Ho Hcp ltac:(lia) ltac:(lia)) as (r & n1 &
    s1 & -> & Hn1 & Hm1 & Hr). cbn [res_bind].
  destruct r as [[p over1]|].
  2:{ destruct Hr as (Eb & Ho1). exists None, Q, n1, s1, L. rewrite Eb in *. split_and!; try done; apply Hns. }
  destruct Hr as (Hne & Hov & Hlo & b & L1 & Hfp & Hcd & Hoth). pose proof Hfp as [Ho1 HLn HfL Hlb Hnx Hfit Hhd].
  destruct (owns_cons _ _ _ _ Ho1) as (((Hc & _) & _) & _ & _). rewrite (seen_s _ _ _ _ _ Hn1), (pbuf_clen_spec s1 p [(p, b)] Hc).
  cbn [res_bind length]. change (u16 (Z.of_nat 1)) with 1.
  rewrite (u16_id (ql + 1)) by (unfold is_u16; lia). pose proof (owns_fresh _ _ _ _ Ho HLn) as Hpn.
  assert (Hgone : forall s2 L2, owns s2 L2 ((ss_bl <$> Q) ++ cs) -> bytes s2 = bytes s1 -> frame L1 L2 [p] ->
    source L2 S arg l /\ carried (bytes s) (bytes s2) L L2 cs arg (length D)).
  { intros s2 L2 Ho2 Eb2 Hf2. assert (HfL2 : frame L L2 [p]) by (intros a Ha; rewrite Hf2, HfL by done; done). split; [by eapply source_frame|].
    apply (carried_trans _ (bytes s1) _ _ L1); [|rewrite Eb2]; [|split; [done| |done]].
    - apply (carried_sub _ _ _ _ ((ss_bl <$> Q) ++ cs)); [intros bl Hin; apply elem_of_app; by right|]. eapply (carried_new s L L1 _ S p); try done.
      by rewrite HD, Z2Nat.id by lia.
    - intros a Ha. rewrite Hf2; [done|]. intros ->%list_elem_of_singleton. apply Hpn. rewrite addresses_app. apply elem_of_app. by right. }
  destruct (_ || _) eqn:Eq.
  { destruct (own_free custom_free s1 L1 _ _ Ho1) as (c & s2 & L2 & E & Ho2 & Eb2 & Hf2). cbn [first] in E. unfold free, on_packets.
    rewrite (seen_s _ _ _ _ _ Hn1), E. cbn [res_bind].
    destruct (Hgone s2 L2 Ho2 Eb2 Hf2) as (Hs2 & Hc2). exists None, Q, (with_packets s2 n1), s2, L2. split; [done|].
    split; [by apply (seen_packets n1 pcb t i s1)|]. rewrite Eb2. rewrite Eb2 in Hc2.
    split_and!; try done. apply Hns. }
  apply orb_false_iff in Eq as (Eq & _). apply Z.ltb_ge in Eq. unfold TCP_SND_QUEUELEN in Eq. rewrite (seen_at _ _ _ _ _ Hn1). cbn [res_bind].
  destruct (create_segment_spec n1 pcb t i s1 L1 _ p b sl over1 (u32 (t_snd_lbb t + pos)) Hn1 Hm1 Ho1 Hlb Hnx Hfit) as (r & n2 & s2 & -> & Hn2 & Hm2
    & Hr);
    [unfold SIZEOF_STRUCT_PBUF in *; lia|lia|apply u32_range|]. cbn [res_bind]. destruct r as [seg|].
  2:{ destruct Hr as (Eb2 & L2 & Ho2 & Hf2). destruct (Hgone s2 L2 Ho2 Eb2 Hf2) as (Hs2 & Hc2). exists None, Q, n2, s2, L2. split_and!; try done.
  apply Hns. }
  destruct Hr as (x & <- & Hgx & Hfx & Ho2 & Hfit2 & Hlx & Hflx & Hsq & Htl & Hsd & Hoth2).
  assert (Hca : carried (bytes s) (bytes s2) L L1 ((ss_bl <$> Q) ++ cs) arg (length D)).
  { eapply (carried_new s L L1 _ S p); try done; [by rewrite HD, Z2Nat.id by lia|]. by eapply others_trans. }
  assert (Hns2 : newsegs (bytes s2) L1 (t_snd_lbb t) pos0 (pos + sl) mss over1 D (Q ++ [x])).
  { eapply (newsegs_add s L L1 s2 _ pos0 pos mss over over1 D Q cs x sl arg); try done; try lia. rewrite Hsd, Hcd, <- Hrd, drop_rd, take_rd.
    f_equal; lia. }
  pose proof (owns_queue s2 L1 Q x cs Ho2) as Ho3.
  replace ((ss_seg <$> Q) ++ [ss_seg x]) with (ss_seg <$> Q ++ [x]) by (by rewrite fmap_app).
  destruct (IH n2 s2 L1 (Q ++ [x]) (pos + sl) over1 (ql + 1) Hn2 Hm2 Ho3 (source_frame _ _ _ _ _ _ Hsrc HfL HLn)) as (r & Q' & n' & s' & L' & E & Hn'
    & Hm' & Ho' & Hsrc' & Hca' & Hg' & Hr); try done; try lia.
  { rewrite <- Hrd. pose proof (ca_source _ _ _ _ _ _ _ Hca) as Ec. rewrite HD in Ec. exact Ec. }
  exists r, Q', n', s', L'. split_and!; try done.
  - eapply carried_trans; [|exact Hca']. eapply carried_sub; [|exact Hca]. intros bl Hin. apply elem_of_app. by right.
  - destruct r as [[over' ql']|]; [|done]. destruct Hr as (Hns' & Hq1 & Hq2 & Hq3 & Hq4). rewrite length_app in *. cbn [length] in *.
    split_and!; [done|lia|lia|lia|].
    intros ->. cbn [length] in Hq3. lia.
Qed.

End Write.
