(* ===== verification/TcpSend.v ===== *)
(** * tcp_write: the sender's stream

    The invariant [sending] of the unsent queue, the three phases of [tcp_write] on it, and the
    theorem that the function appends to the stream or leaves it alone. *)

From S2P Require Import Prelude Def Mem Memp Pbuf PbufData PbufAlloc PbufOps Chunks TcpData Net Ip4 IpFrame.
From S2P Require Import TcpBase TcpOut Tcp TcpFrame ReassList TcpSeq TcpRecv TcpStream TcpOos TcpAck TcpReceive Chains TcpWrite.

(** ** The flag PSH *)

Lemma word_set_psh w : is_u16 w ->
  let w' := Z.lor w (lwip_htons TCP_PSH) in
  is_u16 w' /\ has (word_flags w') (Z.lor TCP_FIN TCP_SYN) = has (word_flags w) (Z.lor TCP_FIN TCP_SYN).
Proof.
  intros Hw. cbv zeta. pose proof (all_words (fun w => let w' := Z.lor w (lwip_htons TCP_PSH) in
    (0 <=? w') && (w' <=? 65535) && eqb (has (word_flags w') (Z.lor TCP_FIN TCP_SYN)) (has (word_flags w) (Z.lor TCP_FIN TCP_SYN)))
    ltac:(vm_cast_no_check (eq_refl true)) w Hw) as Hp.
  cbv beta zeta in Hp. apply andb_true_iff in Hp as [Hp H3]. apply eqb_prop in H3. unfold is_u16. split_and!; [lia|lia|done].
Qed.

Lemma set_psh_hdr m (sg : tcp_seg) : mem_ok m ->
  let m' := TCPH_SET_FLAG m (seg_tcphdr sg) TCP_PSH in
  mem_ok m' /\ seg_seqno m' sg = seg_seqno m sg /\ TCP_TCPLEN m' sg = TCP_TCPLEN m sg.
Proof.
  intros Hm. cbv zeta. destruct (word_set_psh _ (rd16_range m (seg_tcphdr sg + 12) Hm)) as (Hw & Hf).
  unfold TCPH_SET_FLAG, tcph_hdrlen_rsvd_flags in *.
  split_and!; [by apply mem_ok_wr16| |].
  - unfold seg_seqno, tcph_seqno, wr16. rewrite rd32_apart; [done|]. rewrite length_le_bytes. lia.
  - unfold TCP_TCPLEN. rewrite flags_wr16 by done. rewrite Hf. done.
Qed.

Section Push.
Context {A : Type} `{AllocSpec A}.
Implicit Types (s : Pbuf.state A) (L : gmap Z (owner * Z)) (cs : list (list (Z * pbuf))).

Lemma push_kept s L y cs :
  owns s L (ss_bl y :: cs) -> sgood y ->
  let m' := TCPH_SET_FLAG (bytes s) (seg_tcphdr (ss_seg y)) TCP_PSH in
  sdata m' y = sdata (bytes s) y /\ (forall bl, bl ∈ cs -> cdata m' bl = cdata (bytes s) bl).
Proof.
  intros Ho Hg. cbv zeta. unfold TCPH_SET_FLAG, wr16. set (m' := wr _ _ _). destruct (owns_cons _ _ _ _ Ho) as (Hal & Hcs & Hd).
  destruct Hg as [_ Hl _ Hh]. destruct (ss_bl y) as [|[a b] bl0] eqn:Ey; [done|]. destruct Hh as (Hh1 & Hh2 & Hh3).
  destruct (own_block s L _ a b (ow_wf _ _ _ Ho) Hal) as (_ & Hlb & o & n & HL & Hb1 & Hb2); [left|]. unfold SIZEOF_STRUCT_PBUF in *.
  assert (Hoth : others_same L a (bytes s) m') by (eapply others_wr; [apply Ho|exact HL|lia|rewrite length_le_bytes; lia]). split.
  - assert (Hrest : cdata m' bl0 = cdata (bytes s) bl0).
    { apply cdata_ext. intros [x c] z Hin Hz. cbn [snd] in Hz.
      destruct (own_block s L _ x c (ow_wf _ _ _ Ho) Hal) as (_ & _ & o2 & n2 & HL2 & Hx1 & Hx2); [by right|].
      apply (Hoth x o2 n2); [done| |unfold SIZEOF_STRUCT_PBUF in *; lia]. intros ->. destruct Hal as ((Hc & _) & _). apply chain_NoDup in Hc.
      cbn [fmap list_fmap fst] in Hc. apply NoDup_cons in Hc as (Hc & _).
      apply Hc. apply list_elem_of_fmap. by exists (a, c). }
    unfold sdata. rewrite Ey, !cdata_cons, Hrest, !drop_app. f_equal; [|by rewrite !length_rd]. rewrite !drop_rd. apply rd_wr_apart.
    rewrite length_le_bytes. lia.
  - intros bl Hin. eapply (keep_data s L a); [apply Ho| | |exact Hoth].
    + pose proof (ow_alive _ _ _ Hcs) as Hal'. rewrite Forall_forall in Hal'. by apply Hal'.
    + intros Ha. apply (Hd a); [left|]. apply elem_of_addresses. by exists bl.
Qed.

End Push.

(** ** The queue of unsent segments *)

Definition tail_room (L : gmap Z (owner * Z)) (x : sseg) (over mss : Z) : Prop :=
  0 <= over /\ seg_len (ss_seg x) + LWIP_TCP_OPT_LENGTH (seg_flags (ss_seg x)) + over <= mss /\ fits L (ss_bl x) over.

Section Send.
Context {A W : Type} `{AllocSpec A} `{FragPool A}.
Variable stale_flags : Z -> Z.
Variable custom_free : Z -> Z -> Pbuf.state A -> res (Pbuf.state A).
Variable callback_ok : bool.
Hypothesis stale_flags_law : forall p, Z.land (stale_flags p) PBUF_FLAG_IS_CUSTOM = 0.
Implicit Types (n : net A W) (s : Pbuf.state A) (L : gmap Z (owner * Z)) (cs : list (list (Z * pbuf))).

(** The segments [U], numbered from [k] on, end at [lbb]; there is room for [over] bytes behind the
    last of them, in its pbuf and in a segment of [mss] bytes. *)
Record sending s L cs (U : list sseg) (k lbb over mss : Z) : Prop := {
  se_mem : mem_ok (bytes s);
  se_owns : owns s L ((ss_bl <$> U) ++ cs);
  se_good : Forall sgood U;
  se_num : numbered (bytes s) k U;
  se_end : u32 (send_end (bytes s) k U) = lbb;
  se_tail : match last U with Some x => tail_room L x over mss | None => over = 0 end
}.

Lemma opt_length_range f : 0 <= LWIP_TCP_OPT_LENGTH f <= 24.
Proof. unfold LWIP_TCP_OPT_LENGTH, LWIP_TCP_OPT_LEN_MSS. destruct (has _ _); lia. Qed.

(** *** The first phase *)

(** What the plan [w] says: [X] is the pbuf to be linked behind the last segment [x], if any. *)
Record planned L (m : memory) (x : sseg) (arg l over mss ql : Z) (w : tail_plan) (X : list (list (Z * pbuf))) : Prop := {
  pl_used : 0 <= w_oversize_used w <= over;
  pl_pos : w_oversize_used w <= w_pos w <= l;
  pl_ext : w_extendlen w = 0;
  pl_case : match X with
            | [] => w_concat_p w = NULL /\ w_pos w = w_oversize_used w /\ w_oversize w = over - w_oversize_used w /\ w_queuelen w = ql
            | [[(p, b)]] => w_concat_p w = p /\ p <> NULL /\ len b = w_pos w - w_oversize_used w /\ 0 < len b /\ w_oversize_used w = over
                /\ cdata m [(p, b)] = rd m (arg + w_oversize_used w) (Z.to_nat (len b)) /\ w_queuelen w = ql + 1
                /\ 0 <= w_oversize w /\ seg_len (ss_seg x) + LWIP_TCP_OPT_LENGTH (seg_flags (ss_seg x)) + w_pos w + w_oversize w <= mss
                /\ fits L [(p, b)] (w_oversize w)
            | _ => False
            end
}.

Lemma rd_part m m' a (l : nat) b (k : nat) : rd m' a l = rd m a l -> a <= b -> b + Z.of_nat k <= a + Z.of_nat l -> rd m' b k = rd m b k.
Proof.
  intros E Hlo Hhi. assert (Hs : forall m, rd m b k = take k (drop (Z.to_nat (b - a)) (rd m a l))).
  { intros m0. rewrite drop_rd, take_rd. f_equal; lia. }
  by rewrite !Hs, E.
Qed.

Lemma write_tail_spec n pcb t i s L cs S x arg l apiflags mss :
  seen n pcb t i s -> mem_ok (bytes s) -> owns s L cs -> source L S arg l -> has apiflags TCP_WRITE_FLAG_COPY = true -> 0 <= l -> mss <= TCP_MSS ->
  0 <= seg_len (ss_seg x) -> tail_room L x (t_unsent_oversize t) mss -> 0 <= t_snd_queuelen t -> (0 < l -> t_snd_queuelen t <= 65534) ->
  exists r n' s', write_tail stale_flags custom_free callback_ok n pcb arg l apiflags mss t (ss_seg x) = Ok (r, n') /\ seen n' pcb t i s'
      /\ mem_ok (bytes s')
    /\ match r with
       | None => bytes s' = bytes s /\ owns s' L cs
       | Some w => exists L' X, planned L' (bytes s') x arg l (t_unsent_oversize t) mss (t_snd_queuelen t) w X /\ owns s' L' (X ++ cs)
           /\ source L' S arg l /\ carried (bytes s) (bytes s') L L' cs arg (Z.to_nat l)
       end.
Proof.
  intros Hn Hm Ho Hsrc Hcp Hl Hms Hsl (Hov & Hroom & Hfit) Hql Hql2. unfold write_tail. set (ol := LWIP_TCP_OPT_LENGTH _) in *.
  assert (Hol := opt_length_range (seg_flags (ss_seg x))). fold ol in Hol.
  unfold TCP_MSS in Hms. set (over := t_unsent_oversize t) in *. rewrite (proj2 (Z.leb_le _ mss)) by lia. cbn [lwip_assert res_bind].
  rewrite u16_id by (unfold is_u16; lia).
  set (space := mss - (seg_len (ss_seg x) + ol)). set (used := if 0 <? over then _ else 0).
  assert (Hused : used = Z.min over l) by (unfold used; destruct (Z.ltb_spec 0 over); lia). clearbody used.
  replace ((over - used =? 0) || (used =? l)) with true by (symmetry; rewrite orb_true_iff, !Z.eqb_eq; lia). cbn [lwip_assert res_bind].
  destruct ((used <? l) && (0 <? space - used) && (0 <? seg_len (ss_seg x))) eqn:Eg.
  2:{ exists (Some (mk_tail used (over - used) used NULL 0 (t_snd_queuelen t))), n, s. split_and!; [done|done|done|]. exists L, [].
  split; [|by split_and!]. split; [cbn; lia|cbn; lia|done|done]. }
  rewrite !andb_true_iff, !Z.ltb_lt in Eg. rewrite Hcp. set (sl := if _ <? _ then _ else _).
  assert (Hslr : 0 < sl <= space - used /\ sl <= l - used) by (unfold sl; case_match; lia). clearbody sl.
  destruct (prealloc_spec stale_flags custom_free callback_ok stale_flags_law n pcb t i s L cs PBUF_RAW sl (space - used) apiflags
    true Hn Ho ltac:(lia) ltac:(unfold TCP_MSS; lia))
    as (r & n1 & s1 & -> & Hn1 & Eb & Hr). cbn [res_bind].
  destruct r as [[p over1]|]; [|exists None, n1, s1; rewrite Eb; by split_and!].
  destruct Hr as (Hne & Hov1 & Hlo & b & L1 & [Ho1 HLn HfL Hlb Hnx Hfit1 Hhd]).
  destruct (owns_cons _ _ _ _ Ho1) as (Hal & _ & _). destruct (own_block s1 L1 _ p b (ow_wf _ _ _ Ho1) Hal) as (Hb & _ & o & k & HL & Hb1 & Hb2);
    [left|].
  unfold pbuf_at. rewrite (seen_s _ _ _ _ _ Hn1), (deref_ok _ _ _ Hb). cbn [res_bind]. rewrite (seen_mem _ _ _ _ _ Hn1), Eb. set (m' := wr _ _ _).
  assert (Hn2 := seen_with_mem n1 pcb t i s1 m' Hn1). rewrite (seen_s _ _ _ _ _ Hn2). destruct Hal as ((Hc & _) & _).
  rewrite (pbuf_clen_spec (with_bytes m' s1) p [(p, b)] Hc). cbn [res_bind length]. change (u16 (Z.of_nat 1)) with 1.
  rewrite u16_id by (unfold is_u16; lia).
  assert (Hoth : others_same L1 p (bytes s) m') by (unfold SIZEOF_STRUCT_PBUF in *; eapply (others_wr s1 L1 p o k); [apply Ho1|done|lia|rewrite
    length_rd; lia]).
  eexists (Some _), _, (with_bytes m' s1). split; [reflexivity|]. split; [done|]. split; [apply mem_ok_wr; [done|by apply mem_ok_rd]|].
  exists L1, [[(p, b)]].
  assert (Hca : carried (bytes s) m' L L1 cs arg (Z.to_nat l)) by (eapply (carried_new s L L1 cs S p); try done; by rewrite Z2Nat.id by lia).
  split; [|split_and!; [by apply owns_bytes|by eapply source_frame|done]].
  split; cbn [w_pos w_oversize w_oversize_used w_concat_p w_extendlen w_queuelen]; [lia|lia|done|].
  split_and!; try done; try lia. cbn [with_bytes bytes]. rewrite (rd_part _ _ _ _ _ _ (ca_source _ _ _ _ _ _ _ Hca)) by lia. rewrite cdata_cons.
  change (cdata m' []) with (@nil Z). rewrite app_nil_r, Hlb. unfold m'.
  rewrite <- (length_rd (bytes s) (arg + used) (Z.to_nat sl)) at 2. apply rd_wr_same.
Qed.

(** *** The third phase: the last segment *)

(** The segment [x] has got the data [d], and is [x'] now. *)
Record grew (m m' : memory) (x x' : sseg) (d : list Z) : Prop := {
  gr_good : sgood x';
  gr_flags : seg_flags (ss_seg x') = seg_flags (ss_seg x);
  gr_len : seg_len (ss_seg x') = seg_len (ss_seg x) + Z.of_nat (length d);
  gr_seqno : seg_seqno m' (ss_seg x') = seg_seqno m (ss_seg x);
  gr_tcplen : TCP_TCPLEN m' (ss_seg x') = TCP_TCPLEN m (ss_seg x) + Z.of_nat (length d);
  gr_data : sdata m' x' = sdata m x ++ d
}.

Lemma grew_refl m x : sgood x -> grew m m x x [].
Proof. intros Hg. split; cbn [length]; rewrite ?app_nil_r; done || lia. Qed.

Lemma grew_trans m1 m2 m3 x1 x2 x3 d1 d2 : grew m1 m2 x1 x2 d1 -> grew m2 m3 x2 x3 d2 -> grew m1 m3 x1 x3 (d1 ++ d2).
Proof.
  intros [A1 A2 A3 A4 A5 A6] [B1 B2 B3 B4 B5 B6]. split; [done|congruence|rewrite length_app; lia|congruence|rewrite length_app; lia|].
  by rewrite B6, A6, app_assoc.
Qed.

Lemma grown_grew m m' x bl d : sgood x -> lens_ok (ss_bl x) -> lens_ok bl -> same_head (ss_bl x) bl -> first bl = first (ss_bl x) ->
  total bl = total (ss_bl x) + Z.of_nat (length d) -> cdata m' bl = cdata m (ss_bl x) ++ d -> grew m m' x (grown x bl d) d.
Proof. intros Hg Hok Hok' Hh Hf Ht Hd. by destruct (grown_ok m m' x bl d Hg Hok Hok' Hh Hf Ht Hd) as (? & ? & ? & ?). Qed.

Lemma alive_lens s bl : alive s bl -> lens_ok bl.
Proof. by intros ((_ & Hok & _) & _). Qed.

(** The data goes into the room behind the last pbuf. *)
Lemma commit_used n pcb t i s L R S x arg l used over mss :
  seen n pcb t i s -> mem_ok (bytes s) -> owns s L (ss_bl x :: R) -> source L S arg l -> ss_bl x ∈ S -> sgood x -> tail_room L x over mss ->
      mss <= TCP_MSS ->
  0 <= used <= over -> used <= l ->
  exists n1 s1 x1,
    (if 0 <? used then
       let* s := extend_chain (walk_fuel (pbufs (packets n))) (packets n) (seg_p (ss_seg x)) used (rd (mem n) arg (Z.to_nat used)) in
       Ok (with_packets s n, Some (set_seg_len (u16 (seg_len (ss_seg x) + used)) (ss_seg x)))
     else Ok (n, Some (ss_seg x))) = Ok (n1, Some (ss_seg x1))
    /\ seen n1 pcb t i s1 /\ mem_ok (bytes s1) /\ owns s1 L (ss_bl x1 :: R) /\ grew (bytes s) (bytes s1) x x1 (rd (bytes s) arg (Z.to_nat used))
    /\ carried (bytes s) (bytes s1) L L R arg (Z.to_nat l) /\ fst <$> ss_bl x1 = fst <$> ss_bl x /\ tail_room L x1 (over - used) mss.
Proof.
  intros Hn Hm Ho Hsrc HxS Hg (Hov & Hroom & Hfit) Hms Hu Hul. unfold TCP_MSS in Hms. pose proof (opt_length_range (seg_flags (ss_seg x))) as Hol.
  destruct (Z.ltb_spec 0 used) as [Hpos|Hz].
  2:{ assert (used = 0) as -> by lia. exists n, s, x. rewrite Z.sub_0_r. split_and!; try done. by apply grew_refl. }
  rewrite (seen_s _ _ _ _ _ Hn), (seen_mem _ _ _ _ _ Hn), (sg_p _ Hg). destruct (owns_cons _ _ _ _ Ho) as (Hal & HoR & Hd).
  pose proof (alive_lens _ _ Hal) as Hok.
  set (d := rd (bytes s) arg (Z.to_nat used)). assert (Hld : Z.of_nat (length d) = used) by (unfold d; rewrite length_rd; lia).
  pose proof (sg_skip _ Hg) as Hsk. unfold skipped in Hsk. pose proof (sg_len _ Hg) as Hsl.
  destruct (own_extend s L (ss_bl x) R used d Ho (fits_le _ _ _ used Hfit ltac:(lia)) ltac:(lia) ltac:(lia) Hld)
    as (s1 & bl1 & r & a & E & Ho1 & Eb & Hr & Hoth & Hfst & Ht & Hcd & Hsh & Hfits). rewrite E. cbn [res_bind].
  destruct (owns_cons _ _ _ _ Ho1) as (Hal1 & _ & _). pose proof (alive_lens _ _ Hal1) as Hok1.
  exists (with_packets s1 n), s1, (grown x bl1 d). rewrite u16_id by (unfold is_u16; lia). split; [unfold grown; by rewrite Hld|].
  split; [by apply (seen_packets n pcb t i s)|].
  split; [rewrite Eb; apply mem_ok_wr; [done|by apply mem_ok_rd]|]. split; [done|]. split; [apply grown_grew; try done; [|lia]|].
  { destruct (ss_bl x) as [|[]], bl1 as [|[]]; try done. cbn in Hfst. cbn. congruence. }
  assert (HrR : r ∉ addresses R) by (by apply Hd). split; [|split; [done|]].
  - split; [|done|].
    + intros bl Hin. pose proof (ow_alive _ _ _ HoR) as Hal'. rewrite Forall_forall in Hal'.
      eapply (keep_data s L r); [apply Ho|by apply Hal'| |exact Hoth].
      intros Hrb. apply HrR. apply elem_of_addresses. by exists bl.
    + eapply (keep_source L S r); [apply elem_of_addresses; by exists (ss_bl x)|exact Hoth|]. by rewrite Z2Nat.id by lia.
  - unfold tail_room. cbn [grown ss_seg ss_bl seg_len seg_flags set_seg_len]. split_and!; [lia|lia|]. by apply Hfits.
Qed.

(** The pbuf that has been prepared is linked behind it. *)
Lemma commit_concat n pcb t i s L R x X over mss w :
  seen n pcb t i s -> owns s L (ss_bl x :: X ++ R) -> sgood x -> tail_room L x over mss -> mss <= TCP_MSS -> w_extendlen w = 0 ->
  match X with
  | [] => w_concat_p w = NULL /\ w_oversize w = over
  | [[(p, b)]] => w_concat_p w = p /\ p <> NULL /\ 0 <= w_oversize w
      /\ seg_len (ss_seg x) + LWIP_TCP_OPT_LENGTH (seg_flags (ss_seg x)) + len b + w_oversize w <= mss /\ fits L [(p, b)] (w_oversize w)
  | _ => False
  end ->
  exists n1 s1 x1,
    (if negb (w_concat_p w =? NULL) then
       let* s := pbuf_cat (packets n) (seg_p (ss_seg x)) (w_concat_p w) in
       let n := with_packets s n in
       let* c := pbuf_at n (w_concat_p w) in
       Ok (n, Some (set_seg_len (u16 (seg_len (ss_seg x) + tot_len c)) (ss_seg x)))
     else if 0 <? w_extendlen w then
       assert* negb (seg_p (ss_seg x) =? NULL) in
       let* s := extend_chain (walk_fuel (pbufs (packets n))) (packets n) (seg_p (ss_seg x)) (w_extendlen w) [] in
       Ok (with_packets s n, Some (set_seg_len (u16 (seg_len (ss_seg x) + w_extendlen w)) (ss_seg x)))
     else Ok (n, Some (ss_seg x))) = Ok (n1, Some (ss_seg x1))
    /\ seen n1 pcb t i s1 /\ bytes s1 = bytes s /\ owns s1 L (ss_bl x1 :: R) /\ grew (bytes s) (bytes s) x x1 (cdata (bytes s) (concat X))
    /\ tail_room L x1 (w_oversize w) mss.
Proof.
  intros Hn Ho Hg Htail Hms He HX. rewrite He. pose proof (opt_length_range (seg_flags (ss_seg x))) as Hol. unfold TCP_MSS in Hms.
  destruct X as [|[|[p b] [|? ?]] [|? ?]]; try done.
  - destruct HX as (-> & ->). cbn [Z.eqb NULL negb Z.ltb Z.compare]. exists n, s, x. split_and!; try done. by apply grew_refl.
  - destruct HX as (-> & Hne & Hov & Hroom & Hfit). rewrite (proj2 (Z.eqb_neq p NULL) Hne). cbn [negb]. rewrite (seen_s _ _ _ _ _ Hn), (sg_p _ Hg).
    cbn [app] in Ho.
    destruct (owns_cons _ _ _ _ Ho) as (Hal & HoR & Hd). destruct (owns_cons _ _ _ _ HoR) as (Halp & _ & _). pose proof (alive_lens _ _ Hal) as Hok.
    pose proof Halp as (((_ & _ & Hb & _) & (Hlb & Htl & _) & _) & _).
    change (total []) with 0 in Htl. pose proof (sg_skip _ Hg) as Hsk. unfold skipped in Hsk. pose proof (sg_len _ Hg) as Hsl.
    destruct (own_cat s L (ss_bl x) [(p, b)] R Ho) as (s1 & bl1 & E & Ho1 & Eb & Hf1 & Ht & Hcd & Hla & Hsh & Hfr); [change (total [(p, b)]) with
      (len b + 0); lia|].
    cbn [first] in E. rewrite E. cbn [res_bind]. unfold pbuf_at. cbn [packets with_packets].
    assert (Hb1 : pbufs s1 !! p = Some b). { rewrite Hfr; [done|]. intros Hin. apply (Hd p Hin). cbn [addresses fmap list_fmap fst app]. left. }
    rewrite (deref_ok _ _ _ Hb1). cbn [res_bind]. destruct (owns_cons _ _ _ _ Ho1) as (Hal1 & _ & _). pose proof (alive_lens _ _ Hal1) as Hok1.
    pose proof (length_cdata (bytes s) [(p, b)] (alive_lens _ _ Halp)) as Hlen. change (total [(p, b)]) with (len b + 0) in *.
    exists (with_packets s1 n), s1, (grown x bl1 (cdata (bytes s) [(p, b)])). rewrite u16_id by (unfold is_u16; lia).
    split; [unfold grown; rewrite Hlen; by replace (tot_len b) with (len b + 0) by lia|]. split; [by apply (seen_packets n pcb t i s)|].
    split; [done|]. split; [done|]. split; [change (concat [[(p, b)]]) with [(p, b)]; apply grown_grew; try done; lia|].
    unfold tail_room. cbn [grown ss_seg ss_bl seg_len seg_flags set_seg_len]. split_and!; [lia|lia|].
    destruct Hfit as (p1 & b1 & o1 & k1 & Hl1 & HL1 & Hr1). exists p1, b1, o1, k1. by rewrite Hla.
Qed.

(** *** A queue whose last segments are new *)

(** The segment [x] behind [U0] is [x'] now, with the first [pos] bytes of [D], and the segments [Q] hold the others. *)
Lemma sending_append s s' L L' cs U0 x x' Q k lbb over mss over' pos l D :
  sending s L cs (U0 ++ [x]) k lbb over mss -> is_u32 lbb -> 0 <= pos <= l -> length D = Z.to_nat l ->
  grew (bytes s) (bytes s') x x' (take (Z.to_nat pos) D) -> newsegs (bytes s') L' lbb pos l mss over' D Q ->
  (forall y, y ∈ U0 -> cdata (bytes s') (ss_bl y) = cdata (bytes s) (ss_bl y)) -> mem_ok (bytes s') ->
      owns s' L' ((ss_bl <$> U0 ++ [x'] ++ Q) ++ cs) ->
  (Q = [] -> tail_room L' x' over' mss) ->
  sending s' L' cs (U0 ++ [x'] ++ Q) k (u32 (lbb + l)) over' mss /\ out_data (bytes s') (U0 ++ [x'] ++ Q) = out_data (bytes s) (U0 ++ [x]) ++ D.
Proof.
  intros [Hm Ho Hg Hnum Hend _] Hlbb Hp HD [Gg Gf Gl Gs Gt Gd] [Qg Qn Qe Qd Qt] Hkeep Hm' Ho' Htail. rewrite length_take in *.
  apply Forall_app in Hg as (Hg0 & Hgx). apply numbered_app in Hnum as (Hn0 & Hnx). cbn [numbered] in Hnx. destruct Hnx as (Hnx & _).
  rewrite send_end_app in Hend. cbn [send_end] in Hend.
  assert (Hok0 : Forall (fun y => lens_ok (ss_bl y)) U0).
  { apply Forall_forall. intros y Hy. eapply owns_lens; [exact Ho|]. apply bl_in. apply elem_of_app. by left. }
  destruct (kept_all (bytes s) (bytes s') U0 Hg0 Hok0 ltac:(by apply Forall_forall) k) as (K1 & K2 & K3). set (e := send_end (bytes s) k U0) in *.
  assert (Ee : u32 (e + TCP_TCPLEN (bytes s') (ss_seg x')) = u32 (lbb + pos)).
  { rewrite Gt, <- Hend, u32_add_l, Z.add_assoc. do 2 f_equal. lia. }
  split.
  - split; [done|done| | | |].
    + apply Forall_app. split; [done|]. by constructor.
    + apply numbered_app. rewrite K2. split; [by apply K1|]. cbn [app numbered]. split; [by rewrite Gs|]. eapply numbered_mod; [|exact Qn]. done.
    + rewrite !send_end_app, K2. cbn [send_end]. erewrite send_end_mod by exact Ee. by rewrite Qe.
    + rewrite app_assoc, last_app. destruct (last Q) as [y|] eqn:El.
      * destruct Qt as (T1 & T2 & T3 & T4). unfold tail_room. rewrite T2. change (LWIP_TCP_OPT_LENGTH 0) with 0. split_and!; [done|lia|done].
      * rewrite last_snoc. apply Htail. by apply last_None.
  - rewrite !out_data_app, K3, Qd. cbn [out_data]. rewrite Gd, !app_nil_r, <- !app_assoc. f_equal. f_equal.
    rewrite (take_ge (drop _ D)) by (rewrite length_drop; lia). apply take_drop.
Qed.

(** The queue beside which something has been done. *)
Lemma sending_carried s s' L L' cs U k lbb over mss arg l :
  sending s L cs U k lbb over mss -> carried (bytes s) (bytes s') L L' ((ss_bl <$> U) ++ cs) arg l -> owns s' L' ((ss_bl <$> U) ++ cs) ->
      mem_ok (bytes s') ->
  sending s' L' cs U k lbb over mss /\ out_data (bytes s') U = out_data (bytes s) U.
Proof.
  intros [Hm Ho Hg Hnum Hend Htail] Hc Ho' Hm'. destruct (carried_kept s L _ U (bytes s') L' arg l Ho (fun x Hx => bl_in x U cs Hx) Hc Hg k) as (K1 &
    K2 & K3).
  split; [|done]. split; [done|done|done|by apply K1|by rewrite K2|]. destruct (last U) as [x|] eqn:El; [|done]. destruct Htail as (T1 & T2 & T3).
  split_and!; [done|done|].
  eapply fits_frame; [|exact T3]. intros a Ha. apply (ca_blocks _ _ _ _ _ _ _ Hc). apply elem_of_addresses. exists (ss_bl x). split; [|done].
  apply bl_in. by apply last_Some_elem_of.
Qed.

(** An empty queue gets its first segments. *)
Lemma sending_first s s' L L' cs Q k lbb over mss over' l D :
  sending s L cs [] k lbb over mss -> 0 <= l -> length D = Z.to_nat l -> newsegs (bytes s') L' lbb 0 l mss over' D Q -> mem_ok (bytes s') ->
  owns s' L' ((ss_bl <$> Q) ++ cs) -> (Q = [] -> over' = 0) ->
  sending s' L' cs Q k (u32 (lbb + l)) over' mss /\ out_data (bytes s') Q = D.
Proof.
  intros [_ _ _ _ Hend _] Hl HD [Qg Qn Qe Qd Qt] Hm' Ho' Hz. cbn [send_end] in Hend. rewrite Z.add_0_r in *.
  assert (Ek : u32 lbb = u32 k) by (rewrite <- Hend; apply u32_id, u32_range). split.
  - split; [done|done|done|by eapply numbered_mod|by rewrite <- Qe; apply send_end_mod|]. destruct (last Q) as [y|] eqn:El; [|by apply Hz, last_None].
    destruct Qt as (T1 & T2 & T3 & T4). unfold tail_room. rewrite T2. change (LWIP_TCP_OPT_LENGTH 0) with 0. split_and!; [done|lia|done].
  - rewrite Qd. cbn [Z.to_nat drop]. rewrite Z.sub_0_r. apply take_ge. lia.
Qed.

(** PSH on the last segment. *)
Lemma sending_push s L cs V y k lbb over mss :
  sending s L cs (V ++ [y]) k lbb over mss ->
  let m' := TCPH_SET_FLAG (bytes s) (seg_tcphdr (ss_seg y)) TCP_PSH in
  sending (with_bytes m' s) L cs (V ++ [y]) k lbb over mss /\ out_data m' (V ++ [y]) = out_data (bytes s) (V ++ [y]) /\ (forall bl, bl ∈ cs ->
      cdata m' bl = cdata (bytes s) bl).
Proof.
  intros [Hm Ho Hg Hnum Hend Htail]. cbv zeta. destruct (set_psh_hdr (bytes s) (ss_seg y) Hm) as (Hm' & Es & Et).
  set (m' := TCPH_SET_FLAG _ _ _) in *.
  apply Forall_app in Hg as (HgV & Hgy). apply Forall_inv in Hgy. destruct (push_kept s L y ((ss_bl <$> V) ++ cs)) as (Ed & Hk); [|done|].
  { eapply owns_perm; [|exact Ho]. apply queue_perm. }
  fold m' in Ed, Hk. assert (Hok : Forall (fun x => lens_ok (ss_bl x)) V).
  { apply Forall_forall. intros x Hx. eapply owns_lens; [exact Ho|]. apply bl_in. apply elem_of_app. by left. }
  destruct (kept_all (bytes s) m' V HgV Hok) with (k := k) as (K1 & K2 & K3). { apply Forall_forall. intros x Hx. by apply Hk, bl_in. }
  apply numbered_app in Hnum as (Hn1 & Hn2). rewrite send_end_app in Hend. cbn [numbered send_end] in *. split; [|split].
  - split; [done|by apply owns_bytes|by apply Forall_app; split; [|constructor]| | |done]; cbn [with_bytes bytes].
    + apply numbered_app. rewrite K2. cbn [numbered]. rewrite Es. split; [by apply K1|]. split; [apply Hn2|done].
    + rewrite send_end_app, K2. cbn [send_end]. by rewrite Et.
  - rewrite !out_data_app, K3. cbn [out_data]. by rewrite Ed.
  - intros bl Hin. apply Hk. apply elem_of_app. by right.
Qed.

Lemma commit_push n pcb t i s L cs U k lbb over mss apiflags (sg : option tcp_seg) :
  seen n pcb t i s -> sending s L cs U k lbb over mss -> sg = None \/ sg = ss_seg <$> last U ->
  exists n' s',
    match sg with
    | Some seg =>
        if negb (seg_tcphdr seg =? NULL) && negb (has apiflags TCP_WRITE_FLAG_MORE)
        then Ok (with_mem (TCPH_SET_FLAG (mem n) (seg_tcphdr seg) TCP_PSH) n) else Ok n
    | None => Ok n
    end = Ok n'
    /\ seen n' pcb t i s' /\ sending s' L cs U k lbb over mss /\ out_data (bytes s') U = out_data (bytes s) U /\ (forall bl, bl ∈ cs ->
        cdata (bytes s') bl = cdata (bytes s) bl).
Proof.
  intros Hn Hs Hsg. assert (Hsame : exists n' s', @Ok (net A W) n = Ok n' /\ seen n' pcb t i s' /\ sending s' L cs U k lbb over mss
    /\ out_data (bytes s') U = out_data (bytes s) U /\ (forall bl, bl ∈ cs -> cdata (bytes s') bl = cdata (bytes s) bl)) by (by exists n, s).
  destruct sg as [sg|]; [|done]. destruct Hsg as [|Hsg]; [done|]. destruct (_ && _); [|done]. destruct (last U) as [y|] eqn:El; [|done].
  injection Hsg as ->.
  apply last_Some in El as (V & ->). rewrite (seen_mem _ _ _ _ _ Hn). destruct (sending_push s L cs V y k lbb over mss Hs) as (Hs' & Ed & Hk).
  eexists _, _. split; [reflexivity|]. split; [by apply seen_with_mem|]. by split_and!.
Qed.

Lemma newsegs_carried s s' L cs base pos0 pos mss over D Q arg l :
  newsegs (bytes s) L base pos0 pos mss over D Q -> owns s L ((ss_bl <$> Q) ++ cs) -> carried (bytes s) (bytes s') L L ((ss_bl <$> Q) ++ cs) arg l ->
  newsegs (bytes s') L base pos0 pos mss over D Q.
Proof.
  intros [Qg Qn Qe Qd Qt] Ho Hc. destruct (carried_kept s L _ Q (bytes s') L arg l Ho (fun x Hx => bl_in x Q cs Hx) Hc Qg (base + pos0)) as (K1 & K2
    & K3).
  split; [done|by apply K1|by rewrite K2|by rewrite K3|done].
Qed.

Lemma rest_perm (U0 : list sseg) x X (Q : list sseg) cs :
  (ss_bl <$> Q) ++ X ++ (ss_bl <$> U0 ++ [x]) ++ cs ≡ₚ ss_bl x :: X ++ (ss_bl <$> Q) ++ (ss_bl <$> U0) ++ cs.
Proof. rewrite (queue_perm U0 x cs), <- !Permutation_middle. constructor. rewrite !app_assoc. by rewrite (Permutation_app_comm X). Qed.

Lemma queue_back_perm (U0 : list sseg) x (Q : list sseg) cs : ss_bl x :: (ss_bl <$> Q) ++ (ss_bl <$> U0) ++ cs ≡ₚ (ss_bl <$> U0 ++ [x] ++ Q) ++ cs.
Proof. rewrite !fmap_app, <- !app_assoc. cbn [fmap list_fmap app]. rewrite <- Permutation_middle. constructor. rewrite !app_assoc.
  by rewrite (Permutation_app_comm (ss_bl <$> Q)). Qed.

(** The data that the plan has placed behind the last segment. *)
Lemma planned_data L m x arg l over mss ql w X D : planned L m x arg l over mss ql w X -> 0 <= l -> rd m arg (Z.to_nat l) = D ->
  rd m arg (Z.to_nat (w_oversize_used w)) ++ cdata m (concat X) = take (Z.to_nat (w_pos w)) D.
Proof.
  intros [Hu Hp _ Hc] Hl <-. rewrite take_rd. destruct X as [|[|[p b] [|? ?]] [|? ?]]; try done.
  - destruct Hc as (_ & Ep & _). change (cdata m (concat [])) with (@nil Z). rewrite app_nil_r. f_equal. lia.
  - destruct Hc as (_ & _ & Hlb & Hpos & _ & Ed & _). change (concat [[(p, b)]]) with [(p, b)]. rewrite Ed.
    replace (Z.to_nat (w_pos w) `min` Z.to_nat l)%nat with (Z.to_nat (w_oversize_used w) + Z.to_nat (len b))%nat by lia. rewrite rd_add.
    do 2 f_equal. lia.
Qed.

(** The control block after [l] bytes have been accepted. *)
Definition accepted (t : tcp_pcb) (U : list sseg) (l over ql : Z) : tcp_pcb :=
  set_snd_queuelen ql (set_snd_buf (u16 (t_snd_buf t - l)) (set_snd_lbb (u32 (t_snd_lbb t + l)) (set_unsent_oversize over (set_unsent (ss_seg <$> U)
      t)))).

Definition filled (t : tcp_pcb) (U : list sseg) (ql : Z) : Prop := ql = 0 \/ t_unacked t <> [] \/ U <> [].

Lemma filled_valid t U l over ql : filled t U ql -> queues_valid (accepted t U l over ql) = true.
Proof.
  intros Hf. unfold queues_valid. cbn. destruct Hf as [->|[Hf|Hf]]; [done| |].
  - destruct (t_unacked t); [done|]. cbn. by rewrite orb_true_r.
  - destruct U; [done|]. cbn. by rewrite orb_true_r.
Qed.

Lemma write_commit_first n pcb t i s L cs Q k mss arg l apiflags D over ql ql0 :
  seen n pcb t i s -> t_unsent t = [] -> sending s L cs [] k (t_snd_lbb t) (t_unsent_oversize t) mss -> 0 <= l -> length D = Z.to_nat l ->
      owns s L ((ss_bl <$> Q) ++ cs) ->
  newsegs (bytes s) L (t_snd_lbb t) 0 l mss over D Q -> (Q = [] -> over = 0) -> filled t Q ql ->
  exists n' s', write_commit n pcb arg l apiflags (mk_tail 0 0 0 NULL 0 ql0) over ql (ss_seg <$> Q) = Ok n'
      /\ seen n' pcb (accepted t Q l over ql) i s'
    /\ sending s' L cs Q k (u32 (t_snd_lbb t + l)) over mss /\ out_data (bytes s') Q = D /\ (forall bl, bl ∈ cs ->
        cdata (bytes s') bl = cdata (bytes s) bl).
Proof.
  intros Hn Hu Hs Hl HD Ho Hns Hz Hf. destruct (sending_first s s L L cs Q k _ _ mss over l D Hs Hl HD Hns (se_mem _ _ _ _ _ _ _ _ Hs) Ho Hz) as (Hs'
    & Hd').
  unfold write_commit. rewrite (seen_at _ _ _ _ _ Hn). cbn [res_bind]. pose proof (se_tail _ _ _ _ _ _ _ _ Hs) as Hov. cbn [last] in Hov.
  rewrite Hu, Hov.
  cbn [last res_bind w_concat_p w_extendlen Z.eqb NULL negb Z.ltb Z.compare app orb]. set (t' := set_snd_queuelen _ _).
  change t' with (accepted t Q l over ql). clear t'.
  rewrite (filled_valid _ _ _ _ _ Hf). cbn [lwip_assert res_bind].
  destruct (commit_push (put_tcp n pcb (accepted t Q l over ql)) pcb (accepted t Q l over ql) i s L cs Q k _ over mss apiflags (match last (ss_seg
    <$> Q) with Some seg => Some seg | None => None end) (seen_put _ _ _ _ _ _ Hn) Hs')
    as (n' & s' & E & Hn' & Hs'' & Hd'' & Hk); [right; rewrite fmap_last; by destruct (last Q)|]. exists n', s'. split; [exact E|].
    split_and!; [done|done|congruence|done].
Qed.

Lemma write_commit_behind n pcb t i s L cs U0 x X Q k mss arg l apiflags D over ql0 ql w :
  seen n pcb t i s -> t_unsent t = ss_seg <$> U0 ++ [x] -> sending s L cs (U0 ++ [x]) k (t_snd_lbb t) (t_unsent_oversize t) mss -> mss <= TCP_MSS ->
      0 <= l ->
  rd (bytes s) arg (Z.to_nat l) = D -> owns s L ((ss_bl <$> Q) ++ X ++ (ss_bl <$> U0 ++ [x]) ++ cs) -> source L (ss_bl <$> U0 ++ [x]) arg l ->
  planned L (bytes s) x arg l (t_unsent_oversize t) mss ql0 w X -> is_u32 (t_snd_lbb t) ->
  newsegs (bytes s) L (t_snd_lbb t) (w_pos w) l mss over D Q -> (Q = [] -> over = w_oversize w) ->
  exists n' s' x', write_commit n pcb arg l apiflags w over ql (ss_seg <$> Q) = Ok n' /\ seen n' pcb (accepted t (U0 ++ [x'] ++ Q) l over ql) i s'
    /\ sending s' L cs (U0 ++ [x'] ++ Q) k (u32 (t_snd_lbb t + l)) over mss
        /\ out_data (bytes s') (U0 ++ [x'] ++ Q) = out_data (bytes s) (U0 ++ [x]) ++ D
    /\ (forall bl, bl ∈ cs -> cdata (bytes s') bl = cdata (bytes s) bl).
Proof.
  intros Hn Hu Hs Hms Hl HD Ho Hsrc Hpl Hlbb Hns Hz. set (R := (ss_bl <$> Q) ++ (ss_bl <$> U0) ++ cs).
  pose proof (owns_perm _ _ _ _ (rest_perm U0 x X Q cs) Ho) as Ho1. fold R in Ho1.
  assert (HxU : ss_bl x ∈ ss_bl <$> U0 ++ [x]) by (apply list_elem_of_fmap_2, elem_of_app; right; left).
  pose proof Hpl as [Hu1 Hp1 He1 Hc1]. pose proof (se_good _ _ _ _ _ _ _ _ Hs) as Hg. apply Forall_app in Hg as (_ & Hg). apply Forall_inv in Hg.
  pose proof (se_tail _ _ _ _ _ _ _ _ Hs) as Htail. rewrite last_snoc in Htail.
  unfold write_commit. rewrite (seen_at _ _ _ _ _ Hn). cbn [res_bind]. rewrite Hu, fmap_app. change (ss_seg <$> [x]) with [ss_seg x].
  rewrite last_snoc.
  destruct (commit_used n pcb t i s L (X ++ R) (ss_bl <$> U0 ++ [x]) x arg l (w_oversize_used w) (t_unsent_oversize t) mss Hn (se_mem _ _ _ _ _ _ _ _
    Hs) Ho1 Hsrc HxU Hg Htail Hms) as (n1 & s1 & x1 & -> & Hn1 & Hm1 & Ho2 & G1 & Hca & Hfx & Ht1); [lia|lia|].
  cbn [res_bind]. assert (HX : forall bl, bl ∈ X -> cdata (bytes s1) bl = cdata (bytes s) bl) by (intros bl Hin; apply (ca_data _ _ _ _ _ _ _ Hca),
    elem_of_app; by left).
  destruct (commit_concat n1 pcb t i s1 L R x1 X (t_unsent_oversize t - w_oversize_used w) mss w Hn1 Ho2 (gr_good _ _ _ _ _ G1) Ht1 Hms He1) as (n2 &
    s2 & x2 & E2 & Hn2 & Eb & Ho3 & G2 & Ht2).
  { destruct X as [|[|[p b] [|? ?]] [|? ?]]; try done; [by destruct Hc1 as (-> & _ & -> & _)|].
    rewrite (gr_len _ _ _ _ _ G1), (gr_flags _ _ _ _ _ G1), length_rd.
    destruct Hc1 as (-> & Hne & Hlb & _ & _ & _ & _ & Hw & Hr & Hf). split_and!; try done. lia. }
  cbv zeta in E2. rewrite E2. cbn [res_bind]. clear E2. rewrite upd_last_snoc.
  assert (HcX : cdata (bytes s1) (concat X) = cdata (bytes s) (concat X)).
  { destruct X as [|c [|? ?]]; [done| |by destruct c as [|[] [|? ?]]]. cbn [concat]. rewrite !app_nil_r. apply HX. left. }
  pose proof (grew_trans _ _ _ _ _ _ _ _ G1 G2) as G. rewrite HcX, (planned_data _ _ _ _ _ _ _ _ _ _ D Hpl Hl HD) in G.
  assert (HcR : carried (bytes s) (bytes s2) L L R arg (Z.to_nat l)). { rewrite Eb. eapply carried_sub; [|exact Hca]. intros bl Hin.
  apply elem_of_app. by right. }
  assert (HoR : owns s L R). { destruct (owns_cons _ _ _ _ Ho1) as (_ & Ho' & _). by destruct (owns_app _ _ _ _ Ho') as (_ & ? & _). }
  pose proof (newsegs_carried s s2 L ((ss_bl <$> U0) ++ cs) _ _ _ _ _ _ _ _ _ Hns HoR HcR) as Hns2.
  destruct (sending_append s s2 L L cs U0 x x2 Q k _ _ mss over (w_pos w) l D Hs Hlbb ltac:(lia)) as (Hs' & Hd').
  { by rewrite <- HD, length_rd. } { by rewrite Eb. } { done. }
  { intros y Hy. apply (ca_data _ _ _ _ _ _ _ HcR). unfold R. rewrite !elem_of_app. right. left. by apply list_elem_of_fmap_2. } { by rewrite Eb. }
  { eapply owns_perm; [|exact Ho3]. apply queue_back_perm. } { intros HQ. rewrite (Hz HQ). done. }
  set (U' := U0 ++ [x2] ++ Q) in *. set (t' := set_snd_queuelen _ _). assert (Et' : t' = accepted t U' l over ql).
  { unfold t', accepted, U'. do 5 f_equal. by rewrite !fmap_app, <- app_assoc. }
  rewrite Et'. clear t' Et'. rewrite filled_valid by (right; right; unfold U'; by destruct U0). cbn [lwip_assert res_bind].
  destruct (commit_push (put_tcp n2 pcb (accepted t U' l over ql)) pcb (accepted t U' l over ql) i s2 L cs U' k _ over mss apiflags
    (match last (ss_seg <$> Q) with Some seg => Some seg | None => if (0 <? t_unsent_oversize t) || negb (w_concat_p w =? NULL) || (0 <? w_extendlen
      w) then Some (ss_seg x2) else None end) (seen_put _ _ _ _ _ _ Hn2) Hs')
    as (n' & s' & E & Hn' & Hs'' & Hd'' & Hk).
  { rewrite fmap_last. unfold U'. rewrite app_assoc, last_app, last_snoc. destruct (last Q); [by right|]. cbn. destruct (_ || _); [by right|by left].
    }
  exists n', s', x2. split; [exact E|]. split_and!; [done|done|rewrite <- Hd'; exact Hd''|]. intros bl Hin. rewrite Hk by done.
  apply (ca_data _ _ _ _ _ _ _ HcR). unfold R. rewrite !elem_of_app. by right; right.
Qed.

(** *** Out of memory *)

Lemma own_pbuf_free n pcb t i s L bl cs : seen n pcb t i s -> owns s L (bl :: cs) ->
  exists n' s' L', free custom_free n (first bl) = Ok n' /\ seen n' pcb t i s' /\ owns s' L' cs /\ bytes s' = bytes s
      /\ (forall a, a ∈ addresses cs -> L' !! a = L !! a).
Proof.
  intros Hn Ho. destruct (own_free custom_free s L bl cs Ho) as (c & s' & L' & E & Ho' & Eb & Hf).
  destruct (owns_cons _ _ _ _ Ho) as (_ & _ & Hd).
  unfold free, on_packets. rewrite (seen_s _ _ _ _ _ Hn), E. cbn [res_bind]. eexists _, s', L'. split; [reflexivity|].
  split; [by apply (seen_packets n pcb t i s)|]. split_and!; [done|done|].
  intros a Ha. apply Hf. intros Hin. by apply (Hd a).
Qed.

Lemma own_segs_free Q : forall n pcb t i s L cs, seen n pcb t i s -> owns s L ((ss_bl <$> Q) ++ cs) -> Forall sgood Q ->
  exists n' s' L', tcp_segs_free custom_free n (ss_seg <$> Q) = Ok n' /\ seen n' pcb t i s' /\ owns s' L' cs /\ bytes s' = bytes s
      /\ (forall a, a ∈ addresses cs -> L' !! a = L !! a).
Proof.
  induction Q as [|x Q IH]; intros n pcb t i s L cs Hn Ho Hg; cbn [fmap list_fmap tcp_segs_free]; [by exists n, s, L|].
  apply Forall_cons in Hg as (Hg & HgQ). cbn [fmap list_fmap app] in Ho.
  destruct (own_pbuf_free n pcb t i s L _ _ Hn Ho) as (n1 & s1 & L1 & E & Hn1 & Ho1 & Eb & Hf).
  destruct (owns_cons _ _ _ _ Ho) as ((_ & _ & Hne) & _ & _).
  unfold tcp_seg_free. rewrite (sg_p _ Hg), (proj2 (Z.eqb_neq _ NULL) Hne). cbn [negb]. rewrite E. cbn [res_bind]. set (n2 := with_tcp _ n1).
  assert (Hn2 : seen n2 pcb t i s1) by (destruct Hn1; by split).
  destruct (IH n2 pcb t i s1 L1 cs Hn2 Ho1 HgQ) as (n' & s' & L' & E' & Hn' & Ho' & Eb' & Hf'). exists n', s', L'.
  split_and!; [done|done|done|congruence|].
  intros a Ha. rewrite Hf' by done. apply Hf. rewrite addresses_app. apply elem_of_app. by right.
Qed.

Definition short_of_memory (t : tcp_pcb) : tcp_pcb := set_flags (add_flag (t_flags t) TF_NAGLEMEMERR) t.

Lemma write_memerr_spec n pcb t i s L cs Q X p :
  seen n pcb t i s -> queues_valid t = true -> owns s L ((ss_bl <$> Q) ++ X ++ cs) -> Forall sgood Q ->
      match X with [] => p = NULL | [bl] => p = first bl | _ => False end ->
  exists n' s' L', write_memerr custom_free n pcb p (ss_seg <$> Q) = Ok (ERR_MEM, n') /\ seen n' pcb (short_of_memory t) i s' /\ owns s' L' cs
      /\ bytes s' = bytes s
    /\ (forall a, a ∈ addresses cs -> L' !! a = L !! a).
Proof.
  intros Hn Hv Ho Hg HX. unfold write_memerr, raise_flag. rewrite (upd_tcp_seen _ _ _ _ _ _ Hn). cbn [res_bind]. set (n1 := inc P_tcp c_memerr _).
  assert (Hn1 : seen n1 pcb (short_of_memory t) i s) by (destruct (seen_put n pcb t i s (short_of_memory t) Hn); by split).
  assert (Hfree : exists n2 s2 L2, (if negb (p =? NULL) then free custom_free n1 p else Ok n1) = Ok n2 /\ seen n2 pcb (short_of_memory t) i s2 /\
    owns s2 L2 ((ss_bl <$> Q) ++ cs) /\ bytes s2 = bytes s
    /\ (forall a, a ∈ addresses ((ss_bl <$> Q) ++ cs) -> L2 !! a = L !! a)).
  { destruct X as [|bl [|? ?]]; [subst p; by exists n1, s, L|subst p|done]. rewrite Permutation_app_swap_app in Ho. cbn [app] in Ho.
    destruct (owns_cons _ _ _ _ Ho) as ((_ & _ & Hne) & _ & _). rewrite (proj2 (Z.eqb_neq _ NULL) Hne). cbn [negb].
    by apply (own_pbuf_free n1 pcb _ i s). }
  destruct Hfree as (n2 & s2 & L2 & -> & Hn2 & Ho2 & Eb2 & Hf2). cbn [res_bind].
  destruct (own_segs_free Q n2 pcb _ i s2 L2 cs Hn2 Ho2 Hg) as (n3 & s3 & L3 & -> & Hn3 & Ho3 & Eb3 & Hf3). cbn [res_bind].
  rewrite (seen_at _ _ _ _ _ Hn3). cbn [res_bind]. replace (queues_valid (short_of_memory t)) with true by (symmetry; exact Hv).
  cbn [lwip_assert res_bind].
  exists n3, s3, L3. split_and!; [done|done|done|congruence|]. intros a Ha. rewrite Hf3, Hf2; [done| |done]. rewrite addresses_app.
  apply elem_of_app. by right.
Qed.

(** The stream is as it was. *)
Definition unchanged s s' L' cs U k lbb over mss : Prop :=
  sending s' L' cs U k lbb over mss /\ out_data (bytes s') U = out_data (bytes s) U /\ (forall bl, bl ∈ cs ->
      cdata (bytes s') bl = cdata (bytes s) bl).

Lemma unchanged_carried s s' L L' cs U k lbb over mss arg l :
  sending s L cs U k lbb over mss -> carried (bytes s) (bytes s') L L' ((ss_bl <$> U) ++ cs) arg l -> owns s' L' ((ss_bl <$> U) ++ cs) ->
      mem_ok (bytes s') ->
  unchanged s s' L' cs U k lbb over mss.
Proof.
  intros Hs Hc Ho Hm. destruct (sending_carried _ _ _ _ _ _ _ _ _ _ _ _ Hs Hc Ho Hm) as (Hs' & Hd). split_and!; [done|done|]. intros bl Hin.
  apply (ca_data _ _ _ _ _ _ _ Hc). apply elem_of_app. by right.
Qed.

Lemma write_failed n pcb t i s s1 L L1 cs U Q X p k lbb over mss arg l :
  sending s L cs U k lbb over mss -> seen n pcb t i s1 -> queues_valid t = true -> mem_ok (bytes s1) ->
      owns s1 L1 ((ss_bl <$> Q) ++ X ++ (ss_bl <$> U) ++ cs) -> Forall sgood Q ->
  carried (bytes s) (bytes s1) L L1 ((ss_bl <$> U) ++ cs) arg l -> match X with [] => p = NULL | [bl] => p = first bl | _ => False end ->
  exists n' s' L', write_memerr custom_free n pcb p (ss_seg <$> Q) = Ok (ERR_MEM, n') /\ seen n' pcb (short_of_memory t) i s'
      /\ unchanged s s' L' cs U k lbb over mss.
Proof.
  intros Hs Hn Hv Hm Ho Hg Hc HX. destruct (write_memerr_spec n pcb t i s1 L1 ((ss_bl <$> U) ++ cs) Q X p Hn Hv Ho Hg HX) as (n' & s' & L' & E & Hn'
    & Ho' & Eb & Hf).
  exists n', s', L'. split_and!; [done|done|]. eapply unchanged_carried; [exact Hs| |done|by rewrite Eb]. rewrite Eb.
  eapply carried_trans; [exact Hc|]. by split.
Qed.

(** The size that a segment may have. *)
Definition mss_local (t : tcp_pcb) : Z :=
  let mss_local := Z.min (t_mss t) (t_snd_wnd_max t / 2) in if negb (mss_local =? 0) then mss_local else t_mss t.

(** A control block with the unsent segments [U]. *)
Record ready (t : tcp_pcb) (U : list sseg) : Prop := {
  rd_unsent : t_unsent t = ss_seg <$> U;
  rd_mss : 0 < t_mss t <= TCP_MSS;
  rd_wnd : 0 <= t_snd_wnd_max t;
  rd_buf : is_u16 (t_snd_buf t);
  rd_queuelen : is_u16 (t_snd_queuelen t);
  rd_empty : t_snd_queuelen t = 0 <-> t_unacked t = [] /\ U = []
}.

Lemma mss_local_range t U : ready t U -> 0 < mss_local t <= TCP_MSS.
Proof. intros Hr. pose proof (rd_mss _ _ Hr). pose proof (rd_wnd _ _ Hr). unfold mss_local. cbv zeta.
  destruct (Z.eqb_spec (Z.min (t_mss t) (t_snd_wnd_max t / 2)) 0); cbn [negb]; zlia. Qed.

Lemma ready_valid t U : ready t U -> queues_valid t = true.
Proof.
  intros Hr. unfold queues_valid. rewrite (rd_unsent _ _ Hr). destruct (Z.eqb_spec (t_snd_queuelen t) 0) as [|Hne]; [done|].
  destruct (t_unacked t) eqn:Ea; [|done]. destruct U; [|done].
  exfalso. apply Hne. apply (rd_empty _ _ Hr). done.
Qed.

Lemma ready_accepted t U U' l over ql : ready t U -> 0 <= l <= t_snd_buf t -> t_snd_queuelen t <= ql <= Z.max 8 (t_snd_queuelen t) ->
    (ql = 0 <-> t_unacked t = [] /\ U' = []) -> ready (accepted t U' l over ql) U'.
Proof.
  intros [R1 R2 R3 R4 R5 R6] Hl Hq He. unfold is_u16 in *. split; cbn; try done; [apply u16_range|unfold is_u16; lia].
Qed.

(** The two ends of a call that gets past the checks. *)
Definition appended s s' L' cs U U' k (t t' : tcp_pcb) (D : list Z) : Prop :=
  ready t' U' /\ sending s' L' cs U' k (t_snd_lbb t') (t_unsent_oversize t') (mss_local t) /\ out_data (bytes s') U' = out_data (bytes s) U ++ D
  /\ (forall bl, bl ∈ cs -> cdata (bytes s') bl = cdata (bytes s) bl) /\ exists over ql, t' = accepted t U' (Z.of_nat (length D)) over ql.

Definition outcome (err : err_t) s s' L' cs U U' k (t t' : tcp_pcb) (D : list Z) : Prop :=
  (err = ERR_OK /\ appended s s' L' cs U U' k t t' D)
  \/ (err = ERR_MEM /\ t' = short_of_memory t /\ U' = U /\ unchanged s s' L' cs U k (t_snd_lbb t) (t_unsent_oversize t) (mss_local t)).

Definition write_rest n (pcb arg l apiflags mss : Z) (w : tail_plan) : res (err_t * net A W) :=
  let* (r, queue, n) := write_segs stale_flags custom_free callback_ok write_fuel n pcb arg l apiflags mss (w_pos w) (w_oversize w) (w_queuelen w) []
      in
  match r with
  | None => write_memerr custom_free n pcb (w_concat_p w) queue
  | Some (oversize, queuelen) => let* n := write_commit n pcb arg l apiflags w oversize queuelen queue in Ok (ERR_OK, n)
  end.

Lemma newsegs_none m L base pos mss over D : newsegs m L base pos pos mss over D [].
Proof. split; cbn; try done. by rewrite Z.sub_diag. Qed.

Lemma write_first_spec n pcb t i s L cs k arg l apiflags D :
  seen n pcb t i s -> ready t [] -> sending s L cs [] k (t_snd_lbb t) (t_unsent_oversize t) (mss_local t) -> source L [] arg l ->
      has apiflags TCP_WRITE_FLAG_COPY = true ->
  0 <= l <= t_snd_buf t -> (0 < l -> t_snd_queuelen t < 8) -> rd (bytes s) arg (Z.to_nat l) = D ->
  exists err n' t' s' L' U', write_rest n pcb arg l apiflags (mss_local t) (mk_tail 0 0 0 NULL 0 (t_snd_queuelen t)) = Ok (err, n')
      /\ seen n' pcb t' i s'
    /\ outcome err s s' L' cs [] U' k t t' D.
Proof.
  intros Hn Hr Hs Hsrc Hcp Hl Hql HD. pose proof (mss_local_range _ _ Hr) as Hms. pose proof (rd_queuelen _ _ Hr) as Hq16. unfold is_u16 in Hq16.
  pose proof (se_mem _ _ _ _ _ _ _ _ Hs) as Hm. pose proof (se_owns _ _ _ _ _ _ _ _ Hs) as Ho.
  assert (HlD : length D = Z.to_nat l) by (by rewrite <- HD, length_rd). assert (Hov : t_unsent_oversize t = 0) by apply (se_tail _ _ _ _ _ _ _ _ Hs).
  destruct (write_segs_spec stale_flags custom_free callback_ok stale_flags_law pcb t i arg l apiflags (mss_local t) 0 D cs [] Hcp
    Hms ltac:(lia) HlD write_fuel n s L [] 0 0 (t_snd_queuelen t)
    Hn Hm Ho Hsrc HD (newsegs_none _ _ _ _ _ _ _)) as (r & Q & n1 & s1 & L1 & E & Hn1 & Hm1 & Ho1 & Hsrc1 & Hca & Hg & Hr1); [lia|lia|lia|unfold
      write_fuel; lia|].
  cbn [fmap list_fmap] in E. unfold write_rest. cbn [w_pos w_oversize w_queuelen w_concat_p]. rewrite E. cbn [res_bind]. destruct r as [[over ql]|].
  - destruct Hr1 as (Hns & Hq1 & Hq2 & _ & Hz). destruct (sending_carried s s1 L L1 cs [] k _ _ _ arg _ Hs Hca) as (Hs1 & _); [by destruct (owns_app
      _ _ _ _ Ho1) as (_ & ? & _)|done|].
    cbn [length] in Hq2. assert (He : ql = 0 <-> t_unacked t = [] /\ Q = []).
    { pose proof (rd_empty _ _ Hr) as He. split; [intros Hq0; split; [apply He; lia|destruct Q; [done|cbn [length] in Hq2; lia]]|]. intros (Ha & ->).
      cbn [length] in Hq2. assert (t_snd_queuelen t = 0) by (by apply He). lia. }
    destruct (write_commit_first n1 pcb t i s1 L1 cs Q k (mss_local t) arg l apiflags D over ql (t_snd_queuelen t) Hn1 (rd_unsent _ _ Hr) Hs1
      ltac:(lia) HlD Ho1 Hns Hz)
      as (n' & s' & -> & Hn' & Hs' & Hd' & Hk). { unfold filled. destruct (decide (ql = 0)); [by left|]. right. destruct (t_unacked t); [|by left].
      right. intros ->. tauto. }
    cbn [res_bind]. exists ERR_OK, n', (accepted t Q l over ql), s', L1, Q. split_and!; [done|done|]. left. split; [done|].
    split_and!; [apply (ready_accepted t []); try done; lia|done|done| |].
    + intros bl Hin. rewrite Hk by done. by apply (ca_data _ _ _ _ _ _ _ Hca).
    + exists over, ql. rewrite HlD, Z2Nat.id by lia. done.
  - destruct (write_failed n1 pcb t i s s1 L L1 cs [] Q [] NULL k (t_snd_lbb t) (t_unsent_oversize t) (mss_local t) arg (length D) Hs Hn1
      (ready_valid _ _ Hr) Hm1 Ho1 Hg Hca) as (n' & s' & L' & -> & Hn' & Hun); [done|].
    exists ERR_MEM, n', (short_of_memory t), s', L', []. split_and!; [done|done|]. by right.
Qed.

Lemma planned_carried L L' m m' x arg l over mss ql w X cs : planned L m x arg l over mss ql w X -> 0 <= l ->
    carried m m' L L' (X ++ cs) arg (Z.to_nat l) -> planned L' m' x arg l over mss ql w X.
Proof.
  intros [Hu Hp He Hc] Hl Hca. split; [done|done|done|]. destruct X as [|[|[p b] [|? ?]] [|? ?]]; try done.
  destruct Hc as (C1 & C2 & C3 & C4 & C5 & C6 & C7 & C8 & C9 & C10). split_and!; try done.
  - rewrite (ca_data _ _ _ _ _ _ _ Hca) by left. rewrite C6. symmetry. eapply rd_part; [apply (ca_source _ _ _ _ _ _ _ Hca)|lia|lia].
  - eapply fits_frame; [|exact C10]. intros a Ha. apply (ca_blocks _ _ _ _ _ _ _ Hca). cbn [app addresses]. apply elem_of_app. by left.
Qed.

Lemma planned_concat L m x arg l over mss ql w X : planned L m x arg l over mss ql w X ->
    match X with [] => w_concat_p w = NULL | [bl] => w_concat_p w = first bl | _ => False end.
Proof. intros [_ _ _ Hc]. destruct X as [|[|[p b] [|? ?]] [|? ?]]; try done; [by destruct Hc as (-> & _)|by destruct Hc as (-> & _)]. Qed.

Lemma planned_queuelen L m x arg l over mss ql w X : planned L m x arg l over mss ql w X -> ql <= w_queuelen w <= ql + 1 /\ (l <= 0 ->
    w_queuelen w = ql).
Proof.
  intros [Hu Hp _ Hc]. destruct X as [|[|[p b] [|? ?]] [|? ?]]; try done; [destruct Hc as (_ & _ & _ & ->); lia|].
  destruct Hc as (_ & _ & Hlb & Hpos & _ & _ & -> & _). lia.
Qed.

Lemma carried_right m m' L L' X cs arg l : carried m m' L L' (X ++ cs) arg l -> carried m m' L L' cs arg l.
Proof. apply carried_sub. intros bl Hin. apply elem_of_app. by right. Qed.

Lemma write_behind_spec n pcb t i s L cs U0 x k arg l apiflags D :
  seen n pcb t i s -> ready t (U0 ++ [x]) -> sending s L cs (U0 ++ [x]) k (t_snd_lbb t) (t_unsent_oversize t) (mss_local t) ->
      source L (ss_bl <$> U0 ++ [x]) arg l ->
  has apiflags TCP_WRITE_FLAG_COPY = true -> 0 <= l <= t_snd_buf t -> (0 < l -> t_snd_queuelen t < 8) -> rd (bytes s) arg (Z.to_nat l) = D ->
  exists err n' t' s' L' U',
    (let* (w, n) := write_tail stale_flags custom_free callback_ok n pcb arg l apiflags (mss_local t) t (ss_seg x) in
     match w with None => write_memerr custom_free n pcb NULL [] | Some w => write_rest n pcb arg l apiflags (mss_local t) w end) = Ok (err, n')
    /\ seen n' pcb t' i s' /\ outcome err s s' L' cs (U0 ++ [x]) U' k t t' D.
Proof.
  intros Hn Hr Hs Hsrc Hcp Hl Hql HD. pose proof (mss_local_range _ _ Hr) as Hms. pose proof (rd_queuelen _ _ Hr) as Hq16. unfold is_u16 in Hq16.
  pose proof Hs as [Hm Ho HgU _ Hlbb Htail]. rewrite last_snoc in Htail.
  apply Forall_app in HgU as (_ & Hg). apply Forall_inv in Hg. assert (HlD : length D = Z.to_nat l) by (by rewrite <- HD, length_rd).
  pose proof (ready_valid _ _ Hr) as Hv.
  assert (Hl32 : is_u32 (t_snd_lbb t)) by (rewrite <- Hlbb; apply u32_range).
  destruct (write_tail_spec n pcb t i s L _ (ss_bl <$> U0 ++ [x]) x arg l apiflags (mss_local t) Hn Hm Ho Hsrc Hcp ltac:(lia) ltac:(lia) (sg_len _
    Hg) Htail ltac:(lia) ltac:(lia)) as (r & n1 & s1 & -> & Hn1 & Hm1 & Hr1). cbn [res_bind].
  destruct r as [w|].
  2:{ destruct Hr1 as (Eb & Ho1). destruct (write_failed n1 pcb t i s s1 L L cs (U0 ++ [x]) [] [] NULL k (t_snd_lbb t) (t_unsent_oversize t)
    (mss_local t) arg (length D) Hs Hn1 Hv Hm1 Ho1) as (n' & s' & L' & E & Hn' & Hun); [done|by rewrite Eb|done|].
      cbn [fmap list_fmap] in E. rewrite E. exists ERR_MEM, n', (short_of_memory t), s', L', (U0 ++ [x]). split_and!; [done|done|]. by right. }
  destruct Hr1 as (L1 & X & Hpl & Ho1 & Hsrc1 & Hca1). set (C0 := (ss_bl <$> U0 ++ [x]) ++ cs) in *.
  destruct (planned_queuelen _ _ _ _ _ _ _ _ _ _ Hpl) as (Hq1 & Hq2). pose proof Hpl as [Hu1 Hp1 _ _].
  assert (HD1 : rd (bytes s1) arg (Z.to_nat l) = D) by (by rewrite (ca_source _ _ _ _ _ _ _ Hca1)).
  destruct (write_segs_spec stale_flags custom_free callback_ok stale_flags_law pcb t i arg l apiflags (mss_local t) (w_pos w) D (X
    ++ C0) (ss_bl <$> U0 ++ [x]) Hcp Hms ltac:(lia) HlD write_fuel n1 s1 L1 [] (w_pos w) (w_oversize w) (w_queuelen w)
    Hn1 Hm1 Ho1 Hsrc1 HD1 (newsegs_none _ _ _ _ _ _ _)) as (r & Q & n2 & s2 & L2 & E & Hn2 & Hm2 & Ho2 & Hsrc2 & Hca2 & HgQ & Hr2);
      [lia|lia|lia|unfold write_fuel; lia|].
  cbn [fmap list_fmap] in E. unfold write_rest. rewrite E. cbn [res_bind]. rewrite HlD in Hca2.
  pose proof (carried_trans _ _ _ _ _ _ _ _ _ Hca1 (carried_right _ _ _ _ _ _ _ _ Hca2)) as Hca. destruct r as [[over ql]|].
  - destruct Hr2 as (Hns & Hqa & Hqb & _ & Hz). cbn [length] in Hqb.
    destruct (sending_carried s s2 L L2 cs (U0 ++ [x]) k _ _ _ arg _ Hs Hca) as (Hs2 & Hd2); [|done|].
    { destruct (owns_app _ _ _ _ Ho2) as (_ & Ho3 & _). by destruct (owns_app _ _ _ _ Ho3) as (_ & ? & _). }
    destruct (write_commit_behind n2 pcb t i s2 L2 cs U0 x X Q k (mss_local t) arg l apiflags D over (t_snd_queuelen t) ql w Hn2 (rd_unsent _ _ Hr)
      Hs2) as (n' & s' & x' & -> & Hn' & Hs' & Hd' & Hk); try done; [lia|lia| | |].
    { by rewrite (ca_source _ _ _ _ _ _ _ Hca). } { eapply planned_carried; [exact Hpl|lia|exact Hca2]. }
    cbn [res_bind]. exists ERR_OK, n', (accepted t (U0 ++ [x'] ++ Q) l over ql), s', L2, (U0 ++ [x'] ++ Q). split_and!; [done|done|]. left.
    split; [done|]. split_and!.
    + apply (ready_accepted t (U0 ++ [x])); try done; [lia|]. pose proof (rd_empty _ _ Hr) as He. split; [|intros (_ & Hx); by destruct U0].
      intros ->. assert (Hq0 : t_snd_queuelen t = 0) by lia. apply He in Hq0 as (_ & Hx). by destruct U0.
    + done.
    + by rewrite Hd', Hd2.
    + intros bl Hin. rewrite Hk by done. apply (ca_data _ _ _ _ _ _ _ Hca). apply elem_of_app. by right.
    + exists over, ql. rewrite HlD, Z2Nat.id by lia. done.
  - destruct (write_failed n2 pcb t i s s2 L L2 cs (U0 ++ [x]) Q X (w_concat_p w) k (t_snd_lbb t) (t_unsent_oversize t) (mss_local t) arg (Z.to_nat
      l) Hs Hn2 Hv Hm2 Ho2 HgQ Hca (planned_concat _ _ _ _ _ _ _ _ _ _ Hpl))
      as (n' & s' & L' & -> & Hn' & Hun). exists ERR_MEM, n', (short_of_memory t), s', L', (U0 ++ [x]). split_and!; [done|done|]. by right.
Qed.

(** *** The whole function *)

Definition writable (st : tcp_state) : bool :=
  state_eqb st ESTABLISHED || state_eqb st CLOSE_WAIT || state_eqb st SYN_SENT || state_eqb st SYN_RCVD.

Lemma write_checks_spec n pcb t i s U l : seen n pcb t i s -> ready t U -> 0 <= l ->
  exists err n', tcp_write_checks n pcb l = Ok (err, n')
    /\ ((writable (t_state t) = false /\ err = ERR_CONN /\ n' = n)
        \/ (writable (t_state t) = true /\ err = ERR_MEM /\ (t_snd_buf t < l \/ 8 <= t_snd_queuelen t) /\ seen n' pcb (short_of_memory t) i s)
        \/ (writable (t_state t) = true /\ err = ERR_OK /\ n' = n /\ l <= t_snd_buf t /\ (0 < l -> t_snd_queuelen t < 8))).
Proof.
  intros Hn Hr Hl. unfold tcp_write_checks. rewrite (seen_at _ _ _ _ _ Hn). cbn [res_bind]. rewrite <- !negb_orb. fold (writable (t_state t)).
  pose proof (rd_buf _ _ Hr) as Hb. unfold is_u16 in Hb.
  destruct (writable (t_state t)); cbn [negb]; [|exists ERR_CONN, n; split; [done|by left]].
  destruct (Z.eqb_spec l 0) as [->|Hl0]. { exists ERR_OK, n. split; [done|]. right. right. split_and!; [done|done|done|lia|lia]. }
  assert (Hfull : forall n1, seen n1 pcb t i s -> exists n', raise_flag n1 pcb TF_NAGLEMEMERR = Ok n' /\ seen n' pcb (short_of_memory t) i s).
  { intros n1 Hn1. unfold raise_flag. rewrite (upd_tcp_seen _ _ _ _ _ _ Hn1). eexists. split; [reflexivity|]. by eapply seen_put. }
  destruct (Z.ltb_spec (t_snd_buf t) l) as [Hlt|Hle].
  { destruct (Hfull n Hn) as (n' & -> & Hn'). exists ERR_MEM, n'. split; [done|]. right. left. split_and!; [done|done|by left|done]. }
  unfold TCP_SND_QUEUELEN, TCP_SNDQUEUELEN_OVERFLOW. destruct (_ || _) eqn:Eq.
  { destruct (Hfull (inc P_tcp c_memerr n)) as (n' & -> & Hn'); [destruct Hn; by split|]. exists ERR_MEM, n'. split; [done|]. right. left.
    apply orb_true_iff in Eq. rewrite Z.leb_le, Z.ltb_lt in Eq.
    split_and!; [done|done|right; lia|done]. }
  apply orb_false_iff in Eq as (Eq & _). apply Z.leb_gt in Eq. pose proof (rd_empty _ _ Hr) as He. pose proof (ready_valid _ _ Hr) as Hv.
  unfold queues_valid in Hv. rewrite (rd_unsent _ _ Hr) in *.
  exists ERR_OK, n. split; [|right; right; by split_and!]. destruct (Z.eqb_spec (t_snd_queuelen t) 0) as [Hq|Hq]; cbn [negb orb] in *; [|by rewrite
    Hv].
  destruct (proj1 He Hq) as (-> & ->). done.
Qed.

(** What a call with [l] bytes at [arg] promises. *)
Record write_result (err : err_t) n n' s s' L' cs U U' (k : Z) (t t' : tcp_pcb) (arg l : Z) : Prop := {
  wr_ready : ready t' U';
  wr_sending : sending s' L' cs U' k (t_snd_lbb t') (t_unsent_oversize t') (mss_local t');
  wr_others : forall bl, bl ∈ cs -> cdata (bytes s') bl = cdata (bytes s) bl;
  wr_conn : err = ERR_CONN <-> writable (t_state t) = false;
  wr_end : match err with
           | ERR_OK => out_data (bytes s') U' = out_data (bytes s) U ++ rd (bytes s) arg (Z.to_nat l)
                       /\ t_snd_lbb t' = u32 (t_snd_lbb t + l) /\ l <= t_snd_buf t /\ t_snd_buf t' = t_snd_buf t - l
           | ERR_MEM => U' = U /\ out_data (bytes s') U = out_data (bytes s) U /\ t' = short_of_memory t
           | ERR_CONN => n' = n /\ U' = U
           | _ => False
           end
}.

Lemma outcome_result err n n' s s' L' cs U U' k t t' arg l :
  ready t U -> writable (t_state t) = true -> 0 <= l <= t_snd_buf t -> outcome err s s' L' cs U U' k t t' (rd (bytes s) arg (Z.to_nat l)) ->
  write_result err n n' s s' L' cs U U' k t t' arg l.
Proof.
  intros Hr Hw Hl Hout. pose proof (rd_buf _ _ Hr) as Hb. unfold is_u16 in Hb.
  destruct Hout as [(-> & Hr' & Hs' & Hd' & Hk & over & ql & ->)|(-> & -> & -> & Hs' & Hd' & Hk)]; split; rewrite ?Hw; try done.
  - rewrite length_rd, Z2Nat.id in * by lia. split_and!; try done; [lia|]. cbn. apply u16_id. unfold is_u16. lia.
  - by destruct Hr.
Qed.

(** C4: tcp_write with TCP_WRITE_FLAG_COPY, for a connection whose unsent segments [U] are numbered
    from [k] on and hold the stream [out_data], where the last of them, with its options and the room
    recorded in unsent_oversize, is not longer than mss_local, the smaller of the MSS and half the largest
    window seen ([se_tail]; a segment written while mss_local was larger fails the assertion at the top of
    tcp_write, see [small_window_fails_assertion]), and whose data comes from memory that is not part of the queue.
    It returns.  With ERR_OK the stream is longer by the [l]
    bytes at [arg], whether they went into the room behind the last pbuf, into a pbuf linked behind
    the last segment or into new segments; sequence numbers, snd_lbb, snd_buf and the room recorded in
    unsent_oversize fit the new queue, and so does mss_local, so that the next call may follow.  With ERR_MEM
    (the send buffer or queue is full, or an allocation failed) the stream is the old one; ERR_CONN is returned
    in exactly the states that do not accept data. *)
Theorem tcp_write_correct n pcb t i s L cs U k arg l apiflags :
  seen n pcb t i s -> ready t U -> sending s L cs U k (t_snd_lbb t) (t_unsent_oversize t) (mss_local t) -> source L (ss_bl <$> U) arg l ->
  has apiflags TCP_WRITE_FLAG_COPY = true -> arg <> NULL -> 0 <= l ->
  exists err n' t' s' L' U', tcp_write stale_flags custom_free callback_ok n pcb arg l apiflags = Ok (err, n')
    /\ seen n' pcb t' i s' /\ write_result err n n' s s' L' cs U U' k t t' arg l.
Proof.
  intros Hn Hr Hs Hsrc Hcp Ha Hl. unfold tcp_write. rewrite (seen_at _ _ _ _ _ Hn). cbn [res_bind]. rewrite (proj2 (Z.eqb_neq _ _) Ha).
  fold (mss_local t).
  destruct (write_checks_spec n pcb t i s U l Hn Hr Hl) as (err & n1 & -> & [(Hw & -> & ->)|[(Hw & -> & _ & Hn1)|(Hw & -> & -> & Hlb & Hq)]]); cbn
    [res_bind].
  - rewrite bool_decide_eq_false_2 by done. cbn [negb]. exists ERR_CONN, n, t, s, L, U. by split_and!.
  - rewrite bool_decide_eq_false_2 by done. cbn [negb]. exists ERR_MEM, n1, (short_of_memory t), s, L, U. split_and!; [done|done|].
    split; rewrite ?Hw; try done. by destruct Hr.
  - rewrite bool_decide_eq_true_2 by done. cbn [negb]. rewrite (seen_at _ _ _ _ _ Hn). cbn [res_bind]. rewrite (rd_unsent _ _ Hr), fmap_last.
    destruct U as [|x U0 _] using rev_ind.
    + cbn [last fmap option_fmap option_map]. rewrite (se_tail _ _ _ _ _ _ _ _ Hs). cbn [Z.eqb lwip_assert res_bind].
      destruct (write_first_spec n pcb t i s L cs k arg l apiflags _ Hn Hr Hs Hsrc Hcp ltac:(lia) Hq eq_refl) as (err & n' & t' & s' & L' & U' & E &
        Hn' & Hout).
      exists err, n', t', s', L', U'. split_and!; [exact E|done|]. by apply outcome_result.
    + rewrite last_snoc. cbn [fmap option_fmap option_map].
      destruct (write_behind_spec n pcb t i s L cs U0 x k arg l apiflags _ Hn Hr Hs Hsrc Hcp ltac:(lia) Hq eq_refl) as (err & n' & t' & s' & L' & U'
        & E & Hn' & Hout).
      exists err, n', t', s', L', U'. split_and!; [exact E|done|]. by apply outcome_result.
Qed.

End Send.

(** ** Two calls in a row *)

(** A packet of the application with the data, and a connection with an empty queue. *)
Definition tx_text : list Z := [72; 69; 76; 76; 79; 32; 87; 79; 82; 76; 68; 33].
Definition tx1 : Z * Pbuf.state (heap_pools * frag_pool) := or_else (NULL, rx0) (pbuf_alloc (fun _ => 0) no_custom true rx0 PBUF_RAW 12 PBUF_RAM).
Definition tx_pbuf : pbuf := default ex_pbuf (pbufs (snd tx1) !! fst tx1).
Definition tx_state : Pbuf.state (heap_pools * frag_pool) := with_bytes (wr ∅ (payload tx_pbuf) tx_text) (snd tx1).
Definition tx_app : list (Z * pbuf) := [(fst tx1, tx_pbuf)].

Definition tx_pcb : tcp_pcb :=
  set_state ESTABLISHED (set_mss 536 (set_snd_wnd_max 4000 (set_snd_lbb 4294967290 (set_snd_buf 2048 tcp_pcb_zero)))).
Definition tx_net : net (heap_pools * frag_pool) (list (list Z)) := put_tcp (with_packets tx_state ex_net) 11 tx_pcb.

Definition tx_write (l off apiflags : Z) (n : net (heap_pools * frag_pool) (list (list Z))) : res (err_t * net (heap_pools * frag_pool) (list (list
    Z))) :=
  tcp_write (fun _ => 0) no_custom true n 11 (payload tx_pbuf + off) l apiflags.
Definition tx_first : res (err_t * net (heap_pools * frag_pool) (list (list Z))) := tx_write 6 0 (Z.lor TCP_WRITE_FLAG_COPY TCP_WRITE_FLAG_MORE)
    tx_net.

Lemma tx_owns : exists L, owns tx_state L [tx_app].
Proof.
  assert (Ho : owns rx0 ∅ []). { split; [|constructor|constructor]. split; [exact hp0_owned|]. intros p b. cbn. by rewrite lookup_empty. }
  destruct (own_alloc no_custom (fun _ => 0) ltac:(done) true rx0 ∅ [] PBUF_RAW 12 Ho ltac:(done) ltac:(by vm_compute)) as (p & s & E & _
    & [(-> & _)|(_ & b & L & Hb & Ho' & _)]).
  - exfalso. revert E. vm_compute. discriminate.
  - assert (E1 : (p, s) = tx1) by (unfold tx1; by rewrite E). exists L. apply owns_bytes. unfold tx_app, tx_pbuf. rewrite <- E1. cbn [fst snd].
    by rewrite Hb.
Qed.

Lemma tx_sending L : owns tx_state L [tx_app] -> sending tx_state L [tx_app] [] 4294967290 (t_snd_lbb tx_pcb) (t_unsent_oversize tx_pcb) (mss_local
    tx_pcb).
Proof.
  intros Ho. split; [|exact Ho|constructor|done|by vm_compute|done]. apply mem_ok_wr; [|apply (bool_decide_unpack (Forall is_u8 _)); by vm_compute].
  intros a. unfold rd8. rewrite lookup_empty. unfold is_u8. cbn. lia.
Qed.

Lemma tx_results : (let* (e1, n) := tx_first in let* (e2, _) := tx_write 6 6 TCP_WRITE_FLAG_COPY n in Ok (e1, e2)) = Ok (ERR_OK, ERR_OK).
Proof. vm_compute. reflexivity. Qed.

(** The application's packet stays a source for the next call. *)
Lemma tx_source s L (U : list sseg) off l : owns s L ((ss_bl <$> U) ++ [tx_app]) -> 0 <= off -> off + l <= 12 ->
    source L (ss_bl <$> U) (payload tx_pbuf + off) l.
Proof.
  intros Ho Hoff Hl. destruct (source_pbuf s L _ _ tx_app (fst tx1) tx_pbuf Ho) as (q & o & k & HL & Hq1 & Hq2 & Hq); [left|left|]. exists q, o, k.
  assert (El : len tx_pbuf = 12) by (vm_compute; reflexivity). split_and!; [done|lia|lia|done].
Qed.

Lemma tcp_write_correct_witness :
  exists n1 n2 t2 i s2 L2 U2, tx_first = Ok (ERR_OK, n1) /\ tx_write 6 6 TCP_WRITE_FLAG_COPY n1 = Ok (ERR_OK, n2)
    /\ seen n2 11 t2 i s2 /\ sending s2 L2 [tx_app] U2 4294967290 6 (t_unsent_oversize t2) (mss_local t2) /\ t_unsent t2 = ss_seg <$> U2
        /\ out_data (bytes s2) U2 = tx_text.
Proof.
  destruct tx_owns as (L & Ho). assert (Hn : seen tx_net 11 tx_pcb (in_of tx_net) tx_state) by (split; [by vm_compute|done|done]).
  assert (Hr : ready tx_pcb []) by (split; by vm_compute).
  destruct (tcp_write_correct (fun _ => 0) no_custom true ltac:(done) tx_net 11 tx_pcb (in_of tx_net) tx_state L [tx_app] [] 4294967290
    (payload tx_pbuf + 0) 6 (Z.lor TCP_WRITE_FLAG_COPY TCP_WRITE_FLAG_MORE)
    Hn Hr (tx_sending L Ho) (tx_source _ L [] 0 6 Ho ltac:(lia) ltac:(lia)) ltac:(by vm_compute) ltac:(by vm_compute) ltac:(lia)) as (e1 & n1 & t1 &
      s1 & L1 & U1 & E1 & Hn1 & [Hr1 Hs1 Hk1 _ He1]).
  pose proof (tx_source s1 L1 U1 6 6 (se_owns _ _ _ _ _ _ _ _ Hs1) ltac:(lia) ltac:(lia)) as Hsrc.
  destruct (tcp_write_correct (fun _ => 0) no_custom true ltac:(done) n1 11 t1 (in_of tx_net) s1 L1 [tx_app] U1 4294967290 (payload
    tx_pbuf + 6) 6 TCP_WRITE_FLAG_COPY
    Hn1 Hr1 Hs1 Hsrc ltac:(by vm_compute) ltac:(by vm_compute) ltac:(lia)) as (e2 & n2 & t2 & s2 & L2 & U2 & E2 & Hn2 & [Hr2 Hs2 _ _ He2]).
  pose proof tx_results as Er. fold (tx_write 6 0 (Z.lor TCP_WRITE_FLAG_COPY TCP_WRITE_FLAG_MORE) tx_net) in E1.
  fold (tx_write 6 6 TCP_WRITE_FLAG_COPY n1) in E2. fold tx_first in E1.
  rewrite E1 in Er. cbn [res_bind] in Er. rewrite E2 in Er. cbn [res_bind] in Er. injection Er as -> ->.
  destruct He1 as (Hd1 & Hl1 & _), He2 as (Hd2 & Hl2 & _). exists n1, n2, t2, (in_of tx_net), s2, L2, U2. split; [exact E1|]. split; [exact E2|].
  split; [exact Hn2|].
  split; [|split; [apply Hr2|]].
  - replace (t_snd_lbb t2) with 6 in Hs2; [exact Hs2|]. rewrite Hl2, Hl1. vm_compute. reflexivity.
  - assert (Ek : cdata (bytes s1) tx_app = cdata (bytes tx_state) tx_app) by (apply Hk1; left). rewrite Hd2, Hd1. cbn [out_data app].
    assert (Es : rd (bytes s1) (payload tx_pbuf + 6) (Z.to_nat 6) = rd (bytes tx_state) (payload tx_pbuf + 6) (Z.to_nat 6)); [|rewrite Es;
      vm_compute; reflexivity].
    unfold tx_app in Ek. rewrite !cdata_cons, !app_nil_r in Ek. eapply rd_part; [exact Ek|lia|]. change (len tx_pbuf) with 12. vm_compute.
    discriminate.
Defined.
