(* ===== verification/TcpOpt.v ===== *)
(** * TCP options: lwip/src/core/tcp_in.c, [tcp_parseopt]

    [tcp_parseopt] reads the options byte by byte, from the header and, when the header is
    split over two pbufs, from the second one.  It always returns, and finds the maximum
    segment size that a parser of the list of option bytes finds. *)

From S2P Require Import Prelude Def Ip4Addr InetChksum Mem Pbuf PbufAlloc TcpData Net Ip4 TcpBase TcpOut Tcp TcpRecv.

(** ** The specification *)

(** The segment size for a peer that offers [x] bytes: never more than TCP_MSS, and 0 is no offer. *)
Definition segment_size (x : Z) : Z := if decide (x = 0) then TCP_MSS else Z.min x TCP_MSS.

(** The options as bytes: the value that the last complete MSS option gives for [mss].  The
    list ends at an end-of-options byte and at an option with a bad or missing length. *)
Fixpoint mss_option (fuel : nat) (bs : list Z) (mss : Z) : Z :=
  match fuel with
  | O => mss
  | S fuel' =>
      match bs with
      | k :: bs' =>
          if k =? LWIP_TCP_OPT_EOL then mss
          else if k =? LWIP_TCP_OPT_NOP then mss_option fuel' bs' mss
          else
            match bs' with
            | [] => mss
            | l :: data =>
                if k =? LWIP_TCP_OPT_MSS then
                  match data with
                  | hi :: lo :: bs'' =>
                      if l =? LWIP_TCP_OPT_LEN_MSS then mss_option fuel' bs'' (segment_size (256 * hi + lo)) else mss
                  | _ => mss
                  end
                else if l <? 2 then mss else mss_option fuel' (drop (Z.to_nat (l - 2)) data) mss
            end
      | [] => mss
      end
  end.

(** What the code computes is the segment size. *)
Lemma mss_of_option_spec x : mss_of_option x = segment_size x.
Proof.
  unfold mss_of_option, segment_size. destruct (decide (x = 0)) as [->|Hx]; [done|]. rewrite (proj2 (Z.eqb_neq x 0)) by done.
  rewrite orb_false_r. destruct (Z.ltb_spec TCP_MSS x); lia.
Qed.

(** The least and the largest segment size that an option can set. *)
Lemma segment_size_range x : 0 <= x -> 1 <= segment_size x <= TCP_MSS.
Proof. intros Hx. unfold segment_size, TCP_MSS. case_decide; lia. Qed.

Section TcpOpt.
Context {A W : Type}.
Implicit Types n : net A W.

(** The option byte with index [i]. *)
Definition opt_byte n (i : Z) : Z :=
  let v := in_of n in
  if (i_opt2 v =? NULL) || (i <? i_opt1len v) then rd8 (mem n) (i_tcphdr v + TCP_HLEN + i)
  else rd8 (mem n) (i_opt2 v + (i - i_opt1len v)).

Definition options n : list Z := (fun i => opt_byte n (Z.of_nat i)) <$> seq 0 (Z.to_nat (i_optlen (in_of n))).

(** ** The loop *)

(** The connection [pcb], whose control block was [t], with a segment size, and the index. *)
Definition parsing n (pcb : Z) (t : tcp_pcb) (mss i : Z) : net A W :=
  upd_in (put_tcp n pcb (set_mss mss t)) (set_i_optidx i).

Lemma getoptbyte_at n pcb t mss i :
  0 <= i <= 60 -> 0 <= i_opt1len (in_of n) ->
  tcp_getoptbyte (parsing n pcb t mss i) = (opt_byte n i, parsing n pcb t mss (i + 1)).
Proof.
  intros Hi Ho. unfold tcp_getoptbyte, opt_byte. cbv zeta.
  assert (E : upd_in (parsing n pcb t mss i) (set_i_optidx (u16 (i_optidx (in_of (parsing n pcb t mss i)) + 1))) = parsing n pcb t mss (i + 1)).
  { unfold parsing. cbn. rewrite u16_id by (unfold is_u16; lia). done. }
  rewrite E. cbn [parsing upd_in in_of tcp with_tcp set_tcp_in_vars tcp_in_vars set_i_optidx i_opt2 i_optidx i_opt1len i_tcphdr].
  change (mem (parsing n pcb t mss i)) with (mem n). change (in_of (put_tcp n pcb (set_mss mss t))) with (in_of n).
  destruct (_ =? NULL); [done|]. cbn [orb]. destruct (i <? i_opt1len (in_of n)) eqn:El; [done|].
  by rewrite u8_id by (unfold is_u8; lia).
Qed.

(** The options from the index [i] on. *)
Lemma drop_options n i :
  0 <= i < i_optlen (in_of n) -> drop (Z.to_nat i) (options n) = opt_byte n i :: drop (Z.to_nat (i + 1)) (options n).
Proof.
  intros Hi. unfold options. rewrite <- !fmap_drop, !drop_seq.
  replace (Z.to_nat (i_optlen (in_of n)) - Z.to_nat i)%nat with (S (Z.to_nat (i_optlen (in_of n)) - Z.to_nat (i + 1)))%nat by lia.
  cbn [seq fmap list_fmap]. f_equal; [f_equal; lia|]. do 2 f_equal; lia.
Qed.

Lemma drop_options_end n i : i_optlen (in_of n) <= i -> drop (Z.to_nat i) (options n) = [].
Proof. intros Hi. apply drop_ge. unfold options. rewrite length_fmap, length_seq. lia. Qed.

Lemma word_of_bytes hi lo : is_u8 hi -> is_u8 lo -> Z.lor (u16 (Z.shiftl hi 8)) lo = 256 * hi + lo.
Proof.
  unfold is_u8. intros Hh Hl. rewrite Z.shiftl_mul_pow2 by lia. rewrite u16_id by (unfold is_u16; lia).
  rewrite (lor_disjoint hi lo 8); lia.
Qed.

Context (n : net A W) (pcb : Z) (t : tcp_pcb).
Hypothesis n_options : 0 <= i_optlen (in_of n) <= 40 /\ 0 <= i_opt1len (in_of n).
Hypothesis n_mem : mem_ok (mem n).

Lemma opt_byte_u8 i : is_u8 (opt_byte n i).
Proof. unfold opt_byte. destruct (_ || _); apply n_mem. Qed.

Local Abbreviation at_ := (parsing n pcb t).

Lemma upd_parsing mss mss' i : upd_tcp (at_ mss i) pcb (set_mss mss') = Ok (at_ mss' i).
Proof.
  unfold upd_tcp, tcp_at, parsing. unfold deref. cbn [upd_in with_tcp tcp set_tcp_in_vars tcp_heap put_tcp set_tcp_heap].
  rewrite lookup_insert_eq. cbn [res_bind]. f_equal. unfold put_tcp, upd_in. cbn. by rewrite insert_insert_eq.
Qed.

Lemma skip_parsing mss k l :
  0 <= k + l - 2 < 65536 -> upd_in (at_ mss k) (fun v => set_i_optidx (u16 (i_optidx v + l - 2)) v) = at_ mss (k + l - 2).
Proof.
  intros Hk. transitivity (at_ mss (u16 (k + l - 2))); [done|]. by rewrite u16_id by (unfold is_u16; lia).
Qed.

Lemma parseopt_loop_spec fuel : forall mss i,
  0 <= i -> i_optlen (in_of n) - i <= Z.of_nat fuel ->
  exists j, parseopt_loop fuel (at_ mss i) pcb = Ok (at_ (mss_option fuel (drop (Z.to_nat i) (options n)) mss) j).
Proof.
  destruct n_options as [Hl Ho]. induction fuel as [|fuel IH]; intros mss i Hi Hf; cbn [parseopt_loop mss_option].
  all: change (i_optidx (in_of (at_ mss i))) with i; change (i_optlen (in_of (at_ mss i))) with (i_optlen (in_of n)).
  { exists i. rewrite (proj2 (Z.ltb_ge _ _)) by lia. done. }
  destruct (i <? i_optlen (in_of n)) eqn:El; [|exists i; by rewrite drop_options_end by lia].
  apply Z.ltb_lt in El. rewrite drop_options by lia. rewrite getoptbyte_at by lia.
  destruct (opt_byte n i =? LWIP_TCP_OPT_EOL); [by exists (i + 1)|]. destruct (opt_byte n i =? LWIP_TCP_OPT_NOP); [apply IH; lia|].
  rewrite !getoptbyte_at by lia. set (l := opt_byte n (i + 1)). assert (Hb := opt_byte_u8 (i + 1)). fold l in Hb. unfold is_u8 in Hb.
  change (i_optlen (in_of (at_ mss (i + 1 + 1)))) with (i_optlen (in_of n)). change (i_optidx (in_of (at_ mss (i + 1 + 1)))) with (i + 1 + 1).
  destruct (opt_byte n i =? LWIP_TCP_OPT_MSS).
  - unfold LWIP_TCP_OPT_LEN_MSS. destruct (decide (i + 4 <= i_optlen (in_of n))) as [Hin|Hout].
    + rewrite !drop_options by lia. fold l. rewrite (proj2 (Z.ltb_ge _ _)) by lia. rewrite orb_false_r.
      destruct (l =? 4); cbn [negb]; [|by exists (i + 1 + 1)].
      rewrite upd_parsing. cbn [res_bind]. rewrite word_of_bytes, mss_of_option_spec by apply opt_byte_u8. apply IH; lia.
    + exists (i + 1 + 1). rewrite (proj2 (Z.ltb_lt _ _)) by lia. rewrite orb_true_r. do 2 f_equal.
      destruct (drop (Z.to_nat (i + 1)) (options n)) as [|x [|y [|z r]]] eqn:Ed; try done.
      apply (f_equal length) in Ed. rewrite length_drop in Ed. unfold options in Ed. rewrite length_fmap, length_seq in Ed. cbn in Ed. lia.
  - destruct (decide (i + 1 < i_optlen (in_of n))) as [Hin|Hout].
    + rewrite drop_options by lia. fold l. destruct (l <? 2) eqn:E2; [by exists (i + 1 + 1)|]. apply Z.ltb_ge in E2.
      rewrite skip_parsing by lia. destruct (IH mss (i + 1 + 1 + l - 2)) as [j Ej]; [lia..|]. exists j. rewrite Ej. do 2 f_equal. f_equal.
      rewrite drop_drop. f_equal. lia.
    + rewrite drop_options_end by lia. destruct (l <? 2) eqn:E2; [by exists (i + 1 + 1)|]. apply Z.ltb_ge in E2.
      rewrite skip_parsing by lia. destruct (IH mss (i + 1 + 1 + l - 2)) as [j Ej]; [lia..|]. exists j. rewrite Ej. do 2 f_equal.
      rewrite drop_options_end by lia. by destruct fuel.
Qed.

Hypothesis n_pcb : tcp_heap (tcp n) !! pcb = Some t.

Lemma parsing_start : at_ (t_mss t) 0 = upd_in n (set_i_optidx 0).
Proof.
  unfold parsing, upd_in. change (in_of (put_tcp n pcb (set_mss (t_mss t) t))) with (in_of n). unfold put_tcp, with_tcp, set_tcp_in_vars, set_tcp_heap.
  cbn. assert (Et : set_mss (t_mss t) t = t) by (by destruct t). rewrite Et. rewrite (insert_id _ _ _ n_pcb). done.
Qed.

(** C9: [tcp_parseopt] returns on every segment; of the connection it changes the maximum
    segment size only, to what the last complete MSS option among the option bytes says,
    however these are split over two pbufs. *)
Theorem tcp_parseopt_correct :
  exists i, tcp_parseopt n pcb
    = Ok (upd_in (put_tcp n pcb (set_mss (mss_option (length (options n)) (options n) (t_mss t)) t)) (set_i_optidx i)).
Proof.
  unfold tcp_parseopt. destruct n_options as [Hl _]. destruct (i_optlen (in_of n) =? 0) eqn:E; cbn [negb].
  - apply Z.eqb_eq in E. exists (i_optidx (in_of n)). assert (Eo : options n = []) by (unfold options; by rewrite E). rewrite Eo. cbn [length mss_option].
    f_equal. pose proof parsing_start as Hs. unfold parsing in Hs.
    apply (f_equal (fun x => upd_in x (set_i_optidx (i_optidx (in_of n))))) in Hs. symmetry. etransitivity; [|etransitivity; [exact Hs|]].
    + done.
    + destruct n as [? ? ? ? ? ? ? ? ? ? ? ? ? tc ? ? ? ?]. by destruct tc as [? ? ? ? ? ? ? ? ? ? ? ? ? ? ? ? []].
  - rewrite <- parsing_start. destruct (parseopt_loop_spec (Z.to_nat (i_optlen (in_of n))) (t_mss t) 0) as [j Ej]; [lia..|].
    exists j. rewrite Ej. change (Z.to_nat 0) with 0%nat. rewrite drop_0.
    assert (Elen : length (options n) = Z.to_nat (i_optlen (in_of n))) by (unfold options; by rewrite length_fmap, length_seq). by rewrite Elen.
Qed.

End TcpOpt.

(** An option never sets a segment size of 0 or above TCP_MSS. *)
Lemma mss_option_range fuel : forall bs mss, bytes_ok bs -> 1 <= mss <= TCP_MSS -> 1 <= mss_option fuel bs mss <= TCP_MSS.
Proof.
  induction fuel as [|fuel IH]; intros bs mss Hb Hm; cbn [mss_option]; [done|].
  destruct Hb as [|k bs Hk Hb]; [done|]. destruct (_ =? _); [done|]. destruct (_ =? _); [by apply IH|].
  destruct Hb as [|l bs Hl Hb]; [done|]. destruct (_ =? _).
  - destruct Hb as [|hi bs Hh Hb]; [done|]. destruct Hb as [|lo bs Hlo Hb]; [done|]. destruct (_ =? _); [|done].
    apply IH; [done|]. apply segment_size_range. unfold is_u8 in *. lia.
  - destruct (_ <? _); [done|]. apply IH; [|done]. by apply Forall_drop.
Qed.

(** Two NOPs and an MSS option that is split over two pbufs. *)
Section Examples.

Definition opt_pcb : tcp_pcb := set_mss 536 tcp_pcb_zero.
Definition opt_net : net (heap_pools * frag_pool) (list (list Z)) :=
  let v := mk_in (mk_seg 0 0 0 0) 1100 8 5 1200 0 0 0 0 0 0 0 0 in
  with_mem (wr (wr ∅ 1120 [1; 1; 2; 4; 2]) 1200 [88; 0; 0])
    (with_tcp (set_tcp_in_vars v (set_tcp_heap {[11 := opt_pcb]} ex_tcp)) ex_net).

Lemma opt_net_mem : mem_ok (mem opt_net).
Proof.
  apply mem_ok_wr; [apply mem_ok_wr|]; [intros a; unfold rd8; rewrite lookup_empty; unfold is_u8; cbn; lia|..];
    repeat constructor; unfold is_u8; lia.
Qed.

Lemma tcp_parseopt_correct_witness :
  exists n', tcp_parseopt opt_net 11 = Ok n' /\ tcp_heap (tcp n') !! 11 = Some (set_mss 600 opt_pcb).
Proof.
  destruct (tcp_parseopt_correct opt_net 11 opt_pcb) as [i E]; [vm_compute; done|exact opt_net_mem|vm_compute; done|].
  rewrite E. eexists. split; [reflexivity|]. cbn [upd_in with_tcp tcp set_tcp_in_vars tcp_heap put_tcp set_tcp_heap].
  rewrite lookup_insert_eq. vm_compute. reflexivity.
Defined.

End Examples.
