(* ===== verification/TcpExamples.v ===== *)
(** * TCP on concrete segments: lwip/src/core/tcp.c, tcp_in.c

    A server that accepts a connection, run segment by segment, as a witness of the theorems
    of [TcpReach]; and the situations in which TCP does not do what its comments say. *)

From S2P Require Import Prelude Def Ip4Addr InetChksum Mem Memp Pbuf PbufAlloc TcpData Net Ip4 IpFrame TcpBase TcpOut Tcp TcpRecv TcpIn.
From S2P Require Import TcpFrame TcpLists TcpInv TcpStep TcpReach TcpRfc TcpWnd.

(** ** The environment *)

Section Quiet.
Context {A W : Type}.

(** An application that does nothing. *)
Definition quiet_app : TcpApp A W := {|
  accept_fn f n arg pcb err := Ok (ERR_OK, n);
  recv_fn f n arg pcb p err := Ok (ERR_OK, n);
  sent_fn f n arg pcb l := Ok (ERR_OK, n);
  connected_fn f n arg pcb err := Ok (ERR_OK, n);
  poll_fn f n arg pcb := Ok (ERR_OK, n);
  err_fn f n arg err := Ok n
|}.

Lemma quiet_well_behaved : @WellBehaved A W quiet_app.
Proof. split; intros; cbn; try (by apply good_refl); auto. Qed.

End Quiet.

Definition tstate : Type := net (heap_pools * frag_pool) (list (list Z)).

Section Run.
Context `{TcpApp (heap_pools * frag_pool) (list (list Z))}.

Definition sf : Z -> Z := fun _ => 0.
Definition cf : Z -> Z -> Pbuf.state (heap_pools * frag_pool) -> res (Pbuf.state (heap_pools * frag_pool)) := frag_custom_free 3.
Definition no_timer (n : tstate) : res tstate := Ok n.

(** The peer 10.0.0.2 sends a segment to 10.0.0.1. *)
Definition PEER : Z := 33554442.
Definition OWN : Z := 16777226.
Definition be16 (x : Z) : list Z := [Z.shiftr x 8 mod 256; x mod 256].
Definition be32 (x : Z) : list Z := be16 (Z.shiftr x 16) ++ be16 x.

Definition segment_wnd (wnd sport dport seqno ackno flags : Z) (data : list Z) : list Z :=
  let z := be16 sport ++ be16 dport ++ be32 seqno ++ be32 ackno ++ [80; flags] ++ be16 wnd ++ [0; 0; 0; 0] ++ data in
  take 16 z ++ le_bytes 2 (ip_chksum_pseudo [(1100, z)] IP_PROTO_TCP (Z.of_nat (length z)) PEER OWN) ++ drop 18 z.
Definition segment : Z -> Z -> Z -> Z -> Z -> list Z -> list Z := segment_wnd 4000.

(** A packet with these bytes comes from the interface. *)
Definition arrive (bs : list Z) (n : tstate) : res (Z * tstate) :=
  let* (p, n) := alloc_pbuf sf cf true n PBUF_RAW (Z.of_nat (length bs)) PBUF_RAM in
  let* b := pbuf_at n p in
  let n := with_ip_data (mk_globals 1 1 NULL 20 PEER OWN) n in
  Ok (p, with_mem (wr (mem n) (payload b) bs) n).

Definition receive (bs : list Z) (n : tstate) : res tstate :=
  let* (p, n) := arrive bs n in tcp_input sf cf true ex_output no_timer n p.

(** The peer sends [data] on the connection [pcb], [off] behind what is expected. *)
Definition peer_sends (sport pcb off flags : Z) (data : list Z) (n : tstate) : res tstate :=
  let* t := tcp_at n pcb in receive (segment sport 80 (u32 (t_rcv_nxt t + off)) (t_snd_nxt t) flags data) n.

(** A server on port 80, with the accept function 10, and connections to it. *)
Definition tn0 : tstate := with_tcp (set_tcp_pcb_pool [11; 12; 13] (set_tcp_listen_pool [21; 22] ex_tcp)) ex_net.

Definition open_server (n : tstate) : res tstate :=
  let* (pcb, n) := tcp_alloc sf cf true ex_output n TCP_PRIO_NORMAL in
  let* (_, n) := tcp_bind no_timer n pcb None 80 in
  let* (l, _, n) := tcp_listen_with_backlog_and_err no_timer n pcb 5 in
  tcp_accept n l 10.

Definition peer_connects (sport pcb : Z) (n : tstate) : res tstate :=
  let* n := receive (segment sport 80 100 0 TCP_SYN []) n in peer_sends sport pcb 0 TCP_ACK [] n.

Definition connected_server : res tstate := let* n := open_server tn0 in peer_connects 1000 11 n.

End Run.

(** ** A run *)

Section Witness.
#[local] Existing Instance quiet_app.

Local Abbreviation st r := (match r with Ok n => n | Fault _ => tn0 end).
Local Abbreviation st2 r := (match r with Ok (_, n) => n | Fault _ => tn0 end).
Definition run1 : tstate := st2 (tcp_alloc sf cf true ex_output tn0 TCP_PRIO_NORMAL).
Definition run2 : tstate := st2 (tcp_bind no_timer run1 11 None 80).
Definition run3 : tstate := st2 (tcp_listen_with_backlog_and_err no_timer run2 11 5).
Definition run4 : tstate := st (tcp_accept run3 21 10).
Definition run5 : tstate := st2 (arrive (segment 1000 80 100 0 TCP_SYN []) run4).
Definition run6 : tstate := st (tcp_input sf cf true ex_output no_timer run5 4104).
Definition run7 : tstate := st2 (arrive (segment 1000 80 101 6511 TCP_ACK []) run6).
Definition run8 : tstate := st (tcp_input sf cf true ex_output no_timer run7 4104).

Local Abbreviation reach := (tcp_reach sf cf true ex_output no_timer).

Lemma reach_step_none n n' : reach ∅ n -> tcp_step sf cf true ex_output no_timer n n' -> reach ∅ n'.
Proof.
  intros Hr Hs. assert (E : still ∅ n' = ∅) by apply intersection_empty_l_L. rewrite <- E. by eapply reach_step.
Qed.

Lemma reach_input_none n p n' :
  reach ∅ n -> (has (flags_of n p) TCP_RST = false) -> closing n' = false ->
  tcp_input sf cf true ex_output no_timer n p = Ok n' -> reach ∅ n'.
Proof.
  intros Hr Hf Hc E. assert (E' : still (unfreed n' (target n p) ∪ ∅) n' = ∅).
  { unfold unfreed. rewrite Hc. cbn [andb]. rewrite (union_empty_l_L ∅). apply intersection_empty_l_L. }
  rewrite <- E'. eapply reach_input; [done|congruence|done].
Qed.

Lemma tn0_initial : tcp_initial tn0.
Proof.
  split_and!; try done.
  - apply (bool_decide_unpack (NoDup [11; 12; 13; 21; 22])). by vm_compute.
  - apply (bool_decide_unpack (NULL ∉ [11; 12; 13; 21; 22])). by vm_compute.
Qed.

Lemma run8_reached : reach ∅ run8.
Proof.
  eapply (reach_input_none run7 4104); [|by vm_compute|by vm_compute|by vm_compute].
  eapply (reach_step_none run6); [|apply step_rest; by vm_compute].
  eapply (reach_input_none run5 4104); [|by vm_compute|by vm_compute|by vm_compute].
  eapply (reach_step_none run4); [|apply step_rest; by vm_compute].
  eapply (reach_step_none run3); [|eapply (step_accept _ _ _ _ _ _ 21 10); by vm_compute].
  eapply (reach_step_none run2); [|eapply (step_listen _ _ _ _ _ _ 11 5 21 ERR_OK); by vm_compute].
  eapply (reach_step_none run1); [|eapply (step_bind _ _ _ _ _ _ 11 None 80 ERR_OK); [by apply not_elem_of_nil|by vm_compute]].
  eapply (reach_step_none tn0); [|eapply (step_alloc _ _ _ _ _ _ TCP_PRIO_NORMAL 11); by vm_compute].
  apply reach_initial, tn0_initial.
Qed.

Lemma driver_quiet (n : tstate) nif p dest : holds (ex_output n nif p dest) (fun r => tcp (snd r) = tcp n).
Proof. unfold ex_output. by tstep. Qed.

(** The connection has been established, and is on the list of active ones. *)
Lemma tcp_axioms_hold_witness :
  t_state <$> tcp_heap (tcp run8) !! 11 = Some ESTABLISHED /\ tcp_axioms ∅ run8.
Proof.
  split; [by vm_compute|].
  eapply (tcp_axioms_hold (H1 := quiet_app) sf cf true ex_output no_timer (WellBehaved0 := quiet_well_behaved) driver_quiet (fun n => eq_refl) ∅ run8 run8_reached).
Defined.

(** The peer closes: its FIN has arrived, and is about to be processed. *)
Definition fin_arrived : tstate := st (
  let* (p, n) := arrive (segment 1000 80 101 6511 (Z.lor TCP_ACK TCP_FIN) []) run8 in
  let* b := pbuf_at n p in
  let* (_, n) := header n p (- TCP_HLEN) in
  let hdr := payload b in
  Ok (upd_in n (fun _ => mk_in (mk_seg p 0 0 hdr) hdr 0 0 NULL 0 101 6511 0 1 (Z.lor TCP_ACK TCP_FIN) 0 NULL))).
Definition fin_processed : err_t * tstate :=
  match tcp_process sf cf true ex_output no_timer fin_arrived 11 with Ok r => r | Fault _ => (ERR_ABRT, tn0) end.
Definition fin_pcb : tcp_pcb := match tcp_heap (tcp fin_arrived) !! 11 with Some t => t | None => tcp_pcb_zero end.


(** The announced window lies across the wrap-around: 200 bytes of it are left, though the
    buffer has room for 500. *)
Definition wrapped_pcb : tcp_pcb :=
  set_mss 1024 (set_rcv_wnd 500 (set_rcv_ann_right_edge 100 (set_rcv_nxt 4294967196 tcp_pcb_zero))).

Lemma tcp_window_never_shrinks_witness :
  exists inflation, tcp_update_rcv_ann_wnd (put_tcp tn0 11 wrapped_pcb) 11
    = Ok (inflation, put_tcp (put_tcp tn0 11 wrapped_pcb) 11 (set_rcv_ann_wnd 200 wrapped_pcb)).
Proof.
  assert (E : tcp_heap (tcp (put_tcp tn0 11 wrapped_pcb)) !! 11 = Some wrapped_pcb) by (by vm_compute).
  assert (Hok : wnd_ok wrapped_pcb) by (by vm_compute).
  destruct (tcp_window_never_shrinks _ 11 wrapped_pcb E Hok) as (i & w & Ew & Hw & _).
  exists i. rewrite Ew, Hw. by vm_compute.
Defined.

End Witness.

(** ** What the application may not do, and what the peer can *)

Section Trouble.

(** Receive functions: 20 takes the data and closes at the end of the stream, 21 refuses the
    data, 22 takes the data and closes, 23 takes the data and leaves the window alone.  The poll
    function 30 aborts the connection 12.  The accept function 10 installs the receive function
    20, 11 closes the connection. *)
#[local] Instance app : TcpApp (heap_pools * frag_pool) (list (list Z)) := {|
  accept_fn f n arg pcb err :=
    if f =? 11 then tcp_close sf cf true ex_output no_timer n pcb
    else let* n := tcp_recv n pcb 20 in Ok (ERR_OK, n);
  recv_fn f n arg pcb p err :=
    if f =? 21 then Ok (ERR_MEM, n)
    else
      let* n := if p =? NULL then Ok n else free cf n p in
      if ((f =? 20) && (p =? NULL)) || (f =? 22) then tcp_close sf cf true ex_output no_timer n pcb else Ok (ERR_OK, n);
  sent_fn f n arg pcb l := Ok (ERR_OK, n);
  connected_fn f n arg pcb err := Ok (ERR_OK, n);
  poll_fn f n arg pcb :=
    if f =? 30 then let* n := tcp_abort (H1 := quiet_app) sf cf true ex_output n 12 in Ok (ERR_OK, n) else Ok (ERR_OK, n);
  err_fn f n arg err := Ok n
|}.

(** The state of a control block, and the lists. *)
Definition glance (pcb : Z) (r : res tstate) : option (option tcp_state * list Z * list Z) :=
  match r with
  | Ok n => Some (t_state <$> tcp_heap (tcp n) !! pcb, tcp_active_pcbs (tcp n), tcp_tw_pcbs (tcp n))
  | Fault _ => None
  end.

(** The peer sends its last data, and the receive function closes the connection at the end of
    the stream with the data not yet acknowledged by [tcp_recved].  The connection is reset and
    taken off the list, but not freed: it is CLOSE_WAIT, on no list, and nobody knows it. *)
Theorem closed_while_receiving_is_lost :
  glance 11 connected_server = Some (Some ESTABLISHED, [11], [])
  /\ glance 11 (let* n := connected_server in peer_sends 1000 11 0 (TCP_ACK + TCP_FIN) [1; 2; 3; 4] n)
     = Some (Some CLOSE_WAIT, [], []).
Proof. split; vm_compute; reflexivity. Qed.

(** The application has refused data; when it is given the data again it takes it and closes
    the connection.  The segment that brought this about is a reset: the control block, which
    is in TIME-WAIT by now, is freed, and stays on the list of those. *)
Definition refused_data (data_flags : Z) : res tstate :=
  let* n := connected_server in
  let* n := tcp_recv n 11 21 in
  let* n := peer_sends 1000 11 0 data_flags [1; 2; 3; 4] n in
  tcp_recv n 11 22.

Theorem reset_after_refused_data_leaves_dangling :
  glance 11 (refused_data TCP_ACK) = Some (Some ESTABLISHED, [11], [])
  /\ glance 11 (let* n := refused_data TCP_ACK in peer_sends 1000 11 0 TCP_RST [] n) = Some (None, [], [11]).
Proof. split; vm_compute; reflexivity. Qed.

(** With the end of the stream refused as well, any segment makes [tcp_process_refused_data] use
    the control block that the receive function has freed. *)
Theorem refused_end_is_used_after_free :
  glance 11 (refused_data (TCP_ACK + TCP_FIN)) = Some (Some CLOSE_WAIT, [11], [])
  /\ (let* n := refused_data (TCP_ACK + TCP_FIN) in peer_sends 1000 11 0 TCP_ACK [] n) = Fault FBadAccess.
Proof. split; vm_compute; reflexivity. Qed.

(** Three connections: 11 has not been established for 50 seconds, and the poll function of 13
    aborts 12.  [tcp_slowtmr] begins again, passes over 13 without making it [prev], and
    fails with "first pcb == tcp_active_pcbs" when it removes 11. *)
Definition three_connections : res tstate :=
  let* n := open_server tn0 in
  let* n := receive (segment 1000 80 100 0 TCP_SYN []) n in
  let* n := peer_connects 1001 12 n in
  let* n := peer_connects 1002 13 n in
  let* n := tcp_poll n 13 30 1 in
  Ok (with_tcp (set_tcp_ticks 100 (tcp n)) n).

Theorem slowtmr_fails_after_restart :
  glance 11 three_connections = Some (Some SYN_RCVD, [13; 12; 11], [])
  /\ (let* n := three_connections in tcp_slowtmr sf cf true ex_output 10 n) = Fault FAssert.
Proof. split; vm_compute; reflexivity. Qed.

(** The window has shrunk to 96 bytes.  A segment out of order is kept with all of its 200
    bytes; when the missing byte arrives, the assertion "ooseq tcplen > rcv_wnd" fails. *)
Definition full_window : res tstate :=
  let chunk := replicate 1000 7 in
  let* n := connected_server in
  let* n := tcp_recv n 11 23 in
  foldr (fun _ r => let* n := r in peer_sends 1000 11 0 TCP_ACK chunk n) (Ok n) (seq 0 8).

Theorem peer_can_fail_assertion :
  (let* n := full_window in let* t := tcp_at n 11 in Ok (t_rcv_wnd t)) = Ok 96
  /\ (let* n := full_window in
      let* n := peer_sends 1000 11 1 TCP_ACK (replicate 200 7) n in peer_sends 1000 11 0 TCP_ACK [7] n) = Fault FAssert.
Proof. split; vm_compute; reflexivity. Qed.

(** A listener keeps the accept function [tcp_accept_null], and there is no control block for
    a connection request: [tcp_abort(NULL)]. *)
Theorem accept_null_aborts_null :
  (let* (pcb, n) := tcp_alloc sf cf true ex_output tn0 TCP_PRIO_NORMAL in
   let* (_, n) := tcp_bind no_timer n pcb None 80 in
   let* (l, _, n) := tcp_listen_with_backlog_and_err no_timer n pcb 5 in
   receive (segment 1000 80 100 0 TCP_SYN []) (with_tcp (set_tcp_pcb_pool [] (tcp n)) n)) = Fault FBadAccess.
Proof. vm_compute. reflexivity. Qed.

(** The accept function closes the connection, and the segment that completes the handshake
    carries the end of the stream: FIN_WAIT_1 is overwritten by CLOSE_WAIT, and the default
    receive function closes once more.  The connection is in LAST_ACK, where RFC 793 has
    CLOSING, and has sent FIN twice: the first takes the number 6511, the second 6512. *)
Definition closed_on_accept (flags : Z) : res (tcp_state * Z) :=
  let* n := open_server tn0 in
  let* n := tcp_accept n 21 11 in
  let* n := receive (segment 1000 80 100 0 TCP_SYN []) n in
  let* n := peer_sends 1000 11 0 flags [] n in
  let* t := tcp_at n 11 in Ok (t_state t, t_snd_lbb t).

Theorem accept_close_then_fin :
  closed_on_accept TCP_ACK = Ok (FIN_WAIT_1, 6512) /\ closed_on_accept (TCP_ACK + TCP_FIN) = Ok (LAST_ACK, 6513).
Proof. split; vm_compute; reflexivity. Qed.

(** A control block is bound twice, and is on the list twice: its [next] is the control block itself. *)
Theorem bind_twice_is_cyclic :
  (let* (pcb, n) := tcp_alloc sf cf true ex_output tn0 TCP_PRIO_NORMAL in
   let* (_, n) := tcp_bind no_timer n pcb None 80 in
   let* (err, n) := tcp_bind no_timer n pcb None 81 in Ok (err, tcp_bound_pcbs (tcp n))) = Ok (ERR_OK, [11; 11]).
Proof. vm_compute. reflexivity. Qed.

(** A segment has been retransmitted twelve times by [tcp_slowtmr], and once more because of
    duplicate acknowledgements: [nrtx == TCP_MAXRTX] does not hold, and [tcp_backoff[13]] is
    behind the end of the array. *)
Theorem backoff_is_read_behind_its_end :
  (let* n := connected_server in
   let* (_, n) := tcp_write sf cf true n 11 1100 4 TCP_WRITE_FLAG_COPY in
   let* (_, n) := tcp_output sf cf true ex_output n 11 in
   let* n := upd_tcp n 11 (fun t => set_rtime (t_rto t) (set_nrtx 12 t)) in
   let* n := tcp_rexmit n 11 in
   let* (_, n) := tcp_output sf cf true ex_output n 11 in
   slow_timers sf cf true ex_output n 11) = Fault FBadAccess.
Proof. vm_compute. reflexivity. Qed.

(** The peer has announced no window so far, so that a segment may have the whole MSS; the
    application writes 400 bytes, which wait.  The peer announces 100 bytes: a segment may have 50
    bytes now, and the next write fails with "mss_local is too small". *)
Definition window_opens : res tstate :=
  let* n := open_server tn0 in
  let* n := receive (segment_wnd 0 1000 80 100 0 TCP_SYN []) n in
  let* t := tcp_at n 11 in
  let* n := receive (segment_wnd 0 1000 80 101 (t_snd_nxt t) TCP_ACK []) n in
  let* (err, n) := tcp_write sf cf true n 11 1100 400 TCP_WRITE_FLAG_COPY in
  let* t := tcp_at n 11 in
  receive (segment_wnd 100 1000 80 101 (t_snd_nxt t) TCP_ACK []) n.

Theorem small_window_fails_assertion :
  glance 11 window_opens = Some (Some ESTABLISHED, [11], [])
  /\ (let* n := window_opens in let* t := tcp_at n 11 in Ok (seg_len <$> t_unsent t, t_snd_wnd_max t)) = Ok ([400], 100)
  /\ (let* n := window_opens in tcp_write sf cf true n 11 1100 1 TCP_WRITE_FLAG_COPY) = Fault FAssert.
Proof. split_and!; vm_compute; reflexivity. Qed.

End Trouble.
