(* ===== verification/Stack.v ===== *)
(** * The stack as a whole

    The components put together as init.c and the win32 port do: frames come in through
    [ethernet_input] (netif/ethernet.c) or [netif_input] (netif.c) and go out through
    [etharp_output] as [netif->output]; [ip4_input] has the transport layers below it, the DNS
    client is the receiver of its UDP pcbs, and the cyclic timers of timeouts.c run the timers
    of the components.  The link driver and the applications are parameters.  Their own state,
    the ARP table, the DNS client and the timeouts make up the world of [Net.net].
    [pbuf_free_ooseq] of pbuf.c is here because it works on the control blocks of TCP. *)

From S2P Require Import Prelude Def Ip4Addr Timeouts Etharp.
From S2P Require Import InetChksum Pbuf TcpData Net Ip4 Icmp Reass Igmp Udp Raw Ip4In Netif Dns TcpBase TcpOut Tcp TcpRecv TcpIn.

(** ** Definitions *)

Definition NETIF_FLAG_ETHERNET : Z := 16.
Definition LL_IP4_MULTICAST_ADDR_0 : Z := 1.
Definition LL_IP4_MULTICAST_ADDR_1 : Z := 0.
Definition LL_IP4_MULTICAST_ADDR_2 : Z := 94.

(** The static variables of etharp.c, timeouts.c and dns.c, the fields [status_callback] and
    [link_callback] of the interfaces, and the rest of the world. *)
Record sworld (L : Type) := mk_sworld {
  w_arp_table : list etharp_entry; w_arp_cached : Z; w_arp_pool : nat; w_arp_stats : etharp_stats;
  w_timers : tstate unit; w_dns : dns_globals; w_callbacks : gmap Z (Z * Z); w_app : L
}.
Arguments mk_sworld {L} _ _ _ _ _ _ _ _.
Arguments w_arp_table {L} _.
Arguments w_arp_cached {L} _.
Arguments w_arp_pool {L} _.
Arguments w_arp_stats {L} _.
Arguments w_timers {L} _.
Arguments w_dns {L} _.
Arguments w_callbacks {L} _.
Arguments w_app {L} _.

Section Parts.
Context {A L : Type} `{AllocOps A} `{FragPool A}.
Variable stale_flags : Z -> Z.
Variable custom_free : Z -> Z -> Pbuf.state A -> res (Pbuf.state A).
Variable callback_ok : bool.
(** [netif->linkoutput]. *)
Variable driver : net A (sworld L) -> Z -> Z -> res (err_t * net A (sworld L)).
Implicit Types n : net A (sworld L).

Definition with_arp_world (t : list etharp_entry) (c : Z) (k : nat) (st : etharp_stats) (w : sworld L) : sworld L :=
  mk_sworld t c k st (w_timers w) (w_dns w) (w_callbacks w) (w_app w).
Definition with_timers (t : tstate unit) (w : sworld L) : sworld L :=
  mk_sworld (w_arp_table w) (w_arp_cached w) (w_arp_pool w) (w_arp_stats w) t (w_dns w) (w_callbacks w) (w_app w).
Definition with_w_dns (g : dns_globals) (w : sworld L) : sworld L :=
  mk_sworld (w_arp_table w) (w_arp_cached w) (w_arp_pool w) (w_arp_stats w) (w_timers w) g (w_callbacks w) (w_app w).
Definition with_callbacks (c : gmap Z (Z * Z)) (w : sworld L) : sworld L :=
  mk_sworld (w_arp_table w) (w_arp_cached w) (w_arp_pool w) (w_arp_stats w) (w_timers w) (w_dns w) c (w_app w).

(** *** ARP on the packets of the stack *)

Definition net_packets : PacketOps (net A (sworld L)) := {|
  Etharp.pbuf_free := free custom_free;
  Etharp.pbuf_ref n p := let* s := Pbuf.pbuf_ref (Net.packets n) p in Ok (Net.with_packets s n);
  Etharp.pbuf_alloc := alloc_pbuf stale_flags custom_free callback_ok;
  Etharp.pbuf_copy n p_to p_from := on_packets (fun s => Pbuf.pbuf_copy s p_to p_from) n;
  Etharp.pbuf_header := header;
  Etharp.pbuf_at := Net.pbuf_at;
  Etharp.pbuf_count n := size (pbufs (Net.packets n));
  Etharp.mem_read n a k := rd (mem n) a k;
  Etharp.mem_write n a bs := with_mem (wr (mem n) a bs) n;
  Etharp.linkoutput := driver;
  Etharp.link_lenerr := Net.inc P_link c_lenerr
|}.
Local Existing Instance net_packets.

Definition arp_of n : arp_state (net A (sworld L)) :=
  let w := Net.world n in
  mk_arp (w_arp_table w) (w_arp_cached w) (w_arp_pool w) (Net.netifs n) (w_arp_stats w) n.
Definition of_arp (s : arp_state (net A (sworld L))) : net A (sworld L) :=
  let n := Etharp.packets s in
  Net.with_world (with_arp_world (arp_table s) (etharp_cached_entry s) (arp_queue_pool s) (Etharp.stats s) (Net.world n)) n.

(** [netif->output] of an Ethernet interface. *)
Definition link_output n (nif p dest : Z) : res (err_t * net A (sworld L)) :=
  let* (err, s) := etharp_output (arp_of n) nif p dest in Ok (err, of_arp s).

Definition link_etharp_input n (p nif : Z) : res (net A (sworld L)) :=
  let* s := etharp_input (arp_of n) p nif in Ok (of_arp s).
Definition link_etharp_tmr n : res (net A (sworld L)) :=
  let* s := Etharp.etharp_tmr (arp_of n) in Ok (of_arp s).
Definition link_cleanup_netif n (nif : Z) : res (net A (sworld L)) :=
  let* s := etharp_cleanup_netif (arp_of n) nif in Ok (of_arp s).
(** [etharp_gratuitous(netif)]. *)
Definition link_gratuitous n (nif : Z) : res (net A (sworld L)) :=
  let* nf := netif_at n nif in
  let* (_, s) := etharp_request (arp_of n) nif (netif_ip4_addr nf) in Ok (of_arp s).

(** [ETHARP_STATS_INC]. *)
Definition arp_count (f : etharp_stats -> etharp_stats) n : net A (sworld L) :=
  let w := Net.world n in
  Net.with_world (with_arp_world (w_arp_table w) (w_arp_cached w) (w_arp_pool w) (f (w_arp_stats w)) w) n.

(** *** ethernet_input *)

(** The destination address sets the flags of the packet. *)
Definition ll_flags (dest : list Z) (flags : Z) : Z :=
  if Z.odd (nth 0 dest 0) then
    if nth 0 dest 0 =? LL_IP4_MULTICAST_ADDR_0 then
      if (nth 1 dest 0 =? LL_IP4_MULTICAST_ADDR_1) && (nth 2 dest 0 =? LL_IP4_MULTICAST_ADDR_2)
      then Z.lor flags PBUF_FLAG_LLMCAST else flags
    else if bool_decide (dest = ethbroadcast) then Z.lor flags PBUF_FLAG_LLBCAST
    else flags
  else flags.

Section Input.
Variable ip_input : net A (sworld L) -> Z -> Z -> res (err_t * net A (sworld L)).

Definition ethernet_input n (p nif : Z) : res (err_t * net A (sworld L)) :=
  let free_and_return n := let* n := free custom_free n p in Ok (ERR_OK, n) in
  let* b := Net.pbuf_at n p in
  if len b <=? SIZEOF_ETH_HDR then free_and_return (arp_count inc_proterr_drop n)
  else
    let type := rd16 (mem n) (payload b + 12) in
    let dest := rd (mem n) (payload b) 6 in
    let* s := upd (Net.packets n) p (fun b => with_flags (ll_flags dest (flags b)) b) in
    let n := Net.with_packets s n in
    if type =? PP_HTONS ETHTYPE_IP then
      let* nf := netif_at n nif in
      if Z.land (netif_flags nf) NETIF_FLAG_ETHARP =? 0 then free_and_return n
      else if len b <? SIZEOF_ETH_HDR then free_and_return n
      else
        let* (failed, n) := header n p (- SIZEOF_ETH_HDR) in
        if (failed : bool) then free_and_return n
        else let* (_, n) := ip_input n p nif in Ok (ERR_OK, n)
    else if type =? PP_HTONS ETHTYPE_ARP then
      let* nf := netif_at n nif in
      if Z.land (netif_flags nf) NETIF_FLAG_ETHARP =? 0 then free_and_return n
      else if len b <? SIZEOF_ETH_HDR then free_and_return (arp_count inc_lenerr_drop n)
      else
        let* (failed, n) := header n p (- SIZEOF_ETH_HDR) in
        if (failed : bool) then free_and_return (arp_count inc_lenerr_drop n)
        else let* n := link_etharp_input n p nif in Ok (ERR_OK, n)
    else free_and_return (arp_count inc_proterr_drop n).

Definition netif_input n (p inp : Z) : res (err_t * net A (sworld L)) :=
  let* nf := netif_at n inp in
  if negb (Z.land (netif_flags nf) (Z.lor NETIF_FLAG_ETHARP NETIF_FLAG_ETHERNET) =? 0)
  then ethernet_input n p inp else ip_input n p inp.
End Input.

(** *** The DNS client on the pcbs of the stack *)

Definition dnet_of n : dnet A (sworld L) := mk_dnet (w_dns (Net.world n)) n.
Definition of_dnet (d : dnet A (sworld L)) : net A (sworld L) :=
  Net.with_world (with_w_dns (dns d) (Net.world (stack d))) (stack d).

(** *** Timers *)

Definition timers_of n : tstate (net A (sworld L)) :=
  let t := w_timers (Net.world n) in
  mk_tstate (next_timeout t) (timeouts_last_time t) (tcpip_tcp_timer_active t) (timeout_pool t) (clock t) n.
Definition of_timers (s : tstate (net A (sworld L))) : net A (sworld L) :=
  let n := Timeouts.world s in
  Net.with_world (with_timers (mk_tstate (next_timeout s) (timeouts_last_time s) (tcpip_tcp_timer_active s)
    (timeout_pool s) (clock s) tt) (Net.world n)) n.

(** [tcp_active_pcbs || tcp_tw_pcbs]. *)
Definition any_pcbs n : bool := negb (is_nil (tcp_active_pcbs (tcp n)) && is_nil (tcp_tw_pcbs (tcp n))).

Definition stack_tcp_timer_needed n : res (net A (sworld L)) :=
  let* s := tcp_timer_needed any_pcbs (timers_of n) in Ok (of_timers s).

End Parts.

(** *** The whole *)

(** What the applications do: the callbacks of UDP, of raw pcbs and of the DNS client, and the
    callbacks of the interfaces; those of TCP are [TcpApp]. *)
Class StackApp (A L : Type) := {
  app_udp_recv : Z -> net A (sworld L) -> Z -> Z -> Z -> Z -> Z -> res (net A (sworld L));
  app_raw_recv : Z -> net A (sworld L) -> Z -> Z -> Z -> Z -> res (Z * net A (sworld L));
  app_dns_found : Z -> net A (sworld L) -> list Z -> option Z -> Z -> res (net A (sworld L));
  app_status : Z -> net A (sworld L) -> Z -> res (net A (sworld L));
  app_link : Z -> net A (sworld L) -> Z -> res (net A (sworld L));
  app_timer : Z -> Z -> net A (sworld L) -> res (net A (sworld L))
}.

Section Stack.
Context {A L : Type} `{AllocOps A} `{FragPool A} `{TcpApp A (sworld L)} `{StackApp A L}.
Variable stale_flags : Z -> Z.
Variable custom_free : Z -> Z -> Pbuf.state A -> res (Pbuf.state A).
Variable callback_ok : bool.
Variable driver : net A (sworld L) -> Z -> Z -> res (err_t * net A (sworld L)).
Variable igmp_mac_filter : net A (sworld L) -> Z -> Z -> bool -> res (net A (sworld L)).
Variable rand : Z -> Z * Z.
(** Rounds for the loops that wait for random numbers, and for the lists of connections. *)
Variable fuel : nat.
Implicit Types n : net A (sworld L).

Local Abbreviation netif_output := (link_output stale_flags custom_free callback_ok driver).

Definition stack_found (f : Z) (d : dnet A (sworld L)) (name : list Z) (addr : option Z) (arg : Z) : res (dnet A (sworld L)) :=
  let* n := app_dns_found f (of_dnet d) name addr arg in Ok (dnet_of n).

(** The receive function of a UDP pcb. *)
Definition stack_udp_recv (f : Z) n (arg pcb p addr port : Z) : res (net A (sworld L)) :=
  if f =? dns_recv_fn then let* d := dns_recv custom_free stack_found (dnet_of n) p addr in Ok (of_dnet d)
  else app_udp_recv f n arg pcb p addr port.

Definition stack_tcp_input n (p inp : Z) : res (net A (sworld L)) :=
  tcp_input stale_flags custom_free callback_ok netif_output stack_tcp_timer_needed n p.

Definition stack_ip_input n (p inp : Z) : res (err_t * net A (sworld L)) :=
  ip4_input stale_flags custom_free callback_ok netif_output stack_udp_recv app_raw_recv stack_tcp_input n p inp.

(** A frame from the driver. *)
Definition stack_frame n (p inp : Z) : res (err_t * net A (sworld L)) :=
  netif_input stale_flags custom_free callback_ok driver stack_ip_input n p inp.

Definition stack_gethostbyname n (hostname : option (list Z)) (addr : bool) (found callback_arg : Z)
    : res (err_t * option Z * net A (sworld L)) :=
  let* (err, a, d) := dns_gethostbyname stale_flags custom_free callback_ok netif_output rand stack_found fuel (dnet_of n)
                        hostname addr found callback_arg in
  Ok (err, a, of_dnet d).

(** The handler of a cyclic timer. *)
Definition stack_cyclic (h : lwip_cyclic_timer_handler) n : res (net A (sworld L)) :=
  match h with
  | Timeouts.tcp_tmr => tcp_tmr stale_flags custom_free callback_ok netif_output stack_tcp_timer_needed fuel n
  | Timeouts.ip_reass_tmr => ip_reass_tmr stale_flags custom_free callback_ok netif_output n
  | Timeouts.etharp_tmr => link_etharp_tmr stale_flags custom_free callback_ok driver n
  | Timeouts.igmp_tmr => igmp_tmr stale_flags custom_free callback_ok netif_output n
  | Timeouts.dns_tmr =>
      let* d := dns_tmr stale_flags custom_free callback_ok netif_output rand stack_found fuel (dnet_of n) in Ok (of_dnet d)
  end.

Definition on_net (f : net A (sworld L) -> res (net A (sworld L))) (s : tstate (net A (sworld L)))
    : res (tstate (net A (sworld L))) :=
  let* n := f (of_timers s) in Ok (timers_of n).

Definition stack_check_timeouts (rounds : nat) n : res (net A (sworld L)) :=
  let* s := sys_check_timeouts (fun h => on_net (stack_cyclic h)) any_pcbs (fun f a => on_net (app_timer f a)) rounds (timers_of n) in
  Ok (of_timers s).

(** *** Interfaces *)

Definition stack_addr_changed n (old_addr new_addr : option Z) : res (net A (sworld L)) :=
  tcp_netif_ip_addr_changed stale_flags custom_free callback_ok netif_output n old_addr new_addr.

(** [netif->status_callback] and [netif->link_callback]; nothing is set at first. *)
Definition netif_callbacks n (nif : Z) : Z * Z := default (NULL, NULL) (w_callbacks (world n) !! nif).
Definition set_netif_callbacks n (nif status link : Z) : net A (sworld L) :=
  Net.with_world (with_callbacks (<[nif := (status, link)]> (w_callbacks (world n))) (world n)) n.

Definition netif_set_status_callback n (nif status_callback : Z) : net A (sworld L) :=
  if nif =? NULL then n else set_netif_callbacks n nif status_callback (snd (netif_callbacks n nif)).
Definition netif_set_link_callback n (nif link_callback : Z) : net A (sworld L) :=
  if nif =? NULL then n else set_netif_callbacks n nif (fst (netif_callbacks n nif)) link_callback.

Definition NETIF_STATUS_CALLBACK n (nif : Z) : res (net A (sworld L)) :=
  let f := fst (netif_callbacks n nif) in if f =? NULL then Ok n else app_status f n nif.
Definition NETIF_LINK_CALLBACK n (nif : Z) : res (net A (sworld L)) :=
  let f := snd (netif_callbacks n nif) in if f =? NULL then Ok n else app_link f n nif.

Local Abbreviation gratuitous := (link_gratuitous stale_flags custom_free callback_ok driver).
Local Abbreviation arp_cleanup := (link_cleanup_netif stale_flags custom_free callback_ok driver).

Definition stack_set_addr n (nif : Z) (ipaddr netmask gw : option Z) : res (net A (sworld L)) :=
  netif_set_addr NETIF_STATUS_CALLBACK gratuitous stack_addr_changed n nif ipaddr netmask gw.
Definition stack_set_up n (nif : Z) : res (net A (sworld L)) := netif_set_up NETIF_STATUS_CALLBACK gratuitous n nif.
Definition stack_set_down n (nif : Z) : res (net A (sworld L)) := netif_set_down NETIF_STATUS_CALLBACK arp_cleanup n nif.
Definition stack_set_link_up n (nif : Z) : res (net A (sworld L)) := netif_set_link_up NETIF_LINK_CALLBACK gratuitous n nif.
Definition stack_set_link_down n (nif : Z) : res (net A (sworld L)) := netif_set_link_down NETIF_LINK_CALLBACK n nif.

(** A new interface has no callbacks. *)
Definition stack_netif_add (init : net A (sworld L) -> Z -> res (err_t * net A (sworld L))) n (nif : Z) (ipaddr netmask gw : option Z)
    : res (Z * net A (sworld L)) :=
  netif_add igmp_mac_filter NETIF_STATUS_CALLBACK gratuitous stack_addr_changed init (set_netif_callbacks n nif NULL NULL) nif ipaddr netmask gw.
Definition stack_netif_remove n (nif : Z) : res (net A (sworld L)) :=
  netif_remove igmp_mac_filter NETIF_STATUS_CALLBACK arp_cleanup stack_addr_changed n nif.
Definition stack_poll (rounds : nat) n (nif : Z) : res (net A (sworld L)) :=
  netif_poll custom_free stack_ip_input rounds n nif.

(** *** Initialisation *)

(** [lwip_init], on the state after [mem_init] and [memp_init]; the other modules have nothing
    to initialise in this configuration. *)
Definition lwip_init n : res (net A (sworld L)) :=
  let n := of_dnet (dns_init (dnet_of n)) in
  let* s := sys_timeouts_init (timers_of n) in Ok (of_timers s).

(** *** pbuf_free_ooseq *)

Fixpoint free_ooseq_loop n (l : list Z) : res (net A (sworld L)) :=
  match l with
  | [] => Ok n
  | pcb :: l' =>
      let* t := tcp_at n pcb in
      if negb (is_nil (t_ooseq t)) then
        let* n := tcp_segs_free custom_free n (t_ooseq t) in upd_tcp n pcb (set_ooseq [])
      else free_ooseq_loop n l'
  end.

Definition pbuf_free_ooseq n : res (net A (sworld L)) :=
  let s := Net.packets n in
  let n := Net.with_packets (mk_state (pbufs s) (bytes s) (custom_free_function s) (alloc s) false (callbacks s)) n in
  free_ooseq_loop n (tcp_active_pcbs (tcp n)).

End Stack.
