(* ===== verification/StackIo.v ===== *)
(** * Frames in and out of the stack

    What the link layer does to a packet on its way through the stack of [Stack]: the Ethernet
    header that [etharp_output] puts in front of it, and how [ethernet_input] takes it off;
    then UDP from the socket to the frame and from the frame to the socket. *)

From S2P Require Import Prelude Def Ip4Addr Timeouts Etharp EtharpOut.
From S2P Require Import InetChksum Pbuf PbufData PbufOps TcpData Net Ip4 Icmp Reass Igmp Udp Raw Ip4In UdpIo Netif Dns TcpBase Stack.

(** ** Frames out *)

Section Out.
Context {A L : Type} `{AllocOps A} `{FragPool A}.
Variable stale_flags : Z -> Z.
Variable custom_free : Z -> Z -> Pbuf.state A -> res (Pbuf.state A).
Variable callback_ok : bool.
Variable driver : net A (sworld L) -> Z -> Z -> res (err_t * net A (sworld L)).
Implicit Types n : net A (sworld L).

Local Abbreviation link_output := (link_output stale_flags custom_free callback_ok driver).

(** An Ethernet frame. *)
Definition eth_frame (src dst : list Z) (type : Z) (data : list Z) : list Z := dst ++ src ++ le_bytes 2 (lwip_htons type) ++ data.

(** The interface is an Ethernet interface that resolves the next hop to [dst]. *)
Record resolved n (nf : netif) (addr : Z) (dst : list Z) : Prop := {
  res_table : exists N, arp_inv N (arp_of n);
  res_entry : exists hop e, sends_via nf addr hop /\ resolves (w_arp_table (Net.world n)) hop e /\ ethaddr e = dst;
  res_hwaddr : length (netif_hwaddr nf) = 6%nat;
  res_dst : length dst = 6%nat
}.

(** The header in front of the packet. *)
Lemma ethernet_output_spec n nif nf p b bl dst type :
  room n p b bl SIZEOF_ETH_HDR -> length (netif_hwaddr nf) = 6%nat -> length dst = 6%nat ->
  exists n', let bl' := (p, moved SIZEOF_ETH_HDR b) :: bl in
    Etharp.ethernet_output (H := net_packets stale_flags custom_free callback_ok driver) n nif nf p (netif_hwaddr nf) dst type
    = driver n' nif p
    /\ packet (pbufs (Net.packets n')) p bl' /\ Net.world n' = Net.world n
    /\ cdata (mem n') bl' = eth_frame (netif_hwaddr nf) dst type (cdata (mem n) ((p, b) :: bl)).
Proof.
  intros [Hpk Hne Hty Hfr Htot Hap] Hhw Hdst. pose proof Hpk as ((_ & _ & Hb & _) & (Hl & Htl & Hlok) & Ht).
  pose proof (lens_ok_nonneg _ Hlok) as Hnn. rewrite total_cons in *. unfold SIZEOF_ETH_HDR in *.
  unfold Etharp.ethernet_output, SIZEOF_ETH_HDR. cbn [Etharp.pbuf_header Etharp.pbuf_at Etharp.mem_write Etharp.linkoutput net_packets].
  rewrite (header_up n p b 14) by (done || lia). cbn [res_bind].
  unfold Net.pbuf_at. rewrite pbufs_set_ph, (deref_ok _ _ _ (lookup_insert_eq _ _ _)). cbn [res_bind].
  rewrite Hhw. change (Z.of_nat 6 =? ETH_HWADDR_LEN) with true. cbn [lwip_assert res_bind]. eexists. split; [reflexivity|].
  rewrite mem_set_ph, with_mem_set_ph, pbufs_set_ph, mem_set_ph. cbn [moved payload].
  assert (Eh : length (eth_hdr_bytes (netif_hwaddr nf) dst (lwip_htons type)) = 14%nat).
  { unfold eth_hdr_bytes. rewrite !length_app, length_le_bytes, Hhw, Hdst. done. }
  split; [apply moved_packet; [done|lia|rewrite total_cons; lia]|]. split; [done|].
  rewrite !cdata_cons. cbn [moved payload len]. replace (Z.to_nat (len b + 14)) with (14 + Z.to_nat (len b))%nat by lia.
  rewrite rd_add, (rd_wr_apart _ _ _ (_ + _)) by (rewrite Eh; lia). rewrite <- Eh at 1. rewrite rd_wr_same.
  rewrite cdata_wr_apart; [|done|by rewrite Eh]. unfold eth_frame, eth_hdr_bytes. rewrite <- !app_assoc. do 4 f_equal. f_equal. lia.
Qed.

(** A packet for a resolved address leaves as one frame. *)
Lemma link_output_resolved n nif nf p b bl addr dst :
  Net.netifs n !! nif = Some nf -> resolved n nf addr dst -> room n p b bl SIZEOF_ETH_HDR ->
  exists n' s, let bl' := (p, moved SIZEOF_ETH_HDR b) :: bl in
    link_output n nif p addr = (let* (err, n2) := driver n' nif p in Ok (err, of_arp (Etharp.with_packets n2 s)))
    /\ packet (pbufs (Net.packets n')) p bl' /\ Net.world n' = Net.world n /\ arp_table s = w_arp_table (Net.world n)
    /\ cdata (mem n') bl' = eth_frame (netif_hwaddr nf) dst ETHTYPE_IP (cdata (mem n) ((p, b) :: bl)).
Proof.
  intros Hnf [[N Hinv] (hop & e & Hvia & Hres & <-) Hhw Hdst] Hroom.
  destruct (etharp_output_known (H := net_packets stale_flags custom_free callback_ok driver) N (arp_of n) nif nf p addr hop e Hinv Hnf
    (room_null _ _ _ _ _ Hroom) Hvia Hres) as (s & Et & _ & E).
  destruct (ethernet_output_spec n nif nf p b bl (ethaddr e) ETHTYPE_IP Hroom Hhw Hdst) as (n' & Ee & Hpk & Hw & Hd).
  exists n', s. cbv zeta in *. split_and!; try done.
  unfold Stack.link_output. rewrite E. cbn [arp_of Etharp.packets]. rewrite Ee.
  destruct (driver n' nif p) as [[err n2]|]; [|done]. done.
Qed.

(** C26: A datagram on the wire.  With room for the three headers in front of the data, sending it
    to an address that ARP has resolved hands the driver exactly one Ethernet frame, from the
    interface to the station of the next hop, with the IPv4 packet of the UDP datagram of the
    data, whose checksums verify. *)
Theorem udp_frame_sent n pcb u p b bl src dst dst_port nif nf station :
  udp_heap (udp n) !! pcb = Some u -> pcb <> NULL -> plain_pcb u -> is_u16 dst_port ->
  room n p b bl (SIZEOF_ETH_HDR + IP_HLEN + UDP_HLEN) -> ref b = 1 ->
  ip_args n src dst (u_ttl u) (u_tos u) IP_PROTO_UDP ->
  Net.netifs n !! nif = Some nf -> dst <> netif_ip4_addr nf -> ip4_addr_isloopback dst = false ->
  Z.land (flags b) PBUF_FLAG_MCASTLOOP = 0 -> resolved n nf dst station ->
  (netif_mtu nf = 0 \/ total ((p, b) :: bl) + IP_HLEN + UDP_HLEN <= netif_mtu nf) ->
  exists n' s,
    let data := cdata (mem n) ((p, b) :: bl) in
    let bl' := (p, moved (SIZEOF_ETH_HDR + IP_HLEN + UDP_HLEN) b) :: bl in
    udp_sendto_if_src stale_flags custom_free callback_ok link_output n pcb p (Some dst) dst_port nif src
    = (let* (err, n2) := driver n' nif p in Ok (err, inc P_udp c_xmit (of_arp (Etharp.with_packets n2 s))))
    /\ packet (pbufs (Net.packets n')) p bl' /\ Net.world n' = Net.world n /\ arp_table s = w_arp_table (Net.world n)
    /\ cdata (mem n') bl' = eth_frame (netif_hwaddr nf) station ETHTYPE_IP
         (udp_packet (ip_id n) src dst (u_ttl u) (u_tos u) (u_local_port u) dst_port data)
    /\ internet_checksum (pseudo_header src dst IP_PROTO_UDP (UDP_HLEN + Z.of_nat (length data))
                          ++ udp_datagram src dst (u_local_port u) dst_port data) = 0.
Proof.
  intros Hu Hpcb Hpl Hdp Hroom Href Hargs Hnf Hd Hlb Hfl Hres Hmtu.
  assert (Hmc : ip4_addr_ismulticast dst = false) by (destruct Hres as [_ (hop & e & (_ & Hmc & _) & _) _ _]; exact Hmc).
  destruct Hroom as [Hpk Hne Hty Hfr Htot Hap]. unfold SIZEOF_ETH_HDR, IP_HLEN, UDP_HLEN in *.
  destruct (udp_send_correct stale_flags custom_free callback_ok link_output n pcb u p b bl src dst dst_port nif nf)
    as (n1 & E & Hpk1 & Hw1 & Hn1 & Hd1 & Hv & _ & _); rewrite ?Hmc in *; try done.
  { split; try done; unfold IP_HLEN, UDP_HLEN; [lia|lia|]. eapply apart_sub; [exact Hap|lia|lia]. }
  unfold IP_HLEN, UDP_HLEN in *. change (20 + 8) with 28 in *.
  destruct (link_output_resolved n1 nif nf p (moved 28 b) bl dst station) as (n' & s & El & Hpk' & Hw' & Ht' & Hd'); [by rewrite Hn1|..].
  { destruct Hres as [[N Hinv] He ? ?]. split; [|by rewrite Hw1|done|done]. exists N. unfold arp_of. rewrite Hw1. exact Hinv. }
  { unfold SIZEOF_ETH_HDR. split; try done; cbn [moved payload len].
    - lia.
    - rewrite total_cons in *. cbn [moved len]. lia.
    - eapply apart_sub; [exact Hap|lia|lia]. }
  unfold SIZEOF_ETH_HDR in *. rewrite moved_moved in Hpk', Hd'. change (28 + 14) with 42 in *. change (14 + 20 + 8) with 42. exists n', s. cbv zeta. split_and!; try done; [|congruence..|].
  - rewrite E, El. destruct (driver n' nif p) as [[err n2]|]; done.
  - rewrite Hd', Hd1. done.
Qed.
End Out.

(** ** Frames in *)

Section In.
Context {A L : Type} `{AllocOps A} `{FragPool A}.
Variable stale_flags : Z -> Z.
Variable custom_free : Z -> Z -> Pbuf.state A -> res (Pbuf.state A).
Variable callback_ok : bool.
Variable driver : net A (sworld L) -> Z -> Z -> res (err_t * net A (sworld L)).
Implicit Types n : net A (sworld L).

Local Abbreviation netif_input := (netif_input stale_flags custom_free callback_ok driver).

(** The first pbuf of a frame, as the driver allocates it, and an interface that is up for
    Ethernet. *)
Record frame_in n (p : Z) (b : pbuf) (bl : list (Z * pbuf)) (inp : Z) (nf : netif) : Prop := {
  fr_packet : packet (pbufs (Net.packets n)) p ((p, b) :: bl);
  fr_null : p <> NULL;
  fr_type : type b = PBUF_RAM \/ type b = PBUF_POOL;
  fr_front : p + SIZEOF_STRUCT_PBUF <= payload b;
  fr_mem : mem_ok (mem n);
  fr_len : SIZEOF_ETH_HDR < len b;
  fr_netif : Net.netifs n !! inp = Some nf;
  fr_inp : inp <> NULL;
  fr_etharp : Z.land (netif_flags nf) NETIF_FLAG_ETHARP <> 0
}.

(** The state without the Ethernet header. *)
Definition unframed n (p : Z) (b : pbuf) : net A (sworld L) :=
  set_ph (<[p := moved (- SIZEOF_ETH_HDR) b]> (pbufs (Net.packets n))) (mem n) n.

Lemma flag_in_mask f : Z.land f NETIF_FLAG_ETHARP <> 0 -> Z.land f (Z.lor NETIF_FLAG_ETHARP NETIF_FLAG_ETHERNET) <> 0.
Proof.
  intros Hf E. apply Hf. apply Z.bits_inj'. intros i Hi. rewrite Z.bits_0, Z.land_spec.
  assert (Eb : Z.testbit (Z.land f (Z.lor NETIF_FLAG_ETHARP NETIF_FLAG_ETHERNET)) i = false) by (rewrite E; apply Z.bits_0).
  rewrite Z.land_spec, Z.lor_spec in Eb. destruct (Z.testbit f i); [|done]. cbn [andb] in *. by destruct (Z.testbit NETIF_FLAG_ETHARP i).
Qed.

Lemma frame_head n p b bl inp nf src dst type data :
  frame_in n p b bl inp nf -> length src = 6%nat -> length dst = 6%nat ->
  cdata (mem n) ((p, b) :: bl) = eth_frame src dst type data ->
  rd (mem n) (payload b) 6 = dst /\ rd16 (mem n) (payload b + 12) = lwip_htons type /\ drop 14 (cdata (mem n) ((p, b) :: bl)) = data.
Proof.
  intros [_ _ _ _ _ Hl _ _ _] Hs Hd E. unfold SIZEOF_ETH_HDR in Hl. rewrite E. rewrite cdata_cons in E.
  replace (Z.to_nat (len b)) with (6 + (6 + (2 + Z.to_nat (len b - 14))))%nat in E by lia.
  rewrite !rd_add, <- !app_assoc in E. unfold eth_frame in *.
  apply app_inj_1 in E as [E1 E]; [|by rewrite length_rd]. apply app_inj_1 in E as [E2 E]; [|by rewrite length_rd].
  apply app_inj_1 in E as [E3 E]; [|by rewrite length_rd, length_le_bytes].
  split; [done|]. split.
  - unfold rd16. replace (payload b + 12) with (payload b + Z.of_nat 6 + Z.of_nat 6) by lia. rewrite E3. apply le_val_two, lwip_htons_range.
  - rewrite !drop_app_ge by (rewrite ?Hd, ?Hs, ?length_le_bytes; lia). rewrite Hd, Hs, length_le_bytes. apply drop_0.
Qed.

Lemma ll_flags_unicast dst f : Z.odd (nth 0 dst 0) = false -> ll_flags dst f = f.
Proof. unfold ll_flags. by intros ->. Qed.

(** An IPv4 frame to one station: the packet goes on without its Ethernet header. *)
Lemma netif_input_ip ip_input n p b bl inp nf src dst data :
  frame_in n p b bl inp nf -> length src = 6%nat -> length dst = 6%nat -> Z.odd (nth 0 dst 0) = false ->
  cdata (mem n) ((p, b) :: bl) = eth_frame src dst ETHTYPE_IP data ->
  netif_input ip_input n p inp = (let* (_, n2) := ip_input (unframed n p b) p inp in Ok (ERR_OK, n2))
  /\ packet (pbufs (Net.packets (unframed n p b))) p ((p, moved (- SIZEOF_ETH_HDR) b) :: bl)
  /\ cdata (mem (unframed n p b)) ((p, moved (- SIZEOF_ETH_HDR) b) :: bl) = data.
Proof.
  intros Hfr Hs Hd Hu E. destruct (frame_head _ _ _ _ _ _ _ _ _ _ Hfr Hs Hd E) as (E1 & E2 & E3).
  destruct Hfr as [Hpk Hne Hty Hf Hm Hl Hnf Hinp Hfl]. unfold SIZEOF_ETH_HDR in *.
  pose proof Hpk as ((_ & _ & Hb & _) & (Hl0 & Htl & Hlok) & Ht). pose proof (lens_ok_nonneg _ Hlok) as Hnn. rewrite total_cons in Ht.
  unfold Stack.netif_input, netif_at. rewrite (deref_ok _ _ _ Hnf). cbn [res_bind].
  rewrite (proj2 (Z.eqb_neq _ _) (flag_in_mask _ Hfl)). cbn [negb].
  unfold ethernet_input. unfold Net.pbuf_at at 1. rewrite (deref_ok _ _ _ Hb). cbn [res_bind].
  unfold SIZEOF_ETH_HDR. rewrite (proj2 (Z.leb_gt _ _)) by lia. rewrite E1, E2.
  unfold upd. rewrite (deref_ok _ _ _ Hb). cbn [res_bind]. rewrite (ll_flags_unicast dst _ Hu). replace (with_flags (flags b) b) with b by (by destruct b).
  rewrite insert_id by done. change (lwip_htons ETHTYPE_IP =? PP_HTONS ETHTYPE_IP) with true. cbv iota.
  replace (Net.with_packets (with_pbufs (pbufs (Net.packets n)) (Net.packets n)) n) with n by (destruct n as [s]; by destruct s).
  unfold netif_at. rewrite (deref_ok _ _ _ Hnf). cbn [res_bind]. rewrite (proj2 (Z.eqb_neq _ _) Hfl), (proj2 (Z.ltb_ge _ _)) by lia.
  rewrite (header_down n p b 14) by (done || lia). cbn [res_bind]. fold (unframed n p b).
  destruct (moved_down_packet (pbufs (Net.packets n)) p b bl (mem n) 14 Hpk) as [Hpk' Hc]; [lia|lia|].
  unfold unframed. rewrite pbufs_set_ph, mem_set_ph. split_and!; [done|done|]. rewrite Hc. exact E3.
Qed.

End In.

Section Receive.
Context {A L : Type} `{AllocOps A} `{FragPool A} `{TcpApp A (sworld L)} `{StackApp A L}.
Variable stale_flags : Z -> Z.
Variable custom_free : Z -> Z -> Pbuf.state A -> res (Pbuf.state A).
Variable callback_ok : bool.
Variable driver : net A (sworld L) -> Z -> Z -> res (err_t * net A (sworld L)).

(** C11: A frame with a datagram, such as [udp_frame_sent] hands to a driver, is taken apart on its
    way up: the receive function of the pcb that [demux] picks is called with the source
    address and port of the sender, and the packet then holds exactly the data that was
    sent. *)
Theorem udp_frame_received (n : net A (sworld L)) p b bl inp nf id src dest ttl tos sport dport data mac_src mac_dst pcb u n1 :
  frame_in n p b bl inp nf -> SIZEOF_ETH_HDR + IP_HLEN + UDP_HLEN <= len b ->
  length mac_src = 6%nat -> length mac_dst = 6%nat -> Z.odd (nth 0 mac_dst 0) = false ->
  for_us nf src dest -> raw_pcbs (raw n) = [] -> udp_ok (udp n) ->
  is_u32 src -> is_u32 dest -> is_u8 tos -> is_u16 id -> is_u8 ttl -> is_u16 sport -> is_u16 dport ->
  cdata (mem n) ((p, b) :: bl) = eth_frame mac_src mac_dst ETHTYPE_IP (udp_packet id src dest ttl tos sport dport data) ->
  demux (inc P_udp c_recv (delivered (unframed n p b) p (moved (- SIZEOF_ETH_HDR) b) inp src dest)) nf src sport dest dport
    (ip4_addr_isbroadcast_u32 dest nf) = Ok (pcb, n1) ->
  pcb <> NULL -> udp_heap (udp n) !! pcb = Some u -> u_recv u <> NULL ->
  exists n', let bl' := (p, moved (- (SIZEOF_ETH_HDR + IP_HLEN + UDP_HLEN)) b) :: bl in
    stack_frame stale_flags custom_free callback_ok driver n p inp
    = (let* n2 := stack_udp_recv custom_free (u_recv u) n' (u_recv_arg u) pcb p src sport in
       Ok (ERR_OK, with_ip_data (mk_globals NULL NULL NULL 0 IPADDR_ANY IPADDR_ANY) n2))
    /\ packet (pbufs (Net.packets n')) p bl' /\ cdata (mem n') bl' = data
    /\ mem n' = mem n /\ Net.world n' = Net.world n.
Proof.
  intros Hfr Hl Hs Hd Hun Hfu Hraw Hok Hs32 Hd32 Htos Hid Httl Hsp Hdp E Hdm Hpcb Hu Hrecv.
  destruct (netif_input_ip stale_flags custom_free callback_ok driver (stack_ip_input stale_flags custom_free callback_ok driver)
    n p b bl inp nf mac_src mac_dst _ Hfr Hs Hd Hun E) as (Ei & Hpk & Hc).
  destruct Hfr as [_ Hne Hty Hf Hm _ Hnf Hinp _].
  destruct (udp_receive_roundtrip stale_flags custom_free callback_ok (link_output stale_flags custom_free callback_ok driver)
    (stack_udp_recv custom_free) app_raw_recv (stack_tcp_input stale_flags custom_free callback_ok driver)
    (unframed n p b) p (moved (- SIZEOF_ETH_HDR) b) bl inp nf id src dest ttl tos sport dport data pcb u n1) as (n' & E' & Hpk' & Hc' & Hm' & Hw'); try done.
  { split; try done; cbn [moved payload len]; unfold SIZEOF_ETH_HDR, IP_HLEN, UDP_HLEN in *; lia. }
  cbv zeta in *. rewrite moved_moved in Hpk', Hc'. unfold SIZEOF_ETH_HDR, IP_HLEN, UDP_HLEN in *.
  change (- (14) + - (20 + 8)) with (-42) in *. change (- (14 + 20 + 8)) with (-42). exists n'. split_and!; try done.
  unfold stack_frame. rewrite Ei. unfold stack_ip_input at 1. rewrite E'.
  destruct (stack_udp_recv _ _ _ _ _ _ _ _) as [n2|]; done.
Qed.
End Receive.
