(* ===== verification/StackExamples.v ===== *)
(** * The stack from frame to frame

    Runs of the whole stack on one Ethernet interface, and the witnesses of the theorems of
    [StackIo]. *)

From S2P Require Import Prelude Def Ip4Addr Timeouts Etharp EtharpOut.
From S2P Require Import InetChksum Mem Memp Pbuf PbufData PbufAlloc PbufOps TcpData Net Ip4 Icmp Reass Igmp Udp Raw Ip4In UdpIo.
From S2P Require Import Netif Dns DnsName DnsMsg TcpBase TcpOut Tcp TcpRecv TcpIn Stack StackIo.

(** ** The environment *)

Definition host_alloc : Type := heap_pools * frag_pool.
Definition host : Type := net host_alloc (sworld (list (list Z))).

Definition host_flags : Z -> Z := fun _ => 0.
Definition host_free : Z -> Z -> Pbuf.state host_alloc -> res (Pbuf.state host_alloc) := frag_custom_free 3.
Definition host_rand (s : Z) : Z * Z := (s * 7 + 1000, s + 1).

(** What happens goes to a log: the frames that are sent, and calls of callbacks. *)
Definition host_log (l : list Z) (n : host) : host :=
  let w := Net.world n in
  Net.with_world (mk_sworld (w_arp_table w) (w_arp_cached w) (w_arp_pool w) (w_arp_stats w) (w_timers w) (w_dns w) (w_callbacks w) (w_app w ++ [l])) n.

Definition host_driver (n : host) (nif p : Z) : res (err_t * host) :=
  let* v := view n p in Ok (ERR_OK, host_log (mjoin (snd <$> v)) n).

#[local] Instance host_tcp : TcpApp host_alloc (sworld (list (list Z))) := {|
  accept_fn f n arg pcb err := Ok (ERR_OK, host_log [1000] n);
  recv_fn f n arg pcb p err := Ok (ERR_OK, n);
  sent_fn f n arg pcb l := Ok (ERR_OK, n);
  connected_fn f n arg pcb err := Ok (ERR_OK, n);
  poll_fn f n arg pcb := Ok (ERR_OK, n);
  err_fn f n arg err := Ok n
|}.

#[local] Instance host_app : StackApp host_alloc (list (list Z)) := {|
  app_udp_recv f n arg pcb p addr port :=
    let* v := view n p in
    let* n := free host_free n p in
    Ok (host_log ([2000; addr; port] ++ mjoin (snd <$> v)) n);
  app_raw_recv f n arg pcb p addr := Ok (0, n);
  app_dns_found f n name addr arg := Ok (host_log ([3000; default 0 addr] ++ name) n);
  app_status f n nif := Ok (host_log [4000; f; nif] n);
  app_link f n nif := Ok (host_log [5000; f; nif] n);
  app_timer f a n := Ok n
|}.

(** 10.0.0.1/24 with the gateway 10.0.0.2. *)
Definition own_mac : list Z := [2; 0; 0; 0; 0; 1].
Definition peer_mac : list Z := [2; 0; 0; 0; 0; 2].
Definition own_ip : Z := 16777226.
Definition peer_ip : Z := 33554442.
Definition host_netif : netif :=
  mk_netif own_ip 16777215 peer_ip (NETIF_FLAG_UP + NETIF_FLAG_LINK_UP + NETIF_FLAG_BROADCAST + NETIF_FLAG_ETHARP + NETIF_FLAG_ETHERNET)
    own_mac 1500 [101; 48] 0 NULL NULL 0.

Definition host_world : sworld (list (list Z)) :=
  mk_sworld (replicate ARP_TABLE_SIZE empty_entry) 0 30 (mk_etharp_stats 0 0 0 0 0 0 0 0)
    (mk_tstate [] 0 false 20 0 tt) (dns_start 100) ∅ [].

Definition host_tcp0 : tcp_globals :=
  mk_tcp_globals ∅ ∅ [] [] [] [] 49152 0 6510 false 0 0 [11; 12; 13] [21; 22] 16 NULL (mk_in (mk_seg 0 0 0 0) 0 0 0 0 0 0 0 0 0 0 0 0).

Definition host0 : host :=
  mk_net (Pbuf.mk_state ∅ ∅ ∅ (hp0, ([], ∅)) false 0) {[1 := host_netif]} [1] 1 0 NULL 7 (mk_globals NULL NULL NULL 0 0 0) [] 10 0
    (mk_udp_globals ∅ [] 49152 [31; 32; 33; 34]) (mk_raw_globals ∅ [] []) host_tcp0 (mk_igmp_globals ∅ 8 Z.of_nat) (fun _ _ => 0) [] host_world.

Definition host_start : res host := lwip_init host0.

(** A frame comes in from the driver. *)
Definition comes_in (bs : list Z) (n : host) : res host :=
  let* (p, n) := alloc_pbuf host_flags host_free true n PBUF_RAW (Z.of_nat (length bs)) PBUF_RAM in
  let* b := Net.pbuf_at n p in
  let n := with_mem (wr (mem n) (payload b) bs) n in
  let* (_, n) := stack_frame host_flags host_free true host_driver n p 1 in Ok n.

(** Time passes, and the timers that are due run. *)
Definition after (ms : Z) (n : host) : res host :=
  let t := w_timers (Net.world n) in
  let t := mk_tstate (next_timeout t) (timeouts_last_time t) (tcpip_tcp_timer_active t) (timeout_pool t) (clock t + ms) tt in
  stack_check_timeouts host_flags host_free true host_driver host_rand 100 1000 (Net.with_world (with_timers t (Net.world n)) n).

Definition look_up (name : String.string) (n : host) : res host :=
  let* (_, _, n) := stack_gethostbyname host_flags host_free true host_driver host_rand 100 n (Some (chars_of_string name)) true 70 0 in Ok n.

Definition logged (r : res host) : option (list (list Z)) := match r with Ok n => Some (w_app (Net.world n)) | Fault _ => None end.

Definition arp_reply : list Z :=
  eth_frame peer_mac own_mac ETHTYPE_ARP
    (hdr_bytes (mk_hdr (PP_HTONS HWTYPE_ETHERNET) (PP_HTONS ETHTYPE_IP) 6 4 (PP_HTONS ARP_REPLY) peer_mac peer_ip own_mac own_ip)).

(** ** Runs *)

Fixpoint waits (k : nat) (n : host) : res host :=
  match k with O => Ok n | S k' => let* n := after 100 n in waits k' n end.

Definition last_entries (k : nat) (r : res host) : option (list (list Z)) := (fun l => drop (length l - k) l) <$> logged r.

(** A name is looked up: the query waits for the answer of the gateway to an ARP request, and
    then leaves to the gateway. *)
Definition asked : res host := let* n := host_start in look_up "ab.cd" n.
Definition query_sent : res host := let* n := asked in comes_in arp_reply n.

Definition ab_labels : list (list Z) := [chars_of_string "ab"; chars_of_string "cd"].
Definition dns_query : list Z := query_hdr 1707 ++ dns_name ab_labels ++ query_qry.
Definition dns_response : list Z :=
  response_hdr 1707 128 0 1 [0; 0; 0; 0] ++ dns_name ab_labels ++ query_qry ++ rr_bytes (mk_rr [192; 12] 1 1 300 [1; 2; 3; 4]).

(** The application is told when the interface goes down and comes up again, by the functions it
    has set; when it comes up the host announces its address. *)
Definition down_and_up : res host :=
  let n := netif_set_link_callback (netif_set_status_callback host0 1 60) 1 61 in
  let* n := stack_set_down host_flags host_free true host_driver n 1 in
  let* n := stack_set_link_down n 1 in
  let* n := stack_set_up host_flags host_free true host_driver n 1 in
  stack_set_link_up host_flags host_free true host_driver n 1.

Example stack_callbacks :
  logged down_and_up = Some [[4000; 60; 1]; [5000; 61; 1]; [4000; 60; 1];
    eth_frame own_mac ethbroadcast ETHTYPE_ARP
      (hdr_bytes (mk_hdr (PP_HTONS HWTYPE_ETHERNET) (PP_HTONS ETHTYPE_IP) 6 4 (PP_HTONS ARP_REQUEST) own_mac own_ip ethzero own_ip));
    [5000; 61; 1]].
Proof. by vm_compute. Qed.

Example stack_arp_request :
  logged asked = Some [eth_frame own_mac ethbroadcast ETHTYPE_ARP
    (hdr_bytes (mk_hdr (PP_HTONS HWTYPE_ETHERNET) (PP_HTONS ETHTYPE_IP) 6 4 (PP_HTONS ARP_REQUEST) own_mac own_ip ethzero peer_ip))].
Proof. vm_compute. reflexivity. Qed.

Example stack_query_sent :
  last_entries 1 query_sent = Some [eth_frame own_mac peer_mac ETHTYPE_IP (udp_packet 7 own_ip DNS_SERVER_ADDRESS 255 0 1700 53 dns_query)].
Proof. vm_compute. reflexivity. Qed.

(** The response comes in a frame, and the callback gets the address. *)
Example stack_name_resolved :
  last_entries 1 (let* n := query_sent in
    comes_in (eth_frame peer_mac own_mac ETHTYPE_IP (udp_packet 5 DNS_SERVER_ADDRESS own_ip 64 0 53 1700 dns_response)) n)
  = Some [[3000; le_val [1; 2; 3; 4]] ++ chars_of_string "ab.cd"].
Proof. vm_compute. reflexivity. Qed.

(** Without a response the timers of the stack repeat the query and then report a failure. *)
Example stack_name_times_out :
  last_entries 2 (let* n := query_sent in waits 75 n)
  = Some [eth_frame own_mac peer_mac ETHTYPE_IP (udp_packet 10 own_ip DNS_SERVER_ADDRESS 255 0 1700 53 dns_query);
          [3000; 0] ++ chars_of_string "ab.cd"].
Proof. vm_compute. reflexivity. Qed.

(** An ARP request for our address is answered. *)
Example stack_arp_answered :
  last_entries 1 (let* n := host_start in
    comes_in (eth_frame peer_mac ethbroadcast ETHTYPE_ARP
      (hdr_bytes (mk_hdr (PP_HTONS HWTYPE_ETHERNET) (PP_HTONS ETHTYPE_IP) 6 4 (PP_HTONS ARP_REQUEST) peer_mac peer_ip ethzero own_ip))) n)
  = Some [eth_frame own_mac peer_mac ETHTYPE_ARP
      (hdr_bytes (mk_hdr (PP_HTONS HWTYPE_ETHERNET) (PP_HTONS ETHTYPE_IP) 6 4 (PP_HTONS ARP_REPLY) own_mac own_ip peer_mac peer_ip))].
Proof. vm_compute. reflexivity. Qed.

(** A SYN to a listening port is answered with SYN and ACK. *)
Definition tcp_segment (src dst sport dport seqno ackno flags : Z) : list Z :=
  let z := le_bytes 2 (lwip_htons sport) ++ le_bytes 2 (lwip_htons dport) ++ le_bytes 4 (lwip_htonl seqno) ++ le_bytes 4 (lwip_htonl ackno)
           ++ [80; flags; 16; 0; 0; 0; 0; 0] in
  take 16 z ++ le_bytes 2 (ip_chksum_pseudo [(0, z)] IP_PROTO_TCP 20 src dst) ++ drop 18 z.
Definition tcp_packet (src dst sport dport seqno ackno flags : Z) : list Z :=
  ip_header 5 0 40 3 0 64 IP_PROTO_TCP src dst [] ++ tcp_segment src dst sport dport seqno ackno flags.

Definition listening : res host :=
  let* n := query_sent in
  let* (pcb, n) := tcp_alloc host_flags host_free true (link_output host_flags host_free true host_driver) n TCP_PRIO_NORMAL in
  let* (_, n) := tcp_bind stack_tcp_timer_needed n pcb None 80 in
  let* (_, _, n) := tcp_listen_with_backlog_and_err stack_tcp_timer_needed n pcb 255 in Ok n.
Definition syn_received : res host :=
  let* n := listening in comes_in (eth_frame peer_mac own_mac ETHTYPE_IP (tcp_packet peer_ip own_ip 4000 80 100 0 TCP_SYN)) n.

Example stack_syn_answered :
  last_entries 1 syn_received = Some [eth_frame own_mac peer_mac ETHTYPE_IP
    (ip_header 5 0 44 8 0 255 IP_PROTO_TCP own_ip peer_ip []
     ++ [0; 80; 15; 160; 0; 0; 25; 110; 0; 0; 0; 101; 96; 18; 31; 160; 60; 101; 0; 0; 2; 4; 4; 0])].
Proof. vm_compute. reflexivity. Qed.

(** ** The theorems on concrete inputs *)

(** The peer is in the ARP table, and a pbuf with eight bytes waits to be sent. *)
Definition peer_entry : etharp_entry := mk_entry [] peer_ip 1 peer_mac 3 ETHARP_STATE_STABLE.
Definition known_world : sworld (list (list Z)) :=
  with_arp_world (peer_entry :: replicate 9 empty_entry) 0 30 (mk_etharp_stats 0 0 0 0 0 0 0 0) host_world.
Definition sending_host : host :=
  with_udp udp_ex (Net.with_world known_world
    (Net.with_packets (Pbuf.mk_state {[1000 := ex_pbuf]} (wr ∅ 1100 [1; 2; 3; 4; 5; 6; 7; 8]) ∅ (hp0, ([], ∅)) false 0) host0)).

Lemma known_table_ok : arp_inv 30 (arp_of sending_host).
Proof.
  split; [split|].
  - reflexivity.
  - constructor; [by split|]. apply Forall_replicate. by split.
  - assert (Hrest : forall (k : nat) x, replicate 9 empty_entry !! k = Some x -> ~ Etharp.nonempty x).
    { intros k x Hk Hn. apply lookup_replicate in Hk as [-> _]. by apply Hn. }
    intros [|i] [|j] e e' He He' Hn Hn' E; [done| | |]; exfalso.
    + exact (Hrest j e' He' Hn').
    + exact (Hrest i e He Hn).
    + exact (Hrest i e He Hn).
  - split; [reflexivity|]. vm_compute. split; done.
Qed.

Lemma peer_resolved : resolved sending_host host_netif peer_ip peer_mac.
Proof.
  split; [by exists 30%nat; apply known_table_ok| |done|done].
  exists peer_ip, peer_entry. split_and!; [vm_compute; split_and!; reflexivity| |reflexivity].
  exists 0%nat. split_and!; [reflexivity..|]. intros _. cbn. unfold ARP_AGE_REREQUEST_USED_UNICAST, ARP_MAXAGE. lia.
Qed.

Lemma udp_frame_sent_witness :
  exists n' s, udp_sendto_if_src host_flags host_free true (link_output host_flags host_free true host_driver) sending_host 1 1000
      (Some peer_ip) 1000 1 own_ip
    = (let* (err, n2) := host_driver n' 1 1000 in Ok (err, inc P_udp c_xmit (of_arp (Etharp.with_packets n2 s))))
    /\ cdata (mem n') [(1000, moved 42 ex_pbuf)]
       = eth_frame own_mac peer_mac ETHTYPE_IP (udp_packet 7 own_ip peer_ip 255 0 7 1000 [1; 2; 3; 4; 5; 6; 7; 8]).
Proof.
  destruct (udp_frame_sent host_flags host_free true host_driver sending_host 1 ex_pcb 1000 ex_pbuf []
    own_ip peer_ip 1000 1 host_netif peer_mac) as (n' & s & E & _ & _ & _ & Hd & _).
  - vm_compute. reflexivity.
  - done.
  - vm_compute. done.
  - done.
  - destruct (ex_room 42) as [H1 H2 H3 H4 H5 H6]; [lia|]. by split.
  - done.
  - split_and!; try done. exact ex_mem_ok.
  - vm_compute. reflexivity.
  - done.
  - vm_compute. reflexivity.
  - done.
  - exact peer_resolved.
  - right. vm_compute. done.
  - exists n', s. split; [exact E|]. refine (eq_trans Hd _). vm_compute. reflexivity.
Defined.

(** The peer sends a datagram to the pcb, whose receive function writes to the log. *)
Definition rx_frame : list Z := eth_frame peer_mac own_mac ETHTYPE_IP (udp_packet 7 peer_ip own_ip 255 0 1000 7 [1; 2; 3; 4]).
Definition frame_pbuf : pbuf := mk_pbuf NULL 1100 46 46 PBUF_POOL 0 1.
Definition receiving_host : host :=
  with_udp rx_udp (Net.with_packets (Pbuf.mk_state {[1000 := frame_pbuf]} (wr ∅ 1100 rx_frame) ∅ (hp0, ([], ∅)) false 0) host0).

Lemma rx_frame_in : frame_in receiving_host 1000 frame_pbuf [] 1 host_netif.
Proof.
  split; try done; [by right|].
  apply mem_ok_list. apply (bool_decide_unpack (bytes_ok rx_frame)). vm_compute. reflexivity.
Qed.

Lemma udp_frame_received_witness :
  exists n', stack_frame host_flags host_free true host_driver receiving_host 1000 1
    = (let* n2 := stack_udp_recv host_free 99 n' 0 1 1000 peer_ip 1000 in
       Ok (ERR_OK, with_ip_data (mk_globals NULL NULL NULL 0 IPADDR_ANY IPADDR_ANY) n2))
    /\ cdata (mem n') [(1000, moved (-42) frame_pbuf)] = [1; 2; 3; 4].
Proof.
  destruct (udp_frame_received host_flags host_free true host_driver receiving_host 1000 frame_pbuf [] 1 host_netif 7 peer_ip own_ip
    255 0 1000 7 [1; 2; 3; 4] peer_mac own_mac 1 (with_recv 99 0 ex_pcb)
    (inc P_udp c_recv (delivered (unframed receiving_host 1000 frame_pbuf) 1000 (moved (-14) frame_pbuf) 1 peer_ip own_ip)))
    as (n' & E & _ & Hd & _).
  - exact rx_frame_in.
  - done.
  - done.
  - done.
  - done.
  - done.
  - done.
  - eapply udp_ok_same; [exact udp_ex_ok|vm_compute; reflexivity|done|done].
  - done.
  - done.
  - done.
  - done.
  - done.
  - done.
  - done.
  - vm_compute. reflexivity.
  - vm_compute. reflexivity.
  - done.
  - vm_compute. reflexivity.
  - done.
  - exists n'. split; [exact E|exact Hd].
Defined.
