(* ===== verification/Mqtt.v ===== *)
(** * The MQTT client: lwip/src/apps/mqtt/mqtt.c

    A client of MQTT 3.1.1 over one TCP connection.  Messages are written to a ring buffer and
    sent from there; requests wait in a queue for their acknowledgement, with the differences
    of their timeouts; incoming data is collected in a buffer of 128 bytes, message by message.
    The connection is the interface [MqttTcp], the callbacks of the application are [MqttApp];
    they are given the client, too, because they may call it.  [mqtt_client_demo] and what only
    it calls are an example and left out. *)

From S2P Require Import Prelude TcpData.

(** ** Data *)

Definition MQTT_OUTPUT_RINGBUF_SIZE : Z := 256.
Definition MQTT_VAR_HEADER_BUFFER_LEN : Z := 128.
Definition MQTT_REQ_MAX_IN_FLIGHT : nat := 4.
Definition MQTT_CYCLIC_TIMER_INTERVAL : Z := 5.
Definition MQTT_REQ_TIMEOUT : Z := 30.
Definition MQTT_CONNECT_TIMOUT : Z := 100.

Inductive mqtt_conn_state := TCP_DISCONNECTED | TCP_CONNECTING | MQTT_CONNECTING | MQTT_CONNECTED.

#[global] Instance mqtt_conn_state_eq_dec : EqDecision mqtt_conn_state.
Proof. solve_decision. Defined.

Definition MQTT_MSG_TYPE_CONNECT : Z := 1.
Definition MQTT_MSG_TYPE_CONNACK : Z := 2.
Definition MQTT_MSG_TYPE_PUBLISH : Z := 3.
Definition MQTT_MSG_TYPE_PUBACK : Z := 4.
Definition MQTT_MSG_TYPE_PUBREC : Z := 5.
Definition MQTT_MSG_TYPE_PUBREL : Z := 6.
Definition MQTT_MSG_TYPE_PUBCOMP : Z := 7.
Definition MQTT_MSG_TYPE_SUBSCRIBE : Z := 8.
Definition MQTT_MSG_TYPE_SUBACK : Z := 9.
Definition MQTT_MSG_TYPE_UNSUBSCRIBE : Z := 10.
Definition MQTT_MSG_TYPE_UNSUBACK : Z := 11.
Definition MQTT_MSG_TYPE_PINGREQ : Z := 12.
Definition MQTT_MSG_TYPE_PINGRESP : Z := 13.

Definition MQTT_CTL_PACKET_TYPE (b : Z) : Z := Z.shiftr (Z.land b 240) 4.
Definition MQTT_CTL_PACKET_QOS (b : Z) : Z := Z.shiftr (Z.land b 6) 1.

Definition MQTT_CONNECT_FLAG_WILL_RETAIN : Z := 32.
Definition MQTT_CONNECT_FLAG_WILL : Z := 4.
Definition MQTT_CONNECT_FLAG_CLEAN_SESSION : Z := 2.

(** [mqtt_connection_status_t]. *)
Definition MQTT_CONNECT_ACCEPTED : Z := 0.
Definition MQTT_CONNECT_DISCONNECTED : Z := 256.
Definition MQTT_CONNECT_TIMEOUT : Z := 257.

Definition MQTT_DATA_FLAG_LAST : Z := 1.

(** A pointer to a request is its place in [req_list]; a request that is not in use points to
    itself. *)
Record mqtt_request := mk_req { r_next : option nat; r_cb : Z; r_arg : Z; r_pkt_id : Z; r_timeout_diff : Z }.

Definition with_r_next (v : option nat) (r : mqtt_request) : mqtt_request := mk_req v (r_cb r) (r_arg r) (r_pkt_id r) (r_timeout_diff r).
Definition with_r_timeout (v : Z) (r : mqtt_request) : mqtt_request := mk_req (r_next r) (r_cb r) (r_arg r) (r_pkt_id r) v.

Record mqtt_ringbuf := mk_ringbuf { rb_put : Z; rb_get : Z; rb_buf : list Z }.

Record mqtt_client := mk_client {
  cyclic_tick : Z; keep_alive : Z; server_watchdog : Z; pkt_id_seq : Z; inpub_pkt_id : Z; conn_state : mqtt_conn_state;
  conn : Z; connect_arg : Z; connect_cb : Z; pend_req_queue : option nat; req_list : list mqtt_request;
  inpub_arg : Z; data_cb : Z; pub_cb : Z; msg_idx : Z; rx_buffer : list Z; output : mqtt_ringbuf
}.

Definition eta_client (t : mqtt_client) : mqtt_client :=
  mk_client (cyclic_tick t) (keep_alive t) (server_watchdog t) (pkt_id_seq t) (inpub_pkt_id t) (conn_state t) (conn t)
    (connect_arg t) (connect_cb t) (pend_req_queue t) (req_list t) (inpub_arg t) (data_cb t) (pub_cb t) (msg_idx t) (rx_buffer t) (output t).

Definition set_cyclic_tick (v : Z) (t : mqtt_client) : mqtt_client := ltac:(set_field eta_client cyclic_tick v t).
Definition set_server_watchdog (v : Z) (t : mqtt_client) : mqtt_client := ltac:(set_field eta_client server_watchdog v t).
Definition set_pkt_id_seq (v : Z) (t : mqtt_client) : mqtt_client := ltac:(set_field eta_client pkt_id_seq v t).
Definition set_inpub_pkt_id (v : Z) (t : mqtt_client) : mqtt_client := ltac:(set_field eta_client inpub_pkt_id v t).
Definition set_conn_state (v : mqtt_conn_state) (t : mqtt_client) : mqtt_client := ltac:(set_field eta_client conn_state v t).
Definition set_conn (v : Z) (t : mqtt_client) : mqtt_client := ltac:(set_field eta_client conn v t).
Definition set_pend_req_queue (v : option nat) (t : mqtt_client) : mqtt_client := ltac:(set_field eta_client pend_req_queue v t).
Definition set_req_list (v : list mqtt_request) (t : mqtt_client) : mqtt_client := ltac:(set_field eta_client req_list v t).
Definition set_msg_idx (v : Z) (t : mqtt_client) : mqtt_client := ltac:(set_field eta_client msg_idx v t).
Definition set_rx_buffer (v : list Z) (t : mqtt_client) : mqtt_client := ltac:(set_field eta_client rx_buffer v t).
Definition set_output (v : mqtt_ringbuf) (t : mqtt_client) : mqtt_client := ltac:(set_field eta_client output v t).

(** [memset(client, 0, sizeof(mqtt_client_t))]. *)
Definition client_zero : mqtt_client :=
  mk_client 0 0 0 0 0 TCP_DISCONNECTED NULL NULL NULL None (replicate MQTT_REQ_MAX_IN_FLIGHT (mk_req None NULL NULL 0 0))
    NULL NULL NULL 0 (replicate 128 0) (mk_ringbuf 0 0 (replicate 256 0)).

(** [struct mqtt_connect_client_info_t]; strings without their NUL, absent ones are NULL.  The
    user name and the password are not used by the code. *)
Record mqtt_connect_client_info := mk_info {
  client_id : list Z; client_user : option (list Z); client_pass : option (list Z); ci_keep_alive : Z;
  will_topic : option (list Z); will_msg : option (list Z); will_qos : Z; will_retain : Z
}.

(** ** The environment *)

(** The client and the rest of the system. *)
Record mq (S : Type) := mk_mq { cl : mqtt_client; env : S }.
Arguments mk_mq {S} _ _.
Arguments cl {S} _.
Arguments env {S} _.

(** TCP, timeouts and pbufs, as the client uses them.  [tcp_write] copies its data, so that it is
    given the bytes; the callbacks of a connection are those of the client ([true]) or NULL.  The
    timer is [mqtt_cyclic_timer] for this client.  The pbuf of received data belongs to the client until it is freed. *)
Class MqttTcp (S : Type) := {
  tcp_sndbuf : S -> Z -> res Z;
  tcp_write : S -> Z -> list Z -> Z -> res (err_t * S);
  tcp_output : S -> Z -> res S;
  tcp_recv : S -> Z -> bool -> res S;
  tcp_err : S -> Z -> bool -> res S;
  tcp_sent : S -> Z -> bool -> res S;
  tcp_poll : S -> Z -> Z -> res S;
  tcp_close : S -> Z -> res (err_t * S);
  tcp_abort : S -> Z -> res S;
  tcp_new : S -> res (Z * S);
  tcp_arg : S -> Z -> res S;
  tcp_bind : S -> Z -> res (err_t * S);
  tcp_connect : S -> Z -> Z -> Z -> res (err_t * S);
  tcp_recved : S -> Z -> Z -> res S;
  start_timer : S -> res S;
  stop_timer : S -> res S;
  pbuf_data : S -> Z -> res (list Z);
  pbuf_free : S -> Z -> res S;
  malloc_client : S -> res (bool * S)
}.

Class MqttApp (S : Type) := {
  connect_fn : Z -> mq S -> Z -> Z -> res (mq S);
  request_fn : Z -> mq S -> Z -> err_t -> res (mq S);
  publish_fn : Z -> mq S -> Z -> list Z -> Z -> res (mq S);
  data_fn : Z -> mq S -> Z -> list Z -> Z -> res (mq S)
}.

(** ** Output *)

Definition MQTT_RINGBUF_IDX_MASK : Z := MQTT_OUTPUT_RINGBUF_SIZE - 1.

Definition mqtt_ringbuf_put (rb : mqtt_ringbuf) (item : Z) : mqtt_ringbuf :=
  mk_ringbuf (u16 (rb_put rb + 1)) (rb_get rb) (<[Z.to_nat (Z.land (rb_put rb) MQTT_RINGBUF_IDX_MASK) := u8 item]> (rb_buf rb)).
Definition mqtt_ringbuf_len (rb : mqtt_ringbuf) : Z := u16 (rb_put rb - rb_get rb).
Definition mqtt_ringbuf_free (rb : mqtt_ringbuf) : Z := MQTT_OUTPUT_RINGBUF_SIZE - mqtt_ringbuf_len rb.
Definition mqtt_ringbuf_linear_read_length (rb : mqtt_ringbuf) : Z :=
  Z.min (mqtt_ringbuf_len rb) (MQTT_OUTPUT_RINGBUF_SIZE - Z.land (rb_get rb) MQTT_RINGBUF_IDX_MASK).
(** The bytes at [mqtt_ringbuf_get_ptr]. *)
Definition mqtt_ringbuf_get_ptr (rb : mqtt_ringbuf) : list Z := drop (Z.to_nat (Z.land (rb_get rb) MQTT_RINGBUF_IDX_MASK)) (rb_buf rb).
Definition mqtt_ringbuf_advance_get_idx (rb : mqtt_ringbuf) (len : Z) : mqtt_ringbuf := mk_ringbuf (rb_put rb) (u16 (rb_get rb + len)) (rb_buf rb).

Definition mqtt_output_append_u8 (rb : mqtt_ringbuf) (value : Z) : mqtt_ringbuf := mqtt_ringbuf_put rb value.
Definition mqtt_output_append_u16 (rb : mqtt_ringbuf) (value : Z) : mqtt_ringbuf :=
  mqtt_ringbuf_put (mqtt_ringbuf_put rb (Z.shiftr value 8)) (Z.land value 255).
(** [data] holds [length] bytes. *)
Definition mqtt_output_append_buf (rb : mqtt_ringbuf) (data : list Z) : mqtt_ringbuf := foldl mqtt_ringbuf_put rb data.
Definition mqtt_output_append_string (rb : mqtt_ringbuf) (str : list Z) (length : Z) : mqtt_ringbuf :=
  let rb := mqtt_ringbuf_put rb (Z.shiftr length 8) in
  let rb := mqtt_ringbuf_put rb (Z.land length 255) in
  foldl mqtt_ringbuf_put rb str.

(** [do ... while (r_length > 0)]; a 16-bit number has three digits to the base 128. *)
Fixpoint append_length (fuel : nat) (rb : mqtt_ringbuf) (r_length : Z) : res mqtt_ringbuf :=
  match fuel with
  | O => Fault FFuel
  | S fuel' =>
      let rb := mqtt_output_append_u8 rb (Z.lor (Z.land r_length 127) (if 128 <=? r_length then 128 else 0)) in
      let r_length := Z.shiftr r_length 7 in
      if 0 <? r_length then append_length fuel' rb r_length else Ok rb
  end.

Definition mqtt_output_append_fixed_header (rb : mqtt_ringbuf) (msg_type dup qos retain r_length : Z) : res mqtt_ringbuf :=
  let b := Z.lor (Z.lor (Z.lor (Z.shiftl (Z.land msg_type 15) 4) (Z.shiftl (Z.land dup 1) 3)) (Z.shiftl (Z.land qos 3) 1)) (Z.land retain 1) in
  append_length 3 (mqtt_output_append_u8 rb b) r_length.

Fixpoint count_length (fuel : nat) (total_len r_length : Z) : res Z :=
  match fuel with
  | O => Fault FFuel
  | S fuel' =>
      let total_len := u16 (total_len + 1) in
      let r_length := Z.shiftr r_length 7 in
      if 0 <? r_length then count_length fuel' total_len r_length else Ok total_len
  end.

(** The sum is kept in 16 bits. *)
Definition mqtt_output_check_space (rb : mqtt_ringbuf) (r_length : Z) : res bool :=
  let* total_len := count_length 3 (u16 (1 + r_length)) r_length in Ok (total_len <=? mqtt_ringbuf_free rb).

(** ** Requests *)

Section Requests.
Implicit Types l : list mqtt_request.

Definition req_at l (k : nat) : res mqtt_request := match l !! k with Some r => Ok r | None => Fault FBadAccess end.
Definition upd_request l (k : nat) (f : mqtt_request -> mqtt_request) : res (list mqtt_request) :=
  let* r := req_at l k in Ok (<[k := f r]> l).

(** The first request that is not in use. *)
Fixpoint create_loop (n : nat) (fuel : nat) l (pkt_id cb arg : Z) : res (option nat * list mqtt_request) :=
  match fuel with
  | O => Ok (None, l)
  | S fuel' =>
      let* r := req_at l n in
      if bool_decide (r_next r = Some n) then Ok (Some n, <[n := mk_req None cb arg pkt_id (r_timeout_diff r)]> l)
      else create_loop (n + 1) fuel' l pkt_id cb arg
  end.
Definition mqtt_create_request l (pkt_id cb arg : Z) : res (option nat * list mqtt_request) :=
  create_loop 0 MQTT_REQ_MAX_IN_FLIGHT l pkt_id cb arg.

(** The last request of the queue, and the time before it expires. *)
Fixpoint append_loop (fuel : nat) l (iter head : option nat) (time_before : Z) : res (option nat * Z) :=
  match fuel with
  | O => Fault FFuel
  | S fuel' =>
      match iter with
      | None => Ok (head, time_before)
      | Some k => let* r := req_at l k in append_loop fuel' l (r_next r) (Some k) (s16 (time_before + r_timeout_diff r))
      end
  end.

Definition req_fuel : nat := S MQTT_REQ_MAX_IN_FLIGHT.

Definition mqtt_append_request l (tail : option nat) (r : nat) : res (option nat * list mqtt_request) :=
  let* (head, time_before) := append_loop req_fuel l tail None 0 in
  assert* (time_before <=? MQTT_REQ_TIMEOUT) in
  let* l := upd_request l r (with_r_timeout (u16 (MQTT_REQ_TIMEOUT - time_before))) in
  match head with
  | None => Ok (Some r, l)
  | Some h => let* l := upd_request l h (with_r_next (Some r)) in Ok (tail, l)
  end.

Definition mqtt_delete_request l (r : nat) : res (list mqtt_request) := upd_request l r (with_r_next (Some r)).

Fixpoint take_req_loop (fuel : nat) l (iter prev : option nat) (pkt_id : Z) : res (option nat * option nat) :=
  match fuel with
  | O => Fault FFuel
  | S fuel' =>
      match iter with
      | None => Ok (None, prev)
      | Some k => let* r := req_at l k in if r_pkt_id r =? pkt_id then Ok (Some k, prev) else take_req_loop fuel' l (r_next r) (Some k) pkt_id
      end
  end.

(** The request with this packet identifier, taken out of the queue. *)
Definition mqtt_take_request l (tail : option nat) (pkt_id : Z) : res (option nat * option nat * list mqtt_request) :=
  let* (iter, prev) := take_req_loop req_fuel l tail None pkt_id in
  match iter with
  | None => Ok (None, tail, l)
  | Some k =>
      let* r := req_at l k in
      let* (tail, l) := match prev with
                        | None => Ok (r_next r, l)
                        | Some h => let* l := upd_request l h (with_r_next (r_next r)) in Ok (tail, l)
                        end in
      let* l := match r_next r with
                | None => Ok l
                | Some j => upd_request l j (fun x => with_r_timeout (u16 (r_timeout_diff x + r_timeout_diff r)) x)
                end in
      let* l := upd_request l k (with_r_next None) in
      Ok (Some k, tail, l)
  end.

Fixpoint clear_loop (fuel : nat) l (iter : option nat) : res (list mqtt_request) :=
  match fuel with
  | O => Fault FFuel
  | S fuel' =>
      match iter with
      | None => Ok l
      | Some k => let* r := req_at l k in let* l := mqtt_delete_request l k in clear_loop fuel' l (r_next r)
      end
  end.
Definition mqtt_clear_requests l (tail : option nat) : res (option nat * list mqtt_request) :=
  let* l := clear_loop req_fuel l tail in Ok (None, l).

(** Every request of [req_list] points to itself. *)
Definition mqtt_init_requests l : list mqtt_request := imap (fun k r => with_r_next (Some k) r) l.

End Requests.

(** ** The client *)

Section Client.
Context {S : Type} `{MqttTcp S} `{MqttApp S}.
Implicit Types m : mq S.

Definition upd_cl (f : mqtt_client -> mqtt_client) m : mq S := mk_mq (f (cl m)) (env m).
Definition with_env (s : S) m : mq S := mk_mq (cl m) s.

Definition msg_generate_packet_id m : Z * mq S :=
  let k := u16 (pkt_id_seq (cl m) + 1) in
  let k := if k =? 0 then u16 (k + 1) else k in
  (k, upd_cl (set_pkt_id_seq k) m).

(** *** Sending *)

(** As much of the ring buffer as the connection takes; a second write when it wraps around. *)
Definition mqtt_output_send m (tpcb : Z) : res (mq S) :=
  let rb := output (cl m) in
  let ringbuf_lin_len := mqtt_ringbuf_linear_read_length rb in
  let* send_len := tcp_sndbuf (env m) tpcb in
  assert* negb (tpcb =? NULL) in
  if (send_len =? 0) || (ringbuf_lin_len =? 0) then Ok m
  else
    let '(send_len, wrap) :=
      if ringbuf_lin_len <? send_len then (ringbuf_lin_len, ringbuf_lin_len <? mqtt_ringbuf_len rb) else (send_len, false) in
    let* (err, s) := tcp_write (env m) tpcb (take (Z.to_nat send_len) (mqtt_ringbuf_get_ptr rb))
                       (Z.lor TCP_WRITE_FLAG_COPY (if wrap then TCP_WRITE_FLAG_MORE else 0)) in
    let* (err, send_len, rb, s) :=
      if bool_decide (err = ERR_OK) && wrap then
        let rb := mqtt_ringbuf_advance_get_idx rb send_len in
        let* sb := tcp_sndbuf s tpcb in
        let send_len := Z.min sb (mqtt_ringbuf_linear_read_length rb) in
        let* (err, s) := tcp_write s tpcb (take (Z.to_nat send_len) (mqtt_ringbuf_get_ptr rb)) TCP_WRITE_FLAG_COPY in
        Ok (err, send_len, rb, s)
      else Ok (err, send_len, rb, s) in
    if bool_decide (err = ERR_OK) then
      let* s := tcp_output s tpcb in
      Ok (mk_mq (set_output (mqtt_ringbuf_advance_get_idx rb send_len) (cl m)) s)
    else Ok (mk_mq (set_output rb (cl m)) s).

(** *** Timeouts of requests *)

(** The callback is called when the request is out of the queue, and may change the queue. *)
Fixpoint mqtt_request_time_elapsed (fuel : nat) m (t : Z) : res (mq S) :=
  match fuel with
  | O => Fault FFuel
  | Datatypes.S fuel' =>
      match pend_req_queue (cl m) with
      | Some k =>
          if 0 <? t then
            let* r := req_at (req_list (cl m)) k in
            if r_timeout_diff r <=? t then
              let m := upd_cl (set_pend_req_queue (r_next r)) m in
              let* m := if negb (r_cb r =? NULL) then request_fn (r_cb r) m (r_arg r) ERR_TIMEOUT else Ok m in
              let* l := mqtt_delete_request (req_list (cl m)) k in
              mqtt_request_time_elapsed fuel' (upd_cl (set_req_list l) m) (u8 (t - u8 (r_timeout_diff r)))
            else
              let* l := upd_request (req_list (cl m)) k (fun r => with_r_timeout (u16 (r_timeout_diff r - t)) r) in
              Ok (upd_cl (set_req_list l) m)
          else Ok m
      | None => Ok m
      end
  end.

(** *** Closing and the timer *)

Definition mqtt_close m (reason : Z) : res (mq S) :=
  let* m :=
    if negb (conn (cl m) =? NULL) then
      let pcb := conn (cl m) in
      let* s := tcp_recv (env m) pcb false in
      let* s := tcp_err s pcb false in
      let* s := tcp_sent s pcb false in
      let* (e, s) := tcp_close s pcb in
      let* s := if negb (bool_decide (e = ERR_OK)) then tcp_abort s pcb else Ok s in
      Ok (mk_mq (set_conn NULL (cl m)) s)
    else Ok m in
  let* (q, l) := mqtt_clear_requests (req_list (cl m)) (pend_req_queue (cl m)) in
  let m := upd_cl (fun c => set_pend_req_queue q (set_req_list l c)) m in
  let* s := stop_timer (env m) in
  let m := with_env s m in
  if negb (bool_decide (conn_state (cl m) = TCP_DISCONNECTED)) then
    let m := upd_cl (set_conn_state TCP_DISCONNECTED) m in
    if negb (connect_cb (cl m) =? NULL) then connect_fn (connect_cb (cl m)) m (connect_arg (cl m)) reason else Ok m
  else Ok m.

(** PINGREQ, when nothing has been sent for the time of the keep-alive. *)
Definition timer_ping m : res (mq S) :=
  if keep_alive (cl m) <=? cyclic_tick (cl m) * MQTT_CYCLIC_TIMER_INTERVAL then
    let* space := mqtt_output_check_space (output (cl m)) 0 in
    if (space : bool) then
      let* rb := mqtt_output_append_fixed_header (output (cl m)) MQTT_MSG_TYPE_PINGREQ 0 0 0 0 in
      Ok (upd_cl (fun c => set_cyclic_tick 0 (set_output rb c)) m)
    else Ok m
  else Ok (upd_cl (fun c => set_cyclic_tick (u16 (cyclic_tick c + 1)) c) m).

Definition mqtt_cyclic_timer (fuel : nat) m : res (mq S) :=
  let* (restart_timer, m) :=
    match conn_state (cl m) with
    | MQTT_CONNECTING =>
        let m := upd_cl (fun c => set_cyclic_tick (u16 (cyclic_tick c + 1)) c) m in
        if MQTT_CONNECT_TIMOUT <=? cyclic_tick (cl m) * MQTT_CYCLIC_TIMER_INTERVAL then
          let* m := mqtt_close m MQTT_CONNECT_TIMEOUT in Ok (false, m)
        else Ok (true, m)
    | MQTT_CONNECTED =>
        let* m := mqtt_request_time_elapsed fuel m MQTT_CYCLIC_TIMER_INTERVAL in
        if 0 <? keep_alive (cl m) then
          let m := upd_cl (fun c => set_server_watchdog (u16 (server_watchdog c + 1)) c) m in
          let* (restart, m) :=
            if keep_alive (cl m) + keep_alive (cl m) / 2 <? server_watchdog (cl m) * MQTT_CYCLIC_TIMER_INTERVAL
            then let* m := mqtt_close m MQTT_CONNECT_TIMEOUT in Ok (false, m) else Ok (true, m) in
          let* m := timer_ping m in
          Ok (restart, m)
        else Ok (true, m)
    | _ => Ok (false, m)
    end in
  if (restart_timer : bool) then let* s := start_timer (env m) in Ok (with_env s m) else Ok m.

(** *** Receiving *)

Definition pub_ack_rec_rel_response m (msg pkt_id qos : Z) : res (err_t * mq S) :=
  let* space := mqtt_output_check_space (output (cl m)) 2 in
  if (space : bool) then
    let* rb := mqtt_output_append_fixed_header (output (cl m)) msg 0 qos 0 2 in
    let m := upd_cl (set_output (mqtt_output_append_u16 rb pkt_id)) m in
    let* m := mqtt_output_send m (conn (cl m)) in
    Ok (ERR_OK, m)
  else Ok (ERR_MEM, m).

Definition mqtt_incomming_suback m (r : mqtt_request) (result : Z) : res (mq S) :=
  if negb (r_cb r =? NULL) then request_fn (r_cb r) m (r_arg r) (if result <? 3 then ERR_OK else ERR_ABRT) else Ok m.

(** [client->rx_buffer[k]]. *)
Definition rx_at m (k : Z) : res Z := match rx_buffer (cl m) !! Z.to_nat k with Some b => Ok b | None => Fault FBadAccess end.
Definition rx_set m (k v : Z) : res (mq S) :=
  if k <? Z.of_nat (length (rx_buffer (cl m))) then Ok (upd_cl (fun c => set_rx_buffer (<[Z.to_nat k := u8 v]> (rx_buffer c)) c) m)
  else Fault FBadAccess.
(** [len] bytes from [client->rx_buffer + k] on, which a callback reads. *)
Definition rx_slice m (k len : Z) : res (list Z) :=
  if k + len <=? Z.of_nat (length (rx_buffer (cl m))) then Ok (take (Z.to_nat len) (drop (Z.to_nat k) (rx_buffer (cl m))))
  else Fault FBadAccess.

(** The variable header of a PUBLISH: [None] for a topic that is too long, or the offset and length
    of the data.  The test is [(after_topic + qos ? 2 : 1) > length]: the sum is the condition. *)
Definition publish_header m (v length remaining_length qos : Z) : res (option (Z * Z) * mq S) :=
  let* hi := rx_at m v in
  let* lo := rx_at m (v + 1) in
  let topic_len := u16 (u16 (Z.shiftl hi 8) + lo) in
  let topic := v + 2 in
  let after_topic := u16 (2 + topic_len) in
  if length <? (if negb (after_topic + qos =? 0) then 2 else 1) then Ok (None, m)
  else
    let* (after_topic, m) :=
      if 0 <? qos then
        let* hi := rx_at m (v + after_topic) in
        let* lo := rx_at m (v + after_topic + 1) in
        Ok (u16 (after_topic + 2), upd_cl (set_inpub_pkt_id (u16 (Z.shiftl hi 8 + lo))) m)
      else Ok (after_topic, upd_cl (set_inpub_pkt_id 0) m) in
    let* bkp := rx_at m (topic + topic_len) in
    let* m := rx_set m (topic + topic_len) 0 in
    let payload_length := u16 (length - after_topic) in
    let* m :=
      if negb (pub_cb (cl m) =? NULL) then
        let* t := rx_slice m topic topic_len in
        publish_fn (pub_cb (cl m)) m (inpub_arg (cl m)) t (u32 (remaining_length + payload_length))
      else Ok m in
    let* m := rx_set m (topic + topic_len) bkp in
    Ok (Some (after_topic, payload_length), m).

Definition publish_received m (v length remaining_length : Z) : res (Z * mq S) :=
  let* b0 := rx_at m 0 in
  let qos := MQTT_CTL_PACKET_QOS b0 in
  let* (r, m) :=
    if msg_idx (cl m) <=? MQTT_VAR_HEADER_BUFFER_LEN then publish_header m v length remaining_length qos
    else Ok (Some (0, length), m) in
  match r with
  | None => Ok (MQTT_CONNECT_DISCONNECTED, m)
  | Some (payload_offset, payload_length) =>
      if (0 <? payload_length) || (remaining_length =? 0) then
        let* d := rx_slice m (v + payload_offset) payload_length in
        if data_cb (cl m) =? NULL then Fault FBadAccess
        else
          let* m := data_fn (data_cb (cl m)) m (inpub_arg (cl m)) d (if remaining_length =? 0 then MQTT_DATA_FLAG_LAST else 0) in
          let* m :=
            if (remaining_length =? 0) && (0 <? qos) then
              let* (_, m) := pub_ack_rec_rel_response m (if qos =? 1 then MQTT_MSG_TYPE_PUBACK else MQTT_MSG_TYPE_PUBREC) (inpub_pkt_id (cl m)) 0 in
              Ok m
            else Ok m in
          Ok (MQTT_CONNECT_ACCEPTED, m)
      else Ok (MQTT_CONNECT_ACCEPTED, m)
  end.

(** An acknowledgement; a SUBACK that is too short ends the connection with the request still taken. *)
Definition ack_received m (v length pkt_type pkt_id : Z) : res (Z * mq S) :=
  let* (k, q, l) := mqtt_take_request (req_list (cl m)) (pend_req_queue (cl m)) pkt_id in
  let m := upd_cl (fun c => set_pend_req_queue q (set_req_list l c)) m in
  match k with
  | None => Ok (MQTT_CONNECT_ACCEPTED, m)
  | Some k =>
      let* r := req_at (req_list (cl m)) k in
      if (pkt_type =? MQTT_MSG_TYPE_SUBACK) && (length <? 3) then Ok (MQTT_CONNECT_DISCONNECTED, m)
      else
        let* m :=
          if pkt_type =? MQTT_MSG_TYPE_SUBACK then let* b := rx_at m (v + 2) in mqtt_incomming_suback m r b
          else if negb (r_cb r =? NULL) then request_fn (r_cb r) m (r_arg r) ERR_OK
          else Ok m in
        let* l := mqtt_delete_request (req_list (cl m)) k in
        Ok (MQTT_CONNECT_ACCEPTED, upd_cl (set_req_list l) m)
  end.

(** [v] is the index of [var_hdr_payload] in the buffer. *)
Definition mqtt_message_received m (fixed_hdr_idx length remaining_length : Z) : res (Z * mq S) :=
  let v := fixed_hdr_idx in
  let* b0 := rx_at m 0 in
  let pkt_type := MQTT_CTL_PACKET_TYPE b0 in
  if pkt_type =? MQTT_MSG_TYPE_CONNACK then
    if bool_decide (conn_state (cl m) = MQTT_CONNECTING) then
      let* code := rx_at m (v + 1) in
      if code =? MQTT_CONNECT_ACCEPTED then
        let m := upd_cl (fun c => set_conn_state MQTT_CONNECTED (set_cyclic_tick 0 c)) m in
        let* m := if negb (connect_cb (cl m) =? 0) then connect_fn (connect_cb (cl m)) m (connect_arg (cl m)) code else Ok m in
        Ok (code, m)
      else Ok (code, m)
    else Ok (MQTT_CONNECT_ACCEPTED, m)
  else if pkt_type =? MQTT_MSG_TYPE_PINGRESP then Ok (MQTT_CONNECT_ACCEPTED, m)
  else if pkt_type =? MQTT_MSG_TYPE_PUBLISH then publish_received m v length remaining_length
  else
    let* hi := rx_at m v in
    let* lo := rx_at m (v + 1) in
    let pkt_id := Z.lor (u16 (Z.shiftl hi 8)) lo in
    if pkt_id =? 0 then Ok (MQTT_CONNECT_DISCONNECTED, m)
    else if pkt_type =? MQTT_MSG_TYPE_PUBREC then
      let* (_, m) := pub_ack_rec_rel_response m MQTT_MSG_TYPE_PUBREL pkt_id 1 in Ok (MQTT_CONNECT_ACCEPTED, m)
    else if pkt_type =? MQTT_MSG_TYPE_PUBREL then
      let* (_, m) := pub_ack_rec_rel_response m MQTT_MSG_TYPE_PUBCOMP pkt_id 0 in Ok (MQTT_CONNECT_ACCEPTED, m)
    else if (pkt_type =? MQTT_MSG_TYPE_SUBACK) || (pkt_type =? MQTT_MSG_TYPE_UNSUBACK) || (pkt_type =? MQTT_MSG_TYPE_PUBCOMP)
            || (pkt_type =? MQTT_MSG_TYPE_PUBACK) then ack_received m v length pkt_type pkt_id
    else Ok (MQTT_CONNECT_DISCONNECTED, m).

(** *** The parser *)

Section Parse.
(** [mqtt_message_received]. *)
Variable received : mq S -> Z -> Z -> Z -> res (Z * mq S).

(** What is left of the message, when its length has been read. *)
Definition header_done m (msg_rem_len fixed_hdr_idx : Z) : res (mq S * Z * Z) :=
  if msg_rem_len =? 0 then
    let* (_, m) := received m fixed_hdr_idx 0 0 in Ok (upd_cl (set_msg_idx 0) m, 0, 0)
  else Ok (m, u32 (msg_rem_len + fixed_hdr_idx - msg_idx (cl m)), fixed_hdr_idx).

(** The next byte of the fixed header, from the buffer if it has come before.  A shift by 32 or
    more is undefined. *)
Definition header_byte m (p : list Z) (in_offset msg_rem_len fixed_hdr_idx : Z) : res (mq S * Z * Z * Z * Z) :=
  let* (b, in_offset, m) :=
    if fixed_hdr_idx <? msg_idx (cl m) then let* b := rx_at m fixed_hdr_idx in Ok (b, in_offset, m)
    else
      let b := nth (Z.to_nat in_offset) p 0 in
      let* m := rx_set m (msg_idx (cl m)) b in
      Ok (b, u16 (in_offset + 1), upd_cl (fun c => set_msg_idx (u32 (msg_idx c + 1)) c) m) in
  let fixed_hdr_idx := u8 (fixed_hdr_idx + 1) in
  if 2 <=? fixed_hdr_idx then
    if 32 <=? (fixed_hdr_idx - 2) * 7 then Fault FBadAccess
    else
      let msg_rem_len := Z.lor msg_rem_len (u32 (Z.shiftl (Z.land b 127) ((fixed_hdr_idx - 2) * 7))) in
      if Z.land b 128 =? 0 then
        let* (m, msg_rem_len, fixed_hdr_idx) := header_done m msg_rem_len fixed_hdr_idx in
        Ok (m, in_offset, msg_rem_len, fixed_hdr_idx, b)
      else Ok (m, in_offset, msg_rem_len, fixed_hdr_idx, b)
  else Ok (m, in_offset, msg_rem_len, fixed_hdr_idx, b).

(** [while (p->tot_len > in_offset)]; [p] stands for the bytes of the packet. *)
Fixpoint parse_loop (fuel : nat) m (p : list Z) (in_offset msg_rem_len fixed_hdr_idx b : Z) : res (Z * mq S) :=
  match fuel with
  | O => Fault FFuel
  | Datatypes.S fuel' =>
      if in_offset <? Z.of_nat (length p) then
        if (fixed_hdr_idx <? 2) || negb (Z.land b 128 =? 0) then
          let* (m, in_offset, msg_rem_len, fixed_hdr_idx, b) := header_byte m p in_offset msg_rem_len fixed_hdr_idx in
          parse_loop fuel' m p in_offset msg_rem_len fixed_hdr_idx b
        else
          let cpy_start := u16 (u32 (msg_idx (cl m) - fixed_hdr_idx) mod (MQTT_VAR_HEADER_BUFFER_LEN - fixed_hdr_idx) + fixed_hdr_idx) in
          let cpy_len := u16 (Z.min (u16 (Z.of_nat (length p) - in_offset)) msg_rem_len) in
          let buffer_space := u16 (MQTT_VAR_HEADER_BUFFER_LEN - cpy_start) in
          let cpy_len := if buffer_space <? cpy_len then buffer_space else cpy_len in
          if Z.of_nat (length (rx_buffer (cl m))) <? cpy_start + cpy_len then Fault FBadAccess
          else
            let bs := take (Z.to_nat cpy_len) (drop (Z.to_nat in_offset) p) in
            let m := upd_cl (fun c => set_msg_idx (u32 (msg_idx c + cpy_len)) (set_rx_buffer (splice (Z.to_nat cpy_start) bs (rx_buffer c)) c)) m in
            let in_offset := u16 (in_offset + cpy_len) in
            let msg_rem_len := u32 (msg_rem_len - cpy_len) in
            if (msg_rem_len =? 0) || (cpy_len =? buffer_space) then
              let* (res, m) := received m fixed_hdr_idx (u16 (cpy_start + cpy_len - fixed_hdr_idx)) msg_rem_len in
              if negb (res =? MQTT_CONNECT_ACCEPTED) then Ok (res, m)
              else if msg_rem_len =? 0 then parse_loop fuel' (upd_cl (set_msg_idx 0) m) p in_offset msg_rem_len 0 b
              else parse_loop fuel' m p in_offset msg_rem_len fixed_hdr_idx b
            else parse_loop fuel' m p in_offset msg_rem_len fixed_hdr_idx b
      else Ok (MQTT_CONNECT_ACCEPTED, m)
  end.

(** Every round takes a byte of the packet, or reads a byte of the header again. *)
Definition parse_incoming m (p : list Z) : res (Z * mq S) := parse_loop (length p + 129) m p 0 0 0 0.

End Parse.

Definition mqtt_parse_incoming m (p : list Z) : res (Z * mq S) := parse_incoming mqtt_message_received m p.

(** *** Callbacks of the connection *)

Definition mqtt_tcp_recv_cb m (pcb p : Z) (err : err_t) : res (err_t * mq S) :=
  assert* (conn (cl m) =? pcb) in
  if p =? NULL then let* m := mqtt_close m MQTT_CONNECT_DISCONNECTED in Ok (ERR_OK, m)
  else if negb (bool_decide (err = ERR_OK)) then let* s := pbuf_free (env m) p in Ok (err, with_env s m)
  else
    let* data := pbuf_data (env m) p in
    let* s := tcp_recved (env m) pcb (Z.of_nat (length data)) in
    let* (res, m) := mqtt_parse_incoming (with_env s m) data in
    let* s := pbuf_free (env m) p in
    let m := with_env s m in
    let* m := if negb (res =? MQTT_CONNECT_ACCEPTED) then mqtt_close m res else Ok m in
    Ok (ERR_OK, if negb (keep_alive (cl m) =? 0) then upd_cl (set_server_watchdog 0) m else m).

(** The requests without an identifier are done when their data has been sent. *)
Fixpoint sent_loop (fuel : nat) m : res (mq S) :=
  match fuel with
  | O => Fault FFuel
  | Datatypes.S fuel' =>
      let* (k, q, l) := mqtt_take_request (req_list (cl m)) (pend_req_queue (cl m)) 0 in
      let m := upd_cl (fun c => set_pend_req_queue q (set_req_list l c)) m in
      match k with
      | None => Ok m
      | Some k =>
          let* r := req_at (req_list (cl m)) k in
          let* m := if negb (r_cb r =? NULL) then request_fn (r_cb r) m (r_arg r) ERR_OK else Ok m in
          let* l := mqtt_delete_request (req_list (cl m)) k in
          sent_loop fuel' (upd_cl (set_req_list l) m)
      end
  end.

Definition mqtt_tcp_sent_cb (fuel : nat) m : res (err_t * mq S) :=
  if bool_decide (conn_state (cl m) = MQTT_CONNECTED) then
    let m := upd_cl (fun c => set_server_watchdog 0 (set_cyclic_tick 0 c)) m in
    let* m := sent_loop fuel m in
    let* m := mqtt_output_send m (conn (cl m)) in
    Ok (ERR_OK, m)
  else Ok (ERR_OK, m).

Definition mqtt_tcp_err_cb m : res (mq S) := mqtt_close (upd_cl (set_conn 0) m) MQTT_CONNECT_DISCONNECTED.

Definition mqtt_tcp_poll_cb m (tpcb : Z) : res (err_t * mq S) :=
  if bool_decide (conn_state (cl m) = MQTT_CONNECTED) then let* m := mqtt_output_send m tpcb in Ok (ERR_OK, m) else Ok (ERR_OK, m).

Definition mqtt_tcp_connect_cb m (tpcb : Z) (err : err_t) : res (err_t * mq S) :=
  if negb (bool_decide (err = ERR_OK)) then Ok (err, m)
  else
    let m := upd_cl (set_msg_idx 0) m in
    let* s := tcp_recv (env m) tpcb true in
    let* s := tcp_sent s tpcb true in
    let* s := tcp_poll s tpcb 2 in
    let m := upd_cl (set_conn_state MQTT_CONNECTING) (with_env s m) in
    let* s := start_timer (env m) in
    let m := upd_cl (set_cyclic_tick 0) (with_env s m) in
    let* m := mqtt_output_send m (conn (cl m)) in
    Ok (ERR_OK, m).

(** *** The interface *)

(** [payload] is NULL or holds [payload_length] bytes; [topic] is a string. *)
Definition mqtt_publish m (topic : list Z) (payload : option (list Z)) (payload_length qos retain cb arg : Z) : res (err_t * mq S) :=
  if bool_decide (conn_state (cl m) = TCP_DISCONNECTED) then Ok (ERR_CONN, m)
  else if 65535 - 2 <? Z.of_nat (length topic) then Ok (ERR_ARG, m)
  else
    let topic_len := u16 (Z.of_nat (length topic)) in
    let total_len := 2 + topic_len + payload_length in
    if 65535 <? total_len then Ok (ERR_ARG, m)
    else
      let remaining_length := u16 total_len in
      let '(remaining_length, (pkt_id, m)) :=
        if 0 <? qos then (u16 (remaining_length + 2), msg_generate_packet_id m) else (remaining_length, (0, m)) in
      let* (r, l) := mqtt_create_request (req_list (cl m)) pkt_id cb arg in
      let m := upd_cl (set_req_list l) m in
      match r with
      | None => Ok (ERR_MEM, m)
      | Some r =>
          let* space := mqtt_output_check_space (output (cl m)) remaining_length in
          if negb space then let* l := mqtt_delete_request (req_list (cl m)) r in Ok (ERR_MEM, upd_cl (set_req_list l) m)
          else
            let* rb := mqtt_output_append_fixed_header (output (cl m)) MQTT_MSG_TYPE_PUBLISH 0 qos retain remaining_length in
            let rb := mqtt_output_append_string rb topic topic_len in
            let rb := if 0 <? qos then mqtt_output_append_u16 rb pkt_id else rb in
            let rb := match payload with Some d => if 0 <? payload_length then mqtt_output_append_buf rb d else rb | None => rb end in
            let* (q, l) := mqtt_append_request (req_list (cl m)) (pend_req_queue (cl m)) r in
            let m := upd_cl (fun c => set_pend_req_queue q (set_req_list l (set_output rb c))) m in
            let* m := mqtt_output_send m (conn (cl m)) in
            Ok (ERR_OK, m)
      end.

Definition mqtt_sub_unsub m (topic : list Z) (qos cb arg : Z) (sub : bool) : res (err_t * mq S) :=
  if 65535 - 2 <? Z.of_nat (length topic) then Ok (ERR_ARG, m)
  else
    let topic_len := u16 (Z.of_nat (length topic)) in
    let total_len := topic_len + 2 + 2 + (if sub then 1 else 0) in
    if 65535 <? total_len then Ok (ERR_ARG, m)
    else
      let remaining_length := u16 total_len in
      assert* (qos <? 3) in
      if bool_decide (conn_state (cl m) = TCP_DISCONNECTED) then Ok (ERR_CONN, m)
      else
        let (pkt_id, m) := msg_generate_packet_id m in
        let* (r, l) := mqtt_create_request (req_list (cl m)) pkt_id cb arg in
        let m := upd_cl (set_req_list l) m in
        match r with
        | None => Ok (ERR_MEM, m)
        | Some r =>
            let* space := mqtt_output_check_space (output (cl m)) remaining_length in
            if negb space then let* l := mqtt_delete_request (req_list (cl m)) r in Ok (ERR_MEM, upd_cl (set_req_list l) m)
            else
              let* rb := mqtt_output_append_fixed_header (output (cl m)) (if sub then MQTT_MSG_TYPE_SUBSCRIBE else MQTT_MSG_TYPE_UNSUBSCRIBE)
                           0 1 0 remaining_length in
              let rb := mqtt_output_append_u16 rb pkt_id in
              let rb := mqtt_output_append_string rb topic topic_len in
              let rb := if sub then mqtt_output_append_u8 rb (Z.min qos 2) else rb in
              let* (q, l) := mqtt_append_request (req_list (cl m)) (pend_req_queue (cl m)) r in
              let m := upd_cl (fun c => set_pend_req_queue q (set_req_list l (set_output rb c))) m in
              let* m := mqtt_output_send m (conn (cl m)) in
              Ok (ERR_OK, m)
        end.

Definition mqtt_set_inpub_callback m (pub data arg : Z) : mq S :=
  upd_cl (fun c => mk_client (cyclic_tick c) (keep_alive c) (server_watchdog c) (pkt_id_seq c) (inpub_pkt_id c) (conn_state c) (conn c)
    (connect_arg c) (connect_cb c) (pend_req_queue c) (req_list c) arg data pub (msg_idx c) (rx_buffer c) (output c)) m.

(** The client, if there is memory for it. *)
Definition mqtt_client_new (s : S) : res (option (mq S) * S) :=
  let* (ok, s) := malloc_client s in Ok (if (ok : bool) then Some (mk_mq client_zero s) else None, s).

(** The flags and the length of the will; [None] if it is too long. *)
Definition connect_will (info : mqtt_connect_client_info) (remaining_length : Z) : option (Z * Z * Z * Z) :=
  match will_topic info, will_msg info with
  | Some t, Some w =>
      let flags := Z.lor MQTT_CONNECT_FLAG_WILL (Z.shiftl (Z.land (will_qos info) 3) 3) in
      let flags := if negb (will_retain info =? 0) then Z.lor flags MQTT_CONNECT_FLAG_WILL_RETAIN else flags in
      if 255 <? Z.of_nat (length t) then None
      else if 255 <? Z.of_nat (length w) then None
      else
        let len := remaining_length + 2 + Z.of_nat (length t) + 2 + Z.of_nat (length w) in
        if 65535 <? len then None else Some (flags, Z.of_nat (length t), Z.of_nat (length w), u16 len)
  | _, _ => Some (0, 0, 0, remaining_length)
  end.

(** The CONNECT message.  The will is left out if its topic is empty. *)
Definition append_connect (rb : mqtt_ringbuf) (info : mqtt_connect_client_info) (flags will_topic_len will_msg_len remaining_length : Z)
    : res mqtt_ringbuf :=
  let* rb := mqtt_output_append_fixed_header rb MQTT_MSG_TYPE_CONNECT 0 0 0 remaining_length in
  let rb := mqtt_output_append_string rb [77; 81; 84; 84] 4 in
  let rb := mqtt_output_append_u8 rb 4 in
  let rb := mqtt_output_append_u8 rb flags in
  let rb := mqtt_output_append_u16 rb (ci_keep_alive info) in
  let rb := mqtt_output_append_string rb (client_id info) (u16 (Z.of_nat (length (client_id info)))) in
  Ok (if 0 <? will_topic_len then
        let rb := mqtt_output_append_string rb (default [] (will_topic info)) will_topic_len in
        mqtt_output_append_string rb (default [] (will_msg info)) will_msg_len
      else rb).

Definition mqtt_client_connect m (ip_addr port cb arg : Z) (info : mqtt_connect_client_info) : res (err_t * mq S) :=
  if negb (bool_decide (conn_state (cl m) = TCP_DISCONNECTED)) then Ok (ERR_ISCONN, m)
  else
    let m := upd_cl (fun _ => mk_client 0 (ci_keep_alive info) 0 0 0 TCP_DISCONNECTED NULL arg cb None
                                (mqtt_init_requests (req_list client_zero)) NULL NULL NULL 0 (rx_buffer client_zero) (output client_zero)) m in
    match connect_will info (2 + 4 + 1 + 1 + 2) with
    | None => Ok (ERR_VAL, m)
    | Some (flags, will_topic_len, will_msg_len, remaining_length) =>
        let flags := Z.lor flags MQTT_CONNECT_FLAG_CLEAN_SESSION in
        if 65535 <? Z.of_nat (length (client_id info)) then Ok (ERR_VAL, m)
        else if 65535 <? remaining_length + 2 + Z.of_nat (length (client_id info)) then Ok (ERR_VAL, m)
        else
          let remaining_length := u16 (remaining_length + 2 + Z.of_nat (length (client_id info))) in
          let* space := mqtt_output_check_space (output (cl m)) remaining_length in
          if negb space then Ok (ERR_MEM, m)
          else
            let* (pcb, s) := tcp_new (env m) in
            let m := upd_cl (set_conn pcb) (with_env s m) in
            if pcb =? NULL then Ok (ERR_MEM, m)
            else
              let* s := tcp_arg (env m) pcb in
              let* (err, s) := tcp_bind s pcb in
              let* (err, s) := if bool_decide (err = ERR_OK) then tcp_connect s pcb ip_addr port else Ok (err, s) in
              if negb (bool_decide (err = ERR_OK)) then
                let* s := tcp_abort s pcb in Ok (err, upd_cl (set_conn NULL) (with_env s m))
              else
                let* s := tcp_err s pcb true in
                let m := upd_cl (set_conn_state TCP_CONNECTING) (with_env s m) in
                let* rb := append_connect (output (cl m)) info flags will_topic_len will_msg_len remaining_length in
                Ok (ERR_OK, upd_cl (set_output rb) m)
    end.

Definition mqtt_disconnect m : res (mq S) :=
  if negb (bool_decide (conn_state (cl m) = TCP_DISCONNECTED)) then mqtt_close (upd_cl (set_conn_state TCP_DISCONNECTED) m) 0 else Ok m.

Definition mqtt_client_is_connected m : bool := bool_decide (conn_state (cl m) = MQTT_CONNECTED).

End Client.
