(* ===== verification/MqttSim.v ===== *)
(** * A server for the MQTT client of lwip/src/apps/mqtt/mqtt.c

    A connection with a send buffer of a given size and an application that writes down what it
    is told, on which the client can be run. *)

From S2P Require Import Prelude Mqtt.

Inductive event :=
| Connected (status : Z)
| Requested (arg : Z) (e : err_t)
| Published (topic : list Z) (len : Z)
| Received (data : list Z) (flags : Z)
| Closed
| Timer (on : bool).

(** What has been sent, the room of the send buffer, what has happened, and the data of the pbufs. *)
Record world := mk_world { sent : list Z; room : Z; events : list event; packets : gmap Z (list Z) }.

Definition happens (e : event) (w : world) : world := mk_world (sent w) (room w) (events w ++ [e]) (packets w).

#[export] Instance sim_tcp : MqttTcp world := {
  tcp_sndbuf w _ := Ok (room w);
  tcp_write w _ data _ :=
    if Z.of_nat (length data) <=? room w then Ok (ERR_OK, mk_world (sent w ++ data) (room w - Z.of_nat (length data)) (events w) (packets w)) else Ok (ERR_MEM, w);
  tcp_output w _ := Ok w;
  tcp_recv w _ _ := Ok w;
  tcp_err w _ _ := Ok w;
  tcp_sent w _ _ := Ok w;
  tcp_poll w _ _ := Ok w;
  tcp_close w _ := Ok (ERR_OK, happens Closed w);
  tcp_abort w _ := Ok w;
  tcp_new w := Ok (1, w);
  tcp_arg w _ := Ok w;
  tcp_bind w _ := Ok (ERR_OK, w);
  tcp_connect w _ _ _ := Ok (ERR_OK, w);
  tcp_recved w _ _ := Ok w;
  start_timer w := Ok (happens (Timer true) w);
  stop_timer w := Ok (happens (Timer false) w);
  pbuf_data w p := match packets w !! p with Some d => Ok d | None => Fault FBadAccess end;
  pbuf_free w p := Ok (mk_world (sent w) (room w) (events w) (delete p (packets w)));
  malloc_client w := Ok (true, w)
}.

#[export] Instance sim_app : MqttApp world := {
  connect_fn _ m _ st := Ok (with_env (happens (Connected st) (env m)) m);
  request_fn _ m arg e := Ok (with_env (happens (Requested arg e) (env m)) m);
  publish_fn _ m _ t n := Ok (with_env (happens (Published t n) (env m)) m);
  data_fn _ m _ d f := Ok (with_env (happens (Received d f) (env m)) m)
}.

(** A client that has been allocated, and is connected to a server. *)
Definition idle : mq world := mk_mq client_zero (mk_world [] 1000 [] ∅).

Definition demo_info : mqtt_connect_client_info := mk_info [108; 119] None None 60 None None 0 0.

(** The client after CONNECT and CONNACK, with callbacks. *)
Definition online : res (mq world) :=
  let* (_, m) := mqtt_client_connect idle 16777343 1883 7 0 demo_info in
  let* (_, m) := mqtt_tcp_connect_cb m 1 ERR_OK in
  let* (_, m) := mqtt_parse_incoming m [32; 2; 0; 0] in
  Ok (mqtt_set_inpub_callback m 8 9 0).

Definition online_client : mq world := match online with Ok m => m | Fault _ => idle end.

(** CONNECT is sent, and the application told of the CONNACK. *)
Example online_events :
  match online with
  | Ok m => sent (env m) = [16; 14; 0; 4; 77; 81; 84; 84; 4; 2; 0; 60; 0; 2; 108; 119] /\ events (env m) = [Timer true; Connected 0]
            /\ conn_state (cl m) = MQTT_CONNECTED
  | Fault _ => False
  end.
Proof. by vm_compute. Qed.
