(* ===== verification/MqttIn.v ===== *)
(** * Incoming messages: the parser of lwip/src/apps/mqtt/mqtt.c

    TCP delivers the messages of the server in packets that end anywhere.  [mqtt_byte] says what
    happens at each byte of the stream, from what is in the buffer alone; the parser, which
    copies as much as it can at a time and forgets the header between two packets, does the
    same. *)

From S2P Require Import Prelude IpFrame Mqtt MqttSim.

(** ** Byte by byte *)

(** The length field from byte [i] of the header on: the bytes [l] that have come, and the value
    [acc] of the digits before.  The result is the length of the header and of the message. *)
Definition digit (d i acc : Z) : Z := Z.lor acc (u32 (Z.shiftl (Z.land d 127) ((i - 1) * 7))).

Fixpoint scan (l : list Z) (i acc : Z) : option (Z * Z) :=
  match l with
  | [] => None
  | d :: l' => if Z.land d 128 =? 0 then Some (i + 1, digit d i acc) else scan l' (i + 1) (digit d i acc)
  end.

Fixpoint value (l : list Z) (i acc : Z) : Z :=
  match l with
  | [] => acc
  | d :: l' => value l' (i + 1) (digit d i acc)
  end.

(** The header of a message of which [k] bytes have come. *)
Definition header (rx : list Z) (k : Z) : option (Z * Z) := scan (drop 1 (take (Z.to_nat k) rx)) 1 0.

Section Bytes.
Context {S : Type}.
Variable received : mq S -> Z -> Z -> Z -> res (Z * mq S).
Implicit Types m : mq S.

(** Byte [x] is stored at index [j]. *)
Definition store (j x : Z) m : mq S :=
  upd_cl (fun c => set_msg_idx (msg_idx c + 1) (set_rx_buffer (<[Z.to_nat j := x]> (rx_buffer c)) c)) m.

Definition mqtt_byte m (x : Z) : res (Z * mq S) :=
  let k := msg_idx (cl m) in
  match header (rx_buffer (cl m)) k with
  | None =>
      if 6 <=? k then Fault FBadAccess
      else
        let m := store k x m in
        match header (rx_buffer (cl m)) (k + 1) with
        | Some (h, v) => if v =? 0 then let* (_, m) := received m h 0 0 in Ok (MQTT_CONNECT_ACCEPTED, upd_cl (set_msg_idx 0) m)
                         else Ok (MQTT_CONNECT_ACCEPTED, m)
        | None => Ok (MQTT_CONNECT_ACCEPTED, m)
        end
  | Some (h, v) =>
      let j := (k - h) mod (MQTT_VAR_HEADER_BUFFER_LEN - h) + h in
      let m := store j x m in
      let rest := v + h - (k + 1) in
      if (rest =? 0) || (j + 1 =? MQTT_VAR_HEADER_BUFFER_LEN) then
        let* (r, m) := received m h (j + 1 - h) rest in
        if negb (r =? MQTT_CONNECT_ACCEPTED) then Ok (r, m)
        else Ok (r, if rest =? 0 then upd_cl (set_msg_idx 0) m else m)
      else Ok (MQTT_CONNECT_ACCEPTED, m)
  end.

Fixpoint mqtt_bytes m (p : list Z) : res (Z * mq S) :=
  match p with
  | [] => Ok (MQTT_CONNECT_ACCEPTED, m)
  | x :: p' => let* (r, m) := mqtt_byte m x in if negb (r =? MQTT_CONNECT_ACCEPTED) then Ok (r, m) else mqtt_bytes m p'
  end.

Lemma mqtt_bytes_app p q : forall m,
  mqtt_bytes m (p ++ q) = (let* (r, m) := mqtt_bytes m p in if negb (r =? MQTT_CONNECT_ACCEPTED) then Ok (r, m) else mqtt_bytes m q).
Proof.
  induction p as [|x p IH]; intros m; [done|]. cbn [app mqtt_bytes]. destruct (mqtt_byte m x) as [[r m']|]; [|done]. cbn [res_bind].
  destruct (r =? MQTT_CONNECT_ACCEPTED) eqn:E; cbn [negb]; [apply IH|]. cbn [res_bind]. by rewrite E.
Qed.

End Bytes.

(** ** Headers *)

Lemma scan_app l1 : forall l2 i acc,
  scan (l1 ++ l2) i acc = match scan l1 i acc with Some r => Some r | None => scan l2 (i + Z.of_nat (length l1)) (value l1 i acc) end.
Proof.
  induction l1 as [|d l1 IH]; intros l2 i acc; cbn [app scan value length].
  - by rewrite Z.add_0_r.
  - destruct (Z.land d 128 =? 0); [done|]. rewrite IH. destruct (scan l1 _ _); [done|]. f_equal. lia.
Qed.

Lemma value_app l1 : forall l2 i acc, value (l1 ++ l2) i acc = value l2 (i + Z.of_nat (length l1)) (value l1 i acc).
Proof.
  induction l1 as [|d l1 IH]; intros l2 i acc; cbn [app value length]; [by rewrite Z.add_0_r|]. rewrite IH. f_equal. lia.
Qed.

Lemma lor_u32 a b : is_u32 a -> is_u32 b -> is_u32 (Z.lor a b).
Proof.
  unfold is_u32. change 4294967296 with (2 ^ 32). intros Ha Hb. pose proof (proj2 (Z.lor_nonneg a b) (conj (proj1 Ha) (proj1 Hb))) as Hn.
  split; [done|]. destruct (Z.eq_dec (Z.lor a b) 0) as [->|Hne]; [lia|]. apply Z.log2_lt_pow2; [lia|].
  rewrite Z.log2_lor by lia. apply Z.max_lub_lt.
  - destruct (Z.eq_dec a 0) as [->|]; [cbn; lia|]. apply Z.log2_lt_pow2; lia.
  - destruct (Z.eq_dec b 0) as [->|]; [cbn; lia|]. apply Z.log2_lt_pow2; lia.
Qed.

Lemma digit_u32 d i acc : is_u32 acc -> is_u32 (digit d i acc).
Proof. intros Ha. apply lor_u32; [done|apply u32_range]. Qed.

Lemma scan_u32 l : forall i acc h v, is_u32 acc -> scan l i acc = Some (h, v) -> is_u32 v /\ i + 1 <= h <= i + Z.of_nat (length l).
Proof.
  induction l as [|d l IH]; intros i acc h v Ha; cbn [scan length]; [done|]. destruct (Z.land d 128 =? 0).
  - intros [= <- <-]. split; [by apply digit_u32|lia].
  - intros Hs. apply IH in Hs; [split; [apply Hs|lia]|by apply digit_u32].
Qed.

Lemma value_u32 l : forall i acc, is_u32 acc -> is_u32 (value l i acc).
Proof. induction l as [|d l IH]; intros i acc Ha; cbn [value]; [done|]. by apply IH, digit_u32. Qed.

(** The header is determined by its own bytes. *)
Lemma scan_prefix l : forall i acc h v l',
  scan l i acc = Some (h, v) -> take (Z.to_nat (h - i)) l' = take (Z.to_nat (h - i)) l -> scan l' i acc = Some (h, v).
Proof.
  induction l as [|d l IH]; intros i acc h v l'; cbn [scan]; [done|]. destruct (Z.land d 128 =? 0) eqn:E.
  - intros [= <- <-]. replace (Z.to_nat (i + 1 - i)) with 1%nat by lia. destruct l' as [|d' l']; [done|]. cbn. intros [= ->]. by rewrite E.
  - intros Hs Ht. pose proof (scan_u32 l (i + 1) 0) as _. assert (Hh : i + 2 <= h).
    { clear IH Ht. revert Hs. generalize (digit d i acc). clear. revert i. induction l as [|x l IH]; intros i a; cbn [scan]; [done|].
      destruct (Z.land x 128 =? 0); [intros [= <- _]; lia|]. intros Hs. apply IH in Hs. lia. }
    replace (Z.to_nat (h - i)) with (Datatypes.S (Z.to_nat (h - (i + 1)))) in Ht by lia. destruct l' as [|d' l']; [done|]. cbn [take] in Ht.
    injection Ht as -> Ht. cbn [scan]. rewrite E. by eapply IH.
Qed.

Lemma header_range rx k h v : header rx k = Some (h, v) -> is_u32 v /\ 2 <= h <= k /\ 2 <= h <= Z.of_nat (length rx).
Proof.
  unfold header. intros Hs. pose proof Hs as Hs'. apply scan_u32 in Hs' as (Hv & Hh); [|done]. rewrite length_drop, length_take in Hh. split; [done|lia].
Qed.

Lemma header_prefix rx rx' k k' h v :
  header rx k = Some (h, v) -> take (Z.to_nat h) rx' = take (Z.to_nat h) rx -> h <= k' -> header rx' k' = Some (h, v).
Proof.
  intros Hs Ht Hk. pose proof (header_range _ _ _ _ Hs) as (_ & Hh & Hl). unfold header in *. eapply scan_prefix; [exact Hs|].
  rewrite !take_drop_commute, !take_take. apply (f_equal (drop 1)) in Ht. replace (1 + Z.to_nat (h - 1))%nat with (Z.to_nat h) by lia.
  by replace (Z.to_nat h `min` Z.to_nat k')%nat with (Z.to_nat h) by lia; replace (Z.to_nat h `min` Z.to_nat k)%nat with (Z.to_nat h) by lia.
Qed.

(** One more byte of a header. *)
Lemma header_next rx k x :
  header rx k = None -> 0 <= k < Z.of_nat (length rx) ->
  header (<[Z.to_nat k := x]> rx) (k + 1)
  = if (1 <=? k) && (Z.land x 128 =? 0) then Some (k + 1, digit x k (value (drop 1 (take (Z.to_nat k) rx)) 1 0)) else None.
Proof.
  intros Hn Hk. unfold header in *. replace (Z.to_nat (k + 1)) with (Datatypes.S (Z.to_nat k)) by lia.
  rewrite (take_S_r _ _ x) by (apply list_lookup_insert_eq; lia). rewrite take_insert_ge by lia.
  destruct (Z.leb_spec 1 k).
  - rewrite drop_app_le by (rewrite length_take; lia). rewrite scan_app, Hn. rewrite length_drop, length_take.
    replace (1 + Z.of_nat (Z.to_nat k `min` length rx - 1)) with k by lia. cbn [scan andb]. done.
  - replace k with 0 by lia. cbn. done.
Qed.

(** ** The loop *)

Section Loop.
Context {S : Type}.
Variable received : mq S -> Z -> Z -> Z -> res (Z * mq S).
Implicit Types m : mq S.
Local Abbreviation rx m := (rx_buffer (cl m)).
Local Abbreviation idx m := (msg_idx (cl m)).

(** A handler that leaves the message alone while there is more of it to come. *)
Definition keeps_message : Prop := forall m i l rest r m',
  received m i l rest = Ok (r, m') -> length (rx m) = 128%nat ->
  length (rx m') = 128%nat /\ (rest <> 0 -> idx m' = idx m /\ take (Z.to_nat i) (rx m') = take (Z.to_nat i) (rx m)).
Hypothesis received_keeps : keeps_message.

(** The buffer between two bytes. *)
Record rx_inv m : Prop := {
  ri_len : length (rx m) = 128%nat;
  ri_idx : 0 <= idx m;
  ri_header : match header (rx m) (idx m) with
              | None => idx m <= 6
              | Some (h, v) => h <= 6 /\ idx m < h + v
              end
}.

(** The local variables of the loop between two bytes. *)
Inductive at_byte m (i b rest : Z) : Prop :=
| at_header : header (rx m) (idx m) = None -> i = idx m -> rest = value (drop 1 (take (Z.to_nat (idx m)) (rx m))) 1 0 ->
    (i < 2 \/ Z.land b 128 <> 0) -> at_byte m i b rest
| at_body h v : header (rx m) (idx m) = Some (h, v) -> i = h -> rest = v + h - idx m -> Z.land b 128 = 0 -> at_byte m i b rest.

Lemma fresh_inv m b : length (rx m) = 128%nat -> rx_inv (upd_cl (set_msg_idx 0) m) /\ at_byte (upd_cl (set_msg_idx 0) m) 0 b 0.
Proof. intros Hl. split; [split; [done|done|change (0 <= 6); lia]|]. apply at_header; try done. by left. Qed.

(** Several bytes of a body at once. *)
Definition copied (k j : Z) (bs : list Z) m : mq S := upd_cl (fun c => set_msg_idx k (set_rx_buffer (splice (Z.to_nat j) bs (rx_buffer c)) c)) m.

Lemma splice_cons {X} (j : nat) (x : X) bs l : (j + length bs < length l)%nat -> splice (Datatypes.S j) bs (<[j := x]> l) = splice j (x :: bs) l.
Proof.
  intros Hl. unfold splice. rewrite (take_S_r _ _ x) by (apply list_lookup_insert_eq; lia). rewrite take_insert_ge by lia.
  rewrite drop_insert_lt by lia. cbn [length app]. rewrite <- app_assoc. cbn [app].
  by replace (Datatypes.S j + length bs)%nat with (j + Datatypes.S (length bs))%nat by lia.
Qed.

Lemma splice_one {X} (j : nat) (x : X) l : (j < length l)%nat -> splice j [x] l = <[j := x]> l.
Proof.
  intros Hl. unfold splice. rewrite insert_take_drop by lia. by replace (j + length [x])%nat with (Datatypes.S j) by (cbn; lia).
Qed.

Lemma take_splice {X} (h j : nat) (bs l : list X) : (h <= j)%nat -> (j <= length l)%nat -> take h (splice j bs l) = take h l.
Proof.
  intros Hh Hj. unfold splice. rewrite take_app_le by (rewrite length_take; lia). rewrite take_take. f_equal. lia.
Qed.

Lemma body_bytes bs : forall m h v q,
  rx_inv m -> header (rx m) (idx m) = Some (h, v) -> bs <> [] ->
  let k := idx m in let n := Z.of_nat (length bs) in let j := (k - h) mod (128 - h) + h in
  n <= v + h - k -> n <= 128 - j ->
  mqtt_bytes received m (bs ++ q)
  = (let m1 := copied (k + n) j bs m in
     let rest := v + h - (k + n) in
     if (rest =? 0) || (n =? 128 - j) then
       let* (r, m2) := received m1 h (j + n - h) rest in
       if negb (r =? MQTT_CONNECT_ACCEPTED) then Ok (r, m2)
       else mqtt_bytes received (if rest =? 0 then upd_cl (set_msg_idx 0) m2 else m2) q
     else mqtt_bytes received m1 q).
Proof.
  induction bs as [|x bs IH]; intros m h v q Hinv Hh Hne k n j Hn1 Hn2; [done|]. destruct Hinv as [Hl Hk Hhd]. rewrite Hh in Hhd.
  pose proof (header_range _ _ _ _ Hh) as (Hv & Hr & _). fold k in Hr, Hhd. cbn [app mqtt_bytes]. unfold mqtt_byte at 1. rewrite Hh. fold k.
  unfold MQTT_VAR_HEADER_BUFFER_LEN. fold j. pose proof (Z.mod_pos_bound (k - h) (128 - h) ltac:(lia)) as Hj. fold j in Hj.
  assert (Hj' : h <= j < 128) by (unfold j; lia).
  destruct bs as [|y bs].
  - change n with 1. replace (v + h - (k + 1) =? 0) with (v + h - (k + 1) =? 0) by done.
    assert (Es : store j x m = copied (k + 1) j [x] m).
    { unfold store, copied, upd_cl. f_equal. rewrite splice_one by lia. done. }
    rewrite Es. replace (1 =? 128 - j) with (j + 1 =? 128) by lia. destruct ((v + h - (k + 1) =? 0) || (j + 1 =? 128)) eqn:Ec.
    + destruct (received _ _ _ _) as [[r m2]|]; [|done]. cbn [res_bind]. destruct (r =? MQTT_CONNECT_ACCEPTED) eqn:Er; cbn [negb res_bind]; by rewrite Er.
    + done.
  - unfold n in *. cbn [length] in *. rewrite (proj2 (Z.eqb_neq (v + h - (k + 1)) 0)), (proj2 (Z.eqb_neq (j + 1) 128)) by lia. cbn [orb res_bind].
    change (negb (MQTT_CONNECT_ACCEPTED =? MQTT_CONNECT_ACCEPTED)) with false. cbv iota.
    assert (Hh' : header (rx (store j x m)) (idx (store j x m)) = Some (h, v)).
    { eapply header_prefix; [exact Hh| |cbn; lia]. cbn. rewrite take_insert_ge by lia. done. }
    assert (Hinv' : rx_inv (store j x m)).
    { split; [cbn; by rewrite length_insert|cbn; lia|]. rewrite Hh'. cbn. fold k. lia. }
    assert (Ej : (k + 1 - h) mod (128 - h) + h = j + 1).
    { unfold j in *. replace (k + 1 - h) with ((k - h) + 1) by lia. rewrite <- Zplus_mod_idemp_l, Z.mod_small by lia. lia. }
    rewrite (IH (store j x m) h v q Hinv' Hh'); [|done|cbn; fold k; lia|cbn; fold k; rewrite Ej; lia].
    cbv zeta. change (idx (store j x m)) with (k + 1). rewrite Ej. cbn [length].
    assert (Es : copied (k + 1 + Z.of_nat (Datatypes.S (length bs))) (j + 1) (y :: bs) (store j x m) = copied (k + Z.of_nat (Datatypes.S (Datatypes.S (length bs)))) j (x :: y :: bs) m).
    { replace (k + 1 + Z.of_nat (Datatypes.S (length bs))) with (k + Z.of_nat (Datatypes.S (Datatypes.S (length bs)))) by lia.
      unfold copied, store, upd_cl. cbn [cl env rx_buffer set_rx_buffer set_msg_idx]. replace (Z.to_nat (j + 1)) with (Datatypes.S (Z.to_nat j)) by lia.
      by rewrite splice_cons by (cbn [length]; lia). }
    rewrite Es. replace (v + h - (k + 1 + Z.of_nat (Datatypes.S (length bs)))) with (v + h - (k + Z.of_nat (Datatypes.S (Datatypes.S (length bs))))) by lia.
    replace (Z.of_nat (Datatypes.S (length bs)) =? 128 - (j + 1)) with (Z.of_nat (Datatypes.S (Datatypes.S (length bs))) =? 128 - j)
      by (apply eq_true_iff_eq; rewrite !Z.eqb_eq; lia).
    by replace (j + 1 + Z.of_nat (Datatypes.S (length bs)) - h) with (j + Z.of_nat (Datatypes.S (Datatypes.S (length bs))) - h) by lia.
Qed.

(** A new byte of a header. *)
Lemma new_header_byte m p off x :
  rx_inv m -> header (rx m) (idx m) = None -> nth (Z.to_nat off) p 0 = x -> is_u8 x -> 0 <= off < 65535 ->
  match mqtt_byte received m x with
  | Ok (r, m') =>
      r = MQTT_CONNECT_ACCEPTED /\ rx_inv m' /\ idx m' <= idx m + 1
      /\ exists i' rest', header_byte received m p off (value (drop 1 (take (Z.to_nat (idx m)) (rx m))) 1 0) (idx m) = Ok (m', off + 1, rest', i', x)
           /\ at_byte m' i' x rest'
  | Fault f => header_byte received m p off (value (drop 1 (take (Z.to_nat (idx m)) (rx m))) 1 0) (idx m) = Fault f
  end.
Proof.
  intros [Hl Hk Hhd] Hn Hx Hu Hoff. rewrite Hn in Hhd. unfold mqtt_byte, header_byte. rewrite Hn, Z.ltb_irrefl, Hx. unfold rx_set.
  rewrite Hl, (proj2 (Z.ltb_lt (idx m) _)) by lia. cbn [res_bind]. set (m1 := upd_cl (fun c => set_msg_idx _ c) _).
  assert (E1 : m1 = store (idx m) x m).
  { unfold m1, store, upd_cl. f_equal. rewrite (u8_id x) by done. unfold set_msg_idx, set_rx_buffer; cbn. f_equal. apply u32_id. unfold is_u32. lia. }
  rewrite !E1. clear m1 E1. rewrite (u8_id (idx m + 1)), (u16_id (off + 1)) by (unfold is_u8, is_u16; lia).
  set (a := value _ 1 0). destruct (Z.leb_spec 6 (idx m)) as [H6|H6].
  { rewrite (proj2 (Z.leb_le 2 _)), (proj2 (Z.leb_le 32 _)) by lia. done. }
  assert (Hnx : header (rx (store (idx m) x m)) (idx m + 1) = if (1 <=? idx m) && (Z.land x 128 =? 0) then Some (idx m + 1, digit x (idx m) a) else None).
  { change (rx (store (idx m) x m)) with (<[Z.to_nat (idx m) := x]> (rx m)). apply header_next; [done|lia]. }
  assert (Hl1 : length (rx (store (idx m) x m)) = 128%nat) by (cbn; by rewrite length_insert).
  rewrite Hnx. destruct (Z.leb_spec 1 (idx m)) as [H1|H1]; cbn [andb] in *.
  2:{ rewrite (proj2 (Z.leb_gt 2 _)) by lia. split_and!; [done| |cbn; lia|].
      - split; [done|cbn; lia|]. change (idx (store (idx m) x m)) with (idx m + 1). rewrite Hnx. lia.
      - exists (idx m + 1), a. split; [done|]. apply at_header; [|done| |left; lia].
        + change (idx (store (idx m) x m)) with (idx m + 1). by rewrite Hnx.
        + change (idx (store (idx m) x m)) with (idx m + 1). change (rx (store (idx m) x m)) with (<[Z.to_nat (idx m) := x]> (rx m)).
          unfold a. replace (idx m) with 0 by lia. by destruct (rx m). }
  rewrite (proj2 (Z.leb_le 2 _)), (proj2 (Z.leb_gt 32 _)) by lia. replace (idx m + 1 - 2) with (idx m - 1) by lia. fold (digit x (idx m) a).
  assert (Ha : is_u32 (digit x (idx m) a)) by (by apply digit_u32, value_u32). destruct (Z.land x 128 =? 0) eqn:E128.
  - unfold header_done. destruct (Z.eqb_spec (digit x (idx m) a) 0) as [Ez|Hnz].
    + destruct (received _ _ _ _) as [[r m2]|] eqn:Er; [|done]. cbn [res_bind].
      destruct (received_keeps _ _ _ _ _ _ Er Hl1) as (Hl2 & _). destruct (fresh_inv m2 x Hl2) as (Hi & Hat).
      split_and!; [done|done|cbn; lia|]. by exists 0, 0.
    + cbn [res_bind]. split_and!; [done| |cbn; lia|].
      * split; [done|cbn; lia|]. change (idx (store (idx m) x m)) with (idx m + 1). rewrite Hnx. unfold is_u32 in Ha. lia.
      * exists (idx m + 1), (digit x (idx m) a). change (idx (store (idx m) x m)) with (idx m + 1).
        replace (digit x (idx m) a + (idx m + 1) - (idx m + 1)) with (digit x (idx m) a) by lia. rewrite u32_id by done. split; [done|].
        eapply at_body; [change (idx (store (idx m) x m)) with (idx m + 1); exact Hnx|done| |lia].
        change (idx (store (idx m) x m)) with (idx m + 1). lia.
  - split_and!; [done| |cbn; lia|].
    + split; [done|cbn; lia|]. change (idx (store (idx m) x m)) with (idx m + 1). rewrite Hnx. lia.
    + exists (idx m + 1), (digit x (idx m) a). split; [done|]. apply at_header; [|done| |right; lia].
      * change (idx (store (idx m) x m)) with (idx m + 1). by rewrite Hnx.
      * change (idx (store (idx m) x m)) with (idx m + 1). change (rx (store (idx m) x m)) with (<[Z.to_nat (idx m) := x]> (rx m)).
        replace (Z.to_nat (idx m + 1)) with (Datatypes.S (Z.to_nat (idx m))) by lia.
        rewrite (take_S_r _ _ x) by (apply list_lookup_insert_eq; lia). rewrite take_insert_ge, drop_app_le, value_app by (rewrite ?length_take; lia).
        fold a. rewrite length_drop, length_take. replace (1 + Z.of_nat (Z.to_nat (idx m) `min` length (rx m) - 1)) with (idx m) by lia. done.
Qed.

(** More of a body has come. *)
Lemma body_inv m m' h v b k' :
  rx_inv m -> header (rx m) (idx m) = Some (h, v) -> length (rx m') = 128%nat -> idx m' = k' -> take (Z.to_nat h) (rx m') = take (Z.to_nat h) (rx m) ->
  idx m <= k' < h + v -> Z.land b 128 = 0 -> rx_inv m' /\ at_byte m' h b (v + h - k').
Proof.
  intros [Hl Hk Hhd] Hh Hl' Hk' Ht Hr Hb. rewrite Hh in Hhd. pose proof (header_range _ _ _ _ Hh) as (_ & Hh2 & _).
  assert (Hh' : header (rx m') (idx m') = Some (h, v)) by (eapply header_prefix; [done|done|lia]).
  split; [split; [done|lia|rewrite Hh'; lia]|]. eapply at_body; [done|done|lia|done].
Qed.

Lemma loop_bytes fuel : forall m p off i b rest,
  rx_inv m -> at_byte m i b rest -> 0 <= off <= Z.of_nat (length p) -> Z.of_nat (length p) <= 65535 ->
  idx m + (Z.of_nat (length p) - off) < 4294967296 -> Forall is_u8 p -> Z.of_nat (length p) - off < Z.of_nat fuel ->
  parse_loop received fuel m p off rest i b = mqtt_bytes received m (drop (Z.to_nat off) p).
Proof.
  induction fuel as [|fuel IH]; intros m p off i b rest Hinv Hat Hoff Hp Hidx Hu Hf; [lia|]. cbn [parse_loop].
  destruct (Z.ltb_spec off (Z.of_nat (length p))) as [Hlt|]; [|rewrite drop_ge by lia; done].
  destruct Hat as [Hh -> -> Hb|h v Hh -> -> Hb].
  - replace ((idx m <? 2) || negb (Z.land b 128 =? 0)) with true
      by (destruct (Z.ltb_spec (idx m) 2); [done|]; destruct (Z.eqb_spec (Z.land b 128) 0); [lia|done]).
    destruct (lookup_lt_is_Some_2 p (Z.to_nat off) ltac:(lia)) as [x Hx]. rewrite (drop_S _ x _ Hx). cbn [mqtt_bytes].
    pose proof (new_header_byte m p off x Hinv Hh (nth_lookup_Some _ _ _ _ Hx) (Forall_lookup_1 _ _ _ _ Hu Hx) ltac:(lia)) as Hs.
    destruct (mqtt_byte received m x) as [[r m']|f]; [|by rewrite Hs]. destruct Hs as (-> & Hinv' & Hk' & i' & rest' & -> & Hat'). cbn [res_bind].
    rewrite (IH m' p (off + 1) i' x rest') by (done || lia). by replace (Z.to_nat (off + 1)) with (Datatypes.S (Z.to_nat off)) by lia.
  - pose proof (header_range _ _ _ _ Hh) as (Hv & Hr & _). pose proof Hinv as [Hl Hk Hhd]. rewrite Hh in Hhd. unfold is_u32 in Hv.
    rewrite (proj2 (Z.ltb_ge h 2)), Hb by lia. cbn [orb negb Z.eqb]. unfold MQTT_VAR_HEADER_BUFFER_LEN.
    rewrite (u32_id (idx m - h)) by (unfold is_u32; lia).
    pose proof (Z.mod_pos_bound (idx m - h) (128 - h) ltac:(lia)) as Hj. set (j := (idx m - h) mod (128 - h) + h).
    assert (Hj' : h <= j < 128) by (unfold j; lia). rewrite (u16_id j) by (unfold is_u16; lia).
    rewrite (u16_id (_ - off)), (u16_id (128 - j)), (u16_id (Z.min _ _)) by (unfold is_u16; lia).
    set (n := if 128 - j <? Z.min (Z.of_nat (length p) - off) (v + h - idx m) then 128 - j else Z.min (Z.of_nat (length p) - off) (v + h - idx m)).
    assert (Hn : n = Z.min (128 - j) (Z.min (Z.of_nat (length p) - off) (v + h - idx m))) by (unfold n; destruct (Z.ltb_spec (128 - j) (Z.min (Z.of_nat (length p) - off) (v + h - idx m))); lia).
    clearbody n. rewrite Hl, (proj2 (Z.ltb_ge (Z.of_nat 128) (j + n))) by lia. set (bs := take (Z.to_nat n) (drop (Z.to_nat off) p)).
    assert (Hbs : length bs = Z.to_nat n) by (unfold bs; rewrite length_take, length_drop; lia).
    rewrite (u16_id (off + n)), (u32_id (v + h - idx m - n)), (u16_id (j + n - h)) by (unfold is_u16, is_u32; lia).
    replace (drop (Z.to_nat off) p) with (bs ++ drop (Z.to_nat (off + n)) p)
      by (unfold bs; replace (Z.to_nat (off + n)) with (Z.to_nat off + Z.to_nat n)%nat by lia; rewrite <- drop_drop; apply take_drop).
    rewrite (body_bytes bs m h v) by (done || (rewrite ?Hbs; fold j; lia) || (intros E; rewrite E in Hbs; cbn in Hbs; lia)). cbv zeta.
    fold j. rewrite Hbs. replace (Z.of_nat (Z.to_nat n)) with n by lia. replace (v + h - idx m - n) with (v + h - (idx m + n)) by lia.
    set (m1 := upd_cl _ m). assert (Em : m1 = copied (idx m + n) j bs m).
    { unfold m1, copied, upd_cl. f_equal. unfold set_msg_idx, set_rx_buffer; cbn. f_equal. apply u32_id. unfold is_u32. lia. }
    rewrite !Em. clear m1 Em. set (m1 := copied _ _ _ _). assert (Hl1 : length (rx m1) = 128%nat) by (cbn; rewrite length_splice; [done|lia]).
    assert (Ht1 : take (Z.to_nat h) (rx m1) = take (Z.to_nat h) (rx m)) by (cbn; apply take_splice; lia). set (rest := v + h - (idx m + n)) in *.
    destruct ((rest =? 0) || (n =? 128 - j)) eqn:Ec.
    + destruct (received m1 h (j + n - h) rest) as [[r m2]|] eqn:Er; [|done]. cbn [res_bind]. destruct (negb _) eqn:En; [done|].
      destruct (received_keeps _ _ _ _ _ _ Er Hl1) as (Hl2 & Hk2). destruct (Z.eqb_spec rest 0) as [E0|Hne].
      * rewrite E0. destruct (fresh_inv m2 b Hl2) as (Hi & Ha). apply IH; try done; try lia. cbn. lia.
      * destruct (Hk2 Hne) as (Hk2' & Ht2). change (idx m1) with (idx m + n) in Hk2'.
        destruct (body_inv m m2 h v b (idx m + n)) as (Hi & Ha); [done|done|done|done|congruence|lia|done|]. apply IH; try done; lia.
    + apply orb_false_iff in Ec as (E0 & _). apply Z.eqb_neq in E0.
      destruct (body_inv m m1 h v b (idx m + n)) as (Hi & Ha); [done|done|done|done|done|lia|done|]. apply IH; try done; try lia. cbn. lia.
Qed.

(** A byte of the header that is in the buffer. *)
Lemma header_read m i :
  rx_inv m -> header (rx m) i = None -> 0 <= i < idx m ->
  i <= 5 /\ exists x, rx m !! Z.to_nat i = Some x
    /\ header (rx m) (i + 1) = if (1 <=? i) && (Z.land x 128 =? 0) then Some (i + 1, digit x i (value (drop 1 (take (Z.to_nat i) (rx m))) 1 0)) else None.
Proof.
  intros [Hl Hk Hhd] Hn Hi. assert (H5 : i <= 5).
  { destruct (header (rx m) (idx m)) as [[h v]|] eqn:Hh; [|lia]. destruct (Z.le_gt_cases h i); [|lia].
    rewrite (header_prefix _ (rx m) _ i _ _ Hh) in Hn by (done || lia). done. }
  split; [done|]. destruct (lookup_lt_is_Some_2 (rx m) (Z.to_nat i) ltac:(lia)) as [x Hx]. exists x. split; [done|].
  rewrite <- (list_insert_id _ _ _ Hx) at 1. apply header_next; [done|lia].
Qed.

(** The header is read again at the beginning of a packet. *)
Lemma reread n : forall fuel m p i b,
  rx_inv m -> header (rx m) i = None -> 0 <= i <= idx m -> 6 - i <= Z.of_nat n -> (i < 2 \/ Z.land b 128 <> 0) ->
  Z.of_nat (length p) <= 65535 -> idx m + Z.of_nat (length p) < 4294967296 -> Forall is_u8 p -> (length p + n < fuel)%nat ->
  parse_loop received fuel m p 0 (value (drop 1 (take (Z.to_nat i) (rx m))) 1 0) i b = mqtt_bytes received m p.
Proof.
  induction n as [|n IH]; intros fuel m p i b Hinv Hn Hi Hm Hb Hp Hidx Hu Hf;
    (destruct (Z.eq_dec i (idx m)) as [->|Hne]; [rewrite (loop_bytes _ m p 0) by (try done; try lia; by apply at_header); done|]);
    destruct (header_read m i Hinv Hn ltac:(lia)) as (H5 & x & Hx & Hnx); [lia|].
  destruct fuel as [|fuel]; [lia|]. cbn [parse_loop]. destruct (Z.ltb_spec 0 (Z.of_nat (length p))) as [Hlt|]; [|by destruct p].
  replace ((i <? 2) || negb (Z.land b 128 =? 0)) with true by (destruct (Z.ltb_spec i 2); [done|]; destruct (Z.eqb_spec (Z.land b 128) 0); [lia|done]).
  unfold header_byte. rewrite (proj2 (Z.ltb_lt i (idx m))) by lia. unfold rx_at. rewrite Hx. cbn [res_bind]. rewrite (u8_id (i + 1)) by (unfold is_u8; lia).
  set (a := value _ 1 0) in *.
  assert (Ev : 1 <= i -> value (drop 1 (take (Z.to_nat (i + 1)) (rx m))) 1 0 = digit x i a).
  { intros H1. pose proof (lookup_lt_Some _ _ _ Hx). replace (Z.to_nat (i + 1)) with (Datatypes.S (Z.to_nat i)) by lia.
    rewrite (take_S_r _ _ x Hx), drop_app_le, value_app by (rewrite ?length_take; lia). fold a. rewrite length_drop, length_take.
    by replace (1 + Z.of_nat (Z.to_nat i `min` length (rx m) - 1)) with i by lia. }
  destruct (Z.leb_spec 1 i) as [H1|H1]; cbn [andb] in Hnx.
  2:{ rewrite (proj2 (Z.leb_gt 2 _)) by lia. cbn [res_bind]. rewrite <- (IH fuel m p (i + 1) x); [|done..| | | | | | |]; try done; try lia.
      unfold a. f_equal. replace i with 0 by lia. by destruct (rx m). }
  rewrite (proj2 (Z.leb_le 2 _)), (proj2 (Z.leb_gt 32 _)) by lia. replace (i + 1 - 2) with (i - 1) by lia. fold (digit x i a).
  destruct (Z.land x 128 =? 0) eqn:E128.
  - assert (Hh : header (rx m) (idx m) = Some (i + 1, digit x i a)) by (eapply header_prefix; [done|done|lia]).
    pose proof Hinv as [Hl Hk Hhd]. rewrite Hh in Hhd. assert (Ha : is_u32 (digit x i a)) by (by apply digit_u32, value_u32). unfold is_u32 in Ha.
    unfold header_done. rewrite (proj2 (Z.eqb_neq _ 0)) by lia. rewrite u32_id by (unfold is_u32; lia). cbn [res_bind].
    rewrite (loop_bytes _ m p 0) by (try done; try lia; (eapply at_body; [done|done|done|lia])). done.
  - cbn [res_bind]. rewrite <- Ev by lia. apply IH; try done; lia.
Qed.

Lemma parse_incoming_bytes m p :
  rx_inv m -> Z.of_nat (length p) <= 65535 -> idx m + Z.of_nat (length p) < 4294967296 -> Forall is_u8 p -> parse_incoming received m p = mqtt_bytes received m p.
Proof.
  intros Hinv Hp Hidx Hu. pose proof (ri_idx _ Hinv). apply (reread 6 _ m p 0 0); try done; lia.
Qed.

(** The buffer between two packets. *)
Lemma byte_inv m x : rx_inv m -> is_u8 x -> holds (mqtt_byte received m x) (fun r => fst r = MQTT_CONNECT_ACCEPTED -> rx_inv (snd r) /\ idx (snd r) <= idx m + 1).
Proof.
  intros Hinv Hx. destruct (header (rx m) (idx m)) as [[h v]|] eqn:Hh.
  - pose proof Hinv as [Hl Hk Hhd]. pose proof (header_range _ _ _ _ Hh) as (_ & Hr & _). unfold mqtt_byte. rewrite Hh in *. unfold MQTT_VAR_HEADER_BUFFER_LEN.
    pose proof (Z.mod_pos_bound (idx m - h) (128 - h) ltac:(lia)) as Hj. set (j := _ mod _ + h). assert (Hj' : h <= j < 128) by (unfold j; lia).
    set (m1 := store j x m). assert (Hl1 : length (rx m1) = 128%nat) by (cbn; by rewrite length_insert).
    assert (Ht1 : take (Z.to_nat h) (rx m1) = take (Z.to_nat h) (rx m)) by (cbn; by rewrite take_insert_ge by lia).
    destruct (_ || _) eqn:Ec.
    + destruct (received _ _ _ _) as [[r m2]|] eqn:Er; [|done]. cbn [res_bind]. destruct (received_keeps _ _ _ _ _ _ Er Hl1) as (Hl2 & Hk2).
      destruct (r =? MQTT_CONNECT_ACCEPTED) eqn:E; cbn [negb holds fst snd]; [|intros ->; done]. intros _. destruct (Z.eqb_spec (v + h - (idx m + 1)) 0) as [E0|Hne].
      * split; [by apply (fresh_inv m2 0)|cbn; lia].
      * destruct (Hk2 Hne) as (Hk2' & Ht2). change (idx m1) with (idx m + 1) in Hk2'. split; [|lia].
        by destruct (body_inv m m2 h v 0 (idx m + 1)); [done|done|done|done|congruence|lia|done|].
    + intros _. apply orb_false_iff in Ec as (E0 & _). apply Z.eqb_neq in E0. split; [|done].
      by destruct (body_inv m m1 h v 0 (idx m + 1)); [done|done|done|done|done|lia|done|].
  - pose proof (new_header_byte m [x] 0 x Hinv Hh eq_refl Hx ltac:(lia)) as Hs. destruct (mqtt_byte received m x) as [[r m']|]; [|done].
    destruct Hs as (_ & Hi & Hk & _). done.
Qed.

Lemma bytes_inv p : forall m, rx_inv m -> Forall is_u8 p ->
  holds (mqtt_bytes received m p) (fun r => fst r = MQTT_CONNECT_ACCEPTED -> rx_inv (snd r) /\ idx (snd r) <= idx m + Z.of_nat (length p)).
Proof.
  induction p as [|x p IH]; intros m Hinv Hu; cbn [mqtt_bytes length]; [intros _; split; [done|cbn; lia]|]. inversion_clear Hu as [|?? Hx Hp].
  eapply holds_call; [by apply byte_inv|]. intros [r m1] Hb. cbn [fst snd] in Hb. destruct (Z.eqb_spec r MQTT_CONNECT_ACCEPTED) as [Er|]; cbn [negb]; [|done].
  destruct (Hb Er) as (Hi & Hk). eapply holds_weaken; [by apply IH|]. intros r' Hr E. destruct (Hr E). split; [done|lia].
Qed.

End Loop.

(** ** The handler of messages *)

Section Handler.
Context {S : Type} `{MqttTcp S} `{MqttApp S}.
Implicit Types m : mq S.

(** What is known of a message in progress. *)
Definition message m : list Z * Z := (rx_buffer (cl m), msg_idx (cl m)).

(** The callbacks may call the client, but not [mqtt_client_connect], which clears the buffer. *)
Class AppKeeps : Prop := {
  connect_keeps : forall f m arg st, holds (connect_fn f m arg st) (fun m' => message m' = message m);
  request_keeps : forall f m arg e, holds (request_fn f m arg e) (fun m' => message m' = message m);
  publish_keeps : forall f m arg t n, holds (publish_fn f m arg t n) (fun m' => message m' = message m);
  data_keeps : forall f m arg d n, holds (data_fn f m arg d n) (fun m' => message m' = message m)
}.
Context `{!AppKeeps}.

Lemma output_send_keeps m tpcb : holds (mqtt_output_send m tpcb) (fun m' => message m' = message m).
Proof.
  unfold mqtt_output_send. apply holds_skip. intros n. apply holds_skip. intros _. destruct (_ || _); [done|].
  destruct (if _ <? _ then _ else _) as [k w]. apply holds_skip. intros [e s]. apply holds_skip. intros [[[e' k'] rb] s']. destruct (bool_decide _); [|done].
  apply holds_skip. done.
Qed.

Lemma response_keeps m msg id qos : holds (pub_ack_rec_rel_response m msg id qos) (fun r => message (snd r) = message m).
Proof.
  unfold pub_ack_rec_rel_response. apply holds_skip. intros [|]; [|done]. apply holds_skip. intros rb.
  eapply holds_call; [apply output_send_keeps|]. intros m' E. exact E.
Qed.

Lemma callback_keeps (b : bool) (r : res (mq S)) m : holds r (fun m' => message m' = message m) -> holds (if b then r else Ok m) (fun m' => message m' = message m).
Proof. by destruct b. Qed.

Lemma ack_keeps m v l ty id : holds (ack_received m v l ty id) (fun r => message (snd r) = message m).
Proof.
  unfold ack_received. apply holds_skip. intros [[k q] rs]. destruct k as [k|]; [|done]. apply holds_skip. intros r. destruct (_ && _); [done|].
  eapply (holds_call _ _ (fun m' => message m' = message m)).
  - change (message m) with (message (upd_cl (fun c => set_pend_req_queue q (set_req_list rs c)) m)).
    destruct (_ =? _); [apply holds_skip; intros b; unfold mqtt_incomming_suback|]; apply callback_keeps, request_keeps.
  - intros m' E. apply holds_skip. intros l'. exact E.
Qed.

(** The first [i] bytes of the buffer. *)
Definition same (i : Z) m m' : Prop :=
  length (rx_buffer (cl m')) = length (rx_buffer (cl m)) /\ msg_idx (cl m') = msg_idx (cl m)
  /\ take (Z.to_nat i) (rx_buffer (cl m')) = take (Z.to_nat i) (rx_buffer (cl m)).

Lemma same_message i m m' : message m' = message m -> same i m m'.
Proof. unfold message, same. by intros [= -> ->]. Qed.

Lemma same_trans i m m1 m' : same i m m1 -> same i m1 m' -> same i m m'.
Proof. intros (? & ? & ?) (? & ? & ?). split_and!; congruence. Qed.

Lemma rx_set_same i m k x : i <= k -> holds (rx_set m k x) (same i m).
Proof.
  intros Hk. unfold rx_set. destruct (_ <? _); [|done]. split_and!; cbn; [by rewrite length_insert|done|]. rewrite take_insert_ge by lia. done.
Qed.

Lemma publish_header_keeps m v l rest qos : holds (publish_header m v l rest qos) (fun r => same v m (snd r)).
Proof.
  unfold publish_header. apply holds_skip. intros hi. apply holds_skip. intros lo. destruct (_ <? _); [by apply same_message|].
  set (tl := u16 (u16 _ + lo)). pose proof (u16_range (u16 (Z.shiftl hi 8) + lo)) as Ht. fold tl in Ht. unfold is_u16 in Ht.
  eapply (holds_call _ _ (fun r => message (snd r) = message m)).
  { destruct (0 <? qos); [|done]. apply holds_skip. intros h. apply holds_skip. intros l'. done. }
  intros [a m1] E1. apply (same_message v) in E1. cbn [snd] in E1. apply holds_skip. intros bkp.
  eapply holds_call; [apply (rx_set_same v); lia|]. intros m2 E2. eapply (holds_call _ _ (fun m3 => message m3 = message m2)).
  { apply callback_keeps. apply holds_skip. intros t. apply publish_keeps. }
  intros m3 E3. apply (same_message v) in E3. eapply holds_call; [apply (rx_set_same v); lia|]. intros m4 E4. cbn.
  eapply same_trans; [exact E1|]. eapply same_trans; [exact E2|]. eapply same_trans; [exact E3|exact E4].
Qed.

Lemma publish_received_keeps m v l rest : holds (publish_received m v l rest) (fun r => same v m (snd r)).
Proof.
  unfold publish_received. apply holds_skip. intros b0. eapply (holds_call _ _ (fun r => same v m (snd r))).
  { destruct (_ <=? _); [apply publish_header_keeps|by apply same_message]. }
  intros [[[off n]|] m1] E1; [|done]. destruct (_ || _); [|done]. apply holds_skip. intros d. destruct (_ =? _); [done|].
  eapply holds_call; [apply data_keeps|]. intros m2 E2. eapply (holds_call _ _ (fun m3 => message m3 = message m2)).
  { apply callback_keeps. eapply holds_call; [apply response_keeps|]. intros [e m3] E3. exact E3. }
  intros m3 E3. eapply same_trans; [exact E1|]. apply same_message. cbn. congruence.
Qed.

Lemma message_received_keeps m v l rest : holds (mqtt_message_received m v l rest) (fun r => same v m (snd r)).
Proof.
  assert (Hs : forall (r : res (Z * mq S)), holds r (fun r => message (snd r) = message m) -> holds r (fun r => same v m (snd r))).
  { intros r Hr. eapply holds_weaken; [exact Hr|]. intros x. apply same_message. }
  unfold mqtt_message_received. apply holds_skip. intros b0. destruct (_ =? _); [|destruct (_ =? _); [by apply same_message|]].
  - apply Hs. destruct (bool_decide _); [|done]. apply holds_skip. intros code. destruct (_ =? _); [|done].
    eapply (holds_call _ _ (fun m' => message m' = message m)); [|done].
    change (message m) with (message (upd_cl (fun c => set_conn_state MQTT_CONNECTED (set_cyclic_tick 0 c)) m)). apply callback_keeps, connect_keeps.
  - destruct (_ =? _); [apply publish_received_keeps|]. apply Hs. apply holds_skip. intros hi. apply holds_skip. intros lo. destruct (_ =? 0); [done|].
    destruct (_ =? _); [|destruct (_ =? _)]; [eapply holds_call; [apply response_keeps|]; intros [e m'] E; exact E..|].
    destruct (_ || _); [apply ack_keeps|done].
Qed.

Lemma mqtt_keeps_message : keeps_message (mqtt_message_received (S := S)).
Proof.
  intros m i l rest r m' E Hl. pose proof (message_received_keeps m i l rest) as Hs. rewrite E in Hs. destruct Hs as (E1 & E2 & E3). cbn in *.
  split; [congruence|done].
Qed.

(** C16: wherever the segments of TCP end, the messages of the server are handled in the same way:
    the parser does what its specification does byte by byte, it does the same with two packets as
    with their bytes in one, and leaves the buffer in order for the next packet. *)
Theorem mqtt_parse_incoming_correct m p q :
  rx_inv m -> Z.of_nat (length (p ++ q)) <= 65535 -> msg_idx (cl m) + Z.of_nat (length (p ++ q)) < 4294967296 -> Forall is_u8 (p ++ q) ->
  mqtt_parse_incoming m (p ++ q) = mqtt_bytes mqtt_message_received m (p ++ q)
  /\ mqtt_parse_incoming m (p ++ q)
     = (let* (r, m1) := mqtt_parse_incoming m p in if negb (r =? MQTT_CONNECT_ACCEPTED) then Ok (r, m1) else mqtt_parse_incoming m1 q)
  /\ holds (mqtt_parse_incoming m p) (fun r => fst r = MQTT_CONNECT_ACCEPTED -> rx_inv (snd r)).
Proof.
  intros Hinv Hp Hidx Hu. pose proof mqtt_keeps_message as Hk. unfold mqtt_parse_incoming. rewrite length_app in Hp, Hidx. pose proof Hu as Hu'. apply Forall_app in Hu' as (Hu1 & Hu2).
  rewrite !(parse_incoming_bytes _ Hk m) by (rewrite ?length_app; done || lia). pose proof (bytes_inv _ Hk p m Hinv Hu1) as Hb.
  split_and!; [done| |eapply holds_weaken; [exact Hb|]; intros r Hr E; by apply Hr].
  rewrite mqtt_bytes_app. destruct (mqtt_bytes _ m p) as [[r m1]|]; [|done]. cbn [res_bind]. destruct (Z.eqb_spec r MQTT_CONNECT_ACCEPTED) as [E|]; [|done].
  cbn [negb holds fst snd] in *. destruct (Hb E) as (Hi1 & Hk1). by rewrite (parse_incoming_bytes _ Hk m1) by (done || lia).
Qed.

End Handler.

(** ** Examples *)

#[export] Instance sim_keeps : AppKeeps (S := world).
Proof. by split. Qed.

(** PUBLISH of the data 104 105 with QoS 1 under the topic 97 98, in two packets: the first ends in the topic. *)
Lemma mqtt_parse_incoming_correct_witness :
  mqtt_parse_incoming online_client ([50; 8; 0; 2; 97] ++ [98; 0; 5; 104; 105])
  = (let* (r, m1) := mqtt_parse_incoming online_client [50; 8; 0; 2; 97] in
     if negb (r =? MQTT_CONNECT_ACCEPTED) then Ok (r, m1) else mqtt_parse_incoming m1 [98; 0; 5; 104; 105])
  /\ match mqtt_parse_incoming online_client ([50; 8; 0; 2; 97] ++ [98; 0; 5; 104; 105]) with
     | Ok (r, m) => r = MQTT_CONNECT_ACCEPTED /\ events (env m) = [Timer true; Connected 0; Published [97; 98] 2; Received [104; 105] 1]
                    /\ drop 16 (sent (env m)) = [64; 2; 0; 5]
     | Fault _ => False
     end.
Proof.
  split; [|vm_compute; split_and!; reflexivity].
  refine (proj1 (proj2 (mqtt_parse_incoming_correct online_client [50; 8; 0; 2; 97] [98; 0; 5; 104; 105] _ _ _ _))).
  - split; [vm_compute; reflexivity|vm_compute; discriminate|]. vm_compute. discriminate.
  - vm_compute. discriminate.
  - vm_compute. reflexivity.
  - repeat constructor; vm_compute; congruence.
Defined.
