(* ===== verification/MqttOut.v ===== *)
(** * Outgoing messages: the ring buffer and the requests of lwip/src/apps/mqtt/mqtt.c

    The ring buffer is a queue of bytes, the connection a stream: what the client sends is what it
    has written.  The requests that wait for an answer are a list, each with the time it has left. *)

From S2P Require Import Prelude IpFrame Mqtt MqttSim.

(** ** The ring buffer *)

Record rb_ok (rb : mqtt_ringbuf) : Prop := {
  rb_len : length (rb_buf rb) = 256%nat;
  rb_put_u16 : is_u16 (rb_put rb);
  rb_get_u16 : is_u16 (rb_get rb);
  rb_full : mqtt_ringbuf_len rb <= 256
}.

Definition rb_byte (rb : mqtt_ringbuf) (k : nat) : Z := nth (Z.to_nat ((rb_get rb + Z.of_nat k) mod 256)) (rb_buf rb) 0.

(** The bytes that wait to be sent. *)
Definition rb_data (rb : mqtt_ringbuf) : list Z := map (rb_byte rb) (seq 0 (Z.to_nat (mqtt_ringbuf_len rb))).

Lemma land_mask x : Z.land x MQTT_RINGBUF_IDX_MASK = x mod 256.
Proof. exact (Z.land_ones x 8 ltac:(lia)). Qed.

Lemma u16_mod256 x : u16 x mod 256 = x mod 256.
Proof. unfold u16. rewrite <- (Z.mod_mod_divide x 65536 256); [done|by exists 256]. Qed.

Lemma ringbuf_len_range rb : 0 <= mqtt_ringbuf_len rb < 65536.
Proof. apply u16_range. Qed.

Lemma length_rb_data rb : length (rb_data rb) = Z.to_nat (mqtt_ringbuf_len rb).
Proof. unfold rb_data. by rewrite length_map, length_seq. Qed.

(** A byte is appended. *)
Lemma put_data rb x : rb_ok rb -> mqtt_ringbuf_len rb < 256 ->
  rb_ok (mqtt_ringbuf_put rb x) /\ rb_data (mqtt_ringbuf_put rb x) = rb_data rb ++ [u8 x] /\ mqtt_ringbuf_len (mqtt_ringbuf_put rb x) = mqtt_ringbuf_len rb + 1.
Proof.
  intros [Hl Hp Hg Hf] Hlt. unfold is_u16 in *. set (n := mqtt_ringbuf_len rb) in *. pose proof (ringbuf_len_range rb) as Hn. fold n in Hn.
  assert (En : mqtt_ringbuf_len (mqtt_ringbuf_put rb x) = n + 1).
  { unfold mqtt_ringbuf_len. cbn. unfold u16 in *. rewrite Zminus_mod_idemp_l. replace (rb_put rb + 1 - rb_get rb) with (rb_put rb - rb_get rb + 1) by lia.
    rewrite <- Zplus_mod_idemp_l. fold (u16 (rb_put rb - rb_get rb)). fold (mqtt_ringbuf_len rb). fold n. apply Z.mod_small. lia. }
  assert (Ep : rb_put rb mod 256 = (rb_get rb + n) mod 256).
  { unfold n, mqtt_ringbuf_len. rewrite <- Zplus_mod_idemp_r, u16_mod256, Zplus_mod_idemp_r. f_equal. lia. }
  split_and!; [| |done].
  - split; [cbn; by rewrite length_insert|cbn; apply u16_range|done|]. rewrite En. lia.
  - unfold rb_data. rewrite En. fold n. replace (Z.to_nat (n + 1)) with (Z.to_nat n + 1)%nat by lia. rewrite seq_app, map_app. cbn [seq map]. f_equal.
    + apply map_ext_in. intros k Hk. apply in_seq in Hk. unfold rb_byte. cbn. rewrite land_mask, Ep, !nth_lookup, list_lookup_insert_ne; [done|].
      intros E. apply Z2Nat.inj in E; try (apply Z.mod_pos_bound; lia). zlia.
    + unfold rb_byte. cbn. rewrite land_mask, Ep, nth_lookup, Z2Nat.id by lia. rewrite list_lookup_insert_eq; [done|]. rewrite Hl.
      pose proof (Z.mod_pos_bound (rb_get rb + n) 256 ltac:(lia)). lia.
Qed.

(** [f] appends the bytes [bs]. *)
Definition appends (f : mqtt_ringbuf -> mqtt_ringbuf) (bs : list Z) : Prop := forall rb,
  rb_ok rb -> mqtt_ringbuf_len rb + Z.of_nat (length bs) <= 256 ->
  rb_ok (f rb) /\ rb_data (f rb) = rb_data rb ++ bs /\ mqtt_ringbuf_len (f rb) = mqtt_ringbuf_len rb + Z.of_nat (length bs).

Lemma appends_put x : appends (fun rb => mqtt_ringbuf_put rb x) [u8 x].
Proof. intros rb Hok Hl. cbn [length] in *. apply put_data; [done|lia]. Qed.

Lemma appends_seq f g bs cs : appends f bs -> appends g cs -> appends (fun rb => g (f rb)) (bs ++ cs).
Proof.
  intros Hf Hg rb Hok Hl. rewrite length_app in Hl. destruct (Hf rb Hok ltac:(lia)) as (Hok1 & E1 & L1). destruct (Hg (f rb) Hok1 ltac:(lia)) as (Hok2 & E2 & L2).
  split_and!; [done|rewrite E2, E1; by rewrite app_assoc|rewrite length_app; lia].
Qed.

Lemma appends_buf ds : Forall is_u8 ds -> appends (fun rb => foldl mqtt_ringbuf_put rb ds) ds.
Proof.
  induction 1 as [|x ds Hx Hds IH]; [intros rb Hok _; split_and!; [done|by rewrite app_nil_r|cbn; lia]|].
  pose proof (appends_seq _ _ _ _ (appends_put x) IH) as Ha. cbn [app] in Ha. by rewrite (u8_id x Hx) in Ha.
Qed.

(** A number with its high byte first. *)
Definition be16 (v : Z) : list Z := [v / 256; v mod 256].

Lemma appends_u16 v : is_u16 v -> appends (fun rb => mqtt_output_append_u16 rb v) (be16 v).
Proof.
  intros Hv. unfold is_u16 in Hv. assert (E1 : u8 (Z.shiftr v 8) = v / 256) by (rewrite Z.shiftr_div_pow2 by lia; apply u8_id; unfold is_u8; change (2 ^ 8) with 256; zlia).
  assert (E2 : u8 (Z.land v 255) = v mod 256) by (change 255 with (Z.ones 8); rewrite Z.land_ones by lia; apply u8_id; unfold is_u8; change (2 ^ 8) with 256; zlia).
  unfold be16. rewrite <- E1, <- E2. exact (appends_seq _ _ _ _ (appends_put _) (appends_put _)).
Qed.

Lemma appends_string str v : is_u16 v -> Forall is_u8 str -> appends (fun rb => mqtt_output_append_string rb str v) (be16 v ++ str).
Proof. intros Hv Hs. exact (appends_seq _ _ _ _ (appends_u16 v Hv) (appends_buf str Hs)). Qed.

(** The remaining length, to the base 128 with the low digit first. *)
Fixpoint varint (fuel : nat) (n : Z) : list Z :=
  match fuel with
  | O => []
  | S fuel' => if n <? 128 then [n] else n mod 128 + 128 :: varint fuel' (n / 128)
  end.

Lemma append_length_data fuel : forall n, 0 <= n < 128 ^ Z.of_nat fuel -> (0 < fuel)%nat ->
  exists f, (forall rb, append_length fuel rb n = Ok (f rb)) /\ appends f (varint fuel n).
Proof.
  induction fuel as [|fuel IH]; intros n Hn Hf; [lia|]. cbn [append_length varint]. change 127 with (Z.ones 7). rewrite Z.land_ones, Z.shiftr_div_pow2 by lia. change (2 ^ 7) with 128.
  destruct (Z.ltb_spec n 128) as [Hlt|Hge].
  - rewrite (Z.mod_small n), (Z.div_small n), (proj2 (Z.leb_gt 128 n)), Z.lor_0_r by lia. cbn [Z.ltb Z.compare].
    exists (fun rb => mqtt_output_append_u8 rb n). split; [done|]. pose proof (appends_put n) as Ha. by rewrite (u8_id n) in Ha by (unfold is_u8; lia).
  - rewrite (proj2 (Z.leb_le 128 n)), (proj2 (Z.ltb_lt 0 (n / 128))) by (try apply Z.div_str_pos; lia).
    destruct fuel as [|fuel]; [cbn in Hn; lia|]. destruct (IH (n / 128)) as (f & Ef & Ha); [|lia|].
    { split; [zlia|]. apply Z.div_lt_upper_bound; [lia|]. replace (Z.of_nat (S (S fuel))) with (Z.of_nat (S fuel) + 1) in Hn by lia. rewrite Z.pow_add_r in Hn by lia. lia. }
    exists (fun rb => f (mqtt_output_append_u8 rb (Z.lor (n mod 128) 128))). split; [intros rb; apply Ef|].
    assert (El : Z.lor (n mod 128) 128 = n mod 128 + 128).
    { change 128 with (2 ^ 7). symmetry. apply Z.add_nocarry_lor. apply Z.bits_inj'. intros k Hk.
      rewrite Z.land_spec, Z.bits_0, Z.pow2_bits_eqb by lia. destruct (Z.eqb_spec 7 k) as [<-|]; [|by rewrite andb_false_r].
      by rewrite Z.mod_pow2_bits_high by lia. }
    pose proof (appends_seq _ _ _ _ (appends_put (Z.lor (n mod 128) 128)) Ha) as Hs. rewrite u8_id in Hs by (rewrite El; unfold is_u8; zlia). rewrite <- El. exact Hs.
Qed.

Lemma fixed_header_data ty dup qos retain n : 0 <= n < 65536 ->
  exists f, (forall rb, mqtt_output_append_fixed_header rb ty dup qos retain n = Ok (f rb))
    /\ appends f (u8 (Z.lor (Z.lor (Z.lor (Z.shiftl (Z.land ty 15) 4) (Z.shiftl (Z.land dup 1) 3)) (Z.shiftl (Z.land qos 3) 1)) (Z.land retain 1)) :: varint 3 n).
Proof.
  intros Hn. destruct (append_length_data 3 n) as (f & Ef & Ha); [change (128 ^ Z.of_nat 3) with 2097152; lia|lia|].
  unfold mqtt_output_append_fixed_header. eexists. split; [intros rb; apply Ef|]. exact (appends_seq _ _ _ _ (appends_put _) Ha).
Qed.

(** The test for space is exact, as long as the sum fits. *)
Lemma count_length_data fuel : forall t n, 0 <= t -> t + Z.of_nat fuel < 65536 -> 0 <= n < 128 ^ Z.of_nat fuel -> (0 < fuel)%nat ->
  count_length fuel t n = Ok (t + Z.of_nat (length (varint fuel n))).
Proof.
  induction fuel as [|fuel IH]; intros t n Ht Hf Hn H0; [lia|]. cbn [count_length varint]. rewrite Z.shiftr_div_pow2 by lia. change (2 ^ 7) with 128.
  rewrite (u16_id (t + 1)) by (unfold is_u16; lia). destruct (Z.ltb_spec n 128).
  - rewrite (Z.div_small n) by lia. done.
  - rewrite (proj2 (Z.ltb_lt 0 (n / 128))) by (apply Z.div_str_pos; lia). destruct fuel as [|fuel]; [cbn in Hn; lia|]. rewrite IH; [cbn [length]; f_equal; lia|lia|lia| |lia].
    split; [zlia|]. apply Z.div_lt_upper_bound; [lia|]. replace (Z.of_nat (S (S fuel))) with (Z.of_nat (S fuel) + 1) in Hn by lia. rewrite Z.pow_add_r in Hn by lia. lia.
Qed.

Lemma check_space_data rb n : 0 <= n <= 65531 ->
  mqtt_output_check_space rb n = Ok (1 + n + Z.of_nat (length (varint 3 n)) <=? 256 - mqtt_ringbuf_len rb).
Proof.
  intros Hn. unfold mqtt_output_check_space. rewrite u16_id by (unfold is_u16; lia).
  rewrite count_length_data by (change (128 ^ Z.of_nat 3) with 2097152; lia). done.
Qed.

(** *** Reading *)

Lemma advance_data rb n : rb_ok rb -> 0 <= n <= mqtt_ringbuf_len rb ->
  rb_ok (mqtt_ringbuf_advance_get_idx rb n) /\ rb_data (mqtt_ringbuf_advance_get_idx rb n) = drop (Z.to_nat n) (rb_data rb)
  /\ mqtt_ringbuf_len (mqtt_ringbuf_advance_get_idx rb n) = mqtt_ringbuf_len rb - n.
Proof.
  intros [Hl Hp Hg Hf] Hn. set (len := mqtt_ringbuf_len rb) in *.
  assert (En : mqtt_ringbuf_len (mqtt_ringbuf_advance_get_idx rb n) = len - n).
  { unfold mqtt_ringbuf_len. cbn. unfold u16. rewrite Zminus_mod_idemp_r. replace (rb_put rb - (rb_get rb + n)) with (rb_put rb - rb_get rb - n) by lia.
    rewrite <- Zminus_mod_idemp_l. fold (u16 (rb_put rb - rb_get rb)). fold (mqtt_ringbuf_len rb). fold len. apply Z.mod_small. lia. }
  split_and!; [|unfold rb_data; rewrite En; fold len|done].
  - split; [done|done|apply u16_range|lia].
  - apply list_eq. intros k. rewrite lookup_drop. unfold rb_data. fold len. rewrite !list_lookup_fmap.
    destruct (decide (k < Z.to_nat (len - n))%nat).
    + rewrite !lookup_seq_lt by lia. cbn. f_equal. unfold rb_byte. cbn. rewrite <- Zplus_mod_idemp_l, u16_mod256, Zplus_mod_idemp_l. f_equal. f_equal. f_equal. lia.
    + rewrite !lookup_seq_ge by lia. done.
Qed.

Lemma linear_range rb : rb_ok rb -> 0 <= mqtt_ringbuf_linear_read_length rb <= mqtt_ringbuf_len rb /\ (mqtt_ringbuf_linear_read_length rb = 0 -> mqtt_ringbuf_len rb = 0).
Proof.
  intros [Hl Hp Hg Hf]. unfold mqtt_ringbuf_linear_read_length, MQTT_OUTPUT_RINGBUF_SIZE. rewrite land_mask. pose proof (ringbuf_len_range rb).
  pose proof (Z.mod_pos_bound (rb_get rb) 256 ltac:(lia)). lia.
Qed.

Lemma linear_data rb n : rb_ok rb -> 0 <= n <= mqtt_ringbuf_linear_read_length rb -> take (Z.to_nat n) (mqtt_ringbuf_get_ptr rb) = take (Z.to_nat n) (rb_data rb).
Proof.
  intros [Hl Hp Hg Hf] Hn. unfold mqtt_ringbuf_linear_read_length, MQTT_OUTPUT_RINGBUF_SIZE, mqtt_ringbuf_get_ptr in *. rewrite land_mask in *.
  pose proof (Z.mod_pos_bound (rb_get rb) 256 ltac:(lia)) as Hm. apply list_eq. intros k.
  destruct (decide (k < Z.to_nat n)%nat); [|rewrite !lookup_take_ge by lia; done]. rewrite !lookup_take_lt by lia.
  unfold rb_data. rewrite lookup_drop, list_lookup_fmap, lookup_seq_lt by lia. cbn. unfold rb_byte.
  replace ((rb_get rb + Z.of_nat k) mod 256) with (rb_get rb mod 256 + Z.of_nat k) by (rewrite <- Zplus_mod_idemp_l; symmetry; apply Z.mod_small; lia).
  replace (Z.to_nat (rb_get rb mod 256 + Z.of_nat k)) with (Z.to_nat (rb_get rb mod 256) + k)%nat by lia. rewrite nth_lookup.
  destruct (lookup_lt_is_Some_2 (rb_buf rb) (Z.to_nat (rb_get rb mod 256) + k)) as [x ->]; [lia|]. done.
Qed.

(** ** Sending *)

(** What the client relies on: the bytes that [tcp_write] has accepted are a stream.  It may refuse
    them, and the send buffer has any size. *)
Class MqttStream (S : Type) `{MqttTcp S} := {
  is_open : S -> Z -> Prop;
  written : S -> Z -> list Z;
  sndbuf_law : forall s pcb, is_open s pcb -> exists n, tcp_sndbuf s pcb = Ok n /\ 0 <= n;
  write_law : forall s pcb d f, is_open s pcb ->
    exists e s', tcp_write s pcb d f = Ok (e, s') /\ is_open s' pcb /\ written s' pcb = if bool_decide (e = ERR_OK) then written s pcb ++ d else written s pcb;
  output_law : forall s pcb, is_open s pcb -> exists s', tcp_output s pcb = Ok s' /\ is_open s' pcb /\ written s' pcb = written s pcb
}.

Section Send.
Context {S : Type} `{MqttStream S}.
Implicit Types m : mq S.

(** What has been written to the connection and what waits in the buffer. *)
Definition stream (s : S) (pcb : Z) (rb : mqtt_ringbuf) : list Z := written s pcb ++ rb_data rb.

(** Part of the buffer is written. *)
Lemma write_step s pcb rb n f :
  rb_ok rb -> is_open s pcb -> 0 <= n <= mqtt_ringbuf_linear_read_length rb ->
  exists e s', tcp_write s pcb (take (Z.to_nat n) (mqtt_ringbuf_get_ptr rb)) f = Ok (e, s') /\ is_open s' pcb
    /\ let rb' := if bool_decide (e = ERR_OK) then mqtt_ringbuf_advance_get_idx rb n else rb in rb_ok rb' /\ stream s' pcb rb' = stream s pcb rb.
Proof.
  intros Hok Ho Hn. pose proof (linear_range rb Hok) as (Hr & _). destruct (write_law s pcb (take (Z.to_nat n) (mqtt_ringbuf_get_ptr rb)) f Ho) as (e & s' & E & Ho' & Ew).
  exists e, s'. split; [done|]. split; [done|]. unfold stream. rewrite Ew. destruct (bool_decide _); [|done].
  destruct (advance_data rb n Hok ltac:(lia)) as (Hok' & Ed & _). split; [done|]. rewrite Ed, linear_data, <- app_assoc by done. f_equal. apply take_drop.
Qed.

Lemma output_send_spec m pcb :
  rb_ok (output (cl m)) -> is_open (env m) pcb -> pcb <> NULL ->
  exists rb' s', mqtt_output_send m pcb = Ok (mk_mq (set_output rb' (cl m)) s') /\ rb_ok rb' /\ is_open s' pcb
    /\ stream s' pcb rb' = stream (env m) pcb (output (cl m)).
Proof.
  intros Hok Ho Hp. unfold mqtt_output_send. destruct (sndbuf_law (env m) pcb Ho) as (n & -> & Hn). cbn [res_bind].
  rewrite (proj2 (Z.eqb_neq pcb NULL) Hp). cbn [negb lwip_assert res_bind]. set (rb := output (cl m)) in *. pose proof (linear_range rb Hok) as (Hr & Hz).
  destruct (_ || _) eqn:Ez; [by exists rb, (env m); destruct m as [[] s]|].
  destruct (if _ <? _ then _ else _) as [k w] eqn:Ek.
  assert (Hk : 0 <= k <= mqtt_ringbuf_linear_read_length rb) by (destruct (Z.ltb_spec (mqtt_ringbuf_linear_read_length rb) n); injection Ek as <- _; lia).
  edestruct (write_step (env m) pcb rb k) as (e & s1 & -> & Ho1 & Hok1 & E1); [done..|]. cbn [res_bind]. destruct (bool_decide (e = ERR_OK)) eqn:Ee; cbn [andb].
  2:{ cbn [res_bind]. rewrite Ee. by exists rb, s1. }
  destruct w; cbn [res_bind].
  - set (rb1 := mqtt_ringbuf_advance_get_idx rb k) in *. destruct (sndbuf_law s1 pcb Ho1) as (n1 & -> & Hn1). cbn [res_bind]. pose proof (linear_range rb1 Hok1) as (Hr1 & _).
    edestruct (write_step s1 pcb rb1 (Z.min n1 (mqtt_ringbuf_linear_read_length rb1))) as (e1 & s2 & -> & Ho2 & Hok2 & E2); [done|done|lia|]. cbn [res_bind].
    destruct (bool_decide (e1 = ERR_OK)).
    + destruct (output_law s2 pcb Ho2) as (s3 & -> & Ho3 & E3). cbn [res_bind]. eexists _, s3. split_and!; [done|done|done|]. unfold stream in *. congruence.
    + exists rb1, s2. split_and!; [done|done|done|congruence].
  - rewrite Ee. destruct (output_law s1 pcb Ho1) as (s3 & -> & Ho3 & E3). cbn [res_bind]. eexists _, s3. split_and!; [done|done|done|]. unfold stream in *. congruence.
Qed.

End Send.

(** ** Requests *)

(** The requests [ks] from [q] on, up to [e]. *)
Fixpoint rseg (l : list mqtt_request) (q : option nat) (ks : list nat) (e : option nat) : Prop :=
  match ks with
  | [] => q = e
  | k :: ks' => q = Some k /\ exists r, l !! k = Some r /\ rseg l (r_next r) ks' e
  end.

(** The time left before the last of [ks] expires. *)
Fixpoint total (l : list mqtt_request) (t : Z) (ks : list nat) : Z :=
  match ks with
  | [] => t
  | k :: ks' => total l (t + match l !! k with Some r => r_timeout_diff r | None => 0 end) ks'
  end.

(** A request that waits: its identifier, callback and argument, and the time it has left. *)
Definition waiting_one (t : Z) (r : mqtt_request) : Z * Z * Z * Z := (r_pkt_id r, r_cb r, r_arg r, t + r_timeout_diff r).
Fixpoint waiting (l : list mqtt_request) (t : Z) (ks : list nat) : list (Z * Z * Z * Z) :=
  match ks with
  | [] => []
  | k :: ks' => match l !! k with
                | Some r => waiting_one t r :: waiting l (t + r_timeout_diff r) ks'
                | None => []
                end
  end.

Record reqs_ok (l : list mqtt_request) (q : option nat) (ks : list nat) : Prop := {
  rq_len : length l = MQTT_REQ_MAX_IN_FLIGHT;
  rq_seg : rseg l q ks None;
  rq_nodup : NoDup ks;
  rq_free : forall k r, l !! k = Some r -> k ∉ ks -> r_next r = Some k;
  rq_time : Forall (fun r => 0 <= r_timeout_diff r) l;
  rq_total : total l 0 ks <= MQTT_REQ_TIMEOUT
}.

Section Queue.
Implicit Types (l : list mqtt_request) (ks : list nat) (q : option nat).

Lemma rseg_app l ks1 : forall q ks2 e, rseg l q (ks1 ++ ks2) e <-> exists q', rseg l q ks1 q' /\ rseg l q' ks2 e.
Proof.
  induction ks1 as [|k ks1 IH]; intros q ks2 e; cbn [app rseg]; [split; [by exists q|by intros (q' & -> & ?)]|]. split.
  - intros (-> & r & Hr & Hs). apply IH in Hs as (q' & H1 & H2). exists q'. split; [|done]. split; [done|]. by exists r.
  - intros (q' & (-> & r & Hr & Hs) & H2). split; [done|]. exists r. split; [done|]. apply IH. by exists q'.
Qed.

Lemma rseg_insert l k r ks : forall q e, k ∉ ks -> rseg l q ks e -> rseg (<[k := r]> l) q ks e.
Proof.
  induction ks as [|j ks IH]; intros q e Hk; cbn [rseg]; [done|]. apply not_elem_of_cons in Hk as (Hne & Hk). intros (-> & r' & Hr & Hs). split; [done|].
  exists r'. split; [by rewrite list_lookup_insert_ne|by apply IH].
Qed.

Lemma rseg_lookup l k ks : forall q e, rseg l q ks e -> k ∈ ks -> exists r, l !! k = Some r.
Proof.
  induction ks as [|j ks IH]; intros q e Hs Hk; [by apply elem_of_nil in Hk|]. destruct Hs as (-> & r & Hr & Hs). apply elem_of_cons in Hk as [->|Hk]; [by exists r|by eapply IH].
Qed.

(** A request of the queue does not point to itself. *)
Lemma rseg_next l k r ks : forall q, rseg l q ks None -> NoDup ks -> k ∈ ks -> l !! k = Some r -> r_next r <> Some k.
Proof.
  induction ks as [|j ks IH]; intros q Hs Hd Hk Hr; [by apply elem_of_nil in Hk|]. destruct Hs as (_ & r' & Hr' & Hs). inversion_clear Hd as [|?? Hj Hd'].
  apply elem_of_cons in Hk as [->|Hk]; [|by eapply IH]. rewrite Hr in Hr'. injection Hr' as <-. intros E. rewrite E in Hs.
  destruct ks as [|j' ks]; [done|]. destruct Hs as ([= ->] & _). apply Hj. left.
Qed.

Lemma time_app l ks1 : forall t ks2, total l t (ks1 ++ ks2) = total l (total l t ks1) ks2.
Proof. induction ks1 as [|k ks1 IH]; intros t ks2; [done|]. cbn [app total]. apply IH. Qed.

(** The times depend on the differences only. *)
Definition same_info (r r' : mqtt_request) : Prop :=
  r_pkt_id r' = r_pkt_id r /\ r_cb r' = r_cb r /\ r_arg r' = r_arg r /\ r_timeout_diff r' = r_timeout_diff r.

Lemma waiting_ext l l' ks : forall t,
  (forall k r, k ∈ ks -> l !! k = Some r -> exists r', l' !! k = Some r' /\ same_info r r') -> (forall k, k ∈ ks -> is_Some (l !! k)) ->
  waiting l' t ks = waiting l t ks /\ total l' t ks = total l t ks.
Proof.
  induction ks as [|k ks IH]; intros t Hl Hs; [done|]. destruct (Hs k ltac:(left)) as (r & Hr). destruct (Hl k r ltac:(left) Hr) as (r' & Hr' & E1 & E2 & E3 & E4).
  cbn [waiting total]. rewrite Hr, Hr'. unfold waiting_one. rewrite E1, E2, E3, E4.
  destruct (IH (t + r_timeout_diff r)) as (-> & ->); [intros; eapply Hl; [by right|done]|intros; apply Hs; by right|done].
Qed.

Lemma waiting_insert l k r ks t : k ∉ ks -> (forall k, k ∈ ks -> is_Some (l !! k)) -> waiting (<[k := r]> l) t ks = waiting l t ks /\ total (<[k := r]> l) t ks = total l t ks.
Proof.
  intros Hk Hs. apply waiting_ext; [|done]. intros j rj Hj Hr. exists rj. split; [|by split_and!]. rewrite list_lookup_insert_ne; [done|]. intros ->. done.
Qed.

Lemma waiting_app l ks1 : forall t ks2, (forall k, k ∈ ks1 -> is_Some (l !! k)) -> waiting l t (ks1 ++ ks2) = waiting l t ks1 ++ waiting l (total l t ks1) ks2.
Proof.
  induction ks1 as [|k ks1 IH]; intros t ks2 Hs; [done|]. cbn [app waiting total]. destruct (Hs k ltac:(left)) as (r & ->). cbn [app]. f_equal. apply IH.
  intros j Hj. apply Hs. by right.
Qed.

Lemma total_mono l ks : forall t, Forall (fun r => 0 <= r_timeout_diff r) l -> t <= total l t ks.
Proof.
  induction ks as [|k ks IH]; intros t Hl; [reflexivity|]. cbn [total]. etransitivity; [|by apply IH].
  destruct (l !! k) as [r|] eqn:E; [|lia]. pose proof (Forall_lookup_1 _ _ _ _ Hl E). cbn in *. lia.
Qed.

Lemma reqs_some l q ks : reqs_ok l q ks -> forall k, k ∈ ks -> is_Some (l !! k).
Proof. intros Hok k Hk. destruct (rseg_lookup _ _ _ _ _ (rq_seg _ _ _ Hok) Hk) as (r & ->). done. Qed.

(** *** A new request *)

Lemma create_loop_spec l q ks id cb arg fuel : forall n,
  reqs_ok l q ks -> (n + fuel)%nat = MQTT_REQ_MAX_IN_FLIGHT -> (forall j, (j < n)%nat -> j ∈ ks) ->
  (exists k r, (k ∉ ks) /\ l !! k = Some r /\ create_loop n fuel l id cb arg = Ok (Some k, <[k := mk_req None cb arg id (r_timeout_diff r)]> l))
  \/ create_loop n fuel l id cb arg = Ok (None, l) /\ forall j, (j < MQTT_REQ_MAX_IN_FLIGHT)%nat -> j ∈ ks.
Proof.
  induction fuel as [|fuel IH]; intros n Hok Hn Hj; [right; split; [done|]; intros j ?; apply Hj; lia|]. cbn [create_loop]. unfold req_at.
  destruct (lookup_lt_is_Some_2 l n) as [r Hr]; [rewrite (rq_len _ _ _ Hok); lia|]. rewrite Hr. cbn [res_bind].
  destruct (decide (n ∈ ks)) as [Hin|Hout].
  - rewrite bool_decide_false by (eapply rseg_next; [apply Hok|apply Hok|done|done]). apply IH; [done|lia|]. intros j Hlt.
    destruct (decide (j = n)) as [->|]; [done|]. apply Hj. lia.
  - rewrite bool_decide_true by (by apply (rq_free _ _ _ Hok)). left. by exists n, r.
Qed.

Lemma create_spec l q ks id cb arg : reqs_ok l q ks ->
  (exists k r, (k ∉ ks) /\ l !! k = Some r /\ mqtt_create_request l id cb arg = Ok (Some k, <[k := mk_req None cb arg id (r_timeout_diff r)]> l))
  \/ mqtt_create_request l id cb arg = Ok (None, l) /\ length ks = MQTT_REQ_MAX_IN_FLIGHT.
Proof.
  intros Hok. destruct (create_loop_spec l q ks id cb arg MQTT_REQ_MAX_IN_FLIGHT 0 Hok eq_refl) as [Hc|(E & Hall)]; [intros; lia|by left|right]. split; [done|].
  transitivity (length (seq 0 MQTT_REQ_MAX_IN_FLIGHT)); [|done]. apply Permutation_length, NoDup_Permutation; [apply Hok|apply NoDup_seq|]. intros k. rewrite elem_of_seq. split.
  - intros Hk. destruct (reqs_some _ _ _ Hok k Hk) as (r & Hr). apply lookup_lt_Some in Hr. rewrite (rq_len _ _ _ Hok) in Hr. lia.
  - intros Hk. apply Hall. lia.
Qed.

(** It is given back. *)
Lemma delete_spec l q ks k r cb arg id d : reqs_ok l q ks -> k ∉ ks -> l !! k = Some r -> 0 <= d ->
  exists l', mqtt_delete_request (<[k := mk_req None cb arg id d]> l) k = Ok l' /\ reqs_ok l' q ks /\ waiting l' 0 ks = waiting l 0 ks.
Proof.
  intros Hok Hk Hr Hd. pose proof (lookup_lt_Some _ _ _ Hr) as Hlt. unfold mqtt_delete_request, upd_request, req_at. rewrite list_lookup_insert_eq by done. cbn [res_bind].
  rewrite list_insert_insert_eq. eexists. split; [done|]. destruct (waiting_insert l k (with_r_next (Some k) (mk_req None cb arg id d)) ks 0 Hk (reqs_some _ _ _ Hok)) as (Ew & Et).
  split; [|done]. destruct Hok as [H1 H2 H3 H4 H5 H6]. split; [by rewrite length_insert|by apply rseg_insert|done| |apply Forall_insert; done|by rewrite Et].
  intros j rj Hj Hn. destruct (decide (j = k)) as [->|Hne]; [rewrite list_lookup_insert_eq in Hj by done; by injection Hj as <-|].
  rewrite list_lookup_insert_ne in Hj by done. by eapply H4.
Qed.

(** It is appended to the queue. *)
Lemma append_loop_spec l ks : forall fuel q head t,
  rseg l q ks None -> (length ks < fuel)%nat -> Forall (fun r => 0 <= r_timeout_diff r) l -> 0 <= t -> total l t ks <= MQTT_REQ_TIMEOUT ->
  append_loop fuel l q head t = Ok (match last ks with Some k => Some k | None => head end, total l t ks).
Proof.
  induction ks as [|k ks IH]; intros fuel q head t Hs Hf Hd Ht Hm; (destruct fuel as [|fuel]; [cbn in Hf; lia|]); cbn [append_loop rseg total] in *; [by rewrite Hs|].
  destruct Hs as (-> & r & Hr & Hs). unfold req_at. rewrite Hr in *. cbn [res_bind]. pose proof (Forall_lookup_1 _ _ _ _ Hd Hr) as Hr0. cbn in Hr0.
  pose proof (total_mono l ks (t + r_timeout_diff r) Hd) as Hmo. unfold MQTT_REQ_TIMEOUT in *.
  replace (s16 (t + r_timeout_diff r)) with (t + r_timeout_diff r) by (unfold s16; rewrite Z.mod_small by lia; lia).
  cbn [length] in Hf. rewrite IH by (done || lia). f_equal. f_equal. by destruct ks; [|rewrite last_cons_cons; destruct (last _) eqn:El; [|apply last_None in El]].
Qed.

Lemma reqs_length l q ks : reqs_ok l q ks -> (length ks <= MQTT_REQ_MAX_IN_FLIGHT)%nat.
Proof.
  intros Hok. transitivity (length (seq 0 MQTT_REQ_MAX_IN_FLIGHT)); [|done]. apply submseteq_length, NoDup_submseteq; [apply Hok|].
  intros k Hk. destruct (reqs_some _ _ _ Hok k Hk) as (r & Hr). apply lookup_lt_Some in Hr. rewrite (rq_len _ _ _ Hok) in Hr. apply elem_of_seq. lia.
Qed.

Lemma reqs_room l q ks k r : reqs_ok l q ks -> k ∉ ks -> l !! k = Some r -> (length ks < MQTT_REQ_MAX_IN_FLIGHT)%nat.
Proof.
  intros Hok Hk Hr. assert (Hsub : k :: ks ⊆+ seq 0 MQTT_REQ_MAX_IN_FLIGHT).
  { apply NoDup_submseteq; [constructor; [done|apply Hok]|]. intros j Hj. apply elem_of_seq. assert (Hs : is_Some (l !! j)).
    { apply elem_of_cons in Hj as [->|Hj]; [by exists r|by apply (reqs_some _ _ _ Hok)]. }
    apply lookup_lt_is_Some_1 in Hs. rewrite (rq_len _ _ _ Hok) in Hs. lia. }
  apply submseteq_length in Hsub. cbn [length] in Hsub. rewrite length_seq in Hsub. lia.
Qed.

(** The list after the request [k] with the contents [R] is linked behind the queue. *)
Definition linked l ks (k : nat) (R : mqtt_request) : list mqtt_request :=
  let l1 := <[k := R]> l in
  match last ks with Some h => match l1 !! h with Some rh => <[h := with_r_next (Some k) rh]> l1 | None => l1 end | None => l1 end.

Lemma length_linked l ks k R : length (linked l ks k R) = length l.
Proof. unfold linked. destruct (last ks) as [h|]; [destruct (<[k:=R]> l !! h)|]; by rewrite !length_insert. Qed.

Lemma linked_spec l q ks k r R : reqs_ok l q ks -> k ∉ ks -> l !! k = Some r -> r_next R = None -> 0 <= r_timeout_diff R -> total l 0 ks + r_timeout_diff R <= MQTT_REQ_TIMEOUT ->
  reqs_ok (linked l ks k R) (match ks with [] => Some k | _ => q end) (ks ++ [k])
  /\ waiting (linked l ks k R) 0 (ks ++ [k]) = waiting l 0 ks ++ [waiting_one (total l 0 ks) R].
Proof.
  intros Hok Hk Hr Hn Hd Ht. pose proof (lookup_lt_Some _ _ _ Hr) as Hlt. pose proof (reqs_some _ _ _ Hok) as Hsome.
  assert (Hlk : linked l ks k R !! k = Some R).
  { unfold linked. destruct (last ks) as [h|] eqn:El; [|by apply list_lookup_insert_eq]. apply last_Some_elem_of in El.
    destruct (<[k:=R]> l !! h); [|by apply list_lookup_insert_eq]. rewrite list_lookup_insert_ne by (intros ->; done). by apply list_lookup_insert_eq. }
  assert (Hext : waiting (linked l ks k R) 0 ks = waiting l 0 ks /\ total (linked l ks k R) 0 ks = total l 0 ks).
  { apply waiting_ext; [|done]. intros j rj Hj Hrj. assert (Hj1 : <[k:=R]> l !! j = Some rj) by (rewrite list_lookup_insert_ne; [done|by intros ->]).
    unfold linked. destruct (last ks) as [h|]; [|by exists rj]. destruct (decide (j = h)) as [->|Hne].
    - rewrite Hj1. exists (with_r_next (Some k) rj). split; [|by split_and!]. apply list_lookup_insert_eq. by apply lookup_lt_Some in Hj1.
    - exists rj. split; [|by split_and!]. destruct (<[k:=R]> l !! h); [by rewrite list_lookup_insert_ne|done]. }
  destruct Hext as (Ew & Et). destruct Hok as [H1 H2 H3 H4 H5 H6]. split.
  2:{ rewrite waiting_app, Ew, Et. cbn [waiting]. by rewrite Hlk. intros j Hj. destruct (Hsome j Hj) as (rj & Hrj). apply lookup_lt_is_Some_2. apply lookup_lt_Some in Hrj. by rewrite length_linked. }
  split.
  - by rewrite length_linked.
  - destruct ks as [|h0 ks0 _] using rev_ind; [cbn; split; [done|]; exists R; by rewrite list_lookup_insert_eq|].
    replace (match ks0 ++ [h0] with [] => Some k | _ => q end) with q by (by destruct ks0). unfold linked. rewrite last_snoc.
    apply rseg_app in H2 as (q' & Hs1 & (-> & rh & Hrh & E)). cbn in E. apply not_elem_of_app in Hk as (Hk0 & Hkh). apply not_elem_of_cons in Hkh as (Hkh & _).
    apply NoDup_app in H3 as (_ & Hd0 & _). assert (Hh0 : h0 ∉ ks0) by (intros Hin; apply (Hd0 _ Hin); left). rewrite list_lookup_insert_ne, Hrh by done.
    rewrite <- app_assoc. apply rseg_app. exists (Some h0). split; [by apply rseg_insert, rseg_insert|]. cbn. split; [done|]. eexists. rewrite list_lookup_insert_eq
      by (rewrite length_insert; by apply lookup_lt_Some in Hrh). split; [done|]. cbn. split; [done|]. exists R. by rewrite list_lookup_insert_ne, list_lookup_insert_eq by done.
  - apply NoDup_app. split_and!; [done| |apply NoDup_singleton]. intros j Hj Hj'. apply list_elem_of_singleton in Hj' as ->. done.
  - intros j rj Hrj Hj. apply not_elem_of_app in Hj as (Hj & Hjk). apply not_elem_of_cons in Hjk as (Hjk & _). apply H4; [|done]. revert Hrj. unfold linked.
    destruct (last ks) as [h|] eqn:El; [apply last_Some_elem_of in El; destruct (<[k:=R]> l !! h); [rewrite list_lookup_insert_ne by (by intros ->)|]|]; by rewrite list_lookup_insert_ne by done.
  - unfold linked. assert (Hf : Forall (fun r => 0 <= r_timeout_diff r) (<[k:=R]> l)) by (by apply Forall_insert). destruct (last ks) as [h|]; [|done].
    destruct (<[k:=R]> l !! h) as [rh|] eqn:E; [|done]. apply Forall_insert; [done|]. exact (Forall_lookup_1 _ _ _ _ Hf E).
  - rewrite time_app, Et. cbn [total]. rewrite Hlk. done.
Qed.

Lemma append_spec l q ks k r cb arg id d : reqs_ok l q ks -> k ∉ ks -> l !! k = Some r -> 0 <= d ->
  exists q' l', mqtt_append_request (<[k := mk_req None cb arg id d]> l) q k = Ok (q', l') /\ reqs_ok l' q' (ks ++ [k])
    /\ waiting l' 0 (ks ++ [k]) = waiting l 0 ks ++ [(id, cb, arg, MQTT_REQ_TIMEOUT)].
Proof.
  intros Hok Hk Hr Hd. pose proof (lookup_lt_Some _ _ _ Hr) as Hlt. set (R0 := mk_req None cb arg id d).
  destruct (waiting_insert l k R0 ks 0 Hk (reqs_some _ _ _ Hok)) as (_ & Et). pose proof (total_mono l ks 0 (rq_time _ _ _ Hok)) as Ht0. pose proof (rq_total _ _ _ Hok) as Ht1.
  unfold mqtt_append_request. rewrite (append_loop_spec _ ks).
  2:{ apply rseg_insert, Hok. done. } 2:{ pose proof (reqs_length _ _ _ Hok). unfold req_fuel. lia. } 2:{ apply Forall_insert; [apply Hok|done]. } 2:{ lia. } 2:{ by rewrite Et. }
  rewrite Et. cbn [res_bind]. rewrite (proj2 (Z.leb_le _ _) Ht1). unfold MQTT_REQ_TIMEOUT in *. rewrite u16_id by (unfold is_u16; lia).
  cbn [lwip_assert res_bind]. unfold upd_request at 1, req_at. rewrite list_lookup_insert_eq by done. cbn [res_bind]. rewrite list_insert_insert_eq.
  set (R := with_r_timeout _ R0). destruct (linked_spec l q ks k r R Hok Hk Hr eq_refl) as (Hok' & Ew); [cbn; lia|cbn; unfold MQTT_REQ_TIMEOUT; lia|].
  exists (match ks with [] => Some k | _ => q end), (linked l ks k R). split; [|split; [done|]].
  - unfold linked. destruct (last ks) as [h|] eqn:El; [|by apply last_None in El as ->]. pose proof (last_Some_elem_of _ _ El) as Hin.
    destruct (reqs_some _ _ _ Hok h Hin) as (rh & Hrh). unfold upd_request, req_at. rewrite list_lookup_insert_ne, Hrh by (by intros ->). cbn [res_bind]. by destruct ks.
  - rewrite Ew. unfold waiting_one. cbn. by replace (total l 0 ks + (30 - total l 0 ks)) with 30 by lia.
Qed.

(** *** A request is answered *)

Lemma take_request_spec l id ks : forall fuel q prev,
  rseg l q ks None -> (length ks < fuel)%nat ->
  match take_req_loop fuel l q prev id with
  | Ok (Some k, p) => exists ks1 ks2 r, ks = ks1 ++ k :: ks2 /\ l !! k = Some r /\ r_pkt_id r = id
      /\ p = match last ks1 with Some h => Some h | None => prev end /\ Forall (fun j => forall r, l !! j = Some r -> r_pkt_id r <> id) ks1
  | Ok (None, _) => Forall (fun j => forall r, l !! j = Some r -> r_pkt_id r <> id) ks
  | Fault _ => False
  end.
Proof.
  induction ks as [|k ks IH]; intros fuel q prev Hs Hf; (destruct fuel as [|fuel]; [cbn in Hf; lia|]); cbn [take_req_loop rseg] in *; [by rewrite Hs|].
  destruct Hs as (-> & r & Hr & Hs). unfold req_at. rewrite Hr. cbn [res_bind]. destruct (Z.eqb_spec (r_pkt_id r) id) as [E|Hne].
  - by exists [], ks, r.
  - cbn [length] in Hf. assert (Hk : forall r', l !! k = Some r' -> r_pkt_id r' <> id) by (rewrite Hr; by intros ? [= <-]).
    specialize (IH fuel (r_next r) (Some k) Hs ltac:(lia)). destruct (take_req_loop fuel l (r_next r) (Some k) id) as [[[j|] p]|]; [|by constructor|done].
    destruct IH as (ks1 & ks2 & r' & -> & Hj & Eid & -> & Hall). exists (k :: ks1), ks2, r'. split_and!; [done|done|done| |by constructor].
    by destruct ks1; [|rewrite last_cons_cons; destruct (last _) eqn:El; [|apply last_None in El]].
Qed.

(** A request is changed, but not its pointer. *)
Lemma rseg_keep l j rj R ks : l !! j = Some rj -> r_next R = r_next rj -> forall q e, rseg l q ks e -> rseg (<[j := R]> l) q ks e.
Proof.
  intros Hj Hn. induction ks as [|k ks IH]; intros q e; cbn [rseg]; [done|]. intros (-> & r & Hr & Hs). split; [done|].
  destruct (decide (k = j)) as [->|Hne]; [|exists r; rewrite list_lookup_insert_ne by done; auto]. rewrite Hj in Hr. injection Hr as <-. exists R.
  rewrite list_lookup_insert_eq by (by apply lookup_lt_Some in Hj). split; [done|]. rewrite Hn. by apply IH.
Qed.

(** The list [l1] after the segment [ks1] was made to end in [e'], from [q1] on. *)
Lemma relink l q ks1 k e' : rseg l q ks1 (Some k) -> NoDup ks1 -> k ∉ ks1 ->
  exists q1 l1, match last ks1 with
                | None => Ok (e', l)
                | Some h => let* l := upd_request l h (with_r_next e') in Ok (q, l)
                end = Ok (q1, l1)
    /\ rseg l1 q1 ks1 e' /\ length l1 = length l /\ (forall j, j ∉ ks1 -> l1 !! j = l !! j)
    /\ (forall j r, l !! j = Some r -> exists r', l1 !! j = Some r' /\ same_info r r').
Proof.
  intros Hs Hd Hk. destruct ks1 as [|h ks0 _] using rev_ind; [exists e', l; split_and!; try done; intros j r Hr; by exists r|]. rewrite last_snoc.
  apply rseg_app in Hs as (q' & Hs0 & (-> & rh & Hrh & _)). unfold upd_request, req_at. rewrite Hrh. cbn [res_bind]. eexists q, _. split; [done|].
  apply NoDup_app in Hd as (_ & Hd & _). assert (Hh : h ∉ ks0) by (intros Hin; apply (Hd _ Hin); left). pose proof (lookup_lt_Some _ _ _ Hrh). split_and!.
  - apply rseg_app. exists (Some h). split; [by apply rseg_insert|]. cbn. split; [done|]. eexists. rewrite list_lookup_insert_eq by done. done.
  - by rewrite length_insert.
  - intros j Hj. apply not_elem_of_app in Hj as (_ & Hj). apply not_elem_of_cons in Hj as (Hj & _). by rewrite list_lookup_insert_ne.
  - intros j r Hr. destruct (decide (j = h)) as [->|]; [|exists r; rewrite list_lookup_insert_ne by done; done]. rewrite Hrh in Hr. injection Hr as <-.
    eexists. rewrite list_lookup_insert_eq by done. done.
Qed.

(** The next request gets the time of the one that is taken out. *)
Lemma pass_time l e ks2 d t : rseg l e ks2 None -> NoDup ks2 -> 0 <= d -> Forall (fun r => 0 <= r_timeout_diff r) l -> 0 <= t -> total l (t + d) ks2 <= MQTT_REQ_TIMEOUT ->
  exists l2, match e with
             | None => Ok l
             | Some j => upd_request l j (fun x => with_r_timeout (u16 (r_timeout_diff x + d)) x)
             end = Ok l2
    /\ rseg l2 e ks2 None /\ length l2 = length l /\ (forall j, j ∉ ks2 -> l2 !! j = l !! j) /\ Forall (fun r => 0 <= r_timeout_diff r) l2
    /\ (forall ks q e', rseg l q ks e' -> rseg l2 q ks e')
    /\ waiting l2 t ks2 = waiting l (t + d) ks2 /\ total l2 t ks2 <= MQTT_REQ_TIMEOUT.
Proof.
  intros Hs Hd Hd0 Hf Ht0 Ht. destruct ks2 as [|j ks2]; cbn in Hs; [subst e; exists l; cbn in *; split_and!; try done; lia|].
  destruct Hs as (-> & r & Hr & Hs). inversion_clear Hd as [|?? Hj Hd']. cbn [total waiting] in *. rewrite Hr in *. pose proof (Forall_lookup_1 _ _ _ _ Hf Hr) as Hr0. cbn in Hr0.
  pose proof (total_mono l ks2 (t + d + r_timeout_diff r) Hf). unfold MQTT_REQ_TIMEOUT in *. pose proof (lookup_lt_Some _ _ _ Hr).
  unfold upd_request, req_at. rewrite Hr. cbn [res_bind]. rewrite u16_id by (unfold is_u16; lia). eexists. split; [done|].
  assert (Hsome : forall k, k ∈ ks2 -> is_Some (l !! k)) by (intros k Hk; destruct (rseg_lookup _ _ _ _ _ Hs Hk) as (rk & ->); done).
  set (R := with_r_timeout _ r). destruct (waiting_insert l j R ks2 (t + (r_timeout_diff r + d)) Hj Hsome) as (Ew & Et). split_and!.
  - split; [done|]. exists R. rewrite list_lookup_insert_eq by done. split; [done|]. by apply rseg_insert.
  - by rewrite length_insert.
  - intros j' Hj'. apply not_elem_of_cons in Hj' as (Hj' & _). by rewrite list_lookup_insert_ne.
  - apply Forall_insert; [done|]. cbn. lia.
  - intros ks q e'. by apply (rseg_keep l j r).
  - rewrite list_lookup_insert_eq by done. unfold waiting_one. cbn [R with_r_timeout r_pkt_id r_cb r_arg r_timeout_diff]. rewrite Ew.
    by replace (t + (r_timeout_diff r + d)) with (t + d + r_timeout_diff r) by lia.
  - rewrite list_lookup_insert_eq by done. cbn [R with_r_timeout r_timeout_diff]. rewrite Et. by replace (t + (r_timeout_diff r + d)) with (t + d + r_timeout_diff r) by lia.
Qed.

Lemma waiting_ids l id ks : forall t,
  Forall (fun j => forall r, l !! j = Some r -> r_pkt_id r <> id) ks -> Forall (fun w : Z * Z * Z * Z => fst (fst (fst w)) <> id) (waiting l t ks).
Proof.
  induction ks as [|k ks IH]; intros t Hk; cbn [waiting]; [done|]. inversion_clear Hk as [|?? Hk0 Hks]. destruct (l !! k) as [r|] eqn:E; [|done].
  constructor; [by apply Hk0|by apply IH].
Qed.

(** The request [k] of [ks1 ++ k :: ks2] is taken out. *)
Lemma unlink_spec l q ks1 k ks2 r : reqs_ok l q (ks1 ++ k :: ks2) -> l !! k = Some r ->
  exists q1 l1 l2, match last ks1 with
                   | None => Ok (r_next r, l)
                   | Some h => let* l := upd_request l h (with_r_next (r_next r)) in Ok (q, l)
                   end = Ok (q1, l1)
    /\ match r_next r with
       | None => Ok l1
       | Some j => upd_request l1 j (fun x => with_r_timeout (u16 (r_timeout_diff x + r_timeout_diff r)) x)
       end = Ok l2
    /\ l2 !! k = Some r /\ reqs_ok (<[k := with_r_next (Some k) r]> l2) q1 (ks1 ++ ks2)
    /\ waiting (<[k := with_r_next (Some k) r]> l2) 0 (ks1 ++ ks2) = waiting l 0 ks1 ++ waiting l (total l 0 ks1 + r_timeout_diff r) ks2.
Proof.
  intros Hok Hr. pose proof (reqs_some _ _ _ Hok) as Hsome. destruct Hok as [H1 H2 H3 H4 H5 H6]. apply rseg_app in H2 as (q' & Hs1 & (-> & r' & Hr' & Hs2)). rewrite Hr in Hr'. injection Hr' as <-.
  apply NoDup_app in H3 as (Hd1 & Hd12 & Hd2). inversion_clear Hd2 as [|?? Hk2 Hd2']. assert (Hk1 : k ∉ ks1) by (intros Hin; apply (Hd12 _ Hin); left).
  assert (Hdis : forall j, j ∈ ks1 -> j ∉ ks2) by (intros j Hj Hin; apply (Hd12 _ Hj); by right).
  destruct (relink l q ks1 k (r_next r) Hs1 Hd1 Hk1) as (q1 & l1 & E1 & Hs1' & Hl1 & Hout1 & Hinfo1). exists q1, l1.
  assert (Hsome1 : forall j, j ∈ ks1 -> is_Some (l !! j)) by (intros j Hj; apply Hsome, elem_of_app; by left).
  assert (Hsome2 : forall j, j ∈ ks2 -> is_Some (l !! j)) by (intros j Hj; apply Hsome, elem_of_app; right; by right).
  destruct (waiting_ext l l1 ks1 0) as (Ew1 & Et1); [intros; by apply Hinfo1|done|]. set (t := total l 0 ks1) in *. pose proof (total_mono l ks1 0 H5) as Ht0. fold t in Ht0.
  destruct (waiting_ext l l1 ks2 (t + r_timeout_diff r)) as (Ew2 & Et2); [intros; by apply Hinfo1|done|]. pose proof (Forall_lookup_1 _ _ _ _ H5 Hr) as Hr0. cbn in Hr0.
  rewrite time_app in H6. cbn [total] in H6. rewrite Hr in H6. fold t in H6. assert (Hf1 : Forall (fun r => 0 <= r_timeout_diff r) l1).
  { apply Forall_lookup_2. intros j rj Hj. destruct (lookup_lt_is_Some_2 l j) as [r0 Hj0]; [rewrite <- Hl1; by apply lookup_lt_Some in Hj|].
    destruct (Hinfo1 j r0 Hj0) as (r1 & Hj1 & _ & _ & _ & E4). rewrite Hj in Hj1. injection Hj1 as <-. rewrite E4. exact (Forall_lookup_1 _ _ _ _ H5 Hj0). }
  assert (Hs2' : rseg l1 (r_next r) ks2 None).
  { clear -Hs2 Hout1 Hdis. revert Hs2. assert (Hag : forall j, j ∈ ks2 -> l1 !! j = l !! j) by (intros j Hj; apply Hout1; intros Hin; by apply (Hdis _ Hin)). clear Hdis Hout1.
    generalize (r_next r). induction ks2 as [|j ks2 IH]; intros e; cbn [rseg]; [done|]. intros (-> & r' & Hr' & Hs). split; [done|]. exists r'. rewrite Hag by left. split; [done|].
    apply IH; [|done]. intros i Hi. apply Hag. by right. }
  destruct (pass_time l1 (r_next r) ks2 (r_timeout_diff r) t Hs2' Hd2' Hr0 Hf1 Ht0) as (l2 & E2 & Hs2'' & Hl2 & Hout2 & Hf2 & Hkeep & Ew3 & Et3); [by rewrite Et2|].
  exists l2. assert (Hk : l2 !! k = Some r) by (rewrite Hout2, Hout1 by done; done). assert (Hkn : k ∉ ks1 ++ ks2) by (rewrite elem_of_app; tauto).
  assert (Hsm : forall j, j ∈ ks1 ++ ks2 -> is_Some (l2 !! j)).
  { intros j Hj. apply lookup_lt_is_Some_2. rewrite Hl2, Hl1. apply lookup_lt_is_Some_1. apply elem_of_app in Hj as [Hj|Hj]; auto. }
  destruct (waiting_insert l2 k (with_r_next (Some k) r) (ks1 ++ ks2) 0 Hkn Hsm) as (Ew4 & Et4).
  destruct (waiting_ext l1 l2 ks1 0) as (Ew5 & Et5);
    [intros j rj Hj Hrj; exists rj; rewrite Hout2 by auto; done|intros j Hj; apply lookup_lt_is_Some_2; rewrite Hl1; apply lookup_lt_is_Some_1; auto|].
  split_and!; [done|done|done|split|].
  - by rewrite length_insert, Hl2, Hl1.
  - apply rseg_insert; [done|]. apply rseg_app. exists (r_next r). split; [by apply Hkeep|done].
  - apply NoDup_app. split_and!; [done|done|done].
  - intros j rj Hrj Hj. destruct (decide (j = k)) as [->|Hne]; [rewrite list_lookup_insert_eq in Hrj by (by apply lookup_lt_Some in Hk); by injection Hrj as <-|].
    apply not_elem_of_app in Hj as (Hj1 & Hj2). rewrite list_lookup_insert_ne, Hout2, Hout1 in Hrj by done. apply H4; [done|]. rewrite elem_of_app, elem_of_cons. tauto.
  - apply Forall_insert; done.
  - by rewrite Et4, time_app, Et5, Et1.
  - rewrite Ew4, waiting_app by (intros j Hj; apply Hsm, elem_of_app; by left). by rewrite Ew5, Et5, Ew1, Et1, Ew3, Ew2.
Qed.

(** An answer completes one request: the first with its identifier is taken out of the queue, all
    others keep their place and the time they have left; without one, nothing changes. *)
Theorem mqtt_take_request_correct l q ks id : reqs_ok l q ks ->
  match mqtt_take_request l q id with
  | Ok (Some k, q', l') => exists w1 w2 cb arg t l2 ks',
      waiting l 0 ks = w1 ++ (id, cb, arg, t) :: w2 /\ Forall (fun w => fst (fst (fst w)) <> id) w1
      /\ (exists r, l' !! k = Some r /\ r_cb r = cb /\ r_arg r = arg)
      /\ mqtt_delete_request l' k = Ok l2 /\ reqs_ok l2 q' ks' /\ waiting l2 0 ks' = w1 ++ w2
  | Ok (None, q', l') => q' = q /\ l' = l /\ Forall (fun w => fst (fst (fst w)) <> id) (waiting l 0 ks)
  | Fault _ => False
  end.
Proof.
  intros Hok. unfold mqtt_take_request. pose proof (reqs_length _ _ _ Hok) as Hlen. pose proof (take_request_spec l id ks req_fuel q None (rq_seg _ _ _ Hok) ltac:(unfold req_fuel; lia)) as Hs.
  destruct (take_req_loop req_fuel l q None id) as [[[k|] p]|]; [|by split_and!; [..|apply waiting_ids]|done].
  destruct Hs as (ks1 & ks2 & r & -> & Hr & Hid & -> & Hall). destruct (unlink_spec l q ks1 k ks2 r Hok Hr) as (q1 & l1 & l2 & E1 & E2 & Hk & Hok' & Ew).
  cbn [res_bind]. unfold req_at at 1. rewrite Hr. cbn [res_bind].
  replace (match match last ks1 with Some h => Some h | None => None end with None => Ok (r_next r, l) | Some h => let* l0 := upd_request l h (with_r_next (r_next r)) in Ok (q, l0) end)
    with (Ok (q1, l1)) by (rewrite <- E1; by destruct (last ks1)).
  cbn [res_bind]. rewrite E2. cbn [res_bind]. unfold upd_request, req_at at 1. rewrite Hk. cbn [res_bind]. pose proof (lookup_lt_Some _ _ _ Hk) as Hlt.
  pose proof (waiting_app l ks1 0 (k :: ks2)) as Ewa. cbn [waiting] in Ewa. rewrite Hr in Ewa. unfold waiting_one in Ewa. rewrite Hid in Ewa.
  eexists _, _, _, _, _, _, _. split_and!; [apply Ewa|by apply waiting_ids|eexists; rewrite list_lookup_insert_eq by done; done| |exact Hok'|exact Ew].
  - intros j Hj. apply (reqs_some _ _ _ Hok), elem_of_app. by left.
  - unfold mqtt_delete_request, upd_request, req_at. rewrite list_lookup_insert_eq by done. cbn [res_bind]. by rewrite list_insert_insert_eq.
Qed.

End Queue.

(** ** PUBLISH *)

Definition publish_body (qos id : Z) (topic d : list Z) : list Z :=
  be16 (Z.of_nat (length topic)) ++ topic ++ (if 0 <? qos then be16 id else []) ++ d.
Definition publish_packet (qos retain id : Z) (topic d : list Z) : list Z :=
  (48 + 2 * qos + retain) :: varint 3 (Z.of_nat (length (publish_body qos id topic d))) ++ publish_body qos id topic d.

Section Publish.
Context {S : Type} `{MqttStream S} `{MqttApp S}.
Implicit Types m : mq S.

Lemma publish_flags qos retain : 0 <= qos <= 2 -> 0 <= retain <= 1 ->
  u8 (Z.lor (Z.lor (Z.lor (Z.shiftl (Z.land MQTT_MSG_TYPE_PUBLISH 15) 4) (Z.shiftl (Z.land 0 1) 3)) (Z.shiftl (Z.land qos 3) 1)) (Z.land retain 1)) = 48 + 2 * qos + retain.
Proof.
  intros Hq Hr. assert (Eq : qos = 0 \/ qos = 1 \/ qos = 2) by lia. assert (Er : retain = 0 \/ retain = 1) by lia.
  by destruct Eq as [->|[->| ->]]; destruct Er as [->| ->].
Qed.

(** The message is written to the ring buffer. *)
Lemma append_publish rb qos retain id topic d :
  rb_ok rb -> 0 <= qos <= 2 -> 0 <= retain <= 1 -> is_u16 id -> Forall is_u8 topic -> Forall is_u8 d ->
  Z.of_nat (length (publish_body qos id topic d)) <= 65535 ->
  mqtt_ringbuf_len rb + Z.of_nat (length (publish_packet qos retain id topic d)) <= 256 ->
  exists f, mqtt_output_append_fixed_header rb MQTT_MSG_TYPE_PUBLISH 0 qos retain (Z.of_nat (length (publish_body qos id topic d))) = Ok (f rb)
    /\ let rb1 := mqtt_output_append_string (f rb) topic (Z.of_nat (length topic)) in
       let rb2 := if 0 <? qos then mqtt_output_append_u16 rb1 id else rb1 in
       let rb3 := if 0 <? Z.of_nat (length d) then mqtt_output_append_buf rb2 d else rb2 in
       rb_ok rb3 /\ rb_data rb3 = rb_data rb ++ publish_packet qos retain id topic d.
Proof.
  intros Hok Hq Hr Hid Ht Hd Hn Hl. set (n := Z.of_nat (length (publish_body qos id topic d))) in *.
  destruct (fixed_header_data MQTT_MSG_TYPE_PUBLISH 0 qos retain n ltac:(lia)) as (f & Ef & Hf). rewrite publish_flags in Hf by done.
  exists f. split; [apply Ef|]. assert (Htl : is_u16 (Z.of_nat (length topic))) by (unfold n, publish_body in Hn; rewrite !length_app in Hn; unfold is_u16; lia).
  pose proof (appends_seq _ _ _ _ Hf (appends_string topic _ Htl Ht)) as Ha.
  assert (Ha2 : appends (fun rb => if 0 <? qos then mqtt_output_append_u16 rb id else rb) (if 0 <? qos then be16 id else [])).
  { destruct (0 <? qos); [by apply appends_u16|]. exact (appends_buf [] ltac:(constructor)). }
  assert (Ha3 : appends (fun rb => if 0 <? Z.of_nat (length d) then mqtt_output_append_buf rb d else rb) d).
  { destruct d as [|x d]; [exact (appends_buf [] ltac:(constructor))|]. exact (appends_buf (x :: d) Hd). }
  destruct (appends_seq _ _ _ _ (appends_seq _ _ _ _ Ha Ha2) Ha3 rb Hok) as (Hok' & Ed & _).
  - unfold publish_packet in Hl. fold n in Hl. unfold publish_body in Hl. cbn [app length] in Hl |- *. rewrite !length_app in Hl |- *. lia.
  - split; [exact Hok'|]. cbv zeta in Ed. rewrite Ed. unfold publish_packet, n, publish_body. by rewrite <- !app_assoc.
Qed.

(** A client that can send: its buffer, its connection and the requests [ks] are in order. *)
Record can_send m (ks : list nat) : Prop := {
  cs_conn : conn (cl m) <> NULL;
  cs_open : is_open (env m) (conn (cl m));
  cs_output : rb_ok (output (cl m));
  cs_reqs : reqs_ok (req_list (cl m)) (pend_req_queue (cl m)) ks
}.

Definition client_stream m : list Z := stream (env m) (conn (cl m)) (output (cl m)).
Definition client_waiting m (ks : list nat) : list (Z * Z * Z * Z) := waiting (req_list (cl m)) 0 ks.

(** What is left to do after the message has been written: the request is queued, the data sent. *)
Lemma queue_and_send m ks k r cb arg id rb bs :
  can_send m ks -> k ∉ ks -> req_list (cl m) !! k = Some r -> rb_ok rb -> rb_data rb = rb_data (output (cl m)) ++ bs ->
  exists m' ks',
    (let* (q, l) := mqtt_append_request (<[k := mk_req None cb arg id (r_timeout_diff r)]> (req_list (cl m))) (pend_req_queue (cl m)) k in
     let m1 := upd_cl (fun c => set_pend_req_queue q (set_req_list l (set_output rb c))) m in
     let* m1 := mqtt_output_send m1 (conn (cl m1)) in Ok (ERR_OK, m1)) = Ok (ERR_OK, m')
    /\ can_send m' ks' /\ client_stream m' = client_stream m ++ bs /\ client_waiting m' ks' = client_waiting m ks ++ [(id, cb, arg, MQTT_REQ_TIMEOUT)]
    /\ conn_state (cl m') = conn_state (cl m) /\ conn (cl m') = conn (cl m).
Proof.
  intros [Hc Ho Hok Hrq] Hk Hr Hrb Ed. pose proof (Forall_lookup_1 _ _ _ _ (rq_time _ _ _ Hrq) Hr) as Hr0. cbn in Hr0.
  destruct (append_spec _ _ ks k r cb arg id (r_timeout_diff r) Hrq Hk Hr Hr0) as (q & l & -> & Hrq' & Ew). cbn [res_bind]. set (m1 := upd_cl _ m).
  destruct (output_send_spec m1 (conn (cl m1)) Hrb Ho Hc) as (rb' & s' & -> & Hrb' & Ho' & Es). cbn [res_bind]. eexists _, (ks ++ [k]).
  split; [done|]. split; [by split|]. split_and!; [|done|done|done]. unfold client_stream. cbn [cl env output set_output conn] in *. etransitivity; [exact Es|].
  unfold stream. cbn. by rewrite Ed, app_assoc.
Qed.

(** [mqtt_publish] on a connected client, for a message whose length does not wrap. *)
Lemma publish_connected m ks topic d qos retain cb arg :
  can_send m ks -> conn_state (cl m) <> TCP_DISCONNECTED -> 0 <= qos <= 2 -> 0 <= retain <= 1 -> Forall is_u8 topic -> Forall is_u8 d ->
  let id := if 0 <? qos then fst (msg_generate_packet_id m) else 0 in
  Z.of_nat (length (publish_body qos id topic d)) <= 65531 ->
  let packet := publish_packet qos retain id topic d in
  let fits := bool_decide (length ks < MQTT_REQ_MAX_IN_FLIGHT)%nat && (Z.of_nat (length packet) <=? 256 - mqtt_ringbuf_len (output (cl m))) in
  exists m' ks', mqtt_publish m topic (Some d) (Z.of_nat (length d)) qos retain cb arg = Ok (if fits then ERR_OK else ERR_MEM, m')
    /\ can_send m' ks' /\ conn_state (cl m') = conn_state (cl m)
    /\ client_stream m' = client_stream m ++ (if fits then packet else [])
    /\ client_waiting m' ks' = client_waiting m ks ++ (if fits then [(id, cb, arg, MQTT_REQ_TIMEOUT)] else []).
Proof.
  intros Hcs Hst Hq Hre Ht Hd id Hn packet fits. set (n := Z.of_nat (length (publish_body qos id topic d))) in *.
  assert (En : n = 2 + Z.of_nat (length topic) + Z.of_nat (length d) + (if 0 <? qos then 2 else 0)).
  { unfold n, publish_body. rewrite !length_app. destruct (0 <? qos); cbn [length be16]; lia. }
  unfold mqtt_publish. rewrite bool_decide_false by done. rewrite (proj2 (Z.ltb_ge (65535 - 2) _)) by (destruct (0 <? qos); lia). rewrite (u16_id (Z.of_nat (length topic))) by (unfold is_u16; destruct (0 <? qos); lia).
  rewrite (proj2 (Z.ltb_ge 65535 _)) by (destruct (0 <? qos); lia). rewrite (u16_id (2 + _ + _)) by (unfold is_u16; destruct (0 <? qos); lia).
  assert (Hid : is_u16 id). { unfold id. destruct (0 <? qos); [|done]. cbn. destruct (_ =? 0); apply u16_range. }
  set (m0 := if 0 <? qos then snd (msg_generate_packet_id m) else m).
  replace (if 0 <? qos then _ else _) with (n, (id, m0)).
  2:{ rewrite En. unfold id, m0. destruct (0 <? qos); [rewrite u16_id by (unfold is_u16; lia)|]; f_equal; lia. }
  assert (Hcs0 : can_send m0 ks) by (unfold m0; destruct Hcs; destruct (0 <? qos); by split).
  assert (E0 : client_stream m0 = client_stream m /\ client_waiting m0 ks = client_waiting m ks /\ output (cl m0) = output (cl m) /\ conn_state (cl m0) = conn_state (cl m)).
  { unfold m0. by destruct (0 <? qos). }
  destruct E0 as (Es0 & Ew0 & Eo0 & Ec0). rewrite <- Es0, <- Ew0, <- Ec0. unfold fits. rewrite <- Eo0. clearbody m0. clear fits Es0 Ew0 Eo0 Ec0.
  destruct (create_spec _ _ ks id cb arg (cs_reqs _ _ Hcs0)) as [(k & r & Hk & Hr & ->)|(-> & E4)]; cbn [res_bind].
  2:{ rewrite bool_decide_false by lia. cbn [andb]. exists (upd_cl (set_req_list (req_list (cl m0))) m0), ks. destruct Hcs0. split_and!; try done; by rewrite app_nil_r. }
  assert (Hlen : (length ks < MQTT_REQ_MAX_IN_FLIGHT)%nat) by (eapply reqs_room; [apply Hcs0|done|done]).
  rewrite bool_decide_true by done. cbn [andb]. set (m1 := upd_cl _ m0). rewrite check_space_data by (destruct (0 <? qos); lia). cbn [res_bind].
  replace (1 + n + Z.of_nat (length (varint 3 n))) with (Z.of_nat (length packet)) by (unfold packet, publish_packet; fold n; cbn [length]; rewrite length_app; lia).
  change (output (cl m1)) with (output (cl m0)). destruct (Z.leb_spec (Z.of_nat (length packet)) (256 - mqtt_ringbuf_len (output (cl m0)))) as [Hfit|Hfull]; cbn [negb].
  - destruct (append_publish (output (cl m0)) qos retain id topic d (cs_output _ _ Hcs0) Hq Hre Hid Ht Hd ltac:(lia) ltac:(fold packet; lia)) as (f & Ef & Hrb & Erb).
    fold n in Ef. rewrite Ef. cbn [res_bind]. destruct (queue_and_send m0 ks k r cb arg id _ packet Hcs0 Hk Hr Hrb Erb) as (m' & ks' & E & Hcs' & E1 & E2 & E3 & E4).
    exists m', ks'. split; [|by split_and!]. rewrite <- E. done.
  - pose proof (Forall_lookup_1 _ _ _ _ (rq_time _ _ _ (cs_reqs _ _ Hcs0)) Hr) as Hr0. cbn in Hr0.
    destruct (delete_spec _ _ ks k r cb arg id (r_timeout_diff r) (cs_reqs _ _ Hcs0) Hk Hr Hr0) as (l' & E & Hrq & Ew). change (req_list (cl m1)) with (<[k := mk_req None cb arg id (r_timeout_diff r)]> (req_list (cl m0))).
    rewrite E. cbn [res_bind]. exists (upd_cl (set_req_list l') m1), ks. rewrite !app_nil_r. destruct Hcs0. by split_and!.
Qed.

(** C17: [mqtt_publish].  Without a connection it returns ERR_CONN, and ERR_ARG if the topic is longer
    than 65533 bytes or topic and data are longer than 65533 bytes together; nothing changes then.  Otherwise, for
    messages whose remaining length is at most 65531 bytes: if a request is free and the ring buffer
    has room for the whole message, the PUBLISH follows what the client has sent before, and a request for its
    identifier waits for the answer; otherwise ERR_MEM is returned, nothing is sent and nothing waits.  (For
    a remaining length of 65532 to 65537 the 16-bit lengths of the code wrap, see [space_wraps] and [publish_wraps].) *)
Theorem mqtt_publish_correct m ks topic d qos retain cb arg :
  can_send m ks -> 0 <= qos <= 2 -> 0 <= retain <= 1 -> Forall is_u8 topic -> Forall is_u8 d ->
  let id := if 0 <? qos then fst (msg_generate_packet_id m) else 0 in
  let packet := publish_packet qos retain id topic d in
  let fits := bool_decide (length ks < MQTT_REQ_MAX_IN_FLIGHT)%nat && (Z.of_nat (length packet) <=? 256 - mqtt_ringbuf_len (output (cl m))) in
  let run := mqtt_publish m topic (Some d) (Z.of_nat (length d)) qos retain cb arg in
  if bool_decide (conn_state (cl m) = TCP_DISCONNECTED) then run = Ok (ERR_CONN, m)
  else if (65533 <? Z.of_nat (length topic)) || (65533 <? Z.of_nat (length topic) + Z.of_nat (length d)) then run = Ok (ERR_ARG, m)
  else Z.of_nat (length (publish_body qos id topic d)) <= 65531 ->
    exists m' ks', run = Ok (if fits then ERR_OK else ERR_MEM, m')
      /\ can_send m' ks' /\ conn_state (cl m') = conn_state (cl m)
      /\ client_stream m' = client_stream m ++ (if fits then packet else [])
      /\ client_waiting m' ks' = client_waiting m ks ++ (if fits then [(id, cb, arg, MQTT_REQ_TIMEOUT)] else []).
Proof.
  intros Hcs Hq Hre Ht Hd. cbv zeta. destruct (bool_decide (conn_state (cl m) = TCP_DISCONNECTED)) eqn:Ec.
  { unfold mqtt_publish. by rewrite Ec. }
  destruct (_ || _) eqn:El; [|intros Hn; apply publish_connected; try done; exact (proj1 (bool_decide_eq_false _) Ec)].
  unfold mqtt_publish. rewrite Ec. change (65535 - 2) with 65533.
  destruct (Z.ltb_spec 65533 (Z.of_nat (length topic))); [done|]. cbn [orb] in El. apply Z.ltb_lt in El.
  rewrite u16_id by (unfold is_u16; lia). by rewrite (proj2 (Z.ltb_lt 65535 _)) by lia.
Qed.

End Publish.

(** ** Examples *)

#[export] Instance sim_stream : MqttStream world.
Proof.
  refine {| is_open w _ := 0 <= room w; written w _ := sent w |}.
  - intros w pcb Hw. by exists (room w).
  - intros w pcb d f Hw. cbn. destruct (Z.leb_spec (Z.of_nat (length d)) (room w)); eexists _, _; (split; [reflexivity|]); cbn; split; [lia|done|lia|done].
  - intros w pcb Hw. by exists w.
Defined.

Lemma online_can_send : can_send online_client [].
Proof.
  split; [vm_compute; discriminate|vm_compute; discriminate| |].
  - split; [vm_compute; reflexivity|vm_compute; split; congruence|vm_compute; split; congruence|vm_compute; discriminate].
  - split; [vm_compute; reflexivity|vm_compute; reflexivity|constructor| | |vm_compute; discriminate].
    + intros k r Hr _. vm_compute in Hr. do 4 (destruct k as [|k]; [by injection Hr as <-|]). destruct k; discriminate.
    + vm_compute. repeat constructor; discriminate.
Qed.

(** 104 105 under the topic 97 98, with QoS 1: the message is sent, and a request with identifier 1 waits. *)
Lemma mqtt_publish_correct_witness :
  exists m' ks', mqtt_publish online_client [97; 98] (Some [104; 105]) 2 1 0 5 6 = Ok (ERR_OK, m')
    /\ client_stream m' = client_stream online_client ++ [50; 8; 0; 2; 97; 98; 0; 1; 104; 105]
    /\ client_waiting m' ks' = [(1, 5, 6, 30)].
Proof.
  assert (Hu : forall l, bool_decide (Forall is_u8 l) = true -> Forall is_u8 l) by (intros l; apply bool_decide_eq_true).
  pose proof (mqtt_publish_correct online_client [] [97; 98] [104; 105] 1 0 5 6 online_can_send ltac:(lia) ltac:(lia)
    (Hu [97; 98] ltac:(vm_compute; reflexivity)) (Hu [104; 105] ltac:(vm_compute; reflexivity))) as P.
  cbv zeta in P. assert (Eb : bool_decide (conn_state (cl online_client) = TCP_DISCONNECTED) = false) by (vm_compute; reflexivity).
  rewrite Eb in P. change (_ || _) with false in P. destruct P as (m' & ks' & E & _ & _ & Es & Ew).
  - vm_compute. discriminate.
  - exists m', ks'. split; [exact E|]. split; [exact Es|exact Ew].
Defined.

(** Two requests, sent one after the other; the first is answered. *)
Definition two_requests : res (mq world) :=
  let* (_, m) := mqtt_publish online_client [97] None 0 1 0 5 6 in
  let* (_, m) := mqtt_publish m [98] None 0 2 0 7 8 in Ok m.

Definition two_client : mq world := match two_requests with Ok m => m | Fault _ => idle end.

Lemma mqtt_take_request_correct_witness :
  let l := req_list (cl two_client) in let q := pend_req_queue (cl two_client) in
  waiting l 0 [0%nat; 1%nat] = [(1, 5, 6, 30); (2, 7, 8, 30)]
  /\ match mqtt_take_request l q 1 with
     | Ok (Some k, q', l') => exists w1 w2 cb arg t l2 ks',
         waiting l 0 [0%nat; 1%nat] = w1 ++ (1, cb, arg, t) :: w2 /\ Forall (fun w => fst (fst (fst w)) <> 1) w1
         /\ (exists r, l' !! k = Some r /\ r_cb r = cb /\ r_arg r = arg)
         /\ mqtt_delete_request l' k = Ok l2 /\ reqs_ok l2 q' ks' /\ waiting l2 0 ks' = w1 ++ w2
     | Ok (None, q', l') => q' = q /\ l' = l /\ Forall (fun w => fst (fst (fst w)) <> 1) (waiting l 0 [0%nat; 1%nat])
     | Fault _ => False
     end.
Proof.
  split; [vm_compute; reflexivity|]. apply (mqtt_take_request_correct _ _ [0%nat; 1%nat] 1). split.
  - vm_compute; reflexivity.
  - split; [vm_compute; reflexivity|]. eexists. split; [vm_compute; reflexivity|]. split; [vm_compute; reflexivity|]. eexists. split; vm_compute; reflexivity.
  - apply (bool_decide_unpack _). vm_compute. exact I.
  - intros k r Hr Hk. vm_compute in Hr. do 2 (destruct k as [|k]; [exfalso; apply Hk; set_solver|]). do 2 (destruct k as [|k]; [by injection Hr as <-|]). destruct k; discriminate.
  - vm_compute. repeat constructor; discriminate.
  - vm_compute. discriminate.
Defined.
