(* ===== verification/MqttExamples.v ===== *)
(** * The MQTT client at work: runs of lwip/src/apps/mqtt/mqtt.c

    Sessions with a server, and messages that the code does not handle as it should. *)

From S2P Require Import Prelude Mqtt MqttSim.

Definition run (r : res (mq world)) : option (list event) := match r with Ok m => Some (events (env m)) | Fault _ => None end.

(** ** A session *)

(** SUBSCRIBE, its SUBACK, a message of the topic, and a PING after the time of the keep-alive. *)
Definition session : res (mq world) :=
  let* m := online in
  let* (_, m) := mqtt_sub_unsub m [97] 1 5 6 true in
  let* (_, m) := mqtt_parse_incoming m [144; 3; 0; 1; 1; 48; 4; 0] in
  let* (_, m) := mqtt_parse_incoming m [1; 97; 42] in
  let m := upd_cl (set_cyclic_tick 12) m in
  let* m := mqtt_cyclic_timer 5 m in
  let* (_, m) := mqtt_tcp_poll_cb m (conn (cl m)) in
  mqtt_disconnect m.

Example session_run :
  run session = Some [Timer true; Connected 0; Requested 6 ERR_OK; Published [97] 1; Received [42] 1; Timer true; Closed; Timer false]
  /\ match session with Ok m => drop 16 (sent (env m)) = [130; 6; 0; 1; 0; 1; 97; 1; 192; 0] | Fault _ => False end.
Proof. vm_compute. split; reflexivity. Qed.

(** A message that is longer than the buffer is given to the application in pieces. *)
Example long_message :
  match (let* m := online in mqtt_parse_incoming m ([48; 155; 1; 0; 1; 97] ++ replicate 152 7)) with
  | Ok (_, m) => drop 2 (events (env m)) = [Published [97] 152; Received (replicate 122 7) 0; Received (replicate 30 7) 1]
  | Fault _ => False
  end.
Proof. vm_compute. reflexivity. Qed.

(** The ring buffer is sent in two parts when it wraps around. *)
Example wrap_around :
  match (let* m := online in
         let m := upd_cl (set_output (mk_ringbuf 254 254 (replicate 256 0))) m in
         mqtt_publish m [97] (Some [1; 2]) 2 0 0 NULL 0) with
  | Ok (e, m) => e = ERR_OK /\ drop 16 (sent (env m)) = [48; 5; 0; 1; 97; 1; 2] /\ mqtt_ringbuf_len (output (cl m)) = 0
  | Fault _ => False
  end.
Proof. vm_compute. split_and!; reflexivity. Qed.

(** ** What goes wrong *)

(** The length of a topic is not compared with that of the message: the topic ends outside of the buffer. *)
Example topic_overread : (let* m := online in mqtt_parse_incoming m [48; 2; 1; 44]) = Fault FBadAccess.
Proof. vm_compute. reflexivity. Qed.

(** The length of a message may have any number of digits: the value is shifted by more than its width. *)
Example length_overlong : (let* m := online in mqtt_parse_incoming m [48; 128; 128; 128; 128; 128; 128; 0]) = Fault FBadAccess.
Proof. vm_compute. reflexivity. Qed.

(** A message without data is handled with the data of the one before: a PUBACK of length 0 answers the
    request 1, because these bytes are still in the buffer. *)
Example stale_puback :
  match (let* m := online in
         let* (_, m) := mqtt_publish m [97] None 0 1 0 5 6 in
         let* (_, m) := mqtt_parse_incoming m [208; 2; 0; 1] in
         mqtt_parse_incoming m [64; 0]) with
  | Ok (r, m) => r = MQTT_CONNECT_ACCEPTED /\ events (env m) = [Timer true; Connected 0; Requested 6 ERR_OK] /\ pend_req_queue (cl m) = None
  | Fault _ => False
  end.
Proof. vm_compute. split_and!; reflexivity. Qed.

(** A message for which no callback has been set. *)
Example no_data_callback :
  (let* m := online in mqtt_parse_incoming (mqtt_set_inpub_callback m NULL NULL 0) [48; 4; 0; 1; 97; 42]) = Fault FBadAccess.
Proof. vm_compute. reflexivity. Qed.

(** A length of 65535 bytes passes the test for space in an empty buffer of 256 bytes. *)
Example space_wraps : mqtt_output_check_space (output client_zero) 65535 = Ok true /\ mqtt_output_check_space (output client_zero) 65531 = Ok false.
Proof. vm_compute. split; reflexivity. Qed.

(** With the packet identifier, a remaining length of 65534 becomes 0: a message of 65538 bytes is
    accepted, and two bytes of its data are sent. *)
Example publish_wraps :
  match (let* m := online in mqtt_publish m [97] (Some (replicate (Z.to_nat 65531) 7)) 65531 1 0 NULL 0) with
  | Ok (e, m) => e = ERR_OK /\ drop 16 (sent (env m)) = [7; 7]
  | Fault _ => False
  end.
Proof. vm_compute. split; reflexivity. Qed.

(** A will with an empty topic: the flag and the length announce it, but it is not there. *)
Example empty_will_topic :
  match mqtt_client_connect idle 16777343 1883 7 0 (mk_info [108] None None 60 (Some []) (Some [33]) 0 0) with
  | Ok (e, m) => e = ERR_OK /\ take (Z.to_nat (rb_put (output (cl m)))) (rb_buf (output (cl m))) = [16; 18; 0; 4; 77; 81; 84; 84; 4; 6; 0; 60; 0; 1; 108]
  | Fault _ => False
  end.
Proof. vm_compute. split; reflexivity. Qed.

(** Of two requests of the same time only the first expires with the timer. *)
Fixpoint ticks (n : nat) (m : mq world) : res (mq world) := match n with O => Ok m | S n' => let* m := mqtt_cyclic_timer 5 m in ticks n' m end.

Example second_expires_late :
  match (let* m := online in
         let* (_, m) := mqtt_publish m [97] None 0 1 0 5 6 in
         let* (_, m) := mqtt_publish m [97] None 0 1 0 5 7 in
         ticks 6 m) with
  | Ok m => List.filter (fun e => match e with Requested _ _ => true | _ => false end) (events (env m)) = [Requested 6 ERR_TIMEOUT]
            /\ match mqtt_cyclic_timer 5 m with
               | Ok m => List.filter (fun e => match e with Requested _ _ => true | _ => false end) (events (env m)) = [Requested 6 ERR_TIMEOUT; Requested 7 ERR_TIMEOUT]
               | Fault _ => False
               end
  | Fault _ => False
  end.
Proof. vm_compute. split; reflexivity. Qed.

(** The name of the user and the password have no effect. *)
Example no_credentials : forall u p : list Z,
  mqtt_client_connect idle 16777343 1883 7 0 (mk_info [108] (Some u) (Some p) 60 None None 0 0) = mqtt_client_connect idle 16777343 1883 7 0 (mk_info [108] None None 60 None None 0 0).
Proof. reflexivity. Qed.
